(* ===== verification/_CoqProject ===== *)
-Q . S2P
Prelude.v
Memory.v
Mm.v
MmSpec.v
MmProof.v
MmRefine.v
MmTheorems.v
Dlist.v
DlistTheorems.v
CList.v
Palloc.v
Umalloc.v
Sched.v
SchedSpec.v
SchedProof.v
SchedTheorems.v
SchedBlock.v
SchedThread.v
SchedNew.v
SchedStart.v
Context.v
SchedWitness.v
Crc.v
Ringbuffer.v
Frame.v
Hardware.v
BootHardware.v
Nvic.v
Gpio.v
Clock.v
ClockTheorems.v
Drivers.v
Button.v
Usart.v
Cache.v
Mpu.v
Mmc.v
MmcTheorems.v
SdProtocol.v
SdTheorems.v
Spinlock.v
Sprint.v
Console.v
BootDrivers.v
BootIface.v
Gmac.v
Syscall.v
Flash.v
Bootloader.v
BootProof.v
BootSession.v
BootTheorems.v
KernelFlash.v
Fault.v
FrameHw.v
Fat32.v
Fat32Proof.v
Fat32Theorems.v
SdDriver.v
SdWitness.v
SdFat.v
Linker.v
LinkerTheorems.v
LinkerWitness.v
UsbHw.v
UsbHc.v
Usb.v
UsbTheorems.v
UsbDescriptors.v
UsbTree.v
UsbParse.v
Game.v
Startup.v
KernelMain.v
BootGeneric.v
