(* ===== verification/Prelude.v ===== *)
(** * Vanilla: a verification development for the Vanilla operating system

    Vanilla is a small operating system for a Cortex-M7 microcontroller.  [src/kernel/src]
    is the kernel: a memory core with allocators on top, a scheduler with four classes, a
    FAT32 file system over an SD card driver, a USB host stack, the loader of applications
    and the drivers.  [src/bootloader/src] is the bootloader, which receives a kernel over a
    serial line, programs the flash memory and starts the kernel.  Paths below are relative
    to these two directories.

    ** How the code is modelled

    A function of the sources is a command [M S A]: from a state of type [S] it returns a
    value and a state ([Ret]), calls [panic] and never returns ([Panic]), runs into
    undefined behaviour ([UB]: a NULL or wild pointer, a division by zero, an index out of
    range), or has spent the fuel of the model ([Hang]).  Unsigned integers are [Z] with the
    wrap-around of their width written out ([u8] to [u64]).  Memory is a map from addresses
    to bytes (Memory.v); structures that are only reached by pointers are records in maps by
    address.  Peripherals are a device type with the class [Mmio]: reading a register may
    change the device, and theorems hold for every device or for those that obey stated laws.

    ** Parts

    - Prelude.v: outcomes, the monad and its rules, [safe] commands and their automation, machine
      integers, little-endian byte lists, masks and bits.
    - Memory.v (generic/memory.c): loads, stores, copy, compare, fill and C strings.
    - Mm.v (mm/mm.c), MmSpec.v, MmProof.v, MmRefine.v, MmTheorems.v: the memory core.  The free
      list of every memory lies in the bytes; [mm_inv] relates it to a list of blocks that tile
      the memory, and [mm_alloc] and [mm_free] refine first-fit and coalescing on that list.
    - Palloc.v (mm/pmalloc.c, mm/bmalloc.c): pages and bytes.  The class [PageAlloc] (with
      [ByteAlloc]) is what the clients rely on; [mm_pages] shows the memory core provides it.
    - Umalloc.v (mm/umalloc.c): blocks of one size with a bitmap, over any [PageAlloc].
    - Dlist.v, DlistTheorems.v (kernel/dlist.c) and CList.v (kernel/list.h): the linked lists,
      over a store of nodes, related to sequences.
    - Sched.v (kernel/scheduler.c, thread.c, rt.c, app.c, background.c, idle.c), SchedSpec.v,
      SchedProof.v, SchedTheorems.v, SchedBlock.v, SchedThread.v, SchedNew.v, SchedStart.v, SchedWitness.v:
      run queues, the tick handler, sleeping, blocking, creation and end of threads, and the start.
      Context.v (kernel/context.s) has the context switch, instruction by instruction.
      [sched_inv] relates the queues to sequences of threads.
    - Spinlock.v (kernel/spinlock.h, cpu/exclusive.h): the lock as a step relation on its
      instructions, for any interleaving of threads.
    - Crc.v, Ringbuffer.v, Sprint.v (generic/crc.c, ringbuffer.c, sprint.c) and Frame.v
      (bootloader frame.c, kernel/bootloader.c): the serial protocol and formatted output.
    - Flash.v, Bootloader.v, BootProof.v, BootSession.v, BootTheorems.v (bootloader
      drivers/flash.c, drivers/hash.c, bootloader.c, main.c): programming, the set-up, the decision
      what to start and the hand-over to the kernel on the registers, and serving the commands of
      a download, over the classes [FlashCtrl] and
      [HashEngine] with the laws [FlashLaws] and [HashLaws].
    - Fat32.v, Fat32Proof.v, Fat32Theorems.v (disk/fat32.c, disk_io.c): volumes, the sector
      buffer, the allocation table, directories and files over the class [SdCard].
    - Hardware.v, BootHardware.v (cpu/hardware.h of both programs): register layouts and
      addresses, and the class [Mmio].
    - Gpio.v, Clock.v, Cache.v, Mpu.v, Mmc.v, MmcTheorems.v (drivers/gpio.c, clock.c, mmc.c,
      mm/cache.c, mm/mpu.c, board/led.c), Nvic.v (cpu/nvic.h), Drivers.v (watchdog, systick, matrix,
      dram, trand and prand), KernelFlash.v (drivers/flash.c, hash.c), Gmac.v (drivers/gmac.c,
      board/ethernet.c): drivers as the accesses they make.  ClockTheorems.v runs the clock set-up of
      the kernel on plain registers; BootDrivers.v has the bootloader's own drivers, and
      BootGeneric.v its formatted output.
    - Usart.v, Console.v (drivers/usart.c, board/print.c, serial.c): the serial ports and printing,
      over a port with the laws [UartLaws].  BootIface.v and FrameHw.v join the serial protocol of Frame.v with the
      ports, timers and printing it runs on.
    - Fault.v (kernel/fault.c, generic/panic.c), Syscall.v (kernel/syscall.c, svc.s), Button.v
      (board/button.c): exceptions, panics, system calls, and the button's callbacks.
    - Startup.v (kernel/kernel_entry.c, board/usb_host.c) and KernelMain.v (main.c): the components on
      one machine, started in the order of [kernel_entry], and the program on top of them.
    - Game.v (apps/tictactoe/src/game.c): the example application, on the system calls.
    - SdProtocol.v, SdTheorems.v, SdDriver.v, SdWitness.v, SdFat.v (disk/sd_protocol.c): the card
      protocol; with a card that obeys [CardLaws] the driver is an [SdCard], so that the file
      system's theorems hold over the driver.
    - Linker.v, LinkerTheorems.v, LinkerWitness.v (kernel/dynamic_linker.c, run.c, misc/fpi.c):
      relocation of an image and the start of its thread.
    - UsbHw.v, UsbHc.v, Usb.v (drivers/usbhw.h, usbhc.c, usb/usb.c, usb/drivers/usb_hid.c),
      UsbTheorems.v, UsbDescriptors.v, UsbTree.v, UsbParse.v: the host controller's driver,
      enumeration and the descriptors of a device.

    ** What the theorems show

    Memory: every allocation is a block of its own inside its memory (and large enough, unless the
    request wraps in 32 bits), first-fit and coalescing as specified, freeing undoes allocating, no operation runs into undefined behaviour.
    Scheduling: the tick handler keeps the queues, always picks a thread of the highest class that
    has one, sleeping threads wake in order of their time, and a thread does not see that it is switched
    out and in.  Locks: at most one thread is
    in the critical section, in every interleaving.  Serial protocol: what is sent is received,
    and the receiver stays in a consistent state unless a frame announces more than 512 bytes.  Bootloader: a kernel is started only
    if its digest is the stored one, a download installs exactly the image it was sent, a page
    that does not read back is never reported as written.  File system: the sector buffer is
    coherent, the table reads back what was set, reading a file gives its bytes up to the end of its last cluster; over the
    card driver files can be read but nothing can be written.  Drivers: termination, the accesses and
    their values, every clock within its limits while the speed is raised, agreement of the two programs' copies.
    Exceptions: what a fault prints, a panic ends in the bootloader, a system call reaches its function with
    its arguments.  Start: with interrupts masked every component is set up and its
    invariant holds; the first threads are made and the scheduler starts in a consistent state; the button
    blocks and unblocks the thread it is meant for.  Applications: the
    relocated tables and the thread that runs the image; the game refuses illegal moves and finds
    the winner.  USB: which pipe is served, what the check of descriptors
    accepts, and that parsing an answer gives
    back the tree of configurations, interfaces and endpoints it was made from.
    Theorems state the behaviour of the code as it is, its defects included.

    ** Fuel

    Loops without a structural measure take fuel.  [mm_fuel] exceeds the number of blocks any
    memory can have; every other theorem about a loop says which fuel is enough (usually the
    length of the list or the number of blocks it walks) or quantifies over all fuel.  Polling
    loops end when the device answers, which the theorems assume of it ([polls], [CardLaws]).

    ** Not modelled

    Text printed for debugging inside components (memory core, scheduler, USB, file system), with
    usb_debug.c, usb_strings.c and the status printers of fat32.c, which do nothing else; the console itself, the
    version text and the fault reports are modelled.  The assembly of the reset (entry.s) and the one-instruction register readers of
    cpu.h, which have no meaning without a model of the whole processor.  [print_thread] and
    [idle_thread], loops that never return.  The benchmarks, which only measure time; the template application and
    the start-up code of applications, which is data for the linker script; the host tools, in other languages;
    the network stack, whose files are empty.  Declarations of functions and registers that
    nothing uses. *)

From stdpp Require Export base tactics numbers list gmap strings.
From Stdlib Require Export ZArith Lia.

#[global] Open Scope Z_scope.

(** [lia] also sees through division and remainder by constants. *)
Ltac Zify.zify_post_hook ::= Z.to_euclidean_division_equations.

Declare Scope vanilla_scope.
Delimit Scope vanilla_scope with vanilla.
#[global] Open Scope vanilla_scope.

(** ** Machine integers

    An unsigned C integer is a [Z]; storing a value into an object of width [w]
    reduces it modulo [2^w].  Every arithmetic operation of the sources whose
    result is stored in a [u8], [u16], [u32] or [u64] is wrapped explicitly. *)

Definition u8 (x : Z) : Z := x mod 256.
Definition u16 (x : Z) : Z := x mod 65536.
Definition u32 (x : Z) : Z := x mod 4294967296.
Definition u64 (x : Z) : Z := x mod 18446744073709551616.

Lemma u8_range x : 0 ≤ u8 x < 256.
Proof. unfold u8. lia. Qed.
Lemma u16_range x : 0 ≤ u16 x < 65536.
Proof. unfold u16. lia. Qed.
Lemma u32_range x : 0 ≤ u32 x < 4294967296.
Proof. unfold u32. lia. Qed.
Lemma u64_range x : 0 ≤ u64 x < 18446744073709551616.
Proof. unfold u64. lia. Qed.

Lemma u8_small x : 0 ≤ x < 256 → u8 x = x.
Proof. apply Z.mod_small. Qed.
Lemma u16_small x : 0 ≤ x < 65536 → u16 x = x.
Proof. apply Z.mod_small. Qed.
Lemma u32_small x : 0 ≤ x < 4294967296 → u32 x = x.
Proof. apply Z.mod_small. Qed.
Lemma u64_small x : 0 ≤ x < 18446744073709551616 → u64 x = x.
Proof. apply Z.mod_small. Qed.

Lemma u32_idemp x : u32 (u32 x) = u32 x.
Proof. apply u32_small, u32_range. Qed.
Lemma u32_add_l x y : u32 (u32 x + y) = u32 (x + y).
Proof. apply Zplus_mod_idemp_l. Qed.

Create Rewrite HintDb word.
#[export] Hint Rewrite u32_idemp u32_add_l : word.

(** [nowrap] removes every wrap-around whose argument [lia] shows in range. *)
Ltac nowrap :=
  repeat match goal with
  | |- context [u32 ?x] => rewrite (u32_small x) by lia
  | |- context [u8 ?x] => rewrite (u8_small x) by lia
  | |- context [u16 ?x] => rewrite (u16_small x) by lia
  | |- context [u64 ?x] => rewrite (u64_small x) by lia
  end.

Ltac nowrap_in H :=
  repeat match type of H with
  | context [u32 ?x] => rewrite (u32_small x) in H by lia
  | context [u8 ?x] => rewrite (u8_small x) in H by lia
  | context [u16 ?x] => rewrite (u16_small x) in H by lia
  | context [u64 ?x] => rewrite (u64_small x) in H by lia
  end.

Lemma eqb_true x y : x = y → (x =? y) = true.
Proof. apply Z.eqb_eq. Qed.
Lemma eqb_false x y : x ≠ y → (x =? y) = false.
Proof. apply Z.eqb_neq. Qed.

(** ** Outcomes and the state monad

    A C function of the kernel either returns, calls [panic] (which prints the
    reason, arms the boot signature and resets the chip: it never returns),
    runs into undefined behaviour (dereferences a pointer to no object), or is
    still running when the fuel of the model is spent. *)

Inductive outcome (A : Type) : Type :=
  | Ret (a : A)
  | Panic (reason : string)
  | UB
  | Hang.
Arguments Ret {A} a.
Arguments Panic {A} reason.
Arguments UB {A}.
Arguments Hang {A}.

Definition M (S A : Type) : Type := S → outcome (A * S).

Definition ret {S A} (a : A) : M S A := λ s, Ret (a, s).
Definition bind {S A B} (c : M S A) (k : A → M S B) : M S B := λ s,
  match c s with
  | Ret (a, s') => k a s'
  | Panic r => Panic r
  | UB => UB
  | Hang => Hang
  end.
Definition panic {S A} (reason : string) : M S A := λ _, Panic reason.
Definition ub {S A} : M S A := λ _, UB.
Definition hang {S A} : M S A := λ _, Hang.
Definition gets {S A} (f : S → A) : M S A := λ s, Ret (f s, s).
Definition modify {S} (f : S → S) : M S unit := λ s, Ret (tt, f s).
Definition of_option {S A} (o : option A) : M S A :=
  match o with Some a => ret a | None => ub end.

Notation "'let*' x := c 'in' k" := (bind c (λ x, k))
  (at level 10, x pattern, c at level 100, k at level 200,
   format "'[v' 'let*'  x  :=  c  'in' '/' k ']'") : vanilla_scope.
Notation "c ';;' k" := (bind c (λ _, k))
  (at level 100, k at level 200, right associativity) : vanilla_scope.
Notation "'when' b c" := (if b then c else ret tt)
  (at level 10, b at level 9, c at level 9) : vanilla_scope.

(** Running a computation on a component of a larger state. *)
Definition zoom {S T A} (get : S → T) (put : T → S → S) (c : M T A) : M S A := λ s,
  match c (get s) with
  | Ret (a, t) => Ret (a, put t s)
  | Panic r => Panic r
  | UB => UB
  | Hang => Hang
  end.

(** Loops.  [while_] spends one unit of fuel per evaluation of the condition;
    [for_ n i body] runs [body i; body (i+1); ...], [n] times. *)
Fixpoint while_ {S} (fuel : nat) (c : M S bool) (body : M S unit) : M S unit :=
  match fuel with
  | O => hang
  | Datatypes.S f => let* b := c in if b then body ;; while_ f c body else ret tt
  end.

Fixpoint for_ {S} (n : nat) (i : Z) (body : Z → M S unit) : M S unit :=
  match n with
  | O => ret tt
  | Datatypes.S n' => body i ;; for_ n' (i + 1) body
  end.

Section MonadLemmas.
Context {S A B : Type}.

Lemma bind_Ret (c : M S A) (k : A → M S B) s a s' :
  c s = Ret (a, s') → bind c k s = k a s'.
Proof. unfold bind. intros ->. done. Qed.

Lemma bind_Panic (c : M S A) (k : A → M S B) s r :
  c s = Panic r → bind c k s = Panic r.
Proof. unfold bind. intros ->. done. Qed.

Lemma bind_inv (c : M S A) (k : A → M S B) s b s'' :
  bind c k s = Ret (b, s'') →
  ∃ a s', c s = Ret (a, s') ∧ k a s' = Ret (b, s'').
Proof. unfold bind. destruct (c s) as [[a s']| | |]; intros; simplify_eq; eauto. Qed.

Lemma bind_bind {C} (c : M S A) (f : A → M S C) (g : C → M S B) s :
  bind (bind c f) g s = bind c (λ a, bind (f a) g) s.
Proof. unfold bind. by destruct (c s) as [[]| | |]. Qed.

Lemma bind_ext (c : M S A) (g h : A → M S B) s : (∀ x s', g x s' = h x s') → bind c g s = bind c h s.
Proof. intros E. unfold bind. destruct (c s) as [[]| | |]; [apply E|done..]. Qed.

Lemma bind_ret (a : A) (f : A → M S B) s : bind (ret a) f s = f a s.
Proof. done. Qed.

(** The last command of a sequence. *)
Lemma bind_tt (c : M S unit) s : c s = bind c (λ _, ret tt) s.
Proof. unfold bind. destruct (c s) as [[[] ?]| | |]; done. Qed.

Lemma zoom_Ret {T} (get : S → T) (put : T → S → S) (c : M T A) s a t :
  c (get s) = Ret (a, t) → zoom get put c s = Ret (a, put t s).
Proof. unfold zoom. intros ->. done. Qed.
End MonadLemmas.

(** [mstep H] runs the first command of the goal's sequence by the equation
    [H]; [msimpl] runs the primitive commands. *)
Tactic Notation "mstep" uconstr(H) := erewrite bind_Ret; [|eapply H].
Ltac msimpl := cbn [bind ret gets modify panic ub hang of_option].

(** ** Total commands

    [safe c]: from every state [c] returns or panics; it neither runs for ever nor
    into undefined behaviour. *)
Definition safe {S A} (c : M S A) : Prop := ∀ s,
  match c s with Ret _ | Panic _ => True | UB | Hang => False end.

Create HintDb safe.
#[export] Hint Constants Opaque : safe.

Lemma safe_ret {S A} (a : A) : safe (S := S) (ret a).
Proof. done. Qed.
Lemma safe_panic {S A} r : safe (S := S) (A := A) (panic r).
Proof. done. Qed.
Lemma safe_gets {S A} (f : S → A) : safe (gets f).
Proof. done. Qed.
Lemma safe_modify {S} (f : S → S) : safe (modify f).
Proof. done. Qed.
Lemma safe_bind {S A B} (c : M S A) (k : A → M S B) : safe c → (∀ a, safe (k a)) → safe (bind c k).
Proof. intros Hc Hk s. unfold bind. specialize (Hc s). destruct (c s) as [[a s']| | |]; [apply Hk|done..]. Qed.
Lemma safe_zoom {S T A} (get : S → T) (put : T → S → S) (c : M T A) : safe c → safe (zoom get put c).
Proof. intros Hc s. unfold zoom. specialize (Hc (get s)). by destruct (c (get s)) as [[a t]| | |]. Qed.
#[export] Hint Resolve safe_ret safe_panic safe_gets safe_modify safe_zoom : safe.

(** Takes a command apart down to the commands the hints know. *)
Ltac safe_step :=
  match goal with
  | |- safe (bind _ _) => apply safe_bind; [|intros ?]
  | |- safe (if ?b then _ else _) => destruct b
  | |- safe (match ?x with _ => _ end) => destruct x
  | |- safe (let '(_, _) := ?x in _) => destruct x
  | |- safe _ => solve [eauto with safe]
  end.
Ltac safe_tac := repeat (cbv zeta; safe_step).

(** ** Lists of bytes in little-endian order *)

Fixpoint le_join (bs : list Z) : Z :=
  match bs with [] => 0 | b :: bs => b + 256 * le_join bs end.

Fixpoint le_split (n : nat) (v : Z) : list Z :=
  match n with O => [] | S n => v mod 256 :: le_split n (v / 256) end.

Definition byte (b : Z) : Prop := 0 ≤ b < 256.

#[export] Instance byte_dec b : Decision (byte b).
Proof. unfold byte. apply _. Defined.

Lemma length_le_split n v : length (le_split n v) = n.
Proof. revert v; induction n; simpl; intros; f_equal; auto. Qed.

Lemma le_split_bytes n v : Forall byte (le_split n v).
Proof.
  revert v; induction n as [|n IH]; simpl; intros; constructor; auto.
  unfold byte. lia.
Qed.

Lemma le_join_split n v : le_join (le_split n v) = v mod 256 ^ Z.of_nat n.
Proof.
  revert v; induction n as [|n IH]; intros v; [cbn; by rewrite Z.mod_1_r|].
  cbn [le_split le_join]. rewrite IH, Nat2Z.inj_succ, Z.pow_succ_r by lia.
  rewrite Z.rem_mul_r by lia. lia.
Qed.

Lemma le_join_range bs :
  Forall byte bs → 0 ≤ le_join bs < 256 ^ Z.of_nat (length bs).
Proof.
  induction 1 as [|b bs Hb _ IH]; [cbn; lia|].
  cbn [le_join length]. rewrite Nat2Z.inj_succ, Z.pow_succ_r by lia.
  unfold byte in Hb. lia.
Qed.

Lemma le_split_join bs : Forall byte bs → le_split (length bs) (le_join bs) = bs.
Proof.
  induction 1 as [|b bs Hb _ IH]; [done|]. unfold byte in Hb.
  cbn [le_join length le_split]. f_equal; [lia|].
  replace ((b + 256 * le_join bs) / 256) with (le_join bs) by lia. done.
Qed.

(** The shift-and-or spelling the sources use for a little-endian value. *)
Lemma land_shiftl_0 a b k : 0 ≤ k → 0 ≤ a < 2 ^ k → Z.land a (Z.shiftl b k) = 0.
Proof.
  intros Hk Ha. apply Z.bits_inj'. intros i Hi.
  rewrite Z.land_spec, Z.bits_0, Z.shiftl_spec by done.
  destruct (decide (i < k)).
  - rewrite (Z.testbit_neg_r b) by lia. apply andb_false_r.
  - rewrite <- (Z.mod_small a (2 ^ k)) by done.
    by rewrite Z.mod_pow2_bits_high by lia.
Qed.

Lemma lor_shiftl_add a b k :
  0 ≤ k → 0 ≤ a < 2 ^ k → Z.lor a (Z.shiftl b k) = a + b * 2 ^ k.
Proof.
  intros Hk Ha. pose proof (Z.add_lor_land a (Z.shiftl b k)) as E.
  rewrite land_shiftl_0 in E by done. rewrite Z.shiftl_mul_pow2 in * by done. lia.
Qed.

(** Masking with [2^k - 1], and with its complement. *)
Lemma land_mask x k : 0 ≤ k → Z.land x (2 ^ k - 1) = x mod 2 ^ k.
Proof. intros. rewrite <- Z.land_ones by done. by rewrite Z.ones_equiv, Z.sub_1_r. Qed.

Lemma land_not_mask x k : 0 ≤ k → Z.land x (Z.lnot (2 ^ k - 1)) = x - x mod 2 ^ k.
Proof. intros. by rewrite <- Z.sub_land_same_l, land_mask. Qed.

(** Or and and of numbers of [k] bits. *)
Lemma lor_range a b k : 0 ≤ k → 0 ≤ a < 2 ^ k → 0 ≤ b < 2 ^ k → 0 ≤ Z.lor a b < 2 ^ k.
Proof.
  intros Hk [Ha Ha'] [Hb Hb']. split; [by apply Z.lor_nonneg|].
  destruct (Z.eq_dec (Z.lor a b) 0) as [->|Hz]; [lia|].
  assert (0 < Z.lor a b) as Hp by (pose proof (proj2 (Z.lor_nonneg a b) (conj Ha Hb)); lia).
  apply Z.log2_lt_pow2; [done|]. rewrite Z.log2_lor by done.
  destruct (Z.eq_dec k 0) as [->|Hk0]; [assert (a = 0) as -> by lia; assert (b = 0) as -> by lia; done|].
  apply Z.max_lub_lt.
  - destruct (Z.eq_dec a 0) as [->|]; [cbn; lia|apply Z.log2_lt_pow2; lia].
  - destruct (Z.eq_dec b 0) as [->|]; [cbn; lia|apply Z.log2_lt_pow2; lia].
Qed.
Lemma land_range a b k : 0 ≤ k → 0 ≤ a < 2 ^ k → 0 ≤ Z.land a b < 2 ^ k.
Proof.
  intros Hk Ha. replace (Z.land a b) with (Z.land a b mod 2 ^ k); [apply Z.mod_pos_bound; lia|].
  rewrite <- (land_mask (Z.land a b)) by done. rewrite <- Z.land_assoc, (Z.land_comm b), Z.land_assoc.
  by rewrite land_mask, Z.mod_small by lia.
Qed.

(** Testing one bit with a shifted mask. *)
Lemma land_bit w j : 0 ≤ j → negb (Z.land w (Z.shiftl 1 j) =? 0) = Z.testbit w j.
Proof.
  intros Hj. rewrite Z.shiftl_1_l. destruct (Z.testbit w j) eqn:E.
  - apply negb_true_iff, Z.eqb_neq. intros E0.
    assert (Z.testbit (Z.land w (2 ^ j)) j = true) as E1.
    { by rewrite Z.land_spec, E, Z.pow2_bits_true. }
    by rewrite E0, Z.bits_0 in E1.
  - apply negb_false_iff, Z.eqb_eq. apply Z.bits_inj'. intros i Hi.
    rewrite Z.land_spec, Z.bits_0, Z.pow2_bits_eqb by done.
    destruct (j =? i) eqn:Eq; [apply Z.eqb_eq in Eq as <-; by rewrite E|by rewrite andb_false_r].
Qed.
