(* ===== verification/Memory.v ===== *)
(** * Byte-addressed memory

    The flat memory that the allocators, the memory helpers
    (kernel/src/generic/memory.c) and the dynamic linker share: a map from
    addresses to bytes, with 32-bit little-endian accesses on top.  A byte never
    written reads as zero. *)

From S2P Require Import Prelude.

Abbreviation mem := (gmap Z Z).

Definition ld8 (m : mem) (a : Z) : Z := default 0 (m !! a).
Definition st8 (m : mem) (a v : Z) : mem := <[a := u8 v]> m.

Definition ld32 (m : mem) (a : Z) : Z :=
  le_join [ld8 m a; ld8 m (a + 1); ld8 m (a + 2); ld8 m (a + 3)].

Definition st32 (m : mem) (a v : Z) : mem :=
  st8 (st8 (st8 (st8 m a v) (a + 1) (v / 256)) (a + 2) (v / 65536)) (a + 3) (v / 16777216).

(** ** Load and store *)

Lemma ld8_st8 m a b v : ld8 (st8 m b v) a = if decide (a = b) then u8 v else ld8 m a.
Proof.
  unfold ld8, st8. case_decide; subst.
  - by rewrite lookup_insert_eq.
  - by rewrite lookup_insert_ne.
Qed.

Lemma ld8_st8_eq m a v : ld8 (st8 m a v) a = u8 v.
Proof. rewrite ld8_st8. by rewrite decide_True. Qed.

Lemma ld8_st8_ne m a b v : a ≠ b → ld8 (st8 m b v) a = ld8 m a.
Proof. intros. rewrite ld8_st8. by rewrite decide_False. Qed.

Lemma ld8_st32_out m a b v : a < b ∨ b + 4 ≤ a → ld8 (st32 m b v) a = ld8 m a.
Proof. intros. unfold st32. by rewrite !ld8_st8_ne by lia. Qed.

Lemma ld32_st32_eq m a v : ld32 (st32 m a v) a = u32 v.
Proof.
  unfold ld32, st32.
  repeat first [rewrite ld8_st8_eq | rewrite ld8_st8_ne by lia].
  cbn [le_join]. unfold u8, u32. lia.
Qed.

Lemma ld32_st32_ne m a b v : a + 4 ≤ b ∨ b + 4 ≤ a → ld32 (st32 m b v) a = ld32 m a.
Proof. intros. unfold ld32. by rewrite !ld8_st32_out by lia. Qed.

Lemma ld32_st8_ne m a b v : a + 4 ≤ b ∨ b < a → ld32 (st8 m b v) a = ld32 m a.
Proof. intros. unfold ld32. by rewrite !ld8_st8_ne by lia. Qed.

Lemma ld32_ext m m' a :
  (∀ b, a ≤ b < a + 4 → ld8 m' b = ld8 m b) → ld32 m' a = ld32 m a.
Proof. intros E. unfold ld32. by rewrite !E by lia. Qed.

(** Every byte of the memory is a byte. *)
Definition mem_bytes (m : mem) : Prop := ∀ a, byte (ld8 m a).

Lemma mem_bytes_st8 m a v : mem_bytes m → mem_bytes (st8 m a v).
Proof. intros H b. rewrite ld8_st8. case_decide; [apply u8_range|apply H]. Qed.

Lemma mem_bytes_st32 m a v : mem_bytes m → mem_bytes (st32 m a v).
Proof. intros. unfold st32. by repeat apply mem_bytes_st8. Qed.

Lemma ld32_range m a : mem_bytes m → 0 ≤ ld32 m a < 4294967296.
Proof.
  intros H. unfold ld32. cbn [le_join].
  pose proof (H a). pose proof (H (a + 1)). pose proof (H (a + 2)). pose proof (H (a + 3)).
  unfold byte in *. lia.
Qed.

#[export] Hint Resolve mem_bytes_st8 mem_bytes_st32 ld32_range : core.

(** [same_outside P m m']: the two memories agree on every byte outside [P]. *)
Definition same_outside (P : Z → Prop) (m m' : mem) : Prop :=
  ∀ a, ¬ P a → ld8 m' a = ld8 m a.

Lemma same_outside_refl P m : same_outside P m m.
Proof. by intros a _. Qed.

Lemma same_outside_trans P m1 m2 m3 :
  same_outside P m1 m2 → same_outside P m2 m3 → same_outside P m1 m3.
Proof. intros H1 H2 a Ha. rewrite H2 by done. by apply H1. Qed.

Lemma same_outside_mono (P Q : Z → Prop) m m' :
  (∀ a, P a → Q a) → same_outside P m m' → same_outside Q m m'.
Proof. intros H1 H2 a Ha. apply H2. intros Hp. by apply Ha, H1. Qed.

Lemma same_outside_st32 (P : Z → Prop) m a v :
  (∀ b, a ≤ b < a + 4 → P b) → same_outside P m (st32 m a v).
Proof.
  intros H b Hb. apply ld8_st32_out.
  destruct (decide (b < a)); [lia|]. destruct (decide (a + 4 ≤ b)); [lia|].
  destruct Hb. apply H. lia.
Qed.

Lemma same_outside_st8 (P : Z → Prop) m a v : P a → same_outside P m (st8 m a v).
Proof. intros H b Hb. apply ld8_st8_ne. by intros ->. Qed.

Lemma same_outside_ld32 (P : Z → Prop) m m' a :
  same_outside P m m' → (∀ b, a ≤ b < a + 4 → ¬ P b) → ld32 m' a = ld32 m a.
Proof. intros H Hp. apply ld32_ext. intros b Hb. by apply H, Hp. Qed.

#[export] Hint Resolve same_outside_refl : core.

(** ** generic/memory.c *)

(** [memory_copy]: [size] bytes, one at a time in ascending order. *)
Fixpoint copy_loop (src dest : Z) (size : nat) (m : mem) : mem :=
  match size with
  | O => m
  | S n => copy_loop (src + 1) (dest + 1) n (st8 m dest (ld8 m src))
  end.

Definition memory_copy (src dest size : Z) : M mem unit :=
  modify (copy_loop src dest (Z.to_nat size)).

(** [memory_compare]: stops at the first difference. *)
Fixpoint compare_loop (m : mem) (src1 src2 : Z) (size : nat) : Z :=
  match size with
  | O => 1
  | S n => if negb (ld8 m src1 =? ld8 m src2) then 0
           else compare_loop m (src1 + 1) (src2 + 1) n
  end.

Definition memory_compare (src1 src2 size : Z) : M mem Z :=
  gets (λ m, compare_loop m src1 src2 (Z.to_nat size)).

Fixpoint fill_loop (dest fill : Z) (size : nat) (m : mem) : mem :=
  match size with
  | O => m
  | S n => fill_loop (dest + 1) fill n (st8 m dest fill)
  end.

Definition memory_fill (dest fill size : Z) : M mem unit :=
  modify (fill_loop dest fill (Z.to_nat size)).

(** [string_len]: counts up to the terminating zero; the fuel bounds the
    number of characters inspected. *)
Fixpoint string_len_loop (fuel : nat) (src ret_ : Z) : M mem Z :=
  match fuel with
  | O => hang
  | S f => let* c := gets (λ m, ld8 m src) in
           if negb (c =? 0) then string_len_loop f (src + 1) (u32 (ret_ + 1))
           else ret ret_
  end.

Definition string_len (fuel : nat) (src : Z) : M mem Z := string_len_loop fuel src 0.

(** [string_copy]: copies up to and including the terminating zero. *)
Fixpoint string_copy (fuel : nat) (src dest : Z) : M mem unit :=
  match fuel with
  | O => hang
  | S f => let* c := gets (λ m, ld8 m src) in
           modify (λ m, st8 m dest c) ;;
           if negb (c =? 0) then string_copy f (src + 1) (dest + 1) else ret tt
  end.

(** The bytes of [n] consecutive addresses. *)
Fixpoint read_bytes (m : mem) (a : Z) (n : nat) : list Z :=
  match n with O => [] | S n => ld8 m a :: read_bytes m (a + 1) n end.

Lemma length_read_bytes m a n : length (read_bytes m a n) = n.
Proof. revert a; induction n; simpl; intros; f_equal; auto. Qed.

Lemma lookup_read_bytes m a n i :
  (i < n)%nat → read_bytes m a n !! i = Some (ld8 m (a + Z.of_nat i)).
Proof.
  revert a i; induction n as [|n IH]; intros a [|i] ?; simpl; try lia.
  - by rewrite Z.add_0_r.
  - rewrite IH by lia. do 2 f_equal. lia.
Qed.

Lemma read_bytes_ext m m' a n :
  (∀ b, a ≤ b < a + Z.of_nat n → ld8 m' b = ld8 m b) →
  read_bytes m' a n = read_bytes m a n.
Proof.
  revert a; induction n as [|n IH]; simpl; intros a H; [done|].
  rewrite H by lia. f_equal. apply IH. intros. apply H. lia.
Qed.

Lemma fill_loop_spec dest fill n m a :
  ld8 (fill_loop dest fill n m) a =
  if decide (dest ≤ a < dest + Z.of_nat n) then u8 fill else ld8 m a.
Proof.
  revert dest m; induction n as [|n IH]; intros dest m; simpl.
  - by rewrite decide_False by lia.
  - rewrite IH, ld8_st8. repeat case_decide; try done; lia.
Qed.

Lemma copy_loop_out src dest n m a :
  a < dest ∨ dest + Z.of_nat n ≤ a → ld8 (copy_loop src dest n m) a = ld8 m a.
Proof.
  revert src dest m; induction n as [|n IH]; intros src dest m Ha; simpl; [done|].
  rewrite IH by lia. apply ld8_st8_ne. lia.
Qed.

(** A forward copy delivers the old contents of the source unless the
    destination starts inside the source. *)
Lemma copy_loop_in src dest n m i :
  mem_bytes m → dest ≤ src ∨ src + Z.of_nat n ≤ dest → (i < n)%nat →
  ld8 (copy_loop src dest n m) (dest + Z.of_nat i) = ld8 m (src + Z.of_nat i).
Proof.
  revert src dest m i; induction n as [|n IH]; intros src dest m i Hm Hd Hi; [lia|].
  destruct i as [|i]; simpl.
  - rewrite copy_loop_out by lia. rewrite !Z.add_0_r, ld8_st8_eq.
    apply u8_small. apply Hm.
  - replace (dest + Z.of_nat (S i)) with ((dest + 1) + Z.of_nat i) by lia.
    rewrite IH by (auto; lia). rewrite ld8_st8_ne by lia. f_equal. lia.
Qed.

Lemma compare_loop_spec m a b n :
  compare_loop m a b n = if decide (read_bytes m a n = read_bytes m b n) then 1 else 0.
Proof.
  revert a b; induction n as [|n IH]; intros a b; simpl; [done|].
  destruct (ld8 m a =? ld8 m b) eqn:E; simpl.
  - apply Z.eqb_eq in E. rewrite IH, E. repeat case_decide; congruence.
  - apply Z.eqb_neq in E. rewrite decide_False; congruence.
Qed.

(** The addresses from [src] up to the terminator hold [s]. *)
Definition c_string (m : mem) (src : Z) (s : list Z) : Prop :=
  read_bytes m src (length s) = s ∧ Forall (λ c, c ≠ 0) s ∧
  ld8 m (src + Z.of_nat (length s)) = 0.

Lemma string_len_loop_spec fuel m src n s :
  c_string m src s → (length s < fuel)%nat → 0 ≤ n →
  n + Z.of_nat (length s) < 4294967296 →
  string_len_loop fuel src n m = Ret (n + Z.of_nat (length s), m).
Proof.
  revert src n s; induction fuel as [|fuel IH]; intros src n s (Hr & Hs & Hz) Hf Hn Hlt; [lia|].
  destruct s as [|c s]; cbn [string_len_loop length read_bytes] in *; msimpl.
  - rewrite Z.add_0_r in *. by rewrite Hz.
  - injection Hr as Hc Hr. rewrite Forall_cons in Hs. destruct Hs as [Hc0 Hs].
    rewrite Hc. rewrite (proj2 (Z.eqb_neq c 0)) by done. cbn [negb].
    rewrite IH with (s := s); [| |lia|pose proof (u32_range (n + 1)); lia|nowrap; lia].
    + do 2 f_equal. nowrap. lia.
    + split_and!; [done..|]. rewrite <- Hz. f_equal. lia.
Qed.

(** ** Runs of bytes *)

(** [l] stored at [a] and the addresses after it. *)
Fixpoint write_bytes (m : mem) (a : Z) (l : list Z) : mem :=
  match l with [] => m | x :: l => write_bytes (st8 m a x) (a + 1) l end.

Lemma write_bytes_app m a l1 l2 :
  write_bytes m a (l1 ++ l2) = write_bytes (write_bytes m a l1) (a + Z.of_nat (length l1)) l2.
Proof.
  revert m a; induction l1 as [|x l1 IH]; intros m a; cbn [write_bytes length app].
  - by rewrite Z.add_0_r.
  - rewrite IH. f_equal. lia.
Qed.

Lemma ld8_write_bytes_out m a l b :
  b < a ∨ a + Z.of_nat (length l) ≤ b → ld8 (write_bytes m a l) b = ld8 m b.
Proof.
  revert m a; induction l as [|x l IH]; intros m a Hb; cbn [write_bytes length] in *; [done|].
  rewrite IH by lia. apply ld8_st8_ne. lia.
Qed.

Lemma same_outside_write m a l :
  same_outside (λ b, a ≤ b < a + Z.of_nat (length l)) m (write_bytes m a l).
Proof. intros b Hb. apply ld8_write_bytes_out. lia. Qed.

Lemma read_write_bytes m a l :
  Forall byte l → read_bytes (write_bytes m a l) a (length l) = l.
Proof.
  revert m a; induction l as [|x l IH]; intros m a Hl; [done|].
  inversion Hl as [|? ? Hx Hl']; subst. cbn [write_bytes length read_bytes].
  rewrite IH by done. f_equal. rewrite ld8_write_bytes_out by lia. rewrite ld8_st8_eq. by apply u8_small.
Qed.

Lemma mem_bytes_write m a l : mem_bytes m → mem_bytes (write_bytes m a l).
Proof. revert m a; induction l as [|x l IH]; intros m a Hm; [done|]. apply IH. by apply mem_bytes_st8. Qed.

Lemma c_string_cons m a c s : c_string m a (c :: s) ↔ ld8 m a = c ∧ c ≠ 0 ∧ c_string m (a + 1) s.
Proof.
  unfold c_string. cbn [read_bytes length].
  replace (a + 1 + Z.of_nat (length s)) with (a + Z.of_nat (S (length s))) by lia.
  rewrite Forall_cons. split.
  - intros (E & [Hc Hs] & Hz). injection E as -> E. done.
  - intros (-> & Hc & -> & Hs & Hz). done.
Qed.

Lemma c_string_nil m a : c_string m a [] ↔ ld8 m a = 0.
Proof. unfold c_string. cbn. rewrite Z.add_0_r. naive_solver. Qed.

Lemma c_string_ext m m' a s :
  (∀ b, a ≤ b ≤ a + Z.of_nat (length s) → ld8 m' b = ld8 m b) → c_string m a s → c_string m' a s.
Proof.
  intros E (Hr & Hs & Hz). split_and!; [|done|by rewrite E by lia].
  rewrite <- Hr at 2. apply read_bytes_ext. intros b Hb. apply E. lia.
Qed.

(** The rest of a string is a string. *)
Lemma c_string_app m a l s :
  c_string m a (l ++ s) → Forall (λ c, c ≠ 0) l ∧ c_string m (a + Z.of_nat (length l)) s.
Proof.
  revert a; induction l as [|x l IH]; intros a Hs; [by rewrite Z.add_0_r|].
  apply c_string_cons in Hs as (_ & Hx & Hs). apply IH in Hs as [Hl Hs]. split; [by constructor|].
  cbn [length]. by replace (a + Z.of_nat (S (length l))) with (a + 1 + Z.of_nat (length l)) by lia.
Qed.

Lemma read_bytes_add m a n k :
  read_bytes m a (n + k) = read_bytes m a n ++ read_bytes m (a + Z.of_nat n) k.
Proof.
  revert a; induction n as [|n IH]; intros a; cbn [read_bytes app Nat.add]; [by rewrite Z.add_0_r|].
  rewrite IH. do 3 f_equal. lia.
Qed.

Lemma ld32_read m a : ld32 m a = le_join (read_bytes m a 4).
Proof. unfold ld32. cbn [read_bytes]. by rewrite <- !Z.add_assoc. Qed.
