(* ===== verification/Mm.v ===== *)
(** * The dynamic memory core (kernel/src/mm/mm.c)

    A first-fit allocator over five physical memories.  Each memory is tiled by
    blocks with an eight byte header [struct mm_node]: a [next] pointer and a
    word whose upper four bits hold the index of the memory and whose lower 28
    bits hold the block size.  The free blocks are chained in address order from
    [root_obj] to [last_node]; an allocated block has the magic number
    0xC0DEBABE in its [next] field.  This file holds the data and the
    operations; MmSpec.v has the abstract heap and the refinement. *)

From S2P Require Import Prelude Memory.

Definition NULL : Z := 0.
Definition MM_ALIGN : Z := 8.
Definition sizeof_mm_node : Z := 8.
Definition MM_MAGIC : Z := 0xC0DEBABE.

(** The size word: physical memory index and block size. *)
Definition mm_get_region (size : Z) : Z := Z.land (Z.shiftr size 28) 15.
Definition mm_set_region (size physmem : Z) : Z :=
  Z.lor (Z.land size (Z.lnot (Z.shiftl 15 28))) (Z.shiftl physmem 28).
Definition mm_get_size (size : Z) : Z := Z.land size 0xFFFFFFF.
Definition mm_set_size (size new_size : Z) : Z :=
  Z.lor (Z.land size (Z.lnot 0xFFFFFFF)) new_size.

(** The two fields of the [struct mm_node] at address [p]. *)
Definition node_next (m : mem) (p : Z) : Z := ld32 m p.
Definition node_size (m : mem) (p : Z) : Z := ld32 m (p + 4).
Definition set_next (m : mem) (p v : Z) : mem := st32 m p v.
Definition set_size (m : mem) (p v : Z) : mem := st32 m (p + 4) v.

#[global] Arguments node_next : simpl never.
#[global] Arguments node_size : simpl never.
#[global] Arguments set_next : simpl never.
#[global] Arguments set_size : simpl never.
#[global] Arguments mm_get_size : simpl never.
#[global] Arguments mm_get_region : simpl never.

(** [struct physmem]; [root_obj] is the address of the field of that name. *)
Record physmem := Physmem {
  start_addr : Z;
  end_addr : Z;
  pm_size : Z;
  allocated : Z;
  min_alloc : Z;
  pm_name : string;
  root_node : Z;
  last_node : Z;
  root_obj : Z
}.

Definition set_allocated (v : Z) (pm : physmem) : physmem :=
  Physmem (start_addr pm) (end_addr pm) (pm_size pm) v (min_alloc pm) (pm_name pm)
    (root_node pm) (last_node pm) (root_obj pm).

(** The five entries of [physical_memories], before [mm_init].  [roots] gives
    the addresses the linker chose for their [root_obj] fields. *)
Definition sram (r : Z) := Physmem 0 0 0 0 16 "SRAM" 0 0 r.
Definition dram_bank_1 (r : Z) := Physmem 0x70000000 0x7007FFFF 0 0 256 "DRAM bank 1" 0 0 r.
Definition dram_bank_2 (r : Z) := Physmem 0x70080000 0x700FFFFF 0 0 256 "DRAM bank 2" 0 0 r.
Definition dram_bank_3 (r : Z) := Physmem 0x70100000 0x7017FFFF 0 0 256 "DRAM bank 3" 0 0 r.
Definition dram_bank_4 (r : Z) := Physmem 0x70180000 0x701FFFFF 0 0 256 "DRAM bank 4" 0 0 r.

Definition physical_memories_0 (r0 r1 r2 r3 r4 : Z) : list physmem :=
  [sram r0; dram_bank_1 r1; dram_bank_2 r2; dram_bank_3 r3; dram_bank_4 r4].

Record mm := Mm { mm_mem : mem; physical_memories : list physmem }.

Definition in_mem {A} (c : M mem A) : M mm A :=
  zoom mm_mem (λ m s, Mm m (physical_memories s)) c.

(** [physical_memories[index]]: the entry after the last is NULL, and what
    follows is outside the array. *)
Definition get_physmem (index : Z) : M mm physmem :=
  λ s, match physical_memories s !! Z.to_nat index with
       | Some pm => Ret (pm, s)
       | None => UB
       end.

Definition set_physmem (index : Z) (f : physmem → physmem) : M mm unit :=
  modify (λ s, Mm (mm_mem s) (alter f (Z.to_nat index) (physical_memories s))).

(** ** mm_init *)

Definition align_up (a : Z) : Z :=
  if negb (Z.land a (MM_ALIGN - 1) =? 0)
  then Z.land (u32 (a + MM_ALIGN)) (Z.lnot (MM_ALIGN - 1)) else a.

Definition align_down (a : Z) : Z :=
  if negb (Z.land a (MM_ALIGN - 1) =? 0)
  then Z.land a (Z.lnot (MM_ALIGN - 1)) else a.

(** The erase loop: [while (clear_start != clear_end) *clear_start++ = 0]. *)
Fixpoint clear_loop (fuel : nat) (clear_start clear_end : Z) : M mem unit :=
  match fuel with
  | O => hang
  | S f => if negb (clear_start =? clear_end)
           then modify (λ m, st8 m clear_start 0) ;;
                clear_loop f (u32 (clear_start + 1)) clear_end
           else ret tt
  end.

(** The body of the loop of [mm_init] for one physical memory. *)
Definition mm_init_physmem (fuel : nat) (heap_s heap_e index : Z) (pm : physmem) :
    M mem physmem :=
  let '(s0, e0) := if (start_addr pm =? 0) && (end_addr pm =? 0)
                   then (heap_s, heap_e) else (start_addr pm, end_addr pm) in
  clear_loop fuel s0 e0 ;;
  let start := align_up s0 in
  let end_ := align_down e0 in
  let node_start := start in
  let node_end := u32 (end_ - sizeof_mm_node) in
  let size := u32 (end_ - sizeof_mm_node - start) in
  modify (λ m, set_size m (root_obj pm) 0) ;;
  modify (λ m, set_next m (root_obj pm) node_start) ;;
  modify (λ m, set_next m node_start node_end) ;;
  modify (λ m, set_size m node_start (mm_set_size 0 size)) ;;
  modify (λ m, set_size m node_start (mm_set_region (node_size m node_start) index)) ;;
  modify (λ m, set_next m node_end NULL) ;;
  modify (λ m, set_size m node_end 0) ;;
  ret (Physmem start end_ size 0 (min_alloc pm) (pm_name pm)
         (root_obj pm) node_end (root_obj pm)).

Fixpoint mm_init_loop (fuel : nat) (heap_s heap_e index : Z) (pms : list physmem) :
    M mem (list physmem) :=
  match pms with
  | [] => ret []
  | pm :: pms =>
      let* pm' := mm_init_physmem fuel heap_s heap_e index pm in
      let* pms' := mm_init_loop fuel heap_s heap_e (u8 (index + 1)) pms in
      ret (pm' :: pms')
  end.

(** [mm_init]; [heap_s] and [heap_e] are the linker's [&_heap_s], [&_heap_e]. *)
Definition mm_init (fuel : nat) (heap_s heap_e : Z) : M mm unit :=
  let* pms := gets physical_memories in
  let* pms' := in_mem (mm_init_loop fuel heap_s heap_e 0 pms) in
  modify (λ s, Mm (mm_mem s) pms').

(** ** mm_list_insert *)

(** [while (iter->next < node) iter = iter->next;] *)
Fixpoint list_insert_find (fuel : nat) (iter node : Z) : M mem Z :=
  match fuel with
  | O => hang
  | S f => let* next := gets (λ m, node_next m iter) in
           if next <? node then list_insert_find f next node else ret iter
  end.

Definition mm_list_insert (fuel : nat) (node root last : Z) : M mem unit :=
  if (node <? root) || (last <? node) then panic "Memory list error" else
  let* iter := list_insert_find fuel root node in
  let* iter_size := gets (λ m, mm_get_size (node_size m iter)) in
  let* insert_size := gets (λ m, mm_get_size (node_size m node)) in
  (* Check for backwards block overlap *)
  let* node :=
    (if u32 (iter + iter_size) =? node
     then modify (λ m, set_size m iter (node_size m iter + insert_size)) ;; ret iter
     else ret node) in
  (* Check for forward block overlap *)
  let* next_size := gets (λ m, mm_get_size (node_size m (node_next m iter))) in
  let* insert_size := gets (λ m, mm_get_size (node_size m node)) in
  let* next := gets (λ m, node_next m iter) in
  (if u32 (node + insert_size) =? next
   then if next =? last
        then modify (λ m, set_next m node last)
        else modify (λ m, set_size m node (node_size m node + next_size)) ;;
             modify (λ m, set_next m node (node_next m (node_next m iter)))
   else modify (λ m, set_next m node (node_next m iter))) ;;
  when (negb (node =? iter)) (modify (λ m, set_next m iter node)).

(** ** mm_alloc *)

(** The size actually searched for: header added, raised to the minimum
    allocation of the memory and aligned, in 32-bit arithmetic. *)
Definition alloc_size (min size : Z) : Z :=
  let size := u32 (size + sizeof_mm_node) in
  let size := if size <? min then min else size in
  if negb (Z.land size (MM_ALIGN - 1) =? 0)
  then Z.land (u32 (size + MM_ALIGN)) (Z.lnot (MM_ALIGN - 1)) else size.

(** The search loop; it returns [iter] and [iter_prev]. *)
Fixpoint first_fit (fuel : nat) (size iter iter_prev : Z) : M mem (Z * Z) :=
  match fuel with
  | O => hang
  | S f =>
      let* next := gets (λ m, node_next m iter) in
      if negb (next =? NULL) then
        let* iter_size := gets (λ m, mm_get_size (node_size m iter)) in
        if size <=? iter_size then ret (iter, iter_prev)
        else first_fit f size next iter
      else ret (iter, iter_prev)
  end.

(** [mm_alloc].  The message "Not enough memory" of the first exit goes to the
    console, whose state (Console.v) is apart from the memory and is not
    threaded through the allocator. *)
Definition mm_alloc (fuel : nat) (size index : Z) : M mm Z :=
  let* physmem := get_physmem index in
  let size := alloc_size (min_alloc physmem) size in
  if u32 (pm_size physmem - allocated physmem) <? size then ret NULL else
  let* iter0 := in_mem (gets (λ m, node_next m (root_node physmem))) in
  let* (iter, iter_prev) := in_mem (first_fit fuel size iter0 (root_node physmem)) in
  let* next := in_mem (gets (λ m, node_next m iter)) in
  if next =? NULL then ret NULL else
  let* curr_block_size := in_mem (gets (λ m, mm_get_size (node_size m iter))) in
  let return_ptr := u32 (iter + sizeof_mm_node) in
  (* Remove the current block from the list *)
  in_mem (modify (λ m, set_next m iter_prev (node_next m iter))) ;;
  (if u32 (size + min_alloc physmem) <=? curr_block_size then
     let new_node := u32 (iter + size) in
     in_mem (modify (λ m, set_size m new_node (mm_set_region (node_size m new_node) index))) ;;
     in_mem (modify (λ m, set_size m new_node
                            (mm_set_size (node_size m new_node) (u32 (curr_block_size - size))))) ;;
     set_physmem index (λ pm, set_allocated (u32 (allocated pm + size)) pm) ;;
     in_mem (modify (λ m, set_size m iter (mm_set_size (node_size m iter) size))) ;;
     in_mem (mm_list_insert fuel new_node (root_node physmem) (last_node physmem))
   else
     set_physmem index (λ pm, set_allocated (u32 (allocated pm + curr_block_size)) pm)) ;;
  (* Mark the memory as allocated *)
  in_mem (modify (λ m, set_next m iter MM_MAGIC)) ;;
  ret return_ptr.

(** ** mm_free *)

Definition mm_free (fuel : nat) (memory : Z) : M mm unit :=
  if memory =? NULL then panic "Trying to free NULL pointer" else
  let node := u32 (memory - sizeof_mm_node) in
  let* next := in_mem (gets (λ m, node_next m node)) in
  if negb (next =? MM_MAGIC) then panic "Pointer not made by mm_alloc*" else
  let* size := in_mem (gets (λ m, node_size m node)) in
  let physmem := mm_get_region size in
  let* region := get_physmem physmem in
  set_physmem physmem (λ pm, set_allocated (u32 (allocated pm - mm_get_size size)) pm) ;;
  in_mem (mm_list_insert fuel node (root_node region) (last_node region)).

(** ** Statistics *)

Definition mm_get_total (physmem : Z) : M mm Z :=
  let* pm := get_physmem physmem in ret (pm_size pm).
Definition mm_get_used (physmem : Z) : M mm Z :=
  let* pm := get_physmem physmem in ret (allocated pm).
Definition mm_get_free (physmem : Z) : M mm Z :=
  let* pm := get_physmem physmem in ret (u32 (pm_size pm - allocated pm)).
Definition mm_get_frag (physmem : Z) : M mm Z := ret 0.

(** ** A concrete heap

    Two small memories, initialised by [mm_init]: used by the witnesses. *)
Definition small_mm : mm :=
  Mm ∅ [Physmem 0 0 0 0 16 "SRAM" 0 0 0x100; Physmem 0x2000 0x2C03 0 0 32 "BANK" 0 0 0x110].

Definition small_mm_ready : mm :=
  match mm_init 4000 0x1003 0x1104 small_mm with Ret (_, s) => s | _ => small_mm end.
