(* ===== verification/MmSpec.v ===== *)
(** * Specification of the memory core

    The abstract heap of one physical memory is the list of the blocks that tile
    it, in address order, each free or used.  [alloc_blocks] is first fit with
    splitting, [free_block] marks a block free and merges free neighbours.  The
    representation predicate [heap_rep] ties such a list to the bytes of the
    memory and [region_rep] to the [struct physmem]; MmProof.v shows that the
    operations of Mm.v implement the abstract ones. *)

From S2P Require Import Prelude Memory Mm.

(** ** Abstract heap *)

Record block := Blk { b_addr : Z; b_size : Z; b_used : bool }.

(** [tile min s B e]: the blocks [B] cover [s, e) without gap or overlap; every
    size is a multiple of eight and at least [min]. *)
Fixpoint tile (min s : Z) (B : list block) (e : Z) : Prop :=
  match B with
  | [] => s = e
  | b :: B => b_addr b = s ∧ min ≤ b_size b ∧ b_size b mod 8 = 0 ∧ tile min (s + b_size b) B e
  end.

(** No two free blocks are adjacent. *)
Fixpoint no_adj (B : list block) : Prop :=
  match B with
  | b1 :: ((b2 :: _) as B') => (b_used b1 = true ∨ b_used b2 = true) ∧ no_adj B'
  | _ => True
  end.

Fixpoint free_addrs (B : list block) : list Z :=
  match B with
  | [] => []
  | b :: B => if b_used b then free_addrs B else b_addr b :: free_addrs B
  end.

Definition used_size (b : block) : Z := if b_used b then b_size b else 0.
Definition used_total (B : list block) : Z := foldr (λ b t, used_size b + t) 0 B.
Definition total (B : list block) : Z := foldr (λ b t, b_size b + t) 0 B.

(** First fit: the block at the front is taken whole or split. *)
Definition fits (n : Z) (b : block) : bool := negb (b_used b) && (n <=? b_size b).

Fixpoint alloc_blocks (min n : Z) (B : list block) : option (Z * list block) :=
  match B with
  | [] => None
  | b :: B' =>
      if fits n b then
        if n + min <=? b_size b
        then Some (b_addr b, Blk (b_addr b) n true
                               :: Blk (b_addr b + n) (b_size b - n) false :: B')
        else Some (b_addr b, Blk (b_addr b) (b_size b) true :: B')
      else match alloc_blocks min n B' with
           | Some (p, B'') => Some (p, b :: B'')
           | None => None
           end
  end.

(** Adding a block in front, merging it with a free neighbour. *)
Definition glue (b : block) (B : list block) : list block :=
  match B with
  | b' :: B' => if negb (b_used b) && negb (b_used b')
                then Blk (b_addr b) (b_size b + b_size b') false :: B'
                else b :: B
  | [] => [b]
  end.

Definition coalesce (B : list block) : list block := foldr glue [] B.

Definition mark_free (a : Z) (b : block) : block :=
  if b_addr b =? a then Blk (b_addr b) (b_size b) false else b.

Definition free_block (a : Z) (B : list block) : list block :=
  coalesce (map (mark_free a) B).

(** ** Representation *)

(** The word in the size field of a block of size [s] in memory [r]. *)
Definition enc (r s : Z) : Z := r * 268435456 + s.

(** The chain of [next] pointers from [p] through [fs] to [last]. *)
Fixpoint links (m : mem) (p : Z) (fs : list Z) (last : Z) : Prop :=
  match fs with
  | [] => node_next m p = last
  | a :: fs => node_next m p = a ∧ links m a fs last
  end.

(** The header of a block.  The used blocks whose address is in [X] are being
    (un)linked and need not carry the magic number. *)
Definition hdr (m : mem) (r : Z) (X : list Z) (b : block) : Prop :=
  node_size m (b_addr b) = enc r (b_size b) ∧
  (b_used b = true → b_addr b ∉ X → node_next m (b_addr b) = MM_MAGIC).

Record heap_rep (m : mem) (r min root s last : Z) (X : list Z) (B : list block) : Prop := {
  hr_tile : tile min s B last;
  hr_hdr : Forall (hdr m r X) B;
  hr_links : links m root (free_addrs B) last;
  hr_last_next : node_next m last = 0;
  hr_last_size : node_size m last = 0;
  hr_root_size : node_size m root = 0
}.

(** The memory a physical memory of the allocator owns: its root object and
    everything from its first node to the end of its last node. *)
Definition footprint (pm : physmem) (a : Z) : Prop :=
  root_node pm ≤ a < root_node pm + 8 ∨ start_addr pm ≤ a < last_node pm + 8.

Record physmem_ok (i : Z) (pm : physmem) : Prop := {
  ok_index : 0 ≤ i < 16;
  ok_min : 8 ≤ min_alloc pm < 268435456;
  ok_min_align : min_alloc pm mod 8 = 0;
  ok_root : 0 ≤ root_node pm ∧ root_node pm + 8 ≤ start_addr pm;
  ok_start : start_addr pm mod 8 = 0;
  ok_size : pm_size pm = last_node pm - start_addr pm;
  ok_size_max : pm_size pm < 268435456;
  ok_last : last_node pm + 8 ≤ 4294967296
}.

Record region_rep (m : mem) (i : Z) (pm : physmem) (B : list block) : Prop := {
  rr_ok : physmem_ok i pm;
  rr_heap : heap_rep m i (min_alloc pm) (root_node pm) (start_addr pm) (last_node pm) [] B;
  rr_adj : no_adj B;
  rr_alloc : allocated pm = used_total B
}.

(** The invariant of the whole allocator: one list of blocks per physical
    memory, and pairwise disjoint footprints. *)
Record mm_inv (s : mm) (L : list (list block)) : Prop := {
  mi_bytes : mem_bytes (mm_mem s);
  mi_rep : ∀ i pm B, physical_memories s !! i = Some pm → L !! i = Some B →
           region_rep (mm_mem s) (Z.of_nat i) pm B;
  mi_len : length L = length (physical_memories s);
  mi_disj : ∀ i j pmi pmj, i ≠ j → physical_memories s !! i = Some pmi →
            physical_memories s !! j = Some pmj → ∀ a, footprint pmi a → ¬ footprint pmj a
}.

(** ** The size word *)

Lemma mm_get_size_mod x : mm_get_size x = x mod 268435456.
Proof. unfold mm_get_size. apply (land_mask x 28). lia. Qed.

Lemma mm_get_size_enc r s : 0 ≤ s < 268435456 → mm_get_size (enc r s) = s.
Proof. intros. rewrite mm_get_size_mod. unfold enc. lia. Qed.

Lemma mm_get_region_enc r s :
  0 ≤ s < 268435456 → 0 ≤ r < 16 → mm_get_region (enc r s) = r.
Proof.
  intros. unfold mm_get_region. rewrite (land_mask _ 4), Z.shiftr_div_pow2 by lia.
  unfold enc. change (2 ^ 28) with 268435456. change (2 ^ 4) with 16. lia.
Qed.

Lemma lor_low x y k : 0 ≤ k → x mod 2 ^ k = 0 → 0 ≤ y < 2 ^ k → Z.lor x y = x + y.
Proof.
  intros Hk Hx Hy. rewrite Z.lor_comm.
  replace x with (Z.shiftl (x / 2 ^ k) k).
  - rewrite lor_shiftl_add, Z.shiftl_mul_pow2 by lia. lia.
  - rewrite Z.shiftl_mul_pow2 by lia.
    pose proof (Z.div_mod x (2 ^ k) ltac:(lia)). lia.
Qed.

Lemma mm_set_size_enc r s s' :
  0 ≤ s < 268435456 → 0 ≤ s' < 268435456 → mm_set_size (enc r s) s' = enc r s'.
Proof.
  intros. unfold mm_set_size. change 0xFFFFFFF with (2 ^ 28 - 1).
  rewrite land_not_mask by lia. change (2 ^ 28) with 268435456.
  rewrite (lor_low _ _ 28); [unfold enc; lia|lia| |lia].
  change (2 ^ 28) with 268435456. unfold enc. lia.
Qed.

Lemma mm_set_region_spec w r :
  0 ≤ w < 4294967296 → 0 ≤ r < 16 →
  mm_set_region w r = enc r (w mod 268435456).
Proof.
  intros. unfold mm_set_region. change (Z.shiftl 15 28) with (2 ^ 32 - 1 - (2 ^ 28 - 1)).
  assert (Z.land w (Z.lnot (2 ^ 32 - 1 - (2 ^ 28 - 1))) = w mod 268435456) as ->.
  { rewrite <- Z.sub_land_same_l.
    replace (2 ^ 32 - 1 - (2 ^ 28 - 1)) with (Z.land (2 ^ 32 - 1) (Z.lnot (2 ^ 28 - 1)))
      by reflexivity.
    rewrite Z.land_assoc, (land_mask w 32), land_not_mask by lia.
    change (2 ^ 32) with 4294967296. change (2 ^ 28) with 268435456. lia. }
  rewrite (lor_shiftl_add _ r 28); [|lia|change (2 ^ 28) with 268435456; lia].
  unfold enc. change (2 ^ 28) with 268435456. lia.
Qed.

(** ** Nodes at different addresses are independent *)

Lemma next_set_next_eq m p v : node_next (set_next m p v) p = u32 v.
Proof. apply ld32_st32_eq. Qed.
Lemma next_set_next_ne m p q v :
  q + 8 ≤ p ∨ p + 8 ≤ q → node_next (set_next m p v) q = node_next m q.
Proof. intros. apply ld32_st32_ne. lia. Qed.
Lemma size_set_next m p q v :
  q = p ∨ q + 8 ≤ p ∨ p + 8 ≤ q → node_size (set_next m p v) q = node_size m q.
Proof. intros. apply ld32_st32_ne. lia. Qed.
Lemma size_set_size_eq m p v : node_size (set_size m p v) p = u32 v.
Proof. apply ld32_st32_eq. Qed.
Lemma size_set_size_ne m p q v :
  q + 8 ≤ p ∨ p + 8 ≤ q → node_size (set_size m p v) q = node_size m q.
Proof. intros. apply ld32_st32_ne. lia. Qed.
Lemma next_set_size m p q v :
  q = p ∨ q + 8 ≤ p ∨ p + 8 ≤ q → node_next (set_size m p v) q = node_next m q.
Proof. intros. apply ld32_st32_ne. lia. Qed.

(** Computes the fields of nodes in an updated memory. *)
Ltac nodes :=
  repeat first
    [ rewrite next_set_next_eq | rewrite size_set_size_eq
    | rewrite next_set_next_ne by lia | rewrite size_set_next by lia
    | rewrite size_set_size_ne by lia | rewrite next_set_size by lia ].

(** ** Tilings and chains *)

Lemma tile_app min s B1 B2 e :
  tile min s (B1 ++ B2) e ↔ tile min s B1 (s + total B1) ∧ tile min (s + total B1) B2 e.
Proof.
  revert s; induction B1 as [|b B1 IH]; intros s; simpl.
  - rewrite Z.add_0_r. naive_solver.
  - rewrite IH. replace (s + (b_size b + total B1)) with (s + b_size b + total B1) by lia.
    naive_solver.
Qed.

Lemma tile_total min s B e : tile min s B e → e = s + total B.
Proof.
  revert s; induction B as [|b B IH]; intros s; simpl; [lia|].
  intros (_ & _ & _ & H). apply IH in H. lia.
Qed.

Lemma total_nonneg min s B e : 0 ≤ min → tile min s B e → 0 ≤ total B.
Proof.
  intros Hm. revert s; induction B as [|b B IH]; intros s; simpl; [lia|].
  intros (_ & ? & _ & H). apply IH in H. lia.
Qed.

Lemma tile_bounds min s B e :
  0 ≤ min → tile min s B e →
  Forall (λ b, s ≤ b_addr b ∧ b_addr b + b_size b ≤ e ∧ min ≤ b_size b) B.
Proof.
  intros Hm. revert s; induction B as [|b B IH]; intros s; simpl; [constructor|].
  intros (<- & ? & _ & H). pose proof (tile_total _ _ _ _ H).
  pose proof (total_nonneg _ _ _ _ Hm H). constructor; [lia|].
  eapply Forall_impl; [by apply IH|]. intros ? ?; simpl in *. lia.
Qed.

Lemma tile_aligned min s B e :
  s mod 8 = 0 → tile min s B e → Forall (λ b, b_addr b mod 8 = 0) B ∧ e mod 8 = 0.
Proof.
  revert s; induction B as [|b B IH]; intros s Hs; simpl; [by intros <-|].
  intros (<- & ? & ? & H). apply IH in H as [??]; [|lia]. split; [constructor|]; done.
Qed.

Lemma free_addrs_app B1 B2 : free_addrs (B1 ++ B2) = free_addrs B1 ++ free_addrs B2.
Proof.
  induction B1 as [|b B1 IH]; simpl; [done|]. rewrite IH. by destruct (b_used b).
Qed.

Lemma free_addrs_in B x : x ∈ free_addrs B → ∃ b, b ∈ B ∧ b_used b = false ∧ b_addr b = x.
Proof.
  induction B as [|b B IH]; simpl; [by intros ?%elem_of_nil|].
  destruct (b_used b) eqn:E; [|rewrite elem_of_cons]; set_solver.
Qed.

Lemma free_addrs_bounds (P : Z → Prop) B :
  Forall (λ b, P (b_addr b)) B → Forall P (free_addrs B).
Proof.
  induction 1 as [|b B ?? IH]; simpl; [constructor|]. destruct (b_used b); auto.
Qed.

Lemma used_total_app B1 B2 : used_total (B1 ++ B2) = used_total B1 + used_total B2.
Proof. induction B1 as [|b B1 IH]; simpl; lia. Qed.

Lemma total_app B1 B2 : total (B1 ++ B2) = total B1 + total B2.
Proof. induction B1 as [|b B1 IH]; simpl; lia. Qed.

Lemma used_total_bounds min s B e :
  0 ≤ min → tile min s B e → 0 ≤ used_total B ≤ total B.
Proof.
  intros Hm. revert s; induction B as [|b B IH]; intros s; simpl; [lia|].
  intros (_ & ? & _ & H). apply IH in H. unfold used_size. destruct (b_used b); lia.
Qed.

Lemma links_app m p f1 f2 last :
  links m p (f1 ++ f2) last ↔
  links m p f1 (hd last f2) ∧
  match f2 with [] => True | a :: f2 => links m a f2 last end.
Proof.
  revert p; induction f1 as [|a f1 IH]; intros p; simpl.
  - destruct f2; naive_solver.
  - rewrite IH. destruct f2; naive_solver.
Qed.

Lemma links_ext m m' p fs last :
  (∀ q, q ∈ p :: fs → node_next m' q = node_next m q) →
  links m p fs last → links m' p fs last.
Proof.
  revert p; induction fs as [|a fs IH]; intros p H; simpl.
  - intros <-. apply H. set_solver.
  - intros [<- ?]. split; [apply H; set_solver|]. apply IH; [|done].
    intros q Hq. apply H. set_solver.
Qed.

(** The last node of the chain [p :: fs]. *)
Fixpoint last_of (p : Z) (fs : list Z) : Z :=
  match fs with [] => p | a :: fs => last_of a fs end.

Lemma last_of_app p f1 a f2 : last_of p (f1 ++ a :: f2) = last_of a f2.
Proof. revert p; induction f1 as [|b f1 IH]; intros p; simpl; auto. Qed.

Lemma last_of_in p fs : last_of p fs ∈ p :: fs.
Proof.
  revert p; induction fs as [|a fs IH]; intros p; simpl; [set_solver|].
  specialize (IH a). set_solver.
Qed.

Lemma links_last m p fs last : links m p fs last → node_next m (last_of p fs) = last.
Proof. revert p; induction fs as [|a fs IH]; intros p; simpl; [done|]. naive_solver. Qed.

(** The chain with its final pointer redirected. *)
Lemma links_redirect m m' p fs last last' :
  (∀ q, q ∈ p :: fs → q ≠ last_of p fs → node_next m' q = node_next m q) →
  node_next m' (last_of p fs) = last' → NoDup (p :: fs) →
  links m p fs last → links m' p fs last'.
Proof.
  revert p; induction fs as [|a fs IH]; intros p H Hl Hnd; simpl in *; [done|].
  intros [<- Hk]. apply NoDup_cons in Hnd as [Hp Hnd]. split.
  - apply H; [set_solver|]. intros E. apply Hp.
    pose proof (last_of_in (node_next m p) fs) as Hi. by rewrite <- E in Hi.
  - apply IH; [|done..]. intros q Hq Hne. apply H; [set_solver|done].
Qed.

(** ** Facts about one tiling *)

Section Tile.
Context (min s e : Z) (B : list block).
Hypothesis Hmin : 8 ≤ min.
Hypothesis Ht : tile min s B e.

Lemma tile_in b : b ∈ B → s ≤ b_addr b ∧ b_addr b + b_size b ≤ e ∧ min ≤ b_size b.
Proof.
  intros Hb. assert (0 ≤ min) as H0 by lia. pose proof (tile_bounds _ _ _ _ H0 Ht) as H.
  rewrite Forall_forall in H. by apply H.
Qed.

(** Two blocks of a tiling are the same block or do not overlap. *)
Lemma tile_apart b1 b2 :
  b1 ∈ B → b2 ∈ B →
  b1 = b2 ∨ b_addr b1 + b_size b1 ≤ b_addr b2 ∨ b_addr b2 + b_size b2 ≤ b_addr b1.
Proof.
  intros [l1 [l2 ->]]%list_elem_of_split Hb2.
  apply tile_app in Ht as [T1 (E & ? & _ & T2)].
  assert (0 ≤ min) as H0 by lia.
  pose proof (tile_bounds _ _ _ _ H0 T1) as F1. pose proof (tile_bounds _ _ _ _ H0 T2) as F2.
  rewrite Forall_forall in F1, F2.
  apply elem_of_app in Hb2 as [Hb2|Hb2]; [|apply elem_of_cons in Hb2 as [->|Hb2]].
  - apply F1 in Hb2. lia.
  - by left.
  - apply F2 in Hb2. lia.
Qed.

Lemma free_addrs_tile x : x ∈ free_addrs B → s ≤ x ∧ x + min ≤ e.
Proof. intros (b & Hb & _ & <-)%free_addrs_in. apply tile_in in Hb. lia. Qed.

Context (root : Z).
Hypothesis Hroot : root + 8 ≤ s.
Let it := last_of root (free_addrs B).

Lemma last_free_cases :
  it = root ∨ ∃ b, b ∈ B ∧ b_used b = false ∧ b_addr b = it.
Proof.
  pose proof (last_of_in root (free_addrs B)) as H. fold it in H.
  apply elem_of_cons in H as [->|H]; [by left|right]. by apply free_addrs_in.
Qed.

Lemma last_free_bounds : root ≤ it ∧ it + 8 ≤ Z.max e (root + 8).
Proof.
  destruct last_free_cases as [->|(b & Hb & _ & E)]; [lia|].
  apply tile_in in Hb. rewrite <- E. lia.
Qed.

Lemma last_free_apart b :
  b ∈ B → b_addr b = it ∨ b_addr b + 8 ≤ it ∨ it + 8 ≤ b_addr b.
Proof.
  intros Hb. destruct last_free_cases as [->|(b' & Hb' & _ & E)].
  - apply tile_in in Hb. lia.
  - pose proof (tile_in _ Hb). pose proof (tile_in _ Hb').
    destruct (tile_apart _ _ Hb Hb') as [->|]; lia.
Qed.

Lemma last_free_apart_used b :
  b ∈ B → b_used b = true → b_addr b + 8 ≤ it ∨ it + 8 ≤ b_addr b.
Proof.
  intros Hb Hu. destruct last_free_cases as [->|(b' & Hb' & Hf & E)].
  - apply tile_in in Hb. lia.
  - pose proof (tile_in _ Hb). pose proof (tile_in _ Hb').
    destruct (tile_apart _ _ Hb Hb') as [->|]; [congruence|lia].
Qed.
End Tile.

Lemma tile_NoDup min s B e root :
  8 ≤ min → root + 8 ≤ s → tile min s B e → NoDup (root :: free_addrs B).
Proof.
  intros Hm Hr Ht. apply NoDup_cons. split.
  - intros H. apply (free_addrs_tile _ _ _ _ Hm Ht) in H. lia.
  - clear Hr. revert s Ht. induction B as [|b B IH]; intros s; simpl; [constructor|].
    intros (<- & ? & _ & Ht). destruct (b_used b); [by eapply IH|].
    apply NoDup_cons. split; [|by eapply IH].
    intros Hin. apply (free_addrs_tile _ _ _ _ Hm Ht) in Hin. lia.
Qed.

(** ** Coalescing *)

Lemma no_adj_app_l B1 B2 : no_adj (B1 ++ B2) → no_adj B1.
Proof.
  induction B1 as [|b [|b' B1] IH]; simpl in *; [done..|]. intros [? H]. split; [done|].
  by apply IH.
Qed.

Lemma no_adj_app_r B1 B2 : no_adj (B1 ++ B2) → no_adj B2.
Proof.
  induction B1 as [|b B1 IH]; [done|]. intros H. apply IH. clear IH.
  simpl in *. destruct (B1 ++ B2); [done|]. by destruct H.
Qed.

Lemma no_adj_cons_inv b B : no_adj (b :: B) → no_adj B.
Proof. apply (no_adj_app_r [b]). Qed.

Lemma glue_no_adj b B : no_adj (b :: B) → glue b B = b :: B.
Proof.
  destruct B as [|b' B]; [done|]. intros [[E|E] _]; simpl; rewrite E; [done|].
  by rewrite andb_false_r.
Qed.

Lemma coalesce_no_adj B : no_adj B → coalesce B = B.
Proof.
  induction B as [|b B IH]; [done|]. intros H. unfold coalesce in *. simpl.
  rewrite IH by (by apply no_adj_cons_inv in H). by apply glue_no_adj.
Qed.

Lemma no_adj_app B1 b B2 :
  no_adj (B1 ++ [b]) → no_adj (b :: B2) → no_adj (B1 ++ b :: B2).
Proof.
  induction B1 as [|b1 [|b1' B1] IH]; simpl in *; [done| |].
  - intros [? _] ?. done.
  - intros [? ?] ?. split; [done|]. by apply IH.
Qed.

(** Freeing between two parts that need no merging of their own merges at most
    with the two neighbours. *)
Lemma coalesce_around B1 b B2 R :
  glue b B2 = R → no_adj (B1 ++ R) → no_adj B2 → coalesce (B1 ++ b :: B2) = B1 ++ R.
Proof.
  intros HR Hadj H2. unfold coalesce. rewrite foldr_app. simpl. fold (coalesce B2).
  rewrite coalesce_no_adj by done. rewrite HR. clear HR H2.
  induction B1 as [|b1 B1 IH]; [done|]. simpl in *.
  rewrite IH by (by apply no_adj_cons_inv in Hadj). by apply glue_no_adj.
Qed.

Lemma coalesce_glue_back B1 p sp a sz B2 :
  p + sp = a →
  coalesce ((B1 ++ [Blk p sp false]) ++ Blk a sz false :: B2) =
  coalesce (B1 ++ Blk p (sp + sz) false :: B2).
Proof.
  intros _. rewrite <- app_assoc. unfold coalesce. rewrite !foldr_app. simpl. f_equal.
  destruct (foldr glue [] B2) as [|b' B']; simpl; [done|].
  destruct (b_used b') eqn:E; simpl; [done|]. by rewrite Z.add_assoc.
Qed.

(** Only the [b_used] fields matter to [no_adj]. *)
Lemma no_adj_ext B B' : map b_used B = map b_used B' → no_adj B → no_adj B'.
Proof.
  revert B'; induction B as [|b1 [|b2 B] IH]; intros [|b1' [|b2' B']]; try done.
  intros [= E1 E2 E3] [Hu Hn]. split; [by rewrite <- E1, <- E2|].
  apply (IH (b2' :: B')); [|done]. simpl. by rewrite E2, E3.
Qed.

Lemma no_adj_cons_used b B : b_used b = true → no_adj B → no_adj (b :: B).
Proof. intros Hb HB. destruct B; [done|]. split; [by left|done]. Qed.

Lemma no_adj_snoc_used b B : b_used b = true → no_adj B → no_adj (B ++ [b]).
Proof.
  intros Hb HB. destruct B as [|b' B _] using rev_ind; [done|]. rewrite <- app_assoc.
  apply no_adj_app; [done|]. by split; [right|].
Qed.
#[export] Hint Resolve no_adj_cons_used no_adj_snoc_used no_adj_app : no_adj.
