(* ===== verification/MmProof.v ===== *)
(** * The memory core implements its specification

    [mm_list_insert], [mm_alloc], [mm_free] and [mm_init] of Mm.v against the
    abstract heap of MmSpec.v: the refinement of one physical memory, its lift
    to the whole allocator, and the arithmetic corner cases. *)

From S2P Require Import Prelude Memory Mm MmSpec.

(** The bytes the allocator may write: its root object and the headers of the
    blocks [B]. *)
Definition meta (root : Z) (B : list block) (x : Z) : Prop :=
  root ≤ x < root + 8 ∨ ∃ b, b ∈ B ∧ b_addr b ≤ x < b_addr b + 8.

Lemma meta_addrs root B B' x : map b_addr B = map b_addr B' → meta root B x → meta root B' x.
Proof.
  intros E [H|(b & Hb & H)]; [by left|right]. apply (list_elem_of_fmap_2 b_addr) in Hb.
  change (b_addr <$> B) with (map b_addr B) in Hb. rewrite E in Hb.
  apply list_elem_of_fmap in Hb as (b' & Eb & ?). exists b'. by rewrite <- Eb.
Qed.

Lemma meta_it root B1 b0 B2 x :
  let it := last_of root (free_addrs B1) in
  it ≤ x < it + 8 ∨ b_addr b0 ≤ x < b_addr b0 + 8 → meta root (B1 ++ b0 :: B2) x.
Proof.
  intros it [H|H].
  - destruct (last_free_cases B1 root) as [E|(b & Hb & _ & E)]; fold it in E.
    + left. lia.
    + right. exists b. split; [set_solver|lia].
  - right. exists b0. split; [set_solver|done].
Qed.

Lemma total_mod min s B e : tile min s B e → total B mod 8 = 0.
Proof.
  revert s; induction B as [|b B IH]; intros s; simpl; [done|].
  intros (_ & _ & ? & H). apply IH in H. lia.
Qed.

Lemma links_hd m p fs last :
  node_next m p = hd last fs →
  match fs with [] => True | a :: fs => links m a fs last end → links m p fs last.
Proof. by destruct fs. Qed.

Lemma links_next m p fs last : links m p fs last → node_next m p = hd last fs.
Proof. destruct fs; [done|]. by intros [? _]. Qed.

Lemma find_spec fuel m p fs nx node :
  links m p fs nx → Forall (λ a, a < node) fs → node ≤ nx → (length fs < fuel)%nat →
  list_insert_find fuel p node m = Ret (last_of p fs, m).
Proof.
  revert fuel p; induction fs as [|a fs IH]; intros [|fuel] p; simpl; try lia; msimpl.
  - intros <- _ ? _. by rewrite (proj2 (Z.ltb_ge _ _)).
  - intros [<- Hl] [? ?]%Forall_cons ? ?. rewrite (proj2 (Z.ltb_lt _ _)) by done.
    apply IH; [done..|lia].
Qed.

(** ** mm_list_insert *)

(** What [mm_list_insert] leaves in memory once it has found the free block
    [it] to insert after. *)
Definition inserted (m : mem) (it a last : Z) : mem :=
  let back := u32 (it + mm_get_size (node_size m it)) =? a in
  let node := if back then it else a in
  let m1 := if back then set_size m it (node_size m it + mm_get_size (node_size m a)) else m in
  let next := node_next m1 it in
  let m2 :=
    if u32 (node + mm_get_size (node_size m1 node)) =? next
    then if next =? last then set_next m1 node last
         else let m' := set_size m1 node (node_size m1 node + mm_get_size (node_size m1 next)) in
              set_next m' node (node_next m' (node_next m' it))
    else set_next m1 node next in
  if back then m2 else set_next m2 it a.

Lemma inserted_run fuel m a root last it :
  root ≤ a ≤ last → it ≠ a → list_insert_find fuel root a m = Ret (it, m) →
  mm_list_insert fuel a root last m = Ret (tt, inserted m it a last).
Proof.
  intros Ha Hne Hf. unfold mm_list_insert.
  rewrite (proj2 (Z.ltb_ge a root)), (proj2 (Z.ltb_ge last a)) by lia. cbn [orb].
  rewrite (bind_Ret _ _ _ _ _ Hf). unfold inserted, bind, gets, modify, ret.
  destruct (u32 (it + mm_get_size (node_size m it)) =? a).
  - rewrite Z.eqb_refl. cbn. repeat case_match; simplify_eq; done.
  - rewrite (proj2 (Z.eqb_neq a it)) by done. cbn. repeat case_match; simplify_eq; done.
Qed.

Lemma inserted_frame m it a last :
  (mem_bytes m → mem_bytes (inserted m it a last)) ∧
  same_outside (λ x, it ≤ x < it + 8 ∨ a ≤ x < a + 8) m (inserted m it a last).
Proof.
  unfold inserted, set_size, set_next. cbv zeta. split.
  - intros. repeat case_match; auto.
  - repeat case_match; repeat (eapply same_outside_trans; [|apply same_outside_st32; lia]); done.
Qed.

(** The four outcomes: merged with neither neighbour, with the next one, with
    the previous one, with both. *)
Section Inserted.
Context (m : mem) (it a last n sz nx r : Z).
Hypothesis Hn : mm_get_size (node_size m it) = n.
Hypothesis Hnx : node_next m it = nx.
Hypothesis Hsz : node_size m a = enc r sz.
Hypothesis Hr : 0 ≤ r < 16.
Hypothesis Hit : 0 ≤ it ∧ 0 ≤ n ∧ it + 8 ≤ a ∧ 8 ≤ sz < 268435456.
Hypothesis Ha : it + n ≤ a ∧ a + sz < 4294967296.

Let Hw : mm_get_size (node_size m a) = sz.
Proof. rewrite Hsz. apply mm_get_size_enc. lia. Qed.

Lemma inserted_nn :
  it + n ≠ a → (a + sz = nx → nx = last) →
  inserted m it a last = set_next (set_next m a nx) it a.
Proof.
  intros Hb Hf. unfold inserted. rewrite Hn, Hw. nowrap. rewrite eqb_false by done.
  cbv zeta. rewrite Hw, Hnx. nowrap. destruct (a + sz =? nx) eqn:E; [|done].
  apply Z.eqb_eq in E. rewrite eqb_true by auto. by rewrite <- (Hf E).
Qed.

Lemma inserted_nf :
  it + n ≠ a → a + sz = nx → nx ≠ last →
  inserted m it a last =
    set_next (set_next (set_size m a (enc r sz + mm_get_size (node_size m nx))) a
                       (node_next m nx)) it a.
Proof.
  intros Hb Hf Hl. unfold inserted. rewrite Hn, Hw. nowrap. rewrite eqb_false by done.
  cbv zeta. rewrite Hw, Hnx. nowrap. rewrite eqb_true, eqb_false by done. rewrite Hsz.
  do 2 f_equal. rewrite (next_set_size _ _ it) by lia. rewrite Hnx. apply next_set_size. lia.
Qed.

Hypothesis Hw' : node_size m it = enc r n.
Hypothesis Hns : n + sz < 268435456.

Let Hm1 : node_size (set_size m it (enc r n + sz)) it = enc r (n + sz).
Proof. rewrite size_set_size_eq. unfold enc. nowrap. lia. Qed.

Lemma inserted_bn :
  it + n = a → (a + sz = nx → nx = last) →
  inserted m it a last = set_next (set_size m it (enc r n + sz)) it nx.
Proof.
  intros Hb Hf. unfold inserted. rewrite Hn, Hw. nowrap. rewrite eqb_true by done.
  cbv zeta. rewrite Hw', Hm1, next_set_size, Hnx, mm_get_size_enc by lia. nowrap.
  destruct (it + (n + sz) =? nx) eqn:E; [|done].
  apply Z.eqb_eq in E. rewrite eqb_true by (apply Hf; lia). by rewrite <- Hf by lia.
Qed.

Lemma inserted_bf :
  it + n = a → a + sz = nx → nx ≠ last →
  inserted m it a last =
    set_next (set_size (set_size m it (enc r n + sz)) it
                       (enc r (n + sz) + mm_get_size (node_size m nx))) it (node_next m nx).
Proof.
  intros Hb Hf Hl. unfold inserted. rewrite Hn, Hw. nowrap. rewrite eqb_true by done.
  cbv zeta. rewrite Hw', Hm1, next_set_size, Hnx, mm_get_size_enc by lia. nowrap.
  rewrite eqb_true, eqb_false by lia. rewrite size_set_size_ne by lia. f_equal.
  rewrite !(next_set_size _ _ it) by lia. rewrite Hnx. rewrite !next_set_size by lia. done.
Qed.
End Inserted.

Section ListInsert.
Context (r min root s last : Z).
Hypothesis Hr : 0 ≤ r < 16.
Hypothesis Hmin : 8 ≤ min.
Hypothesis Hroot0 : 0 ≤ root.
Hypothesis Hroot : root + 8 ≤ s.
Hypothesis Hsize : last - s < 268435456.
Hypothesis Hlast : last + 8 ≤ 4294967296.

(** The chain up to the last free block of [B1], whose pointer may change. *)
Lemma relink_front m m' B1 c nx nx' :
  tile min s B1 c → links m root (free_addrs B1) nx →
  let it := last_of root (free_addrs B1) in
  node_next m' it = nx' →
  (∀ q, q + 8 ≤ c → q + 8 ≤ it ∨ it + 8 ≤ q → node_next m' q = node_next m q) →
  links m' root (free_addrs B1) nx'.
Proof.
  intros T L it E Hnx. pose proof (tile_total _ _ _ _ T).
  pose proof (total_nonneg min s B1 c ltac:(lia) T).
  eapply links_redirect; [|done|by eapply tile_NoDup|exact L].
  intros q Hq Hne. fold it in Hne. apply elem_of_cons in Hq as [->|Hq].
  - destruct (last_free_cases B1 root) as [Ei|(b & Hb & _ & Ei)]; [done|].
    fold it in Ei. pose proof (tile_in _ _ _ _ Hmin T b Hb). rewrite Hnx; lia.
  - apply free_addrs_in in Hq as (b & Hb & _ & <-).
    pose proof (tile_in _ _ _ _ Hmin T b Hb).
    destruct (last_free_apart _ _ _ _ Hmin T _ Hroot b Hb) as [?|?]; [done|].
    rewrite Hnx; [done|lia|done].
Qed.

(** Replacing the blocks [Mid] by [New], once the headers of [New] are written
    and the chain redirected. *)
Lemma relink m m' X X' B1 Mid New B2 c e :
  heap_rep m r min root s last X (B1 ++ Mid ++ B2) →
  tile min s B1 c → tile min c Mid e → tile min c New e → c < e →
  (∀ x, x ∈ X → x ∈ X' ∨ c ≤ x < e) →
  let it := last_of root (free_addrs B1) in
  Forall (hdr m' r X') New → links m' it (free_addrs New) (hd last (free_addrs B2)) →
  (∀ q, q + 8 ≤ c ∨ e ≤ q → q = it ∨ q + 8 ≤ it ∨ it + 8 ≤ q →
        node_size m' q = node_size m q) →
  (∀ q, q + 8 ≤ c ∨ e ≤ q → q + 8 ≤ it ∨ it + 8 ≤ q → node_next m' q = node_next m q) →
  heap_rep m' r min root s last X' (B1 ++ New ++ B2).
Proof.
  intros [T H L Ln Ls Rs] T1 TM TN Hce HX it HN LN Hsz Hnx.
  pose proof (tile_total _ _ _ _ T1) as Tc. pose proof (tile_total _ _ _ _ TM) as Te.
  apply tile_app in T as [_ [_ T2]%tile_app]. rewrite <- Tc, <- Te in T2.
  pose proof (total_nonneg min s B1 c ltac:(lia) T1).
  pose proof (last_free_bounds _ _ _ _ Hmin T1 _ Hroot) as Hit. fold it in Hit.
  pose proof (total_nonneg min _ _ _ ltac:(lia) T2). pose proof (tile_total _ _ _ _ T2).
  apply Forall_app in H as [HB1 [_ HB2]%Forall_app]. rewrite Forall_forall in HB1, HB2.
  rewrite !free_addrs_app in L. apply links_app in L as [L1 L2].
  assert (match free_addrs B2 with [] => True | a :: f => links m a f last end) as L3.
  { destruct (free_addrs Mid) as [|x f]; [done|]. by apply links_app in L2 as [_ ?]. }
  constructor.
  - apply tile_app. rewrite <- Tc. split; [done|]. apply tile_app.
    by rewrite <- (tile_total _ _ _ _ TN).
  - rewrite !Forall_app. split_and!; [|done|]; apply Forall_forall; intros b Hb.
    + destruct (HB1 b Hb) as [Hbs Hbn]. pose proof (tile_in _ _ _ _ Hmin T1 b Hb). split.
      * rewrite Hsz; [done|lia|]. by apply (last_free_apart _ _ _ _ Hmin T1 _ Hroot).
      * intros Hu Hx. rewrite Hnx; [apply Hbn; [done|]|lia|].
        { intros [?|?]%HX; [done|lia]. }
        by apply (last_free_apart_used _ _ _ _ Hmin T1 _ Hroot).
    + destruct (HB2 b Hb) as [Hbs Hbn]. pose proof (tile_in _ _ _ _ Hmin T2 b Hb). split.
      * rewrite Hsz by lia. done.
      * intros Hu Hx. rewrite Hnx by lia. apply Hbn; [done|]. intros [?|?]%HX; [done|lia].
  - assert (match free_addrs B2 with [] => True | a :: f => links m' a f last end) as L4.
    { destruct (free_addrs B2) as [|x f] eqn:Ef; [done|]. eapply links_ext; [|exact L3].
      intros q Hq. rewrite <- Ef in Hq. apply (free_addrs_tile _ _ _ _ Hmin T2) in Hq.
      apply Hnx; lia. }
    rewrite !free_addrs_app. apply links_app. destruct (free_addrs New) as [|x f].
    + split; [|done]. eapply relink_front; [done..|exact LN|auto].
    + destruct LN as [LN1 LN2]. split; [|by apply links_app].
      eapply relink_front; [done..|exact LN1|auto].
  - rewrite Hnx by lia. done.
  - rewrite Hsz by lia. done.
  - rewrite Hsz; [done|lia|]. destruct (last_free_cases B1 root) as [E|(b & Hb & _ & E)];
      fold it in E; [lia|]. pose proof (tile_in _ _ _ _ Hmin T1 b Hb). lia.
Qed.

(** One free block in place of [Mid]. *)
Lemma assemble m m' X a B1 Mid B2 c n :
  heap_rep m r min root s last (a :: X) (B1 ++ Mid ++ B2) →
  tile min s B1 c → tile min c Mid (c + n) → c ≤ a < c + n → min ≤ n →
  let it := last_of root (free_addrs B1) in
  node_size m' c = enc r n → node_next m' c = hd last (free_addrs B2) →
  node_next m' it = c →
  (∀ q, q + 8 ≤ c ∨ c + 8 ≤ q → q = it ∨ q + 8 ≤ it ∨ it + 8 ≤ q →
        node_size m' q = node_size m q) →
  (∀ q, q + 8 ≤ c ∨ c + 8 ≤ q → q + 8 ≤ it ∨ it + 8 ≤ q → node_next m' q = node_next m q) →
  heap_rep m' r min root s last X (B1 ++ Blk c n false :: B2).
Proof.
  intros HR T1 TM Ha Hn it E1 E2 E3 Hsz Hnx.
  pose proof (tile_total _ _ _ _ TM). pose proof (total_mod _ _ _ _ TM).
  apply (relink m m' (a :: X) X B1 Mid [Blk c n false] B2 c (c + n)); auto with lia.
  - cbn. split_and!; lia.
  - intros x [->|?]%elem_of_cons; [right; lia|by left].
  - constructor; [|done]. by split.
  - by split.
Qed.

(** What the tests of [mm_list_insert] find before the node at [a] ... *)
Lemma back_cases m X B1 a :
  tile min s B1 a → a ≤ last → Forall (hdr m r X) B1 → node_size m root = 0 → no_adj B1 →
  let it := last_of root (free_addrs B1) in
  let n := mm_get_size (node_size m it) in
  (∃ B1', B1 = B1' ++ [Blk it n false] ∧ it + n = a ∧ tile min s B1' it ∧
          min ≤ n ∧ s ≤ it ∧ node_size m it = enc r n ∧ n mod 8 = 0) ∨
  (0 ≤ n ∧ it + n < a ∧ ∀ b, b_used b = false → no_adj (B1 ++ [b])).
Proof.
  intros T Ha H Hz Hadj it n. destruct (last_free_cases B1 root) as [E|(b & Hb & Hu & E)].
  - right. fold it in E. subst n. rewrite E, Hz. replace (mm_get_size 0) with 0 by done.
    pose proof (tile_total _ _ _ _ T). pose proof (total_nonneg min s B1 a ltac:(lia) T).
    split_and!; [lia..|]. intros b Hbu.
    destruct B1 as [|b' B1 _] using rev_ind; [done|]. rewrite <- app_assoc.
    apply no_adj_app; [done|]. split; [|done]. left. destruct (b_used b') eqn:Eu; [done|].
    unfold it in E. rewrite free_addrs_app in E. cbn in E. rewrite Eu, last_of_app in E.
    apply tile_app in T as [T1 (? & ? & ?)]. cbn in E.
    pose proof (total_nonneg min s B1 _ ltac:(lia) T1). lia.
  - fold it in E. pose proof (tile_in _ _ _ _ Hmin T b Hb) as Hin.
    rewrite Forall_forall in H. destruct (H b Hb) as [Hs _]. rewrite E in Hs.
    assert (n = b_size b) as En by (unfold n; rewrite Hs, mm_get_size_enc; lia).
    destruct B1 as [|b' B1 _] using rev_ind; [set_solver|].
    apply tile_app in T as T'. destruct T' as [T1 (E' & Hm' & H8 & Te)]. cbn in Te.
    destruct (b_used b') eqn:Eu.
    + right. split_and!; [lia| |].
      * apply elem_of_app in Hb as [Hb|Hb%list_elem_of_singleton]; [|congruence].
        pose proof (tile_in _ _ _ _ Hmin T1 b Hb). lia.
      * intros b'' _. rewrite <- app_assoc. apply no_adj_app; [done|]. by split; [left|].
    + left. exists B1. pose proof E as Ei. unfold it in E. rewrite free_addrs_app in E. cbn in E.
      rewrite Eu, last_of_app in E. cbn in E.
      destruct (tile_apart _ _ _ _ Hmin T b b' Hb ltac:(set_solver)) as [->|]; [|].
      2: { pose proof (tile_in _ _ _ _ Hmin T b' ltac:(set_solver)). lia. }
      clearbody n it. subst n it. rewrite <- E' in T1. split_and!; [|lia|done|lia..|done|done].
      destruct b'; cbn in *. by subst.
Qed.

Lemma hd_free B2 e :
  tile min e B2 last → s ≤ e → e ≤ hd last (free_addrs B2) ≤ last.
Proof.
  intros T He. pose proof (tile_total _ _ _ _ T).
  pose proof (total_nonneg min e B2 last ltac:(lia) T).
  destruct (free_addrs B2) as [|x f] eqn:Ef; cbn; [lia|].
  pose proof (free_addrs_tile _ _ _ _ Hmin T x ltac:(rewrite Ef; set_solver)). lia.
Qed.

(** ... on either side. *)
Lemma fwd_cases m X B2 e :
  tile min e B2 last → s ≤ e → Forall (hdr m r X) B2 →
  let nx := hd last (free_addrs B2) in
  (∃ n B2', B2 = Blk e n false :: B2' ∧ nx = e ∧ e ≠ last ∧ min ≤ n ∧ e + n ≤ last ∧
            tile min (e + n) B2' last ∧ node_size m e = enc r n ∧ n mod 8 = 0) ∨
  (e ≤ nx ∧ (e = nx → nx = last) ∧ nx ≤ last ∧
   ∀ b, no_adj B2 → no_adj (b :: B2) ∧ glue b B2 = b :: B2).
Proof.
  intros T He H nx. pose proof (tile_total _ _ _ _ T) as Et.
  pose proof (total_nonneg min e B2 last ltac:(lia) T).
  pose proof (hd_free _ _ T He) as Hnx. fold nx in Hnx.
  destruct B2 as [|[e' n u] B2].
  - right. cbn in *. split_and!; [lia..|done].
  - destruct T as (E' & Hn & H8 & T). cbn in *. subst e'.
    apply Forall_cons in H as [[Hs _] _]. cbn in Hs.
    pose proof (tile_total _ _ _ _ T) as Et'.
    pose proof (total_nonneg min _ B2 last ltac:(lia) T). destruct u.
    + right. split_and!; [lia| |lia|].
      * intros E. pose proof (hd_free _ _ T ltac:(lia)) as Hh.
        change (hd last (free_addrs B2)) with nx in Hh. lia.
      * intros b Hb. cbn. split; [by split; [right|]|]. by rewrite andb_false_r.
    + left. exists n, B2. split_and!; try done; lia.
Qed.

(** [mm_list_insert] stops at the last free block before [a]. *)
Lemma find_run fuel m B1 B2 a e :
  tile min s B1 a → tile min e B2 last → a < e →
  links m root (free_addrs B1) (hd last (free_addrs B2)) →
  (length (free_addrs B1) < fuel)%nat →
  mm_list_insert fuel a root last m =
  Ret (tt, inserted m (last_of root (free_addrs B1)) a last).
Proof.
  intros T1 T2 Hae L Hf. pose proof (tile_total _ _ _ _ T1).
  pose proof (total_nonneg min s B1 _ ltac:(lia) T1).
  pose proof (hd_free _ _ T2 ltac:(lia)).
  pose proof (last_free_bounds _ _ _ _ Hmin T1 _ Hroot).
  apply inserted_run; [lia..|]. eapply find_spec; [exact L| |lia|done].
  apply Forall_forall. intros x Hx. apply (free_addrs_tile _ _ _ _ Hmin T1) in Hx. lia.
Qed.

Ltac assemble_tac B1 Mid B2 :=
  eapply (assemble _ _ _ _ B1 Mid B2);
  [eassumption |eassumption |cbn; split_and!; lia |lia |lia
  |nodes; unfold enc in *; nowrap; lia |nodes; nowrap; lia |nodes; nowrap; lia
  |intros; nodes; done |intros; nodes; done ].

Lemma back_in m B1 it n nx :
  links m root (free_addrs (B1 ++ [Blk it n false])) nx → tile min s B1 it →
  let p := last_of root (free_addrs B1) in node_next m p = it ∧ root ≤ p ∧ p + 8 ≤ it.
Proof.
  rewrite free_addrs_app. intros [L _]%links_app T p. cbn in L. split.
  - by apply links_last in L.
  - pose proof (last_free_bounds _ _ _ _ Hmin T _ Hroot). pose proof (tile_total _ _ _ _ T).
    pose proof (total_nonneg min s B1 _ ltac:(lia) T). fold p in H. lia.
Qed.

Lemma inserted_spec m X B1 a sz B2 :
  heap_rep m r min root s last (a :: X) (B1 ++ Blk a sz true :: B2) →
  no_adj B1 → no_adj B2 →
  let m' := inserted m (last_of root (free_addrs B1)) a last in
  heap_rep m' r min root s last X (coalesce (B1 ++ Blk a sz false :: B2)) ∧
  (mem_bytes m → mem_bytes m') ∧
  same_outside (meta root (B1 ++ Blk a sz true :: B2)) m m'.
Proof.
  intros HR A1 A2 m'. pose proof HR as [T H L Ln Ls Rs].
  apply tile_app in T as [T1 (Ea & Hsz & H8 & T2)]. cbn in Ea, Hsz, H8, T2.
  rewrite <- Ea in T1, T2. pose proof (tile_total _ _ _ _ T1).
  pose proof (tile_total _ _ _ _ T2) as Hl.
  pose proof (total_nonneg min s B1 _ ltac:(lia) T1).
  pose proof (total_nonneg min _ B2 _ ltac:(lia) T2).
  apply Forall_app in H as [HB1 [[Hs _] HB2]%Forall_cons]. cbn in Hs.
  rewrite free_addrs_app in L. cbn in L. apply links_app in L as [L1 L2].
  pose proof (links_last _ _ _ _ L1) as Hnx.
  pose proof (last_free_bounds _ _ _ _ Hmin T1 _ Hroot) as Hit.
  pose proof (back_cases m _ B1 a T1 ltac:(lia) HB1 Rs A1) as HK.
  pose proof (fwd_cases m _ B2 (a + sz) T2 ltac:(lia) HB2) as HF.
  cbv zeta in HK, HF.
  remember (last_of root (free_addrs B1)) as it eqn:Eit.
  remember (mm_get_size (node_size m it)) as n eqn:Eq. symmetry in Eq.
  remember (hd last (free_addrs B2)) as nx eqn:Enx.
  destruct (inserted_frame m it a last) as [Hmb Hso]. fold m' in Hmb, Hso.
  split_and!; [|done|].
  2: { eapply same_outside_mono; [|exact Hso]. rewrite Eit. intros x. by apply (meta_it root B1 (Blk a sz true)). }
  destruct HK as [(B1' & -> & Ek & T1' & ? & ? & Hw)|(? & ? & HA1)];
  destruct HF as [(n2 & B2' & -> & En & ? & ? & ? & T2' & Hs2 & ?)|(? & Hnl & ? & HA2)].
  - apply back_in in L1 as [Hp Hb]; [|done..]. cbv zeta in Hp, Hb. rewrite coalesce_glue_back by done.
    rewrite (coalesce_around _ _ _ (Blk it (n + sz + n2) false :: B2')).
    { unfold m'. rewrite (inserted_bf m it a last n sz nx r) by first [done|lia].
      cbn in L2. apply links_next in L2. pose proof (hd_free _ _ T2' ltac:(lia)).
      rewrite En, Hs2, mm_get_size_enc, <- app_assoc in * by lia.
      assemble_tac B1' [Blk it n false; Blk a sz true; Blk (a + sz) n2 false] B2'. }
    + done.
    + apply no_adj_app; [by eapply no_adj_ext, A1; rewrite !map_app|].
      by eapply no_adj_ext, A2.
    + done.
  - apply back_in in L1 as [Hp Hb]; [|done..]. cbv zeta in Hp, Hb. rewrite coalesce_glue_back by done.
    rewrite (coalesce_around _ _ _ (Blk it (n + sz) false :: B2)).
    { unfold m'. rewrite (inserted_bn m it a last n sz nx r) by first [done|lia].
      rewrite <- app_assoc in *.
      assemble_tac B1' [Blk it n false; Blk a sz true] B2. }
    + by apply HA2.
    + apply no_adj_app; [by eapply no_adj_ext, A1; rewrite !map_app|by apply HA2].
    + done.
  - rewrite (coalesce_around _ _ _ (Blk a (sz + n2) false :: B2')).
    { unfold m'. rewrite (inserted_nf m it a last n sz nx r) by first [done|lia].
      cbn in L2. apply links_next in L2. pose proof (hd_free _ _ T2' ltac:(lia)).
      rewrite En, Hs2, mm_get_size_enc by lia.
      subst it. assemble_tac B1 [Blk a sz true; Blk (a + sz) n2 false] B2'. }
    + done.
    + apply no_adj_app; [by apply HA1|]. by eapply no_adj_ext, A2.
    + done.
  - rewrite (coalesce_around _ _ _ (Blk a sz false :: B2)).
    { unfold m'. rewrite (inserted_nn m it a last n sz nx r) by first [done|lia].
      subst it. assemble_tac B1 [Blk a sz true] B2. }
    + by apply HA2.
    + apply no_adj_app; [by apply HA1|by apply HA2].
    + done.
Qed.

Lemma list_insert_spec fuel m X B1 a sz B2 :
  heap_rep m r min root s last (a :: X) (B1 ++ Blk a sz true :: B2) →
  no_adj B1 → no_adj B2 → (length (free_addrs B1) < fuel)%nat →
  ∃ m', mm_list_insert fuel a root last m = Ret (tt, m') ∧
    heap_rep m' r min root s last X (coalesce (B1 ++ Blk a sz false :: B2)) ∧
    (mem_bytes m → mem_bytes m') ∧
    same_outside (meta root (B1 ++ Blk a sz true :: B2)) m m'.
Proof.
  intros HR A1 A2 Hf. eexists. split; [|by apply inserted_spec].
  destruct HR as [[T1 (Ea & ? & ? & T2)]%tile_app _ L _ _ _]. cbn in *.
  rewrite <- Ea in *. rewrite free_addrs_app in L. apply links_app in L as [L _].
  eapply find_run; [done|exact T2|lia|done..].
Qed.

(** The common preliminaries on a heap split at one block. *)
Lemma heap_split m X B1 b B2 :
  heap_rep m r min root s last X (B1 ++ b :: B2) →
  let it := last_of root (free_addrs B1) in
  tile min s B1 (b_addr b) ∧ tile min (b_addr b + b_size b) B2 last ∧
  min ≤ b_size b ∧ b_size b mod 8 = 0 ∧
  s ≤ b_addr b ∧ b_addr b + b_size b ≤ last ∧ root ≤ it ∧ it + 8 ≤ b_addr b ∧
  node_next m it = hd last (free_addrs (b :: B2)) ∧
  (b_used b = false → node_next m (b_addr b) = hd last (free_addrs B2)) ∧
  b_addr b ≤ hd last (free_addrs (b :: B2)) ≤ last ∧
  b_addr b + b_size b ≤ hd last (free_addrs B2) ≤ last.
Proof.
  intros [T _ L _ _ _] it. apply tile_app in T as [T1 T2].
  destruct (T2) as (E & Hm & H8 & T2'). rewrite <- E in *.
  pose proof (tile_total _ _ _ _ T1). pose proof (tile_total _ _ _ _ T2').
  pose proof (total_nonneg min s B1 _ ltac:(lia) T1).
  pose proof (total_nonneg min _ B2 _ ltac:(lia) T2').
  pose proof (last_free_bounds _ _ _ _ Hmin T1 _ Hroot) as Hit. fold it in Hit.
  pose proof (hd_free _ _ T2 ltac:(lia)). pose proof (hd_free _ _ T2' ltac:(lia)).
  rewrite free_addrs_app in L. apply links_app in L as [L1 L2]. apply links_last in L1.
  split_and!; try done; try lia. intros Hu. cbn in L2. rewrite Hu in L2.
  by apply links_next in L2.
Qed.

(** Writing the magic number completes a used block. *)
Lemma heap_rep_magic m X B1 a sz B2 :
  heap_rep m r min root s last (a :: X) (B1 ++ Blk a sz true :: B2) →
  heap_rep (set_next m a MM_MAGIC) r min root s last X (B1 ++ Blk a sz true :: B2).
Proof.
  intros HR. pose proof (heap_split _ _ _ _ _ HR) as Hs. cbn in Hs.
  pose proof HR as [_ [_ [[Hsz _] _]%Forall_cons]%Forall_app _ _ _ _]. cbn in Hsz.
  remember (last_of root (free_addrs B1)) as it eqn:Eit.
  destruct Hs as (T1 & T2 & Hm & H8 & ? & ? & ? & ? & Hit & _).
  apply (relink m _ (a :: X) X B1 [Blk a sz true] [Blk a sz true] B2 a (a + sz));
    rewrite <- ?Eit; auto.
  - by repeat split.
  - by repeat split.
  - lia.
  - intros x [->|?]%elem_of_cons; [right; lia|by left].
  - constructor; [|done]. split; cbn; [by nodes|intros; by nodes].
  - cbn. by nodes.
  - intros. by nodes.
  - intros. by nodes.
Qed.

(** Taking a free block out of the chain and cutting it into the used
    blocks [U]. *)
Lemma unlink m m' X B1 a sz U B2 :
  heap_rep m r min root s last [] (B1 ++ Blk a sz false :: B2) →
  tile min a U (a + sz) →
  Forall (λ b, b_used b = true ∧ b_addr b ∈ X ∧ node_size m' (b_addr b) = enc r (b_size b)) U →
  let it := last_of root (free_addrs B1) in
  node_next m' it = node_next m a →
  (∀ q, q + 8 ≤ a ∨ a + sz ≤ q → q = it ∨ q + 8 ≤ it ∨ it + 8 ≤ q →
        node_size m' q = node_size m q) →
  (∀ q, q + 8 ≤ a ∨ a + sz ≤ q → q + 8 ≤ it ∨ it + 8 ≤ q → node_next m' q = node_next m q) →
  heap_rep m' r min root s last X (B1 ++ U ++ B2).
Proof.
  intros HR TU HU it Hn Hsz Hnx. pose proof (heap_split _ _ _ _ _ HR) as Hs. cbn in Hs.
  destruct Hs as (T1 & T2 & Hm & H8 & ? & ? & ? & ? & Hit & Ha & _).
  apply (relink m m' [] X B1 [Blk a sz false] U B2 a (a + sz)); auto.
  - by repeat split.
  - lia.
  - set_solver.
  - eapply Forall_impl; [exact HU|]. intros b (? & ? & ?). by split.
  - replace (free_addrs U) with (@nil Z).
    { change (node_next m' it = hd last (free_addrs B2)). by rewrite Hn, Ha. }
    clear -HU. induction HU as [|b U (E & _) _ IH]; cbn; [done|]. by rewrite E.
Qed.

(** The search of [mm_alloc] is first fit over the free blocks. *)
Lemma first_fit_spec fuel m X p B n :
  Forall (hdr m r X) B → Forall (λ b, 0 < b_addr b ∧ 0 ≤ b_size b < 268435456) B →
  links m p (free_addrs B) last → node_next m last = 0 → 0 < last →
  (length (free_addrs B) < fuel)%nat →
  (∃ B1 b B2, B = B1 ++ b :: B2 ∧ Forall (λ b, fits n b = false) B1 ∧ fits n b = true ∧
    first_fit fuel n (node_next m p) p m = Ret ((b_addr b, last_of p (free_addrs B1)), m)) ∨
  (Forall (λ b, fits n b = false) B ∧ ∃ q,
    first_fit fuel n (node_next m p) p m = Ret ((last, q), m)).
Proof.
  intros HH HB HL Hl0 Hl. revert fuel p HL.
  induction B as [|b B IH]; intros [|fuel] p HL Hf; [lia| |lia|].
  { right. split; [done|]. exists p. cbn in HL |- *. msimpl. by rewrite HL, Hl0. }
  apply Forall_cons in HH as [Hh HH], HB as [Hb HB]. specialize (IH HH HB).
  cbn [free_addrs] in *. destruct (b_used b) eqn:Eu.
  - destruct (IH (S fuel) p HL Hf) as [(B1 & b' & B2 & -> & HN & Hb' & E)|(HN & E)].
    + left. exists (b :: B1), b', B2. cbn [free_addrs]. rewrite Eu. split_and!; try done.
      constructor; [|done]. unfold fits. by rewrite Eu.
    + right. split; [|done]. constructor; [|done]. unfold fits. by rewrite Eu.
  - destruct HL as [E HL]. destruct Hh as [Hsz _]. cbn [first_fit]. msimpl.
    rewrite E. pose proof (links_next _ _ _ _ HL) as Hn0.
    assert (node_next m (b_addr b) ≠ 0) as Hn.
    { rewrite Hn0. destruct (free_addrs B) as [|x f] eqn:Ef; cbn; [lia|].
      assert (x ∈ free_addrs B) as (b' & Hb' & _ & <-)%free_addrs_in by (rewrite Ef; set_solver).
      rewrite Forall_forall in HB. specialize (HB _ Hb'). lia. }
    unfold bind, gets, NULL. rewrite eqb_false by done. cbn [negb].
    rewrite Hsz, mm_get_size_enc by lia. destruct (n <=? b_size b) eqn:En.
    + left. exists [], b, B. split_and!; try done. unfold fits. by rewrite Eu, En.
    + assert (fits n b = false) as Hnf by (unfold fits; by rewrite Eu, En).
      cbn [length] in Hf.
      destruct (IH fuel (b_addr b) HL ltac:(lia)) as [(B1 & b' & B2 & -> & HN & Hb' & E')|(HN & E')].
      * left. exists (b :: B1), b', B2. cbn [free_addrs]. rewrite Eu. split_and!; auto.
      * right. auto.
Qed.

(** The memory after [mm_alloc] took the block at [a] whole ... *)
Lemma take_spec m B1 a sz B2 :
  heap_rep m r min root s last [] (B1 ++ Blk a sz false :: B2) →
  heap_rep (set_next (set_next m (last_of root (free_addrs B1)) (node_next m a)) a MM_MAGIC)
    r min root s last [] (B1 ++ Blk a sz true :: B2).
Proof.
  intros HR. pose proof (heap_split _ _ _ _ _ HR) as Hs. cbn in Hs.
  pose proof HR as [_ [_ [[Hsz _] _]%Forall_cons]%Forall_app _ _ _ _]. cbn in Hsz.
  apply heap_rep_magic.
  remember (last_of root (free_addrs B1)) as it eqn:Eit.
  destruct Hs as (T1 & T2 & Hm & H8 & ? & ? & ? & ? & Hit & Hn & ? & ?).
  specialize (Hn eq_refl).
  apply (unlink m _ [a] B1 a sz [Blk a sz true] B2); rewrite <- ?Eit; auto.
  - by repeat split.
  - constructor; [|done]. cbn. split_and!; [done|set_solver|by nodes].
  - nodes. nowrap. done.
  - intros. by nodes.
  - intros. by nodes.
Qed.

(** ... or cut it in two, before the rest goes back to the list. *)
Definition split_mem (m : mem) (it a n sz : Z) : mem :=
  let m1 := set_next m it (node_next m a) in
  let m2 := set_size m1 (a + n) (mm_set_region (node_size m1 (a + n)) r) in
  let m3 := set_size m2 (a + n) (mm_set_size (node_size m2 (a + n)) (sz - n)) in
  set_size m3 a (mm_set_size (node_size m3 a) n).

Lemma split_mem_spec m B1 a n sz B2 :
  mem_bytes m → heap_rep m r min root s last [] (B1 ++ Blk a sz false :: B2) →
  min ≤ n → n + min ≤ sz → n mod 8 = 0 →
  heap_rep (split_mem m (last_of root (free_addrs B1)) a n sz) r min root s last
    [a + n; a] (B1 ++ [Blk a n true; Blk (a + n) (sz - n) true] ++ B2).
Proof.
  intros Hb HR Hn Hns Hn8. pose proof (heap_split _ _ _ _ _ HR) as Hs. cbn in Hs.
  pose proof HR as [_ [_ [[Hsz _] _]%Forall_cons]%Forall_app _ _ _ _]. cbn in Hsz.
  unfold split_mem. cbv zeta. remember (last_of root (free_addrs B1)) as it eqn:Eit.
  destruct Hs as (T1 & T2 & Hm & H8 & ? & ? & ? & ? & Hit & Hx & ? & ?).
  specialize (Hx eq_refl).
  set (m1 := set_next m it (node_next m a)).
  assert (0 ≤ node_size m1 (a + n) < 4294967296) as Hw.
  { unfold m1, set_next, node_size. apply ld32_range. auto. }
  rewrite mm_set_region_spec, size_set_size_eq by done.
  assert (0 ≤ node_size m1 (a + n) mod 268435456 < 268435456) as Hw' by lia.
  remember (node_size m1 (a + n) mod 268435456) as w eqn:Ew.
  rewrite (u32_small (enc r w)) by (unfold enc; lia).
  rewrite mm_set_size_enc by lia.
  assert (node_size (set_size (set_size m1 (a + n) (enc r w)) (a + n) (enc r (sz - n))) a
          = enc r sz) as ->.
  { unfold m1. by nodes. }
  rewrite mm_set_size_enc by lia. unfold m1.
  apply (unlink m _ _ B1 a sz _ B2); rewrite <- ?Eit; auto.
  - cbn. split_and!; lia.
  - constructor; [|constructor; [|done]]; cbn; (split_and!; [done|set_solver|]);
      nodes; unfold enc; nowrap; lia.
  - nodes. nowrap. done.
  - intros. by nodes.
  - intros. by nodes.
Qed.

Lemma split_mem_frame m it a n sz :
  mem_bytes m →
  mem_bytes (split_mem m it a n sz) ∧
  same_outside (λ x, it ≤ x < it + 8 ∨ a ≤ x < a + 8 ∨ a + n ≤ x < a + n + 8)
    m (split_mem m it a n sz).
Proof.
  unfold split_mem, set_size, set_next. cbv zeta. split; [by auto|].
  repeat (eapply same_outside_trans; [|apply same_outside_st32; lia]). done.
Qed.

Lemma split_spec fuel m B1 a n sz B2 :
  mem_bytes m → heap_rep m r min root s last [] (B1 ++ Blk a sz false :: B2) →
  no_adj (B1 ++ Blk a sz false :: B2) →
  min ≤ n → n + min ≤ sz → n mod 8 = 0 → (length (free_addrs B1) < fuel)%nat →
  let m4 := split_mem m (last_of root (free_addrs B1)) a n sz in
  let B' := B1 ++ Blk a n true :: Blk (a + n) (sz - n) false :: B2 in
  ∃ m5, mm_list_insert fuel (a + n) root last m4 = Ret (tt, m5) ∧
    heap_rep (set_next m5 a MM_MAGIC) r min root s last [] B' ∧ mem_bytes m5 ∧
    same_outside (meta root B') m m5.
Proof.
  intros Hb HR A Hn Hns Hn8 Hf m4 B'. pose proof (split_mem_spec _ _ _ _ _ _ Hb HR Hn Hns Hn8) as H4.
  fold m4 in H4. destruct (split_mem_frame m (last_of root (free_addrs B1)) a n sz Hb) as [Hb4 F4].
  fold m4 in Hb4, F4. pose proof (no_adj_app_l _ _ A) as A1.
  pose proof (no_adj_app_r _ _ A) as A2. pose proof (no_adj_cons_inv _ _ A2) as A3.
  destruct (list_insert_spec fuel m4 [a] (B1 ++ [Blk a n true]) (a + n) (sz - n) B2)
    as (m5 & E5 & H5 & Hb5 & F5); auto with no_adj.
  { by rewrite <- app_assoc. }
  { by rewrite free_addrs_app, app_nil_r. }
  rewrite <- app_assoc, coalesce_no_adj in H5.
  2: { apply no_adj_app; [by auto with no_adj|]. apply no_adj_cons_used; [done|].
       by eapply no_adj_ext, A2. }
  exists m5. split_and!; [done|by apply heap_rep_magic|auto|].
  eapply same_outside_trans; [eapply same_outside_mono; [|exact F4]|
    eapply same_outside_mono; [|exact F5]].
  - intros x [Hx|[Hx|Hx]]; [unfold B'; apply meta_it; by left| |]; right.
    + exists (Blk a n true). split; [set_solver|done].
    + exists (Blk (a + n) (sz - n) false). split; [set_solver|done].
  - intros x. apply meta_addrs. unfold B'. by rewrite <- app_assoc, !map_app.
Qed.
End ListInsert.
