(* ===== verification/MmRefine.v ===== *)
(** * The allocator as a whole refines the abstract heap

    The properties of [mm_alloc], [mm_free] and [mm_init] on the state of all
    physical memories. *)

From S2P Require Import Prelude Memory Mm MmSpec MmProof.

(** ** Abstract heap operations *)

(** What first fit makes of the free block it picks. *)
Definition cut (min n : Z) (b : block) : list block :=
  if n + min <=? b_size b
  then [Blk (b_addr b) n true; Blk (b_addr b + n) (b_size b - n) false]
  else [Blk (b_addr b) (b_size b) true].

Lemma alloc_blocks_some min n B1 b B2 :
  Forall (λ b, fits n b = false) B1 → fits n b = true →
  alloc_blocks min n (B1 ++ b :: B2) = Some (b_addr b, B1 ++ cut min n b ++ B2).
Proof.
  intros H1 Hb. induction H1 as [|b1 B1 Hf _ IH]; simpl.
  - rewrite Hb. unfold cut. by destruct (n + min <=? b_size b).
  - by rewrite Hf, IH.
Qed.

Lemma alloc_blocks_none min n B :
  Forall (λ b, fits n b = false) B → alloc_blocks min n B = None.
Proof. induction 1 as [|b B Hf _ IH]; simpl; [done|]. by rewrite Hf, IH. Qed.

Lemma alloc_blocks_inv min n B p B' :
  alloc_blocks min n B = Some (p, B') →
  ∃ B1 b B2, B = B1 ++ b :: B2 ∧ fits n b = true ∧ p = b_addr b ∧
             B' = B1 ++ cut min n b ++ B2.
Proof.
  revert B'; induction B as [|b B IH]; intros B'; simpl; [done|].
  destruct (fits n b) eqn:E.
  - exists [], b, B. unfold cut. destruct (n + min <=? b_size b); naive_solver.
  - destruct (alloc_blocks min n B) as [[q B'']|]; [|done]. intros [= <- <-].
    destruct (IH _ eq_refl) as (B1 & b' & B2 & -> & ? & -> & ->).
    by exists (b :: B1), b', B2.
Qed.

Lemma free_addrs_length B : (length (free_addrs B) ≤ length B)%nat.
Proof. induction B as [|b B IH]; cbn; [done|]. destruct (b_used b); cbn; lia. Qed.

Lemma fits_iff n b : fits n b = true ↔ b_used b = false ∧ n ≤ b_size b.
Proof. unfold fits. destruct (b_used b); simpl; rewrite ?Z.leb_le; naive_solver. Qed.

(** The block [alloc_blocks] returns. *)
Lemma alloc_blocks_block min n B p B' :
  alloc_blocks min n B = Some (p, B') →
  ∃ sz, Blk p sz true ∈ B' ∧ n ≤ sz ∧ (length B' ≤ S (length B))%nat.
Proof.
  intros (B1 & b & B2 & -> & [Hu Hn]%fits_iff & -> & ->)%alloc_blocks_inv. unfold cut.
  destruct (n + min <=? b_size b); [exists n|exists (b_size b)];
    (split_and!; [apply elem_of_app; right; left|done|rewrite !length_app; cbn; lia]).
Qed.

Lemma cut_tile min n b :
  b_size b mod 8 = 0 → n mod 8 = 0 → min ≤ n ≤ b_size b →
  tile min (b_addr b) (cut min n b) (b_addr b + b_size b).
Proof.
  intros. unfold cut. destruct (n + min <=? b_size b) eqn:E; simpl.
  - apply Z.leb_le in E. split_and!; lia.
  - split_and!; lia.
Qed.

Lemma cut_no_adj min n B1 b B2 :
  no_adj (B1 ++ b :: B2) → b_used b = false → no_adj (B1 ++ cut min n b ++ B2).
Proof.
  intros H Hu. unfold cut. pose proof (no_adj_app_l _ _ H) as H1.
  pose proof (no_adj_app_r _ _ H) as H2. pose proof (no_adj_cons_inv _ _ H2) as H3.
  destruct (n + min <=? b_size b); simpl; auto with no_adj.
  apply no_adj_app; [by auto with no_adj|]. apply no_adj_cons_used; [done|].
  eapply no_adj_ext, H2. simpl. by rewrite Hu.
Qed.

Lemma glue_no_adj_result b B : no_adj B → no_adj (glue b B).
Proof.
  destruct B as [|b' B]; [done|]. intros H. cbn.
  destruct (negb (b_used b) && negb (b_used b')) eqn:E.
  - apply andb_prop in E as [_ E%negb_true_iff]. eapply no_adj_ext, H. simpl. by rewrite E.
  - split; [|done]. destruct (b_used b), (b_used b'); naive_solver.
Qed.

Lemma coalesce_result B : no_adj (coalesce B).
Proof. induction B; [done|]. by apply glue_no_adj_result. Qed.

Lemma used_total_coalesce B : used_total (coalesce B) = used_total B.
Proof.
  induction B as [|b B IH]; [done|]. cbn. fold (coalesce B) (used_total B). rewrite <- IH.
  destruct (coalesce B) as [|b' B']; [done|]. cbn. unfold used_size.
  destruct (b_used b) eqn:E, (b_used b') eqn:E'; cbn; rewrite ?E, ?E'; lia.
Qed.

Lemma mark_free_split min s B1 a sz B2 e :
  8 ≤ min → tile min s (B1 ++ Blk a sz true :: B2) e →
  map (mark_free a) (B1 ++ Blk a sz true :: B2) = B1 ++ Blk a sz false :: B2.
Proof.
  intros Hm [T1 (E & Hs & _ & T2)]%tile_app. cbn in *. rewrite <- E in *.
  assert (∀ B, Forall (λ b, b_addr b ≠ a) B → map (mark_free a) B = B) as Hid.
  { induction 1 as [|b B Hb _ IH]; cbn; [done|]. rewrite IH. f_equal.
    unfold mark_free. by rewrite eqb_false. }
  rewrite map_app. cbn. rewrite !Hid; [unfold mark_free; cbn; by rewrite Z.eqb_refl| |].
  - apply Forall_forall. intros b Hb. pose proof (tile_in _ _ _ _ Hm T2 b Hb). lia.
  - apply Forall_forall. intros b Hb. pose proof (tile_in _ _ _ _ Hm T1 b Hb). lia.
Qed.

(** Allocating and freeing again gives the heap back. *)
Lemma free_alloc_blocks min s n B e p B' :
  8 ≤ min → tile min s B e → no_adj B → n mod 8 = 0 → min ≤ n →
  alloc_blocks min n B = Some (p, B') → free_block p B' = B.
Proof.
  intros Hm T A Hn Hmn (B1 & b & B2 & -> & [Hu Hf]%fits_iff & -> & ->)%alloc_blocks_inv.
  pose proof T as [T1 (Ea & Hb & H8 & T2)]%tile_app. rewrite <- Ea in *.
  assert (tile min s (B1 ++ cut min n b ++ B2) e) as T'.
  { apply tile_app. rewrite <- Ea. split; [done|]. apply tile_app.
    pose proof (cut_tile min n b H8 Hn ltac:(lia)) as Tc.
    by rewrite <- (tile_total _ _ _ _ Tc). }
  unfold free_block. unfold cut in *. destruct b as [a sz u]; cbn in *. subst u.
  pose proof (coalesce_no_adj _ A) as HA. destruct (n + min <=? sz); cbn in *.
  - rewrite (mark_free_split _ _ _ _ _ _ _ Hm T').
    rewrite (coalesce_around _ _ _ (Blk a sz false :: B2)); [done| |done|].
    + cbn. do 2 f_equal. lia.
    + by eapply no_adj_ext, (no_adj_app_r _ _ A).
  - by rewrite (mark_free_split _ _ _ _ _ _ _ Hm T').
Qed.

(** ** Framing *)

Lemma heap_rep_ext m m' r min root s last X B :
  (∀ q, q = root ∨ q = last ∨ (∃ b, b ∈ B ∧ b_addr b = q) →
        node_next m' q = node_next m q ∧ node_size m' q = node_size m q) →
  heap_rep m r min root s last X B → heap_rep m' r min root s last X B.
Proof.
  intros E [T H L Ln Ls Rs].
  assert (∀ b, b ∈ B → node_next m' (b_addr b) = node_next m (b_addr b) ∧
                       node_size m' (b_addr b) = node_size m (b_addr b)) as Eb
    by (intros; apply E; eauto).
  constructor; [done| | |by rewrite (proj1 (E last ltac:(auto)))
    |by rewrite (proj2 (E last ltac:(auto)))|by rewrite (proj2 (E root ltac:(auto)))].
  - rewrite Forall_forall in *. intros b Hb. destruct (H b Hb) as [Hs Hn].
    destruct (Eb b Hb) as [En Es]. split; [by rewrite Es|]. intros. rewrite En. by apply Hn.
  - eapply links_ext; [|exact L]. intros q [->|Hq]%elem_of_cons; [by apply E; auto|].
    apply free_addrs_in in Hq as (b & Hb & _ & <-). by apply Eb.
Qed.

Lemma heap_rep_frame P m m' i pm B :
  physmem_ok i pm → same_outside P m m' →
  (∀ a, P a → ∀ q, q = root_node pm ∨ q = last_node pm ∨ (∃ b, b ∈ B ∧ b_addr b = q) →
        ¬ q ≤ a < q + 8) →
  heap_rep m i (min_alloc pm) (root_node pm) (start_addr pm) (last_node pm) [] B →
  heap_rep m' i (min_alloc pm) (root_node pm) (start_addr pm) (last_node pm) [] B.
Proof.
  intros Hok Hs HP. apply heap_rep_ext. intros q Hq.
  split; apply (same_outside_ld32 _ _ _ _ Hs); intros x Hx Hp; apply (HP x Hp q Hq); lia.
Qed.

Lemma footprint_hdr m i pm B X :
  physmem_ok i pm →
  heap_rep m i (min_alloc pm) (root_node pm) (start_addr pm) (last_node pm) X B →
  ∀ q, q = root_node pm ∨ q = last_node pm ∨ (∃ b, b ∈ B ∧ b_addr b = q) →
  ∀ a, q ≤ a < q + 8 → footprint pm a.
Proof.
  intros [] [T _ _ _ _ _] q Hq a Ha. unfold footprint.
  pose proof (tile_total _ _ _ _ T). pose proof (total_nonneg (min_alloc pm) _ _ _ ltac:(lia) T).
  destruct Hq as [->|[->|(b & Hb & <-)]]; [by left|right; lia|right].
  pose proof (tile_in (min_alloc pm) _ _ _ ltac:(lia) T b Hb). lia.
Qed.

Lemma region_rep_frame P m m' i pm B :
  region_rep m i pm B → same_outside P m m' → (∀ a, P a → ¬ footprint pm a) →
  region_rep m' i pm B.
Proof.
  intros [Hok HR HA Hal] Hs HP. split; [done| |done..].
  eapply heap_rep_frame; [done|exact Hs| |done]. intros a Ha q Hq Hx.
  apply (HP a Ha). eapply footprint_hdr; eauto.
Qed.

Lemma meta_footprint m i pm B X a :
  physmem_ok i pm →
  heap_rep m i (min_alloc pm) (root_node pm) (start_addr pm) (last_node pm) X B →
  meta (root_node pm) B a → footprint pm a.
Proof.
  intros Hok HR [Ha|(b & Hb & Ha)].
  - by apply (footprint_hdr _ _ _ _ _ Hok HR (root_node pm)); auto.
  - apply (footprint_hdr _ _ _ _ _ Hok HR (b_addr b)); [|done]. right. right. eauto.
Qed.

(** One physical memory changes, the others are out of reach. *)
Lemma mm_inv_update m pms L i pm B m' v B' :
  mm_inv (Mm m pms) L → pms !! i = Some pm → L !! i = Some B → mem_bytes m' →
  same_outside (footprint pm) m m' → region_rep m' (Z.of_nat i) (set_allocated v pm) B' →
  mm_inv (Mm m' (alter (set_allocated v) i pms)) (<[i := B']> L).
Proof.
  intros [Hb Hr Hl Hd] Hpm HL Hb' Hs HR. cbn in *. constructor; cbn; [done| | |].
  - intros j pmj Bj Hj HLj. destruct (decide (i = j)) as [<-|Hne].
    + rewrite list_lookup_alter_eq, Hpm in Hj. cbn in Hj. injection Hj as <-.
      rewrite list_lookup_insert_eq in HLj by (by eapply lookup_lt_Some). congruence.
    + rewrite list_lookup_alter_ne in Hj by done.
      rewrite list_lookup_insert_ne in HLj by done.
      eapply region_rep_frame; [by eapply Hr|exact Hs|]. intros a Ha.
      by apply (Hd i j pm pmj).
  - by rewrite length_insert, length_alter.
  - assert (∀ j pmj, alter (set_allocated v) i pms !! j = Some pmj →
              ∃ pm', pms !! j = Some pm' ∧ ∀ a, footprint pmj a ↔ footprint pm' a) as Hf.
    { intros j pmj. destruct (decide (i = j)) as [<-|Hne].
      - rewrite list_lookup_alter_eq, Hpm. cbn. intros [= <-]. by exists pm.
      - rewrite list_lookup_alter_ne by done. eauto. }
    intros j k pmj pmk Hne (pmj' & Ej & Fj)%Hf (pmk' & Ek & Fk)%Hf a.
    rewrite Fj, Fk. by apply (Hd j k).
Qed.

(** ** mm_alloc *)

Lemma alloc_size_ok min size :
  8 ≤ min < 268435456 → min mod 8 = 0 → 0 ≤ size < 4294967281 →
  let n := alloc_size min size in
  n mod 8 = 0 ∧ min ≤ n ∧ size + 8 ≤ n < Z.max min (size + 8) + 8 ∧ n < 4294967296.
Proof.
  intros Hm Hm8 Hs n. unfold n, alloc_size, sizeof_mm_node, MM_ALIGN.
  change (8 - 1) with (2 ^ 3 - 1). rewrite !land_mask by lia. change (2 ^ 3) with 8.
  rewrite (u32_small (size + 8)) by lia.
  assert ((if size + 8 <? min then min else size + 8) = Z.max min (size + 8)) as ->
    by (destruct (Z.ltb_spec (size + 8) min); lia).
  destruct (Z.max min (size + 8) mod 8 =? 0) eqn:E; cbn [negb].
  - apply Z.eqb_eq in E. lia.
  - apply Z.eqb_neq in E. change (8 - 1) with (2 ^ 3 - 1). rewrite land_not_mask by lia.
    change (2 ^ 3) with 8. nowrap. lia.
Qed.

Lemma bind_in_mem {A B} (c : M mem A) (k : A → M mm B) m pms a m' :
  c m = Ret (a, m') → bind (in_mem c) k (Mm m pms) = k a (Mm m' pms).
Proof. intros E. unfold bind, in_mem, zoom. cbn [mm_mem]. by rewrite E. Qed.

Lemma bind_set_physmem {B} index f (k : unit → M mm B) m pms :
  bind (set_physmem index f) k (Mm m pms) = k tt (Mm m (alter f (Z.to_nat index) pms)).
Proof. done. Qed.

Lemma bind_get_physmem {B} i (k : physmem → M mm B) m pms pm :
  pms !! i = Some pm → bind (get_physmem (Z.of_nat i)) k (Mm m pms) = k pm (Mm m pms).
Proof. intros E. unfold bind, get_physmem. cbn. by rewrite Nat2Z.id, E. Qed.

(** Runs the memory accesses at the head of the goal. *)
Ltac mrun :=
  repeat first
    [ rewrite (bind_in_mem (gets _) _ _ _ _ _ eq_refl)
    | rewrite (bind_in_mem (modify _) _ _ _ _ _ eq_refl)
    | rewrite bind_set_physmem ].

(** The two ways [mm_alloc] ends once the search has found the block [it]. *)
Lemma mm_alloc_run fuel i m pms pm size it prev w :
  pms !! i = Some pm →
  let n := alloc_size (min_alloc pm) size in
  n ≤ pm_size pm - allocated pm → 0 ≤ pm_size pm - allocated pm < 4294967296 →
  first_fit fuel n (node_next m (root_node pm)) (root_node pm) m = Ret ((it, prev), m) →
  node_next m it ≠ 0 → mm_get_size (node_size m it) = w →
  mm_alloc fuel size (Z.of_nat i) (Mm m pms) =
  let m1 := set_next m prev (node_next m it) in
  if u32 (n + min_alloc pm) <=? w then
    let new := u32 (it + n) in
    let m2 := set_size m1 new (mm_set_region (node_size m1 new) (Z.of_nat i)) in
    let m3 := set_size m2 new (mm_set_size (node_size m2 new) (u32 (w - n))) in
    let m4 := set_size m3 it (mm_set_size (node_size m3 it) n) in
    match mm_list_insert fuel new (root_node pm) (last_node pm) m4 with
    | Ret (_, m5) =>
        Ret (u32 (it + 8), Mm (set_next m5 it MM_MAGIC)
              (alter (λ pm, set_allocated (u32 (allocated pm + n)) pm) i pms))
    | Panic r => Panic r
    | UB => UB
    | Hang => Hang
    end
  else Ret (u32 (it + 8), Mm (set_next m1 it MM_MAGIC)
              (alter (λ pm, set_allocated (u32 (allocated pm + w)) pm) i pms)).
Proof.
  intros Hpm n Hn Hd Hff Hnx Hw. unfold mm_alloc. rewrite (bind_get_physmem _ _ _ _ _ Hpm).
  cbv zeta. fold n. rewrite (u32_small (pm_size pm - allocated pm)) by done.
  rewrite (proj2 (Z.ltb_ge _ n)) by done. mrun.
  rewrite (bind_in_mem _ _ _ _ _ _ Hff). mrun. unfold NULL. rewrite eqb_false by done. mrun.
  rewrite Hw. destruct (u32 (n + min_alloc pm) <=? w).
  - unfold bind at 1. mrun. unfold in_mem at 1, zoom. cbn [mm_mem physical_memories].
    rewrite Nat2Z.id. set (m4 := set_size _ it _). cbv zeta.
    by destruct (mm_list_insert fuel (u32 (it + n)) (root_node pm) (last_node pm) m4)
      as [[[] m5]| | |].
  - unfold bind at 1, set_physmem, modify. by rewrite Nat2Z.id.
Qed.

Lemma set_allocated_set v w pm : set_allocated v (set_allocated w pm) = set_allocated v pm.
Proof. done. Qed.

Lemma physmem_ok_set i v pm : physmem_ok i pm → physmem_ok i (set_allocated v pm).
Proof. by intros []. Qed.

(** The facts every operation on memory [i] starts from. *)
Lemma inv_at s L i pm B :
  mm_inv s L → physical_memories s !! i = Some pm → L !! i = Some B →
  let Z_ := Z.of_nat i in
  region_rep (mm_mem s) Z_ pm B ∧ mem_bytes (mm_mem s) ∧ physmem_ok Z_ pm ∧
  tile (min_alloc pm) (start_addr pm) B (last_node pm) ∧
  total B = pm_size pm ∧ 0 ≤ used_total B ≤ total B ∧ 0 < start_addr pm ∧
  allocated pm = used_total B.
Proof.
  intros [Hb Hr _ _] Hp HL Z_. pose proof (Hr _ _ _ Hp HL) as HR.
  destruct HR as [Hok [T _ _ _ _ _] _ Hal]. destruct (Hok).
  pose proof (tile_total _ _ _ _ T).
  pose proof (used_total_bounds (min_alloc pm) _ _ _ ltac:(lia) T).
  split_and!; try done; try lia. by apply Hr.
Qed.

Lemma used_total_fits min s n B e :
  0 ≤ min → tile min s B e → (∃ b, b ∈ B ∧ fits n b = true) → n ≤ total B - used_total B.
Proof.
  intros Hm T (b & (B1 & B2 & ->)%list_elem_of_split & [Hu Hn]%fits_iff).
  apply tile_app in T as [T1 (_ & _ & _ & T2)].
  pose proof (used_total_bounds _ _ _ _ Hm T1). pose proof (used_total_bounds _ _ _ _ Hm T2).
  rewrite total_app, used_total_app. cbn. fold (total B2) (used_total B2).
  unfold used_size. rewrite Hu. lia.
Qed.

(** The search of [mm_alloc] in a memory that satisfies the invariant. *)
Lemma mm_first_fit fuel n m i pm B :
  region_rep m i pm B → (length (free_addrs B) < fuel)%nat →
  (∃ B1 b B2, B = B1 ++ b :: B2 ∧ alloc_blocks (min_alloc pm) n B =
      Some (b_addr b, B1 ++ cut (min_alloc pm) n b ++ B2) ∧ fits n b = true ∧
      first_fit fuel n (node_next m (root_node pm)) (root_node pm) m =
      Ret ((b_addr b, last_of (root_node pm) (free_addrs B1)), m)) ∨
  (alloc_blocks (min_alloc pm) n B = None ∧ ∃ q,
      first_fit fuel n (node_next m (root_node pm)) (root_node pm) m = Ret ((last_node pm, q), m)).
Proof.
  intros [[] [T H L Ln Ls Rs] _ _] Hf.
  pose proof (tile_total _ _ _ _ T). pose proof (total_nonneg (min_alloc pm) _ _ _ ltac:(lia) T).
  destruct (first_fit_spec i (min_alloc pm) (root_node pm) (start_addr pm) (last_node pm)
    ltac:(lia) ltac:(lia) ltac:(lia) ltac:(lia) ltac:(lia) ltac:(lia) fuel m [] (root_node pm) B n) as [(B1 & b & B2 & -> & HN & Hb & E)|(HN & q & E)]; auto; try lia.
  { eapply Forall_impl; [apply (tile_bounds (min_alloc pm) _ _ _ ltac:(lia) T)|]. cbn. lia. }
  - left. exists B1, b, B2. by rewrite alloc_blocks_some.
  - right. rewrite alloc_blocks_none by done. eauto.
Qed.

Lemma list_alter_at (f g : physmem → physmem) (i : nat) (pms : list physmem) pm :
  pms !! i = Some pm → f pm = g pm → alter f i pms = alter g i pms.
Proof.
  intros Hp Hv. apply list_eq. intros j. destruct (decide (i = j)) as [<-|].
  - rewrite !list_lookup_alter_eq, Hp. cbn. by rewrite Hv.
  - by rewrite !list_lookup_alter_ne.
Qed.

(** [mm_alloc] when first fit finds [b]. *)
Lemma alloc_found fuel size i m pms L pm B1 b B2 :
  mm_inv (Mm m pms) L → pms !! i = Some pm → L !! i = Some (B1 ++ b :: B2) →
  let n := alloc_size (min_alloc pm) size in
  0 ≤ size < 4294967281 → (length (free_addrs (B1 ++ b :: B2)) < fuel)%nat →
  fits n b = true →
  first_fit fuel n (node_next m (root_node pm)) (root_node pm) m =
    Ret ((b_addr b, last_of (root_node pm) (free_addrs B1)), m) →
  let B' := B1 ++ cut (min_alloc pm) n b ++ B2 in
  ∃ m', mm_alloc fuel size (Z.of_nat i) (Mm m pms) =
          Ret (b_addr b + 8, Mm m' (alter (set_allocated (used_total B')) i pms)) ∧
    heap_rep m' (Z.of_nat i) (min_alloc pm) (root_node pm) (start_addr pm) (last_node pm) [] B' ∧
    mem_bytes m' ∧ same_outside (meta (root_node pm) B') m m'.
Proof.
  intros HI Hp HL n Hsz Hf Hfit Hff B'.
  destruct (inv_at _ _ _ _ _ HI Hp HL) as ([_ HR HA _] & Hb & Hok & T & Ht & Hu & Hs0 & Hal).
  destruct (Hok). cbn [mm_mem physical_memories] in *.
  destruct (alloc_size_ok (min_alloc pm) size) as (Hn8 & Hmn & Hns & _); [done..|]. fold n in Hn8, Hmn, Hns.
  pose proof (used_total_fits (min_alloc pm) _ n _ _ ltac:(lia) T ltac:(exists b; set_solver)) as Hroom.
  apply fits_iff in Hfit as [Hbu Hbn].
  destruct b as [a sz u]. cbn in Hbu, Hbn, Hff |- *. subst u.
  pose proof (heap_split (Z.of_nat i) (min_alloc pm) (root_node pm) (start_addr pm) (last_node pm)
    ltac:(lia) ltac:(lia) ltac:(lia) ltac:(lia) ltac:(lia) ltac:(lia) _ _ _ _ _ HR) as Hsp.
  cbn in Hsp. destruct Hsp as (_ & _ & _ & _ & ? & ? & ? & ? & Hit & Hx & ? & ?).
  specialize (Hx eq_refl).
  pose proof HR as [_ [_ [[Hsw _] _]%Forall_cons]%Forall_app _ _ _ _]. cbn in Hsw.
  rewrite (mm_alloc_run fuel i m pms pm size a
    (last_of (root_node pm) (free_addrs B1)) sz Hp); [|fold n; lia|lia|exact Hff| |].
  2: { rewrite Hx. lia. }
  2: { rewrite Hsw. apply mm_get_size_enc. lia. }
  fold n. cbv zeta. unfold B', cut in *. cbn [b_addr b_size] in *. nowrap.
  destruct (n + min_alloc pm <=? sz) eqn:E; cbn [app].
  - apply Z.leb_le in E.
    assert (u32 (allocated pm + n) = used_total (B1 ++ Blk a n true :: Blk (a + n) (sz - n) false :: B2))
      as Hv by (rewrite Hal, !used_total_app in *; cbn in *; fold (used_total B2) in *; nowrap; lia).
    destruct (split_spec (Z.of_nat i) (min_alloc pm) (root_node pm) (start_addr pm) (last_node pm)
      ltac:(lia) ltac:(lia) ltac:(lia) ltac:(lia) ltac:(lia) ltac:(lia)
      fuel m B1 a n sz B2) as (m5 & E5 & H5 & Hb5 & F5); auto.
    { rewrite free_addrs_app, length_app in Hf. lia. }
    unfold split_mem in E5. cbv zeta in E5. rewrite E5. eexists.
    split; [do 3 f_equal; eapply list_alter_at; [exact Hp|by rewrite Hv]|].
    split_and!; [done|by apply mem_bytes_st32|].
    eapply same_outside_trans; [exact F5|]. apply same_outside_st32. intros x Hxx.
    eapply meta_it; right. cbn. lia.
  - assert (u32 (allocated pm + sz) = used_total (B1 ++ Blk a sz true :: B2))
      as Hv by (rewrite Hal, !used_total_app in *; cbn in *; fold (used_total B2) in *; nowrap; lia).
    eexists. split; [do 3 f_equal; eapply list_alter_at; [exact Hp|by rewrite Hv]|]. split_and!.
    + apply take_spec; auto; lia.
    + by apply mem_bytes_st32, mem_bytes_st32.
    + eapply same_outside_trans; apply same_outside_st32; intros x Hxx; eapply meta_it; cbn; lia.
Qed.

(** [mm_alloc] when no free block is large enough: nothing changes. *)
Lemma alloc_none fuel size i m pms L pm B :
  mm_inv (Mm m pms) L → pms !! i = Some pm → L !! i = Some B →
  let n := alloc_size (min_alloc pm) size in
  (∃ q, first_fit fuel n (node_next m (root_node pm)) (root_node pm) m =
        Ret ((last_node pm, q), m)) →
  mm_alloc fuel size (Z.of_nat i) (Mm m pms) = Ret (NULL, Mm m pms).
Proof.
  intros HI Hp HL n [q Hff]. destruct (inv_at _ _ _ _ _ HI Hp HL) as ([_ [] _ _] & _).
  unfold mm_alloc. rewrite (bind_get_physmem _ _ _ _ _ Hp). cbv zeta. fold n.
  destruct (u32 (pm_size pm - allocated pm) <? n); [done|]. mrun.
  rewrite (bind_in_mem _ _ _ _ _ _ Hff). mrun. cbn in hr_last_next. by rewrite hr_last_next.
Qed.

Lemma free_addrs_split B p fs :
  free_addrs B = p :: fs →
  ∃ B1 sz B2, B = B1 ++ Blk p sz false :: B2 ∧ free_addrs B1 = [] ∧ free_addrs B2 = fs.
Proof.
  induction B as [|[a sz []] B IH]; cbn; [done| |].
  - intros (B1 & sz' & B2 & -> & E1 & E2)%IH. exists (Blk a sz true :: B1), sz', B2. auto.
  - intros [= -> <-]. by exists [], sz, B.
Qed.

(** A size that was rounded to nothing: the first free block [a] is taken, its
    size becomes zero and, since all of it is left over, it goes back to the
    list before its header gets the magic number. *)
Definition zero_mem (m : mem) (root a i : Z) : mem :=
  let m1 := set_next m root (node_next m a) in
  let m2 := set_size m1 a (mm_set_region (node_size m1 a) i) in
  let m3 := set_size m2 a (mm_set_size (node_size m2 a) (mm_get_size (node_size m a))) in
  set_size m3 a (mm_set_size (node_size m3 a) 0).

Lemma zero_mem_spec m root a i sz :
  mem_bytes m → 0 ≤ i < 16 → root + 8 ≤ a → mm_get_size (node_size m a) = sz →
  0 ≤ sz < 268435456 → let m4 := zero_mem m root a i in
  node_next m4 root = node_next m a ∧ node_size m4 root = node_size m root ∧
  node_size m4 a = enc i 0 ∧ mem_bytes m4 ∧
  same_outside (λ x, root ≤ x < root + 8 ∨ a ≤ x < a + 8) m m4.
Proof.
  intros Hb Hi Ha Hsz Hs m4. subst m4. unfold zero_mem. cbv zeta. rewrite Hsz.
  set (m1 := set_next m root (node_next m a)).
  assert (0 ≤ node_size m1 a < 4294967296) as Hw
    by (unfold m1, set_next, node_size; apply ld32_range; auto).
  rewrite mm_set_region_spec, size_set_size_eq by done.
  remember (node_size m1 a mod 268435456) as w eqn:Ew.
  assert (0 ≤ w < 268435456) as Hw' by lia.
  rewrite (u32_small (enc i w)) by (unfold enc; lia).
  rewrite mm_set_size_enc by lia. rewrite size_set_size_eq.
  rewrite (u32_small (enc i sz)) by (unfold enc; lia).
  rewrite mm_set_size_enc by lia. unfold m1. split_and!.
  - nodes. apply u32_small, ld32_range, Hb.
  - by nodes.
  - nodes. unfold enc. nowrap. lia.
  - unfold set_size, set_next. auto.
  - unfold set_size, set_next.
    repeat (eapply same_outside_trans; [|apply same_outside_st32; lia]). done.
Qed.

Lemma zero_insert fuel m root a last nx r :
  (0 < fuel)%nat → 0 ≤ r < 16 → 0 ≤ root → root + 8 ≤ a → a < nx ≤ last → last < 4294967296 →
  node_next m root = nx → node_size m root = 0 → node_size m a = enc r 0 →
  mm_list_insert fuel a root last m = Ret (tt, set_next (set_next m a nx) root a).
Proof.
  intros Hf Hr Hroot Ha Hnx Hl Hn Hs Hz. destruct fuel as [|fuel]; [lia|].
  assert (∀ x, x = 0 → mm_get_size x = 0) as H0 by (intros x ->; reflexivity).
  assert (mm_get_size (enc r 0) = 0) as Hg by (apply mm_get_size_enc; lia).
  rewrite (inserted_run _ _ _ _ _ root); [|lia|lia|].
  2: { cbn [list_insert_find]. unfold bind, gets. rewrite Hn. by rewrite (proj2 (Z.ltb_ge _ _)) by lia. }
  unfold inserted. rewrite Hs, Hz, Hg, H0, !Z.add_0_r by done. nowrap.
  rewrite eqb_false by lia. cbv zeta. rewrite Hz, Hg, Hn, Z.add_0_r. nowrap.
  by rewrite eqb_false by lia.
Qed.

Lemma zero_run fuel size i m pms L pm B p fs :
  mm_inv (Mm m pms) L → pms !! i = Some pm → L !! i = Some B →
  alloc_size (min_alloc pm) size = 0 → free_addrs B = p :: fs → (0 < fuel)%nat →
  ∃ m', mm_alloc fuel size (Z.of_nat i) (Mm m pms) =
          Ret (p + 8, Mm m' (alter (set_allocated (allocated pm)) i pms)) ∧
    node_next m' (root_node pm) = p ∧ node_next m' p = MM_MAGIC ∧
    mm_get_size (node_size m' p) = 0 ∧
    same_outside (λ x, root_node pm ≤ x < root_node pm + 8 ∨ p ≤ x < p + 8) m m'.
Proof.
  intros HI Hp HL Hz EF Hf.
  destruct (inv_at _ _ _ _ _ HI Hp HL) as ([_ HR HA _] & Hb & Hok & T & Ht & Hu & Hs0 & Hal).
  destruct (Hok). cbn [mm_mem physical_memories] in *.
  destruct (free_addrs_split _ _ _ EF) as (B1 & sz & B2 & -> & E1 & E2).
  pose proof (heap_split (Z.of_nat i) (min_alloc pm) (root_node pm) (start_addr pm) (last_node pm)
    ltac:(lia) ltac:(lia) ltac:(lia) ltac:(lia) ltac:(lia) ltac:(lia) _ _ _ _ _ HR) as Hsp.
  cbn in Hsp. rewrite E1 in Hsp. destruct Hsp as (_ & _ & ? & ? & ? & ? & ? & ? & Hit & Hx & ? & ?).
  specialize (Hx eq_refl). cbn [last_of hd] in *.
  pose proof HR as [_ [_ [[Hsw _] _]%Forall_cons]%Forall_app _ _ _ Hrs]. cbn in Hsw.
  assert (mm_get_size (node_size m p) = sz) as Hsz by (rewrite Hsw; apply mm_get_size_enc; lia).
  rewrite (mm_alloc_run fuel i m pms pm size p (root_node pm) sz Hp); rewrite ?Hz; [|lia|lia| | |exact Hsz].
  2: { destruct fuel as [|fuel]; [lia|]. cbn [first_fit]. rewrite Hit. unfold bind, gets, NULL.
       rewrite Hx, eqb_false by lia. cbn [negb]. rewrite Hsz.
       by rewrite (proj2 (Z.leb_le 0 sz)) by lia. }
  2: { rewrite Hx. lia. }
  cbv zeta. replace (u32 (0 + min_alloc pm) <=? sz) with true by (symmetry; nowrap; apply Z.leb_le; lia).
  rewrite Z.add_0_r, Z.sub_0_r, (u32_small p), (u32_small sz) by lia.
  destruct (zero_mem_spec m (root_node pm) p (Z.of_nat i) sz Hb ltac:(lia) ltac:(lia) Hsz ltac:(lia))
    as (N1 & N2 & N3 & N4 & N5). unfold zero_mem in *. cbv zeta in *. rewrite Hsz in *.
  set (m4 := set_size _ p (mm_set_size _ 0)) in *. clearbody m4.
  rewrite (zero_insert fuel m4 (root_node pm) p (last_node pm) (node_next m p) (Z.of_nat i))
    by (rewrite ?Hx; auto; lia).
  eexists. split_and!.
  - rewrite (u32_small (p + 8)) by lia. do 3 f_equal. eapply list_alter_at; [exact Hp|].
    by rewrite Z.add_0_r, u32_small by lia.
  - nodes. nowrap. done.
  - nodes. by nowrap.
  - nodes. rewrite N3. apply mm_get_size_enc; lia.
  - eapply same_outside_trans; [exact N5|]. unfold set_next.
    repeat (eapply same_outside_trans; [|apply same_outside_st32; lia]). done.
Qed.

Lemma zero_none fuel size i m pms L pm B :
  mm_inv (Mm m pms) L → pms !! i = Some pm → L !! i = Some B →
  alloc_size (min_alloc pm) size = 0 → free_addrs B = [] → (0 < fuel)%nat →
  mm_alloc fuel size (Z.of_nat i) (Mm m pms) = Ret (NULL, Mm m pms).
Proof.
  intros HI Hp HL Hz EF Hf. eapply (alloc_none fuel size i m pms L pm B); [done..|].
  destruct (inv_at _ _ _ _ _ HI Hp HL) as (HR & _). exists (root_node pm).
  destruct HR as [_ [_ _ Hl Hn _ _] _ _]. rewrite EF in Hl. cbn in Hl, Hn. rewrite Hl.
  destruct fuel as [|fuel]; [lia|]. cbn [first_fit]. unfold bind, gets. by rewrite Hn.
Qed.

Lemma meta_app_l root B1 B2 a : meta root B1 a → meta root (B1 ++ B2) a.
Proof. intros [H|(b & Hb & H)]; [by left|]. right. exists b. split; [set_solver|done]. Qed.

(** The invariant after memory [i] changed. *)
Lemma region_step m pms L i pm B m' B' :
  mm_inv (Mm m pms) L → pms !! i = Some pm → L !! i = Some B → mem_bytes m' →
  heap_rep m' (Z.of_nat i) (min_alloc pm) (root_node pm) (start_addr pm) (last_node pm) [] B' →
  no_adj B' → same_outside (footprint pm) m m' →
  mm_inv (Mm m' (alter (set_allocated (used_total B')) i pms)) (<[i := B']> L).
Proof.
  intros HI Hp HL Hb HR HA Hs.
  destruct (inv_at _ _ _ _ _ HI Hp HL) as (_ & _ & Hok & _).
  eapply mm_inv_update; eauto. split; [by apply physmem_ok_set|done..].
Qed.

Lemma alloc_spec fuel size i m pms L pm B :
  mm_inv (Mm m pms) L → pms !! i = Some pm → L !! i = Some B →
  0 ≤ size < 4294967281 → (length (free_addrs B) < fuel)%nat →
  match alloc_blocks (min_alloc pm) (alloc_size (min_alloc pm) size) B with
  | None => mm_alloc fuel size (Z.of_nat i) (Mm m pms) = Ret (NULL, Mm m pms)
  | Some (p, B') => ∃ m',
      let s' := Mm m' (alter (set_allocated (used_total B')) i pms) in
      mm_alloc fuel size (Z.of_nat i) (Mm m pms) = Ret (p + 8, s') ∧
      mm_inv s' (<[i := B']> L) ∧ same_outside (meta (root_node pm) B') m m'
  end.
Proof.
  intros HI Hp HL Hsz Hf. set (n := alloc_size _ size).
  destruct (inv_at _ _ _ _ _ HI Hp HL) as (HR & _ & Hok & _). cbn in HR.
  destruct (mm_first_fit fuel n _ _ _ _ HR Hf) as [(B1 & b & B2 & -> & -> & Hfit & Hff)|[-> Hff]].
  - destruct (alloc_found fuel size i m pms L pm B1 b B2) as (m' & E & HR' & Hb' & Hs'); auto.
    exists m'. split_and!; [done| |done]. eapply region_step; eauto.
    + apply fits_iff in Hfit as [Hu _]. apply cut_no_adj; [by destruct HR|done].
    + eapply same_outside_mono; [|exact Hs']. intros a. by eapply meta_footprint.
  - by eapply alloc_none.
Qed.

(** ** mm_free *)

Lemma heap_rep_weaken m r min root s last X X' B :
  X ⊆ X' → heap_rep m r min root s last X B → heap_rep m r min root s last X' B.
Proof.
  intros HX []. constructor; auto. eapply Forall_impl; [done|].
  intros b [? Hn]. split; [done|]. intros. apply Hn; [done|]. set_solver.
Qed.

Lemma free_block_split min s B1 a sz B2 e :
  8 ≤ min → tile min s (B1 ++ Blk a sz true :: B2) e →
  free_block a (B1 ++ Blk a sz true :: B2) = coalesce (B1 ++ Blk a sz false :: B2) ∧
  used_total (free_block a (B1 ++ Blk a sz true :: B2)) =
    used_total (B1 ++ Blk a sz true :: B2) - sz ∧
  sz ≤ used_total (B1 ++ Blk a sz true :: B2).
Proof.
  intros Hm T. unfold free_block. rewrite (mark_free_split _ _ _ _ _ _ _ Hm T).
  split; [done|]. rewrite used_total_coalesce, !used_total_app. cbn.
  fold (used_total B2). apply tile_app in T as [T1 (_ & _ & _ & T2)].
  pose proof (used_total_bounds min _ _ _ ltac:(lia) T1).
  pose proof (used_total_bounds min _ _ _ ltac:(lia) T2). lia.
Qed.

Lemma free_spec fuel i m pms L pm B a sz :
  mm_inv (Mm m pms) L → pms !! i = Some pm → L !! i = Some B → Blk a sz true ∈ B →
  (length (free_addrs B) < fuel)%nat →
  ∃ m', let s' := Mm m' (alter (set_allocated (used_total (free_block a B))) i pms) in
    mm_free fuel (a + 8) (Mm m pms) = Ret (tt, s') ∧
    mm_inv s' (<[i := free_block a B]> L) ∧ same_outside (meta (root_node pm) B) m m'.
Proof.
  intros HI Hp HL (B1 & B2 & ->)%list_elem_of_split Hf.
  destruct (inv_at _ _ _ _ _ HI Hp HL) as ([_ HR HA _] & Hb & Hok & T & Ht & Hu & Hs0 & Hal).
  pose proof Hok as []. cbn [mm_mem physical_memories] in *.
  destruct (free_block_split (min_alloc pm) _ _ _ _ _ _ ltac:(lia) T) as (Efb & Eu & Hle).
  pose proof (tile_in (min_alloc pm) _ _ _ ltac:(lia) T (Blk a sz true) ltac:(set_solver)) as Hin.
  cbn in Hin.
  pose proof HR as [_ [_ [[Hsw Hnx] _]%Forall_cons]%Forall_app _ _ _ _]. cbn in Hsw, Hnx.
  specialize (Hnx eq_refl ltac:(set_solver)).
  apply (heap_rep_weaken _ _ _ _ _ _ [] [a]) in HR; [|set_solver].
  destruct (list_insert_spec (Z.of_nat i) (min_alloc pm) (root_node pm) (start_addr pm) (last_node pm)
    ltac:(lia) ltac:(lia) ltac:(lia) ltac:(lia) ltac:(lia) ltac:(lia) fuel m [] B1 a sz B2)
    as (m' & E & HR' & Hb' & Hs'); auto.
  { by eapply no_adj_app_l. }
  { by eapply no_adj_cons_inv, no_adj_app_r. }
  { rewrite free_addrs_app, length_app in Hf. lia. }
  exists m'. cbv zeta. split_and!; [|eapply region_step; eauto|done].
  - unfold mm_free, NULL, sizeof_mm_node. rewrite eqb_false by lia. cbv zeta.
    replace (a + 8 - 8) with a by lia. nowrap. mrun. rewrite Hnx, Z.eqb_refl. cbn [negb]. mrun.
    rewrite Hsw, mm_get_region_enc, mm_get_size_enc by lia.
    rewrite (bind_get_physmem _ _ _ _ _ Hp). mrun. unfold in_mem, zoom. cbn [mm_mem]. rewrite E.
    cbn. rewrite Nat2Z.id. do 3 f_equal. eapply list_alter_at; [exact Hp|].
    rewrite Eu, Hal. by nowrap.
  - by rewrite Efb.
  - rewrite Efb. apply coalesce_result.
  - eapply same_outside_mono; [|exact Hs']. intros x. by eapply meta_footprint.
Qed.

(** ** mm_init *)

Lemma clear_loop_spec fuel s n m :
  0 ≤ s → s + Z.of_nat n < 4294967296 → (n < fuel)%nat →
  clear_loop fuel s (s + Z.of_nat n) m = Ret (tt, fill_loop s 0 n m).
Proof.
  revert s m fuel; induction n as [|n IH]; intros s m [|fuel] Hs He Hf; try lia; cbn [clear_loop].
  - by rewrite eqb_true by lia.
  - rewrite eqb_false by lia. cbn [negb]. rewrite (bind_Ret _ _ _ tt (st8 m s 0)) by done.
    nowrap. replace (s + Z.of_nat (S n)) with (s + 1 + Z.of_nat n) by lia.
    rewrite IH by lia. done.
Qed.

Lemma mem_bytes_fill s v n m : mem_bytes m → mem_bytes (fill_loop s v n m).
Proof. revert s m; induction n as [|n IH]; cbn; auto. Qed.

(** The addresses [mm_init] uses for a memory, and the entry it leaves. *)
Definition init_range (heap_s heap_e : Z) (pm : physmem) : Z * Z :=
  if (start_addr pm =? 0) && (end_addr pm =? 0) then (heap_s, heap_e)
  else (start_addr pm, end_addr pm).

Definition inited (heap_s heap_e : Z) (pm : physmem) : physmem :=
  let '(s0, e0) := init_range heap_s heap_e pm in
  let start := align_up s0 in let end_ := align_down e0 in
  Physmem start end_ (end_ - 8 - start) 0 (min_alloc pm) (pm_name pm)
    (root_obj pm) (end_ - 8) (root_obj pm).

Definition init_foot (heap_s heap_e : Z) (pm : physmem) (a : Z) : Prop :=
  root_obj pm ≤ a < root_obj pm + 8 ∨
  (init_range heap_s heap_e pm).1 ≤ a < (init_range heap_s heap_e pm).2.

Record init_ok (fuel : nat) (heap_s heap_e : Z) (pm : physmem) : Prop := {
  io_range : 0 ≤ (init_range heap_s heap_e pm).1 ∧
             (init_range heap_s heap_e pm).1 + min_alloc pm + 24 ≤ (init_range heap_s heap_e pm).2 ∧
             (init_range heap_s heap_e pm).2 < 4294967296 ∧
             (init_range heap_s heap_e pm).2 - (init_range heap_s heap_e pm).1 < 268435456;
  io_root : 0 ≤ root_obj pm ∧ root_obj pm + 8 ≤ (init_range heap_s heap_e pm).1;
  io_min : 8 ≤ min_alloc pm ∧ min_alloc pm mod 8 = 0;
  io_fuel : (init_range heap_s heap_e pm).2 - (init_range heap_s heap_e pm).1 < Z.of_nat fuel
}.

Lemma align_up_spec a :
  0 ≤ a < 4294967288 → align_up a mod 8 = 0 ∧ a ≤ align_up a < a + 8.
Proof.
  intros. unfold align_up, MM_ALIGN. change (8 - 1) with (2 ^ 3 - 1).
  rewrite land_mask, land_not_mask by lia. change (2 ^ 3) with 8.
  destruct (a mod 8 =? 0) eqn:E; cbn [negb].
  - apply Z.eqb_eq in E. lia.
  - apply Z.eqb_neq in E. nowrap. lia.
Qed.

Lemma align_down_spec a : align_down a mod 8 = 0 ∧ a - 8 < align_down a ≤ a.
Proof.
  unfold align_down, MM_ALIGN. change (8 - 1) with (2 ^ 3 - 1).
  rewrite land_mask, land_not_mask by lia. change (2 ^ 3) with 8.
  destruct (a mod 8 =? 0) eqn:E; cbn [negb].
  - apply Z.eqb_eq in E. lia.
  - apply Z.eqb_neq in E. lia.
Qed.

Definition whole (pm : physmem) : list block := [Blk (start_addr pm) (pm_size pm) false].

Lemma mm_init_physmem_spec fuel hs he i pm m :
  init_ok fuel hs he pm → mem_bytes m → 0 ≤ i < 16 →
  ∃ m', mm_init_physmem fuel hs he i pm m = Ret (inited hs he pm, m') ∧
    region_rep m' i (inited hs he pm) (whole (inited hs he pm)) ∧ mem_bytes m' ∧
    same_outside (init_foot hs he pm) m m'.
Proof.
  intros [Hr Hroot Hmin Hf] Hb Hi. unfold mm_init_physmem, inited, init_foot.
  change (if (start_addr pm =? 0) && (end_addr pm =? 0) then (hs, he)
          else (start_addr pm, end_addr pm)) with (init_range hs he pm).
  destruct (init_range hs he pm) as [s0 e0]. cbn [fst snd] in *.
  pose proof (align_up_spec s0 ltac:(lia)) as [Hu8 Hu].
  pose proof (align_down_spec e0) as [Hd8 Hd].
  remember (align_up s0) as st. remember (align_down e0) as en.
  rewrite (bind_Ret _ _ _ tt (fill_loop s0 0 (Z.to_nat (e0 - s0)) m)).
  2: { rewrite <- clear_loop_spec with (fuel := fuel) by lia. f_equal; lia. }
  set (m0 := fill_loop _ _ _ _). cbv zeta. unfold sizeof_mm_node. nowrap.
  assert (mem_bytes m0) as Hb0 by by apply mem_bytes_fill.
  assert (mm_set_size 0 (en - 8 - st) = en - 8 - st) as Hz.
  { change 0 with (enc 0 0) at 1. rewrite mm_set_size_enc by lia. done. }
  eexists. split; [done|]. cbn [fst snd]. split_and!.
  - split; cbn; [constructor; cbn; lia| |done|done]. constructor; cbn.
    + split_and!; lia.
    + constructor; [|done]. split; [|done]. cbn. nodes.
      rewrite Hz, (u32_small (en - 8 - st)), mm_set_region_spec by lia.
      rewrite Z.mod_small by lia. unfold enc. nowrap. done.
    + split; nodes; nowrap; done.
    + by nodes.
    + by nodes.
    + nodes. done.
  - unfold set_size, set_next. auto 10.
  - intros x Hx. unfold set_size, set_next. rewrite !ld8_st32_out by lia.
    unfold m0. rewrite fill_loop_spec. rewrite decide_False by lia. done.
Qed.

Lemma inited_foot hs he pm fuel a :
  init_ok fuel hs he pm → footprint (inited hs he pm) a → init_foot hs he pm a.
Proof.
  intros [Hr _ Hmin _]. unfold footprint, init_foot, inited.
  destruct (init_range hs he pm) as [s0 e0]. cbn in *.
  pose proof (align_up_spec s0 ltac:(lia)). pose proof (align_down_spec e0). lia.
Qed.

(** The memories of a list do not overlap. *)
Definition apart (hs he : Z) (pms : list physmem) : Prop :=
  ∀ i j pmi pmj, i ≠ j → pms !! i = Some pmi → pms !! j = Some pmj →
  ∀ a, init_foot hs he pmi a → ¬ init_foot hs he pmj a.

Lemma apart_cons hs he pm pms :
  apart hs he (pm :: pms) →
  apart hs he pms ∧ ∀ pm', pm' ∈ pms → ∀ a, init_foot hs he pm a → ¬ init_foot hs he pm' a.
Proof.
  intros H. split.
  - intros i j pmi pmj Hne Hi Hj. by apply (H (S i) (S j)); [lia|..].
  - intros pm' [j Hj]%list_elem_of_lookup_1. by apply (H 0%nat (S j)).
Qed.

Lemma mm_init_loop_spec fuel hs he pms k m :
  Forall (init_ok fuel hs he) pms → apart hs he pms → mem_bytes m →
  (k + length pms ≤ 16)%nat →
  ∃ m', mm_init_loop fuel hs he (Z.of_nat k) pms m = Ret (map (inited hs he) pms, m') ∧
    mem_bytes m' ∧ same_outside (λ a, ∃ pm, pm ∈ pms ∧ init_foot hs he pm a) m m' ∧
    ∀ j pm, pms !! j = Some pm →
      region_rep m' (Z.of_nat (k + j)) (inited hs he pm) (whole (inited hs he pm)).
Proof.
  revert k m; induction pms as [|pm pms IH]; intros k m Hok Hap Hb Hk; cbn [mm_init_loop].
  { exists m. split_and!; done. }
  apply Forall_cons in Hok as [Ho Hok]. apply apart_cons in Hap as [Hap Hnew]. cbn in Hk.
  destruct (mm_init_physmem_spec fuel hs he (Z.of_nat k) pm m Ho Hb ltac:(lia))
    as (m1 & E1 & R1 & Hb1 & F1).
  destruct (IH (S k) m1 Hok Hap Hb1 ltac:(lia)) as (m2 & E2 & Hb2 & F2 & R2).
  exists m2. rewrite (bind_Ret _ _ _ _ _ E1).
  replace (u8 (Z.of_nat k + 1)) with (Z.of_nat (S k)) by (nowrap; lia).
  rewrite (bind_Ret _ _ _ _ _ E2). split_and!; [done|done| |].
  - eapply same_outside_trans; eapply same_outside_mono; try eassumption; cbn; set_solver.
  - intros [|j] pm' Hj; cbn in Hj.
    + injection Hj as <-. rewrite Nat.add_0_r. eapply region_rep_frame; [exact R1|exact F2|].
      intros a (pm' & Hin & Ha) Hfa. eapply (Hnew pm' Hin); [|exact Ha].
      by eapply inited_foot.
    + rewrite <- Nat.add_succ_comm. by apply R2.
Qed.

Lemma mm_init_run fuel hs he m pms :
  Forall (init_ok fuel hs he) pms → apart hs he pms → mem_bytes m → (length pms ≤ 16)%nat →
  ∃ s', mm_init fuel hs he (Mm m pms) = Ret (tt, s') ∧
    physical_memories s' = map (inited hs he) pms ∧
    mm_inv s' (map (λ pm, whole (inited hs he pm)) pms) ∧
    same_outside (λ a, ∃ pm, pm ∈ pms ∧ init_foot hs he pm a) m (mm_mem s').
Proof.
  intros Hok Hap Hb Hl.
  destruct (mm_init_loop_spec fuel hs he pms 0 m Hok Hap Hb Hl) as (m' & E & Hb' & F & R).
  exists (Mm m' (map (inited hs he) pms)). split; [|split; [done|]].
  - unfold mm_init. rewrite (bind_Ret _ _ _ pms (Mm m pms)) by done.
    by rewrite (bind_in_mem _ _ _ _ _ _ E).
  - cbn. split; [|done]. constructor; cbn; [done| |by rewrite !length_map|].
    + intros i pm B Hi HB. rewrite list_lookup_fmap in Hi. rewrite list_lookup_fmap in HB.
      destruct (pms !! i) as [pm0|] eqn:Ei; [|done]. cbn in Hi, HB. simplify_eq.
      by apply (R i).
    + intros i j pmi pmj Hne Hi Hj a. rewrite list_lookup_fmap in Hi. rewrite list_lookup_fmap in Hj.
      destruct (pms !! i) as [pi|] eqn:Ei; [|done]. destruct (pms !! j) as [pj|] eqn:Ej; [|done].
      cbn in Hi, Hj. simplify_eq. rewrite Forall_lookup in Hok.
      intros Hfi Hfj. apply (inited_foot _ _ _ fuel) in Hfi; [|by eapply Hok].
      apply (inited_foot _ _ _ fuel) in Hfj; [|by eapply Hok]. by apply (Hap i j pi pj Hne Ei Ej a).
Qed.
