(* ===== verification/MmTheorems.v ===== *)
(** * Properties of the memory core

    What kernel/src/mm/mm.c guarantees to its callers, stated on the executable
    model of Mm.v and the abstract heap of MmSpec.v. *)

From S2P Require Import Prelude Memory Mm MmSpec MmProof MmRefine.

(** ** A concrete initialised allocator *)

Definition small_blocks : list (list block) := map (λ pm, whole (inited 0x1003 0x1104 pm)) (physical_memories small_mm).

Lemma small_init_ok : Forall (init_ok 4000 0x1003 0x1104) (physical_memories small_mm).
Proof. repeat constructor; cbn; lia. Qed.

Lemma small_apart : apart 0x1003 0x1104 (physical_memories small_mm).
Proof.
  intros [|[|i]] [|[|j]] pmi pmj Hne Hi Hj a; try done; cbn in Hi, Hj; simplify_eq;
    unfold init_foot; cbn; lia.
Qed.

Lemma small_bytes : mem_bytes (mm_mem small_mm).
Proof. intros a. unfold ld8. cbn. rewrite lookup_empty. cbn. unfold byte. lia. Qed.

Lemma small_inv : mm_inv small_mm_ready small_blocks.
Proof.
  destruct (mm_init_run 4000 0x1003 0x1104 (mm_mem small_mm) (physical_memories small_mm))
    as (s' & E & _ & HI & _).
  - apply small_init_ok.
  - apply small_apart.
  - apply small_bytes.
  - cbn. lia.
  - replace small_mm_ready with s'; [done|]. unfold small_mm_ready.
    change small_mm with (Mm (mm_mem small_mm) (physical_memories small_mm)) at 1. by rewrite E.
Qed.

Lemma small_pm : ∃ pm, physical_memories small_mm_ready !! 0%nat = Some pm ∧ min_alloc pm = 16.
Proof. eexists. split; [vm_compute; reflexivity|done]. Qed.

(** The first memory of the example after initialisation. *)
Definition small_pm0 : physmem := inited 0x1003 0x1104 (Physmem 0 0 0 0 16 "SRAM" 0 0 0x100).

Lemma small_pm0_lookup : physical_memories small_mm_ready !! 0%nat = Some small_pm0.
Proof. vm_compute. reflexivity. Qed.

Lemma payload_not_meta min s B e root b x :
  8 ≤ min → tile min s B e → root + 8 ≤ s → b_addr b + 8 ≤ x < b_addr b + b_size b → b ∈ B →
  ¬ meta root B x.
Proof.
  intros Hm T Hr Hx Hb [H|(b' & Hb' & H)].
  - pose proof (tile_in _ _ _ _ Hm T b Hb). lia.
  - destruct (tile_apart _ _ _ _ Hm T b b' Hb Hb') as [->|?]; [lia|].
    pose proof (tile_in _ _ _ _ Hm T b' Hb'). lia.
Qed.

Lemma tile_after m pms L i pm v B B' :
  mm_inv (Mm m (alter (set_allocated v) i pms)) (<[i := B']> L) →
  pms !! i = Some pm → L !! i = Some B →
  tile (min_alloc pm) (start_addr pm) B' (last_node pm).
Proof.
  intros HI Hp HL. destruct (inv_at _ _ i (set_allocated v pm) B' HI) as (_ & _ & _ & T & _); [..|done].
  - cbn. by rewrite list_lookup_alter_eq, Hp.
  - apply list_lookup_insert_eq. by eapply lookup_lt_Some.
Qed.

Definition small_blocks1 : list (list block) :=
  <[0%nat := [Blk 4104 32 true; Blk 4136 208 false]]> small_blocks.

Lemma small_alloc (fuel : nat) :
  (2 ≤ fuel)%nat → ∃ s', mm_alloc fuel 20 0 small_mm_ready = Ret (4112, s') ∧ mm_inv s' small_blocks1 ∧
        ∃ pm, physical_memories s' !! 0%nat = Some pm.
Proof.
  intros Hf. pose proof small_inv as HI. pose proof small_pm0_lookup as Hp.
  destruct small_mm_ready as [m pms].
  destruct (alloc_spec fuel 20 0 m pms small_blocks small_pm0 (whole small_pm0) HI Hp eq_refl
    ltac:(lia) ltac:(cbn; lia)) as (m' & E & HI' & _).
  eexists. split; [exact E|]. split; [exact HI'|]. cbn in *.
  rewrite list_lookup_alter_eq, Hp. by eexists.
Qed.

Lemma payload_inv m pms L i pm B b m' :
  mm_inv (Mm m pms) L → pms !! i = Some pm → L !! i = Some B → b ∈ B → mem_bytes m' →
  same_outside (λ x, b_addr b + 8 ≤ x < b_addr b + b_size b) m m' → mm_inv (Mm m' pms) L.
Proof.
  intros HI Hp HL Hb Hb' Hso. pose proof HI as [_ Hr Hl Hd]. cbn in *.
  destruct (inv_at _ _ _ _ _ HI Hp HL) as ([_ HR HA Hal] & _ & Hok & T & _). cbn in *.
  pose proof Hok as [].
  pose proof (tile_in (min_alloc pm) _ _ _ ltac:(lia) T _ Hb) as Hin.
  constructor; cbn; [done| |done|done]. intros j pmj Bj Hj HLj.
  destruct (decide (i = j)) as [<-|Hne].
  - simplify_eq. split; [done| |done|done]. eapply heap_rep_frame; [done|exact Hso| |done].
    cbn. intros x Hx q Hq Hxq.
    destruct Hq as [->|[->|(b' & Hbb & <-)]].
    + eapply (payload_not_meta (min_alloc pm) _ _ _ (root_node pm));
        [|exact T| |exact Hx|exact Hb|by left]; lia.
    + lia.
    + eapply (payload_not_meta (min_alloc pm) _ _ _ (root_node pm));
        [|exact T| |exact Hx|exact Hb|right; eauto]; lia.
  - eapply region_rep_frame; [by eapply Hr|exact Hso|]. intros x Hx.
    apply (Hd i j pm pmj Hne Hp Hj x). right. cbn in *. lia.
Qed.

(** ** Allocation *)

(** The size computation of [mm_alloc] is exact below [2^32 - 15] and wraps
    above: a request of almost the whole address space is treated as a request
    for the minimum block, and in between as a request for nothing at all. *)
Theorem alloc_size_bounds min size :
  8 ≤ min < 268435456 → min mod 8 = 0 → 0 ≤ size < 4294967296 →
  (size < 4294967281 → alloc_size min size mod 8 = 0 ∧ min ≤ alloc_size min size ∧
     size + 8 ≤ alloc_size min size < Z.max min (size + 8) + 8) ∧
  (4294967281 ≤ size < 4294967288 → alloc_size min size = 0) ∧
  (4294967288 ≤ size → alloc_size min size = min).
Proof.
  intros Hm Hm8 Hs. split_and!.
  - intros H. destruct (alloc_size_ok min size) as (? & ? & ? & _); auto; lia.
  - intros H. unfold alloc_size, sizeof_mm_node, MM_ALIGN. nowrap.
    rewrite (proj2 (Z.ltb_ge _ min)) by lia. change (8 - 1) with (2 ^ 3 - 1).
    rewrite land_mask, eqb_false by (change (2 ^ 3) with 8; lia). cbn [negb].
    change (8 - 1) with (2 ^ 3 - 1). rewrite land_not_mask by lia. change (2 ^ 3) with 8.
    unfold u32. lia.
  - intros H. unfold alloc_size, sizeof_mm_node, MM_ALIGN.
    replace (u32 (size + 8)) with (size + 8 - 4294967296) by (unfold u32; lia).
    rewrite (proj2 (Z.ltb_lt _ min)) by lia. change (8 - 1) with (2 ^ 3 - 1).
    rewrite land_mask by lia. change (2 ^ 3) with 8. by rewrite eqb_true.
Qed.

Lemma alloc_size_bounds_witness : alloc_size 16 4294967288 = 16 ∧ alloc_size 16 4294967281 = 0.
Proof.
  split; [apply (proj2 (proj2 (alloc_size_bounds 16 4294967288 ltac:(lia) eq_refl ltac:(lia)))); lia|].
  apply (proj1 (proj2 (alloc_size_bounds 16 4294967281 ltac:(lia) eq_refl ltac:(lia)))). lia.
Defined.

Lemma mm_alloc_size_only fuel size size' i s pm :
  physical_memories s !! i = Some pm →
  alloc_size (min_alloc pm) size = alloc_size (min_alloc pm) size' →
  mm_alloc fuel size (Z.of_nat i) s = mm_alloc fuel size' (Z.of_nat i) s.
Proof.
  intros Hp E. destruct s as [m pms]. unfold mm_alloc.
  rewrite !(bind_get_physmem _ _ _ _ _ Hp). cbv zeta. by rewrite E.
Qed.

(** A request of [2^32 - 8] bytes or more wraps to the minimum block, which is
    what a request of no bytes gets. *)
Lemma mm_alloc_wraps fuel size i s L pm B :
  mm_inv s L → physical_memories s !! i = Some pm → L !! i = Some B →
  4294967288 ≤ size < 4294967296 →
  alloc_size (min_alloc pm) 0 = min_alloc pm ∧
  mm_alloc fuel size (Z.of_nat i) s = mm_alloc fuel 0 (Z.of_nat i) s.
Proof.
  intros HI Hp HL Hsz. destruct (inv_at _ _ _ _ _ HI Hp HL) as (_ & _ & [] & _).
  destruct (alloc_size_bounds (min_alloc pm) size) as (_ & _ & E); [done..|lia|].
  destruct (alloc_size_ok (min_alloc pm) 0) as (H8 & Hm & Hn & _); [done..|lia|].
  assert (alloc_size (min_alloc pm) 0 = min_alloc pm) as E0 by lia.
  split; [exact E0|]. apply (mm_alloc_size_only _ _ _ _ _ pm Hp). rewrite E0. apply E. lia.
Qed.

(** C1. [mm_alloc] implements first fit.  For a request of less than [2^32 - 15]
    bytes it returns the payload of the first block of the abstract heap that
    holds the request with its header, rounded up ([alloc_size], splitting the
    block when the rest is large enough), and re-establishes the invariant with
    the new block list; it returns NULL without changing anything exactly when no
    free block is large enough.  Larger requests wrap in the 32-bit arithmetic:
    one of [2^32 - 8] bytes or more is served as a request of no bytes, with a
    block of the minimum size; one of the seven sizes in between is rounded to
    nothing, gets the first free block with a size of zero in its header, and
    leaves the list of free blocks pointing at it and on to the magic number.
    The fuel exceeds the number of free blocks. *)
Theorem mm_alloc_refines fuel size i s L pm B :
  mm_inv s L → physical_memories s !! i = Some pm → L !! i = Some B →
  0 ≤ size < 4294967296 → (length (free_addrs B) < fuel)%nat →
  let first_fit_of n :=
    match alloc_blocks (min_alloc pm) n B with
    | None => mm_alloc fuel size (Z.of_nat i) s = Ret (NULL, s)
    | Some (p, B') => ∃ s', mm_alloc fuel size (Z.of_nat i) s = Ret (p + sizeof_mm_node, s') ∧
                            mm_inv s' (<[i := B']> L)
    end in
  (size < 4294967281 → first_fit_of (alloc_size (min_alloc pm) size)) ∧
  (4294967281 ≤ size < 4294967288 →
    match free_addrs B with
    | [] => mm_alloc fuel size (Z.of_nat i) s = Ret (NULL, s)
    | p :: _ => ∃ s', mm_alloc fuel size (Z.of_nat i) s = Ret (p + sizeof_mm_node, s') ∧
        mm_get_size (node_size (mm_mem s') p) = 0 ∧
        node_next (mm_mem s') (root_node pm) = p ∧ node_next (mm_mem s') p = MM_MAGIC
    end) ∧
  (4294967288 ≤ size →
    mm_alloc fuel size (Z.of_nat i) s = mm_alloc fuel 0 (Z.of_nat i) s ∧
    first_fit_of (min_alloc pm)).
Proof.
  intros HI Hp HL Hsz Hf ff. destruct s as [m pms].
  assert (∀ sz, 0 ≤ sz < 4294967281 →
    mm_alloc fuel size (Z.of_nat i) (Mm m pms) = mm_alloc fuel sz (Z.of_nat i) (Mm m pms) →
    ff (alloc_size (min_alloc pm) sz)) as Hff.
  { intros sz Hz E. unfold ff. rewrite E.
    pose proof (alloc_spec fuel sz i m pms L pm B HI Hp HL Hz Hf) as H.
    destruct (alloc_blocks _ _ B) as [[p B']|]; [|done].
    destruct H as (m' & E' & HI' & _). eauto. }
  split_and!.
  - intros H. apply Hff; [lia|done].
  - intros H. destruct (inv_at _ _ _ _ _ HI Hp HL) as (_ & _ & [] & _).
    destruct (alloc_size_bounds (min_alloc pm) size) as (_ & Hz & _); [done..|]. specialize (Hz H).
    destruct (free_addrs B) as [|p fs] eqn:EF; [by eapply zero_none|].
    destruct (zero_run fuel size i m pms L pm B p fs) as (m' & E & ? & ? & ? & _); auto; [lia|].
    by exists (Mm m' (alter (set_allocated (allocated pm)) i pms)).
  - intros H. destruct (mm_alloc_wraps fuel size i _ _ _ _ HI Hp HL ltac:(lia)) as [E0 E].
    split; [exact E|]. rewrite <- E0. apply Hff; [lia|exact E].
Qed.

Lemma mm_alloc_refines_witness :
  (∃ s', mm_alloc 2 20 0 small_mm_ready = Ret (4112, s') ∧
         mm_inv s' (<[0%nat := [Blk 4104 32 true; Blk 4136 208 false]]> small_blocks)) ∧
  (∃ s', mm_alloc 2 4294967281 0 small_mm_ready = Ret (4112, s') ∧
         mm_get_size (node_size (mm_mem s') 4104) = 0 ∧
         node_next (mm_mem s') (root_node small_pm0) = 4104 ∧
         node_next (mm_mem s') 4104 = MM_MAGIC) ∧
  mm_alloc 2 4294967295 0 small_mm_ready = mm_alloc 2 0 0 small_mm_ready.
Proof.
  split_and!.
  - exact (proj1 (mm_alloc_refines 2 20 0 small_mm_ready small_blocks small_pm0 (whole small_pm0)
      small_inv small_pm0_lookup eq_refl ltac:(lia) ltac:(cbn; lia)) ltac:(lia)).
  - exact (proj1 (proj2 (mm_alloc_refines 2 4294967281 0 small_mm_ready small_blocks small_pm0
      (whole small_pm0) small_inv small_pm0_lookup eq_refl ltac:(lia) ltac:(cbn; lia))) ltac:(lia)).
  - exact (proj1 (proj2 (proj2 (mm_alloc_refines 2 4294967295 0 small_mm_ready small_blocks small_pm0
      (whole small_pm0) small_inv small_pm0_lookup eq_refl ltac:(lia) ltac:(cbn; lia))) ltac:(lia))).
Defined.

(** The block behind a pointer of [mm_alloc] was free, and no block in use is
    written. *)
Lemma alloc_took fuel size i s L pm B ptr s' :
  mm_inv s L → physical_memories s !! i = Some pm → L !! i = Some B →
  0 ≤ size < 4294967296 → (length (free_addrs B) < fuel)%nat →
  mm_alloc fuel size (Z.of_nat i) s = Ret (ptr, s') → ptr ≠ NULL →
  ∃ b0, b0 ∈ B ∧ b_used b0 = false ∧ ptr = b_addr b0 + 8 ∧
    (size < 4294967281 → size + 8 ≤ b_size b0) ∧
    ∀ b x, b ∈ B → b_used b = true → b_addr b + 8 ≤ x < b_addr b + b_size b →
      ld8 (mm_mem s') x = ld8 (mm_mem s) x.
Proof.
  intros HI Hp HL Hsz Hf E Hnz.
  destruct (inv_at _ _ _ _ _ HI Hp HL) as (_ & _ & [] & T & _).
  assert ((0 ≤ size < 4294967281 ∨ 4294967288 ≤ size) ∨ 4294967281 ≤ size < 4294967288)
    as [Hc|Hc] by lia.
  - assert (∃ sz, 0 ≤ sz < 4294967281 ∧ mm_alloc fuel sz (Z.of_nat i) s = Ret (ptr, s') ∧
      (size < 4294967281 → sz = size)) as (sz & Hz & E1 & Hs).
    { destruct Hc; [by exists size|]. exists 0. split_and!; [lia..| |lia].
      by rewrite <- (proj2 (mm_alloc_wraps fuel size i s L pm B HI Hp HL ltac:(lia))). }
    destruct s as [m pms]. pose proof (alloc_spec fuel sz i m pms L pm B HI Hp HL Hz Hf) as H.
    destruct (alloc_blocks _ _ B) as [[p B']|] eqn:EA; [|congruence].
    destruct H as (m' & E' & HI' & Hso). rewrite E1 in E'. injection E' as -> ->.
    pose proof (tile_after _ _ _ _ _ _ _ _ HI' Hp HL) as T'.
    apply alloc_blocks_inv in EA as (B1 & b0 & B2 & -> & [Hu0 Hn]%fits_iff & -> & ->).
    destruct (alloc_size_ok (min_alloc pm) sz) as (_ & _ & Hns & _); [done..|].
    exists b0. split_and!; [set_solver|done|done|intros Hl; rewrite <- (Hs Hl); lia|].
    intros b x Hb Hu Hx. apply Hso. eapply payload_not_meta; [|exact T'| |exact Hx|]; [lia|lia|].
    apply elem_of_app in Hb as [Hb|[->|Hb]%elem_of_cons]; [set_solver|congruence|set_solver].
  - destruct (alloc_size_bounds (min_alloc pm) size) as (_ & Hz & _); [done..|]. specialize (Hz Hc).
    destruct s as [m pms]. destruct (free_addrs B) as [|p fs] eqn:EF.
    { rewrite (zero_none fuel size i m pms L pm B HI Hp HL Hz EF) in E; [|lia]. congruence. }
    destruct (zero_run fuel size i m pms L pm B p fs) as (m' & E' & _ & _ & _ & Hso); auto; [lia|].
    rewrite E in E'. injection E' as -> ->.
    destruct (free_addrs_in B p) as (b0 & Hb0 & Hu0 & <-); [rewrite EF; by left|].
    exists b0. split_and!; [done..|lia|]. intros b x Hb Hu Hx. apply Hso. intros Hxx.
    eapply (payload_not_meta (min_alloc pm) _ _ _ (root_node pm)); [|exact T| |exact Hx|exact Hb|];
      [lia|lia|]. destruct Hxx; [by left|right; eauto].
Qed.

(** C2. The pointer [mm_alloc] returns is eight-byte aligned, lies in the memory
    and, for a request of less than [2^32 - 15] bytes, refers to [size] bytes of
    it that, with their header, overlap no block in use.  For a larger request,
    which wraps, [size] bytes from the pointer reach past the end of the memory.
    In every case the contents of every block in use are untouched. *)
Theorem mm_alloc_safe fuel size i s L pm B ptr s' :
  mm_inv s L → physical_memories s !! i = Some pm → L !! i = Some B →
  0 ≤ size < 4294967296 → (length (free_addrs B) < fuel)%nat →
  mm_alloc fuel size (Z.of_nat i) s = Ret (ptr, s') → ptr ≠ NULL →
  ptr mod 8 = 0 ∧ start_addr pm + 8 ≤ ptr ∧ ptr ≤ last_node pm ∧
  (size < 4294967281 → ptr + size ≤ last_node pm ∧
    ∀ b, b ∈ B → b_used b = true → b_addr b + b_size b + 8 ≤ ptr ∨ ptr + size ≤ b_addr b) ∧
  (4294967281 ≤ size → last_node pm < ptr + size) ∧
  ∀ b, b ∈ B → b_used b = true →
    ∀ x, b_addr b + 8 ≤ x < b_addr b + b_size b → ld8 (mm_mem s') x = ld8 (mm_mem s) x.
Proof.
  intros HI Hp HL Hsz Hf E Hnz.
  destruct (inv_at _ _ _ _ _ HI Hp HL) as (_ & _ & [] & T & _).
  destruct (alloc_took _ _ _ _ _ _ _ _ _ HI Hp HL Hsz Hf E Hnz) as (b0 & Hb0 & Hu0 & -> & Hs & Hx).
  pose proof (tile_aligned _ _ _ _ ok_start T) as [Hal _]. rewrite Forall_forall in Hal.
  pose proof (Hal _ Hb0). pose proof (tile_in (min_alloc pm) _ _ _ ltac:(lia) T _ Hb0).
  split_and!; [lia..| |lia|intros b Hb Hu x; by apply Hx].
  intros Hl. specialize (Hs Hl). split; [lia|]. intros b Hb Hu.
  destruct (tile_apart (min_alloc pm) _ _ _ ltac:(lia) T _ _ Hb Hb0) as [->|]; [congruence|lia].
Qed.

Lemma mm_alloc_safe_witness :
  ∃ s', mm_alloc 2 20 0 small_mm_ready = Ret (4112, s') ∧ 4112 mod 8 = 0.
Proof.
  destruct (small_alloc 2 ltac:(lia)) as (s' & E & _). exists s'. split; [exact E|].
  exact (proj1 (mm_alloc_safe 2 20 0 small_mm_ready small_blocks small_pm0 (whole small_pm0) 4112 s'
    small_inv small_pm0_lookup eq_refl ltac:(lia) ltac:(cbn; lia) E ltac:(done))).
Defined.

(** ** Freeing *)

(** C3. [mm_free] on a pointer of an allocated block marks the block free and
    merges it with its free neighbours; it never fails and leaves the contents of
    the other blocks in use untouched. *)
Theorem mm_free_refines fuel i s L pm B a sz :
  mm_inv s L → physical_memories s !! i = Some pm → L !! i = Some B → Blk a sz true ∈ B →
  (length (free_addrs B) < fuel)%nat →
  ∃ s', mm_free fuel (a + sizeof_mm_node) s = Ret (tt, s') ∧
    mm_inv s' (<[i := free_block a B]> L) ∧
    ∀ b x, b ∈ B → b_used b = true → b_addr b + 8 ≤ x < b_addr b + b_size b →
           ld8 (mm_mem s') x = ld8 (mm_mem s) x.
Proof.
  intros HI Hp HL Hin Hf. destruct s as [m pms].
  destruct (inv_at _ _ _ _ _ HI Hp HL) as (_ & _ & [] & T & _).
  destruct (free_spec fuel i m pms L pm B a sz HI Hp HL Hin Hf) as (m' & E & HI' & Hso).
  eexists. split_and!; [exact E|exact HI'|]. intros b x Hb Hu Hx. apply Hso.
  by eapply (payload_not_meta (min_alloc pm)); [lia|exact T|lia|..].
Qed.

Lemma mm_free_refines_witness :
  ∃ s s', mm_alloc 2 20 0 small_mm_ready = Ret (4112, s) ∧ mm_free 2 4112 s = Ret (tt, s') ∧
          mm_inv s' (<[0%nat := [Blk 4104 240 false]]> small_blocks1).
Proof.
  destruct (small_alloc 2 ltac:(lia)) as (s & E & HI & pm & Hp).
  destruct (mm_free_refines 2 0 s small_blocks1 pm [Blk 4104 32 true; Blk 4136 208 false] 4104 32
    HI Hp eq_refl (list_elem_of_here _ _) ltac:(cbn; lia)) as (s' & E' & HI' & _).
  exists s, s'. split; [exact E|]. split; [exact E'|exact HI'].
Defined.

(** C4. Freeing what [mm_alloc] just returned for a request of less than
    [2^32 - 15] bytes restores the block list the allocator had before, whatever
    was written into the [size] bytes in between.  (Larger requests wrap, C1.) *)
Theorem mm_alloc_free_roundtrip fuel size i s L pm B ptr s1 m2 :
  mm_inv s L → physical_memories s !! i = Some pm → L !! i = Some B →
  0 ≤ size < 4294967281 → (S (length B) < fuel)%nat →
  mm_alloc fuel size (Z.of_nat i) s = Ret (ptr, s1) → ptr ≠ NULL →
  mem_bytes m2 → same_outside (λ x, ptr ≤ x < ptr + size) (mm_mem s1) m2 →
  ∃ s', mm_free fuel ptr (Mm m2 (physical_memories s1)) = Ret (tt, s') ∧ mm_inv s' L.
Proof.
  intros HI Hp HL Hsz Hf E Hnz Hb2 Hso. destruct s as [m pms].
  destruct (inv_at _ _ _ _ _ HI Hp HL) as ([_ _ HA _] & _ & Hok & T & _). pose proof Hok as [].
  pose proof (free_addrs_length B) as Hlen.
  pose proof (alloc_spec fuel size i m pms L pm B HI Hp HL Hsz ltac:(lia)) as H.
  destruct (alloc_blocks _ _ B) as [[p B']|] eqn:EA; [|congruence].
  destruct H as (m' & E' & HI' & _). rewrite E in E'. injection E' as -> ->. cbn in *.
  destruct (alloc_size_ok (min_alloc pm) size) as (Hn8 & Hmn & Hns & _); [done..|].
  pose proof (free_alloc_blocks (min_alloc pm) _ _ _ _ _ _ ltac:(lia) T HA Hn8 ltac:(lia) EA) as Hfb.
  destruct (alloc_blocks_block _ _ _ _ _ EA) as (sz & Hin & Hsz' & Hlen').
  set (pms' := alter _ i pms) in *.
  assert (pms' !! i = Some (set_allocated (used_total B') pm)) as Hp'.
  { unfold pms'. by rewrite list_lookup_alter_eq, Hp. }
  assert (<[i:=B']> L !! i = Some B') as HL' by (apply list_lookup_insert_eq; by eapply lookup_lt_Some).
  pose proof (payload_inv _ _ _ _ _ _ _ m2 HI' Hp' HL' Hin Hb2) as HI2. cbn in HI2.
  specialize (HI2 ltac:(eapply same_outside_mono; [|exact Hso]; cbn; lia)).
  pose proof (free_addrs_length B') as HlenB'.
  destruct (free_spec fuel i m2 _ _ _ _ _ _ HI2 Hp' HL' Hin ltac:(lia)) as (m3 & E3 & HI3 & _).
  eexists. split; [exact E3|]. rewrite Hfb in *. rewrite list_insert_insert_eq, list_insert_id in HI3 by done.
  exact HI3.
Qed.

Lemma mm_alloc_free_roundtrip_witness :
  ∃ s s', mm_alloc 4 20 0 small_mm_ready = Ret (4112, s) ∧
    mm_free 4 4112 (Mm (st8 (mm_mem s) 4120 7) (physical_memories s)) = Ret (tt, s') ∧
    mm_inv s' small_blocks.
Proof.
  destruct (small_alloc 4 ltac:(lia)) as (s & E & HI & _).
  destruct (mm_alloc_free_roundtrip 4 20 0 small_mm_ready small_blocks small_pm0 (whole small_pm0)
    4112 s (st8 (mm_mem s) 4120 7) small_inv small_pm0_lookup eq_refl ltac:(lia) ltac:(cbn; lia) E
    ltac:(done) ltac:(apply mem_bytes_st8, HI) ltac:(apply same_outside_st8; lia)) as (s' & E' & HI').
  exists s, s'. split; [exact E|]. split; [exact E'|exact HI'].
Defined.

(** The allocator does not depend on what its clients keep in their blocks:
    writing inside the payload of a block in use preserves the invariant, with
    the same block lists. *)
Theorem mm_inv_payload s L i pm B b m' :
  mm_inv s L → physical_memories s !! i = Some pm → L !! i = Some B → b ∈ B →
  mem_bytes m' →
  same_outside (λ x, b_addr b + 8 ≤ x < b_addr b + b_size b) (mm_mem s) m' →
  mm_inv (Mm m' (physical_memories s)) L.
Proof. destruct s as [m pms]. apply payload_inv. Qed.

Lemma mm_inv_payload_witness :
  mm_inv (Mm (st8 (mm_mem small_mm_ready) 4200 7) (physical_memories small_mm_ready)) small_blocks.
Proof.
  apply (mm_inv_payload small_mm_ready small_blocks 0 small_pm0 (whole small_pm0) (Blk 4104 240 false));
    [exact small_inv|exact small_pm0_lookup|reflexivity|apply list_elem_of_here|..].
  - apply mem_bytes_st8, small_inv.
  - apply same_outside_st8. cbn. lia.
Defined.

(** ** Initialisation, statistics, errors *)

(** C21. [mm_init] turns every memory whose range and root object are disjoint
    from the others into one free block covering the aligned range, establishes
    the invariant, and writes nothing outside the ranges and the root objects. *)
Theorem mm_init_establishes fuel heap_s heap_e s :
  Forall (init_ok fuel heap_s heap_e) (physical_memories s) →
  apart heap_s heap_e (physical_memories s) → mem_bytes (mm_mem s) →
  (length (physical_memories s) ≤ 16)%nat →
  ∃ s', mm_init fuel heap_s heap_e s = Ret (tt, s') ∧
    physical_memories s' = map (inited heap_s heap_e) (physical_memories s) ∧
    mm_inv s' (map (λ pm, whole (inited heap_s heap_e pm)) (physical_memories s)) ∧
    same_outside (λ a, ∃ pm, pm ∈ physical_memories s ∧ init_foot heap_s heap_e pm a)
      (mm_mem s) (mm_mem s').
Proof. destruct s as [m pms]. apply mm_init_run. Qed.

Lemma mm_init_establishes_witness :
  ∃ s', mm_init 4000 0x1003 0x1104 small_mm = Ret (tt, s') ∧ mm_inv s' small_blocks.
Proof.
  destruct (mm_init_establishes 4000 0x1003 0x1104 small_mm small_init_ok small_apart small_bytes
    ltac:(cbn; lia)) as (s' & E & _ & HI & _).
  exists s'. split; [exact E|exact HI].
Defined.

(** Sum of the sizes of the free blocks. *)
Definition free_total (B : list block) : Z := total (filter (λ b, b_used b = false) B).

Lemma free_total_used B : total B = used_total B + free_total B.
Proof.
  unfold free_total. induction B as [|b B IH]; [done|]. cbn [total used_total foldr].
  fold (total B) (used_total B). rewrite filter_cons. unfold used_size.
  destruct (b_used b) eqn:E; case_decide; try congruence; cbn; fold (total B);
    unfold total in *; lia.
Qed.

(** The statistics are exact: [mm_get_total] is the size of the memory,
    [mm_get_used] the size of the blocks in use with their headers and
    [mm_get_free] the size of the free blocks, and they add up. *)
Theorem mm_stats_exact i s L pm B :
  mm_inv s L → physical_memories s !! i = Some pm → L !! i = Some B →
  mm_get_total (Z.of_nat i) s = Ret (total B, s) ∧
  mm_get_used (Z.of_nat i) s = Ret (used_total B, s) ∧
  mm_get_free (Z.of_nat i) s = Ret (free_total B, s) ∧
  total B = used_total B + free_total B.
Proof.
  intros HI Hp HL. destruct (inv_at _ _ _ _ _ HI Hp HL) as (_ & _ & [] & T & Et & Hu & _ & Hal).
  pose proof (free_total_used B). destruct s as [m pms].
  unfold mm_get_total, mm_get_used, mm_get_free. rewrite !(bind_get_physmem _ _ _ _ _ Hp).
  unfold ret. rewrite Et, Hal in *. split_and!; [done..| |lia].
  do 2 f_equal. nowrap. lia.
Qed.

Lemma mm_stats_exact_witness :
  mm_get_free 0 small_mm_ready = Ret (240, small_mm_ready).
Proof.
  exact (proj1 (proj2 (proj2 (mm_stats_exact 0 small_mm_ready small_blocks small_pm0
    (whole small_pm0) small_inv small_pm0_lookup eq_refl)))).
Defined.

(** [mm_free] panics on NULL and on every pointer whose header does not
    carry the magic number, in particular on any block of a valid heap that is
    free. *)
Theorem mm_free_panics fuel i s L pm B b :
  mm_inv s L → physical_memories s !! i = Some pm → L !! i = Some B → b ∈ B → b_used b = false →
  mm_free fuel NULL s = Panic "Trying to free NULL pointer" ∧
  (last_node pm < MM_MAGIC → mm_free fuel (b_addr b + sizeof_mm_node) s = Panic "Pointer not made by mm_alloc*").
Proof.
  intros HI Hp HL Hb Hu. split; [done|]. intros Hmax. destruct s as [m pms].
  destruct (inv_at _ _ _ _ _ HI Hp HL) as ([_ HR _ _] & _ & Hok & T & _ & _ & Hs0 & _).
  cbn in *. pose proof Hok as [].
  pose proof (tile_in (min_alloc pm) _ _ _ ltac:(lia) T _ Hb).
  apply list_elem_of_split in Hb as (B1 & B2 & ->).
  pose proof (heap_split (Z.of_nat i) (min_alloc pm) (root_node pm) (start_addr pm) (last_node pm)
    ltac:(lia) ltac:(lia) ltac:(lia) ltac:(lia) ltac:(lia) ltac:(lia) _ _ _ _ _ HR) as Hsp.
  cbn in Hsp. destruct Hsp as (_ & _ & _ & _ & _ & _ & _ & _ & _ & Hx & _ & Hx').
  specialize (Hx Hu). unfold mm_free, NULL, sizeof_mm_node. rewrite eqb_false by lia. cbv zeta.
  replace (b_addr b + 8 - 8) with (b_addr b) by lia. nowrap. mrun.
  rewrite Hx, eqb_false by lia. done.
Qed.

Lemma mm_free_panics_witness : mm_free 1 4112 small_mm_ready = Panic "Pointer not made by mm_alloc*".
Proof.
  apply (mm_free_panics 1 0 small_mm_ready small_blocks small_pm0 (whole small_pm0) (Blk 4104 240 false)
    small_inv small_pm0_lookup eq_refl (list_elem_of_here _ _) eq_refl). vm_compute. reflexivity.
Defined.

(** Two blocks are allocated and freed, the second one twice. *)
Definition double_free : M mm Z :=
  let* a := mm_alloc 4 20 0 in
  let* b := mm_alloc 4 20 0 in
  mm_free 4 a ;; mm_free 4 b ;; mm_free 4 b ;; mm_get_used 0.

(** The magic number does not detect every double free: a block that was
    merged into its predecessor keeps it, a second [mm_free] of the block
    succeeds and the count of allocated bytes wraps below zero. *)
Theorem mm_double_free_undetected :
  match double_free small_mm_ready with
  | Ret (used, _) => used = 4294967296 - 32
  | _ => False
  end.
Proof. vm_compute. reflexivity. Qed.
