(* ===== verification/Dlist.v ===== *)
(** * Doubly linked lists (kernel/src/kernel/dlist.c)

    Nodes and list heads live in a store indexed by address; 0 is NULL and a
    pointer to no object makes an access undefined.  [drep] relates a store to
    the sequences of node addresses its lists stand for, and every operation is
    shown to act on those sequences. *)

From S2P Require Import Prelude.

Definition null : Z := 0.

(** [struct dlist_node] and [struct dlist]. *)
Record dlist_node := DNode { prev : Z; next : Z; obj : Z }.
Record dlist := DList { first : Z; last : Z; size : Z }.

Record dstore := DStore { nodes : gmap Z dlist_node; lists : gmap Z dlist }.

Definition get_node (p : Z) : M dstore dlist_node :=
  λ s, match nodes s !! p with Some n => Ret (n, s) | None => UB end.
Definition put_node (p : Z) (n : dlist_node) : M dstore unit :=
  modify (λ s, DStore (<[p := n]> (nodes s)) (lists s)).
Definition get_list (l : Z) : M dstore dlist :=
  λ s, match lists s !! l with Some x => Ret (x, s) | None => UB end.
Definition put_list (l : Z) (x : dlist) : M dstore unit :=
  modify (λ s, DStore (nodes s) (<[l := x]> (lists s))).

(** Assignments to one field. *)
Definition set_prev (p v : Z) : M dstore unit :=
  let* n := get_node p in put_node p (DNode v (next n) (obj n)).
Definition set_next (p v : Z) : M dstore unit :=
  let* n := get_node p in put_node p (DNode (prev n) v (obj n)).
Definition set_first (l v : Z) : M dstore unit :=
  let* x := get_list l in put_list l (DList v (last x) (size x)).
Definition set_last (l v : Z) : M dstore unit :=
  let* x := get_list l in put_list l (DList (first x) v (size x)).
Definition size_inc (l : Z) : M dstore unit :=
  let* x := get_list l in put_list l (DList (first x) (last x) (u32 (size x + 1))).

(** [if (list->size == 0) panic(...); list->size--;] *)
Definition size_dec (msg : string) (l : Z) : M dstore unit :=
  let* x := get_list l in
  if size x =? 0 then panic msg
  else put_list l (DList (first x) (last x) (u32 (size x - 1))).

Definition dlist_init (list : Z) : M dstore unit := put_list list (DList null null 0).
Definition dlist_node_init (node : Z) : M dstore unit := put_node node (DNode null null null).

(** The two checks every insertion starts with. *)
Definition check_unlinked (node list : Z) : M dstore unit :=
  let* n := get_node node in
  if negb (next n =? null) || negb (prev n =? null) then panic "List error" else
  let* l := get_list list in
  if node =? first l then panic "List error" else ret tt.

Definition dlist_insert_first (node list : Z) : M dstore unit :=
  check_unlinked node list ;;
  let* l := get_list list in
  (if negb (first l =? null) then
     set_next node (first l) ;; set_prev (first l) node ;; set_first list node
   else
     set_first list node ;; set_last list node) ;;
  size_inc list.

Definition dlist_insert_last (node list : Z) : M dstore unit :=
  check_unlinked node list ;;
  let* l := get_list list in
  (if negb (last l =? null) then
     set_prev node (last l) ;; set_next (last l) node ;; set_last list node
   else
     set_first list node ;; set_last list node) ;;
  size_inc list.

Definition dlist_insert_after (i_node a_node list : Z) : M dstore unit :=
  check_unlinked i_node list ;;
  let* l := get_list list in
  if a_node =? last l then dlist_insert_last i_node list
  else
    let* a := get_node a_node in
    set_next i_node (next a) ;;
    let* a := get_node a_node in
    set_prev (next a) i_node ;;
    set_next a_node i_node ;;
    set_prev i_node a_node ;;
    size_inc list.

Definition dlist_insert_before (i_node b_node list : Z) : M dstore unit :=
  check_unlinked i_node list ;;
  let* l := get_list list in
  if b_node =? first l then dlist_insert_first i_node list
  else
    let* b := get_node b_node in
    set_prev i_node (prev b) ;;
    let* b := get_node b_node in
    set_next (prev b) i_node ;;
    set_next i_node b_node ;;
    set_prev b_node i_node ;;
    size_inc list.

Definition dlist_remove_first (list : Z) : M dstore Z :=
  let* l := get_list list in
  if negb (first l =? null) then
    let first_ := first l in
    let* f := get_node first_ in
    (if negb (next f =? null) then
       set_prev (next f) null ;; set_first list (next f)
     else
       set_first list null ;; set_last list null) ;;
    size_dec "List size is zero" list ;;
    set_next first_ null ;; set_prev first_ null ;;
    ret first_
  else panic "List does not contain any elements".

Definition dlist_remove_last (list : Z) : M dstore Z :=
  let* l := get_list list in
  if negb (last l =? null) then
    let last_ := last l in
    let* f := get_node last_ in
    (if negb (prev f =? null) then
       set_next (prev f) null ;; set_last list (prev f)
     else
       set_last list null ;; set_first list null) ;;
    size_dec "List error" list ;;
    set_next last_ null ;; set_prev last_ null ;;
    ret last_
  else panic "List error".

Definition dlist_remove (node list : Z) : M dstore Z :=
  let* l := get_list list in
  (if node =? first l then let* _ := dlist_remove_first list in ret tt
   else if node =? last l then let* _ := dlist_remove_last list in ret tt
   else
     let* n := get_node node in
     set_next (prev n) (next n) ;;
     let* n := get_node node in
     set_prev (next n) (prev n) ;;
     size_dec "List error" list) ;;
  set_next node null ;; set_prev node null ;;
  ret node.

Fixpoint search_loop (fuel : nat) (iter node : Z) : M dstore Z :=
  match fuel with
  | O => hang
  | S f =>
      if negb (iter =? null) then
        if iter =? node then ret 1
        else let* n := get_node iter in search_loop f (next n) node
      else ret 0
  end.

Definition dlist_search (fuel : nat) (node list : Z) : M dstore Z :=
  let* l := get_list list in search_loop fuel (first l) node.

(** ** Representation *)

(** [dseg ns pv xs nx]: the nodes [xs] are linked in order, the first one back
    to [pv] and the last one on to [nx]. *)
Fixpoint dseg (ns : gmap Z dlist_node) (pv : Z) (xs : list Z) (nx : Z) : Prop :=
  match xs with
  | [] => True
  | x :: xs => (∃ o, ns !! x = Some (DNode pv (hd nx xs) o)) ∧ dseg ns x xs nx
  end.

Fixpoint lastd (d : Z) (xs : list Z) : Z :=
  match xs with [] => d | x :: xs => lastd x xs end.

Definition head_of (xs : list Z) : dlist :=
  DList (hd null xs) (lastd null xs) (Z.of_nat (length xs)).

(** The store [s] holds the lists [L] (list address to node addresses) and the
    nodes of [O] (node address to object); nodes in no list have both
    pointers NULL. *)
Record drep (L : gmap Z (list Z)) (O : gmap Z Z) (s : dstore) : Prop := {
  dr_lists : ∀ l xs, L !! l = Some xs → lists s !! l = Some (head_of xs);
  dr_chain : ∀ l xs, L !! l = Some xs → dseg (nodes s) null xs null;
  dr_nodup : ∀ l xs, L !! l = Some xs → NoDup xs;
  dr_len : ∀ l xs, L !! l = Some xs → Z.of_nat (length xs) < 4294967295;
  dr_disj : ∀ l1 l2 xs1 xs2 p, L !! l1 = Some xs1 → L !! l2 = Some xs2 →
            p ∈ xs1 → p ∈ xs2 → l1 = l2;
  dr_obj : ∀ p, obj <$> nodes s !! p = O !! p;
  dr_null : O !! null = None;
  dr_free : ∀ p n, nodes s !! p = Some n → (∀ l xs, L !! l = Some xs → p ∉ xs) →
            prev n = null ∧ next n = null
}.

Definition unlinked (L : gmap Z (list Z)) (p : Z) : Prop := ∀ l xs, L !! l = Some xs → p ∉ xs.

(** ** Segments *)

Lemma lastd_app d xs ys : lastd d (xs ++ ys) = lastd (lastd d xs) ys.
Proof. revert d; induction xs; simpl; auto. Qed.

Lemma dseg_app ns pv xs ys nx :
  dseg ns pv (xs ++ ys) nx ↔ dseg ns pv xs (hd nx ys) ∧ dseg ns (lastd pv xs) ys nx.
Proof.
  revert pv; induction xs as [|x xs IH]; intros pv; cbn; [naive_solver|].
  rewrite IH. destruct xs; cbn; naive_solver.
Qed.

Lemma dseg_ext ns ns' pv xs nx :
  (∀ x, x ∈ xs → ns' !! x = ns !! x) → dseg ns pv xs nx → dseg ns' pv xs nx.
Proof.
  revert pv; induction xs as [|x xs IH]; intros pv E; cbn; [done|].
  intros [[o Ho] H]. split; [exists o; rewrite E; [done|set_solver]|].
  apply IH; [|done]. set_solver.
Qed.

Lemma dseg_in ns pv xs nx x : dseg ns pv xs nx → x ∈ xs → is_Some (ns !! x).
Proof.
  revert pv; induction xs as [|y xs IH]; intros pv; cbn; [set_solver|].
  intros [[o Ho] H] [->|Hx]%elem_of_cons; [by eexists|by eapply IH].
Qed.

(** The node in the middle of a segment. *)
Lemma dseg_mid ns pv xs x ys nx :
  dseg ns pv (xs ++ x :: ys) nx →
  dseg ns pv xs x ∧ (∃ o, ns !! x = Some (DNode (lastd pv xs) (hd nx ys) o)) ∧ dseg ns x ys nx.
Proof. intros [H1 [H2 H3]]%dseg_app. auto. Qed.

(** Redirecting the outer pointers of a segment. *)
Lemma dseg_set_next ns pv xs x nx v n :
  dseg ns pv (xs ++ [x]) nx → x ∉ xs → ns !! x = Some n →
  dseg (<[x := DNode (prev n) v (obj n)]> ns) pv (xs ++ [x]) v.
Proof.
  intros (H1 & [o Ho] & _)%dseg_mid Hx Hn. rewrite Hn in Ho. injection Ho as ->. cbn.
  apply dseg_app. split.
  - eapply dseg_ext; [|exact H1]. intros y Hy. apply lookup_insert_ne. set_solver.
  - cbn. split; [|done]. exists o. apply lookup_insert_eq.
Qed.

Lemma dseg_set_prev ns pv x xs nx v n :
  dseg ns pv (x :: xs) nx → x ∉ xs → ns !! x = Some n →
  dseg (<[x := DNode v (next n) (obj n)]> ns) v (x :: xs) nx.
Proof.
  intros [[o Ho] H1] Hx Hn. rewrite Hn in Ho. injection Ho as ->. cbn. split.
  - exists o. apply lookup_insert_eq.
  - eapply dseg_ext; [|exact H1]. intros y Hy. apply lookup_insert_ne. set_solver.
Qed.

Lemma dseg_insert_out ns pv xs nx p n :
  p ∉ xs → dseg ns pv xs nx → dseg (<[p := n]> ns) pv xs nx.
Proof. intros Hp. apply dseg_ext. intros x Hx. apply lookup_insert_ne. set_solver. Qed.

(** ** Facts about a represented store *)

Section Rep.
Context (L : gmap Z (list Z)) (O : gmap Z Z) (s : dstore).
Hypothesis HR : drep L O s.

Lemma rep_node p o : O !! p = Some o → ∃ n, nodes s !! p = Some n ∧ obj n = o ∧ p ≠ null.
Proof.
  intros Hp. pose proof (dr_obj _ _ _ HR p) as E. rewrite Hp in E.
  apply fmap_Some in E as (n & E & ->). exists n. split_and!; [done|done|].
  intros ->. by rewrite (dr_null _ _ _ HR) in Hp.
Qed.

Lemma rep_unlinked p o :
  O !! p = Some o → unlinked L p → nodes s !! p = Some (DNode null null o) ∧ p ≠ null.
Proof.
  intros Hp Hu. destruct (rep_node _ _ Hp) as ([pv nx o'] & Hn & <- & ?). split; [|done].
  destruct (dr_free _ _ _ HR _ _ Hn Hu). cbn in *. by subst.
Qed.

Lemma rep_in l xs p : L !! l = Some xs → p ∈ xs → is_Some (O !! p) ∧ p ≠ null.
Proof.
  intros Hl Hp. destruct (dseg_in _ _ _ _ _ (dr_chain _ _ _ HR _ _ Hl) Hp) as [n Hn].
  pose proof (dr_obj _ _ _ HR p) as E. rewrite Hn in E. cbn in E. split; [by eexists|].
  intros ->. rewrite (dr_null _ _ _ HR) in E. done.
Qed.

Lemma rep_hd l xs : L !! l = Some xs → hd null xs = null ↔ xs = [].
Proof.
  intros Hl. destruct xs as [|x xs]; [done|]. cbn. split; [|done]. intros ->.
  destruct (rep_in _ _ null Hl ltac:(left)). done.
Qed.

Lemma rep_lastd l xs : L !! l = Some xs → lastd null xs = null ↔ xs = [].
Proof.
  intros Hl. destruct xs as [|x xs _] using rev_ind; [done|]. rewrite lastd_app. cbn.
  split; [|intros E; by apply app_nil in E as [_ ?]]. intros ->.
  destruct (rep_in _ _ null Hl ltac:(set_solver)). done.
Qed.
End Rep.

(** One list changes: the other lists keep their nodes. *)
Lemma drep_update L O s l xs xs' s' :
  drep L O s → L !! l = Some xs → NoDup xs' → Z.of_nat (length xs') < 4294967295 →
  (∀ p, p ∈ xs' → p ∈ xs ∨ unlinked L p) →
  lists s' = <[l := head_of xs']> (lists s) → dseg (nodes s') null xs' null →
  (∀ p, p ∉ xs → p ∉ xs' → nodes s' !! p = nodes s !! p) →
  (∀ p, p ∈ xs → p ∉ xs' → ∃ o, nodes s' !! p = Some (DNode null null o)) →
  (∀ p, obj <$> nodes s' !! p = obj <$> nodes s !! p) →
  drep (<[l := xs']> L) O s'.
Proof.
  intros HR Hl Hnd Hlen Hin El Hc Hsame Hout Hobj.
  assert (∀ l2 xs2 p, l ≠ l2 → L !! l2 = Some xs2 → p ∈ xs2 → p ∉ xs ∧ p ∉ xs') as Hsep.
  { intros l2 xs2 p Hne Hl2 Hp. split; intros Hp'.
    - by apply Hne, (dr_disj _ _ _ HR l l2 xs xs2 p).
    - destruct (Hin p Hp') as [?|Hu]; [by apply Hne, (dr_disj _ _ _ HR l l2 xs xs2 p)|].
      by apply (Hu l2 xs2). }
  constructor.
  - intros l2 xs2 [[<- <-]|[Hne Hl2]]%lookup_insert_Some; rewrite El.
    + apply lookup_insert_eq.
    + rewrite lookup_insert_ne by done. by apply (dr_lists _ _ _ HR).
  - intros l2 xs2 [[<- <-]|[Hne Hl2]]%lookup_insert_Some; [done|].
    eapply dseg_ext; [|by apply (dr_chain _ _ _ HR l2)]. intros p Hp.
    destruct (Hsep _ _ _ Hne Hl2 Hp). by apply Hsame.
  - intros l2 xs2 [[<- <-]|[Hne Hl2]]%lookup_insert_Some; [done|by apply (dr_nodup _ _ _ HR l2)].
  - intros l2 xs2 [[<- <-]|[Hne Hl2]]%lookup_insert_Some; [done|by apply (dr_len _ _ _ HR l2)].
  - intros l1 l2 xs1 xs2 p [[<- <-]|[Hne1 H1]]%lookup_insert_Some
      [[<- <-]|[Hne2 H2]]%lookup_insert_Some Hp1 Hp2; [done|..].
    + by destruct (Hsep _ _ _ Hne2 H2 Hp2).
    + by destruct (Hsep _ _ _ Hne1 H1 Hp1).
    + by apply (dr_disj _ _ _ HR l1 l2 xs1 xs2 p).
  - intros p. rewrite Hobj. apply (dr_obj _ _ _ HR).
  - apply (dr_null _ _ _ HR).
  - intros p n Hn Hf. assert (p ∉ xs') as Hp' by (apply (Hf l); apply lookup_insert_eq).
    destruct (decide (p ∈ xs)) as [Hp|Hp].
    + destruct (Hout p Hp Hp') as [o Ho]. rewrite Hn in Ho. by injection Ho as ->.
    + rewrite Hsame in Hn by done. apply (dr_free _ _ _ HR p n Hn). intros l2 xs2 Hl2 Hp2.
      destruct (decide (l = l2)) as [<-|Hne]; [congruence|].
      apply (Hf l2 xs2); [|done]. by rewrite lookup_insert_ne.
Qed.

(** ** Running the operations *)

Section Steps.
Context {B : Type} (ns : gmap Z dlist_node) (ls : gmap Z dlist) (k : unit → M dstore B).

Lemma bind_get_node (k' : dlist_node → M dstore B) p n :
  ns !! p = Some n → bind (get_node p) k' (DStore ns ls) = k' n (DStore ns ls).
Proof. intros E. unfold bind, get_node. cbn. by rewrite E. Qed.
Lemma bind_get_list (k' : dlist → M dstore B) l x :
  ls !! l = Some x → bind (get_list l) k' (DStore ns ls) = k' x (DStore ns ls).
Proof. intros E. unfold bind, get_list. cbn. by rewrite E. Qed.
Lemma bind_set_prev p v n :
  ns !! p = Some n →
  bind (set_prev p v) k (DStore ns ls) = k tt (DStore (<[p := DNode v (next n) (obj n)]> ns) ls).
Proof. intros E. unfold set_prev, bind, get_node. cbn. by rewrite E. Qed.
Lemma bind_set_next p v n :
  ns !! p = Some n →
  bind (set_next p v) k (DStore ns ls) = k tt (DStore (<[p := DNode (prev n) v (obj n)]> ns) ls).
Proof. intros E. unfold set_next, bind, get_node. cbn. by rewrite E. Qed.
Lemma bind_set_first l v x :
  ls !! l = Some x →
  bind (set_first l v) k (DStore ns ls) = k tt (DStore ns (<[l := DList v (last x) (size x)]> ls)).
Proof. intros E. unfold set_first, bind, get_list. cbn. by rewrite E. Qed.
Lemma bind_set_last l v x :
  ls !! l = Some x →
  bind (set_last l v) k (DStore ns ls) = k tt (DStore ns (<[l := DList (first x) v (size x)]> ls)).
Proof. intros E. unfold set_last, bind, get_list. cbn. by rewrite E. Qed.
Lemma bind_size_inc l x :
  ls !! l = Some x →
  bind (size_inc l) k (DStore ns ls) =
  k tt (DStore ns (<[l := DList (first x) (last x) (u32 (size x + 1))]> ls)).
Proof. intros E. unfold size_inc, bind, get_list. cbn. by rewrite E. Qed.
Lemma bind_size_dec msg l x :
  ls !! l = Some x → size x ≠ 0 →
  bind (size_dec msg l) k (DStore ns ls) =
  k tt (DStore ns (<[l := DList (first x) (last x) (u32 (size x - 1))]> ls)).
Proof. intros E H. unfold size_dec, bind, get_list. cbn. rewrite E, eqb_false by done. done. Qed.
Lemma bind_check_unlinked node l x o :
  ns !! node = Some (DNode null null o) → ls !! l = Some x → node ≠ first x →
  bind (check_unlinked node l) k (DStore ns ls) = k tt (DStore ns ls).
Proof.
  intros En El Hne. unfold check_unlinked, bind, get_node, get_list. cbn. rewrite En. cbn.
  by rewrite El, eqb_false.
Qed.
End Steps.

Ltac look := by (simplify_map_eq; reflexivity).

(** [drun] executes list code on a store whose nodes and heads are known. *)
Ltac drun1 :=
  first
  [ rewrite bind_bind | rewrite bind_ret
  | erewrite bind_check_unlinked by (first [look | done])
  | erewrite bind_get_node by look | erewrite bind_get_list by look
  | erewrite bind_set_prev by look | erewrite bind_set_next by look
  | erewrite bind_set_first by look | erewrite bind_set_last by look
  | erewrite bind_size_inc by look ].
Ltac drun := repeat (drun1; cbn [first last size prev next obj]).

(** [objs]: updates kept every [obj] field. *)
Ltac objs :=
  let q := fresh "q" in
  intros q; cbn [nodes]; 
  repeat match goal with
  | |- context [<[?p := _]> _ !! q] => destruct (decide (p = q)) as [<-|?]; simplify_map_eq
  end; try done.

(** The frame conditions of [drep_update]. *)
Ltac frame_tac :=
  cbn [nodes lists];
  try match goal with
  | |- ∀ p, p ∉ _ → p ∉ _ → _ = _ =>
      intros ???; rewrite ?lookup_insert_ne by set_solver; done
  | |- ∀ p, p ∈ _ → p ∉ _ → ∃ _, _ =>
      let Hin := fresh in let Hout := fresh in
      intros ? Hin Hout; exfalso; apply Hout;
      rewrite ?elem_of_app, ?elem_of_cons, ?elem_of_nil in Hin;
      rewrite ?elem_of_app, ?elem_of_cons, ?elem_of_nil; tauto
  | |- ∀ p, obj <$> _ = _ => objs
  end.

Lemma insert_first_spec L O s node l xs o :
  drep L O s → L !! l = Some xs → O !! node = Some o → unlinked L node →
  Z.of_nat (length xs) < 4294967294 →
  ∃ s', dlist_insert_first node l s = Ret (tt, s') ∧ drep (<[l := node :: xs]> L) O s'.
Proof.
  intros HR Hl Ho Hu Hlen.
  destruct (rep_unlinked _ _ _ HR _ _ Ho Hu) as [Hn Hn0].
  pose proof (dr_lists _ _ _ HR _ _ Hl) as Hh. pose proof (dr_chain _ _ _ HR _ _ Hl) as Hc.
  pose proof (dr_nodup _ _ _ HR _ _ Hl) as Hnd. pose proof (rep_hd _ _ _ HR _ _ Hl) as Hhd.
  pose proof (Hu _ _ Hl) as Hnx. destruct s as [ns ls]. cbn [nodes lists] in *.
  unfold dlist_insert_first. rewrite bind_tt.
  destruct xs as [|x xs]; unfold head_of in Hh; cbn in Hh.
  - drun. cbn. drun. eexists. split; [reflexivity|].
    eapply drep_update; [exact HR|exact Hl|by apply NoDup_singleton|cbn; lia|..]; frame_tac.
    + intros p ->%list_elem_of_singleton. by right.
    + unfold head_of. cbn. rewrite !insert_insert_eq. by nowrap.
    + cbn. eauto.
  - assert (x ≠ null) by (destruct Hhd as [H _]; cbn in H; intros ->; by specialize (H eq_refl)).
    destruct Hc as [[ox Hx] Hc]. apply not_elem_of_cons in Hnx as [Hne Hnx].
    apply NoDup_cons in Hnd as [Hxx Hnd].
    drun. rewrite eqb_false by done. cbn [negb]. drun. eexists. split; [reflexivity|].
    eapply drep_update; [exact HR|exact Hl| |cbn in *; lia|..]; frame_tac.
    + apply NoDup_cons. split; [|by apply NoDup_cons]. set_solver.
    + intros p [->|?]%elem_of_cons; [by right|by left].
    + unfold head_of. cbn. rewrite !insert_insert_eq. cbn in Hlen. nowrap. do 2 f_equal. lia.
    + cbn. split; [exists o; by simplify_map_eq|]. split; [exists ox; by simplify_map_eq|].
      do 2 (apply dseg_insert_out; [done|]). done.
Qed.

Lemma lastd_ne L O s l xs x :
  drep L O s → L !! l = Some (xs ++ [x]) → x ≠ null ∧ x ∉ xs.
Proof.
  intros HR Hl. split.
  - by apply (rep_in _ _ _ HR _ _ x Hl); set_solver.
  - pose proof (dr_nodup _ _ _ HR _ _ Hl) as [_ [H _]]%NoDup_app. set_solver.
Qed.

Lemma insert_last_spec L O s node l xs o :
  drep L O s → L !! l = Some xs → O !! node = Some o → unlinked L node →
  Z.of_nat (length xs) < 4294967294 →
  ∃ s', dlist_insert_last node l s = Ret (tt, s') ∧ drep (<[l := xs ++ [node]]> L) O s'.
Proof.
  intros HR Hl Ho Hu Hlen.
  destruct (rep_unlinked _ _ _ HR _ _ Ho Hu) as [Hn Hn0].
  pose proof (dr_lists _ _ _ HR _ _ Hl) as Hh. pose proof (dr_chain _ _ _ HR _ _ Hl) as Hc.
  pose proof (dr_nodup _ _ _ HR _ _ Hl) as Hnd. pose proof (Hu _ _ Hl) as Hnx.
  destruct xs as [|x xs _] using rev_ind; unfold head_of in Hh; cbn in Hh.
  - destruct s as [ns ls]. cbn [nodes lists] in *. unfold dlist_insert_last. rewrite bind_tt.
    drun. cbn. drun. eexists. split; [reflexivity|].
    eapply drep_update; [exact HR|exact Hl|by apply NoDup_singleton|cbn; lia|..]; frame_tac.
    + intros p ->%list_elem_of_singleton. by right.
    + unfold head_of. cbn. rewrite !insert_insert_eq. by nowrap.
    + cbn. eauto.
  - destruct (lastd_ne _ _ _ _ _ _ HR Hl) as [Hx0 Hxx].
    destruct s as [ns ls]. cbn [nodes lists] in *. unfold dlist_insert_last. rewrite bind_tt.
    rewrite lastd_app, length_app in *. cbn [lastd length] in *.
    apply dseg_mid in Hc as Hc'. destruct Hc' as (Hc1 & [ox Hx] & _).
    assert (node ≠ x ∧ node ∉ xs) as [? ?] by set_solver.
    assert (node ≠ hd null (xs ++ [x])) by (intros ->; destruct xs; set_solver).
    drun. rewrite eqb_false by done. cbn [negb]. drun. eexists. split; [reflexivity|].
    eapply drep_update; [exact HR|exact Hl| |rewrite !length_app; cbn in *; lia|..]; frame_tac.
    + apply NoDup_app. split_and!; [done| |apply NoDup_singleton]. set_solver.
    + intros p [?| ->%list_elem_of_singleton]%elem_of_app; [by left|by right].
    + unfold head_of. rewrite !insert_insert_eq, !lastd_app, !length_app. cbn in *.
      nowrap. do 2 f_equal; [by destruct xs|lia].
    + rewrite <- app_assoc. apply dseg_app. cbn. split.
      * do 2 (apply dseg_insert_out; [done|]). done.
      * split; [exists ox; by simplify_map_eq|]. split; [|done]. exists o. by simplify_map_eq.
Qed.

Lemma insert_before_spec L O s node b l xs ys o :
  drep L O s → L !! l = Some (xs ++ b :: ys) → O !! node = Some o → unlinked L node →
  Z.of_nat (length (xs ++ b :: ys)) < 4294967294 →
  ∃ s', dlist_insert_before node b l s = Ret (tt, s') ∧
        drep (<[l := xs ++ node :: b :: ys]> L) O s'.
Proof.
  intros HR Hl Ho Hu Hlen.
  destruct (rep_unlinked _ _ _ HR _ _ Ho Hu) as [Hn Hn0].
  pose proof (dr_lists _ _ _ HR _ _ Hl) as Hh. pose proof (dr_chain _ _ _ HR _ _ Hl) as Hc.
  pose proof (dr_nodup _ _ _ HR _ _ Hl) as Hnd. pose proof (Hu _ _ Hl) as Hnx.
  unfold head_of in Hh.
  destruct xs as [|x xs _] using rev_ind; cbn [app hd] in *.
  - destruct (insert_first_spec _ _ _ _ _ _ _ HR Hl Ho Hu Hlen) as (s' & E & HR').
    exists s'. split; [|done]. rewrite <- E. destruct s as [ns ls]. cbn [nodes lists] in *.
    unfold dlist_insert_before. assert (node ≠ b) by set_solver. drun. by rewrite Z.eqb_refl.
  - assert (node ≠ x ∧ node ∉ xs ∧ node ≠ b ∧ node ∉ ys) as (? & ? & ? & ?) by set_solver.
    rewrite <- app_assoc in *. cbn [app] in *.
    assert (x ≠ b ∧ x ∉ xs ∧ b ∉ xs ∧ x ∉ ys ∧ b ∉ ys) as (? & ? & ? & ? & ?).
    { apply NoDup_app in Hnd as (_ & Hd & [Hx [Hb _]%NoDup_cons]%NoDup_cons). set_solver. }
    assert (hd null (xs ++ x :: b :: ys) ≠ b ∧ hd null (xs ++ x :: b :: ys) ≠ node) as [? ?]
      by (destruct xs; cbn; set_solver).
    apply dseg_mid in Hc as (Hc1 & [ox Hx] & [[ob Hb] Hc2]). cbn in Hx.
    destruct s as [ns ls]. cbn [nodes lists] in *. unfold dlist_insert_before. rewrite bind_tt.
    drun. rewrite eqb_false by done. drun. eexists. split; [reflexivity|].
    eapply drep_update; [exact HR|exact Hl| |rewrite !length_app in *; cbn in *; lia|..]; frame_tac.
    + apply NoDup_app in Hnd as (Hd1 & Hd & [Hx' Hd2]%NoDup_cons).
      apply NoDup_app. split_and!; [done|set_solver|].
      do 2 (apply NoDup_cons; split; [set_solver|]). done.
    + intros p Hp. destruct (decide (p = node)) as [->|]; [by right|left]. set_solver.
    + unfold head_of. rewrite !lastd_app, !length_app in *. cbn in *.
      rewrite ?insert_insert_eq. nowrap. do 2 f_equal; [by destruct xs|lia].
    + apply dseg_app. cbn. split.
      * repeat (apply dseg_insert_out; [done|]). done.
      * split; [exists ox; by simplify_map_eq|]. split; [exists o; by simplify_map_eq|].
        split; [exists ob; by simplify_map_eq|]. repeat (apply dseg_insert_out; [done|]). done.
Qed.

Lemma insert_after_spec L O s node a l xs ys o :
  drep L O s → L !! l = Some (xs ++ a :: ys) → O !! node = Some o → unlinked L node →
  Z.of_nat (length (xs ++ a :: ys)) < 4294967294 →
  ∃ s', dlist_insert_after node a l s = Ret (tt, s') ∧
        drep (<[l := xs ++ a :: node :: ys]> L) O s'.
Proof.
  intros HR Hl Ho Hu Hlen.
  destruct (rep_unlinked _ _ _ HR _ _ Ho Hu) as [Hn Hn0].
  pose proof (dr_lists _ _ _ HR _ _ Hl) as Hh. pose proof (dr_chain _ _ _ HR _ _ Hl) as Hc.
  pose proof (dr_nodup _ _ _ HR _ _ Hl) as Hnd. pose proof (Hu _ _ Hl) as Hnx.
  unfold head_of in Hh.
  assert (node ≠ hd null (xs ++ a :: ys)) by (destruct xs; cbn; set_solver).
  destruct ys as [|y ys].
  - destruct (insert_last_spec _ _ _ _ _ _ _ HR Hl Ho Hu Hlen) as (s' & E & HR').
    exists s'. rewrite <- app_assoc in HR'. split; [|done]. rewrite <- E.
    rewrite lastd_app in Hh. destruct s as [ns ls]. cbn [nodes lists] in *.
    unfold dlist_insert_after. drun. cbn. by rewrite Z.eqb_refl.
  - assert (node ≠ a ∧ node ∉ xs ∧ node ≠ y ∧ node ∉ ys) as (? & ? & ? & ?) by set_solver.
    apply NoDup_app in Hnd as (Hd1 & Hd & [Ha [Hy Hd2]%NoDup_cons]%NoDup_cons).
    assert (a ≠ y ∧ a ∉ xs ∧ y ∉ xs ∧ a ∉ ys) as (? & ? & ? & ?) by set_solver.
    assert (a ≠ lastd null (xs ++ a :: y :: ys)).
    { rewrite lastd_app. cbn. destruct ys as [|z ys _] using rev_ind; [done|].
      rewrite lastd_app. cbn. set_solver. }
    apply dseg_mid in Hc as (Hc1 & [oa Hna] & [[oy Hny] Hc2]). cbn in Hna.
    destruct s as [ns ls]. cbn [nodes lists] in *. unfold dlist_insert_after. rewrite bind_tt.
    drun. rewrite eqb_false by done. drun. eexists. split; [reflexivity|].
    eapply drep_update; [exact HR|exact Hl| |rewrite !length_app in *; cbn in *; lia|..]; frame_tac.
    + apply NoDup_app. split_and!; [done|set_solver|].
      do 2 (apply NoDup_cons; split; [set_solver|]). by apply NoDup_cons.
    + intros p Hp. destruct (decide (p = node)) as [->|]; [by right|left]. set_solver.
    + unfold head_of. rewrite !lastd_app, !length_app in *. cbn in *.
      rewrite ?insert_insert_eq. nowrap. do 2 f_equal; [by destruct xs|lia].
    + apply dseg_app. cbn. split.
      * repeat (apply dseg_insert_out; [done|]). done.
      * split; [exists oa; by simplify_map_eq|]. split; [exists o; by simplify_map_eq|].
        split; [exists oy; by simplify_map_eq|]. repeat (apply dseg_insert_out; [done|]). done.
Qed.

Lemma bind_size_dec_len {B} (k : unit → M dstore B) msg ns ls l f la (n : nat) :
  ls !! l = Some (DList f la (Z.of_nat (S n))) → Z.of_nat (S n) < 4294967295 →
  bind (size_dec msg l) k (DStore ns ls) = k tt (DStore ns (<[l := DList f la (Z.of_nat n)]> ls)).
Proof.
  intros E H. erewrite bind_size_dec; [|exact E|cbn; lia]. cbn [first last size].
  do 4 f_equal. nowrap. lia.
Qed.

Lemma remove_first_spec L O s l x xs :
  drep L O s → L !! l = Some (x :: xs) →
  ∃ s', dlist_remove_first l s = Ret (x, s') ∧ drep (<[l := xs]> L) O s'.
Proof.
  intros HR Hl. pose proof (dr_lists _ _ _ HR _ _ Hl) as Hh.
  pose proof (dr_chain _ _ _ HR _ _ Hl) as Hc. pose proof (dr_len _ _ _ HR _ _ Hl) as Hlen.
  pose proof (dr_nodup _ _ _ HR _ _ Hl) as [Hx Hnd]%NoDup_cons.
  destruct (rep_in _ _ _ HR _ _ x Hl ltac:(left)) as [_ Hx0].
  assert (∀ y, y ∈ xs → y ≠ null) as Hy0.
  { intros y Hy. by apply (rep_in _ _ _ HR _ _ y Hl); right. }
  unfold head_of in Hh. cbn in Hh. destruct Hc as [[o Ho] Hc].
  destruct s as [ns ls]. cbn [nodes lists] in *. unfold dlist_remove_first.
  drun. rewrite eqb_false by done. cbn [negb]. drun.
  destruct xs as [|y xs]; cbn [hd] in *.
  - cbn. drun. erewrite bind_size_dec_len by first [look|done]. drun.
    eexists. split; [reflexivity|].
    eapply drep_update; [exact HR|exact Hl|constructor|cbn; lia|..]; frame_tac.
    + intros p Hp. set_solver.
    + unfold head_of. cbn. by rewrite !insert_insert_eq.
    + done.
    + intros p ->%list_elem_of_singleton _. exists o. by simplify_map_eq.
  - rewrite eqb_false by (apply Hy0; set_solver). cbn [negb].
    destruct Hc as [[oy Hny] Hc]. apply NoDup_cons in Hnd as [Hy Hnd].
    assert (x ≠ y ∧ x ∉ xs) as [? ?] by set_solver.
    drun. erewrite bind_size_dec_len by first [look|done]. drun.
    eexists. split; [reflexivity|].
    eapply drep_update; [exact HR|exact Hl|by apply NoDup_cons|cbn in *; lia|..]; frame_tac.
    + intros p Hp. left. set_solver.
    + unfold head_of. cbn. by rewrite !insert_insert_eq.
    + cbn. split; [exists oy; by simplify_map_eq|]. repeat (apply dseg_insert_out; [done|]). done.
    + intros p [->|?]%elem_of_cons ?; [|done]. exists o. by simplify_map_eq.
Qed.

Lemma remove_last_spec L O s l xs x :
  drep L O s → L !! l = Some (xs ++ [x]) →
  ∃ s', dlist_remove_last l s = Ret (x, s') ∧ drep (<[l := xs]> L) O s'.
Proof.
  intros HR Hl. pose proof (dr_lists _ _ _ HR _ _ Hl) as Hh.
  pose proof (dr_chain _ _ _ HR _ _ Hl) as Hc. pose proof (dr_len _ _ _ HR _ _ Hl) as Hlen.
  pose proof (dr_nodup _ _ _ HR _ _ Hl) as Hnd.
  destruct (lastd_ne _ _ _ _ _ _ HR Hl) as [Hx0 Hxx].
  assert (∀ y, y ∈ xs → y ≠ null) as Hy0.
  { intros y Hy. by apply (rep_in _ _ _ HR _ _ y Hl); set_solver. }
  unfold head_of in Hh. apply NoDup_app in Hnd as (Hnd & _ & _).
  rewrite lastd_app, length_app, Nat.add_comm in *. cbn [lastd length Nat.add] in *.
  apply dseg_mid in Hc as (Hc1 & [o Ho] & _). cbn in Ho.
  destruct s as [ns ls]. cbn [nodes lists] in *. unfold dlist_remove_last.
  drun. rewrite eqb_false by done. cbn [negb]. drun.
  destruct xs as [|y xs _] using rev_ind.
  - cbn. drun. erewrite bind_size_dec_len by first [look|done]. drun.
    eexists. split; [reflexivity|].
    eapply drep_update; [exact HR|exact Hl|constructor|cbn; lia|..]; frame_tac.
    + intros p Hp. set_solver.
    + unfold head_of. cbn. by rewrite !insert_insert_eq.
    + done.
    + intros p ->%list_elem_of_singleton _. exists o. by simplify_map_eq.
  - rewrite lastd_app in *. cbn [lastd] in *. apply NoDup_app in Hnd as (Hnd & Hd & _).
    rewrite eqb_false by (apply Hy0; set_solver). cbn [negb].
    apply dseg_mid in Hc1 as (Hc1 & [oy Hny] & _). cbn in Hny.
    assert (x ≠ y ∧ x ∉ xs ∧ y ∉ xs) as (? & ? & ?) by set_solver.
    drun. erewrite bind_size_dec_len by first [look|done]. drun.
    eexists. split; [reflexivity|].
    eapply drep_update; [exact HR|exact Hl| |cbn in *; lia|..]; frame_tac.
    + apply NoDup_app. split_and!; [done|set_solver|apply NoDup_singleton].
    + intros p Hp. left. set_solver.
    + unfold head_of. rewrite !insert_insert_eq, lastd_app. cbn. do 2 f_equal. by destruct xs.
    + apply dseg_app. cbn. split; [repeat (apply dseg_insert_out; [done|]); done|].
      split; [|done]. exists oy. by simplify_map_eq.
    + intros p Hp Hp'. assert (p = x) as -> by set_solver. exists o. by simplify_map_eq.
Qed.

(** The end of [dlist_remove]: the links of a removed node are cleared again. *)
Lemma clear_links L O s node :
  drep L O s → is_Some (O !! node) → unlinked L node →
  (set_next node null ;; set_prev node null ;; ret node) s = Ret (node, s).
Proof.
  intros HR [o Ho] Hu. destruct (rep_unlinked _ _ _ HR _ _ Ho Hu) as [Hn _].
  destruct s as [ns ls]. cbn in Hn. drun.
  by rewrite ?insert_insert_eq, insert_id by done.
Qed.

Lemma unlinked_removed L l xs ys x :
  (∀ l1 l2 xs1 xs2 p, L !! l1 = Some xs1 → L !! l2 = Some xs2 → p ∈ xs1 → p ∈ xs2 → l1 = l2) →
  L !! l = Some xs → x ∈ xs → x ∉ ys → unlinked (<[l := ys]> L) x.
Proof.
  intros Hd Hl Hx Hy l' xs' [[<- <-]|[Hne Hl']]%lookup_insert_Some; [done|].
  intros Hx'. apply Hne. by eapply (Hd l l').
Qed.

Lemma remove_mid_spec L O s l a xs x ys b :
  drep L O s → L !! l = Some ((xs ++ [a]) ++ x :: b :: ys) →
  ∃ s', ((let* n := get_node x in
          set_next (prev n) (next n) ;;
          let* n := get_node x in
          set_prev (next n) (prev n) ;;
          size_dec "List error" l) ;; set_next x null ;; set_prev x null ;; ret x) s = Ret (x, s') ∧
        drep (<[l := (xs ++ [a]) ++ b :: ys]> L) O s'.
Proof.
  intros HR Hl. pose proof (dr_lists _ _ _ HR _ _ Hl) as Hh.
  pose proof (dr_chain _ _ _ HR _ _ Hl) as Hc. pose proof (dr_len _ _ _ HR _ _ Hl) as Hlen.
  pose proof (dr_nodup _ _ _ HR _ _ Hl) as Hnd. unfold head_of in Hh.
  replace (length ((xs ++ [a]) ++ x :: b :: ys)) with (S (length ((xs ++ [a]) ++ b :: ys))) in *
    by (rewrite !length_app; cbn; lia).
  apply dseg_mid in Hc as (Hc1 & [o Ho] & [[ob Hb] Hc2]).
  apply dseg_mid in Hc1 as (Hc1 & [oa Ha] & _). rewrite !lastd_app in *. cbn [lastd hd] in *.
  apply NoDup_app in Hnd as (Hnd & Hd & [Hx [Hbb Hnd2]%NoDup_cons]%NoDup_cons).
  assert (a ≠ x ∧ a ≠ b ∧ x ≠ b ∧ a ∉ ys ∧ x ∉ xs ∧ b ∉ xs ∧ x ∉ ys) as (? & ? & ? & ? & ? & ? & ?)
    by (split_and!; set_solver).
  apply NoDup_app in Hnd as Hnd'. destruct Hnd' as (Hnd1 & Hd1 & _).
  assert (a ∉ xs) by set_solver.
  destruct s as [ns ls]. cbn [nodes lists] in *. drun.
  erewrite bind_size_dec_len by first [look|done]. drun. eexists. split; [reflexivity|].
  eapply drep_update; [exact HR|exact Hl| |lia|..]; frame_tac.
  - apply NoDup_app. split_and!; [done|set_solver|by apply NoDup_cons].
  - intros p Hp. left. set_solver.
  - unfold head_of. rewrite !lastd_app. cbn. do 2 f_equal. by destruct xs.
  - apply dseg_app. split; [apply dseg_app; cbn; split|].
    + repeat (apply dseg_insert_out; [done|]). done.
    + split; [|done]. exists oa. by simplify_map_eq.
    + rewrite lastd_app. cbn. split; [exists ob; by simplify_map_eq|].
      repeat (apply dseg_insert_out; [done|]). done.
  - intros p Hp Hp'. assert (p = x) as -> by set_solver. exists o. by simplify_map_eq.
Qed.

Lemma remove_spec L O s l xs x ys :
  drep L O s → L !! l = Some (xs ++ x :: ys) →
  ∃ s', dlist_remove x l s = Ret (x, s') ∧ drep (<[l := xs ++ ys]> L) O s'.
Proof.
  intros HR Hl. pose proof (dr_lists _ _ _ HR _ _ Hl) as Hh.
  pose proof (dr_nodup _ _ _ HR _ _ Hl) as Hnd. unfold head_of in Hh.
  pose proof (dr_disj _ _ _ HR) as Hdis.
  assert (x ∈ xs ++ x :: ys) as Hx by set_solver.
  destruct (rep_in _ _ _ HR _ _ x Hl Hx) as [HO _].
  apply NoDup_app in Hnd as (Hnd1 & Hd & [Hxy Hnd2]%NoDup_cons).
  assert (x ∉ xs ++ ys) as Hout by set_solver.
  pose proof (unlinked_removed L l _ (xs ++ ys) x Hdis Hl Hx Hout) as Hu.
  destruct xs as [|a xs _] using rev_ind; [|destruct ys as [|b ys _]].
  - destruct (remove_first_spec _ _ _ _ _ _ HR Hl) as (s' & E & HR').
    exists s'. split; [|done]. unfold dlist_remove. destruct s as [ns ls]. cbn [lists] in Hh.
    drun. cbn. rewrite Z.eqb_refl. drun. rewrite (bind_Ret _ _ _ _ _ E). drun.
    eapply clear_links; eauto.
  - destruct (remove_last_spec _ _ _ _ _ _ HR Hl) as (s' & E & HR').
    rewrite app_nil_r in *. exists s'. split; [|done]. unfold dlist_remove.
    destruct s as [ns ls]. cbn [lists] in Hh. rewrite lastd_app in Hh. drun. cbn.
    rewrite eqb_false by (destruct xs; set_solver). rewrite Z.eqb_refl. drun.
    rewrite (bind_Ret _ _ _ _ _ E). drun. eapply clear_links; eauto.
  - destruct (remove_mid_spec _ _ _ _ _ _ _ _ _ HR Hl) as (s' & E & HR').
    exists s'. split; [|done]. rewrite bind_bind in E. rewrite <- E. unfold dlist_remove.
    destruct s as [ns ls]. cbn [lists] in Hh. rewrite lastd_app in Hh. cbn [lastd] in Hh. drun.
    rewrite eqb_false by (destruct xs; set_solver).
    rewrite eqb_false by (destruct ys as [|z ys _] using rev_ind; rewrite ?lastd_app; cbn; set_solver).
    by rewrite bind_bind.
Qed.

Lemma search_loop_spec O L s fuel xs pre l node :
  drep L O s → L !! l = Some (pre ++ xs) → (length xs < fuel)%nat →
  search_loop fuel (hd null xs) node s = Ret (if decide (node ∈ xs) then 1 else 0, s).
Proof.
  intros HR. revert pre fuel. induction xs as [|x xs IH]; intros pre [|fuel] Hl Hf; try (cbn in *; lia).
  { done. }
  destruct (rep_in _ _ _ HR _ _ x Hl ltac:(set_solver)) as [_ Hx0].
  pose proof (dr_chain _ _ _ HR _ _ Hl) as (_ & [o Ho] & _)%dseg_mid.
  cbn [search_loop hd]. rewrite eqb_false by done. cbn [negb].
  destruct (x =? node) eqn:E.
  - apply Z.eqb_eq in E as ->. rewrite decide_True by set_solver. done.
  - apply Z.eqb_neq in E. destruct s as [ns ls]. cbn in Ho. drun.
    rewrite (IH (pre ++ [x])); [|by rewrite <- app_assoc|cbn in Hf; lia].
    repeat case_decide; set_solver.
Qed.
