(* ===== verification/DlistTheorems.v ===== *)
(** * Properties of the doubly linked lists

    The operations of kernel/src/kernel/dlist.c act on the sequences of nodes
    their lists stand for, and what their run-time checks do and do not catch. *)

From S2P Require Import Prelude Dlist.

(** ** A concrete store *)

Lemma drep_empty (ls : gset Z) (O : gmap Z Z) :
  O !! null = None →
  drep (gset_to_gmap [] ls) O (DStore (DNode null null <$> O) (gset_to_gmap (head_of []) ls)).
Proof.
  intros H0. constructor; cbn.
  - intros l xs [? <-]%lookup_gset_to_gmap_Some. by apply lookup_gset_to_gmap_Some.
  - by intros l xs [? <-]%lookup_gset_to_gmap_Some.
  - intros l xs [? <-]%lookup_gset_to_gmap_Some. constructor.
  - intros l xs [? <-]%lookup_gset_to_gmap_Some. cbn. lia.
  - intros l1 l2 xs1 xs2 p [? <-]%lookup_gset_to_gmap_Some _ Hp. by apply elem_of_nil in Hp.
  - intros p. rewrite lookup_fmap. by destruct (O !! p).
  - done.
  - intros p n (o & <- & _)%lookup_fmap_Some _. done.
Qed.

Definition ex_objs : gmap Z Z := list_to_map [(1, 10); (2, 20); (3, 30)].

Lemma ex_rep : ∃ L s, drep L ex_objs s ∧ L !! 100 = Some [1; 2] ∧ L !! 200 = Some [] ∧
  unlinked L 3.
Proof.
  pose proof (drep_empty (list_to_set [100; 200]) ex_objs eq_refl) as H0.
  set (L0 := gset_to_gmap [] (list_to_set [100; 200] : gset Z)) in H0.
  assert (∀ l xs, L0 !! l = Some xs → xs = []) as HL0.
  { by intros l xs [_ <-]%lookup_gset_to_gmap_Some. }
  assert (∀ p, unlinked L0 p) as HU0.
  { intros p l xs ->%HL0. apply not_elem_of_nil. }
  assert (∀ xs p, p ∉ xs → unlinked (<[100 := xs]> L0) p) as HU1.
  { intros xs p Hp l ys [[<- <-]|[_ Hl]]%lookup_insert_Some; [done|by eapply HU0]. }
  destruct (insert_last_spec _ _ _ 1 100 [] 10 H0 eq_refl eq_refl (HU0 1) ltac:(cbn; lia))
    as (s1 & _ & H1).
  destruct (insert_last_spec _ _ _ 2 100 [1] 20 H1 (lookup_insert_eq _ _ _) eq_refl
    (HU1 [1] 2 ltac:(set_solver)) ltac:(cbn; lia)) as (s2 & _ & H2).
  rewrite insert_insert_eq in H2. eexists _, s2. split; [exact H2|]. split_and!.
  - apply lookup_insert_eq.
  - by rewrite lookup_insert_ne.
  - apply HU1. set_solver.
Qed.

(** ** Properties *)

(** C22. Inserting a node that is in no list puts it at the requested place of
    the list's sequence and leaves every other list as it was: first, last,
    before a given member and after a given member. *)
Theorem dlist_insert_refines L O s node l o :
  drep L O s → O !! node = Some o → unlinked L node →
  (∀ xs, L !! l = Some xs → Z.of_nat (length xs) < 4294967294 →
    (∃ s', dlist_insert_first node l s = Ret (tt, s') ∧ drep (<[l := node :: xs]> L) O s') ∧
    (∃ s', dlist_insert_last node l s = Ret (tt, s') ∧ drep (<[l := xs ++ [node]]> L) O s')) ∧
  (∀ xs b ys, L !! l = Some (xs ++ b :: ys) → Z.of_nat (length (xs ++ b :: ys)) < 4294967294 →
    (∃ s', dlist_insert_before node b l s = Ret (tt, s') ∧
           drep (<[l := xs ++ node :: b :: ys]> L) O s') ∧
    (∃ s', dlist_insert_after node b l s = Ret (tt, s') ∧
           drep (<[l := xs ++ b :: node :: ys]> L) O s')).
Proof.
  intros HR Ho Hu. split.
  - intros xs Hl Hn. split; [by eapply insert_first_spec|by eapply insert_last_spec].
  - intros xs b ys Hl Hn. split; [by eapply insert_before_spec|by eapply insert_after_spec].
Qed.

Lemma dlist_insert_refines_witness :
  ∃ L s s', drep L ex_objs s ∧ dlist_insert_before 3 2 100 s = Ret (tt, s') ∧
            drep (<[100 := [1; 3; 2]]> L) ex_objs s'.
Proof.
  destruct ex_rep as (L & s & HR & H1 & _ & Hu).
  destruct (proj1 (proj2 (dlist_insert_refines L ex_objs s 3 100 30 HR eq_refl Hu)
    [1] 2 [] H1 ltac:(cbn; lia))) as (s' & E & HR').
  exists L, s, s'. split; [exact HR|]. split; [exact E|exact HR'].
Defined.

(** Removal takes exactly the requested node out of the list and unlinks
    it: the first, the last or any given member, without a panic. *)
Theorem dlist_remove_refines L O s l :
  drep L O s →
  (∀ x xs, L !! l = Some (x :: xs) →
    ∃ s', dlist_remove_first l s = Ret (x, s') ∧ drep (<[l := xs]> L) O s') ∧
  (∀ xs x, L !! l = Some (xs ++ [x]) →
    ∃ s', dlist_remove_last l s = Ret (x, s') ∧ drep (<[l := xs]> L) O s') ∧
  (∀ xs x ys, L !! l = Some (xs ++ x :: ys) →
    ∃ s', dlist_remove x l s = Ret (x, s') ∧ drep (<[l := xs ++ ys]> L) O s').
Proof.
  intros HR. split_and!; intros.
  - by apply remove_first_spec.
  - by apply remove_last_spec.
  - by apply remove_spec.
Qed.

Lemma dlist_remove_refines_witness :
  ∃ L s s', drep L ex_objs s ∧ dlist_remove 2 100 s = Ret (2, s') ∧
            drep (<[100 := [1]]> L) ex_objs s'.
Proof.
  destruct ex_rep as (L & s & HR & H1 & _ & Hu).
  destruct (proj2 (proj2 (dlist_remove_refines L ex_objs s 100 HR)) [1] 2 [] H1) as (s' & E & HR').
  exists L, s, s'. split; [exact HR|]. split; [exact E|exact HR'].
Defined.

(** A node with a neighbour, or the first node of the list, is refused. *)
Lemma check_unlinked_bad L O s l xs node :
  drep L O s → L !! l = Some xs → is_Some (O !! node) →
  (∃ l' ys, L !! l' = Some ys ∧ node ∈ ys ∧ (2 ≤ length ys)%nat) ∨ hd null xs = node →
  check_unlinked node l s = Panic "List error".
Proof.
  intros HR Hl [o Ho] Hbad. pose proof (dr_lists _ _ _ HR _ _ Hl) as Hh.
  destruct (rep_node _ _ _ HR _ _ Ho) as (n & Hn & _ & Hn0). destruct s as [ns ls]; cbn in *.
  unfold check_unlinked. rewrite (bind_get_node _ _ _ _ _ Hn).
  destruct (negb (next n =? null) || negb (prev n =? null)) eqn:Eb; [done|].
  apply orb_false_iff in Eb as [E1%negb_false_iff%Z.eqb_eq E2%negb_false_iff%Z.eqb_eq].
  rewrite (bind_get_list _ _ _ _ _ Hh). destruct Hbad as [(l' & ys & Hl' & Hin & Hlen)|<-].
  - exfalso. pose proof (dr_chain _ _ _ HR _ _ Hl') as Hc.
    apply list_elem_of_split in Hin as (y1 & y2 & ->). pose proof Hl' as Hl''.
    apply dseg_mid in Hc as (_ & [o' Ho'] & _). cbn in Ho'. rewrite Hn in Ho'.
    injection Ho' as ->. cbn in *. destruct y2 as [|z y2]; cbn in *.
    + destruct y1 as [|z y1 _] using rev_ind; [cbn in *; lia|]. rewrite lastd_app in E2. cbn in E2.
      subst z. by destruct (rep_in _ _ _ HR _ _ null Hl' ltac:(set_solver)).
    + subst z. by destruct (rep_in _ _ _ HR _ _ null Hl' ltac:(set_solver)).
  - unfold head_of. cbn. by rewrite Z.eqb_refl.
Qed.

(** [dlist_search] decides membership, and the insertion functions panic
    on every node that has a neighbour and on the first node of the list
    itself. *)
Theorem dlist_checks L O s l xs node :
  drep L O s → L !! l = Some xs → is_Some (O !! node) →
  (∀ fuel, (length xs < fuel)%nat →
     dlist_search fuel node l s = Ret (if decide (node ∈ xs) then 1 else 0, s)) ∧
  ((∃ l' ys, L !! l' = Some ys ∧ node ∈ ys ∧ (2 ≤ length ys)%nat) ∨ hd null xs = node →
     dlist_insert_first node l s = Panic "List error" ∧
     dlist_insert_last node l s = Panic "List error").
Proof.
  intros HR Hl [o Ho]. pose proof (dr_lists _ _ _ HR _ _ Hl) as Hh. split.
  - intros fuel Hf. unfold dlist_search. destruct s as [ns ls].
    rewrite (bind_get_list _ _ _ _ _ Hh). by apply (search_loop_spec O L _ fuel xs [] l).
  - intros Hbad. pose proof (check_unlinked_bad _ _ _ _ _ _ HR Hl ltac:(by eexists) Hbad) as E.
    unfold dlist_insert_first, dlist_insert_last. by rewrite !(bind_Panic _ _ _ _ E).
Qed.

Lemma dlist_checks_witness :
  ∃ s, dlist_search 3 2 100 s = Ret (1, s) ∧ dlist_insert_first 2 200 s = Panic "List error".
Proof.
  destruct ex_rep as (L & s & HR & H1 & H2 & _). exists s. split.
  - apply (proj1 (dlist_checks L ex_objs s 100 [1; 2] 2 HR H1 ltac:(by eexists)) 3%nat). cbn. lia.
  - apply (proj2 (dlist_checks L ex_objs s 200 [] 2 HR H2 ltac:(by eexists))).
    left. exists 100, [1; 2]. split; [exact H1|]. split; [set_solver|cbn; lia].
Defined.

(** The checks do not cover a node that is the only member of another
    list: it can be inserted a second time, and then both lists hold it. *)
Theorem dlist_insert_single_unchecked node o l1 l2 ns ls :
  ns !! node = Some (DNode null null o) → node ≠ null → l1 ≠ l2 →
  ls !! l1 = Some (head_of [node]) → ls !! l2 = Some (head_of []) →
  ∃ s', dlist_insert_last node l2 (DStore ns ls) = Ret (tt, s') ∧
    lists s' !! l1 = Some (head_of [node]) ∧ lists s' !! l2 = Some (head_of [node]).
Proof.
  intros Hn H0 Hl H1 H2. unfold dlist_insert_last, head_of in *. cbn in *. rewrite bind_tt.
  drun. cbn. drun. eexists. split; [reflexivity|]. cbn. by simplify_map_eq.
Qed.

Lemma dlist_insert_single_unchecked_witness :
  ∃ s', dlist_insert_last 1 200 (DStore {[1 := DNode null null 10]}
          (<[100 := head_of [1]]> {[200 := head_of []]})) = Ret (tt, s') ∧
        lists s' !! 100 = Some (head_of [1]) ∧ lists s' !! 200 = Some (head_of [1]).
Proof.
  apply (dlist_insert_single_unchecked 1 10 100 200); first [reflexivity|done].
Defined.
