(* ===== verification/CList.v ===== *)
(** * Circular lists (kernel/src/kernel/list.h)

    A [struct list_node] is both a list and a member: the list is a ring through
    its own node.  [ring] relates the nodes to the sequence of members; the
    operations act on that sequence. *)

From S2P Require Import Prelude.

Record list_node := LNode { l_next : Z; l_prev : Z }.

Abbreviation lstore := (gmap Z list_node).

Definition lget (p : Z) : M lstore list_node :=
  λ s, match s !! p with Some n => Ret (n, s) | None => UB end.
Definition lset_next (p v : Z) : M lstore unit :=
  let* n := lget p in modify (λ s, <[p := LNode v (l_prev n)]> s).
Definition lset_prev (p v : Z) : M lstore unit :=
  let* n := lget p in modify (λ s, <[p := LNode (l_next n) v]> s).

Definition list_init (list : Z) : M lstore unit := lset_prev list list ;; lset_next list list.
Definition list_node_init (list : Z) : M lstore unit := lset_next list 0 ;; lset_prev list 0.

(** [_list_add] and [_list_delete]. *)
Definition _list_add (new prev next : Z) : M lstore unit :=
  lset_next prev new ;; lset_prev next new ;; lset_next new next ;; lset_prev new prev.
Definition _list_delete (prev next : Z) : M lstore unit :=
  lset_next prev next ;; lset_prev next prev.

Definition list_add_first (new list : Z) : M lstore unit :=
  let* l := lget list in _list_add new list (l_next l).
Definition list_add_last (new list : Z) : M lstore unit :=
  let* l := lget list in _list_add new (l_prev l) list.

Definition list_delete_node (node : Z) : M lstore unit :=
  let* n := lget node in
  _list_delete (l_prev n) (l_next n) ;; lset_next node 0 ;; lset_prev node 0.

Definition list_delete_first (list : Z) : M lstore unit :=
  let* l := lget list in
  if l_next l =? list then ret tt else list_delete_node (l_next l).
Definition list_delete_last (list : Z) : M lstore unit :=
  let* l := lget list in
  if l_next l =? list then ret tt else list_delete_node (l_prev l).

Definition list_is_empty (list : Z) : M lstore Z :=
  let* l := lget list in ret (if l_next l =? list then 1 else 0).
Definition list_get_first (list : Z) : M lstore Z := let* l := lget list in ret (l_next l).
Definition list_get_last (list : Z) : M lstore Z := let* l := lget list in ret (l_prev l).

(** [list_iterate] with the body of [list_get_size]. *)
Fixpoint size_loop (fuel : nat) (node list size : Z) : M lstore Z :=
  match fuel with
  | O => hang
  | S f => if negb (node =? list)
           then let* n := lget node in size_loop f (l_next n) list (u32 (size + 1))
           else ret size
  end.
Definition list_get_size (fuel : nat) (list : Z) : M lstore Z :=
  let* l := lget list in size_loop fuel (l_next l) list 0.

(** ** Representation *)

Fixpoint lastl (d : Z) (xs : list Z) : Z :=
  match xs with [] => d | x :: xs => lastl x xs end.

Fixpoint cseg (s : lstore) (pv : Z) (xs : list Z) (nx : Z) : Prop :=
  match xs with
  | [] => True
  | x :: xs => s !! x = Some (LNode (hd nx xs) pv) ∧ cseg s x xs nx
  end.

(** The ring of list [l] with members [xs]. *)
Definition ring (s : lstore) (l : Z) (xs : list Z) : Prop :=
  cseg s (lastl l xs) (l :: xs) l ∧ NoDup (l :: xs).

Lemma lastl_app d xs ys : lastl d (xs ++ ys) = lastl (lastl d xs) ys.
Proof. revert d; induction xs; simpl; auto. Qed.

Lemma hd_app (d : Z) xs ys : hd d (xs ++ ys) = hd (hd d ys) xs.
Proof. by destruct xs. Qed.

Lemma cseg_app s pv xs ys nx :
  cseg s pv (xs ++ ys) nx ↔ cseg s pv xs (hd nx ys) ∧ cseg s (lastl pv xs) ys nx.
Proof.
  revert pv; induction xs as [|x xs IH]; intros pv; cbn; [naive_solver|].
  rewrite IH, hd_app. naive_solver.
Qed.

Lemma cseg_out s pv xs nx p n : p ∉ xs → cseg s pv xs nx → cseg (<[p := n]> s) pv xs nx.
Proof.
  revert pv; induction xs as [|x xs IH]; intros pv; cbn; [done|].
  intros [Hx Hp]%not_elem_of_cons [E H]. split; [by rewrite lookup_insert_ne|by apply IH].
Qed.

Section Steps.
Context {B : Type} (s : lstore) (k : unit → M lstore B).
Lemma bind_lget (k' : list_node → M lstore B) p n :
  s !! p = Some n → bind (lget p) k' s = k' n s.
Proof. intros E. unfold bind, lget. by rewrite E. Qed.
Lemma bind_lset_next p v n :
  s !! p = Some n → bind (lset_next p v) k s = k tt (<[p := LNode v (l_prev n)]> s).
Proof. intros E. unfold lset_next, bind, lget. by rewrite E. Qed.
Lemma bind_lset_prev p v n :
  s !! p = Some n → bind (lset_prev p v) k s = k tt (<[p := LNode (l_next n) v]> s).
Proof. intros E. unfold lset_prev, bind, lget. by rewrite E. Qed.
Lemma lset_prev_end p v n :
  s !! p = Some n → lset_prev p v s = Ret (tt, <[p := LNode (l_next n) v]> s).
Proof. intros E. unfold lset_prev, bind, lget. by rewrite E. Qed.
End Steps.

Ltac llook := by (simplify_map_eq; reflexivity).
Ltac lrun :=
  repeat (first [ rewrite bind_bind | erewrite bind_lget by llook | erewrite bind_lset_next by llook
                | erewrite bind_lset_prev by llook | erewrite lset_prev_end by llook ];
          cbn [l_next l_prev]).

(** A ring seen from any of its nodes. *)
Definition cyc (s : lstore) (ys : list Z) : Prop :=
  match ys with [] => True | y :: zs => cseg s (lastl y zs) ys y end ∧ NoDup ys.

Lemma ring_cyc s l xs : ring s l xs ↔ cyc s (l :: xs).
Proof. done. Qed.

Lemma cyc_rotate s x xs : cyc s (x :: xs) ↔ cyc s (xs ++ [x]).
Proof.
  unfold cyc. rewrite (NoDup_Permutation_proper _ _ (Permutation_cons_append xs x)).
  destruct xs as [|y xs]; [done|]. cbn. rewrite cseg_app, hd_app, lastl_app. cbn.
  destruct xs; cbn; naive_solver.
Qed.

(** The neighbours of a node of the ring. *)
Lemma ring_head s l xs : ring s l xs → s !! l = Some (LNode (hd l xs) (lastl l xs)).
Proof. by intros [[E _] _]. Qed.

Lemma cyc_add s new n zs p o ys :
  cyc s ys → ys = n :: zs → p = lastl n zs → s !! new = Some o → new ∉ ys →
  ∃ s', _list_add new p n s = Ret (tt, s') ∧ cyc s' (new :: ys) ∧
        (∀ q, q ∉ new :: ys → s' !! q = s !! q).
Proof.
  intros [Hc Hnd] -> -> Hn Hnew. unfold _list_add.
  destruct zs as [|p zs _] using rev_ind.
  - cbn in *. destruct Hc as [Hp _]. assert (new ≠ n) by set_solver.
    lrun. eexists. split; [reflexivity|]. split; [split|].
    + cbn. split_and!; [by simplify_map_eq..|done].
    + apply NoDup_cons. by split.
    + intros q Hq. rewrite !lookup_insert_ne by set_solver. done.
  - rewrite lastl_app in *. cbn [lastl] in *. cbn in Hc. destruct Hc as [Hh Hc].
    apply cseg_app in Hc as [Hc [Hp _]]. cbn in Hc, Hp.
    apply NoDup_cons in Hnd as Hnd'. destruct Hnd' as [Hni Hnd1].
    apply NoDup_app in Hnd1 as (Hnd1 & Hd & _).
    assert (new ≠ n ∧ new ≠ p ∧ new ∉ zs ∧ n ≠ p ∧ n ∉ zs ∧ p ∉ zs) as (?&?&?&?&?&?) by set_solver.
    lrun. eexists. split; [reflexivity|]. split; [split|].
    + cbn. rewrite lastl_app. cbn. split; [by simplify_map_eq|].
      split; [simplify_map_eq; by destruct zs|].
      apply cseg_app. cbn. split; [|by simplify_map_eq].
      repeat (apply cseg_out; [done|]). done.
    + apply NoDup_cons. by split.
    + intros q Hq. rewrite !lookup_insert_ne by set_solver. done.
Qed.

Lemma cyc_delete s x ys :
  cyc s (x :: ys) → ys ≠ [] →
  ∃ s', list_delete_node x s = Ret (tt, s') ∧ cyc s' ys ∧ s' !! x = Some (LNode 0 0) ∧
        (∀ q, q ∉ x :: ys → s' !! q = s !! q).
Proof.
  intros [Hc Hnd] Hne. destruct ys as [|n zs]; [done|]. cbn in Hc. destruct Hc as [Hx [Hn Hc]].
  unfold list_delete_node, _list_delete.
  destruct zs as [|p zs _] using rev_ind.
  - apply NoDup_cons in Hnd as [Hxn _]. apply not_elem_of_cons in Hxn as [Hxn _]. cbn in *.
    lrun.
    eexists. split; [reflexivity|]. split_and!; [split|..].
    + cbn. split; [by simplify_map_eq|done].
    + apply NoDup_singleton.
    + by simplify_map_eq.
    + intros q Hq. rewrite !lookup_insert_ne by set_solver. done.
  - rewrite lastl_app in *. cbn [lastl] in *. cbn in Hx, Hn.
    apply cseg_app in Hc as [Hc [Hp _]]. cbn in Hc, Hp.
    apply NoDup_cons in Hnd as [Hx0 Hnd]. apply NoDup_cons in Hnd as Hnd'.
    destruct Hnd' as [Hni Hnd1]. apply NoDup_app in Hnd1 as (Hnd1 & Hd & _).
    assert (x ≠ n ∧ x ≠ p ∧ x ∉ zs ∧ n ≠ p ∧ n ∉ zs ∧ p ∉ zs) as (?&?&?&?&?&?) by set_solver.
    lrun.
    eexists. split; [reflexivity|]. split_and!; [split|..].
    + cbn. rewrite lastl_app. cbn. split; [simplify_map_eq; by destruct zs|].
      apply cseg_app. cbn. split; [|by simplify_map_eq].
      repeat (apply cseg_out; [done|]). done.
    + done.
    + by simplify_map_eq.
    + intros q Hq. rewrite !lookup_insert_ne by set_solver. done.
Qed.

(** ** The public operations *)

Lemma ring_last s l xs : ring s l xs → cyc s (xs ++ [l]).
Proof. intros H. by apply cyc_rotate. Qed.

Lemma cyc_rotate_n s xs ys : cyc s (xs ++ ys) ↔ cyc s (ys ++ xs).
Proof.
  revert ys; induction xs as [|x xs IH]; intros ys; [by rewrite app_nil_r|].
  cbn. rewrite cyc_rotate, <- app_assoc, IH, <- app_assoc. done.
Qed.

Lemma add_first_spec s l xs new o :
  ring s l xs → s !! new = Some o → new ∉ l :: xs →
  ∃ s', list_add_first new l s = Ret (tt, s') ∧ ring s' l (new :: xs) ∧
        (∀ q, q ∉ new :: l :: xs → s' !! q = s !! q).
Proof.
  intros HR Hn Hnew. unfold list_add_first. rewrite (bind_lget _ _ _ _ (ring_head _ _ _ HR)).
  cbn [l_next l_prev].
  destruct (cyc_add s new (hd l xs) (tail (xs ++ [l])) l o (xs ++ [l])) as (s' & E & HR' & F).
  - by apply ring_last.
  - by destruct xs.
  - destruct xs; [done|]. cbn. by rewrite lastl_app.
  - done.
  - set_solver.
  - exists s'. split_and!; [done| |intros q Hq; apply F; set_solver].
    apply ring_cyc, cyc_rotate. done.
Qed.

Lemma add_last_spec s l xs new o :
  ring s l xs → s !! new = Some o → new ∉ l :: xs →
  ∃ s', list_add_last new l s = Ret (tt, s') ∧ ring s' l (xs ++ [new]) ∧
        (∀ q, q ∉ new :: l :: xs → s' !! q = s !! q).
Proof.
  intros HR Hn Hnew. unfold list_add_last. rewrite (bind_lget _ _ _ _ (ring_head _ _ _ HR)).
  cbn [l_next l_prev].
  destruct (cyc_add s new l xs (lastl l xs) o (l :: xs)) as (s' & E & HR' & F); try done.
  exists s'. split_and!; [done| |done]. apply ring_cyc. by apply cyc_rotate in HR'.
Qed.

Lemma delete_node_spec s l xs x ys :
  ring s l (xs ++ x :: ys) →
  ∃ s', list_delete_node x s = Ret (tt, s') ∧ ring s' l (xs ++ ys) ∧
        s' !! x = Some (LNode 0 0) ∧ (∀ q, q ∉ l :: xs ++ x :: ys → s' !! q = s !! q).
Proof.
  intros HR. apply ring_cyc in HR. apply (cyc_rotate_n _ (l :: xs) (x :: ys)) in HR.
  destruct (cyc_delete s x (ys ++ l :: xs)) as (s' & E & HR' & Hx & F).
  - by rewrite app_comm_cons.
  - by destruct ys.
  - exists s'. split_and!; [done| |done|intros q Hq; apply F; set_solver].
    apply ring_cyc. by apply (cyc_rotate_n _ ys (l :: xs)) in HR'.
Qed.

Lemma ring_not_empty s l xs : ring s l xs → hd l xs = l ↔ xs = [].
Proof.
  intros [_ [Hl _]%NoDup_cons]. destruct xs as [|x xs]; [done|]. cbn. split; [|done].
  intros ->. set_solver.
Qed.

Lemma size_loop_spec fuel s l pre xs n :
  ring s l (pre ++ xs) → (length xs < fuel)%nat → 0 ≤ n → n + Z.of_nat (length xs) < 4294967296 →
  size_loop fuel (hd l xs) l n s = Ret (n + Z.of_nat (length xs), s).
Proof.
  revert fuel pre n; induction xs as [|x xs IH]; intros [|fuel] pre n HR Hf Hn Hb; try (cbn in *; lia).
  - cbn. rewrite Z.eqb_refl. cbn. by rewrite Z.add_0_r.
  - assert (x ≠ l) as Hx by (destruct HR as [_ [Hl _]%NoDup_cons]; set_solver).
    cbn [size_loop hd]. rewrite eqb_false by done. cbn [negb].
    pose proof HR as [Hc _]. rewrite app_comm_cons in Hc.
    apply cseg_app in Hc as [_ [Hc _]]. rewrite (bind_lget _ _ _ _ Hc). cbn [l_next].
    cbn in Hb, Hf. rewrite (IH fuel (pre ++ [x])); [|by rewrite <- app_assoc|lia|nowrap; lia|nowrap; lia].
    nowrap. do 2 f_equal. cbn. lia.
Qed.

(** Two ordinary nodes and a list, used by the witnesses. *)
Definition ex_ring : lstore :=
  <[100 := LNode 1 2]> (<[1 := LNode 2 100]> (<[2 := LNode 100 1]> {[3 := LNode 0 0]})).

Lemma ex_ring_ok : ring ex_ring 100 [1; 2].
Proof.
  split; [cbn; by split_and!|]. repeat (apply NoDup_cons; split; [set_solver|]). constructor.
Qed.

(** [list_add_first] and [list_add_last] put a node that is not in the
    ring at its front or its back, [list_init] makes an empty ring, and nothing
    outside the ring and the node is written. *)
Theorem list_add_refines s l xs new o :
  s !! new = Some o →
  (∃ s', list_init new s = Ret (tt, s') ∧ ring s' new [] ∧ ∀ q, q ≠ new → s' !! q = s !! q) ∧
  (ring s l xs → new ∉ l :: xs →
   (∃ s', list_add_first new l s = Ret (tt, s') ∧ ring s' l (new :: xs) ∧
          ∀ q, q ∉ new :: l :: xs → s' !! q = s !! q) ∧
   (∃ s', list_add_last new l s = Ret (tt, s') ∧ ring s' l (xs ++ [new]) ∧
          ∀ q, q ∉ new :: l :: xs → s' !! q = s !! q)).
Proof.
  intros Hn. split.
  - unfold list_init. erewrite bind_lset_prev by done. cbn. unfold lset_next, bind, lget. rewrite lookup_insert_eq.
    eexists. split; [reflexivity|]. split.
    + split; [cbn; by simplify_map_eq|apply NoDup_singleton].
    + intros q Hq. by rewrite !lookup_insert_ne.
  - intros HR Hnew. split; [by eapply add_first_spec|by eapply add_last_spec].
Qed.

Lemma list_add_refines_witness :
  ∃ s', list_add_last 3 100 ex_ring = Ret (tt, s') ∧ ring s' 100 [1; 2; 3].
Proof.
  destruct (proj2 (proj2 (list_add_refines ex_ring 100 [1; 2] 3 (LNode 0 0) eq_refl)
    ex_ring_ok ltac:(set_solver))) as (s' & E & HR & _).
  exists s'. split; [exact E|exact HR].
Defined.

(** [list_delete_node] takes a member out of its ring and clears its
    pointers; [list_delete_first] and [list_delete_last] do so for the ends and
    do nothing on an empty ring; [list_get_size] and [list_is_empty] describe
    the members. *)
Theorem list_delete_refines s l xs :
  ring s l xs →
  (∀ a x b, xs = a ++ x :: b → ∃ s', list_delete_node x s = Ret (tt, s') ∧
     ring s' l (a ++ b) ∧ s' !! x = Some (LNode 0 0)) ∧
  (∃ s', list_delete_first l s = Ret (tt, s') ∧ ring s' l (tail xs)) ∧
  (∃ s', list_delete_last l s = Ret (tt, s') ∧ ring s' l (removelast xs)) ∧
  list_is_empty l s = Ret (if decide (xs = []) then 1 else 0, s) ∧
  (∀ fuel, (length xs < fuel)%nat → Z.of_nat (length xs) < 4294967296 →
     list_get_size fuel l s = Ret (Z.of_nat (length xs), s)).
Proof.
  intros HR. pose proof (ring_not_empty _ _ _ HR) as He. pose proof (ring_head _ _ _ HR) as Hh.
  split_and!.
  - intros a x b ->. destruct (delete_node_spec _ _ _ _ _ HR) as (s' & E & HR' & Hx & _). eauto.
  - unfold list_delete_first. rewrite (bind_lget _ _ _ _ Hh). cbn [l_next].
    destruct xs as [|x xs]; [rewrite eqb_true by done; cbn; eauto|].
    rewrite eqb_false by (intros E; apply He in E; done).
    destruct (delete_node_spec _ _ [] x xs HR) as (s' & E & HR' & _). eauto.
  - unfold list_delete_last. rewrite (bind_lget _ _ _ _ Hh). cbn [l_next l_prev].
    destruct xs as [|x xs _] using rev_ind; [rewrite eqb_true by done; cbn; eauto|].
    rewrite eqb_false by (intros E; apply He in E; by destruct xs).
    rewrite lastl_app, removelast_last. cbn [lastl].
    destruct (delete_node_spec _ _ xs x [] HR) as (s' & E & HR' & _).
    rewrite app_nil_r in HR'. eauto.
  - unfold list_is_empty. rewrite (bind_lget _ _ _ _ Hh). cbn [l_next].
    case_decide as Hx; [rewrite eqb_true|rewrite eqb_false]; tauto.
  - intros fuel Hf Hb. unfold list_get_size. rewrite (bind_lget _ _ _ _ Hh). cbn [l_next].
    by apply (size_loop_spec fuel s l []).
Qed.

Lemma list_delete_refines_witness :
  ∃ s', list_delete_node 1 ex_ring = Ret (tt, s') ∧ ring s' 100 [2].
Proof.
  destruct (proj1 (list_delete_refines ex_ring 100 [1; 2] ex_ring_ok) [] 1 [2] eq_refl)
    as (s' & E & HR & _).
  exists s'. split; [exact E|exact HR].
Defined.
