(* ===== verification/Palloc.v ===== *)
(** * Page and byte allocators (kernel/src/mm/pmalloc.c, bmalloc.c)

    The wrappers around the memory core, and the interface [PageAlloc] through
    which the rest of the kernel (the bitmap allocator, the scheduler) sees them:
    a set of live blocks, what allocation and freeing do to it, and the licence
    to write inside live blocks.  [mm_pages] shows that the memory core provides
    the interface. *)

From S2P Require Import Prelude Memory Mm MmSpec MmProof MmRefine MmTheorems.

(** ** pmalloc.c *)

Definition pmalloc (fuel : nat) (count bank : Z) : M mm Z :=
  let* ptr := mm_alloc fuel (u32 (count * 512)) bank in
  if ptr =? NULL then panic "palloc failed" else ret ptr.

Definition pcalloc (fuel : nat) (count bank : Z) : M mm Z :=
  let* ptr := mm_alloc fuel (u32 (count * 512)) bank in
  if ptr =? NULL then panic "palloc failed" else
  in_mem (memory_fill ptr 0 (u32 (count * 512))) ;; ret ptr.

Definition pfree (fuel : nat) (ptr : Z) : M mm unit := mm_free fuel ptr.
Definition pmalloc_get_used (bank : Z) : M mm Z := mm_get_used bank.
Definition pmalloc_get_free (bank : Z) : M mm Z := mm_get_free bank.
Definition pmalloc_get_total (bank : Z) : M mm Z := mm_get_total bank.

(** ** bmalloc.c *)

Definition bmalloc (fuel : nat) (size bank : Z) : M mm Z :=
  let* ptr := mm_alloc fuel size bank in
  if ptr =? NULL then panic "salloc failed" else ret ptr.

Definition bcalloc (fuel : nat) (size bank : Z) : M mm Z :=
  let* ptr := mm_alloc fuel size bank in
  if ptr =? NULL then panic "salloc failed" else
  in_mem (memory_fill ptr 0 size) ;; ret ptr.

Definition bfree (fuel : nat) (ptr : Z) : M mm unit := mm_free fuel ptr.
Definition bmalloc_get_used (bank : Z) : M mm Z := mm_get_used bank.
Definition bmalloc_get_free (bank : Z) : M mm Z := mm_get_free bank.
Definition bmalloc_get_total (bank : Z) : M mm Z := mm_get_total bank.

(** ** The interface *)

(** [pa_live s P]: the blocks [P] (address to size) are allocated in [s]. *)
Class PageAlloc (S : Type) := {
  pa_mem : S → mem;
  pa_put : mem → S → S;
  pa_malloc : Z → Z → M S Z;
  pa_free : Z → M S unit;
  pa_bank : Z → Prop;
  pa_live : S → gmap Z Z → Prop;
  pa_mem_put m s : pa_mem (pa_put m s) = m;
  pa_put_mem s : pa_put (pa_mem s) s = s;
  pa_put_put m m' s : pa_put m (pa_put m' s) = pa_put m s;
  pa_bytes s P : pa_live s P → mem_bytes (pa_mem s);
  pa_range s P p n : pa_live s P → P !! p = Some n → 0 < p ∧ p mod 8 = 0 ∧ p + n < 4294967296;
  pa_disjoint s P p n q k : pa_live s P → P !! p = Some n → P !! q = Some k → p ≠ q →
    p + n ≤ q ∨ q + k ≤ p;
  pa_write s P p n m : pa_live s P → P !! p = Some n → mem_bytes m →
    same_outside (λ x, p ≤ x < p + n) (pa_mem s) m → pa_live (pa_put m s) P;
  pa_malloc_law s P count bank : pa_live s P → pa_bank bank → 0 ≤ count < 8388607 →
    pa_malloc count bank s = Panic "palloc failed" ∨
    ∃ p s', pa_malloc count bank s = Ret (p, s') ∧ P !! p = None ∧
      pa_live s' (<[p := count * 512]> P) ∧
      (∀ q k x, P !! q = Some k → q ≤ x < q + k → ld8 (pa_mem s') x = ld8 (pa_mem s) x);
  pa_free_law s P p n : pa_live s P → P !! p = Some n →
    ∃ s', pa_free p s = Ret (tt, s') ∧ pa_live s' (delete p P) ∧
      (∀ q k x, delete p P !! q = Some k → q ≤ x < q + k → ld8 (pa_mem s') x = ld8 (pa_mem s) x)
}.

(** Running memory code on the memory of an allocator. *)
Definition pa_in_mem {S A} `{PageAlloc S} (c : M mem A) : M S A := zoom pa_mem pa_put c.

(** ** The memory core provides it *)

(** More than the number of blocks any memory can have: a block has at least
    eight bytes and a memory less than [2^28]. *)
Definition mm_fuel : nat := Z.to_nat 33554433.

Lemma mm_fuel_enough s L i pm B :
  mm_inv s L → physical_memories s !! i = Some pm → L !! i = Some B →
  (length (free_addrs B) < mm_fuel)%nat.
Proof.
  intros HI Hp HL. destruct (inv_at _ _ _ _ _ HI Hp HL) as (_ & _ & [] & T & Ht & _).
  pose proof (free_addrs_length B).
  assert (∀ min s e, 8 ≤ min → tile min s B e → 8 * Z.of_nat (length B) ≤ total B) as Hlen.
  { clear. induction B as [|b B IH]; intros min s e Hm; [cbn; lia|].
    intros (_ & ? & _ & T). apply IH in T; [|done]. cbn [length total foldr].
    fold (total B). lia. }
  specialize (Hlen (min_alloc pm) _ _ ltac:(lia) T). unfold mm_fuel. lia.
Qed.

#[global] Opaque mm_fuel.

Lemma alloc_keeps_used min n B p B' b :
  alloc_blocks min n B = Some (p, B') → b ∈ B → b_used b = true → b ∈ B'.
Proof.
  intros (B1 & b0 & B2 & -> & [Hu _]%fits_iff & _ & ->)%alloc_blocks_inv Hb Hub.
  rewrite !elem_of_app, !elem_of_cons in *. destruct Hb as [?|[->|?]]; [tauto|congruence|tauto].
Qed.

Lemma coalesce_keeps_used B b : b ∈ B → b_used b = true → b ∈ coalesce B.
Proof.
  intros Hb Hu. induction B as [|b0 B IH]; [by apply elem_of_nil in Hb|].
  cbn. fold (coalesce B). apply elem_of_cons in Hb as [->|Hb].
  - destruct (coalesce B) as [|b' B']; cbn; [left|]. rewrite Hu. cbn. left.
  - specialize (IH Hb). destruct (coalesce B) as [|b' B']; [by apply elem_of_nil in IH|].
    cbn. destruct (negb (b_used b0) && negb (b_used b')) eqn:E; [|by right].
    apply andb_prop in E as [_ E%negb_true_iff].
    apply elem_of_cons in IH as [->|IH]; [congruence|by right].
Qed.

Lemma free_keeps_used a B b :
  b ∈ B → b_used b = true → b_addr b ≠ a → b ∈ free_block a B.
Proof.
  intros Hb Hu Ha. apply coalesce_keeps_used; [|done].
  apply list_elem_of_fmap. exists b. split; [|done]. unfold mark_free. by rewrite eqb_false.
Qed.

(** [p] is the payload of a block in use with room for [n] bytes. *)
Definition live_block (L : list (list block)) (p n : Z) : Prop :=
  0 ≤ n ∧ ∃ i B b, L !! i = Some B ∧ b ∈ B ∧ b_used b = true ∧ b_addr b + 8 = p ∧ n + 8 ≤ b_size b.

Definition mm_live (nb : nat) (s : mm) (P : gmap Z Z) : Prop :=
  ∃ L, mm_inv s L ∧ length (physical_memories s) = nb ∧ map_Forall (live_block L) P.

(** The block of a live pointer, with what the invariant says about it. *)
Lemma live_inv s L p n :
  mm_inv s L → live_block L p n →
  ∃ i pm B b, physical_memories s !! i = Some pm ∧ L !! i = Some B ∧ b ∈ B ∧ b_used b = true ∧
    b_addr b + 8 = p ∧ 0 ≤ n ∧ n + 8 ≤ b_size b ∧ start_addr pm ≤ b_addr b ∧
    b_addr b + b_size b ≤ last_node pm ∧ 0 < start_addr pm ∧ physmem_ok (Z.of_nat i) pm ∧
    tile (min_alloc pm) (start_addr pm) B (last_node pm).
Proof.
  intros HI (Hn & i & B & b & HL & Hb & Hu & Hp & Hs).
  destruct (lookup_lt_is_Some_2 (physical_memories s) i) as [pm Hpm].
  { rewrite <- (mi_len _ _ HI). by eapply lookup_lt_Some. }
  destruct (inv_at _ _ _ _ _ HI Hpm HL) as (_ & _ & Hok & T & _ & _ & Hs0 & _).
  pose proof Hok as []. pose proof (tile_in (min_alloc pm) _ _ _ ltac:(lia) T _ Hb).
  exists i, pm, B, b. split_and!; try done; lia.
Qed.

Lemma live_disjoint s L p n q k :
  mm_inv s L → live_block L p n → live_block L q k → p ≠ q → p + n ≤ q ∨ q + k ≤ p.
Proof.
  intros HI Hp Hq Hne.
  destruct (live_inv _ _ _ _ HI Hp) as (i & pm & B & b & Hpm & HL & Hb & Hu & <- & ? & ? & ? & ? & ? & [] & T).
  destruct (live_inv _ _ _ _ HI Hq) as (j & pm' & B' & b' & Hpm' & HL' & Hb' & Hu' & <- & ? & ? & ? & ? & ? & _ & T').
  destruct (decide (i = j)) as [<-|Hij].
  - simplify_eq. destruct (tile_apart (min_alloc pm) _ _ _ ltac:(lia) T _ _ Hb Hb') as [->|]; lia.
  - destruct (decide (b_addr b + b_size b ≤ b_addr b')); [lia|].
    destruct (decide (b_addr b' + b_size b' ≤ b_addr b)); [lia|]. exfalso.
    apply (mi_disj _ _ HI i j pm pm' Hij Hpm Hpm' (Z.max (b_addr b) (b_addr b'))); right; lia.
Qed.

Lemma live_keep_meta s L p n i pm B x :
  mm_inv s L → physical_memories s !! i = Some pm → L !! i = Some B →
  live_block L p n → p ≤ x < p + n → ¬ meta (root_node pm) B x.
Proof.
  intros HI Hpm HL Hp Hx Hm. destruct (inv_at _ _ _ _ _ HI Hpm HL) as ([_ HR _ _] & _ & Hok & T & _).
  destruct (live_inv _ _ _ _ HI Hp) as (j & pm' & B' & b & Hpm' & HL' & Hb & Hu & <- & ? & ? & ? & ? & ? & Hok' & T').
  destruct (decide (i = j)) as [<-|Hij].
  - simplify_eq. destruct Hok. refine (payload_not_meta (min_alloc pm) _ _ _ (root_node pm) b x _ T _ _ Hb Hm); lia.
  - eapply (mi_disj _ _ HI i j pm pm' Hij Hpm Hpm' x); [by eapply meta_footprint|right; lia].
Qed.

Lemma live_insert_region L i B B' p n :
  live_block L p n → L !! i = Some B →
  (∀ b, b ∈ B → b_used b = true → b_addr b + 8 = p → b ∈ B') →
  live_block (<[i := B']> L) p n.
Proof.
  intros (Hn & j & Bj & b & HL & Hb & Hu & Hp & Hs) HLi Hk. split; [done|].
  destruct (decide (i = j)) as [<-|Hij].
  - simplify_eq. exists i, B', b. rewrite list_lookup_insert_eq by (by eapply lookup_lt_Some). auto.
  - exists j, Bj, b. rewrite list_lookup_insert_ne by done. auto.
Qed.

Lemma pmalloc_law nb s P count bank :
  mm_live nb s P → 0 ≤ bank < Z.of_nat nb → 0 ≤ count < 8388607 →
  pmalloc mm_fuel count bank s = Panic "palloc failed" ∨
  ∃ p s', pmalloc mm_fuel count bank s = Ret (p, s') ∧ P !! p = None ∧
    mm_live nb s' (<[p := count * 512]> P) ∧
    ∀ q k x, P !! q = Some k → q ≤ x < q + k → ld8 (mm_mem s') x = ld8 (mm_mem s) x.
Proof.
  intros (L & HI & Hlen & HP) Hbank Hc. set (i := Z.to_nat bank).
  destruct (lookup_lt_is_Some_2 (physical_memories s) i) as [pm Hpm]; [unfold i; lia|].
  destruct (lookup_lt_is_Some_2 L i) as [B HL].
  { rewrite (mi_len _ _ HI). unfold i. lia. }
  replace bank with (Z.of_nat i) by (unfold i; lia). unfold pmalloc. nowrap.
  assert (0 ≤ count * 512 < 4294967281) as Hsz by lia.
  pose proof (mm_fuel_enough _ _ _ _ _ HI Hpm HL) as Hf.
  destruct (inv_at _ _ _ _ _ HI Hpm HL) as (_ & _ & [] & T & _ & _ & Hs0 & _).
  destruct s as [m pms]. cbn [mm_mem physical_memories] in *.
  pose proof (alloc_spec mm_fuel (count * 512) i m pms L pm B HI Hpm HL Hsz Hf) as HA.
  clear Hf.
  destruct (alloc_blocks _ _ B) as [[p B']|] eqn:EA.
  2: { left. rewrite (bind_Ret _ _ _ _ _ HA). done. }
  right. destruct HA as (m' & E & HI' & Hso).
  destruct (alloc_size_ok (min_alloc pm) (count * 512)) as (_ & _ & Hns & _); [done|done|lia|].
  destruct (alloc_blocks_block _ _ _ _ _ EA) as (sz & Hin & Hszz & _).
  pose proof EA as (B1 & b0 & B2 & EB & [Hu0 Hfit]%fits_iff & Ep & _)%alloc_blocks_inv.
  assert (b0 ∈ B) as Hb0 by (rewrite EB; set_solver).
  pose proof (tile_in (min_alloc pm) _ _ _ ltac:(lia) T _ Hb0).
  exists (p + 8). eexists. split_and!.
  - rewrite (bind_Ret _ _ _ _ _ E). unfold NULL. rewrite eqb_false by lia. reflexivity.
  - destruct (P !! (p + 8)) as [k|] eqn:EP; [exfalso|done].
    destruct (live_inv _ _ _ _ HI (HP _ _ EP)) as
      (j & pm' & B'' & b & Hpm' & HL' & Hb & Hu & Ea & ? & ? & ? & ? & ? & [] & T').
    destruct (decide (i = j)) as [<-|Hij].
    + simplify_eq. destruct (tile_apart (min_alloc pm) _ _ _ ltac:(lia) T _ _ Hb Hb0) as [->|]; [congruence|lia].
    + eapply (mi_disj _ _ HI i j pm pm' Hij Hpm Hpm' p); right; lia.
  - exists (<[i := B']> L). split; [exact HI'|]. split; [cbn; by rewrite length_alter|].
    apply map_Forall_insert_2.
    + split; [lia|]. exists i, B', (Blk p sz true).
      rewrite list_lookup_insert_eq by (by eapply lookup_lt_Some). cbn. split_and!; try done; lia.
    + intros q k Hq. eapply live_insert_region; [by apply HP|done|].
      intros b Hb Hu _. by eapply alloc_keeps_used.
  - cbn. intros q k x Hq Hx. apply Hso.
    apply (live_keep_meta _ _ q k i (set_allocated (used_total B') pm) B' x HI'); [| | |exact Hx].
    + cbn. rewrite list_lookup_alter_eq, Hpm. done.
    + apply list_lookup_insert_eq. by eapply lookup_lt_Some.
    + eapply live_insert_region; [by apply HP|done|]. intros b Hb Hu _. by eapply alloc_keeps_used.
Qed.

Lemma pfree_law nb s P p n :
  mm_live nb s P → P !! p = Some n →
  ∃ s', pfree mm_fuel p s = Ret (tt, s') ∧ mm_live nb s' (delete p P) ∧
    ∀ q k x, delete p P !! q = Some k → q ≤ x < q + k → ld8 (mm_mem s') x = ld8 (mm_mem s) x.
Proof.
  intros (L & HI & Hlen & HP) Hp.
  destruct (live_inv _ _ _ _ HI (HP _ _ Hp)) as
    (i & pm & B & [a sz u] & Hpm & HL & Hb & Hu & Ea & ? & ? & ? & ? & ? & Hok & T). cbn in *. subst u.
  pose proof (mm_fuel_enough _ _ _ _ _ HI Hpm HL) as Hf. destruct s as [m pms]. cbn in *.
  destruct (free_spec mm_fuel i m pms L pm B a sz HI Hpm HL Hb Hf) as (m' & E & HI' & Hso).
  clear Hf.
  eexists. unfold pfree. rewrite <- Ea at 1. split; [exact E|].
  assert (∀ q k, delete p P !! q = Some k → live_block L q k ∧ q ≠ p) as HD.
  { intros q k [Hne Hq]%lookup_delete_Some. split; [by apply HP|done]. }
  split.
  - eexists. split; [exact HI'|]. split; [cbn; by rewrite length_alter|].
    intros q k [Hq Hne]%HD. eapply live_insert_region; [done|done|].
    intros b Hb' Hu' Hq'. apply free_keeps_used; [done|done|lia].
  - cbn. intros q k x [Hq Hne]%HD Hx. apply Hso. exact (live_keep_meta _ _ q k i pm B x HI Hpm HL Hq Hx).
Qed.

(** The interface with [nb] memories. *)
#[export, program] Instance mm_pages (nb : nat) : PageAlloc mm := {
  pa_mem := mm_mem;
  pa_put m s := Mm m (physical_memories s);
  pa_malloc := pmalloc mm_fuel;
  pa_free := pfree mm_fuel;
  pa_bank bank := 0 ≤ bank < Z.of_nat nb;
  pa_live := mm_live nb
}.
Next Obligation. done. Qed.
Next Obligation. by intros _ []. Qed.
Next Obligation. done. Qed.
Next Obligation. intros nb s P (L & HI & _). apply HI. Qed.
Next Obligation.
  intros nb s P p n (L & HI & _ & HP) Hp.
  destruct (live_inv _ _ _ _ HI (HP _ _ Hp)) as
    (i & pm & B & b & ? & ? & Hb & ? & <- & ? & ? & ? & ? & ? & [] & T).
  pose proof (tile_aligned _ _ _ _ ok_start T) as [Hal _]. rewrite Forall_forall in Hal.
  pose proof (Hal _ Hb). lia.
Qed.
Next Obligation.
  intros nb s P p n q k (L & HI & _ & HP) Hp Hq Hne.
  eapply live_disjoint; [exact HI|by apply HP|by apply HP|done].
Qed.
Next Obligation.
  intros nb s P p n m (L & HI & Hlen & HP) Hp Hb Hso.
  destruct (live_inv _ _ _ _ HI (HP _ _ Hp)) as
    (i & pm & B & b & Hpm & HL & Hin & Hu & Ea & ? & ? & ? & ? & ? & Hok & T).
  exists L. split; [|done]. destruct s as [m0 pms]. cbn in *.
  eapply payload_inv; [exact HI|exact Hpm|exact HL|exact Hin|done|].
  eapply same_outside_mono; [|exact Hso]. cbn. lia.
Qed.
Next Obligation. intros nb s P count bank. apply pmalloc_law. Qed.
Next Obligation. intros nb s P p n. apply pfree_law. Qed.

Lemma pcalloc_pmalloc fuel count bank s :
  pcalloc fuel count bank s =
  (let* ptr := pmalloc fuel count bank in
   in_mem (memory_fill ptr 0 (u32 (count * 512))) ;; ret ptr) s.
Proof.
  unfold pcalloc, pmalloc. unfold bind.
  destruct (mm_alloc fuel (u32 (count * 512)) bank s) as [[p s']| | |]; [|done..].
  by destruct (p =? NULL).
Qed.

(** [pcalloc] and [pmalloc] never return NULL: they panic, or return an
    aligned block of [count] pages disjoint from every live block, all of it
    zero in the case of [pcalloc], while every live block keeps its contents. *)
Theorem pcalloc_zeroed nb s P count bank :
  mm_live nb s P → 0 ≤ bank < Z.of_nat nb → 0 ≤ count < 8388607 →
  pcalloc mm_fuel count bank s = Panic "palloc failed" ∨
  ∃ p s', pcalloc mm_fuel count bank s = Ret (p, s') ∧ 0 < p ∧ p mod 8 = 0 ∧
    (∀ q k, P !! q = Some k → p + count * 512 ≤ q ∨ q + k ≤ p) ∧
    mm_live nb s' (<[p := count * 512]> P) ∧
    (∀ x, p ≤ x < p + count * 512 → ld8 (mm_mem s') x = 0) ∧
    (∀ q k x, P !! q = Some k → q ≤ x < q + k → ld8 (mm_mem s') x = ld8 (mm_mem s) x).
Proof.
  intros HP Hbank Hc. rewrite pcalloc_pmalloc.
  destruct (pmalloc_law nb s P count bank HP Hbank Hc) as [E|(p & s1 & E & Hnew & HP1 & Hk)].
  { left. by rewrite (bind_Panic _ _ _ _ E). }
  right. rewrite (bind_Ret _ _ _ _ _ E).
  pose proof (lookup_insert_eq P p (count * 512)) as Hp.
  destruct (pa_range (PageAlloc := mm_pages nb) s1 _ _ _ HP1 Hp) as (H0 & H8 & Hmax).
  assert (∀ q k, P !! q = Some k → p + count * 512 ≤ q ∨ q + k ≤ p) as Hdis.
  { intros q k Hq. assert (p ≠ q) as Hne by congruence.
    eapply (pa_disjoint (PageAlloc := mm_pages nb) s1 _ p _ q k HP1 Hp); [|done].
    by rewrite lookup_insert_ne. }
  set (m' := fill_loop p 0 (Z.to_nat (count * 512)) (mm_mem s1)).
  exists p, (Mm m' (physical_memories s1)). split_and!; try done.
  - destruct s1 as [m1 pms1]. nowrap. by rewrite (bind_in_mem (memory_fill p 0 (count * 512)) _ m1 pms1 tt m' eq_refl).
  - eapply (pa_write (PageAlloc := mm_pages nb) s1 _ p _ m' HP1 Hp).
    + apply mem_bytes_fill, (pa_bytes (PageAlloc := mm_pages nb) s1 _ HP1).
    + intros x Hx. unfold m'. rewrite fill_loop_spec, decide_False by lia. done.
  - intros x Hx. cbn. unfold m'. rewrite fill_loop_spec, decide_True by lia. done.
  - intros q k x Hq Hx. cbn. unfold m'. pose proof (Hdis q k Hq).
    rewrite fill_loop_spec, decide_False by lia. by eapply Hk.
Qed.

Lemma small_live : mm_live 2 small_mm_ready ∅.
Proof.
  exists small_blocks. split; [apply small_inv|]. split; [vm_compute; reflexivity|].
  apply map_Forall_empty.
Qed.

Lemma pcalloc_zeroed_witness :
  pcalloc mm_fuel 1 1 small_mm_ready = Panic "palloc failed" ∨
  ∃ p s', pcalloc mm_fuel 1 1 small_mm_ready = Ret (p, s') ∧ ld8 (mm_mem s') p = 0.
Proof.
  destruct (pcalloc_zeroed 2 small_mm_ready ∅ 1 1 small_live ltac:(lia) ltac:(lia))
    as [E|(p & s' & E & _ & _ & _ & _ & H & _)]; [by left|right].
  exists p, s'. split; [exact E|]. apply H. lia.
Defined.

(** A page of the second memory of the example, for the clients' witnesses. *)
Definition small_pm1 : physmem := inited 0x1003 0x1104 (Physmem 0x2000 0x2C03 0 0 32 "BANK" 0 0 0x110).

Lemma small_pmalloc :
  ∃ s', pmalloc mm_fuel 1 1 small_mm_ready = Ret (0x2008, s') ∧ mm_live 2 s' {[0x2008 := 512]}.
Proof.
  pose proof small_live as HP. pose proof small_inv as HI.
  assert (physical_memories small_mm_ready !! 1%nat = Some small_pm1) as Hp
    by (vm_compute; reflexivity).
  destruct (pmalloc_law 2 small_mm_ready ∅ 1 1 HP ltac:(lia) ltac:(lia)) as [E|(p & s' & E & _ & HP' & _)].
  - exfalso. revert E. destruct small_mm_ready as [m pms].
    pose proof (mm_fuel_enough _ _ _ _ _ HI Hp eq_refl) as Hf.
    destruct (alloc_spec mm_fuel 512 1 m pms small_blocks small_pm1 (whole small_pm1) HI Hp eq_refl
      ltac:(done) Hf) as (m' & E' & _).
    unfold pmalloc. change (u32 (1 * 512)) with 512.
    rewrite (bind_Ret _ _ _ _ _ E'). cbn. done.
  - exists s'. replace p with 0x2008 in *; [by split|].
    revert E. clear HP'. destruct small_mm_ready as [m pms].
    pose proof (mm_fuel_enough _ _ _ _ _ HI Hp eq_refl) as Hf.
    destruct (alloc_spec mm_fuel 512 1 m pms small_blocks small_pm1 (whole small_pm1) HI Hp eq_refl
      ltac:(done) Hf) as (m' & E' & _).
    unfold pmalloc. change (u32 (1 * 512)) with 512.
    rewrite (bind_Ret _ _ _ _ _ E'). cbn. by intros [= <- _].
Qed.

(** Allocation by bytes from the same memory ([bmalloc], [bfree]). *)
Class ByteAlloc (S : Type) `{PageAlloc S} := {
  ba_malloc : Z → Z → M S Z;
  ba_free : Z → M S unit
}.
#[export] Instance mm_bytes (nb : nat) : ByteAlloc mm (H := mm_pages nb) := {|
  ba_malloc := bmalloc mm_fuel;
  ba_free := bfree mm_fuel
|}.
