(* ===== verification/Umalloc.v ===== *)
(** * The bitmap allocator (kernel/src/mm/umalloc.c)

    Blocks of one size in an arena obtained from a page allocator, with a bitmap
    behind the arena in which a one marks a free block.  The file is generic in
    the page allocator ([PageAlloc] of Palloc.v). *)

From S2P Require Import Prelude Memory Mm MmProof MmRefine Palloc.

(** [struct umalloc_desc] *)
Record umalloc_desc := Desc {
  arena : Z;
  bitmap : Z;
  block_size : Z;
  block_count : Z;
  used_blocks : Z
}.

Section Umalloc.
Context {S : Type} `{PageAlloc S}.

(** The state of an operation: its descriptor and the page allocator. *)
Definition ust : Type := umalloc_desc * S.

Definition get_desc : M ust umalloc_desc := gets fst.
Definition put_desc (d : umalloc_desc) : M ust unit := modify (λ s, (d, snd s)).
Definition in_heap {A} (c : M S A) : M ust A := zoom snd (λ h s, (fst s, h)) c.
Definition in_arena {A} (c : M mem A) : M ust A := in_heap (pa_in_mem c).

Definition index_to_addr (d : umalloc_desc) (index : Z) : Z :=
  arena d + u32 (block_size d * index).

(** The remainder of a division by zero is undefined. *)
Definition addr_to_index (d : umalloc_desc) (ptr : Z) : M ust (option Z) :=
  if (ptr <? arena d) || (bitmap d <=? ptr) then ret None else
  let offset := u32 (ptr - arena d) in
  if block_size d =? 0 then ub else
  if negb (offset mod block_size d =? 0) then ret None
  else ret (Some (offset / block_size d)).

Definition get_bitmap_value (d : umalloc_desc) (index : Z) : M mem Z :=
  let word_offset := index / 32 in
  let bit_offset := index mod 32 in
  let* w := gets (λ m, ld32 m (bitmap d + 4 * word_offset)) in
  ret (if negb (Z.land w (Z.shiftl 1 bit_offset) =? 0) then 1 else 0).

Definition clear_bit_in_bitmap (d : umalloc_desc) (index : Z) : M mem unit :=
  let word_offset := index / 32 in
  let bit_offset := index mod 32 in
  let a := bitmap d + 4 * word_offset in
  modify (λ m, st32 m a (Z.lor (ld32 m a) (Z.shiftl 1 bit_offset))).

(** The two loops of [get_first_free_index]. *)
Fixpoint scan_word (n : nat) (bitmask j : Z) : option Z :=
  match n with
  | O => None
  | Datatypes.S n => if negb (Z.land bitmask (Z.shiftl 1 j) =? 0) then Some j
                     else scan_word n bitmask (j + 1)
  end.

Fixpoint scan_bitmap (n : nat) (bitmask_ptr i : Z) : M mem (option Z) :=
  match n with
  | O => ret None
  | Datatypes.S n =>
      let* bitmask := gets (λ m, ld32 m bitmask_ptr) in
      match (if negb (bitmask =? 0) then scan_word 32 bitmask 0 else None) with
      | Some j =>
          modify (λ m, st32 m bitmask_ptr
                         (Z.land (ld32 m bitmask_ptr) (Z.lnot (Z.shiftl 1 j)))) ;;
          ret (Some (u32 (32 * i + j)))
      | None => scan_bitmap n (bitmask_ptr + 4) (i + 1)
      end
  end.

Definition get_first_free_index (d : umalloc_desc) : M mem (option Z) :=
  scan_bitmap (Z.to_nat (block_count d / 32)) (bitmap d) 0.

Definition umalloc_new (block_size block_count bank : Z) : M ust unit :=
  let block_count := Z.land (u32 (block_count + 32)) (Z.lnot 31) in
  let arena_size := u32 (block_count * block_size) in
  let bitmap_size := block_count / 8 in
  let bitmap_size := if negb (block_count mod 8 =? 0) then u32 (bitmap_size + 1) else bitmap_size in
  let pages := u32 (arena_size + bitmap_size) / 512 in
  let pages := if negb (u32 (arena_size + bitmap_size) mod 512 =? 0) then u32 (pages + 1) else pages in
  let* arena := in_heap (pa_malloc pages bank) in
  if arena =? NULL then panic "Can not make ualloc" else
  in_arena (memory_fill arena 255 (u32 (pages * 512))) ;;
  put_desc (Desc arena (arena + arena_size) block_size block_count 0).

Definition umalloc_delete : M ust unit :=
  let* d := get_desc in in_heap (pa_free (arena d)).

Definition umalloc : M ust Z :=
  let* d := get_desc in
  let* index := in_arena (get_first_free_index d) in
  match index with
  | None => panic "ups"
  | Some index =>
      let ptr := index_to_addr d index in
      put_desc (Desc (arena d) (bitmap d) (block_size d) (block_count d) (u32 (used_blocks d + 1))) ;;
      ret ptr
  end.

Definition ucalloc : M ust Z :=
  let* ptr := umalloc in
  let* d := get_desc in
  in_arena (memory_fill ptr 0 (block_size d)) ;;
  ret ptr.

Definition ufree (ptr : Z) : M ust unit :=
  let* d := get_desc in
  let* index := addr_to_index d ptr in
  match index with
  | None => panic "bfree failed"
  | Some index =>
      let* v := in_arena (get_bitmap_value d index) in
      if v =? 1 then panic "bfree failed" else
      in_arena (clear_bit_in_bitmap d index) ;;
      if negb (used_blocks d =? 0)
      then put_desc (Desc (arena d) (bitmap d) (block_size d) (block_count d) (u32 (used_blocks d - 1)))
      else panic "bfree failed"
  end.

Definition umalloc_get_used : M ust Z := let* d := get_desc in ret (used_blocks d).

(** ** Bits of the bitmap *)

(** Bit [k] of the bitmap at [bm]: block [k] is free. *)
Definition free_bit (m : mem) (bm k : Z) : bool :=
  Z.testbit (ld32 m (bm + 4 * (k / 32))) (k mod 32).

Lemma scan_word_spec n w j :
  0 ≤ j →
  match scan_word n w j with
  | Some k => j ≤ k < j + Z.of_nat n ∧ Z.testbit w k = true ∧
              ∀ i, j ≤ i < k → Z.testbit w i = false
  | None => ∀ i, j ≤ i < j + Z.of_nat n → Z.testbit w i = false
  end.
Proof.
  revert j; induction n as [|n IH]; intros j Hj; cbn [scan_word]; [lia|].
  rewrite land_bit by done. destruct (Z.testbit w j) eqn:E.
  - split_and!; [lia..|done|lia].
  - specialize (IH (j + 1) ltac:(lia)). destruct (scan_word n w (j + 1)) as [k|].
    + destruct IH as (? & ? & IH). split_and!; [lia..|done|]. intros i Hi.
      destruct (decide (i = j)) as [->|]; [done|apply IH; lia].
    + intros i Hi. destruct (decide (i = j)) as [->|]; [done|apply IH; lia].
Qed.

(** One bit set or cleared. *)
Definition put_bit (m : mem) (bm k : Z) (b : bool) : mem :=
  let a := bm + 4 * (k / 32) in
  st32 m a (if b then Z.lor (ld32 m a) (Z.shiftl 1 (k mod 32))
            else Z.land (ld32 m a) (Z.lnot (Z.shiftl 1 (k mod 32)))).

Lemma testbit_u32 x k : 0 ≤ k < 32 → Z.testbit (u32 x) k = Z.testbit x k.
Proof. intros. unfold u32. apply (Z.mod_pow2_bits_low x 32 k). lia. Qed.

Lemma free_bit_put m bm k b i :
  0 ≤ k → 0 ≤ i → free_bit (put_bit m bm k b) bm i = if decide (i = k) then b else free_bit m bm i.
Proof.
  intros Hk Hi. unfold free_bit, put_bit. destruct (decide (i / 32 = k / 32)) as [E|E].
  - rewrite E, ld32_st32_eq, testbit_u32 by lia.
    assert (Z.testbit (Z.shiftl 1 (k mod 32)) (i mod 32) = bool_decide (i = k)) as Eb.
    { rewrite Z.shiftl_1_l, Z.pow2_bits_eqb by lia.
      case_bool_decide; [subst; apply Z.eqb_refl|]. apply Z.eqb_neq. lia. }
    destruct b; rewrite ?Z.lor_spec, ?Z.land_spec, ?Z.lnot_spec, Eb by lia;
      case_bool_decide; case_decide; try done; cbn;
      rewrite ?orb_true_r, ?orb_false_r, ?andb_false_r, ?andb_true_r; done.
  - rewrite ld32_st32_ne by lia. case_decide; [subst; done|done].
Qed.

Lemma scan_bitmap_spec n m bm i :
  0 ≤ i → 32 * (i + Z.of_nat n) < 4294967296 →
  (∃ k, 32 * i ≤ k < 32 * (i + Z.of_nat n) ∧ free_bit m bm k = true ∧
     (∀ k', 32 * i ≤ k' < k → free_bit m bm k' = false) ∧
     scan_bitmap n (bm + 4 * i) i m = Ret (Some k, put_bit m bm k false)) ∨
  ((∀ k, 32 * i ≤ k < 32 * (i + Z.of_nat n) → free_bit m bm k = false) ∧
   scan_bitmap n (bm + 4 * i) i m = Ret (None, m)).
Proof.
  revert i; induction n as [|n IH]; intros i Hi Hmax; [right; split; [lia|done]|].
  cbn [scan_bitmap]. unfold bind, gets, modify, ret. set (w := ld32 m (bm + 4 * i)).
  assert (∀ k, 32 * i ≤ k < 32 * (i + 1) → free_bit m bm k = Z.testbit w (k - 32 * i)) as Hw.
  { intros k Hk. unfold free_bit, w. replace (k / 32) with i by lia.
    by replace (k mod 32) with (k - 32 * i) by lia. }
  assert (match (if negb (w =? 0) then scan_word 32 w 0 else None) with
          | Some j => 0 ≤ j < 32 ∧ Z.testbit w j = true ∧ ∀ i, 0 ≤ i < j → Z.testbit w i = false
          | None => ∀ i, 0 ≤ i < 32 → Z.testbit w i = false
          end) as Hs.
  { destruct (w =? 0) eqn:E; cbn [negb].
    - apply Z.eqb_eq in E. intros j _. rewrite E. apply Z.bits_0.
    - apply (scan_word_spec 32 w 0). lia. }
  destruct (if negb (w =? 0) then _ else _) as [j|].
  - left. destruct Hs as (Hj & Hb & Hmin). exists (32 * i + j). split_and!; [lia..| | |].
    + rewrite Hw by lia. by replace (32 * i + j - 32 * i) with j by lia.
    + intros k' Hk'. rewrite Hw by lia. apply Hmin. lia.
    + unfold put_bit. nowrap. replace ((32 * i + j) / 32) with i by lia.
      by replace ((32 * i + j) mod 32) with j by lia.
  - replace (bm + 4 * i + 4) with (bm + 4 * (i + 1)) by lia.
    destruct (IH (i + 1) ltac:(lia) ltac:(lia)) as [(k & Hk & Hb & Hmin & E)|[Hall E]].
    + left. exists k. split_and!; [lia..|done| |done]. intros k' Hk'.
      destruct (decide (k' < 32 * (i + 1))); [rewrite Hw by lia; apply Hs; lia|apply Hmin; lia].
    + right. split; [|done]. intros k Hk.
      destruct (decide (k < 32 * (i + 1))); [rewrite Hw by lia; apply Hs; lia|apply Hall; lia].
Qed.

(** ** Representation *)

Fixpoint count_used (bl : list bool) : Z :=
  match bl with [] => 0 | b :: bl => (if b then 0 else 1) + count_used bl end.

Fixpoint first_free (bl : list bool) : option nat :=
  match bl with
  | [] => None
  | b :: bl => if b then Some O else Datatypes.S <$> first_free bl
  end.

(** The allocator [d] owns an arena of the page allocator; [bl] says for every
    block whether it is free. *)
Record um_inv (d : umalloc_desc) (s : S) (P : gmap Z Z) (bl : list bool) : Prop := {
  ui_live : pa_live s P;
  ui_arena : ∃ sz, P !! arena d = Some sz ∧
                   block_count d * block_size d + block_count d / 8 ≤ sz;
  ui_bitmap : bitmap d = arena d + block_count d * block_size d;
  ui_count : block_count d = Z.of_nat (length bl);
  ui_mod : block_count d mod 32 = 0;
  ui_bsize : 0 < block_size d;
  ui_bits : ∀ i b, bl !! i = Some b → free_bit (pa_mem s) (bitmap d) (Z.of_nat i) = b;
  ui_used : used_blocks d = count_used bl
}.

Lemma count_used_range bl : 0 ≤ count_used bl ≤ Z.of_nat (length bl).
Proof. induction bl as [|[] bl IH]; cbn; lia. Qed.

Lemma count_used_insert (bl : list bool) (i : nat) (b b' : bool) :
  bl !! i = Some b →
  count_used (<[i := b']> bl) = count_used bl + (if b then 1 else 0) - (if b' then 1 else 0).
Proof.
  revert i; induction bl as [|b0 bl IH]; intros [|i] Hi; [done|done| |].
  - injection Hi as ->. cbn. destruct b, b'; lia.
  - change (<[Datatypes.S i := b']> (b0 :: bl)) with (b0 :: <[i := b']> bl).
    cbn [count_used]. rewrite (IH i Hi). lia.
Qed.

Lemma first_free_spec bl :
  match first_free bl with
  | Some i => bl !! i = Some true ∧ ∀ j, (j < i)%nat → bl !! j = Some false
  | None => ∀ j b, bl !! j = Some b → b = false
  end.
Proof.
  induction bl as [|[] bl IH]; cbn; [done| |].
  - split; [done|lia].
  - destruct (first_free bl) as [i|]; cbn.
    + destruct IH as [? IH]. split; [done|]. intros [|j] Hj; [done|]. apply IH. lia.
    + intros [|j] b Hj; cbn in Hj; [congruence|by eapply IH].
Qed.

Section Inv.
Context (d : umalloc_desc) (s : S) (P : gmap Z Z) (bl : list bool).
Hypothesis HI : um_inv d s P bl.

Lemma um_range :
  0 < arena d ∧ bitmap d + block_count d / 8 < 4294967296 ∧ arena d ≤ bitmap d ∧
  0 ≤ block_count d ∧ block_count d mod 32 = 0 ∧ 0 < block_size d ∧
  bitmap d = arena d + block_count d * block_size d.
Proof.
  destruct HI as [Hl (sz & Ha & Hsz) Hb Hc Hm Hs _ _].
  destruct (pa_range _ _ _ _ Hl Ha) as (? & _ & ?). rewrite Hb. split_and!; nia.
Qed.

(** Writing a bit keeps everything but that bit. *)
Lemma um_put_bit i b b' u :
  bl !! i = Some b → u = count_used (<[i := b']> bl) →
  um_inv (Desc (arena d) (bitmap d) (block_size d) (block_count d) u)
    (pa_put (put_bit (pa_mem s) (bitmap d) (Z.of_nat i) b') s) P (<[i := b']> bl) ∧
  (∀ x, x < bitmap d ∨ bitmap d + block_count d / 8 ≤ x →
     ld8 (put_bit (pa_mem s) (bitmap d) (Z.of_nat i) b') x = ld8 (pa_mem s) x).
Proof.
  intros Hi ->. destruct um_range as (? & ? & ? & ? & ? & ? & Hbm).
  pose proof HI as [Hl (sz & Ha & Hsz) Hb Hc Hm Hs Hbits Hu].
  pose proof (lookup_lt_Some _ _ _ Hi) as Hlt.
  assert (∀ x, x < bitmap d ∨ bitmap d + block_count d / 8 ≤ x →
    ld8 (put_bit (pa_mem s) (bitmap d) (Z.of_nat i) b') x = ld8 (pa_mem s) x) as Hout.
  { intros x Hx. unfold put_bit. apply ld8_st32_out. lia. }
  split; [|exact Hout]. constructor; cbn; try done.
  - eapply pa_write; [exact Hl|exact Ha| |].
    + apply mem_bytes_st32, (pa_bytes _ _ Hl).
    + intros x Hx. apply Hout. lia.
  - exists sz. done.
  - by rewrite length_insert.
  - intros j bj Hj. rewrite pa_mem_put, free_bit_put by lia.
    destruct (decide (i = j)) as [<-|Hne].
    + rewrite list_lookup_insert_eq in Hj by done. rewrite decide_True by done. congruence.
    + rewrite list_lookup_insert_ne in Hj by done. rewrite decide_False by lia. by apply Hbits.
Qed.

Lemma first_free_bits :
  match first_free bl with
  | Some i => scan_bitmap (Z.to_nat (block_count d / 32)) (bitmap d) 0 (pa_mem s) =
              Ret (Some (Z.of_nat i), put_bit (pa_mem s) (bitmap d) (Z.of_nat i) false)
  | None => scan_bitmap (Z.to_nat (block_count d / 32)) (bitmap d) 0 (pa_mem s) =
            Ret (None, pa_mem s)
  end.
Proof.
  destruct um_range as (? & ? & ? & ? & ? & ? & Hbm).
  pose proof HI as [_ _ _ Hc Hm _ Hbits _].
  assert (block_count d < 4294967296) as Hmax by nia.
  pose proof (first_free_spec bl) as Hf.
  pose proof (scan_bitmap_spec (Z.to_nat (block_count d / 32)) (pa_mem s) (bitmap d) 0
    ltac:(lia) ltac:(lia)) as Hs.
  replace (bitmap d + 4 * 0) with (bitmap d) in Hs by lia.
  destruct Hs as [(k & Hk & Hb & Hmin & E)|[Hall E]].
  - destruct (lookup_lt_is_Some_2 bl (Z.to_nat k)) as [bk Hbk]; [lia|].
    pose proof (Hbits _ _ Hbk) as Hbk'. rewrite Z2Nat.id in Hbk' by lia.
    destruct (first_free bl) as [i|]; [|by rewrite (Hf _ _ Hbk) in Hbk'; congruence].
    destruct Hf as [Hi Hf]. replace (Z.of_nat i) with k; [done|].
    destruct (decide (k < Z.of_nat i)).
    { rewrite (Hf (Z.to_nat k)) in Hbk by lia. congruence. }
    destruct (decide (Z.of_nat i < k)); [|lia].
    pose proof (Hmin (Z.of_nat i) ltac:(lia)) as Hc1. rewrite (Hbits _ _ Hi) in Hc1. done.
  - destruct (first_free bl) as [i|]; [|done]. destruct Hf as [Hi _].
    pose proof (lookup_lt_Some _ _ _ Hi).
    pose proof (Hall (Z.of_nat i) ltac:(lia)) as Hc1. rewrite (Hbits _ _ Hi) in Hc1. done.
Qed.
End Inv.

Lemma bind_in_arena {A B} (c : M mem A) (k : A → M ust B) d s a m' :
  c (pa_mem s) = Ret (a, m') → bind (in_arena c) k (d, s) = k a (d, pa_put m' s).
Proof. intros E. unfold bind, in_arena, in_heap, pa_in_mem, zoom. cbn [fst snd]. by rewrite E. Qed.

Lemma bind_get_desc {B} (k : umalloc_desc → M ust B) d s :
  bind get_desc k (d, s) = k d (d, s).
Proof. done. Qed.

Definition with_used (d : umalloc_desc) (u : Z) : umalloc_desc :=
  Desc (arena d) (bitmap d) (block_size d) (block_count d) u.

(** The address of block [i]. *)
Definition block_addr (d : umalloc_desc) (i : nat) : Z := arena d + block_size d * Z.of_nat i.

(** Nothing but the bytes of the bitmap differs. *)
Definition bitmap_only (d : umalloc_desc) (s s' : S) : Prop :=
  s' = pa_put (pa_mem s') s ∧
  same_outside (λ x, bitmap d ≤ x < bitmap d + block_count d / 8) (pa_mem s) (pa_mem s').

Lemma bitmap_only_put d s m :
  (∀ x, x < bitmap d ∨ bitmap d + block_count d / 8 ≤ x → ld8 m x = ld8 (pa_mem s) x) → bitmap_only d s (pa_put m s).
Proof. intros Hm. unfold bitmap_only. rewrite pa_mem_put. split; [done|]. intros x Hx. apply Hm. lia. Qed.

Lemma umalloc_spec d s P bl :
  um_inv d s P bl →
  match first_free bl with
  | Some i => ∃ s', umalloc (d, s) = Ret (block_addr d i, (with_used d (used_blocks d + 1), s')) ∧
      um_inv (with_used d (used_blocks d + 1)) s' P (<[i := false]> bl) ∧
      bitmap_only d s s'
  | None => umalloc (d, s) = Panic "ups"
  end.
Proof.
  intros HI. pose proof (um_range _ _ _ _ HI) as (? & ? & ? & ? & ? & ? & Hbm).
  pose proof (first_free_bits _ _ _ _ HI) as Hb. pose proof (first_free_spec bl) as Hf.
  unfold umalloc. rewrite bind_get_desc. destruct (first_free bl) as [i|].
  - destruct Hf as [Hi _]. rewrite (bind_in_arena _ _ _ _ _ _ Hb).
    pose proof (lookup_lt_Some _ _ _ Hi). pose proof HI as [_ _ _ Hc _ _ _ Hu].
    pose proof (count_used_range (<[i := false]> bl)) as Hr.
    rewrite length_insert, (count_used_insert _ _ _ _ Hi), <- Hc in Hr.
    destruct (um_put_bit _ _ _ _ HI i true false (used_blocks d + 1) Hi) as [HI' Hout].
    { rewrite (count_used_insert _ _ _ _ Hi), Hu. lia. }
    assert (block_count d < 4294967296) by nia.
    eexists. split; [|split; [exact HI'|by apply bitmap_only_put]].
    unfold index_to_addr, block_addr, put_desc, bind, modify, ret, with_used. cbn [snd].
    rewrite (u32_small (block_size d * Z.of_nat i)) by nia. by nowrap.
  - by rewrite (bind_in_arena _ _ _ _ _ _ Hb).
Qed.

Lemma get_bitmap_value_spec d m k :
  0 ≤ k → get_bitmap_value d k m = Ret (if free_bit m (bitmap d) k then 1 else 0, m).
Proof.
  intros. unfold get_bitmap_value, bind, gets, ret. rewrite land_bit by lia. done.
Qed.

Lemma ufree_spec d s P (bl : list bool) (i : nat) (b : bool) :
  um_inv d s P bl → bl !! i = Some b →
  if b then ufree (block_addr d i) (d, s) = Panic "bfree failed"
  else ∃ s', ufree (block_addr d i) (d, s) = Ret (tt, (with_used d (used_blocks d - 1), s')) ∧
    um_inv (with_used d (used_blocks d - 1)) s' P (<[i := true]> bl) ∧
    bitmap_only d s s'.
Proof.
  intros HI Hi. pose proof (um_range _ _ _ _ HI) as (? & ? & ? & ? & ? & ? & Hbm).
  pose proof HI as [_ _ _ Hc _ _ Hbits Hu]. pose proof (lookup_lt_Some _ _ _ Hi).
  assert (block_count d < 4294967296) by nia.
  unfold ufree. rewrite bind_get_desc. unfold addr_to_index, block_addr.
  rewrite (proj2 (Z.ltb_ge _ _)), (proj2 (Z.leb_gt _ _)) by nia. cbn [orb].
  replace (arena d + block_size d * Z.of_nat i - arena d) with (block_size d * Z.of_nat i) by lia.
  rewrite (u32_small (block_size d * Z.of_nat i)), (eqb_false (block_size d)) by nia.
  rewrite Z.mul_comm, Z.mod_mul, Z.eqb_refl, Z.div_mul by lia. cbn [negb]. rewrite bind_ret.
  assert (get_bitmap_value d (Z.of_nat i) (pa_mem s) = Ret (if b then 1 else 0, pa_mem s)) as Ev
    by (rewrite get_bitmap_value_spec, (Hbits _ _ Hi) by lia; done).
  rewrite (bind_in_arena _ _ _ _ _ _ Ev), pa_put_mem. destruct b; [done|].
  change (0 =? 1) with false. cbv iota.
  destruct (um_put_bit _ _ _ _ HI i false true (used_blocks d - 1) Hi) as [HI' Hout].
  { rewrite (count_used_insert _ _ _ _ Hi), Hu. lia. }
  assert (0 < used_blocks d < 4294967296) as Hpos.
  { pose proof (count_used_insert bl i false true Hi) as E. cbv iota in E.
    pose proof (count_used_range (<[i := true]> bl)). pose proof (count_used_range bl). lia. }
  eexists. split; [|split; [exact HI'|by apply bitmap_only_put]].
  rewrite (bind_in_arena (clear_bit_in_bitmap d (Z.of_nat i)) _ d s tt
    (put_bit (pa_mem s) (bitmap d) (Z.of_nat i) true)) by done.
  rewrite eqb_false by lia. cbn [negb]. unfold put_desc, modify, with_used. cbn [snd]. by nowrap.
Qed.

Lemma ufree_bad_pointer d s P bl ptr :
  um_inv d s P bl → (∀ i, (i < length bl)%nat → ptr ≠ block_addr d i) →
  ufree ptr (d, s) = Panic "bfree failed".
Proof.
  intros HI Hptr. pose proof (um_range _ _ _ _ HI) as (? & ? & ? & ? & ? & ? & Hbm).
  pose proof HI as [_ _ _ Hc _ _ _ _]. unfold ufree. rewrite bind_get_desc. unfold addr_to_index.
  destruct ((ptr <? arena d) || (bitmap d <=? ptr)) eqn:E; [done|].
  apply orb_false_iff in E as [E1%Z.ltb_ge E2%Z.leb_gt].
  rewrite u32_small, (eqb_false (block_size d)) by nia.
  destruct ((ptr - arena d) mod block_size d =? 0) eqn:E; [|done]. exfalso.
  apply Z.eqb_eq in E. pose proof (Z.div_mod (ptr - arena d) (block_size d) ltac:(lia)) as Hdm.
  set (q := (ptr - arena d) / block_size d) in *.
  assert (0 ≤ q < block_count d) as Hq by nia.
  apply (Hptr (Z.to_nat q)); [lia|]. unfold block_addr. rewrite Z2Nat.id by lia. lia.
Qed.

(** The number of blocks and pages [umalloc_new] settles on. *)
Definition new_count (n : Z) : Z := 32 * ((n + 32) / 32).
Definition new_pages (block_size n : Z) : Z :=
  (new_count n * block_size + new_count n / 8 + 511) / 512.

Lemma free_bit_ones m bm k :
  0 ≤ k → (∀ x, bm + 4 * (k / 32) ≤ x < bm + 4 * (k / 32) + 4 → ld8 m x = 255) →
  free_bit m bm k = true.
Proof.
  intros Hk Hx. unfold free_bit.
  assert (ld32 m (bm + 4 * (k / 32)) = Z.ones 32) as ->.
  { unfold ld32. rewrite !Hx by lia. reflexivity. }
  apply Z.ones_spec_low. lia.
Qed.

Lemma count_used_replicate n : count_used (replicate n true) = 0.
Proof. induction n; cbn; lia. Qed.

(** [umalloc_new] up to its allocation, and after it. *)
Lemma umalloc_new_run d0 s bsize n bank :
  0 < bsize → 0 ≤ n → new_count n * bsize + new_count n / 8 < 4294966000 →
  umalloc_new bsize n bank (d0, s) =
  match pa_malloc (new_pages bsize n) bank s with
  | Ret (a, s1) =>
      if a =? NULL then Panic "Can not make ualloc" else
      Ret (tt, (Desc a (a + new_count n * bsize) bsize (new_count n) 0,
                pa_put (fill_loop a 255 (Z.to_nat (new_pages bsize n * 512)) (pa_mem s1)) s1))
  | Panic r => Panic r
  | UB => UB
  | Hang => Hang
  end.
Proof.
  intros Hbs Hn Hmax.
  assert (0 < new_count n ∧ new_count n mod 32 = 0) as (Hc0 & Hc32) by (unfold new_count; lia).
  assert (Z.land (u32 (n + 32)) (Z.lnot 31) = new_count n) as Ec.
  { change 31 with (2 ^ 5 - 1). rewrite land_not_mask by lia. change (2 ^ 5) with 32.
    unfold new_count in *. rewrite u32_small by nia. lia. }
  unfold umalloc_new. rewrite Ec. cbv zeta. pose proof (eq_refl (new_pages bsize n)) as Epg.
  unfold new_pages at 1 in Epg.
  remember (new_count n) as c eqn:Hc. clear Hc Ec. set (pg := new_pages bsize n) in *.
  assert (c mod 8 = 0) as Hc8 by lia. rewrite (eqb_true (c mod 8)) by done. cbn [negb].
  rewrite (u32_small (c * bsize)) by nia. set (t := c * bsize + c / 8) in *.
  assert (0 ≤ t) by (unfold t; nia). rewrite (u32_small t) by lia.
  assert ((if negb (t mod 512 =? 0) then u32 (t / 512 + 1) else t / 512) = pg) as ->.
  { destruct (t mod 512 =? 0) eqn:E; cbn [negb].
    - apply Z.eqb_eq in E. lia.
    - apply Z.eqb_neq in E. nowrap. lia. }
  unfold bind at 1, in_heap, zoom. cbn [fst snd].
  destruct (pa_malloc pg bank s) as [[a s1]| | |]; [|done..].
  destruct (a =? NULL); [done|]. nowrap.
  by rewrite (bind_in_arena (memory_fill a 255 (pg * 512)) _ d0 s1 tt _ eq_refl).
Qed.

Lemma new_inv s1 P a bsize n :
  0 < bsize → 0 ≤ n → pa_live s1 (<[a := new_pages bsize n * 512]> P) →
  um_inv (Desc a (a + new_count n * bsize) bsize (new_count n) 0)
    (pa_put (fill_loop a 255 (Z.to_nat (new_pages bsize n * 512)) (pa_mem s1)) s1)
    (<[a := new_pages bsize n * 512]> P) (replicate (Z.to_nat (new_count n)) true).
Proof.
  intros Hbs Hn HP1. pose proof (lookup_insert_eq P a (new_pages bsize n * 512)) as Ha.
  destruct (pa_range _ _ _ _ HP1 Ha) as (Ha0 & Ha8 & Hamax).
  assert (0 < new_count n ∧ new_count n mod 32 = 0) as (Hc0 & Hc32) by (unfold new_count; lia).
  pose proof (eq_refl (new_pages bsize n)) as Epg. unfold new_pages at 1 in Epg.
  remember (new_count n) as c eqn:Hc. clear Hc. set (pg := new_pages bsize n) in *.
  assert (0 ≤ c * bsize) by nia.
  set (m' := fill_loop a 255 (Z.to_nat (pg * 512)) (pa_mem s1)).
  assert (∀ x, ld8 m' x = if decide (a ≤ x < a + pg * 512) then 255 else ld8 (pa_mem s1) x) as Hm'.
  { intros x. unfold m'. rewrite fill_loop_spec. repeat case_decide; try done; lia. }
  constructor; cbn; try done.
  - eapply pa_write; [exact HP1|exact Ha| |].
    + apply mem_bytes_fill, (pa_bytes _ _ HP1).
    + intros x Hx. by rewrite Hm', decide_False.
  - exists (pg * 512). split; [done|]. lia.
  - rewrite length_replicate. lia.
  - intros i b [-> Hi]%lookup_replicate. rewrite pa_mem_put.
    apply free_bit_ones; [lia|]. intros x Hx. rewrite Hm', decide_True; [done|]. lia.
  - by rewrite count_used_replicate.
Qed.

Lemma umalloc_new_spec d0 s P bsize n bank :
  pa_live s P → pa_bank bank → 0 < bsize → 0 ≤ n →
  new_count n * bsize + new_count n / 8 < 4294966000 →
  umalloc_new bsize n bank (d0, s) = Panic "palloc failed" ∨
  ∃ a s', let d := Desc a (a + new_count n * bsize) bsize (new_count n) 0 in
    umalloc_new bsize n bank (d0, s) = Ret (tt, (d, s')) ∧ P !! a = None ∧
    um_inv d s' (<[a := new_pages bsize n * 512]> P) (replicate (Z.to_nat (new_count n)) true).
Proof.
  intros HP Hbank Hbs Hn Hmax. rewrite umalloc_new_run by done.
  assert (0 ≤ new_pages bsize n < 8388607) as Hpg.
  { unfold new_pages. assert (0 ≤ new_count n * bsize) by (unfold new_count in *; nia).
    assert (0 ≤ new_count n) by (unfold new_count; lia). lia. }
  destruct (pa_malloc_law _ _ _ bank HP Hbank Hpg) as [->|(a & s1 & -> & Hnew & HP1 & _)]; [by left|].
  right. destruct (pa_range _ _ _ _ HP1 (lookup_insert_eq _ _ _)) as (Ha0 & _).
  unfold NULL. rewrite eqb_false by lia. eexists a, _. split_and!; [reflexivity|done|].
  by apply new_inv.
Qed.

(** C23. [umalloc] takes the free block with the lowest index and panics
    exactly when there is none; [ufree] gives a used block back and panics on a
    free block and on every other address.  Each keeps the invariant and, but for
    the count of used blocks, writes nothing but the bytes of the bitmap, which
    lies behind the blocks: the contents of all blocks and of the rest of the
    memory, and the page allocator, are as they were. *)
Theorem umalloc_ufree_refines d s P bl :
  um_inv d s P bl →
  (match first_free bl with
   | Some i => ∃ s', umalloc (d, s) = Ret (block_addr d i, (with_used d (used_blocks d + 1), s')) ∧
       um_inv (with_used d (used_blocks d + 1)) s' P (<[i := false]> bl) ∧ bitmap_only d s s'
   | None => umalloc (d, s) = Panic "ups"
   end) ∧
  (∀ i, bl !! i = Some false → ∃ s',
     ufree (block_addr d i) (d, s) = Ret (tt, (with_used d (used_blocks d - 1), s')) ∧
     um_inv (with_used d (used_blocks d - 1)) s' P (<[i := true]> bl) ∧ bitmap_only d s s') ∧
  (∀ i, bl !! i = Some true → ufree (block_addr d i) (d, s) = Panic "bfree failed") ∧
  (∀ ptr, (∀ i, (i < length bl)%nat → ptr ≠ block_addr d i) →
     ufree ptr (d, s) = Panic "bfree failed") ∧
  (∀ i, (i < length bl)%nat → block_addr d i + block_size d ≤ bitmap d).
Proof.
  intros HI. split_and!.
  - exact (umalloc_spec _ _ _ _ HI).
  - intros i Hi. exact (ufree_spec _ _ _ _ _ _ HI Hi).
  - intros i Hi. apply (ufree_spec _ _ _ _ _ _ HI Hi).
  - intros ptr. by apply ufree_bad_pointer with (P := P).
  - intros i Hi. pose proof (um_range _ _ _ _ HI) as (? & ? & ? & ? & ? & ? & Hbm).
    pose proof HI as [_ _ _ Hc _ _ _ _]. unfold block_addr. nia.
Qed.

(** [umalloc_new] panics when the page allocator does, and otherwise sets
    up an allocator with every block free.  The number of blocks is the request
    rounded up to a multiple of 32, and it is always larger than the request:
    an aligned request of [n] blocks yields [n + 32]. *)
Theorem umalloc_new_establishes d0 s P bsize n bank :
  pa_live s P → pa_bank bank → 0 < bsize → 0 ≤ n →
  new_count n * bsize + new_count n / 8 < 4294966000 →
  (umalloc_new bsize n bank (d0, s) = Panic "palloc failed" ∨
   ∃ a s', let d := Desc a (a + new_count n * bsize) bsize (new_count n) 0 in
     umalloc_new bsize n bank (d0, s) = Ret (tt, (d, s')) ∧ P !! a = None ∧
     um_inv d s' (<[a := new_pages bsize n * 512]> P) (replicate (Z.to_nat (new_count n)) true)) ∧
  n < new_count n ≤ n + 32 ∧ new_count n mod 32 = 0 ∧ (n mod 32 = 0 → new_count n = n + 32).
Proof.
  intros HP Hbank Hbs Hn Hmax. split; [by apply umalloc_new_spec|]. unfold new_count. lia.
Qed.
End Umalloc.

(** ** An allocator of eight-byte blocks on the memory core *)

Definition small_desc : umalloc_desc := Desc 0x2008 0x2108 8 32 0.

Lemma small_um :
  ∃ s, umalloc_new (H := mm_pages 2) 8 1 1 (Desc 0 0 0 0 0, small_mm_ready) = Ret (tt, (small_desc, s)) ∧
       um_inv (H := mm_pages 2) small_desc s {[0x2008 := 512]} (replicate 32 true).
Proof.
  destruct small_pmalloc as (s1 & E1 & HP1).
  eexists. split.
  - rewrite umalloc_new_run by done. change (pa_malloc (new_pages 8 1)) with (pmalloc mm_fuel 1).
    rewrite E1. reflexivity.
  - apply (new_inv (H := mm_pages 2) s1 ∅ 0x2008 8 1); [lia|lia|]. exact HP1.
Qed.

Lemma umalloc_ufree_refines_witness :
  ∃ d s, um_inv (H := mm_pages 2) d s {[0x2008 := 512]} (replicate 32 true) ∧
         ∃ s', umalloc (H := mm_pages 2) (d, s) = Ret (0x2008, (with_used d 1, s')).
Proof.
  destruct small_um as (s & _ & HI). exists small_desc, s. split; [exact HI|].
  destruct (proj1 (umalloc_ufree_refines (H := mm_pages 2) small_desc s _ _ HI)) as (s' & E & _).
  exists s'. exact E.
Defined.

Lemma umalloc_new_establishes_witness :
  (umalloc_new (H := mm_pages 2) 8 1 1 (Desc 0 0 0 0 0, small_mm_ready) = Panic "palloc failed" ∨
   ∃ a s, umalloc_new (H := mm_pages 2) 8 1 1 (Desc 0 0 0 0 0, small_mm_ready) =
          Ret (tt, (Desc a (a + 256) 8 32 0, s))) ∧ new_count 32 = 64.
Proof.
  split.
  - destruct (proj1 (umalloc_new_establishes (H := mm_pages 2) (Desc 0 0 0 0 0) small_mm_ready ∅ 8 1 1
      small_live ltac:(cbn; lia) ltac:(lia) ltac:(lia) ltac:(done))) as [E|(a & s & E & _)];
      [left; exact E|right; exists a, s; exact E].
  - apply (proj2 (proj2 (proj2 (umalloc_new_establishes (H := mm_pages 2) (Desc 0 0 0 0 0)
      small_mm_ready ∅ 8 32 1 small_live ltac:(cbn; lia) ltac:(lia) ltac:(lia) ltac:(done))))).
    reflexivity.
Defined.
