(* ===== verification/Sched.v ===== *)
(** * The scheduler (kernel/src/kernel/scheduler.c, thread.c, rt.c, app.c,
      background.c, idle.c)

    Threads live at addresses; their control blocks are records and their two
    list nodes are nodes of the list store of Dlist.v, at the offsets the C
    structure gives them.  The thread memory comes from a page allocator through
    [PageAlloc].  Accesses to the hardware are recorded in a log.  This file has
    the data and the operations; SchedSpec.v has the invariant and the proofs. *)

From S2P Require Import Prelude Memory Dlist Mm Palloc.

Definition SYSTICK_RVR : Z := 300000.
Definition THREAD_MAX_NAME_LEN : nat := 32.

Inductive sched_class := REAL_TIME | APPLICATION | BACKGROUND | IDLE.

#[export] Instance sched_class_eq_dec : EqDecision sched_class.
Proof. solve_decision. Defined.

(** [struct thread_info] *)
Record thread_info := ThreadInfo {
  ti_name : list Z;
  ti_stack_size : Z;
  ti_thread : Z;
  ti_arg : Z;
  ti_class : sched_class;
  ti_code_addr : Z
}.

(** [struct thread], without its two list nodes, which are in the list store at
    [rq_node] and [thread_node]. *)
Record thread := Thread {
  stack_pointer : Z;
  stack_base : Z;
  rq_list : Z;
  class : sched_class;
  name : list Z;
  name_len : Z;
  tick_to_wake : Z;
  runtime_curr : Z;
  runtime_new : Z;
  tid : Z;
  exit_pending : Z;
  code_addr : Z
}.

Definition rq_node (t : Z) : Z := t + 12.
Definition thread_node (t : Z) : Z := t + 24.
Definition sizeof_thread : Z := 120.

(** Field updates. *)
Definition set_rq_list (v : Z) (t : thread) : thread :=
  Thread (stack_pointer t) (stack_base t) v (class t) (name t) (name_len t) (tick_to_wake t)
    (runtime_curr t) (runtime_new t) (tid t) (exit_pending t) (code_addr t).
Definition set_tick_to_wake (v : Z) (t : thread) : thread :=
  Thread (stack_pointer t) (stack_base t) (rq_list t) (class t) (name t) (name_len t) v
    (runtime_curr t) (runtime_new t) (tid t) (exit_pending t) (code_addr t).
Definition set_runtime (c n : Z) (t : thread) : thread :=
  Thread (stack_pointer t) (stack_base t) (rq_list t) (class t) (name t) (name_len t) (tick_to_wake t)
    c n (tid t) (exit_pending t) (code_addr t).
Definition set_exit_pending (v : Z) (t : thread) : thread :=
  Thread (stack_pointer t) (stack_base t) (rq_list t) (class t) (name t) (name_len t) (tick_to_wake t)
    (runtime_curr t) (runtime_new t) (tid t) v (code_addr t).

(** What the scheduler asks of the hardware. *)
Inductive hw_event :=
  | EvIrqOff | EvIrqOn
  | EvSystickPending | EvPendsvPending
  | EvSetCvr (v : Z) | EvSetRvr (v : Z) | EvSystickEnable
  | EvPriorities
  | EvGpioToggle (pin : Z)
  | EvRun.

Section Sched.
Context {H : Type} `{PageAlloc H}.

(** The address of [cpu_rq] and of the function [thread_exit]. *)
Variable cpu_rq : Z.
Variable thread_exit_addr : Z.

(** The lists of [struct rq], at their offsets. *)
Definition app_rq : Z := cpu_rq.
Definition background_rq : Z := cpu_rq + 12.
Definition rt_rq : Z := cpu_rq + 24.
Definition sleep_q : Z := cpu_rq + 40.
Definition blocked_q : Z := cpu_rq + 52.
Definition threads : Z := cpu_rq + 64.

(** The globals of scheduler.c, the rest of [cpu_rq], the static [tid] of
    [new_thread], the thread control blocks and the allocator. *)
Record sched := Sched_ {
  dl : dstore;
  tcbs : gmap Z thread;
  curr_thread : Z;
  next_thread : Z;
  idle : Z;
  rq_tick_to_wake : Z;
  scheduler_status : Z;
  tick : Z;
  stats_tick : Z;
  reschedule_pending : Z;
  next_tid : Z;
  heap : H;
  log : list hw_event
}.

Definition with_dl (v : dstore) (s : sched) : sched :=
  Sched_ v (tcbs s) (curr_thread s) (next_thread s) (idle s) (rq_tick_to_wake s)
    (scheduler_status s) (tick s) (stats_tick s) (reschedule_pending s) (next_tid s) (heap s) (log s).
Definition with_tcbs (v : gmap Z thread) (s : sched) : sched :=
  Sched_ (dl s) v (curr_thread s) (next_thread s) (idle s) (rq_tick_to_wake s)
    (scheduler_status s) (tick s) (stats_tick s) (reschedule_pending s) (next_tid s) (heap s) (log s).
Definition with_curr (v : Z) (s : sched) : sched :=
  Sched_ (dl s) (tcbs s) v (next_thread s) (idle s) (rq_tick_to_wake s)
    (scheduler_status s) (tick s) (stats_tick s) (reschedule_pending s) (next_tid s) (heap s) (log s).
Definition with_next (v : Z) (s : sched) : sched :=
  Sched_ (dl s) (tcbs s) (curr_thread s) v (idle s) (rq_tick_to_wake s)
    (scheduler_status s) (tick s) (stats_tick s) (reschedule_pending s) (next_tid s) (heap s) (log s).
Definition with_idle (v : Z) (s : sched) : sched :=
  Sched_ (dl s) (tcbs s) (curr_thread s) (next_thread s) v (rq_tick_to_wake s)
    (scheduler_status s) (tick s) (stats_tick s) (reschedule_pending s) (next_tid s) (heap s) (log s).
Definition with_wake (v : Z) (s : sched) : sched :=
  Sched_ (dl s) (tcbs s) (curr_thread s) (next_thread s) (idle s) v
    (scheduler_status s) (tick s) (stats_tick s) (reschedule_pending s) (next_tid s) (heap s) (log s).
Definition with_status (v : Z) (s : sched) : sched :=
  Sched_ (dl s) (tcbs s) (curr_thread s) (next_thread s) (idle s) (rq_tick_to_wake s)
    v (tick s) (stats_tick s) (reschedule_pending s) (next_tid s) (heap s) (log s).
Definition with_ticks (t st : Z) (s : sched) : sched :=
  Sched_ (dl s) (tcbs s) (curr_thread s) (next_thread s) (idle s) (rq_tick_to_wake s)
    (scheduler_status s) t st (reschedule_pending s) (next_tid s) (heap s) (log s).
Definition with_pending (v : Z) (s : sched) : sched :=
  Sched_ (dl s) (tcbs s) (curr_thread s) (next_thread s) (idle s) (rq_tick_to_wake s)
    (scheduler_status s) (tick s) (stats_tick s) v (next_tid s) (heap s) (log s).
Definition with_tid (v : Z) (s : sched) : sched :=
  Sched_ (dl s) (tcbs s) (curr_thread s) (next_thread s) (idle s) (rq_tick_to_wake s)
    (scheduler_status s) (tick s) (stats_tick s) (reschedule_pending s) v (heap s) (log s).
Definition with_heap (v : H) (s : sched) : sched :=
  Sched_ (dl s) (tcbs s) (curr_thread s) (next_thread s) (idle s) (rq_tick_to_wake s)
    (scheduler_status s) (tick s) (stats_tick s) (reschedule_pending s) (next_tid s) v (log s).
Definition with_log (v : list hw_event) (s : sched) : sched :=
  Sched_ (dl s) (tcbs s) (curr_thread s) (next_thread s) (idle s) (rq_tick_to_wake s)
    (scheduler_status s) (tick s) (stats_tick s) (reschedule_pending s) (next_tid s) (heap s) v.

Definition in_dl {A} (c : M dstore A) : M sched A := zoom dl with_dl c.
Definition in_heap {A} (c : M H A) : M sched A := zoom heap with_heap c.
Definition emit (e : hw_event) : M sched unit := modify (λ s, with_log (log s ++ [e]) s).

(** A thread control block; NULL and freed threads have none. *)
Definition get_tcb (t : Z) : M sched thread :=
  λ s, match tcbs s !! t with Some x => Ret (x, s) | None => UB end.
Definition upd_tcb (t : Z) (f : thread → thread) : M sched unit :=
  let* x := get_tcb t in modify (λ s, with_tcbs (<[t := f x]> (tcbs s)) s).

(** ** The scheduling classes *)

Definition app_pick_thread : M sched Z :=
  let* l := in_dl (get_list app_rq) in
  if first l =? null then ret null else
  let* node := in_dl (dlist_remove_first app_rq) in
  let* n := in_dl (get_node node) in ret (obj n).
Definition app_enqueue (t : Z) : M sched unit := in_dl (dlist_insert_last (rq_node t) app_rq).
Definition app_dequeue (t : Z) : M sched unit :=
  let* _ := in_dl (dlist_remove (rq_node t) app_rq) in ret tt.

Definition background_pick_thread : M sched Z :=
  let* l := in_dl (get_list background_rq) in
  if first l =? null then ret null else
  let* node := in_dl (dlist_remove_first background_rq) in
  let* n := in_dl (get_node node) in ret (obj n).
Definition background_enqueue (t : Z) : M sched unit :=
  in_dl (dlist_insert_last (rq_node t) background_rq).
Definition background_dequeue (t : Z) : M sched unit :=
  let* _ := in_dl (dlist_remove (rq_node t) background_rq) in ret tt.

Definition idle_pick_thread : M sched Z := gets idle.
Definition idle_enqueue (t : Z) : M sched unit := modify (with_idle t).
Definition idle_dequeue (t : Z) : M sched unit := ret tt.

Definition rt_pick_thread : M sched Z :=
  let* l := in_dl (get_list rt_rq) in
  if first l =? null then ret null else
  let* node := in_dl (dlist_remove_first rt_rq) in
  let* n := in_dl (get_node node) in
  let th := obj n in
  upd_tcb th (set_rq_list null) ;;
  ret th.
Definition rt_enqueue (t : Z) : M sched unit :=
  in_dl (dlist_insert_last (rq_node t) rt_rq) ;; upd_tcb t (set_rq_list rt_rq).
Definition rt_dequeue (t : Z) : M sched unit :=
  let* _ := in_dl (dlist_remove (rq_node t) rt_rq) in ret tt.
Definition rt_block (t : Z) : M sched unit :=
  let* x := get_tcb t in
  if rq_list x =? blocked_q then ret tt else
  let* _ := in_dl (dlist_remove (rq_node t) (rq_list x)) in
  in_dl (dlist_insert_last (rq_node t) blocked_q) ;;
  upd_tcb t (set_rq_list blocked_q).
Definition rt_unblock (t : Z) : M sched unit :=
  let* x := get_tcb t in
  if negb (rq_list x =? blocked_q) then ret tt else
  let* _ := in_dl (dlist_remove (rq_node t) (rq_list x)) in
  upd_tcb t (set_tick_to_wake 0) ;;
  in_dl (dlist_insert_last (rq_node t) rt_rq) ;;
  upd_tcb t (set_rq_list rt_rq).

(** [struct scheduling_class]: a member left out of the initialiser is NULL. *)
Record scheduling_class := SchedulingClass {
  next_class : option sched_class;
  pick_thread : M sched Z;
  enqueue : Z → M sched unit;
  dequeue : Z → M sched unit;
  unblock : option (Z → M sched unit);
  block : option (Z → M sched unit)
}.

Definition rt_class : scheduling_class :=
  SchedulingClass (Some APPLICATION) rt_pick_thread rt_enqueue rt_dequeue
    (Some rt_unblock) (Some rt_block).
Definition app_class : scheduling_class :=
  SchedulingClass (Some BACKGROUND) app_pick_thread app_enqueue app_dequeue None None.
Definition background_class : scheduling_class :=
  SchedulingClass (Some IDLE) background_pick_thread background_enqueue background_dequeue None None.
Definition idle_class : scheduling_class :=
  SchedulingClass None idle_pick_thread idle_enqueue idle_dequeue None None.

Definition class_of (c : sched_class) : scheduling_class :=
  match c with
  | REAL_TIME => rt_class
  | APPLICATION => app_class
  | BACKGROUND => background_class
  | IDLE => idle_class
  end.

(** ** scheduler.c *)

(** The loop of [core_scheduler] over the chain of classes. *)
Fixpoint core_loop (fuel : nat) (c : option sched_class) : M sched Z :=
  match fuel with
  | O => hang
  | S f =>
      match c with
      | None => panic "Core scheduler error"
      | Some c =>
          let* thread := pick_thread (class_of c) in
          if negb (thread =? null) then ret thread else core_loop f (next_class (class_of c))
      end
  end.
Definition core_scheduler : M sched Z := core_loop 5 (Some REAL_TIME).

Fixpoint get_thread_loop (fuel : nat) (it tid_ : Z) : M sched Z :=
  match fuel with
  | O => hang
  | S f =>
      if negb (it =? null) then
        let* n := in_dl (get_node it) in
        let* x := get_tcb (obj n) in
        if tid x =? tid_ then ret (obj n) else get_thread_loop f (next n) tid_
      else ret null
  end.
Definition get_thread (fuel : nat) (tid_ : Z) : M sched Z :=
  let* l := in_dl (get_list threads) in get_thread_loop fuel (first l) tid_.

Definition tick_to_wake_update : M sched unit :=
  let* l := in_dl (get_list sleep_q) in
  if negb (first l =? null) then
    let* n := in_dl (get_node (first l)) in
    let* x := get_tcb (obj n) in
    modify (with_wake (tick_to_wake x))
  else modify (with_wake 0).

(** The loop of [process_expired_delays]. *)
Fixpoint expired_loop (fuel : nat) (iter : Z) : M sched unit :=
  match fuel with
  | O => hang
  | S f =>
      if negb (iter =? null) then
        let* n := in_dl (get_node iter) in
        let* x := get_tcb (obj n) in
        let* now := gets tick in
        if tick_to_wake x <? now then
          let* _ := in_dl (dlist_remove iter sleep_q) in
          upd_tcb (obj n) (set_rq_list null) ;;
          let t := obj n in
          let* x := get_tcb t in
          enqueue (class_of (class x)) t ;;
          upd_tcb t (set_tick_to_wake 0) ;;
          let* n := in_dl (get_node iter) in
          expired_loop f (next n)
        else ret tt
      else ret tt
  end.

Definition process_expired_delays (fuel : nat) : M sched unit :=
  let* wake := gets rq_tick_to_wake in
  let* now := gets tick in
  if (wake <=? now) && negb (wake =? 0) then
    let* l := in_dl (get_list sleep_q) in
    expired_loop fuel (first l) ;;
    tick_to_wake_update
  else ret tt.

(** Freed objects can no longer be accessed. *)
Definition drop_thread (t : Z) (s : sched) : sched :=
  with_tcbs (delete t (tcbs s))
    (with_dl (DStore (delete (rq_node t) (delete (thread_node t) (nodes (dl s)))) (lists (dl s))) s).

(** [scheduler_remove_thread]; its parameter is not used by the code. *)
Definition scheduler_remove_thread (thread : Z) : M sched unit :=
  let* curr := gets curr_thread in
  let* _ := in_dl (dlist_remove (thread_node curr) threads) in
  let* x := get_tcb curr in
  (if negb (rq_list x =? null)
   then let* _ := in_dl (dlist_remove (rq_node curr) (rq_list x)) in ret tt
   else ret tt) ;;
  let* r := in_dl (get_node (rq_node curr)) in
  let* t := in_dl (get_node (thread_node curr)) in
  if negb (next r =? null) || negb (prev r =? null) ||
     negb (next t =? null) || negb (prev t =? null)
  then panic "Exiting thread exist in a list" else
  (if negb (code_addr x =? null) then in_heap (pa_free (code_addr x)) else ret tt) ;;
  in_heap (pa_free curr) ;;
  modify (drop_thread curr) ;;
  modify (with_curr null).

Fixpoint runtime_loop (fuel : nat) (iter : Z) : M sched unit :=
  match fuel with
  | O => hang
  | S f =>
      if negb (iter =? null) then
        let* n := in_dl (get_node iter) in
        let* x := get_tcb (obj n) in
        upd_tcb (obj n) (set_runtime (runtime_new x) 0) ;;
        runtime_loop f (next n)
      else ret tt
  end.
Definition calculate_runtime (fuel : nat) : M sched unit :=
  let* l := in_dl (get_list threads) in runtime_loop fuel (first l).

(** [cvr] is what the SysTick counter register reads. *)
Definition get_curr_thread_runtime (cvr : Z) : M sched Z :=
  let* p := gets reschedule_pending in
  if negb (p =? 0) then
    modify (with_pending 0) ;;
    ret (u32 (SYSTICK_RVR - cvr))
  else ret SYSTICK_RVR.

Definition systick_exception (fuel : nat) (cvr : Z) : M sched unit :=
  let* status := gets scheduler_status in
  if negb (status =? 0) then
    emit EvIrqOff ;;
    let* curr_runtime := get_curr_thread_runtime cvr in
    modify (λ s, with_ticks (u64 (tick s + curr_runtime)) (u64 (stats_tick s + curr_runtime)) s) ;;
    let* curr := gets curr_thread in
    upd_tcb curr (λ x, set_runtime (runtime_curr x) (u64 (runtime_new x + curr_runtime)) x) ;;
    let* stats := gets stats_tick in
    (if SYSTICK_RVR * 1000 <=? stats then
       modify (λ s, with_ticks (tick s) 0 s) ;;
       emit (EvGpioToggle 8) ;;
       calculate_runtime fuel
     else ret tt) ;;
    process_expired_delays fuel ;;
    let* x := get_tcb curr in
    (if tick_to_wake x =? 0 then enqueue (class_of (class x)) curr else ret tt) ;;
    let* x := get_tcb curr in
    (if negb (exit_pending x =? 0) then scheduler_remove_thread curr else ret tt) ;;
    let* next := core_scheduler in
    modify (with_next next) ;;
    emit (EvSetCvr SYSTICK_RVR) ;;
    emit EvIrqOn ;;
    emit EvPendsvPending
  else ret tt.

Definition reschedule : M sched unit :=
  modify (with_pending 1) ;; emit EvSystickPending.

(** The loop of [scheduler_enqueue_delay]; it returns [iter]. *)
Fixpoint delay_loop (fuel : nat) (t iter : Z) : M sched Z :=
  match fuel with
  | O => hang
  | S f =>
      if negb (iter =? null) then
        let* n := in_dl (get_node iter) in
        let* y := get_tcb (obj n) in
        let* x := get_tcb t in
        if tick_to_wake x <? tick_to_wake y then
          in_dl (dlist_insert_before (rq_node t) iter sleep_q) ;; ret iter
        else delay_loop f t (next n)
      else ret null
  end.

Definition scheduler_enqueue_delay (fuel : nat) (t : Z) : M sched unit :=
  let* l := in_dl (get_list sleep_q) in
  (if first l =? null then
     in_dl (dlist_insert_first (rq_node t) sleep_q)
   else
     let* iter := delay_loop fuel t (first l) in
     if iter =? null then in_dl (dlist_insert_last (rq_node t) sleep_q) else ret tt) ;;
  upd_tcb t (set_rq_list sleep_q) ;;
  tick_to_wake_update.

Definition suspend_scheduler : M sched unit := modify (with_status 0).
Definition resume_scheduler : M sched unit := modify (with_status 1).
Definition get_kernel_tick : M sched Z := gets tick.
Definition get_idle_runtime : M sched Z :=
  let* i := gets idle in let* x := get_tcb i in ret (runtime_curr x).

(** Calling a member of a class that is NULL is undefined. *)
Definition call (f : option (Z → M sched unit)) (t : Z) : M sched unit :=
  match f with Some f => f t | None => ub end.

Definition scheduler_unblock_thread (t : Z) : M sched unit :=
  let* curr := gets curr_thread in
  (if t =? curr then reschedule else ret tt) ;;
  let* curr := gets curr_thread in
  if t =? curr then panic "ERROR" else
  let* x := get_tcb t in
  call (unblock (class_of (class x))) t.

Definition scheduler_block_thread (t : Z) : M sched unit :=
  let* curr := gets curr_thread in
  (if t =? curr then reschedule else ret tt) ;;
  let* curr := gets curr_thread in
  if t =? curr then panic "ERROR" else
  let* x := get_tcb t in
  call (block (class_of (class x))) t.

(** [pendsv_exception] (context.s) as far as the kernel's data goes: the stack
    pointer of the thread switched from is saved below its eight registers,
    and [curr_thread] becomes [next_thread]. *)
Definition set_stack_pointer (v : Z) (t : thread) : thread :=
  Thread v (stack_base t) (rq_list t) (class t) (name t) (name_len t) (tick_to_wake t)
    (runtime_curr t) (runtime_new t) (tid t) (exit_pending t) (code_addr t).
Definition pendsv_exception (psp : Z) : M sched unit :=
  let* curr := gets curr_thread in
  (if negb (curr =? null) then upd_tcb curr (set_stack_pointer (psp - 32)) else ret tt) ;;
  let* next := gets next_thread in
  modify (with_curr next).

(** ** thread.c *)

(** [thread_exit]: marks the current thread; the loop it then spins in is the
    thread's own. *)
Definition thread_exit : M sched unit :=
  let* curr := gets curr_thread in upd_tcb curr (set_exit_pending 1).

(** The words [stack_setup] stores, from the top of the frame down. *)
Definition frame_words (thread_ arg : Z) : list Z :=
  [0x1000000; thread_; thread_exit_addr; 0xCAFECAFE; 0xCAFECAFE; 0xCAFECAFE; 0xCAFECAFE; arg;
   0xCAFECAFE; 0xCAFECAFE; 0xCAFECAFE; 0xCAFECAFE; 0xCAFECAFE; 0xCAFECAFE; 0xCAFECAFE].

(** [*stack_pointer-- = w] for each word. *)
Fixpoint push_words (ws : list Z) (sp : Z) : M mem Z :=
  match ws with
  | [] => ret sp
  | w :: ws => modify (λ m, st32 m sp w) ;; push_words ws (sp - 4)
  end.

Definition stack_setup (sp thread_ arg : Z) : M mem Z :=
  let* sp := push_words (frame_words thread_ arg) (sp - 4) in
  modify (λ m, st32 m sp 0xCAFECAFE) ;;
  ret sp.

(** [string_len] of the name of the info structure. *)
Fixpoint name_length (n : list Z) : option Z :=
  match n with
  | [] => None
  | c :: n => if c =? 0 then Some 0 else (λ k, k + 1) <$> name_length n
  end.

(** [new_thread]; the nodes and the control block are created where the page
    allocator says, each field with the value it has when the function
    returns or is first read. *)
Definition new_thread (info : thread_info) : M sched Z :=
  suspend_scheduler ;;
  let size := u32 (sizeof_thread + ti_stack_size info * 4) in
  let page_count := size / 512 in
  let page_count := if negb (size mod 512 =? 0) then u32 (page_count + 1) else page_count in
  let* t := in_heap (pa_malloc page_count 3) in
  let base := t + sizeof_thread in
  let sp := base + (ti_stack_size info - 1) * 4 in
  let* sp := in_heap (pa_in_mem (stack_setup sp (ti_thread info) (ti_arg info))) in
  in_dl (put_node (rq_node t) (DNode null null t)) ;;
  in_dl (put_node (thread_node t) (DNode null null t)) ;;
  let* len := of_option (name_length (ti_name info)) in
  let* new_tid := gets next_tid in
  let x := Thread sp base null (ti_class info) (take THREAD_MAX_NAME_LEN (ti_name info)) (u8 len)
             0 0 0 new_tid 0 (ti_code_addr info) in
  modify (λ s, with_tcbs (<[t := x]> (tcbs s)) s) ;;
  enqueue (class_of (ti_class info)) t ;;
  in_dl (dlist_insert_first (thread_node t) threads) ;;
  modify (with_tid (u32 (new_tid + 1))) ;;
  resume_scheduler ;;
  ret new_tid.

Definition thread_sleep (fuel : nat) (ms : Z) : M sched unit :=
  let* curr := gets curr_thread in
  let* now := get_kernel_tick in
  upd_tcb curr (set_tick_to_wake (u64 (now + u64 (ms * SYSTICK_RVR)))) ;;
  scheduler_enqueue_delay fuel curr ;;
  reschedule.

Definition thread_block (fuel : nat) (tid_ : Z) : M sched unit :=
  let* th := get_thread fuel tid_ in scheduler_block_thread th.
Definition thread_unblock (fuel : nat) (tid_ : Z) : M sched unit :=
  let* th := get_thread fuel tid_ in scheduler_unblock_thread th.

Definition kill_thread (fuel : nat) (tid_ : Z) : M sched unit :=
  suspend_scheduler ;;
  let* th := get_thread fuel tid_ in
  (if negb (th =? null) then upd_tcb th (set_exit_pending 1) else ret tt) ;;
  resume_scheduler.

(** [scheduler_start]; [idle_thread] is the address of the idle function. *)
Definition scheduler_start (fuel : nat) (idle_thread : Z) : M sched unit :=
  emit EvPriorities ;;
  modify (with_status 1) ;;
  modify (with_wake 0) ;;
  let* idle_tid := new_thread (ThreadInfo [73; 100; 108; 101; 0] 100 idle_thread null IDLE 0) in
  let* i := get_thread fuel idle_tid in
  modify (with_idle i) ;;
  let* next := core_scheduler in
  modify (with_next next) ;;
  modify (with_curr next) ;;
  let* i := gets idle in
  if i =? null then panic "Idle not present" else
  emit EvIrqOff ;;
  emit (EvSetRvr SYSTICK_RVR) ;;
  emit EvSystickEnable ;;
  emit EvRun.
End Sched.
