(* ===== verification/SchedSpec.v ===== *)
(** * The scheduler's queues

    [srep] relates a scheduler state to the sequences of threads in its queues
    and its thread list; the list operations of the scheduler act on these
    sequences.  [rq_list_of] is the consistency of the control blocks with the queues
    a thread is in. *)

From stdpp Require Import functions sorting.
From S2P Require Import Prelude Memory Dlist DlistTheorems Mm Palloc Sched.

Inductive qid := QRt | QApp | QBg | QSleep | QBlocked.

#[export] Instance qid_eq_dec : EqDecision qid.
Proof. solve_decision. Defined.

Abbreviation queues := (qid → list Z).

Section SchedSpec.
Context {H : Type} `{PageAlloc H}.
Context (cpu_rq : Z).

#[local] Notation sched := (@Sched.sched H).

Definition qaddr (q : qid) : Z :=
  match q with
  | QRt => rt_rq cpu_rq
  | QApp => app_rq cpu_rq
  | QBg => background_rq cpu_rq
  | QSleep => sleep_q cpu_rq
  | QBlocked => blocked_q cpu_rq
  end.

Lemma qaddr_inj q q' : qaddr q = qaddr q' → q = q'.
Proof.
  destruct q, q'; cbn; unfold rt_rq, app_rq, background_rq, sleep_q, blocked_q; lia || done.
Qed.
Lemma qaddr_threads q : qaddr q ≠ threads cpu_rq.
Proof.
  destruct q; cbn; unfold rt_rq, app_rq, background_rq, sleep_q, blocked_q, threads; lia.
Qed.

Definition queued (Q : queues) (t : Z) : Prop := ∃ q, t ∈ Q q.

Record srep (s : sched) (Q : queues) (T : list Z) : Prop := {
  sr_drep : ∃ L O, drep L O (dl s) ∧
    (∀ q, L !! qaddr q = Some (map rq_node (Q q))) ∧
    L !! threads cpu_rq = Some (map thread_node T) ∧
    (∀ l xs, L !! l = Some xs → l = threads cpu_rq ∨ ∃ q, l = qaddr q) ∧
    (∀ t, is_Some (tcbs s !! t) → O !! rq_node t = Some t ∧ O !! thread_node t = Some t);
  sr_align : ∀ t, is_Some (tcbs s !! t) → t mod 8 = 0 ∧ 0 < t;
  sr_threads : ∀ t, t ∈ T ↔ is_Some (tcbs s !! t);
  sr_queued : ∀ t, queued Q t → is_Some (tcbs s !! t);
  sr_len : Z.of_nat (length T) < 4294967290
}.

Lemma rq_node_inj t t' : rq_node t = rq_node t' → t = t'.
Proof. unfold rq_node. lia. Qed.
Lemma thread_node_inj t t' : thread_node t = thread_node t' → t = t'.
Proof. unfold thread_node. lia. Qed.

#[local] Instance rq_node_Inj : Inj (=) (=) rq_node.
Proof. intros t t'. apply rq_node_inj. Qed.
#[local] Instance thread_node_Inj : Inj (=) (=) thread_node.
Proof. intros t t'. apply thread_node_inj. Qed.

Lemma in_map_rq t l : rq_node t ∈ map rq_node l ↔ t ∈ l.
Proof. apply (list_elem_of_fmap_inj rq_node). Qed.

(** A thread is in at most one queue, once. *)
Lemma srep_NoDup s Q T q : srep s Q T → NoDup (Q q).
Proof.
  intros [(L & O & HR & HQ & _) _ _ _ _].
  eapply NoDup_fmap_1. exact (dr_nodup _ _ _ HR _ _ (HQ q)).
Qed.

Lemma srep_one s Q T q q' t : srep s Q T → t ∈ Q q → t ∈ Q q' → q = q'.
Proof.
  intros [(L & O & HR & HQ & _) _ _ _ _] Ht Ht'. apply qaddr_inj.
  eapply (dr_disj _ _ _ HR _ _ _ _ (rq_node t) (HQ q) (HQ q')); by apply in_map_rq.
Qed.

Lemma srep_len s Q T q : srep s Q T → Z.of_nat (length (Q q)) < 4294967290.
Proof.
  intros HR. pose proof (srep_NoDup _ _ _ q HR) as Hnd. destruct HR as [_ _ HT HQ Hl].
  assert (length (Q q) ≤ length T)%nat; [|lia].
  apply submseteq_length, NoDup_submseteq; [done|].
  intros t Ht. apply HT, HQ. by exists q.
Qed.

Lemma srep_unlinked (s : sched) Q T L O t :
  drep L O (dl s) → (∀ q, L !! qaddr q = Some (map rq_node (Q q))) →
  L !! threads cpu_rq = Some (map thread_node T) →
  (∀ l xs, L !! l = Some xs → l = threads cpu_rq ∨ ∃ q, l = qaddr q) →
  (∀ t, t ∈ T → t mod 8 = 0) → t mod 8 = 0 → ¬ queued Q t → unlinked L (rq_node t).
Proof.
  intros _ HQ HT HL Ha Ht Hq l xs Hl Hin. destruct (HL _ _ Hl) as [->|[q ->]].
  - rewrite HT in Hl. injection Hl as <-. apply list_elem_of_fmap in Hin as (t' & E & Ht').
    apply Ha in Ht'. unfold rq_node, thread_node in E. lia.
  - rewrite HQ in Hl. injection Hl as <-. apply Hq. exists q. by apply in_map_rq.
Qed.

(** Only the lists and the set of threads matter to [srep]. *)
Lemma srep_ext (s s' : sched) Q T :
  dl s' = dl s → (∀ t, is_Some (tcbs s' !! t) ↔ is_Some (tcbs s !! t)) →
  srep s Q T → srep s' Q T.
Proof.
  intros Ed Et [(L & O & HR & HQ & HT & HL & HO) Ha Hth Hq Hl]. constructor.
  - exists L, O. rewrite Ed. split_and!; try done. intros t Ht. by apply HO, Et.
  - intros t Ht. by apply Ha, Et.
  - intros t. rewrite Et. apply Hth.
  - intros t Ht. apply Et. by apply Hq.
  - done.
Qed.

(** ** The list operations on queues *)

(** Everything a change of queue [q] needs. *)
Lemma srep_open (s : sched) Q T q :
  srep s Q T →
  ∃ L O, drep L O (dl s) ∧ L !! qaddr q = Some (map rq_node (Q q)) ∧
    (∀ t, is_Some (tcbs s !! t) → O !! rq_node t = Some t) ∧
    (∀ t, is_Some (tcbs s !! t) → ¬ queued Q t → unlinked L (rq_node t)) ∧
    ∀ d' l', drep (<[qaddr q := map rq_node l']> L) O d' →
      (∀ t, t ∈ l' → is_Some (tcbs s !! t)) → srep (with_dl d' s) (<[q := l']> Q) T.
Proof.
  intros [(L & O & HR & HQ & HT & HL & HO) Ha Hth Hq Hlen].
  exists L, O. split_and!; [done|done|by intros t Ht; apply HO| |].
  - intros t Ht Hnq. eapply srep_unlinked; try done; [|by apply Ha].
    intros t' Ht'. apply Ha. by apply Hth.
  - intros d' l' HR' Hl'. constructor; [|done|done| |done].
    + exists (<[qaddr q := map rq_node l']> L), O. split_and!; [done| | | |done].
      * intros q'. destruct (decide (q = q')) as [<-|Hne].
        { by rewrite fn_lookup_insert, lookup_insert_eq. }
        rewrite fn_lookup_insert_ne, lookup_insert_ne; [done| |done].
        intros E. by apply qaddr_inj in E.
      * rewrite lookup_insert_ne; [done|]. apply qaddr_threads.
      * intros l xs [[<- _]|[_ Hl]]%lookup_insert_Some; [right; by exists q|by eapply HL].
    + intros t [q' Ht]. destruct (decide (q = q')) as [<-|Hne].
      { rewrite fn_lookup_insert in Ht. by apply Hl'. }
      rewrite fn_lookup_insert_ne in Ht by done. apply Hq. by exists q'.
Qed.

Lemma with_dl_with_dl d d' (s : sched) : with_dl d' (with_dl d s) = with_dl d' s.
Proof. done. Qed.
Lemma with_dl_dl (s : sched) : with_dl (dl s) s = s.
Proof. by destruct s. Qed.

Lemma bind_in_dl {A B} (c : M dstore A) (k : A → M sched B) s a d' :
  c (dl s) = Ret (a, d') → bind (in_dl c) k s = k a (with_dl d' s).
Proof. intros E. unfold bind, in_dl, zoom. by rewrite E. Qed.

Lemma in_dl_Ret {A} (c : M dstore A) (s : sched) a d' :
  c (dl s) = Ret (a, d') → in_dl c s = Ret (a, with_dl d' s).
Proof. intros E. unfold in_dl, zoom. by rewrite E. Qed.

Lemma bind_get_tcb {B} t (k : thread → M sched B) s x :
  tcbs s !! t = Some x → bind (get_tcb t) k s = k x s.
Proof. intros E. unfold bind, get_tcb. by rewrite E. Qed.

Lemma bind_upd_tcb {B} t f (k : unit → M sched B) s x :
  tcbs s !! t = Some x → bind (upd_tcb t f) k s = k tt (with_tcbs (<[t := f x]> (tcbs s)) s).
Proof. intros E. unfold upd_tcb, bind, get_tcb. by rewrite E. Qed.

Lemma upd_tcb_Ret t f (s : sched) x :
  tcbs s !! t = Some x → upd_tcb t f s = Ret (tt, with_tcbs (<[t := f x]> (tcbs s)) s).
Proof. intros E. unfold upd_tcb, bind, get_tcb. by rewrite E. Qed.

Lemma bind_gets {S B A} (f : S → A) (k : A → M S B) s : bind (gets f) k s = k (f s) s.
Proof. done. Qed.
Lemma bind_modify {S B} (f : S → S) (k : unit → M S B) s : bind (modify f) k s = k tt (f s).
Proof. done. Qed.

Section Queue.
Context (s : sched) (Q : queues) (T : list Z) (q : qid).
Hypothesis HR : srep s Q T.

(** The head of a queue as the code reads it. *)
Lemma q_head :
  ∃ l, lists (dl s) !! qaddr q = Some l ∧ first l = hd null (map rq_node (Q q)) ∧
       (first l =? null) = match Q q with [] => true | _ => false end.
Proof.
  destruct (srep_open _ _ _ q HR) as (L & O & HD & Hq & _).
  pose proof (dr_lists _ _ _ HD _ _ Hq) as Hl. exists (head_of (map rq_node (Q q))).
  split_and!; [done|done|]. cbn. pose proof (rep_hd _ _ _ HD _ _ Hq) as Hh.
  destruct (Q q) as [|t r]; [done|]. cbn in *. apply eqb_false. intros E. by apply Hh in E.
Qed.

(** The node of a queued thread. *)
Lemma q_node a t b :
  Q q = a ++ t :: b →
  nodes (dl s) !! rq_node t = Some (DNode (lastd null (map rq_node a)) (hd null (map rq_node b)) t) ∧
  rq_node t ≠ null ∧ is_Some (tcbs s !! t).
Proof.
  intros E. destruct (srep_open _ _ _ q HR) as (L & O & HD & Hq & HO & _).
  assert (is_Some (tcbs s !! t)) as Ht by (apply (sr_queued _ _ _ HR); exists q; rewrite E; set_solver).
  pose proof (dr_chain _ _ _ HD _ _ Hq) as Hc. rewrite E, map_app in Hc. cbn in Hc.
  apply dseg_mid in Hc as (_ & [o Ho] & _). pose proof (dr_obj _ _ _ HD (rq_node t)) as Eo.
  rewrite Ho, (HO t Ht) in Eo. injection Eo as ->. split_and!; [done| |done].
  apply (rep_in _ _ _ HD _ _ (rq_node t) Hq). apply in_map_rq. rewrite E. set_solver.
Qed.

Lemma q_insert_last t :
  is_Some (tcbs s !! t) → ¬ queued Q t →
  ∃ d', dlist_insert_last (rq_node t) (qaddr q) (dl s) = Ret (tt, d') ∧
        srep (with_dl d' s) (<[q := Q q ++ [t]]> Q) T.
Proof.
  intros Ht Hnq. destruct (srep_open _ _ _ q HR) as (L & O & HD & Hq & HO & HU & Hup).
  pose proof (srep_len _ _ _ q HR).
  destruct (insert_last_spec _ _ _ _ _ _ _ HD Hq (HO t Ht) (HU t Ht Hnq)) as (d' & E & HD').
  { rewrite length_map. lia. }
  exists d'. split; [done|]. apply Hup; [by rewrite map_app|].
  intros t' [Ht'| ->%list_elem_of_singleton]%elem_of_app; [|done].
  apply (sr_queued _ _ _ HR). by exists q.
Qed.

Lemma q_insert_first t :
  is_Some (tcbs s !! t) → ¬ queued Q t →
  ∃ d', dlist_insert_first (rq_node t) (qaddr q) (dl s) = Ret (tt, d') ∧
        srep (with_dl d' s) (<[q := t :: Q q]> Q) T.
Proof.
  intros Ht Hnq. destruct (srep_open _ _ _ q HR) as (L & O & HD & Hq & HO & HU & Hup).
  pose proof (srep_len _ _ _ q HR).
  destruct (insert_first_spec _ _ _ _ _ _ _ HD Hq (HO t Ht) (HU t Ht Hnq)) as (d' & E & HD').
  { rewrite length_map. lia. }
  exists d'. split; [done|]. apply Hup; [done|].
  intros t' [->|Ht']%elem_of_cons; [done|]. apply (sr_queued _ _ _ HR). by exists q.
Qed.

Lemma q_insert_before t a b c :
  is_Some (tcbs s !! t) → ¬ queued Q t → Q q = a ++ b :: c →
  ∃ d', dlist_insert_before (rq_node t) (rq_node b) (qaddr q) (dl s) = Ret (tt, d') ∧
        srep (with_dl d' s) (<[q := a ++ t :: b :: c]> Q) T.
Proof.
  intros Ht Hnq Eq. destruct (srep_open _ _ _ q HR) as (L & O & HD & Hq & HO & HU & Hup).
  pose proof (srep_len _ _ _ q HR) as Hlen. rewrite Eq, map_app in Hq. cbn in Hq.
  destruct (insert_before_spec _ _ _ _ _ _ _ _ _ HD Hq (HO t Ht) (HU t Ht Hnq)) as (d' & E & HD').
  { rewrite Eq, length_app in Hlen. rewrite length_app, !length_map in *. cbn in *.
    rewrite length_map. lia. }
  exists d'. split; [done|]. apply Hup; [by rewrite map_app|].
  intros t' Ht'. destruct (decide (t' = t)) as [->|]; [done|].
  apply (sr_queued _ _ _ HR). exists q. rewrite Eq. set_solver.
Qed.

Lemma q_remove_first t r :
  Q q = t :: r →
  ∃ d', dlist_remove_first (qaddr q) (dl s) = Ret (rq_node t, d') ∧
        srep (with_dl d' s) (<[q := r]> Q) T.
Proof.
  intros Eq. destruct (srep_open _ _ _ q HR) as (L & O & HD & Hq & _ & _ & Hup).
  rewrite Eq in Hq. cbn in Hq.
  destruct (remove_first_spec _ _ _ _ _ _ HD Hq) as (d' & E & HD').
  exists d'. split; [done|]. apply Hup; [done|].
  intros t' Ht'. apply (sr_queued _ _ _ HR). exists q. rewrite Eq. by right.
Qed.

Lemma q_remove a t b :
  Q q = a ++ t :: b →
  ∃ d', dlist_remove (rq_node t) (qaddr q) (dl s) = Ret (rq_node t, d') ∧
        srep (with_dl d' s) (<[q := a ++ b]> Q) T.
Proof.
  intros Eq. destruct (srep_open _ _ _ q HR) as (L & O & HD & Hq & _ & _ & Hup).
  rewrite Eq, map_app in Hq. cbn in Hq.
  destruct (remove_spec _ _ _ _ _ _ _ HD Hq) as (d' & E & HD').
  exists d'. split; [done|]. apply Hup; [by rewrite map_app|].
  intros t' Ht'. apply (sr_queued _ _ _ HR). exists q. rewrite Eq. set_solver.
Qed.
End Queue.

Lemma srep_tcb (s : sched) Q T t x f :
  srep s Q T → tcbs s !! t = Some x → srep (with_tcbs (<[t := f x]> (tcbs s)) s) Q T.
Proof.
  intros HR Ht. eapply srep_ext; [| |exact HR]; [done|]. intros t'. cbn.
  destruct (decide (t = t')) as [<-|Hne].
  - rewrite lookup_insert_eq, Ht. split; intros _; by eexists.
  - by rewrite lookup_insert_ne.
Qed.

(** ** The scheduling classes *)

Definition class_queue (c : sched_class) : option qid :=
  match c with
  | REAL_TIME => Some QRt
  | APPLICATION => Some QApp
  | BACKGROUND => Some QBg
  | IDLE => None
  end.

(** The state after [class->enqueue] with [d] for its lists. *)
Definition enqueued (c : sched_class) (t : Z) (x : thread) (d : dstore) (s : sched) : sched :=
  match c with
  | REAL_TIME => with_tcbs (<[t := set_rq_list (rt_rq cpu_rq) x]> (tcbs s)) (with_dl d s)
  | IDLE => with_idle t s
  | _ => with_dl d s
  end.

Definition enqueue_q (c : sched_class) (t : Z) (Q : queues) : queues :=
  match class_queue c with Some q => <[q := Q q ++ [t]]> Q | None => Q end.

Lemma enqueue_spec (s : sched) Q T c t x :
  srep s Q T → tcbs s !! t = Some x → ¬ queued Q t →
  ∃ d, enqueue (class_of cpu_rq c) t s = Ret (tt, enqueued c t x d s) ∧
       srep (enqueued c t x d s) (enqueue_q c t Q) T.
Proof.
  intros HR Ht Hq. assert (is_Some (tcbs s !! t)) as Ht' by (by eexists).
  destruct c; cbn.
  - destruct (q_insert_last s Q T QRt HR t Ht' Hq) as (d & E & HR').
    exists d. unfold rt_enqueue. cbn in E. rewrite (bind_in_dl _ _ _ _ _ E).
    rewrite (upd_tcb_Ret _ _ _ x) by done. split; [done|]. by apply (srep_tcb (with_dl d s)).
  - destruct (q_insert_last s Q T QApp HR t Ht' Hq) as (d & E & HR').
    exists d. split; [|done]. by apply in_dl_Ret.
  - destruct (q_insert_last s Q T QBg HR t Ht' Hq) as (d & E & HR').
    exists d. split; [|done]. by apply in_dl_Ret.
  - exists (dl s). split; [done|]. by eapply srep_ext; [| |exact HR].
Qed.

(** [pick_thread] of the three queue classes. *)
Definition picked (c : sched_class) (t : Z) (x : thread) (d : dstore) (s : sched) : sched :=
  match c with
  | REAL_TIME => with_tcbs (<[t := set_rq_list null x]> (tcbs s)) (with_dl d s)
  | _ => with_dl d s
  end.

Lemma pick_spec (s : sched) Q T c q :
  srep s Q T → class_queue c = Some q →
  match Q q with
  | [] => pick_thread (class_of cpu_rq c) s = Ret (null, s)
  | t :: r => t ≠ null ∧ ∃ d x, tcbs s !! t = Some x ∧
      pick_thread (class_of cpu_rq c) s = Ret (t, picked c t x d s) ∧
      srep (picked c t x d s) (<[q := r]> Q) T
  end.
Proof.
  intros HR Hc. destruct (q_head _ _ _ q HR) as (l & Hl & Hf & Hn).
  assert (get_list (qaddr q) (dl s) = Ret (l, dl s)) as Eg by (unfold get_list; by rewrite Hl).
  destruct (Q q) as [|t r] eqn:Eq.
  - destruct c; cbn in Hc; simplify_eq; cbn;
      unfold app_pick_thread, background_pick_thread, rt_pick_thread;
      rewrite (bind_in_dl _ _ _ _ _ Eg), Hn, with_dl_dl; done.
  - destruct (q_node _ _ _ q HR [] t r Eq) as (Hnode & Hn0 & [x Hx]).
    assert (t ≠ null) by (intros ->; unfold rq_node in *;
      destruct (sr_align _ _ _ HR null ltac:(by eexists)); unfold null in *; lia).
    split; [done|]. destruct (q_remove_first _ _ _ q HR t r Eq) as (d & E & HR').
    exists d, x. split; [done|].
    assert (∃ n, nodes d !! rq_node t = Some n ∧ obj n = t) as (n & Hnd & Ho).
    { destruct HR' as [(L' & O' & HD' & _ & _ & _ & HO') _ _ _ _]. cbn in *.
      destruct (HO' t) as [Ht' _]; [by eexists|].
      destruct (rep_node _ _ _ HD' _ _ Ht') as (n & ? & ? & _). by exists n. }
    destruct c; cbn in Hc; simplify_eq; cbn;
      unfold app_pick_thread, background_pick_thread, rt_pick_thread;
      rewrite (bind_in_dl _ _ _ _ _ Eg), Hn, with_dl_dl; cbn in E; rewrite (bind_in_dl _ _ _ _ _ E);
      (erewrite bind_in_dl; [|unfold get_node; cbn; rewrite Hnd; reflexivity]);
      cbn; rewrite ?Ho; try done.
    rewrite (bind_upd_tcb _ _ _ _ x) by done. split; [done|]. by apply (srep_tcb (with_dl d s)).
Qed.

(** The thread [core_scheduler] gives the processor to. *)
Definition next_class_of (Q : queues) : sched_class :=
  match Q QRt, Q QApp, Q QBg with
  | _ :: _, _, _ => REAL_TIME
  | [], _ :: _, _ => APPLICATION
  | [], [], _ :: _ => BACKGROUND
  | [], [], [] => IDLE
  end.

Lemma core_scheduler_spec (s : sched) Q T :
  srep s Q T →
  match class_queue (next_class_of Q) with
  | Some q => ∃ t r d x, Q q = t :: r ∧ tcbs s !! t = Some x ∧
      core_scheduler cpu_rq s = Ret (t, picked (next_class_of Q) t x d s) ∧
      srep (picked (next_class_of Q) t x d s) (<[q := r]> Q) T
  | None =>
      core_scheduler cpu_rq s = if idle s =? null then Panic "Core scheduler error" else Ret (idle s, s)
  end.
Proof.
  intros HR. unfold next_class_of, core_scheduler.
  pose proof (pick_spec s Q T REAL_TIME QRt HR eq_refl) as P1.
  pose proof (pick_spec s Q T APPLICATION QApp HR eq_refl) as P2.
  pose proof (pick_spec s Q T BACKGROUND QBg HR eq_refl) as P3.
  cbn [core_loop]. destruct (Q QRt) as [|t r] eqn:E1.
  2: { destruct P1 as (Hn & d & x & Hx & E & HR'). cbn [class_queue]. exists t, r, d, x.
       rewrite (bind_Ret _ _ _ _ _ E), eqb_false by done. done. }
  rewrite (bind_Ret _ _ _ _ _ P1). cbn [negb Z.eqb null]. cbn [next_class class_of rt_class].
  destruct (Q QApp) as [|t r] eqn:E2.
  2: { destruct P2 as (Hn & d & x & Hx & E & HR'). cbn [class_queue]. exists t, r, d, x.
       rewrite (bind_Ret _ _ _ _ _ E), eqb_false by done. done. }
  rewrite (bind_Ret _ _ _ _ _ P2). cbn [negb Z.eqb null]. cbn [next_class class_of app_class].
  destruct (Q QBg) as [|t r] eqn:E3.
  2: { destruct P3 as (Hn & d & x & Hx & E & HR'). cbn [class_queue]. exists t, r, d, x.
       rewrite (bind_Ret _ _ _ _ _ E), eqb_false by done. done. }
  rewrite (bind_Ret _ _ _ _ _ P3). cbn. unfold idle_pick_thread, bind, gets.
  destruct (idle s =? null); done.
Qed.

(** ** The sleep queue *)

Definition wake_of (s : sched) (t : Z) : Z :=
  match tcbs s !! t with Some x => tick_to_wake x | None => 0 end.
Definition head_wake (s : sched) (l : list Z) : Z :=
  match l with [] => 0 | t :: _ => wake_of s t end.

(** Insertion by wake-up time, after the threads with the same time. *)
Fixpoint delay_insert (w : Z → Z) (t : Z) (l : list Z) : list Z :=
  match l with
  | [] => [t]
  | y :: l' => if w t <? w y then t :: l else y :: delay_insert w t l'
  end.

Lemma elem_of_delay_insert w t l x : x ∈ delay_insert w t l ↔ x = t ∨ x ∈ l.
Proof.
  induction l as [|y l IH]; cbn; [set_solver|].
  destruct (w t <? w y); rewrite ?elem_of_cons, ?IH; tauto.
Qed.

Lemma delay_insert_sorted w t l :
  StronglySorted (λ a b, w a ≤ w b) l → StronglySorted (λ a b, w a ≤ w b) (delay_insert w t l).
Proof.
  induction 1 as [|y l Hs IH Hy]; cbn; [by repeat constructor|].
  destruct (Z.ltb_spec (w t) (w y)).
  - constructor; [by constructor|]. constructor; [lia|].
    eapply Forall_impl; [exact Hy|]. cbn. lia.
  - constructor; [done|]. apply Forall_forall. intros x [->|Hx]%elem_of_delay_insert; [lia|].
    rewrite Forall_forall in Hy. by apply Hy.
Qed.

Lemma bind_get_node_q {B} (s : sched) Q T q a t b (k : dlist_node → M sched B) :
  srep s Q T → Q q = a ++ t :: b →
  bind (in_dl (get_node (rq_node t))) k s =
  k (DNode (lastd null (map rq_node a)) (hd null (map rq_node b)) t) s.
Proof.
  intros HR E. destruct (q_node _ _ _ q HR a t b E) as (Hn & _).
  erewrite bind_in_dl; [|unfold get_node; rewrite Hn; reflexivity]. by rewrite with_dl_dl.
Qed.

Lemma bind_get_head (s : sched) Q T q :
  srep s Q T →
  ∃ l, (∀ B (k : dlist → M sched B), bind (in_dl (get_list (qaddr q))) k s = k l s) ∧ first l = hd null (map rq_node (Q q)) ∧
       (first l =? null) = match Q q with [] => true | _ => false end.
Proof.
  intros HR. destruct (q_head _ _ _ q HR) as (l & Hl & Hf & Hn). exists l. split; [|done].
  intros B k. erewrite bind_in_dl; [|unfold get_list; rewrite Hl; reflexivity]. by rewrite with_dl_dl.
Qed.

Lemma wake_of_tcb (s : sched) t x : tcbs s !! t = Some x → tick_to_wake x = wake_of s t.
Proof. unfold wake_of. by intros ->. Qed.

Lemma delay_loop_spec fuel (s : sched) Q T t a b :
  srep s Q T → is_Some (tcbs s !! t) → ¬ queued Q t → Q QSleep = a ++ b → (length b < fuel)%nat →
  (∃ b1 y b2 d, delay_insert (wake_of s) t b = b1 ++ t :: y :: b2 ∧ rq_node y ≠ null ∧
     delay_loop cpu_rq fuel t (hd null (map rq_node b)) s = Ret (rq_node y, with_dl d s) ∧
     srep (with_dl d s) (<[QSleep := a ++ delay_insert (wake_of s) t b]> Q) T) ∨
  (delay_insert (wake_of s) t b = b ++ [t] ∧
   delay_loop cpu_rq fuel t (hd null (map rq_node b)) s = Ret (null, s)).
Proof.
  intros HR Ht Hq. revert a fuel; induction b as [|y b IH]; intros a [|fuel] E Hf; try (cbn in Hf; lia).
  { by right. }
  destruct (q_node _ _ _ QSleep HR a y b E) as (_ & Hn0 & [yx Hy]). destruct Ht as [x Hx].
  cbn [delay_loop map hd delay_insert]. rewrite eqb_false by done. cbn [negb].
  rewrite (bind_get_node_q _ _ _ _ _ _ _ _ HR E). cbn [obj next].
  rewrite (bind_get_tcb _ _ _ _ Hy), (bind_get_tcb _ _ _ _ Hx).
  rewrite (wake_of_tcb _ _ _ Hx), (wake_of_tcb _ _ _ Hy).
  destruct (wake_of s t <? wake_of s y) eqn:Ew.
  - left. destruct (q_insert_before _ _ _ QSleep HR t a y b ltac:(by eexists) Hq E) as (d & Ed & HR').
    exists [], y, b, d. split_and!; [done|done| |done]. cbn in Ed. by rewrite (bind_in_dl _ _ _ _ _ Ed).
  - destruct (IH (a ++ [y]) fuel) as [(b1 & z & b2 & d & Ei & Hz & El & HR')|[Ei El]].
    + by rewrite <- app_assoc.
    + cbn in Hf. lia.
    + left. exists (y :: b1), z, b2, d. rewrite Ei. split_and!; [done|done|done|].
      rewrite <- app_assoc in HR'. cbn in HR'. by rewrite Ei in HR'.
    + right. by rewrite Ei.
Qed.

Lemma tick_to_wake_update_spec (s : sched) Q T :
  srep s Q T → tick_to_wake_update cpu_rq s = Ret (tt, with_wake (head_wake s (Q QSleep)) s).
Proof.
  intros HR. unfold tick_to_wake_update.
  destruct (bind_get_head s Q T QSleep HR) as (l & E & Hf & Hn). cbn [qaddr] in E.
  rewrite E. clear E. rewrite Hn. destruct (Q QSleep) as [|t r] eqn:Eq; [done|]. cbn [negb].
  destruct (q_node _ _ _ QSleep HR [] t r Eq) as (_ & _ & [x Hx]).
  rewrite Hf. cbn [map hd]. rewrite (bind_get_node_q _ _ _ QSleep [] t r _ HR Eq). cbn [obj].
  rewrite (bind_get_tcb _ _ _ _ Hx). unfold modify. by rewrite (wake_of_tcb _ _ _ Hx).
Qed.

(** The state after [scheduler_enqueue_delay]. *)
Definition delayed (t : Z) (x : thread) (d : dstore) (l : list Z) (s : sched) : sched :=
  let s1 := with_tcbs (<[t := set_rq_list (sleep_q cpu_rq) x]> (tcbs s)) (with_dl d s) in
  with_wake (head_wake s l) s1.

Lemma wake_of_tcb_update (s : sched) t x f t' :
  tcbs s !! t = Some x → tick_to_wake (f x) = tick_to_wake x →
  wake_of (with_tcbs (<[t := f x]> (tcbs s)) s) t' = wake_of s t'.
Proof.
  intros Hx Hf. unfold wake_of. cbn. destruct (decide (t = t')) as [<-|Hne].
  - by rewrite lookup_insert_eq, Hx.
  - by rewrite lookup_insert_ne.
Qed.

Lemma enqueue_delay_spec fuel (s : sched) Q T t x :
  srep s Q T → tcbs s !! t = Some x → ¬ queued Q t → (length (Q QSleep) < fuel)%nat →
  ∃ d, let l := delay_insert (wake_of s) t (Q QSleep) in
    scheduler_enqueue_delay cpu_rq fuel t s = Ret (tt, delayed t x d l s) ∧
    srep (delayed t x d l s) (<[QSleep := l]> Q) T.
Proof.
  intros HR Hx Hq Hf. assert (is_Some (tcbs s !! t)) as Ht by (by eexists).
  set (l := delay_insert (wake_of s) t (Q QSleep)).
  assert (∃ d, srep (with_dl d s) (<[QSleep := l]> Q) T ∧ ∀ k : unit → M sched unit,
    (let* l0 := in_dl (get_list (sleep_q cpu_rq)) in
     (if first l0 =? null then in_dl (dlist_insert_first (rq_node t) (sleep_q cpu_rq))
      else let* iter := delay_loop cpu_rq fuel t (first l0) in
           if iter =? null then in_dl (dlist_insert_last (rq_node t) (sleep_q cpu_rq)) else ret tt) ;;
     k tt) s = k tt (with_dl d s)) as (d & HR' & Hrun).
  { destruct (Q QSleep) as [|y r] eqn:Eq.
    - destruct (q_insert_first _ _ _ QSleep HR t Ht Hq) as (d & E & HR'). rewrite Eq in HR'.
      exists d. split; [done|]. intros k.
      destruct (bind_get_head s Q T QSleep HR) as (l0 & El & Hf0 & Hn). cbn [qaddr] in El.
      rewrite El, Hn, Eq. by rewrite (bind_in_dl _ _ _ _ _ E).
    - destruct (delay_loop_spec fuel s Q T t [] (y :: r) HR Ht Hq Eq Hf)
        as [(b1 & z & b2 & d & Ei & Hz & El & HR')|[Ei El]].
      + exists d. split; [done|]. intros k.
        destruct (bind_get_head s Q T QSleep HR) as (l0 & El0 & Hf0 & Hn). cbn [qaddr] in El0.
        rewrite El0, Hn, Eq, bind_bind, Hf0, Eq. rewrite (bind_Ret _ _ _ _ _ El).
        by rewrite eqb_false.
      + destruct (q_insert_last _ _ _ QSleep HR t Ht Hq) as (d & E & HR'). rewrite Eq in HR'.
        exists d. unfold l. rewrite Ei. split; [done|]. intros k.
        destruct (bind_get_head s Q T QSleep HR) as (l0 & El0 & Hf0 & Hn). cbn [qaddr] in El0.
        rewrite El0, Hn, Eq, bind_bind, Hf0, Eq. rewrite (bind_Ret _ _ _ _ _ El).
        by rewrite (bind_in_dl _ _ _ _ _ E). }
  exists d. cbv zeta. unfold scheduler_enqueue_delay. rewrite (Hrun (λ _, _)). clear Hrun.
  rewrite (bind_upd_tcb _ _ _ _ x) by done.
  pose proof (srep_tcb (with_dl d s) _ T t x (set_rq_list (sleep_q cpu_rq)) HR' Hx) as HR2.
  rewrite (tick_to_wake_update_spec _ _ _ HR2). rewrite fn_lookup_insert. split.
  - do 2 f_equal. unfold delayed. f_equal. destruct l as [|y r]; [done|].
    by apply (wake_of_tcb_update (with_dl d s)).
  - by eapply srep_ext; [| |exact HR2].
Qed.

(** The node of a thread in no queue is unlinked. *)
Lemma bind_get_node_free {B} (s : sched) Q T t (k : dlist_node → M sched B) :
  srep s Q T → is_Some (tcbs s !! t) → ¬ queued Q t →
  bind (in_dl (get_node (rq_node t))) k s = k (DNode null null t) s.
Proof.
  intros HR Ht Hq. destruct (srep_open _ _ _ QRt HR) as (L & O & HD & _ & HO & HU & _).
  destruct (rep_unlinked _ _ _ HD _ _ (HO t Ht) (HU t Ht Hq)) as [Hn _].
  erewrite bind_in_dl; [|unfold get_node; rewrite Hn; reflexivity]. by rewrite with_dl_dl.
Qed.

Lemma queued_insert (Q : queues) q l t :
  queued (<[q := l]> Q) t → t ∈ l ∨ ∃ q', q' ≠ q ∧ t ∈ Q q'.
Proof.
  intros [q' Ht]. destruct (decide (q = q')) as [<-|Hne].
  - rewrite fn_lookup_insert in Ht. by left.
  - rewrite fn_lookup_insert_ne in Ht by done. right. by exists q'.
Qed.

(** A thread taken out of its queue is in none. *)
Lemma dequeued (s : sched) Q T q a t b :
  srep s Q T → Q q = a ++ t :: b → ¬ queued (<[q := a ++ b]> Q) t.
Proof.
  intros HR E [Ht|(q' & Hne & Ht)]%queued_insert.
  - pose proof (srep_NoDup _ _ _ q HR) as Hnd. rewrite E in Hnd.
    apply NoDup_app in Hnd as (_ & Hd & [Hb _]%NoDup_cons). set_solver.
  - apply Hne. eapply srep_one; [exact HR|exact Ht|]. rewrite E. set_solver.
Qed.

(** A thread [x] leaving the sleep queue for the queue of its class. *)
Definition woken (t : Z) (x : thread) (d1 d2 : dstore) (s : sched) : sched :=
  let x1 := set_rq_list null x in
  let s1 := enqueued (class x) t x1 d2 (with_tcbs (<[t := x1]> (tcbs s)) (with_dl d1 s)) in
  let x2 := if decide (class x = REAL_TIME) then set_rq_list (rt_rq cpu_rq) x1 else x1 in
  with_tcbs (<[t := set_tick_to_wake 0 x2]> (tcbs s1)) s1.

(** The tail of the new queue of a woken thread. *)
Lemma woken_next (s : sched) Q T c t :
  srep s (enqueue_q c t Q) T → ¬ queued Q t → is_Some (tcbs s !! t) →
  ∃ n, next n = null ∧ ∀ B (k : dlist_node → M sched B),
    bind (in_dl (get_node (rq_node t))) k s = k n s.
Proof.
  unfold enqueue_q. intros HR Hq Ht. destruct (class_queue c) as [q|].
  - exists (DNode (lastd null (map rq_node (Q q))) null t). split; [done|].
    intros B k. rewrite (bind_get_node_q s _ T q (Q q) t [] k HR); [done|]. by rewrite fn_lookup_insert.
  - exists (DNode null null t). split; [done|]. intros B k. by eapply bind_get_node_free.
Qed.

(** The loop of [process_expired_delays] wakes the first thread if it has
    expired, and never a second one. *)
Lemma expired_loop_spec fuel (s : sched) Q T :
  srep s Q T → (2 ≤ fuel)%nat →
  match Q QSleep with
  | [] => expired_loop cpu_rq fuel (hd null (map rq_node (Q QSleep))) s = Ret (tt, s)
  | t :: r =>
      if wake_of s t <? tick s then
        ∃ x d1 d2, tcbs s !! t = Some x ∧
          expired_loop cpu_rq fuel (hd null (map rq_node (Q QSleep))) s = Ret (tt, woken t x d1 d2 s) ∧
          srep (woken t x d1 d2 s) (enqueue_q (class x) t (<[QSleep := r]> Q)) T
      else expired_loop cpu_rq fuel (hd null (map rq_node (Q QSleep))) s = Ret (tt, s)
  end.
Proof.
  intros HR Hf. destruct fuel as [|[|fuel]]; [lia..|]. destruct (Q QSleep) as [|t r] eqn:Eq; [done|].
  destruct (q_node _ _ _ QSleep HR [] t r Eq) as (_ & Hn0 & [x Hx]).
  cbn [map hd]. remember (S fuel) as f1 eqn:Ef1. cbn [expired_loop].
  rewrite eqb_false by done. cbn [negb].
  rewrite (bind_get_node_q _ _ _ QSleep [] t r _ HR Eq). cbn [obj].
  rewrite (bind_get_tcb _ _ _ _ Hx), bind_gets, (wake_of_tcb _ _ _ Hx).
  destruct (wake_of s t <? tick s) eqn:Ew; [|done].
  destruct (q_remove _ _ _ QSleep HR [] t r Eq) as (d1 & E1 & HR1). cbn [app] in HR1.
  pose proof (dequeued _ _ _ _ [] _ _ HR Eq) as Hq. cbn [app] in Hq.
  pose proof (srep_tcb (with_dl d1 s) _ T t x (set_rq_list null) HR1 Hx) as HR2.
  set (s2 := with_tcbs (<[t := set_rq_list null x]> (tcbs s)) (with_dl d1 s)) in *.
  assert (tcbs s2 !! t = Some (set_rq_list null x)) as Hx2 by apply lookup_insert_eq.
  destruct (enqueue_spec s2 _ T (class x) t _ HR2 Hx2 Hq) as (d2 & E2 & HR3).
  exists x, d1, d2. split; [done|]. cbn in E1.
  rewrite (bind_in_dl _ _ _ _ _ E1), (bind_upd_tcb _ _ _ _ x) by done.
  change (with_tcbs (<[t := set_rq_list null x]> (tcbs (with_dl d1 s))) (with_dl d1 s)) with s2.
  cbv zeta. rewrite (bind_get_tcb _ _ _ _ Hx2). cbn [class set_rq_list].
  rewrite (bind_Ret _ _ _ _ _ E2).
  set (x2 := if decide (class x = REAL_TIME) then set_rq_list (rt_rq cpu_rq) (set_rq_list null x)
             else set_rq_list null x).
  assert (tcbs (enqueued (class x) t (set_rq_list null x) d2 s2) !! t = Some x2) as Hx3.
  { unfold x2. destruct (class x); cbn; [apply lookup_insert_eq|done..]. }
  rewrite (bind_upd_tcb _ _ _ _ x2) by done.
  pose proof (srep_tcb _ _ T t x2 (set_tick_to_wake 0) HR3 Hx3) as HR4.
  change (with_tcbs (<[t := set_tick_to_wake 0 x2]> (tcbs (enqueued (class x) t (set_rq_list null x) d2 s2)))
    (enqueued (class x) t (set_rq_list null x) d2 s2)) with (woken t x d1 d2 s) in HR4 |- *.
  split; [|done]. subst f1.
  destruct (woken_next (woken t x d1 d2 s) _ T _ t HR4 Hq) as (n & Hn & Hrun).
  - apply (sr_threads _ _ _ HR4), (sr_threads _ _ _ HR). by eexists.
  - by rewrite Hrun, Hn.
Qed.

Definition expired (s : sched) : bool :=
  (rq_tick_to_wake s <=? tick s) && negb (rq_tick_to_wake s =? 0).

Lemma process_expired_spec fuel (s : sched) Q T :
  srep s Q T → (2 ≤ fuel)%nat →
  match Q QSleep with
  | t :: r =>
      if expired s then
        if wake_of s t <? tick s then
          ∃ x d1 d2, let s' := woken t x d1 d2 s in
            let Q' := enqueue_q (class x) t (<[QSleep := r]> Q) in tcbs s !! t = Some x ∧
            process_expired_delays cpu_rq fuel s = Ret (tt, with_wake (head_wake s' r) s') ∧
            srep (with_wake (head_wake s' r) s') Q' T
        else process_expired_delays cpu_rq fuel s = Ret (tt, with_wake (wake_of s t) s)
      else process_expired_delays cpu_rq fuel s = Ret (tt, s)
  | [] => process_expired_delays cpu_rq fuel s = Ret (tt, if expired s then with_wake 0 s else s)
  end.
Proof.
  intros HR Hf. unfold process_expired_delays. rewrite !bind_gets. fold (expired s).
  pose proof (expired_loop_spec fuel s Q T HR Hf) as Hl.
  destruct (bind_get_head s Q T QSleep HR) as (l & El & Hf0 & _). cbn [qaddr] in El.
  destruct (Q QSleep) as [|t r] eqn:Eq.
  - destruct (expired s); [|done]. rewrite El, Hf0. rewrite (bind_Ret _ _ _ _ _ Hl).
    rewrite (tick_to_wake_update_spec _ _ _ HR), ?Eq. done.
  - destruct (expired s); [|done]. rewrite El, Hf0, ?Eq.
    destruct (wake_of s t <? tick s).
    + destruct Hl as (x & d1 & d2 & Hx & E & HR'). exists x, d1, d2. cbv zeta.
      rewrite (bind_Ret _ _ _ _ _ E), (tick_to_wake_update_spec _ _ _ HR').
      replace (enqueue_q (class x) t (<[QSleep:=r]> Q) QSleep) with r.
      * split_and!; [done|done|]. by eapply srep_ext; [| |exact HR'].
      * unfold enqueue_q. destruct (class x); cbn; unfold insert, fn_insert; by repeat case_decide.
    + rewrite (bind_Ret _ _ _ _ _ Hl), (tick_to_wake_update_spec _ _ _ HR), Eq. done.
Qed.
End SchedSpec.
