(* ===== verification/SchedProof.v ===== *)
(** * The scheduler's invariant

    [sched_inv] holds between interrupts; [c] is the running thread.  The timer
    interrupt preserves it and loses no thread. *)

From stdpp Require Import functions sorting.
From S2P Require Import Prelude Memory Dlist DlistTheorems Mm Palloc Sched SchedSpec.

(** Two control blocks that agree on what the scheduler decides by. *)
Definition same_sched (x y : thread) : Prop :=
  class x = class y ∧ rq_list x = rq_list y ∧ tick_to_wake x = tick_to_wake y ∧
  exit_pending x = exit_pending y.

Section SchedProof.
Context {H : Type} `{PageAlloc H}.
Context (cpu_rq : Z).

#[local] Notation sched := (@Sched.sched H).
#[local] Notation srep := (@SchedSpec.srep H cpu_rq).
#[local] Notation qaddr := (SchedSpec.qaddr cpu_rq).

(** The queue a thread's [rq_list] must name: the application and background
    classes never set it. *)
Definition rq_list_of (Q : queues) (t v : Z) : Prop :=
  (t ∈ Q QRt → v = qaddr QRt) ∧ (t ∈ Q QSleep → v = qaddr QSleep) ∧
  (t ∈ Q QBlocked → v = qaddr QBlocked) ∧
  (t ∉ Q QRt → t ∉ Q QSleep → t ∉ Q QBlocked → v = null).

Record thread_ok (s : sched) (Q : queues) (t : Z) (x : thread) : Prop := {
  to_class : ∀ q, t ∈ Q q → class_queue (class x) = Some q ∨ q = QSleep ∨ q = QBlocked;
  to_idle : class x = IDLE ↔ t = idle s;
  to_sleep : t ∈ Q QSleep → 0 < tick_to_wake x;
  to_awake : tick_to_wake x ≠ 0 → t ∈ Q QSleep ∨ t ∈ Q QBlocked;
  to_rq : rq_list_of Q t (rq_list x)
}.

Definition sleep_sorted (s : sched) (l : list Z) : Prop :=
  StronglySorted (λ a b, wake_of s a ≤ wake_of s b) l.

(** What holds at every point, whoever runs. *)
Record sched_core (s : sched) (Q : queues) (T : list Z) : Prop := {
  si_rep : srep s Q T;
  si_thread : ∀ t x, tcbs s !! t = Some x → thread_ok s Q t x;
  si_idle : idle s ∈ T ∧ ¬ queued Q (idle s);
  si_sorted : sleep_sorted s (Q QSleep);
  si_wake : Q QSleep ≠ [] → 0 < rq_tick_to_wake s ≤ head_wake s (Q QSleep)
}.

(** [c] runs, every other thread is in a queue or is the idle thread. *)
Record sched_inv (s : sched) (Q : queues) (T : list Z) (c : Z) : Prop := {
  si_core : sched_core s Q T;
  si_curr : c ∈ T ∧ ∀ q, c ∈ Q q → q = QSleep;
  si_all : ∀ t, t ∈ T → t = c ∨ t = idle s ∨ queued Q t
}.

(** Two states that agree on everything the invariant looks at. *)
Record sched_same (s s' : sched) : Prop := {
  ss_dl : dl s' = dl s;
  ss_idle : idle s' = idle s;
  ss_wake : rq_tick_to_wake s' = rq_tick_to_wake s;
  ss_tcbs : ∀ t, option_Forall2 same_sched (tcbs s !! t) (tcbs s' !! t)
}.

#[local] Instance same_sched_PreOrder : PreOrder same_sched.
Proof. split; [done|]. intros x y z (? & ? & ? & ?) (? & ? & ? & ?). unfold same_sched. split_and!; congruence. Qed.

#[export] Instance sched_same_PreOrder : PreOrder sched_same.
Proof.
  split; [intros s; by constructor|].
  intros s1 s2 s3 [? ? ? Ht] [? ? ? Ht']. constructor; [congruence..|].
  intros t. specialize (Ht t). specialize (Ht' t).
  destruct Ht; inversion Ht'; subst; constructor. by etrans.
Qed.

Lemma wake_of_same (s s' : sched) t :
  option_Forall2 same_sched (tcbs s !! t) (tcbs s' !! t) → wake_of s' t = wake_of s t.
Proof. unfold wake_of. by intros [x y (_ & _ & Hw & _)|]. Qed.

Lemma srep_same (s s' : sched) Q T : sched_same s s' → srep s Q T → srep s' Q T.
Proof.
  intros [Ed _ _ Et]. apply srep_ext; [done|]. intros t.
  destruct (Et t); split; intros [z Hz]; by eexists.
Qed.

Lemma sleep_sorted_ext (s s' : sched) l :
  (∀ t, t ∈ l → wake_of s' t = wake_of s t) → sleep_sorted s l → sleep_sorted s' l.
Proof.
  intros E Hs. induction Hs as [|a l Hl IH Ha]; constructor.
  - apply IH. intros t Ht. apply E. by right.
  - rewrite Forall_forall in *. intros b Hb. rewrite !E by set_solver. by apply Ha.
Qed.

Lemma thread_ok_ext (s s' : sched) Q Q' t x y :
  idle s' = idle s → (∀ q, t ∈ Q' q ↔ t ∈ Q q) → same_sched x y →
  thread_ok s Q t x → thread_ok s' Q' t y.
Proof.
  intros Ei EQ (E1 & E2 & E3 & E4) [K1 K2 K3 K4 K5].
  constructor; rewrite <- ?E1, <- ?E2, <- ?E3, ?Ei, ?EQ; [|done|done|done|].
  - intros q Hq. by apply K1, EQ.
  - unfold rq_list_of. by rewrite !EQ.
Qed.

Lemma queued_ext (Q Q' : queues) t : (∀ q, t ∈ Q' q ↔ t ∈ Q q) → queued Q' t ↔ queued Q t.
Proof. intros E. split; intros [q Hq]; exists q; by apply E. Qed.

Lemma core_same (s s' : sched) Q T : sched_same s s' → sched_core s Q T → sched_core s' Q T.
Proof.
  intros Hsame [HR Ht Hi Hs Hw]. pose proof (λ t, wake_of_same s s' t (ss_tcbs _ _ Hsame t)) as Hwk.
  constructor; [by eapply srep_same| |by rewrite (ss_idle _ _ Hsame)| |].
  - intros t y Hy. pose proof (ss_tcbs _ _ Hsame t) as Et. rewrite Hy in Et.
    inversion Et as [x y' Hxy Hx E|]; subst. symmetry in Hx.
    eapply thread_ok_ext; [exact (ss_idle _ _ Hsame)|done|exact Hxy|by apply Ht].
  - eapply sleep_sorted_ext; [|exact Hs]. intros t _. apply Hwk.
  - intros Hne. rewrite (ss_wake _ _ Hsame). specialize (Hw Hne). unfold head_wake in *.
    destruct (Q QSleep); [done|]. by rewrite Hwk.
Qed.

Lemma inv_same (s s' : sched) Q T c : sched_same s s' → sched_inv s Q T c → sched_inv s' Q T c.
Proof.
  intros Hsame [HC Hc Ha]. constructor; [by eapply core_same|done|by rewrite (ss_idle _ _ Hsame)].
Qed.

(** A step that changes the queues of one thread [t] only. *)
Lemma core_move (s s' : sched) Q Q' T t x :
  sched_core s Q T → srep s' Q' T → idle s' = idle s →
  (∀ t' q, t' ≠ t → t' ∈ Q' q ↔ t' ∈ Q q) →
  (∀ t', t' ≠ t → option_Forall2 same_sched (tcbs s !! t') (tcbs s' !! t')) →
  tcbs s' !! t = Some x → thread_ok s' Q' t x → (queued Q' t → t ≠ idle s) →
  sleep_sorted s' (Q' QSleep) → (Q' QSleep ≠ [] → 0 < rq_tick_to_wake s' ≤ head_wake s' (Q' QSleep)) →
  sched_core s' Q' T.
Proof.
  intros [HR Ht [Hi Hi'] Hs Hw] HR' Ei EQ ET Hx Hok Hni Hs' Hw'.
  constructor; [done| | |done|done].
  - intros t' y Hy. destruct (decide (t' = t)) as [->|Hne]; [congruence|].
    pose proof (ET t' Hne) as Et. rewrite Hy in Et. inversion Et as [z y' Hzy Hz E|]; subst.
    symmetry in Hz. eapply thread_ok_ext; [exact Ei|by intros q; apply EQ|exact Hzy|by apply Ht].
  - rewrite Ei. split; [done|]. destruct (decide (idle s = t)) as [E|Hne].
    + rewrite E. intros Hq. by apply Hni in Hq.
    + by rewrite queued_ext by (intros q; by apply EQ).
Qed.

Lemma same_insert (m : gmap Z thread) t y t' :
  t' ≠ t → option_Forall2 same_sched (m !! t') (<[t := y]> m !! t').
Proof. intros Hne. by rewrite lookup_insert_ne. Qed.

Lemma same_update (m : gmap Z thread) t x y t' :
  m !! t = Some x → same_sched x y → option_Forall2 same_sched (m !! t') (<[t := y]> m !! t').
Proof.
  intros Hx Hs. destruct (decide (t' = t)) as [->|Hne]; [|by apply same_insert].
  rewrite Hx, lookup_insert_eq. by constructor.
Qed.

(** ** Accounting *)

Definition roll (x : thread) : thread := set_runtime (runtime_new x) 0 x.

Lemma thread_list (s : sched) Q T :
  srep s Q T →
  NoDup T ∧
  (∃ l, (∀ B (k : dlist → M sched B), bind (in_dl (get_list (threads cpu_rq))) k s = k l s) ∧
        first l = hd null (map thread_node T)) ∧
  ∀ a t b, T = a ++ t :: b → thread_node t ≠ null ∧ ∀ B (k : dlist_node → M sched B),
    bind (in_dl (get_node (thread_node t))) k s =
    k (DNode (lastd null (map thread_node a)) (hd null (map thread_node b)) t) s.
Proof.
  intros [(L & O & HD & _ & HT & _ & HO) _ Hth _ _]. split_and!.
  - eapply NoDup_fmap_1. exact (dr_nodup _ _ _ HD _ _ HT).
  - exists (head_of (map thread_node T)). split; [|done]. intros B k.
    erewrite bind_in_dl; [|unfold get_list; rewrite (dr_lists _ _ _ HD _ _ HT); reflexivity].
    by rewrite with_dl_dl.
  - intros a t b E. assert (is_Some (tcbs s !! t)) as Ht by (apply Hth; rewrite E; set_solver).
    split.
    { apply (rep_in _ _ _ HD _ _ (thread_node t) HT). apply list_elem_of_fmap. exists t.
      split; [done|rewrite E; set_solver]. }
    intros B k. pose proof (dr_chain _ _ _ HD _ _ HT) as Hc. rewrite E, map_app in Hc. cbn in Hc.
    apply dseg_mid in Hc as (_ & [o Ho] & _). pose proof (dr_obj _ _ _ HD (thread_node t)) as Eo.
    rewrite Ho, (proj2 (HO t Ht)) in Eo. injection Eo as ->.
    erewrite bind_in_dl; [|unfold get_node; rewrite Ho; reflexivity]. by rewrite with_dl_dl.
Qed.

Lemma runtime_loop_spec fuel (s : sched) Q T a b :
  srep s Q T → T = a ++ b → (length b < fuel)%nat →
  ∃ m, runtime_loop fuel (hd null (map thread_node b)) s = Ret (tt, with_tcbs m s) ∧
    ∀ t, m !! t = (if decide (t ∈ b) then roll else id) <$> tcbs s !! t.
Proof.
  revert fuel s a; induction b as [|t b IH]; intros [|fuel] s a HR E Hf; try (cbn in Hf; lia).
  { exists (tcbs s). split; [by destruct s|]. intros t. by destruct (tcbs s !! t). }
  destruct (thread_list _ _ _ HR) as (Hnd & _ & Hnode). destruct (Hnode _ _ _ E) as [Hn0 Hrun].
  assert (is_Some (tcbs s !! t)) as [x Hx] by (apply (sr_threads _ _ _ _ HR); rewrite E; set_solver).
  cbn [map hd runtime_loop]. rewrite eqb_false by done. cbn [negb]. rewrite Hrun. cbn [obj next].
  rewrite (bind_get_tcb _ _ _ _ Hx), (bind_upd_tcb _ _ _ _ x) by done.
  pose proof (srep_tcb _ s Q T t x (set_runtime (runtime_new x) 0) HR Hx) as HR'.
  destruct (IH fuel _ (a ++ [t]) HR') as (m & Em & Hm).
  { by rewrite <- app_assoc. }
  { cbn in Hf. lia. }
  exists m. split; [done|]. intros t'. rewrite Hm. cbn [tcbs with_tcbs].
  rewrite E in Hnd. apply NoDup_app in Hnd as (_ & _ & [Htb _]%NoDup_cons).
  destruct (decide (t = t')) as [<-|Hne].
  - rewrite lookup_insert_eq, Hx. rewrite decide_False, decide_True by set_solver. done.
  - rewrite lookup_insert_ne by done.
    destruct (decide (t' ∈ b)), (decide (t' ∈ t :: b)); set_solver.
Qed.

Lemma calculate_runtime_spec fuel (s : sched) Q T :
  srep s Q T → (length T < fuel)%nat →
  ∃ m, calculate_runtime cpu_rq fuel s = Ret (tt, with_tcbs m s) ∧ ∀ t, m !! t = roll <$> tcbs s !! t.
Proof.
  intros HR Hf. destruct (thread_list _ _ _ HR) as (_ & (l & Hl & Hfl) & _).
  destruct (runtime_loop_spec fuel s Q T [] T HR eq_refl Hf) as (m & E & Hm).
  exists m. unfold calculate_runtime. rewrite Hl, Hfl. split; [done|].
  intros t. rewrite Hm. case_decide as Ht; [done|].
  destruct (tcbs s !! t) eqn:Et; [|done]. destruct Ht. apply (sr_threads _ _ _ _ HR). by eexists.
Qed.

(** ** The moves of one thread *)

(** What the queue operations leave alone in a control block. *)
Definition facts (x : thread) := (stack_pointer x, class x, tid x, exit_pending x, runtime_curr x, runtime_new x).

Lemma facts_insert (m : gmap Z thread) t x y t' :
  m !! t = Some x → facts y = facts x → facts <$> <[t := y]> m !! t' = facts <$> m !! t'.
Proof.
  intros Hx E. destruct (decide (t' = t)) as [->|Hne].
  - rewrite Hx, lookup_insert_eq. cbn. by rewrite E.
  - by rewrite lookup_insert_ne.
Qed.

(** The globals that the queue operations leave alone. *)
Record sched_frame (s s' : sched) : Prop := {
  sf_curr : curr_thread s' = curr_thread s;
  sf_next : next_thread s' = next_thread s;
  sf_idle : idle s' = idle s;
  sf_status : scheduler_status s' = scheduler_status s;
  sf_tick : tick s' = tick s;
  sf_stats : stats_tick s' = stats_tick s;
  sf_tid : next_tid s' = next_tid s;
  sf_heap : heap s' = heap s;
  sf_log : log s' = log s;
  sf_facts : ∀ t, facts <$> tcbs s' !! t = facts <$> tcbs s !! t
}.

#[export] Instance sched_frame_PreOrder : PreOrder sched_frame.
Proof. split; [intros s; by constructor|]. intros s1 s2 s3 [] []. constructor; intros; etrans; eauto. Qed.

Lemma elem_insert_q (Q : queues) q l t q' :
  t ∈ (<[q := l]> Q : queues) q' ↔ (q' = q ∧ t ∈ l) ∨ (q' ≠ q ∧ t ∈ Q q').
Proof.
  destruct (decide (q = q')) as [<-|Hne].
  - rewrite fn_lookup_insert. naive_solver.
  - rewrite fn_lookup_insert_ne by done. naive_solver.
Qed.

Lemma elem_enqueue_q c t (Q : queues) t' q :
  t' ∈ enqueue_q c t Q q ↔ t' ∈ Q q ∨ (class_queue c = Some q ∧ t' = t).
Proof.
  unfold enqueue_q. destruct (class_queue c) as [q0|] eqn:E; [|naive_solver].
  rewrite elem_insert_q, elem_of_app, list_elem_of_singleton.
  destruct (decide (q = q0)) as [->|]; naive_solver.
Qed.

Lemma class_queue_run c q : class_queue c = Some q → q ≠ QSleep ∧ q ≠ QBlocked.
Proof. destruct c; cbn; intros; simplify_eq; done. Qed.

Lemma class_queue_inj c c' q : class_queue c = Some q → class_queue c' = Some q → c = c'.
Proof. destruct c, c'; cbn; congruence. Qed.

Lemma not_queued (Q : queues) t q : ¬ queued Q t → t ∉ Q q.
Proof. intros Hq Ht. apply Hq. by exists q. Qed.

(** What [rq_list] is after a class has enqueued the thread. *)
Definition run_link (x : thread) : thread :=
  if decide (class x = REAL_TIME) then set_rq_list (rt_rq cpu_rq) x else x.

Lemma run_link_class x : class (run_link x) = class x.
Proof. unfold run_link. by case_decide. Qed.

Lemma thread_ok_run (s : sched) Q t x :
  ¬ queued Q t → (class x = IDLE ↔ t = idle s) → tick_to_wake x = 0 → rq_list x = null →
  thread_ok s (enqueue_q (class x) t Q) t (run_link x).
Proof.
  intros Hq Hi Hw Hn.
  assert (∀ q, t ∈ enqueue_q (class x) t Q q ↔ class_queue (class x) = Some q) as E.
  { intros q. rewrite elem_enqueue_q. pose proof (not_queued _ _ q Hq). naive_solver. }
  assert (t ∉ enqueue_q (class x) t Q QSleep) as Es by (rewrite E; by destruct (class x)).
  assert (t ∉ enqueue_q (class x) t Q QBlocked) as Eb by (rewrite E; by destruct (class x)).
  constructor; rewrite ?run_link_class.
  - intros q. rewrite E. auto.
  - done.
  - done.
  - unfold run_link. case_decide; cbn; congruence.
  - unfold rq_list_of. rewrite (E QRt). split_and!; [|done|done|].
    + intros Ec. unfold run_link. rewrite decide_True; [done|]. by destruct (class x).
    + intros Ec _ _. unfold run_link. rewrite decide_False; [done|]. intros E'. by rewrite E' in Ec.
Qed.

Lemma enqueue_core (s : sched) Q T t x :
  sched_core s Q T → tcbs s !! t = Some x → ¬ queued Q t → tick_to_wake x = 0 →
  ∃ s', enqueue (class_of cpu_rq (class x)) t s = Ret (tt, s') ∧
    sched_core s' (enqueue_q (class x) t Q) T ∧ sched_frame s s' ∧
    tcbs s' = <[t := run_link x]> (tcbs s) ∧ rq_tick_to_wake s' = rq_tick_to_wake s.
Proof.
  intros HC Hx Hq Hw. pose proof (si_rep _ _ _ HC) as HR.
  destruct (enqueue_spec _ s Q T (class x) t x HR Hx Hq) as (d & E & HR').
  exists (enqueued cpu_rq (class x) t x d s). split; [done|].
  pose proof (si_thread _ _ _ HC t x Hx) as [Hc Hi Hsl Haw Hrq].
  assert (rq_list x = null) as Hn by (apply Hrq; by apply not_queued).
  assert (tcbs (enqueued cpu_rq (class x) t x d s) = <[t := run_link x]> (tcbs s)) as Et.
  { unfold run_link. destruct (class x); cbn; [done|symmetry; by apply insert_id..]. }
  assert (sched_frame s (enqueued cpu_rq (class x) t x d s)) as HF.
  { constructor; try (by destruct (class x)).
    - destruct (class x) eqn:Ec; try done. cbn. by apply Hi.
    - intros t'. rewrite Et. eapply facts_insert; [done|]. unfold run_link. by case_decide. }
  assert (rq_tick_to_wake (enqueued cpu_rq (class x) t x d s) = rq_tick_to_wake s) as Erw
    by (by destruct (class x)).
  split_and!; [|done|done|done]. destruct (si_idle _ _ _ HC) as [Hid _].
  assert (enqueue_q (class x) t Q QSleep = Q QSleep) as Esl.
  { unfold enqueue_q. destruct (class x); cbn; [by rewrite fn_lookup_insert_ne..|done]. }
  assert (∀ t', t' ∈ Q QSleep → wake_of (enqueued cpu_rq (class x) t x d s) t' = wake_of s t') as Hwk.
  { intros t' Ht'. unfold wake_of. rewrite Et, lookup_insert_ne; [done|]. intros ->.
    by apply (not_queued _ _ QSleep Hq). }
  eapply core_move; [exact HC|done|by apply HF| | | | | | |].
  - intros t' q Hne. rewrite elem_enqueue_q. naive_solver.
  - intros t' Hne. rewrite Et. by apply same_insert.
  - rewrite Et. apply lookup_insert_eq.
  - apply thread_ok_run; try done. by rewrite (sf_idle _ _ HF).
  - intros [q Hqq] E'. rewrite elem_enqueue_q in Hqq. destruct Hqq as [Hqq|[Hqq _]].
    + by apply (not_queued _ _ q Hq).
    + apply Hi in E'. by rewrite E' in Hqq.
  - rewrite Esl. eapply sleep_sorted_ext; [done|]. apply (si_sorted _ _ _ HC).
  - rewrite Esl. intros Hne. rewrite Erw. pose proof (si_wake _ _ _ HC Hne) as HW.
    unfold head_wake in *. destruct (Q QSleep) as [|y r] eqn:Eq; [done|].
    rewrite Hwk by (rewrite ?Eq; set_solver). done.
Qed.

Definition class_at (s : sched) (t : Z) : sched_class :=
  match tcbs s !! t with Some x => class x | None => IDLE end.

(** The queues after [process_expired_delays]. *)
Definition expire_q (s : sched) (Q : queues) : queues :=
  match Q QSleep with
  | t :: r => if wake_of s t <? tick s then enqueue_q (class_at s t) t (<[QSleep := r]> Q) else Q
  | [] => Q
  end.

Definition expire_tcbs (s : sched) (Q : queues) : gmap Z thread :=
  match Q QSleep with
  | t :: _ =>
      if wake_of s t <? tick s then
        alter (λ x, set_tick_to_wake 0 (run_link (set_rq_list null x))) t (tcbs s)
      else tcbs s
  | [] => tcbs s
  end.

Lemma insert_alter_at {A} (m : gmap Z A) t x f : m !! t = Some x → <[t := f x]> m = alter f t m.
Proof.
  intros Hx. apply map_eq. intros t'. destruct (decide (t = t')) as [<-|Hne].
  - by rewrite lookup_insert_eq, lookup_alter_eq, Hx.
  - by rewrite lookup_insert_ne, lookup_alter_ne.
Qed.

Lemma woken_tcbs t x d1 d2 (s : sched) :
  tcbs (woken cpu_rq t x d1 d2 s) =
  <[t := set_tick_to_wake 0 (run_link (set_rq_list null x))]> (tcbs s).
Proof.
  unfold woken, run_link. cbn [class set_rq_list].
  destruct (class x); cbn; rewrite ?insert_insert_eq; done.
Qed.

Lemma woken_frame t x d1 d2 (s : sched) :
  tcbs s !! t = Some x → (class x = IDLE → t = idle s) → sched_frame s (woken cpu_rq t x d1 d2 s).
Proof.
  intros Hx Hi. constructor; try (unfold woken; by destruct (class x)).
  - unfold woken. destruct (class x); try done. cbn. by apply Hi.
  - intros t'. rewrite woken_tcbs. eapply facts_insert; [done|]. unfold run_link. by case_decide.
Qed.

Lemma woken_rq t x d1 d2 (s : sched) : rq_tick_to_wake (woken cpu_rq t x d1 d2 s) = rq_tick_to_wake s.
Proof. unfold woken. by destruct (class x). Qed.

Lemma woken_core (s : sched) Q T t r x d1 d2 :
  sched_core s Q T → Q QSleep = t :: r → tcbs s !! t = Some x →
  let s' := woken cpu_rq t x d1 d2 s in
  srep (with_wake (head_wake s' r) s') (enqueue_q (class x) t (<[QSleep := r]> Q)) T →
  sched_core (with_wake (head_wake s' r) s') (enqueue_q (class x) t (<[QSleep := r]> Q)) T.
Proof.
  intros HC Eq Hx s' HR'. pose proof (si_rep _ _ _ HC) as HR. pose proof (si_thread _ _ _ HC t x Hx) as Hok.
  pose proof (dequeued _ s Q T QSleep [] t r HR Eq) as Hdq. cbn [app] in Hdq.
  assert (sched_frame s s') as HF by (apply woken_frame; [done|]; apply (to_idle _ _ _ _ Hok)).
  pose proof (woken_tcbs t x d1 d2 s) as Et. fold s' in Et.
  assert (∀ t', t' ∈ r → t' ∈ Q QSleep) as Hr by (intros t' Ht'; rewrite Eq; by right).
  assert (∀ t', t' ∈ r → t' ≠ t) as Hrn.
  { intros t' Ht' ->. apply (not_queued _ _ QSleep Hdq). by rewrite fn_lookup_insert. }
  assert (∀ t', t' ∈ r → wake_of s' t' = wake_of s t') as Hwk.
  { intros t' Ht'. unfold wake_of. rewrite Et, lookup_insert_ne; [done|]. by apply not_eq_sym, Hrn. }
  assert (enqueue_q (class x) t (<[QSleep := r]> Q) QSleep = r) as Esl.
  { unfold enqueue_q. destruct (class x); cbn; unfold insert, fn_insert; by repeat case_decide. }
  pose proof (si_sorted _ _ _ HC) as Hs. rewrite Eq in Hs. inversion Hs as [|? ? Hs' _]; subst.
  eapply core_move; [exact HC|done|apply HF| | | | | | |].
  - intros t' q Hne. rewrite elem_enqueue_q, elem_insert_q. destruct (decide (q = QSleep)) as [->|Hq].
    + rewrite Eq, elem_of_cons. naive_solver.
    + naive_solver.
  - intros t' Hne. cbn [tcbs with_wake]. rewrite Et. by apply same_insert.
  - cbn [tcbs with_wake]. rewrite Et. apply lookup_insert_eq.
  - replace (set_tick_to_wake 0 (run_link (set_rq_list null x)))
      with (run_link (set_tick_to_wake 0 (set_rq_list null x)))
      by (unfold run_link; cbn [class set_rq_list set_tick_to_wake]; by case_decide).
    apply (thread_ok_run _ _ t (set_tick_to_wake 0 (set_rq_list null x))); try done.
    change (class x = IDLE ↔ t = idle s'). rewrite (sf_idle _ _ HF). apply Hok.
  - intros _ E. apply (si_idle _ _ _ HC). rewrite <- E. exists QSleep. rewrite Eq. by left.
  - rewrite Esl. by eapply sleep_sorted_ext; [|exact Hs'].
  - rewrite Esl. intros Hne. cbn [rq_tick_to_wake with_wake]. destruct r as [|y r]; [done|].
    split; [|done]. cbn [head_wake]. rewrite Hwk by set_solver.
    destruct (proj1 (sr_threads _ _ _ _ HR y)) as [z Hz].
    { apply (sr_threads _ _ _ _ HR), (sr_queued _ _ _ _ HR). exists QSleep. apply Hr. by left. }
    rewrite <- (wake_of_tcb _ _ _ Hz). apply (to_sleep _ _ _ _ (si_thread _ _ _ HC y z Hz)).
    apply Hr. by left.
Qed.

Lemma expired_core fuel (s : sched) Q T :
  sched_core s Q T → (2 ≤ fuel)%nat →
  ∃ s', process_expired_delays cpu_rq fuel s = Ret (tt, s') ∧
    sched_core s' (expire_q s Q) T ∧ sched_frame s s' ∧ tcbs s' = expire_tcbs s Q.
Proof.
  intros HC Hf. pose proof (si_rep _ _ _ HC) as HR.
  pose proof (process_expired_spec _ fuel s Q T HR Hf) as HP. unfold expire_q, expire_tcbs.
  destruct (Q QSleep) as [|t r] eqn:Eq.
  { eexists. split; [exact HP|]. destruct (expired s); [|done]. split_and!; [|by constructor|done].
    destruct HC as [C1 C2 C3 C4 C5]. constructor; [by eapply srep_ext; [| |exact C1]| |done|done|].
    - intros t x Hx. eapply thread_ok_ext; [| | |by apply C2]; done.
    - by rewrite Eq. }
  pose proof (si_wake _ _ _ HC) as HW. rewrite Eq in HW. specialize (HW ltac:(done)).
  cbn [head_wake] in HW. destruct (Z.ltb_spec (wake_of s t) (tick s)) as [Hlt|Hge].
  - assert (expired s = true) as Ex.
    { unfold expired. apply andb_true_iff. split; [apply Z.leb_le; lia|].
      rewrite eqb_false by lia. done. }
    rewrite Ex in HP. destruct HP as (x & d1 & d2 & Hx & E & HR').
    eexists. split; [exact E|]. unfold class_at. rewrite Hx. split_and!.
    + by apply woken_core.
    + trans (woken cpu_rq t x d1 d2 s); [|by constructor]. apply woken_frame; [done|]. apply (to_idle _ _ _ _ (si_thread _ _ _ HC t x Hx)).
    + cbn [tcbs with_wake]. rewrite woken_tcbs. by apply (insert_alter_at _ t x (λ x, set_tick_to_wake 0 (run_link (set_rq_list null x)))).
  - destruct (expired s); eexists; (split; [exact HP|]); [|done].
    split_and!; [|by constructor|done].
    destruct HC as [C1 C2 C3 C4 C5]. constructor; [by eapply srep_ext; [| |exact C1]| |done|done|].
    + intros t' x Hx. eapply thread_ok_ext; [| | |by apply C2]; done.
    + rewrite Eq. intros _. cbn [head_wake rq_tick_to_wake with_wake]. change (wake_of (with_wake _ s) t) with (wake_of s t). lia.
Qed.

(** ** The choice of the next thread *)

Definition pick_of (s : sched) (Q : queues) : Z :=
  match class_queue (next_class_of Q) with Some q => hd null (Q q) | None => idle s end.
Definition pick_q (Q : queues) : queues :=
  match class_queue (next_class_of Q) with Some q => <[q := tl (Q q)]> Q | None => Q end.

Lemma picked_tcb c t x d (s : sched) t' :
  tcbs s !! t = Some x →
  tcbs (picked c t x d s) !! t' =
  (λ y, if decide (t' = t ∧ c = REAL_TIME) then set_rq_list null y else y) <$> tcbs s !! t'.
Proof.
  intros Hx. destruct (decide (t' = t)) as [->|Hne].
  - rewrite Hx. destruct c; cbn; rewrite ?lookup_insert_eq, ?Hx; cbn; f_equal; case_decide; naive_solver.
  - destruct c; cbn; rewrite ?lookup_insert_ne by done; destruct (tcbs s !! t'); cbn;
      try case_decide; naive_solver.
Qed.

Lemma thread_ok_off (s : sched) Q t x :
  ¬ queued Q t → (class x = IDLE ↔ t = idle s) → tick_to_wake x = 0 → rq_list x = null →
  thread_ok s Q t x.
Proof.
  intros Hq Hi Hw Hr. constructor; [|done| |done|].
  - intros q Ht. by apply (not_queued _ _ q) in Hq.
  - intros Ht. by apply (not_queued _ _ QSleep) in Hq.
  - rewrite Hr. split_and!; try done; intros Ht; by apply (not_queued _ _ _ Hq) in Ht.
Qed.

(** A thread in the queue of a class. *)
Lemma queued_run (s : sched) Q T t x q :
  sched_core s Q T → tcbs s !! t = Some x → t ∈ Q q → q ≠ QSleep → q ≠ QBlocked →
  class_queue (class x) = Some q ∧ tick_to_wake x = 0 ∧ (class x ≠ REAL_TIME → rq_list x = null).
Proof.
  intros HC Hx Hq Hs Hb. destruct (si_thread _ _ _ HC t x Hx) as [K1 K2 K3 K4 K5].
  assert (∀ q', t ∈ Q q' → q' = q) as Hone
    by (intros q' Hq'; eapply (srep_one _ s Q T); [apply (si_rep _ _ _ HC)|done..]).
  assert (class_queue (class x) = Some q) as Ec by (destruct (K1 q Hq) as [E|[->| ->]]; done).
  split_and!; [done| |].
  - destruct (decide (tick_to_wake x = 0)) as [|Hw]; [done|].
    destruct (K4 Hw) as [K|K]; apply Hone in K; congruence.
  - intros Hc. apply K5.
    + intros K. apply Hone in K as <-. by destruct (class x).
    + intros K. apply Hone in K. congruence.
    + intros K. apply Hone in K. congruence.
Qed.

Lemma pick_core (s : sched) Q T :
  sched_core s Q T →
  ∃ s', core_scheduler cpu_rq s = Ret (pick_of s Q, s') ∧
    sched_core s' (pick_q Q) T ∧ sched_frame s s' ∧
    pick_of s Q ∈ T ∧ ¬ queued (pick_q Q) (pick_of s Q) ∧
    (∀ t, t ∈ T → queued Q t → t = pick_of s Q ∨ queued (pick_q Q) t).
Proof.
  intros HC. pose proof (si_rep _ _ _ HC) as HR. pose proof (core_scheduler_spec _ s Q T HR) as HP.
  unfold pick_of, pick_q. destruct (class_queue (next_class_of Q)) as [q|] eqn:Ec.
  2: { destruct (si_idle _ _ _ HC) as [Hi Hi']. exists s.
       assert (0 < idle s) by (apply (sr_align _ _ _ _ HR), (sr_threads _ _ _ _ HR), Hi).
       rewrite eqb_false in HP by (unfold null; lia). split_and!; try done. by right. }
  destruct HP as (t & r & d & x & Eq & Hx & E & HR'). rewrite Eq in *. cbn [hd tl].
  pose proof (dequeued _ s Q T q [] t r HR Eq) as Hdq. cbn [app] in Hdq.
  set (s' := picked (next_class_of Q) t x d s) in *. pose proof (picked_tcb (next_class_of Q) t x d s) as Et.
  fold s' in Et.
  exists s'. assert (sched_frame s s') as HF.
  { constructor; try (unfold s'; by destruct (next_class_of Q)).
    intros t'. rewrite Et by done. destruct (tcbs s !! t'); [|done].
    cbn [fmap option_fmap option_map]. by destruct (decide _). }
  destruct (class_queue_run _ _ Ec) as [Hqs Hqb].
  assert (rq_tick_to_wake s' = rq_tick_to_wake s) as Erw by (unfold s'; by destruct (next_class_of Q)).
  assert (∀ t', wake_of s' t' = wake_of s t') as Hwk.
  { intros t'. unfold wake_of. rewrite Et by done. destruct (tcbs s !! t'); [|done].
    cbn [fmap option_fmap option_map]. by destruct (decide _). }
  assert (∀ t' q', t' ≠ t → t' ∈ (<[q := r]> Q : queues) q' ↔ t' ∈ Q q') as EQ.
  { intros t' q' Hne. rewrite elem_insert_q. destruct (decide (q' = q)) as [->|]; [|naive_solver].
    rewrite Eq, elem_of_cons. naive_solver. }
  assert (is_Some (tcbs s !! t)) as Hst by (by eexists).
  pose proof (si_thread _ _ _ HC t x Hx) as Hok.
  assert (t ∈ Q q) as Htq by (rewrite Eq; by left).
  assert (class x = next_class_of Q) as Ecl.
  { eapply class_queue_inj; [|exact Ec]. by apply (queued_run s Q T t x q). }
  split_and!; [done| |done|by apply (sr_threads _ _ _ _ HR)|done|].
  2: { intros t' _ [q' Hq']. destruct (decide (t' = t)) as [->|Hne]; [by left|].
       right. exists q'. by apply EQ. }
  assert (tcbs s' !! t = Some (if decide (t = t ∧ next_class_of Q = REAL_TIME) then set_rq_list null x else x)) as Hx'.
  { rewrite Et, Hx by done. done. }
  eapply (core_move s s' Q _ T t); [exact HC|done|by apply HF|done| |exact Hx'| | | |].
  - intros t' Hne. rewrite Et by done. destruct (tcbs s !! t'); [|constructor]. constructor.
    rewrite decide_False by naive_solver. done.
  - destruct (queued_run s Q T t x q HC Hx Htq Hqs Hqb) as (_ & Hw0 & Hrq).
    set (x' := if decide _ then _ else _).
    assert (class x' = class x ∧ tick_to_wake x' = 0 ∧ rq_list x' = null) as (X1 & X2 & X3).
    { unfold x'. clear x' Hx'. destruct (decide (t = t ∧ _)) as [Hd|Hn]; cbn; split_and!; try done.
      apply Hrq. intros E'. apply Hn. by rewrite <- Ecl. }
    apply thread_ok_off; rewrite ?X1, ?(sf_idle _ _ HF); try done. apply Hok.
  - intros Hq'. done.
  - rewrite fn_lookup_insert_ne by done. eapply (sleep_sorted_ext s); [done|]. apply (si_sorted _ _ _ HC).
  - rewrite fn_lookup_insert_ne by done. intros Hne. rewrite Erw. pose proof (si_wake _ _ _ HC Hne) as HW.
    unfold head_wake in *. destruct (Q QSleep); [done|]. by rewrite Hwk.
Qed.
End SchedProof.
