(* ===== verification/SchedTheorems.v ===== *)
(** * The scheduler's theorems

    The timer interrupt and the context switch, sleeping, blocking, and where
    the code falls short of them. *)

From stdpp Require Import functions sorting.
From S2P Require Import Prelude Memory Dlist DlistTheorems Mm Palloc Sched SchedSpec SchedProof.

Section SchedTheorems.
Context {H : Type} `{PageAlloc H}.
Context (cpu_rq : Z).

#[local] Notation sched := (@Sched.sched H).
#[local] Notation sched_inv := (@SchedProof.sched_inv H cpu_rq).
#[local] Notation sched_core := (@SchedProof.sched_core H cpu_rq).

(** ** Accounting *)

(** The ticks the timer interrupt charges the running thread with. *)
Definition charged (s : sched) (cvr : Z) : Z :=
  if reschedule_pending s =? 0 then SYSTICK_RVR else SYSTICK_RVR - cvr.

(** A second of ticks has passed. *)
Definition second (s : sched) (cvr : Z) : bool := SYSTICK_RVR * 1000 <=? stats_tick s + charged s cvr.

Definition charge (rt : Z) (x : thread) : thread := set_runtime (runtime_curr x) (runtime_new x + rt) x.

Definition account (s : sched) (cvr c : Z) : gmap Z thread :=
  let m := alter (charge (charged s cvr)) c (tcbs s) in if second s cvr then roll <$> m else m.

(** What [systick_exception] does once the time has been accounted for. *)
Definition systick_rest (fuel : nat) (curr : Z) : M sched unit :=
  process_expired_delays cpu_rq fuel ;;
  let* x := get_tcb curr in
  (if tick_to_wake x =? 0 then enqueue (class_of cpu_rq (class x)) curr else ret tt) ;;
  let* x := get_tcb curr in
  (if negb (exit_pending x =? 0) then scheduler_remove_thread cpu_rq curr else ret tt) ;;
  let* next := core_scheduler cpu_rq in
  modify (with_next next) ;;
  emit (EvSetCvr SYSTICK_RVR) ;;
  emit EvIrqOn ;;
  emit EvPendsvPending.

(** The timer interrupt's preconditions: a running scheduler, a running thread
    [c] that is not exiting, and tick counters that do not wrap. *)
Record ticking (s : sched) (cvr c : Z) : Prop := {
  tk_status : scheduler_status s ≠ 0;
  tk_curr : curr_thread s = c;
  tk_cvr : 0 <= cvr <= SYSTICK_RVR;
  tk_tick : 0 <= tick s < 2 ^ 63;
  tk_stats : 0 <= stats_tick s < 2 ^ 63;
  tk_exit : ∃ x, tcbs s !! c = Some x ∧ exit_pending x = 0 ∧ 0 <= runtime_new x < 2 ^ 63
}.

(** The same without the last condition on [c]. *)
Record clocked (s : sched) (cvr c : Z) : Prop := {
  ck_status : scheduler_status s ≠ 0;
  ck_curr : curr_thread s = c;
  ck_cvr : 0 <= cvr <= SYSTICK_RVR;
  ck_tick : 0 <= tick s < 2 ^ 63;
  ck_stats : 0 <= stats_tick s < 2 ^ 63;
  ck_thread : ∃ x, tcbs s !! c = Some x ∧ 0 <= runtime_new x < 2 ^ 63
}.

Lemma ticking_clocked (s : sched) cvr c : ticking s cvr c → clocked s cvr c.
Proof. intros [? ? ? ? ? (x & ? & _ & ?)]. constructor; eauto. Qed.

Lemma charged_bounds (s : sched) cvr c : clocked s cvr c → 0 <= charged s cvr <= SYSTICK_RVR.
Proof. intros [_ _ Hc _ _ _]. unfold charged, SYSTICK_RVR in *. case_match; lia. Qed.

Lemma get_runtime_run {B} (s : sched) cvr c (k : Z → M sched B) :
  clocked s cvr c → bind (get_curr_thread_runtime cvr) k s = k (charged s cvr) (with_pending 0 s).
Proof.
  intros [_ _ Hc _ _ _]. unfold get_curr_thread_runtime, charged. rewrite bind_bind, bind_gets.
  destruct (Z.eqb_spec (reschedule_pending s) 0) as [E|E]; cbn [negb].
  - rewrite bind_ret. f_equal. destruct s; cbn in *. by subst.
  - rewrite bind_bind, bind_modify, bind_ret. f_equal. unfold SYSTICK_RVR in *. by nowrap.
Qed.

Lemma account_run fuel (s : sched) Q T cvr c :
  clocked s cvr c → srep cpu_rq s Q T → (length T < fuel)%nat →
  ∃ s1, systick_exception cpu_rq fuel cvr s = systick_rest fuel c s1 ∧
    dl s1 = dl s ∧ idle s1 = idle s ∧ rq_tick_to_wake s1 = rq_tick_to_wake s ∧
    tcbs s1 = account s cvr c ∧ tick s1 = tick s + charged s cvr ∧
    stats_tick s1 = (if second s cvr then 0 else stats_tick s + charged s cvr) ∧
    reschedule_pending s1 = 0 ∧ curr_thread s1 = c ∧ scheduler_status s1 = scheduler_status s ∧
    next_tid s1 = next_tid s ∧ heap s1 = heap s.
Proof.
  intros Htk HR Hf. pose proof (charged_bounds _ _ _ Htk) as Hch.
  pose proof Htk as [Hst Hcu Hcv Hti Hss (x & Hx & Hrn)].
  unfold systick_exception. rewrite bind_gets, eqb_false by done. cbn [negb].
  unfold emit at 1. rewrite bind_modify.
  rewrite (get_runtime_run _ cvr c) by (by destruct Htk; constructor). rewrite bind_modify, bind_gets.
  change (charged (with_log (log s ++ [EvIrqOff]) s) cvr) with (charged s cvr).
  cbn [curr_thread with_ticks with_pending with_log]. rewrite Hcu.
  rewrite (bind_upd_tcb _ _ _ _ x) by done. rewrite bind_gets. cbn [stats_tick tick with_tcbs with_ticks tcbs with_pending with_log].
  assert (SYSTICK_RVR = 300000) as ER by done.
  rewrite ?(u64_small (tick s + _)), (u64_small (stats_tick s + _)), (u64_small (runtime_new x + _)) by lia.
  change (set_runtime (runtime_curr x) (runtime_new x + charged s cvr) x) with (charge (charged s cvr) x).
  rewrite (insert_alter_at (tcbs s) c x (charge (charged s cvr))) by done.
  unfold account, second. destruct (SYSTICK_RVR * 1000 <=? stats_tick s + charged s cvr) eqn:Es.
  - rewrite bind_bind, bind_modify. unfold emit at 1. rewrite bind_bind, bind_modify.
    match goal with |- context [bind (calculate_runtime _ _) _ ?s0] => set (s2 := s0) end.
    assert (srep cpu_rq s2 Q T) as HR2.
    { eapply srep_ext; [| |exact HR]; [done|]. intros t. cbn. apply lookup_alter_is_Some. }
    destruct (calculate_runtime_spec cpu_rq fuel s2 Q T HR2 Hf) as (m & E & Hm).
    rewrite (bind_Ret _ _ _ _ _ E). eexists. split; [reflexivity|]. split_and!; try done.
    apply map_eq. intros t. cbn [tcbs with_tcbs]. rewrite Hm. by rewrite lookup_fmap.
  - rewrite bind_ret. eexists. split; [reflexivity|]. by split_and!.
Qed.

(** ** What one interrupt does to the queues *)

Lemma elem_expire_q (s : sched) Q c q :
  (c ∈ Q QSleep → tick s <= wake_of s c) → c ∈ expire_q s Q q ↔ c ∈ Q q.
Proof.
  intros Hc. unfold expire_q. destruct (Q QSleep) as [|t r] eqn:Eq; [done|].
  destruct (Z.ltb_spec (wake_of s t) (tick s)) as [Hlt|]; [|done].
  assert (c ≠ t) as Hne by (intros ->; specialize (Hc ltac:(by left)); lia).
  rewrite elem_enqueue_q, elem_insert_q. destruct (decide (q = QSleep)) as [->|].
  - rewrite Eq, elem_of_cons. naive_solver.
  - naive_solver.
Qed.

Lemma expire_tcbs_same (s : sched) Q c :
  (c ∈ Q QSleep → tick s <= wake_of s c) → expire_tcbs cpu_rq s Q !! c = tcbs s !! c.
Proof.
  intros Hc. unfold expire_tcbs. destruct (Q QSleep) as [|t r] eqn:Eq; [done|].
  destruct (Z.ltb_spec (wake_of s t) (tick s)) as [Hlt|]; [|done].
  apply lookup_alter_ne. intros ->. specialize (Hc ltac:(by left)). lia.
Qed.

(** A thread with a queue of its own: every one but the idle thread. *)
Lemma queued_class (s : sched) Q T t :
  sched_core s Q T → queued Q t → ∃ q, class_queue (class_at s t) = Some q.
Proof.
  intros HC Hq. destruct (sr_queued _ _ _ _ (si_rep _ _ _ _ HC) t Hq) as [x Hx].
  unfold class_at. rewrite Hx. pose proof (to_idle _ _ _ _ _ (si_thread _ _ _ _ HC t x Hx)) as Hi.
  destruct (class x) eqn:Ec; [by eexists..|]. exfalso.
  apply (proj2 (si_idle _ _ _ _ HC)). by rewrite <- (proj1 Hi).
Qed.

Lemma queued_enqueue_q c t (Q : queues) t' : queued Q t' → queued (enqueue_q c t Q) t'.
Proof. intros [q Hq]. exists q. rewrite elem_enqueue_q. by left. Qed.

Lemma expire_queued (s : sched) Q T t : sched_core s Q T → queued Q t → queued (expire_q s Q) t.
Proof.
  intros HC Hq. pose proof Hq as [q Ht]. unfold expire_q.
  destruct (Q QSleep) as [|h r] eqn:Eq; [done|]. destruct (wake_of s h <? tick s); [|done].
  destruct (decide (t = h)) as [->|Hne].
  - destruct (queued_class _ _ _ _ HC Hq) as [q' Hq']. exists q'. rewrite elem_enqueue_q. by right.
  - exists q. rewrite elem_enqueue_q, elem_insert_q. left.
    destruct (decide (q = QSleep)) as [->|]; [|by right]. rewrite Eq, elem_of_cons in Ht. naive_solver.
Qed.

(** The queues when [core_scheduler] runs: a thread that has slept long enough
    has moved to the queue of its class, then the running thread [c] has. *)
Definition served (s : sched) (cvr c : Z) (Q : queues) : queues :=
  let Q1 := expire_q (with_ticks (tick s + charged s cvr) 0 s) Q in
  if decide (c ∈ Q QSleep) then Q1 else enqueue_q (class_at s c) c Q1.

(** The running thread goes back to its queue, unless it sleeps. *)
Lemma requeue_core (s : sched) Q T c x :
  sched_core s Q T → tcbs s !! c = Some x → (∀ q, c ∈ Q q → q = QSleep) →
  ∃ s', (if tick_to_wake x =? 0 then enqueue (class_of cpu_rq (class x)) c else ret tt) s = Ret (tt, s') ∧
    let Q' := if decide (c ∈ Q QSleep) then Q else enqueue_q (class x) c Q in
    sched_core s' Q' T ∧ sched_frame s s' ∧ (c = idle s ∨ queued Q' c).
Proof.
  intros HC Hx Hc. pose proof (si_thread _ _ _ _ HC c x Hx) as Hok. destruct (decide (c ∈ Q QSleep)) as [Hs|Hs].
  - pose proof (to_sleep _ _ _ _ _ Hok Hs). rewrite eqb_false by lia. exists s.
    cbv zeta. split_and!; try done. right. by exists QSleep.
  - assert (¬ queued Q c) as Hq by (intros [q Hq]; pose proof (Hc q Hq); congruence).
    assert (tick_to_wake x = 0) as Hw.
    { destruct (decide (tick_to_wake x = 0)) as [|Hn]; [done|].
      destruct (to_awake _ _ _ _ _ Hok Hn) as [K|K]; by apply (not_queued _ _ _ Hq) in K. }
    rewrite Hw. cbn [Z.eqb]. destruct (enqueue_core cpu_rq s Q T c x HC Hx Hq Hw) as (s' & E & HC' & HF & _).
    exists s'. cbv zeta. split_and!; try done. destruct (class_queue (class x)) as [q|] eqn:Ec.
    + right. exists q. rewrite elem_enqueue_q. by right.
    + left. apply Hok. by destruct (class x).
Qed.

Definition runtimes (x : thread) : Z * Z := (runtime_curr x, runtime_new x).

Lemma facts_runtimes (s s' : sched) t :
  sched_frame s s' → runtimes <$> tcbs s' !! t = runtimes <$> tcbs s !! t.
Proof.
  intros HF. pose proof (sf_facts _ _ HF t) as E.
  destruct (tcbs s !! t), (tcbs s' !! t); cbn in *; try done. injection E as _ _ _ _ E1 E2.
  unfold runtimes. congruence.
Qed.

(** [systick_rest] keeps the invariant for the thread it picks. *)
Lemma systick_rest_run fuel (s : sched) Q T c x :
  sched_core s Q T → (2 <= fuel)%nat → tcbs s !! c = Some x → exit_pending x = 0 →
  (∀ q, c ∈ Q q → q = QSleep) → (c ∈ Q QSleep → tick s <= wake_of s c) →
  (∀ t, t ∈ T → t = c ∨ t = idle s ∨ queued Q t) →
  let Q' := if decide (c ∈ Q QSleep) then expire_q s Q else enqueue_q (class x) c (expire_q s Q) in
  ∃ s', systick_rest fuel c s = Ret (tt, s') ∧
    sched_inv s' (pick_q Q') T (next_thread s') ∧ next_thread s' = pick_of s Q' ∧
    curr_thread s' = curr_thread s ∧ tick s' = tick s ∧ scheduler_status s' = scheduler_status s ∧
    (∀ t, runtimes <$> tcbs s' !! t = runtimes <$> tcbs s !! t) ∧ ∃ l, log s' = l ++ [EvPendsvPending].
Proof.
  intros HC Hf Hx Hex Hc Hw Ha Q'.
  destruct (expired_core cpu_rq fuel s Q T HC Hf) as (s2 & E2 & HC2 & HF2 & Ht2).
  unfold systick_rest. rewrite (bind_Ret _ _ _ _ _ E2).
  assert (tcbs s2 !! c = Some x) as Hx2 by (rewrite Ht2, expire_tcbs_same; done).
  rewrite (bind_get_tcb _ _ _ _ Hx2).
  assert (∀ q, c ∈ expire_q s Q q ↔ c ∈ Q q) as EQ by (intros q; by apply elem_expire_q).
  destruct (requeue_core s2 _ T c x HC2 Hx2) as (s3 & E3 & HC3 & HF3 & Hc3).
  { intros q. rewrite EQ. apply Hc. }
  rewrite (bind_Ret _ _ _ _ _ E3).
  assert ((if decide (c ∈ expire_q s Q QSleep) then expire_q s Q else enqueue_q (class x) c (expire_q s Q)) = Q')
    as EQ' by (unfold Q'; pose proof (EQ QSleep); repeat case_decide; done || tauto).
  cbv zeta in HC3, Hc3. rewrite EQ' in HC3, Hc3. clearbody Q'.
  assert (∃ x3, tcbs s3 !! c = Some x3 ∧ exit_pending x3 = 0) as (x3 & Hx3 & Hex3).
  { pose proof (sf_facts _ _ HF3 c) as E. rewrite Hx2 in E. destruct (tcbs s3 !! c) as [y|]; [|done].
    exists y. split; [done|]. cbn in E. by injection E as _ _ _ -> _ _. }
  rewrite (bind_get_tcb _ _ _ _ Hx3), Hex3. cbn [Z.eqb negb]. rewrite bind_ret.
  destruct (pick_core cpu_rq s3 Q' T HC3) as (s4 & E4 & HC4 & HF4 & HpT & Hpq & Hall).
  rewrite (bind_Ret _ _ _ _ _ E4), bind_modify. unfold emit. rewrite !bind_modify.
  eexists. split; [reflexivity|]. cbn [next_thread with_next with_log].
  assert (sched_frame s s4) as HF by (etrans; [exact HF2|]; by etrans).
  assert (idle s3 = idle s) as Ei by (rewrite (sf_idle _ _ HF3); apply HF2).
  split_and!.
  - constructor; [apply (core_same _ s4); [constructor; try done; intros t; cbn; by destruct (tcbs s4 !! t); constructor|done]| |].
    + split; [done|]. intros q Hq. by apply (not_queued _ _ q Hpq) in Hq.
    + intros t Ht. cbn [idle with_next with_log]. rewrite (sf_idle _ _ HF).
      assert (t = idle s ∨ queued Q' t) as [->|Hq]; [|by right; left|].
      { destruct (Ha t Ht) as [->|[->|Hq]]; [|by left|].
        - rewrite <- (sf_idle _ _ HF2). done.
        - right. rewrite <- EQ'. pose proof (expire_queued s Q T t HC Hq).
          case_decide; [done|]. by apply queued_enqueue_q. }
      destruct (Hall t Ht Hq) as [->|]; [by left|by right; right].
  - unfold pick_of. by rewrite Ei.
  - apply HF.
  - apply HF.
  - apply HF.
  - intros t. by apply (facts_runtimes s s4).
  - by eexists.
Qed.

(** ** The theorems *)

Lemma account_same (s : sched) cvr c t :
  option_Forall2 same_sched (tcbs s !! t) (account s cvr c !! t).
Proof.
  assert (option_Forall2 same_sched (tcbs s !! t) (alter (charge (charged s cvr)) c (tcbs s) !! t)) as E.
  { destruct (decide (t = c)) as [->|Hne]; [rewrite lookup_alter_eq|rewrite lookup_alter_ne by done; by destruct (tcbs s !! t); constructor].
    destruct (tcbs s !! c); by constructor. }
  unfold account. destruct (second s cvr); [|exact E]. rewrite lookup_fmap.
  destruct E; by constructor.
Qed.

Lemma expire_q_ext (s s' : sched) Q :
  tick s' = tick s → (∀ t, option_Forall2 same_sched (tcbs s !! t) (tcbs s' !! t)) →
  expire_q s' Q = expire_q s Q.
Proof.
  intros Et E. unfold expire_q. destruct (Q QSleep) as [|t r]; [done|].
  rewrite Et, (wake_of_same s s') by done.
  assert (class_at s' t = class_at s t) as ->; [|done].
  unfold class_at. by destruct (E t) as [x y (-> & _)|].
Qed.

(** ** The end of a thread *)

(** A thread in a queue that its control block does not name cannot be removed
    when it is not alone there. *)
Lemma remove_panics (s : sched) Q T c x q l y :
  srep cpu_rq s Q T → tcbs s !! c = Some x → curr_thread s = c → rq_list x = null → Q q = l ++ [y; c] →
  scheduler_remove_thread cpu_rq c s = Panic "Exiting thread exist in a list".
Proof.
  intros HR Hx Hc Hn Hq. pose proof HR as [(L & O & HD & HQ & HT & _ & HO) Ha Hth _ _].
  assert (c ∈ T) as HcT by (apply Hth; by eexists). apply list_elem_of_split in HcT as (a & b & ET).
  rewrite ET, map_app in HT. cbn [map] in HT.
  destruct (remove_spec _ _ _ _ _ _ _ HD HT) as (d' & E & HD'). unfold scheduler_remove_thread.
  rewrite bind_gets, Hc. erewrite bind_in_dl by exact E. rewrite (bind_get_tcb _ _ _ x) by exact Hx.
  rewrite Hn. cbn [negb Z.eqb null]. rewrite bind_ret.
  assert ((<[threads cpu_rq := map thread_node a ++ map thread_node b]> L) !! qaddr cpu_rq q = Some (map rq_node (Q q))) as HQ'.
  { rewrite lookup_insert_ne; [apply HQ|]. intros E'. by eapply (qaddr_threads cpu_rq q). }
  pose proof (dr_chain _ _ _ HD' _ _ HQ') as Hch. rewrite Hq, map_app in Hch. cbn [map] in Hch.
  change (map rq_node l ++ [rq_node y; rq_node c]) with (map rq_node l ++ ([rq_node y] ++ rq_node c :: [])) in Hch.
  rewrite app_assoc in Hch. apply dseg_mid in Hch as (_ & [o Ho] & _).
  assert (rq_node y ≠ null) as Hy.
  { apply (rep_in _ _ _ HD' _ _ (rq_node y) HQ'). apply in_map_rq. rewrite Hq. set_solver. }
  destruct (HO c ltac:(by eexists)) as [_ Ot]. pose proof (dr_obj _ _ _ HD' (thread_node c)) as Eo. rewrite Ot in Eo.
  destruct (nodes d' !! thread_node c) as [tn|] eqn:Etn; [|done].
  unfold get_node. erewrite bind_in_dl by (cbn [dl with_dl]; rewrite Ho; reflexivity).
  erewrite bind_in_dl by (cbn [dl with_dl]; rewrite Etn; reflexivity). cbn [next prev].
  assert (lastd null (map rq_node l ++ [rq_node y]) = rq_node y) as -> by (by rewrite lastd_app).
  cbn [hd]. rewrite (eqb_false (rq_node y) null Hy). reflexivity.
Qed.

Lemma expire_q_grows (s : sched) Q q : q ≠ QSleep → Q q ≠ [] → expire_q s Q q ≠ [].
Proof.
  intros Hq Hne. unfold expire_q. destruct (Q QSleep) as [|t r]; [done|]. destruct (wake_of s t <? tick s); [|done].
  unfold enqueue_q. destruct (class_queue _) as [q'|]; [|by rewrite fn_lookup_insert_ne].
  destruct (decide (q' = q)) as [->|Hne']; [rewrite fn_lookup_insert; by destruct (<[QSleep:=r]> Q q)|].
  by rewrite !fn_lookup_insert_ne by congruence.
Qed.

Lemma exit_panics fuel (s : sched) Q T cvr c x q :
  sched_inv s Q T c → clocked s cvr c → (length T < fuel)%nat → (2 <= fuel)%nat →
  tcbs s !! c = Some x → exit_pending x ≠ 0 → ¬ queued Q c →
  class x ≠ REAL_TIME → class_queue (class x) = Some q → Q q ≠ [] →
  systick_exception cpu_rq fuel cvr s = Panic "Exiting thread exist in a list".
Proof.
  intros [HC [HcT Hc] Ha] Hck Hf Hf2 Hx Hex Hnq Hrt Hcq Hne.
  destruct (account_run fuel s Q T cvr c Hck (si_rep _ _ _ _ HC) Hf)
    as (s1 & -> & Ed & Ei & Erw & Et & Eti & _ & _ & Ecu & Est & _).
  assert (sched_same s s1) as Hsame by (constructor; [done..|]; intros t; rewrite Et; apply account_same).
  pose proof (core_same _ _ _ _ _ Hsame HC) as HC1.
  pose proof (ss_tcbs _ _ Hsame c) as Ec. rewrite Hx in Ec.
  inversion Ec as [x0 x1 (Ecl & _ & _ & Eex1) Hx0 Hx1|]; subst x0. symmetry in Hx1. rewrite Ecl in Hrt, Hcq. rewrite Eex1 in Hex.
  destruct (expired_core cpu_rq fuel s1 Q T HC1 Hf2) as (s2 & E2 & HC2 & HF2 & Ht2).
  unfold systick_rest. rewrite (bind_Ret _ _ _ _ _ E2).
  assert (c ∉ Q QSleep) as Hsl by (by apply not_queued).
  assert (tcbs s2 !! c = Some x1) as Hx2 by (rewrite Ht2, expire_tcbs_same; done).
  assert (¬ queued (expire_q s1 Q) c) as Hnq2.
  { intros [q' Hq']. rewrite elem_expire_q in Hq' by done. apply Hnq. by exists q'. }
  rewrite (bind_get_tcb _ _ _ _ Hx2). pose proof (si_thread _ _ _ _ HC2 c x1 Hx2) as Hok.
  assert (tick_to_wake x1 = 0) as Hw.
  { destruct (decide (tick_to_wake x1 = 0)) as [|Hn]; [done|].
    destruct (to_awake _ _ _ _ _ Hok Hn) as [K|K]; by apply (not_queued _ _ _ Hnq2) in K. }
  rewrite Hw. cbn [Z.eqb].
  destruct (enqueue_core cpu_rq s2 _ T c x1 HC2 Hx2 Hnq2 Hw) as (s3 & E3 & HC3 & HF3 & Ht3 & _).
  rewrite (bind_Ret _ _ _ _ _ E3).
  assert (tcbs s3 !! c = Some x1) as Hx3.
  { rewrite Ht3, lookup_insert_eq. unfold run_link. by rewrite decide_False. }
  rewrite (bind_get_tcb _ _ _ _ Hx3), eqb_false by done. cbn [negb].
  destruct (class_queue_run _ _ Hcq) as [Hqs Hqb].
  pose proof (expire_q_grows s1 Q q Hqs Hne) as Hne2.
  destruct (expire_q s1 Q q) as [|y l _] eqn:El using rev_ind; [done|].
  apply bind_Panic. apply (remove_panics s3 (enqueue_q (class x1) c (expire_q s1 Q)) T c x1 q l y).
  - apply (si_rep _ _ _ _ HC3).
  - exact Hx3.
  - rewrite (sf_curr _ _ HF3), (sf_curr _ _ HF2). exact Ecu.
  - apply (to_rq _ _ _ _ _ Hok); by apply not_queued.
  - unfold enqueue_q. rewrite Hcq, fn_lookup_insert, El, <- app_assoc. done.
Qed.

(** C5. One tick of the scheduler.  Before the scheduler is started the timer
    interrupt changes nothing.  After that, on a consistent scheduler whose
    running thread [c] is not exiting and, if asleep, is to wake at least one
    tick period later, with counters below [2^63] and a timer within its period,
    it and the context switch it requests return without panicking: the time
    since the last tick is charged to [c] and added to the clock; the thread that
    has slept long enough and then [c] (unless asleep) go to the back of the
    queues of their classes; the head of the queue of the highest class that has
    one (else the idle thread) becomes the running thread; and the scheduler is
    consistent again.  When [c] is exiting, awake and of the application or
    background class, and a thread waits in that class, the interrupt panics.
    (Other exits, and a [thread_sleep] of 0, are not covered.) *)
Theorem systick_switch fuel (s : sched) Q T cvr psp c :
  (scheduler_status s = 0 → systick_exception cpu_rq fuel cvr s = Ret (tt, s)) ∧
  (sched_inv s Q T c → ticking s cvr c → (length T < fuel)%nat → (2 <= fuel)%nat →
  (c ∈ Q QSleep → tick s + SYSTICK_RVR <= wake_of s c) →
  let Q' := served s cvr c Q in
  ∃ s', (systick_exception cpu_rq fuel cvr ;; pendsv_exception psp) s = Ret (tt, s') ∧
    curr_thread s' = pick_of s Q' ∧ sched_inv s' (pick_q Q') T (curr_thread s') ∧
    tick s' = tick s + charged s cvr ∧ scheduler_status s' = scheduler_status s ∧
    ∀ t, runtimes <$> tcbs s' !! t = runtimes <$> account s cvr c !! t) ∧
  (∀ x q, sched_inv s Q T c → clocked s cvr c → (length T < fuel)%nat → (2 <= fuel)%nat →
   tcbs s !! c = Some x → exit_pending x ≠ 0 → ¬ queued Q c →
   class x ≠ REAL_TIME → class_queue (class x) = Some q → Q q ≠ [] →
   systick_exception cpu_rq fuel cvr s = Panic "Exiting thread exist in a list").
Proof.
  split; [intros Hst0; unfold systick_exception; by rewrite bind_gets, Hst0|].
  split; [|intros x q; apply exit_panics].
  intros [HC [HcT Hc] Ha] Htk Hf Hf2 Hw Q'. pose proof (ticking_clocked _ _ _ Htk) as Hck. pose proof (charged_bounds _ _ _ Hck) as Hch.
  destruct (account_run fuel s Q T cvr c Hck (si_rep _ _ _ _ HC) Hf)
    as (s1 & E1 & Ed & Ei & Erw & Et & Eti & _ & _ & Ecu & Est & _).
  assert (sched_same s s1) as Hsame by (constructor; [done..|]; intros t; rewrite Et; apply account_same).
  assert (expire_q s1 Q = expire_q (with_ticks (tick s + charged s cvr) 0 s) Q) as Eex
    by (apply expire_q_ext; [done|]; apply (ss_tcbs _ _ Hsame)).
  destruct (tk_exit _ _ _ Htk) as (x & Hx & Hex & _).
  pose proof (ss_tcbs _ _ Hsame c) as Ec. rewrite Hx in Ec.
  inversion Ec as [x0 x1 (Ecl & _ & _ & Eex1) Hx0 Hx1|]; subst x0. symmetry in Hx1.
  destruct (systick_rest_run fuel s1 Q T c x1) as (s' & E & HI & Hn & Hcu & Hti & Hst & Hrt & _).
  { by eapply core_same. }
  { done. }
  { done. }
  { congruence. }
  { done. }
  { rewrite (wake_of_same s s1) by apply (ss_tcbs _ _ Hsame). intros Hs. specialize (Hw Hs). lia. }
  { by rewrite Ei. }
  assert ((if decide (c ∈ Q QSleep) then expire_q s1 Q else enqueue_q (class x1) c (expire_q s1 Q)) = Q') as EQ.
  { unfold Q', served, class_at. by rewrite Eex, Hx, Ecl. }
  rewrite EQ in HI, Hn. rewrite <- E1 in E. rewrite (bind_Ret _ _ _ _ _ E).
  unfold pendsv_exception. rewrite bind_gets, Hcu, Ecu.
  assert (c ≠ null) as Hnn.
  { pose proof (sr_align _ _ _ _ (si_rep _ _ _ _ HC) c ltac:(by eexists)). unfold null. lia. }
  rewrite eqb_false by done. cbn [negb].
  assert (∃ x', tcbs s' !! c = Some x') as [x' Hx'].
  { pose proof (Hrt c) as E'. rewrite Hx1 in E'. destruct (tcbs s' !! c) as [y|]; [by exists y|done]. }
  rewrite (bind_upd_tcb _ _ _ _ x' Hx'), bind_gets. eexists. split; [reflexivity|].
  cbn [curr_thread with_curr next_thread with_tcbs tick scheduler_status]. split_and!.
  - rewrite Hn. unfold pick_of. by rewrite Ei.
  - eapply inv_same; [|exact HI]. constructor; try done. intros t. cbn [tcbs with_curr with_tcbs].
    by eapply same_update.
  - congruence.
  - congruence.
  - intros t. rewrite <- Et, <- Hrt. cbn [tcbs with_curr with_tcbs].
    destruct (decide (t = c)) as [->|Hne]; [by rewrite lookup_insert_eq, Hx'|by rewrite lookup_insert_ne].
Qed.

(** C7. The scheduling policy: on a consistent scheduler [core_scheduler]
    returns without panicking the thread at the head of the first non-empty
    queue in the order real time, application, background, and takes it out of
    that queue only; with the three queues empty it returns the idle thread
    and changes no queue. *)
Theorem core_scheduler_priority (s : sched) Q T :
  sched_core s Q T →
  ∃ t s', core_scheduler cpu_rq s = Ret (t, s') ∧
    ((∃ r, Q QRt = t :: r ∧ sched_core s' (<[QRt := r]> Q) T) ∨
     (∃ r, Q QRt = [] ∧ Q QApp = t :: r ∧ sched_core s' (<[QApp := r]> Q) T) ∨
     (∃ r, Q QRt = [] ∧ Q QApp = [] ∧ Q QBg = t :: r ∧ sched_core s' (<[QBg := r]> Q) T) ∨
     (Q QRt = [] ∧ Q QApp = [] ∧ Q QBg = [] ∧ t = idle s ∧ sched_core s' Q T)).
Proof.
  intros HC. destruct (pick_core cpu_rq s Q T HC) as (s' & E & HC' & _).
  exists (pick_of s Q), s'. split; [done|]. clear E. unfold pick_of, pick_q, next_class_of in *.
  destruct (Q QRt) as [|t r] eqn:E1; cbn [class_queue] in *.
  2: { left. exists r. rewrite E1 in *. done. }
  destruct (Q QApp) as [|t r] eqn:E2; cbn [class_queue] in *.
  2: { right; left. exists r. rewrite E2 in *. done. }
  destruct (Q QBg) as [|t r] eqn:E3; cbn [class_queue] in *.
  2: { right; right; left. exists r. rewrite E3 in *. done. }
  right; right; right. done.
Qed.
End SchedTheorems.
