(* ===== verification/SchedBlock.v ===== *)
(** * Sleeping, waking and blocking

    [thread_sleep], [process_expired_delays], [scheduler_block_thread] and
    [scheduler_unblock_thread]. *)

From stdpp Require Import functions sorting.
From S2P Require Import Prelude Memory Dlist DlistTheorems Mm Palloc Sched SchedSpec SchedProof SchedTheorems.

Section SchedBlock.
Context {H : Type} `{PageAlloc H}.
Context (cpu_rq : Z).

#[local] Notation sched := (@Sched.sched H).
#[local] Notation sched_inv := (@SchedProof.sched_inv H cpu_rq).
#[local] Notation sched_core := (@SchedProof.sched_core H cpu_rq).
#[local] Notation qaddr := (SchedSpec.qaddr cpu_rq).

(** ** Threads in the queues their [rq_list] names *)

Lemma thread_ok_linked (s : sched) Q t x q :
  (∀ q', t ∈ Q q' ↔ q' = q) → q = QSleep ∨ q = QBlocked ∨ (q = QRt ∧ class x = REAL_TIME) →
  (class x = IDLE ↔ t = idle s) → (q = QSleep → 0 < tick_to_wake x) →
  (q = QRt → tick_to_wake x = 0) → rq_list x = qaddr q →
  thread_ok cpu_rq s Q t x.
Proof.
  intros HQ Hq Hi Hs Hr Hrq. constructor; [|done| | |].
  - intros q' Hq'. apply HQ in Hq' as ->. destruct Hq as [->|[->|[-> ->]]]; auto.
  - intros Hq'. by apply Hs, eq_sym, HQ.
  - intros Hw. destruct Hq as [->|[->|[-> _]]]; [left; by apply HQ|right; by apply HQ|by destruct Hw, Hr].
  - unfold rq_list_of. rewrite !HQ. split_and!; [congruence..|]. naive_solver.
Qed.

(** The sleep queue when only another queue, or the thread [t], changes. *)
Lemma sleep_drop (s s' : sched) Q T t a b :
  sched_core s Q T → Q QSleep = a ++ t :: b → (∀ t', t' ≠ t → wake_of s' t' = wake_of s t') →
  rq_tick_to_wake s' = rq_tick_to_wake s →
  sleep_sorted s' (a ++ b) ∧ (a ++ b ≠ [] → 0 < rq_tick_to_wake s' <= head_wake s' (a ++ b)).
Proof.
  intros HC Eq Hw Erw. pose proof (si_sorted _ _ _ _ HC) as Hs. pose proof (si_wake _ _ _ _ HC) as HW.
  pose proof (srep_NoDup _ _ _ _ QSleep (si_rep _ _ _ _ HC)) as Hnd. rewrite Eq in *.
  assert (t ∉ a ++ b) as Hnin.
  { apply NoDup_app in Hnd as (_ & Hd & [Hb _]%NoDup_cons). set_solver. }
  assert (sleep_sorted s (a ++ b)) as Hs'.
  { clear -Hs. induction a as [|y a IH]; cbn in *; inversion Hs as [|? ? Hs1 Hf]; subst; [done|].
    constructor; [by apply IH|]. rewrite Forall_forall in *. intros z Hz. apply Hf. set_solver. }
  split; [eapply (sleep_sorted_ext s); [|done]; intros t' Ht'; apply Hw; by intros ->|].
  intros Hne. rewrite Erw. specialize (HW ltac:(by destruct a)). split; [lia|].
  destruct a as [|y a]; cbn [app head_wake] in *.
  - destruct b as [|z b]; [done|]. cbn [head_wake]. rewrite Hw by (intros ->; set_solver).
    inversion Hs as [|? ? _ Hf]; subst. rewrite Forall_forall in Hf. specialize (Hf z ltac:(by left)). lia.
  - rewrite Hw; [lia|]. intros ->. set_solver.
Qed.

Lemma sleep_keep (s s' : sched) Q Q' T t :
  sched_core s Q T → Q' QSleep = Q QSleep → t ∉ Q QSleep → (∀ t', t' ≠ t → wake_of s' t' = wake_of s t') →
  rq_tick_to_wake s' = rq_tick_to_wake s →
  sleep_sorted s' (Q' QSleep) ∧ (Q' QSleep ≠ [] → 0 < rq_tick_to_wake s' <= head_wake s' (Q' QSleep)).
Proof.
  intros HC Eq Ht Hw Erw. rewrite Eq. split.
  - eapply (sleep_sorted_ext s); [|apply (si_sorted _ _ _ _ HC)]. intros t' Ht'. apply Hw. by intros ->.
  - intros Hne. rewrite Erw. pose proof (si_wake _ _ _ _ HC Hne) as HW. destruct (Q QSleep) as [|y l]; [done|].
    cbn [head_wake] in *. rewrite Hw; [done|]. intros ->. set_solver.
Qed.

(** ** Sleeping *)

Lemma wake_of_insert (s : sched) t x t' :
  wake_of (with_tcbs (<[t := x]> (tcbs s)) s) t' = if decide (t' = t) then tick_to_wake x else wake_of s t'.
Proof.
  unfold wake_of. cbn. destruct (decide (t' = t)) as [->|Hne]; [by rewrite lookup_insert_eq|].
  by rewrite lookup_insert_ne.
Qed.

Lemma delay_insert_ext w w' t l :
  w' t = w t → (∀ y, y ∈ l → w' y = w y) → delay_insert w' t l = delay_insert w t l.
Proof.
  intros Et. induction l as [|y l IH]; [done|]. intros E. cbn. rewrite Et, E by (by left).
  case_match; [done|]. f_equal. apply IH. intros z Hz. apply E. by right.
Qed.

Lemma sorted_by_ext (w w' : Z → Z) l :
  (∀ t, t ∈ l → w t = w' t) → StronglySorted (λ a b, w a <= w b) l → StronglySorted (λ a b, w' a <= w' b) l.
Proof.
  intros E Hs. induction Hs as [|a l Hl IH Ha]; constructor.
  - apply IH. intros t Ht. apply E. by right.
  - rewrite Forall_forall in *. intros b Hb. rewrite <- !E by set_solver. by apply Ha.
Qed.

(** Where insertion by wake-up time puts a thread. *)
Lemma delay_insert_split (w : Z → Z) t l :
  StronglySorted (λ a b, w a <= w b) l →
  ∃ b1 b2, l = b1 ++ b2 ∧ delay_insert w t l = b1 ++ t :: b2 ∧
    (∀ y, y ∈ b1 → w y <= w t) ∧ (∀ y, y ∈ b2 → w t < w y).
Proof.
  induction 1 as [|y l Hs (b1 & b2 & E1 & E2 & H1 & H2) Hy]; cbn.
  { exists [], []. split_and!; (done || by intros y Hy%not_elem_of_nil). }
  destruct (Z.ltb_spec (w t) (w y)).
  - exists [], (y :: l). split_and!; [done|done|by intros z Hz%not_elem_of_nil|].
    intros z [->|Hz]%elem_of_cons; [done|]. rewrite Forall_forall in Hy. specialize (Hy z Hz). lia.
  - exists (y :: b1), b2. rewrite E2. split_and!; [by rewrite E1|done| |done].
    intros z [->|Hz]%elem_of_cons; [done|by apply H1].
Qed.

Definition wake_at (s : sched) (t w t' : Z) : Z := if decide (t' = t) then w else wake_of s t'.

Lemma sleep_run fuel (s : sched) Q T c ms :
  sched_core s Q T → curr_thread s = c → c ∈ T → ¬ queued Q c → c ≠ idle s →
  0 <= ms → 0 < tick s → tick s + ms * SYSTICK_RVR < 2 ^ 64 → (length T < fuel)%nat →
  let w := tick s + ms * SYSTICK_RVR in
  let Q' := <[QSleep := delay_insert (wake_at s c w) c (Q QSleep)]> Q in
  ∃ s', thread_sleep cpu_rq fuel ms s = Ret (tt, s') ∧ sched_core s' Q' T ∧
    (∀ t, wake_of s' t = wake_at s c w t) ∧ (∀ t, facts <$> tcbs s' !! t = facts <$> tcbs s !! t) ∧
    curr_thread s' = c ∧ idle s' = idle s ∧ tick s' = tick s ∧ stats_tick s' = stats_tick s ∧
    scheduler_status s' = scheduler_status s ∧ reschedule_pending s' = 1 ∧
    log s' = log s ++ [EvSystickPending].
Proof.
  intros HC Hcu HcT Hq Hi Hms Ht0 Hov Hf w Q'. pose proof (si_rep _ _ _ _ HC) as HR.
  destruct (proj1 (sr_threads _ _ _ _ HR c) HcT) as [x Hx].
  assert (SYSTICK_RVR = 300000) as ER by done.
  unfold thread_sleep, get_kernel_tick. rewrite !bind_gets, Hcu.
  rewrite (u64_small (ms * _)), (u64_small (_ + _)) by lia. fold w.
  rewrite (bind_upd_tcb _ _ _ _ x) by done.
  set (s1 := with_tcbs (<[c := set_tick_to_wake w x]> (tcbs s)) s).
  pose proof (srep_tcb _ s Q T c x (set_tick_to_wake w) HR Hx) as HR1. fold s1 in HR1.
  assert (tcbs s1 !! c = Some (set_tick_to_wake w x)) as Hx1 by apply lookup_insert_eq.
  destruct (enqueue_delay_spec cpu_rq fuel s1 Q T c _ HR1 Hx1 Hq) as (d & E & HR').
  { assert (length (Q QSleep) ≤ length T)%nat; [|lia].
    apply submseteq_length, NoDup_submseteq; [eapply srep_NoDup; exact HR|].
    intros t Ht. apply (sr_threads _ _ _ _ HR), (sr_queued _ _ _ _ HR). by exists QSleep. }
  assert (∀ t, wake_of s1 t = wake_at s c w t) as Hw1 by (intros t; unfold s1; by rewrite wake_of_insert).
  assert (delay_insert (wake_of s1) c (Q QSleep) = delay_insert (wake_at s c w) c (Q QSleep)) as El
    by (by apply delay_insert_ext).
  rewrite El in E, HR'. fold Q' in HR'. rewrite (bind_Ret _ _ _ _ _ E).
  set (s2 := delayed cpu_rq c (set_tick_to_wake w x) d _ s1) in *.
  set (x' := set_rq_list (qaddr QSleep) (set_tick_to_wake w x)).
  assert (tcbs s2 = <[c := x']> (tcbs s)) as Et2 by (unfold s2, s1; cbn; by rewrite insert_insert_eq).
  assert (∀ t, wake_of s2 t = wake_at s c w t) as Hw2.
  { intros t. unfold wake_of, wake_at. rewrite Et2. destruct (decide (t = c)) as [->|Hne].
    - by rewrite lookup_insert_eq.
    - by rewrite lookup_insert_ne. }
  eexists. split; [reflexivity|]. split_and!; try done.
  2: { intros t. cbn [tcbs with_log with_pending]. rewrite Et2. apply (facts_insert _ _ x); done. }
  apply (core_same cpu_rq s2).
  { constructor; try done. intros t. cbn. by destruct (tcbs s1 !! t); destruct (_ !! t); constructor. }
  apply (core_move cpu_rq s s2 Q Q' T c x'); [exact HC|exact HR'|done| | | | | | |].
  - intros t' q Hne. unfold Q'. rewrite elem_insert_q, elem_of_delay_insert.
    destruct (decide (q = QSleep)) as [->|]; naive_solver.
  - intros t' Hne. rewrite Et2. by apply same_insert.
  - rewrite Et2. apply lookup_insert_eq.
  - apply (thread_ok_linked _ _ _ _ QSleep); [|by left| | |done|done].
    + intros q'. unfold Q'. rewrite elem_insert_q, elem_of_delay_insert.
      pose proof (not_queued _ _ q' Hq). destruct (decide (q' = QSleep)); naive_solver.
    + apply (to_idle _ _ _ _ _ (si_thread _ _ _ _ HC c x Hx)).
    + intros _. cbn. lia.
  - intros _. done.
  - unfold Q'. rewrite fn_lookup_insert. eapply (sorted_by_ext (wake_at s c w)); [done|].
    apply delay_insert_sorted. eapply (sorted_by_ext (wake_of s)); [|apply (si_sorted _ _ _ _ HC)].
    intros t Ht. unfold wake_at. rewrite decide_False; [done|]. intros ->. by apply (not_queued _ _ QSleep) in Hq.
  - unfold Q'. rewrite fn_lookup_insert. intros Hne.
    change (rq_tick_to_wake s2) with (head_wake s1 (delay_insert (wake_at s c w) c (Q QSleep))).
    destruct (delay_insert (wake_at s c w) c (Q QSleep)) as [|y l] eqn:Ei; [done|]. cbn [head_wake].
    rewrite Hw1, Hw2. split; [|lia].
    assert (y ∈ delay_insert (wake_at s c w) c (Q QSleep)) as Hy by (rewrite Ei; by left).
    unfold wake_at. case_decide as Hyc; [lia|]. apply elem_of_delay_insert in Hy as [|Hy]; [done|].
    destruct (sr_queued _ _ _ _ HR y) as [z Hz]; [by exists QSleep|].
    rewrite <- (wake_of_tcb _ _ _ Hz). by apply (to_sleep _ _ _ _ _ (si_thread _ _ _ _ HC y z Hz)).
Qed.

(** ** Blocking *)

Definition moved_q (Q : queues) (t : Z) (q q' : qid) (a b : list Z) : queues :=
  <[q' := Q q' ++ [t]]> (<[q := a ++ b]> Q).

Lemma elem_moved (Q : queues) t q q' a b t' p :
  Q q = a ++ t :: b → t' ≠ t → t' ∈ moved_q Q t q q' a b p ↔ t' ∈ Q p.
Proof.
  intros Eq Hne. unfold moved_q. rewrite !elem_insert_q, elem_of_app, list_elem_of_singleton.
  destruct (decide (p = q')) as [->|]; [naive_solver|]. destruct (decide (p = q)) as [->|]; [|naive_solver].
  rewrite Eq, !elem_of_app, elem_of_cons. naive_solver.
Qed.

Lemma elem_moved_t (s : sched) Q T t q q' a b p :
  sched_core s Q T → Q q = a ++ t :: b → t ∈ moved_q Q t q q' a b p ↔ p = q'.
Proof.
  intros HC Eq. pose proof (dequeued _ s Q T q a t b (si_rep _ _ _ _ HC) Eq) as Hd.
  unfold moved_q. rewrite elem_insert_q, elem_of_app, list_elem_of_singleton.
  destruct (decide (p = q')) as [->|]; [naive_solver|].
  pose proof (not_queued _ _ p Hd). naive_solver.
Qed.

(** A real-time thread moves from queue [q] to queue [q'], its wake-up time
    cleared or kept. *)
Section Move.
Context (s : sched) (Q : queues) (T : list Z) (t : Z) (x : thread) (q q' : qid) (a b : list Z) (f : thread → thread).
Hypothesis HC : sched_core s Q T.
Hypothesis Hx : tcbs s !! t = Some x.
Hypothesis Hcl : class x = REAL_TIME.
Hypothesis Eq : Q q = a ++ t :: b.
Hypothesis Hqq : q ≠ q'.
Hypothesis Hq' : q' = QRt ∨ q' = QBlocked.
Hypothesis Hfc : class (f x) = class x.
Hypothesis Hff : facts (f x) = facts x.
Hypothesis Hfw : q' = QRt → tick_to_wake (f x) = 0.

(** The two list operations and the update of the control block between or
    after them. *)
Lemma move_lists :
  ∃ d1 d2, dlist_remove (rq_node t) (qaddr q) (dl s) = Ret (rq_node t, d1) ∧
    dlist_insert_last (rq_node t) (qaddr q') d1 = Ret (tt, d2) ∧
    srep cpu_rq (with_dl d2 s) (moved_q Q t q q' a b) T.
Proof.
  pose proof (si_rep _ _ _ _ HC) as HR.
  destruct (q_remove _ s Q T q HR a t b Eq) as (d1 & E1 & HR1).
  destruct (q_insert_last _ _ _ T q' HR1 t) as (d2 & E2 & HR2).
  { by eexists. }
  { by eapply dequeued. }
  exists d1, d2. split_and!; [done|done|]. unfold moved_q. by rewrite fn_lookup_insert_ne in HR2.
Qed.

Lemma move_core (s' : sched) :
  srep cpu_rq s' (moved_q Q t q q' a b) T → tcbs s' = <[t := set_rq_list (qaddr q') (f x)]> (tcbs s) →
  idle s' = idle s → rq_tick_to_wake s' = rq_tick_to_wake s → sched_core s' (moved_q Q t q q' a b) T.
Proof.
  intros HR' Et Ei Erw. pose proof (si_thread _ _ _ _ HC t x Hx) as Hok.
  assert (t ≠ idle s) as Hni by (intros E; apply (to_idle _ _ _ _ _ Hok) in E; congruence).
  assert (∀ t', t' ≠ t → wake_of s' t' = wake_of s t') as Hwk.
  { intros t' Hne. unfold wake_of. by rewrite Et, lookup_insert_ne. }
  assert (sleep_sorted s' (moved_q Q t q q' a b QSleep) ∧
    (moved_q Q t q q' a b QSleep ≠ [] → 0 < rq_tick_to_wake s' <= head_wake s' (moved_q Q t q q' a b QSleep))) as [Hs Hw].
  { unfold moved_q. rewrite fn_lookup_insert_ne by (destruct Hq' as [->| ->]; done).
    destruct (decide (q = QSleep)) as [->|Hq].
    - rewrite fn_lookup_insert. by eapply sleep_drop.
    - rewrite fn_lookup_insert_ne by done. apply (sleep_keep s s' Q Q T t HC eq_refl); try done.
      intros Ht. apply Hq. eapply (srep_one _ s Q T); [apply (si_rep _ _ _ _ HC)| |exact Ht].
      rewrite Eq. set_solver. }
  apply (core_move cpu_rq s s' Q (moved_q Q t q q' a b) T t (set_rq_list (qaddr q') (f x))); try done.
  - intros t' p Hne. by apply elem_moved.
  - intros t' Hne. rewrite Et. by apply same_insert.
  - rewrite Et. apply lookup_insert_eq.
  - apply (thread_ok_linked _ _ _ _ q'); [intros p; by eapply elem_moved_t| | | | |done].
    + destruct Hq' as [->| ->]; [right; right|right; left]; cbn; split_and?; congruence.
    + cbn. rewrite Hfc, Ei. apply Hok.
    + destruct Hq' as [->| ->]; done.
    + done.
Qed.

Lemma move_frame (s' : sched) d :
  s' = with_tcbs (<[t := set_rq_list (qaddr q') (f x)]> (tcbs s)) (with_dl d s) → sched_frame s s'.
Proof. intros ->. constructor; try done. intros t'. cbn. by apply (facts_insert _ _ x). Qed.
End Move.

(** The queue a real-time thread is linked in. *)
Lemma rt_link (s : sched) Q T t x q :
  sched_core s Q T → tcbs s !! t = Some x → class x = REAL_TIME → t ∈ Q q →
  rq_list x = qaddr q ∧ (q = QRt ∨ q = QSleep ∨ q = QBlocked).
Proof.
  intros HC Hx Hcl Hq. destruct (si_thread _ _ _ _ HC t x Hx) as [K1 _ _ _ (R1 & R2 & R3 & _)].
  rewrite Hcl in K1. destruct (K1 q Hq) as [E|[->| ->]]; auto. cbn in E. injection E as <-. auto.
Qed.

Lemma rt_block_run (s : sched) Q T t x q a b :
  sched_core s Q T → tcbs s !! t = Some x → class x = REAL_TIME → Q q = a ++ t :: b → q ≠ QBlocked →
  ∃ s', rt_block cpu_rq t s = Ret (tt, s') ∧ sched_core s' (moved_q Q t q QBlocked a b) T ∧ sched_frame s s'.
Proof.
  intros HC Hx Hcl Eq Hq.
  destruct (rt_link s Q T t x q HC Hx Hcl ltac:(rewrite Eq; set_solver)) as [Hl _].
  destruct (move_lists s Q T t x q QBlocked a b HC Hx Eq Hq) as (d1 & d2 & E1 & E2 & HR).
  eexists. split_and!.
  - unfold rt_block. rewrite (bind_get_tcb _ _ _ _ Hx), Hl.
    rewrite eqb_false by (intros E; by apply (qaddr_inj cpu_rq _ QBlocked) in E). cbv iota.
    rewrite (bind_in_dl _ _ _ _ _ E1). change (blocked_q cpu_rq) with (qaddr QBlocked).
    erewrite bind_in_dl; [|exact E2]. by rewrite (upd_tcb_Ret _ _ _ x).
  - eapply (move_core s Q T t x q QBlocked a b (λ x, x)); try done; [by right|].
    by apply (srep_tcb _ (with_dl d2 s) _ T t x (set_rq_list (qaddr QBlocked))).
  - by apply (move_frame s t x QBlocked (λ x, x) Hx eq_refl _ d2).
Qed.

Lemma rt_unblock_run (s : sched) Q T t x a b :
  sched_core s Q T → tcbs s !! t = Some x → class x = REAL_TIME → Q QBlocked = a ++ t :: b →
  ∃ s', rt_unblock cpu_rq t s = Ret (tt, s') ∧ sched_core s' (moved_q Q t QBlocked QRt a b) T ∧
    sched_frame s s' ∧ wake_of s' t = 0.
Proof.
  intros HC Hx Hcl Eq.
  destruct (rt_link s Q T t x QBlocked HC Hx Hcl ltac:(rewrite Eq; set_solver)) as [Hl _].
  destruct (move_lists s Q T t x QBlocked QRt a b HC Hx Eq ltac:(done)) as (d1 & d2 & E1 & E2 & HR).
  eexists. split_and!.
  - unfold rt_unblock. rewrite (bind_get_tcb _ _ _ _ Hx), Hl. cbn [qaddr]. rewrite Z.eqb_refl. cbn [negb].
    cbn [qaddr] in E1. rewrite (bind_in_dl _ _ _ _ _ E1), (bind_upd_tcb _ _ _ _ x) by done.
    change (rt_rq cpu_rq) with (qaddr QRt).
    erewrite bind_in_dl; [|exact E2]. erewrite upd_tcb_Ret; [|apply lookup_insert_eq].
    cbn [tcbs with_dl with_tcbs]. rewrite insert_insert_eq. reflexivity.
  - eapply (move_core s Q T t x QBlocked QRt a b (set_tick_to_wake 0)); try done; [by left|].
    by apply (srep_tcb _ (with_dl d2 s) _ T t x (λ x, set_rq_list (qaddr QRt) (set_tick_to_wake 0 x))).
  - by apply (move_frame s t x QRt (set_tick_to_wake 0) Hx eq_refl _ d2).
  - unfold wake_of. cbn. by rewrite lookup_insert_eq.
Qed.

(** A thread that is in the queue of its class cannot be enqueued again. *)
Lemma enqueue_twice (s : sched) Q T c t q :
  srep cpu_rq s Q T → class_queue c = Some q → t ∈ Q q →
  enqueue (class_of cpu_rq c) t s = Panic "List error".
Proof.
  intros HR Hc Hq. destruct (srep_open _ s Q T q HR) as (L & O & HD & HL & HO & _).
  assert (is_Some (tcbs s !! t)) as Ht by (apply (sr_queued _ _ _ _ HR); by exists q).
  assert (dlist_insert_last (rq_node t) (qaddr q) (dl s) = Panic "List error") as E.
  { unfold dlist_insert_last. apply bind_Panic. eapply (check_unlinked_bad L O); [done|done|by eexists; apply HO|].
    assert (rq_node t ∈ map rq_node (Q q)) as Hin by (apply list_elem_of_fmap; by exists t).
    destruct (map rq_node (Q q)) as [|y [|z l]] eqn:Em; [by apply not_elem_of_nil in Hin| |].
    - right. apply list_elem_of_singleton in Hin. done.
    - left. exists (qaddr q), (y :: z :: l). split_and!; [done|done|cbn; lia]. }
  assert (in_dl (dlist_insert_last (rq_node t) (qaddr q)) s = Panic "List error") as E'
    by (unfold in_dl, zoom; by rewrite E).
  destruct c; cbn in Hc; simplify_eq; cbn [class_of enqueue rt_class app_class background_class]; [|done..].
  unfold rt_enqueue. by apply bind_Panic.
Qed.

(** ** The theorems *)

(** C24. A running thread other than the idle thread that calls
    [thread_sleep(ms)] is put in the sleep queue after every thread that wakes
    at the same time or earlier and before those that wake later, with the
    wake-up time [tick + ms * SYSTICK_RVR]; the queue stays sorted, the
    run queues and the other wake-up times are unchanged, the scheduler stays
    consistent and a timer interrupt is requested. *)
Theorem thread_sleep_refines fuel (s : sched) Q T c ms :
  sched_inv s Q T c → curr_thread s = c → ¬ queued Q c → c ≠ idle s →
  0 <= ms → 0 < tick s → tick s + ms * SYSTICK_RVR < 2 ^ 64 → (length T < fuel)%nat →
  let w := tick s + ms * SYSTICK_RVR in
  ∃ s' before after, thread_sleep cpu_rq fuel ms s = Ret (tt, s') ∧
    Q QSleep = before ++ after ∧
    (∀ t, t ∈ before → wake_of s t <= w) ∧ (∀ t, t ∈ after → w < wake_of s t) ∧
    sched_inv s' (<[QSleep := before ++ c :: after]> Q) T c ∧
    (∀ t, wake_of s' t = wake_at s c w t) ∧
    reschedule_pending s' = 1 ∧ log s' = log s ++ [EvSystickPending].
Proof.
  intros [HC [HcT Hc] Ha] Hcu Hq Hi Hms Ht0 Hov Hf w.
  destruct (sleep_run fuel s Q T c ms) as (s' & E & HC' & Hw & _ & Hc' & Hi' & _ & _ & _ & Hp & Hl); try done.
  destruct (delay_insert_split (wake_at s c w) c (Q QSleep)) as (b1 & b2 & Eq & Ei & H1 & H2).
  { eapply (sorted_by_ext (wake_of s)); [|apply (si_sorted _ _ _ _ HC)]. intros t Ht.
    unfold wake_at. rewrite decide_False; [done|]. intros ->. by apply (not_queued _ _ QSleep) in Hq. }
  assert (∀ t, t ∈ Q QSleep → wake_at s c w t = wake_of s t) as Hwk.
  { intros t Ht. unfold wake_at. rewrite decide_False; [done|]. intros ->. by apply (not_queued _ _ QSleep) in Hq. }
  assert (wake_at s c w c = w) as Hwc by (unfold wake_at; by rewrite decide_True).
  exists s', b1, b2. split_and!; try done.
  - intros t Ht. specialize (H1 t Ht). rewrite Hwc, Hwk in H1 by (rewrite Eq; set_solver). done.
  - intros t Ht. specialize (H2 t Ht). rewrite Hwc, Hwk in H2 by (rewrite Eq; set_solver). done.
  - rewrite <- Ei. constructor; [done| |].
    + split; [done|]. intros q. rewrite elem_insert_q. intros [[-> _]|[_ Hq']]; [done|by apply Hc].
    + intros t Ht. rewrite Hi'. destruct (Ha t Ht) as [->|[->|[q Hqt]]]; [by left|by right; left|].
      right; right. exists q. rewrite elem_insert_q, elem_of_delay_insert.
      destruct (decide (q = QSleep)) as [->|]; [left; split; [done|by right]|by right].
Qed.

(** [process_expired_delays] on a consistent scheduler: the first sleeping
    thread, when its time has passed, moves to the back of the queue of its
    class and its wake-up time is cleared; the other sleeping threads stay in
    the sleep queue in order, also those whose time has passed too: one call
    wakes at most one thread. *)
Theorem process_expired_wakes_first fuel (s : sched) Q T :
  sched_core s Q T → (2 <= fuel)%nat →
  ∃ s', process_expired_delays cpu_rq fuel s = Ret (tt, s') ∧
    match Q QSleep with
    | t :: r =>
        if wake_of s t <? tick s then
          ∃ q, class_queue (class_at s t) = Some q ∧ wake_of s' t = 0 ∧
            sched_core s' (<[q := Q q ++ [t]]> (<[QSleep := r]> Q)) T
        else sched_core s' Q T ∧ tcbs s' = tcbs s
    | [] => sched_core s' Q T ∧ tcbs s' = tcbs s
    end.
Proof.
  intros HC Hf. destruct (expired_core cpu_rq fuel s Q T HC Hf) as (s' & E & HC' & _ & Et).
  exists s'. split; [done|]. unfold expire_q, expire_tcbs in *. destruct (Q QSleep) as [|t r] eqn:Eq; [done|].
  destruct (wake_of s t <? tick s); [|done].
  assert (queued Q t) as Hq by (exists QSleep; rewrite Eq; by left).
  destruct (queued_class cpu_rq s Q T t HC Hq) as [q Hcq]. exists q. split_and!; [done| |].
  - unfold wake_of. rewrite Et, lookup_alter_eq. by destruct (tcbs s !! t).
  - unfold enqueue_q in HC'. rewrite Hcq in HC'. destruct (class_queue_run _ _ Hcq) as [Hn _].
    by rewrite fn_lookup_insert_ne in HC'.
Qed.

(** [thread_sleep(0)] is fatal: when no sleeping thread is due, the timer
    interrupt that the call requests takes the running thread out of the sleep
    queue, puts it in the queue of its class with a wake-up time of 0, and then
    puts it in that queue a second time because its wake-up time is 0: the list
    check panics. *)
Theorem thread_sleep_zero_panics fuel (s : sched) Q T c cvr :
  sched_inv s Q T c → ticking s cvr c → cvr < SYSTICK_RVR → ¬ queued Q c → c ≠ idle s →
  0 < tick s → (∀ t, t ∈ Q QSleep → tick s < wake_of s t) → (length T < fuel)%nat → (2 <= fuel)%nat →
  (thread_sleep cpu_rq fuel 0 ;; systick_exception cpu_rq fuel cvr) s = Panic "List error".
Proof.
  intros [HC [HcT Hc] Ha] Htk Hcvr Hq Hi Ht0 Hsl Hf Hf2. pose proof Htk as [Hst Hcu Hcv Hti Hss (x & Hx & Hex & Hrn)].
  destruct (sleep_run fuel s Q T c 0) as (s1 & E & HC1 & Hw1 & Hfa & Hc1 & Hi1 & Ht1 & Hs1 & Hst1 & Hp & _); try done.
  { lia. }
  rewrite (bind_Ret _ _ _ _ _ E). clear E. set (w := tick s + 0 * SYSTICK_RVR) in *.
  assert (delay_insert (wake_at s c w) c (Q QSleep) = c :: Q QSleep) as Ei.
  { destruct (Q QSleep) as [|y l] eqn:Eq; [done|]. cbn. specialize (Hsl y ltac:(by left)).
    assert (y ≠ c) as Hne by (intros ->; apply Hq; exists QSleep; rewrite Eq; by left).
    unfold wake_at. rewrite decide_True, decide_False by done. by rewrite (proj2 (Z.ltb_lt _ _)) by lia. }
  rewrite Ei in HC1. set (Q1 := <[QSleep := c :: Q QSleep]> Q) in *.
  assert (ticking s1 cvr c) as Htk1.
  { constructor; rewrite ?Hst1, ?Ht1, ?Hs1; try done. specialize (Hfa c). rewrite Hx in Hfa.
    destruct (tcbs s1 !! c) as [y|]; [|done]. exists y. cbn in Hfa. injection Hfa as _ _ _ -> _ ->. done. }
  assert (charged s1 cvr = SYSTICK_RVR - cvr) as Ech by (unfold charged; by rewrite Hp).
  destruct (account_run cpu_rq fuel s1 Q1 T cvr c (ticking_clocked _ _ _ Htk1) (si_rep _ _ _ _ HC1) Hf)
    as (s2 & E2 & Ed2 & Ei2 & Erw2 & Et2 & Eti2 & _).
  rewrite E2. clear E2. unfold systick_rest.
  assert (sched_same s1 s2) as Hsame by (constructor; [done..|]; intros t; rewrite Et2; apply account_same).
  pose proof (core_same _ _ _ _ _ Hsame HC1) as HC2.
  destruct (expired_core cpu_rq fuel s2 Q1 T HC2 Hf2) as (s3 & E3 & HC3 & HF3 & Et3).
  rewrite (bind_Ret _ _ _ _ _ E3). unfold expire_q, expire_tcbs in *.
  assert (Q1 QSleep = c :: Q QSleep) as EQ1 by (unfold Q1; by rewrite fn_lookup_insert). rewrite EQ1 in *.
  assert (wake_of s2 c <? tick s2 = true) as Elt.
  { apply Z.ltb_lt. rewrite (wake_of_same s1 s2) by apply (ss_tcbs _ _ Hsame).
    rewrite Hw1, Eti2, Ech, Ht1. unfold wake_at, w. rewrite decide_True by done. lia. }
  rewrite Elt in *.
  destruct (queued_class cpu_rq s2 Q1 T c HC2) as [q Hcq]; [exists QSleep; rewrite EQ1; by left|].
  unfold class_at in *. destruct (tcbs s2 !! c) as [x2|] eqn:Ex2; [|done].
  rewrite (bind_get_tcb _ _ _ (set_tick_to_wake 0 (run_link cpu_rq (set_rq_list null x2))))
    by (rewrite Et3, lookup_alter_eq, Ex2; done).
  cbn [tick_to_wake set_tick_to_wake Z.eqb class]. rewrite run_link_class. cbn [class set_rq_list].
  apply bind_Panic. apply (enqueue_twice _ _ T _ _ q (si_rep _ _ _ _ HC3) Hcq).
  rewrite elem_enqueue_q. by right.
Qed.

(** Blocking and unblocking a real-time thread that is not running:
    [scheduler_block_thread] moves it from its queue, ready or sleeping, to
    the blocked queue and leaves one that is blocked alone;
    [scheduler_unblock_thread] moves it from the blocked queue to the back of
    the real-time queue and clears its wake-up time, and leaves one that is
    not blocked alone; the scheduler stays consistent.  On the running thread
    both panic. *)
Theorem block_unblock_refines (s : sched) Q T c t x :
  sched_inv s Q T c → curr_thread s = c → tcbs s !! t = Some x → class x = REAL_TIME →
  (t = c → ∃ m, scheduler_block_thread cpu_rq t s = Panic m ∧ scheduler_unblock_thread cpu_rq t s = Panic m) ∧
  (t ≠ c → ∀ q a b, Q q = a ++ t :: b →
     ∃ s1 s2, scheduler_block_thread cpu_rq t s = Ret (tt, s1) ∧ scheduler_unblock_thread cpu_rq t s = Ret (tt, s2) ∧
       if decide (q = QBlocked)
       then s1 = s ∧ wake_of s2 t = 0 ∧ sched_inv s2 (<[QRt := Q QRt ++ [t]]> (<[QBlocked := a ++ b]> Q)) T c
       else s2 = s ∧ sched_inv s1 (<[QBlocked := Q QBlocked ++ [t]]> (<[q := a ++ b]> Q)) T c).
Proof.
  intros [HC [HcT Hc] Ha] Hcu Hx Hcl. unfold scheduler_block_thread, scheduler_unblock_thread.
  split.
  { intros ->. exists "ERROR". rewrite !bind_gets, Hcu, Z.eqb_refl. unfold reschedule, emit.
    rewrite !bind_bind, !bind_modify, !bind_gets. cbn [curr_thread with_pending with_log].
    by rewrite Hcu, Z.eqb_refl. }
  intros Hne q a b Eq. rewrite !bind_gets, Hcu, (eqb_false t c) by done.
  rewrite !bind_ret, !bind_gets, Hcu, (eqb_false t c) by done. rewrite !(bind_get_tcb _ _ _ _ Hx), Hcl.
  cbn [class_of call block unblock rt_class].
  destruct (rt_link s Q T t x q HC Hx Hcl ltac:(rewrite Eq; set_solver)) as [Hl Hq].
  assert (∀ s' q', sched_frame s s' → q ≠ q' → sched_core s' (moved_q Q t q q' a b) T → sched_inv s' (moved_q Q t q q' a b) T c) as Hup.
  { intros s' q' HF Hqq HC'. constructor; [done| |].
    - split; [done|]. intros p Hp. apply Hc. by eapply (elem_moved Q t q q' a b).
    - intros t' Ht'. rewrite (sf_idle _ _ HF). destruct (Ha t' Ht') as [->|[->|[p Hp]]]; [by left|by right; left|].
      right; right. destruct (decide (t' = t)) as [->|Hn].
      + exists q'. by apply (elem_moved_t s Q T t q q' a b q' HC Eq).
      + exists p. by eapply (elem_moved Q t q q' a b). }
  case_decide as Hqb.
  - subst q. destruct (rt_unblock_run s Q T t x a b HC Hx Hcl Eq) as (s2 & E & HC' & HF & Hw).
    exists s, s2. split_and!; [|done|done|done|by apply Hup].
    unfold rt_block. rewrite (bind_get_tcb _ _ _ _ Hx), Hl. cbn [qaddr]. by rewrite Z.eqb_refl.
  - destruct (rt_block_run s Q T t x q a b HC Hx Hcl Eq Hqb) as (s1 & E & HC' & HF).
    exists s1, s. split_and!; [done| |done|by apply Hup].
    unfold rt_unblock. rewrite (bind_get_tcb _ _ _ _ Hx), Hl.
    by rewrite eqb_false by (intros E'; by apply (qaddr_inj cpu_rq _ QBlocked) in E').
Qed.
End SchedBlock.
