(* ===== verification/SchedThread.v ===== *)
(** * Threads

    The stack frame [stack_setup] builds, and finding a thread by its number. *)

From stdpp Require Import functions.
From S2P Require Import Prelude Memory Dlist DlistTheorems Mm Palloc Sched SchedSpec SchedProof.

(** ** The initial stack frame *)

(** What the context switch and the exception return pop, in that order. *)
Record frame := Frame {
  callee_saved : list Z;      (* R4 to R11 *)
  f_r0 : Z;
  scratch : list Z;           (* R1, R2, R3, R12 *)
  f_lr : Z;
  f_pc : Z;
  f_xpsr : Z
}.

Definition pop_frame (m : mem) (sp : Z) : frame :=
  let w (i : Z) := ld32 m (sp + 4 * i) in
  Frame (w <$> [0; 1; 2; 3; 4; 5; 6; 7]) (w 8) (w <$> [9; 10; 11; 12]) (w 13) (w 14) (w 15).

Lemma push_words_spec ws sp (m : mem) :
  ∃ m', push_words ws sp m = Ret (sp - 4 * Z.of_nat (length ws), m') ∧
    (∀ i w, ws !! i = Some w → ld32 m' (sp - 4 * Z.of_nat i) = u32 w) ∧
    same_outside (λ a, sp - 4 * Z.of_nat (length ws) + 4 <= a < sp + 4) m m'.
Proof.
  revert sp m; induction ws as [|w ws IH]; intros sp m; cbn [push_words length].
  { exists m. split_and!; [|done|done]. unfold ret. do 2 f_equal. lia. }
  destruct (IH (sp - 4) (st32 m sp w)) as (m' & E & Hw & Hs). exists m'. split_and!.
  - rewrite bind_modify, E. do 2 f_equal. lia.
  - intros [|i] v Hv; cbn in Hv.
    + injection Hv as <-. rewrite (same_outside_ld32 _ _ _ _ Hs) by (intros; lia).
      replace (sp - 4 * Z.of_nat 0) with sp by lia. apply ld32_st32_eq.
    + specialize (Hw i v Hv). by replace (sp - 4 * Z.of_nat (S i)) with (sp - 4 - 4 * Z.of_nat i) by lia.
  - eapply same_outside_trans.
    + apply (same_outside_st32 (λ a, sp - 4 * Z.of_nat (S (length ws)) + 4 <= a < sp + 4) m sp w). intros; lia.
    + eapply same_outside_mono; [|exact Hs]. cbn. intros; lia.
Qed.

(** [stack_setup] prepares the stack so that the first context switch to the
    thread starts it: the words popped from the stack pointer it returns make
    the processor enter the thread's function in Thumb state with the argument in
    R0 and [thread_exit] as the return address; the frame lies within the sixteen
    words below the initial stack pointer and nothing else is written. *)
Theorem stack_setup_frame thread_exit_addr sp thread_ arg (m : mem) :
  0 <= thread_ < 2 ^ 32 → 0 <= arg < 2 ^ 32 → 0 <= thread_exit_addr < 2 ^ 32 →
  ∃ m', stack_setup thread_exit_addr sp thread_ arg m = Ret (sp - 64, m') ∧
    pop_frame m' (sp - 64) =
      Frame (replicate 8 0xCAFECAFE) arg (replicate 4 0xCAFECAFE) thread_exit_addr thread_ 0x1000000 ∧
    same_outside (λ a, sp - 64 <= a < sp) m m'.
Proof.
  intros Ht Ha He. unfold stack_setup.
  destruct (push_words_spec (frame_words thread_exit_addr thread_ arg) (sp - 4) m) as (m1 & E & Hw & Hs).
  rewrite (bind_Ret _ _ _ _ _ E). cbn [frame_words length] in *.
  rewrite bind_modify. eexists. split_and!.
  - unfold ret. do 2 f_equal. lia.
  - replace (sp - 4 - 4 * Z.of_nat 15) with (sp - 64) by lia.
    set (m2 := st32 m1 (sp - 64) 0xCAFECAFE).
    assert (∀ i k w, frame_words thread_exit_addr thread_ arg !! i = Some w → k = 15 - Z.of_nat i →
      ld32 m2 (sp - 64 + 4 * k) = u32 w) as Hr.
    { intros i k w Hi ->. pose proof (lookup_lt_Some _ _ _ Hi) as Hlt. cbn in Hlt.
      unfold m2. rewrite ld32_st32_ne by lia. rewrite <- (Hw i w Hi). f_equal. lia. }
    unfold pop_frame, fmap, list_fmap.
    rewrite (Hr 0%nat 15 _ eq_refl eq_refl), (Hr 1%nat 14 _ eq_refl eq_refl), (Hr 2%nat 13 _ eq_refl eq_refl),
      (Hr 3%nat 12 _ eq_refl eq_refl), (Hr 4%nat 11 _ eq_refl eq_refl), (Hr 5%nat 10 _ eq_refl eq_refl),
      (Hr 6%nat 9 _ eq_refl eq_refl), (Hr 7%nat 8 _ eq_refl eq_refl), (Hr 8%nat 7 _ eq_refl eq_refl),
      (Hr 9%nat 6 _ eq_refl eq_refl), (Hr 10%nat 5 _ eq_refl eq_refl), (Hr 11%nat 4 _ eq_refl eq_refl),
      (Hr 12%nat 3 _ eq_refl eq_refl), (Hr 13%nat 2 _ eq_refl eq_refl), (Hr 14%nat 1 _ eq_refl eq_refl).
    unfold m2. clear m2 Hr.
    replace (sp - 64 + 4 * 0) with (sp - 64) by lia. rewrite ld32_st32_eq.
    rewrite (u32_small thread_), (u32_small arg), (u32_small thread_exit_addr) by lia. done.
  - eapply same_outside_trans.
    + eapply same_outside_mono; [|exact Hs]. cbn. intros; lia.
    + apply same_outside_st32. intros; lia.
Qed.

Lemma stack_setup_frame_witness :
  ∃ m', stack_setup 0x404000 0x20000400 0x405001 7 ∅ = Ret (0x200003C0, m') ∧ f_r0 (pop_frame m' 0x200003C0) = 7.
Proof.
  destruct (stack_setup_frame 0x404000 0x20000400 0x405001 7 ∅ ltac:(lia) ltac:(lia) ltac:(lia)) as (m' & E & Hf & _).
  exists m'. split; [exact E|]. replace 0x200003C0 with (0x20000400 - 64) by lia. rewrite Hf. reflexivity.
Defined.

(** ** Threads by number *)

Section Threads.
Context {H : Type} `{PageAlloc H}.
Context (cpu_rq : Z).

#[local] Notation sched := (@Sched.sched H).
#[local] Notation srep := (@SchedSpec.srep H cpu_rq).

Definition tid_of (s : sched) (t : Z) : option Z := tid <$> tcbs s !! t.

(** The first thread of the list with the number. *)
Fixpoint find_tid (s : sched) (l : list Z) (id : Z) : Z :=
  match l with
  | [] => null
  | t :: l => if decide (tid_of s t = Some id) then t else find_tid s l id
  end.

Lemma get_thread_loop_spec fuel (s : sched) Q T id a b :
  srep s Q T → T = a ++ b → (length b < fuel)%nat →
  get_thread_loop fuel (hd null (map thread_node b)) id s = Ret (find_tid s b id, s).
Proof.
  revert fuel a; induction b as [|t b IH]; intros [|fuel] a HR E Hf; try (cbn in Hf; lia); [done|].
  destruct (thread_list _ _ _ _ HR) as (_ & _ & Hnode). destruct (Hnode _ _ _ E) as [Hn0 Hrun].
  assert (is_Some (tcbs s !! t)) as [x Hx] by (apply (sr_threads _ _ _ _ HR); rewrite E; set_solver).
  cbn [map hd get_thread_loop find_tid]. rewrite eqb_false by done. cbn [negb]. rewrite Hrun. cbn [obj next].
  rewrite (bind_get_tcb _ _ _ _ Hx). 
  assert (tid_of s t = Some (tid x)) as Hid by (unfold tid_of; by rewrite Hx).
  destruct (Z.eqb_spec (tid x) id) as [<-|Hne].
  - by rewrite decide_True.
  - rewrite decide_False by congruence. apply (IH fuel (a ++ [t])); [done|by rewrite <- app_assoc|].
    cbn in Hf. lia.
Qed.

Lemma get_thread_run fuel (s : sched) Q T id :
  srep s Q T → (length T < fuel)%nat → get_thread cpu_rq fuel id s = Ret (find_tid s T id, s).
Proof.
  intros HR Hf. destruct (thread_list _ _ _ _ HR) as (_ & (l & Hl & Hfl) & _).
  unfold get_thread. rewrite Hl, Hfl. by apply (get_thread_loop_spec fuel s Q T id []).
Qed.

Lemma find_tid_spec (s : sched) l id :
  match find_tid s l id with
  | t => (t ∈ l ∧ tid_of s t = Some id) ∨ (t = null ∧ ∀ t', t' ∈ l → tid_of s t' ≠ Some id)
  end.
Proof.
  induction l as [|t l IH]; cbn.
  { right. split; [done|]. by intros t' Ht%not_elem_of_nil. }
  case_decide as Ht; [left; split; [by left|done]|].
  destruct IH as [[Hin He]|[-> Hall]]; [left; split; [by right|done]|].
  right. split; [done|]. intros t' [->|Hin]%elem_of_cons; [done|by apply Hall].
Qed.

(** [get_thread] terminates and finds the thread with a number: it returns
    a thread that has it, and NULL exactly when no thread has it; it changes
    nothing.  [kill_thread] marks the thread it finds as exiting and restarts
    the scheduler; [thread_block] and [thread_unblock] dereference NULL when
    there is no such thread. *)
Theorem get_thread_finds fuel (s : sched) Q T id :
  srep s Q T → (length T < fuel)%nat →
  (∃ t, t ∈ T ∧ tid_of s t = Some id ∧ get_thread cpu_rq fuel id s = Ret (t, s) ∧
     ∃ x, tcbs s !! t = Some x ∧
       kill_thread cpu_rq fuel id s =
         Ret (tt, with_status 1 (with_tcbs (<[t := set_exit_pending 1 x]> (tcbs s)) s))) ∨
  ((∀ t, t ∈ T → tid_of s t ≠ Some id) ∧ get_thread cpu_rq fuel id s = Ret (null, s) ∧
     (curr_thread s ≠ null → thread_block cpu_rq fuel id s = UB ∧ thread_unblock cpu_rq fuel id s = UB)).
Proof.
  intros HR Hf. pose proof (get_thread_run fuel s Q T id HR Hf) as E.
  assert (get_thread cpu_rq fuel id (with_status 0 s) = Ret (find_tid s T id, with_status 0 s)) as E0.
  { assert (srep (with_status 0 s) Q T) as HR0 by (by eapply srep_ext; [| |exact HR]).
    rewrite (get_thread_run fuel _ Q T id HR0 Hf). do 2 f_equal. clear. induction T as [|t T IH]; [done|].
    cbn. by rewrite IH. }
  pose proof (find_tid_spec s T id) as Hfind. cbn in Hfind.
  destruct Hfind as [[Hin He]|[Hn Hall]].
  - left. exists (find_tid s T id). split_and!; [done..|].
    destruct (proj1 (sr_threads _ _ _ _ HR _) Hin) as [x Hx]. exists x. split; [done|].
    unfold kill_thread, suspend_scheduler, resume_scheduler. rewrite bind_modify, (bind_Ret _ _ _ _ _ E0).
    rewrite eqb_false by (pose proof (sr_align _ _ _ _ HR _ ltac:(by eexists)); unfold null; lia).
    cbn [negb]. by rewrite (bind_upd_tcb _ _ _ _ x).
  - right. rewrite Hn in *. split_and!; [done..|]. intros Hc.
    assert (tcbs s !! null = None) as Hnull.
    { destruct (tcbs s !! null) as [x|] eqn:Ex; [|done].
      pose proof (sr_align _ _ _ _ HR null ltac:(by eexists)). unfold null in *. lia. }
    unfold thread_block, thread_unblock. rewrite !(bind_Ret _ _ _ _ _ E).
    unfold scheduler_block_thread, scheduler_unblock_thread. rewrite !bind_gets.
    rewrite (eqb_false null (curr_thread s)) by congruence. rewrite !bind_ret, !bind_gets.
    rewrite (eqb_false null (curr_thread s)) by congruence. unfold bind, get_tcb. by rewrite Hnull.
Qed.
End Threads.
