(* ===== verification/SchedNew.v ===== *)
(** * Creating threads (kernel/thread.c)

    [new_thread] on a running scheduler: it adds one thread to the thread list and to
    the back of the queue of its class, in memory the page allocator gives it, and
    prepares its stack; everything else stays as it was. *)

From stdpp Require Import functions sorting.
From S2P Require Import Prelude Memory Dlist DlistTheorems Mm Palloc Sched SchedSpec SchedProof SchedThread.

(** A node that is in no list may be initialised. *)
Lemma put_node_spec L O s p o :
  drep L O s → p ≠ null → unlinked L p →
  ∃ s', put_node p (DNode null null o) s = Ret (tt, s') ∧ drep L (<[p := o]> O) s'.
Proof.
  intros HR Hp Hu. destruct s as [ns ls]. eexists. split; [reflexivity|].
  pose proof HR as [Hl Hc Hnd Hlen Hdj Ho Hn Hf]. constructor; cbn [nodes lists] in *; try done.
  - intros l xs E. apply dseg_insert_out; [by eapply Hu|by apply Hc in E].
  - intros q. destruct (decide (q = p)) as [->|Hne]; [by rewrite !lookup_insert_eq|].
    rewrite !lookup_insert_ne by done. apply Ho.
  - by rewrite lookup_insert_ne.
  - intros q n [[<- <-]|[Hne E]]%lookup_insert_Some Hq; [done|]. by eapply Hf.
Qed.

Lemma push_words_bytes ws sp m sp' m' : mem_bytes m → push_words ws sp m = Ret (sp', m') → mem_bytes m'.
Proof.
  revert sp m; induction ws as [|w ws IH]; intros sp m Hm E; cbn in E; [unfold ret in E; by simplify_eq|].
  unfold modify, bind in E. eapply IH; [|exact E]. by apply mem_bytes_st32.
Qed.
Lemma stack_setup_bytes ex sp th arg m sp' m' : mem_bytes m → stack_setup ex sp th arg m = Ret (sp', m') → mem_bytes m'.
Proof.
  intros Hm E. unfold stack_setup in E. apply bind_inv in E as (sp1 & m1 & E1 & E).
  unfold bind, modify, ret in E. simplify_eq. apply mem_bytes_st32. by eapply push_words_bytes.
Qed.

Section New.
Context {H : Type} `{PageAlloc H}.
Context (cpu_rq thread_exit_addr : Z).

#[local] Notation sched := (@Sched.sched H).
#[local] Notation srep := (@SchedSpec.srep H cpu_rq).
#[local] Notation qaddr := (SchedSpec.qaddr cpu_rq).
#[local] Notation sched_core := (@SchedProof.sched_core H cpu_rq).
#[local] Notation sched_inv := (@SchedProof.sched_inv H cpu_rq).

Lemma unlinked_insert (L : gmap Z (list Z)) l xs p : unlinked L p → p ∉ xs → unlinked (<[l := xs]> L) p.
Proof. intros Hu Hp l' ys [[<- <-]|[_ E]]%lookup_insert_Some; [done|by eapply Hu]. Qed.

(** The nodes of a thread at a fresh address are in no list. *)
Lemma fresh_unlinked (s : sched) Q T L t :
  (∀ q, L !! qaddr q = Some (map rq_node (Q q))) → L !! threads cpu_rq = Some (map thread_node T) →
  (∀ l xs, L !! l = Some xs → l = threads cpu_rq ∨ ∃ q, l = qaddr q) →
  srep s Q T → tcbs s !! t = None → t mod 8 = 0 →
  unlinked L (rq_node t) ∧ unlinked L (thread_node t).
Proof.
  intros HQ HT HL HR Ht Ha.
  assert (∀ u, u ∈ T ∨ queued Q u → u mod 8 = 0 ∧ u ≠ t) as Hu.
  { intros u Hu. assert (is_Some (tcbs s !! u)) as Hsu.
    { destruct Hu as [Hu|Hu]; [by apply (sr_threads _ _ _ _ HR)|by apply (sr_queued _ _ _ _ HR)]. }
    split; [by apply (sr_align _ _ _ _ HR)|]. intros ->. rewrite Ht in Hsu. by destruct Hsu. }
  split; intros l xs Hl Hin; destruct (HL _ _ Hl) as [->|[q ->]].
  all: rewrite ?HT, ?HQ in Hl; injection Hl as <-; apply list_elem_of_fmap in Hin as (u & E & Hin).
  all: assert (u mod 8 = 0 ∧ u ≠ t) as [Hu8 Hne] by (apply Hu; first [by left|by right; exists q]).
  all: unfold rq_node, thread_node in E; lia.
Qed.

(** The state in which [new_thread] has created the control block of [t] and its nodes. *)
Definition created (t : Z) (x : thread) (d : dstore) (s : sched) : sched :=
  with_tcbs (<[t := x]> (tcbs s)) (with_dl d s).

Lemma link_spec (s : sched) Q T t x :
  srep s Q T → tcbs s !! t = None → t mod 8 = 0 → 0 < t → Z.of_nat (length T) < 4294967289 →
  ∃ d1 d2, put_node (rq_node t) (DNode null null t) (dl s) = Ret (tt, d1) ∧
    put_node (thread_node t) (DNode null null t) d1 = Ret (tt, d2) ∧
    ∃ d3 d4, enqueue (class_of cpu_rq (class x)) t (created t x d2 s) = Ret (tt, enqueued cpu_rq (class x) t x d3 (created t x d2 s)) ∧
      dl (enqueued cpu_rq (class x) t x d3 (created t x d2 s)) = d3 ∧
      dlist_insert_first (thread_node t) (threads cpu_rq) d3 = Ret (tt, d4) ∧
      srep (enqueued cpu_rq (class x) t x d4 (created t x d4 s)) (enqueue_q (class x) t Q) (t :: T).
Proof.
  intros HR Ht Ha Hp Hlen.
  pose proof HR as [(L & O & HD & HQ & HT & HL & HO) Hal Hth Hq _].
  destruct (fresh_unlinked s Q T L t HQ HT HL HR Ht Ha) as [Hur Hut].
  assert (rq_node t ≠ thread_node t) as Hne by (unfold rq_node, thread_node; lia).
  destruct (put_node_spec _ _ _ (rq_node t) t HD ltac:(unfold rq_node, null; lia) Hur) as (d1 & E1 & HD1).
  destruct (put_node_spec _ _ _ (thread_node t) t HD1 ltac:(unfold thread_node, null; lia) Hut) as (d2 & E2 & HD2).
  exists d1, d2. split; [done|]. split; [done|]. set (O' := <[thread_node t := t]> (<[rq_node t := t]> O)) in *.
  set (L1 := match class_queue (class x) with Some q => <[qaddr q := map rq_node (enqueue_q (class x) t Q q)]> L | None => L end).
  assert (∃ d3, enqueue (class_of cpu_rq (class x)) t (created t x d2 s) =
      Ret (tt, enqueued cpu_rq (class x) t x d3 (created t x d2 s)) ∧
      dl (enqueued cpu_rq (class x) t x d3 (created t x d2 s)) = d3 ∧ drep L1 O' d3) as (d3 & E3 & Ed3 & HD3).
  { assert (∀ q, ∃ d3, dlist_insert_last (rq_node t) (qaddr q) d2 = Ret (tt, d3) ∧
        drep (<[qaddr q := map rq_node (Q q ++ [t])]> L) O' d3) as Hins.
    { intros q. pose proof (srep_len _ _ _ _ q HR). rewrite map_app. eapply insert_last_spec; try done.
      - unfold O'. rewrite lookup_insert_ne by done. apply lookup_insert_eq.
      - rewrite length_map. lia. }
    unfold L1, enqueue_q. destruct (class x); cbn [class_queue].
    - destruct (Hins QRt) as (d3 & E3 & HD3). exists d3. rewrite fn_lookup_insert. split; [|by split].
      cbn. unfold rt_enqueue. rewrite (bind_in_dl (dlist_insert_last (rq_node t) (rt_rq cpu_rq)) _ (created t x d2 s) _ _ E3).
      rewrite (upd_tcb_Ret _ _ _ x); [done|]. cbn. apply lookup_insert_eq.
    - destruct (Hins QApp) as (d3 & E3 & HD3). exists d3. rewrite fn_lookup_insert. split; [|by split].
      by apply in_dl_Ret.
    - destruct (Hins QBg) as (d3 & E3 & HD3). exists d3. rewrite fn_lookup_insert. split; [|by split].
      by apply in_dl_Ret.
    - by exists d2. }
  assert (L1 !! threads cpu_rq = Some (map thread_node T)) as HT1.
  { unfold L1. destruct (class_queue _); [|done]. rewrite lookup_insert_ne; [done|]. apply qaddr_threads. }
  destruct (insert_first_spec _ _ _ (thread_node t) _ _ t HD3 HT1) as (d4 & E4 & HD4).
  { apply lookup_insert_eq. }
  { unfold L1. destruct (class_queue _) as [q|]; [|done]. apply unlinked_insert; [done|].
    intros (u & E & Hu)%list_elem_of_fmap. assert (u mod 8 = 0); [|unfold rq_node, thread_node in E; lia].
    apply elem_enqueue_q in Hu as [Hu|[_ ->]]; [|done]. apply Hal, Hq. by exists q. }
  { rewrite length_map. lia. }
  exists d3, d4. do 3 (split; [done|]).
  assert (∀ u, is_Some (tcbs (enqueued cpu_rq (class x) t x d4 (created t x d4 s)) !! u) ↔ u = t ∨ is_Some (tcbs s !! u)) as Hdom.
  { intros u. assert (is_Some (<[t := x]> (tcbs s) !! u) ↔ u = t ∨ is_Some (tcbs s !! u)) as E.
    { rewrite lookup_insert_is_Some'. split; (intros [->|]; [by left|by right]). }
    destruct (class x); cbn; try done. rewrite insert_insert_eq, lookup_insert_is_Some'.
    split; (intros [->|]; [by left|by right]). }
  constructor.
  - exists (<[threads cpu_rq := thread_node t :: map thread_node T]> L1), O'. split_and!.
    + by destruct (class x).
    + intros q. rewrite lookup_insert_ne by (intros E; by apply (qaddr_threads cpu_rq q)).
      unfold L1, enqueue_q. destruct (class_queue (class x)) as [q0|]; [|done].
      destruct (decide (q0 = q)) as [->|Hq0]; [by rewrite lookup_insert_eq|].
      rewrite lookup_insert_ne by (intros E; by apply qaddr_inj in E). rewrite HQ. symmetry. f_equal. f_equal. by apply (fn_lookup_insert_ne Q).
    + apply lookup_insert_eq.
    + intros l xs [[<- _]|[_ Hl]]%lookup_insert_Some; [by left|]. unfold L1 in Hl.
      destruct (class_queue (class x)) as [q|]; [|by eapply HL].
      apply lookup_insert_Some in Hl as [[<- _]|[_ Hl]]; [right; by exists q|by eapply HL].
    + intros u Hu. apply Hdom in Hu. unfold O'.
      destruct Hu as [->|Hu].
      { rewrite lookup_insert_eq, lookup_insert_ne by done. by rewrite lookup_insert_eq. }
      destruct (decide (u = t)) as [->|Hut'].
      { rewrite lookup_insert_eq, lookup_insert_ne by done. by rewrite lookup_insert_eq. }
      pose proof (Hal u Hu) as [Hu8 _]. unfold rq_node, thread_node in *.
      rewrite !lookup_insert_ne by lia. by apply HO.
  - intros u Hu. apply Hdom in Hu as [->|Hu]; [done|by apply Hal].
  - intros u. rewrite Hdom, elem_of_cons, Hth. done.
  - intros u [q Hu]. apply Hdom. apply elem_enqueue_q in Hu as [Hu|[_ ->]]; [|by left]. right. apply Hq. by exists q.
  - cbn. lia.
Qed.

Lemma created_tcbs t x d (s : sched) :
  tcbs (enqueued cpu_rq (class x) t x d (created t x d s)) = <[t := run_link cpu_rq x]> (tcbs s).
Proof. unfold run_link. destruct (class x); cbn; [apply insert_insert_eq|done..]. Qed.

Lemma created_core (s : sched) Q T t x d :
  let s' := enqueued cpu_rq (class x) t x d (created t x d s) in
  sched_core s Q T → tcbs s !! t = None → class x ≠ IDLE → tick_to_wake x = 0 → rq_list x = null →
  srep s' (enqueue_q (class x) t Q) (t :: T) → sched_core s' (enqueue_q (class x) t Q) (t :: T).
Proof.
  intros s' [HR Hth [Hi Hni] Hs Hw] Ht Hc Htw Hrq HR'.
  pose proof (created_tcbs t x d s) as Etc. fold s' in Etc.
  assert (idle s' = idle s) as Ei by (unfold s'; by destruct (class x)).
  assert (rq_tick_to_wake s' = rq_tick_to_wake s) as Er by (unfold s'; by destruct (class x)).
  assert (∀ u, queued Q u ∨ u ∈ T → u ≠ t) as Hne.
  { intros u Hu ->. assert (is_Some (tcbs s !! t)) as [y Hy]; [|congruence].
    destruct Hu; [by apply (sr_queued _ _ _ _ HR)|by apply (sr_threads _ _ _ _ HR)]. }
  assert (¬ queued Q t) as Hnq by (intros Hq; by destruct (Hne t (or_introl Hq))).
  assert (∀ u, u ≠ t → wake_of s' u = wake_of s u) as Hwk.
  { intros u Hu. unfold wake_of. by rewrite Etc, lookup_insert_ne. }
  assert (∀ q, class_queue (class x) = Some q → q ≠ QSleep) as HnS by (intros q Eq; exact (proj1 (class_queue_run _ _ Eq))).
  assert (enqueue_q (class x) t Q QSleep = Q QSleep) as Esl.
  { unfold enqueue_q. destruct (class_queue (class x)) as [q|] eqn:Eq; [|done]. apply fn_lookup_insert_ne. by apply HnS. }
  constructor; [done| | | |].
  - intros u y Hy. rewrite Etc in Hy. apply lookup_insert_Some in Hy as [[<- <-]|[Hut Hy]].
    + assert (thread_ok cpu_rq s (enqueue_q (class x) t Q) t (run_link cpu_rq x)) as [K1 K2 K3 K4 K5].
      { apply thread_ok_run; try done. split; [done|]. intros ->. by destruct (Hne (idle s) (or_intror Hi)). }
      constructor; try done. by rewrite Ei.
    + eapply thread_ok_ext; [exact Ei| |done|by apply Hth]. intros q. rewrite elem_enqueue_q. naive_solver.
  - rewrite Ei. split; [by right|]. intros [q Hq]. apply elem_enqueue_q in Hq as [Hq|[_ Hq]].
    + apply Hni. by exists q.
    + by destruct (Hne (idle s) (or_intror Hi)).
  - rewrite Esl. eapply sleep_sorted_ext; [|exact Hs]. intros u Hu. apply Hwk, Hne. left. by exists QSleep.
  - rewrite Esl, Er. intros Hn. specialize (Hw Hn). unfold head_wake in *.
    destruct (Q QSleep) as [|u r] eqn:Eq; [done|]. rewrite Hwk; [done|]. apply Hne. left. exists QSleep. rewrite Eq. by left.
Qed.

(** The control block [new_thread] makes. *)
Definition new_tcb (info : thread_info) (t id len : Z) : thread :=
  Thread (t + sizeof_thread + (ti_stack_size info - 1) * 4 - 64) (t + sizeof_thread) null (ti_class info)
    (take THREAD_MAX_NAME_LEN (ti_name info)) (u8 len) 0 0 0 id 0 (ti_code_addr info).

Definition thread_pages (info : thread_info) : Z := (sizeof_thread + ti_stack_size info * 4 + 511) / 512.

Lemma pages_count info :
  0 ≤ ti_stack_size info < 2 ^ 29 →
  let size := u32 (sizeof_thread + ti_stack_size info * 4) in
  (if negb (size mod 512 =? 0) then u32 (size / 512 + 1) else size / 512) = thread_pages info.
Proof.
  intros Hn size. unfold size, thread_pages. unfold sizeof_thread in *. rewrite u32_small by lia.
  destruct (Z.eqb_spec ((120 + ti_stack_size info * 4) mod 512) 0) as [E|E]; cbn [negb].
  - lia.
  - rewrite u32_small by lia. lia.
Qed.

Lemma bind_in_heap {A B} (c : M H A) (k : A → M sched B) (s : sched) a h' :
  c (heap s) = Ret (a, h') → bind (in_heap c) k s = k a (with_heap h' s).
Proof. intros E. apply bind_Ret. unfold in_heap, zoom. by rewrite E. Qed.

(** The part after the allocation. *)
Lemma new_thread_tail (s : sched) Q T info len t h' :
  let x := new_tcb info t (next_tid s) len in
  let s1 := with_heap h' (with_status 0 s) in
  srep s Q T → tcbs s !! t = None → t mod 8 = 0 → 0 < t → Z.of_nat (length T) < 4294967289 →
  name_length (ti_name info) = Some len →
  ∃ d, (in_dl (put_node (rq_node t) (DNode null null t)) ;;
     in_dl (put_node (thread_node t) (DNode null null t)) ;;
     let* len := of_option (name_length (ti_name info)) in
     let* new_tid := gets next_tid in
     let x := new_tcb info t new_tid len in
     modify (λ s, with_tcbs (<[t := x]> (tcbs s)) s) ;;
     enqueue (class_of cpu_rq (ti_class info)) t ;;
     in_dl (dlist_insert_first (thread_node t) (threads cpu_rq)) ;;
     modify (with_tid (u32 (new_tid + 1))) ;;
     resume_scheduler ;;
     ret new_tid) s1 =
       Ret (next_tid s, with_status 1 (with_tid (u32 (next_tid s + 1)) (enqueued cpu_rq (ti_class info) t x d (created t x d s1)))) ∧
    srep (enqueued cpu_rq (ti_class info) t x d (created t x d s1)) (enqueue_q (ti_class info) t Q) (t :: T).
Proof.
  intros x s1 HR Ht Ha Hp Hlen Hname.
  assert (srep s1 Q T) as HR1 by (by eapply srep_ext; [| |exact HR]).
  destruct (link_spec s1 Q T t x HR1 Ht Ha Hp Hlen) as (d1 & d2 & E1 & E2 & d3 & d4 & E3 & Ed3 & E4 & HR').
  rewrite (bind_in_dl _ _ _ _ _ E1). rewrite (bind_in_dl (put_node (thread_node t) (DNode null null t)) _ (with_dl d1 s1) _ _ E2), Hname.
  cbn [of_option]. rewrite bind_ret, bind_gets. cbv zeta. rewrite bind_modify.
  set (s2 := with_dl d2 (with_dl d1 s1)).
  change (enqueue (class_of cpu_rq (ti_class info)) t (with_tcbs (<[t := x]> (tcbs s2)) s2) =
    Ret (tt, enqueued cpu_rq (class x) t x d3 (created t x d2 s1))) in E3.
  fold x. rewrite (bind_Ret _ _ _ _ _ E3).
  set (s3 := enqueued cpu_rq (class x) t x d3 (created t x d2 s1)) in *.
  rewrite (bind_in_dl _ _ s3 tt d4) by (by rewrite Ed3). rewrite bind_modify. unfold resume_scheduler. rewrite bind_modify.
  exists d4. split; [|exact HR']. change (ti_class info) with (class x).
  assert (with_dl d4 s3 = enqueued cpu_rq (class x) t x d4 (created t x d4 s1)) as -> by (unfold s3; by destruct (class x)).
  by destruct (class x).
Qed.

(** What the new thread's memory holds and what is left alone. *)
Record thread_made (info : thread_info) (len t : Z) (s s' : sched) (P : gmap Z Z) : Prop := {
  tm_fresh : P !! t = None;
  tm_live : pa_live (heap s') (<[t := thread_pages info * 512]> P);
  tm_fits : sizeof_thread + ti_stack_size info * 4 ≤ thread_pages info * 512;
  tm_tcbs : tcbs s' = <[t := run_link cpu_rq (new_tcb info t (next_tid s) len)]> (tcbs s);
  tm_frame : pop_frame (pa_mem (heap s')) (stack_pointer (new_tcb info t (next_tid s) len)) =
    Frame (replicate 8 0xCAFECAFE) (ti_arg info) (replicate 4 0xCAFECAFE) thread_exit_addr (ti_thread info) 0x1000000;
  tm_stack : t + sizeof_thread ≤ stack_pointer (new_tcb info t (next_tid s) len);
  tm_kept : ∀ q k a, P !! q = Some k → q ≤ a < q + k → ld8 (pa_mem (heap s')) a = ld8 (pa_mem (heap s)) a;
  tm_status : scheduler_status s' = 1;
  tm_tid : next_tid s' = u32 (next_tid s + 1);
  tm_rest : curr_thread s' = curr_thread s ∧ rq_tick_to_wake s' = rq_tick_to_wake s ∧ tick s' = tick s ∧ log s' = log s;
  tm_idle : idle s' = if decide (ti_class info = IDLE) then t else idle s
}.

(** The conditions under which a thread can be made of [info]. *)
Record thread_info_ok (info : thread_info) (len : Z) : Prop := {
  io_stack : 17 ≤ ti_stack_size info < 2 ^ 29;
  io_name : name_length (ti_name info) = Some len;
  io_thread : 0 ≤ ti_thread info < 2 ^ 32;
  io_arg : 0 ≤ ti_arg info < 2 ^ 32;
  io_exit : 0 ≤ thread_exit_addr < 2 ^ 32
}.

(** [new_thread] on lists of threads either panics because memory is out, or makes a thread. *)
Lemma new_thread_run (s : sched) Q T P info len :
  srep s Q T → pa_live (heap s) P → (∀ t, t ∈ T → is_Some (P !! t)) → pa_bank 3 →
  Z.of_nat (length T) < 4294967289 → thread_info_ok info len →
  new_thread cpu_rq thread_exit_addr info s = Panic "palloc failed" ∨
  ∃ t d h' s', let x := new_tcb info t (next_tid s) len in let s1 := with_heap h' (with_status 0 s) in
    new_thread cpu_rq thread_exit_addr info s = Ret (next_tid s, s') ∧
    s' = with_status 1 (with_tid (u32 (next_tid s + 1)) (enqueued cpu_rq (ti_class info) t x d (created t x d s1))) ∧
    tcbs s !! t = None ∧ t mod 8 = 0 ∧ 0 < t ∧ thread_made info len t s s' P ∧
    srep s' (enqueue_q (ti_class info) t Q) (t :: T).
Proof.
  intros HR HP HTP Hb Hlen [Hst Hname Hth Harg Hex].
  pose proof (pages_count info ltac:(lia)) as Hpc. cbv zeta in Hpc.
  assert (sizeof_thread + ti_stack_size info * 4 ≤ thread_pages info * 512 < 2 ^ 32) as Hfit
    by (unfold thread_pages, sizeof_thread; lia).
  destruct (pa_malloc_law (heap s) P (thread_pages info) 3 HP Hb) as [E|(t & h1 & E & HPt & HP1 & Hk)];
    [unfold thread_pages, sizeof_thread; lia| |].
  { left. unfold new_thread, suspend_scheduler. rewrite bind_modify. cbv zeta. rewrite Hpc.
    apply bind_Panic. unfold in_heap, zoom. cbn. by rewrite E. }
  right. destruct (pa_range h1 _ t (thread_pages info * 512) HP1 (lookup_insert_eq _ _ _)) as (Hp & Ha & Hr).
  assert (tcbs s !! t = None) as Ht.
  { destruct (tcbs s !! t) as [y|] eqn:Ey; [|done]. assert (t ∈ T) as HtT by (apply (sr_threads _ _ _ _ HR); by eexists).
    apply HTP in HtT. rewrite HPt in HtT. by destruct HtT. }
  set (sp := t + sizeof_thread + (ti_stack_size info - 1) * 4).
  destruct (stack_setup_frame thread_exit_addr sp (ti_thread info) (ti_arg info) (pa_mem h1) Hth Harg Hex)
    as (m' & Es & Hf & Hso).
  set (h2 := pa_put m' h1).
  assert (pa_live h2 (<[t := thread_pages info * 512]> P)) as HP2.
  { eapply pa_write; [exact HP1|apply lookup_insert_eq| |].
    - eapply stack_setup_bytes; [|exact Es]. by eapply pa_bytes.
    - eapply same_outside_mono; [|exact Hso]. cbn. unfold sp, sizeof_thread in *. intros; lia. }
  destruct (new_thread_tail s Q T info len t h2 HR Ht Ha Hp Hlen Hname) as (d & E' & HR').
  set (x := new_tcb info t (next_tid s) len) in *. pose proof (created_tcbs t x d (with_heap h2 (with_status 0 s))) as Et.
  change (class x) with (ti_class info) in Et.
  exists t, d, h2. eexists. cbv zeta. split_and!; [|reflexivity|done|done|done| |by eapply srep_ext; [| |exact HR']].
  - unfold new_thread, suspend_scheduler. rewrite bind_modify. cbv zeta. rewrite Hpc.
    rewrite (bind_in_heap _ _ (with_status 0 s) _ _ E).
    rewrite (bind_in_heap (pa_in_mem (stack_setup thread_exit_addr sp (ti_thread info) (ti_arg info))) _
      (with_heap h1 (with_status 0 s)) (sp - 64) h2); [exact E'|].
    unfold pa_in_mem, zoom. cbn [heap with_heap]. by rewrite Es.
  - assert (∀ c, heap (enqueued cpu_rq c t x d (created t x d (with_heap h2 (with_status 0 s)))) = h2) as Eh by (by intros []).
    constructor; cbn; rewrite ?Eh; try done.
    + lia.
    + unfold h2. rewrite pa_mem_put. exact Hf.
    + unfold sizeof_thread. lia.
    + intros q k a Hq Haq. unfold h2. rewrite pa_mem_put, <- (Hk q k a Hq Haq). apply Hso.
      assert (q ≠ t) as Hqt by (intros ->; by rewrite HPt in Hq).
      assert (<[t := thread_pages info * 512]> P !! q = Some k) as Hq' by (by rewrite lookup_insert_ne).
      pose proof (pa_disjoint h1 _ t _ q k HP1 (lookup_insert_eq _ _ _) Hq' ltac:(done)) as Hd.
      unfold sp, sizeof_thread in *. lia.
    + by destruct (ti_class info).
    + by destruct (ti_class info).
Qed.

(** [new_thread] on a consistent scheduler either panics because memory is out, or
    makes a thread with the next number: its control block and stack are a block of
    memory that was free, the context switch that first picks it enters its function
    with its argument and with [thread_exit] as return address, it is at the end of the
    queue of its class and at the front of the thread list, and the scheduler is
    consistent and running again with the same current thread; no other thread, no
    other allocated byte is touched.  The stack must have 17 words: the top word is
    never used. *)
Theorem new_thread_joins (s : sched) Q T c P info len :
  sched_inv s Q T c → pa_live (heap s) P → (∀ t, t ∈ T → is_Some (P !! t)) → pa_bank 3 →
  Z.of_nat (length T) < 4294967289 → thread_info_ok info len → ti_class info ≠ IDLE →
  new_thread cpu_rq thread_exit_addr info s = Panic "palloc failed" ∨
  ∃ t s', new_thread cpu_rq thread_exit_addr info s = Ret (next_tid s, s') ∧
    thread_made info len t s s' P ∧ sched_inv s' (enqueue_q (ti_class info) t Q) (t :: T) c.
Proof.
  intros [HC [Hc HcQ] Hall] HP HTP Hb Hlen Hok Hcl. pose proof (si_rep _ _ _ _ HC) as HR.
  destruct (new_thread_run s Q T P info len HR HP HTP Hb Hlen Hok) as [E|(t & d & h' & s' & E & Es' & Ht & _ & _ & HM & HR')]; [by left|].
  right. exists t, s'. split_and!; [done|done|]. set (x := new_tcb info t (next_tid s) len) in *. set (s1 := with_heap h' (with_status 0 s)) in *.
  assert (sched_core s1 Q T) as HC1.
  { eapply core_same; [|exact HC]. constructor; try done. intros u. cbn. by destruct (tcbs s !! u); constructor. }
  set (s4 := enqueued cpu_rq (ti_class info) t x d (created t x d s1)) in *.
  assert (sched_same s4 s') as Hsame.
  { subst s'. constructor; try done. intros u. cbn. by destruct (tcbs s4 !! u); constructor. }
  assert (idle s' = idle s) as Ei by (rewrite (tm_idle _ _ _ _ _ _ HM); by rewrite decide_False).
  constructor.
  - eapply core_same; [exact Hsame|]. apply (created_core s1 Q T t x d HC1 Ht Hcl eq_refl eq_refl).
    eapply srep_ext; [| |exact HR']; subst s'; done.
  - split; [by right|]. intros q Hq. apply elem_enqueue_q in Hq as [Hq|[_ ->]]; [by apply HcQ|].
    apply (sr_threads _ _ _ _ HR) in Hc. rewrite Ht in Hc. by destruct Hc.
  - rewrite Ei. intros u [->|Hu]%elem_of_cons.
    + right. right. destruct (class_queue (ti_class info)) as [q|] eqn:Eq; [|by destruct (ti_class info)].
      exists q. apply elem_enqueue_q. by right.
    + destruct (Hall u Hu) as [->|[->|[q Hq]]]; [by left|by right; left|]. right. right. exists q.
      apply elem_enqueue_q. by left.
Qed.
End New.
