(* ===== verification/SchedStart.v ===== *)
(** * The start of the scheduler (kernel/scheduler.c)

    Before [scheduler_start] the scheduler has threads in its queues but no thread that runs and no
    idle thread: [waiting].  [new_thread] keeps this state, and [scheduler_start] turns it into the
    invariant of the running scheduler. *)

From stdpp Require Import functions sorting.
From S2P Require Import Prelude Memory Dlist DlistTheorems Mm Palloc Sched SchedSpec SchedProof SchedThread SchedNew.

(** What a thread starts with when it is first switched to. *)
Definition fresh_regs (thread_exit_addr function arg : Z) : frame :=
  Frame (replicate 8 0xCAFECAFE) arg (replicate 4 0xCAFECAFE) thread_exit_addr function 0x1000000.

Section Start.
Context {H : Type} `{PageAlloc H}.
Context (cpu_rq thread_exit_addr : Z).

#[local] Notation sched := (@Sched.sched H).
#[local] Notation srep := (@SchedSpec.srep H cpu_rq).
#[local] Notation sched_core := (@SchedProof.sched_core H cpu_rq).
#[local] Notation sched_inv := (@SchedProof.sched_inv H cpu_rq).
#[local] Notation new_thread := (new_thread cpu_rq thread_exit_addr).

Record waiting (s : sched) (Q : queues) (T : list Z) : Prop := {
  wt_rep : srep s Q T;
  wt_thread t x : tcbs s !! t = Some x → thread_ok cpu_rq s Q t x;
  wt_idle : idle s = null;
  wt_asleep : Q QSleep = [];
  wt_all t : t ∈ T → queued Q t
}.

(** The lists of the run queue as the loader leaves them. *)
Definition no_lists : dstore :=
  DStore ∅ (gset_to_gmap (DList null null 0)
    (list_to_set [qaddr cpu_rq QRt; qaddr cpu_rq QApp; qaddr cpu_rq QBg; qaddr cpu_rq QSleep; qaddr cpu_rq QBlocked; threads cpu_rq])).

(** No thread exists yet. *)
Lemma waiting_nil (s : sched) : dl s = no_lists → tcbs s = ∅ → idle s = null → waiting s (λ _, []) [].
Proof.
  intros Ed Et Ei. set (ls := list_to_set [qaddr cpu_rq QRt; qaddr cpu_rq QApp; qaddr cpu_rq QBg; qaddr cpu_rq QSleep; qaddr cpu_rq QBlocked; threads cpu_rq] : gset Z). pose proof (drep_empty ls ∅ eq_refl) as H0'.
  set (L0 := gset_to_gmap [] ls) in H0'.
  assert (∀ l xs, L0 !! l = Some xs → l ∈ ls ∧ xs = []) as HL0 by (by intros l xs [? <-]%lookup_gset_to_gmap_Some).
  assert (∀ l, l ∈ ls ↔ l = threads cpu_rq ∨ ∃ q, l = qaddr cpu_rq q) as Hls.
  { intros l. unfold ls. cbn [list_to_set]. rewrite !elem_of_union, !elem_of_singleton, elem_of_empty. split.
    - intros [->|[->|[->|[->|[->|[->|[]]]]]]]; [right; eexists; reflexivity..|by left].
    - intros [->|[[] ->]]; tauto. }
  constructor; [|intros t x Hx; by rewrite Et, lookup_empty in Hx|done|done|intros t Ht; by apply elem_of_nil in Ht].
  constructor.
  - exists L0, ∅. rewrite Ed. split_and!.
    + exact H0'.
    + intros q. apply lookup_gset_to_gmap_Some. split; [|done]. apply Hls. right. by exists q.
    + apply lookup_gset_to_gmap_Some. split; [|done]. apply Hls. by left.
    + intros l xs [Hl _]%HL0. by apply Hls.
    + intros t [x Hx]. by rewrite Et, lookup_empty in Hx.
  - intros t [x Hx]. by rewrite Et, lookup_empty in Hx.
  - intros t. rewrite Et, lookup_empty. split; [intros Ht; by apply elem_of_nil in Ht|by intros [? ?]].
  - intros t [q Hq]. by apply elem_of_nil in Hq.
  - cbn. lia.
Qed.

(** A thread whose first context switch enters [function] with [arg], and that returns to [thread_exit];
    its stack is in its block of memory. *)
Definition enters (s : sched) (P : gmap Z Z) (t function arg : Z) : Prop :=
  ∃ x n, tcbs s !! t = Some x ∧ P !! t = Some n ∧ t ≤ stack_pointer x ∧ stack_pointer x + 64 ≤ t + n ∧
    pop_frame (pa_mem (heap s)) (stack_pointer x) =
      fresh_regs thread_exit_addr function arg.

Lemma made_enters info len t (s s' : sched) P :
  17 ≤ ti_stack_size info → thread_made cpu_rq thread_exit_addr info len t s s' P →
  enters s' (<[t := thread_pages info * 512]> P) t (ti_thread info) (ti_arg info).
Proof.
  intros Hst HM. exists (run_link cpu_rq (new_tcb info t (next_tid s) len)), (thread_pages info * 512).
  assert (stack_pointer (run_link cpu_rq (new_tcb info t (next_tid s) len)) = stack_pointer (new_tcb info t (next_tid s) len)) as ->
    by (unfold run_link; by case_decide).
  pose proof (tm_fits _ _ _ _ _ _ _ _ HM) as Hf. pose proof (tm_stack _ _ _ _ _ _ _ _ HM) as Hs. unfold sizeof_thread in *. split_and!.
  - rewrite (tm_tcbs _ _ _ _ _ _ _ _ HM). apply lookup_insert_eq.
  - apply lookup_insert_eq.
  - lia.
  - cbn [stack_pointer new_tcb] in *. unfold sizeof_thread. lia.
  - apply HM.
Qed.
Lemma enters_kept (s s' : sched) P P' t function arg :
  enters s P t function arg → facts <$> tcbs s' !! t = facts <$> tcbs s !! t → P' !! t = P !! t →
  (∀ q k a, P !! q = Some k → q ≤ a < q + k → ld8 (pa_mem (heap s')) a = ld8 (pa_mem (heap s)) a) →
  enters s' P' t function arg.
Proof.
  intros (x & n & Hx & Hn & H1 & H2 & Hf) Ht HP Hk. rewrite Hx in Ht. cbn in Ht.
  destruct (tcbs s' !! t) as [y|] eqn:Ey; [|done]. injection Ht as E1 _ _ _ _ _. exists y, n. rewrite E1, HP.
  split_and!; [done..|]. rewrite <- Hf.
  assert (∀ i, 0 ≤ i < 16 → ld32 (pa_mem (heap s')) (stack_pointer x + 4 * i) = ld32 (pa_mem (heap s)) (stack_pointer x + 4 * i)) as E.
  { intros i Hi. apply ld32_ext. intros b Hb. apply (Hk t n); [done|lia]. }
  unfold pop_frame. cbn [fmap list_fmap]. rewrite !E by lia. done.
Qed.

(** Making another thread does not change that. *)
Lemma made_keeps info len t u (s s' : sched) P function arg :
  u ≠ t → thread_made cpu_rq thread_exit_addr info len t s s' P → enters s P u function arg →
  enters s' (<[t := thread_pages info * 512]> P) u function arg.
Proof.
  intros Hu HM He. apply (enters_kept s s' P _ u function arg He).
  - by rewrite (tm_tcbs _ _ _ _ _ _ _ _ HM), lookup_insert_ne.
  - by rewrite lookup_insert_ne.
  - apply (tm_kept _ _ _ _ _ _ _ _ HM).
Qed.

Lemma waiting_thread_class s Q T t x : waiting s Q T → tcbs s !! t = Some x → class x ≠ IDLE.
Proof.
  intros HW Hx Ec. pose proof (to_idle _ _ _ _ _ (wt_thread _ _ _ HW t x Hx)) as Hi. apply Hi in Ec. rewrite (wt_idle _ _ _ HW) in Ec.
  pose proof (sr_align _ _ _ _ (wt_rep _ _ _ HW) t ltac:(by eexists)). unfold null in *. lia.
Qed.

Lemma waiting_fresh s Q T t : waiting s Q T → tcbs s !! t = None → ¬ queued Q t.
Proof. intros HW Ht Hq. destruct (sr_queued _ _ _ _ (wt_rep _ _ _ HW) t Hq) as [x Hx]. by rewrite Ht in Hx. Qed.

Lemma waiting_ext (s s' : sched) Q T : dl s' = dl s → tcbs s' = tcbs s → idle s' = idle s → waiting s Q T → waiting s' Q T.
Proof.
  intros Ed Et Ei [HR Hth Hi Hs Ha]. constructor; [|intros t x Hx|congruence|exact Hs|exact Ha].
  - eapply srep_ext; [exact Ed|by rewrite Et|exact HR].
  - rewrite Et in Hx. eapply thread_ok_ext; [exact Ei|reflexivity|done|by apply Hth].
Qed.

(** [new_thread] of a thread that is not the idle thread. *)
Lemma new_thread_waits (s : sched) Q T P info len :
  waiting s Q T → pa_live (heap s) P → (∀ t, t ∈ T → is_Some (P !! t)) → pa_bank 3 →
  Z.of_nat (length T) < 4294967289 → thread_info_ok thread_exit_addr info len → ti_class info ≠ IDLE →
  new_thread info s = Panic "palloc failed" ∨
  ∃ t s', new_thread info s = Ret (next_tid s, s') ∧
    thread_made cpu_rq thread_exit_addr info len t s s' P ∧ waiting s' (enqueue_q (ti_class info) t Q) (t :: T).
Proof.
  intros HW HP HTP Hb Hlen Hok Hcl. destruct HW as [HR Hth Hi Hs Ha] eqn:EW. clear EW.
  destruct (new_thread_run cpu_rq thread_exit_addr s Q T P info len HR HP HTP Hb Hlen Hok)
    as [E|(t & d & h' & s' & E & _ & Ht & _ & Hp & HM & HR')]; [by left|].
  right. exists t, s'. split_and!; [done|done|]. pose proof (waiting_fresh _ _ _ _ HW Ht) as Hnq.
  assert (idle s' = idle s) as Ei by (rewrite (tm_idle _ _ _ _ _ _ _ _ HM); by rewrite decide_False).
  assert (enqueue_q (ti_class info) t Q QSleep = Q QSleep) as Es.
  { unfold enqueue_q. destruct (class_queue (ti_class info)) as [q|] eqn:Eq; [|done]. apply fn_lookup_insert_ne. exact (proj1 (class_queue_run _ _ Eq)). }
  constructor; [done| |by rewrite Ei|by rewrite Es|].
  - intros u y Hy. rewrite (tm_tcbs _ _ _ _ _ _ _ _ HM) in Hy. apply lookup_insert_Some in Hy as [[<- <-]|[Hut Hy]].
    + destruct (thread_ok_run cpu_rq s Q t (new_tcb info t (next_tid s) len)) as [K1 K2 K3 K4 K5]; try done.
      { split; [done|]. rewrite Hi. unfold null. lia. }
      constructor; try done. by rewrite Ei.
    + eapply thread_ok_ext; [exact Ei| |done|by apply Hth]. intros q. rewrite elem_enqueue_q. naive_solver.
  - intros u [->|Hu]%elem_of_cons.
    + destruct (class_queue (ti_class info)) as [q|] eqn:Eq; [|by destruct (ti_class info)]. exists q. apply elem_enqueue_q. by right.
    + destruct (Ha u Hu) as [q Hq]. exists q. apply elem_enqueue_q. by left.
Qed.

Definition idle_info (idle_thread : Z) : thread_info := ThreadInfo [73; 100; 108; 101; 0] 100 idle_thread null IDLE 0.

(** The idle thread completes the scheduler's data. *)
Lemma idle_core (s s' : sched) Q T t x :
  waiting s Q T → tcbs s !! t = None → srep s' Q (t :: T) → idle s' = t → tcbs s' = <[t := x]> (tcbs s) →
  class x = IDLE → tick_to_wake x = 0 → rq_list x = null → sched_core s' Q (t :: T).
Proof.
  intros HW Ht HR' Hi Et Hc Hw Hr. pose proof (waiting_fresh _ _ _ _ HW Ht) as Hnq. constructor; [done| | | |].
  - intros u y Hy. rewrite Et in Hy. apply lookup_insert_Some in Hy as [[<- <-]|[Hut Hy]].
    + apply thread_ok_off; [done| |done|done]. by rewrite Hi.
    + destruct (wt_thread _ _ _ HW u y Hy) as [K1 K2 K3 K4 K5]. constructor; try done.
      rewrite Hi. split; [|by intros ->]. intros Ey. by destruct (waiting_thread_class _ _ _ _ _ HW Hy).
  - rewrite Hi. split; [by left|done].
  - rewrite (wt_asleep _ _ _ HW). constructor.
  - rewrite (wt_asleep _ _ _ HW). done.
Qed.

Theorem scheduler_starts fuel idle_thread (s : sched) Q T P :
  waiting s Q T → pa_live (heap s) P → (∀ t, t ∈ T → is_Some (P !! t)) → pa_bank 3 →
  Z.of_nat (length T) < 4294967289 → 0 ≤ idle_thread < 2 ^ 32 → 0 ≤ thread_exit_addr < 2 ^ 32 → (S (length T) < fuel)%nat →
  scheduler_start cpu_rq thread_exit_addr fuel idle_thread s = Panic "palloc failed" ∨
  ∃ t s', let c := hd t (Q QRt ++ Q QApp ++ Q QBg) in
    scheduler_start cpu_rq thread_exit_addr fuel idle_thread s = Ret (tt, s') ∧
    P !! t = None ∧ pa_live (heap s') (<[t := thread_pages (idle_info idle_thread) * 512]> P) ∧
    (∀ q k a, P !! q = Some k → q ≤ a < q + k → ld8 (pa_mem (heap s')) a = ld8 (pa_mem (heap s)) a) ∧
    curr_thread s' = c ∧ next_thread s' = c ∧ idle s' = t ∧ scheduler_status s' = 1 ∧
    sched_inv s' (pick_q Q) (t :: T) c ∧
    (∀ u, u ≠ t → facts <$> tcbs s' !! u = facts <$> tcbs s !! u) ∧
    enters s' (<[t := thread_pages (idle_info idle_thread) * 512]> P) t idle_thread 0 ∧ tid_of s' t = Some (next_tid s) ∧
    log s' = log s ++ [EvPriorities; EvIrqOff; EvSetRvr SYSTICK_RVR; EvSystickEnable; EvRun].
Proof.
  intros HW HP HTP Hb Hlen Hidle Hex Hf. unfold scheduler_start, emit. rewrite !bind_modify.
  set (s0 := with_wake 0 _).
  assert (waiting s0 Q T) as HW0.
  { by eapply waiting_ext; [| | |exact HW]. }
  destruct (new_thread_run cpu_rq thread_exit_addr s0 Q T P (idle_info idle_thread) 4) as [E|(t & d & h' & s1 & E & Es1 & Ht & _ & Hp & HM & HR1)].
  { by eapply wt_rep. }
  { exact HP. }
  { exact HTP. }
  { exact Hb. }
  { exact Hlen. }
  { constructor; cbn; unfold null; try lia. reflexivity. }
  { left. by apply bind_Panic. }
  right. fold (idle_info idle_thread). rewrite (bind_Ret _ _ _ _ _ E).
  assert (idle s1 = t) as Hi1 by (exact (tm_idle _ _ _ _ _ _ _ _ HM)).
  clear Es1. assert (get_thread cpu_rq fuel (next_tid s0) s1 = Ret (t, s1)) as Eg.
  { rewrite (get_thread_run cpu_rq fuel s1 _ (t :: T) (next_tid s0) HR1 ltac:(cbn; lia)). do 2 f_equal. cbn [find_tid].
    rewrite decide_True; [done|]. unfold tid_of. rewrite (tm_tcbs _ _ _ _ _ _ _ _ HM), lookup_insert_eq. done. }
  rewrite (bind_Ret _ _ _ _ _ Eg), bind_modify.
  assert (with_idle t s1 = s1) as -> by (rewrite <- Hi1; by destruct s1).
  assert (sched_core s1 Q (t :: T)) as HC.
  { apply (idle_core s0 s1 Q T t (new_tcb (idle_info idle_thread) t (next_tid s0) 4)); try done.
    rewrite (tm_tcbs _ _ _ _ _ _ _ _ HM). done. }
  destruct (pick_core cpu_rq s1 Q (t :: T) HC) as (s2 & E2 & HC2 & HF & Hin & Hnq & Hall).
  rewrite (bind_Ret _ _ _ _ _ E2), !bind_modify, bind_gets. cbn [idle with_curr with_next].
  rewrite (sf_idle _ _ HF), Hi1, eqb_false by (unfold null; lia).
  rewrite !bind_modify. 
  exists t. eexists. cbv zeta. split; [reflexivity|]. cbn [heap curr_thread next_thread idle scheduler_status log tcbs with_log with_curr with_next].
  assert (pick_of s1 Q = hd t (Q QRt ++ Q QApp ++ Q QBg)) as Epick.
  { unfold pick_of, next_class_of. destruct (Q QRt) as [|a r] eqn:E1; cbn [class_queue hd app]; [|by rewrite E1].
    destruct (Q QApp) as [|a r] eqn:E3; cbn [class_queue hd app]; [|by rewrite E3].
    destruct (Q QBg) as [|a r] eqn:E4; cbn [class_queue hd app]; [done|by rewrite E4]. }
  rewrite <- Epick, (sf_heap _ _ HF), (sf_log _ _ HF), (sf_status _ _ HF), (sf_idle _ _ HF).
  destruct (tm_rest _ _ _ _ _ _ _ _ HM) as (_ & _ & _ & El). split_and!.
  - apply HM.
  - apply HM.
  - apply (tm_kept _ _ _ _ _ _ _ _ HM).
  - reflexivity.
  - reflexivity.
  - exact Hi1.
  - apply HM.
  - constructor.
    + eapply core_same; [|exact HC2]. constructor; try reflexivity. intros u. cbn. by destruct (tcbs s2 !! u); constructor.
    + split; [exact Hin|]. intros q Hq. destruct Hnq. by exists q.
    + intros u Hu. cbn. rewrite (sf_idle _ _ HF), Hi1. apply elem_of_cons in Hu as Hu'. destruct Hu' as [->|Hu']; [by right; left|].
      destruct (Hall u Hu (wt_all _ _ _ HW u Hu')) as [->|Hq]; [by left|by right; right].
  - intros u Hu. rewrite (sf_facts _ _ HF u), (tm_tcbs _ _ _ _ _ _ _ _ HM), lookup_insert_ne by done. done.
  - eapply (enters_kept s1); [exact (made_enters (idle_info idle_thread) 4 t s0 s1 P ltac:(cbn; lia) HM)| |reflexivity|].
    + apply (sf_facts _ _ HF).
    + intros q k a _ _. cbn. by rewrite (sf_heap _ _ HF).
  - pose proof (sf_facts _ _ HF t) as Hft. rewrite (tm_tcbs _ _ _ _ _ _ _ _ HM), lookup_insert_eq in Hft.
    change (tid_of s2 t = Some (next_tid s0)). unfold tid_of. destruct (tcbs s2 !! t); [|done]. cbn in Hft. injection Hft as _ _ Hid _ _ _. cbn. by rewrite Hid.
  - rewrite El. cbn. by rewrite <- !app_assoc.
Qed.
End Start.
