(* ===== verification/Context.v ===== *)
(** * The context switch (kernel/context.s)

    The handler of the switch and the start of the first thread, instruction by instruction, between the
    stacking and unstacking of registers the processor does by itself.  [context_switch_refines] shows that the threads do
    not see it: a machine where each thread has registers of its own is what the kernel implements. *)

From S2P Require Import Prelude Memory Dlist Mm Palloc Sched SchedSpec SchedProof SchedThread SchedNew SchedStart.

(** The registers of a thread, with the names of SchedThread.v, and its stack pointer. *)
Record context := Context { ctx_regs : frame; ctx_psp : Z }.

(** ** The processor *)

(** [stmia]-like and [ldmia]-like accesses. *)
Fixpoint store_words (a : Z) (ws : list Z) : M mem unit :=
  match ws with [] => ret tt | w :: ws => modify (λ m, st32 m a w) ;; store_words (a + 4) ws end.
Fixpoint load_words (n : nat) (a : Z) : M mem (list Z) :=
  match n with
  | O => ret []
  | S n => let* w := gets (λ m, ld32 m a) in let* ws := load_words n (a + 4) in ret (w :: ws)
  end.

(** Exception entry: eight registers are stacked below the stack pointer, at a multiple of eight; bit 9 of the
    stacked xPSR says whether a word was left out for that. *)
Definition exception_entry (c : context) : M mem Z :=
  let f := ctx_regs c in
  let fp := Z.land (ctx_psp c - 32) (Z.lnot 4) in
  let pad := if Z.testbit (ctx_psp c) 2 then 512 else 0 in
  store_words fp (f_r0 f :: scratch f ++ [f_lr f; f_pc f; Z.lor (f_xpsr f) pad]) ;;
  ret fp.

(** Exception return, with [callee] in R4 to R11. *)
Definition exception_return (callee : list Z) (fp : Z) : M mem context :=
  let* ws := load_words 8 fp in
  match ws with
  | [r0; r1; r2; r3; r12; lr; pc; xpsr] =>
      ret (Context (Frame callee r0 [r1; r2; r3; r12] lr pc (Z.land xpsr (Z.lnot 512)))
        (Z.lor (fp + 32) (if Z.testbit xpsr 9 then 4 else 0)))
  | _ => ub
  end.

(** ** context.s *)

Section Context.
Context {H : Type} `{PageAlloc H}.
#[local] Notation sched := (@Sched.sched H).

Definition on_mem {A} (c : M mem A) : M sched A := in_heap (pa_in_mem c).

(** [pendsv_exception]: R4 to R11 are stored below the stack pointer of a thread that is valid, and loaded from that of
    the next one; what the handler does to the kernel's data is [pendsv_exception] of Sched.v. *)
Definition pendsv_handler (r4_r11 : list Z) (psp : Z) : M sched (list Z * Z) :=
  let* curr := gets curr_thread in
  (if negb (curr =? null) then on_mem (store_words (psp - 32) r4_r11) else ret tt) ;;
  pendsv_exception psp ;;
  let* next := gets next_thread in
  let* x := get_tcb next in
  let r1 := stack_pointer x in
  let* r4_r11 := on_mem (load_words 8 r1) in
  ret (r4_r11, r1 + 32).

Definition context_switch (c : context) : M sched context :=
  let* psp := on_mem (exception_entry c) in
  let* (r4_r11, psp) := pendsv_handler (callee_saved (ctx_regs c)) psp in
  on_mem (exception_return r4_r11 psp).

(** [scheduler_run], to its last instruction, [bx lr]; [xpsr] is not touched. *)
Definition scheduler_run (xpsr : Z) : M sched context :=
  let* next := gets next_thread in
  let* x := get_tcb next in
  let sp := stack_pointer x in
  let* r4_r11 := on_mem (load_words 8 sp) in
  let* r0_r3 := on_mem (load_words 4 (sp + 32)) in
  let* r12 := on_mem (gets (λ m, ld32 m (sp + 48))) in
  let* lr := on_mem (gets (λ m, ld32 m (sp + 56))) in
  match r0_r3 with
  | [r0; r1; r2; r3] => ret (Context (Frame r4_r11 r0 [r1; r2; r3; r12] lr (Z.land lr (Z.lnot 1)) xpsr) (sp + 64))
  | _ => ub
  end.
End Context.

(** ** Stacking and unstacking *)

Fixpoint words (m : mem) (a : Z) (n : nat) : list Z :=
  match n with O => [] | S n => ld32 m a :: words m (a + 4) n end.

Lemma load_words_run n a m : load_words n a m = Ret (words m a n, m).
Proof. revert a; induction n as [|n IH]; intros a; [done|]. cbn. unfold bind, gets. by rewrite IH. Qed.

Lemma words_ext m m' a n : (∀ b, a ≤ b < a + 4 * Z.of_nat n → ld8 m' b = ld8 m b) → words m' a n = words m a n.
Proof.
  revert a; induction n as [|n IH]; intros a E; [done|]. cbn. f_equal.
  - apply ld32_ext. intros b Hb. apply E. lia.
  - apply IH. intros b Hb. apply E. lia.
Qed.

Lemma store_words_run ws a m :
  ∃ m', store_words a ws m = Ret (tt, m') ∧ words m' a (length ws) = u32 <$> ws ∧
    same_outside (λ x, a ≤ x < a + 4 * Z.of_nat (length ws)) m m'.
Proof.
  revert a m; induction ws as [|w ws IH]; intros a m; [by exists m|]. cbn [store_words length words].
  destruct (IH (a + 4) (st32 m a w)) as (m' & E & Hw & Hs). exists m'. rewrite bind_modify. split; [done|]. split.
  - rewrite (same_outside_ld32 _ _ _ a Hs) by (intros; lia). rewrite ld32_st32_eq. cbn [fmap list_fmap]. by rewrite Hw.
  - eapply same_outside_trans.
    + apply (same_outside_st32 (λ x, a ≤ x < a + 4 * Z.of_nat (S (length ws))) m a w). intros; lia.
    + eapply same_outside_mono; [|exact Hs]. cbn. intros; lia.
Qed.

(** The registers a thread can have: words, bit 9 of the xPSR reserved, the stack pointer a multiple of four. *)
Record ctx_ok (c : context) : Prop := {
  ok_callee : length (callee_saved (ctx_regs c)) = 8%nat ∧ Forall (λ w, 0 ≤ w < 2 ^ 32) (callee_saved (ctx_regs c));
  ok_scratch : length (scratch (ctx_regs c)) = 4%nat;
  ok_words : Forall (λ w, 0 ≤ w < 2 ^ 32) (f_r0 (ctx_regs c) :: scratch (ctx_regs c) ++ [f_lr (ctx_regs c); f_pc (ctx_regs c); f_xpsr (ctx_regs c)]);
  ok_xpsr : Z.testbit (f_xpsr (ctx_regs c)) 9 = false;
  ok_psp : ctx_psp c mod 4 = 0
}.

(** One bit of a number. *)
Lemma bit_off x n : 0 ≤ n → Z.land x (Z.lnot (2 ^ n)) = x - (if Z.testbit x n then 2 ^ n else 0).
Proof.
  intros Hn. rewrite <- Z.ldiff_land. destruct (Z.testbit x n) eqn:E.
  - symmetry. apply Z.sub_nocarry_ldiff. apply Z.bits_inj'. intros k Hk. rewrite Z.ldiff_spec, Z.pow2_bits_eqb, Z.bits_0 by done.
    destruct (Z.eqb_spec n k) as [<-|]; [by rewrite E|done].
  - rewrite Z.sub_0_r. apply Z.bits_inj'. intros k Hk. rewrite Z.ldiff_spec, Z.pow2_bits_eqb by done.
    destruct (Z.eqb_spec n k) as [<-|]; [by rewrite E|by rewrite andb_true_r].
Qed.
Lemma bit_on x n : 0 ≤ n → Z.testbit x n = false → Z.lor x (2 ^ n) = x + 2 ^ n.
Proof.
  intros Hn E. rewrite <- Z.add_lor_land. assert (Z.land x (2 ^ n) = 0) as ->; [|lia].
  apply Z.bits_inj'. intros k Hk. rewrite Z.land_spec, Z.pow2_bits_eqb, Z.bits_0 by done.
  destruct (Z.eqb_spec n k) as [<-|]; [by rewrite E|apply andb_false_r].
Qed.
Lemma bit_set_on x n : 0 ≤ n → Z.testbit (Z.lor x (2 ^ n)) n = true.
Proof. intros Hn. by rewrite Z.lor_spec, Z.pow2_bits_true, orb_true_r. Qed.

(** Where the frame is: at a multiple of eight, one word lower when the stack pointer is not one. *)
Lemma frame_at p : p mod 4 = 0 →
  Z.land (p - 32) (Z.lnot 4) = (if Z.testbit p 2 then p - 36 else p - 32) ∧
  Z.lor (Z.land (p - 32) (Z.lnot 4) + 32) (if Z.testbit p 2 then 4 else 0) = p.
Proof.
  intros Hp. change 4 with (2 ^ 2). rewrite bit_off by done.
  assert (Z.testbit (p - 32) 2 = Z.testbit p 2) as -> by (rewrite !Z.testbit_eqb by done; change (2 ^ 2) with 4; f_equal; lia).
  destruct (Z.testbit p 2) eqn:E; change (2 ^ 2) with 4.
  - split; [lia|]. change 4 with (2 ^ 2) at 2. rewrite bit_on; [lia|done|].
    apply Z.testbit_true in E; [|done]. apply Z.testbit_false; [done|]. change (2 ^ 2) with 4 in *. lia.
  - split; [lia|]. rewrite Z.lor_0_r. lia.
Qed.

(** What entry and the handler store, return loads: the same registers and the same stack pointer. *)
Lemma entry_return c m : ctx_ok c → ∃ fp m1, exception_entry c m = Ret (fp, m1) ∧ ctx_psp c - 68 ≤ fp - 32 ∧ fp + 32 ≤ ctx_psp c ∧
  same_outside (λ a, fp ≤ a < fp + 32) m m1 ∧
  ∀ m2, (∀ a, fp ≤ a < fp + 32 → ld8 m2 a = ld8 m1 a) → exception_return (callee_saved (ctx_regs c)) fp m2 = Ret (c, m2).
Proof.
  intros [_ Hs Hw Hx Hp]. destruct c as [[ca r0 sc lr pc xp] p]. cbn [ctx_regs ctx_psp callee_saved scratch f_r0 f_lr f_pc f_xpsr] in *.
  destruct (frame_at p Hp) as [Ef Er]. unfold exception_entry. cbn [ctx_regs ctx_psp callee_saved scratch f_r0 f_lr f_pc f_xpsr].
  set (fp := Z.land (p - 32) (Z.lnot 4)) in *. set (x := Z.lor xp _).
  destruct (store_words_run (r0 :: sc ++ [lr; pc; x]) fp m) as (m1 & E & Ew & Ho).
  exists fp, m1. rewrite (bind_Ret _ _ _ _ _ E). split; [done|].
  destruct sc as [|r1 [|r2 [|r3 [|r12 [|]]]]]; try done. cbn [app length] in *. change (4 * Z.of_nat 8) with 32 in Ho.
  assert (fp = p - 36 ∨ fp = p - 32) as Hfp by (destruct (Z.testbit p 2); lia).
  split; [lia|]. split; [lia|]. split; [exact Ho|]. intros m2 Hm2. unfold exception_return. rewrite (bind_Ret _ _ _ _ _ (load_words_run 8 fp m2)).
  rewrite (words_ext m1 m2 fp 8) by (intros b Hb; apply Hm2; lia). rewrite Ew. cbn [fmap list_fmap].
  rewrite !Forall_cons in Hw. destruct Hw as (W0 & W1 & W2 & W3 & W4 & W5 & W6 & W7 & _).
  assert (0 ≤ x < 2 ^ 32 ∧ Z.land x (Z.lnot 512) = xp ∧ (if Z.testbit x 9 then 4 else 0) = (if Z.testbit p 2 then 4 else 0)) as (Hx0 & Hx1 & Hx2).
  { unfold x. destruct (Z.testbit p 2).
    - change 512 with (2 ^ 9). rewrite bit_off, bit_set_on by done. split; [by apply lor_range|]. split; [|done].
      rewrite bit_on by done. lia.
    - rewrite Z.lor_0_r. change 512 with (2 ^ 9). rewrite bit_off, Hx by done. split; [done|]. split; [lia|done]. }
  rewrite !u32_small by lia. rewrite Hx1, Hx2, Er. done.
Qed.

Lemma return_ext callee fp m m' d : (∀ a, fp ≤ a < fp + 32 → ld8 m' a = ld8 m a) →
  exception_return callee fp m = Ret (d, m) → exception_return callee fp m' = Ret (d, m').
Proof.
  intros E. unfold exception_return. rewrite !(bind_Ret _ _ _ _ _ (load_words_run 8 fp _)).
  rewrite (words_ext m m' fp 8) by (intros b Hb; apply E; lia). cbn [words]. unfold ret. intros E1. by simplify_eq.
Qed.

(** ** What the threads see *)

Section Threads.
Context {H : Type} `{PageAlloc H}.
#[local] Notation sched := (@Sched.sched H).
#[local] Notation mem_of s := (pa_mem (heap s)).

Lemma on_mem_head {A B} (c : M mem A) (g : A → M sched B) s x m' :
  c (mem_of s) = Ret (x, m') → bind (on_mem c) g s = g x (with_heap (pa_put m' (heap s)) s).
Proof. intros E. apply bind_in_heap. unfold pa_in_mem, zoom. by rewrite E. Qed.

(** The registers [d] of thread [t], which does not run, are on its stack, inside [area]. *)
Definition saved (area : Z * Z) (s : sched) (t : Z) (d : context) : Prop :=
  ∃ sp, stack_pointer <$> tcbs s !! t = Some sp ∧ area.1 ≤ sp ∧ sp + 64 ≤ area.2 ∧
    exception_return (words (mem_of s) sp 8) (sp + 32) (mem_of s) = Ret (d, mem_of s).

Lemma saved_ext area (s s' : sched) t d : stack_pointer <$> tcbs s' !! t = stack_pointer <$> tcbs s !! t →
  (∀ a, area.1 ≤ a < area.2 → ld8 (mem_of s') a = ld8 (mem_of s) a) → saved area s t d → saved area s' t d.
Proof.
  intros Et Em (sp & Hsp & H1 & H2 & E). exists sp. rewrite Et. split_and!; [done..|].
  rewrite (words_ext (mem_of s)) by (intros b Hb; apply Em; lia). eapply return_ext; [|exact E]. intros a Ha. apply Em. lia.
Qed.

(** The threads with registers of their own, [A]; thread [cur] runs with the registers [c], which are those of the
    processor.  Each thread has a stack, and room for one frame on it. *)
Record sim (area : Z → Z * Z) (A : gmap Z context) (cur : Z) (s : sched) (c : context) : Prop := {
  sm_curr : curr_thread s = cur;
  sm_regs : A !! cur = Some c;
  sm_thread t d : A !! t = Some d → t ≠ null ∧ is_Some (tcbs s !! t) ∧ ctx_ok d ∧ (area t).1 + 68 ≤ ctx_psp d ≤ (area t).2;
  sm_apart t u : is_Some (A !! t) → is_Some (A !! u) → t ≠ u → (area t).2 ≤ (area u).1 ∨ (area u).2 ≤ (area t).1;
  sm_saved t d : A !! t = Some d → t ≠ cur → saved (area t) s t d
}.

(** The handler when the thread that runs is valid. *)
Lemma pendsv_run (s : sched) cur r fp m next sp x : curr_thread s = cur → cur ≠ null → tcbs s !! cur = Some x →
  store_words (fp - 32) r (mem_of s) = Ret (tt, m) →
  next_thread s = next → stack_pointer <$> (<[cur := set_stack_pointer (fp - 32) x]> (tcbs s)) !! next = Some sp →
  pendsv_handler r fp s = Ret ((words m sp 8, sp + 32),
    with_heap (pa_put m (heap s)) (with_curr next (with_tcbs (<[cur := set_stack_pointer (fp - 32) x]> (tcbs s)) s))).
Proof.
  intros Hc Hn Hx E Hnext Hsp. unfold pendsv_handler, pendsv_exception. rewrite bind_gets, Hc, eqb_false by done. cbn [negb].
  rewrite (on_mem_head _ _ s tt m) by done. set (s2 := with_heap (pa_put m (heap s)) s).
  rewrite bind_bind, bind_gets. cbn [curr_thread s2 with_heap]. rewrite Hc, eqb_false by done. cbn [negb].
  rewrite bind_bind, (bind_upd_tcb _ _ _ s2 x) by done. rewrite bind_bind, bind_gets, bind_modify, bind_gets.
  cbn [next_thread with_curr with_tcbs with_heap s2 tcbs]. rewrite Hnext.
  destruct (<[cur := set_stack_pointer (fp - 32) x]> (tcbs s) !! next) as [y|] eqn:Ey; [|done]. injection Hsp as <-.
  rewrite (bind_get_tcb _ _ _ y) by done. cbv zeta.
  set (s3 := with_curr next _). assert (mem_of s3 = m) as Em3 by (cbn; by rewrite pa_mem_put).
  rewrite (on_mem_head _ _ s3 (words m (stack_pointer y) 8) m) by (rewrite Em3; apply load_words_run).
  unfold s3, s2. cbn [heap with_heap with_curr with_tcbs]. by rewrite pa_put_put.
Qed.

Lemma switch_run (s : sched) cur c fp m1 m2 next sp x d : curr_thread s = cur → cur ≠ null → tcbs s !! cur = Some x →
  exception_entry c (mem_of s) = Ret (fp, m1) → store_words (fp - 32) (callee_saved (ctx_regs c)) m1 = Ret (tt, m2) →
  next_thread s = next → stack_pointer <$> (<[cur := set_stack_pointer (fp - 32) x]> (tcbs s)) !! next = Some sp →
  exception_return (words m2 sp 8) (sp + 32) m2 = Ret (d, m2) →
  context_switch c s =
    Ret (d, with_heap (pa_put m2 (heap s)) (with_curr next (with_tcbs (<[cur := set_stack_pointer (fp - 32) x]> (tcbs s)) s))).
Proof.
  intros Hc Hn Hx E1 E2 Hnext Hsp Ed. unfold context_switch. rewrite (on_mem_head _ _ _ _ _ E1).
  set (s1 := with_heap (pa_put m1 (heap s)) s). assert (mem_of s1 = m1) as Em1 by (cbn; by rewrite pa_mem_put).
  pose proof (pendsv_run s1 cur (callee_saved (ctx_regs c)) fp m2 next sp x Hc Hn Hx ltac:(by rewrite Em1) Hnext Hsp) as E3.
  rewrite (bind_Ret _ _ _ _ _ E3). unfold on_mem, in_heap, zoom, pa_in_mem, zoom. cbn [heap with_heap]. rewrite pa_mem_put, Ed.
  unfold s1. cbn [heap with_heap with_curr with_tcbs tcbs]. by rewrite !pa_put_put.
Qed.

(** ** Threads that have not run yet *)

Lemma words_app m a n k : words m a (n + k) = words m a n ++ words m (a + 4 * Z.of_nat n) k.
Proof.
  revert a; induction n as [|n IH]; intros a; cbn [Nat.add words app]; [f_equal; lia|]. f_equal. rewrite IH. do 2 f_equal. lia.
Qed.
Lemma pop_words m sp : words m sp 16 = let f := pop_frame m sp in callee_saved f ++ f_r0 f :: scratch f ++ [f_lr f; f_pc f; f_xpsr f].
Proof.
  cbn [words pop_frame callee_saved f_r0 scratch f_lr f_pc f_xpsr fmap list_fmap app].
  repeat (apply (f_equal2 cons); [f_equal; lia|]). done.
Qed.
Lemma frame_words_at m sp f : pop_frame m sp = f → length (callee_saved f) = 8%nat →
  words m sp 8 = callee_saved f ∧ words m (sp + 32) 8 = f_r0 f :: scratch f ++ [f_lr f; f_pc f; f_xpsr f].
Proof. intros <- Hl. pose proof (pop_words m sp) as E. change 16%nat with (8 + 8)%nat in E. rewrite words_app in E. cbv zeta in E. by apply app_inj_1 in E. Qed.

Lemma enters_saved thread_exit_addr (s : sched) P t function arg : enters thread_exit_addr s P t function arg →
  ∃ n sp, P !! t = Some n ∧ saved (t, t + n) s t (Context (fresh_regs thread_exit_addr function arg) (sp + 64)).
Proof.
  intros (x & n & Hx & Hn & H1 & H2 & Hf). exists n, (stack_pointer x). split; [done|]. exists (stack_pointer x). rewrite Hx. cbn [fst snd].
  split_and!; [done..|]. destruct (frame_words_at _ _ _ Hf eq_refl) as [E1 E2].
  unfold exception_return. rewrite (bind_Ret _ _ _ _ _ (load_words_run 8 _ _)), E1, E2. cbn [fresh_regs f_r0 scratch f_lr f_pc f_xpsr callee_saved app replicate].
  change (Z.testbit 0x1000000 9) with false. change (Z.land 0x1000000 (Z.lnot 512)) with 0x1000000. rewrite Z.lor_0_r.
  unfold ret. replace (stack_pointer x + 32 + 32) with (stack_pointer x + 64) by lia. done.
Qed.

Lemma on_mem_loads {A B} (c : M mem A) (g : A → M sched B) s x : c (mem_of s) = Ret (x, mem_of s) → bind (on_mem c) g s = g x s.
Proof. intros E. rewrite (on_mem_head _ _ _ _ _ E), pa_put_mem. by destruct s. Qed.

(** The first thread: the program counter of the frame is loaded into the link register. *)
Lemma scheduler_run_enters thread_exit_addr (s : sched) P t function arg xpsr : enters thread_exit_addr s P t function arg → next_thread s = t →
  ∃ sp, scheduler_run xpsr s =
    Ret (Context (Frame (replicate 8 0xCAFECAFE) arg (replicate 4 0xCAFECAFE) function (Z.land function (Z.lnot 1)) xpsr) (sp + 64), s).
Proof.
  intros (x & n & Hx & Hn & H1 & H2 & Hf) Ht. exists (stack_pointer x). destruct (frame_words_at _ _ _ Hf eq_refl) as [E1 E2].
  unfold scheduler_run. rewrite bind_gets, Ht, (bind_get_tcb _ _ _ _ Hx).
  rewrite (on_mem_loads _ _ _ _ (load_words_run 8 _ _)), (on_mem_loads _ _ _ _ (load_words_run 4 _ _)), E1.
  cbn [words fresh_regs f_r0 scratch f_lr f_pc f_xpsr app replicate] in E2. injection E2 as W0 W1 W2 W3 W4 W5 W6 W7.
  rewrite !(on_mem_loads (gets _) _ _ _ eq_refl). cbn [words]. rewrite W0, W1, W2, W3.
  replace (stack_pointer x + 48) with (stack_pointer x + 32 + 4 + 4 + 4 + 4) by lia.
  replace (stack_pointer x + 56) with (stack_pointer x + 32 + 4 + 4 + 4 + 4 + 4 + 4) by lia. by rewrite W4, W6.
Qed.

(** C6. The context switch refines a machine in which every thread has registers of its own: when thread [cur] runs with the
    registers [c] and every other thread's are saved, [context_switch] returns with exactly the registers, stack pointer included,
    with which the next thread was last switched out (itself, if it is the next one), that
    thread is the current one, and the registers of all threads are again saved.  The rest of the state is as it was: only the
    stack pointer in the descriptor of the thread it leaves, the pointer to the current thread and the 68 bytes below the stack pointer
    of the thread it leaves differ, so no queue, clock or other field of a thread changes.  Whatever the running thread then does to its registers and to its own
    stack keeps the others' registers, as long as its stack pointer leaves room for a frame. *)
Theorem context_switch_refines area A cur (s : sched) c next d :
  sim area A cur s c →
  (next_thread s = next → A !! next = Some d → ∃ x sp m',
     let s' := with_heap (pa_put m' (heap s)) (with_curr next (with_tcbs (<[cur := set_stack_pointer sp x]> (tcbs s)) s)) in
     tcbs s !! cur = Some x ∧ context_switch c s = Ret (d, s') ∧ sim area A next s' d ∧
     same_outside (λ a, ctx_psp c - 68 ≤ a < ctx_psp c) (mem_of s) m') ∧
  (∀ s' c', curr_thread s' = cur → (∀ t, stack_pointer <$> tcbs s' !! t = stack_pointer <$> tcbs s !! t) →
     (∀ t a, is_Some (A !! t) → t ≠ cur → (area t).1 ≤ a < (area t).2 → ld8 (mem_of s') a = ld8 (mem_of s) a) →
     ctx_ok c' → (area cur).1 + 68 ≤ ctx_psp c' ≤ (area cur).2 → sim area (<[cur := c']> A) cur s' c').
Proof.
  intros [Hc HA Ht Hap Hsv]. split.
  - intros Hnext Hd. destruct (Ht cur c HA) as (Hn & [x Hx] & Hok & Hroom).
    destruct (entry_return c (mem_of s) Hok) as (fp & m1 & E1 & F1 & F2 & O1 & Hret).
    destruct (store_words_run (callee_saved (ctx_regs c)) (fp - 32) m1) as (m2 & E2 & W2 & O2).
    destruct (ok_callee _ Hok) as [Hl Hw]. rewrite Hl in W2, O2. change (4 * Z.of_nat 8) with 32 in O2.
    assert (u32 <$> callee_saved (ctx_regs c) = callee_saved (ctx_regs c)) as Eu.
    { clear -Hw. induction Hw as [|w l Hw _ IH]; [done|]. cbn. by rewrite IH, u32_small by lia. }
    rewrite Eu in W2.
    assert (same_outside (λ a, ctx_psp c - 68 ≤ a < ctx_psp c) (mem_of s) m2) as Hso.
    { eapply same_outside_trans; (eapply same_outside_mono; [|eassumption]); cbn; intros; lia. }
    assert (exception_return (words m2 (fp - 32) 8) (fp - 32 + 32) m2 = Ret (c, m2)) as Eself.
    { rewrite W2. replace (fp - 32 + 32) with fp by lia. apply Hret. intros a Ha. apply O2. lia. }
    set (T' := <[cur := set_stack_pointer (fp - 32) x]> (tcbs s)).
    assert (∃ sp, stack_pointer <$> T' !! next = Some sp ∧ exception_return (words m2 sp 8) (sp + 32) m2 = Ret (d, m2)) as (sp & Hsp & Er).
    { unfold T'. destruct (decide (next = cur)) as [->|Hne].
      - exists (fp - 32). rewrite lookup_insert_eq. split; [done|]. by simplify_eq.
      - destruct (Hsv next d Hd Hne) as (sp & Hsp & S1 & S2 & Er). exists sp. rewrite lookup_insert_ne by done. split; [done|].
        assert (∀ a, (area next).1 ≤ a < (area next).2 → ld8 m2 a = ld8 (mem_of s) a) as Hk.
        { intros a Ha. apply Hso. destruct (Hap next cur ltac:(by eexists) ltac:(by eexists) Hne); lia. }
        rewrite (words_ext (mem_of s)) by (intros b Hb; apply Hk; lia). eapply return_ext; [|exact Er]. intros a Ha. apply Hk. lia. }
    pose proof (switch_run s cur c fp m1 m2 next sp x d Hc Hn Hx E1 E2 Hnext Hsp Er) as E.
    exists x, (fp - 32), m2. intros s'. assert (mem_of s' = m2) as Em by (cbn; by rewrite pa_mem_put).
    assert (∀ t, option_Forall2 same_sched (tcbs s !! t) (tcbs s' !! t)) as Hsame.
    { intros t. cbn [tcbs s' with_heap with_curr with_tcbs]. destruct (decide (t = cur)) as [->|Hne].
      - rewrite lookup_insert_eq, Hx. constructor. done.
      - rewrite lookup_insert_ne by done. destruct (tcbs s !! t); constructor. done. }
    split; [exact Hx|]. split; [exact E|]. split; [|exact Hso].
    constructor; [done|done| |exact Hap|].
    + intros t e He. destruct (Ht t e He) as (? & Hs & ? & ?). split; [done|]. split; [|by split].
      destruct Hs as [y Hy]. pose proof (Hsame t) as Hst. rewrite Hy in Hst. inversion Hst; by eexists.
    + intros t e He Hne. destruct (decide (t = cur)) as [->|Hc'].
      * exists (fp - 32). rewrite Em. cbn [tcbs s' with_heap with_curr with_tcbs]. rewrite lookup_insert_eq. simplify_eq.
        split_and!; [done|lia|lia|done].
      * apply (saved_ext _ s); [|intros a Ha; rewrite Em; apply Hso|by apply Hsv].
        { cbn [tcbs s' with_heap with_curr with_tcbs]. by rewrite lookup_insert_ne. }
        { destruct (Hap t cur ltac:(by eexists) ltac:(by eexists) Hc'); lia. }
  - intros s' c' Hc' Hst Hm Hok' Hroom'.
    constructor; [done|apply lookup_insert_eq| | |].
    + intros t e [[<- <-]|[_ He]]%lookup_insert_Some.
      * destruct (Ht cur c HA) as (? & [y Hy] & _). split; [done|]. split; [|by split]. specialize (Hst cur). rewrite Hy in Hst.
        destruct (tcbs s' !! cur); [by eexists|done].
      * destruct (Ht t e He) as (? & [y Hy] & ? & ?). split; [done|]. split; [|by split]. specialize (Hst t). rewrite Hy in Hst.
        destruct (tcbs s' !! t); [by eexists|done].
    + assert (∀ t, is_Some (<[cur := c']> A !! t) → is_Some (A !! t)) as Hd.
      { intros t. rewrite lookup_insert_is_Some'. intros [->|?]; [by eexists|done]. }
      intros t u Ht' Hu. apply Hap; by apply Hd.
    + intros t e [[<- _]|[Hne He]]%lookup_insert_Some Hn; [done|]. apply (saved_ext _ s); [apply Hst| |by apply Hsv].
      intros a Ha. apply (Hm t a); [by eexists|done|done].
Qed.
End Threads.

(** Thread 0x1000 runs; thread 0x2000 has not run yet: its function is at 0x501, its argument 7. *)
Definition ex_mem : mem := match stack_setup 0x401 0x2100 0x501 7 ∅ with Ret (_, m) => m | _ => ∅ end.
Definition ex_tcb (sp : Z) : thread := Thread sp 0 null APPLICATION [] 0 0 0 0 0 0 0.
Definition ex_sched : @Sched.sched mm :=
  Sched_ (DStore ∅ ∅) (<[0x1000 := ex_tcb 0]> {[0x2000 := ex_tcb 0x20C0]}) 0x1000 0x2000 0 0 1 0 0 0 3 (Mm ex_mem []) [].
Definition ex_area (t : Z) : Z * Z := (t, t + 0x200).
Definition ex_regs : context := Context (Frame [1; 2; 3; 4; 5; 6; 7; 8] 10 [11; 12; 13; 14] 0x301 0x303 0x1000000) 0x1104.
Definition ex_new : context := Context (fresh_regs 0x401 0x501 7) 0x2100.
Definition ex_all : gmap Z context := <[0x1000 := ex_regs]> {[0x2000 := ex_new]}.

Lemma ex_ctx_ok c : c ∈ [ex_regs; ex_new] → ctx_ok c.
Proof.
  intros Hc. repeat (apply elem_of_cons in Hc as [->|Hc]; [constructor; cbn; repeat constructor; lia|]). by apply elem_of_nil in Hc.
Qed.
Lemma ex_sim : sim (H0 := mm_pages 1) ex_area ex_all 0x1000 ex_sched ex_regs.
Proof.
  assert (∀ t d, ex_all !! t = Some d → (t = 0x1000 ∧ d = ex_regs) ∨ (t = 0x2000 ∧ d = ex_new)) as Hall.
  { intros t d Hd. unfold ex_all in Hd. apply lookup_insert_Some in Hd as [[<- <-]|[_ Hd]]; [by left|]. apply lookup_singleton_Some in Hd as [<- <-]. by right. }
  constructor; [done|done| | |].
  - intros t d [[-> ->]|[-> ->]]%Hall; (split; [done|]; split; [by eexists|]; split; [apply ex_ctx_ok; first [by left|by right; left]|cbn; lia]).
  - intros t u [d [[-> _]|[-> _]]%Hall] [e [[-> _]|[-> _]]%Hall] Hne; cbn; (done || lia).
  - intros t d [[-> ->]|[-> ->]]%Hall Hne; [done|]. exists 0x20C0. split; [done|]. split; [cbn; lia|]. split; [cbn; lia|].
    vm_compute. reflexivity.
Qed.
Lemma context_switch_refines_witness :
  ∃ s', context_switch (H0 := mm_pages 1) ex_regs ex_sched = Ret (ex_new, s') ∧
    sim (H0 := mm_pages 1) ex_area ex_all 0x2000 s' ex_new.
Proof.
  destruct (context_switch_refines (H0 := mm_pages 1) ex_area ex_all 0x1000 ex_sched ex_regs 0x2000 ex_new ex_sim) as [E _].
  destruct (E eq_refl eq_refl) as (x & sp & m' & _ & E1 & S1 & _). eexists. split; [exact E1|exact S1].
Defined.
