(* ===== verification/SchedWitness.v ===== *)
(** * A concrete scheduler

    Four threads: the idle thread, an application thread that runs, a real-time
    thread that is ready and a background thread that sleeps.  The theorems of
    the scheduler are applied to it. *)

From stdpp Require Import functions sorting.
From S2P Require Import Prelude Memory Dlist DlistTheorems Mm MmTheorems Palloc.
From S2P Require Import Sched SchedSpec SchedProof SchedTheorems SchedBlock SchedThread.

(** Decides a closed decidable proposition by evaluation. *)
Ltac by_decide := apply (bool_decide_unpack _); vm_compute; exact I.

Definition ex_rq : Z := 4096.
Definition ex_idle : Z := 64.
Definition ex_app : Z := 256.
Definition ex_rt : Z := 512.
Definition ex_bg : Z := 1024.
Definition ex_threads : list Z := [ex_idle; ex_app; ex_rt; ex_bg].

Definition ex_thread (c : sched_class) (link wake id : Z) : thread :=
  Thread 0 0 link c [] 0 wake 0 0 id 0 0.

Definition ex_tcbs : gmap Z thread :=
  <[ex_idle := ex_thread IDLE 0 0 0]> (<[ex_app := ex_thread APPLICATION 0 0 1]>
  (<[ex_rt := ex_thread REAL_TIME (rt_rq ex_rq) 0 2]>
  (<[ex_bg := ex_thread BACKGROUND (sleep_q ex_rq) 1000000 3]> ∅))).

Definition ex_Q0 : queues := λ _, [].
Definition ex_Q : queues := <[QSleep := [] ++ [ex_bg]]> (<[QRt := [] ++ [ex_rt]]> ex_Q0).

Definition ex_state (now : Z) (d : dstore) : @sched mm :=
  Sched_ d ex_tcbs ex_app 0 ex_idle 1000000 1 now 0 0 4 small_mm [].

#[local] Instance ex_pages : PageAlloc mm := mm_pages 2.

Lemma ex_in_threads t : t ∈ ex_threads ↔ is_Some (ex_tcbs !! t).
Proof.
  unfold ex_threads, ex_tcbs. rewrite !lookup_insert_is_Some', lookup_empty, !elem_of_cons.
  rewrite is_Some_alt. set_solver.
Qed.

Lemma ex_case t : is_Some (ex_tcbs !! t) → t = ex_idle ∨ t = ex_app ∨ t = ex_rt ∨ t = ex_bg.
Proof. rewrite <- ex_in_threads. unfold ex_threads. set_solver. Qed.

(** The thread list, in the order [ex_threads], and empty queues. *)
Lemma ex_lists now : ∃ d, srep ex_rq (ex_state now d) ex_Q0 ex_threads.
Proof.
  set (O := list_to_map (flat_map (λ t, [(rq_node t, t); (thread_node t, t)]) ex_threads) : gmap Z Z).
  set (ls := list_to_set [qaddr ex_rq QRt; qaddr ex_rq QApp; qaddr ex_rq QBg; qaddr ex_rq QSleep;
    qaddr ex_rq QBlocked; threads ex_rq] : gset Z).
  pose proof (drep_empty ls O eq_refl) as H0. set (L0 := gset_to_gmap [] ls) in H0.
  assert (∀ l xs, L0 !! l = Some xs → l ∈ ls ∧ xs = []) as HL0.
  { by intros l xs [? <-]%lookup_gset_to_gmap_Some. }
  assert (∀ xs p, p ∉ xs → unlinked (<[threads ex_rq := xs]> L0) p) as HU.
  { intros xs p Hp l ys [[<- <-]|[_ [_ ->]%HL0]]%lookup_insert_Some; [done|apply not_elem_of_nil]. }
  assert (∀ xs p o s, drep (<[threads ex_rq := xs]> L0) O s → O !! p = Some o → p ∉ xs →
    (length xs < 100)%nat → ∃ s', drep (<[threads ex_rq := xs ++ [p]]> L0) O s') as Hins.
  { intros xs p o s HR Ho Hp Hlen.
    destruct (insert_last_spec _ _ _ p (threads ex_rq) xs o HR (lookup_insert_eq _ _ _) Ho (HU _ _ Hp) ltac:(lia))
      as (s' & _ & HR'). rewrite insert_insert_eq in HR'. by exists s'. }
  assert (drep (<[threads ex_rq := []]> L0) O (DStore (DNode null null <$> O) (gset_to_gmap (head_of []) ls))) as H0'.
  { rewrite insert_id; [done|reflexivity]. }
  destruct (Hins [] (thread_node ex_idle) ex_idle _ H0' eq_refl) as (s1 & H1); [set_solver|cbn; lia|].
  destruct (Hins _ (thread_node ex_app) ex_app _ H1 eq_refl) as (s2 & H2); [by_decide|cbn; lia|].
  destruct (Hins _ (thread_node ex_rt) ex_rt _ H2 eq_refl) as (s3 & H3); [by_decide|cbn; lia|].
  destruct (Hins _ (thread_node ex_bg) ex_bg _ H3 eq_refl) as (s4 & H4); [by_decide|cbn; lia|].
  exists s4. constructor.
  - exists (<[threads ex_rq := map thread_node ex_threads]> L0), O. split_and!.
    + exact H4.
    + intros q. by destruct q.
    + apply lookup_insert_eq.
    + intros l xs [[<- _]|[_ [Hl _]%HL0]]%lookup_insert_Some; [by left|]. unfold ls in Hl. cbn in Hl.
      rewrite !elem_of_union, !elem_of_singleton in Hl.
      destruct Hl as [->|[->|[->|[->|[->|[->|Hl]]]]]]; [right..|by left|]; [by exists QRt|by exists QApp|by exists QBg|by exists QSleep|by exists QBlocked|].
      by apply elem_of_empty in Hl.
    + intros t Ht. by destruct (ex_case t Ht) as [->|[->|[->| ->]]].
  - intros t Ht. by destruct (ex_case t Ht) as [->|[->|[->| ->]]].
  - apply ex_in_threads.
  - intros t [q Hq]. by apply not_elem_of_nil in Hq.
  - cbn. lia.
Qed.

(** ... with the real-time thread ready and the background thread asleep. *)
Lemma ex_srep now : ∃ d, srep ex_rq (ex_state now d) ex_Q ex_threads.
Proof.
  destruct (ex_lists now) as [d0 H0].
  destruct (q_insert_last ex_rq _ _ _ QRt H0 ex_rt) as (d1 & _ & H1); [by eexists| |].
  { intros [q Hq]. by apply not_elem_of_nil in Hq. }
  destruct (q_insert_last ex_rq _ _ _ QSleep H1 ex_bg) as (d2 & _ & H2); [by eexists| |].
  { intros [q Hq]. revert Hq. destruct q; by_decide. }
  by exists d2.
Qed.

Lemma ex_queued t : queued ex_Q t ↔ t = ex_rt ∨ t = ex_bg.
Proof.
  unfold queued, ex_Q. split.
  - intros [q Hq]. destruct q; cbn in Hq; set_solver.
  - intros [->| ->]; [exists QRt|exists QSleep]; cbn; set_solver.
Qed.

Lemma ex_thread_ok now d t x : ex_tcbs !! t = Some x → thread_ok ex_rq (ex_state now d) ex_Q t x.
Proof.
  intros Hx. assert (is_Some (ex_tcbs !! t)) as Ht by (by eexists).
  destruct (ex_case t Ht) as [->|[->|[->| ->]]]; vm_compute in Hx; injection Hx as <-.
  - apply thread_ok_off; [|done|done|done]. rewrite ex_queued. by intros [|].
  - apply thread_ok_off; [|done|done|done]. rewrite ex_queued. by intros [|].
  - apply (thread_ok_linked _ _ _ _ _ QRt); [|by right; right|done|done|done|done].
    intros [| | | |]; by_decide.
  - apply (thread_ok_linked _ _ _ _ _ QSleep); [|by left|done|done|done|done].
    intros [| | | |]; by_decide.
Qed.

Lemma ex_core now : ∃ d, sched_core ex_rq (ex_state now d) ex_Q ex_threads.
Proof.
  destruct (ex_srep now) as [d HR]. exists d. constructor.
  - done.
  - intros t x Hx. apply ex_thread_ok. exact Hx.
  - split; [set_solver|]. rewrite ex_queued. by intros [|].
  - by repeat constructor.
  - intros _. done.
Qed.

(** A consistent scheduler where the application thread runs. *)
Lemma ex_inv now : ∃ d, sched_inv ex_rq (ex_state now d) ex_Q ex_threads ex_app.
Proof.
  destruct (ex_core now) as [d HC]. exists d. constructor; [done| |].
  - split; [by_decide|]. intros q. destruct q; by_decide.
  - intros t Ht. apply ex_in_threads in Ht. rewrite ex_queued.
    destruct (ex_case t Ht) as [->|[->|[->| ->]]]; auto.
Qed.

Lemma ex_ticking now d cvr :
  0 <= now < 2 ^ 62 → 0 <= cvr <= SYSTICK_RVR → ticking (ex_state now d) cvr ex_app.
Proof.
  intros Hn Hc. constructor; cbn; try lia.
  exists (ex_thread APPLICATION 0 0 1). split_and!; [done|done|cbn; lia..].
Qed.

Lemma ex_running : ¬ queued ex_Q ex_app.
Proof. rewrite ex_queued. by intros [|]. Qed.

(** The same threads with the running one exiting and two others waiting in
    its class. *)
Definition ex_exit_tcbs : gmap Z thread :=
  <[ex_app := Thread 0 0 0 APPLICATION [] 0 0 0 0 1 1 0]> (<[ex_rt := ex_thread APPLICATION 0 0 2]>
  (<[ex_bg := ex_thread APPLICATION 0 0 3]> ex_tcbs)).

Definition ex_exit_Q : queues := <[QApp := ([] ++ [ex_rt]) ++ [ex_bg]]> (<[QApp := [] ++ [ex_rt]]> ex_Q0).

Definition ex_exit (d : dstore) : @sched mm := with_tcbs ex_exit_tcbs (ex_state 1000 d).

Lemma ex_exit_queued t : queued ex_exit_Q t ↔ t = ex_rt ∨ t = ex_bg.
Proof.
  unfold queued, ex_exit_Q. split.
  - intros [q Hq]. destruct q; cbn in Hq; set_solver.
  - intros [->| ->]; exists QApp; cbn; set_solver.
Qed.

Lemma ex_exit_dom t : is_Some (ex_exit_tcbs !! t) ↔ is_Some (ex_tcbs !! t).
Proof.
  unfold ex_exit_tcbs. rewrite !lookup_insert_is_Some', <- ex_in_threads. unfold ex_threads. set_solver.
Qed.

Lemma ex_exit_core : ∃ d, sched_core ex_rq (ex_exit d) ex_exit_Q ex_threads.
Proof.
  destruct (ex_lists 1000) as [d0 H0]. apply (srep_ext _ _ (ex_exit d0)) in H0; [|done|apply ex_exit_dom].
  destruct (q_insert_last ex_rq _ _ _ QApp H0 ex_rt) as (d1 & _ & H1); [by eexists| |].
  { intros [q Hq]. by apply not_elem_of_nil in Hq. }
  destruct (q_insert_last ex_rq _ _ _ QApp H1 ex_bg) as (d2 & _ & H2); [by eexists| |].
  { intros [q Hq]. revert Hq. destruct q; by_decide. }
  exists d2. constructor; [exact H2| |split; [set_solver|rewrite ex_exit_queued; by intros [|]]|constructor|done].
  intros t x Hx. assert (is_Some (ex_tcbs !! t)) as Ht by (apply ex_exit_dom; by eexists).
  destruct (ex_case t Ht) as [->|[->|[->| ->]]]; vm_compute in Hx; injection Hx as <-.
  - apply thread_ok_off; [|done|done|done]. rewrite ex_exit_queued. by intros [|].
  - apply thread_ok_off; [|done|done|done]. rewrite ex_exit_queued. by intros [|].
  - constructor; [intros [| | | |]; by_decide|done|by_decide|done|by_decide].
  - constructor; [intros [| | | |]; by_decide|done|by_decide|done|by_decide].
Qed.

Lemma systick_switch_witness :
  (∃ d s', (systick_exception ex_rq 10 0 ;; pendsv_exception 0) (ex_state 1000 d) = Ret (tt, s') ∧
    curr_thread s' = ex_rt) ∧
  (∃ d, systick_exception ex_rq 10 0 (ex_exit d) = Panic "Exiting thread exist in a list").
Proof.
  split.
  - destruct (ex_inv 1000) as [d HI].
    destruct (proj1 (proj2 (systick_switch ex_rq 10 (ex_state 1000 d) ex_Q ex_threads 0 0 ex_app)) HI
      (ex_ticking 1000 d 0 ltac:(lia) ltac:(unfold SYSTICK_RVR; lia)) ltac:(cbn; lia) ltac:(lia)
      ltac:(by_decide)) as (s' & E & Hc & _).
    exists d, s'. split; [exact E|]. rewrite Hc. reflexivity.
  - destruct ex_exit_core as [d HC]. exists d.
    eapply (proj2 (proj2 (systick_switch ex_rq 10 (ex_exit d) ex_exit_Q ex_threads 0 0 ex_app)) _ QApp).
    + constructor; [exact HC|split; [by_decide|intros q; destruct q; by_decide]|].
      intros t Ht. apply ex_in_threads in Ht. rewrite ex_exit_queued.
      destruct (ex_case t Ht) as [->|[->|[->| ->]]]; auto.
    + constructor; cbn; unfold SYSTICK_RVR; try lia. eexists. split; [reflexivity|cbn; lia].
    + cbn. lia.
    + lia.
    + reflexivity.
    + done.
    + rewrite ex_exit_queued. by intros [|].
    + done.
    + reflexivity.
    + done.
Defined.

Lemma core_scheduler_priority_witness :
  ∃ d t s', core_scheduler ex_rq (ex_state 1000 d) = Ret (t, s') ∧ t ∈ ex_threads.
Proof.
  destruct (ex_core 1000) as [d HC]. exists d.
  destruct (core_scheduler_priority ex_rq (ex_state 1000 d) ex_Q ex_threads HC) as (t & s' & E & Ht).
  exists t, s'. split; [exact E|].
  destruct Ht as [(r & Eq & _)|[(r & Eq & _)|[(r & Eq & _)|(Eq & _)]]]; vm_compute in Eq; try discriminate.
  injection Eq as <- _. by_decide.
Defined.

Lemma thread_sleep_refines_witness :
  ∃ d s' b a, thread_sleep ex_rq 10 1 (ex_state 1000 d) = Ret (tt, s') ∧ [ex_bg] = b ++ a ∧ wake_of s' ex_app = 301000.
Proof.
  destruct (ex_inv 1000) as [d HI]. exists d.
  destruct (thread_sleep_refines ex_rq 10 (ex_state 1000 d) ex_Q ex_threads ex_app 1 HI eq_refl ex_running
    ltac:(done) ltac:(lia) ltac:(cbn; lia) ltac:(cbn; unfold SYSTICK_RVR; lia) ltac:(cbn; lia))
    as (s' & b & a & E & Eq & _ & _ & _ & Hw & _).
  exists s', b, a. split_and!; [exact E|exact Eq|]. rewrite Hw. reflexivity.
Defined.

Lemma process_expired_wakes_first_witness :
  ∃ d s', process_expired_delays ex_rq 2 (ex_state 2000000 d) = Ret (tt, s') ∧ wake_of s' ex_bg = 0.
Proof.
  destruct (ex_core 2000000) as [d HC]. exists d.
  destruct (process_expired_wakes_first ex_rq 2 (ex_state 2000000 d) ex_Q ex_threads HC ltac:(lia)) as (s' & E & Hs).
  exists s'. split; [exact E|]. destruct Hs as (q & _ & Hw & _). exact Hw.
Defined.

Lemma thread_sleep_zero_panics_witness :
  ∃ d, (thread_sleep ex_rq 10 0 ;; systick_exception ex_rq 10 0) (ex_state 1000 d) = Panic "List error".
Proof.
  destruct (ex_inv 1000) as [d HI]. exists d.
  apply (thread_sleep_zero_panics ex_rq 10 (ex_state 1000 d) ex_Q ex_threads ex_app 0 HI
    (ex_ticking 1000 d 0 ltac:(lia) ltac:(unfold SYSTICK_RVR; lia)) ltac:(unfold SYSTICK_RVR; lia) ex_running
    ltac:(done) ltac:(cbn; lia)); [|cbn; lia|lia].
  intros t Ht. apply list_elem_of_singleton in Ht as ->. reflexivity.
Defined.

Lemma block_unblock_refines_witness :
  ∃ d s', scheduler_block_thread ex_rq ex_rt (ex_state 1000 d) = Ret (tt, s') ∧
          sched_inv ex_rq s' (<[QBlocked := [ex_rt]]> (<[QRt := []]> ex_Q)) ex_threads ex_app.
Proof.
  destruct (ex_inv 1000) as [d HI]. exists d.
  destruct (proj2 (block_unblock_refines ex_rq (ex_state 1000 d) ex_Q ex_threads ex_app ex_rt
    (ex_thread REAL_TIME (rt_rq ex_rq) 0 2) HI eq_refl eq_refl eq_refl) ltac:(done) QRt [] [] eq_refl)
    as (s1 & s2 & E & _ & _ & HI').
  exists s1. split; [exact E|exact HI'].
Defined.

Lemma get_thread_finds_witness :
  ∃ d s', get_thread ex_rq 10 2 (ex_state 1000 d) = Ret (ex_rt, s').
Proof.
  destruct (ex_srep 1000) as [d HR]. exists d, (ex_state 1000 d).
  destruct (get_thread_finds ex_rq 10 (ex_state 1000 d) ex_Q ex_threads 2 HR ltac:(cbn; lia))
    as [(t & Ht & Hid & E & _)|[Hall _]].
  - rewrite E. apply ex_in_threads in Ht. destruct (ex_case t Ht) as [->|[->|[->| ->]]]; try discriminate Hid.
    reflexivity.
  - destruct (Hall ex_rt ltac:(by_decide) eq_refl).
Defined.
