(* ===== verification/Crc.v ===== *)
(** * The frame check sequence (generic/crc.c, in the kernel and the bootloader)

    [crc_calculate] over a list of bytes, and which errors it detects with the
    polynomial of the frame interface. *)

From S2P Require Import Prelude.

Definition POLYNOMIAL : Z := 0xB2.

(** One turn of the inner loop. *)
Definition crc_bit (polynomial crc : Z) : Z :=
  let crc := if negb (Z.land crc 1 =? 0) then Z.lxor crc polynomial else crc in Z.shiftr crc 1.

(** One turn of the outer loop. *)
Definition crc_byte (polynomial crc data : Z) : Z :=
  Nat.iter 8 (crc_bit polynomial) (Z.lxor crc data).

Definition crc_calculate (src : list Z) (polynomial : Z) : Z :=
  fold_left (crc_byte polynomial) src 0.

(** ** What it detects *)

Definition bytes256 : list Z := seqZ 0 256.

Lemma in_bytes256 b : byte b ↔ b ∈ bytes256.
Proof. unfold bytes256, byte. rewrite elem_of_seqZ. lia. Qed.

(** A check of all bytes, by evaluation. *)
Lemma all_bytes (P : Z → bool) : forallb P bytes256 = true → ∀ b, byte b → P b = true.
Proof. intros HP b Hb. rewrite forallb_forall in HP. apply HP, list_elem_of_In. by apply in_bytes256. Qed.

Definition crc_mix (x : Z) : Z := Nat.iter 8 (crc_bit POLYNOMIAL) x.

Lemma crc_mix_small x : byte x → 0 <= crc_mix x < 128.
Proof.
  intros Hx. assert ((0 <=? crc_mix x) && (crc_mix x <? 128) = true) as E; [|lia].
  revert x Hx. apply all_bytes. vm_compute. reflexivity.
Qed.

Lemma crc_mix_collide x y : byte x → byte y → crc_mix x = crc_mix y ↔ x = y ∨ Z.lxor x y = 0xB3.
Proof.
  intros Hx Hy.
  assert (eqb (crc_mix x =? crc_mix y) ((x =? y) || (Z.lxor x y =? 0xB3)) = true) as E.
  { revert x Hx y Hy.
    assert (∀ x, byte x → forallb (λ y, eqb (crc_mix x =? crc_mix y) ((x =? y) || (Z.lxor x y =? 0xB3))) bytes256 = true) as E.
    { apply (all_bytes (λ x, forallb _ bytes256)). vm_compute. reflexivity. }
    intros x Hx y Hy. exact (all_bytes _ (E x Hx) y Hy). }
  apply eqb_prop in E. rewrite <- !Z.eqb_eq, E, orb_true_iff. done.
Qed.

Lemma lxor_byte x y : byte x → byte y → byte (Z.lxor x y).
Proof.
  intros Hx Hy. assert (0 <= Z.lxor x y) by (apply Z.lxor_nonneg; unfold byte in *; lia).
  unfold byte in *. split; [done|]. destruct (decide (Z.lxor x y = 0)) as [->|Hn]; [lia|].
  apply Z.log2_lt_pow2 with (b := 8); [lia|].
  eapply Z.le_lt_trans; [apply Z.log2_lxor; lia|].
  apply Z.max_lub_lt; (destruct (decide (x = 0)) as [->|]; destruct (decide (y = 0)) as [->|]; cbn; try lia).
  all: apply Z.log2_lt_pow2; lia.
Qed.

Lemma lxor_small x y : 0 <= x < 128 → 0 <= y < 128 → 0 <= Z.lxor x y < 128.
Proof.
  intros Hx Hy.
  assert ((0 <=? Z.lxor x y) && (Z.lxor x y <? 128) = true) as E; [|lia].
  assert (∀ x, byte x → forallb (λ y, (128 <=? x) || (128 <=? y) || ((0 <=? Z.lxor x y) && (Z.lxor x y <? 128))) bytes256 = true) as E.
  { apply (all_bytes (λ x, forallb _ bytes256)). vm_compute. reflexivity. }
  pose proof (all_bytes _ (E x ltac:(unfold byte; lia)) y ltac:(unfold byte; lia)) as E'. cbn in E'.
  rewrite (proj2 (Z.leb_gt 128 x)), (proj2 (Z.leb_gt 128 y)) in E' by lia. done.
Qed.

Lemma crc_byte_mix c b : crc_byte POLYNOMIAL c b = crc_mix (Z.lxor c b).
Proof. done. Qed.

Lemma crc_fold_byte l c : Forall byte l → byte c → byte (fold_left (crc_byte POLYNOMIAL) l c).
Proof.
  revert c; induction l as [|b l IH]; intros c Hl Hc; cbn [fold_left]; [done|].
  inversion Hl as [|? ? Hb Hl']; subst. apply IH; [done|]. rewrite crc_byte_mix.
  pose proof (crc_mix_small _ (lxor_byte _ _ Hc Hb)). unfold byte. lia.
Qed.

(** Different states below 128 stay different. *)
Lemma crc_fold_inj l c d :
  Forall byte l → 0 <= c < 128 → 0 <= d < 128 → c ≠ d →
  fold_left (crc_byte POLYNOMIAL) l c ≠ fold_left (crc_byte POLYNOMIAL) l d.
Proof.
  revert c d; induction l as [|b l IH]; intros c d Hl Hc Hd Hne; [done|]. cbn [fold_left].
  inversion Hl as [|? ? Hb Hl']; subst. rewrite !crc_byte_mix.
  assert (byte c) by (unfold byte; lia). assert (byte d) by (unfold byte; lia).
  pose proof (lxor_byte c b). pose proof (lxor_byte d b).
  apply IH; [done|by apply crc_mix_small; auto..|].
  rewrite crc_mix_collide by auto. intros [E|E].
  - apply Hne. apply (f_equal (λ z, Z.lxor z b)) in E. rewrite !Z.lxor_assoc, Z.lxor_nilpotent, !Z.lxor_0_r in E. done.
  - assert (Z.lxor (Z.lxor c b) (Z.lxor d b) = Z.lxor c d) as E'.
    { rewrite (Z.lxor_comm d b), <- Z.lxor_assoc, (Z.lxor_assoc c b b), Z.lxor_nilpotent, Z.lxor_0_r. done. }
    rewrite E' in E. pose proof (lxor_small c d Hc Hd). lia.
Qed.

(** The check sequence of the frame interface detects a change of one byte
    unless the two bytes differ exactly in the bits of 0xB3, and then it never
    does: with the polynomial 0xB2 the check sequence has only seven significant
    bits. *)
Theorem crc_detects l1 a b l2 :
  Forall byte (l1 ++ a :: l2) → byte b →
  (crc_calculate (l1 ++ a :: l2) POLYNOMIAL = crc_calculate (l1 ++ b :: l2) POLYNOMIAL ↔
   a = b ∨ Z.lxor a b = 0xB3) ∧
  0 <= crc_calculate (l1 ++ a :: l2) POLYNOMIAL < 128.
Proof.
  intros Hl Hb. apply Forall_app in Hl as [Hl1 Hl2]. inversion Hl2 as [|? ? Ha Hl2']; subst.
  unfold crc_calculate. rewrite !fold_left_app. cbn [fold_left].
  set (c := fold_left (crc_byte POLYNOMIAL) l1 0).
  assert (byte c) as Hc by (apply crc_fold_byte; [done|unfold byte; lia]).
  rewrite !crc_byte_mix. pose proof (lxor_byte _ _ Hc Ha) as Hca. pose proof (lxor_byte _ _ Hc Hb) as Hcb.
  pose proof (crc_mix_small _ Hca) as Hma. pose proof (crc_mix_small _ Hcb) as Hmb.
  assert (Z.lxor (Z.lxor c a) (Z.lxor c b) = Z.lxor a b) as Ex.
  { rewrite (Z.lxor_comm c a), Z.lxor_assoc, <- (Z.lxor_assoc c c b), Z.lxor_nilpotent, Z.lxor_0_l. done. }
  split.
  - split.
    + intros E. destruct (decide (crc_mix (Z.lxor c a) = crc_mix (Z.lxor c b))) as [Em|Em].
      * apply crc_mix_collide in Em as [Em|Em]; [left|right; by rewrite <- Ex|done..].
        apply Z.lxor_eq. rewrite <- Ex, Em. apply Z.lxor_nilpotent.
      * by apply (crc_fold_inj l2) in Em.
    + intros [->|E]; [done|]. f_equal. apply crc_mix_collide; [done..|]. right. by rewrite Ex.
  - clear Hmb Hcb Hb Ex b Hl2. generalize dependent (crc_mix (Z.lxor c a)). clear -Hl2'.
    induction l2 as [|d l2 IH]; intros x Hx; cbn [fold_left]; [done|].
    inversion Hl2' as [|? ? Hd Hl]; subst. apply IH; [done|]. rewrite crc_byte_mix.
    apply crc_mix_small, lxor_byte; [unfold byte; lia|done].
Qed.

Lemma crc_detects_witness : crc_calculate [1; 2; 0xB3] POLYNOMIAL = crc_calculate [1; 2; 0] POLYNOMIAL.
Proof.
  assert (Forall byte ([1; 2] ++ 0xB3 :: [])) as Hl by (repeat constructor; unfold byte; lia).
  apply (proj2 (proj1 (crc_detects [1; 2] 0xB3 0 [] Hl ltac:(unfold byte; lia)))). right. reflexivity.
Defined.
