(* ===== verification/Ringbuffer.v ===== *)
(** * The ring buffer (generic/ringbuffer.c)

    Four pointers into a memory.  [ring_rep] relates them to the queue of bytes
    they hold. *)

From S2P Require Import Prelude Memory.

Record ringbuffer := Ringbuffer {
  buffer_start : Z;
  buffer_end : Z;
  read_ptr : Z;
  write_ptr : Z
}.

(** A ring buffer and the memory. *)
Abbreviation rstate := (ringbuffer * mem)%type.

Definition set_read (v : Z) : M rstate unit :=
  modify (λ s, (Ringbuffer (buffer_start s.1) (buffer_end s.1) v (write_ptr s.1), s.2)).
Definition set_write (v : Z) : M rstate unit :=
  modify (λ s, (Ringbuffer (buffer_start s.1) (buffer_end s.1) (read_ptr s.1) v, s.2)).
Definition store (a v : Z) : M rstate unit := modify (λ s, (s.1, st8 s.2 a v)).
Definition load (a : Z) : M rstate Z := gets (λ s, ld8 s.2 a).

Definition ringbuffer_init (buffer size : Z) : M rstate unit :=
  modify (λ s, (Ringbuffer buffer (buffer + size) buffer buffer, s.2)).

Definition ringbuffer_add (data : Z) : M rstate unit :=
  let* rb := gets fst in
  store (write_ptr rb) data ;;
  set_write (write_ptr rb + 1) ;;
  let* rb := gets fst in
  (if write_ptr rb =? read_ptr rb then panic "Buffer overflow" else ret tt) ;;
  let* rb := gets fst in
  if write_ptr rb =? buffer_end rb then set_write (buffer_start rb) else ret tt.

Definition ringbuffer_read : M rstate Z :=
  let* rb := gets fst in
  if negb (read_ptr rb =? write_ptr rb) then
    let* data := load (read_ptr rb) in
    set_read (read_ptr rb + 1) ;;
    let* rb := gets fst in
    (if read_ptr rb =? buffer_end rb then set_read (buffer_start rb) else ret tt) ;;
    ret data
  else ret 0.

(** The loop of [ringbuffer_read_mult]; [data] is the destination. *)
Fixpoint read_mult_loop (size : nat) (data ret_size : Z) : M rstate Z :=
  match size with
  | O => ret ret_size
  | S size =>
      let* rb := gets fst in
      if read_ptr rb =? write_ptr rb then ret ret_size else
      let* b := load (read_ptr rb) in
      store data b ;;
      set_read (read_ptr rb + 1) ;;
      read_mult_loop size (data + 1) (u32 (ret_size + 1))
  end.
Definition ringbuffer_read_mult (data : Z) (size : nat) : M rstate Z := read_mult_loop size data 0.

(** ** The queue a ring buffer holds *)

Definition ring_size (rb : ringbuffer) : Z := buffer_end rb - buffer_start rb.

(** The address of the [i]-th byte in the queue. *)
Definition ring_at (rb : ringbuffer) (i : Z) : Z :=
  buffer_start rb + (read_ptr rb - buffer_start rb + i) mod ring_size rb.

Record ring_rep (rb : ringbuffer) (m : mem) (xs : list Z) : Prop := {
  rr_read : buffer_start rb <= read_ptr rb < buffer_end rb;
  rr_write : buffer_start rb <= write_ptr rb < buffer_end rb;
  rr_len : Z.of_nat (length xs) < ring_size rb;
  rr_end : write_ptr rb = ring_at rb (Z.of_nat (length xs));
  rr_data : ∀ i x, xs !! i = Some x → ld8 m (ring_at rb (Z.of_nat i)) = x
}.

Lemma mod_cases a b : 0 < b → 0 <= a < 2 * b → a mod b = if decide (a < b) then a else a - b.
Proof.
  intros Hb Ha. case_decide; [apply Z.mod_small; lia|].
  replace a with (a - b + 1 * b) at 1 by lia. rewrite Z.mod_add by lia. apply Z.mod_small. lia.
Qed.

(** The addresses of the queue without remainders. *)
Lemma ring_at_cases rb m xs i :
  ring_rep rb m xs → 0 <= i < ring_size rb →
  ring_at rb i = if decide (read_ptr rb + i < buffer_end rb) then read_ptr rb + i
                 else read_ptr rb + i - ring_size rb.
Proof.
  intros [Hr _ _ _ _] Hi. unfold ring_at, ring_size in *. rewrite mod_cases by lia.
  repeat case_decide; lia.
Qed.

Lemma ring_rep_empty rb m :
  buffer_start rb <= read_ptr rb < buffer_end rb → write_ptr rb = read_ptr rb → ring_rep rb m [].
Proof.
  intros Hr Hw. constructor; [done|lia|cbn; unfold ring_size; lia| |done].
  unfold ring_at, ring_size. cbn. rewrite Z.add_0_r, Z.mod_small by lia. lia.
Qed.

Definition wrap (rb : ringbuffer) (p : Z) : Z := if p + 1 =? buffer_end rb then buffer_start rb else p + 1.

Lemma ring_at_step rb rb' i :
  buffer_start rb <= read_ptr rb < buffer_end rb →
  rb' = Ringbuffer (buffer_start rb) (buffer_end rb) (wrap rb (read_ptr rb)) (write_ptr rb) →
  ring_at rb' i = ring_at rb (i + 1).
Proof.
  intros Hr ->. unfold ring_at, ring_size, wrap. cbn. set (n := buffer_end rb - buffer_start rb).
  destruct (Z.eqb_spec (read_ptr rb + 1) (buffer_end rb)) as [E|E].
  - replace (read_ptr rb - buffer_start rb + (i + 1)) with (buffer_start rb - buffer_start rb + i + 1 * n)
      by (unfold n; lia). by rewrite Z.mod_add by (unfold n; lia).
  - do 2 f_equal. lia.
Qed.

Lemma ring_add_run rb m xs x :
  ring_rep rb m xs → byte x →
  (Z.of_nat (length xs) + 1 < ring_size rb →
     ∃ rb' m', ringbuffer_add x (rb, m) = Ret (tt, (rb', m')) ∧ ring_rep rb' m' (xs ++ [x]) ∧
       same_outside (λ a, buffer_start rb <= a < buffer_end rb) m m') ∧
  (Z.of_nat (length xs) + 1 = ring_size rb →
     if decide (read_ptr rb = buffer_start rb)
     then ∃ rb' m', ringbuffer_add x (rb, m) = Ret (tt, (rb', m')) ∧ ring_rep rb' m' []
     else ringbuffer_add x (rb, m) = Panic "Buffer overflow").
Proof.
  intros HR Hx. pose proof HR as [Hr Hw Hl He Hd].
  pose proof (ring_at_cases _ _ _ _ HR (conj (Zle_0_nat (length xs)) Hl)) as Ec. rewrite <- He in Ec.
  unfold ring_size in *. split; intros Hn.
  - exists (Ringbuffer (buffer_start rb) (buffer_end rb) (read_ptr rb) (wrap rb (write_ptr rb))),
      (st8 m (write_ptr rb) x). split_and!.
    + unfold ringbuffer_add, wrap, bind, gets, store, set_write, modify, ret, panic. cbn.
      rewrite eqb_false by (case_decide; lia). cbn. by destruct (write_ptr rb + 1 =? buffer_end rb).
    + constructor; cbn; unfold ring_size, wrap; cbn.
      * done.
      * destruct (Z.eqb_spec (write_ptr rb + 1) (buffer_end rb)); lia.
      * rewrite length_app. cbn. lia.
      * rewrite length_app. cbn. unfold ring_at, ring_size. cbn. rewrite mod_cases by lia.
        destruct (Z.eqb_spec (write_ptr rb + 1) (buffer_end rb)); repeat case_decide; lia.
      * intros i y Hi. change (ring_at (Ringbuffer _ _ _ _) (Z.of_nat i)) with (ring_at rb (Z.of_nat i)).
        apply lookup_app_Some in Hi as [Hi|[Hge Hi]].
        { rewrite ld8_st8_ne; [by apply Hd|]. apply lookup_lt_Some in Hi.
          rewrite (ring_at_cases _ _ _ _ HR) by (unfold ring_size; lia). repeat case_decide; unfold ring_size; lia. }
        apply list_lookup_singleton_Some in Hi as [Hi <-]. assert (i = length xs) as -> by lia.
        rewrite <- He, ld8_st8_eq. unfold byte in Hx. by rewrite u8_small.
    + by apply same_outside_st8.
  - destruct (decide (read_ptr rb = buffer_start rb)) as [Hrs|Hrs].
    + exists (Ringbuffer (buffer_start rb) (buffer_end rb) (read_ptr rb) (buffer_start rb)), (st8 m (write_ptr rb) x).
      assert (write_ptr rb + 1 = buffer_end rb) as Ew by (case_decide; lia). split.
      * unfold ringbuffer_add, bind, gets, store, set_write, modify, ret, panic. cbn.
        rewrite eqb_false by lia. cbn. by rewrite Ew, Z.eqb_refl.
      * apply ring_rep_empty; cbn; lia.
    + unfold ringbuffer_add, bind, gets, store, set_write, modify, ret, panic. cbn.
      rewrite eqb_true; [done|]. case_decide; lia.
Qed.

Lemma ring_read_run rb m xs :
  ring_rep rb m xs →
  match xs with
  | [] => ringbuffer_read (rb, m) = Ret (0, (rb, m))
  | x :: xs' => ∃ rb', ringbuffer_read (rb, m) = Ret (x, (rb', m)) ∧ ring_rep rb' m xs'
  end.
Proof.
  intros HR. pose proof HR as [Hr Hw Hl He Hd].
  pose proof (ring_at_cases _ _ _ _ HR (conj (Zle_0_nat (length xs)) Hl)) as Ec. rewrite <- He in Ec.
  destruct xs as [|x xs]; cbn [length] in *.
  - unfold ringbuffer_read, bind, gets. cbn. rewrite eqb_true; [done|]. case_decide; lia.
  - set (rb' := Ringbuffer (buffer_start rb) (buffer_end rb) (wrap rb (read_ptr rb)) (write_ptr rb)).
    pose proof (Hd 0%nat x eq_refl) as H0. rewrite (ring_at_cases _ _ _ _ HR) in H0 by (unfold ring_size; lia).
    rewrite decide_True, Z.add_0_r in H0 by lia. exists rb'. split.
    + unfold ringbuffer_read, rb', wrap, bind, gets, load, set_read, modify, ret. cbn.
      rewrite eqb_false by (unfold ring_size in *; case_decide; lia). cbn. rewrite H0.
      by destruct (read_ptr rb + 1 =? buffer_end rb).
    + pose proof (λ i, ring_at_step rb rb' i Hr eq_refl) as Es.
      constructor; cbn [read_ptr write_ptr buffer_start buffer_end]; unfold rb'; cbn.
      * unfold wrap. destruct (Z.eqb_spec (read_ptr rb + 1) (buffer_end rb)); lia.
      * done.
      * unfold ring_size in *. cbn. lia.
      * fold rb'. rewrite Es, He. f_equal. lia.
      * fold rb'. intros i y Hi. rewrite Es. rewrite <- (Hd (S i) y Hi). do 2 f_equal. lia.
Qed.

(** C27. The ring buffer is a first-in first-out queue of at most [size - 1]
    bytes: initialising makes it empty; with room, [ringbuffer_add] appends one
    byte and writes only inside the buffer; [ringbuffer_read] takes the oldest
    byte and returns 0 without a change when there is none.  When the queue has
    [size - 1] bytes, adding one more panics, except when the oldest byte is at
    the start of the buffer: then all the bytes are silently lost. *)
Theorem ringbuffer_fifo rb m xs x :
  ring_rep rb m xs → byte x →
  (∃ rb' m', ringbuffer_init (buffer_start rb) (ring_size rb) (rb, m) = Ret (tt, (rb', m')) ∧ ring_rep rb' m' []) ∧
  (Z.of_nat (length xs) + 1 < ring_size rb →
     ∃ rb' m', ringbuffer_add x (rb, m) = Ret (tt, (rb', m')) ∧ ring_rep rb' m' (xs ++ [x]) ∧
       same_outside (λ a, buffer_start rb <= a < buffer_end rb) m m') ∧
  match xs with
  | [] => ringbuffer_read (rb, m) = Ret (0, (rb, m))
  | y :: ys => ∃ rb', ringbuffer_read (rb, m) = Ret (y, (rb', m)) ∧ ring_rep rb' m ys
  end ∧
  (Z.of_nat (length xs) + 1 = ring_size rb →
     if decide (read_ptr rb = buffer_start rb)
     then ∃ rb' m', ringbuffer_add x (rb, m) = Ret (tt, (rb', m')) ∧ ring_rep rb' m' []
     else ringbuffer_add x (rb, m) = Panic "Buffer overflow").
Proof.
  intros HR Hx. pose proof (ring_add_run rb m xs x HR Hx) as [Ha Hf]. pose proof (ring_read_run rb m xs HR) as Hrd.
  split_and!; [|exact Ha|exact Hrd|exact Hf].
  eexists _, m. split; [reflexivity|]. pose proof (rr_read _ _ _ HR).
  apply ring_rep_empty; cbn; unfold ring_size; lia.
Qed.

Definition ex_ring : ringbuffer := Ringbuffer 100 104 100 100.

Lemma ringbuffer_fifo_witness :
  ring_rep ex_ring ∅ [] ∧ ∃ rb' m', ringbuffer_add 7 (ex_ring, ∅) = Ret (tt, (rb', m')) ∧ ring_rep rb' m' [7].
Proof.
  assert (ring_rep ex_ring ∅ []) as HR by (apply ring_rep_empty; cbn; lia).
  split; [exact HR|].
  destruct (proj1 (proj2 (ringbuffer_fifo ex_ring ∅ [] 7 HR ltac:(unfold byte; lia))) ltac:(unfold ring_size; cbn; lia))
    as (rb' & m' & E & HR' & _).
  exists rb', m'. split; [exact E|exact HR'].
Defined.

(** ** Reading many bytes *)

(** The ring with the read pointer moved by [n], without wrapping around. *)
Definition moved (rb : ringbuffer) (n : Z) : ringbuffer :=
  Ringbuffer (buffer_start rb) (buffer_end rb) (read_ptr rb + n) (write_ptr rb).

(** [n] turns of the loop, none of which finds the write pointer. *)
Lemma read_mult_turns n size data r rb m :
  (∀ k, 0 <= k < Z.of_nat n → read_ptr rb + k ≠ write_ptr rb) →
  data + Z.of_nat n <= read_ptr rb ∨ read_ptr rb + Z.of_nat n <= data → mem_bytes m →
  0 <= r → r + Z.of_nat n < 2 ^ 32 →
  read_mult_loop (n + size) data r (rb, m) =
  read_mult_loop size (data + Z.of_nat n) (r + Z.of_nat n)
    (moved rb (Z.of_nat n), write_bytes m data (read_bytes m (read_ptr rb) n)).
Proof.
  revert data r rb m; induction n as [|n IH]; intros data r rb m Hk Hd Hb Hr Hs.
  - cbn [Nat.add read_bytes write_bytes]. unfold moved. destruct rb. cbn. by rewrite !Z.add_0_r.
  - cbn [Nat.add read_mult_loop]. unfold bind at 1. cbn [gets fst].
    rewrite eqb_false by (specialize (Hk 0 ltac:(lia)); lia).
    unfold bind, load, gets, store, set_read, modify. cbn [fst snd].
    change (Ringbuffer _ _ _ _) with (moved rb 1). rewrite (u32_small (r + 1)) by lia.
    rewrite IH; [|..]; cbn [moved read_ptr write_ptr].
    + cbn [read_bytes write_bytes]. f_equal; [lia|lia|]. unfold moved. cbn. f_equal; [f_equal; lia|].
      f_equal. apply read_bytes_ext. intros b Hbb. rewrite ld8_st8_ne by lia. done.
    + intros k Hk'. specialize (Hk (k + 1) ltac:(lia)). lia.
    + lia.
    + by apply mem_bytes_st8.
    + lia.
    + lia.
Qed.

(** A loop at the write pointer ends. *)
Lemma read_mult_stops size data r rb m : read_ptr rb = write_ptr rb → read_mult_loop size data r (rb, m) = Ret (r, (rb, m)).
Proof. intros E. destruct size; [done|]. cbn. unfold bind, gets. cbn. by rewrite E, Z.eqb_refl. Qed.

(** Reading many bytes, into a destination outside the buffer: as long as the queue does not wrap around,
    [ringbuffer_read_mult] takes the oldest bytes, as many as asked for or as there are.
    When the write pointer has wrapped around it never meets it, and takes the asked
    number of bytes from the read pointer on, also those after the end of the buffer,
    and leaves the read pointer there. *)
Theorem ringbuffer_read_mult_limits rb m xs data size :
  ring_rep rb m xs → mem_bytes m → Z.of_nat size < 2 ^ 32 →
  data + Z.of_nat size <= buffer_start rb ∨ buffer_end rb <= data ∧ read_ptr rb + Z.of_nat size <= data →
  (read_ptr rb <= write_ptr rb →
     ∃ m', ringbuffer_read_mult data size (rb, m) =
         Ret (Z.of_nat (length (take size xs)), (moved rb (Z.of_nat (length (take size xs))), m')) ∧
       read_bytes m' data (length (take size xs)) = take size xs ∧
       ring_rep (moved rb (Z.of_nat (length (take size xs)))) m' (drop size xs)) ∧
  (write_ptr rb < read_ptr rb →
     ∃ m', ringbuffer_read_mult data size (rb, m) = Ret (Z.of_nat size, (moved rb (Z.of_nat size), m')) ∧
       read_bytes m' data size = read_bytes m (read_ptr rb) size).
Proof.
  intros HR Hm Hs Hd. pose proof HR as [Hr Hw Hl He Hx]. split.
  - intros Hle.
    pose proof (ring_at_cases _ _ _ _ HR (conj (Zle_0_nat (length xs)) Hl)) as Ec. rewrite <- He in Ec.
    assert (write_ptr rb = read_ptr rb + Z.of_nat (length xs)) as Ew by (unfold ring_size in *; case_decide; lia). clear Ec.
    set (n := length (take size xs)). assert (n = (size `min` length xs)%nat) as En by (unfold n; by rewrite length_take).
    assert (read_bytes m (read_ptr rb) n = take size xs) as Ebs.
    { apply list_eq. intros k. destruct (decide (k < n)%nat) as [Hk|Hk].
      - rewrite lookup_read_bytes by done. destruct (lookup_lt_is_Some_2 (take size xs) k Hk) as [x Ex]. rewrite Ex.
        f_equal. rewrite lookup_take in Ex. case_decide; [|done]. rewrite <- (Hx _ _ Ex).
        rewrite (ring_at_cases _ _ _ _ HR) by lia. rewrite decide_True by lia. done.
      - rewrite !lookup_ge_None_2; [done|unfold n in *; lia|rewrite length_read_bytes; lia]. }
    exists (write_bytes m data (take size xs)). split_and!.
    + unfold ringbuffer_read_mult. replace size with (n + (size - n))%nat at 1 by lia.
      rewrite read_mult_turns by (done || lia). rewrite Ebs, Z.add_0_l.
      destruct (decide (size <= length xs)%nat) as [Hc|Hc].
      * replace (size - n)%nat with 0%nat by lia. done.
      * apply read_mult_stops. cbn. lia.
    + unfold n. apply read_write_bytes. rewrite <- Ebs. apply Forall_lookup_2. intros k x Hk.
      pose proof (lookup_lt_Some _ _ _ Hk) as Hlk. rewrite length_read_bytes in Hlk.
      rewrite lookup_read_bytes in Hk by done. injection Hk as <-. apply Hm.
    + constructor; cbn [moved read_ptr write_ptr buffer_start buffer_end].
      * lia.
      * done.
      * rewrite length_drop. unfold ring_size in *. cbn. lia.
      * rewrite length_drop. unfold ring_at, ring_size in *. cbn. rewrite mod_cases by lia. case_decide; lia.
      * intros i x Hi. rewrite lookup_drop in Hi. rewrite <- (Hx _ _ Hi).
        assert (ring_at (moved rb (Z.of_nat n)) (Z.of_nat i) = ring_at rb (Z.of_nat (size + i))) as ->.
        { pose proof (lookup_lt_Some _ _ _ Hi). unfold ring_at, ring_size, moved. cbn. do 2 f_equal. lia. }
        apply ld8_write_bytes_out. fold n. rewrite (ring_at_cases _ _ _ _ HR) by (pose proof (lookup_lt_Some _ _ _ Hi); lia).
        pose proof (lookup_lt_Some _ _ _ Hi). rewrite decide_True by lia. lia.
  - intros Hlt. eexists. split.
    + unfold ringbuffer_read_mult. replace size with (size + 0)%nat at 1 by lia.
      rewrite read_mult_turns by (done || lia). cbn [read_mult_loop]. rewrite Z.add_0_l. reflexivity.
    + pose proof (read_write_bytes m data (read_bytes m (read_ptr rb) size)) as E. rewrite length_read_bytes in E. apply E.
      apply Forall_lookup_2. intros k x Hk. pose proof (lookup_lt_Some _ _ _ Hk) as Hlk. rewrite length_read_bytes in Hlk.
      rewrite lookup_read_bytes in Hk by done. injection Hk as <-. apply Hm.
Qed.

(** The write pointer is behind the read pointer: four bytes are read from a queue of two, the
    last two of them from behind the buffer. *)
Lemma ringbuffer_read_mult_limits_witness :
  let m := write_bytes ∅ 100 [9; 0; 0; 8; 77; 78] in
  ∃ m', ringbuffer_read_mult 200 3 (Ringbuffer 100 104 103 101, m) = Ret (3, (Ringbuffer 100 104 106 101, m')) ∧
    read_bytes m' 200 3 = [8; 77; 78].
Proof.
  intros m.
  assert (ring_rep (Ringbuffer 100 104 103 101) m [8; 9]) as HR.
  { constructor; try (by vm_compute). intros [|[|i]] x Hi; [by injection Hi as <-; vm_compute..|done]. }
  assert (mem_bytes m) as Hm by (apply mem_bytes_write; intros a; unfold ld8; rewrite lookup_empty; by compute).
  destruct (proj2 (ringbuffer_read_mult_limits (Ringbuffer 100 104 103 101) m [8; 9] 200 3 HR Hm ltac:(lia) ltac:(cbn; lia))
    ltac:(cbn; lia)) as (m' & E & Er).
  exists m'. split; [exact E|]. rewrite Er. by vm_compute.
Defined.
