(* ===== verification/Frame.v ===== *)
(** * The frame interface (bootloader/src/frame.c, kernel/src/kernel/bootloader.c)

    The receive handler of the serial port, as the bootloader and the kernel have
    it: a state machine over the bytes of the host, with a timeout.  A frame is
    START, command, two bytes of size, payload, check sequence, END. *)

From S2P Require Import Prelude Crc.

Definition START_BYTE : Z := 0xAA.
Definition END_BYTE : Z := 0x55.
Definition MAX_PAYLOAD_SIZE : Z := 512.

Definition RESP_OK : Z := 0.
Definition RESP_ERROR : Z := 1.
Definition RESP_FCS_ERROR : Z := 16.
Definition RESP_FRAME_ERROR : Z := 64.

Inductive bus_states := STATE_IDLE | STATE_CMD | STATE_SIZE | STATE_PAYLOAD | STATE_FCS | STATE_END.

#[export] Instance bus_states_eq_dec : EqDecision bus_states.
Proof. solve_decision. Defined.

Definition is_idle (b : bus_states) : bool := match b with STATE_IDLE => true | _ => false end.

(** [struct frame]; the payload is the whole array. *)
Record frame := Frame {
  cmd : Z;
  size : Z;
  payload : list Z;
  fcs : Z
}.

(** What leaves the interface: a response to the host, and the kernel's reset
    into the bootloader. *)
Inductive frame_event := EvResponse (error_code : Z) | EvStayInBootloader.

(** The interface variables, the timeout timer and the events so far. *)
Record fstate := FState {
  bus_state : bus_states;
  fr : frame;
  frame_index : Z;
  frame_received : Z;
  timer : bool;
  events : list frame_event
}.

Definition set_bus (b : bus_states) (s : fstate) : fstate :=
  FState b (fr s) (frame_index s) (frame_received s) (timer s) (events s).
Definition set_frame (f : frame) (s : fstate) : fstate :=
  FState (bus_state s) f (frame_index s) (frame_received s) (timer s) (events s).
Definition set_index (i : Z) (s : fstate) : fstate :=
  FState (bus_state s) (fr s) i (frame_received s) (timer s) (events s).
Definition set_received (v : Z) (s : fstate) : fstate :=
  FState (bus_state s) (fr s) (frame_index s) v (timer s) (events s).
Definition set_timer (v : bool) (s : fstate) : fstate :=
  FState (bus_state s) (fr s) (frame_index s) (frame_received s) v (events s).
Definition emit (e : frame_event) (s : fstate) : fstate :=
  FState (bus_state s) (fr s) (frame_index s) (frame_received s) (timer s) (events s ++ [e]).

Definition timeout_stop : M fstate unit := modify (set_timer false).
Definition timeout_reload : M fstate unit := modify (set_timer true).

(** [send_response] and [check_new_frame]. *)
Definition send_response (error_code : Z) : M fstate unit :=
  modify (set_received 0) ;; modify (emit (EvResponse error_code)).
Definition check_new_frame : M fstate Z :=
  let* r := gets frame_received in ret (if negb (r =? 0) then 1 else 0).

(** The memory of the packed [struct frame]. *)
Definition frame_bytes (f : frame) : list Z :=
  cmd f :: u8 (size f) :: u8 (size f / 256) :: payload f ++ [fcs f].

(** [crc_calculate((u8 * )&frame, frame.size + 3, POLYNOMIAL)]; reading past the
    structure is undefined. *)
Definition frame_crc (f : frame) : option Z :=
  if size f + 3 <=? Z.of_nat (length (frame_bytes f))
  then Some (crc_calculate (take (Z.to_nat (size f + 3)) (frame_bytes f)) POLYNOMIAL) else None.

(** [frame.payload[i] = v]; undefined past the end of the array. *)
Definition store_payload (i v : Z) : M fstate unit :=
  let* f := gets fr in
  if i <? Z.of_nat (length (payload f)) then
    modify (set_frame (Frame (cmd f) (size f) (<[Z.to_nat i := v]> (payload f)) (fcs f)))
  else ub.

(** The switch of the handler. *)
Definition frame_fsm (data : Z) : M fstate unit :=
  let* st := gets bus_state in
  match st with
  | STATE_IDLE =>
      if data =? START_BYTE then modify (set_bus STATE_CMD) ;; timeout_reload else ret tt
  | STATE_CMD =>
      let* f := gets fr in
      modify (set_frame (Frame data (size f) (payload f) (fcs f))) ;;
      modify (set_bus STATE_SIZE) ;;
      modify (set_index 0) ;;
      let* f := gets fr in
      modify (set_frame (Frame (cmd f) 0 (payload f) (fcs f)))
  | STATE_SIZE =>
      let* f := gets fr in
      let* i := gets frame_index in
      modify (set_frame (Frame (cmd f) (u16 (Z.lor (size f) (Z.shiftl data (8 * i)))) (payload f) (fcs f))) ;;
      modify (set_index (u32 (i + 1))) ;;
      let* i := gets frame_index in
      if 2 <=? i then modify (set_bus STATE_PAYLOAD) ;; modify (set_index 0) else ret tt
  | STATE_PAYLOAD =>
      let* i := gets frame_index in
      store_payload i data ;;
      modify (set_index (u32 (i + 1))) ;;
      let* f := gets fr in
      let* i := gets frame_index in
      if size f <=? i then modify (set_bus STATE_FCS) else ret tt
  | STATE_FCS =>
      let* f := gets fr in
      modify (set_frame (Frame (cmd f) (size f) (payload f) data)) ;;
      modify (set_bus STATE_END)
  | STATE_END =>
      (if data =? END_BYTE then
         let* f := gets fr in
         let* crc := of_option (frame_crc f) in
         if crc =? fcs f then modify (set_received 1)
         else send_response (Z.lor RESP_ERROR RESP_FCS_ERROR)
       else send_response (Z.lor RESP_ERROR RESP_FRAME_ERROR)) ;;
      modify (set_bus STATE_IDLE) ;;
      timeout_stop
  end.

(** The bootloader's handler. *)
Definition usart0_handler (data : Z) : M fstate unit :=
  let* st := gets bus_state in
  (if negb (is_idle st) then timeout_reload else ret tt) ;;
  let* st := gets bus_state in
  (if is_idle st
   then (if data =? 0 then send_response RESP_OK else ret tt) else ret tt) ;;
  frame_fsm data.

(** The kernel's handler; arming the boot signature and the soft reset are one
    event. *)
Definition usart0_exception (data : Z) : M fstate unit :=
  let* st := gets bus_state in
  (if negb (is_idle st) then timeout_reload else ret tt) ;;
  let* st := gets bus_state in
  (if (data =? 0) && is_idle st then modify (emit EvStayInBootloader) else ret tt) ;;
  frame_fsm data.

(** The timeout. *)
Definition timer0_ch0_handler : M fstate unit :=
  timeout_stop ;; modify (set_bus STATE_IDLE).

(** Either program's handler. *)
Definition receive (kernel : bool) : Z → M fstate unit :=
  if kernel then usart0_exception else usart0_handler.

Fixpoint receive_all (kernel : bool) (data : list Z) : M fstate unit :=
  match data with
  | [] => ret tt
  | b :: data => receive kernel b ;; receive_all kernel data
  end.

(** ** Receiving a frame *)

(** What the host sends. *)
Definition encode (c : Z) (data : list Z) (check stop : Z) : list Z :=
  let n := Z.of_nat (length data) in
  [START_BYTE; c; n mod 256; n / 256] ++ data ++ [check; stop].

Lemma receive_all_app kernel a b s :
  receive_all kernel (a ++ b) s = bind (receive_all kernel a) (λ _, receive_all kernel b) s.
Proof.
  revert s; induction a as [|x a IH]; intros s; [done|]. cbn [receive_all app].
  rewrite bind_bind. unfold bind at 1 2. by destruct (receive kernel x s) as [[[] s']| | |]; rewrite ?IH.
Qed.

Lemma receive_busy kernel d s :
  bus_state s ≠ STATE_IDLE → receive kernel d s = frame_fsm d (set_timer true s).
Proof.
  intros Hst. unfold receive. destruct s as [st f i r t ev]; cbn in Hst.
  destruct kernel; unfold usart0_exception, usart0_handler, timeout_reload, bind, gets, modify; cbn;
    destruct st; try done; cbn; rewrite ?andb_false_r; done.
Qed.

(** A byte in the payload. *)
Lemma receive_payload kernel d s :
  bus_state s = STATE_PAYLOAD → 0 <= frame_index s < Z.of_nat (length (payload (fr s))) →
  Z.of_nat (length (payload (fr s))) <= 512 →
  receive kernel d s = Ret (tt,
    FState (if size (fr s) <=? frame_index s + 1 then STATE_FCS else STATE_PAYLOAD)
      (Frame (cmd (fr s)) (size (fr s)) (<[Z.to_nat (frame_index s) := d]> (payload (fr s))) (fcs (fr s)))
      (frame_index s + 1) (frame_received s) true (events s)).
Proof.
  intros Hst Hi Hl. rewrite receive_busy by (by rewrite Hst). destruct s as [st f i r t ev]; cbn in *; subst.
  assert ((i <? Z.of_nat (length (payload f))) = true) as E by lia.
  assert (u32 (i + 1) = i + 1) as Eu by (apply u32_small; lia).
  unfold frame_fsm, store_payload, bind, gets, modify, ret; cbn. rewrite E; cbn. rewrite Eu.
  by destruct (size f <=? i + 1).
Qed.

Lemma receive_payloads kernel data s :
  bus_state s = STATE_PAYLOAD → 0 <= frame_index s → data ≠ [] →
  frame_index s + Z.of_nat (length data) = size (fr s) →
  size (fr s) <= Z.of_nat (length (payload (fr s))) → Z.of_nat (length (payload (fr s))) <= 512 →
  receive_all kernel data s = Ret (tt,
    FState STATE_FCS
      (Frame (cmd (fr s)) (size (fr s)) (list_inserts (Z.to_nat (frame_index s)) data (payload (fr s))) (fcs (fr s)))
      (size (fr s)) (frame_received s) true (events s)).
Proof.
  revert s; induction data as [|d data IH]; intros s Hst Hi Hne Hsz Hpl Hmax; [done|].
  cbn [receive_all length] in *.
  rewrite (bind_Ret _ _ _ _ _ (receive_payload kernel d s Hst ltac:(lia) Hmax)).
  destruct data as [|d' data].
  - cbn [length] in *. rewrite (proj2 (Z.leb_le _ _)) by lia. cbn [receive_all list_inserts]. unfold ret.
    do 3 f_equal. lia.
  - rewrite (proj2 (Z.leb_gt _ _)) by (cbn [length] in *; lia). rewrite IH; cbn [bus_state fr frame_index size payload cmd fcs frame_received events].
    + do 4 f_equal. replace (Z.to_nat (frame_index s + 1)) with (S (Z.to_nat (frame_index s))) by lia.
      symmetry. apply list_insert_inserts_lt. lia.
    + done.
    + lia.
    + done.
    + cbn [length] in *. lia.
    + rewrite length_insert. lia.
    + rewrite length_insert. lia.
Qed.

(** ** The header and the trailer *)

Definition ready (s : fstate) : Prop :=
  bus_state s = STATE_IDLE ∧ Z.of_nat (length (payload (fr s))) = MAX_PAYLOAD_SIZE.

(** The four bytes before the payload. *)
Lemma receive_header kernel s c n :
  ready s → byte c → 0 <= n < 65536 →
  receive_all kernel [START_BYTE; c; n mod 256; n / 256] s = Ret (tt,
    FState STATE_PAYLOAD (Frame c n (payload (fr s)) (fcs (fr s))) 0 (frame_received s) true (events s)).
Proof.
  intros [Hst _] Hc Hn. destruct s as [st f i r t ev]; cbn in *; subst.
  assert (receive kernel START_BYTE (FState STATE_IDLE f i r t ev) = Ret (tt, FState STATE_CMD f i r true ev)) as E
    by (by destruct kernel).
  rewrite (bind_Ret _ _ _ _ _ E). clear E.
  assert (receive kernel c (FState STATE_CMD f i r true ev) =
    Ret (tt, FState STATE_SIZE (Frame c 0 (payload f) (fcs f)) 0 r true ev)) as E by (by rewrite receive_busy).
  rewrite (bind_Ret _ _ _ _ _ E). clear E.
  assert (receive kernel (n mod 256) (FState STATE_SIZE (Frame c 0 (payload f) (fcs f)) 0 r true ev) =
    Ret (tt, FState STATE_SIZE (Frame c (n mod 256) (payload f) (fcs f)) 1 r true ev)) as E.
  { rewrite receive_busy by done. unfold frame_fsm, bind, gets, modify, ret; cbn [bus_state set_timer].
    cbn [fr frame_index set_timer cmd size payload fcs set_frame set_index set_bus bus_state frame_received timer events].
    change (8 * 0) with 0. rewrite Z.shiftl_0_r, Z.lor_0_l, u16_small by lia. done. }
  rewrite (bind_Ret _ _ _ _ _ E). clear E.
  assert (receive kernel (n / 256) (FState STATE_SIZE (Frame c (n mod 256) (payload f) (fcs f)) 1 r true ev) =
    Ret (tt, FState STATE_PAYLOAD (Frame c n (payload f) (fcs f)) 0 r true ev)) as E; [|by rewrite (bind_Ret _ _ _ _ _ E)].
  rewrite receive_busy by done. unfold frame_fsm, bind, gets, modify, ret; cbn [bus_state set_timer].
  cbn [fr frame_index set_timer cmd size payload fcs set_frame set_index set_bus bus_state frame_received timer events].
  rewrite (lor_shiftl_add (n mod 256) (n / 256) (8 * 1)) by lia.
  change (2 ^ (8 * 1)) with 256. replace (n mod 256 + n / 256 * 256) with n by lia. by rewrite u16_small by lia.
Qed.

(** What the handler answers to the last two bytes. *)
Definition verdict (f : frame) (check stop : Z) (crc : Z) (s : fstate) : fstate :=
  let f' := Frame (cmd f) (size f) (payload f) check in
  if stop =? END_BYTE then
    if crc =? check then FState STATE_IDLE f' (frame_index s) 1 false (events s)
    else FState STATE_IDLE f' (frame_index s) 0 false (events s ++ [EvResponse 17])
  else FState STATE_IDLE f' (frame_index s) 0 false (events s ++ [EvResponse 65]).

Lemma receive_trailer kernel s check stop crc :
  bus_state s = STATE_FCS →
  frame_crc (Frame (cmd (fr s)) (size (fr s)) (payload (fr s)) check) = Some crc →
  receive_all kernel [check; stop] s = Ret (tt, verdict (fr s) check stop crc s).
Proof.
  intros Hst Hcrc. destruct s as [st f i r t ev]; cbn in *; subst.
  assert (receive kernel check (FState STATE_FCS f i r t ev) =
    Ret (tt, FState STATE_END (Frame (cmd f) (size f) (payload f) check) i r true ev)) as E by (by rewrite receive_busy).
  rewrite (bind_Ret _ _ _ _ _ E). clear E.
  match goal with |- _ = ?R => assert (receive kernel stop (FState STATE_END (Frame (cmd f) (size f) (payload f) check) i r true ev) = R) as E end;
    [|by rewrite (bind_Ret _ _ _ _ _ E)].
  rewrite receive_busy by done. unfold frame_fsm, verdict, send_response, timeout_stop, bind, gets, modify, ret, of_option; cbn [bus_state set_timer fr].
  destruct (stop =? END_BYTE); [|done]. cbn [fr set_timer]. rewrite Hcrc. cbn [fcs]. unfold ret. by destruct (crc =? check).
Qed.

(** The check sequence the host computes. *)
Definition host_crc (c : Z) (data : list Z) : Z :=
  let n := Z.of_nat (length data) in crc_calculate (c :: n mod 256 :: n / 256 :: data) POLYNOMIAL.

Lemma frame_crc_host c data rest check :
  0 < Z.of_nat (length data) <= 512 →
  frame_crc (Frame c (Z.of_nat (length data)) (data ++ rest) check) = Some (host_crc c data).
Proof.
  intros Hn. unfold frame_crc, frame_bytes, host_crc. cbn [size cmd payload fcs length].
  rewrite (proj2 (Z.leb_le _ _)) by (rewrite !length_app; lia). do 2 f_equal.
  replace (Z.to_nat (Z.of_nat (length data) + 3)) with (S (S (S (length data)))) by lia. cbn [take].
  rewrite <- app_assoc, take_app_length. unfold u8. by rewrite (Z.mod_small (_ / 256)) by lia.
Qed.

(** A whole frame; what follows the payload in the array stays. *)
Lemma receive_frame kernel s c data check stop :
  ready s → byte c → 0 < Z.of_nat (length data) <= MAX_PAYLOAD_SIZE →
  let f := Frame c (Z.of_nat (length data)) (data ++ drop (length data) (payload (fr s))) (fcs (fr s)) in
  receive_all kernel (encode c data check stop) s = Ret (tt,
    verdict f check stop (host_crc c data)
      (FState STATE_FCS f (Z.of_nat (length data)) (frame_received s) true (events s))).
Proof.
  unfold MAX_PAYLOAD_SIZE. intros Hrd Hc Hn. pose proof Hrd as [_ Hlen]. unfold MAX_PAYLOAD_SIZE in Hlen. cbv zeta.
  unfold encode. rewrite receive_all_app.
  rewrite (bind_Ret _ _ _ _ _ (receive_header kernel s c (Z.of_nat (length data)) Hrd Hc ltac:(lia))).
  set (s1 := FState STATE_PAYLOAD _ _ _ _ _). rewrite receive_all_app.
  rewrite (bind_Ret _ _ _ _ _ (receive_payloads kernel data s1 eq_refl ltac:(cbn; lia)
    ltac:(intros ->; cbn in Hn; lia) ltac:(cbn; lia) ltac:(cbn; lia) ltac:(cbn; lia))).
  unfold s1. cbn [fr cmd size payload fcs frame_index frame_received events]. clear s1.
  assert (list_inserts (Z.to_nat 0) data (payload (fr s)) = data ++ drop (length data) (payload (fr s))) as Ep.
  { rewrite <- (take_drop (length data) (payload (fr s))) at 1. apply list_inserts_0_r. rewrite length_take. lia. }
  rewrite Ep. apply receive_trailer; [done|]. cbn [fr cmd size payload]. by apply frame_crc_host.
Qed.

(** C28. The frame protocol round trip, for the handlers of the bootloader and of
    the kernel: from the idle state, whatever the interface holds, the bytes the
    host sends for a command with 1 to 512 payload bytes leave exactly that
    command, size and payload in the frame and the handler idle with the timeout
    stopped; the frame is accepted if and only if the last byte is END and the
    check sequence is that of the command, size and payload, and otherwise the
    host gets one error response that says which of the two was wrong. *)
Theorem frame_roundtrip kernel s c data check stop :
  ready s → byte c → 0 < Z.of_nat (length data) <= MAX_PAYLOAD_SIZE →
  ∃ s', receive_all kernel (encode c data check stop) s = Ret (tt, s') ∧ ready s' ∧ timer s' = false ∧
    cmd (fr s') = c ∧ size (fr s') = Z.of_nat (length data) ∧ take (length data) (payload (fr s')) = data ∧
    if stop =? END_BYTE then
      if check =? host_crc c data then frame_received s' = 1 ∧ events s' = events s
      else frame_received s' = 0 ∧ events s' = events s ++ [EvResponse (Z.lor RESP_ERROR RESP_FCS_ERROR)]
    else frame_received s' = 0 ∧ events s' = events s ++ [EvResponse (Z.lor RESP_ERROR RESP_FRAME_ERROR)].
Proof.
  intros Hrd Hc Hn. pose proof Hrd as [_ Hlen]. eexists. split; [by apply receive_frame|].
  unfold verdict, ready. cbn [fr cmd size payload events frame_index]. rewrite (Z.eqb_sym check).
  assert (Z.of_nat (length (data ++ drop (length data) (payload (fr s)))) = MAX_PAYLOAD_SIZE) as El.
  { rewrite length_app, length_drop. lia. }
  destruct (stop =? END_BYTE), (host_crc c data =? check); split_and!; try done; cbn; by rewrite take_app_length.
Qed.

(** The interface as the programs start it. *)
Definition frame_start : fstate :=
  FState STATE_IDLE (Frame 0 0 (replicate 512 0) 0) 0 0 false [].

Lemma frame_roundtrip_witness :
  ready frame_start ∧
  ∃ s', receive_all false (encode 3 [1; 2; 0; 0] (host_crc 3 [1; 2; 0; 0]) END_BYTE) frame_start = Ret (tt, s') ∧
        frame_received s' = 1.
Proof.
  assert (ready frame_start) as Hr by done. split; [exact Hr|].
  destruct (frame_roundtrip false frame_start 3 [1; 2; 0; 0] (host_crc 3 [1; 2; 0; 0]) END_BYTE Hr
    ltac:(unfold byte; lia) ltac:(cbn; unfold MAX_PAYLOAD_SIZE; lia)) as (s' & E & _ & _ & _ & _ & _ & Hv).
  exists s'. split; [exact E|]. change (END_BYTE =? END_BYTE) with true in Hv. cbv iota in Hv.
  rewrite Z.eqb_refl in Hv. exact (proj1 Hv).
Defined.

(** ** Safety *)

(** What holds between two interrupts: the payload array keeps its size and the
    index stays inside it as long as the size of the frame does. *)
Definition fsm_ok (s : fstate) : Prop :=
  Z.of_nat (length (payload (fr s))) = MAX_PAYLOAD_SIZE ∧
  match bus_state s with
  | STATE_IDLE | STATE_CMD => True
  | STATE_SIZE => 0 <= frame_index s < 2 ∧ 0 <= size (fr s) < 256 ^ frame_index s
  | STATE_PAYLOAD => 0 <= size (fr s) <= MAX_PAYLOAD_SIZE ∧ 0 <= frame_index s < Z.max 1 (size (fr s))
  | STATE_FCS | STATE_END => 0 <= size (fr s) <= MAX_PAYLOAD_SIZE
  end.

(** The bytes and timeouts that reach the interface. *)
Inductive interrupt := IrqByte (data : Z) | IrqTimeout.
Definition handle (kernel : bool) (i : interrupt) : M fstate unit :=
  match i with IrqByte d => receive kernel d | IrqTimeout => timer0_ch0_handler end.

Lemma fsm_idle kernel s d :
  fsm_ok s → bus_state s = STATE_IDLE → ∃ s', receive kernel d s = Ret (tt, s') ∧ fsm_ok s'.
Proof.
  intros [Hl _] Hst. destruct s as [st f i r t ev]; cbn in *; subst.
  unfold receive. destruct kernel; unfold usart0_exception, usart0_handler, frame_fsm, send_response, timeout_reload, bind, gets, modify, ret; cbn;
    rewrite ?andb_true_r; destruct (Z.eqb_spec d 0) as [->|]; cbn; try (eexists; split; [reflexivity|done]);
    destruct (d =? START_BYTE); eexists; (split; [reflexivity|done]).
Qed.

(** A header that announces more than the payload array holds. *)
Definition oversized (s : fstate) : Prop :=
  bus_state s = STATE_PAYLOAD ∧ frame_index s = 0 ∧ MAX_PAYLOAD_SIZE < size (fr s) ∧
  Z.of_nat (length (payload (fr s))) = MAX_PAYLOAD_SIZE.

Lemma frame_crc_some f :
  Z.of_nat (length (payload f)) = MAX_PAYLOAD_SIZE → 0 <= size f <= MAX_PAYLOAD_SIZE → ∃ crc, frame_crc f = Some crc.
Proof.
  unfold MAX_PAYLOAD_SIZE. intros Hl Hs. unfold frame_crc, frame_bytes. cbn [length]. rewrite length_app. cbn [length].
  rewrite (proj2 (Z.leb_le _ _)) by lia. by eexists.
Qed.

Lemma fsm_size kernel s d :
  fsm_ok s → bus_state s = STATE_SIZE → byte d →
  ∃ s', receive kernel d s = Ret (tt, s') ∧ (fsm_ok s' ∨ oversized s').
Proof.
  intros [Hl Hi] Hst Hd. rewrite receive_busy by (by rewrite Hst). destruct s as [st f i r t ev]; cbn in *; subst.
  destruct Hi as [Hi Hs]. unfold byte in Hd. assert (i = 0 ∨ i = 1) as [-> | ->] by lia.
  - exists (FState STATE_SIZE (Frame (cmd f) d (payload f) (fcs f)) 1 r true ev). split.
    + assert (size f = 0) as E by (change (256 ^ 0) with 1 in Hs; lia).
      assert (u16 (Z.lor (size f) (Z.shiftl d (8 * 0))) = d) as Ed
        by (rewrite E, Z.lor_0_l; change (8 * 0) with 0; rewrite Z.shiftl_0_r; apply u16_small; lia).
      unfold frame_fsm, bind, gets, modify; cbn [bus_state set_timer fr frame_index size cmd payload fcs].
      by rewrite Ed.
    + left. split; [done|]. cbn. lia.
  - set (n := u16 (Z.lor (size f) (Z.shiftl d (8 * 1)))).
    assert (0 <= n < 65536) as Hn by apply u16_range.
    exists (FState STATE_PAYLOAD (Frame (cmd f) n (payload f) (fcs f)) 0 r true ev). split; [done|].
    unfold oversized, fsm_ok. cbn. unfold MAX_PAYLOAD_SIZE in *. destruct (Z.le_gt_cases n 512); [left|right]; split_and!; done || lia.
Qed.

Lemma fsm_busy kernel s d :
  fsm_ok s → bus_state s ≠ STATE_IDLE → bus_state s ≠ STATE_SIZE → byte d →
  ∃ s', receive kernel d s = Ret (tt, s') ∧ fsm_ok s'.
Proof.
  intros [Hl Hi] Hst Hsz Hd. destruct (bus_state s) eqn:Eb; try done.
  - rewrite receive_busy by (by rewrite Eb). destruct s as [st f i r t ev]; cbn in *; subst.
    eexists. split; [reflexivity|]. split; [done|]. cbn. lia.
  - destruct Hi as [Hs Hi]. unfold MAX_PAYLOAD_SIZE in *.
    eexists. split; [apply receive_payload; [done|lia|lia]|]. split; [cbn; rewrite length_insert; done|].
    cbn. unfold MAX_PAYLOAD_SIZE. destruct (Z.leb_spec (size (fr s)) (frame_index s + 1)); lia.
  - rewrite receive_busy by (by rewrite Eb). destruct s as [st f i r t ev]; cbn in *; subst.
    eexists. split; [reflexivity|]. split; [done|]. done.
  - rewrite receive_busy by (by rewrite Eb). destruct s as [st f i r t ev]; cbn in *; subst.
    destruct (frame_crc_some f Hl Hi) as [crc Hcrc].
    unfold frame_fsm, send_response, timeout_stop, bind, gets, modify, ret, of_option; cbn [bus_state set_timer fr].
    destruct (d =? END_BYTE); [|by eexists]. cbn [fr set_timer]. rewrite Hcrc. unfold ret. destruct (crc =? fcs f); by eexists.
Qed.

(** [n] bytes past the end of the payload array. *)
Lemma overflow_run kernel data s :
  bus_state s = STATE_PAYLOAD → 0 <= frame_index s <= Z.of_nat (length (payload (fr s))) →
  Z.of_nat (length (payload (fr s))) < size (fr s) → Z.of_nat (length (payload (fr s))) <= 512 →
  Z.of_nat (length (payload (fr s))) < frame_index s + Z.of_nat (length data) →
  receive_all kernel data s = UB.
Proof.
  revert s; induction data as [|d data IH]; intros s Hst Hi Hsz Hmax Hlen; [cbn in Hlen; lia|].
  cbn [receive_all length] in *.
  destruct (decide (frame_index s = Z.of_nat (length (payload (fr s))))) as [E|E].
  - unfold bind. rewrite receive_busy by (by rewrite Hst). destruct s as [st f i r t ev]; cbn in *; subst.
    unfold frame_fsm, store_payload, bind, gets; cbn. by rewrite Z.ltb_irrefl.
  - rewrite (bind_Ret _ _ _ _ _ (receive_payload kernel d s Hst ltac:(lia) Hmax)).
    rewrite (proj2 (Z.leb_gt _ _)) by lia.
    apply IH; cbn [bus_state frame_index fr payload size]; rewrite ?length_insert; (done || lia).
Qed.

(** C29. Memory safety of the receive handlers and its limit: from every
    consistent state, a byte or a timeout at any moment is handled without
    undefined behaviour and leaves a consistent state (a timeout leaves the idle
    one), unless the byte completes a header whose size is above 512; after such
    a header the 513th payload byte is written past the end of the payload
    array, because the size is never checked. *)
Theorem frame_fsm_safe kernel s :
  (fsm_ok s → ∀ i, (∀ d, i = IrqByte d → byte d) →
     ∃ s', handle kernel i s = Ret (tt, s') ∧
       (i = IrqTimeout → ready s') ∧
       (fsm_ok s' ∨ (bus_state s = STATE_SIZE ∧ oversized s'))) ∧
  (oversized s → ∀ data, MAX_PAYLOAD_SIZE < Z.of_nat (length data) → receive_all kernel data s = UB).
Proof.
  split.
  - intros Hok [d|] Hb; cbn [handle].
    + destruct (decide (bus_state s = STATE_IDLE)) as [Hst|Hst].
      { destruct (fsm_idle kernel s d Hok Hst) as (s' & E & H'). exists s'. split_and!; [done|done|by left]. }
      destruct (decide (bus_state s = STATE_SIZE)) as [Hsz|Hsz].
      { destruct (fsm_size kernel s d Hok Hsz (Hb d eq_refl)) as (s' & E & [H'|H']); exists s';
          (split_and!; [done|done|]); [by left|by right]. }
      destruct (fsm_busy kernel s d Hok Hst Hsz (Hb d eq_refl)) as (s' & E & H'). exists s'.
      split_and!; [done|done|by left].
    + exists (set_bus STATE_IDLE (set_timer false s)). split_and!; [done|by destruct Hok|left; by destruct Hok].
  - intros (Hst & Hi & Hs & Hl) data Hd. unfold MAX_PAYLOAD_SIZE in *. apply overflow_run; rewrite ?Hi; try done; lia.
Qed.

Lemma frame_fsm_safe_witness :
  (∃ s', handle true (IrqByte 0) frame_start = Ret (tt, s')) ∧
  receive_all true ([START_BYTE; 4; 1; 2] ++ replicate 513 0) frame_start = UB.
Proof.
  split.
  - destruct (proj1 (frame_fsm_safe true frame_start) (conj eq_refl I) (IrqByte 0)) as (s' & E & _).
    { intros d Hd. injection Hd as <-. unfold byte. lia. }
    exists s'. exact E.
  - rewrite receive_all_app.
    rewrite (bind_Ret _ _ _ _ _ (receive_header true frame_start 4 513 ltac:(split; reflexivity) ltac:(unfold byte; lia) ltac:(lia))).
    apply (proj2 (frame_fsm_safe true _)); [|vm_compute; reflexivity].
    unfold oversized. split_and!; reflexivity.
Defined.
