(* ===== verification/Hardware.v ===== *)
(** * Peripheral registers (cpu/hardware.h) and accesses to them

    The register blocks of the chip as the header declares them, one [layout] per
    struct; the address of a register is computed from the layout.  [Mmio] is
    what a driver can do with the registers, [bank] the simplest device: plain
    registers that keep what was written, with a trace of the accesses. *)

From S2P Require Import Prelude.

(** ** Layouts *)

Inductive access := RO | WO | RW.

(** A member of a register struct: access, name, size of an element, elements. *)
Record field := Field { f_acc : access; f_name : string; f_elem : Z; f_count : Z }.
Definition layout := list field.
Definition f_size (f : field) : Z := f_elem f * f_count f.

Fixpoint size_of (l : layout) : Z :=
  match l with [] => 0 | f :: l => f_size f + size_of l end.

(** The members with their offsets.  Every member is a whole number of words, so
    the compiler adds no padding. *)
Fixpoint members (off : Z) (l : layout) : list (Z * field) :=
  match l with [] => [] | f :: l => (off, f) :: members (off + f_size f) l end.

(** The offset of a member, -1 when there is none. *)
Definition offset_of (l : layout) (name : string) : Z :=
  match list_find (λ m, f_name m.2 = name) (members 0 l) with Some (_, m) => m.1 | None => -1 end.

(** ** The register blocks *)

Definition clock_reg : layout := [
  Field WO "SCER" 4 1; Field WO "SCDR" 4 1; Field RO "SCSR" 4 1; Field RO "RESERVED_1" 4 1;
  Field WO "PCER0" 4 1; Field WO "PCDR0" 4 1; Field RO "PCSR0" 4 1; Field RW "UCKR" 4 1; Field RW "MOR" 4 1;
  Field RW "MCFR" 4 1; Field RW "PLLA" 4 1; Field RO "RESERVED_2" 4 1; Field RW "MCKR" 4 1;
  Field RO "RESERVED_3" 4 1; Field RW "USB" 4 1; Field RO "RESERVED_4" 4 1; Field RW "PCK" 4 8;
  Field WO "IER" 4 1; Field WO "IDR" 4 1; Field RO "SR" 4 1; Field RO "IMR" 4 1; Field RW "FSMR" 4 1;
  Field RW "FSPR" 4 1; Field WO "FOCR" 4 1; Field RO "RESERVED_5" 4 26; Field RW "WPMR" 4 1;
  Field RO "WPSR" 4 1; Field RO "RESERVED_6" 4 5; Field WO "PCER1" 4 1; Field WO "PCDR1" 4 1;
  Field RO "PCSR1" 4 1; Field RW "PCR" 4 1; Field RW "OCR" 4 1; Field WO "SLPWK_ER0" 4 1;
  Field WO "SLPWK_DR0" 4 1; Field RO "SLPWK_SR0" 4 1; Field RO "SLPWK_ASR0" 4 1; Field RO "RESERVED_7" 4 3;
  Field RW "PMMR" 4 1; Field WO "SLPWK_ER1" 4 1; Field WO "SLPWK_DR1" 4 1; Field RO "SLPWK_SR1" 4 1;
  Field RO "SLPWK_ASR1" 4 1; Field RO "AIPR" 4 1].

Definition flash_reg : layout := [
  Field RW "FMR" 4 1; Field WO "FCR" 4 1; Field RO "FSR" 4 1; Field RO "FRR" 4 1; Field RO "RESERVED" 4 53;
  Field RW "WPMR" 4 1].

Definition watchdog_reg : layout := [
  Field WO "CR" 4 1; Field RW "MR" 4 1; Field RO "SR" 4 1].

Definition gpio_reg : layout := [
  Field WO "PER" 4 1; Field WO "PDR" 4 1; Field RO "PSR" 4 1; Field RO "RESERVED_1" 4 1; Field WO "OER" 4 1;
  Field WO "ODR" 4 1; Field RO "OSR" 4 1; Field RO "RESERVED_2" 4 1; Field WO "IFER" 4 1;
  Field WO "IFDR" 4 1; Field RO "IFSR" 4 1; Field RO "RESERVED_3" 4 1; Field WO "SODR" 4 1;
  Field WO "CODR" 4 1; Field RO "ODSR" 4 1; Field RO "PDSR" 4 1; Field WO "IER" 4 1; Field WO "IDR" 4 1;
  Field RO "IMR" 4 1; Field RO "ISR" 4 1; Field WO "MDER" 4 1; Field WO "MDDR" 4 1; Field RO "MDSR" 4 1;
  Field RO "RESERVED_4" 4 1; Field WO "PUDR" 4 1; Field WO "PUER" 4 1; Field RO "PUSR" 4 1;
  Field RO "RESERVED_5" 4 1; Field RW "ABCDSR0" 4 1; Field RW "ABCDSR1" 4 1; Field RO "RESERVED_6" 4 2;
  Field WO "IFSCDR" 4 1; Field WO "IFSCER" 4 1; Field RO "IFSCSR" 4 1; Field RW "SCDR" 4 1;
  Field WO "PPDDR" 4 1; Field WO "PPDER" 4 1; Field RO "PPDSR" 4 1; Field RO "RESERVED_7" 4 1;
  Field WO "OWER" 4 1; Field WO "OWDR" 4 1; Field RO "OWSR" 4 1; Field RO "RESERVED_8" 4 1;
  Field WO "AIMER" 4 1; Field WO "AIMDR" 4 1; Field RO "AIMMR" 4 1; Field RO "RESERVED_9" 4 1;
  Field WO "ESR" 4 1; Field WO "LSR" 4 1; Field RO "ELSR" 4 1; Field RO "RESERVED_10" 4 1;
  Field WO "FELLSR" 4 1; Field WO "REHLSR" 4 1; Field RO "FRLHSR" 4 1; Field RO "RESERVED_11" 4 1;
  Field RO "LOCKSR" 4 1; Field RW "WPMR" 4 1; Field RO "WPSR" 4 1; Field RO "RESERVED_12" 4 5;
  Field RW "SCHMITT" 4 1; Field RO "RESERVED_13" 4 5; Field RW "DRIVER" 4 1; Field RO "RESERVED_14" 4 13;
  Field RW "PCMR" 4 1; Field WO "PCIER" 4 1; Field WO "PCIDR" 4 1; Field RO "PCIMR" 4 1;
  Field RO "PCISR" 4 1; Field RO "PCRHR" 4 1].

Definition systick_reg : layout := [
  Field RW "CSR" 4 1; Field RW "RVR" 4 1; Field RW "CVR" 4 1; Field RO "CALIB" 4 1].

Definition usart_reg : layout := [
  Field WO "CR" 4 1; Field RW "MR" 4 1; Field WO "IER" 4 1; Field WO "IDR" 4 1; Field RO "IMR" 4 1;
  Field RO "CSR" 4 1; Field RO "RHR" 4 1; Field WO "THR" 4 1; Field RW "BRGR" 4 1; Field RW "RTOR" 4 1;
  Field RW "TTGR" 4 1; Field RO "RESERVED1" 4 4; Field RW "FTDI" 4 1; Field RO "NER" 4 1].

Definition nvic_reg : layout := [
  Field RW "ISER" 4 8; Field RO "RESERVED1" 4 24; Field RW "ICER" 4 8; Field RO "RESERVED2" 4 24;
  Field RW "ISPR" 4 8; Field RO "RESERVED3" 4 24; Field RW "ICPR" 4 8; Field RO "RESERVED4" 4 24;
  Field RW "IABR" 4 8; Field RO "RESERVED5" 4 56; Field RW "IPR" 1 240; Field RO "RESERVED6" 4 644;
  Field RO "STIR" 4 1].

Definition icm_reg : layout := [
  Field RW "CFG" 4 1; Field WO "CTRL" 4 1; Field RO "SR" 4 1; Field RO "RESERVED1" 4 1; Field WO "IER" 4 1;
  Field WO "IDR" 4 1; Field RO "IMR" 4 1; Field RO "ISR" 4 1; Field RO "UASR" 4 1; Field RO "RESERVED2" 4 3;
  Field RW "DSCR" 4 1; Field RW "HASH" 4 1; Field WO "UIHVAL" 4 8].

Definition matrix_pri_reg : layout := [
  Field RW "PRAS" 4 1; Field RW "PRBS" 4 1].

Definition matrix_reg : layout := [
  Field RW "MCFG" 4 13; Field RO "RESERVED1" 4 3; Field RW "SCFG" 4 9; Field RO "RESERVED2" 4 7;
  Field RW "PRI" (size_of matrix_pri_reg) 9; Field RO "RESERVED3" 4 14; Field RW "MRCR" 4 1;
  Field RW "RESERVED4" 4 3; Field RW "CAN0" 4 1; Field RW "SYSIO" 4 1; Field RW "PCCR" 4 1;
  Field RW "DYNCKG" 4 1; Field RO "RESERVED5" 4 1; Field RW "SMCNFCS" 4 1; Field RO "RESERVED6" 4 47;
  Field RW "WPMR" 4 1; Field RO "WPSR" 4 1].

Definition dram_reg : layout := [
  Field RW "MR" 4 1; Field RW "TR" 4 1; Field RW "CR" 4 1; Field RO "RESERVED" 4 1; Field RW "LPR" 4 1;
  Field WO "IER" 4 1; Field WO "IDR" 4 1; Field RO "IMR" 4 1; Field RO "ISR" 4 1; Field RW "MDR" 4 1;
  Field RW "CFR1" 4 1; Field RW "OCMS" 4 1; Field WO "OCMS_KEY1" 4 1; Field WO "OCMS_KEY2" 4 1].

Definition scb_reg : layout := [
  Field RO "CPUID" 4 1; Field RW "ICSR" 4 1; Field RW "VTOR" 4 1; Field RW "AIRCR" 4 1; Field RW "SCR" 4 1;
  Field RW "CCR" 4 1; Field RW "SHPR" 1 12; Field RW "SHCSR" 4 1; Field RW "CFSR" 4 1; Field RW "HFSR" 4 1;
  Field RW "DFSR" 4 1; Field RW "MMFAR" 4 1; Field RW "BFAR" 4 1; Field RW "AFSR" 4 1;
  Field RO "ID_PFR" 4 2; Field RO "ID_DFR" 4 1; Field RO "ID_AFR" 4 1; Field RO "ID_MFR" 4 4;
  Field RO "ID_ISAR" 4 5; Field RO "RESERVED0" 4 1; Field RO "CLIDR" 4 1; Field RO "CTR" 4 1;
  Field RO "CCSIDR" 4 1; Field RW "CSSELR" 4 1; Field RW "CPACR" 4 1; Field RO "RESERVED3" 4 93;
  Field WO "STIR" 4 1; Field RO "RESERVED4" 4 15; Field RO "MVFR0" 4 1; Field RO "MVFR1" 4 1;
  Field RO "MVFR2" 4 1; Field RO "RESERVED5" 4 1; Field WO "ICIALLU" 4 1; Field RO "RESERVED6" 4 1;
  Field WO "ICIMVAU" 4 1; Field WO "DCIMVAC" 4 1; Field WO "DCISW" 4 1; Field WO "DCCMVAU" 4 1;
  Field WO "DCCMVAC" 4 1; Field WO "DCCSW" 4 1; Field WO "DCCIMVAC" 4 1; Field WO "DCCISW" 4 1;
  Field RO "RESERVED7" 4 6; Field RW "ITCMCR" 4 1; Field RW "DTCMCR" 4 1; Field RW "AHBPCR" 4 1;
  Field RW "CACR" 4 1; Field RW "AHBSCR" 4 1; Field RO "RESERVED8" 4 1; Field RW "ABFSR" 4 1].

Definition cache_reg : layout := [
  Field WO "ICIALLU" 4 1; Field RO "RESERVED" 4 1; Field WO "ICIMVAU" 4 1; Field WO "DCIMVAU" 4 1;
  Field WO "DCISW" 4 1; Field WO "DCCMVAU" 4 1; Field WO "DCCMVAC" 4 1; Field WO "DCCSW" 4 1;
  Field WO "DCCIMVAC" 4 1; Field WO "DCCISW" 4 1; Field RO "DONT_USE" 4 1].

Definition mpu_reg : layout := [
  Field RO "TYPE" 4 1; Field RW "CTRL" 4 1; Field RW "RNR" 4 1; Field RW "RBAR" 4 1; Field RW "RASR" 4 1;
  Field RW "RBAR_A1" 4 1; Field RW "RASR_A1" 4 1; Field RW "RBAR_A2" 4 1; Field RW "RASR_A2" 4 1;
  Field RW "RBAR_A3" 4 1; Field RW "RASR_A3" 4 1].

Definition mmc_reg : layout := [
  Field WO "CR" 4 1; Field RW "MR" 4 1; Field RW "DTOR" 4 1; Field RW "SDCR" 4 1; Field RW "ARG" 4 1;
  Field WO "CMD" 4 1; Field RW "BLKR" 4 1; Field RW "CSTOR" 4 1; Field RO "RESP" 4 4; Field RO "RDR" 4 1;
  Field WO "TDR" 4 1; Field RO "RESERVED1" 4 2; Field RO "SR" 4 1; Field WO "IER" 4 1; Field WO "IDR" 4 1;
  Field RO "IMR" 4 1; Field RW "DMA" 4 1; Field RW "CFG" 4 1; Field RO "RESERVED2" 4 35;
  Field RW "WPMR" 4 1; Field RO "WPSR" 4 1; Field RO "RESERVED3" 4 69; Field RW "FIFO" 4 256].

Definition gmac_sa : layout := [
  Field RW "SAB" 4 1; Field RW "SAT" 4 1].

Definition gmac_st2cw : layout := [
  Field RW "ST2CW0" 4 1; Field RW "ST2CW1" 4 1].

Definition gmac_reg : layout := [
  Field RW "NCR" 4 1; Field RW "NCFGR" 4 1; Field RO "NSR" 4 1; Field RW "UR" 4 1; Field RW "DCFGR" 4 1;
  Field RW "TSR" 4 1; Field RW "RBQB" 4 1; Field RW "TBQB" 4 1; Field RW "RSR" 4 1; Field RO "ISR" 4 1;
  Field WO "IER" 4 1; Field WO "IDR" 4 1; Field RW "IMR" 4 1; Field RW "MAN" 4 1; Field RO "RPQ" 4 1;
  Field RW "TPQ" 4 1; Field RW "TPSF" 4 1; Field RW "RPSF" 4 1; Field RW "RJFML" 4 1;
  Field RO "RESERVED1" 4 13; Field RW "HBR" 4 1; Field RW "HRT" 4 1; Field RW "SA" (size_of gmac_sa) 4;
  Field RW "TIDM1" 4 1; Field RW "TIDM2" 4 1; Field RW "TIDM3" 4 1; Field RW "TIDM4" 4 1;
  Field RW "WOL" 4 1; Field RW "IPGS" 4 1; Field RW "SVLAN" 4 1; Field RW "TPFCP" 4 1; Field RW "SAMB1" 4 1;
  Field RW "SAMT1" 4 1; Field RO "RESERVED2" 4 3; Field RW "NCS" 4 1; Field RW "SCL" 4 1;
  Field RW "SCH" 4 1; Field RO "EFTSH" 4 1; Field RO "EFRSH" 4 1; Field RO "PEFTSH" 4 1;
  Field RO "PEFRSH" 4 1; Field RO "RESERVED3" 4 2; Field RO "OTLO" 4 1; Field RO "OTHI" 4 1;
  Field RO "FT" 4 1; Field RO "BCFT" 4 1; Field RO "MFT" 4 1; Field RO "PFT" 4 1; Field RO "BFT64" 4 1;
  Field RO "TBFT127" 4 1; Field RO "TBFT255" 4 1; Field RO "TBFT511" 4 1; Field RO "TBFT1023" 4 1;
  Field RO "TBFT1518" 4 1; Field RO "GTBFT1518" 4 1; Field RO "TUR" 4 1; Field RO "SCF" 4 1;
  Field RO "MCF" 4 1; Field RO "EC" 4 1; Field RO "LC" 4 1; Field RO "DTF" 4 1; Field RO "CSE" 4 1;
  Field RO "ORLO" 4 1; Field RO "ORHI" 4 1; Field RO "FR" 4 1; Field RO "BCFR" 4 1; Field RO "MFR" 4 1;
  Field RO "PFR" 4 1; Field RO "BFR64" 4 1; Field RO "TBFR127" 4 1; Field RO "TBFR255" 4 1;
  Field RO "TBFR511" 4 1; Field RO "TBFR1023" 4 1; Field RO "TBFR1518" 4 1; Field RO "TMXBFR" 4 1;
  Field RO "UFR" 4 1; Field RO "OFR" 4 1; Field RO "JR" 4 1; Field RO "FCSE" 4 1; Field RO "LFFE" 4 1;
  Field RO "RSE" 4 1; Field RO "AE" 4 1; Field RO "RRE" 4 1; Field RO "ROE" 4 1; Field RO "IHCE" 4 1;
  Field RO "TCE" 4 1; Field RO "UCE" 4 1; Field RO "RESERVED4" 4 2; Field RW "TISUBN" 4 1;
  Field RW "TSH" 4 1; Field RO "RESERVED5" 4 3; Field RW "TSL" 4 1; Field RW "TN" 4 1; Field WO "TA" 4 1;
  Field RW "TI" 4 1; Field RO "EFTSL" 4 1; Field RO "EFTN" 4 1; Field RO "EFRSL" 4 1; Field RO "EFRN" 4 1;
  Field RO "PEFTSL" 4 1; Field RO "PEFTN" 4 1; Field RO "PEFRSL" 4 1; Field RO "PEFRN" 4 1;
  Field RO "RESERVED6" 4 28; Field RO "RXLPI" 4 1; Field RO "RXLPITIME" 4 1; Field RO "TXLPI" 4 1;
  Field RO "TXLPITIME" 4 1; Field RO "RESERVED7" 4 96; Field RO "ISRPQ" 4 5; Field RO "RESERVED8" 4 11;
  Field RW "TBQBAPQ" 4 5; Field RO "RESERVED9" 4 11; Field RW "RBQBAPQ" 4 5; Field RO "RESERVED10" 4 3;
  Field RW "RBSRPQ" 4 5; Field RO "RESERVED11" 4 2; Field RW "CBSCR" 4 1; Field RW "CBSISQA" 4 1;
  Field RW "CBSISQB" 4 1; Field RO "RESERVED12" 4 14; Field RW "ST1RPQ" 4 4; Field RO "RESERVED13" 4 12;
  Field RW "ST2RPQ" 4 8; Field RO "RESERVED14" 4 40; Field WO "IERPQ" 4 5; Field RO "RESERVED15" 4 3;
  Field WO "IDRPQ" 4 5; Field RO "RESERVED16" 4 3; Field RW "IMRPQ" 4 5; Field RO "RESERVED17" 4 35;
  Field RW "ST2ER" 4 4; Field RO "RESERVED18" 4 4; Field RW "ST2CW" (size_of gmac_st2cw) 24].

Definition timer_channel : layout := [
  Field WO "CCR" 4 1; Field RW "CMR" 4 1; Field RW "SMMR" 4 1; Field RO "RAB" 4 1; Field RO "CV" 4 1;
  Field RW "RA" 4 1; Field RW "RB" 4 1; Field RW "RC" 4 1; Field RO "SR" 4 1; Field WO "IER" 4 1;
  Field WO "IDR" 4 1; Field RO "IMR" 4 1; Field RW "EMR" 4 1; Field RO "RESERVED" 4 3].

Definition timer_reg : layout := [
  Field RW "channel" (size_of timer_channel) 3; Field WO "BCR" 4 1; Field RW "BMR" 4 1; Field WO "QIER" 4 1;
  Field WO "QIDR" 4 1; Field RO "QIMR" 4 1; Field RO "QISR" 4 1; Field RW "FMR" 4 1;
  Field RO "RESERVED" 4 2; Field RW "WPMR" 4 1].

Definition dma_channel_reg : layout := [
  Field WO "CIE" 4 1; Field WO "CID" 4 1; Field RO "CIM" 4 1; Field RO "CIS" 4 1; Field RW "CSA" 4 1;
  Field RW "CDA" 4 1; Field RW "CNDA" 4 1; Field RW "CNDC" 4 1; Field RW "CUBC" 4 1; Field RW "CBC" 4 1;
  Field RW "CC" 4 1; Field RW "CDS_MSP" 4 1; Field RW "CSUS" 4 1; Field RW "CDUS" 4 1;
  Field RO "RESERVED" 4 2].

Definition dma_reg : layout := [
  Field RO "GTYPE" 4 1; Field RW "GCFG" 4 1; Field RW "GWAC" 4 1; Field WO "GIE" 4 1; Field WO "GID" 4 1;
  Field RO "GIM" 4 1; Field RO "GIS" 4 1; Field WO "GE" 4 1; Field WO "GD" 4 1; Field RO "GS" 4 1;
  Field RW "GRS" 4 1; Field RW "GWS" 4 1; Field WO "GRWS" 4 1; Field WO "GRWR" 4 1; Field WO "GSWR" 4 1;
  Field RO "GSWS" 4 1; Field WO "GSWF" 4 1; Field RO "RESERVED" 4 3;
  Field RW "channel" (size_of dma_channel_reg) 24].

Definition usb_device_dma : layout := [
  Field RW "DEVDMANXTDSC" 4 1; Field RW "DEVDMAADDRESS" 4 1; Field RW "DEVDMACONTROL" 4 1;
  Field RW "DEVDMASTATUS" 4 1].

Definition usb_host_dma : layout := [
  Field RW "HSTDMANXTDSC" 4 1; Field RW "HSTDMAADDRESS" 4 1; Field RW "HSTDMACONTROL" 4 1;
  Field RW "HSTDMASTATUS" 4 1].

Definition usb_reg : layout := [
  Field RW "DEVCTRL" 4 1; Field RO "DEVISR" 4 1; Field WO "DEVICR" 4 1; Field WO "DEVIFR" 4 1;
  Field RO "DEVIMR" 4 1; Field WO "DEVIDR" 4 1; Field WO "DEVIER" 4 1; Field RW "DEVEPT" 4 1;
  Field RO "DEVFNUM" 4 1; Field RO "RESERVED1" 4 55; Field RW "DEVEPTCFG" 4 10; Field RO "RESERVED2" 4 2;
  Field RO "DEVEPTISR" 4 10; Field RO "RESERVED3" 4 2; Field WO "DEVEPTICR" 4 10; Field RO "RESERVED4" 4 2;
  Field RW "DEVEPTIFR" 4 10; Field RO "RESERVED5" 4 2; Field RW "DEVEPTIMR" 4 10; Field RO "RESERVED6" 4 2;
  Field WO "DEVEPTIER" 4 10; Field RO "RESERVED7" 4 2; Field WO "DEVEPTIDR" 4 10; Field RO "RESERVED8" 4 50;
  Field RW "device_dma" (size_of usb_device_dma) 7; Field RO "RESERVED9" 4 32; Field RW "HSTCTRL" 4 1;
  Field RO "HSTISR" 4 1; Field WO "HSTICR" 4 1; Field WO "HSTIFR" 4 1; Field RO "HSTIMR" 4 1;
  Field WO "HSTIDR" 4 1; Field WO "HSTIER" 4 1; Field RW "HSTPIP" 4 1; Field RW "HSTFNUM" 4 1;
  Field RW "HSTADDR1" 4 1; Field RW "HSTADDR2" 4 1; Field RW "HSTADDR3" 4 1; Field RO "RESERVED10" 4 52;
  Field RW "HSTPIPCFG" 4 10; Field RO "RESERVED11" 4 2; Field RO "HSTPIPISR" 4 10;
  Field RO "RESERVED12" 4 2; Field WO "HSTPIPICR" 4 10; Field RO "RESERVED13" 4 2;
  Field WO "HSTPIPIFR" 4 10; Field RO "RESERVED14" 4 2; Field RW "HSTPIPIMR" 4 10;
  Field RO "RESERVED15" 4 2; Field WO "HSTPIPIER" 4 10; Field RO "RESERVED16" 4 2;
  Field WO "HSTPIPIDR" 4 10; Field RO "RESERVED17" 4 2; Field RW "HSTPIPINRQ" 4 10;
  Field RO "RESERVED18" 4 2; Field RW "HSTPIPERR" 4 10; Field RO "RESERVED19" 4 26;
  Field RW "host_dma" (size_of usb_host_dma) 7; Field RO "RESERVED20" 4 32; Field RW "CTRL" 4 1;
  Field RO "SR" 4 1; Field WO "SCR" 4 1; Field WO "SFR" 4 1].

Definition utmi_reg : layout := [
  Field RO "RESERVED1" 4 4; Field RW "OHCIICR" 4 1; Field RO "RESERVED2" 4 7; Field RW "CKTRIM" 4 1].

Definition trand_reg : layout := [
  Field WO "CR" 4 1; Field RO "RESERVED1" 4 3; Field WO "IER" 4 1; Field WO "IDR" 4 1; Field RO "IMR" 4 1;
  Field RO "ISR" 4 1; Field RO "RESERVED2" 4 12; Field RO "ODATA" 4 1].

(** The base addresses. *)
Definition CLOCK : Z := 0x400E0600.
Definition FLASH : Z := 0x400E0C00.
Definition WATCHDOG : Z := 0x400E1850.
Definition SYSTICK : Z := 0xE000E010.
Definition NVIC : Z := 0xE000E100.
Definition ICM : Z := 0x40048000.
Definition MATRIX : Z := 0x40088000.
Definition DRAM : Z := 0x40084000.
Definition SCB : Z := 0xE000ED00.
Definition MPU : Z := 0xE000ED90.
Definition CACHE : Z := 0xE000EF50.
Definition MMC : Z := 0x40000000.
Definition GMAC : Z := 0x40050000.
Definition GPIOA : Z := 0x400E0E00.
Definition GPIOB : Z := 0x400E1000.
Definition GPIOC : Z := 0x400E1200.
Definition GPIOD : Z := 0x400E1400.
Definition GPIOE : Z := 0x400E1600.
Definition USART0 : Z := 0x40024000.
Definition USART1 : Z := 0x40028000.
Definition USART2 : Z := 0x4002C000.
Definition TIMER0 : Z := 0x4000C000.
Definition TIMER1 : Z := 0x40010000.
Definition TIMER2 : Z := 0x40014000.
Definition TIMER3 : Z := 0x40054000.
Definition USBHC : Z := 0x40038000.
Definition UTMI : Z := 0x400E0400.
Definition TRAND : Z := 0x40070000.

(** ** The map of the peripherals *)

Record block := Block { b_name : string; b_base : Z; b_layout : layout }.

Definition peripherals : list block := [
  Block "CLOCK" CLOCK clock_reg;
  Block "FLASH" FLASH flash_reg;
  Block "WATCHDOG" WATCHDOG watchdog_reg;
  Block "SYSTICK" SYSTICK systick_reg;
  Block "NVIC" NVIC nvic_reg;
  Block "ICM" ICM icm_reg;
  Block "MATRIX" MATRIX matrix_reg;
  Block "DRAM" DRAM dram_reg;
  Block "SCB" SCB scb_reg;
  Block "MPU" MPU mpu_reg;
  Block "CACHE" CACHE cache_reg;
  Block "MMC" MMC mmc_reg;
  Block "GMAC" GMAC gmac_reg;
  Block "GPIOA" GPIOA gpio_reg;
  Block "GPIOB" GPIOB gpio_reg;
  Block "GPIOC" GPIOC gpio_reg;
  Block "GPIOD" GPIOD gpio_reg;
  Block "GPIOE" GPIOE gpio_reg;
  Block "USART0" USART0 usart_reg;
  Block "USART1" USART1 usart_reg;
  Block "USART2" USART2 usart_reg;
  Block "TIMER0" TIMER0 timer_reg;
  Block "TIMER1" TIMER1 timer_reg;
  Block "TIMER2" TIMER2 timer_reg;
  Block "TIMER3" TIMER3 timer_reg;
  Block "USBHC" USBHC usb_reg;
  Block "UTMI" UTMI utmi_reg;
  Block "TRAND" TRAND trand_reg].


(** A register of a block is a member that is not reserved. *)
Definition reserved (f : field) : bool := String.prefix "RESERVED" (f_name f).

(** The registers of a block: name and the bytes [(first, past the last)]. *)
Definition registers (b : block) : list (string * (Z * Z)) :=
  omap (λ m, if reserved m.2 then None else Some (f_name m.2, (b_base b + m.1, b_base b + m.1 + f_size m.2)))
    (members 0 (b_layout b)).

(** ** Accesses *)

(** Instructions without operands that act on the processor: the barriers and those that
    mask interrupts. *)
Inductive barrier := DSB | ISB | DMB | CPSIE_I | CPSID_I | CPSIE_F | CPSID_F.

Class Mmio (D : Type) := {
  io_read : Z → D → Z * D;
  io_write : Z → Z → D → D;
  io_barrier : barrier → D → D
}.

Section Accesses.
Context {D : Type} `{Mmio D}.

Definition rd32 (a : Z) : M D Z := λ d, Ret (io_read a d).
Definition wr32 (a v : Z) : M D unit := modify (io_write a (u32 v)).
(** [REG |= v;] and [REG &= v;] *)
Definition set32 (a v : Z) : M D unit := let* r := rd32 a in wr32 a (Z.lor r v).
Definition mask32 (a v : Z) : M D unit := let* r := rd32 a in wr32 a (Z.land r v).
(** [while (!(REG & mask));] *)
Fixpoint wait_bits (fuel : nat) (a mask : Z) : M D unit :=
  match fuel with
  | O => hang
  | S f => let* r := rd32 a in if negb (Z.land r mask =? 0) then ret tt else wait_bits f a mask
  end.
(** The functions of cpu.h, in both programs: whatever their names say, each of them is the
    instruction [dsb sy]. *)
Definition dsb : M D unit := modify (io_barrier DSB).
Definition isb : M D unit := modify (io_barrier DSB).
Definition dmb : M D unit := modify (io_barrier DSB).
Definition cpsie_i : M D unit := modify (io_barrier CPSIE_I).
Definition cpsid_i : M D unit := modify (io_barrier CPSID_I).
Definition cpsie_f : M D unit := modify (io_barrier CPSIE_F).
Definition cpsid_f : M D unit := modify (io_barrier CPSID_F).

(** Reading register [a] again and again from device [d], at most [n] times, gives
    values that satisfy [Q], the last one with a bit of [mask] and, with the device
    it leaves, in [P]. *)
Fixpoint polls (n : nat) (a mask : Z) (Q : Z → Prop) (d : D) (P : Z → D → Prop) : Prop :=
  match n with
  | O => False
  | S n => Q (io_read a d).1 ∧
      (Z.land (io_read a d).1 mask = 0 ∧ polls n a mask Q (io_read a d).2 P ∨
       Z.land (io_read a d).1 mask ≠ 0 ∧ P (io_read a d).1 (io_read a d).2)
  end.

Lemma polls_mono n a mask Q d (P P' : Z → D → Prop) :
  polls n a mask Q d P → (∀ v d', P v d' → P' v d') → polls n a mask Q d P'.
Proof. revert d; induction n as [|n IH]; intros d; cbn; [done|]. intros (HQ & [(E & Hp)|(E & HP)]) Hi; naive_solver. Qed.

Lemma wait_bits_spec n fuel a mask Q d P :
  polls n a mask Q d P → (n ≤ fuel)%nat → ∃ v d', wait_bits fuel a mask d = Ret (tt, d') ∧ P v d'.
Proof.
  revert fuel d; induction n as [|n IH]; intros fuel d Hp Hf; [done|]. destruct fuel as [|fuel]; [lia|].
  cbn [polls wait_bits] in *. unfold bind, rd32. destruct (io_read a d) as [v d']. cbn [fst snd] in Hp.
  destruct Hp as (_ & [(E & Hp)|(E & HP)]).
  - rewrite E. cbn [Z.eqb negb]. apply IH; [done|lia].
  - rewrite (eqb_false _ _ E). cbn [negb]. by eauto.
Qed.
End Accesses.

(** ** Plain registers *)

Inductive io_event := IoWrite (a v : Z) | IoBarrier (b : barrier).

Record bank := Bank { bank_regs : gmap Z Z; bank_trace : list io_event }.
Definition bank_get (a : Z) (b : bank) : Z := default 0 (bank_regs b !! a).

#[export] Instance bank_mmio : Mmio bank := {|
  io_read a b := (bank_get a b, b);
  io_write a v b := Bank (<[a := v]> (bank_regs b)) (bank_trace b ++ [IoWrite a v]);
  io_barrier x b := Bank (bank_regs b) (bank_trace b ++ [IoBarrier x])
|}.

Definition bank_set (a v : Z) (b : bank) : bank := io_write a (u32 v) b.

Lemma bank_get_set a v b : bank_get a (bank_set a v b) = u32 v.
Proof. unfold bank_get, bank_set. cbn. by rewrite lookup_insert_eq. Qed.
Lemma bank_get_set_ne a a' v b : a ≠ a' → bank_get a (bank_set a' v b) = bank_get a b.
Proof. intros E. unfold bank_get, bank_set. cbn. by rewrite lookup_insert_ne by congruence. Qed.

Lemma rd32_bank a b : rd32 a b = Ret (bank_get a b, b).
Proof. done. Qed.
Lemma wr32_bank a v b : wr32 a v b = Ret (tt, bank_set a v b).
Proof. done. Qed.
Lemma set32_bank a v b : set32 a v b = Ret (tt, bank_set a (Z.lor (bank_get a b) v) b).
Proof. done. Qed.
Lemma mask32_bank a v b : mask32 a v b = Ret (tt, bank_set a (Z.land (bank_get a b) v) b).
Proof. done. Qed.
#[export] Hint Rewrite rd32_bank wr32_bank set32_bank mask32_bank bank_get_set : bank.

(** ** The map is consistent *)

Definition overlap (r s : Z * Z) : Prop := r.1 < s.2 ∧ s.1 < r.2.
#[export] Instance overlap_dec r s : Decision (overlap r s).
Proof. unfold overlap. apply _. Defined.

(** The blocks of the processor itself, which the header declares more than once. *)
Definition core_blocks : list string := ["NVIC"; "SCB"; "CACHE"].

Lemma members_after off l m : (∀ f, f ∈ l → 0 ≤ f_size f) → m ∈ members off l → off ≤ m.1.
Proof.
  revert off; induction l as [|f l IH]; intros off Hp Hm; [by apply elem_of_nil in Hm|].
  cbn [members] in Hm. apply elem_of_cons in Hm as [->|Hm]; [cbn; lia|].
  specialize (Hp f ltac:(left)) as Hf. specialize (IH _ (λ g Hg, Hp g ltac:(by right)) Hm). lia.
Qed.

(** Members of one struct that share a byte are the same member. *)
Lemma members_disjoint off l m m' :
  (∀ f, f ∈ l → 0 ≤ f_size f) → m ∈ members off l → m' ∈ members off l →
  overlap (m.1, m.1 + f_size m.2) (m'.1, m'.1 + f_size m'.2) → m = m'.
Proof.
  revert off; induction l as [|f l IH]; intros off Hp Hm Hm' [H1 H2]; cbn [fst snd] in *; [by apply elem_of_nil in Hm|].
  assert (∀ g, g ∈ l → 0 ≤ f_size g) as Hpl by (intros; apply Hp; by right).
  cbn [members] in Hm, Hm'. apply elem_of_cons in Hm as [->|Hm]; apply elem_of_cons in Hm' as [->|Hm'].
  - done.
  - pose proof (members_after _ _ _ Hpl Hm'). cbn in *. lia.
  - pose proof (members_after _ _ _ Hpl Hm). cbn in *. lia.
  - by eapply (IH _ Hpl Hm Hm').
Qed.

Definition block_range (b : block) : Z * Z := (b_base b, b_base b + size_of (b_layout b)).

(** What is checked by computation: sizes are positive multiples of four, and
    registers of different blocks that share a byte coincide and belong to the
    processor. *)
Definition sizes_ok (b : block) : bool :=
  forallb (λ f, (0 <? f_size f) && (f_size f mod 4 =? 0)) (b_layout b) && (b_base b mod 4 =? 0).
Definition blocks_ok (p q : block) : bool :=
  if decide (overlap (block_range p) (block_range q))
  then forallb (λ r, forallb (λ s, if decide (overlap r.2 s.2)
          then bool_decide (r.2 = s.2) && bool_decide (b_name p ∈ core_blocks) && bool_decide (b_name q ∈ core_blocks)
          else true) (registers q)) (registers p)
  else true.
Definition map_ok (bs : list block) : bool :=
  forallb sizes_ok bs &&
  forallb (λ p, forallb (λ q, if decide (b_name p = b_name q) then true else blocks_ok p q) bs) bs.

Lemma peripherals_ok : map_ok peripherals = true.
Proof. vm_compute. reflexivity. Qed.

Lemma elem_of_registers b r : r ∈ registers b ↔ ∃ m, m ∈ members 0 (b_layout b) ∧ reserved m.2 = false ∧
  r = (f_name m.2, (b_base b + m.1, b_base b + m.1 + f_size m.2)).
Proof.
  unfold registers. rewrite list_elem_of_omap. split.
  - intros (m & Hm & E). destruct (reserved m.2) eqn:Er; simplify_eq. eauto.
  - intros (m & Hm & Er & ->). exists m. by rewrite Er.
Qed.

Lemma members_mult off l m :
  off mod 4 = 0 → (∀ f, f ∈ l → f_size f mod 4 = 0) → m ∈ members off l → m.1 mod 4 = 0.
Proof.
  revert off; induction l as [|f l IH]; intros off Ho Hl Hm; [by apply elem_of_nil in Hm|].
  cbn [members] in Hm. apply elem_of_cons in Hm as [->|Hm]; [done|].
  apply (IH (off + f_size f)); [|intros; apply Hl; by right|done].
  specialize (Hl f ltac:(left)). lia.
Qed.

Lemma members_size off l m :
  (∀ f, f ∈ l → 0 ≤ f_size f) → m ∈ members off l → m.1 + f_size m.2 ≤ off + size_of l ∧ m.2 ∈ l.
Proof.
  revert off; induction l as [|f l IH]; intros off Hp Hm; [by apply elem_of_nil in Hm|].
  assert (∀ g, g ∈ l → 0 ≤ f_size g) as Hpl by (intros; apply Hp; by right).
  assert (0 ≤ size_of l) as Hs.
  { clear -Hpl. induction l as [|g l IHl]; cbn; [lia|]. specialize (Hpl g ltac:(left)) as Hg.
    specialize (IHl ltac:(intros; apply Hpl; by right)). lia. }
  cbn [members size_of] in *. apply elem_of_cons in Hm as [->|Hm]; [cbn; split; [lia|left]|].
  destruct (IH _ Hpl Hm) as [E Hin]. split; [lia|by right].
Qed.

Lemma sizes_ok_spec b : sizes_ok b = true →
  b_base b mod 4 = 0 ∧ ∀ f, f ∈ b_layout b → 0 < f_size f ∧ f_size f mod 4 = 0.
Proof.
  unfold sizes_ok. rewrite andb_true_iff, forallb_forall. intros [Hf Hb]. split; [lia|].
  intros f Hin. apply list_elem_of_In in Hin. specialize (Hf f Hin). lia.
Qed.

Lemma blocks_ok_spec p q r s :
  blocks_ok p q = true → sizes_ok p = true → sizes_ok q = true → r ∈ registers p → s ∈ registers q →
  overlap r.2 s.2 → r.2 = s.2 ∧ b_name p ∈ core_blocks ∧ b_name q ∈ core_blocks.
Proof.
  intros Hb Hp Hq Hr Hs Ho. apply sizes_ok_spec in Hp as [_ Hp], Hq as [_ Hq].
  assert (overlap (block_range p) (block_range q)) as Hov.
  { apply elem_of_registers in Hr as (m & Hm & _ & ->), Hs as (m' & Hm' & _ & ->).
    assert (∀ f, f ∈ b_layout p → 0 ≤ f_size f) as Hp0 by (intros f Hf; specialize (Hp f Hf); lia).
    assert (∀ f, f ∈ b_layout q → 0 ≤ f_size f) as Hq0 by (intros f Hf; specialize (Hq f Hf); lia).
    destruct (members_size _ _ _ Hp0 Hm) as [A1 _], (members_size _ _ _ Hq0 Hm') as [A2 _].
    pose proof (members_after _ _ _ Hp0 Hm). pose proof (members_after _ _ _ Hq0 Hm').
    destruct Ho. unfold block_range, overlap in *. cbn [fst snd] in *. lia. }
  unfold blocks_ok in Hb. rewrite decide_True in Hb by done. rewrite forallb_forall in Hb.
  specialize (Hb r). rewrite list_elem_of_In in Hr. specialize (Hb Hr). rewrite forallb_forall in Hb.
  specialize (Hb s). rewrite list_elem_of_In in Hs. specialize (Hb Hs). rewrite decide_True in Hb by done.
  rewrite !andb_true_iff, !bool_decide_eq_true in Hb. tauto.
Qed.

(** C40. The register map of the kernel is consistent: every register is word
    aligned and inside its block, two registers of a block share no byte, and
    registers of different peripherals share no byte either, except that some
    registers of the processor (NVIC, SCB, CACHE) are declared in two blocks, and
    then at exactly the same bytes. *)
Theorem registers_consistent p q r s :
  p ∈ peripherals → q ∈ peripherals → r ∈ registers p → s ∈ registers q →
  r.2.1 mod 4 = 0 ∧ b_base p ≤ r.2.1 ∧ r.2.2 ≤ b_base p + size_of (b_layout p) ∧
  (overlap r.2 s.2 →
   p = q ∧ r = s ∨ b_name p ≠ b_name q ∧ r.2 = s.2 ∧ b_name p ∈ core_blocks ∧ b_name q ∈ core_blocks).
Proof.
  intros Hp Hq Hr Hs. pose proof peripherals_ok as Hok. unfold map_ok in Hok.
  rewrite andb_true_iff, !forallb_forall in Hok. destruct Hok as [Hsz Hpq].
  pose proof Hp as Hp'. pose proof Hq as Hq'. apply list_elem_of_In in Hp', Hq'.
  pose proof (Hsz p Hp') as Szp. pose proof (Hsz q Hq') as Szq.
  specialize (Hpq p Hp'). rewrite forallb_forall in Hpq. specialize (Hpq q Hq').
  pose proof (sizes_ok_spec _ Szp) as [Hbp Hfp].
  assert (∀ f, f ∈ b_layout p → 0 ≤ f_size f) as Hf0 by (intros f Hf; specialize (Hfp f Hf); lia).
  pose proof Hr as Hr'. apply elem_of_registers in Hr' as (m & Hm & _ & Er).
  destruct (members_size _ _ _ Hf0 Hm) as [Hend _]. pose proof (members_after _ _ _ Hf0 Hm) as Hst.
  assert (m.1 mod 4 = 0) as Hm4 by (eapply members_mult; [|intros f Hf; apply Hfp, Hf|exact Hm]; done).
  split_and!; [rewrite Er; cbn [fst snd]; lia..|]. intros Ho. case_decide as En.
  - left. assert (p = q) as <-.
    { assert (NoDup (b_name <$> peripherals)) as Hnd by (apply (bool_decide_unpack _); vm_compute; done).
      apply list_elem_of_lookup in Hp as [i Hi], Hq as [j Hj].
      assert (i = j) as ->; [|congruence]. eapply NoDup_lookup; [exact Hnd|..].
      - by rewrite list_lookup_fmap, Hi.
      - by rewrite list_lookup_fmap, Hj, En. }
    split; [done|]. apply elem_of_registers in Hs as (m' & Hm' & _ & ->). subst r. cbn [fst snd] in Ho.
    rewrite (members_disjoint 0 (b_layout p) m m' Hf0 Hm Hm'); [done|]. destruct Ho. unfold overlap in *. cbn [fst snd] in *. lia.
  - right. split; [done|]. by eapply blocks_ok_spec.
Qed.

Lemma registers_consistent_witness :
  let p := Block "SCB" SCB scb_reg in let q := Block "CACHE" CACHE cache_reg in
  let r := ("ICIALLU", (0xE000EF50, 0xE000EF54)) in
  (p ∈ peripherals ∧ q ∈ peripherals ∧ r ∈ registers p ∧ r ∈ registers q) ∧
  r.2.1 mod 4 = 0 ∧ b_base p ≤ r.2.1 ∧ r.2.2 ≤ b_base p + size_of (b_layout p) ∧
  (overlap r.2 r.2 →
   p = q ∧ r = r ∨ b_name p ≠ b_name q ∧ r.2 = r.2 ∧ b_name p ∈ core_blocks ∧ b_name q ∈ core_blocks).
Proof.
  intros p q r.
  assert (p ∈ peripherals ∧ q ∈ peripherals ∧ r ∈ registers p ∧ r ∈ registers q) as (H1 & H2 & H3 & H4).
  { split_and!; apply list_elem_of_In; vm_compute; tauto. }
  split; [done|]. by apply (registers_consistent p q r r).
Defined.
