(* ===== verification/BootHardware.v ===== *)
(** * Peripheral registers of the bootloader (bootloader/src/cpu/hardware.h)

    The bootloader has its own copy of the register header.  The theorem compares
    it with the one of the kernel. *)

From S2P Require Import Prelude Hardware.

(** ** The register blocks *)

Definition clock_reg : layout := [
  Field WO "SCER" 4 1; Field WO "SCDR" 4 1; Field RO "SCSR" 4 1; Field RO "RESERVED_1" 4 1;
  Field WO "PCER0" 4 1; Field WO "PCDR0" 4 1; Field RO "PCSR0" 4 1; Field RW "UCKR" 4 1; Field RW "MOR" 4 1;
  Field RW "MCFR" 4 1; Field RW "PLLA" 4 1; Field RO "RESERVED_2" 4 1; Field RW "MCKR" 4 1;
  Field RO "RESERVED_3" 4 1; Field RW "USB" 4 1; Field RO "RESERVED_4" 4 1; Field RW "PCK" 4 8;
  Field WO "IER" 4 1; Field WO "IDR" 4 1; Field RO "SR" 4 1; Field RO "IMR" 4 1; Field RW "FSMR" 4 1;
  Field RW "FSPR" 4 1; Field WO "FOCR" 4 1; Field RO "RESERVED_5" 4 26; Field RW "WPMR" 4 1;
  Field RO "WPSR" 4 1; Field RO "RESERVED_6" 4 5; Field WO "PCER1" 4 1; Field WO "PCDR1" 4 1;
  Field RO "PCSR1" 4 1; Field RW "PCR" 4 1; Field RW "OCR" 4 1; Field WO "SLPWK_ER0" 4 1;
  Field WO "SLPWK_DR0" 4 1; Field RO "SLPWK_SR0" 4 1; Field RO "SLPWK_ASR0" 4 1; Field RO "RESERVED_7" 4 3;
  Field RW "PMMR" 4 1; Field WO "SLPWK_ER1" 4 1; Field WO "SLPWK_DR1" 4 1; Field RO "SLPWK_SR1" 4 1;
  Field RO "SLPWK_ASR1" 4 1; Field RO "AIPR" 4 1].

Definition flash_reg : layout := [
  Field RW "FMR" 4 1; Field WO "FCR" 4 1; Field RO "FSR" 4 1; Field RO "FRR" 4 1; Field RO "RESERVED" 4 53;
  Field RW "WPMR" 4 1].

Definition watchdog_reg : layout := [
  Field WO "CR" 4 1; Field RW "MR" 4 1; Field RO "SR" 4 1].

Definition gpio_reg : layout := [
  Field WO "PER" 4 1; Field WO "PDR" 4 1; Field RO "PSR" 4 1; Field RO "RESERVED_1" 4 1; Field WO "OER" 4 1;
  Field WO "ODR" 4 1; Field RO "OSR" 4 1; Field RO "RESERVED_2" 4 1; Field WO "IFER" 4 1;
  Field WO "IFDR" 4 1; Field RO "IFSR" 4 1; Field RO "RESERVED_3" 4 1; Field WO "SODR" 4 1;
  Field WO "CODR" 4 1; Field RO "ODSR" 4 1; Field RO "PDSR" 4 1; Field WO "IER" 4 1; Field WO "IDR" 4 1;
  Field RO "IMR" 4 1; Field RO "ISR" 4 1; Field WO "MDER" 4 1; Field WO "MDDR" 4 1; Field RO "MDSR" 4 1;
  Field RO "RESERVED_4" 4 1; Field WO "PUDR" 4 1; Field WO "PUER" 4 1; Field RO "PUSR" 4 1;
  Field RO "RESERVED_5" 4 1; Field RW "ABCDSR0" 4 1; Field RW "ABCDSR1" 4 1; Field RO "RESERVED_6" 4 2;
  Field WO "IFSCDR" 4 1; Field WO "IFSCER" 4 1; Field RO "IFSCSR" 4 1; Field RW "SCDR" 4 1;
  Field WO "PPDDR" 4 1; Field WO "PPDER" 4 1; Field RO "PPDSR" 4 1; Field RO "RESERVED_7" 4 1;
  Field WO "OWER" 4 1; Field WO "OWDR" 4 1; Field RO "OWSR" 4 1; Field RO "RESERVED_8" 4 1;
  Field WO "AIMER" 4 1; Field WO "AIMDR" 4 1; Field RO "AIMMR" 4 1; Field RO "RESERVED_9" 4 1;
  Field WO "ESR" 4 1; Field WO "LSR" 4 1; Field RO "ELSR" 4 1; Field RO "RESERVED_10" 4 1;
  Field WO "FELLSR" 4 1; Field WO "REHLSR" 4 1; Field RO "FRLHSR" 4 1; Field RO "RESERVED_11" 4 1;
  Field RO "LOCKSR" 4 1; Field RW "WPMR" 4 1; Field RO "WPSR" 4 1; Field RO "RESERVED_12" 4 5;
  Field RW "SCHMITT" 4 1; Field RO "RESERVED_13" 4 5; Field RW "DRIVER" 4 1; Field RO "RESERVED_14" 4 13;
  Field RW "PCMR" 4 1; Field WO "PCIER" 4 1; Field WO "PCIDR" 4 1; Field RO "PCIMR" 4 1;
  Field RO "PCISR" 4 1; Field RO "PCRHR" 4 1].

Definition systick_reg : layout := [
  Field RW "CSR" 4 1; Field RW "RVR" 4 1; Field RW "CVR" 4 1; Field RO "CALIB" 4 1].

Definition usart_reg : layout := [
  Field WO "CR" 4 1; Field RW "MR" 4 1; Field WO "IER" 4 1; Field WO "IDR" 4 1; Field RO "IMR" 4 1;
  Field RO "CSR" 4 1; Field RO "RHR" 4 1; Field WO "THR" 4 1; Field RW "BRGR" 4 1; Field RW "RTOR" 4 1;
  Field RW "TTGR" 4 1; Field RO "RESERVED1" 4 4; Field RW "FTDI" 4 1; Field RO "NER" 4 1].

Definition nvic_reg : layout := [
  Field RW "ISER" 4 8; Field RO "RESERVED1" 4 24; Field RW "ICER" 4 8; Field RO "RESERVED2" 4 24;
  Field RW "ISPR" 4 8; Field RO "RESERVED3" 4 24; Field RW "ICPR" 4 8; Field RO "RESERVED4" 4 24;
  Field RW "IABR" 4 8; Field RO "RESERVED5" 4 56; Field RW "IPR" 1 240; Field RO "RESERVED6" 4 644;
  Field RO "STIR" 4 1].

Definition icm_reg : layout := [
  Field RW "CFG" 4 1; Field WO "CTRL" 4 1; Field RO "SR" 4 1; Field RO "RESERVED1" 4 1; Field WO "IER" 4 1;
  Field WO "IDR" 4 1; Field RO "IMR" 4 1; Field RO "ISR" 4 1; Field RO "UASR" 4 1; Field RO "RESERVED2" 4 3;
  Field RW "DSCR" 4 1; Field RW "HASH" 4 1; Field WO "UIHVAL" 4 8].

Definition matrix_pri_reg : layout := [
  Field RW "PRAS" 4 1; Field RW "PRBS" 4 1].

Definition matrix_reg : layout := [
  Field RW "MCFG" 4 13; Field RO "RESERVED1" 4 3; Field RW "SCFG" 4 9; Field RO "RESERVED2" 4 7;
  Field RW "PRI" (size_of matrix_pri_reg) 9; Field RO "RESERVED3" 4 14; Field RW "MRCR" 4 1;
  Field RW "RESERVED4" 4 3; Field RW "CAN0" 4 1; Field RW "SYSIO" 4 1; Field RW "PCCR" 4 1;
  Field RW "DYNCKG" 4 1; Field RO "RESERVED5" 4 1; Field RW "SMCNFCS" 4 1; Field RO "RESERVED6" 4 47;
  Field RW "WPMR" 4 1; Field RO "WPSR" 4 1].

Definition dram_reg : layout := [
  Field RW "MR" 4 1; Field RW "TR" 4 1; Field RW "CR" 4 1; Field RO "RESERVED" 4 1; Field RW "LPR" 4 1;
  Field WO "IER" 4 1; Field WO "IDR" 4 1; Field RO "IMR" 4 1; Field RO "ISR" 4 1; Field RW "MDR" 4 1;
  Field RW "CFR1" 4 1; Field RW "OCMS" 4 1; Field WO "OCMS_KEY1" 4 1; Field WO "OCMS_KEY2" 4 1].

Definition scb_reg : layout := [
  Field RO "CPUID" 4 1; Field RW "ICSR" 4 1; Field RW "VTOR" 4 1; Field RW "AIRCR" 4 1; Field RW "SCR" 4 1;
  Field RW "CCR" 4 1; Field RW "SHPR" 1 12; Field RW "SHCSR" 4 1; Field RW "CFSR" 4 1; Field RW "HFSR" 4 1;
  Field RW "DFSR" 4 1; Field RW "MMFAR" 4 1; Field RW "BFAR" 4 1; Field RW "AFSR" 4 1;
  Field RO "ID_PFR" 4 2; Field RO "ID_DFR" 4 1; Field RO "ID_AFR" 4 1; Field RO "ID_MFR" 4 4;
  Field RO "ID_ISAR" 4 5; Field RO "RESERVED0" 4 1; Field RO "CLIDR" 4 1; Field RO "CTR" 4 1;
  Field RO "CCSIDR" 4 1; Field RW "CSSELR" 4 1; Field RW "CPACR" 4 1; Field RO "RESERVED3" 4 93;
  Field WO "STIR" 4 1; Field RO "RESERVED4" 4 15; Field RO "MVFR0" 4 1; Field RO "MVFR1" 4 1;
  Field RO "MVFR2" 4 1; Field RO "RESERVED5" 4 1; Field WO "ICIALLU" 4 1; Field RO "RESERVED6" 4 1;
  Field WO "ICIMVAU" 4 1; Field WO "DCIMVAC" 4 1; Field WO "DCISW" 4 1; Field WO "DCCMVAU" 4 1;
  Field WO "DCCMVAC" 4 1; Field WO "DCCSW" 4 1; Field WO "DCCIMVAC" 4 1; Field WO "DCCISW" 4 1;
  Field RO "RESERVED7" 4 6; Field RW "ITCMCR" 4 1; Field RW "DTCMCR" 4 1; Field RW "AHBPCR" 4 1;
  Field RW "CACR" 4 1; Field RW "AHBSCR" 4 1; Field RO "RESERVED8" 4 1; Field RW "ABFSR" 4 1].

Definition cache_reg : layout := [
  Field WO "ICIALLU" 4 1; Field RO "RESERVED" 4 1; Field WO "ICIMVAU" 4 1; Field WO "DCIMVAU" 4 1;
  Field WO "DCISW" 4 1; Field WO "DCCMVAU" 4 1; Field WO "DCCMVAC" 4 1; Field WO "DCCSW" 4 1;
  Field WO "DCCIMVAC" 4 1; Field WO "DCCISW" 4 1; Field RO "DONT_USE" 4 1].

Definition mmc_reg : layout := [
  Field WO "CR" 4 1; Field RW "MR" 4 1; Field RW "DTOR" 4 1; Field RW "SDCR" 4 1; Field RW "ARG" 4 1;
  Field WO "CMD" 4 1; Field RW "BLKR" 4 1; Field RW "CSTOR" 4 1; Field RO "RESP" 4 4; Field RO "RDR" 4 1;
  Field WO "TDR" 4 1; Field RO "RESERVED1" 4 2; Field RO "SR" 4 1; Field WO "IER" 4 1; Field WO "IDR" 4 1;
  Field RO "IMR" 4 1; Field RW "DMA" 4 1; Field RW "CFG" 4 1; Field RO "RESERVED2" 4 35;
  Field RW "WPMR" 4 1; Field RO "WPSR" 4 1; Field RO "RESERVED3" 4 69; Field RW "FIFO" 4 256].

Definition gmac_sa : layout := [
  Field RW "SAB" 4 1; Field RW "SAT" 4 1].

Definition gmac_st2cw : layout := [
  Field RW "ST2CW0" 4 1; Field RW "ST2CW1" 4 1].

Definition gmac_reg : layout := [
  Field RW "NCR" 4 1; Field RW "NCFGR" 4 1; Field RO "NSR" 4 1; Field RW "UR" 4 1; Field RW "DCFGR" 4 1;
  Field RW "TSR" 4 1; Field RW "RBQB" 4 1; Field RW "TBQB" 4 1; Field RW "RSR" 4 1; Field RO "ISR" 4 1;
  Field WO "IER" 4 1; Field WO "IDR" 4 1; Field RW "IMR" 4 1; Field RW "MAN" 4 1; Field RO "RPQ" 4 1;
  Field RW "TPQ" 4 1; Field RW "TPSF" 4 1; Field RW "RPSF" 4 1; Field RW "RJFML" 4 1;
  Field RO "RESERVED1" 4 13; Field RW "HBR" 4 1; Field RW "HRT" 4 1; Field RW "SA" (size_of gmac_sa) 4;
  Field RW "TIDM1" 4 1; Field RW "TIDM2" 4 1; Field RW "TIDM3" 4 1; Field RW "TIDM4" 4 1;
  Field RW "WOL" 4 1; Field RW "IPGS" 4 1; Field RW "SVLAN" 4 1; Field RW "TPFCP" 4 1; Field RW "SAMB1" 4 1;
  Field RW "SAMT1" 4 1; Field RO "RESERVED2" 4 3; Field RW "NCS" 4 1; Field RW "SCL" 4 1;
  Field RW "SCH" 4 1; Field RO "EFTSH" 4 1; Field RO "EFRSH" 4 1; Field RO "PEFTSH" 4 1;
  Field RO "PEFRSH" 4 1; Field RO "RESERVED3" 4 2; Field RO "OTLO" 4 1; Field RO "OTHI" 4 1;
  Field RO "FT" 4 1; Field RO "BCFT" 4 1; Field RO "MFT" 4 1; Field RO "PFT" 4 1; Field RO "BFT64" 4 1;
  Field RO "TBFT127" 4 1; Field RO "TBFT255" 4 1; Field RO "TBFT511" 4 1; Field RO "TBFT1023" 4 1;
  Field RO "TBFT1518" 4 1; Field RO "GTBFT1518" 4 1; Field RO "TUR" 4 1; Field RO "SCF" 4 1;
  Field RO "MCF" 4 1; Field RO "EC" 4 1; Field RO "LC" 4 1; Field RO "DTF" 4 1; Field RO "CSE" 4 1;
  Field RO "ORLO" 4 1; Field RO "ORHI" 4 1; Field RO "FR" 4 1; Field RO "BCFR" 4 1; Field RO "MFR" 4 1;
  Field RO "PFR" 4 1; Field RO "BFR64" 4 1; Field RO "TBFR127" 4 1; Field RO "TBFR255" 4 1;
  Field RO "TBFR511" 4 1; Field RO "TBFR1023" 4 1; Field RO "TBFR1518" 4 1; Field RO "TMXBFR" 4 1;
  Field RO "UFR" 4 1; Field RO "OFR" 4 1; Field RO "JR" 4 1; Field RO "FCSE" 4 1; Field RO "LFFE" 4 1;
  Field RO "RSE" 4 1; Field RO "AE" 4 1; Field RO "RRE" 4 1; Field RO "ROE" 4 1; Field RO "IHCE" 4 1;
  Field RO "TCE" 4 1; Field RO "UCE" 4 1; Field RO "RESERVED4" 4 2; Field RW "TISUBN" 4 1;
  Field RW "TSH" 4 1; Field RO "RESERVED5" 4 3; Field RW "TSL" 4 1; Field RW "TN" 4 1; Field WO "TA" 4 1;
  Field RW "TI" 4 1; Field RO "EFTSL" 4 1; Field RO "EFTN" 4 1; Field RO "EFRSL" 4 1; Field RO "EFRN" 4 1;
  Field RO "PEFTSL" 4 1; Field RO "PEFTN" 4 1; Field RO "PEFRSL" 4 1; Field RO "PEFRN" 4 1;
  Field RO "RESERVED6" 4 28; Field RO "RXLPI" 4 1; Field RO "RXLPITIME" 4 1; Field RO "TXLPI" 4 1;
  Field RO "TXLPITIME" 4 1; Field RO "RESERVED7" 4 96; Field RO "ISRPQ" 4 5; Field RO "RESERVED8" 4 11;
  Field RW "TBQBAPQ" 4 5; Field RO "RESERVED9" 4 11; Field RW "RBQBAPQ" 4 5; Field RO "RESERVED10" 4 3;
  Field RW "RBSRPQ" 4 5; Field RO "RESERVED11" 4 2; Field RW "CBSCR" 4 1; Field RW "CBSISQA" 4 1;
  Field RW "CBSISQB" 4 1; Field RO "RESERVED12" 4 14; Field RW "ST1RPQ" 4 4; Field RO "RESERVED13" 4 12;
  Field RW "ST2RPQ" 4 8; Field RO "RESERVED14" 4 40; Field WO "IERPQ" 4 5; Field RO "RESERVED15" 4 3;
  Field WO "IDRPQ" 4 5; Field RO "RESERVED16" 4 3; Field RW "IMRPQ" 4 5; Field RO "RESERVED17" 4 35;
  Field RW "ST2ER" 4 4; Field RO "RESERVED18" 4 4; Field RW "ST2CW" (size_of gmac_st2cw) 24].

Definition timer_channel : layout := [
  Field WO "CCR" 4 1; Field RW "CMR" 4 1; Field RW "SMMR" 4 1; Field RO "RAB" 4 1; Field RO "CV" 4 1;
  Field RW "RA" 4 1; Field RW "RB" 4 1; Field RW "RC" 4 1; Field RO "SR" 4 1; Field WO "IER" 4 1;
  Field WO "IDR" 4 1; Field RO "IMR" 4 1; Field RW "EMR" 4 1; Field RO "RESERVED" 4 3].

Definition timer_reg : layout := [
  Field RW "channel" (size_of timer_channel) 3; Field WO "BCR" 4 1; Field RW "BMR" 4 1; Field WO "QIER" 4 1;
  Field WO "QIDR" 4 1; Field RO "QIMR" 4 1; Field RO "QISR" 4 1; Field RW "FMR" 4 1;
  Field RO "RESERVED" 4 2; Field RW "WPMR" 4 1].

Definition CLOCK : Z := 0x400E0600.
Definition FLASH : Z := 0x400E0C00.
Definition WATCHDOG : Z := 0x400E1850.
Definition SYSTICK : Z := 0xE000E010.
Definition NVIC : Z := 0xE000E100.
Definition ICM : Z := 0x40048000.
Definition MATRIX : Z := 0x40088000.
Definition DRAM : Z := 0x40084000.
Definition SCB : Z := 0xE000ED00.
Definition CACHE : Z := 0xE000EF50.
Definition MMC : Z := 0x40000000.
Definition GMAC : Z := 0x40050000.
Definition GPIOA : Z := 0x400E0E00.
Definition GPIOB : Z := 0x400E1000.
Definition GPIOC : Z := 0x400E1200.
Definition GPIOD : Z := 0x400E1400.
Definition GPIOE : Z := 0x400E1600.
Definition USART0 : Z := 0x40024000.
Definition USART1 : Z := 0x40028000.
Definition USART2 : Z := 0x4002C000.
Definition TIMER0 : Z := 0x4000C000.
Definition TIMER1 : Z := 0x40010000.
Definition TIMER2 : Z := 0x40014000.
Definition TIMER3 : Z := 0x40054000.

(** ** The map of the peripherals *)

Definition peripherals : list block := [
  Block "CLOCK" CLOCK clock_reg;
  Block "FLASH" FLASH flash_reg;
  Block "WATCHDOG" WATCHDOG watchdog_reg;
  Block "SYSTICK" SYSTICK systick_reg;
  Block "NVIC" NVIC nvic_reg;
  Block "ICM" ICM icm_reg;
  Block "MATRIX" MATRIX matrix_reg;
  Block "DRAM" DRAM dram_reg;
  Block "SCB" SCB scb_reg;
  Block "CACHE" CACHE scb_reg;
  Block "MMC" MMC mmc_reg;
  Block "GMAC" GMAC gmac_reg;
  Block "GPIOA" GPIOA gpio_reg;
  Block "GPIOB" GPIOB gpio_reg;
  Block "GPIOC" GPIOC gpio_reg;
  Block "GPIOD" GPIOD gpio_reg;
  Block "GPIOE" GPIOE gpio_reg;
  Block "USART0" USART0 usart_reg;
  Block "USART1" USART1 usart_reg;
  Block "USART2" USART2 usart_reg;
  Block "TIMER0" TIMER0 timer_reg;
  Block "TIMER1" TIMER1 timer_reg;
  Block "TIMER2" TIMER2 timer_reg;
  Block "TIMER3" TIMER3 timer_reg].

(** ** The two headers *)

(** What the compiled code depends on: base address and the offset, element size
    and count of every register. *)
Definition same_registers (p q : block) : Prop :=
  b_name p = b_name q ∧ b_base p = b_base q ∧
  omap (λ m, if reserved m.2 then None else Some m) (members 0 (b_layout p)) =
  omap (λ m, if reserved m.2 then None else Some m) (members 0 (b_layout q)).

#[export] Instance access_eq_dec : EqDecision access.
Proof. solve_decision. Defined.
#[export] Instance field_eq_dec : EqDecision field.
Proof. solve_decision. Defined.
(** The check, block by block. *)
Definition agree (b : block) : bool :=
  if decide (b_name b = "CACHE") then true else
  existsb (λ p, if decide (b_name b = b_name p) then if decide (b_base b = b_base p) then
    bool_decide (omap (λ m, if reserved m.2 then None else Some m) (members 0 (b_layout b)) =
                 omap (λ m, if reserved m.2 then None else Some m) (members 0 (b_layout p)))
    else false else false) Hardware.peripherals.

Lemma agree_spec b : agree b = true → b_name b ≠ "CACHE" → Exists (same_registers b) Hardware.peripherals.
Proof.
  unfold agree. intros Hb Hn. rewrite decide_False in Hb by done. apply existsb_exists in Hb as (p & Hp & Hb).
  apply Exists_exists. exists p. split; [by apply list_elem_of_In|].
  destruct (decide (b_name b = b_name p)) as [E1|]; [|done]. destruct (decide (b_base b = b_base p)) as [E2|]; [|done].
  apply bool_decide_eq_true in Hb. done.
Qed.

Lemma all_agree : forallb agree peripherals = true.
Proof. vm_compute. reflexivity. Qed.

(** The bootloader and the kernel agree on the hardware: every peripheral of
    the bootloader's header is one of the kernel's, with the same base address
    and the same registers at the same offsets with the same access, except
    CACHE, which the bootloader declares with the struct of the system control
    block: its first register would be taken for CPUID, and [ICIALLU] would be
    written 0x250 bytes past the cache maintenance registers. *)
Theorem bootloader_registers_agree :
  Forall (λ b, b_name b ≠ "CACHE" → Exists (same_registers b) Hardware.peripherals) peripherals ∧
  ∃ b p, b ∈ peripherals ∧ p ∈ Hardware.peripherals ∧ b_name b = "CACHE" ∧ b_name p = "CACHE" ∧
    b_base b + offset_of (b_layout b) "ICIALLU" = 0xE000F1A0 ∧
    b_base p + offset_of (b_layout p) "ICIALLU" = 0xE000EF50.
Proof.
  split.
  { apply Forall_forall. intros b Hb. apply agree_spec. pose proof all_agree as Ha. rewrite forallb_forall in Ha.
    by apply Ha, list_elem_of_In. }
  exists (Block "CACHE" CACHE scb_reg), (Block "CACHE" Hardware.CACHE cache_reg).
  split_and!; try done; apply list_elem_of_In; vm_compute; tauto.
Qed.
