(* ===== verification/Nvic.v ===== *)
(** * The interrupt controller (cpu/nvic.h, cpu/fpu.h)

    One operation per inline function.  [IrqLaws] says what the processor does with the
    registers; under these laws the operations act on the interrupt they name and on no other. *)

From S2P Require Import Prelude Hardware.

(** ** Registers *)

Definition ISER (n : Z) : Z := NVIC + offset_of nvic_reg "ISER" + 4 * n.
Definition ICER (n : Z) : Z := NVIC + offset_of nvic_reg "ICER" + 4 * n.
Definition ISPR (n : Z) : Z := NVIC + offset_of nvic_reg "ISPR" + 4 * n.
Definition ICPR (n : Z) : Z := NVIC + offset_of nvic_reg "ICPR" + 4 * n.
Definition IABR (n : Z) : Z := NVIC + offset_of nvic_reg "IABR" + 4 * n.
Definition IPR (n : Z) : Z := NVIC + offset_of nvic_reg "IPR" + n.
Definition SHPR (n : Z) : Z := SCB + offset_of scb_reg "SHPR" + n.
Definition SCB_ICSR : Z := SCB + offset_of scb_reg "ICSR".
(** The access control register, which fpu.h addresses by number. *)
Definition FPU_CPACR : Z := 0xE000ED88.

Definition irq_word (irq : Z) : Z := Z.shiftr irq 5.
Definition irq_bit (irq : Z) : Z := Z.shiftl 1 (Z.land irq 31).

Inductive irq_priority := NVIC_PRI_0 | NVIC_PRI_1 | NVIC_PRI_2 | NVIC_PRI_3 | NVIC_PRI_4 | NVIC_PRI_5 | NVIC_PRI_6 | NVIC_PRI_7.
Definition pri_val (p : irq_priority) : Z :=
  match p with NVIC_PRI_0 => 0 | NVIC_PRI_1 => 1 | NVIC_PRI_2 => 2 | NVIC_PRI_3 => 3 | NVIC_PRI_4 => 4 | NVIC_PRI_5 => 5 | NVIC_PRI_6 => 6 | NVIC_PRI_7 => 7 end.

Section Nvic.
Context {D : Type} `{Mmio D}.

(** Registers of one byte. *)
Definition rd8 (a : Z) : M D Z := let* v := rd32 a in ret (u8 v).
Definition wr8 (a v : Z) : M D unit := modify (io_write a (u8 v)).

Definition bit_set (a mask : Z) : M D Z := let* r := rd32 a in ret (if negb (Z.land r mask =? 0) then 1 else 0).

Definition nvic_enable (irq_number : Z) : M D unit := wr32 (ISER (irq_word irq_number)) (irq_bit irq_number).
Definition nvic_disable (irq_number : Z) : M D unit :=
  wr32 (ICER (irq_word irq_number)) (irq_bit irq_number) ;; dsb ;; isb.
Definition nvic_is_enabled (irq_number : Z) : M D Z := bit_set (ISER (irq_word irq_number)) (irq_bit irq_number).
Definition nvic_set_pending (irq_number : Z) : M D unit := wr32 (ISPR (irq_word irq_number)) (irq_bit irq_number).
Definition nvic_clear_pending (irq_number : Z) : M D unit := wr32 (ICPR (irq_word irq_number)) (irq_bit irq_number).
Definition nvic_is_pending (irq_number : Z) : M D Z := bit_set (ISPR (irq_word irq_number)) (irq_bit irq_number).
Definition nvic_is_active (irq_number : Z) : M D Z := bit_set (IABR (irq_word irq_number)) (irq_bit irq_number).

Definition nvic_set_prioriy (irq_number : Z) (pri : irq_priority) : M D unit :=
  wr8 (IPR irq_number) (Z.land (Z.shiftl (pri_val pri) 5) 0xFF).
Definition nvic_get_priority (irq_number : Z) : M D Z := let* r := rd8 (IPR irq_number) in ret (Z.shiftr r 5).

Definition systick_set_priority (pri : irq_priority) : M D unit := wr8 (SHPR 11) (Z.shiftl (pri_val pri) 5).
Definition pendsv_set_priority (pri : irq_priority) : M D unit := wr8 (SHPR 10) (Z.shiftl (pri_val pri) 5).
Definition svc_set_priority (pri : irq_priority) : M D unit := wr8 (SHPR 7) (Z.shiftl (pri_val pri) 5).
Definition usage_fault_set_priority (pri : irq_priority) : M D unit := wr8 (SHPR 2) (Z.shiftl (pri_val pri) 5).
Definition mem_fault_set_priority (pri : irq_priority) : M D unit := wr8 (SHPR 0) (Z.shiftl (pri_val pri) 5).
Definition bus_fault_set_priority (pri : irq_priority) : M D unit := wr8 (SHPR 1) (Z.shiftl (pri_val pri) 5).

Definition systick_set_pending : M D unit := wr32 SCB_ICSR (Z.shiftl 1 26).
Definition systick_clear_pending : M D unit := wr32 SCB_ICSR (Z.shiftl 1 25).
Definition pendsv_set_pending : M D unit := wr32 SCB_ICSR (Z.shiftl 1 28).
Definition pendsv_clear_pending : M D unit := wr32 SCB_ICSR (Z.shiftl 1 27).
Definition nmi_set_pending : M D unit := wr32 SCB_ICSR (Z.shiftl 1 31).
Definition vector_is_pending : M D Z := bit_set SCB_ICSR (Z.shiftl 1 22).
Definition nvic_get_executing_vector : M D Z := let* r := rd32 SCB_ICSR in ret (u8 (Z.land r 0xFF)).

Definition fpu_enable : M D unit :=
  set32 FPU_CPACR (Z.lor (Z.shiftl 3 20) (Z.shiftl 3 22)) ;; dsb ;; isb.
End Nvic.

(** ** The processor's side *)

(** Interrupts are numbered from 0 to 239; [irq_on] tells which are enabled
    and [irq_pri] their priorities.  A word that is written sets or clears the interrupts of its one
    bits; a word that is read shows those of its group.  The eight priorities are the upper
    bits of a byte per interrupt. *)
Class IrqLaws (D : Type) `{Mmio D} := {
  irq_on : D → Z → bool;
  irq_pri : D → Z → Z;
  il_set d w v n : 0 ≤ w < 8 → 0 ≤ v < 2 ^ 32 → 0 ≤ n < 240 →
    irq_on (io_write (ISER w) v d) n = irq_on d n || ((n / 32 =? w) && Z.testbit v (n mod 32));
  il_clear d w v n : 0 ≤ w < 8 → 0 ≤ v < 2 ^ 32 → 0 ≤ n < 240 →
    irq_on (io_write (ICER w) v d) n = irq_on d n && negb ((n / 32 =? w) && Z.testbit v (n mod 32));
  il_read d w n : 0 ≤ w < 8 → 0 ≤ n < 32 → 32 * w + n < 240 →
    Z.testbit (io_read (ISER w) d).1 n = irq_on d (32 * w + n);
  il_pri d n k v : 0 ≤ n < 240 → 0 ≤ k < 240 → 0 ≤ v < 256 →
    irq_pri (io_write (IPR n) v d) k = if k =? n then v / 32 else irq_pri d k;
  il_pri_read d n : 0 ≤ n < 240 → u8 (io_read (IPR n) d).1 / 32 = irq_pri d n;
  il_barrier d b n : irq_on (io_barrier b d) n = irq_on d n
}.

Section Laws.
Context {D : Type} `{IrqLaws D}.

Lemma irq_word_div irq : irq_word irq = irq / 32.
Proof. unfold irq_word. by rewrite Z.shiftr_div_pow2. Qed.
Lemma irq_low irq : Z.land irq 31 = irq mod 32.
Proof. change 31 with (2 ^ 5 - 1). by rewrite land_mask. Qed.
Lemma irq_bit_testbit irq k : 0 ≤ k < 32 → Z.testbit (u32 (irq_bit irq)) k = (k =? irq mod 32).
Proof.
  intros Hk. unfold irq_bit. rewrite irq_low, Z.shiftl_1_l. rewrite u32_small.
  - rewrite Z.pow2_bits_eqb by lia. apply Z.eqb_sym.
  - split; [apply Z.pow_nonneg; lia|]. apply (Z.pow_lt_mono_r 2 (irq mod 32) 32); lia.
Qed.

(** The bit of an interrupt in its word is that of no other interrupt. *)
Lemma irq_names irq n : 0 ≤ irq < 240 → 0 ≤ n < 240 →
  (n / 32 =? irq_word irq) && Z.testbit (u32 (irq_bit irq)) (n mod 32) = (n =? irq).
Proof.
  intros Hi Hn. rewrite irq_word_div, irq_bit_testbit by lia.
  destruct (Z.eqb_spec n irq) as [->|Hne]; [by rewrite !Z.eqb_refl|].
  destruct (Z.eqb_spec (n / 32) (irq / 32)); [|done]. destruct (Z.eqb_spec (n mod 32) (irq mod 32)); [lia|done].
Qed.

(** The interrupt controller: for every interrupt from 0 to 239, [nvic_enable] and [nvic_disable]
    switch exactly the interrupt they name, [nvic_is_enabled] tells whether it is on, and
    [nvic_set_prioriy] gives exactly this interrupt the priority that [nvic_get_priority] reads. *)
Theorem nvic_acts_on_one irq (d : D) :
  0 ≤ irq < 240 →
  (∃ d', nvic_enable irq d = Ret (tt, d') ∧ ∀ n, 0 ≤ n < 240 → irq_on d' n = irq_on d n || (n =? irq)) ∧
  (∃ d', nvic_disable irq d = Ret (tt, d') ∧ ∀ n, 0 ≤ n < 240 → irq_on d' n = irq_on d n && negb (n =? irq)) ∧
  (∃ d', nvic_is_enabled irq d = Ret (if irq_on d irq then 1 else 0, d')) ∧
  (∀ pri, ∃ d', nvic_set_prioriy irq pri d = Ret (tt, d') ∧
     (∀ n, 0 ≤ n < 240 → irq_pri d' n = if n =? irq then pri_val pri else irq_pri d n) ∧
     ∃ d'', nvic_get_priority irq d' = Ret (pri_val pri, d'')).
Proof.
  intros Hi. assert (0 ≤ irq_word irq < 8) as Hw by (rewrite irq_word_div; lia).
  split_and!.
  - eexists. split; [reflexivity|]. intros n Hn. rewrite il_set by (done || apply u32_range).
    by rewrite irq_names.
  - eexists. split; [reflexivity|]. intros n Hn. rewrite !il_barrier, il_clear by (done || apply u32_range).
    by rewrite irq_names.
  - unfold nvic_is_enabled, bit_set, rd32. unfold bind.
    destruct (io_read _ d) as [r d'] eqn:Er. exists d'. unfold ret. do 2 f_equal.
    unfold irq_bit. rewrite irq_low, land_bit by lia.
    replace r with (io_read (ISER (irq_word irq)) d).1 by (by rewrite Er).
    rewrite il_read by (rewrite ?irq_word_div in *; lia). rewrite irq_word_div.
    by replace (32 * (irq / 32) + irq mod 32) with irq by lia.
  - intros pri. assert (u8 (Z.land (Z.shiftl (pri_val pri) 5) 0xFF) / 32 = pri_val pri) as Ep by (by destruct pri).
    eexists. split; [reflexivity|]. split.
    + intros n Hn. rewrite il_pri by (done || apply u8_range). by rewrite Ep.
    + unfold nvic_get_priority, rd8, rd32. unfold bind, ret.
      destruct (io_read (IPR irq) _) as [r d'] eqn:Er. exists d'. do 2 f_equal.
      rewrite Z.shiftr_div_pow2 by done. change (2 ^ 5) with 32.
      replace r with (io_read (IPR irq) (io_write (IPR irq) (u8 (Z.land (Z.shiftl (pri_val pri) 5) 0xFF)) d)).1 by (by rewrite Er).
      rewrite il_pri_read, il_pri by (done || apply u8_range). by rewrite Z.eqb_refl, Ep.
Qed.
End Laws.

(** ** A processor that obeys the laws *)

Record irq_dev := IrqDev { on : Z → bool; pri : Z → Z }.

(** The word with the bits [f 0 .. f (n - 1)]. *)
Fixpoint word_of (n : nat) (f : Z → bool) : Z :=
  match n with O => 0 | S n => Z.lor (word_of n f) (if f (Z.of_nat n) then 2 ^ Z.of_nat n else 0) end.
Lemma word_of_bit n f k : 0 ≤ k → Z.testbit (word_of n f) k = (k <? Z.of_nat n) && f k.
Proof.
  intros Hk. induction n as [|n IH]; [cbn [word_of]; rewrite Z.testbit_0_l; change (Z.of_nat 0) with 0; by rewrite (proj2 (Z.ltb_ge k 0)) by lia|].
  cbn [word_of]. rewrite Z.lor_spec, IH.
  assert (Z.testbit (if f (Z.of_nat n) then 2 ^ Z.of_nat n else 0) k = (Z.of_nat n =? k) && f k) as ->.
  { destruct (Z.eqb_spec (Z.of_nat n) k) as [<-|Hne].
    - destruct (f _); [by rewrite Z.pow2_bits_true by lia|by rewrite Z.bits_0].
    - destruct (f (Z.of_nat n)); [by rewrite Z.pow2_bits_false by lia|by rewrite Z.bits_0]. }
  destruct (Z.ltb_spec k (Z.of_nat n)), (Z.eqb_spec (Z.of_nat n) k), (Z.ltb_spec k (Z.of_nat (S n))); try lia; by destruct (f k).
Qed.

#[export] Instance irq_dev_mmio : Mmio irq_dev := {|
  io_read a d :=
    (if (0xE000E100 <=? a) && (a <? 0xE000E120) then word_of 32 (λ n, on d (32 * ((a - 0xE000E100) / 4) + n))
     else if (0xE000E400 <=? a) && (a <? 0xE000E4F0) then 32 * (pri d (a - 0xE000E400) mod 8) else 0, d);
  io_write a v d :=
    if (0xE000E100 <=? a) && (a <? 0xE000E120)
    then IrqDev (λ n, on d n || ((n / 32 =? (a - 0xE000E100) / 4) && Z.testbit v (n mod 32))) (pri d)
    else if (0xE000E180 <=? a) && (a <? 0xE000E1A0)
    then IrqDev (λ n, on d n && negb ((n / 32 =? (a - 0xE000E180) / 4) && Z.testbit v (n mod 32))) (pri d)
    else if (0xE000E400 <=? a) && (a <? 0xE000E4F0)
    then IrqDev (on d) (λ n, if n =? a - 0xE000E400 then v / 32 else pri d n)
    else d;
  io_barrier _ d := d
|}.

Ltac in_range := repeat match goal with
  | |- context [?x <=? ?y] => first [rewrite (proj2 (Z.leb_le x y)) by lia | rewrite (proj2 (Z.leb_gt x y)) by lia]
  | |- context [?x <? ?y] => first [rewrite (proj2 (Z.ltb_lt x y)) by lia | rewrite (proj2 (Z.ltb_ge x y)) by lia]
  end; cbn [andb].

#[export] Program Instance irq_dev_laws : IrqLaws irq_dev :=
  {| irq_on := on; irq_pri d n := pri d n mod 8 |}.
Next Obligation.
  intros d w v n Hw Hv Hn. change (ISER w) with (0xE000E100 + 4 * w). cbn [io_write irq_dev_mmio]. in_range.
  cbn [on]. by replace ((0xE000E100 + 4 * w - 0xE000E100) / 4) with w by lia.
Qed.
Next Obligation.
  intros d w v n Hw Hv Hn. change (ICER w) with (0xE000E180 + 4 * w). cbn [io_write irq_dev_mmio]. in_range.
  cbn [on]. by replace ((0xE000E180 + 4 * w - 0xE000E180) / 4) with w by lia.
Qed.
Next Obligation.
  intros d w n Hw Hn Hwn. change (ISER w) with (0xE000E100 + 4 * w). cbn [io_read irq_dev_mmio fst]. in_range.
  rewrite word_of_bit by lia. in_range. by replace ((0xE000E100 + 4 * w - 0xE000E100) / 4) with w by lia.
Qed.
Next Obligation.
  intros d n k v Hn Hk Hv. change (IPR n) with (0xE000E400 + n). cbn [io_write irq_dev_mmio]. in_range.
  cbn [pri]. replace (0xE000E400 + n - 0xE000E400) with n by lia. destruct (k =? n); [|done]. apply Z.mod_small. lia.
Qed.
Next Obligation.
  intros d n Hn. change (IPR n) with (0xE000E400 + n). cbn [io_read irq_dev_mmio fst]. in_range.
  replace (0xE000E400 + n - 0xE000E400) with n by lia. unfold u8. lia.
Qed.
Next Obligation. done. Qed.

Lemma nvic_acts_on_one_witness :
  ∃ d', nvic_enable 34 (IrqDev (λ _, false) (λ _, 0)) = Ret (tt, d') ∧
    irq_on d' 34 = true ∧ irq_on d' 33 = false ∧ irq_on d' 2 = false.
Proof.
  destruct (proj1 (nvic_acts_on_one 34 (IrqDev (λ _, false) (λ _, 0)) ltac:(lia))) as (d' & E & Hon).
  exists d'. split; [exact E|]. rewrite !Hon by lia. done.
Defined.
