(* ===== verification/Gpio.v ===== *)
(** * Pins (drivers/gpio.c, gpio.h, board/led.c, button.c)

    The parallel input/output controller.  A port is the base address of its
    registers.  A shift by a pin number of 32 or more gives no bit, as on the
    processor. *)

From S2P Require Import Prelude Hardware.

(** ** Registers of a port *)

Definition PER (port : Z) : Z := port + offset_of gpio_reg "PER".
Definition PDR (port : Z) : Z := port + offset_of gpio_reg "PDR".
Definition OER (port : Z) : Z := port + offset_of gpio_reg "OER".
Definition ODR (port : Z) : Z := port + offset_of gpio_reg "ODR".
Definition SODR (port : Z) : Z := port + offset_of gpio_reg "SODR".
Definition CODR (port : Z) : Z := port + offset_of gpio_reg "CODR".
Definition ODSR (port : Z) : Z := port + offset_of gpio_reg "ODSR".
Definition PDSR (port : Z) : Z := port + offset_of gpio_reg "PDSR".
Definition ABCDSR0 (port : Z) : Z := port + offset_of gpio_reg "ABCDSR0".
Definition ABCDSR1 (port : Z) : Z := port + offset_of gpio_reg "ABCDSR1".
(** The register 0x40088114 that gpio.c addresses by number: the system pins. *)
Definition CCFG_SYSIO : Z := 0x40088114.

(** ** Data *)

Inductive gpio_func := GPIO_FUNC_A | GPIO_FUNC_B | GPIO_FUNC_C | GPIO_FUNC_D | GPIO_FUNC_OFF.
Definition func_val (f : gpio_func) : Z :=
  match f with GPIO_FUNC_A => 0 | GPIO_FUNC_B => 1 | GPIO_FUNC_C => 2 | GPIO_FUNC_D => 3 | GPIO_FUNC_OFF => 4 end.
Inductive gpio_dir := GPIO_INPUT | GPIO_OUTPUT.
Inductive gpio_pull := GPIO_PULL_UP | GPIO_PULL_DOWN.
Inductive gpio_irq_src := GPIO_RISING_EDGE | GPIO_FALLING_EDGE | GPIO_HIGH_LEVEL | GPIO_LOW_LEVEL | GPIO_EDGE.
Definition irq_val (s : gpio_irq_src) : Z :=
  match s with GPIO_RISING_EDGE => 0 | GPIO_FALLING_EDGE => 1 | GPIO_HIGH_LEVEL => 2 | GPIO_LOW_LEVEL => 3 | GPIO_EDGE => 4 end.
Inductive gpio_filter := GPIO_GLITCH_FILTER | GPIO_DEBOUNCE_FILTER.

Definition pin_bit (pin : Z) : Z := Z.shiftl 1 pin.

Section Gpio.
Context {D : Type} `{Mmio D}.

Definition gpio_set (port pin : Z) : M D unit := wr32 (SODR port) (pin_bit pin).
Definition gpio_clear (port pin : Z) : M D unit := wr32 (CODR port) (pin_bit pin).

(** A bit of a select register, from a bit of the function number. *)
Definition select_bit (a pin v : Z) : M D unit :=
  if negb (v =? 0) then set32 a (pin_bit pin) else mask32 a (Z.lnot (pin_bit pin)).

Definition gpio_set_function (port pin : Z) (func : gpio_func) : M D unit :=
  (if port =? GPIOB
   then if (pin =? 4) || (pin =? 5) || (pin =? 6) || (pin =? 7) || (pin =? 12)
        then set32 CCFG_SYSIO (pin_bit pin) else ret tt
   else ret tt) ;;
  match func with
  | GPIO_FUNC_OFF => wr32 (PER port) (pin_bit pin)
  | _ =>
      select_bit (ABCDSR0 port) pin (Z.land (func_val func) 1) ;;
      select_bit (ABCDSR1 port) pin (Z.land (func_val func) 2) ;;
      wr32 (PDR port) (pin_bit pin)
  end.

Definition gpio_set_direction (port pin : Z) (dir : gpio_dir) : M D unit :=
  match dir with
  | GPIO_INPUT => wr32 (ODR port) (pin_bit pin)
  | GPIO_OUTPUT => wr32 (OER port) (pin_bit pin)
  end.

Definition gpio_toggle (port pin : Z) : M D unit :=
  let* r := rd32 (ODSR port) in
  if negb (Z.land r (pin_bit pin) =? 0) then wr32 (CODR port) (pin_bit pin) else wr32 (SODR port) (pin_bit pin).

Definition gpio_read (port : Z) : M D Z := rd32 (PDSR port).

Definition gpio_get_pin_status (port pin : Z) : M D Z :=
  let* r := rd32 (PDSR port) in ret (if negb (Z.land r (pin_bit pin) =? 0) then 1 else 0).

Definition gpio_set_pull (port pin : Z) (pull : gpio_pull) : M D unit :=
  match pull with
  | GPIO_PULL_DOWN =>
      wr32 (port + offset_of gpio_reg "PUDR") (pin_bit pin) ;;
      wr32 (port + offset_of gpio_reg "PPDER") (pin_bit pin)
  | GPIO_PULL_UP =>
      wr32 (port + offset_of gpio_reg "PUER") (pin_bit pin) ;;
      wr32 (port + offset_of gpio_reg "PPDDR") (pin_bit pin)
  end.

Definition gpio_interrupt_enable (port pin : Z) (src : gpio_irq_src) : M D unit :=
  match src with
  | GPIO_EDGE => wr32 (port + offset_of gpio_reg "AIMDR") (pin_bit pin)
  | _ =>
      wr32 (port + offset_of gpio_reg "AIMER") (pin_bit pin) ;;
      (if negb (Z.land (irq_val src) 2 =? 0)
       then wr32 (port + offset_of gpio_reg "LSR") (pin_bit pin)
       else wr32 (port + offset_of gpio_reg "ESR") (pin_bit pin)) ;;
      (if negb (Z.land (irq_val src) 1 =? 0)
       then wr32 (port + offset_of gpio_reg "FELLSR") (pin_bit pin)
       else wr32 (port + offset_of gpio_reg "REHLSR") (pin_bit pin))
  end ;;
  wr32 (port + offset_of gpio_reg "IER") (pin_bit pin).

Definition gpio_get_interrupt_status (port : Z) : M D Z := rd32 (port + offset_of gpio_reg "ISR").

(** [(u32)((us / 125) - 1.0)] converts -1.0, which is undefined, below 125 us. *)
Definition gpio_set_filter (port pin : Z) (filt : gpio_filter) (us : Z) : M D unit :=
  match filt with
  | GPIO_GLITCH_FILTER => wr32 (port + offset_of gpio_reg "IFSCDR") (pin_bit pin)
  | GPIO_DEBOUNCE_FILTER => wr32 (port + offset_of gpio_reg "IFSCER") (pin_bit pin)
  end ;;
  match filt with
  | GPIO_DEBOUNCE_FILTER =>
      if us / 125 =? 0 then ub else
      let div := us / 125 - 1 in
      let div := if 0x3FFF <? div then 0x3FFF else div in
      wr32 (port + offset_of gpio_reg "SCDR") (Z.land 0x3FFF div)
  | GPIO_GLITCH_FILTER => ret tt
  end ;;
  wr32 (port + offset_of gpio_reg "IFER") (pin_bit pin).

(** ** The LED (board/led.c) *)

Definition led_init : M D unit :=
  gpio_set_function GPIOC 8 GPIO_FUNC_OFF ;;
  gpio_set_direction GPIOC 8 GPIO_OUTPUT.
Definition led_on : M D unit := gpio_clear GPIOC 8.
Definition led_off : M D unit := gpio_set GPIOC 8.
Definition led_toggle : M D unit := gpio_toggle GPIOC 8.
End Gpio.
