(* ===== verification/Clock.v ===== *)
(** * Clocks (drivers/clock.c, clock.h)

    The clock tree.  Every wait for a flag of the status register takes fuel. *)

From S2P Require Import Prelude Hardware.

Inductive clock_source := RC_OSCILLCATOR | CRYSTAL_OSCILLATOR.
Definition source_val (s : clock_source) : Z := match s with RC_OSCILLCATOR => 0 | CRYSTAL_OSCILLATOR => 1 end.
Inductive clock_net := SLOW_CLOCK | MAIN_CLOCK | PLLA_CLOCK | UPLL_CLOCK.
Definition net_val (n : clock_net) : Z :=
  match n with SLOW_CLOCK => 0 | MAIN_CLOCK => 1 | PLLA_CLOCK => 2 | UPLL_CLOCK => 3 end.
Inductive master_presc := MASTER_PRESC_OFF | MASTER_PRESC_2 | MASTER_PRESC_4 | MASTER_PRESC_8 |
  MASTER_PRESC_16 | MASTER_PRESC_32 | MASTER_PRESC_64 | MASTER_PRESC_3.
Definition presc_val (p : master_presc) : Z :=
  match p with MASTER_PRESC_OFF => 0 | MASTER_PRESC_2 => 1 | MASTER_PRESC_4 => 2 | MASTER_PRESC_8 => 3 |
    MASTER_PRESC_16 => 4 | MASTER_PRESC_32 => 5 | MASTER_PRESC_64 => 6 | MASTER_PRESC_3 => 7 end.
Inductive master_divider := MASTER_DIV_OFF | MASTER_DIV_2 | MASTER_DIV_4 | MASTER_DIV_3.
Definition div_val (d : master_divider) : Z :=
  match d with MASTER_DIV_OFF => 0 | MASTER_DIV_2 => 1 | MASTER_DIV_4 => 2 | MASTER_DIV_3 => 3 end.
Inductive rc_frecuency := RC_4_MHz | RC_8_MHz | RC_12_MHz.
Definition frec_val (f : rc_frecuency) : Z := match f with RC_4_MHz => 0 | RC_8_MHz => 1 | RC_12_MHz => 2 end.
Inductive upll_mult := UPLL_x40 | UPLL_x30.
Definition mult_val (m : upll_mult) : Z := match m with UPLL_x40 => 0 | UPLL_x30 => 1 end.

Definition MOR : Z := Eval vm_compute in CLOCK + offset_of clock_reg "MOR".
Definition PLLA : Z := Eval vm_compute in CLOCK + offset_of clock_reg "PLLA".
Definition MCKR : Z := Eval vm_compute in CLOCK + offset_of clock_reg "MCKR".
Definition CLOCK_SR : Z := Eval vm_compute in CLOCK + offset_of clock_reg "SR".
Definition SCER : Z := Eval vm_compute in CLOCK + offset_of clock_reg "SCER".
Definition SCDR : Z := Eval vm_compute in CLOCK + offset_of clock_reg "SCDR".
Definition SCSR : Z := Eval vm_compute in CLOCK + offset_of clock_reg "SCSR".
Definition PCER0 : Z := Eval vm_compute in CLOCK + offset_of clock_reg "PCER0".
Definition PCDR0 : Z := Eval vm_compute in CLOCK + offset_of clock_reg "PCDR0".
Definition PCER1 : Z := Eval vm_compute in CLOCK + offset_of clock_reg "PCER1".
Definition PCDR1 : Z := Eval vm_compute in CLOCK + offset_of clock_reg "PCDR1".
Definition PCR : Z := Eval vm_compute in CLOCK + offset_of clock_reg "PCR".
Definition PCK (n : Z) : Z := CLOCK + offset_of clock_reg "PCK" + 4 * n.
Definition UCKR : Z := Eval vm_compute in CLOCK + offset_of clock_reg "UCKR".
Definition CLOCK_USB : Z := Eval vm_compute in CLOCK + offset_of clock_reg "USB".
Definition CKTRIM : Z := Eval vm_compute in UTMI + offset_of utmi_reg "CKTRIM".

Section Clock.
Context {D : Type} `{Mmio D}.
Variable fuel : nat.

(** [while (!(CLOCK->SR & (1 << bit)));] *)
Definition clock_wait_sr (bit : Z) : M D unit := wait_bits fuel CLOCK_SR (Z.shiftl 1 bit).

Definition clock_source_enable (source : clock_source) (startup_time : Z) : M D unit :=
  match source with
  | RC_OSCILLCATOR =>
      set32 MOR (Z.lor (Z.shiftl 1 3) 0x00370000) ;;
      clock_wait_sr 17
  | CRYSTAL_OSCILLATOR =>
      let* reg := rd32 MOR in
      let reg := Z.land reg (Z.lnot (Z.lor (Z.shiftl 0xFF 8) (Z.shiftl 1 1))) in
      let reg := Z.lor reg (Z.lor (Z.lor 1 (Z.shiftl startup_time 8)) 0x00370000) in
      wr32 MOR reg ;;
      clock_wait_sr 0
  end.

Definition clock_source_disable (source : clock_source) : M D Z :=
  let* r := rd32 MOR in
  if Z.land (Z.shiftr r 24) 1 =? source_val source then ret 0 else
  let* reg := rd32 MOR in
  let reg := Z.lor reg 0x00370000 in
  let reg := match source with
             | RC_OSCILLCATOR => Z.land reg (Z.lnot (Z.shiftl 1 3))
             | CRYSTAL_OSCILLATOR => Z.land reg (Z.lnot 1)
             end in
  wr32 MOR reg ;;
  ret 1.

(** The panic of this function is an endless loop. *)
Definition rc_frequency_select (frec : rc_frecuency) : M D unit :=
  let* sr := rd32 CLOCK_SR in
  if Z.land sr (Z.shiftl 1 17) =? 0 then hang else
  let* reg := rd32 MOR in
  let reg := Z.land reg (Z.lnot (Z.shiftl 7 4)) in
  let reg := Z.lor reg (Z.shiftl (frec_val frec) 4) in
  wr32 MOR reg ;;
  clock_wait_sr 17.

Definition main_clock_select (source : clock_source) : M D unit :=
  let* reg := rd32 MOR in
  let reg := Z.land reg (Z.lnot (Z.shiftl 1 24)) in
  let reg := match source with
             | CRYSTAL_OSCILLATOR => Z.lor reg (Z.shiftl 1 24)
             | RC_OSCILLCATOR => reg
             end in
  wr32 MOR (Z.lor reg 0x00370000) ;;
  clock_wait_sr 16.

Definition plla_init (div mul startup_time : Z) : M D unit :=
  wr32 PLLA (Z.lor (Z.lor (Z.lor (Z.shiftl 1 29) (Z.shiftl (Z.land (mul - 1) 0x7FF) 16)) div)
                   (Z.shiftl (Z.land startup_time 63) 8)) ;;
  clock_wait_sr 1.

Definition plla_disable : M D Z :=
  let* r := rd32 MCKR in
  if Z.land r 3 =? 2 then ret 0 else
  wr32 PLLA (Z.lor (Z.shiftl 1 29) (Z.shiftl 63 8)) ;;
  ret 1.

(** One field of the master clock register: read, replace the field, write, wait
    for the clock to be stable. *)
Definition mckr_field (mask shift v : Z) : M D unit :=
  let* reg := rd32 MCKR in
  let reg := Z.land reg (Z.lnot (Z.shiftl mask shift)) in
  let reg := Z.lor reg (Z.shiftl v shift) in
  wr32 MCKR reg ;;
  clock_wait_sr 3.

Definition master_clock_select (net : clock_net) (presc : master_presc) (div : master_divider) : M D unit :=
  match net with
  | SLOW_CLOCK | MAIN_CLOCK =>
      mckr_field 3 0 (net_val net) ;;
      mckr_field 7 4 (presc_val presc) ;;
      mckr_field 3 8 (div_val div)
  | _ =>
      mckr_field 7 4 (presc_val presc) ;;
      mckr_field 3 8 (div_val div) ;;
      mckr_field 3 0 (net_val net)
  end.

Definition master_clock_verify : M D Z :=
  let* r := rd32 CLOCK_SR in ret (u8 (Z.land r (Z.shiftl 1 3))).

Definition peripheral_clock_enable (per_id : Z) : M D unit :=
  if per_id <? 32 then wr32 PCER0 (Z.shiftl 1 per_id)
  else if per_id <? 64 then wr32 PCER1 (Z.shiftl 1 (per_id - 32))
  else wr32 PCR (Z.lor (Z.lor (Z.land per_id 127) (Z.shiftl 1 12)) (Z.shiftl 1 28)).

Definition peripheral_clock_disable (per_id : Z) : M D unit :=
  if per_id <? 32 then wr32 PCDR0 (Z.shiftl 1 per_id)
  else if per_id <? 64 then wr32 PCDR1 (Z.shiftl 1 (per_id - 32))
  else wr32 PCR (Z.lor (Z.land per_id 127) (Z.shiftl 1 12)).

(** The programmable clocks are numbered 0 to 7. *)
Definition pck_init (pck : Z) (net : clock_net) (presc : Z) : M D unit :=
  wr32 (PCK pck) (Z.lor (Z.shiftl presc 4) (net_val net)).
Definition pck_enable (pck : Z) : M D unit := wr32 SCER (Z.shiftl 1 (8 + pck)).
Definition pck_disable (pck : Z) : M D unit := wr32 SCDR (Z.shiftl 1 (8 + pck)).

Definition clock_tree_reset : M D unit :=
  master_clock_select MAIN_CLOCK MASTER_PRESC_OFF MASTER_DIV_OFF ;;
  plla_disable ;;
  main_clock_select RC_OSCILLCATOR ;;
  rc_frequency_select RC_12_MHz ;;
  clock_source_disable CRYSTAL_OSCILLATOR ;;
  ret tt.

Definition upll_init (mult : upll_mult) : M D unit :=
  wr32 CKTRIM (mult_val mult) ;;
  wr32 UCKR (Z.lor (Z.shiftl 15 20) (Z.shiftl 1 16)) ;;
  clock_wait_sr 6 ;;
  mask32 MCKR (Z.lnot (Z.shiftl 1 13)) ;;
  clock_wait_sr 3 ;;
  wr32 CLOCK_USB (Z.lor 1 (Z.shiftl 9 8)) ;;
  wr32 SCER (Z.shiftl 1 5) ;;
  wait_bits fuel SCSR (Z.shiftl 1 5).
End Clock.
