(* ===== verification/ClockTheorems.v ===== *)
(** * The clocks of the running kernel

    What the clock registers mean, and that the start-up sequence of kernel_entry.c reaches 300
    MHz for the processor and 150 MHz for the bus, without a higher frequency on the way. *)

From Stdlib Require Import Btauto.
From S2P Require Import Prelude Hardware Clock.

(** ** Fields of registers *)

(** The field of [w] bits at [sh]. *)
Definition fld (r sh w : Z) : Z := Z.land (Z.shiftr r sh) (2 ^ w - 1).

Lemma fld_bit r sh w i : 0 ≤ sh → 0 ≤ w → 0 ≤ i → Z.testbit (fld r sh w) i = Z.testbit r (sh + i) && (i <? w).
Proof.
  intros Hs Hw Hi. unfold fld. rewrite Z.land_spec, Z.shiftr_spec by done. rewrite Z.add_comm. f_equal.
  rewrite <- Z.sub_1_r, <- Z.ones_equiv || rewrite Z.sub_1_r, <- Z.ones_equiv. apply Z.testbit_ones_nonneg; lia.
Qed.
Lemma fld_u32 r sh w : 0 ≤ sh → 0 ≤ w → sh + w ≤ 32 → fld (u32 r) sh w = fld r sh w.
Proof.
  intros Hs Hw Hb. apply Z.bits_inj'. intros i Hi. rewrite !fld_bit by done. destruct (Z.ltb_spec i w); [|by rewrite !andb_false_r].
  rewrite !andb_true_r. unfold u32. change 4294967296 with (2 ^ 32). apply Z.mod_pow2_bits_low. lia.
Qed.
(** Writing [v] into the field [sh], [w] and reading the same and another field. *)
Definition set_fld (r sh w v : Z) : Z := Z.lor (Z.land r (Z.lnot (Z.shiftl (2 ^ w - 1) sh))) (Z.shiftl v sh).
Lemma fld_set r sh w v : 0 ≤ sh → 0 ≤ w → 0 ≤ v < 2 ^ w → fld (set_fld r sh w v) sh w = v.
Proof.
  intros Hs Hw Hv. apply Z.bits_inj'. intros i Hi. rewrite fld_bit by done. unfold set_fld.
  rewrite Z.lor_spec, Z.land_spec, Z.lnot_spec, !Z.shiftl_spec by lia. replace (sh + i - sh) with i by lia.
  rewrite Z.sub_1_r, <- Z.ones_equiv, Z.testbit_ones_nonneg by lia. destruct (Z.ltb_spec i w).
  - rewrite andb_true_r. by rewrite andb_false_r.
  - rewrite andb_false_r. rewrite <- (Z.mod_small v (2 ^ w)) by done. by rewrite Z.mod_pow2_bits_high by lia.
Qed.
Lemma fld_set_ne r sh w v sh' w' : 0 ≤ sh → 0 ≤ w → 0 ≤ v < 2 ^ w → 0 ≤ sh' → 0 ≤ w' → sh + w ≤ sh' ∨ sh' + w' ≤ sh →
  fld (set_fld r sh w v) sh' w' = fld r sh' w'.
Proof.
  intros Hs Hw Hv Hs' Hw' Hd. apply Z.bits_inj'. intros i Hi. rewrite !fld_bit by done. unfold set_fld.
  destruct (Z.ltb_spec i w'); [|by rewrite !andb_false_r]. rewrite !andb_true_r.
  rewrite Z.lor_spec, Z.land_spec, Z.lnot_spec, !Z.shiftl_spec by lia.
  assert (Z.testbit (2 ^ w - 1) (sh' + i - sh) = false ∧ Z.testbit v (sh' + i - sh) = false) as [-> ->].
  { destruct (Z.ltb_spec (sh' + i) sh); [by rewrite !Z.testbit_neg_r by lia|].
    rewrite Z.sub_1_r, <- Z.ones_equiv, Z.testbit_ones_nonneg by lia. split; [by apply Z.ltb_ge; lia|].
    rewrite <- (Z.mod_small v (2 ^ w)) by done. rewrite Z.mod_pow2_bits_high by lia. done. }
  by rewrite andb_true_r, orb_false_r.
Qed.

(** ** What the registers mean *)

(** Frequencies in Hz.  The crystal of the board has 12 MHz. *)
Definition CRYSTAL : Z := 12000000.
Definition rc_freq (mor : Z) : Z :=
  match fld mor 4 3 with 0 => 4000000 | 1 => 8000000 | _ => 12000000 end.
Definition main_freq (mor : Z) : Z := if fld mor 24 1 =? 1 then CRYSTAL else rc_freq mor.
Definition plla_freq (mor plla : Z) : Z :=
  if fld plla 0 8 =? 0 then 0 else main_freq mor * (fld plla 16 11 + 1) / fld plla 0 8.
(** The source of the master clock; the fourth one, the USB clock divided by two, has 240 MHz. *)
Definition source_freq (mor plla mckr : Z) : Z :=
  match fld mckr 0 2 with 0 => 32768 | 1 => main_freq mor | 2 => plla_freq mor plla | _ => 240000000 end.
Definition presc_of (mckr : Z) : Z := if fld mckr 4 3 =? 7 then 3 else 2 ^ fld mckr 4 3.
Definition divider_of (mckr : Z) : Z :=
  match fld mckr 8 2 with 0 => 1 | 1 => 2 | 2 => 4 | _ => 3 end.
Definition cpu_freq (r : Z → Z) : Z := source_freq (r MOR) (r PLLA) (r MCKR) / presc_of (r MCKR).
Definition bus_freq (r : Z → Z) : Z := cpu_freq r / divider_of (r MCKR).

(** The limits of the chip. *)
Definition in_limits (r : Z → Z) : Prop := cpu_freq r ≤ 300000000 ∧ bus_freq r ≤ 150000000.

(** ** The start-up sequence *)

(** The part of [kernel_entry] that sets the clocks. *)
Definition clock_start {D : Type} `{Mmio D} (fuel : nat) : M D unit :=
  clock_source_enable fuel CRYSTAL_OSCILLATOR 0xFF ;;
  main_clock_select fuel CRYSTAL_OSCILLATOR ;;
  plla_init fuel 1 25 0xFF ;;
  master_clock_select fuel PLLA_CLOCK MASTER_PRESC_OFF MASTER_DIV_2.

(** On plain registers.  [ready] says that the status register reports every clock as
    stable, and [runs c P] that the program returns and every state on the way, after each of
    its writes, satisfies [P]. *)
Definition ready (b : bank) : Prop := ∀ bit, bit ∈ [0; 1; 3; 16] → Z.testbit (bank_get CLOCK_SR b) bit = true.
Definition view (b : bank) (a : Z) : Z := bank_get a b.
Fixpoint replay (l : list io_event) (b : bank) : bank :=
  match l with
  | [] => b
  | IoWrite a v :: l => replay l (io_write a v b)
  | IoBarrier x :: l => replay l (io_barrier x b)
  end.
Definition stays (P : bank → Prop) (l : list io_event) (b : bank) : Prop := ∀ k, P (replay (take k l) b).
Definition runs {A} (c : M bank A) (b : bank) (l : list io_event) : Prop := ∃ x, c b = Ret (x, replay l b).

Lemma replay_app l1 l2 b : replay (l1 ++ l2) b = replay l2 (replay l1 b).
Proof. revert b; induction l1 as [|[a v|x] l1 IH]; intros b; cbn; auto. Qed.
Lemma stays_app P l1 l2 b : stays P l1 b → stays P l2 (replay l1 b) → stays P (l1 ++ l2) b.
Proof.
  intros H1 H2 k. rewrite take_app, replay_app. destruct (Nat.le_gt_cases k (length l1)) as [Hk|Hk].
  - replace (k - length l1)%nat with 0%nat by lia. rewrite take_0. apply H1.
  - rewrite (take_ge l1) by lia. apply H2.
Qed.
Lemma stays_one (P : bank → Prop) a v b : P b → P (io_write a v b) → stays P [IoWrite a v] b.
Proof. intros H1 H2 [|[|k]]; cbn; auto. Qed.
Lemma stays_nil (P : bank → Prop) b : P b → stays P [] b.
Proof. intros H [|k]; auto. Qed.

Section Start.
Variable fuel : nat.
Hypothesis Hfuel : (1 ≤ fuel)%nat.

Lemma wait_sr bit (b : bank) : ready b → bit ∈ [0; 1; 3; 16] → clock_wait_sr fuel bit b = Ret (tt, b).
Proof.
  intros Hr Hb. unfold clock_wait_sr. destruct fuel as [|n]; [lia|]. cbn [wait_bits]. rewrite (bind_Ret _ _ _ _ _ (rd32_bank _ _)).
  assert (0 ≤ bit) by (clear -Hb; repeat (apply elem_of_cons in Hb as [->|Hb]; [lia|]); by apply elem_of_nil in Hb).
  rewrite land_bit by done. by rewrite (Hr bit Hb).
Qed.

(** One field of the master clock register. *)
Lemma mckr_runs mask w shift v (b : bank) :
  mask = 2 ^ w - 1 → ready b →
  mckr_field fuel mask shift v b = Ret (tt, bank_set MCKR (set_fld (view b MCKR) shift w v) b).
Proof.
  intros -> Hr. unfold mckr_field. rewrite (bind_Ret _ _ _ _ _ (rd32_bank _ _)).
  rewrite (bind_Ret _ _ _ _ _ (wr32_bank _ _ _)). rewrite wait_sr; [done| |set_solver].
  intros bit Hb. rewrite bank_get_set_ne by done. by apply Hr.
Qed.
End Start.

Lemma view_set a v b : view (bank_set a v b) a = u32 v.
Proof. apply bank_get_set. Qed.
Lemma view_set_ne a a' v b : a ≠ a' → view (bank_set a' v b) a = view b a.
Proof. apply bank_get_set_ne. Qed.
Lemma ready_set a v b : a ≠ CLOCK_SR → ready b → ready (bank_set a v b).
Proof. intros Ha Hr bit Hb. rewrite bank_get_set_ne by congruence. by apply Hr. Qed.

(** Running from the main or the slow clock is within the limits, whatever the other registers hold. *)
Lemma fld_range r sh w : 0 ≤ w → 0 ≤ fld r sh w < 2 ^ w.
Proof. intros Hw. unfold fld. rewrite land_mask by done. apply Z.mod_pos_bound. lia. Qed.
Lemma main_range mor : 0 ≤ main_freq mor ≤ 12000000.
Proof. unfold main_freq, rc_freq, CRYSTAL. repeat case_match; lia. Qed.
Lemma divider_pos mckr : 1 ≤ divider_of mckr.
Proof. unfold divider_of. repeat case_match; lia. Qed.
Lemma presc_pos mckr : 1 ≤ presc_of mckr.
Proof.
  unfold presc_of. case_match; [lia|]. pose proof (fld_range mckr 4 3 ltac:(lia)).
  pose proof (Z.pow_pos_nonneg 2 (fld mckr 4 3)). lia.
Qed.
Lemma slow_in_limits (r : Z → Z) : fld (r MCKR) 0 2 ≤ 1 → in_limits r.
Proof.
  intros Hc. pose proof (fld_range (r MCKR) 0 2 ltac:(lia)). pose proof (main_range (r MOR)).
  pose proof (presc_pos (r MCKR)). pose proof (divider_pos (r MCKR)).
  assert (0 ≤ source_freq (r MOR) (r PLLA) (r MCKR) ≤ 12000000) as Hs.
  { unfold source_freq. assert (fld (r MCKR) 0 2 = 0 ∨ fld (r MCKR) 0 2 = 1) as [-> | ->] by lia; lia. }
  unfold in_limits, bus_freq, cpu_freq.
  assert (∀ x y, 0 ≤ x ≤ 12000000 → 1 ≤ y → 0 ≤ x / y ≤ 12000000) as Hd.
  { intros x y Hx Hy. split; [apply Z.div_pos; lia|]. apply Z.div_le_upper_bound; nia. }
  pose proof (Hd _ _ Hs (presc_pos (r MCKR))) as Hcpu. pose proof (Hd _ _ Hcpu (divider_pos (r MCKR))). lia.
Qed.

(** ** Sequencing *)

Lemma runs_bind {A B} (c : M bank A) (f : A → M bank B) b l1 l2 :
  runs c b l1 → (∀ x, runs (f x) (replay l1 b) l2) → runs (bind c f) b (l1 ++ l2).
Proof.
  intros [x E1] Hf. destruct (Hf x) as [y E2]. exists y. by rewrite (bind_Ret _ _ _ _ _ E1), replay_app.
Qed.
Lemma runs_set (c : M bank unit) a v b : c b = Ret (tt, bank_set a v b) → runs c b [IoWrite a (u32 v)].
Proof. intros E. by exists tt. Qed.
(** A write after which the master clock is still the main or the slow clock. *)
Definition slow_state (s : bank) : Prop := ready s ∧ fld (view s MCKR) 0 2 ≤ 1.
Lemma slow_write a v b :
  a ∈ [MOR; PLLA] → slow_state b → slow_state (bank_set a v b) ∧ stays (λ s, in_limits (view s)) [IoWrite a (u32 v)] b.
Proof.
  intros Ha [Hr Hc]. assert (a ≠ CLOCK_SR ∧ MCKR ≠ a) as [H1 H2].
  { repeat (apply elem_of_cons in Ha as [->|Ha]; [done|]). by apply elem_of_nil in Ha. }
  assert (slow_state (bank_set a v b)) as Hs by (split; [by apply ready_set|by rewrite view_set_ne]).
  split; [done|]. apply stays_one; [by apply slow_in_limits|apply (slow_in_limits (view (bank_set a v b))), Hs].
Qed.
Lemma slow_field b sh w v :
  2 ≤ sh → 0 ≤ w → 0 ≤ v < 2 ^ w → slow_state b →
  let b' := bank_set MCKR (set_fld (view b MCKR) sh w v) b in
  slow_state b' ∧ stays (λ s, in_limits (view s)) [IoWrite MCKR (u32 (set_fld (view b MCKR) sh w v))] b.
Proof.
  intros Hs Hw Hv [Hr Hc] b'. assert (slow_state b') as Hs'.
  { split; [by apply ready_set|]. unfold b'. rewrite view_set, fld_u32, fld_set_ne by lia. done. }
  split; [done|]. apply stays_one; [by apply slow_in_limits|apply (slow_in_limits (view b')), Hs'].
Qed.

(** The registers the sequence ends with. *)
Definition plla_300 : Z := Z.lor (Z.lor (Z.lor (Z.shiftl 1 29) (Z.shiftl (Z.land (25 - 1) 0x7FF) 16)) 1) (Z.shiftl (Z.land 0xFF 63) 8).
Lemma end_freq (r : Z → Z) m :
  fld (r MOR) 24 1 = 1 → r PLLA = u32 plla_300 →
  r MCKR = u32 (set_fld (u32 (set_fld (u32 (set_fld m 4 3 0)) 8 2 1)) 0 2 2) →
  cpu_freq r = 300000000 ∧ bus_freq r = 150000000.
Proof.
  intros Em Ep E.
  assert (∀ r sh w v, 0 ≤ sh → 0 ≤ w → sh + w ≤ 32 → 0 ≤ v < 2 ^ w → fld (u32 (set_fld r sh w v)) sh w = v) as Hset.
  { intros q sh w v H1 H2 H3 H4. by rewrite fld_u32, fld_set by lia. }
  assert (fld (r MCKR) 0 2 = 2 ∧ fld (r MCKR) 4 3 = 0 ∧ fld (r MCKR) 8 2 = 1) as (F0 & F4 & F8).
  { rewrite E. split_and!; [by apply Hset|..].
    - rewrite fld_u32, fld_set_ne, fld_u32, fld_set_ne by lia. by apply Hset.
    - rewrite fld_u32, fld_set_ne by lia. by apply Hset. }
  assert (main_freq (r MOR) = CRYSTAL) as Hm by (unfold main_freq; by rewrite Em).
  unfold bus_freq, cpu_freq, source_freq, presc_of, divider_of, plla_freq. rewrite F0, F4, F8, Hm, Ep. by split; vm_compute.
Qed.

(** The whole sequence, which only writes to three registers. *)
Definition clock_write (e : io_event) : Prop := match e with IoWrite a _ => a ∈ [MOR; PLLA; MCKR] | IoBarrier _ => False end.
Lemma clock_start_run fuel (b : bank) :
  (1 ≤ fuel)%nat → ready b → fld (view b MCKR) 0 2 ≤ 1 →
  ∃ l, runs (clock_start fuel) b l ∧ stays (λ s, in_limits (view s)) l b ∧ Forall clock_write l ∧
    cpu_freq (view (replay l b)) = 300000000 ∧ bus_freq (view (replay l b)) = 150000000.
Proof.
  intros Hf Hr Hc. assert (slow_state b) as S0 by done.
  set (v1 := Z.lor (Z.land (view b MOR) (Z.lnot (Z.lor (Z.shiftl 0xFF 8) (Z.shiftl 1 1)))) (Z.lor (Z.lor 1 (Z.shiftl 0xFF 8)) 0x00370000)).
  set (b1 := bank_set MOR v1 b). destruct (slow_write MOR v1 b ltac:(set_solver) S0) as [S1 T1]. fold b1 in S1.
  set (v2 := Z.lor (set_fld (view b1 MOR) 24 1 1) 0x00370000). set (b2 := bank_set MOR v2 b1).
  destruct (slow_write MOR v2 b1 ltac:(set_solver) S1) as [S2 T2]. fold b2 in S2.
  set (v3 := Z.lor (Z.lor (Z.lor (Z.shiftl 1 29) (Z.shiftl (Z.land (25 - 1) 0x7FF) 16)) 1) (Z.shiftl (Z.land 0xFF 63) 8)).
  set (b3 := bank_set PLLA v3 b2). destruct (slow_write PLLA v3 b2 ltac:(set_solver) S2) as [S3 T3]. fold b3 in S3.
  destruct (slow_field b3 4 3 0 ltac:(lia) ltac:(lia) ltac:(lia) S3) as [S4 T4]. set (b4 := bank_set MCKR _ b3) in *.
  destruct (slow_field b4 8 2 1 ltac:(lia) ltac:(lia) ltac:(lia) S4) as [S5 T5]. set (b5 := bank_set MCKR _ b4) in *.
  set (b6 := bank_set MCKR (set_fld (view b5 MCKR) 0 2 2) b5).
  assert (∀ c a v s, slow_state (bank_set a v s) → (∀ b0, ready b0 → clock_wait_sr fuel c b0 = Ret (tt, b0)) →
    runs (wr32 a v ;; clock_wait_sr fuel c) s [IoWrite a (u32 v)]) as Hw.
  { intros c a v s [Hs _] Hwait. apply runs_set. rewrite (bind_Ret _ _ _ _ _ (wr32_bank _ _ _)). by apply Hwait. }
  assert (cpu_freq (view b6) = 300000000 ∧ bus_freq (view b6) = 150000000) as Hend.
  { apply end_freq with (view b3 MCKR).
    - unfold b6, b5, b4, b3, b2. rewrite !view_set_ne by done. rewrite view_set, fld_u32 by lia.
      unfold v2, fld. rewrite Z.shiftr_lor, Z.lor_0_r. by apply (fld_set (view b1 MOR) 24 1 1).
    - unfold b6, b5, b4, b3. rewrite !view_set_ne by done. by rewrite view_set.
    - unfold b6. rewrite view_set. unfold b5. rewrite view_set. unfold b4. by rewrite view_set. }
  exists ([IoWrite MOR (u32 v1)] ++ [IoWrite MOR (u32 v2)] ++ [IoWrite PLLA (u32 v3)] ++ [IoWrite MCKR (u32 (set_fld (view b3 MCKR) 4 3 0))] ++
    [IoWrite MCKR (u32 (set_fld (view b4 MCKR) 8 2 1))] ++ [IoWrite MCKR (u32 (set_fld (view b5 MCKR) 0 2 2))]).
  split; [|split; [|split; [repeat constructor|exact Hend]]].
  - unfold clock_start. apply runs_bind.
    { unfold clock_source_enable. apply runs_set. rewrite (bind_Ret _ _ _ _ _ (rd32_bank _ _)), (bind_Ret _ _ _ _ _ (wr32_bank _ _ _)).
      apply wait_sr; [done|apply S1|set_solver]. }
    intros _. change (replay [IoWrite MOR (u32 v1)] b) with b1. apply runs_bind.
    { unfold main_clock_select. apply runs_set. rewrite (bind_Ret _ _ _ _ _ (rd32_bank _ _)), (bind_Ret _ _ _ _ _ (wr32_bank _ _ _)).
      apply wait_sr; [done|apply S2|set_solver]. }
    intros _. change (replay [IoWrite MOR (u32 v2)] b1) with b2. apply runs_bind.
    { unfold plla_init. apply Hw; [done|]. intros b0 Hb0. apply wait_sr; [done|done|set_solver]. }
    intros _. change (replay [IoWrite PLLA (u32 v3)] b2) with b3. unfold master_clock_select. apply runs_bind.
    { apply runs_set. apply (mckr_runs fuel Hf 7 3 4 0); [done|apply S3]. }
    intros _. apply runs_bind.
    { apply runs_set. apply (mckr_runs fuel Hf 3 2 8 1); [done|apply S4]. }
    intros _. apply runs_set. apply (mckr_runs fuel Hf 3 2 0 2); [done|apply S5].
  - apply stays_app; [done|]. apply stays_app; [done|]. apply stays_app; [done|]. apply stays_app; [done|]. apply stays_app; [done|].
    apply stays_one; [apply (slow_in_limits (view b5)), S5|]. change (in_limits (view b6)). unfold in_limits. lia.
Qed.

(** C36. The clocks: if the crystal, the PLL and the master clock become stable, the sequence of
    [kernel_entry] ends with 300 MHz for the processor and 150 MHz for the bus; it starts from every
    state in which the processor runs from the main or the slow clock, and no write on the
    way takes the processor over 300 MHz or the bus over 150 MHz. *)
Theorem clock_start_300MHz fuel (b : bank) :
  (1 ≤ fuel)%nat → ready b → fld (view b MCKR) 0 2 ≤ 1 →
  ∃ l, runs (clock_start fuel) b l ∧ stays (λ s, in_limits (view s)) l b ∧
    cpu_freq (view (replay l b)) = 300000000 ∧ bus_freq (view (replay l b)) = 150000000.
Proof.
  intros Hf Hr Hc. destruct (clock_start_run fuel b Hf Hr Hc) as (l & R & S & _ & E). by exists l.
Qed.

Definition ex_clock : bank := Bank {[CLOCK_SR := 0xFFFFFFFF; MCKR := 1]} [].
Lemma clock_start_300MHz_witness :
  ∃ l, runs (clock_start 1) ex_clock l ∧ cpu_freq (view (replay l ex_clock)) = 300000000.
Proof.
  destruct (clock_start_300MHz 1 ex_clock) as (l & R & _ & E & _).
  - lia.
  - intros bit Hb. repeat (apply elem_of_cons in Hb as [->|Hb]; [reflexivity|]). by apply elem_of_nil in Hb.
  - vm_compute. discriminate.
  - exists l. split; [exact R|exact E].
Defined.
