(* ===== verification/Drivers.v ===== *)
(** * Small drivers (drivers/watchdog.c, systick.c, matrix.c, dram.c, trand.c, generic/prand.c)

    The watchdog, the system timer, the bus matrix, the SDRAM controller and the random number
    generators of the kernel. *)

From S2P Require Import Prelude Hardware Gpio Clock.

Definition WATCHDOG_MR : Z := WATCHDOG + offset_of watchdog_reg "MR".
Definition SYST_CSR : Z := SYSTICK + offset_of systick_reg "CSR".
Definition SYST_RVR : Z := SYSTICK + offset_of systick_reg "RVR".
Definition SYST_CVR : Z := SYSTICK + offset_of systick_reg "CVR".
Definition SMCNFCS : Z := MATRIX + offset_of matrix_reg "SMCNFCS".
Definition D_REG (name : string) : Z := DRAM + offset_of dram_reg name.
Definition TRAND_CR : Z := TRAND + offset_of trand_reg "CR".
Definition TRAND_ISR : Z := TRAND + offset_of trand_reg "ISR".
Definition TRAND_ODATA : Z := TRAND + offset_of trand_reg "ODATA".

Inductive cs1_select := CS1_SDRAM | CS1_NAND_FLASH | CS1_NONE.
Inductive dram_mode :=
  | DRAM_MODE_NORMAL | DRAM_MODE_NOP | DRAM_MODE_PRECHARGE | DRAM_MODE_LOAD_MR | DRAM_MODE_REFRESH
  | DRAM_MODE_LOAD_EXT_MR | DRAM_MODE_POWERDOWN.
Definition mode_val (m : dram_mode) : Z :=
  match m with
  | DRAM_MODE_NORMAL => 0 | DRAM_MODE_NOP => 1 | DRAM_MODE_PRECHARGE => 2 | DRAM_MODE_LOAD_MR => 3
  | DRAM_MODE_REFRESH => 4 | DRAM_MODE_LOAD_EXT_MR => 5 | DRAM_MODE_POWERDOWN => 6
  end.

Section Drivers.
Context {D : Type} `{Mmio D}.

(** ** Watchdog and system timer *)

Definition watchdog_disable : M D unit := wr32 WATCHDOG_MR (Z.shiftl 1 15).

Definition systick_set_rvr (value : Z) : M D unit := wr32 SYST_RVR (Z.land 0xFFFFFF value).
Definition systick_set_cvr (value : Z) : M D unit := wr32 SYST_CVR (Z.land 0xFFFFFF value).
Definition systick_get_cvr : M D Z := rd32 SYST_CVR.
Definition systick_enable (irq_enable : Z) : M D unit :=
  wr32 SYST_CSR (if negb (irq_enable =? 0) then Z.lor 5 (Z.shiftl 1 1) else 5).
Definition systick_disable : M D unit := wr32 SYST_CSR 0.

(** ** Bus matrix *)

Definition matrix_cs_init (cs1 : cs1_select) (assign_cs2_flash assign_cs3_flash assign_cs0_flash : Z) : M D unit :=
  let tmp_reg := Z.lor (Z.lor (Z.land 1 assign_cs0_flash) (Z.shiftl (Z.land 1 assign_cs2_flash) 2))
                   (Z.shiftl (Z.land 1 assign_cs3_flash) 3) in
  let tmp_reg := match cs1 with
                 | CS1_SDRAM => Z.lor tmp_reg (Z.shiftl 1 4)
                 | CS1_NAND_FLASH => Z.lor tmp_reg 1
                 | CS1_NONE => tmp_reg
                 end in
  wr32 SMCNFCS tmp_reg.

(** ** SDRAM

    The pauses are counting loops without other effect and are left out. *)

Definition dram_set_mode (mode : dram_mode) : M D unit := wr32 (D_REG "MR") (mode_val mode).
(** A 16-bit write to the memory at 0x70000000. *)
Definition dram_write (offset value : Z) : M D unit := modify (io_write (0x70000000 + offset) (u16 value)).
Definition dram_refresh (value : Z) : M D unit := dram_set_mode DRAM_MODE_REFRESH ;; dram_write 0 value.

Fixpoint set_functions (l : list (Z * Z * gpio_func)) : M D unit :=
  match l with [] => ret tt | (port, pin, f) :: l => gpio_set_function port pin f ;; set_functions l end.
Definition dram_pins : list (Z * Z * gpio_func) := [
  (GPIOC, 20, GPIO_FUNC_A); (GPIOC, 21, GPIO_FUNC_A); (GPIOC, 22, GPIO_FUNC_A); (GPIOC, 23, GPIO_FUNC_A);
  (GPIOC, 24, GPIO_FUNC_A); (GPIOC, 25, GPIO_FUNC_A); (GPIOC, 26, GPIO_FUNC_A); (GPIOC, 27, GPIO_FUNC_A);
  (GPIOC, 28, GPIO_FUNC_A); (GPIOC, 29, GPIO_FUNC_A);
  (GPIOA, 20, GPIO_FUNC_C); (GPIOD, 17, GPIO_FUNC_C); (GPIOC, 0, GPIO_FUNC_A); (GPIOC, 1, GPIO_FUNC_A);
  (GPIOC, 2, GPIO_FUNC_A); (GPIOC, 3, GPIO_FUNC_A); (GPIOC, 4, GPIO_FUNC_A); (GPIOC, 5, GPIO_FUNC_A);
  (GPIOC, 6, GPIO_FUNC_A); (GPIOC, 7, GPIO_FUNC_A);
  (GPIOE, 0, GPIO_FUNC_A); (GPIOE, 1, GPIO_FUNC_A); (GPIOE, 2, GPIO_FUNC_A); (GPIOE, 3, GPIO_FUNC_A);
  (GPIOE, 4, GPIO_FUNC_A); (GPIOE, 5, GPIO_FUNC_A);
  (GPIOA, 15, GPIO_FUNC_A); (GPIOA, 16, GPIO_FUNC_A); (GPIOC, 18, GPIO_FUNC_A);
  (GPIOD, 15, GPIO_FUNC_C); (GPIOD, 16, GPIO_FUNC_C);
  (GPIOD, 13, GPIO_FUNC_C); (GPIOD, 23, GPIO_FUNC_C); (GPIOD, 14, GPIO_FUNC_C); (GPIOC, 15, GPIO_FUNC_A);
  (GPIOD, 29, GPIO_FUNC_C)].

(** The refresh timer: a row every 15.625 us of the 150 MHz bus clock. *)
Definition refresh_count : Z := u32 (150000000 / 1000 * 15625) / 1000000.

Definition dram_init : M D unit :=
  peripheral_clock_enable 62 ;;
  set_functions dram_pins ;;
  matrix_cs_init CS1_SDRAM 0 0 0 ;;
  wr32 (D_REG "CR") 0xF955D5E0 ;;
  wr32 (D_REG "CFR1") 0x102 ;;
  wr32 (D_REG "LPR") 0 ;;
  wr32 (D_REG "MDR") 0 ;;
  dram_set_mode DRAM_MODE_NOP ;;
  dram_write 0 0 ;;
  dram_set_mode DRAM_MODE_PRECHARGE ;;
  dram_write 0 0 ;;
  dram_refresh 1 ;; dram_refresh 2 ;; dram_refresh 3 ;; dram_refresh 4 ;;
  dram_refresh 5 ;; dram_refresh 6 ;; dram_refresh 7 ;; dram_refresh 8 ;;
  dram_set_mode DRAM_MODE_LOAD_MR ;;
  dram_write 0x60 0xFEFA ;;
  dram_set_mode DRAM_MODE_NORMAL ;;
  dram_write 0 0 ;;
  wr32 (D_REG "TR") (Z.land refresh_count 0xFFF).

(** ** Random numbers *)

Definition trand_init : M D unit :=
  peripheral_clock_enable 57 ;; wr32 TRAND_CR (Z.lor 0x524E4700 1).
Definition trand (fuel : nat) : M D Z :=
  wait_bits fuel TRAND_ISR 1 ;; rd32 TRAND_ODATA.
End Drivers.

(** The generator of the C library has a state of its own. *)
Section Prand.
Context {D R : Type} `{Mmio D}.
Variable srand : Z → R → R.
Variable rand : R → Z * R.
Definition prand_init (fuel : nat) : M (D * R) unit :=
  zoom fst (λ d s, (d, s.2)) trand_init ;;
  let* seed := zoom fst (λ d s, (d, s.2)) (trand fuel) in
  modify (λ s, (s.1, srand seed s.2)).
Definition prand : M (D * R) Z := λ s, let '(v, r) := rand s.2 in Ret (u32 v, (s.1, r)).
End Prand.

(** ** The start of the SDRAM

    The commands and the accesses to the memory that [dram_init] makes, on plain registers: the
    sequence the memory's data sheet asks for. *)

(** What the memory sees: a command with the write that triggers it. *)
Definition dram_event (e : io_event) : bool :=
  match e with IoWrite a _ => (a =? D_REG "MR") || (a =? D_REG "TR") || (0x70000000 <=? a) | IoBarrier _ => false end.
Definition dram_command (m : dram_mode) (offset value : Z) : list io_event :=
  [IoWrite (D_REG "MR") (mode_val m); IoWrite (0x70000000 + offset) value].

(** A program that appends to the trace, [l] among what concerns the memory. *)
Definition issues {A} (c : M bank A) (l : list io_event) : Prop :=
  ∀ b, ∃ x b' t, c b = Ret (x, b') ∧ bank_trace b' = bank_trace b ++ t ∧ List.filter dram_event t = l.

Lemma issues_ret {A} (x : A) : issues (ret x) [].
Proof. intros b. exists x, b, []. by rewrite app_nil_r. Qed.
Lemma issues_bind {A B} (c : M bank A) (f : A → M bank B) l1 l2 :
  issues c l1 → (∀ x, issues (f x) l2) → issues (bind c f) (l1 ++ l2).
Proof.
  intros Hc Hf b. destruct (Hc b) as (x & b1 & t1 & E1 & T1 & F1). destruct (Hf x b1) as (y & b2 & t2 & E2 & T2 & F2).
  exists y, b2, (t1 ++ t2). split_and!; [by rewrite (bind_Ret _ _ _ _ _ E1)|by rewrite T2, T1, app_assoc|].
  by rewrite List.filter_app, F1, F2.
Qed.
Lemma issues_write a v : issues (modify (io_write a v)) (List.filter dram_event [IoWrite a v]).
Proof. intros b. by eexists tt, _, [IoWrite a v]. Qed.
Lemma issues_rd a : issues (rd32 a) [].
Proof. intros b. eexists _, b, []. by rewrite app_nil_r. Qed.

(** Registers that do not belong to the SDRAM. *)
Definition elsewhere (a : Z) : Prop := ∀ v, dram_event (IoWrite a v) = false.
Lemma issues_wr a v : elsewhere a → issues (wr32 a v) [].
Proof. intros Ha. pose proof (issues_write a (u32 v)) as Hw. cbn [List.filter] in Hw. by rewrite Ha in Hw. Qed.
Lemma issues_set a v : elsewhere a → issues (set32 a v) [].
Proof. intros Ha. apply (issues_bind _ _ [] []); [apply issues_rd|intros; by apply issues_wr]. Qed.
Lemma issues_mask a v : elsewhere a → issues (mask32 a v) [].
Proof. intros Ha. apply (issues_bind _ _ [] []); [apply issues_rd|intros; by apply issues_wr]. Qed.

Definition gpio_port (p : Z) : Prop := p ∈ [GPIOA; GPIOB; GPIOC; GPIOD; GPIOE].
Lemma gpio_elsewhere p r : gpio_port p → 0 ≤ r < 0x160 → elsewhere (p + r).
Proof.
  intros Hp Hr v. unfold dram_event. change (D_REG "MR") with 0x40084000. change (D_REG "TR") with 0x40084004.
  rewrite !orb_false_iff, !Z.eqb_neq, Z.leb_gt. unfold gpio_port, GPIOA, GPIOB, GPIOC, GPIOD, GPIOE in Hp.
  repeat (apply elem_of_cons in Hp as [->|Hp]; [lia|]). by apply elem_of_nil in Hp.
Qed.

Lemma issues_function p pin f : gpio_port p → issues (gpio_set_function p pin f) [].
Proof.
  intros Hp. assert (∀ r, 0 ≤ offset_of gpio_reg r < 0x160 → elsewhere (p + offset_of gpio_reg r)) as He by (intros; by apply gpio_elsewhere).
  assert (elsewhere CCFG_SYSIO) as Hs by (intros v; reflexivity).
  assert (∀ r v, 0 ≤ offset_of gpio_reg r < 0x160 → issues (select_bit (p + offset_of gpio_reg r) pin v) []) as Hsel.
  { intros r v Hr. unfold select_bit. case_match; [by apply issues_set, He|by apply issues_mask, He]. }
  unfold gpio_set_function. apply (issues_bind _ _ [] []).
  { repeat case_match; try apply issues_ret; by apply issues_set. }
  intros _. assert (issues (select_bit (ABCDSR0 p) pin (Z.land (func_val f) 1) ;; select_bit (ABCDSR1 p) pin (Z.land (func_val f) 2) ;;
    wr32 (PDR p) (pin_bit pin)) []) as Hf.
  { apply (issues_bind _ _ [] []); [apply Hsel; by compute|intros _]. apply (issues_bind _ _ [] []); [apply Hsel; by compute|intros _].
    apply issues_wr, He. by compute. }
  destruct f; try exact Hf. apply issues_wr, He. by compute.
Qed.

Lemma issues_functions l : Forall (λ r, gpio_port r.1.1) l → issues (set_functions l) [].
Proof.
  induction 1 as [|[[p pin] f] l Hp Hl IH]; cbn [set_functions]; [apply issues_ret|].
  apply (issues_bind _ _ [] []); [by apply issues_function|done].
Qed.

Lemma issues_mode m : issues (dram_set_mode m) [IoWrite (D_REG "MR") (mode_val m)].
Proof. pose proof (issues_write (D_REG "MR") (u32 (mode_val m))) as Hw. by destruct m. Qed.
Lemma issues_dram offset v : 0 ≤ offset → 0 ≤ v < 65536 → issues (dram_write offset v) [IoWrite (0x70000000 + offset) v].
Proof.
  intros Ho Hv. pose proof (issues_write (0x70000000 + offset) v) as Hw.
  cbn [List.filter] in Hw. replace (dram_event _) with true in Hw; [unfold dram_write; by rewrite u16_small|].
  unfold dram_event. rewrite (proj2 (Z.leb_le _ _)) by lia. by rewrite orb_true_r.
Qed.
Lemma issues_command m offset v {A} (rest : M bank A) l :
  0 ≤ offset → 0 ≤ v < 65536 → issues rest l →
  issues (dram_set_mode m ;; dram_write offset v ;; rest) (dram_command m offset v ++ l).
Proof.
  intros Ho Hv Hr. apply (issues_bind _ _ [_] (_ :: l)); [apply issues_mode|intros _].
  apply (issues_bind _ _ [_] l); [by apply issues_dram|done].
Qed.
Lemma issues_refresh v {A} (rest : M bank A) l :
  0 ≤ v < 65536 → issues rest l → issues (dram_refresh v ;; rest) (dram_command DRAM_MODE_REFRESH 0 v ++ l).
Proof.
  intros Hv Hr. apply (issues_bind _ _ (dram_command DRAM_MODE_REFRESH 0 v) l); [|done].
  apply (issues_bind _ _ [_] [_]); [apply issues_mode|intros _; by apply issues_dram].
Qed.

(** The SDRAM is started in the order its data sheet asks for, whatever the registers hold before: a NOP,
    precharging all banks, eight refreshes, loading the mode register (through the
    address lines) and normal operation; then the refresh timer is set to 2343 bus
    cycles. *)
Lemma dram_init_sequence :
  issues dram_init (dram_command DRAM_MODE_NOP 0 0 ++ dram_command DRAM_MODE_PRECHARGE 0 0 ++
    mjoin ((λ n, dram_command DRAM_MODE_REFRESH 0 n) <$> [1; 2; 3; 4; 5; 6; 7; 8]) ++
    dram_command DRAM_MODE_LOAD_MR 0x60 0xFEFA ++ dram_command DRAM_MODE_NORMAL 0 0 ++ [IoWrite (D_REG "TR") 2343]).
Proof.
  unfold dram_init. apply (issues_bind _ _ [] _).
  { unfold peripheral_clock_enable. repeat case_match; by apply issues_wr. }
  intros _. apply (issues_bind _ _ [] _).
  { apply issues_functions. apply (bool_decide_unpack _). vm_compute. exact I. }
  intros _. do 5 (apply (issues_bind _ _ [] _); [by apply issues_wr|intros _]).
  do 2 (apply issues_command; [done|done|]).
  do 8 (apply issues_refresh; [done|]). do 2 (apply issues_command; [done|done|]).
  exact (issues_write (D_REG "TR") 2343).
Qed.
