(* ===== verification/Button.v ===== *)
(** * The button (board/button.c, button.h)

    Programs register callbacks on a list; the interrupt of the pin calls those
    whose event fits the level, in the order of the list.  What a callback does is a
    parameter; it works on a state of its own. *)

From S2P Require Import Prelude Hardware Gpio Clock Nvic CList.

Inductive button_event := BUTTON_PRESSED | BUTTON_RELEASED | BUTTON_EVENT.

(** [struct button_callback], without its list node, which is at offset 8. *)
Record button_callback := ButtonCallback { event : button_event; bcallback : Z }.
Definition cb_node (cb : Z) : Z := cb + 8.

Section Button.
Context {D U : Type} `{Mmio D}.

(** The device, the nodes of the list, the callbacks by address, and the state the callbacks work on. *)
Record button := Button { b_hw : D; b_nodes : lstore; b_cbs : gmap Z button_callback; b_user : U }.

(** What calling a function pointer does. *)
Variable run : Z → M U unit.
(** The address of [button_list]. *)
Variable button_list : Z.
Variable fuel : nat.

Definition in_hw {A} (c : M D A) : M button A := zoom b_hw (λ d s, Button d (b_nodes s) (b_cbs s) (b_user s)) c.
Definition in_nodes {A} (c : M lstore A) : M button A := zoom b_nodes (λ l s, Button (b_hw s) l (b_cbs s) (b_user s)) c.
Definition in_user {A} (c : M U A) : M button A := zoom b_user (λ u s, Button (b_hw s) (b_nodes s) (b_cbs s) u) c.
Definition get_cb (cb : Z) : M button button_callback :=
  let* m := gets b_cbs in match m !! cb with Some c => ret c | None => ub end.

Definition button_init : M button unit :=
  in_hw (peripheral_clock_enable 10) ;;
  in_hw (gpio_set_function GPIOA 11 GPIO_FUNC_OFF) ;;
  in_hw (gpio_set_direction GPIOA 11 GPIO_INPUT) ;;
  in_hw (gpio_set_pull GPIOA 11 GPIO_PULL_UP) ;;
  in_hw (gpio_interrupt_enable GPIOA 11 GPIO_EDGE) ;;
  in_hw (gpio_set_filter GPIOA 11 GPIO_DEBOUNCE_FILTER 10000) ;;
  in_hw (nvic_enable 10) ;;
  in_nodes (list_init button_list).

Definition button_add_callback (handler : Z) : M button unit :=
  in_nodes (list_add_first (cb_node handler) button_list).

(** [continue] for the events that do not fit the level of the pin. *)
Definition skips (e : button_event) (pin_level : Z) : bool :=
  match e with
  | BUTTON_PRESSED => pin_level =? 1
  | BUTTON_RELEASED => pin_level =? 0
  | BUTTON_EVENT => false
  end.

Fixpoint callback_loop (n : nat) (node pin_level : Z) : M button unit :=
  match n with
  | O => hang
  | S n =>
      if node =? button_list then ret tt else
      let* cb := get_cb (node - 8) in
      (if skips (event cb) pin_level then ret tt else in_user (run (bcallback cb))) ;;
      let* x := in_nodes (lget node) in
      callback_loop n (l_next x) pin_level
  end.

Definition gpioa_exception : M button unit :=
  in_hw (gpio_get_interrupt_status GPIOA) ;;
  let* r := in_hw (rd32 (PDSR GPIOA)) in
  let pin_level := if negb (Z.land r (Z.shiftl 1 11) =? 0) then 1 else 0 in
  let* l := in_nodes (lget button_list) in
  callback_loop fuel (l_next l) pin_level.
End Button.

(** ** Which callbacks run *)

Section Callbacks.
Context {D U : Type} `{Mmio D}.
Variable run : Z → M U unit.
Variable button_list : Z.

Fixpoint run_all (l : list Z) : M U unit :=
  match l with [] => ret tt | c :: l => run c ;; run_all l end.
(** The callbacks for a level of the pin, in the order of the list. *)
Definition fitting (pin_level : Z) (cbs : list (Z * button_callback)) : list Z :=
  bcallback <$> List.filter (λ c, negb (skips (event c) pin_level)) cbs.*2.
(** The callbacks that are registered, newest first. *)
Record registered (s : button (D := D) (U := U)) (cbs : list (Z * button_callback)) : Prop := {
  rg_ring : ring (b_nodes s) button_list (cb_node <$> cbs.*1);
  rg_cbs p c : (p, c) ∈ cbs → b_cbs s !! p = Some c
}.

(** Running on the user's part of the state. *)
Definition outcome_at (d : D) (s : button (D := D) (U := U)) (o : outcome (unit * U)) : outcome (unit * button (D := D) (U := U)) :=
  match o with
  | Ret (_, u) => Ret (tt, Button d (b_nodes s) (b_cbs s) u)
  | Panic e => Panic e | UB => UB | Hang => Hang
  end.

Lemma callback_loop_runs n pin pre cbs (s : button (D := D) (U := U)) :
  registered s (pre ++ cbs) → (length cbs < n)%nat →
  callback_loop run button_list n (hd button_list (cb_node <$> cbs.*1)) pin s = outcome_at (b_hw s) s (run_all (fitting pin cbs) (b_user s)).
Proof.
  revert n pre s; induction cbs as [|[p c] cbs IH]; intros [|n] pre s [HR HC] Hn; try (cbn in Hn; lia).
  - cbn. rewrite Z.eqb_refl. by destruct s.
  - cbn [fmap list_fmap fst hd callback_loop]. rewrite !fmap_app in HR. cbn [fmap list_fmap fst] in HR.
    assert (cb_node p ≠ button_list) as Hne.
    { destruct HR as [_ [Hl _]%NoDup_cons]. intros E. apply Hl. rewrite <- E. apply elem_of_app. right. by left. }
    rewrite eqb_false by done. replace (cb_node p - 8) with p by (unfold cb_node; lia).
    assert (get_cb p s = Ret (c, s)) as Eg.
    { unfold get_cb, bind, gets. rewrite (HC p c) by (apply elem_of_app; right; by left). done. }
    rewrite (bind_Ret _ _ _ _ _ Eg). unfold fitting. cbn [fmap list_fmap snd List.filter].
    pose proof HR as [Hc _]. rewrite app_comm_cons in Hc. apply cseg_app in Hc as [_ [Hc _]].
    assert (∀ u, let s1 := Button (b_hw s) (b_nodes s) (b_cbs s) u in
      (let* x := in_nodes (lget (cb_node p)) in callback_loop run button_list n (l_next x) pin) s1 =
      outcome_at (b_hw s) s (run_all (fitting pin cbs) u)) as Hrest.
    { intros u s1. rewrite (bind_Ret _ _ s1 (LNode (hd button_list (cb_node <$> cbs.*1)) (lastl button_list (button_list :: (cb_node <$> pre.*1)))) s1).
      - cbn [l_next]. apply (IH n (pre ++ [(p, c)]) s1); [|cbn in Hn; lia]. constructor.
        + rewrite !fmap_app. cbn [fmap list_fmap fst]. rewrite <- !app_assoc. exact HR.
        + intros q x Hq. apply HC. rewrite <- app_assoc in Hq. exact Hq.
      - unfold in_nodes, zoom, lget. cbn [b_nodes s1]. rewrite Hc. by destruct s. }
    destruct (skips (event c) pin); cbn [negb].
    + rewrite bind_ret. pose proof (Hrest (b_user s)) as Hr. destruct s. exact Hr.
    + cbn [fmap list_fmap run_all]. unfold bind at 1. unfold in_user, zoom. unfold bind at 2.
      destruct (run (bcallback c) (b_user s)) as [[[] u]| | |]; first [done|apply Hrest].
Qed.

(** The button: a program that registers a callback puts it in front of those already registered, and
    the interrupt of the pin calls, in this order, exactly the callbacks whose event fits the level of the pin (those
    for pressing when it is low, those for releasing when it is high, the others always), reads the two
    registers of the port once each, leaves the list as it is, and ends the way the callbacks
    end. *)
Theorem button_calls fuel (s : button (D := D) (U := U)) cbs :
  registered s cbs →
  ((length cbs < fuel)%nat →
    let d1 := (io_read (GPIOA + offset_of gpio_reg "ISR") (b_hw s)).2 in
    let v := (io_read (PDSR GPIOA) d1).1 in
    gpioa_exception run button_list fuel s =
      outcome_at (io_read (PDSR GPIOA) d1).2 s (run_all (fitting (if Z.testbit v 11 then 1 else 0) cbs) (b_user s))) ∧
  (∀ p c o, b_nodes s !! cb_node p = Some o → b_cbs s !! p = Some c → cb_node p ∉ button_list :: (cb_node <$> cbs.*1) →
    ∃ s', button_add_callback button_list p s = Ret (tt, s') ∧ registered s' ((p, c) :: cbs) ∧
      b_hw s' = b_hw s ∧ b_user s' = b_user s).
Proof.
  intros [HR HC]. split.
  - intros Hf d1 v. unfold gpioa_exception.
    rewrite (bind_Ret _ _ s (io_read (GPIOA + offset_of gpio_reg "ISR") (b_hw s)).1 (Button d1 (b_nodes s) (b_cbs s) (b_user s)))
      by (unfold in_hw, zoom, gpio_get_interrupt_status, rd32; unfold d1; by destruct (io_read _ (b_hw s))).
    rewrite (bind_Ret _ _ _ v (Button (io_read (PDSR GPIOA) d1).2 (b_nodes s) (b_cbs s) (b_user s)))
      by (unfold in_hw, zoom, rd32, v; cbn [b_hw]; by destruct (io_read (PDSR GPIOA) d1)).
    cbv zeta. rewrite land_bit by done. set (s1 := Button _ _ _ _).
    rewrite (bind_Ret _ _ s1 (LNode (hd button_list (cb_node <$> cbs.*1)) (lastl button_list (cb_node <$> cbs.*1))) s1)
      by (unfold in_nodes, zoom, lget, s1; cbn [b_nodes]; by rewrite (ring_head _ _ _ HR)).
    cbn [l_next]. apply (callback_loop_runs fuel _ [] cbs s1); [by constructor|done].
  - intros p c o Ho Hp Hn. destruct (add_first_spec _ _ _ _ _ HR Ho Hn) as (l' & E & HR' & _).
    exists (Button (b_hw s) l' (b_cbs s) (b_user s)). split_and!; [unfold button_add_callback, in_nodes, zoom; by rewrite E| |done|done].
    constructor; [exact HR'|]. intros q x Hq. apply elem_of_cons in Hq as [[= -> ->]|Hq]; [done|by apply HC].
Qed.
End Callbacks.

(** Two callbacks that write their number to a log; the button is down. *)
Definition ex_cbs : list (Z * button_callback) :=
  [(0x100, ButtonCallback BUTTON_RELEASED 1); (0x200, ButtonCallback BUTTON_PRESSED 2)].
Definition ex_button : button (D := bank) (U := list Z) :=
  Button (Bank ∅ []) (<[0x80 := LNode 0x108 0x208]> (<[0x108 := LNode 0x208 0x80]> {[0x208 := LNode 0x80 0x108]}))
    (list_to_map ex_cbs) [].
Lemma button_calls_witness :
  ∃ s', gpioa_exception (λ c, modify (λ l, l ++ [c])) 0x80 3 ex_button = Ret (tt, s') ∧ b_user s' = [2].
Proof.
  destruct (button_calls (λ c, modify (λ l, l ++ [c])) 0x80 3 ex_button ex_cbs) as [E _].
  - constructor.
    + split; [cbn; by split_and!|]. apply (bool_decide_unpack _). vm_compute. exact I.
    + intros p c Hin. repeat (apply elem_of_cons in Hin as [[= -> ->]|Hin]; [reflexivity|]). by apply elem_of_nil in Hin.
  - specialize (E ltac:(cbn; lia)). cbv zeta in E. eexists. split; [exact E|]. reflexivity.
Defined.
