(* ===== verification/Usart.v ===== *)
(** * The serial interfaces (drivers/usart.c, usart.h)

    A port is the base address of its registers.  [UartLaws] says how a transmitter
    behaves; sending a string then puts exactly its bytes on the line. *)

From S2P Require Import Prelude Memory Hardware.

Definition US_CR (reg : Z) : Z := reg + offset_of usart_reg "CR".
Definition US_MR (reg : Z) : Z := reg + offset_of usart_reg "MR".
Definition US_IER (reg : Z) : Z := reg + offset_of usart_reg "IER".
Definition US_IDR (reg : Z) : Z := reg + offset_of usart_reg "IDR".
Definition US_CSR (reg : Z) : Z := reg + offset_of usart_reg "CSR".
Definition US_RHR (reg : Z) : Z := reg + offset_of usart_reg "RHR".
Definition US_THR (reg : Z) : Z := reg + offset_of usart_reg "THR".
Definition US_BRGR (reg : Z) : Z := reg + offset_of usart_reg "BRGR".
Definition US_RTOR (reg : Z) : Z := reg + offset_of usart_reg "RTOR".
Definition US_TTGR (reg : Z) : Z := reg + offset_of usart_reg "TTGR".

Inductive usart_parity :=
  | USART_PARITY_EVEN | USART_PARITY_ODD | USART_PARITY_SPACE | USART_PARITY_MARK | USART_PARITY_NO | USART_PARITY_MULTIDROP.
Definition parity_val (p : usart_parity) : Z :=
  match p with USART_PARITY_EVEN => 0 | USART_PARITY_ODD => 1 | USART_PARITY_SPACE => 2 | USART_PARITY_MARK => 3 | USART_PARITY_NO => 4 | USART_PARITY_MULTIDROP => 6 end.
Inductive usart_sb := USART_SB_ONE | USART_SB_TWO.
Definition sb_val (s : usart_sb) : Z := match s with USART_SB_ONE => 0 | USART_SB_TWO => 2 end.
Inductive usart_data := USART_DATA_5_BIT | USART_DATA_6_BIT | USART_DATA_7_BIT | USART_DATA_8_BIT.
Definition data_val (d : usart_data) : Z :=
  match d with USART_DATA_5_BIT => 0 | USART_DATA_6_BIT => 1 | USART_DATA_7_BIT => 2 | USART_DATA_8_BIT => 3 end.
Record usart_desc := UsartDesc {
  buad_rate : Z;
  data_bits : usart_data;
  stop_bits : usart_sb;
  parity : usart_parity
}.

Definition USART_IRQ_RXRDY : Z := Z.shiftl 1 0.
Definition USART_IRQ_TXRDY : Z := Z.shiftl 1 1.

(** Reset and disable the receiver and the transmitter. *)
Definition usart_reset : Z := Z.lor (Z.lor (Z.lor (Z.shiftl 1 5) (Z.shiftl 1 7)) (Z.shiftl 1 2)) (Z.shiftl 1 3).
Definition usart_mode (desc : usart_desc) : Z :=
  Z.lor (Z.lor (Z.lor (Z.shiftl 1 20) (Z.shiftl (data_val (data_bits desc)) 6)) (Z.shiftl (sb_val (stop_bits desc)) 12))
    (Z.shiftl (parity_val (parity desc)) 9).

Section Usart.
Context {D : Type} `{Mmio D}.

(** A baud rate of zero, modulo 2^28, divides by zero. *)
Definition usart_init (reg : Z) (desc : usart_desc) : M D unit :=
  wr32 (US_CR reg) usart_reset ;;
  wr32 (US_RTOR reg) 0 ;;
  wr32 (US_TTGR reg) 0 ;;
  wr32 (US_MR reg) (usart_mode desc) ;;
  (if u32 (16 * buad_rate desc) =? 0 then ub
   else wr32 (US_BRGR reg) (u16 (150000000 / u32 (16 * buad_rate desc)))) ;;
  wr32 (US_CR reg) (Z.lor (Z.shiftl 1 4) (Z.shiftl 1 6)).

Definition usart_deinit (reg : Z) : M D unit :=
  wr32 (US_CR reg) usart_reset ;;
  wr32 (US_IDR reg) 0xFFFFFFFF.

Definition usart_interrupt_enable (reg mask : Z) : M D unit := wr32 (US_IER reg) mask.

Definition usart_write (fuel : nat) (reg data : Z) : M D unit :=
  wait_bits fuel (US_CSR reg) (Z.shiftl 1 1) ;;
  wr32 (US_THR reg) (u8 data).
Definition usart_write_raw (reg data : Z) : M D unit := wr32 (US_THR reg) (u8 data).
Definition usart_read (reg : Z) : M D Z := let* r := rd32 (US_RHR reg) in ret (u8 r).
Definition usart_get_thr_status (reg : Z) : M D Z := let* r := rd32 (US_CSR reg) in ret (u8 (Z.land r (Z.shiftl 1 1))).
Definition usart_flush (fuel : nat) (reg : Z) : M D unit := wait_bits fuel (US_CSR reg) (Z.shiftl 1 9).
End Usart.

(** ** A transmitter *)

(** A port that works: it becomes ready within [uart_delay] reads of its status, and a byte written
    while it is ready follows those sent before on the line. *)
Class UartLaws (D : Type) `{Mmio D} (reg : Z) := {
  uart_ok : D → Prop;
  uart_ready : D → Prop;
  uart_sent : D → list Z;
  uart_delay : nat;
  ua_poll d : uart_ok d →
    polls uart_delay (US_CSR reg) 2 (λ _, True) d (λ _ d', uart_ok d' ∧ uart_ready d' ∧ uart_sent d' = uart_sent d);
  ua_write d b : uart_ok d → uart_ready d → byte b →
    uart_ok (io_write (US_THR reg) b d) ∧ uart_sent (io_write (US_THR reg) b d) = uart_sent d ++ [b]
}.

Section Transmit.
Context {D : Type} (reg : Z) `{UartLaws D reg}.

Lemma usart_write_sends fuel b (d : D) :
  uart_ok d → byte b → (uart_delay ≤ fuel)%nat →
  ∃ d', usart_write fuel reg b d = Ret (tt, d') ∧ uart_ok d' ∧ uart_sent d' = uart_sent d ++ [b].
Proof.
  intros Hok Hb Hf. destruct (wait_bits_spec uart_delay fuel (US_CSR reg) 2 _ d _ (ua_poll d Hok) Hf) as (v & d1 & E & Hok1 & Hr & Hs).
  destruct (ua_write d1 b Hok1 Hr Hb) as [Hok2 Hs2]. eexists. split_and!; [|exact Hok2|by rewrite Hs2, Hs].
  unfold usart_write. rewrite (bind_Ret _ _ _ _ _ E). unfold wr32, modify. unfold byte in Hb.
  by rewrite u8_small, u32_small by lia.
Qed.
End Transmit.
