(* ===== verification/Cache.v ===== *)
(** * Cache maintenance (mm/cache.c)

    The caches are operated by writes to registers of the system control block.
    [cache_info] only prints and is left out. *)

From S2P Require Import Prelude Hardware.

Definition SCB_CCR : Z := Eval vm_compute in SCB + offset_of scb_reg "CCR".
Definition SCB_CCSIDR : Z := Eval vm_compute in SCB + offset_of scb_reg "CCSIDR".
Definition SCB_CSSELR : Z := Eval vm_compute in SCB + offset_of scb_reg "CSSELR".
Definition SCB_ICIALLU : Z := Eval vm_compute in SCB + offset_of scb_reg "ICIALLU".
Definition SCB_DCIMVAC : Z := Eval vm_compute in SCB + offset_of scb_reg "DCIMVAC".
Definition SCB_DCISW : Z := Eval vm_compute in SCB + offset_of scb_reg "DCISW".
Definition SCB_DCCMVAC : Z := Eval vm_compute in SCB + offset_of scb_reg "DCCMVAC".
Definition SCB_DCCSW : Z := Eval vm_compute in SCB + offset_of scb_reg "DCCSW".
Definition SCB_DCCIMVAC : Z := Eval vm_compute in SCB + offset_of scb_reg "DCCIMVAC".
Definition SCB_DCCISW : Z := Eval vm_compute in SCB + offset_of scb_reg "DCCISW".

Section Cache.
Context {D : Type} `{Mmio D}.

(** ** By set and way *)

(** [do { op; isb(); } while (num_ways--);] from way [n] down to 0. *)
Fixpoint way_loop (op : Z) (num_sets : Z) (n : nat) : M D unit :=
  wr32 op (Z.lor (Z.shiftl num_sets 5) (Z.shiftl (Z.of_nat n) 30)) ;;
  isb ;;
  match n with O => ret tt | S n => way_loop op num_sets n end.

(** [do { ... } while (num_sets--);] from set [n] down to 0. *)
Fixpoint set_loop (op : Z) (num_ways : Z) (n : nat) : M D unit :=
  way_loop op (Z.of_nat n) (Z.to_nat num_ways) ;;
  match n with O => ret tt | S n => set_loop op num_ways n end.

(** The loops over the cache: as many sets and ways as the size register tells. *)
Definition sets_ways (op cache_id : Z) : M D unit :=
  let num_sets := Z.land (Z.shiftr cache_id 13) 0x7FFF + 1 in
  let num_ways := Z.land (Z.shiftr cache_id 3) 0x3FF + 1 in
  set_loop op num_ways (Z.to_nat num_sets).

Definition dcache_enable : M D unit :=
  wr32 SCB_CSSELR 0 ;;
  dsb ;;
  let* cache_id := rd32 SCB_CCSIDR in
  sets_ways SCB_DCISW cache_id ;;
  dsb ;;
  set32 SCB_CCR (Z.shiftl 1 16) ;;
  dsb ;;
  isb.

Definition dcache_disable : M D unit :=
  wr32 SCB_CSSELR 0 ;;
  dsb ;;
  mask32 SCB_CCR (Z.lnot (Z.shiftl 1 16)) ;;
  dsb ;;
  isb ;;
  let* cache_id := rd32 SCB_CCSIDR in
  sets_ways SCB_DCCISW cache_id ;;
  dsb ;;
  isb.

(** The whole cache: invalidate, clean, or both. *)
Definition dcache_all (op : Z) : M D unit :=
  wr32 SCB_CSSELR 0 ;;
  dsb ;;
  let* cache_id := rd32 SCB_CCSIDR in
  sets_ways op cache_id ;;
  dsb ;;
  isb.
Definition dcache_invalidate : M D unit := dcache_all SCB_DCISW.
Definition dcache_clean : M D unit := dcache_all SCB_DCCSW.
Definition dcache_clean_invalidate : M D unit := dcache_all SCB_DCCISW.

(** ** By address *)

(** [for (u32 i = 0; i < size; i += 32)]: the counter wraps around, so the loop
    does not end for sizes above 2^32 - 32. *)
Fixpoint addr_loop (fuel : nat) (op i size addr_ptr : Z) : M D unit :=
  match fuel with
  | O => hang
  | S fuel =>
      if i <? size then
        wr32 op addr_ptr ;;
        addr_loop fuel op (u32 (i + 32)) size (u32 (addr_ptr + 32))
      else ret tt
  end.

Definition dcache_addr (fuel : nat) (op addr size : Z) : M D unit :=
  dsb ;;
  if negb (Z.land addr 0x1F =? 0) then panic "Unaligned cache address detected" else
  addr_loop fuel op 0 size addr ;;
  dsb ;;
  isb.
Definition dcache_invalidate_addr (fuel : nat) := dcache_addr fuel SCB_DCIMVAC.
Definition dcache_clean_addr (fuel : nat) := dcache_addr fuel SCB_DCCMVAC.
Definition dcache_clean_invalidate_addr (fuel : nat) := dcache_addr fuel SCB_DCCIMVAC.

(** ** The instruction cache *)

Definition icache_enable : M D unit :=
  dsb ;;
  isb ;;
  wr32 SCB_ICIALLU 0 ;;
  dsb ;;
  isb ;;
  set32 SCB_CCR (Z.shiftl 1 17) ;;
  dsb ;;
  isb.
Definition icache_disable : M D unit :=
  dsb ;;
  isb ;;
  mask32 SCB_CCR (Z.lnot (Z.shiftl 1 17)) ;;
  wr32 SCB_ICIALLU 0 ;;
  dsb ;;
  isb.
Definition icache_invalidate : M D unit :=
  dsb ;;
  isb ;;
  wr32 SCB_ICIALLU 0 ;;
  dsb ;;
  isb.
End Cache.

(** ** What is operated on

    On plain registers: the accesses in the order they happen. *)

Definition bank_log (l : list io_event) (regs : gmap Z Z) (b : bank) : bank := Bank regs (bank_trace b ++ l).

(** The line of a set and a way in the operand of the set/way operations of a cache
    with four ways and lines of 32 bytes. *)
Definition line_op (op set way : Z) : io_event := IoWrite op (u32 (Z.lor (Z.shiftl set 5) (Z.shiftl way 30))).

(** A command that appends to the trace and keeps the registers other than [op]. *)
Definition appends (op : Z) (c : M bank unit) (l : list io_event) : Prop :=
  ∀ b, ∃ b', c b = Ret (tt, b') ∧ bank_trace b' = bank_trace b ++ l ∧
    ∀ a, a ≠ op → bank_get a b' = bank_get a b.

Lemma appends_wr op v : appends op (wr32 op v) [IoWrite op (u32 v)].
Proof.
  intros b. eexists. split; [reflexivity|]. split; [done|]. intros a Ha.
  unfold bank_get. cbn. by rewrite lookup_insert_ne by congruence.
Qed.
Lemma appends_barrier op x : appends op (modify (io_barrier x)) [IoBarrier x].
Proof. intros b. eexists. split; [reflexivity|]. done. Qed.
Lemma appends_ret op : appends op (ret tt) [].
Proof. intros b. exists b. rewrite app_nil_r. done. Qed.
Lemma appends_seq op c1 c2 l1 l2 : appends op c1 l1 → appends op c2 l2 → appends op (c1 ;; c2) (l1 ++ l2).
Proof.
  intros H1 H2 b. destruct (H1 b) as (b1 & E1 & T1 & R1). destruct (H2 b1) as (b2 & E2 & T2 & R2).
  exists b2. rewrite (bind_Ret _ _ _ _ _ E1). split; [done|]. split; [by rewrite T2, T1, app_assoc|].
  intros a Ha. by rewrite R2, R1.
Qed.

(** The operations on one set, and on all sets. *)
Fixpoint way_ops (op set : Z) (n : nat) : list io_event :=
  [line_op op set (Z.of_nat n)] ++ [IoBarrier DSB] ++ match n with O => [] | S n => way_ops op set n end.
Fixpoint set_ops (op ways : Z) (n : nat) : list io_event :=
  way_ops op (Z.of_nat n) (Z.to_nat ways) ++ match n with O => [] | S n => set_ops op ways n end.

Lemma appends_way_loop op set n : appends op (way_loop op set n) (way_ops op set n).
Proof.
  induction n as [|n IH]; cbn [way_loop way_ops]; (apply appends_seq; [apply appends_wr|]);
    (apply appends_seq; [apply appends_barrier|]); [apply appends_ret|apply IH].
Qed.
Lemma appends_set_loop op ways n : appends op (set_loop op ways n) (set_ops op ways n).
Proof.
  induction n as [|n IH]; cbn [set_loop set_ops]; (apply appends_seq; [apply appends_way_loop|]);
    [apply appends_ret|apply IH].
Qed.

Lemma way_ops_complete op set n way : 0 ≤ way ≤ Z.of_nat n → line_op op set way ∈ way_ops op set n.
Proof.
  induction n as [|n IH]; intros Hw; cbn [way_ops].
  - replace way with 0 by lia. left.
  - destruct (decide (way = Z.of_nat (S n))) as [->|Hne]; [left|]. right. right. apply IH. lia.
Qed.
Lemma set_ops_complete op ways n set way :
  0 ≤ set ≤ Z.of_nat n → 0 ≤ way ≤ ways → line_op op set way ∈ set_ops op ways n.
Proof.
  induction n as [|n IH]; intros Hs Hw; cbn [set_ops]; apply elem_of_app.
  - left. replace set with 0 by lia. apply way_ops_complete. lia.
  - destruct (decide (set = Z.of_nat (S n))) as [->|Hne]; [left; apply way_ops_complete; lia|]. right. apply IH; lia.
Qed.

(** The operand of a line. *)
Lemma line_operand set way : 0 ≤ set < 2 ^ 25 → 0 ≤ way < 4 →
  u32 (Z.lor (Z.shiftl set 5) (Z.shiftl way 30)) = set * 32 + way * 2 ^ 30.
Proof.
  intros Hs Hw. rewrite (Z.shiftl_mul_pow2 set) by lia. rewrite lor_shiftl_add by lia.
  change (2 ^ 5) with 32. rewrite u32_small by lia. done.
Qed.

(** The geometry in the size register. *)
Definition cache_sets (id : Z) : Z := Z.land (Z.shiftr id 13) 0x7FFF + 1.
Definition cache_ways (id : Z) : Z := Z.land (Z.shiftr id 3) 0x3FF + 1.

(** What happens on a cache of that geometry. *)
Definition all_lines (op id : Z) : list io_event := set_ops op (cache_ways id) (Z.to_nat (cache_sets id)).

Lemma cache_sets_pos id : 0 < cache_sets id.
Proof. unfold cache_sets. pose proof (Z.land_nonneg (Z.shiftr id 13) 0x7FFF). lia. Qed.
Lemma cache_ways_pos id : 0 < cache_ways id.
Proof. unfold cache_ways. pose proof (Z.land_nonneg (Z.shiftr id 3) 0x3FF). lia. Qed.

Lemma appends_sets_ways op id : appends op (sets_ways op id) (all_lines op id).
Proof. apply appends_set_loop. Qed.

Lemma sets_ways_step op id (k : M bank unit) b :
  bank_get SCB_CCSIDR b = id →
  ∃ b', (let* c := rd32 SCB_CCSIDR in sets_ways op c ;; k) b = k b' ∧
    bank_trace b' = bank_trace b ++ all_lines op id ∧ ∀ a, a ≠ op → bank_get a b' = bank_get a b.
Proof.
  intros Hb. unfold bind at 1. rewrite rd32_bank, Hb. destruct (appends_sets_ways op id b) as (b' & E & T & R).
  exists b'. by rewrite (bind_Ret _ _ _ _ _ E).
Qed.

Lemma select_run (k : M bank unit) b :
  (wr32 SCB_CSSELR 0 ;; dsb ;; k) b = k (io_barrier DSB (bank_set SCB_CSSELR 0 b)).
Proof. done. Qed.

(** The operations on the whole data cache reach every line: for a cache with
    the geometry of the size register, up to four ways, each of them issues, after
    selecting the data cache, the operation for every set and every way with the
    operand that names that line (bits 5 and up the set, bits 30 and 31 the way);
    [dcache_enable] invalidates every line before it sets the enable bit, and
    [dcache_disable] clears the bit before it cleans and invalidates them, so that
    no line becomes dirty afterwards. *)
Theorem dcache_every_line op id b :
  bank_get SCB_CCSIDR b = id →
  let select := [IoWrite SCB_CSSELR 0; IoBarrier DSB] in
  let sync := [IoBarrier DSB; IoBarrier DSB] in
  let ccr := bank_get SCB_CCR b in
  (∃ b', dcache_all op b = Ret (tt, b') ∧ bank_trace b' = bank_trace b ++ select ++ all_lines op id ++ sync) ∧
  (∃ b', dcache_enable b = Ret (tt, b') ∧ bank_trace b' = bank_trace b ++
     select ++ all_lines SCB_DCISW id ++ [IoBarrier DSB; IoWrite SCB_CCR (u32 (Z.lor ccr (2 ^ 16)))] ++ sync) ∧
  (∃ b', dcache_disable b = Ret (tt, b') ∧ bank_trace b' = bank_trace b ++
     select ++ [IoWrite SCB_CCR (u32 (Z.land ccr (Z.lnot (2 ^ 16))))] ++ sync ++ all_lines SCB_DCCISW id ++ sync) ∧
  (∀ set way, 0 ≤ set < cache_sets id → 0 ≤ way < cache_ways id → cache_ways id ≤ 4 →
     IoWrite op (set * 32 + way * 2 ^ 30) ∈ all_lines op id).
Proof.
  intros Hid select sync ccr. set (b1 := io_barrier DSB (bank_set SCB_CSSELR 0 b)).
  assert (∀ a, a ≠ SCB_CSSELR → bank_get a b1 = bank_get a b) as R1 by (intros; by apply bank_get_set_ne).
  assert (bank_trace b1 = bank_trace b ++ select) as T1 by (cbn; by rewrite <- app_assoc).
  assert (bank_get SCB_CCSIDR b1 = id) as Hid1 by (by rewrite R1).
  split_and!.
  - unfold dcache_all. rewrite select_run. fold b1.
    destruct (sets_ways_step op id (dsb ;; isb) b1 Hid1) as (b2 & -> & T2 & _).
    eexists. split; [reflexivity|]. cbn [bank_trace io_barrier bank_mmio]. rewrite T2, T1, <- !app_assoc. done.
  - unfold dcache_enable. rewrite select_run. fold b1.
    destruct (sets_ways_step SCB_DCISW id (dsb ;; set32 SCB_CCR (Z.shiftl 1 16) ;; dsb ;; isb) b1 Hid1) as (b2 & -> & T2 & R2).
    eexists. split; [reflexivity|]. cbn [bank_trace io_barrier io_write bank_mmio].
    change (bank_get SCB_CCR (Bank (bank_regs b2) (bank_trace b2 ++ [IoBarrier DSB]))) with (bank_get SCB_CCR b2).
    rewrite R2, R1 by done. rewrite T2, T1, <- !app_assoc. done.
  - unfold dcache_disable. rewrite select_run. fold b1.
    set (b2 := bank_set SCB_CCR (Z.land (bank_get SCB_CCR b1) (Z.lnot (Z.shiftl 1 16))) b1).
    set (b3 := io_barrier DSB (io_barrier DSB b2)).
    change ((mask32 SCB_CCR (Z.lnot (Z.shiftl 1 16)) ;; dsb ;; isb ;;
      let* c := rd32 SCB_CCSIDR in sets_ways SCB_DCCISW c ;; dsb ;; isb) b1)
      with ((let* c := rd32 SCB_CCSIDR in sets_ways SCB_DCCISW c ;; dsb ;; isb) b3).
    assert (bank_get SCB_CCSIDR b3 = id) as Hid3.
    { change (bank_get SCB_CCSIDR b2 = id). unfold b2. by rewrite bank_get_set_ne. }
    destruct (sets_ways_step SCB_DCCISW id (dsb ;; isb) b3 Hid3) as (b4 & -> & T4 & _).
    eexists. split; [reflexivity|]. cbn [bank_trace io_barrier bank_mmio]. rewrite T4. unfold b3, b2.
    cbn [bank_trace io_barrier io_write bank_mmio bank_set]. rewrite T1, R1 by done. by rewrite <- !app_assoc.
  - intros set way Hs Hw H4. rewrite <- line_operand; [| |lia].
    + apply set_ops_complete; [|lia]. pose proof (cache_sets_pos id). lia.
    + unfold cache_sets in Hs. change 0x7FFF with (2 ^ 15 - 1) in Hs. rewrite land_mask in Hs by lia. lia.
Qed.

(** A cache with four sets and four ways. *)
Definition small_cache : bank := Bank {[SCB_CCSIDR := Z.shiftl 3 13 + Z.shiftl 3 3]} [].

Lemma dcache_every_line_witness :
  let id := bank_get SCB_CCSIDR small_cache in
  (cache_sets id = 4 ∧ cache_ways id = 4) ∧ IoWrite SCB_DCCSW (2 * 32 + 3 * 2 ^ 30) ∈ all_lines SCB_DCCSW id.
Proof.
  intros id. assert (cache_sets id = 4 ∧ cache_ways id = 4) as [Hs Hw] by (split; vm_compute; done).
  split; [done|]. destruct (dcache_every_line SCB_DCCSW id small_cache eq_refl) as (_ & _ & _ & Hl).
  apply Hl; rewrite ?Hs, ?Hw; lia.
Defined.

(** The operations of a loop over addresses. *)
Definition line_writes (op addr : Z) (n : nat) : list io_event :=
  map (λ k, IoWrite op (addr + 32 * Z.of_nat k)) (seq 0 n).

Lemma addr_loop_run n fuel op i size addr b :
  0 ≤ i → i mod 32 = 0 → size ≤ 2 ^ 32 - 32 → 0 ≤ addr → addr + (size - i) ≤ 2 ^ 32 →
  Z.of_nat n = (size - i + 31) / 32 → i ≤ size + 31 → (n < fuel)%nat →
  ∃ b', addr_loop fuel op i size addr b = Ret (tt, b') ∧ bank_trace b' = bank_trace b ++ line_writes op addr n.
Proof.
  revert fuel i addr b; induction n as [|n IH]; intros fuel i addr b Hi Hi32 Hs Ha Hend Hn Hle Hf;
    (destruct fuel as [|fuel]; [lia|]); cbn [addr_loop].
  - rewrite (proj2 (Z.ltb_ge i size)) by lia. exists b. by rewrite app_nil_r.
  - rewrite (proj2 (Z.ltb_lt i size)) by lia. unfold bind at 1. rewrite wr32_bank.
    rewrite (u32_small (i + 32)) by lia.
    destruct n as [|n].
    + destruct fuel as [|fuel]; [lia|]. cbn [addr_loop]. rewrite (proj2 (Z.ltb_ge (i + 32) size)) by lia.
      eexists. split; [reflexivity|]. cbn [bank_trace bank_set io_write bank_mmio line_writes map seq].
      unfold line_writes. cbn. by rewrite u32_small, Z.add_0_r by lia.
    + rewrite (u32_small (addr + 32)) by lia.
      destruct (IH fuel (i + 32) (addr + 32) (bank_set op addr b)) as (b' & E & T); [lia..|].
      exists b'. split; [done|]. rewrite T. unfold bank_set. cbn [bank_trace io_write bank_mmio].
      rewrite u32_small, <- app_assoc by lia. f_equal. unfold line_writes.
      change (seq 0 (S (S n))) with (0%nat :: seq 1 (S n)). cbn [map app]. f_equal; [f_equal; lia|].
      rewrite <- seq_shift, map_map. apply map_ext. intros k. f_equal. lia.
Qed.

(** The operations by address: from an address aligned to a line, for a size that
    does not run past the end of the address space, the loop terminates and issues
    the operation once for each line of the range [addr, addr + size), in order,
    between the barriers; an unaligned address panics.  For every byte of the range
    the operation of its line is among them. *)
Theorem dcache_addr_lines fuel op addr size b :
  0 ≤ addr → 0 ≤ size ≤ 2 ^ 32 - 32 → addr + size ≤ 2 ^ 32 → size / 32 + 2 ≤ Z.of_nat fuel →
  (addr mod 32 = 0 →
   ∃ b', dcache_addr fuel op addr size b = Ret (tt, b') ∧
     bank_trace b' = bank_trace b ++ [IoBarrier DSB] ++ line_writes op addr (Z.to_nat ((size + 31) / 32)) ++
       [IoBarrier DSB; IoBarrier DSB] ∧
     ∀ x, addr ≤ x < addr + size → IoWrite op (x - x mod 32) ∈ bank_trace b') ∧
  (addr mod 32 ≠ 0 → dcache_addr fuel op addr size b = Panic "Unaligned cache address detected").
Proof.
  intros Ha Hs Hend Hf. assert (Z.land addr 0x1F = addr mod 32) as Em by (change 0x1F with (2 ^ 5 - 1); by rewrite land_mask by lia).
  split; intros Hal; unfold dcache_addr; rewrite Em.
  - rewrite Hal. cbn [Z.eqb negb]. set (b1 := io_barrier DSB b).
    destruct (addr_loop_run (Z.to_nat ((size + 31) / 32)) fuel op 0 size addr b1) as (b2 & E & T); [lia|done|lia|lia|lia|lia|lia|lia|].
    assert ((dsb ;; addr_loop fuel op 0 size addr ;; dsb ;; isb) b = Ret (tt, io_barrier DSB (io_barrier DSB b2))) as E'.
    { change ((addr_loop fuel op 0 size addr ;; dsb ;; isb) b1 = Ret (tt, io_barrier DSB (io_barrier DSB b2))).
      by rewrite (bind_Ret _ _ _ _ _ E). }
    eexists. split; [exact E'|]. change (bank_trace b1) with (bank_trace b ++ [IoBarrier DSB]) in T.
    cbn [bank_trace io_barrier bank_mmio]. rewrite T, <- !app_assoc. split; [done|].
    intros x Hx. apply elem_of_app. right. apply elem_of_app. right. apply elem_of_app. left.
    unfold line_writes. apply list_elem_of_In, in_map_iff. exists (Z.to_nat ((x - addr) / 32)). split; [f_equal; lia|].
    apply in_seq. lia.
  - by rewrite eqb_false.
Qed.

Lemma dcache_addr_lines_witness :
  let b := Bank ∅ [] in
  (0x20401000 mod 32 = 0 ∧ 0x20401000 + 70 ≤ 2 ^ 32) ∧
  ∃ b', dcache_addr 10 SCB_DCCMVAC 0x20401000 70 b = Ret (tt, b') ∧ IoWrite SCB_DCCMVAC 0x20401040 ∈ bank_trace b'.
Proof.
  intros b. split; [done|].
  destruct (proj1 (dcache_addr_lines 10 SCB_DCCMVAC 0x20401000 70 b ltac:(lia) ltac:(lia) ltac:(lia) ltac:(done)) eq_refl)
    as (b' & E & _ & Hx).
  exists b'. split; [exact E|]. exact (Hx 0x20401045 ltac:(lia)).
Defined.
