(* ===== verification/Mpu.v ===== *)
(** * Memory protection (mm/mpu.c, mpu.h) *)

From Stdlib Require Import Btauto.
From S2P Require Import Prelude Hardware.

Definition MPU_TYPE : Z := Eval vm_compute in MPU + offset_of mpu_reg "TYPE".
Definition MPU_CTRL : Z := Eval vm_compute in MPU + offset_of mpu_reg "CTRL".
Definition MPU_RNR : Z := Eval vm_compute in MPU + offset_of mpu_reg "RNR".
Definition MPU_RBAR : Z := Eval vm_compute in MPU + offset_of mpu_reg "RBAR".
Definition MPU_RASR : Z := Eval vm_compute in MPU + offset_of mpu_reg "RASR".

(** [struct mpu_region]; the bit fields hold values of their width. *)
Record mpu_region := MpuRegion {
  r_size : Z; r_ap : Z; r_tex : Z; r_c : Z; r_b : Z; r_s : Z; r_executable : Z; r_enable : Z; r_subregion_mask : Z
}.

Section Mpu.
Context {D : Type} `{Mmio D}.

Definition mpu_enable_priv_access : M D unit := set32 MPU_CTRL (Z.shiftl 1 2).
Definition mpu_disable_priv_access : M D unit := mask32 MPU_CTRL (Z.lnot (Z.shiftl 1 2)).
Definition mpu_hard_fault_enable : M D unit := set32 MPU_CTRL (Z.shiftl 1 1).
Definition mpu_hard_fault_disable : M D unit := mask32 MPU_CTRL (Z.lnot (Z.shiftl 1 1)).
Definition mpu_enable : M D unit :=
  set32 MPU_CTRL (Z.shiftl 1 0) ;;
  dsb ;;
  isb.
Definition mpu_disable : M D unit := mask32 MPU_CTRL (Z.lnot (Z.shiftl 1 0)).

Definition mpu_get_data_regions : M D Z :=
  let* reg := rd32 MPU_TYPE in
  ret (Z.land (Z.shiftr reg 8) 0xFF).

Definition mpu_set_region (reg_num : Z) : M D unit :=
  let* max_region := mpu_get_data_regions in
  if max_region <=? reg_num then panic "MPU region failure" else
  wr32 MPU_RNR reg_num.

(** The attributes word.  [(1 << (size + 1)) - 1] is taken as on the processor,
    where a shift by 32 gives 0. *)
Definition rasr_of (d : mpu_region) : Z :=
  let rasr := 0 in
  let rasr := Z.lor rasr (Z.shiftl (r_ap d) 24) in
  let rasr := Z.lor rasr (Z.shiftl (r_tex d) 19) in
  let rasr := Z.lor rasr (Z.shiftl (r_c d) 17) in
  let rasr := Z.lor rasr (Z.shiftl (r_b d) 16) in
  let rasr := Z.lor rasr (Z.shiftl (r_s d) 18) in
  let rasr := if r_executable d =? 0 then Z.lor rasr (Z.shiftl 1 28) else rasr in
  let rasr := Z.lor rasr (Z.shiftl (r_subregion_mask d) 8) in
  let rasr := Z.lor rasr (Z.shiftl (r_enable d) 0) in
  Z.lor rasr (Z.shiftl (r_size d) 1).

Definition mpu_configure_region (reg_num addr : Z) (reg_desc : mpu_region) : M D unit :=
  mpu_set_region reg_num ;;
  if r_size reg_desc <? 4 then panic "Region size error" else
  let addr_mask := u32 (u32 (Z.shiftl 1 (r_size reg_desc + 1)) - 1) in
  if negb (Z.land addr addr_mask =? 0) then panic "Address is wrong" else
  wr32 MPU_RBAR addr ;;
  dsb ;;
  isb ;;
  wr32 MPU_RASR (rasr_of reg_desc).
End Mpu.

(** ** The encoding *)

(** The attributes register as the processor reads it. *)
Definition mpu_decode (rasr : Z) : mpu_region := {|
  r_enable := rasr mod 2;
  r_size := (rasr / 2) mod 32;
  r_subregion_mask := (rasr / 2 ^ 8) mod 256;
  r_b := (rasr / 2 ^ 16) mod 2;
  r_c := (rasr / 2 ^ 17) mod 2;
  r_s := (rasr / 2 ^ 18) mod 2;
  r_tex := (rasr / 2 ^ 19) mod 8;
  r_ap := (rasr / 2 ^ 24) mod 8;
  r_executable := 1 - (rasr / 2 ^ 28) mod 2
|}.

(** A description whose fields have the widths of the struct and a legal size. *)
Record region_ok (d : mpu_region) : Prop := {
  ok_size : 4 ≤ r_size d < 32;
  ok_ap : 0 ≤ r_ap d < 8;
  ok_tex : 0 ≤ r_tex d < 8;
  ok_c : 0 ≤ r_c d < 2;
  ok_b : 0 ≤ r_b d < 2;
  ok_s : 0 ≤ r_s d < 2;
  ok_executable : 0 ≤ r_executable d < 2;
  ok_enable : 0 ≤ r_enable d < 2;
  ok_subregion : 0 ≤ r_subregion_mask d < 256
}.

(** The fields lie side by side. *)
Lemma rasr_sum d : region_ok d → rasr_of d =
  r_enable d + r_size d * 2 ^ 1 + r_subregion_mask d * 2 ^ 8 + r_b d * 2 ^ 16 + r_c d * 2 ^ 17 + r_s d * 2 ^ 18 +
  r_tex d * 2 ^ 19 + r_ap d * 2 ^ 24 + (1 - r_executable d) * 2 ^ 28.
Proof.
  intros []. assert (rasr_of d = Z.lor (Z.lor (Z.lor (Z.lor (Z.lor (Z.lor (Z.lor (Z.lor (r_enable d)
    (Z.shiftl (r_size d) 1)) (Z.shiftl (r_subregion_mask d) 8)) (Z.shiftl (r_b d) 16)) (Z.shiftl (r_c d) 17))
    (Z.shiftl (r_s d) 18)) (Z.shiftl (r_tex d) 19)) (Z.shiftl (r_ap d) 24)) (Z.shiftl (1 - r_executable d) 28)) as ->.
  { unfold rasr_of. rewrite Z.shiftl_0_r.
    assert (∀ x, (if r_executable d =? 0 then Z.lor x (Z.shiftl 1 28) else x) = Z.lor x (Z.shiftl (1 - r_executable d) 28)) as Hx.
    { intros x. destruct (r_executable d =? 0) eqn:E.
      - apply Z.eqb_eq in E as ->. done.
      - replace (r_executable d) with 1 by lia. by rewrite Z.shiftl_0_l, Z.lor_0_r. }
    rewrite Hx. apply Z.bits_inj'. intros i _. rewrite !Z.lor_spec, Z.bits_0. btauto. }
  rewrite (lor_shiftl_add _ (r_size d) 1), (lor_shiftl_add _ (r_subregion_mask d) 8), (lor_shiftl_add _ (r_b d) 16),
    (lor_shiftl_add _ (r_c d) 17), (lor_shiftl_add _ (r_s d) 18), (lor_shiftl_add _ (r_tex d) 19),
    (lor_shiftl_add _ (r_ap d) 24), (lor_shiftl_add _ _ 28) by lia. done.
Qed.

Lemma mpu_get_data_regions_run b : mpu_get_data_regions b = Ret ((bank_get MPU_TYPE b / 256) mod 256, b).
Proof.
  unfold mpu_get_data_regions, bind. rewrite rd32_bank. unfold ret. change 0xFF with (2 ^ 8 - 1).
  by rewrite land_mask, Z.shiftr_div_pow2 by lia.
Qed.

Lemma addr_mask_spec addr k : 0 ≤ k < 32 →
  Z.land addr (u32 (u32 (Z.shiftl 1 (k + 1)) - 1)) = addr mod 2 ^ (k + 1).
Proof.
  intros Hk. rewrite Z.shiftl_1_l. rewrite <- land_mask by lia. f_equal.
  destruct (decide (k = 31)) as [->|Hne]; [done|].
  assert (2 ^ (k + 1) ≤ 2 ^ 31) by (apply Z.pow_le_mono_r; lia).
  pose proof (Z.pow_pos_nonneg 2 (k + 1) ltac:(lia) ltac:(lia)). change (2 ^ 31) with 2147483648 in *. nowrap. done.
Qed.

Lemma mpu_decode_rasr d : region_ok d → mpu_decode (u32 (rasr_of d)) = d.
Proof.
  intros Hok. rewrite rasr_sum by done. destruct Hok.
  change (2 ^ 1) with 2. change (2 ^ 8) with 256. change (2 ^ 16) with 65536. change (2 ^ 17) with 131072.
  change (2 ^ 18) with 262144. change (2 ^ 19) with 524288. change (2 ^ 24) with 16777216. change (2 ^ 28) with 268435456.
  rewrite u32_small by lia. destruct d as [sz ap tex c bb s ex en sub]; cbn [r_size r_ap r_tex r_c r_b r_s r_executable r_enable r_subregion_mask] in *.
  unfold mpu_decode. change (2 ^ 8) with 256. change (2 ^ 16) with 65536. change (2 ^ 17) with 131072.
  change (2 ^ 18) with 262144. change (2 ^ 19) with 524288. change (2 ^ 24) with 16777216. change (2 ^ 28) with 268435456.
  f_equal; lia.
Qed.

(** Configuring a region: for a supported region number, a legal description
    and a base address aligned to the size of the region, [mpu_configure_region]
    selects the region, writes the base address, and after the barriers writes an
    attributes word from which the processor reads back exactly the description.
    It panics, and writes neither address nor attributes, when the number is not
    below the number of regions, the size is below 32 bytes, or the base is not
    aligned. *)
Theorem mpu_region_roundtrip n addr d b :
  region_ok d → 0 ≤ n < 256 → 0 ≤ addr < 2 ^ 32 →
  let regions := (bank_get MPU_TYPE b / 256) mod 256 in
  (n < regions → addr mod 2 ^ (r_size d + 1) = 0 →
   ∃ b', mpu_configure_region n addr d b = Ret (tt, b') ∧
     bank_trace b' = bank_trace b ++ [IoWrite MPU_RNR n; IoWrite MPU_RBAR addr; IoBarrier DSB; IoBarrier DSB;
       IoWrite MPU_RASR (bank_get MPU_RASR b')] ∧
     mpu_decode (bank_get MPU_RASR b') = d) ∧
  (regions ≤ n → mpu_configure_region n addr d b = Panic "MPU region failure") ∧
  (n < regions → addr mod 2 ^ (r_size d + 1) ≠ 0 → mpu_configure_region n addr d b = Panic "Address is wrong") ∧
  (∀ size, size < 4 → n < regions →
   mpu_configure_region n addr (MpuRegion size (r_ap d) (r_tex d) (r_c d) (r_b d) (r_s d) (r_executable d) (r_enable d)
     (r_subregion_mask d)) b = Panic "Region size error").
Proof.
  intros Hok Hn Ha regions.
  assert (∀ d', mpu_configure_region n addr d' b = if regions <=? n then Panic "MPU region failure" else
    (if r_size d' <? 4 then panic "Region size error" else
     if negb (Z.land addr (u32 (u32 (Z.shiftl 1 (r_size d' + 1)) - 1)) =? 0) then panic "Address is wrong" else
     wr32 MPU_RBAR addr ;; dsb ;; isb ;; wr32 MPU_RASR (rasr_of d')) (bank_set MPU_RNR n b)) as E.
  { intros d'. unfold mpu_configure_region, mpu_set_region, bind at 1. rewrite (bind_Ret _ _ _ _ _ (mpu_get_data_regions_run b)).
    fold regions. by destruct (regions <=? n). }
  pose proof (ok_size _ Hok) as Hs. split_and!.
  - intros Hr Hal. rewrite E, (proj2 (Z.leb_gt _ _)), (proj2 (Z.ltb_ge _ _)), addr_mask_spec, Hal by lia. cbn [Z.eqb negb].
    set (b1 := io_barrier DSB (io_barrier DSB (bank_set MPU_RBAR addr (bank_set MPU_RNR n b)))).
    exists (bank_set MPU_RASR (rasr_of d) b1). split; [reflexivity|]. rewrite bank_get_set.
    unfold b1. cbn [bank_trace io_barrier io_write bank_mmio bank_set].
    rewrite !(u32_small n), !(u32_small addr) by lia. rewrite <- !app_assoc. split; [done|]. by apply mpu_decode_rasr.
  - intros Hr. by rewrite E, (proj2 (Z.leb_le _ _)) by lia.
  - intros Hr Hal. by rewrite E, (proj2 (Z.leb_gt _ _)), (proj2 (Z.ltb_ge _ _)), addr_mask_spec, eqb_false by lia.
  - intros size Hsz Hr. rewrite E, (proj2 (Z.leb_gt _ _)) by lia. cbn [r_size]. by rewrite (proj2 (Z.ltb_lt _ _)) by lia.
Qed.

(** A 16 KiB region of write-back memory, not executable. *)
Definition ex_region : mpu_region := MpuRegion 13 3 1 1 1 0 0 1 0x80.

Lemma mpu_region_roundtrip_witness :
  let b := Bank {[MPU_TYPE := 0x1000]} [] in
  (region_ok ex_region ∧ 3 < (bank_get MPU_TYPE b / 256) mod 256 ∧ 0x20400000 mod 2 ^ (13 + 1) = 0) ∧
  ∃ b', mpu_configure_region 3 0x20400000 ex_region b = Ret (tt, b') ∧ mpu_decode (bank_get MPU_RASR b') = ex_region.
Proof.
  intros b. assert (region_ok ex_region) as Hok by (constructor; cbn; lia).
  assert (3 < (bank_get MPU_TYPE b / 256) mod 256) as Hn by (vm_compute; done).
  split; [done|].
  destruct (proj1 (mpu_region_roundtrip 3 0x20400000 ex_region b Hok ltac:(lia) ltac:(lia)) Hn eq_refl) as (b' & E & _ & Hd).
  exists b'. split; [exact E|exact Hd].
Defined.
