(* ===== verification/Mmc.v ===== *)
(** * The multimedia card interface (drivers/mmc.c, mmc.h)

    The controller's driver over its registers: set-up, clock and bus width,
    commands, responses and data.  Busy-wait loops take fuel; the time-out loops
    count as the code does. *)

From S2P Require Import Prelude Hardware.

(** ** Registers and data *)

Definition MMC_CR : Z := Eval vm_compute in MMC + offset_of mmc_reg "CR".
Definition MMC_MR : Z := Eval vm_compute in MMC + offset_of mmc_reg "MR".
Definition MMC_DTOR : Z := Eval vm_compute in MMC + offset_of mmc_reg "DTOR".
Definition MMC_SDCR : Z := Eval vm_compute in MMC + offset_of mmc_reg "SDCR".
Definition MMC_ARG : Z := Eval vm_compute in MMC + offset_of mmc_reg "ARG".
Definition MMC_CMD : Z := Eval vm_compute in MMC + offset_of mmc_reg "CMD".
Definition MMC_BLKR : Z := Eval vm_compute in MMC + offset_of mmc_reg "BLKR".
Definition MMC_CSTOR : Z := Eval vm_compute in MMC + offset_of mmc_reg "CSTOR".
Definition MMC_RESP (n : Z) : Z := MMC + offset_of mmc_reg "RESP" + 4 * n.
Definition MMC_RDR : Z := Eval vm_compute in MMC + offset_of mmc_reg "RDR".
Definition MMC_TDR : Z := Eval vm_compute in MMC + offset_of mmc_reg "TDR".
Definition MMC_SR : Z := Eval vm_compute in MMC + offset_of mmc_reg "SR".
Definition MMC_DMA : Z := Eval vm_compute in MMC + offset_of mmc_reg "DMA".
Definition MMC_CFG : Z := Eval vm_compute in MMC + offset_of mmc_reg "CFG".

Inductive mmc_bus_width := MMC_1_LANE | MMC_4_LANES.
Definition width_val (w : mmc_bus_width) : Z := match w with MMC_1_LANE => 0 | MMC_4_LANES => 2 end.
Inductive mmc_dma_chunk := MMC_CHUNK_1 | MMC_CHUNK_2 | MMC_CHUNK_4 | MMC_CHUNK_8 | MMC_CHUNK_16.
Definition chunk_val (c : mmc_dma_chunk) : Z :=
  match c with MMC_CHUNK_1 => 0 | MMC_CHUNK_2 => 1 | MMC_CHUNK_4 => 2 | MMC_CHUNK_8 => 3 | MMC_CHUNK_16 => 4 end.

Definition MMC_CMD_READ : Z := Z.shiftl 1 18.
Definition MMC_CMD_WRITE : Z := Z.shiftl 0 18.
Definition MMC_CMD_SINGLE : Z := Z.shiftl 0 19.
Definition MMC_CMD_BYTE : Z := Z.shiftl 4 19.
Definition MMC_CMD_START_DATA : Z := Z.shiftl 1 16.
Definition MMC_CMD_EXT_LATENCY : Z := Z.shiftl 1 12.
Definition MMC_CMD_OPEN_DRAIN : Z := Z.shiftl 1 11.
Definition MMC_CMD_RESP48 : Z := Z.shiftl 1 6.
Definition MMC_CMD_RESP136 : Z := Z.shiftl 2 6.
Definition MMC_CMD_R1b : Z := Z.shiftl 3 6.
Definition MMC_CMD_INIT : Z := Z.shiftl 1 8.

Section Mmc.
Context {D : Type} `{Mmio D}.
Variable fuel : nat.

(** ** Set-up *)

Definition mmc_init : M D unit :=
  mask32 MMC_MR (Z.lnot 0xFF00) ;;
  set32 MMC_MR (Z.lor (Z.shiftl 1 11) (Z.shiftl 1 12)) ;;
  wr32 MMC_DTOR (Z.lor (Z.shiftl 7 4) (Z.shiftl 3 0)) ;;
  wr32 MMC_CSTOR (Z.lor (Z.shiftl 7 4) (Z.shiftl 3 0)) ;;
  wr32 MMC_CFG (Z.lor (Z.shiftl 1 0) (Z.shiftl 1 4)).

Definition mmc_reset : M D unit :=
  let* mr := rd32 MMC_MR in
  let* dtor := rd32 MMC_DTOR in
  let* sdcr := rd32 MMC_SDCR in
  let* cstor := rd32 MMC_CSTOR in
  let* cfg := rd32 MMC_CFG in
  wr32 MMC_CR (Z.shiftl 1 7) ;;
  wr32 MMC_MR mr ;;
  wr32 MMC_DTOR dtor ;;
  wr32 MMC_SDCR sdcr ;;
  wr32 MMC_CSTOR cstor ;;
  wr32 MMC_CFG cfg.

Definition mmc_enable : M D unit := wr32 MMC_CR 1.
Definition mmc_disable : M D unit := wr32 MMC_CR 2.

(** Division by zero is undefined. *)
Definition mmc_set_bus_freq (frequency : Z) : M D unit :=
  let* div_odd :=
    if u32 (2 * frequency) <? 150000000 then
      if frequency =? 0 then ub else
      let prescaler := u32 (150000000 / frequency - 2) in
      let prescaler := if negb (150000000 mod frequency =? 0) then u32 (prescaler + 1) else prescaler in
      ret (u8 (Z.shiftr prescaler 1), u8 (Z.land prescaler 1))
    else ret (0, 0) in
  mask32 MMC_MR (Z.lnot (Z.land (Z.shiftl 1 16) 0xFF)) ;;
  set32 MMC_MR (Z.lor (Z.shiftl div_odd.2 16) div_odd.1).

Definition mmc_set_bus_width (width : mmc_bus_width) : M D unit :=
  mask32 MMC_SDCR (Z.lnot (Z.shiftl 3 6)) ;;
  set32 MMC_SDCR (Z.shiftl (width_val width) 6).

Definition mmc_enable_high_speed : M D unit := set32 MMC_CFG (Z.shiftl 1 8).
Definition mmc_disable_high_speed : M D unit := mask32 MMC_CFG (Z.lnot (Z.shiftl 1 8)).

Definition mmc_dma_enable (chunk : mmc_dma_chunk) : M D unit :=
  mask32 MMC_DMA (Z.lnot (Z.shiftl 7 4)) ;;
  set32 MMC_DMA (Z.shiftl (chunk_val chunk) 4) ;;
  set32 MMC_DMA (Z.shiftl 1 8).
Definition mmc_dma_disable : M D unit := mask32 MMC_DMA (Z.lnot (Z.shiftl 1 8)).

(** ** Commands *)

(** The error flags that stop every command: bits 16, 17, 19, 20 and 23. *)
Definition CMD_ERRORS : Z :=
  Z.lor (Z.lor (Z.lor (Z.lor (Z.shiftl 1 16) (Z.shiftl 1 17)) (Z.shiftl 1 19)) (Z.shiftl 1 20)) (Z.shiftl 1 23).

(** The first loop of [mmc_send_cmd]: until the command is ready. *)
Fixpoint cmd_wait (n : nat) (check_crc : Z) : M D unit :=
  match n with
  | O => hang
  | S n =>
      let* status := rd32 MMC_SR in
      if negb (Z.land status CMD_ERRORS =? 0) then panic "MMC send command error" else
      if negb (check_crc =? 0) && negb (Z.land status (Z.shiftl 1 18) =? 0)
      then panic "MMC send command CRC error" else
      if Z.land status 1 =? 0 then cmd_wait n check_crc else ret tt
  end.

(** The busy loop after a command whose response is R1b. *)
Fixpoint busy_wait (n : nat) (timeout : Z) : M D unit :=
  match n with
  | O => hang
  | S n =>
      if timeout <=? 1 then panic "MMC command timeout" else
      let* status := rd32 MMC_SR in
      if (Z.land status (Z.shiftl 1 5) =? 0) && (Z.land status (Z.shiftl 1 4) =? 0)
      then busy_wait n (timeout - 1) else ret tt
  end.

Definition wait_r1b (cmd : Z) : M D unit :=
  if Z.land (Z.shiftr cmd 6) 3 =? 3 then busy_wait fuel 0xFFFFFFFF else ret tt.

Definition mmc_send_cmd (cmd arg check_crc : Z) : M D Z :=
  wr32 MMC_ARG arg ;;
  wr32 MMC_CMD cmd ;;
  cmd_wait fuel check_crc ;;
  wait_r1b cmd ;;
  ret 1.

(** [do status = MMC->SR; while (!(status & 0b1));] *)
Fixpoint ready_status (n : nat) : M D Z :=
  match n with
  | O => hang
  | S n => let* status := rd32 MMC_SR in if Z.land status 1 =? 0 then ready_status n else ret status
  end.

Definition mmc_send_adtc (cmd arg block_size block_count check_crc : Z) : M D Z :=
  set32 MMC_MR (Z.lor (Z.shiftl 1 11) (Z.shiftl 1 12)) ;;
  (if negb (Z.land block_size 3 =? 0)
   then set32 MMC_MR (Z.shiftl 1 13)
   else mask32 MMC_MR (Z.lnot (Z.shiftl 1 13))) ;;
  (if Z.land (Z.shiftr cmd 19) 7 =? 4
   then wr32 MMC_BLKR (Z.land (block_size mod 512) 0xFFFF)
   else wr32 MMC_BLKR (Z.lor (Z.shiftl block_size 16) (Z.land block_count 0xFFFF))) ;;
  wr32 MMC_ARG arg ;;
  wr32 MMC_CMD cmd ;;
  let* status := ready_status fuel in
  if negb (Z.land status 0x21FB0000 =? 0) then panic "CMD failed" else
  if negb (check_crc =? 0) && negb (Z.land status (Z.shiftl 1 18) =? 0) then panic "CMD failed CRC error" else
  wait_r1b cmd ;;
  ret 1.

(** ** Responses and data *)

Definition mmc_read_resp48 : M D Z := rd32 (MMC_RESP 0).

(** A response register as the four bytes of [byte_reverse]. *)
Definition resp_bytes (resp : Z) : list Z :=
  [Z.land (Z.shiftr resp 24) 255; Z.land (Z.shiftr resp 16) 255; Z.land (Z.shiftr resp 8) 255; Z.land resp 255].

(** The sixteen bytes written to the buffer. *)
Definition mmc_read_resp136 : M D (list Z) :=
  let* r0 := rd32 (MMC_RESP 0) in
  let* r1 := rd32 (MMC_RESP 1) in
  let* r2 := rd32 (MMC_RESP 2) in
  let* r3 := rd32 (MMC_RESP 3) in
  ret (rev (resp_bytes r0 ++ resp_bytes r1 ++ resp_bytes r2 ++ resp_bytes r3)).

Definition mmc_read_data : M D Z :=
  wait_bits fuel MMC_SR (Z.shiftl 1 1) ;;
  rd32 MMC_RDR.

(** Four bytes stored backwards from index [p]; outside the buffer is undefined. *)
Definition store_reverse (p : Z) (reg : Z) (buffer : list Z) : M D (list Z) :=
  if (3 <=? p) && (p <? Z.of_nat (length buffer)) then
    let i := Z.to_nat p in
    ret (<[(i - 3)%nat := Z.land (Z.shiftr reg 24) 255]> (<[(i - 2)%nat := Z.land (Z.shiftr reg 16) 255]>
      (<[(i - 1)%nat := Z.land (Z.shiftr reg 8) 255]> (<[i := Z.land reg 255]> buffer))))
  else ub.

(** The counter is a byte: with more than 255 words the loop never ends. *)
Fixpoint reverse_loop (n : nat) (i word_count : Z) (buffer : list Z) : M D (list Z) :=
  match n with
  | O => hang
  | S n =>
      if i <? word_count then
        wait_bits fuel MMC_SR (Z.shiftl 1 1) ;;
        let* reg := rd32 MMC_RDR in
        let* buffer := store_reverse (4 * word_count - 1 - 4 * i) reg buffer in
        reverse_loop n (u8 (i + 1)) word_count buffer
      else ret buffer
  end.
Definition mmc_read_data_reverse (buffer : list Z) (word_count : Z) : M D (list Z) :=
  reverse_loop 257 0 word_count buffer.

Definition mmc_write_data (data : Z) : M D unit :=
  wait_bits fuel MMC_SR (Z.shiftl 1 2) ;;
  wr32 MMC_TDR data.

Definition mmc_read_status : M D Z := rd32 MMC_SR.
End Mmc.
