(* ===== verification/MmcTheorems.v ===== *)
(** * Properties of the controller's driver

    The clock divider, and termination on a controller that answers. *)

From S2P Require Import Prelude Hardware Mmc.

(** ** The bus clock *)

(** The divider the mode register selects: 2 x CLKDIV + CLKODD + 2. *)
Definition mmc_divider (mr : Z) : Z := 2 * (mr mod 256) + (mr / 65536) mod 2 + 2.

(** The bits of the mode register that hold it. *)
Definition DIVIDER_BITS : Z := 0x100FF.

(** The two fields the code computes for a frequency. *)
Definition prescaler_of (f : Z) : Z :=
  if u32 (2 * f) <? 150000000 then
    let p := u32 (150000000 / f - 2) in if negb (150000000 mod f =? 0) then u32 (p + 1) else p
  else 0.

Lemma mmc_set_bus_freq_run f b :
  0 < f → 0 ≤ bank_get MMC_MR b < 2 ^ 32 →
  ∃ b', mmc_set_bus_freq f b = Ret (tt, b') ∧
    bank_get MMC_MR b' = u32 (Z.lor (bank_get MMC_MR b)
      (Z.lor (Z.shiftl (u8 (Z.land (prescaler_of f) 1)) 16) (u8 (Z.shiftr (prescaler_of f) 1)))).
Proof.
  intros Hf Hr. unfold mmc_set_bus_freq, prescaler_of.
  set (x := bank_get MMC_MR b) in *.
  assert (∀ v, ∃ b', (mask32 MMC_MR (Z.lnot (Z.land (Z.shiftl 1 16) 0xFF)) ;; set32 MMC_MR v) b = Ret (tt, b') ∧
    bank_get MMC_MR b' = u32 (Z.lor x v)) as Hk.
  { intros v. eexists. split; [reflexivity|]. change (Z.land (Z.shiftl 1 16) 0xFF) with 0.
    fold (bank_set MMC_MR (Z.land (bank_get MMC_MR b) (Z.lnot 0)) b).
    set (b1 := bank_set _ _ b). assert (bank_get MMC_MR b1 = x) as E1.
    { unfold b1. rewrite bank_get_set. fold x. rewrite Z.lnot_0, Z.land_m1_r. apply u32_small. lia. }
    change (bank_get MMC_MR (bank_set MMC_MR (Z.lor (bank_get MMC_MR b1) v) b1) = u32 (Z.lor x v)).
    by rewrite bank_get_set, E1. }
  destruct (u32 (2 * f) <? 150000000) eqn:E.
  - rewrite (eqb_false f 0) by lia. apply Hk.
  - apply Hk.
Qed.

Lemma prescaler_range f : 292398 ≤ f < 2 ^ 31 →
  0 ≤ prescaler_of f < 512 ∧ 150000000 ≤ (prescaler_of f + 2) * f ∧
  (prescaler_of f = 0 ∨ (prescaler_of f + 1) * f < 150000000).
Proof.
  intros Hf. unfold prescaler_of. rewrite (u32_small (2 * f)) by lia.
  destruct (2 * f <? 150000000) eqn:E; [|lia]. apply Z.ltb_lt in E.
  assert (2 ≤ 150000000 / f) as H2 by (apply Z.div_le_lower_bound; lia).
  assert (150000000 / f ≤ 513) as H3.
  { apply Z.lt_succ_r. apply Z.div_lt_upper_bound; lia. }
  pose proof (Z.div_mod 150000000 f ltac:(lia)) as Hdm.
  pose proof (Z.mod_pos_bound 150000000 f ltac:(lia)) as Hm.
  set (q := 150000000 / f) in *. set (r := 150000000 mod f) in *.
  assert (q = 513 → r = 0 → False) as H513 by nia.
  assert (r ≠ 0 → q < 513) as Hr.
  { intros Hr. assert (513 * f ≤ 150000000 → False); [|nia]. lia. }
  nowrap. destruct (r =? 0) eqn:Er; cbn [negb]; [|]; nowrap; nia.
Qed.

Lemma fields_disjoint p : 0 ≤ p < 512 →
  Z.lor (Z.shiftl (u8 (Z.land p 1)) 16) (u8 (Z.shiftr p 1)) = p mod 2 * 65536 + p / 2.
Proof.
  intros Hp. change 1 with (2 ^ 1 - 1) at 1. rewrite land_mask, Z.shiftr_div_pow2 by lia.
  change (2 ^ 1) with 2. rewrite !u8_small by lia.
  rewrite Z.lor_comm, lor_shiftl_add by lia. lia.
Qed.

Lemma divider_fields x y : 0 ≤ x → 0 ≤ y → Z.land x DIVIDER_BITS = 0 →
  mmc_divider (Z.lor x y) = mmc_divider y.
Proof.
  intros Hx Hy E. unfold mmc_divider.
  assert (∀ m, Z.land m DIVIDER_BITS = m → Z.land (Z.lor x y) m = Z.land y m) as Hl.
  { intros m Hm. rewrite Z.land_lor_distr_l. rewrite <- Hm at 1.
    by rewrite (Z.land_comm m), Z.land_assoc, E, Z.land_0_l, Z.lor_0_l. }
  assert ((Z.lor x y) mod 256 = y mod 256) as ->.
  { change 256 with (2 ^ 8). rewrite <- !land_mask by lia. by apply Hl. }
  assert ((Z.lor x y / 65536) mod 2 = (y / 65536) mod 2) as ->; [|done].
  change 65536 with (2 ^ 16). change 2 with (2 ^ 1) at 2 4.
  rewrite <- !Z.shiftr_div_pow2, <- !(land_mask _ 1) by lia.
  change (2 ^ 1 - 1) with (Z.shiftr 65536 16). rewrite <- !Z.shiftr_land. f_equal. by apply Hl.
Qed.

Lemma u32_lor x y : u32 (Z.lor x y) = Z.lor (u32 x) (u32 y).
Proof.
  unfold u32. change 4294967296 with (2 ^ 32). rewrite <- !Z.land_ones by lia. apply Z.land_lor_distr_l.
Qed.

Lemma lor_set_bit r j : 0 ≤ j → Z.testbit r j = true → Z.lor r (2 ^ j) = r.
Proof.
  intros Hj E. apply Z.bits_inj'. intros i Hi. rewrite Z.lor_spec, Z.pow2_bits_eqb by done.
  destruct (j =? i) eqn:Eq; [|by rewrite orb_false_r]. apply Z.eqb_eq in Eq as <-. by rewrite E.
Qed.

Lemma fields_in_divider p : 0 ≤ p < 512 →
  let y := p mod 2 * 65536 + p / 2 in Z.land y (Z.lnot DIVIDER_BITS) = 0 ∧ mmc_divider y = p + 2.
Proof.
  intros Hp y. split; [|unfold mmc_divider, y; lia].
  assert (forallb (λ p, Z.land (p mod 2 * 65536 + p / 2) (Z.lnot DIVIDER_BITS) =? 0) (seqZ 0 512) = true) as Hall
    by (vm_compute; done).
  rewrite forallb_forall in Hall. specialize (Hall p). apply Z.eqb_eq, Hall, list_elem_of_In, elem_of_seqZ. lia.
Qed.

(** The bus clock: from a mode register with a clear divider
    [mmc_set_bus_freq] selects, for every frequency from 292398 Hz that the eight
    bits of the divider can reach, the fastest bus clock derived from 150 MHz that
    is not above it, and leaves the other bits alone.  It never clears the
    divider, though (its mask is zero): after the identification stage set
    400 kHz, the calls for 25 MHz and 50 MHz leave the register as it is. *)
Theorem mmc_bus_clock f b :
  292398 ≤ f < 2 ^ 31 → 0 ≤ bank_get MMC_MR b < 2 ^ 32 →
  ∃ b', mmc_set_bus_freq f b = Ret (tt, b') ∧
    (Z.land (bank_get MMC_MR b) DIVIDER_BITS = 0 →
     let N := mmc_divider (bank_get MMC_MR b') in
     150000000 ≤ N * f ∧ (N = 2 ∨ (N - 1) * f < 150000000) ∧
     Z.land (bank_get MMC_MR b') (Z.lnot DIVIDER_BITS) = bank_get MMC_MR b) ∧
    (mmc_divider (bank_get MMC_MR b) = 375 → f = 25000000 ∨ f = 50000000 →
     bank_get MMC_MR b' = bank_get MMC_MR b).
Proof.
  intros Hf Hr. destruct (mmc_set_bus_freq_run f b ltac:(lia) Hr) as (b' & E & Eb').
  exists b'. split; [done|]. destruct (prescaler_range f Hf) as (Hp & Hge & Hlt).
  rewrite fields_disjoint in Eb' by done. set (p := prescaler_of f) in *. set (x := bank_get MMC_MR b) in *.
  destruct (fields_in_divider p Hp) as [Hn Hd]. set (y := p mod 2 * 65536 + p / 2) in *.
  assert (0 ≤ y < 2 ^ 32) as Hy by (unfold y; lia).
  rewrite u32_lor, !u32_small in Eb' by lia. rewrite Eb'. split.
  - intros Hx. cbv zeta. rewrite divider_fields, Hd by lia. split_and!; [lia|lia|].
    rewrite Z.land_lor_distr_l, Hn, Z.lor_0_r, <- Z.sub_land_same_l, Hx. lia.
  - intros Hx Hf'. assert (x mod 256 = 186 ∧ (x / 65536) mod 2 = 1) as [H8 H16] by (unfold mmc_divider in Hx; lia).
    destruct Hf' as [-> | ->]; vm_compute in y; subst y.
    + apply (lor_set_bit x 1); [lia|]. rewrite <- (Z.mod_pow2_bits_low x 8) by lia.
      change (2 ^ 8) with 256. by rewrite H8.
    + apply (lor_set_bit x 16); [lia|]. rewrite Z.testbit_true by lia. exact H16.
Qed.

(** The register after the call for 400 kHz, and then the one for 50 MHz. *)
Lemma mmc_bus_clock_witness :
  let b0 := Bank {[MMC_MR := 0x1800]} [] in let b1 := Bank {[MMC_MR := 0x118BA]} [] in
  (Z.land (bank_get MMC_MR b0) DIVIDER_BITS = 0 ∧ mmc_divider (bank_get MMC_MR b1) = 375) ∧
  (∃ b', mmc_set_bus_freq 400000 b0 = Ret (tt, b') ∧ 150000000 ≤ mmc_divider (bank_get MMC_MR b') * 400000) ∧
  (∃ b', mmc_set_bus_freq 50000000 b1 = Ret (tt, b') ∧ bank_get MMC_MR b' = bank_get MMC_MR b1).
Proof.
  intros b0 b1. assert (Z.land (bank_get MMC_MR b0) DIVIDER_BITS = 0 ∧ mmc_divider (bank_get MMC_MR b1) = 375) as [H0 H1]
    by (vm_compute; done).
  split; [done|]. split.
  - destruct (mmc_bus_clock 400000 b0) as (b' & E & Hs & _); [lia|vm_compute; split; done|].
    exists b'. split; [done|]. by apply Hs.
  - destruct (mmc_bus_clock 50000000 b1) as (b' & E & _ & Hs); [lia|vm_compute; split; done|].
    exists b'. split; [done|]. apply Hs; [done|by right].
Defined.

(** ** Termination *)

(** A status without the flags of a failed command. *)
Definition cmd_ok (v : Z) : Prop := Z.land v CMD_ERRORS = 0 ∧ Z.land v (Z.shiftl 1 18) = 0.

Section Waits.
Context {D : Type} `{Mmio D}.
Implicit Types d : D.

Lemma cmd_wait_run m k crc d P :
  polls m MMC_SR 1 cmd_ok d P → (m ≤ k)%nat → ∃ v d', cmd_wait k crc d = Ret (tt, d') ∧ P v d'.
Proof.
  revert k d; induction m as [|m IH]; intros k d Hp Hk; [done|]. destruct k as [|k]; [lia|].
  cbn [polls cmd_wait] in *. unfold bind, rd32. destruct (io_read MMC_SR d) as [v d']. cbn [fst snd] in Hp.
  destruct Hp as ([E1 E2] & Hp). rewrite E1, E2. cbn [Z.eqb negb]. rewrite andb_false_r.
  destruct Hp as [(E & Hp)|(E & HP)].
  - rewrite E. cbn [Z.eqb]. apply IH; [done|lia].
  - rewrite (eqb_false _ _ E). by exists v, d'.
Qed.

Lemma ready_status_run m k d P :
  polls m MMC_SR 1 (λ _, True) d P → (m ≤ k)%nat → ∃ v d', ready_status k d = Ret (v, d') ∧ P v d'.
Proof.
  revert k d; induction m as [|m IH]; intros k d Hp Hk; [done|]. destruct k as [|k]; [lia|].
  cbn [polls ready_status] in *. unfold bind, rd32. destruct (io_read MMC_SR d) as [v d']. cbn [fst snd] in Hp.
  destruct Hp as (_ & [(E & Hp)|(E & HP)]).
  - rewrite E. cbn [Z.eqb]. apply IH; [done|lia].
  - rewrite (eqb_false _ _ E). by exists v, d'.
Qed.
End Waits.

Section Responsive.
Context {D : Type} `{Mmio D}.

(** A controller that answers: whatever its state, one of the next [n] reads of the
    status register shows a ready command (1), received data (2) or an idle card
    (bit 4 or 5). *)
Definition responsive (n : nat) : Prop :=
  ∀ mask d, mask ∈ [1; 2; 48] → polls n MMC_SR mask (λ _, True) d (λ _ _, True).

Context (n fuel : nat) (Hresp : responsive n) (Hfuel : (n ≤ fuel)%nat).

Lemma safe_rd32 a : safe (S:=D) (rd32 a).
Proof. intros d. exact I. Qed.
Lemma safe_wr32 a v : safe (S:=D) (wr32 a v).
Proof. apply safe_modify. Qed.
Lemma safe_set32 a v : safe (S:=D) (set32 a v).
Proof. apply safe_bind; [apply safe_rd32|intros r; apply safe_wr32]. Qed.
Lemma safe_mask32 a v : safe (S:=D) (mask32 a v).
Proof. apply safe_bind; [apply safe_rd32|intros r; apply safe_wr32]. Qed.
Hint Resolve safe_rd32 safe_wr32 safe_set32 safe_mask32 : safe.

Lemma cmd_wait_safe m k crc d :
  polls m MMC_SR 1 (λ _, True) d (λ _ _, True) → (m ≤ k)%nat →
  match cmd_wait k crc d with Ret _ | Panic _ => True | UB | Hang => False end.
Proof.
  revert k d; induction m as [|m IH]; intros k d Hp Hk; [done|]. destruct k as [|k]; [lia|].
  cbn [polls cmd_wait] in *. unfold bind, rd32. destruct (io_read MMC_SR d) as [v d']. cbn [fst snd] in Hp.
  destruct (negb (Z.land v CMD_ERRORS =? 0)); [done|].
  destruct (negb (crc =? 0) && negb (Z.land v (Z.shiftl 1 18) =? 0)); [done|].
  destruct Hp as (_ & [(E & Hp)|(E & _)]).
  - rewrite E. apply IH; [done|lia].
  - by rewrite (eqb_false _ _ E).
Qed.

Lemma land_48 v : Z.land v 48 = 0 ↔ Z.land v (Z.shiftl 1 5) = 0 ∧ Z.land v (Z.shiftl 1 4) = 0.
Proof.
  change 48 with (Z.lor (Z.shiftl 1 5) (Z.shiftl 1 4)). rewrite Z.land_lor_distr_r, Z.lor_eq_0_iff. done.
Qed.

Lemma busy_wait_safe m k timeout d :
  polls m MMC_SR 48 (λ _, True) d (λ _ _, True) → (m ≤ k)%nat →
  match busy_wait k timeout d with Ret _ | Panic _ => True | UB | Hang => False end.
Proof.
  revert k timeout d; induction m as [|m IH]; intros k timeout d Hp Hk; [done|]. destruct k as [|k]; [lia|].
  cbn [polls busy_wait] in *. destruct (timeout <=? 1); [done|].
  unfold bind, rd32. destruct (io_read MMC_SR d) as [v d']. cbn [fst snd] in Hp.
  destruct Hp as (_ & [(E & Hp)|(E & _)]).
  - apply land_48 in E as [-> ->]. cbn [Z.eqb andb]. apply IH; [done|lia].
  - rewrite land_48 in E. destruct (Z.land v (Z.shiftl 1 5) =? 0) eqn:E5; [|done]. apply Z.eqb_eq in E5.
    rewrite (eqb_false (Z.land v (Z.shiftl 1 4))) by tauto. done.
Qed.

Lemma safe_cmd_wait crc : safe (S:=D) (cmd_wait fuel crc).
Proof using Hresp Hfuel. intros d. apply (cmd_wait_safe n); [apply Hresp; set_solver|done]. Qed.
Lemma safe_ready_status : safe (S:=D) (ready_status fuel).
Proof using Hresp Hfuel.
  intros d. destruct (ready_status_run n fuel d (λ _ _, True)) as (v & d' & -> & _); [apply Hresp; set_solver|done..].
Qed.
Lemma safe_wait_r1b cmd : safe (S:=D) (wait_r1b fuel cmd).
Proof using Hresp Hfuel.
  unfold wait_r1b. destruct (_ =? 3); [|apply safe_ret].
  intros d. apply (busy_wait_safe n); [apply Hresp; set_solver|done].
Qed.
Lemma safe_wait_rx : safe (S:=D) (wait_bits fuel MMC_SR (Z.shiftl 1 1)).
Proof using Hresp Hfuel.
  intros d. destruct (wait_bits_spec n fuel MMC_SR (Z.shiftl 1 1) (λ _, True) d (λ _ _, True)) as (v & d' & -> & _);
    [apply Hresp; set_solver|done..].
Qed.
Hint Resolve safe_cmd_wait safe_ready_status safe_wait_r1b safe_wait_rx : safe.

Lemma safe_mmc_send_cmd cmd arg crc : safe (S:=D) (mmc_send_cmd fuel cmd arg crc).
Proof using Hresp Hfuel. unfold mmc_send_cmd. safe_tac. Qed.
Lemma safe_mmc_send_adtc cmd arg bs bc crc : safe (S:=D) (mmc_send_adtc fuel cmd arg bs bc crc).
Proof using Hresp Hfuel. unfold mmc_send_adtc. safe_tac. Qed.
Lemma safe_mmc_read_resp136 : safe (S:=D) mmc_read_resp136.
Proof. unfold mmc_read_resp136. safe_tac. Qed.
Lemma safe_mmc_read_data : safe (S:=D) (mmc_read_data fuel).
Proof using Hresp Hfuel. unfold mmc_read_data. safe_tac. Qed.
Lemma safe_mmc_set_bus_freq f : 0 < f → safe (S:=D) (mmc_set_bus_freq f).
Proof using. intros Hf. unfold mmc_set_bus_freq. clear n fuel Hresp Hfuel. rewrite (eqb_false f 0) by lia. safe_tac. Qed.

(** The reversed read fills a buffer of the right length; with at most 255 words it
    ends. *)
Lemma reverse_loop_safe wc k i buffer d :
  0 ≤ i ≤ wc → wc ≤ 255 → Z.of_nat (length buffer) = 4 * wc → (Z.to_nat (wc - i) < k)%nat →
  match reverse_loop fuel k i wc buffer d with
  | Ret (b, _) => length b = length buffer | Panic _ => True | UB | Hang => False end.
Proof using Hresp Hfuel.
  revert i buffer d; induction k as [|k IH]; intros i buffer d Hi Hwc Hl Hk; [lia|].
  cbn [reverse_loop]. destruct (i <? wc) eqn:E; [|done]. apply Z.ltb_lt in E.
  pose proof (safe_wait_rx d) as Hw. unfold bind at 1.
  destruct (wait_bits fuel MMC_SR (Z.shiftl 1 1) d) as [[[] d']| | |]; [|done..].
  unfold bind at 1, rd32. destruct (io_read MMC_RDR d') as [w d''].
  unfold bind, store_reverse. rewrite (proj2 (Z.leb_le _ _)), (proj2 (Z.ltb_lt _ _)) by lia. cbn [andb ret].
  nowrap. specialize (IH (i + 1)). match goal with |- context [reverse_loop _ _ _ _ ?b _] => specialize (IH b d'') end.
  rewrite !length_insert in IH. apply IH; lia.
Qed.

Lemma safe_read_reverse buffer wc :
  0 ≤ wc ≤ 255 → Z.of_nat (length buffer) = 4 * wc → safe (S:=D) (mmc_read_data_reverse fuel buffer wc).
Proof using Hresp Hfuel.
  intros Hwc Hl d. pose proof (reverse_loop_safe wc 257 0 buffer d) as Hs. unfold mmc_read_data_reverse.
  specialize (Hs ltac:(lia) ltac:(lia) Hl ltac:(lia)).
  by destruct (reverse_loop fuel 257 0 wc buffer d) as [[]| | |].
Qed.
End Responsive.
