(* ===== verification/SdProtocol.v ===== *)
(** * The SD card protocol (disk/sd_protocol.c, sd_protocol.h, board/sd.c)

    Identification and set-up of a card, and reading and writing blocks, command
    by command over the controller's driver of Mmc.v.  The state is the device
    and the static [slot_1].  Printed text is left out. *)

From S2P Require Import Prelude Hardware Gpio Clock Mmc.

(** ** Data *)

Record sd_card := SdCardInfo {
  rca : Z;
  cid_name : list Z;
  initialized : Z;
  high_capacity : Z;
  four_bit_bus_support : Z;
  past_v1_10 : Z;
  high_speed : Z;
  kib_size : Z;
  block_count : Z
}.

Definition set_rca v (s : sd_card) : sd_card :=
  SdCardInfo v (cid_name s) (initialized s) (high_capacity s) (four_bit_bus_support s) (past_v1_10 s) (high_speed s) (kib_size s) (block_count s).
Definition set_cid_name v (s : sd_card) : sd_card :=
  SdCardInfo (rca s) v (initialized s) (high_capacity s) (four_bit_bus_support s) (past_v1_10 s) (high_speed s) (kib_size s) (block_count s).
Definition set_high_capacity v (s : sd_card) : sd_card :=
  SdCardInfo (rca s) (cid_name s) (initialized s) v (four_bit_bus_support s) (past_v1_10 s) (high_speed s) (kib_size s) (block_count s).
Definition set_four_bit v (s : sd_card) : sd_card :=
  SdCardInfo (rca s) (cid_name s) (initialized s) (high_capacity s) v (past_v1_10 s) (high_speed s) (kib_size s) (block_count s).
Definition set_past_v1_10 v (s : sd_card) : sd_card :=
  SdCardInfo (rca s) (cid_name s) (initialized s) (high_capacity s) (four_bit_bus_support s) v (high_speed s) (kib_size s) (block_count s).
Definition set_high_speed v (s : sd_card) : sd_card :=
  SdCardInfo (rca s) (cid_name s) (initialized s) (high_capacity s) (four_bit_bus_support s) (past_v1_10 s) v (kib_size s) (block_count s).
Definition set_kib_size v (s : sd_card) : sd_card :=
  SdCardInfo (rca s) (cid_name s) (initialized s) (high_capacity s) (four_bit_bus_support s) (past_v1_10 s) (high_speed s) v (block_count s).

(** The static object starts as zeros. *)
Definition slot_1_init : sd_card := SdCardInfo 0 (replicate 6 0) 0 0 0 0 0 0 0.

(** The responses of the cards. *)
Definition SD_RESP_1 : Z := Z.lor MMC_CMD_EXT_LATENCY MMC_CMD_RESP48.
Definition SD_RESP_1b : Z := Z.lor MMC_CMD_EXT_LATENCY MMC_CMD_R1b.
Definition SD_RESP_2 : Z := Z.lor MMC_CMD_EXT_LATENCY MMC_CMD_RESP136.
Definition SD_RESP_3 : Z := Z.lor MMC_CMD_EXT_LATENCY MMC_CMD_RESP48.
Definition SD_RESP_6 : Z := Z.lor MMC_CMD_EXT_LATENCY MMC_CMD_RESP48.
Definition SD_RESP_7 : Z := Z.lor MMC_CMD_EXT_LATENCY MMC_CMD_RESP48.

Section SdProtocol.
Context {D : Type} `{Mmio D}.
Variable fuel : nat.

Record sd := Sd { sd_dev : D; slot_1 : sd_card }.
Definition with_dev (d : D) (s : sd) : sd := Sd d (slot_1 s).
Definition with_slot (c : sd_card) (s : sd) : sd := Sd (sd_dev s) c.
Definition dev {A} (c : M D A) : M sd A := zoom sd_dev with_dev c.
Definition upd_slot (f : sd_card → sd_card) : M sd unit := modify (λ s, with_slot (f (slot_1 s)) s).
Definition slot {A} (f : sd_card → A) : M sd A := gets (λ s, f (slot_1 s)).

(** ** Commands *)

Definition sd_boot : M sd Z :=
  let* status := dev (mmc_send_cmd fuel (Z.lor MMC_CMD_INIT MMC_CMD_OPEN_DRAIN) 0 1) in
  ret (if negb (status =? 0) then 1 else 0).

Definition sd_exec_cmd_0 : M sd Z :=
  let* status := dev (mmc_send_cmd fuel (Z.lor MMC_CMD_OPEN_DRAIN 0) 0 1) in
  ret (if negb (status =? 0) then 1 else 0).

(** The CID register is returned; its product name goes to the slot. *)
Definition sd_exec_cmd_2 : M sd (option (list Z)) :=
  let* ok := dev (mmc_send_cmd fuel (Z.lor (Z.lor SD_RESP_2 MMC_CMD_OPEN_DRAIN) 2) 0 1) in
  if ok =? 0 then ret None else
  let* cid := dev mmc_read_resp136 in
  upd_slot (set_cid_name (map (λ i, nth (12 - i) cid 0) (seq 0 6))) ;;
  ret (Some cid).

Definition sd_exec_cmd_3 : M sd Z :=
  let* ok := dev (mmc_send_cmd fuel (Z.lor (Z.lor SD_RESP_6 MMC_CMD_OPEN_DRAIN) 3) 0 1) in
  if ok =? 0 then ret 0 else
  let* resp := dev mmc_read_resp48 in
  upd_slot (set_rca (Z.land (Z.shiftr resp 16) 0xFFFF)) ;;
  ret 1.

Definition sd_exec_cmd_8 (vhs : Z) : M sd Z :=
  let arg := Z.lor (Z.shiftl (Z.land vhs 15) 8) 0xAA in
  let* ok := dev (mmc_send_cmd fuel (Z.lor (Z.lor SD_RESP_7 MMC_CMD_OPEN_DRAIN) 8) arg 1) in
  if ok =? 0 then ret 0 else
  let* resp := dev mmc_read_resp48 in
  ret (if Z.land resp 0xFFF =? arg then 1 else 0).

Definition sd_exec_cmd_6 : M sd Z :=
  upd_slot (set_high_speed 0) ;;
  let cmd := Z.lor (Z.lor (Z.lor (Z.lor SD_RESP_1 MMC_CMD_SINGLE) MMC_CMD_START_DATA) MMC_CMD_READ) 6 in
  let arg := Z.lor (Z.lor (Z.shiftl 15 12) (Z.shiftl 15 8)) (Z.shiftl 15 4) in
  let* ok := dev (mmc_send_adtc fuel cmd arg 64 1 1) in
  if ok =? 0 then ret 0 else
  let* buffer := dev (mmc_read_data_reverse fuel (replicate 64 0) 16) in
  let* resp := dev mmc_read_resp48 in
  if negb (Z.land resp (Z.shiftl 1 7) =? 0) then ret 0 else
  if negb (Z.lor (Z.shiftl (nth 35 buffer 0) 8) (nth 34 buffer 0) =? 0) then ret 0 else
  if Z.land (nth 47 buffer 0) 15 =? 15 then upd_slot (set_high_speed 0) ;; ret 1 else
  upd_slot (set_high_speed 1) ;;
  ret 1.

Definition sd_exec_cmd_7 : M sd Z :=
  let* r := slot rca in
  let* status := dev (mmc_send_cmd fuel (Z.lor SD_RESP_1b 7) (u32 (Z.shiftl r 16)) 1) in
  ret (if negb (status =? 0) then 1 else 0).

Definition sd_exec_cmd_9 : M sd (option (list Z)) :=
  let* r := slot rca in
  let* ok := dev (mmc_send_cmd fuel (Z.lor SD_RESP_2 9) (u32 (Z.shiftl r 16)) 1) in
  if ok =? 0 then ret None else
  let* csd := dev mmc_read_resp136 in
  ret (Some csd).

Definition sd_exec_cmd_55 : M sd Z :=
  let* r := slot rca in
  let* status := dev (mmc_send_cmd fuel (Z.lor SD_RESP_1 55) (u32 (Z.shiftl r 16)) 1) in
  ret (if negb (status =? 0) then 1 else 0).

(** [while (timeout--)], from 1000. *)
Fixpoint acmd_41_loop (timeout : nat) (arg : Z) : M sd Z :=
  match timeout with
  | O => ret 0
  | S timeout =>
      let* ok := sd_exec_cmd_55 in
      if ok =? 0 then ret 0 else
      let* ok := dev (mmc_send_cmd fuel (Z.lor (Z.lor SD_RESP_3 MMC_CMD_OPEN_DRAIN) 41) arg 0) in
      if ok =? 0 then ret 0 else
      let* resp := dev mmc_read_resp48 in
      if negb (Z.land resp (Z.shiftl 1 31) =? 0) then
        if negb (Z.land resp (Z.shiftl 3 15) =? Z.shiftl 3 15) then ret 0 else
        upd_slot (set_high_capacity (if negb (Z.land resp (Z.shiftl 1 30) =? 0) then 1 else 0)) ;;
        ret 1
      else acmd_41_loop timeout arg
  end.
Definition sd_exec_acmd_41 (cmd8_resp : Z) : M sd Z :=
  let arg := Z.shiftl 3 20 in
  let arg := if negb (cmd8_resp =? 0) then Z.lor arg (Z.shiftl 1 30) else arg in
  acmd_41_loop 1000 arg.

(** Polls the card's status until it is ready for data. *)
Fixpoint cmd_13_loop (n : nat) (timeout : Z) : M sd Z :=
  match n with
  | O => hang
  | S n =>
      let* r := slot rca in
      let* ok := dev (mmc_send_cmd fuel (Z.lor SD_RESP_1 13) (u32 (Z.shiftl r 16)) 1) in
      if ok =? 0 then ret 0 else
      if timeout <=? 1 then ret 0 else
      let* status := dev mmc_read_resp48 in
      if Z.land status (Z.shiftl 1 8) =? 0 then cmd_13_loop n (timeout - 1) else ret 1
  end.
Definition sd_exec_cmd_13 : M sd Z := cmd_13_loop fuel 200000.

(** The eight bytes of [csr] are all written before they are read. *)
Definition sd_exec_acmd_51 : M sd Z :=
  let* ok := sd_exec_cmd_55 in
  if ok =? 0 then ret 0 else
  let cmd := Z.lor (Z.lor (Z.lor (Z.lor SD_RESP_1 MMC_CMD_READ) MMC_CMD_START_DATA) MMC_CMD_BYTE) 51 in
  let* ok := dev (mmc_send_adtc fuel cmd 0 8 1 1) in
  if ok =? 0 then ret 0 else
  let* csr := dev (mmc_read_data_reverse fuel (replicate 8 0) 2) in
  upd_slot (set_four_bit (if Z.land (Z.shiftr (nth 6 csr 0) 2) 1 =? 1 then 1 else 0)) ;;
  (if negb (Z.land (nth 7 csr 0) 15 =? 0) then upd_slot (set_past_v1_10 1) else ret tt) ;;
  ret 1.

Definition sd_exec_acmd_6 (bus_width : Z) : M sd Z :=
  let* ok := sd_exec_cmd_55 in
  if ok =? 0 then ret 0 else
  let* ok := dev (mmc_send_cmd fuel (Z.lor SD_RESP_1 6) (Z.land bus_width 3) 1) in
  if ok =? 0 then ret 0 else
  let* status := dev mmc_read_resp48 in
  ret (if negb (Z.land status 0xFFF80000 =? 0) then 0 else 1).

(** ** The card-specific data *)

(** The size in the CSD register; [None] is the panic. *)
Definition csd_size (csd : list Z) : option Z :=
  let b i := nth i csd 0 in
  let csd_structure := Z.land (Z.shiftr (b 15%nat) 6) 3 in
  if csd_structure =? 0 then
    let c_size := Z.lor (Z.lor (Z.land (Z.shiftr (b 7%nat) 6) 3) (Z.shiftl (b 8%nat) 2))
                        (Z.shiftl (Z.land (b 9%nat) 3) 10) in
    let c_size_mult := Z.lor (Z.shiftl (Z.land (b 6%nat) 3) 1) (Z.land (Z.shiftr (b 5%nat) 7) 1) in
    let read_bl_len := Z.land (b 10%nat) 15 in
    Some (u32 (u32 ((c_size + 1) * Z.shiftl 1 (c_size_mult + 2)) * Z.shiftl 1 read_bl_len) / 1000)
  else if csd_structure =? 1 then
    let c_size := Z.lor (Z.lor (Z.shiftl (Z.land (b 8%nat) 0x3F) 16) (Z.shiftl (b 7%nat) 8)) (b 6%nat) in
    Some (u32 (c_size * 512))
  else None.
Definition csd_decode (csd : list Z) : M sd unit :=
  match csd_size csd with
  | Some k => upd_slot (set_kib_size k)
  | None => panic "CSD structure error"
  end.

(** ** Initialization *)

(** The identification stage, up to the card's address. *)
Definition sd_identify : M sd unit :=
  upd_slot (set_rca 0) ;;
  let* ok := sd_boot in
  if ok =? 0 then panic "SD boot failed" else
  let* ok := sd_exec_cmd_0 in
  if ok =? 0 then panic "CMD0 failed" else
  let* cmd8_status := sd_exec_cmd_8 1 in
  let* ok := sd_exec_acmd_41 cmd8_status in
  if ok =? 0 then panic "ACMD41 failed" else
  let* cid := sd_exec_cmd_2 in
  match cid with
  | None => panic "Can't retrieve CID register"
  | Some _ =>
      let* ok := sd_exec_cmd_3 in
      if ok =? 0 then panic "Can't retrieve RCA address" else ret tt
  end.

(** The data transfer stage: size, selection, bus width, speed. *)
Definition sd_transfer_setup : M sd unit :=
  let* csd := sd_exec_cmd_9 in
  match csd with
  | None => panic "Retrieve CSD failed"
  | Some csd =>
      csd_decode csd ;;
      let* ok := sd_exec_cmd_7 in
      if ok =? 0 then panic "CMD7 failed" else
      let* ok := sd_exec_acmd_51 in
      if ok =? 0 then panic "ACMD51 failed" else
      let* four := slot four_bit_bus_support in
      (if negb (four =? 0) then
         let* ok := sd_exec_acmd_6 2 in
         if ok =? 0 then panic "Can't set 4-bit bus width" else dev (mmc_set_bus_width MMC_4_LANES)
       else ret tt) ;;
      let* past := slot past_v1_10 in
      if negb (past =? 0) then
        let* ok := sd_exec_cmd_6 in
        if ok =? 0 then panic "CMD6 failed" else
        let* hs := slot high_speed in
        if negb (hs =? 0)
        then dev mmc_enable_high_speed ;; dev (mmc_set_bus_freq 50000000)
        else dev (mmc_set_bus_freq 25000000)
      else ret tt
  end.

Definition sd_protocol_init : M sd unit :=
  dev (peripheral_clock_enable 18) ;;
  dev mmc_reset ;;
  dev mmc_init ;;
  dev (mmc_set_bus_width MMC_1_LANE) ;;
  dev (mmc_set_bus_freq 400000) ;;
  dev mmc_enable ;;
  sd_identify ;;
  sd_transfer_setup.

(** ** Blocks *)

(** [*buffer_word++ = w], the [k]th word; outside the buffer is undefined. *)
Definition put_word (k : nat) (w : Z) (buffer : list Z) : M sd (list Z) :=
  if (4 * k + 4 <=? length buffer)%nat
  then ret (list_inserts (4 * k) (le_split 4 w) buffer) else ub.

Fixpoint read_words (n k : nat) (buffer : list Z) : M sd (list Z) :=
  match n with
  | O => ret buffer
  | S n =>
      let* w := dev (mmc_read_data fuel) in
      let* buffer := put_word k w buffer in
      read_words n (S k) buffer
  end.

Fixpoint sd_read_loop (n : nat) (i sector : Z) (buffer : list Z) : M sd (Z * list Z) :=
  match n with
  | O => ret (1, buffer)
  | S n =>
      let* ok := sd_exec_cmd_13 in
      if ok =? 0 then panic "Card is not ready" else
      let cmd := Z.lor (Z.lor (Z.lor (Z.lor MMC_CMD_SINGLE MMC_CMD_START_DATA) MMC_CMD_READ) SD_RESP_1) 17 in
      let* hc := slot high_capacity in
      let arg := if negb (hc =? 0) then u32 (sector + i) else u32 (u32 (sector + i) * 512) in
      dev (mmc_send_adtc fuel cmd arg 512 1 1) ;;
      let* buffer := read_words 128 (128 * Z.to_nat i) buffer in
      let* status := dev mmc_read_resp48 in
      if negb (Z.land status 0xFFF80000 =? 0) then panic "Write error" else
      sd_read_loop n (i + 1) sector buffer
  end.
Definition sd_read (sector count : Z) (buffer : list Z) : M sd (Z * list Z) :=
  let* k := slot kib_size in
  if u32 (k * 2) <? u32 (sector + count) then panic "Block size wrong" else
  sd_read_loop (Z.to_nat count) 0 sector buffer.

(** A word of the caller's buffer. *)
Definition get_word (k : nat) (buffer : list Z) : M sd Z :=
  if (4 * k + 4 <=? length buffer)%nat then ret (le_join (take 4 (drop (4 * k) buffer))) else ub.

Fixpoint write_words (n k : nat) (buffer : list Z) : M sd unit :=
  match n with
  | O => ret tt
  | S n =>
      let* w := get_word k buffer in
      dev (mmc_write_data fuel w) ;;
      write_words n (S k) buffer
  end.

(** [while (!(mmc_read_status() & (1 << 5)));] *)
Definition sd_write_wait : M sd unit := dev (wait_bits fuel MMC_SR (Z.shiftl 1 5)).

Fixpoint sd_write_loop (n : nat) (i sector : Z) (buffer : list Z) : M sd Z :=
  match n with
  | O => ret 1
  | S n =>
      let cmd := Z.lor (Z.lor (Z.lor (Z.lor MMC_CMD_SINGLE MMC_CMD_START_DATA) MMC_CMD_WRITE) SD_RESP_1) 24 in
      let* hc := slot high_capacity in
      let arg := if negb (hc =? 0) then u32 (sector + i) else u32 (u32 (sector + i) * 512) in
      dev (mmc_send_adtc fuel cmd arg 512 1 1) ;;
      write_words 128 (128 * Z.to_nat i) buffer ;;
      let* status := dev mmc_read_resp48 in
      if negb (Z.land status 0xFFF80000 =? 0) then panic "Read error" else
      sd_write_wait ;;
      sd_write_loop n (i + 1) sector buffer
  end.
Definition sd_write (sector count : Z) (buffer : list Z) : M sd Z :=
  (panic "Watch it" : M sd unit) ;;
  sd_write_loop (Z.to_nat count) 0 sector buffer.

(** The DMA variants do nothing. *)
Definition sd_dma_write (sector count : Z) (buffer : list Z) : M sd Z := ret 1.
Definition sd_dma_read (sector count : Z) (buffer : list Z) : M sd (Z * list Z) := ret (1, buffer).

(** ** The slot's pins (board/sd.c) *)

Definition sd_init : M sd unit := dev (
  gpio_set_function GPIOA 25 GPIO_FUNC_D ;;
  gpio_set_function GPIOA 28 GPIO_FUNC_C ;;
  gpio_set_function GPIOA 30 GPIO_FUNC_C ;;
  gpio_set_function GPIOA 31 GPIO_FUNC_C ;;
  gpio_set_function GPIOA 26 GPIO_FUNC_C ;;
  gpio_set_function GPIOA 27 GPIO_FUNC_C ;;
  peripheral_clock_enable 12 ;;
  gpio_set_function GPIOC 16 GPIO_FUNC_OFF ;;
  gpio_set_direction GPIOC 16 GPIO_INPUT).

Definition sd_is_connected : M sd Z :=
  let* s := dev (gpio_get_pin_status GPIOC 16) in
  ret (if negb (s =? 0) then 0 else 1).
End SdProtocol.
Arguments sd D : clear implicits.
