(* ===== verification/SdTheorems.v ===== *)
(** * Properties of the SD card protocol

    Termination, the size from the card-specific data, and the time-out of CMD8. *)

From S2P Require Import Prelude Hardware Gpio Clock Mmc MmcTheorems SdProtocol.

(** ** Termination *)

Section Termination.
Context {D : Type} `{Mmio D}.
Context (n fuel : nat) (Hresp : responsive (D:=D) n) (Hfuel : (n ≤ fuel)%nat).

Lemma safe_dev {A} (c : M D A) : safe c → safe (dev c).
Proof. apply safe_zoom. Qed.
Lemma safe_upd_slot f : safe (S:=sd D) (upd_slot f).
Proof. apply safe_modify. Qed.
Lemma safe_slot {A} (f : sd_card → A) : safe (S:=sd D) (slot f).
Proof. apply safe_gets. Qed.

Lemma safe_send_cmd cmd arg crc : safe (S:=D) (mmc_send_cmd fuel cmd arg crc).
Proof using Hresp Hfuel. by apply (safe_mmc_send_cmd n). Qed.
Lemma safe_send_adtc cmd arg bs bc crc : safe (S:=D) (mmc_send_adtc fuel cmd arg bs bc crc).
Proof using Hresp Hfuel. by apply (safe_mmc_send_adtc n). Qed.
Lemma safe_read_data : safe (S:=D) (mmc_read_data fuel).
Proof using Hresp Hfuel. by apply (safe_mmc_read_data n). Qed.
Hint Resolve safe_dev safe_upd_slot safe_slot safe_rd32 safe_wr32 safe_set32 safe_mask32 safe_mmc_read_resp136
  safe_send_cmd safe_send_adtc safe_read_data : safe.

Lemma safe_read_rev m wc :
  ((0 <=? wc) && (wc <=? 255) && (Z.of_nat m =? 4 * wc) = true) →
  safe (S:=D) (mmc_read_data_reverse fuel (replicate m 0) wc).
Proof using Hresp Hfuel.
  intros E. apply (safe_read_reverse n fuel Hresp Hfuel); [lia|]. rewrite length_replicate. lia.
Qed.
Lemma safe_read_resp48 : safe (S:=D) mmc_read_resp48.
Proof. apply safe_rd32. Qed.
Hint Resolve safe_read_rev safe_read_resp48 : safe.

Lemma safe_cmd_55 : safe (S:=sd D) (sd_exec_cmd_55 fuel).
Proof using Hresp Hfuel. unfold sd_exec_cmd_55. safe_tac. Qed.
Hint Resolve safe_cmd_55 : safe.

Lemma safe_acmd_41_loop t arg : safe (S:=sd D) (acmd_41_loop fuel t arg).
Proof using Hresp Hfuel. induction t as [|t IH]; cbn [acmd_41_loop]; safe_tac. Qed.
Hint Resolve safe_acmd_41_loop : safe.

Lemma safe_identify : safe (S:=sd D) (sd_identify fuel).
Proof using Hresp Hfuel.
  unfold sd_identify, sd_boot, sd_exec_cmd_0, sd_exec_cmd_8, sd_exec_acmd_41, sd_exec_cmd_2, sd_exec_cmd_3. safe_tac.
Qed.

Lemma safe_set_freq f : 0 < f → safe (S:=sd D) (dev (mmc_set_bus_freq f)).
Proof. intros Hf. apply safe_dev. by apply safe_mmc_set_bus_freq. Qed.

Lemma safe_width w : safe (S:=sd D) (dev (mmc_set_bus_width w)).
Proof. apply safe_dev. unfold mmc_set_bus_width. safe_tac. Qed.
Hint Resolve safe_width : safe.

Lemma safe_cmd_9 : safe (S:=sd D) (sd_exec_cmd_9 fuel).
Proof using Hresp Hfuel. unfold sd_exec_cmd_9. safe_tac. Qed.
Lemma safe_cmd_7 : safe (S:=sd D) (sd_exec_cmd_7 fuel).
Proof using Hresp Hfuel. unfold sd_exec_cmd_7. safe_tac. Qed.
Lemma safe_cmd_6 : safe (S:=sd D) (sd_exec_cmd_6 fuel).
Proof using Hresp Hfuel. unfold sd_exec_cmd_6. safe_tac. Qed.
Lemma safe_acmd_51 : safe (S:=sd D) (sd_exec_acmd_51 fuel).
Proof using Hresp Hfuel. unfold sd_exec_acmd_51. safe_tac. Qed.
Lemma safe_acmd_6 w : safe (S:=sd D) (sd_exec_acmd_6 fuel w).
Proof using Hresp Hfuel. unfold sd_exec_acmd_6. safe_tac. Qed.
Lemma safe_csd_decode csd : safe (S:=sd D) (csd_decode csd).
Proof. unfold csd_decode. safe_tac. Qed.
Hint Resolve safe_cmd_9 safe_cmd_7 safe_cmd_6 safe_acmd_51 safe_acmd_6 safe_csd_decode : safe.

Lemma safe_transfer_setup : safe (S:=sd D) (sd_transfer_setup fuel).
Proof using Hresp Hfuel.
  assert (safe (S:=sd D) (dev mmc_enable_high_speed)) by (unfold mmc_enable_high_speed; auto with safe).
  unfold sd_transfer_setup.
  pose proof (safe_set_freq 50000000 ltac:(lia)). pose proof (safe_set_freq 25000000 ltac:(lia)). safe_tac.
Qed.

Hint Resolve safe_identify safe_transfer_setup : safe.

Lemma safe_init : safe (S:=sd D) (sd_protocol_init fuel).
Proof using Hresp Hfuel.
  pose proof (safe_set_freq 400000 ltac:(lia)).
  assert (safe (S:=D) mmc_reset) by (unfold mmc_reset; safe_tac).
  assert (safe (S:=D) mmc_init) by (unfold mmc_init; safe_tac).
  assert (safe (S:=D) (peripheral_clock_enable 18)) by (unfold peripheral_clock_enable; safe_tac).
  assert (safe (S:=D) mmc_enable) by (unfold mmc_enable; safe_tac). unfold sd_protocol_init. safe_tac.
Qed.

(** The wait for a ready card counts down from 200000. *)
Lemma cmd_13_loop_safe k timeout (s : sd D) :
  0 ≤ timeout → timeout ≤ Z.of_nat k → (0 < k)%nat →
  match cmd_13_loop fuel k timeout s with Ret _ | Panic _ => True | UB | Hang => False end.
Proof using Hresp Hfuel.
  revert timeout s; induction k as [|k IH]; intros timeout s Ht Hk Hk0; [lia|]. cbn [cmd_13_loop].
  assert (∀ r, safe (S:=sd D) (let* ok := dev (mmc_send_cmd fuel (Z.lor SD_RESP_1 13) (u32 (Z.shiftl r 16)) 1) in
    if ok =? 0 then ret 0 else if timeout <=? 1 then ret 0 else
    let* status := dev mmc_read_resp48 in
    if Z.land status (Z.shiftl 1 8) =? 0 then cmd_13_loop fuel k (timeout - 1) else ret 1)) as Hs; [|apply Hs].
  intros r. apply safe_bind; [eauto with safe|]. intros ok. destruct (ok =? 0); [apply safe_ret|].
  destruct (timeout <=? 1) eqn:E; [apply safe_ret|]. apply Z.leb_gt in E.
  apply safe_bind; [eauto with safe|]. intros st. destruct (_ =? 0); [|apply safe_ret].
  intros s'. apply IH; lia.
Qed.

Lemma read_words_safe m k buffer (s : sd D) :
  (4 * (k + m) ≤ length buffer)%nat →
  match read_words fuel m k buffer s with
  | Ret (b, _) => length b = length buffer | Panic _ => True | UB | Hang => False end.
Proof using Hresp Hfuel.
  revert k buffer s; induction m as [|m IH]; intros k buffer s Hl; [done|]. cbn [read_words].
  unfold bind at 1. pose proof (safe_dev _ safe_read_data s) as Hw.
  destruct (dev (mmc_read_data fuel) s) as [[w s']| | |]; [|done..].
  unfold put_word. rewrite (proj2 (Nat.leb_le _ _)) by lia.
  cbn [bind ret]. match goal with |- context [read_words _ _ _ ?b _] => specialize (IH (S k) b s') end.
  rewrite length_inserts in IH. apply IH. lia.
Qed.

Lemma sd_read_loop_safe c i sector buffer (s : sd D) :
  0 ≤ i → 200000 ≤ Z.of_nat fuel → 512 * (i + Z.of_nat c) ≤ Z.of_nat (length buffer) →
  match sd_read_loop fuel c i sector buffer s with Ret _ | Panic _ => True | UB | Hang => False end.
Proof using Hresp Hfuel.
  intros Hi Hfl. revert i buffer s Hi; induction c as [|c IH]; intros i buffer s Hi Hl; [done|]. cbn [sd_read_loop].
  unfold bind at 1, sd_exec_cmd_13. pose proof (cmd_13_loop_safe fuel 200000 s ltac:(lia) Hfl ltac:(lia)) as Hc.
  destruct (cmd_13_loop fuel fuel 200000 s) as [[ok s1]| | |]; [|done..]. destruct (ok =? 0); [done|].
  unfold bind at 1, slot, gets. cbv zeta. unfold bind at 1.
  match goal with |- context [dev ?c ?s] => pose proof (safe_dev c ltac:(eauto with safe) s) as Ha; destruct (dev c s) as [[? s2]| | |] end;
    [|done..].
  unfold bind at 1. pose proof (read_words_safe 128 (128 * Z.to_nat i) buffer s2 ltac:(lia)) as Hr.
  destruct (read_words _ _ _ _ _) as [[b s3]| | |]; [|done..].
  unfold bind at 1. pose proof (safe_dev _ safe_read_resp48 s3) as Hq.
  destruct (dev mmc_read_resp48 s3) as [[st s4]| | |]; [|done..]. destruct (negb _); [done|].
  apply IH; [lia|]. rewrite Hr. lia.
Qed.

(** C39. The driver terminates: on a controller that answers (one of every [n]
    reads of its status shows progress) initialization returns or panics from
    every state, and so does reading [count] blocks into a buffer that holds them:
    no wait loops for ever, whatever the card answers, and the reversed copies of
    the registers stay in their buffers. *)
Theorem sd_driver_terminates sector count buffer (s : sd D) :
  200000 ≤ Z.of_nat fuel → 0 ≤ count → 512 * count ≤ Z.of_nat (length buffer) →
  match sd_protocol_init fuel s with Ret _ | Panic _ => True | UB | Hang => False end ∧
  match sd_read fuel sector count buffer s with Ret _ | Panic _ => True | UB | Hang => False end.
Proof using Hresp Hfuel.
  intros Hf Hc Hl. split; [apply safe_init|]. unfold sd_read, slot, gets, bind at 1. cbv zeta.
  destruct (_ <? _); [done|]. apply sd_read_loop_safe; lia.
Qed.
End Termination.

(** ** The card-specific data register *)

(** Bits [hi:lo] of the register whose bytes, lowest first, are [csd]. *)
Definition csd_field (csd : list Z) (hi lo : Z) : Z := (le_join csd / 2 ^ lo) mod 2 ^ (hi - lo + 1).

Lemma le_join_drop k bs : Forall byte bs → le_join bs / 2 ^ (8 * Z.of_nat k) = le_join (drop k bs).
Proof.
  revert bs; induction k as [|k IH]; intros bs Hb; [cbn; by rewrite Z.div_1_r|].
  destruct Hb as [|b bs Hb Hbs]; [cbn; by rewrite Z.div_0_l by lia|].
  cbn [drop]. rewrite <- IH by done. rewrite Nat2Z.inj_succ.
  replace (8 * Z.succ (Z.of_nat k)) with (8 + 8 * Z.of_nat k) by lia.
  rewrite Z.pow_add_r, <- Z.div_div by lia. f_equal. cbn [le_join]. unfold byte in Hb. change (2 ^ 8) with 256. lia.
Qed.

(** A field of [w] bits that starts at bit [d] of byte [k]. *)
Lemma csd_field_drop csd hi lo k d w :
  Forall byte csd → 0 ≤ d → lo = 8 * Z.of_nat k + d → w = hi - lo + 1 →
  csd_field csd hi lo = (le_join (drop k csd) / 2 ^ d) mod 2 ^ w.
Proof.
  intros Hb Hd -> ->. unfold csd_field. rewrite <- le_join_drop by done.
  pose proof (Z.pow_pos_nonneg 2 (8 * Z.of_nat k) ltac:(lia) ltac:(lia)).
  pose proof (Z.pow_pos_nonneg 2 d ltac:(lia) ltac:(lia)).
  rewrite Z.div_div, <- Z.pow_add_r by lia. done.
Qed.

(** What the specification of the cards says about the size, in KiB: [(C_SIZE + 1)
    * 512] in version 2, [(C_SIZE + 1) * 2 ^ (C_SIZE_MULT + 2) * 2 ^ READ_BL_LEN /
    1024] in version 1. *)
Definition card_kib_v2 (csd : list Z) : Z := (csd_field csd 69 48 + 1) * 512.
Definition card_bytes_v1 (csd : list Z) : Z :=
  (csd_field csd 73 62 + 1) * 2 ^ (csd_field csd 49 47 + 2) * 2 ^ csd_field csd 83 80.

Ltac csd_bytes :=
  repeat match goal with H : length ?l = S _ |- _ =>
    destruct l as [|? l]; [done|]; apply (f_equal pred) in H; cbn [pred length] in H end;
  repeat match goal with H : length ?l = O |- _ => apply nil_length_inv in H; subst l end.

Lemma shift_or3 a b c i j : 0 ≤ i ≤ j → 0 ≤ a < 2 ^ i → 0 ≤ b < 2 ^ (j - i) →
  Z.lor (Z.lor a (Z.shiftl b i)) (Z.shiftl c j) = a + b * 2 ^ i + c * 2 ^ j.
Proof.
  intros [Hi Hij] Ha Hb. rewrite (lor_shiftl_add a b i) by done. rewrite lor_shiftl_add; [done|by etrans|].
  assert (2 ^ j = 2 ^ (j - i) * 2 ^ i) as -> by (rewrite <- Z.pow_add_r by lia; f_equal; lia).
  pose proof (Z.pow_pos_nonneg 2 i ltac:(lia) ltac:(lia)).
  pose proof (Z.mul_le_mono_nonneg_r (b + 1) (2 ^ (j - i)) (2 ^ i) ltac:(lia) ltac:(lia)).
  pose proof (Z.mul_nonneg_nonneg b (2 ^ i) ltac:(lia) ltac:(lia)). lia.
Qed.

Lemma land_3 x : Z.land x 3 = x mod 4.
Proof. exact (land_mask x 2 ltac:(lia)). Qed.

Lemma csd_byte csd i : Forall byte csd → byte (nth i csd 0).
Proof.
  intros Hb.
  destruct (lt_dec i (length csd)) as [Hi|Hi].
  - rewrite Forall_forall in Hb. apply Hb, list_elem_of_In, nth_In. done.
  - rewrite nth_overflow by lia. unfold byte. lia.
Qed.

Lemma field_structure csd : length csd = 16%nat → Forall byte csd →
  csd_field csd 127 126 = Z.land (Z.shiftr (nth 15 csd 0) 6) 3.
Proof.
  intros Hl Hb.
  rewrite (csd_field_drop csd 127 126 15 6 2) by done. rewrite land_3, Z.shiftr_div_pow2 by lia.
  csd_bytes. cbn [drop le_join nth]. change (2 ^ 6) with 64. change (2 ^ 2) with 4. lia.
Qed.

Lemma field_c_size_v1 csd : length csd = 16%nat → Forall byte csd →
  csd_field csd 73 62 = Z.lor (Z.lor (Z.land (Z.shiftr (nth 7 csd 0) 6) 3) (Z.shiftl (nth 8 csd 0) 2)) (Z.shiftl (Z.land (nth 9 csd 0) 3) 10).
Proof.
  intros Hl Hb.
  pose proof (csd_byte csd 7 Hb). pose proof (csd_byte csd 8 Hb). unfold byte in *.
  rewrite (csd_field_drop csd 73 62 7 6 12) by done. rewrite !land_3, Z.shiftr_div_pow2 by lia.
  rewrite shift_or3 by (change (2 ^ (10 - 2)) with 256; change (2 ^ 2) with 4; lia).
  csd_bytes. cbn [drop le_join nth] in *.
  change (2 ^ 6) with 64. change (2 ^ 12) with 4096. change (2 ^ 2) with 4. change (2 ^ 10) with 1024. lia.
Qed.

Lemma field_c_size_mult csd : length csd = 16%nat → Forall byte csd →
  csd_field csd 49 47 = Z.lor (Z.shiftl (Z.land (nth 6 csd 0) 3) 1) (Z.land (Z.shiftr (nth 5 csd 0) 7) 1).
Proof.
  intros Hl Hb.
  pose proof (csd_byte csd 5 Hb). unfold byte in *. rewrite (csd_field_drop csd 49 47 5 7 3) by done.
  change (Z.land (Z.shiftr (nth 5 csd 0) 7) 1) with (Z.land (Z.shiftr (nth 5 csd 0) 7) (2 ^ 1 - 1)).
  rewrite land_3, land_mask, Z.shiftr_div_pow2, Z.lor_comm by lia.
  rewrite lor_shiftl_add by (change (2 ^ 1) with 2; lia). csd_bytes. cbn [drop le_join nth] in *.
  change (2 ^ 7) with 128. change (2 ^ 3) with 8. change (2 ^ 1) with 2. lia.
Qed.

Lemma field_read_bl_len csd : length csd = 16%nat → Forall byte csd → csd_field csd 83 80 = Z.land (nth 10 csd 0) 15.
Proof.
  intros Hl Hb.
  rewrite (csd_field_drop csd 83 80 10 0 4) by done. change 15 with (2 ^ 4 - 1). rewrite land_mask by lia.
  csd_bytes. cbn [drop le_join nth]. rewrite Z.div_1_r. change (2 ^ 4) with 16. lia.
Qed.

Lemma field_c_size_v2 csd : length csd = 16%nat → Forall byte csd →
  csd_field csd 69 48 = Z.lor (Z.lor (Z.shiftl (Z.land (nth 8 csd 0) 0x3F) 16) (Z.shiftl (nth 7 csd 0) 8)) (nth 6 csd 0).
Proof.
  intros Hl Hb.
  pose proof (csd_byte csd 6 Hb). pose proof (csd_byte csd 7 Hb). unfold byte in *.
  rewrite (csd_field_drop csd 69 48 6 0 22) by done. change 0x3F with (2 ^ 6 - 1). rewrite land_mask by lia.
  rewrite Z.lor_comm, (Z.lor_comm (Z.shiftl _ 16)), Z.lor_assoc.
  rewrite shift_or3 by (change (2 ^ (16 - 8)) with 256; change (2 ^ 8) with 256; lia).
  csd_bytes. cbn [drop le_join nth] in *. rewrite Z.div_1_r.
  change (2 ^ 22) with 4194304. change (2 ^ 16) with 65536. change (2 ^ 8) with 256. change (2 ^ 6) with 64. lia.
Qed.

(** The size of the card: [csd_decode] reads the fields of the register where
    the specification of the cards has them.  For version 2 it drops the "+ 1" of
    the size, so that [sd_read] refuses the last 512 KiB of every such card; for
    version 1 it divides the bytes by 1000 instead of 1024, and so takes the card
    for larger than it is.  Other versions panic. *)
Theorem csd_decode_size {D} `{Mmio D} csd (s : sd D) :
  length csd = 16%nat → Forall byte csd →
  match csd_field csd 127 126 with
  | 0 => card_bytes_v1 csd < 2 ^ 32 →
         csd_decode csd s = Ret (tt, with_slot (set_kib_size (card_bytes_v1 csd / 1000) (slot_1 s)) s)
  | 1 => csd_decode csd s = Ret (tt, with_slot (set_kib_size (card_kib_v2 csd - 512) (slot_1 s)) s)
  | _ => csd_decode csd s = Panic "CSD structure error"
  end.
Proof.
  intros Hl Hb. unfold csd_decode, csd_size.
  rewrite <- field_structure, <- field_c_size_v1, <- field_c_size_mult, <- field_read_bl_len, <- field_c_size_v2 by done.
  unfold card_bytes_v1, card_kib_v2.
  pose proof (Z.mod_pos_bound (le_join csd / 2 ^ 126) (2 ^ (127 - 126 + 1)) ltac:(done)) as Hs.
  fold (csd_field csd 127 126) in Hs. change (2 ^ (127 - 126 + 1)) with 4 in Hs.
  pose proof (Z.mod_pos_bound (le_join csd / 2 ^ 48) (2 ^ (69 - 48 + 1)) ltac:(done)) as H2.
  fold (csd_field csd 69 48) in H2. change (2 ^ (69 - 48 + 1)) with 4194304 in H2.
  pose proof (Z.mod_pos_bound (le_join csd / 2 ^ 62) (2 ^ (73 - 62 + 1)) ltac:(done)) as H1.
  fold (csd_field csd 73 62) in H1. change (2 ^ (73 - 62 + 1)) with 4096 in H1.
  pose proof (Z.mod_pos_bound (le_join csd / 2 ^ 47) (2 ^ (49 - 47 + 1)) ltac:(done)) as Hm.
  fold (csd_field csd 49 47) in Hm. change (2 ^ (49 - 47 + 1)) with 8 in Hm.
  pose proof (Z.mod_pos_bound (le_join csd / 2 ^ 80) (2 ^ (83 - 80 + 1)) ltac:(done)) as Hr.
  fold (csd_field csd 83 80) in Hr. change (2 ^ (83 - 80 + 1)) with 16 in Hr.
  generalize dependent (csd_field csd 127 126). generalize dependent (csd_field csd 69 48).
  generalize dependent (csd_field csd 73 62). generalize dependent (csd_field csd 49 47).
  generalize dependent (csd_field csd 83 80). intros r Hr m Hm c H1 c2 H2 v Hv.
  assert (v = 0 ∨ v = 1 ∨ v = 2 ∨ v = 3) as [->|[->|[->| ->]]] by lia; [| |done..].
  - intros Hlt. cbn [Z.eqb]. rewrite !Z.shiftl_1_l. 
    pose proof (Z.pow_pos_nonneg 2 r ltac:(lia) ltac:(lia)). pose proof (Z.pow_pos_nonneg 2 (m + 2) ltac:(lia) ltac:(lia)).
    rewrite (u32_small ((c + 1) * _)) by nia. rewrite u32_small by nia. done.
  - cbn [Z.eqb Pos.eqb]. rewrite u32_small by lia. replace ((c2 + 1) * 512 - 512) with (c2 * 512) by lia. done.
Qed.

(** A card of version 2 with [C_SIZE] 15159: 7761920 KiB, of which the driver sees
    7761408. *)
Definition ex_csd : list Z := [0; 0; 0; 0; 0; 0; 0x37; 0x3B; 0; 0; 9; 0; 0; 0; 0; 0x40].

Lemma csd_decode_size_witness :
  let s := Sd (Bank ∅ []) slot_1_init in
  (length ex_csd = 16%nat ∧ Forall byte ex_csd) ∧ csd_field ex_csd 127 126 = 1 ∧
  csd_decode ex_csd s = Ret (tt, with_slot (set_kib_size (7761920 - 512) (slot_1 s)) s).
Proof.
  intros s. assert (length ex_csd = 16%nat ∧ Forall byte ex_csd) as [Hl Hb].
  { split; [done|]. apply (bool_decide_unpack _). vm_compute. done. }
  split; [done|]. split; [vm_compute; done|]. exact (csd_decode_size ex_csd s Hl Hb).
Defined.

(** ** No answer to CMD8 *)

Section TimeOut.
Context {D : Type} `{Mmio D}.

Lemma cmd_wait_error m k crc d :
  polls m MMC_SR CMD_ERRORS (λ v, Z.land v CMD_ERRORS = 0 → Z.land v 1 = 0) d (λ _ _, True) →
  (m ≤ k)%nat → ∃ r, cmd_wait k crc d = Panic r.
Proof.
  revert k d; induction m as [|m IH]; intros k d Hp Hk; [done|]. destruct k as [|k]; [lia|].
  cbn [polls cmd_wait] in *. unfold bind, rd32. destruct (io_read MMC_SR d) as [v d']. cbn [fst snd] in Hp.
  destruct Hp as (HQ & [(E & Hp)|(E & _)]).
  - rewrite E. cbn [Z.eqb negb]. destruct (negb (crc =? 0) && _); [by eexists|]. rewrite HQ by done.
    apply IH; [done|lia].
  - rewrite (eqb_false _ _ E). by eexists.
Qed.

(** A card that does not answer: [mmc_send_cmd] never returns 0, it panics when
    the controller reports that no response came.  So [sd_exec_cmd_8] cannot tell
    a version 1 card by the 0 its comment promises: with a card that lets CMD8
    time out the kernel panics. *)
Theorem cmd8_timeout_panics m fuel vhs (s : sd D) :
  (∀ cmd arg crc d v d', mmc_send_cmd fuel cmd arg crc d = Ret (v, d') → v = 1) ∧
  ((m ≤ fuel)%nat → 
   let d := io_write MMC_CMD 0x1848 (io_write MMC_ARG (u32 (Z.lor (Z.shiftl (Z.land vhs 15) 8) 0xAA)) (sd_dev s)) in
   polls m MMC_SR CMD_ERRORS (λ v, Z.land v CMD_ERRORS = 0 → Z.land v 1 = 0) d (λ _ _, True) →
   ∃ r, sd_exec_cmd_8 fuel vhs s = Panic r).
Proof.
  split.
  - intros cmd arg crc d v d' E. unfold mmc_send_cmd in E.
    repeat match type of E with bind _ _ _ = Ret _ => apply bind_inv in E as (? & ? & _ & E) end. unfold ret in E. by simplify_eq.
  - intros Hm d Hp. destruct (cmd_wait_error m fuel 1 d Hp Hm) as [r E]. exists r.
    unfold sd_exec_cmd_8. apply bind_Panic. unfold dev, zoom.
    assert (mmc_send_cmd fuel (Z.lor (Z.lor SD_RESP_7 MMC_CMD_OPEN_DRAIN) 8)
      (Z.lor (Z.shiftl (Z.land vhs 15) 8) 0xAA) 1 (sd_dev s) = Panic r) as ->; [|done].
    unfold mmc_send_cmd, bind at 1, wr32, modify. unfold bind at 1. unfold bind at 1. fold d.
    change (u32 (Z.lor (Z.lor SD_RESP_7 MMC_CMD_OPEN_DRAIN) 8)) with 0x1848. fold d. by rewrite E.
Qed.
End TimeOut.

Definition timed_out : bank := Bank {[MMC_SR := Z.shiftl 1 20]} [].

Lemma cmd8_timeout_panics_witness :
  let s := Sd timed_out slot_1_init in
  let d := io_write MMC_CMD 0x1848 (io_write MMC_ARG (u32 (Z.lor (Z.shiftl (Z.land 1 15) 8) 0xAA)) (sd_dev s)) in
  ((1 ≤ 5)%nat ∧
   polls 1 MMC_SR CMD_ERRORS (λ v, Z.land v CMD_ERRORS = 0 → Z.land v 1 = 0) d (λ _ _, True)) ∧
  ∃ r, sd_exec_cmd_8 5 1 s = Panic r.
Proof.
  intros s d. assert (polls 1 MMC_SR CMD_ERRORS (λ v, Z.land v CMD_ERRORS = 0 → Z.land v 1 = 0) d (λ _ _, True)) as Hp.
  { split; [intros E; vm_compute in E; discriminate E|]. right. split; [|done]. intros E; vm_compute in E; discriminate E. }
  split; [split; [lia|done]|]. exact (proj2 (cmd8_timeout_panics 1 5 1 s) ltac:(lia) Hp).
Defined.
