(* ===== verification/Spinlock.v ===== *)
(** * Spinlocks (kernel/spinlock.h, cpu/exclusive.h)

    The lock is one word that threads reach with the exclusive load and store of the
    processor, so the model interleaves the threads instruction by instruction.
    The exclusive monitor is the processor's: an exclusive load marks the thread, a
    write to the word clears every mark, an interrupt may clear a mark at any time,
    and an exclusive store writes only for a marked thread. *)

From S2P Require Import Prelude.

(** Where a thread is in [spinlock_aquire] and [spinlock_release]: outside, before
    the exclusive load of the inner loop, before the exclusive store, before the
    barrier, holding the lock, and before the store that releases it. *)
Inductive pc := Out | Load | Store | Fence | Inside | Unlock.
#[export] Instance pc_eq_dec : EqDecision pc.
Proof. solve_decision. Defined.

(** [struct spinlock] and the threads that use it. *)
Record lock_state := LockState {
  lock : Z;
  pcs : gmap nat pc;
  excl : gset nat
}.

Definition at_pc (t : nat) (s : lock_state) : pc := default Out (pcs s !! t).
Definition goto (t : nat) (p : pc) (s : lock_state) : lock_state := LockState (lock s) (<[t := p]> (pcs s)) (excl s).

Definition spinlock_init : lock_state := LockState 0 ∅ ∅.

(** [ldrex]: the value, and the mark. *)
Definition ldrex (t : nat) (s : lock_state) : Z * lock_state :=
  (lock s, LockState (lock s) (pcs s) ({[t]} ∪ excl s)).
(** [strex]: 0 and the write for a marked thread, 1 otherwise. *)
Definition strex (t : nat) (v : Z) (s : lock_state) : Z * lock_state :=
  if decide (t ∈ excl s) then (0, LockState v (pcs s) ∅) else (1, s).
(** A plain store to the word. *)
Definition store (v : Z) (s : lock_state) : lock_state := LockState v (pcs s) ∅.

(** What can happen: a thread calls [spinlock_aquire], a thread executes its next
    instruction, the holder calls [spinlock_release], a mark is lost. *)
Inductive lock_event := Call (t : nat) | Step (t : nat) | Return (t : nat) | Lose (t : nat).

Definition spinlock_aquire (t : nat) (s : lock_state) : lock_state :=
  match at_pc t s with
  | Load => let '(v, s) := ldrex t s in if v =? 0 then goto t Store s else goto t Load s
  | Store => let '(status, s) := strex t 1 s in if status =? 0 then goto t Fence s else goto t Load s
  | Fence => goto t Inside s
  | _ => s
  end.
Definition spinlock_release (t : nat) (s : lock_state) : lock_state :=
  match at_pc t s with
  | Unlock => goto t Out (store 0 s)
  | _ => s
  end.

Definition lock_step (e : lock_event) (s : lock_state) : option lock_state :=
  match e with
  | Call t => match at_pc t s with Out => Some (goto t Load s) | _ => None end
  | Step t => match at_pc t s with
              | Load | Store | Fence => Some (spinlock_aquire t s)
              | Unlock => Some (spinlock_release t s)
              | _ => None
              end
  | Return t => match at_pc t s with Inside => Some (goto t Unlock s) | _ => None end
  | Lose t => Some (LockState (lock s) (pcs s) (excl s ∖ {[t]}))
  end.

(** The states an interleaving of any number of threads can reach. *)
Inductive reachable : lock_state → Prop :=
  | reach_init : reachable spinlock_init
  | reach_step s e s' : reachable s → lock_step e s = Some s' → reachable s'.

Fixpoint run_events (es : list lock_event) (s : lock_state) : option lock_state :=
  match es with [] => Some s | e :: es => match lock_step e s with Some s' => run_events es s' | None => None end end.

(** ** Mutual exclusion *)

(** The thread has the lock. *)
Definition holds (p : pc) : Prop := p = Fence ∨ p = Inside ∨ p = Unlock.
#[export] Instance holds_dec p : Decision (holds p).
Proof. unfold holds. apply _. Defined.

Record lock_inv (s : lock_state) : Prop := {
  li_value : lock s = 0 ∨ lock s = 1;
  li_free t : lock s = 0 → ¬ holds (at_pc t s);
  li_held : lock s = 1 → ∃ t, holds (at_pc t s);
  li_one t t' : holds (at_pc t s) → holds (at_pc t' s) → t = t';
  (** A thread about to store is marked only while nobody took the lock. *)
  li_store t : at_pc t s = Store → t ∈ excl s → lock s = 0
}.

Lemma at_goto t p t' s : at_pc t' (goto t p s) = if decide (t = t') then p else at_pc t' s.
Proof. unfold at_pc, goto. cbn. rewrite lookup_insert. by case_decide. Qed.

Lemma init_inv : lock_inv spinlock_init.
Proof.
  constructor; cbn; [by left|..].
  - intros t _ [H|[H|H]]; done.
  - done.
  - intros t t' [H|[H|H]]; done.
  - intros t H; done.
Qed.

(** A thread that neither has nor gets the lock. *)
Lemma quiet_inv t p E s :
  lock_inv s → ¬ holds p → ¬ holds (at_pc t s) → E ⊆ {[t]} ∪ excl s → (p = Store → lock s = 0) →
  lock_inv (goto t p (LockState (lock s) (pcs s) E)).
Proof.
  intros [Hv Hf Hh Ho Hs] Hp Ht HE HS.
  assert (∀ u, at_pc u (goto t p (LockState (lock s) (pcs s) E)) = if decide (t = u) then p else at_pc u s) as Hat
    by (intros u; exact (at_goto t p u (LockState (lock s) (pcs s) E))).
  assert (∀ u, holds (at_pc u (goto t p (LockState (lock s) (pcs s) E))) ↔ holds (at_pc u s)) as Hhu.
  { intros u. rewrite Hat. case_decide as Et; [subst u; tauto|done]. }
  constructor; cbn [lock goto].
  - done.
  - intros u H0. rewrite Hhu. by apply Hf.
  - intros H1. destruct (Hh H1) as [u Hu]. exists u. by rewrite Hhu.
  - intros u u'. rewrite !Hhu. apply Ho.
  - intros u. rewrite Hat. cbn [excl goto]. case_decide as Et; [intros ->; auto|].
    intros Hu Hin. apply (Hs u Hu). set_solver.
Qed.

(** The holder moves on. *)
Lemma holder_inv t p s :
  lock_inv s → holds p → p ≠ Store → holds (at_pc t s) → lock_inv (goto t p s).
Proof.
  intros [Hv Hf Hh Ho Hs] Hp Hne Ht.
  assert (∀ u, holds (at_pc u (goto t p s)) ↔ holds (at_pc u s)) as Hhu.
  { intros u. rewrite at_goto. case_decide as Et; [subst u; tauto|done]. }
  constructor; cbn [lock goto excl].
  - done.
  - intros u H0. rewrite Hhu. by apply Hf.
  - intros H1. destruct (Hh H1) as [u Hu]. exists u. by rewrite Hhu.
  - intros u u'. rewrite !Hhu. apply Ho.
  - intros u. rewrite at_goto. case_decide as Et; [by intros ->|apply Hs].
Qed.

(** The exclusive store succeeds. *)
Lemma take_inv t s :
  lock_inv s → at_pc t s = Store → t ∈ excl s → lock_inv (goto t Fence (LockState 1 (pcs s) ∅)).
Proof.
  intros [Hv Hf Hh Ho Hs] Ht Hin. specialize (Hs t Ht Hin).
  assert (∀ u, holds (at_pc u (goto t Fence (LockState 1 (pcs s) ∅))) ↔ u = t) as Hhu.
  { intros u. rewrite at_goto. case_decide as Et; [subst u; split; [done|by left]|].
    change (at_pc u (LockState 1 (pcs s) ∅)) with (at_pc u s). specialize (Hf u Hs). naive_solver. }
  constructor; cbn [lock goto excl]; [by right|done| | |set_solver].
  - intros _. exists t. by apply Hhu.
  - intros u u'. rewrite !Hhu. congruence.
Qed.

(** The holder gives the lock back. *)
Lemma give_inv t s : lock_inv s → at_pc t s = Unlock → lock_inv (goto t Out (LockState 0 (pcs s) ∅)).
Proof.
  intros [Hv Hf Hh Ho Hs] Ht.
  assert (∀ u, ¬ holds (at_pc u (goto t Out (LockState 0 (pcs s) ∅)))) as Hhu.
  { intros u. rewrite at_goto. case_decide as Et; [by intros [H|[H|H]]|].
    change (at_pc u (LockState 0 (pcs s) ∅)) with (at_pc u s). intros Hu. apply Et.
    apply Ho; [rewrite Ht; right; by right|done]. }
  constructor; cbn [lock goto excl]; [by left|intros u _; apply Hhu|done| |set_solver].
  intros u u' Hu. by destruct (Hhu u).
Qed.

Lemma not_holds p : p = Out ∨ p = Load ∨ p = Store → ¬ holds p.
Proof. intros [->|[->| ->]] [H|[H|H]]; done. Qed.

Lemma step_inv e s s' : lock_inv s → lock_step e s = Some s' → lock_inv s'.
Proof.
  intros Hi E. destruct e as [t|t|t|t]; cbn [lock_step] in E.
  - destruct (at_pc t s) eqn:Ht; simplify_eq.
    apply (quiet_inv t Load (excl s) s); [done|by apply not_holds; auto|rewrite Ht; by apply not_holds; auto|set_solver|done].
  - unfold spinlock_aquire, spinlock_release in E. destruct (at_pc t s) eqn:Ht; simplify_eq.
    + cbn [ldrex]. destruct (lock s =? 0) eqn:E0.
      * apply (quiet_inv t Store); [done|by apply not_holds; auto|rewrite Ht; by apply not_holds; auto|done|].
        intros _. by apply Z.eqb_eq.
      * apply (quiet_inv t Load); [done|by apply not_holds; auto|rewrite Ht; by apply not_holds; auto|done|done].
    + unfold strex. case_decide as Hin; cbn [Z.eqb].
      * by apply take_inv.
      * apply (quiet_inv t Load (excl s) s); [done|by apply not_holds; auto|rewrite Ht; by apply not_holds; auto|set_solver|done].
    + apply holder_inv; [done|right; by left|done|rewrite Ht; by left].
    + by apply give_inv.
  - destruct (at_pc t s) eqn:Ht; simplify_eq.
    apply holder_inv; [done|right; by right|done|rewrite Ht; right; by left].
  - injection E as <-. destruct Hi as [Hv Hf Hh Ho Hs]. constructor; [done..|].
    intros u Hu Hin. apply (Hs u Hu). cbn in Hin. set_solver.
Qed.

Lemma reachable_inv s : reachable s → lock_inv s.
Proof. induction 1; [apply init_inv|by eapply step_inv]. Qed.

(** C20. Mutual exclusion and progress, for any number of threads and every
    interleaving of their instructions, with marks that may be lost at any time: in
    every reachable state at most one thread is between the exclusive store of
    [spinlock_aquire] and the store of [spinlock_release], the word is 1 exactly
    when there is one, and when there is none, any thread that is trying gets the
    lock by its own next three instructions at most. *)
Theorem spinlock_mutual_exclusion s :
  reachable s →
  (∀ t t', holds (at_pc t s) → holds (at_pc t' s) → t = t') ∧
  (lock s = 1 ↔ ∃ t, holds (at_pc t s)) ∧
  (∀ t, (∀ u, ¬ holds (at_pc u s)) → at_pc t s = Load ∨ at_pc t s = Store →
   ∃ n s', (n ≤ 3)%nat ∧ run_events (replicate n (Step t)) s = Some s' ∧ at_pc t s' = Fence).
Proof.
  intros Hr. pose proof (reachable_inv s Hr) as [Hv Hf Hh Ho Hs]. split_and!.
  - exact Ho.
  - split; [exact Hh|]. intros [t Ht]. destruct Hv as [H0|H1]; [|done]. by destruct (Hf t H0).
  - intros t Hnone Ht. assert (lock s = 0) as H0.
    { destruct Hv as [H0|H1]; [done|]. destruct (Hh H1) as [u Hu]. by destruct (Hnone u). }
    assert (∀ s0, lock s0 = 0 → at_pc t s0 = Load →
      ∃ s', run_events (replicate 2 (Step t)) s0 = Some s' ∧ at_pc t s' = Fence) as H2.
    { intros s0 E0 Et. cbn [replicate run_events lock_step]. rewrite Et. unfold spinlock_aquire. rewrite Et. cbn [ldrex].
      rewrite E0. cbn [Z.eqb]. rewrite at_goto, decide_True by done. unfold strex. cbn [excl goto].
      rewrite decide_True by set_solver. cbn [Z.eqb]. eexists. split; [done|]. by rewrite at_goto, decide_True. }
    destruct Ht as [Ht|Ht].
    + destruct (H2 s H0 Ht) as (s' & E & Hf'). by exists 2%nat, s'; auto.
    + destruct (decide (t ∈ excl s)) as [Hin|Hout].
      * exists 1%nat. eexists. split; [lia|]. cbn [replicate run_events lock_step]. rewrite Ht. unfold spinlock_aquire.
        rewrite Ht. unfold strex. rewrite decide_True by done. cbn [Z.eqb]. split; [done|]. by rewrite at_goto, decide_True.
      * destruct (H2 (goto t Load s) H0) as (s' & E & Hf'); [by rewrite at_goto, decide_True|].
        exists 3%nat, s'. split; [lia|]. split; [|done]. change (replicate 3 (Step t)) with (Step t :: replicate 2 (Step t)).
        cbn [run_events lock_step]. rewrite Ht. unfold spinlock_aquire. rewrite Ht. unfold strex.
        rewrite decide_False by done. cbn [Z.eqb]. exact E.
Qed.

(** Two threads: both see the lock free, one wins, the other starts again. *)
Definition race : list lock_event := [Call 1; Call 2; Step 1; Step 2; Step 2; Step 1; Step 2].

Lemma race_reachable es s s' : reachable s → run_events es s = Some s' → reachable s'.
Proof.
  revert s; induction es as [|e es IH]; intros s Hr E; cbn in E; [by simplify_eq|].
  destruct (lock_step e s) as [s1|] eqn:E1; [|done]. eapply IH; [|exact E]. by econstructor.
Qed.

Lemma spinlock_mutual_exclusion_witness :
  match run_events race spinlock_init with
  | Some s => at_pc 2 s = Inside ∧ at_pc 1 s = Load ∧ lock s = 1 ∧ ∀ t, holds (at_pc t s) → t = 2%nat
  | None => False
  end.
Proof.
  destruct (run_events race spinlock_init) as [s|] eqn:E; [|vm_compute in E; discriminate E].
  pose proof (race_reachable _ _ _ reach_init E) as Hr.
  assert (at_pc 2 s = Inside ∧ at_pc 1 s = Load ∧ lock s = 1) as (H2 & H1 & Hl).
  { vm_compute in E. injection E as <-. split_and!; vm_compute; reflexivity. }
  split_and!; [exact H2|exact H1|exact Hl|]. intros t Ht.
  destruct (spinlock_mutual_exclusion s Hr) as (Hone & _). apply Hone; [exact Ht|]. rewrite H2. right. left. done.
Defined.
