(* ===== verification/Sprint.v ===== *)
(** * Formatted output (generic/sprint.c of the kernel and of the bootloader)

    Formatting to a buffer in byte memory.  The two copies differ in the [%b] and
    [%e] directives: the parameter [kernel] selects one.  A reference semantics of
    the directives is at the end of the definitions; the theorems show that the
    code implements it. *)

From S2P Require Import Prelude Memory.

(** ** The code *)

Definition hex_table : list Z := [48; 49; 50; 51; 52; 53; 54; 55; 56; 57; 65; 66; 67; 68; 69; 70].

Fixpoint power_loop (exp : nat) (base result : Z) : Z :=
  match exp with O => result | S n => power_loop n base (u32 (result * base)) end.
Definition power (base exp : Z) : Z := power_loop (Z.to_nat exp) base 1.

(** The local array [int_buffer] of ten characters. *)
Definition int_buffer : list Z := replicate 10 0.
Definition buffer_store (b : list Z) (i c : Z) : option (list Z) :=
  if (0 <=? i) && (i <? Z.of_nat (length b)) then Some (<[Z.to_nat i := u8 c]> b) else None.

(** The loop over all characters except the last one. *)
Fixpoint uint_loop (fuel : nat) (value size : Z) (b : list Z) : M mem (Z * Z * list Z) :=
  match fuel with
  | O => hang
  | S f =>
      if negb (value / 10 =? 0) then
        let* b := of_option (buffer_store b size (48 + value mod 10)) in
        uint_loop f (value / 10) (u8 (size + 1)) b
      else ret (value, size, b)
  end.

(** The characters are copied from the last to the first. *)
Fixpoint uint_copy (n : nat) (buffer i : Z) (b : list Z) : M mem unit :=
  match n with
  | O => ret tt
  | S n =>
      let* c := of_option (if i <? 0 then None else b !! Z.to_nat i) in
      modify (λ m, st8 m buffer c) ;; uint_copy n (buffer + 1) (i - 1) b
  end.

Definition print_uint_to_buffer (fuel : nat) (buffer value : Z) : M mem Z :=
  let* (value, size, b) := uint_loop fuel value 0 int_buffer in
  let* b := of_option (buffer_store b size (48 + value mod 10)) in
  let last := size in
  let size := u8 (size + 1) in
  uint_copy (Z.to_nat size) buffer last b ;;
  ret size.

(** [dest_ptr] and [size]. *)
Definition cursor : Type := Z * Z.
Definition put (c : Z) (d : cursor) : M mem cursor :=
  modify (λ m, st8 m d.1 c) ;; ret (d.1 + 1, u16 (d.2 + 1)).

Definition va_arg (obj : list Z) : M mem (Z * list Z) :=
  match obj with [] => ub | v :: obj => ret (v, obj) end.

(** The optional formatting number: the number of its digits, then its value. *)
Fixpoint count_digits (fuel : nat) (opt_fmt_ptr opt_fmt_size : Z) : M mem Z :=
  match fuel with
  | O => hang
  | S f =>
      let* c := gets (λ m, ld8 m opt_fmt_ptr) in
      if (48 <=? c) && (c <=? 57) then count_digits f (opt_fmt_ptr + 1) (u8 (opt_fmt_size + 1))
      else ret opt_fmt_size
  end.
Fixpoint read_digits (n : nat) (src_ptr opt_fmt : Z) : M mem (Z * Z) :=
  match n with
  | O => ret (opt_fmt, src_ptr)
  | S n =>
      let* c := gets (λ m, ld8 m src_ptr) in
      read_digits n (src_ptr + 1) (u8 (opt_fmt + (c - 48) * power 10 (Z.of_nat n)))
  end.

(** The directives. *)
Fixpoint put_chars (n : nat) (p : Z) (d : cursor) : M mem cursor :=
  match n with
  | O => ret d
  | S n =>
      let* c := gets (λ m, ld8 m p) in
      if c =? 0 then ret d else let* d := put c d in put_chars n (p + 1) d
  end.
Fixpoint put_string (fuel : nat) (p : Z) (d : cursor) : M mem cursor :=
  match fuel with
  | O => hang
  | S f =>
      let* c := gets (λ m, ld8 m p) in
      if negb (c =? 0) then let* d := put c d in put_string f (p + 1) d else ret d
  end.

Definition signed (v : Z) : Z := if v <? 2147483648 then v else v - 4294967296.
(** [INT_MIN * -1] overflows. *)
Definition put_int (fuel : nat) (v : Z) (d : cursor) : M mem cursor :=
  let fmt_int := signed v in
  let* (fmt_int, d) :=
    (if fmt_int <? 0 then
       if fmt_int =? -2147483648 then ub else
       let* d := put 45 d in ret (- fmt_int, d)
     else ret (fmt_int, d)) in
  let* fmt_int_size := print_uint_to_buffer fuel d.1 fmt_int in
  ret (d.1 + fmt_int_size, u16 (d.2 + fmt_int_size)).

(** A shift by the width of the type or more is undefined. *)
Fixpoint put_bin (kernel : bool) (i : nat) (fmt_bin : Z) (d : cursor) : M mem cursor :=
  match i with
  | O => ret d
  | S i =>
      if (32 <=? i)%nat then ub else
      let* d := put (if negb (Z.land fmt_bin (Z.shiftl 1 (Z.of_nat i)) =? 0) then 49 else 48) d in
      let* d := (if kernel && (Z.of_nat i mod 8 =? 0) then put 32 d else ret d) in
      put_bin kernel i fmt_bin d
  end.
Fixpoint put_hex (n : nat) (fmt_hex : Z) (d : cursor) : M mem cursor :=
  match n with
  | O => ret d
  | S n =>
      if (4 <=? n)%nat then ub else
      let byte := u8 (Z.shiftr fmt_hex (Z.of_nat n * 8)) in
      let byte_upper := Z.shiftr byte 4 in
      let byte_lower := Z.land byte 15 in
      let* upper := of_option (hex_table !! Z.to_nat byte_upper) in
      let* lower := of_option (hex_table !! Z.to_nat byte_lower) in
      let* d := put upper d in
      let* d := put lower d in
      put_hex n fmt_hex d
  end.
Fixpoint put_happy (n : nat) (d : cursor) : M mem cursor :=
  match n with O => ret d | S n => let* d := put 58 d in let* d := put 68 d in put_happy n d end.

(** The switch over the formatting character. *)
Definition directive (kernel : bool) (fuel : nat) (c opt_fmt : Z) (obj : list Z) (d : cursor)
    : M mem (cursor * list Z) :=
  let with_arg (f : Z → M mem cursor) :=
    let* (v, obj) := va_arg obj in let* d := f v in ret (d, obj) in
  if c =? 115 then
    with_arg (λ v, if negb (opt_fmt =? 0) then put_chars (Z.to_nat opt_fmt) v d else put_string fuel v d)
  else if c =? 99 then with_arg (λ v, put v d)
  else if (c =? 117) || (c =? 100) then with_arg (λ v, put_int fuel v d)
  else if c =? 98 then with_arg (λ v, put_bin kernel (Z.to_nat opt_fmt) v d)
  else if c =? 104 then with_arg (λ v, put_hex (Z.to_nat opt_fmt) v d)
  else if kernel && (c =? 101) then let* d := put_happy (Z.to_nat opt_fmt) d in ret (d, obj)
  else ret (d, obj).

Fixpoint format_loop (kernel : bool) (fuel : nat) (src_ptr : Z) (obj : list Z) (d : cursor) : M mem Z :=
  match fuel with
  | O => hang
  | S f =>
      let* c := gets (λ m, ld8 m src_ptr) in
      if c =? 0 then ret d.2 else
      if c =? 37 then
        let src_ptr := src_ptr + 1 in
        let* n := count_digits fuel src_ptr 0 in
        let* (opt_fmt, src_ptr) := read_digits (Z.to_nat n) src_ptr 0 in
        let* c := gets (λ m, ld8 m src_ptr) in
        let* (d, obj) := directive kernel fuel c opt_fmt obj d in
        format_loop kernel f (src_ptr + 1) obj d
      else
        let* d := put c d in format_loop kernel f (src_ptr + 1) obj d
  end.

(** [print_to_buffer_va]; [obj] are the words of the variable arguments. *)
Definition print_to_buffer_va (kernel : bool) (fuel : nat) (buffer data : Z) (obj : list Z) : M mem Z :=
  format_loop kernel fuel data obj (buffer, 0).

(** ** What the directives mean *)

(** The decimal numeral of a number: the digits, most significant first. *)
Fixpoint decimal_digits (fuel : nat) (v : Z) : list Z :=
  match fuel with
  | O => []
  | S f => (if v / 10 =? 0 then [] else decimal_digits f (v / 10)) ++ [48 + v mod 10]
  end.
Definition decimal (v : Z) : list Z := decimal_digits 10 v.

(** Reading a numeral back. *)
Definition numeral (l : list Z) : Z := fold_left (λ acc c, acc * 10 + (c - 48)) l 0.

Inductive item :=
  | Lit (c : Z)
  | Str (opt a : Z) (s : list Z)
  | Chr (v : Z)
  | Int (c v : Z)
  | Bin (opt v : Z)
  | Hex (opt v : Z)
  | Happy (opt : Z)
  | Unknown (c : Z).

(** The characters of an item in the format string, and its arguments. *)
Definition opt_chars (opt : Z) : list Z := if opt =? 0 then [] else decimal opt.
Definition item_chars (x : item) : list Z :=
  match x with
  | Lit c => [c]
  | Str opt _ _ => 37 :: opt_chars opt ++ [115]
  | Chr _ => [37; 99]
  | Int c _ => [37; c]
  | Bin opt _ => 37 :: opt_chars opt ++ [98]
  | Hex opt _ => 37 :: opt_chars opt ++ [104]
  | Happy opt => 37 :: opt_chars opt ++ [101]
  | Unknown c => [37; c]
  end.
Definition item_args (x : item) : list Z :=
  match x with
  | Lit _ | Happy _ | Unknown _ => []
  | Str _ a _ => [a]
  | Chr v | Int _ v | Bin _ v | Hex _ v => [v]
  end.

(** What an item prints. *)
Fixpoint bin_chars (kernel : bool) (n : nat) (v : Z) : list Z :=
  match n with
  | O => []
  | S n => (if Z.testbit v (Z.of_nat n) then 49 else 48) ::
           (if kernel && (Z.of_nat n mod 8 =? 0) then [32] else []) ++ bin_chars kernel n v
  end.
Definition hex_digit (v : Z) : Z := if v <? 10 then 48 + v else 55 + v.
Fixpoint hex_chars (n : nat) (v : Z) : list Z :=
  match n with
  | O => []
  | S n => hex_digit (v / 16 ^ (2 * Z.of_nat n + 1) mod 16) ::
           hex_digit (v / 16 ^ (2 * Z.of_nat n) mod 16) :: hex_chars n v
  end.
Definition render (kernel : bool) (x : item) : list Z :=
  match x with
  | Lit c => [c]
  | Str opt _ s => if opt =? 0 then s else take (Z.to_nat opt) s
  | Chr v => [u8 v]
  | Int _ v => (if signed v <? 0 then [45] else []) ++ decimal (Z.abs (signed v))
  | Bin opt v => bin_chars kernel (Z.to_nat opt) v
  | Hex opt v => hex_chars (Z.to_nat opt) v
  | Happy opt => mjoin (replicate (Z.to_nat opt) [58; 68])
  | Unknown _ => []
  end.

(** The items both sides agree on: everything but shifts past the word, the
    negation of the smallest integer, and directives that do not exist.  The
    known letters are s, c, u, d, b, h and (in the kernel) e. *)
Definition known_chars (kernel : bool) : list Z :=
  [115; 99; 117; 100; 98; 104] ++ (if kernel then [101] else []).
Definition item_ok (kernel : bool) (m : mem) (x : item) : Prop :=
  match x with
  | Lit c => byte c ∧ c ≠ 0 ∧ c ≠ 37
  | Str opt a s => 0 <= opt < 256 ∧ c_string m a s
  | Chr _ => True
  | Int c v => (c = 117 ∨ c = 100) ∧ 0 <= v < 2 ^ 32 ∧ v ≠ 2 ^ 31
  | Bin opt v => 0 <= opt <= 32 ∧ 0 <= v < 2 ^ 32
  | Hex opt v => 0 <= opt <= 4 ∧ 0 <= v < 2 ^ 32
  | Happy opt => 0 <= opt < 256 ∧ kernel = true
  | Unknown c => byte c ∧ c ≠ 0 ∧ ¬ (48 <= c <= 57) ∧ c ∉ known_chars kernel
  end.

(** ** Numerals *)

Lemma numeral_snoc l c : numeral (l ++ [c]) = numeral l * 10 + (c - 48).
Proof. unfold numeral. by rewrite fold_left_app. Qed.

Lemma numeral_cons c l : numeral (c :: l) = (c - 48) * 10 ^ Z.of_nat (length l) + numeral l.
Proof.
  induction l as [|x l IH] using rev_ind; [cbn; lia|].
  rewrite app_comm_cons, !numeral_snoc, IH, length_app. cbn [length].
  replace (Z.of_nat (length l + 1)) with (Z.succ (Z.of_nat (length l))) by lia.
  rewrite Z.pow_succ_r by lia. lia.
Qed.

Lemma pow10_S n : 10 ^ Z.of_nat (S n) = 10 * 10 ^ Z.of_nat n.
Proof. rewrite Nat2Z.inj_succ. apply Z.pow_succ_r. lia. Qed.

Lemma decimal_digits_numeral n v : 0 <= v < 10 ^ Z.of_nat n → numeral (decimal_digits n v) = v.
Proof.
  revert v; induction n as [|n IH]; intros v Hv; [cbn in *; lia|].
  rewrite pow10_S in Hv. cbn [decimal_digits]. rewrite numeral_snoc.
  destruct (v / 10 =? 0) eqn:E; [cbn; lia|]. rewrite IH by lia. lia.
Qed.

Definition is_digit (c : Z) : Prop := 48 <= c <= 57.

Lemma decimal_digits_chars n v : 0 <= v → Forall is_digit (decimal_digits n v).
Proof.
  revert v; induction n as [|n IH]; intros v Hv; [constructor|]. cbn [decimal_digits].
  apply Forall_app; split; [destruct (v / 10 =? 0); [constructor|apply IH; lia]|].
  repeat constructor; unfold is_digit; lia.
Qed.

Lemma decimal_digits_length n v : (length (decimal_digits n v) <= n)%nat.
Proof.
  revert v; induction n as [|n IH]; intros v; [cbn; lia|]. cbn [decimal_digits]. rewrite length_app.
  specialize (IH (v / 10)). cbn [length]. destruct (v / 10 =? 0); cbn [length]; lia.
Qed.

(** No leading zero. *)
Lemma decimal_digits_head n v :
  0 <= v < 10 ^ Z.of_nat n → (0 < n)%nat → hd 0 (decimal_digits n v) = 48 → v = 0.
Proof.
  revert v; induction n as [|n IH]; intros v Hv Hn; [lia|]. rewrite pow10_S in Hv.
  cbn [decimal_digits]. destruct (v / 10 =? 0) eqn:E; [cbn; lia|]. destruct n as [|n]; [cbn in Hv; lia|].
  specialize (IH (v / 10) ltac:(lia) ltac:(lia)). intros Hd.
  destruct (decimal_digits (S n) (v / 10)) as [|d l] eqn:El; [|specialize (IH Hd); lia].
  cbn [decimal_digits] in El. by destruct (app_eq_nil _ _ El).
Qed.

Lemma power10 n : (n < 10)%nat → power 10 (Z.of_nat n) = 10 ^ Z.of_nat n.
Proof. intros Hn. do 10 (destruct n as [|n]; [reflexivity|]). lia. Qed.

(** ** Printing an unsigned number *)

Lemma buffer_store_Some b i c :
  0 <= i < Z.of_nat (length b) → byte c → buffer_store b i c = Some (<[Z.to_nat i := c]> b).
Proof.
  intros Hi Hc. unfold buffer_store. rewrite u8_small by done.
  rewrite (proj2 (Z.leb_le _ _)), (proj2 (Z.ltb_lt _ _)) by lia. done.
Qed.

Lemma uint_loop_spec n fuel v s b m :
  0 <= v < 10 ^ Z.of_nat n → (0 < n <= fuel)%nat → length b = 10%nat → (s + n <= 10)%nat →
  ∃ v' s' b', uint_loop fuel v (Z.of_nat s) b m = Ret ((v', Z.of_nat s', b'), m) ∧
    length b' = 10%nat ∧ (s <= s' < 10)%nat ∧ take s b' = take s b ∧ 0 <= v' < 10 ∧
    rev (decimal_digits n v) = drop s (take s' b') ++ [48 + v' mod 10].
Proof.
  revert fuel v s b; induction n as [|n IH]; intros fuel v s b Hv Hf Hb Hs; [lia|].
  rewrite pow10_S in Hv. destruct fuel as [|fuel]; [lia|]. cbn [uint_loop decimal_digits].
  destruct (v / 10 =? 0) eqn:E; cbn [negb].
  - exists v, s, b. split_and!; try done; try lia. by rewrite drop_ge by (rewrite length_take; lia).
  - destruct n as [|n]; [cbn in Hv; lia|].
    rewrite buffer_store_Some by (unfold byte; lia). rewrite Nat2Z.id. msimpl.
    rewrite (u8_small (Z.of_nat s + 1)) by lia. replace (Z.of_nat s + 1) with (Z.of_nat (S s)) by lia.
    set (b1 := <[s := 48 + v mod 10]> b).
    destruct (IH fuel (v / 10) (S s) b1) as (v' & s' & b' & E' & Hb' & Hs' & Ht & Hv' & Hr);
      [lia|lia|by unfold b1; rewrite length_insert|lia|].
    exists v', s', b'. split_and!; try done; try lia.
    + apply (f_equal (take s)) in Ht. rewrite !take_take, !Nat.min_l in Ht by lia. rewrite Ht. unfold b1.
      by rewrite take_insert_ge by lia.
    + rewrite rev_app_distr, Hr. cbn [rev app]. rewrite app_comm_cons. f_equal.
      assert (take s' b' !! s = Some (48 + v mod 10)) as Hl.
      { rewrite lookup_take_lt by lia. rewrite <- (lookup_take_lt b' (S s)), Ht, lookup_take_lt by lia.
        unfold b1. apply list_lookup_insert_eq. lia. }
      by rewrite (drop_S _ _ _ Hl).
Qed.

Lemma uint_copy_spec k a b m :
  (k <= length b)%nat →
  uint_copy k a (Z.of_nat k - 1) b m = Ret (tt, write_bytes m a (rev (take k b))).
Proof.
  revert a m; induction k as [|k IH]; intros a m Hk; cbn [uint_copy]; [by rewrite take_0|].
  destruct (lookup_lt_is_Some_2 b k) as [c Hc]; [lia|].
  replace (Z.of_nat (S k) - 1) with (Z.of_nat k) by lia.
  rewrite (proj2 (Z.ltb_ge _ _)), Nat2Z.id, Hc by lia. msimpl.
  rewrite IH by lia. by rewrite (take_S_r _ _ _ Hc), rev_app_distr.
Qed.

Lemma print_uint_spec n fuel a v m :
  0 <= v < 10 ^ Z.of_nat n → (0 < n <= fuel)%nat → (n <= 10)%nat →
  print_uint_to_buffer fuel a v m =
    Ret (Z.of_nat (length (decimal_digits n v)), write_bytes m a (decimal_digits n v)).
Proof.
  intros Hv Hf Hn. unfold print_uint_to_buffer.
  destruct (uint_loop_spec n fuel v 0 int_buffer m) as (v' & s' & b' & E & Hb & Hs & _ & Hv' & Hr); [done..|].
  change 0 with (Z.of_nat 0). mstep E. cbv beta iota. rewrite buffer_store_Some by (unfold byte; lia). rewrite Nat2Z.id. msimpl.
  set (b2 := <[s' := 48 + v' mod 10]> b').
  assert (length b2 = 10%nat) as Hb2 by (unfold b2; by rewrite length_insert).
  assert (take (S s') b2 = rev (decimal_digits n v)) as Ht.
  { rewrite Hr, drop_0. erewrite take_S_r by (apply list_lookup_insert_eq; lia). unfold b2.
    by rewrite take_insert_ge by lia. }
  rewrite (u8_small (Z.of_nat s' + 1)) by lia. replace (Z.of_nat s' + 1) with (Z.of_nat (S s')) by lia.
  rewrite Nat2Z.id. replace (Z.of_nat s') with (Z.of_nat (S s') - 1) by lia.
  mstep (uint_copy_spec (S s') a b2 m); [|lia]. rewrite Ht, rev_involutive. unfold ret.
  apply (f_equal length) in Hr. rewrite length_rev, length_app, drop_0, length_take in Hr. cbn [length] in Hr.
  do 3 f_equal. lia.
Qed.
(** ** The output buffer

    [m0] is the memory at the call, [base] the buffer, [N] the number of
    characters the call prints.  After the characters [pre] the cursor is
    [at_ pre] and the memory [out pre]. *)

Section Prints.
Context (m0 : mem) (base : Z) (N : nat).

Definition at_ (pre : list Z) : cursor := (base + Z.of_nat (length pre), u16 (Z.of_nat (length pre))).
Definition out (pre : list Z) : mem := write_bytes m0 base pre.

(** The command prints [l]. *)
Definition prints (c : cursor → M mem cursor) (l : list Z) : Prop :=
  ∀ pre, (length (pre ++ l) <= N)%nat → c (at_ pre) (out pre) = Ret (at_ (pre ++ l), out (pre ++ l)).

(** The buffer does not touch the addresses from [a] to [b]. *)
Definition away (a b : Z) : Prop := b < base ∨ base + Z.of_nat N <= a.

Lemma ld8_out a b p pre :
  away a b → a <= p <= b → (length pre <= N)%nat → ld8 (out pre) p = ld8 m0 p.
Proof. intros [H|H] Hp Hl; apply ld8_write_bytes_out; lia. Qed.

Lemma c_string_out a s pre :
  away a (a + Z.of_nat (length s)) → (length pre <= N)%nat → c_string m0 a s → c_string (out pre) a s.
Proof. intros Ha Hl. apply c_string_ext. intros b Hb. by eapply ld8_out. Qed.

Lemma u16_add_l x y : u16 (u16 x + y) = u16 (x + y).
Proof. apply Zplus_mod_idemp_l. Qed.

Lemma put_prints c : prints (put c) [c].
Proof.
  intros pre _. unfold put, at_, out. msimpl. cbn [fst snd].
  rewrite write_bytes_app, length_app, u16_add_l. cbn [write_bytes length].
  by rewrite Nat2Z.inj_add, Z.add_assoc.
Qed.

Lemma prints_ret : prints ret [].
Proof. intros pre _. by rewrite app_nil_r. Qed.

Lemma prints_bind c f l1 l2 : prints c l1 → prints f l2 → prints (λ d, let* d := c d in f d) (l1 ++ l2).
Proof.
  intros Hc Hf pre Hl. rewrite app_assoc in *. rewrite length_app in Hl. unfold bind. rewrite Hc by lia.
  apply Hf. by rewrite length_app.
Qed.

Lemma put_bin_prints kernel n v :
  (n <= 32)%nat → prints (put_bin kernel n v) (bin_chars kernel n v).
Proof.
  induction n as [|n IH]; intros Hn; cbn [put_bin bin_chars]; [apply prints_ret|].
  rewrite (proj2 (Nat.leb_gt 32 n)) by lia. rewrite land_bit by lia.
  apply (prints_bind _ _ [_]); [apply put_prints|].
  apply prints_bind; [|apply IH; lia].
  destruct (kernel && _); [apply put_prints|apply prints_ret].
Qed.

Lemma hex_table_digit v : 0 <= v < 16 → hex_table !! Z.to_nat v = Some (hex_digit v).
Proof.
  intros Hv. assert (forallb (λ v, bool_decide (hex_table !! Z.to_nat v = Some (hex_digit v))) (seqZ 0 16) = true) as E
    by (vm_compute; reflexivity).
  rewrite forallb_forall in E. eapply bool_decide_eq_true_1, E, list_elem_of_In, elem_of_seqZ. lia.
Qed.

Lemma put_hex_prints n v : (n <= 4)%nat → 0 <= v → prints (put_hex n v) (hex_chars n v).
Proof.
  intros Hn Hv. induction n as [|n IH]; cbn [put_hex hex_chars]; [apply prints_ret|].
  rewrite (proj2 (Nat.leb_gt 4 n)) by lia. cbv zeta.
  replace (Z.shiftr v (Z.of_nat n * 8)) with (v / 16 ^ (2 * Z.of_nat n)).
  2: { rewrite Z.shiftr_div_pow2 by lia. f_equal. change 16 with (2 ^ 4). rewrite <- Z.pow_mul_r by lia. f_equal. lia. }
  assert (16 ^ (2 * Z.of_nat n + 1) = 16 ^ (2 * Z.of_nat n) * 16) as -> by (by rewrite Z.pow_add_r by lia).
  rewrite <- Z.div_div by (try apply Z.pow_pos_nonneg; lia).
  set (w := v / 16 ^ (2 * Z.of_nat n)).
  rewrite Z.shiftr_div_pow2, (land_mask _ 4) by lia.
  change (2 ^ 4) with 16. rewrite !hex_table_digit by (unfold u8; lia). msimpl.
  replace (u8 w / 16) with (w / 16 mod 16) by (unfold u8; lia).
  replace (u8 w mod 16) with (w mod 16) by (unfold u8; lia).
  apply (prints_bind _ _ [_]); [apply put_prints|].
  apply (prints_bind _ _ [_]); [apply put_prints|]. apply IH. lia.
Qed.

Lemma put_happy_prints n : prints (put_happy n) (mjoin (replicate n [58; 68])).
Proof.
  induction n as [|n IH]; cbn [put_happy replicate mjoin list_join]; [apply prints_ret|].
  apply (prints_bind _ _ [_]); [apply put_prints|].
  apply (prints_bind _ _ [_]); [apply put_prints|]. apply IH.
Qed.

Lemma put_chars_prints n a s :
  c_string m0 a s → away a (a + Z.of_nat (length s)) → prints (put_chars n a) (take n s).
Proof.
  revert a s; induction n as [|n IH]; intros a s Hs Ha; cbn [put_chars]; [apply prints_ret|].
  intros pre Hl. cbn [bind gets]. rewrite (ld8_out a (a + Z.of_nat (length s))) by (done || lia || (rewrite length_app in Hl; lia)).
  destruct s as [|c s].
  - apply c_string_nil in Hs. rewrite Hs. cbn. by rewrite app_nil_r.
  - apply c_string_cons in Hs as (-> & Hc & Hs). rewrite eqb_false by done.
    cbn [take]. apply (prints_bind _ _ [_]); [apply put_prints| |done].
    apply IH; [done|]. destruct Ha; [left|right]; cbn [length] in *; lia.
Qed.

Lemma put_string_prints fuel a s :
  c_string m0 a s → away a (a + Z.of_nat (length s)) → (length s < fuel)%nat → prints (put_string fuel a) s.
Proof.
  revert a s; induction fuel as [|n IH]; intros a s Hs Ha Hf; cbn [put_string]; [lia|].
  intros pre Hl. cbn [bind gets]. rewrite (ld8_out a (a + Z.of_nat (length s))) by (done || lia || (rewrite length_app in Hl; lia)).
  destruct s as [|c s].
  - apply c_string_nil in Hs. rewrite Hs. cbn. by rewrite app_nil_r.
  - apply c_string_cons in Hs as (-> & Hc & Hs). rewrite eqb_false by done. cbn [negb].
    apply (prints_bind _ _ [_]); [apply put_prints| |done].
    apply IH; [done| |cbn in Hf; lia]. destruct Ha; [left|right]; cbn [length] in *; lia.
Qed.

Lemma print_uint_prints fuel v :
  0 <= v < 2 ^ 32 → (10 <= fuel)%nat →
  prints (λ d, let* n := print_uint_to_buffer fuel d.1 v in ret (d.1 + n, u16 (d.2 + n))) (decimal v).
Proof.
  intros Hv Hf pre Hl. mstep (print_uint_spec 10); [|cbn; lia..]. unfold at_, out, ret. cbn [fst snd].
  rewrite u16_add_l, length_app, write_bytes_app. unfold decimal.
  by rewrite Nat2Z.inj_add, Z.add_assoc.
Qed.

Lemma put_int_prints fuel v :
  0 <= v < 2 ^ 32 → v ≠ 2 ^ 31 → (10 <= fuel)%nat →
  prints (put_int fuel v) ((if signed v <? 0 then [45] else []) ++ decimal (Z.abs (signed v))).
Proof.
  intros Hv Hv' Hf pre Hl. unfold put_int. assert (-2147483648 < signed v < 2147483648) as Hs.
  { unfold signed. destruct (v <? 2147483648) eqn:E; lia. }
  destruct (signed v <? 0) eqn:E.
  - rewrite eqb_false by lia. rewrite bind_bind.
    erewrite bind_Ret; [|apply (put_prints 45); rewrite app_assoc, length_app in Hl; lia].
    rewrite bind_ret. rewrite app_assoc. rewrite Z.abs_neq in * by lia.
    apply print_uint_prints; [lia|done|by rewrite <- app_assoc].
  - rewrite bind_ret. cbn [app] in *. rewrite Z.abs_eq in * by lia. by apply print_uint_prints; [lia|..].
Qed.
(** ** The format string *)

Lemma count_digits_spec fuel m src ds c rest n :
  c_string m src (ds ++ c :: rest) → Forall is_digit ds → ¬ is_digit c → (length ds < fuel)%nat →
  0 <= n → n + Z.of_nat (length ds) < 256 →
  count_digits fuel src n m = Ret (n + Z.of_nat (length ds), m).
Proof.
  revert src ds n; induction fuel as [|fuel IH]; intros src ds n Hs Hd Hc Hf Hn Hl; [lia|].
  cbn [count_digits bind gets]. destruct ds as [|d ds].
  - apply c_string_cons in Hs as (-> & _ & _). cbn [length]. rewrite Z.add_0_r. unfold is_digit in Hc.
    by replace ((48 <=? c) && (c <=? 57)) with false by lia.
  - apply c_string_cons in Hs as (-> & _ & Hs). inversion Hd as [|? ? Hd1 Hd2]; subst. unfold is_digit in Hd1.
    replace ((48 <=? d) && (d <=? 57)) with true by lia. cbn [length] in *.
    rewrite u8_small by lia. rewrite (IH (src + 1) ds); [|done..|lia|lia|lia]. do 2 f_equal. lia.
Qed.

Lemma read_digits_spec m src ds rest o :
  c_string m src (ds ++ rest) → Forall is_digit ds → (length ds < 10)%nat → 0 <= o < 256 →
  read_digits (length ds) src o m = Ret ((u8 (o + numeral ds), src + Z.of_nat (length ds)), m).
Proof.
  revert src o; induction ds as [|d ds IH]; intros src o Hs Hd Hl Ho; cbn [read_digits length bind gets].
  - unfold ret. cbn. rewrite !Z.add_0_r. by rewrite u8_small.
  - apply c_string_cons in Hs as (-> & _ & Hs). inversion Hd as [|? ? Hd1 Hd2]; subst. cbn [length] in Hl.
    rewrite power10 by lia. rewrite IH; [|done..|lia|apply u8_range].
    rewrite numeral_cons. unfold u8. rewrite Zplus_mod_idemp_l. do 3 f_equal; [f_equal|]; lia.
Qed.

Lemma opt_chars_facts opt :
  0 <= opt < 256 → Forall is_digit (opt_chars opt) ∧ numeral (opt_chars opt) = opt ∧ (length (opt_chars opt) < 4)%nat.
Proof.
  intros Ho. unfold opt_chars. destruct (opt =? 0) eqn:E; [split_and!; [constructor|cbn; lia|cbn; lia]|].
  split_and!; [apply decimal_digits_chars; lia|apply decimal_digits_numeral; cbn; lia|].
  assert (forallb (λ v, Nat.ltb (length (decimal v)) 4) (seqZ 0 256) = true) as H by (vm_compute; reflexivity).
  rewrite forallb_forall in H. apply Nat.ltb_lt, H, list_elem_of_In, elem_of_seqZ. lia.
Qed.

(** The formatting number in front of a directive. *)
Lemma read_opt fuel m src opt c rest (k : Z * Z → M mem Z) :
  c_string m src (opt_chars opt ++ c :: rest) → 0 <= opt < 256 → ¬ is_digit c → (4 <= fuel)%nat →
  (let* n := count_digits fuel src 0 in let* r := read_digits (Z.to_nat n) src 0 in k r) m =
  k (opt, src + Z.of_nat (length (opt_chars opt))) m.
Proof.
  intros Hs Ho Hc Hf. destruct (opt_chars_facts opt Ho) as (Hd & Hn & Hl).
  mstep count_digits_spec; [|done..|lia|lia|lia]. rewrite Z.add_0_l, Nat2Z.id.
  mstep read_digits_spec; [|done..|lia|lia]. by rewrite Hn, Z.add_0_l, u8_small.
Qed.

(** The directive an item is printed by, and its formatting number. *)
Definition item_key (x : item) : Z * Z :=
  match x with
  | Lit c | Unknown c => (c, 0)
  | Str opt _ _ => (115, opt)
  | Chr _ => (99, 0)
  | Int c _ => (c, 0)
  | Bin opt _ => (98, opt)
  | Hex opt _ => (104, opt)
  | Happy opt => (101, opt)
  end.

(** The string of the item is away from the buffer and shorter than the fuel. *)
Definition str_ok (fuel : nat) (x : item) : Prop :=
  match x with
  | Str _ a s => away a (a + Z.of_nat (length s)) ∧ (length s < fuel)%nat
  | _ => True
  end.

Lemma with_arg_run {A} (f : Z → M mem A) v obj st a st' :
  f v st = Ret (a, st') →
  (let* (v, obj) := va_arg (v :: obj) in let* d := f v in ret (d, obj)) st = Ret ((a, obj), st').
Proof. intros E. cbn [va_arg]. rewrite bind_ret. by erewrite bind_Ret by exact E. Qed.

Lemma put_char_prints v : prints (put v) [u8 v].
Proof.
  intros pre Hl. rewrite put_prints by (rewrite length_app in *; done). unfold out, at_. rewrite !write_bytes_app, !length_app. cbn [write_bytes].
  unfold st8. do 3 f_equal. unfold u8. by rewrite Z.mod_mod.
Qed.

Lemma directive_prints kernel fuel x obj pre :
  item_ok kernel m0 x → str_ok fuel x → (10 <= fuel)%nat → (∀ c, x ≠ Lit c) →
  (length (pre ++ render kernel x) <= N)%nat →
  directive kernel fuel (item_key x).1 (item_key x).2 (item_args x ++ obj) (at_ pre) (out pre) =
    Ret ((at_ (pre ++ render kernel x), obj), out (pre ++ render kernel x)).
Proof.
  intros Hok Hst Hf Hlit Hl. destruct x as [c|opt a s|v|c v|opt v|opt v|opt|c]; cbn [item_key item_args fst snd app].
  - by destruct (Hlit c).
  - destruct Hok as [Ho Hs], Hst as [Ha Hsf]. cbn [render] in *. apply with_arg_run. destruct (opt =? 0); cbn [negb].
    + by apply put_string_prints.
    + by apply put_chars_prints.
  - apply with_arg_run. by apply put_char_prints.
  - destruct Hok as (Hc & Hv & Hv'). assert (directive kernel fuel c 0 (v :: obj) =
      λ d, let* (v, obj) := va_arg (v :: obj) in let* d := put_int fuel v d in ret (d, obj)) as ->.
    { by destruct Hc as [-> | ->]. }
    apply (with_arg_run (λ v, put_int fuel v (at_ pre))). by apply put_int_prints.
  - apply (with_arg_run (λ v, put_bin kernel (Z.to_nat opt) v (at_ pre))). apply put_bin_prints; [|done].
    destruct Hok. lia.
  - apply (with_arg_run (λ v, put_hex (Z.to_nat opt) v (at_ pre))). destruct Hok as [Ho Hv].
    apply put_hex_prints; [lia|lia|done].
  - destruct Hok as [Ho ->]. unfold directive. cbn. by erewrite bind_Ret by (by apply put_happy_prints).
  - destruct Hok as (Hb & Hc & Hd & Hk). cbn [render]. rewrite app_nil_r. unfold directive, known_chars in *.
    rewrite !eqb_false by set_solver. destruct kernel; [rewrite eqb_false by set_solver|]; done.
Qed.

(** One directive of the format string. *)
Lemma format_directive kernel fuel m src opt c rest obj d r :
  c_string m src (37 :: opt_chars opt ++ c :: rest) → 0 <= opt < 256 → ¬ is_digit c → (4 <= fuel)%nat →
  directive kernel (S fuel) c opt obj d m = Ret r →
  format_loop kernel (S fuel) src obj d m =
  format_loop kernel fuel (src + Z.of_nat (length (37 :: opt_chars opt ++ [c]))) r.1.2 r.1.1 r.2.
Proof.
  intros Hs Ho Hc Hf Hr. apply c_string_cons in Hs as (H37 & _ & Hs).
  cbn [format_loop]. msimpl. rewrite H37. cbn [Z.eqb Pos.eqb].
  etransitivity; [by apply (read_opt _ m (src + 1) opt c rest); [done..|lia]|].
  assert (ld8 m (src + 1 + Z.of_nat (length (opt_chars opt))) = c) as Hl.
  { clear Ho Hr. revert Hs. generalize (opt_chars opt) as l, (src + 1). intros l; induction l as [|x l IH]; intros a Hs.
    - apply c_string_cons in Hs as (<- & _). cbn. f_equal. lia.
    - apply c_string_cons in Hs as (_ & _ & Hs). rewrite <- (IH _ Hs). f_equal. cbn [length]. lia. }
  cbv beta iota. unfold bind at 1. cbn [gets]. rewrite Hl. unfold bind at 1. rewrite Hr. destruct r as [[d' obj'] m']. cbn [fst snd]. f_equal.
  cbn [length]. rewrite length_app. cbn [length]. lia.
Qed.

(** One item of the format string. *)
Lemma format_item kernel fuel src x rest obj pre :
  c_string m0 src (item_chars x ++ rest) → away src (src + Z.of_nat (length (item_chars x ++ rest))) →
  item_ok kernel m0 x → str_ok (S fuel) x → (10 <= fuel)%nat → (length (pre ++ render kernel x) <= N)%nat →
  format_loop kernel (S fuel) src (item_args x ++ obj) (at_ pre) (out pre) =
  format_loop kernel fuel (src + Z.of_nat (length (item_chars x))) obj
    (at_ (pre ++ render kernel x)) (out (pre ++ render kernel x)).
Proof.
  intros Hs Ha Hok Hst Hf Hl. assert (length pre <= N)%nat as Hp by (rewrite length_app in Hl; lia).
  apply (c_string_out _ _ pre Ha Hp) in Hs. clear Ha Hp.
  assert ((∃ c, x = Lit c) ∨ ∀ c, x ≠ Lit c) as [[c ->]|Hlit] by (destruct x; eauto).
  - cbn [item_chars app] in *. apply c_string_cons in Hs as (Hc & _). cbn [format_loop]. msimpl.
    rewrite Hc. destruct Hok as (_ & H0 & H37). rewrite !eqb_false by done.
    by erewrite bind_Ret by (by apply put_prints).
  - assert (item_chars x = 37 :: opt_chars (item_key x).2 ++ [(item_key x).1] ∧ 0 <= (item_key x).2 < 256 ∧
      ¬ is_digit (item_key x).1) as (E & Ho & Hd).
    { unfold is_digit. destruct x; cbn in Hok |- *; try (split_and!; [reflexivity|lia..]). naive_solver. }
    rewrite E in Hs |- *. cbn [app] in Hs. rewrite <- app_assoc in Hs.
    erewrite format_directive; [|exact Hs|done..|lia|by apply directive_prints; [done|done|lia|done|done]].
    done.
Qed.

(** The whole format string. *)
Lemma format_items kernel fuel src xs pre :
  c_string m0 src (xs ≫= item_chars) → away src (src + Z.of_nat (length (xs ≫= item_chars))) →
  Forall (item_ok kernel m0) xs → Forall (str_ok (fuel - length xs)) xs → (length xs + 10 < fuel)%nat →
  (length (pre ++ (xs ≫= render kernel)) <= N)%nat →
  format_loop kernel fuel src (xs ≫= item_args) (at_ pre) (out pre) =
    Ret (u16 (Z.of_nat (length (pre ++ (xs ≫= render kernel)))), out (pre ++ (xs ≫= render kernel))).
Proof.
  revert fuel src pre; induction xs as [|x xs IH]; intros fuel src pre Hs Ha Hok Hst Hf Hl.
  - destruct fuel as [|fuel]; [cbn in Hf; lia|]. cbn [mbind list_bind] in *. rewrite app_nil_r in *.
    cbn [format_loop]. msimpl. cbn [length] in Ha. rewrite (ld8_out src (src + Z.of_nat 0)) by (done || lia).
    by rewrite (proj1 (c_string_nil _ _) Hs).
  - destruct fuel as [|fuel]; [cbn in Hf; lia|]. cbn [mbind list_bind] in *.
    inversion Hok as [|? ? Hx Hxs]; subst. inversion Hst as [|? ? Sx Sxs]; subst. cbn [length] in Hf.
    assert (Hlx : (length (pre ++ render kernel x) <= N)%nat) by (rewrite !length_app in Hl; rewrite length_app; lia).
    rewrite app_assoc in Hl |- *.
    rewrite (format_item _ _ _ _ (xs ≫= item_chars)); [|done|done|done| |lia|done].
    2: { destruct x; try done. destruct Sx as [Ha' Hn]. split; [done|]. cbn [length] in Hn. lia. }
    apply IH; [|destruct Ha; [left|right]; rewrite length_app in *; lia|done|by cbn [length Nat.sub] in Sxs|lia|done].
    by apply c_string_app in Hs as [_ Hs].
Qed.
End Prints.

(** ** The theorems *)

Lemma Forall_bytes_c_string m a s : mem_bytes m → c_string m a s → Forall byte s.
Proof.
  intros Hm. revert a; induction s as [|c s IH]; intros a Hs; [constructor|].
  apply c_string_cons in Hs as (<- & _ & Hs). constructor; [apply Hm|eauto].
Qed.

Lemma digit_byte l : Forall is_digit l → Forall byte l.
Proof. intros Hl. eapply Forall_impl; [exact Hl|]. unfold is_digit, byte. lia. Qed.

Lemma bin_chars_bytes kernel n v : Forall byte (bin_chars kernel n v).
Proof.
  induction n as [|n IH]; cbn [bin_chars]; [constructor|]. constructor; [unfold byte; destruct (Z.testbit _ _); lia|].
  apply Forall_app; split; [|done]. destruct (kernel && _); repeat constructor; unfold byte; lia.
Qed.

Lemma hex_chars_bytes n v : Forall byte (hex_chars n v).
Proof.
  assert (∀ x, byte (hex_digit (x mod 16))) as Hd by (intros x; unfold byte, hex_digit; destruct (_ <? _) eqn:E; lia).
  induction n as [|n IH]; cbn [hex_chars]; [constructor|]. constructor; [apply Hd|]. constructor; [apply Hd|done].
Qed.

Lemma render_bytes kernel m x : mem_bytes m → item_ok kernel m x → Forall byte (render kernel x).
Proof.
  intros Hm Hx. destruct x; cbn [render item_ok] in Hx |- *.
  - apply Forall_singleton. tauto.
  - destruct Hx as [_ Hs]. apply Forall_bytes_c_string in Hs; [|done]. destruct (_ =? 0); [done|by apply Forall_take].
  - apply Forall_singleton, u8_range.
  - apply Forall_app; split; [destruct (_ <? 0); repeat constructor; unfold byte; lia|].
    apply digit_byte, decimal_digits_chars. lia.
  - apply bin_chars_bytes.
  - apply hex_chars_bytes.
  - induction (Z.to_nat opt) as [|n IH]; cbn; repeat constructor; try done; unfold byte; lia.
  - constructor.
Qed.

(** What [print_to_buffer_va] does with a sequence of items. *)
Lemma print_to_buffer_run kernel fuel m buffer data xs :
  let l := xs ≫= render kernel in
  mem_bytes m → c_string m data (xs ≫= item_chars) → Forall (item_ok kernel m) xs →
  Forall (str_ok buffer (length l) (fuel - length xs)) xs →
  away buffer (length l) data (data + Z.of_nat (length (xs ≫= item_chars))) →
  (length xs + 10 < fuel)%nat → Z.of_nat (length l) < 65536 →
  ∃ m', print_to_buffer_va kernel fuel buffer data (xs ≫= item_args) m = Ret (Z.of_nat (length l), m') ∧
    read_bytes m' buffer (length l) = l ∧
    same_outside (λ a, buffer <= a < buffer + Z.of_nat (length l)) m m'.
Proof.
  intros l Hm Hs Hok Hst Ha Hf Hl. exists (write_bytes m buffer l). split_and!.
  - unfold print_to_buffer_va. pose proof (format_items m buffer (length l) kernel fuel data xs []) as E.
    cbn [app] in E. fold l in E. rewrite u16_small in E by lia.
    assert (at_ buffer [] = (buffer, 0)) as E0 by (unfold at_; cbn; by rewrite Z.add_0_r).
    rewrite E0 in E. by apply E.
  - apply read_write_bytes. unfold l. clear -Hm Hok. induction Hok; cbn; [constructor|].
    apply Forall_app; split; [by eapply render_bytes|done].
  - apply same_outside_write.
Qed.

(** C35. Formatted output: for every sequence of literal characters and
    directives with their arguments, [print_to_buffer_va] terminates, writes to
    the buffer exactly the characters the sequence means, returns their number
    and writes nothing else, for the kernel's and the bootloader's version.  The
    directive for unsigned numbers prints what the one for signed numbers
    prints. *)
Theorem print_to_buffer_formats kernel fuel m buffer data xs :
  let l := xs ≫= render kernel in
  mem_bytes m → c_string m data (xs ≫= item_chars) → Forall (item_ok kernel m) xs →
  Forall (str_ok buffer (length l) (fuel - length xs)) xs →
  away buffer (length l) data (data + Z.of_nat (length (xs ≫= item_chars))) →
  (length xs + 10 < fuel)%nat → Z.of_nat (length l) < 65536 →
  ∃ m', print_to_buffer_va kernel fuel buffer data (xs ≫= item_args) m = Ret (Z.of_nat (length l), m') ∧
    read_bytes m' buffer (length l) = l ∧
    same_outside (λ a, buffer <= a < buffer + Z.of_nat (length l)) m m'.
Proof. intros. by apply print_to_buffer_run. Qed.

(** Printing an unsigned number: [print_uint_to_buffer] terminates for every
    32-bit number within ten turns of its loop, without leaving its local
    buffer, and what it writes is the decimal numeral of the number: one to ten
    digits without a leading zero that read back as the number. *)
Theorem print_uint_roundtrip fuel a v m :
  0 <= v < 2 ^ 32 → (10 <= fuel)%nat →
  ∃ l m', print_uint_to_buffer fuel a v m = Ret (Z.of_nat (length l), m') ∧
    read_bytes m' a (length l) = l ∧ same_outside (λ b, a <= b < a + Z.of_nat (length l)) m m' ∧
    (1 <= length l <= 10)%nat ∧ Forall is_digit l ∧ numeral l = v ∧ (hd 0 l = 48 → v = 0).
Proof.
  intros Hv Hf. exists (decimal v), (write_bytes m a (decimal v)).
  pose proof (decimal_digits_chars 10 v ltac:(lia)) as Hd.
  pose proof (decimal_digits_length 10 v) as Hl.
  split_and!.
  - apply print_uint_spec; cbn; lia.
  - by apply read_write_bytes, digit_byte.
  - apply same_outside_write.
  - change (decimal v) with ((if v / 10 =? 0 then [] else decimal_digits 9 (v / 10)) ++ [48 + v mod 10]).
    rewrite length_app. cbn [length]. lia.
  - exact Hl.
  - done.
  - apply decimal_digits_numeral. cbn. lia.
  - apply decimal_digits_head; cbn; lia.
Qed.

Lemma print_uint_roundtrip_witness :
  ∃ l m', print_uint_to_buffer 10 64 4096 ∅ = Ret (Z.of_nat (length l), m') ∧ numeral l = 4096.
Proof.
  destruct (print_uint_roundtrip 10 64 4096 ∅ ltac:(lia) ltac:(lia)) as (l & m' & E & _ & _ & _ & _ & Hn & _).
  eauto.
Defined.

(** A format string ["%3s=%u %2h"] at 0x100 and a string at 0x200. *)
Definition ex_items : list item := [Str 3 512 [97; 98; 99; 100]; Lit 61; Int 117 2147483658; Lit 32; Hex 2 48879].
Definition ex_format : mem :=
  write_bytes (write_bytes ∅ 256 (ex_items ≫= item_chars)) 512 [97; 98; 99; 100].

Lemma print_to_buffer_formats_witness :
  ∃ m', print_to_buffer_va true 30 1024 256 (ex_items ≫= item_args) ex_format = Ret (20, m') ∧
    read_bytes m' 1024 20 = [97; 98; 99; 61; 45; 50; 49; 52; 55; 52; 56; 51; 54; 51; 56; 32; 66; 69; 69; 70].
Proof.
  assert (mem_bytes ex_format) as Hm.
  { apply mem_bytes_write, mem_bytes_write. intros a. unfold ld8, byte. rewrite lookup_empty. cbn. lia. }
  assert (c_string ex_format 512 [97; 98; 99; 100]) as Hs.
  { split_and!; [vm_compute; reflexivity|repeat constructor; lia|vm_compute; reflexivity]. }
  destruct (print_to_buffer_formats true 30 ex_format 1024 256 ex_items Hm) as (m' & E & Er & _).
  - split_and!; [vm_compute; reflexivity| |vm_compute; reflexivity].
    apply (bool_decide_unpack _). vm_compute. exact I.
  - unfold ex_items, item_ok, byte. repeat (apply Forall_cons; split); try apply Forall_nil; split_and?; try lia; auto.
  - unfold ex_items, str_ok. repeat (apply Forall_cons; split); try apply Forall_nil; try done.
    split; [left; cbn; lia|cbn; lia].
  - left. vm_compute. reflexivity.
  - vm_compute. lia.
  - vm_compute. reflexivity.
  - exists m'. split; [exact E|exact Er].
Defined.
