(* ===== verification/Console.v ===== *)
(** * The console and the host interface (board/print.c, board/serial.c)

    Formatted output over the serial ports USART1 and USART0, and the receive buffer of the
    console.  Format strings and other literals are in the memory, at the addresses [lit]
    gives. *)

From S2P Require Import Prelude Memory Hardware Gpio Clock Nvic Usart Ringbuffer Sprint.

(** The device, the memory, and the ring buffer [rb] of print.c. *)
Record console (D : Type) := Console { c_hw : D; c_mem : mem; c_rb : ringbuffer }.
Arguments Console {D}.
Arguments c_hw {D}.
Arguments c_mem {D}.
Arguments c_rb {D}.

Definition DEBUG_BUFFER_SIZE : Z := 64.
Definition RECEIVE_BUFFER_SIZE : Z := 256.
Definition SERIAL_BUFFER_SIZE : Z := 256.

Section Console.
Context {D : Type} `{Mmio D}.
#[local] Notation con := (console D).

Definition on_hw {A} (c : M D A) : M con A := zoom c_hw (λ d s, Console d (c_mem s) (c_rb s)) c.
Definition on_mem {A} (c : M mem A) : M con A := zoom c_mem (λ m s, Console (c_hw s) m (c_rb s)) c.
Definition on_rb {A} (c : M rstate A) : M con A :=
  zoom (λ s, (c_rb s, c_mem s)) (λ r s, Console (c_hw s) r.2 r.1) c.

(** The addresses of the buffers and of the literals; [fuel] bounds the waits and the
    lengths of strings. *)
Variable fuel : nat.
Variable debug_buffer receive_buffer serial_buffer : Z.
Variable lit : string → Z.

(** [while (size--) usart_write(port, *src++);] *)
Fixpoint transmit (port : Z) (size : nat) (src : Z) : M con unit :=
  match size with
  | O => ret tt
  | S size =>
      let* c := on_mem (gets (λ m, ld8 m src)) in
      on_hw (usart_write fuel port c) ;;
      transmit port size (src + 1)
  end.

(** ** The console *)

Definition debug_usart : usart_desc := UsartDesc 115200 USART_DATA_8_BIT USART_SB_ONE USART_PARITY_NO.
Definition print_init : M con unit :=
  on_hw (gpio_set_function GPIOA 21 GPIO_FUNC_A) ;;
  on_hw (gpio_set_function GPIOB 4 GPIO_FUNC_D) ;;
  on_hw (peripheral_clock_enable 14) ;;
  on_hw (usart_init USART1 debug_usart) ;;
  on_hw (usart_interrupt_enable USART1 USART_IRQ_RXRDY) ;;
  on_rb (ringbuffer_init receive_buffer 256) ;;
  on_hw (nvic_enable 14) ;;
  on_hw (nvic_set_prioriy 14 NVIC_PRI_2).

Definition print_deinit : M con unit :=
  on_hw (usart_deinit USART1) ;;
  on_hw (peripheral_clock_disable 14) ;;
  on_hw (nvic_disable 14) ;;
  on_hw (nvic_clear_pending 14).

Definition print (data : Z) (obj : list Z) : M con unit :=
  let* size := on_mem (print_to_buffer_va true fuel debug_buffer data obj) in
  transmit USART1 (Z.to_nat size) debug_buffer.

Definition printl (data : Z) (obj : list Z) : M con unit :=
  let* size := on_mem (print_to_buffer_va true fuel debug_buffer data obj) in
  transmit USART1 (Z.to_nat size) debug_buffer ;;
  on_hw (usart_write fuel USART1 10).

Fixpoint raw_loop (n : nat) (data : Z) : M con unit :=
  match n with
  | O => hang
  | S n =>
      let* c := on_mem (gets (λ m, ld8 m data)) in
      if c =? 0 then ret tt else on_hw (usart_write fuel USART1 c) ;; raw_loop n (data + 1)
  end.
Definition print_raw (data : Z) : M con unit := raw_loop fuel data.

(** The loop of [print_memory], with its three byte-wide counters. *)
Fixpoint memory_loop (n : nat) (src line byte_ section : Z) : M con unit :=
  match n with
  | O => ret tt
  | S n =>
      let* ls :=
        (if 2 <=? line then
           let* sec := (if 8 <=? section then print (lit "\n") [] ;; ret 0 else ret (u8 (section + 1))) in
           print (lit "\n0x%4h:  ") [u32 src] ;; ret (0, sec)
         else ret (line, section)) in
      let* c := on_mem (gets (λ m, ld8 m src)) in
      print (lit "%1h ") [c] ;;
      (if 3 <=? byte_
       then print (lit "   ") [] ;; memory_loop n (src + 1) (u8 (ls.1 + 1)) 0 ls.2
       else memory_loop n (src + 1) ls.1 (u8 (byte_ + 1)) ls.2)
  end.
Definition print_memory (memory size : Z) : M con unit :=
  print (lit "\n0x%4h:  ") [u32 memory] ;;
  memory_loop (Z.to_nat size) memory 0 0 0 ;;
  print (lit "\n\n") [].

Definition print_flush : M con unit := on_hw (usart_flush fuel USART1).
Definition print_count (data count : Z) : M con unit := transmit USART1 (Z.to_nat count) data.
Definition print_byte (data : Z) : M con unit := on_hw (usart_write_raw USART1 data).
Definition print_get_status : M con Z := on_hw (usart_get_thr_status USART1).
Definition read_print_buffer (data size : Z) : M con Z := on_rb (ringbuffer_read_mult data (Z.to_nat size)).

Fixpoint register_loop (n : nat) (i reg : Z) : M con unit :=
  match n with
  | O => ret tt
  | S n =>
      let reg_byte := Z.land (Z.shiftr reg ((3 - i) * 8)) 0xFF in
      print (lit "%4b ") [Z.shiftr reg_byte 4] ;;
      print (lit "%4b") [reg_byte] ;;
      print (lit "\n") [] ;;
      register_loop n (i + 1) reg
  end.
Definition print_register (name reg : Z) : M con unit :=
  printl (lit "%s") [name] ;; register_loop 4 0 reg.

Definition usart1_exception : M con unit :=
  let* rec := on_hw (usart_read USART1) in on_rb (ringbuffer_add rec).

(** ** The host interface *)

Definition serial : usart_desc := UsartDesc 230400 USART_DATA_8_BIT USART_SB_ONE USART_PARITY_NO.
Definition serial_init : M con unit :=
  on_hw (gpio_set_function GPIOB 0 GPIO_FUNC_C) ;;
  on_hw (gpio_set_function GPIOB 1 GPIO_FUNC_C) ;;
  on_hw (peripheral_clock_enable 13) ;;
  on_hw (usart_init USART0 serial) ;;
  on_hw (usart_interrupt_enable USART0 USART_IRQ_RXRDY) ;;
  on_hw (nvic_enable 13) ;;
  on_hw (nvic_set_prioriy 13 NVIC_PRI_0).

Definition serial_deinit : M con unit :=
  on_hw (usart_deinit USART0) ;;
  on_hw (peripheral_clock_disable 13) ;;
  on_hw (nvic_disable 13) ;;
  on_hw (nvic_clear_pending 13).

Definition serial_print (data : Z) (obj : list Z) : M con unit :=
  let* size := on_mem (print_to_buffer_va true fuel serial_buffer data obj) in
  transmit USART0 (Z.to_nat size) serial_buffer.
Definition serial_printl (data : Z) (obj : list Z) : M con unit :=
  let* size := on_mem (print_to_buffer_va true fuel serial_buffer data obj) in
  transmit USART0 (Z.to_nat size) serial_buffer ;;
  on_hw (usart_write fuel USART0 10).
Definition serial_flush : M con unit := on_hw (usart_flush fuel USART0).
Definition serial_read : M con Z := on_hw (usart_read USART0).
End Console.

(** ** What is sent *)

Lemma transmit_sends {D : Type} {port : Z} `{UartLaws D port} fuel n src (s : console D) l :
  (uart_delay ≤ fuel)%nat →
  uart_ok (c_hw s) → read_bytes (c_mem s) src n = l → Forall byte l →
  ∃ d', transmit fuel port n src s = Ret (tt, Console d' (c_mem s) (c_rb s)) ∧ uart_ok d' ∧
    uart_sent d' = uart_sent (c_hw s) ++ l.
Proof.
  intros Hfuel. revert src s l; induction n as [|n IH]; intros src s l Hok Hl Hb; cbn [read_bytes] in Hl; subst l.
  - exists (c_hw s). split_and!; [by destruct s|done|by rewrite app_nil_r].
  - apply Forall_cons in Hb as [Hb0 Hb].
    destruct (usart_write_sends port fuel (ld8 (c_mem s) src) (c_hw s) Hok Hb0 Hfuel) as (d1 & E1 & Hok1 & Hs1).
    destruct (IH (src + 1) (Console d1 (c_mem s) (c_rb s)) _ Hok1 eq_refl Hb) as (d2 & E2 & Hok2 & Hs2).
    exists d2. split_and!; [|done|].
    + cbn [transmit]. rewrite (bind_Ret _ _ s (ld8 (c_mem s) src) s) by (by destruct s).
      rewrite (bind_Ret _ _ s tt (Console d1 (c_mem s) (c_rb s))); [exact E2|].
      unfold on_hw, zoom. by rewrite E1.
    + rewrite Hs2. cbn [c_hw]. by rewrite Hs1, <- app_assoc.
Qed.

Section Sends.
Context {D : Type} `{UartLaws D USART1}.
Variable fuel : nat.
Hypothesis Hfuel : (uart_delay ≤ fuel)%nat.

Lemma on_mem_run {A} (c : M mem A) (s : console D) a m' :
  c (c_mem s) = Ret (a, m') → on_mem c s = Ret (a, Console (c_hw s) m' (c_rb s)).
Proof. intros E. unfold on_mem, zoom. by rewrite E. Qed.

Lemma mem_bytes_patch m m' b l :
  mem_bytes m → Forall byte l → read_bytes m' b (length l) = l →
  same_outside (λ a, b ≤ a < b + Z.of_nat (length l)) m m' → mem_bytes m'.
Proof.
  intros Hm Hl Hr Ho a. destruct (decide (b ≤ a < b + Z.of_nat (length l))) as [Hi|Hi].
  - rewrite Forall_lookup in Hl. apply (Hl (Z.to_nat (a - b))). rewrite <- Hr at 1.
    rewrite lookup_read_bytes by lia. do 2 f_equal. lia.
  - rewrite Ho by done. apply Hm.
Qed.

(** What [print] and [printl] do with a sequence of items. *)
Lemma print_run debug_buffer (s : console D) data xs :
  let l := xs ≫= render true in
  uart_ok (c_hw s) →
  mem_bytes (c_mem s) → c_string (c_mem s) data (xs ≫= item_chars) → Forall (item_ok true (c_mem s)) xs →
  Forall (str_ok debug_buffer (length l) (fuel - length xs)) xs →
  away debug_buffer (length l) data (data + Z.of_nat (length (xs ≫= item_chars))) →
  (length xs + 10 < fuel)%nat → Z.of_nat (length l) < 65536 →
  ∃ d1 d2 m', print fuel debug_buffer data (xs ≫= item_args) s = Ret (tt, Console d1 m' (c_rb s)) ∧
    printl fuel debug_buffer data (xs ≫= item_args) s = Ret (tt, Console d2 m' (c_rb s)) ∧
    uart_ok d1 ∧ uart_ok d2 ∧ uart_sent d1 = uart_sent (c_hw s) ++ l ∧ uart_sent d2 = uart_sent (c_hw s) ++ l ++ [10] ∧
    mem_bytes m' ∧ read_bytes m' debug_buffer (length l) = l ∧
    same_outside (λ a, debug_buffer ≤ a < debug_buffer + Z.of_nat (length l)) (c_mem s) m'.
Proof using Hfuel.
  intros l Hu Hm Hs Hok Hst Ha Hf Hl.
  destruct (print_to_buffer_run true fuel (c_mem s) debug_buffer data xs Hm Hs Hok Hst Ha Hf Hl) as (m' & E & Er & Ho). fold l in E, Er, Ho.
  assert (Forall byte l) as Hb.
  { unfold l. clear -Hm Hok. induction Hok; cbn; [constructor|]. apply Forall_app; split; [by eapply render_bytes|done]. }
  destruct (transmit_sends fuel (length l) debug_buffer (Console (c_hw s) m' (c_rb s)) l Hfuel Hu Er Hb) as (d' & Et & Hok' & Hs').
  cbn [c_hw c_mem c_rb] in Et, Hs'.
  destruct (usart_write_sends USART1 fuel 10 d' Hok' ltac:(by compute) Hfuel) as (d2 & E2 & Hok2 & Hs2).
  exists d', d2, m'. split_and!; try done.
  - unfold print. rewrite (bind_Ret _ _ _ _ _ (on_mem_run _ s _ _ E)). by rewrite Nat2Z.id.
  - unfold printl. rewrite (bind_Ret _ _ _ _ _ (on_mem_run _ s _ _ E)), Nat2Z.id.
    rewrite (bind_Ret _ _ _ _ _ Et). unfold on_hw, zoom. cbn [c_hw]. by rewrite E2.
  - by rewrite Hs2, Hs', <- app_assoc.
  - by eapply mem_bytes_patch.
Qed.

(** C37. Printing: for every sequence of literal characters and directives, on a port that works,
    [print] sends exactly the characters the sequence means, in order, after what was sent before, and
    [printl] a newline after them; both then return.  The text is first put together in the buffer at
    [debug_buffer], whatever its length: the buffer has 64 bytes, and a longer text is sent
    all the same and overwrites the memory behind the buffer. *)
Theorem print_transmits debug_buffer (s : console D) data xs :
  let l := xs ≫= render true in
  uart_ok (c_hw s) →
  mem_bytes (c_mem s) → c_string (c_mem s) data (xs ≫= item_chars) → Forall (item_ok true (c_mem s)) xs →
  Forall (str_ok debug_buffer (length l) (fuel - length xs)) xs →
  away debug_buffer (length l) data (data + Z.of_nat (length (xs ≫= item_chars))) →
  (length xs + 10 < fuel)%nat → Z.of_nat (length l) < 65536 →
  (∃ s', print fuel debug_buffer data (xs ≫= item_args) s = Ret (tt, s') ∧
     uart_sent (c_hw s') = uart_sent (c_hw s) ++ l ∧ c_rb s' = c_rb s ∧
     read_bytes (c_mem s') debug_buffer (length l) = l ∧
     same_outside (λ a, debug_buffer ≤ a < debug_buffer + Z.of_nat (length l)) (c_mem s) (c_mem s')) ∧
  (∃ s', printl fuel debug_buffer data (xs ≫= item_args) s = Ret (tt, s') ∧
     uart_sent (c_hw s') = uart_sent (c_hw s) ++ l ++ [10]).
Proof using Hfuel.
  intros l Hu Hm Hs Hok Hst Ha Hf Hl.
  destruct (print_run debug_buffer s data xs Hu Hm Hs Hok Hst Ha Hf Hl) as (d1 & d2 & m' & E1 & E2 & _ & _ & S1 & S2 & _ & Er & Ho).
  split; [by exists (Console d1 m' (c_rb s))|by exists (Console d2 m' (c_rb s))].
Qed.

(** ** Programs that print

    [texts] are the strings in the memory, with their addresses, that the programs use: all of them away
    from the buffer.  A program [says] a text when, from every state in which the port and the strings
    are in order, it returns, has sent the text, and has changed nothing else but the buffer. *)

Variable debug_buffer : Z.
Variable texts : list (Z * list Z).
Hypothesis Hfuel' : (200 ≤ fuel)%nat.

Record con_ok (s : console D) : Prop := {
  co_uart : uart_ok (c_hw s);
  co_bytes : mem_bytes (c_mem s);
  co_texts a t : (a, t) ∈ texts → c_string (c_mem s) a t ∧ away debug_buffer 64 a (a + Z.of_nat (length t))
}.
Definition says (c : M (console D) unit) (l : list Z) : Prop := ∀ s, con_ok s →
  ∃ s', c s = Ret (tt, s') ∧ con_ok s' ∧ uart_sent (c_hw s') = uart_sent (c_hw s) ++ l ∧ c_rb s' = c_rb s ∧
    same_outside (λ a, debug_buffer ≤ a < debug_buffer + 64) (c_mem s) (c_mem s').

(** The items a [printl] of the programs can have. *)
Definition text_ok (x : item) : Prop :=
  match x with
  | Str opt a s => 0 ≤ opt < 256 ∧ (a, s) ∈ texts ∧ (length s ≤ 64)%nat
  | _ => item_ok true ∅ x
  end.

Lemma says_ret : says (ret tt) [].
Proof. intros s Hs. exists s. split_and!; [done|done|by rewrite app_nil_r|done|apply same_outside_refl]. Qed.

Lemma says_bind c1 c2 l1 l2 : says c1 l1 → says c2 l2 → says (c1 ;; c2) (l1 ++ l2).
Proof.
  intros H1 H2 s Hs. destruct (H1 s Hs) as (s1 & E1 & K1 & S1 & R1 & O1). destruct (H2 s1 K1) as (s2 & E2 & K2 & S2 & R2 & O2).
  exists s2. split_and!; [by rewrite (bind_Ret _ _ _ _ _ E1)|done|by rewrite S2, S1, app_assoc|by rewrite R2|].
  by eapply same_outside_trans.
Qed.

Lemma says_if (b : bool) c l : says c l → says (if b then c else ret tt) (if b then l else []).
Proof. intros Hc. destruct b; [done|apply says_ret]. Qed.

(** A print of at most 64 characters. *)
Lemma says_print xs data :
  (data, xs ≫= item_chars) ∈ texts → Forall text_ok xs → (length xs ≤ 64)%nat → (length (xs ≫= render true) ≤ 64)%nat →
  says (print fuel debug_buffer data (xs ≫= item_args)) (xs ≫= render true) ∧
  says (printl fuel debug_buffer data (xs ≫= item_args)) ((xs ≫= render true) ++ [10]).
Proof using Hfuel Hfuel'.
  intros Hin Hx Hn Hl.
  assert (∀ s, con_ok s → ∃ d1 d2 m', print fuel debug_buffer data (xs ≫= item_args) s = Ret (tt, Console d1 m' (c_rb s)) ∧
    printl fuel debug_buffer data (xs ≫= item_args) s = Ret (tt, Console d2 m' (c_rb s)) ∧
    con_ok (Console d1 m' (c_rb s)) ∧ con_ok (Console d2 m' (c_rb s)) ∧
    uart_sent d1 = uart_sent (c_hw s) ++ (xs ≫= render true) ∧ uart_sent d2 = uart_sent (c_hw s) ++ (xs ≫= render true) ++ [10] ∧
    same_outside (λ a, debug_buffer ≤ a < debug_buffer + 64) (c_mem s) m') as HR.
  { intros s [Hu Hb Ht]. destruct (Ht _ _ Hin) as [Hs Ha].
    destruct (print_run debug_buffer s data xs) as (d1 & d2 & m' & E1 & E2 & U1 & U2 & S1 & S2 & B & _ & O); try done.
    - eapply Forall_impl; [exact Hx|]. intros [| opt b t | | | | | |] Hi; cbn in *; try done.
      destruct Hi as (Ho & Hi & _). by split; [|apply (Ht _ _ Hi)].
    - eapply Forall_impl; [exact Hx|]. intros [| opt b t | | | | | |] Hi; cbn in *; try done.
      destruct Hi as (_ & Hi & Hlt). destruct (Ht _ _ Hi) as [_ [Hw|Hw]]; (split; [|lia]); [by left|right; lia].
    - destruct Ha as [Ha|Ha]; [by left|right; lia].
    - lia.
    - lia.
    - exists d1, d2, m'.
      assert (same_outside (λ a, debug_buffer ≤ a < debug_buffer + 64) (c_mem s) m') as O' by (eapply same_outside_mono; [|exact O]; cbn; lia).
      assert (∀ d, uart_ok d → con_ok (Console d m' (c_rb s))) as K.
      { intros d Hd. constructor; [done|done|]. intros a t Hi. destruct (Ht a t Hi) as [Hc Hw]. split; [|done].
        eapply c_string_ext; [|exact Hc]. intros x Hx'. apply O'. cbn. destruct Hw; lia. }
      split_and!; (done || by apply K). }
  split; intros s Hs; destruct (HR s Hs) as (d1 & d2 & m' & E1 & E2 & K1 & K2 & S1 & S2 & O).
  - by exists (Console d1 m' (c_rb s)).
  - by exists (Console d2 m' (c_rb s)).
Qed.

(** A print without directives, and with one directive. *)
Definition plain (l : list Z) : Prop := Forall (λ c, byte c ∧ c ≠ 0 ∧ c ≠ 37) l.
Lemma lit_items (f : item → list Z) l : (∀ c, f (Lit c) = [c]) → (Lit <$> l) ≫= f = l.
Proof. intros Hf. induction l as [|c l IH]; [done|]. cbn. by rewrite Hf, IH. Qed.
Lemma lit_no_args l : (Lit <$> l) ≫= item_args = [].
Proof. by induction l. Qed.

Lemma says_one l x r data :
  (data, l ++ item_chars x ++ r) ∈ texts → plain l → plain r → text_ok x →
  (length l + length r < 64)%nat → (length l + length (render true x) + length r ≤ 64)%nat →
  says (print fuel debug_buffer data (item_args x)) (l ++ render true x ++ r) ∧
  says (printl fuel debug_buffer data (item_args x)) (l ++ render true x ++ r ++ [10]).
Proof using Hfuel Hfuel'.
  intros Hin Hl Hr Hx Hn Hlen. pose proof (says_print ((Lit <$> l) ++ x :: (Lit <$> r)) data) as Hs.
  rewrite !bind_app, !bind_cons, !lit_no_args, !lit_items, app_nil_r, <- !app_assoc in Hs by done. apply Hs; try done.
  - apply Forall_app; split; [by apply Forall_fmap|constructor; [done|by apply Forall_fmap]].
  - rewrite length_app. cbn [length]. rewrite !length_fmap. lia.
  - rewrite !length_app. lia.
Qed.

Lemma says_plain l data :
  (data, l) ∈ texts → plain l → (length l ≤ 64)%nat →
  says (print fuel debug_buffer data []) l ∧ says (printl fuel debug_buffer data []) (l ++ [10]).
Proof using Hfuel Hfuel'.
  intros Hin Hp Hl. pose proof (says_print (Lit <$> l) data) as Hs. rewrite lit_no_args, !lit_items in Hs by done.
  apply Hs; try done; [by apply Forall_fmap|by rewrite length_fmap].
Qed.
End Sends.

(** ** A port that is busy for one read after every byte *)

Record uart := Uart { u_sent : list Z; u_busy : nat }.
#[export] Instance uart_mmio : Mmio uart := {|
  io_read a d := if a =? US_CSR USART1
                 then match u_busy d with O => (2, d) | S n => (0, Uart (u_sent d) n) end else (0, d);
  io_write a v d := if a =? US_THR USART1 then Uart (u_sent d ++ [v]) 1 else d;
  io_barrier _ d := d
|}.
#[export] Program Instance uart_laws : UartLaws uart USART1 :=
  {| uart_ok d := (u_busy d ≤ 1)%nat; uart_ready d := u_busy d = 0%nat; uart_sent := u_sent; uart_delay := 2 |}.
Next Obligation.
  intros [l [|[|n]]] Hd; cbn in Hd; [| |lia]; cbn.
  - split; [done|]. right. by cbn.
  - split; [done|]. left. split; [done|]. split; [done|]. right. split_and!; cbn; try done; rewrite ?Z.eqb_refl; cbn; lia.
Qed.
Next Obligation. intros [l n] b Hd Hr Hb. cbn in *. rewrite ?Z.eqb_refl. cbn. split; [lia|done]. Qed.

Definition ex_text : list item := [Lit 72; Lit 105; Lit 32; Hex 2 48879].
Definition ex_console : console uart :=
  Console (Uart [] 0) (write_bytes ∅ 0x100 (ex_text ≫= item_chars)) (Ringbuffer 0 0 0 0).

Lemma print_transmits_witness :
  (∃ s', print 30 0x200 0x100 (ex_text ≫= item_args) ex_console = Ret (tt, s') ∧
    u_sent (c_hw s') = [72; 105; 32; 66; 69; 69; 70]) ∧
  (∃ s', printl 30 0x200 0x100 (ex_text ≫= item_args) ex_console = Ret (tt, s') ∧
    u_sent (c_hw s') = [72; 105; 32; 66; 69; 69; 70; 10]).
Proof.
  destruct (@print_transmits uart uart_mmio uart_laws 30 ltac:(cbn; lia) 0x200 ex_console 0x100 ex_text) as [(s1 & E1 & H1 & _) (s2 & E2 & H2)].
  - cbn. lia.
  - apply mem_bytes_write. intros a. unfold ld8. rewrite lookup_empty. by compute.
  - split_and!; [vm_compute; reflexivity|apply (bool_decide_unpack _); vm_compute; exact I|vm_compute; reflexivity].
  - unfold ex_text, item_ok, byte. repeat (apply Forall_cons; split); try apply Forall_nil; split_and?; try lia; auto.
  - unfold ex_text, str_ok. by repeat constructor.
  - left. vm_compute. reflexivity.
  - vm_compute. lia.
  - vm_compute. reflexivity.
  - split; [exists s1; split; [exact E1|exact H1]|exists s2; split; [exact E2|exact H2]].
Defined.
