(* ===== verification/BootDrivers.v ===== *)
(** * The drivers of the bootloader (bootloader/src/drivers, cpu/nvic.h, board)

    The bootloader has its own copies of the drivers for clocks, pins, serial ports, interrupts, the
    system timer and the watchdog, and of the console.  They are modelled here from its
    sources, with its own register definitions (BootHardware.v); [boot_drivers_agree] says where
    they do what the kernel's do.  Enumerations and descriptors, which both programs declare
    alike, are those of the kernel's files. *)

From S2P Require Import Prelude Memory Hardware BootHardware Gpio Clock Nvic Usart Drivers Ringbuffer Sprint Console.

(** ** Clocks (clock.c) *)

Definition MOR : Z := Eval vm_compute in BootHardware.CLOCK + offset_of BootHardware.clock_reg "MOR".
Definition PLLA : Z := Eval vm_compute in BootHardware.CLOCK + offset_of BootHardware.clock_reg "PLLA".
Definition MCKR : Z := Eval vm_compute in BootHardware.CLOCK + offset_of BootHardware.clock_reg "MCKR".
Definition CLOCK_SR : Z := Eval vm_compute in BootHardware.CLOCK + offset_of BootHardware.clock_reg "SR".
Definition SCER : Z := Eval vm_compute in BootHardware.CLOCK + offset_of BootHardware.clock_reg "SCER".
Definition SCDR : Z := Eval vm_compute in BootHardware.CLOCK + offset_of BootHardware.clock_reg "SCDR".
Definition PCER0 : Z := Eval vm_compute in BootHardware.CLOCK + offset_of BootHardware.clock_reg "PCER0".
Definition PCDR0 : Z := Eval vm_compute in BootHardware.CLOCK + offset_of BootHardware.clock_reg "PCDR0".
Definition PCER1 : Z := Eval vm_compute in BootHardware.CLOCK + offset_of BootHardware.clock_reg "PCER1".
Definition PCDR1 : Z := Eval vm_compute in BootHardware.CLOCK + offset_of BootHardware.clock_reg "PCDR1".
Definition PCR : Z := Eval vm_compute in BootHardware.CLOCK + offset_of BootHardware.clock_reg "PCR".
Definition PCK (n : Z) : Z := BootHardware.CLOCK + offset_of BootHardware.clock_reg "PCK" + 4 * n.

Section BootClock.
Context {D : Type} `{Mmio D}.
Variable fuel : nat.

Definition clock_wait_sr (bit : Z) : M D unit := wait_bits fuel CLOCK_SR (Z.shiftl 1 bit).

Definition clock_source_enable (source : clock_source) (startup_time : Z) : M D unit :=
  match source with
  | RC_OSCILLCATOR =>
      set32 MOR (Z.lor (Z.shiftl 1 3) 0x00370000) ;;
      clock_wait_sr 17
  | CRYSTAL_OSCILLATOR =>
      let* reg := rd32 MOR in
      let reg := Z.land reg (Z.lnot (Z.lor (Z.shiftl 0xFF 8) (Z.shiftl 1 1))) in
      let reg := Z.lor reg (Z.lor (Z.lor 1 (Z.shiftl startup_time 8)) 0x00370000) in
      wr32 MOR reg ;;
      clock_wait_sr 0
  end.

Definition clock_source_disable (source : clock_source) : M D Z :=
  let* r := rd32 MOR in
  if Z.land (Z.shiftr r 24) 1 =? source_val source then ret 0 else
  let* reg := rd32 MOR in
  let reg := Z.lor reg 0x00370000 in
  let reg := match source with
             | RC_OSCILLCATOR => Z.land reg (Z.lnot (Z.shiftl 1 3))
             | CRYSTAL_OSCILLATOR => Z.land reg (Z.lnot 1)
             end in
  wr32 MOR reg ;;
  ret 1.

(** The panic of this function is an endless loop. *)
Definition rc_frequency_select (frec : rc_frecuency) : M D unit :=
  let* sr := rd32 CLOCK_SR in
  if Z.land sr (Z.shiftl 1 17) =? 0 then hang else
  let* reg := rd32 MOR in
  let reg := Z.land reg (Z.lnot (Z.shiftl 7 4)) in
  let reg := Z.lor reg (Z.shiftl (frec_val frec) 4) in
  wr32 MOR reg ;;
  clock_wait_sr 17.

Definition main_clock_select (source : clock_source) : M D unit :=
  let* reg := rd32 MOR in
  let reg := Z.land reg (Z.lnot (Z.shiftl 1 24)) in
  let reg := match source with
             | CRYSTAL_OSCILLATOR => Z.lor reg (Z.shiftl 1 24)
             | RC_OSCILLCATOR => reg
             end in
  wr32 MOR (Z.lor reg 0x00370000) ;;
  clock_wait_sr 16.

Definition plla_init (div mul startup_time : Z) : M D unit :=
  wr32 PLLA (Z.lor (Z.lor (Z.lor (Z.shiftl 1 29) (Z.shiftl (Z.land (mul - 1) 0x7FF) 16)) div)
                   (Z.shiftl (Z.land startup_time 63) 8)) ;;
  clock_wait_sr 1.

Definition plla_disable : M D Z :=
  let* r := rd32 MCKR in
  if Z.land r 3 =? 2 then ret 0 else
  wr32 PLLA (Z.lor (Z.shiftl 1 29) (Z.shiftl 63 8)) ;;
  ret 1.

(** One field of the master clock register: read, replace the field, write, wait
    for the clock to be stable. *)
Definition mckr_field (mask shift v : Z) : M D unit :=
  let* reg := rd32 MCKR in
  let reg := Z.land reg (Z.lnot (Z.shiftl mask shift)) in
  let reg := Z.lor reg (Z.shiftl v shift) in
  wr32 MCKR reg ;;
  clock_wait_sr 3.

Definition master_clock_select (net : clock_net) (presc : master_presc) (div : master_divider) : M D unit :=
  match net with
  | SLOW_CLOCK | MAIN_CLOCK =>
      mckr_field 3 0 (net_val net) ;;
      mckr_field 7 4 (presc_val presc) ;;
      mckr_field 3 8 (div_val div)
  | _ =>
      mckr_field 7 4 (presc_val presc) ;;
      mckr_field 3 8 (div_val div) ;;
      mckr_field 3 0 (net_val net)
  end.

Definition master_clock_verify : M D Z :=
  let* r := rd32 CLOCK_SR in ret (u8 (Z.land r (Z.shiftl 1 3))).

Definition peripheral_clock_enable (per_id : Z) : M D unit :=
  if per_id <? 32 then wr32 PCER0 (Z.shiftl 1 per_id)
  else if per_id <? 64 then wr32 PCER1 (Z.shiftl 1 (per_id - 32))
  else wr32 PCR (Z.lor (Z.lor (Z.land per_id 127) (Z.shiftl 1 12)) (Z.shiftl 1 28)).

Definition peripheral_clock_disable (per_id : Z) : M D unit :=
  if per_id <? 32 then wr32 PCDR0 (Z.shiftl 1 per_id)
  else if per_id <? 64 then wr32 PCDR1 (Z.shiftl 1 (per_id - 32))
  else wr32 PCR (Z.lor (Z.land per_id 127) (Z.shiftl 1 12)).

(** The programmable clocks are numbered 0 to 7. *)
Definition pck_init (pck : Z) (net : clock_net) (presc : Z) : M D unit :=
  wr32 (PCK pck) (Z.lor (Z.shiftl presc 4) (net_val net)).
Definition pck_enable (pck : Z) : M D unit := wr32 SCER (Z.shiftl 1 (8 + pck)).
Definition pck_disable (pck : Z) : M D unit := wr32 SCDR (Z.shiftl 1 (8 + pck)).

Definition clock_tree_reset : M D unit :=
  master_clock_select MAIN_CLOCK MASTER_PRESC_OFF MASTER_DIV_OFF ;;
  plla_disable ;;
  main_clock_select RC_OSCILLCATOR ;;
  rc_frequency_select RC_12_MHz ;;
  clock_source_disable CRYSTAL_OSCILLATOR ;;
  ret tt.
End BootClock.

(** ** Pins (gpio.c) *)

Definition PER (port : Z) : Z := port + offset_of BootHardware.gpio_reg "PER".
Definition PDR (port : Z) : Z := port + offset_of BootHardware.gpio_reg "PDR".
Definition OER (port : Z) : Z := port + offset_of BootHardware.gpio_reg "OER".
Definition ODR (port : Z) : Z := port + offset_of BootHardware.gpio_reg "ODR".
Definition SODR (port : Z) : Z := port + offset_of BootHardware.gpio_reg "SODR".
Definition CODR (port : Z) : Z := port + offset_of BootHardware.gpio_reg "CODR".
Definition ODSR (port : Z) : Z := port + offset_of BootHardware.gpio_reg "ODSR".
Definition PDSR (port : Z) : Z := port + offset_of BootHardware.gpio_reg "PDSR".
Definition ABCDSR0 (port : Z) : Z := port + offset_of BootHardware.gpio_reg "ABCDSR0".
Definition ABCDSR1 (port : Z) : Z := port + offset_of BootHardware.gpio_reg "ABCDSR1".
(** The register 0x40088114 that gpio.c addresses by number: the system pins. *)
Definition CCFG_SYSIO : Z := 0x40088114.

Section BootGpio.
Context {D : Type} `{Mmio D}.

Definition gpio_set (port pin : Z) : M D unit := wr32 (SODR port) (pin_bit pin).
Definition gpio_clear (port pin : Z) : M D unit := wr32 (CODR port) (pin_bit pin).

(** A bit of a select register, from a bit of the function number. *)
Definition select_bit (a pin v : Z) : M D unit :=
  if negb (v =? 0) then set32 a (pin_bit pin) else mask32 a (Z.lnot (pin_bit pin)).

Definition gpio_set_function (port pin : Z) (func : gpio_func) : M D unit :=
  (if port =? BootHardware.GPIOB
   then if (pin =? 4) || (pin =? 5) || (pin =? 6) || (pin =? 7) || (pin =? 12)
        then set32 CCFG_SYSIO (pin_bit pin) else ret tt
   else ret tt) ;;
  match func with
  | GPIO_FUNC_OFF => wr32 (PER port) (pin_bit pin)
  | _ =>
      select_bit (ABCDSR0 port) pin (Z.land (func_val func) 1) ;;
      select_bit (ABCDSR1 port) pin (Z.land (func_val func) 2) ;;
      wr32 (PDR port) (pin_bit pin)
  end.

Definition gpio_set_direction (port pin : Z) (dir : gpio_dir) : M D unit :=
  match dir with
  | GPIO_INPUT => wr32 (ODR port) (pin_bit pin)
  | GPIO_OUTPUT => wr32 (OER port) (pin_bit pin)
  end.

Definition gpio_toggle (port pin : Z) : M D unit :=
  let* r := rd32 (ODSR port) in
  if negb (Z.land r (pin_bit pin) =? 0) then wr32 (CODR port) (pin_bit pin) else wr32 (SODR port) (pin_bit pin).

Definition gpio_get_pin_status (port pin : Z) : M D Z :=
  let* r := rd32 (PDSR port) in ret (if negb (Z.land r (pin_bit pin) =? 0) then 1 else 0).

Definition gpio_set_pull (port pin : Z) (pull : gpio_pull) : M D unit :=
  match pull with
  | GPIO_PULL_DOWN =>
      wr32 (port + offset_of BootHardware.gpio_reg "PUDR") (pin_bit pin) ;;
      wr32 (port + offset_of BootHardware.gpio_reg "PPDER") (pin_bit pin)
  | GPIO_PULL_UP =>
      wr32 (port + offset_of BootHardware.gpio_reg "PUER") (pin_bit pin) ;;
      wr32 (port + offset_of BootHardware.gpio_reg "PPDDR") (pin_bit pin)
  end.
End BootGpio.

(** ** Interrupts (nvic.h) *)

Definition ISER (n : Z) : Z := BootHardware.NVIC + offset_of BootHardware.nvic_reg "ISER" + 4 * n.
Definition ICER (n : Z) : Z := BootHardware.NVIC + offset_of BootHardware.nvic_reg "ICER" + 4 * n.
Definition ISPR (n : Z) : Z := BootHardware.NVIC + offset_of BootHardware.nvic_reg "ISPR" + 4 * n.
Definition ICPR (n : Z) : Z := BootHardware.NVIC + offset_of BootHardware.nvic_reg "ICPR" + 4 * n.
Definition IABR (n : Z) : Z := BootHardware.NVIC + offset_of BootHardware.nvic_reg "IABR" + 4 * n.
Definition IPR (n : Z) : Z := BootHardware.NVIC + offset_of BootHardware.nvic_reg "IPR" + n.
Definition SHPR (n : Z) : Z := BootHardware.SCB + offset_of BootHardware.scb_reg "SHPR" + n.
Definition SCB_ICSR : Z := BootHardware.SCB + offset_of BootHardware.scb_reg "ICSR".

Section BootNvic.
Context {D : Type} `{Mmio D}.

Definition nvic_enable (irq_number : Z) : M D unit := wr32 (ISER (irq_word irq_number)) (irq_bit irq_number).
Definition nvic_disable (irq_number : Z) : M D unit :=
  wr32 (ICER (irq_word irq_number)) (irq_bit irq_number) ;; dsb ;; isb.
Definition nvic_is_enabled (irq_number : Z) : M D Z := bit_set (ISER (irq_word irq_number)) (irq_bit irq_number).
Definition nvic_set_pending (irq_number : Z) : M D unit := wr32 (ISPR (irq_word irq_number)) (irq_bit irq_number).
Definition nvic_clear_pending (irq_number : Z) : M D unit := wr32 (ICPR (irq_word irq_number)) (irq_bit irq_number).
Definition nvic_is_pending (irq_number : Z) : M D Z := bit_set (ISPR (irq_word irq_number)) (irq_bit irq_number).
Definition nvic_is_active (irq_number : Z) : M D Z := bit_set (IABR (irq_word irq_number)) (irq_bit irq_number).

Definition nvic_set_prioriy (irq_number : Z) (pri : irq_priority) : M D unit :=
  wr8 (IPR irq_number) (Z.land (Z.shiftl (pri_val pri) 5) 0xFF).
Definition nvic_get_priority (irq_number : Z) : M D Z := let* r := rd8 (IPR irq_number) in ret (Z.shiftr r 5).

Definition systick_set_priority (pri : irq_priority) : M D unit := wr8 (SHPR 11) (Z.shiftl (pri_val pri) 5).
Definition pendsv_set_priority (pri : irq_priority) : M D unit := wr8 (SHPR 10) (Z.shiftl (pri_val pri) 5).
Definition svc_set_priority (pri : irq_priority) : M D unit := wr8 (SHPR 7) (Z.shiftl (pri_val pri) 5).
Definition usage_fault_set_priority (pri : irq_priority) : M D unit := wr8 (SHPR 2) (Z.shiftl (pri_val pri) 5).
Definition mem_fault_set_priority (pri : irq_priority) : M D unit := wr8 (SHPR 0) (Z.shiftl (pri_val pri) 5).
Definition bus_fault_set_priority (pri : irq_priority) : M D unit := wr8 (SHPR 1) (Z.shiftl (pri_val pri) 5).

Definition systick_set_pending : M D unit := wr32 SCB_ICSR (Z.shiftl 1 26).
Definition systick_clear_pending : M D unit := wr32 SCB_ICSR (Z.shiftl 1 25).
Definition pendsv_set_pending : M D unit := wr32 SCB_ICSR (Z.shiftl 1 28).
Definition pendsv_clear_pending : M D unit := wr32 SCB_ICSR (Z.shiftl 1 27).
Definition nmi_set_pending : M D unit := wr32 SCB_ICSR (Z.shiftl 1 31).
Definition vector_is_pending : M D Z := bit_set SCB_ICSR (Z.shiftl 1 22).
Definition nvic_get_executing_vector : M D Z := let* r := rd32 SCB_ICSR in ret (u8 (Z.land r 0xFF)).
End BootNvic.

(** ** Serial ports (usart.c, usart.h) *)

Definition US_CR (reg : Z) : Z := reg + offset_of BootHardware.usart_reg "CR".
Definition US_MR (reg : Z) : Z := reg + offset_of BootHardware.usart_reg "MR".
Definition US_IER (reg : Z) : Z := reg + offset_of BootHardware.usart_reg "IER".
Definition US_IDR (reg : Z) : Z := reg + offset_of BootHardware.usart_reg "IDR".
Definition US_CSR (reg : Z) : Z := reg + offset_of BootHardware.usart_reg "CSR".
Definition US_RHR (reg : Z) : Z := reg + offset_of BootHardware.usart_reg "RHR".
Definition US_THR (reg : Z) : Z := reg + offset_of BootHardware.usart_reg "THR".
Definition US_BRGR (reg : Z) : Z := reg + offset_of BootHardware.usart_reg "BRGR".
Definition US_RTOR (reg : Z) : Z := reg + offset_of BootHardware.usart_reg "RTOR".
Definition US_TTGR (reg : Z) : Z := reg + offset_of BootHardware.usart_reg "TTGR".

Section BootUsart.
Context {D : Type} `{Mmio D}.

(** A baud rate of zero, modulo 2^28, divides by zero. *)
Definition usart_init (reg : Z) (desc : usart_desc) : M D unit :=
  wr32 (US_CR reg) usart_reset ;;
  wr32 (US_RTOR reg) 0 ;;
  wr32 (US_TTGR reg) 0 ;;
  wr32 (US_MR reg) (usart_mode desc) ;;
  (if u32 (16 * buad_rate desc) =? 0 then ub
   else wr32 (US_BRGR reg) (u16 (150000000 / u32 (16 * buad_rate desc)))) ;;
  wr32 (US_CR reg) (Z.lor (Z.shiftl 1 4) (Z.shiftl 1 6)).

Definition usart_deinit (reg : Z) : M D unit :=
  wr32 (US_CR reg) usart_reset ;;
  wr32 (US_IDR reg) 0xFFFFFFFF.

Definition usart_interrupt_enable (reg mask : Z) : M D unit := wr32 (US_IER reg) mask.

Definition usart_write (fuel : nat) (reg data : Z) : M D unit :=
  wait_bits fuel (US_CSR reg) (Z.shiftl 1 1) ;;
  wr32 (US_THR reg) (u8 data).
Definition usart_read (reg : Z) : M D Z := let* r := rd32 (US_RHR reg) in ret (u8 r).
Definition usart_flush (fuel : nat) (reg : Z) : M D unit := wait_bits fuel (US_CSR reg) (Z.shiftl 1 9).
End BootUsart.

(** ** System timer and watchdog (systick.c, watchdog.c) *)

Definition BOOT_SYSTICK (name : string) : Z := BootHardware.SYSTICK + offset_of BootHardware.systick_reg name.
Definition BOOT_WATCHDOG_MR : Z := BootHardware.WATCHDOG + offset_of BootHardware.watchdog_reg "MR".

Section BootTimers.
Context {D : Type} `{Mmio D}.

Definition systick_set_rvr (value : Z) : M D unit := wr32 (BOOT_SYSTICK "RVR") (Z.land 0xFFFFFF value).
Definition systick_set_cvr (value : Z) : M D unit := wr32 (BOOT_SYSTICK "CVR") (Z.land 0xFFFFFF value).
Definition systick_enable (irq_enable : Z) : M D unit :=
  wr32 (BOOT_SYSTICK "CSR") (if negb (irq_enable =? 0) then Z.lor 5 (Z.shiftl 1 1) else 5).
Definition systick_reset : M D unit := wr32 (BOOT_SYSTICK "CSR") 0.

(** The bit is set in the register; the kernel overwrites the register. *)
Definition watchdog_disable : M D unit := set32 BOOT_WATCHDOG_MR (Z.shiftl 1 15).
End BootTimers.

(** ** The console and the host interface (print.c, serial.c)

    Without the receive buffer of the kernel's console. *)

Section BootConsole.
Context {D : Type} `{Mmio D}.
#[local] Notation con := (console D).
Variable fuel : nat.
Variable debug_buffer serial_buffer : Z.

(** [while (size--) usart_write(port, *src++);] *)
Fixpoint transmit (port : Z) (size : nat) (src : Z) : M con unit :=
  match size with
  | O => ret tt
  | S size =>
      let* c := on_mem (gets (λ m, ld8 m src)) in
      on_hw (usart_write fuel port c) ;;
      transmit port size (src + 1)
  end.

Definition print_init : M con unit :=
  on_hw (gpio_set_function BootHardware.GPIOA 21 GPIO_FUNC_A) ;;
  on_hw (gpio_set_function BootHardware.GPIOB 4 GPIO_FUNC_D) ;;
  on_hw (peripheral_clock_enable 14) ;;
  on_hw (usart_init BootHardware.USART1 (UsartDesc 115200 USART_DATA_8_BIT USART_SB_ONE USART_PARITY_NO)).
Definition print_deinit : M con unit :=
  on_hw (usart_deinit BootHardware.USART1) ;;
  on_hw (peripheral_clock_disable 14) ;;
  on_hw (nvic_disable 14) ;;
  on_hw (nvic_clear_pending 14).
Definition print (data : Z) (obj : list Z) : M con unit :=
  let* size := on_mem (print_to_buffer_va false fuel debug_buffer data obj) in
  transmit BootHardware.USART1 (Z.to_nat size) debug_buffer.
Definition printl (data : Z) (obj : list Z) : M con unit :=
  let* size := on_mem (print_to_buffer_va false fuel debug_buffer data obj) in
  transmit BootHardware.USART1 (Z.to_nat size) debug_buffer ;;
  on_hw (usart_write fuel BootHardware.USART1 10).
Definition print_flush : M con unit := on_hw (usart_flush fuel BootHardware.USART1).

Definition serial_init : M con unit :=
  on_hw (gpio_set_function BootHardware.GPIOB 0 GPIO_FUNC_C) ;;
  on_hw (gpio_set_function BootHardware.GPIOB 1 GPIO_FUNC_C) ;;
  on_hw (peripheral_clock_enable 13) ;;
  on_hw (usart_init BootHardware.USART0 (UsartDesc 230400 USART_DATA_8_BIT USART_SB_ONE USART_PARITY_NO)) ;;
  on_hw (usart_interrupt_enable BootHardware.USART0 USART_IRQ_RXRDY) ;;
  on_hw (nvic_enable 13).
Definition serial_deinit : M con unit :=
  on_hw (usart_deinit BootHardware.USART0) ;;
  on_hw (peripheral_clock_disable 13) ;;
  on_hw (nvic_disable 13) ;;
  on_hw (nvic_clear_pending 13).
Definition serial_print (data : Z) (obj : list Z) : M con unit :=
  let* size := on_mem (print_to_buffer_va false fuel serial_buffer data obj) in
  transmit BootHardware.USART0 (Z.to_nat size) serial_buffer.
Definition serial_printl (data : Z) (obj : list Z) : M con unit :=
  let* size := on_mem (print_to_buffer_va false fuel serial_buffer data obj) in
  transmit BootHardware.USART0 (Z.to_nat size) serial_buffer ;;
  on_hw (usart_write fuel BootHardware.USART0 10).
Definition serial_flush : M con unit := on_hw (usart_flush fuel BootHardware.USART0).
Definition serial_read : M con Z := on_hw (usart_read BootHardware.USART0).
End BootConsole.

(** ** The two programs *)

Section Agree.
Context {D : Type} `{Mmio D}.

Definition same1 {A B} (f g : A → M D B) : Prop := ∀ x d, f x d = g x d.
Definition same2 {A B C} (f g : A → B → M D C) : Prop := ∀ x y d, f x y d = g x y d.
Definition same3 {A B C E} (f g : A → B → C → M D E) : Prop := ∀ x y z d, f x y z d = g x y z d.

(** The clock driver with the fuel [n]. *)
Lemma boot_clock_agrees n :
  same2 (clock_source_enable n) (Clock.clock_source_enable n) ∧ same1 clock_source_disable Clock.clock_source_disable ∧
  same1 (rc_frequency_select n) (Clock.rc_frequency_select n) ∧ same1 (main_clock_select n) (Clock.main_clock_select n) ∧
  same3 (plla_init n) (Clock.plla_init n) ∧ (∀ d, plla_disable d = Clock.plla_disable d) ∧
  same3 (master_clock_select n) (Clock.master_clock_select n) ∧ (∀ d, master_clock_verify d = Clock.master_clock_verify d) ∧
  same1 peripheral_clock_enable Clock.peripheral_clock_enable ∧ same1 peripheral_clock_disable Clock.peripheral_clock_disable ∧
  same3 pck_init Clock.pck_init ∧ same1 pck_enable Clock.pck_enable ∧ same1 pck_disable Clock.pck_disable ∧
  (∀ d, clock_tree_reset n d = Clock.clock_tree_reset n d).
Proof. repeat split; repeat intros ?; reflexivity. Qed.

Lemma boot_gpio_agrees :
  same3 gpio_set_function Gpio.gpio_set_function ∧ same3 gpio_set_direction Gpio.gpio_set_direction ∧
  same2 gpio_set Gpio.gpio_set ∧ same2 gpio_clear Gpio.gpio_clear ∧ same2 gpio_toggle Gpio.gpio_toggle ∧
  same2 gpio_get_pin_status Gpio.gpio_get_pin_status ∧ same3 gpio_set_pull Gpio.gpio_set_pull.
Proof. repeat split; repeat intros ?; reflexivity. Qed.

Lemma boot_nvic_agrees :
  same1 nvic_enable Nvic.nvic_enable ∧ same1 nvic_disable Nvic.nvic_disable ∧ same1 nvic_is_enabled Nvic.nvic_is_enabled ∧
  same1 nvic_set_pending Nvic.nvic_set_pending ∧ same1 nvic_clear_pending Nvic.nvic_clear_pending ∧
  same1 nvic_is_pending Nvic.nvic_is_pending ∧ same1 nvic_is_active Nvic.nvic_is_active ∧
  same2 nvic_set_prioriy Nvic.nvic_set_prioriy ∧ same1 nvic_get_priority Nvic.nvic_get_priority ∧
  same1 systick_set_priority Nvic.systick_set_priority ∧ same1 pendsv_set_priority Nvic.pendsv_set_priority ∧
  same1 svc_set_priority Nvic.svc_set_priority ∧ same1 usage_fault_set_priority Nvic.usage_fault_set_priority ∧
  same1 mem_fault_set_priority Nvic.mem_fault_set_priority ∧ same1 bus_fault_set_priority Nvic.bus_fault_set_priority ∧
  (∀ d, systick_set_pending d = Nvic.systick_set_pending d ∧ systick_clear_pending d = Nvic.systick_clear_pending d ∧
    pendsv_set_pending d = Nvic.pendsv_set_pending d ∧ pendsv_clear_pending d = Nvic.pendsv_clear_pending d ∧
    nmi_set_pending d = Nvic.nmi_set_pending d ∧ vector_is_pending d = Nvic.vector_is_pending d ∧
    nvic_get_executing_vector d = Nvic.nvic_get_executing_vector d).
Proof. repeat split; repeat intros ?; reflexivity. Qed.

Lemma boot_usart_agrees n :
  same2 usart_init Usart.usart_init ∧ same1 usart_deinit Usart.usart_deinit ∧
  same2 usart_interrupt_enable Usart.usart_interrupt_enable ∧ same2 (usart_write n) (Usart.usart_write n) ∧
  same1 usart_read Usart.usart_read ∧ same1 (usart_flush n) (Usart.usart_flush n).
Proof. repeat split; repeat intros ?; reflexivity. Qed.

Lemma transmit_agrees n port size src s : transmit n port size src s = Console.transmit n port size src s.
Proof. reflexivity. Qed.

(** Two sequences of the same accesses, nested differently. *)
Ltac step_binds := repeat (rewrite ?bind_bind; apply bind_ext; intros ??); try reflexivity.

(** The drivers of the two programs: on every device, the bootloader's copies of the drivers for clocks,
    pins, interrupts, serial ports and the system timer make the same accesses to the same registers as the
    kernel's and return the same.  The consoles are set up alike; the kernel then enables the
    reception of characters, and gives the interrupt of the host interface a priority.  The bootloader
    sets the disable bit of the watchdog, where the kernel overwrites the register. *)
Theorem boot_drivers_agree n :
  (same2 (clock_source_enable n) (Clock.clock_source_enable n) ∧ same1 (main_clock_select n) (Clock.main_clock_select n) ∧
   same3 (plla_init n) (Clock.plla_init n) ∧ same3 (master_clock_select n) (Clock.master_clock_select n) ∧
   same1 peripheral_clock_enable Clock.peripheral_clock_enable ∧ same1 peripheral_clock_disable Clock.peripheral_clock_disable ∧
   same3 pck_init Clock.pck_init ∧ (∀ d, clock_tree_reset n d = Clock.clock_tree_reset n d)) ∧
  (same3 gpio_set_function Gpio.gpio_set_function ∧ same3 gpio_set_direction Gpio.gpio_set_direction ∧
   same3 gpio_set_pull Gpio.gpio_set_pull ∧ same2 gpio_toggle Gpio.gpio_toggle ∧ same2 gpio_get_pin_status Gpio.gpio_get_pin_status) ∧
  (same1 nvic_enable Nvic.nvic_enable ∧ same1 nvic_disable Nvic.nvic_disable ∧ same2 nvic_set_prioriy Nvic.nvic_set_prioriy) ∧
  (same2 usart_init Usart.usart_init ∧ same2 (usart_write n) (Usart.usart_write n) ∧ same1 usart_read Usart.usart_read ∧
   same1 (usart_flush n) (Usart.usart_flush n)) ∧
  (same1 systick_set_rvr Drivers.systick_set_rvr ∧ same1 systick_enable Drivers.systick_enable ∧
   ∀ d, systick_reset d = Drivers.systick_disable d) ∧
  (∀ s, print_deinit s = Console.print_deinit s ∧ serial_deinit s = Console.serial_deinit s ∧
    Console.serial_init s = (serial_init ;; on_hw (Nvic.nvic_set_prioriy 13 NVIC_PRI_0)) s ∧
    ∀ buffer, Console.print_init buffer s =
      (print_init ;; on_hw (Usart.usart_interrupt_enable Hardware.USART1 USART_IRQ_RXRDY) ;; on_rb (ringbuffer_init buffer 256) ;;
       on_hw (Nvic.nvic_enable 14) ;; on_hw (Nvic.nvic_set_prioriy 14 NVIC_PRI_2)) s) ∧
  (∀ b : bank, ∃ b1 b2, watchdog_disable b = Ret (tt, b1) ∧ Drivers.watchdog_disable b = Ret (tt, b2) ∧
    bank_get WATCHDOG_MR b1 = u32 (Z.lor (bank_get WATCHDOG_MR b) 0x8000) ∧ bank_get WATCHDOG_MR b2 = 0x8000).
Proof.
  destruct (boot_clock_agrees n) as (C1 & _ & _ & C2 & C3 & _ & C4 & _ & C5 & C6 & C7 & _ & _ & C8).
  destruct boot_gpio_agrees as (G1 & G2 & _ & _ & G3 & G4 & G5).
  destruct boot_nvic_agrees as (N1 & N2 & _ & _ & _ & _ & _ & N3 & _).
  destruct (boot_usart_agrees n) as (U1 & _ & _ & U2 & U3 & U4).
  split; [by split_and!|]. split; [by split_and!|]. split; [by split_and!|]. split; [by split_and!|].
  split; [by split_and!; repeat intros ?|]. split.
  - intros s. split; [reflexivity|]. split; [reflexivity|]. split.
    + unfold Console.serial_init, serial_init. by step_binds.
    + intros buffer. unfold Console.print_init, print_init. by step_binds.
  - intros b. eexists _, _. split; [reflexivity|]. split; [reflexivity|]. split.
    + change WATCHDOG_MR with BOOT_WATCHDOG_MR. apply bank_get_set.
    + apply bank_get_set.
Qed.
End Agree.
