(* ===== verification/BootIface.v ===== *)
(** * The hardware of the frame interface (bootloader/src/frame.c): start and end

    The machine the interface runs on, the registers of its timer, and the functions that
    prepare and release the serial port, the timer and their interrupts.  The handlers are in
    FrameHw.v, the variables in Frame.v. *)

From S2P Require Import Prelude BootHardware BootDrivers.
From S2P Require Import Memory Crc Frame Hardware Nvic Clock Usart Ringbuffer Sprint Console.

(** Registers of channel 0 of TIMER0. *)
Definition TC_CCR : Z := Hardware.TIMER0 + offset_of timer_channel "CCR".
Definition TC_CMR : Z := Hardware.TIMER0 + offset_of timer_channel "CMR".
Definition TC_RC : Z := Hardware.TIMER0 + offset_of timer_channel "RC".
Definition TC_SR : Z := Hardware.TIMER0 + offset_of timer_channel "SR".
Definition TC_IER : Z := Hardware.TIMER0 + offset_of timer_channel "IER".
Definition TC_IDR : Z := Hardware.TIMER0 + offset_of timer_channel "IDR".

(** The machine, and the variables of the interface: the fields of [fstate] but [timer] and [events], which
    show the hardware in the protocol; here they are not used. *)
Record iface (D : Type) := Iface { i_con : console D; i_vars : fstate }.
Arguments Iface {D}.
Arguments i_con {D}.
Arguments i_vars {D}.

Section BootIface.
Context {D : Type} `{Mmio D}.
#[local] Notation dev := (iface D).

Definition on_con {A} (c : M (console D) A) : M dev A := zoom i_con (λ c s, Iface c (i_vars s)) c.
Definition on_vars {A} (c : M fstate A) : M dev A := zoom i_vars (λ v s, Iface (i_con s) v) c.
Definition on_dev {A} (c : M D A) : M dev A := on_con (on_hw c).

Definition timeout_stop : M dev unit := on_dev (wr32 TC_CCR 2).
Definition timeout_reload : M dev unit := on_dev (wr32 TC_CCR 5).

(** The timer counts the slow clock divided by 33; 1000 counts are about a second. *)
Definition timer_start : M dev unit :=
  on_dev (wr32 TC_CMR (Z.lor (Z.lor (Z.shiftl 1 15) (Z.shiftl 1 7)) (Z.shiftl 1 6))) ;;
  on_dev (wr32 TC_RC 1000) ;;
  on_dev (wr32 TC_IER (Z.shiftl 1 4)).

Definition frame_init : M dev unit :=
  on_con BootDrivers.serial_init ;;
  on_dev (BootDrivers.peripheral_clock_enable 23) ;;
  on_dev (BootDrivers.pck_init 6 SLOW_CLOCK 32) ;;
  on_dev (BootDrivers.pck_enable 6) ;;
  timer_start ;;
  on_dev (BootDrivers.nvic_enable 23) ;;
  on_vars (modify (set_bus STATE_IDLE)).

Definition frame_deinit : M dev unit :=
  on_con BootDrivers.serial_deinit ;;
  on_dev (BootDrivers.peripheral_clock_disable 23) ;;
  on_dev (BootDrivers.pck_disable 6) ;;
  timeout_stop ;;
  on_dev (wr32 TC_IDR 0xFFFFFFFF) ;;
  on_dev (BootDrivers.nvic_disable 23) ;;
  on_dev (BootDrivers.nvic_clear_pending 23).
End BootIface.
