(* ===== verification/Gmac.v ===== *)
(** * The Ethernet controller (drivers/gmac.c, board/ethernet.c)

    The driver over any device; the descriptors are the arrays of gmac.c, which the
    controller writes as well, so every theorem is for all their contents.
    [GmacLaws] says how the control register and the management interface of the
    transceiver behave. *)

From Stdlib Require Import Btauto.
From S2P Require Import Prelude Memory Hardware Gpio Clock Nvic Ringbuffer Console.

Definition G_REG (name : string) : Z := GMAC + offset_of gmac_reg name.
Definition NCR : Z := G_REG "NCR".
Definition NSR : Z := G_REG "NSR".
Definition MAN : Z := G_REG "MAN".

Definition GMAC_TX_BUFFER_SIZE : Z := 1500.
Definition GMAC_RX_BUFFER_SIZE : Z := 128.
Definition GMAC_TX_DESCRIPTORS : Z := 2.
Definition GMAC_RX_DESCRIPTORS : Z := 16.

Record gmac_rx_desc := RxDesc { rx_addr : Z; rx_info : Z }.
Record gmac_tx_desc := TxDesc { tx_addr : Z; tx_info : Z }.
#[export] Instance rx_inhabited : Inhabited gmac_rx_desc := populate (RxDesc 0 0).
#[export] Instance tx_inhabited : Inhabited gmac_tx_desc := populate (TxDesc 0 0).

(** The variables of gmac.c, with the machine the console uses. *)
Record gmac (D : Type) := Gmac {
  g_con : console D;
  tx_descriptors : list gmac_tx_desc;
  rx_descriptors : list gmac_rx_desc;
  tx_descriptor_dummy : gmac_tx_desc;
  rx_descriptor_dummy : gmac_rx_desc;
  tx_buffer_index : Z;
  rx_buffer_index : Z
}.
Arguments Gmac {D}.
Arguments g_con {D}.
Arguments tx_descriptors {D}.
Arguments rx_descriptors {D}.
Arguments tx_descriptor_dummy {D}.
Arguments rx_descriptor_dummy {D}.
Arguments tx_buffer_index {D}.
Arguments rx_buffer_index {D}.

(** ** Register accesses *)

Section Registers.
Context {D : Type} `{Mmio D}.

Definition gmac_enable : M D unit := set32 NCR (Z.lor (Z.shiftl 1 2) (Z.shiftl 1 3)).
(** [~(1 << 2) | (1 << 3)]: the complement is taken of the first bit only. *)
Definition gmac_disable : M D unit := mask32 NCR (Z.lor (Z.lnot (Z.shiftl 1 2)) (Z.shiftl 1 3)).
Definition gmac_deinit : M D unit :=
  wr32 (G_REG "IDR") 0xFFFFFFFF ;; wr32 NCR 0.

Definition gmac_enable_loop_back : M D unit :=
  let* r := rd32 NCR in
  let gmac_state := u8 (Z.land (Z.shiftr r 2) 3) in
  mask32 NCR (Z.lnot (Z.lor (Z.shiftl 1 2) (Z.shiftl 1 3))) ;;
  set32 NCR (Z.shiftl 1 1) ;;
  set32 NCR (Z.shiftl (Z.land gmac_state 3) 2).
Definition gmac_disable_loop_back : M D unit :=
  let* r := rd32 NCR in
  let gmac_state := u8 (Z.land (Z.shiftr r 2) 3) in
  mask32 NCR (Z.lnot (Z.lor (Z.shiftl 1 2) (Z.shiftl 1 3))) ;;
  mask32 NCR (Z.lnot (Z.shiftl 1 1)) ;;
  set32 NCR (Z.shiftl (Z.land gmac_state 3) 2).

(** The command word for the transceiver: the operation is 1 for a write, 2 for a read. *)
Definition man_word (op phy_addr reg : Z) : Z :=
  Z.lor (Z.lor (Z.lor (Z.lor (Z.shiftl 2 16) (Z.shiftl (Z.land phy_addr 31) 23)) (Z.shiftl (Z.land reg 31) 18))
    (Z.shiftl op 28)) (Z.shiftl 1 30).

Definition gmac_in_phy (fuel : nat) (phy_addr reg : Z) : M D Z :=
  set32 NCR (Z.shiftl 1 4) ;;
  wr32 MAN (man_word 2 phy_addr reg) ;;
  wait_bits fuel NSR (Z.shiftl 1 2) ;;
  let* r := rd32 MAN in
  let data := u16 (Z.land r 0xFFFF) in
  mask32 NCR (Z.lnot (Z.shiftl 1 4)) ;;
  ret data.

Definition gmac_out_phy (fuel : nat) (phy_addr reg data : Z) : M D unit :=
  set32 NCR (Z.shiftl 1 4) ;;
  wr32 MAN (Z.lor (man_word 1 phy_addr reg) data) ;;
  wait_bits fuel NSR (Z.shiftl 1 2) ;;
  mask32 NCR (Z.lnot (Z.shiftl 1 4)).

(** ** The board (board/ethernet.c) *)

Definition eth_init : M D unit :=
  gpio_set_function GPIOD 8 GPIO_FUNC_A ;;
  gpio_set_function GPIOD 9 GPIO_FUNC_A ;;
  gpio_set_function GPIOD 0 GPIO_FUNC_A ;;
  gpio_set_function GPIOC 10 GPIO_FUNC_OFF ;;
  gpio_set GPIOC 10 ;;
  gpio_set_direction GPIOC 10 GPIO_OUTPUT ;;
  gpio_set_function GPIOD 2 GPIO_FUNC_A ;;
  gpio_set_function GPIOC 3 GPIO_FUNC_A ;;
  gpio_set_function GPIOD 1 GPIO_FUNC_A ;;
  gpio_set_function GPIOD 5 GPIO_FUNC_A ;;
  gpio_set_function GPIOD 6 GPIO_FUNC_A ;;
  gpio_set_function GPIOD 7 GPIO_FUNC_A ;;
  gpio_set_function GPIOD 4 GPIO_FUNC_A ;;
  peripheral_clock_enable 39 ;;
  nvic_enable 39.
Definition eth_phy_reset_assert : M D unit := gpio_clear GPIOC 10.
Definition eth_phy_reset_deassert : M D unit := gpio_set GPIOC 10.
End Registers.

(** ** Descriptors *)

Section Descriptors.
Context {D : Type} `{Mmio D}.
#[local] Notation gm := (gmac D).
Variable fuel : nat.
Variable debug_buffer : Z.
Variable lit : string → Z.
(** The addresses of the variables of gmac.c. *)
Variable a_tx_descriptors a_rx_descriptors a_tx_descriptor_dummy a_rx_descriptor_dummy : Z.
Variable a_tx_buffers a_rx_buffers a_tx_buffer_dummy a_rx_buffer_dummy : Z.

Definition on_con {A} (c : M (console D) A) : M gm A :=
  zoom g_con (λ k s, Gmac k (tx_descriptors s) (rx_descriptors s) (tx_descriptor_dummy s) (rx_descriptor_dummy s)
    (tx_buffer_index s) (rx_buffer_index s)) c.
Definition on_regs {A} (c : M D A) : M gm A := on_con (on_hw c).
Definition set_tx (l : list gmac_tx_desc) (i : Z) : M gm unit :=
  modify (λ s, Gmac (g_con s) l (rx_descriptors s) (tx_descriptor_dummy s) (rx_descriptor_dummy s) i (rx_buffer_index s)).
Definition set_rx (l : list gmac_rx_desc) (i : Z) : M gm unit :=
  modify (λ s, Gmac (g_con s) (tx_descriptors s) l (tx_descriptor_dummy s) (rx_descriptor_dummy s) (tx_buffer_index s) i).
Definition set_dummies (t : gmac_tx_desc) (r : gmac_rx_desc) : M gm unit :=
  modify (λ s, Gmac (g_con s) (tx_descriptors s) (rx_descriptors s) t r (tx_buffer_index s) (rx_buffer_index s)).

Definition gmac_init_tx_buffer_pool : M gm unit :=
  let descs := (λ i, TxDesc (u32 (a_tx_buffers + Z.of_nat i * GMAC_TX_BUFFER_SIZE)) 0) <$> seq 0 (Z.to_nat GMAC_TX_DESCRIPTORS) in
  set_tx (alter (λ d, TxDesc (tx_addr d) (Z.lor (tx_info d) (Z.shiftl 1 30))) (Z.to_nat (GMAC_TX_DESCRIPTORS - 1)) descs) 0 ;;
  on_regs (wr32 (G_REG "TBQB") a_tx_descriptors).

Definition gmac_init_rx_buffer_pool : M gm unit :=
  let descs := (λ i, RxDesc (u32 (a_rx_buffers + Z.of_nat i * GMAC_RX_BUFFER_SIZE)) 0) <$> seq 0 (Z.to_nat GMAC_RX_DESCRIPTORS) in
  set_rx (alter (λ d, RxDesc (Z.lor (rx_addr d) (Z.shiftl 1 1)) (rx_info d)) (Z.to_nat (GMAC_RX_DESCRIPTORS - 1)) descs) 0 ;;
  on_regs (wr32 (G_REG "RBQB") a_rx_descriptors).

Fixpoint dummy_loop (n : nat) (i : Z) : M gm unit :=
  match n with
  | O => ret tt
  | S n =>
      on_regs (wr32 (G_REG "TBQBAPQ" + 4 * i) a_tx_descriptor_dummy) ;;
      on_regs (wr32 (G_REG "RBQBAPQ" + 4 * i) a_rx_descriptor_dummy) ;;
      dummy_loop n (i + 1)
  end.
(** Both wrap bits are set in the transmit descriptor. *)
Definition gmac_init_dummy_buffer_pool : M gm unit :=
  set_dummies (TxDesc (Z.lor a_tx_buffer_dummy (Z.shiftl 1 1)) (Z.lor 0 (Z.shiftl 1 30))) (RxDesc a_rx_buffer_dummy 0) ;;
  dummy_loop 5 0.

Definition gmac_init : M gm unit :=
  on_regs gmac_enable_loop_back ;;
  on_regs (set32 NCR (Z.shiftl 1 5)) ;;
  on_regs (wr32 (G_REG "NCFGR") (Z.lor (Z.lor (Z.shiftl 1 0) (Z.shiftl 1 1)) (Z.shiftl 4 18))) ;;
  on_regs (wr32 (G_REG "UR") 0) ;;
  on_regs (wr32 (G_REG "DCFGR") (Z.lor (Z.lor (Z.lor (Z.shiftl 4 0) (Z.shiftl 3 8)) (Z.shiftl 1 10)) (Z.shiftl 2 16))) ;;
  on_regs (wr32 (G_REG "WOL") 0) ;;
  on_regs (wr32 (G_REG "IPGS") (Z.lor (Z.shiftl 1 8) 1)) ;;
  gmac_init_rx_buffer_pool ;;
  gmac_init_tx_buffer_pool ;;
  gmac_init_dummy_buffer_pool ;;
  on_regs (wr32 (G_REG "IER") (Z.lor (Z.shiftl 1 7) (Z.shiftl 1 1))).

(** The buffer has been filled by the controller; it starts, it ends a frame; its length. *)
Definition owned (d : gmac_rx_desc) : bool := negb (Z.land (rx_addr d) 1 =? 0).
Definition sof (d : gmac_rx_desc) : bool := negb (Z.land (rx_info d) (Z.shiftl 1 14) =? 0).
Definition eof (d : gmac_rx_desc) : bool := negb (Z.land (rx_info d) (Z.shiftl 1 15) =? 0).
Definition desc_len (d : gmac_rx_desc) : Z := Z.land (rx_info d) 0x1FFF.

Fixpoint length_loop (n : nat) (i length : Z) (sof_valid : bool) : M gm Z :=
  match n with
  | O => ret length
  | S n =>
      let* rbi := gets rx_buffer_index in
      let index := u32 (rbi + i) in
      let index := if GMAC_RX_DESCRIPTORS <=? index then u32 (index - GMAC_RX_DESCRIPTORS) else index in
      let* descs := gets rx_descriptors in
      let d := descs !!! Z.to_nat index in
      if negb (owned d) then ret length else
      let sof_valid := sof d || sof_valid in
      if eof d then ret length else
      length_loop n (i + 1) (if sof_valid then u32 (length + desc_len d) else length) sof_valid
  end.
Definition gmac_get_raw_length : M gm Z := length_loop (Z.to_nat GMAC_RX_DESCRIPTORS) 0 0 false.

Definition gmac_read_raw (buffer size : Z) : M gm Z := ret 0.
Definition gmac_write_raw (buffer size : Z) : M gm Z := ret 0.

Definition gmac_handler : M gm unit :=
  on_regs (rd32 (G_REG "ISR")) ;;
  on_regs (rd32 (G_REG "TSR")) ;;
  on_regs (rd32 (G_REG "RSR")) ;;
  on_con (printl fuel debug_buffer (lit "GMAC") []).
End Descriptors.

(** ** The length of a received frame *)

(** The longest prefix that satisfies [p]; the rest from the first element that satisfies [p]. *)
Fixpoint leading {A} (p : A → bool) (l : list A) : list A :=
  match l with [] => [] | x :: l => if p x then x :: leading p l else [] end.
Fixpoint from_first {A} (p : A → bool) (l : list A) : list A :=
  match l with [] => [] | x :: l' => if p x then l else from_first p l' end.

Definition total (l : list gmac_rx_desc) : Z := foldr (λ d n, desc_len d + n) 0 l.
(** The buffers in the order in which the controller fills them, from the read position on. *)
Definition rx_ring (k : nat) (l : list gmac_rx_desc) : list gmac_rx_desc := drop k l ++ take k l.
(** The filled buffers before the one that ends a frame, from the one that starts it on. *)
Definition frame_buffers (l : list gmac_rx_desc) : list gmac_rx_desc :=
  from_first sof (leading (λ d, owned d && negb (eof d)) l).

Lemma desc_len_range d : 0 ≤ desc_len d < 8192.
Proof. unfold desc_len. change 0x1FFF with (2 ^ 13 - 1). rewrite land_mask by lia. lia. Qed.

Lemma leading_all {A} (p : A → bool) l x r : Forall (λ y, p y) l → p x = false → leading p (l ++ x :: r) = l.
Proof.
  intros Hl Hx. induction Hl as [|y l Hy Hl IH]; cbn [app leading]; [by rewrite Hx|].
  apply Is_true_true in Hy. by rewrite Hy, IH.
Qed.

Lemma lookup_ring k l i : (k < length l)%nat → (i < length l)%nat →
  rx_ring k l !!! i = l !!! (if decide (k + i < length l)%nat then k + i else k + i - length l)%nat.
Proof.
  intros Hk Hi. unfold rx_ring. rewrite !list_lookup_total_alt. f_equal. case_decide.
  - rewrite lookup_app_l by (rewrite length_drop; lia). by rewrite lookup_drop.
  - rewrite lookup_app_r by (rewrite length_drop; lia). rewrite length_drop, lookup_take_lt by lia.
    f_equal. lia.
Qed.

Section Length.
Context {D : Type} `{Mmio D}.

(** What is left to count after [i] buffers. *)
Definition to_count (sofv : bool) (l : list gmac_rx_desc) : Z :=
  total ((if sofv then λ l, l else from_first sof) (leading (λ d, owned d && negb (eof d)) l)).

Lemma length_loop_counts (s : gmac D) n i len sofv :
  length (rx_descriptors s) = 16%nat → 0 ≤ rx_buffer_index s < 16 → (n + i = 16)%nat →
  0 ≤ len → len + 8192 * Z.of_nat n < 2 ^ 32 →
  length_loop n (Z.of_nat i) len sofv s =
  Ret (len + to_count sofv (drop i (rx_ring (Z.to_nat (rx_buffer_index s)) (rx_descriptors s))), s).
Proof.
  set (k := rx_buffer_index s). set (l := rx_descriptors s). intros Hl Hk. revert i len sofv.
  assert (length (rx_ring (Z.to_nat k) l) = 16%nat) as Hring by (unfold rx_ring; rewrite length_app, length_drop, length_take; lia).
  induction n as [|n IH]; intros i len sofv Hn Hlen Hb.
  - rewrite drop_ge by lia. cbn [length_loop]. unfold ret, to_count. cbn. destruct sofv; cbn; by rewrite Z.add_0_r.
  - cbn [length_loop]. unfold bind, gets. fold k l. change GMAC_RX_DESCRIPTORS with 16.
    assert (Z.to_nat (if 16 <=? u32 (k + Z.of_nat i) then u32 (u32 (k + Z.of_nat i) - 16) else u32 (k + Z.of_nat i)) =
      if decide (Z.to_nat k + i < length l)%nat then (Z.to_nat k + i)%nat else (Z.to_nat k + i - length l)%nat) as ->.
    { rewrite (u32_small (k + _)) by lia. destruct (Z.leb_spec 16 (k + Z.of_nat i)).
      - rewrite u32_small by lia. case_decide; lia.
      - case_decide; lia. }
    rewrite <- lookup_ring by lia. set (r := rx_ring _ _) in *.
    assert (drop i r = r !!! i :: drop (S i) r) as Hd.
    { apply drop_S, list_lookup_lookup_total_lt. lia. }
    rewrite Hd. unfold to_count. cbn [leading]. destruct (owned (r !!! i)); cbn [negb andb];
      [|unfold ret; destruct sofv; cbn; by rewrite Z.add_0_r].
    destruct (eof (r !!! i)); cbn [negb]; [unfold ret; destruct sofv; cbn; by rewrite Z.add_0_r|].
    pose proof (desc_len_range (r !!! i)). replace (Z.of_nat i + 1) with (Z.of_nat (S i)) by lia.
    destruct sofv; [rewrite orb_true_r|rewrite orb_false_r; cbn [from_first]; destruct (sof (r !!! i))];
      rewrite IH by (rewrite ?u32_small by lia; lia); rewrite ?u32_small by lia; unfold to_count;
      cbn [total foldr]; f_equal; f_equal; unfold total; cbn [foldr]; lia.
Qed.

(** The length of a received frame: whatever the descriptors hold and wherever the read position is,
    [gmac_get_raw_length] returns, without changing anything, the sum of the length fields of the filled
    buffers from the first one that starts a frame up to, but not including, the first one that ends a
    frame.  For a complete frame the buffer with the end of the frame is therefore never counted, and a
    frame in a single buffer has length zero. *)
Theorem gmac_raw_length_counts (s : gmac D) :
  let ring := rx_ring (Z.to_nat (rx_buffer_index s)) (rx_descriptors s) in
  length (rx_descriptors s) = 16%nat → 0 ≤ rx_buffer_index s < 16 →
  gmac_get_raw_length s = Ret (total (frame_buffers ring), s) ∧
  (∀ frame last rest, ring = frame ++ last :: rest → Forall (λ d, owned d && negb (eof d)) frame →
     match frame with [] => True | d :: _ => sof d end → eof last →
     gmac_get_raw_length s = Ret (total frame, s)).
Proof.
  intros ring Hl Hk.
  assert (gmac_get_raw_length s = Ret (total (frame_buffers ring), s)) as E.
  { unfold gmac_get_raw_length. change (Z.to_nat GMAC_RX_DESCRIPTORS) with 16%nat.
    exact (length_loop_counts s 16 0 0 false Hl Hk eq_refl ltac:(lia) ltac:(lia)). }
  split; [exact E|]. intros frame last rest Hr Hf Hs He. rewrite E. do 2 f_equal.
  unfold frame_buffers. rewrite Hr, leading_all by (done || (apply Is_true_true in He; by rewrite He, andb_false_r)).
  destruct frame as [|d frame]; [done|]. cbn [from_first]. apply Is_true_true in Hs. by rewrite Hs.
Qed.
End Length.

Definition ex_gmac : gmac bank :=
  Gmac (Console (Bank ∅ []) ∅ (Ringbuffer 0 0 0 0)) []
    ([RxDesc 0x20400001 0x8030] ++ replicate 13 (RxDesc 0 0) ++ [RxDesc 0x20400001 0x4080; RxDesc 0x20400003 0x80])
    (TxDesc 0 0) (RxDesc 0 0) 0 14.

(** A frame of 304 bytes in three buffers, the last of them at the start of the array. *)
Lemma gmac_raw_length_counts_witness :
  gmac_get_raw_length ex_gmac = Ret (total [RxDesc 0x20400001 0x4080; RxDesc 0x20400003 0x80], ex_gmac) ∧
  total [RxDesc 0x20400001 0x4080; RxDesc 0x20400003 0x80] = 256.
Proof.
  destruct (gmac_raw_length_counts ex_gmac) as [_ E]; [reflexivity|cbn; lia|].
  split; [|reflexivity]. eapply (E _ (RxDesc 0x20400001 0x8030) (replicate 13 (RxDesc 0 0))).
  - vm_compute. reflexivity.
  - by repeat constructor.
  - exact I.
  - exact I.
Defined.

(** ** The transceiver *)

(** The control register keeps what is written to it.  While its bit 4 is set, a command word starts an
    operation on a register of the transceiver that is over within [phy_delay] reads of the status: a
    write puts the low half of the word into the register, a read puts the register into the
    low half of the command register. *)
Class GmacLaws (D : Type) `{Mmio D} := {
  gm_ncr : D → Z;
  phy_reg : D → Z → Z → Z;
  phy_delay : nat;
  gm_ncr_range d : 0 ≤ gm_ncr d < 2 ^ 32;
  gm_ncr_read d : io_read NCR d = (gm_ncr d, d);
  gm_ncr_write d v : 0 ≤ v < 2 ^ 32 →
    gm_ncr (io_write NCR v d) = v ∧ ∀ p r, phy_reg (io_write NCR v d) p r = phy_reg d p r;
  gm_write d p r v : Z.testbit (gm_ncr d) 4 = true → 0 ≤ p < 32 → 0 ≤ r < 32 → 0 ≤ v < 65536 →
    polls phy_delay NSR 4 (λ _, True) (io_write MAN (Z.lor (man_word 1 p r) v) d) (λ _ d',
      gm_ncr d' = gm_ncr d ∧ ∀ p' r', phy_reg d' p' r' = if (p' =? p) && (r' =? r) then v else phy_reg d p' r');
  gm_read d p r : Z.testbit (gm_ncr d) 4 = true → 0 ≤ p < 32 → 0 ≤ r < 32 →
    polls phy_delay NSR 4 (λ _, True) (io_write MAN (man_word 2 p r) d) (λ _ d',
      gm_ncr d' = gm_ncr d ∧ (∀ p' r', phy_reg d' p' r' = phy_reg d p' r') ∧
      u16 (io_read MAN d').1 = phy_reg d p r ∧
      gm_ncr (io_read MAN d').2 = gm_ncr d ∧ ∀ p' r', phy_reg (io_read MAN d').2 p' r' = phy_reg d p' r')
}.

Section Phy.
Context {D : Type} `{GmacLaws D}.

Lemma set_ncr v d : 0 ≤ v < 2 ^ 32 →
  ∃ d', set32 NCR v d = Ret (tt, d') ∧ gm_ncr d' = Z.lor (gm_ncr d) v ∧ ∀ p r, phy_reg d' p r = phy_reg d p r.
Proof.
  intros Hv. unfold set32, rd32, bind, wr32, modify. rewrite gm_ncr_read. eexists. split; [reflexivity|].
  pose proof (gm_ncr_range d). rewrite u32_small.
  - apply gm_ncr_write. apply lor_range; lia.
  - apply (lor_range _ _ 32); lia.
Qed.

Lemma mask_ncr v d :
  ∃ d', mask32 NCR v d = Ret (tt, d') ∧ gm_ncr d' = Z.land (gm_ncr d) v ∧ ∀ p r, phy_reg d' p r = phy_reg d p r.
Proof.
  unfold mask32, rd32, bind, wr32, modify. rewrite gm_ncr_read. eexists. split; [reflexivity|].
  pose proof (gm_ncr_range d). rewrite u32_small by (apply (land_range _ _ 32); lia). apply gm_ncr_write, land_range; lia.
Qed.

Lemma man_word_ok op p r v : 0 ≤ op < 4 → 0 ≤ v < 65536 → u32 (Z.lor (man_word op p r) v) = Z.lor (man_word op p r) v.
Proof.
  intros Ho Hv. assert (∀ x, 0 ≤ Z.land x 31 < 32) as H31.
  { intros x. change 31 with (2 ^ 5 - 1). rewrite land_mask by lia. lia. }
  pose proof (H31 p). pose proof (H31 r).
  apply u32_small. unfold man_word.
  repeat first [apply (lor_range _ _ 32); [done| |] | rewrite Z.shiftl_mul_pow2 by done; lia | lia].
Qed.

Lemma ncr_bit4 x : Z.testbit (Z.lor x (Z.shiftl 1 4)) 4 = true.
Proof. rewrite Z.lor_spec. apply orb_true_r. Qed.

(** Writing to and reading from the transceiver: [gmac_out_phy] puts the value into the register that
    was asked for and into no other, and a [gmac_in_phy] after it returns it. *)
Theorem phy_roundtrip fuel p r v (d : D) :
  0 ≤ p < 32 → 0 ≤ r < 32 → 0 ≤ v < 65536 → (phy_delay ≤ fuel)%nat →
  ∃ d', gmac_out_phy fuel p r v d = Ret (tt, d') ∧
    (∀ p' r', phy_reg d' p' r' = if (p' =? p) && (r' =? r) then v else phy_reg d p' r') ∧
    Z.testbit (gm_ncr d') 4 = false ∧
    (∀ p' r', 0 ≤ p' < 32 → 0 ≤ r' < 32 → ∃ d'', gmac_in_phy fuel p' r' d' = Ret (phy_reg d' p' r', d'') ∧
       ∀ p'' r'', phy_reg d'' p'' r'' = phy_reg d' p'' r'').
Proof.
  intros Hp Hr Hv Hf.
  destruct (set_ncr (Z.shiftl 1 4) d ltac:(by compute)) as (d1 & E1 & N1 & R1).
  assert (Z.testbit (gm_ncr d1) 4 = true) as B1 by (by rewrite N1, ncr_bit4).
  destruct (wait_bits_spec _ fuel NSR 4 _ _ _ (gm_write d1 p r v B1 Hp Hr Hv) Hf) as (x & d2 & E2 & N2 & R2).
  destruct (mask_ncr (Z.lnot (Z.shiftl 1 4)) d2) as (d3 & E3 & N3 & R3).
  exists d3. split_and!.
  - unfold gmac_out_phy. rewrite (bind_Ret _ _ _ _ _ E1). rewrite (bind_Ret _ _ d1 tt (io_write MAN (Z.lor (man_word 1 p r) v) d1)).
    + by rewrite (bind_Ret _ _ _ _ _ E2).
    + unfold wr32, modify. by rewrite man_word_ok by lia.
  - intros p' r'. by rewrite R3, R2, R1.
  - by rewrite N3, Z.land_spec, andb_false_r.
  - intros p' r' Hp' Hr'. destruct (set_ncr (Z.shiftl 1 4) d3 ltac:(by compute)) as (d4 & E4 & N4 & R4).
    assert (Z.testbit (gm_ncr d4) 4 = true) as B4 by (by rewrite N4, ncr_bit4).
    destruct (wait_bits_spec _ fuel NSR 4 _ _ _ (gm_read d4 p' r' B4 Hp' Hr') Hf) as (y & d5 & E5 & N5 & R5 & V5 & N6 & R6).
    destruct (io_read MAN d5) as [w d6] eqn:Er. cbn [fst snd] in V5, N6, R6.
    destruct (mask_ncr (Z.lnot (Z.shiftl 1 4)) d6) as (d7 & E7 & N7 & R7).
    exists d7. split.
    + unfold gmac_in_phy. rewrite (bind_Ret _ _ _ _ _ E4).
      rewrite (bind_Ret _ _ d4 tt (io_write MAN (man_word 2 p' r') d4)).
      * rewrite (bind_Ret _ _ _ _ _ E5), (bind_Ret _ _ d5 w d6) by (unfold rd32; by rewrite Er).
        rewrite (bind_Ret _ _ _ _ _ E7). unfold ret. do 2 f_equal.
        change 0xFFFF with (2 ^ 16 - 1). rewrite land_mask by lia. change (w mod 2 ^ 16) with (u16 w).
        rewrite V5, R4. apply u16_small. rewrite <- R4, <- V5. apply u16_range.
      * unfold wr32, modify. pose proof (man_word_ok 2 p' r' 0 ltac:(lia) ltac:(lia)) as Ew. rewrite Z.lor_0_r in Ew. by rewrite Ew.
    + intros. by rewrite R7, R6, R4.
Qed.
End Phy.

(** ** A controller whose transceiver answers at the second read of the status *)

Record phy_dev := PhyDev { d_ncr : Z; d_regs : Z → Z → Z; d_busy : nat; d_latch : Z }.
Definition man_phy (v : Z) : Z := Z.land (Z.shiftr v 23) 31.
Definition man_reg (v : Z) : Z := Z.land (Z.shiftr v 18) 31.
Definition man_op (v : Z) : Z := Z.land (Z.shiftr v 28) 3.
#[export] Instance phy_dev_mmio : Mmio phy_dev := {|
  io_read a d :=
    if a =? NCR then (u32 (d_ncr d), d)
    else if a =? NSR then match d_busy d with O => (4, d) | S n => (0, PhyDev (d_ncr d) (d_regs d) n (d_latch d)) end
    else if a =? MAN then (d_latch d, d) else (0, d);
  io_write a v d :=
    if a =? NCR then PhyDev v (d_regs d) (d_busy d) (d_latch d)
    else if a =? MAN then
      if man_op v =? 1
      then PhyDev (d_ncr d) (λ p r, if (p =? man_phy v) && (r =? man_reg v) then u16 v else d_regs d p r) 1 (d_latch d)
      else PhyDev (d_ncr d) (d_regs d) 1 (d_regs d (man_phy v) (man_reg v))
    else d;
  io_barrier _ d := d
|}.

(** The fields of a command word. *)
Lemma man_word_sum op p r v : 0 ≤ op < 4 → 0 ≤ p < 32 → 0 ≤ r < 32 → 0 ≤ v < 65536 →
  Z.lor (man_word op p r) v = v + 2 * 2 ^ 16 + r * 2 ^ 18 + p * 2 ^ 23 + op * 2 ^ 28 + 2 ^ 30.
Proof.
  intros Ho Hp Hr Hv. unfold man_word. change 31 with (2 ^ 5 - 1). rewrite !land_mask, !Z.mod_small by lia.
  transitivity (Z.lor (Z.lor (Z.lor (Z.lor (Z.lor v (Z.shiftl 2 16)) (Z.shiftl r 18)) (Z.shiftl p 23)) (Z.shiftl op 28)) (Z.shiftl 1 30)).
  - apply Z.bits_inj'. intros i _. rewrite !Z.lor_spec. btauto.
  - rewrite (lor_shiftl_add v), (lor_shiftl_add _ r), (lor_shiftl_add _ p), (lor_shiftl_add _ op), lor_shiftl_add by lia. lia.
Qed.

Lemma man_fields op p r v : 0 ≤ op < 4 → 0 ≤ p < 32 → 0 ≤ r < 32 → 0 ≤ v < 65536 →
  let w := Z.lor (man_word op p r) v in man_phy w = p ∧ man_reg w = r ∧ man_op w = op ∧ u16 w = v.
Proof.
  intros Ho Hp Hr Hv w. unfold w. rewrite man_word_sum by done. unfold man_phy, man_reg, man_op, u16.
  change 31 with (2 ^ 5 - 1). change 3 with (2 ^ 2 - 1). rewrite !land_mask, !Z.shiftr_div_pow2 by lia.
  split_and!; lia.
Qed.

Lemma poll_second n r l (P : Z → phy_dev → Prop) :
  P 4 (PhyDev n r 0 l) → polls 2 NSR 4 (λ _, True) (PhyDev n r 1 l) P.
Proof. intros HP. split; [done|left; split; [done|]]. split; [done|right; by split]. Qed.

#[export] Program Instance phy_dev_laws : GmacLaws phy_dev :=
  {| gm_ncr d := u32 (d_ncr d); phy_reg d p r := u16 (d_regs d p r); phy_delay := 2 |}.
Next Obligation. intros d. apply u32_range. Qed.
Next Obligation. done. Qed.
Next Obligation. intros d v Hv. split; [by apply u32_small|done]. Qed.
Next Obligation.
  intros d p r v Hb Hp Hr Hv. destruct (man_fields 1 p r v ltac:(lia) Hp Hr Hv) as (Ep & Er & Eo & Ev).
  set (w := Z.lor _ v) in *. change (io_write MAN w d) with (if man_op w =? 1 then PhyDev (d_ncr d) (λ p r, if (p =? man_phy w) && (r =? man_reg w) then u16 w else d_regs d p r) 1 (d_latch d) else PhyDev (d_ncr d) (d_regs d) 1 (d_regs d (man_phy w) (man_reg w))).
  rewrite Eo. cbn [Z.eqb Pos.eqb]. rewrite Ep, Er, Ev. apply poll_second. split; [done|].
  intros p' r'. cbn [phy_reg d_regs]. destruct ((p' =? p) && (r' =? r)); [by apply u16_small|done].
Qed.
Next Obligation.
  intros d p r Hb Hp Hr. destruct (man_fields 2 p r 0 ltac:(lia) Hp Hr ltac:(lia)) as (Ep & Er & Eo & _).
  rewrite Z.lor_0_r in Ep, Er, Eo. set (w := man_word 2 p r) in *.
  change (io_write MAN w d) with (if man_op w =? 1 then PhyDev (d_ncr d) (λ p r, if (p =? man_phy w) && (r =? man_reg w) then u16 w else d_regs d p r) 1 (d_latch d) else PhyDev (d_ncr d) (d_regs d) 1 (d_regs d (man_phy w) (man_reg w))).
  rewrite Eo. cbn [Z.eqb Pos.eqb]. rewrite Ep, Er. apply poll_second. split_and!; done.
Qed.

Lemma phy_roundtrip_witness :
  ∃ d', gmac_out_phy 5 1 4 0x1E1 (PhyDev 12 (λ _ _, 0) 0 0) = Ret (tt, d') ∧
    ∃ d'', gmac_in_phy 5 1 4 d' = Ret (0x1E1, d'').
Proof.
  destruct (phy_roundtrip 5 1 4 0x1E1 (PhyDev 12 (λ _ _, 0) 0 0)) as (d' & E & Hr & _ & Hin); [lia|lia|lia|cbn; lia|].
  exists d'. split; [exact E|]. destruct (Hin 1 4 ltac:(lia) ltac:(lia)) as (d'' & E' & _). exists d''.
  rewrite E', Hr. reflexivity.
Defined.
