(* ===== verification/Syscall.v ===== *)
(** * System calls (kernel/syscall.c, kernel/svc.s)

    A thread calls one of the [syscall_] functions, whose code is [svc #n; bx lr].  The processor
    stacks eight registers, [svc_exception] finds the stack and [svc_handler_ext]
    decodes the number and calls the kernel; a result is put into the stacked r0, which the
    processor restores.  The machine has the scheduler, the device and the buffer of the
    console, all over one memory. *)

From S2P Require Import Prelude Memory Hardware Gpio Ringbuffer Dlist Mm Palloc Sched Console.

Section Syscall.
Context {H D : Type} `{PageAlloc H} `{Mmio D}.
(** The address of the run queue. *)
Variable cpu_rq : Z.

Record kernel := Kernel { k_sched : sched (H := H); k_hw : D; k_rb : ringbuffer }.
Definition k_mem (s : kernel) : mem := pa_mem (heap (k_sched s)).
Definition with_mem (m : mem) (s : kernel) : kernel :=
  Kernel (with_heap (pa_put m (heap (k_sched s))) (k_sched s)) (k_hw s) (k_rb s).

Definition on_sched {A} (c : M (sched (H := H)) A) : M kernel A := zoom k_sched (λ x s, Kernel x (k_hw s) (k_rb s)) c.
Definition on_console {A} (c : M (console D) A) : M kernel A :=
  zoom (λ s, Console (k_hw s) (k_mem s) (k_rb s))
    (λ k s, Kernel (k_sched (with_mem (c_mem k) s)) (c_hw k) (c_rb k)) c.
Definition load32 (a : Z) : M kernel Z := gets (λ s, ld32 (k_mem s) a).
Definition store32 (a v : Z) : M kernel unit := modify (λ s, with_mem (st32 (k_mem s) a v) s).

(** ** The handler *)

(** [panic] does not return, so what follows it in the cases 3 and 4 never runs. *)
Definition svc_handler_ext (fuel : nat) (stack_ptr : Z) : M kernel unit :=
  let* pc := load32 (stack_ptr + 24) in
  let* svc := gets (λ s, ld8 (k_mem s) (u32 (pc - 2))) in
  let* r0 := load32 stack_ptr in
  let* r1 := load32 (stack_ptr + 4) in
  if svc =? 1 then on_sched (thread_sleep cpu_rq fuel (u64 r0))
  else if svc =? 2 then on_console (on_hw (gpio_toggle r0 (u8 r1)))
  else if svc =? 3 then panic "Warning"
  else if svc =? 4 then panic "Warning"
  else if svc =? 5 then on_console (print_byte (u8 r0))
  else if svc =? 6 then let* r := on_console print_get_status in store32 stack_ptr (u8 r)
  else if svc =? 7 then let* r := on_console (read_print_buffer r0 r1) in store32 stack_ptr r
  else ret tt.

(** The stack pointer in use before the exception, by bit 2 of the return code. *)
Definition svc_exception (fuel : nat) (lr msp psp : Z) : M kernel unit :=
  svc_handler_ext fuel (if Z.land lr 4 =? 0 then msp else psp).

(** ** The processor *)

Record regs := Regs { r0 : Z; r1 : Z; r2 : Z; r3 : Z; r12 : Z; lr : Z; pc : Z; xpsr : Z }.
Definition frame_of (r : regs) : list Z := [r0 r; r1 r; r2 r; r3 r; r12 r; lr r; pc r; xpsr r].

Fixpoint push_frame (a : Z) (ws : list Z) : M kernel unit :=
  match ws with [] => ret tt | w :: ws => store32 a w ;; push_frame (a + 4) ws end.

(** The exception return. *)
Definition pop_frame (sp : Z) : M kernel regs :=
  let* a0 := load32 sp in
  let* a1 := load32 (sp + 4) in
  let* a2 := load32 (sp + 8) in
  let* a3 := load32 (sp + 12) in
  let* a12 := load32 (sp + 16) in
  let* al := load32 (sp + 20) in
  let* ap := load32 (sp + 24) in
  let* ax := load32 (sp + 28) in
  ret (Regs a0 a1 a2 a3 a12 al ap ax).

(** [svc]: exception entry with the process stack pointer [psp] (a multiple of eight), the
    handler, exception return.  [r] has the address of the next instruction. *)
Definition svc_instr (fuel : nat) (msp psp : Z) (r : regs) : M kernel regs :=
  let sp := psp - 32 in
  push_frame sp (frame_of r) ;;
  svc_exception fuel 0xFFFFFFFD msp sp ;;
  pop_frame sp.

(** One of the [syscall_] functions, called with the registers [r]: [svc #n] at the program
    counter, then [bx lr]. *)
Definition syscall (fuel : nat) (msp psp : Z) (r : regs) : M kernel regs :=
  let* op := gets (λ s, ld8 (k_mem s) (pc r) + 256 * ld8 (k_mem s) (pc r + 1)) in
  if negb (Z.shiftr op 8 =? 0xDF) then ub else
  let* r' := svc_instr fuel msp psp (Regs (r0 r) (r1 r) (r2 r) (r3 r) (r12 r) (lr r) (pc r + 2) (xpsr r)) in
  ret (Regs (r0 r') (r1 r') (r2 r') (r3 r') (r12 r') (lr r') (Z.land (lr r') (Z.lnot 1)) (xpsr r')).
End Syscall.

(** ** The calls

    What each number stands for: the kernel function with the first two arguments, and whether it has a
    result. *)
Section Calls.
Context {H D : Type} `{PageAlloc H} `{Mmio D}.
Variable cpu_rq : Z.
#[local] Notation kern := (kernel (H := H) (D := D)).

Definition kernel_call (fuel : nat) (n a b : Z) : M kern (option Z) :=
  if n =? 1 then on_sched (thread_sleep cpu_rq fuel (u64 a)) ;; ret None
  else if n =? 2 then on_console (on_hw (gpio_toggle a (u8 b))) ;; ret None
  else if (n =? 3) || (n =? 4) then panic "Warning"
  else if n =? 5 then on_console (print_byte (u8 a)) ;; ret None
  else if n =? 6 then let* r := on_console print_get_status in ret (Some (u8 r))
  else if n =? 7 then let* r := on_console (read_print_buffer a b) in ret (Some r)
  else ret None.

(** The program and the registers it runs with. *)
Record in_syscall (n psp : Z) (r : regs) (s : kern) : Prop := {
  is_bytes : mem_bytes (k_mem s);
  is_code : ld8 (k_mem s) (pc r) = n ∧ ld8 (k_mem s) (pc r + 1) = 0xDF;
  is_pc : 0 ≤ pc r ∧ pc r + 2 < 2 ^ 32;
  is_stack : pc r + 2 ≤ psp - 32 ∨ psp ≤ pc r;
  is_regs : Forall (λ v, 0 ≤ v < 2 ^ 32) (frame_of r)
}.

Lemma k_mem_with m (s : kern) : k_mem (with_mem m s) = m.
Proof. unfold k_mem, with_mem. cbn. apply pa_mem_put. Qed.
Lemma with_mem_self (s : kern) : with_mem (k_mem s) s = s.
Proof. destruct s as [[] d rb]. unfold with_mem, k_mem, with_heap. cbn. by rewrite pa_put_mem. Qed.

(** ** What the calls do to the memory *)

(** Operations on the device leave the memory as it is. *)
Lemma on_hw_run {A} (c : M D A) (s : kern) :
  on_console (on_hw c) s = match c (k_hw s) with
    | Ret (x, d) => Ret (x, Kernel (k_sched s) d (k_rb s)) | Panic e => Panic e | UB => UB | Hang => Hang end.
Proof.
  unfold on_console, on_hw, zoom. cbn [c_hw c_mem c_rb]. destruct (c (k_hw s)) as [[x d]| | |]; try done.
  do 3 f_equal. change (k_sched (with_mem (k_mem s) s) = k_sched s). by rewrite with_mem_self.
Qed.

Definition same_heap {A} (c : M (sched (H := H)) A) : Prop := ∀ s x s', c s = Ret (x, s') → heap s' = heap s.
Lemma same_heap_ret {A} (x : A) : same_heap (ret x).
Proof. by intros s y s' [= -> ->]. Qed.
Lemma same_heap_bind {A B} (c : M _ A) (f : A → M _ B) : same_heap c → (∀ x, same_heap (f x)) → same_heap (bind c f).
Proof. intros Hc Hf s y s' E. apply bind_inv in E as (x & s1 & E1 & E2). rewrite (Hf _ _ _ _ E2). by eapply Hc. Qed.
Lemma same_heap_gets {A} (f : _ → A) : same_heap (gets f).
Proof. by intros s y s' [= _ ->]. Qed.
Lemma same_heap_modify f : (∀ s, heap (f s) = heap s) → same_heap (modify f).
Proof. intros Hf s y s' [= _ <-]. apply Hf. Qed.
Lemma same_heap_dl {A} (c : M dstore A) : same_heap (in_dl c).
Proof. intros s y s'. unfold in_dl, zoom. destruct (c (dl s)) as [[x t]| | |]; try done. by intros [= _ <-]. Qed.
Lemma same_heap_tcb t : same_heap (get_tcb t).
Proof. intros s y s'. unfold get_tcb. destruct (tcbs s !! t); [|done]. by intros [= _ <-]. Qed.
Lemma same_heap_stuck {A} : (∀ e, same_heap (A := A) (panic e)) ∧ same_heap (A := A) ub ∧ same_heap (A := A) hang.
Proof. by split_and!; repeat intros ?. Qed.
Ltac same_heap_tac :=
  repeat first [apply same_heap_ret | apply same_heap_gets | apply same_heap_dl | apply same_heap_tcb
    | apply same_heap_stuck | (apply same_heap_modify; intros []; reflexivity)
    | (apply same_heap_bind; [|intros ?]) | case_match].
Lemma same_heap_delay fuel t iter : same_heap (delay_loop cpu_rq fuel t iter).
Proof. revert iter; induction fuel as [|n IH]; intros iter; cbn [delay_loop]; [apply same_heap_stuck|]. same_heap_tac; apply IH. Qed.
Lemma same_heap_sleep fuel ms : same_heap (thread_sleep cpu_rq fuel ms).
Proof.
  unfold thread_sleep, get_kernel_tick, upd_tcb, scheduler_enqueue_delay, tick_to_wake_update, reschedule, emit.
  same_heap_tac; apply same_heap_delay.
Qed.

Lemma read_mult_memory n data r st x st' :
  read_mult_loop n data r st = Ret (x, st') → 0 ≤ r < 2 ^ 32 →
  same_outside (λ a, data ≤ a < data + Z.of_nat n) st.2 st'.2 ∧ 0 ≤ x < 2 ^ 32.
Proof.
  revert data r st; induction n as [|n IH]; intros data r [rb m] E Hr; cbn [read_mult_loop] in E.
  - injection E as <- <-. by split; [apply same_outside_refl|].
  - unfold bind at 1 in E. cbn [gets fst] in E. destruct (read_ptr rb =? write_ptr rb).
    { injection E as <- <-. by split; [apply same_outside_refl|]. }
    unfold bind, load, store, set_read, gets, modify in E. cbn [fst snd] in E. apply IH in E as [Ho Hx]; [|apply u32_range].
    split; [|done]. cbn [snd] in *. eapply same_outside_trans; [|eapply same_outside_mono; [|exact Ho]; cbn; lia].
    apply same_outside_st8. lia.
Qed.

(** The kernel leaves the frame alone, and its results are words. *)
Lemma kernel_call_frame fuel n a b P (s : kern) res s' :
  kernel_call fuel n a b s = Ret (res, s') → 0 ≤ b → (n = 7 → ∀ x, P x → x < a ∨ a + b ≤ x) →
  (∀ x, P x → ld8 (k_mem s') x = ld8 (k_mem s) x) ∧ (∀ v, res = Some v → 0 ≤ v < 2 ^ 32).
Proof.
  intros E Hb Hn. unfold kernel_call in E.
  assert (∀ (c : M D unit) s1, on_console (on_hw c) s = Ret (tt, s1) → k_mem s1 = k_mem s) as Hhw.
  { intros c s1 E1. rewrite on_hw_run in E1. destruct (c (k_hw s)) as [[[] d]| | |]; try done. by injection E1 as <-. }
  destruct (n =? 1); [|destruct (n =? 2); [|destruct ((n =? 3) || (n =? 4)); [done|destruct (n =? 5); [|destruct (n =? 6);
    [|destruct (Z.eqb_spec n 7) as [E7|]]]]]].
  - apply bind_inv in E as ([] & s1 & E1 & E2). injection E2 as <- <-. split; [|done]. intros x _.
    unfold on_sched, zoom in E1. destruct (thread_sleep _ _ _ _) as [[[] t]| | |] eqn:Es; try done.
    injection E1 as <-. unfold k_mem. cbn [k_sched]. by rewrite (same_heap_sleep fuel (u64 a) (k_sched s) tt t Es).
  - apply bind_inv in E as ([] & s1 & E1 & E2). injection E2 as <- <-. split; [|done]. intros x _. by rewrite (Hhw _ _ E1).
  - apply bind_inv in E as ([] & s1 & E1 & E2). injection E2 as <- <-. split; [|done]. intros x _. by rewrite (Hhw _ _ E1).
  - apply bind_inv in E as (v & s1 & E1 & E2). injection E2 as <- <-. unfold print_get_status in E1. rewrite on_hw_run in E1.
    destruct (Usart.usart_get_thr_status _ _) as [[w d]| | |]; try done. injection E1 as <- <-. split; [done|].
    intros v [= <-]. pose proof (u8_range w). lia.
  - apply bind_inv in E as (v & s1 & E1 & E2). injection E2 as <- <-.
    unfold on_console, read_print_buffer, on_rb, zoom, ringbuffer_read_mult in E1. cbn [c_rb c_mem c_hw] in E1.
    destruct (read_mult_loop _ _ _ _) as [[w st]| | |] eqn:Er; try done. injection E1 as <- <-.
    apply read_mult_memory in Er as [Ho Hv]; [|lia]. cbn [snd] in Ho. split; [|intros v' [= <-]; done]. intros x Hx.
    change (ld8 (k_mem (with_mem st.2 s)) x = ld8 (k_mem s) x). rewrite k_mem_with. apply Ho.
    specialize (Hn E7 x Hx). lia.
  - injection E as <- <-. done.
Qed.

(** ** The frame on the stack *)

Fixpoint frame_words (m : mem) (a : Z) (ws : list Z) : mem :=
  match ws with [] => m | w :: ws => frame_words (st32 m a w) (a + 4) ws end.

(** The same machine but for the memory. *)
Definition same_but_mem (s s' : kern) : Prop :=
  k_hw s' = k_hw s ∧ k_rb s' = k_rb s ∧ ∃ h, k_sched s' = with_heap h (k_sched s).

Lemma push_frame_run a ws (s : kern) :
  ∃ s', push_frame a ws s = Ret (tt, s') ∧ k_mem s' = frame_words (k_mem s) a ws ∧ same_but_mem s s'.
Proof.
  revert a s; induction ws as [|w ws IH]; intros a s; cbn [push_frame frame_words].
  - exists s. split; [done|]. split; [done|]. split; [done|]. split; [done|]. exists (heap (k_sched s)). by destruct s as [[] ? ?].
  - destruct (IH (a + 4) (with_mem (st32 (k_mem s) a w) s)) as (s' & E & Em & E1 & E2 & h & E3).
    exists s'. split; [unfold bind, store32, modify; exact E|]. rewrite Em, k_mem_with. split; [done|].
    split; [done|]. split; [done|]. exists h. by rewrite E3.
Qed.

Lemma frame_words_out m a ws x : x < a ∨ a + 4 * Z.of_nat (length ws) ≤ x → ld8 (frame_words m a ws) x = ld8 m x.
Proof.
  revert m a; induction ws as [|w ws IH]; intros m a Hx; [done|]. cbn [frame_words length] in *.
  rewrite IH by lia. apply ld8_st32_out. lia.
Qed.
Lemma frame_words_in m a ws i w :
  ws !! i = Some w → Forall (λ v, 0 ≤ v < 2 ^ 32) ws → ld32 (frame_words m a ws) (a + 4 * Z.of_nat i) = w.
Proof.
  revert m a i; induction ws as [|v ws IH]; intros m a [|i] Hi Hf; try done; apply Forall_cons in Hf as [Hv Hf].
  - injection Hi as ->. cbn [frame_words]. rewrite Z.add_0_r.
    rewrite (ld32_ext (st32 m a w)) by (intros b Hb; apply frame_words_out; lia). rewrite ld32_st32_eq. by apply u32_small.
  - cbn [frame_words]. replace (a + 4 * Z.of_nat (S i)) with (a + 4 + 4 * Z.of_nat i) by lia. by apply IH.
Qed.

Lemma bind_run {A B} (c c' : M kern A) (f : A → M kern B) s : c s = c' s → bind c f s = bind c' f s.
Proof. intros E. unfold bind. by rewrite E. Qed.

(** The handler, on a frame whose program counter is behind [svc #n]. *)
Definition finish (sp : Z) (res : option Z) : M kern unit :=
  match res with Some v => store32 sp v | None => ret tt end.
Lemma handler_calls fuel sp n p a b (s : kern) :
  ld32 (k_mem s) (sp + 24) = p + 2 → 0 ≤ p → p + 2 < 2 ^ 32 → ld8 (k_mem s) p = n →
  ld32 (k_mem s) sp = a → ld32 (k_mem s) (sp + 4) = b →
  svc_handler_ext cpu_rq fuel sp s = (let* res := kernel_call fuel n a b in finish sp res) s.
Proof.
  intros Hpc Hp Hp' Hn Ha Hb. unfold svc_handler_ext, load32.
  rewrite (bind_Ret _ _ s (p + 2) s) by (by unfold gets; rewrite Hpc).
  rewrite (bind_Ret _ _ s n s) by (unfold gets; rewrite <- Hn; do 3 f_equal; rewrite u32_small by lia; lia).
  rewrite (bind_Ret _ _ s a s) by (by unfold gets; rewrite Ha). rewrite (bind_Ret _ _ s b s) by (by unfold gets; rewrite Hb).
  unfold kernel_call. destruct (n =? 1); [rewrite bind_bind; apply bind_tt|].
  destruct (n =? 2); [rewrite bind_bind; apply bind_tt|].
  destruct (n =? 3); [done|]. destruct (n =? 4); [done|]. cbn [orb].
  destruct (n =? 5); [rewrite bind_bind; apply bind_tt|].
  destruct (n =? 6); [by rewrite bind_bind|]. destruct (n =? 7); [by rewrite bind_bind|]. done.
Qed.

Definition resume (r : regs) (res : option Z) : regs :=
  Regs (default (r0 r) res) (r1 r) (r2 r) (r3 r) (r12 r) (lr r) (Z.land (lr r) (Z.lnot 1)) (xpsr r).

Lemma return_frame sp rr res (s : kern) :
  (∀ i w, frame_of rr !! i = Some w → ld32 (k_mem s) (sp + 4 * Z.of_nat i) = w) →
  (∀ v, res = Some v → 0 ≤ v < 2 ^ 32) →
  (finish sp res ;; pop_frame sp) s =
  (finish sp res ;; ret (Regs (default (r0 rr) res) (r1 rr) (r2 rr) (r3 rr) (r12 rr) (lr rr) (pc rr) (xpsr rr))) s.
Proof.
  intros Hf Hv.
  assert (∃ s', finish sp res s = Ret (tt, s') ∧ ld32 (k_mem s') sp = default (r0 rr) res ∧
    ∀ i w, frame_of rr !! S i = Some w → ld32 (k_mem s') (sp + 4 * Z.of_nat (S i)) = w) as (s' & E & E0 & Ei).
  { destruct res as [v|]; cbn [finish default].
    - eexists. split; [reflexivity|]. rewrite k_mem_with. split; [rewrite ld32_st32_eq; by apply u32_small, Hv|].
      intros i w Hi. rewrite ld32_st32_ne by lia. by apply Hf.
    - exists s. split; [done|]. split; [|intros i w Hi; by apply Hf]. rewrite <- (Z.add_0_r sp). by apply (Hf 0%nat). }
  rewrite !(bind_Ret _ _ _ _ _ E). unfold pop_frame, load32, bind, gets, ret.
  rewrite E0,
    (Ei 0%nat _ eq_refl : ld32 (k_mem s') (sp + 4) = r1 rr),
    (Ei 1%nat _ eq_refl : ld32 (k_mem s') (sp + 8) = r2 rr),
    (Ei 2%nat _ eq_refl : ld32 (k_mem s') (sp + 12) = r3 rr),
    (Ei 3%nat _ eq_refl : ld32 (k_mem s') (sp + 16) = r12 rr),
    (Ei 4%nat _ eq_refl : ld32 (k_mem s') (sp + 20) = lr rr),
    (Ei 5%nat _ eq_refl : ld32 (k_mem s') (sp + 24) = pc rr),
    (Ei 6%nat _ eq_refl : ld32 (k_mem s') (sp + 28) = xpsr rr).
  done.
Qed.

(** C19. System calls: a thread that calls the function with [svc #n], with a stack pointer that keeps
    the code off the stack, makes exactly the kernel call [n] stands for, with its first
    two arguments, in a state that differs only in the 32 bytes below its stack pointer.  When the kernel returns, the
    thread goes on behind its call with the result in r0, or with r0 unchanged if there is none, and every other
    register as it was; when the kernel panics or does not return, so does the call.  For the call that
    reads input (7) the destination has to be away from the 32 bytes. *)
Theorem syscall_calls fuel msp psp n r (s : kern) :
  in_syscall n psp r s → (n = 7 → r0 r + r1 r ≤ psp - 32 ∨ psp ≤ r0 r) →
  ∃ s1, same_but_mem s s1 ∧ same_outside (λ x, psp - 32 ≤ x < psp) (k_mem s) (k_mem s1) ∧
    syscall cpu_rq fuel msp psp r s =
      (let* res := kernel_call fuel n (r0 r) (r1 r) in finish (psp - 32) res ;; ret (resume r res)) s1.
Proof.
  intros [Hby [Hc1 Hc2] Hpc Hst Hrg] H7. set (sp := psp - 32).
  set (rr := Regs (r0 r) (r1 r) (r2 r) (r3 r) (r12 r) (lr r) (pc r + 2) (xpsr r)).
  destruct (push_frame_run sp (frame_of rr) s) as (s1 & E1 & Em & Hsame). exists s1. split; [done|].
  assert (same_outside (λ x, psp - 32 ≤ x < psp) (k_mem s) (k_mem s1)) as Ho.
  { intros x Hx. rewrite Em. apply frame_words_out. cbn [frame_of rr length]. unfold sp. lia. }
  split; [done|].
  assert (Forall (λ v, 0 ≤ v < 2 ^ 32) (frame_of rr)) as Hrg'.
  { unfold frame_of, rr in *. cbn in *. repeat (apply Forall_cons in Hrg as [? Hrg]). repeat (constructor; [lia|]). constructor. }
  assert (∀ i w, frame_of rr !! i = Some w → ld32 (k_mem s1) (sp + 4 * Z.of_nat i) = w) as Hf.
  { intros i w Hi. rewrite Em. by apply frame_words_in. }
  assert (ld8 (k_mem s1) (pc r) = n) as Hn by (rewrite Ho by lia; done).
  unfold syscall. rewrite (bind_Ret _ _ s (n + 256 * 0xDF) s) by (unfold gets; by rewrite Hc1, Hc2).
  assert (negb (Z.shiftr (n + 256 * 0xDF) 8 =? 0xDF) = false) as ->.
  { pose proof (Hby (pc r)) as Hr. rewrite Hc1 in Hr. unfold byte in Hr. rewrite Z.shiftr_div_pow2 by done.
    apply negb_false_iff, Z.eqb_eq. change (2 ^ 8) with 256. lia. }
  unfold svc_instr. rewrite !bind_bind. fold sp rr. rewrite (bind_Ret _ _ _ _ _ E1). rewrite bind_bind.
  unfold svc_exception. change (Z.land 0xFFFFFFFD 4 =? 0) with false. cbn [negb].
  rewrite (bind_run (svc_handler_ext cpu_rq fuel sp) (let* res := kernel_call fuel n (r0 r) (r1 r) in finish sp res)).
  2:{ apply (handler_calls fuel sp n (pc r)); [apply (Hf 6%nat); done|lia|lia|done| |apply (Hf 1%nat); done].
      rewrite <- (Z.add_0_r sp). by apply (Hf 0%nat). }
  rewrite bind_bind. unfold bind at 1. symmetry. unfold bind at 1. symmetry.
  destruct (kernel_call fuel n (r0 r) (r1 r) s1) as [[res s2]| | |] eqn:Ek; try done.
  destruct (kernel_call_frame fuel n (r0 r) (r1 r) (λ x, sp ≤ x < psp) s1 res s2 Ek) as [Hk Hv].
  { cbn in Hrg. repeat (apply Forall_cons in Hrg as [? Hrg]). lia. }
  { intros E x Hx. specialize (H7 E). unfold sp in *. lia. }
  assert (∀ i w, frame_of rr !! i = Some w → ld32 (k_mem s2) (sp + 4 * Z.of_nat i) = w) as Hf2.
  { intros i w Hi. rewrite (ld32_ext (k_mem s1)); [by apply Hf|]. intros x Hx. apply Hk.
    apply lookup_lt_Some in Hi. cbn in Hi. unfold sp in *. lia. }
  rewrite <- bind_bind, (bind_run _ _ _ _ (return_frame sp rr res s2 Hf2 Hv)), bind_bind. done.
Qed.
End Calls.

(** ** A thread that asks for the state of the console *)

#[local] Instance ex_pages : PageAlloc mm := mm_pages 2.
Definition ex_kernel : kernel (H := mm) (D := uart) :=
  with_mem (write_bytes ∅ 0x2000 [6; 0xDF; 0x70; 0x47])
    (Kernel (Sched_ (DStore ∅ ∅) ∅ 0 0 0 0 1 0 0 0 0 (Mm ∅ []) []) (Uart [] 0) (Ringbuffer 0 0 0 0)).
Definition ex_user : regs := Regs 11 12 13 14 15 0x2101 0x2000 0x1000000.

Lemma syscall_calls_witness :
  ∃ s', syscall 0 1 0 0x8000 ex_user ex_kernel = Ret (Regs 2 12 13 14 15 0x2101 0x2100 0x1000000, s').
Proof.
  destruct (syscall_calls 0 1 0 0x8000 6 ex_user ex_kernel) as (s1 & (Eh & _) & _ & E).
  - unfold ex_kernel. constructor.
    + rewrite k_mem_with. apply mem_bytes_write. intros a. unfold ld8. rewrite lookup_empty. by compute.
    + rewrite k_mem_with. split; vm_compute; reflexivity.
    + by vm_compute.
    + left. vm_compute. discriminate.
    + unfold frame_of, ex_user. cbn [r0 r1 r2 r3 r12 lr pc xpsr]. repeat (constructor; [lia|]). constructor.
  - lia.
  - rewrite E. unfold kernel_call. cbn [Z.eqb Pos.eqb orb].
    change (k_hw ex_kernel) with (Uart [] 0) in Eh.
    rewrite bind_bind, (bind_Ret _ _ s1 2 (Kernel (k_sched s1) (Uart [] 0) (k_rb s1))).
    + eexists. reflexivity.
    + unfold print_get_status. rewrite on_hw_run, Eh. reflexivity.
Defined.
