(* ===== verification/Flash.v ===== *)
(** * Flash programming (bootloader/src/drivers/flash.c)

    The flash controller is hardware: the class [FlashCtrl] has the accesses the
    driver makes (reading the flash, writing words to its latch buffer, reading
    the status register, writing the command register), and [FlashLaws] the
    documented behaviour of the controller the theorems rely on.  The driver is
    complete; its busy-wait loops take fuel. *)

From S2P Require Import Prelude Memory.

(** ** The controller *)

Class FlashCtrl (F : Type) := {
  fl_mem : F → mem;
  fl_latch : Z → Z → F → F;
  fl_fsr : F → Z * F;
  fl_fcr : Z → F → F;
  fl_fmr : F → Z;
  fl_set_fmr : Z → F → F
}.

Section Flash.
Context {F : Type} `{FlashCtrl F}.

Definition read_fsr : M F Z := λ f, Ret (fl_fsr f).

(** ** The driver *)

Definition flash_set_access_cycles (access_cycles : Z) : M F unit :=
  let* reg := gets fl_fmr in
  let reg := Z.land reg (Z.lnot (Z.shiftl 15 8)) in
  let reg := Z.lor reg (Z.shiftl (Z.land (access_cycles - 1) 15) 8) in
  modify (fl_set_fmr (u32 reg)).

(** [while (!(FLASH->FSR & 0b1));] *)
Fixpoint wait_ready (fuel : nat) : M F unit :=
  match fuel with
  | O => hang
  | S f => let* status := read_fsr in if negb (Z.land status 1 =? 0) then ret tt else wait_ready f
  end.

(** [do status = FLASH->FSR; while (!(status & mask));] *)
Fixpoint wait_status (fuel : nat) (mask : Z) : M F Z :=
  match fuel with
  | O => hang
  | S f => let* status := read_fsr in
           if negb (Z.land status mask =? 0) then ret status else wait_status f mask
  end.

(** [n] words of the buffer to the latch buffer, from [flash_dest] on. *)
Fixpoint latch_words (n : nat) (flash_dest : Z) (buffer : list Z) (f : F) : F :=
  match n with
  | O => f
  | S n => latch_words n (flash_dest + 4) (drop 4 buffer) (fl_latch flash_dest (le_join (take 4 buffer)) f)
  end.
(** Reading past the buffer is undefined. *)
Definition latch_page (flash_dest : Z) (buffer : list Z) : M F unit :=
  if (512 <=? Z.of_nat (length buffer)) then modify (latch_words 128 flash_dest buffer) else ub.

(** The comparison with the flash, byte by byte. *)
Fixpoint flash_same (m : mem) (a : Z) (n : nat) (buffer : list Z) : bool :=
  match n, buffer with
  | O, _ => true
  | S n, b :: buffer => if negb (ld8 m a =? b) then false else flash_same m (a + 1) n buffer
  | S _, [] => false
  end.

Definition flash_erase_write (fuel : nat) (page : Z) (buffer : list Z) : M F Z :=
  if 32 <=? page then ret 0 else
  wait_ready fuel ;;
  latch_page (0x00400000 + 512 * page) buffer ;;
  modify (fl_fcr (Z.lor (Z.lor (Z.shiftl 0x5A 24) (Z.shiftl (Z.land page 0xFFFF) 8)) 3)) ;;
  let* status := wait_status fuel 15 in
  if negb (Z.land status 14 =? 0) then ret 0 else
  let* m := gets fl_mem in
  ret (if flash_same m (0x00400000 + 512 * page) 512 buffer then 1 else 0).

(** The erase loop, one 8k sector per turn. *)
Fixpoint erase_loop (fuel : nat) (n : nat) (sect_8k_base : Z) : M F bool :=
  match n with
  | O => ret true
  | S n =>
      wait_ready fuel ;;
      let arg := Z.lor (u16 (Z.land sect_8k_base (Z.lnot 15))) 2 in
      modify (fl_fcr (Z.lor (Z.lor 0x5A000000 (Z.shiftl arg 8)) 7)) ;;
      let* status := wait_status fuel 1 in
      if negb (Z.land status 14 =? 0) then ret false else erase_loop fuel n (u32 (sect_8k_base + 16))
  end.
Definition flash_erase_image (fuel : nat) (size : Z) : M F Z :=
  let pages := size / 512 in
  let pages := if negb (size mod 512 =? 0) then u32 (pages + 1) else pages in
  let sect_8k := pages / 16 in
  let sect_8k := if negb (pages mod 16 =? 0) then u32 (sect_8k + 1) else sect_8k in
  let erase_bytes := u32 (sect_8k * 8192) in
  let* ok := erase_loop fuel (Z.to_nat sect_8k) 32 in
  ret (if ok then erase_bytes else 0).

Definition flash_write_image_page (fuel : nat) (page : Z) (buffer : list Z) : M F Z :=
  wait_ready fuel ;;
  latch_page (u32 (0x00404000 + page * 512)) buffer ;;
  modify (fl_fcr (Z.lor (Z.lor 0x5A000000 (Z.shiftl (Z.land (page + 32) 0xFF) 8)) 1)) ;;
  let* status := wait_status fuel 1 in
  if negb (Z.land status 14 =? 0) then ret 0 else
  let* m := gets fl_mem in
  ret (if flash_same m (u32 (0x00404000 + page * 512)) 512 buffer then 1 else 0).

(** ** What the controller does

    A command keeps the controller busy for at most [fl_delay] reads of the status
    register; [settles n f P] says that it is ready after at most [n] reads, with
    a status and a state in [P]. *)
Fixpoint settles (n : nat) (f : F) (P : Z → F → Prop) : Prop :=
  match n with
  | O => False
  | S n => let '(status, f') := fl_fsr f in
           (Z.land status 15 = 0 ∧ settles n f' P) ∨ (Z.land status 1 = 1 ∧ P status f')
  end.

Definition page_addr (p : Z) : Z := 0x00400000 + 512 * p.
Definition in_pages (p n : Z) (a : Z) : Prop := page_addr p <= a < page_addr (p + n).
Definition fcr_value (cmd arg : Z) : Z := 0x5A000000 + arg * 256 + cmd.
Definition flash_page (f : F) (p : Z) : list Z := read_bytes (fl_mem f) (page_addr p) 512.
Definition erased_page : list Z := replicate 512 255.
(** The error flags of the status register. *)
Definition no_error (status : Z) : Prop := Z.land status 14 = 0.

(** Writing a page buffer and the three commands.  A command changes nothing but
    the pages it names, and does what it says unless it reports an error: EWP (3)
    erases and writes a page of the first two sectors, EPA (7) erases sixteen
    pages, WP (1) writes an erased page. *)
Class FlashLaws := {
  fl_delay : nat;
  fl_ok : F → Prop;
  law_fmr v f : fl_mem (fl_set_fmr v f) = fl_mem f;
  law_ready f : fl_ok f → settles fl_delay f (λ _ f', fl_ok f' ∧ fl_mem f' = fl_mem f);
  law_ewp f p b :
    fl_ok f → 0 <= p < 32 → length b = 512%nat → Forall byte b →
    settles fl_delay (fl_fcr (fcr_value 3 p) (latch_words 128 (page_addr p) b f)) (λ status f',
      fl_ok f' ∧ same_outside (in_pages p 1) (fl_mem f) (fl_mem f') ∧
      (no_error status → flash_page f' p = b));
  law_epa f p :
    fl_ok f → 0 <= p < 65536 → p mod 16 = 0 →
    settles fl_delay (fl_fcr (fcr_value 7 (p + 2)) f) (λ status f',
      fl_ok f' ∧ same_outside (in_pages p 16) (fl_mem f) (fl_mem f') ∧
      (no_error status → ∀ q, p <= q < p + 16 → flash_page f' q = erased_page));
  law_wp f q p b :
    fl_ok f → 0 <= p < 65536 → 0 <= q → length b = 512%nat → Forall byte b →
    settles fl_delay (fl_fcr (fcr_value 1 p) (latch_words 128 (page_addr q) b f)) (λ status f',
      fl_ok f' ∧ same_outside (in_pages p 1) (fl_mem f) (fl_mem f') ∧
      (no_error status → q = p → flash_page f p = erased_page → flash_page f' p = b))
}.

(** A device that never reports an error. *)
Definition fl_healthy : Prop := ∀ f, no_error (fl_fsr f).1.

(** ** The driver on the controller *)

Context `{!FlashLaws}.

Lemma land_15_0 st : Z.land st 15 = 0 → Z.land st 1 = 0.
Proof. intros E. change 1 with (Z.land 15 1). by rewrite Z.land_assoc, E. Qed.
Lemma land_1_15 st : Z.land st 1 = 1 → Z.land st 15 ≠ 0.
Proof. intros E E'. apply land_15_0 in E'. lia. Qed.

Lemma wait_ready_spec n fuel f P :
  settles n f P → (n <= fuel)%nat → ∃ st f', wait_ready fuel f = Ret (tt, f') ∧ P st f'.
Proof.
  revert fuel f; induction n as [|n IH]; intros fuel f Hs Hf; [done|]. destruct fuel as [|fuel]; [lia|].
  cbn [settles wait_ready] in *. unfold bind, read_fsr. destruct (fl_fsr f) as [st f'].
  destruct Hs as [[E Hs]|[E Hs]]; [|rewrite E; by eauto].
  rewrite (land_15_0 _ E). apply IH; [done|lia].
Qed.

Lemma wait_status_spec n fuel f mask P :
  mask = 1 ∨ mask = 15 → settles n f P → (n <= fuel)%nat →
  ∃ st f', wait_status fuel mask f = Ret (st, f') ∧ P st f' ∧ (fl_healthy → no_error st).
Proof.
  intros Hm. revert fuel f; induction n as [|n IH]; intros fuel f Hs Hf; [done|]. destruct fuel as [|fuel]; [lia|].
  cbn [settles wait_status] in *. unfold bind, read_fsr. pose proof (λ h : fl_healthy, h f) as Hh.
  destruct (fl_fsr f) as [st f']. destruct Hs as [[E Hs]|[E Hs]].
  - assert (Z.land st mask = 0) as -> by (destruct Hm as [->| ->]; auto using land_15_0).
    apply IH; [done|lia].
  - rewrite (eqb_false (Z.land st mask)); [exists st, f'; eauto|].
    destruct Hm as [->| ->]; [lia|by apply land_1_15].
Qed.

Lemma flash_same_spec m a n b :
  (n <= length b)%nat → flash_same m a n b = bool_decide (read_bytes m a n = take n b).
Proof.
  revert a b; induction n as [|n IH]; intros a b Hn; [done|]. destruct b as [|x b]; [cbn in Hn; lia|].
  cbn [flash_same read_bytes take]. destruct (ld8 m a =? x) eqn:E; cbn [negb].
  - apply Z.eqb_eq in E. rewrite IH by (cbn in Hn; lia). apply bool_decide_ext. rewrite E. split; [by intros ->|by intros [=]].
  - apply Z.eqb_neq in E. symmetry. apply bool_decide_eq_false. intros [=]. done.
Qed.

Lemma fcr_value_lor cmd arg :
  0 <= cmd < 256 → 0 <= arg < 65536 →
  Z.lor (Z.lor 0x5A000000 (Z.shiftl arg 8)) cmd = fcr_value cmd arg.
Proof.
  intros Hc Ha. change 0x5A000000 with (Z.shiftl (Z.shiftl 0x5A 16) 8) at 1.
  rewrite <- Z.shiftl_lor, Z.lor_comm, lor_shiftl_add, (Z.lor_comm _ arg), lor_shiftl_add by lia.
  unfold fcr_value. lia.
Qed.

Lemma latch_page_run a b f :
  length b = 512%nat → latch_page a b f = Ret (tt, latch_words 128 a b f).
Proof. intros Hb. unfold latch_page. by rewrite Hb. Qed.

(** The outcome of programming a page. *)
Definition programmed (f : F) (n p : Z) (b : list Z) (r : Z) (f' : F) : Prop :=
  fl_ok f' ∧ same_outside (in_pages n 1) (fl_mem f) (fl_mem f') ∧
  (r = 0 ∨ r = 1) ∧ (r = 1 → flash_page f' p = b).

Lemma flash_erase_write_spec fuel p b f :
  fl_ok f → 0 <= p < 32 → length b = 512%nat → Forall byte b → (fl_delay <= fuel)%nat →
  ∃ r f', flash_erase_write fuel p b f = Ret (r, f') ∧ programmed f p p b r f' ∧ (fl_healthy → r = 1).
Proof.
  intros Hf Hp Hb Hby Hfuel. unfold flash_erase_write. rewrite (proj2 (Z.leb_gt _ _)) by lia.
  destruct (wait_ready_spec _ _ _ _ (law_ready f Hf) Hfuel) as (st0 & f0 & E0 & Hf0 & Hm0). mstep E0.
  mstep latch_page_run; [|done]. change (Z.shiftl 0x5A 24) with 0x5A000000.
  rewrite (land_mask _ 16), Z.mod_small by lia. rewrite fcr_value_lor by lia. cbn [bind modify].
  destruct (wait_status_spec _ fuel _ 15 _ (or_intror eq_refl) (law_ewp f0 p b Hf0 Hp Hb Hby) Hfuel)
    as (st & f' & E & (Hok & Hs & Hw) & Hh). unfold page_addr in E. mstep E. rewrite Hm0 in Hs.
  destruct (Z.land st 14 =? 0) eqn:Est; cbn [negb bind gets].
  - apply Z.eqb_eq in Est. eexists _, f'. split; [reflexivity|].
    assert (flash_same (fl_mem f') (0x00400000 + 512 * p) 512 b = true) as ->.
    { rewrite flash_same_spec by lia. apply bool_decide_eq_true. rewrite take_ge by lia. by apply Hw. }
    split; [split_and!; auto|done].
  - apply Z.eqb_neq in Est. exists 0, f'. split; [reflexivity|]. split; [split_and!; auto; done|].
    intros h. by destruct Est; apply Hh.
Qed.

Lemma flash_write_image_page_spec fuel page b f :
  fl_ok f → 0 <= page < 4064 → length b = 512%nat → Forall byte b → (fl_delay <= fuel)%nat →
  let p := (page + 32) mod 256 in
  ∃ r f', flash_write_image_page fuel page b f = Ret (r, f') ∧ programmed f p (page + 32) b r f' ∧
    (fl_healthy → page < 224 → flash_page f (page + 32) = erased_page → r = 1).
Proof.
  intros Hf Hp Hb Hby Hfuel p. unfold flash_write_image_page.
  destruct (wait_ready_spec _ _ _ _ (law_ready f Hf) Hfuel) as (st0 & f0 & E0 & Hf0 & Hm0). mstep E0.
  mstep latch_page_run; [|done]. rewrite (land_mask _ 8) by lia. change (2 ^ 8) with 256. fold p.
  rewrite fcr_value_lor by (unfold p; lia). cbn [bind modify]. rewrite u32_small by lia.
  replace (0x00404000 + page * 512) with (page_addr (page + 32)) by (unfold page_addr; lia).
  destruct (wait_status_spec _ fuel _ 1 _ (or_introl eq_refl) (law_wp f0 (page + 32) p b Hf0 ltac:(unfold p; lia) ltac:(lia) Hb Hby) Hfuel)
    as (st & f' & E & (Hok & Hs & Hw) & Hh). mstep E. rewrite Hm0 in Hs.
  destruct (Z.land st 14 =? 0) eqn:Est; cbn [negb bind gets].
  - apply Z.eqb_eq in Est. eexists _, f'. split; [reflexivity|].
    rewrite flash_same_spec, take_ge by lia. fold (flash_page f' (page + 32)). split.
    + split_and!; [done|done|case_bool_decide; auto|by case_bool_decide].
    + intros _ Hlt He. assert (page + 32 = p) as Ep by (unfold p; lia). rewrite bool_decide_eq_true_2; [done|].
      rewrite Ep. apply Hw; [done..|]. unfold flash_page in *. by rewrite Hm0, <- Ep.
  - apply Z.eqb_neq in Est. exists 0, f'. split; [reflexivity|]. split; [split_and!; auto; done|].
    intros h. by destruct Est; apply Hh.
Qed.

Lemma in_pages_mono p n q k a : p <= q → q + k <= p + n → in_pages q k a → in_pages p n a.
Proof. unfold in_pages, page_addr. lia. Qed.

Lemma flash_page_ext f f' p q n :
  same_outside (in_pages p n) (fl_mem f) (fl_mem f') → q + 1 <= p ∨ p + n <= q → flash_page f' q = flash_page f q.
Proof.
  intros Hs Hq. apply read_bytes_ext. intros b Hb. apply Hs. unfold in_pages, page_addr in *. lia.
Qed.

Lemma erase_loop_spec fuel n p f :
  fl_ok f → 0 <= p → p + 16 * Z.of_nat n <= 65536 → p mod 16 = 0 → (fl_delay <= fuel)%nat →
  ∃ ok f', erase_loop fuel n p f = Ret (ok, f') ∧ fl_ok f' ∧
    same_outside (in_pages p (16 * Z.of_nat n)) (fl_mem f) (fl_mem f') ∧
    (ok = true → ∀ q, p <= q < p + 16 * Z.of_nat n → flash_page f' q = erased_page) ∧ (fl_healthy → ok = true).
Proof.
  intros Hf. revert f Hf p. induction n as [|n IH]; intros f Hf p Hp Hn Hm Hfuel; cbn [erase_loop].
  { exists true, f. split_and!; try done. intros _ q Hq. lia. }
  destruct (wait_ready_spec _ _ _ _ (law_ready f Hf) Hfuel) as (st0 & f0 & E0 & Hf0 & Hm0). mstep E0.
  assert (Z.lor (u16 (Z.land p (Z.lnot 15))) 2 = p + 2) as ->.
  { change 15 with (2 ^ 4 - 1). rewrite land_not_mask by lia. change (2 ^ 4) with 16. rewrite Hm, Z.sub_0_r, u16_small by lia.
    rewrite Z.lor_comm. replace p with (Z.shiftl (p / 16) 4) at 1 by (rewrite Z.shiftl_mul_pow2 by lia; lia).
    rewrite lor_shiftl_add by lia. lia. }
  cbv zeta. rewrite fcr_value_lor by lia. cbn [bind modify].
  destruct (wait_status_spec _ fuel _ 1 _ (or_introl eq_refl) (law_epa f0 p Hf0 ltac:(lia) Hm) Hfuel)
    as (st & f1 & E & (Hok & Hs & Hw) & Hh). mstep E. rewrite Hm0 in Hs.
  destruct (Z.land st 14 =? 0) eqn:Est; cbn [negb].
  - apply Z.eqb_eq in Est. rewrite u32_small by lia.
    destruct (IH f1 Hok (p + 16)) as (ok & f' & E' & Hok' & Hs' & Hw' & Hh'); [lia|lia|lia|done|].
    exists ok, f'. split_and!; [done|done| | |done].
    + eapply same_outside_trans; (eapply same_outside_mono; [|done]); intros a; apply in_pages_mono; lia.
    + intros Hk q Hq. destruct (decide (q < p + 16)) as [Hlt|Hge]; [|apply Hw'; [done|lia]].
      rewrite (flash_page_ext f1 f' (p + 16) q _ Hs') by lia. apply Hw; [done|lia].
  - apply Z.eqb_neq in Est. exists false, f1. split_and!; [done|done| |done|].
    + eapply same_outside_mono; [|exact Hs]. intros a. apply in_pages_mono; lia.
    + intros h. by destruct Est; apply Hh.
Qed.

Lemma flash_erase_image_spec fuel size f :
  fl_ok f → 0 < size <= 4064 * 512 → (fl_delay <= fuel)%nat →
  let k := (size + 8191) / 8192 in
  ∃ r f', flash_erase_image fuel size f = Ret (r, f') ∧ fl_ok f' ∧
    same_outside (in_pages 32 (16 * k)) (fl_mem f) (fl_mem f') ∧
    (r = 0 ∨ r = 8192 * k ∧ ∀ q, 32 <= q < 32 + 16 * k → flash_page f' q = erased_page) ∧
    (fl_healthy → r ≠ 0).
Proof.
  intros Hf Hsz Hfuel k. unfold flash_erase_image.
  set (pages := if negb (size mod 512 =? 0) then u32 (size / 512 + 1) else size / 512).
  assert (pages = (size + 511) / 512) as Ep.
  { unfold pages. destruct (size mod 512 =? 0) eqn:E; cbn [negb]; [lia|]. rewrite u32_small by lia. lia. }
  set (sect := if negb (pages mod 16 =? 0) then u32 (pages / 16 + 1) else pages / 16).
  assert (sect = k) as Es.
  { unfold sect, k. destruct (pages mod 16 =? 0) eqn:E; cbn [negb]; [lia|]. rewrite u32_small by lia. lia. }
  rewrite Es. assert (0 < k <= 254) as Hk by (unfold k; lia). rewrite u32_small by lia. clearbody k.
  destruct (erase_loop_spec fuel (Z.to_nat k) 32 f) as (ok & f' & E & Hok & Hs & Hw & Hh); try done; [lia|].
  mstep E. rewrite Z2Nat.id in * by lia. eexists _, f'. split; [reflexivity|]. split_and!; [done|done| |].
  - destruct ok; [right|left; done]. split; [lia|]. by apply Hw.
  - intros h. rewrite Hh by done. lia.
Qed.

End Flash.
