(* ===== verification/Bootloader.v ===== *)
(** * The bootloader (bootloader/src/bootloader.c, main.c, drivers/hash.c)

    Erasing, programming and verifying the kernel image, the hash sector, the
    decision which program to start, and the loop that serves the commands of the
    host.  The flash is the driver of Flash.v; the hash engine is the class
    [HashEngine]; frames come from the interface of Frame.v; clocks, pins, serial
    ports and interrupts are the drivers of BootDrivers.v and BootIface.v on the
    registers. *)

From S2P Require Import Prelude Memory Hardware BootHardware Gpio Clock Console BootDrivers BootIface.
From S2P Require Import Crc Frame Flash.

(** ** The hash engine *)

(** [struct icm_desc] *)
Record icm_desc := IcmDesc { icm_start : Z; icm_cfg : Z; icm_size : Z; icm_next : Z }.

(** Writes to the registers of the engine. *)
Inductive icm_write := IcmCtrl (v : Z) | IcmCfg (v : Z) | IcmDscr (d : icm_desc) | IcmHash.

(** The engine reads the region its descriptor names and writes the digest to the
    hash address: [icm_result] is what it has written when it is done. *)
Class HashEngine (E : Type) := {
  icm_set : icm_write → E → E;
  icm_isr : E → Z * E;
  icm_result : mem → E → list Z
}.

(** ** Data *)

(** [struct image_info] *)
Record image_info_t := ImageInfo {
  major_version : Z; minor_version : Z;
  bootloader_start : Z; bootloader_size : Z; bootloader_info : Z;
  kernel_start : Z; kernel_size : Z; kernel_info : Z
}.
Definition image_info : image_info_t :=
  ImageInfo 2 0 0x00400000 0x4000 0x00403E00 0x00404000 0x1FC000 0x00404000.
Definition load_info (m : mem) (a : Z) : image_info_t :=
  ImageInfo (ld32 m a) (ld32 m (a + 4)) (ld32 m (a + 8)) (ld32 m (a + 12)) (ld32 m (a + 16))
    (ld32 m (a + 20)) (ld32 m (a + 24)) (ld32 m (a + 28)).

(** [struct hash] *)
Record hash := Hash { digest : list Z; hash_size : Z }.
Definition sizeof_hash : nat := 36.
Definition hash_bytes (h : hash) : list Z := digest h ++ le_split 4 (hash_size h).

(** The commands of the host, and the response code only the bootloader uses. *)
Definition CMD_ERASE_FLASH : Z := 0x03.
Definition CMD_WRITE_PAGE : Z := 0x04.
Definition CMD_WRITE_PAGE_LAST : Z := 0x05.
Definition CMD_SET_FLASH_OFFSET : Z := 0x06.
Definition CMD_CTRL_LED : Z := 0x07.
Definition RESP_FLASH_ERROR : Z := 8.

(** How the program ends: with the reset after a download, or with the jump to the
    kernel, with its stack pointer and entry. *)
Inductive boot_event := EvReset | EvJump (sp pc : Z).

Definition VECTOR_TABLE_BASE : Z := 0xE000ED08.
Definition BOOT_RESET_CR : Z := 0x400E1800.

Section Bootloader.
Context {F E D : Type} `{FlashCtrl F} `{HashEngine E} `{Mmio D}.

(** The last field is the registers and the memory the drivers work on. *)
Record boot := Boot {
  flash : F;
  engine : E;
  kernel_total_size : Z;
  kernel_page : Z;
  flash_buffer : list Z;
  boot_signature : list Z;
  kernel_hash : hash;
  iface : fstate;
  boot_log : list boot_event;
  boot_con : console D
}.

Definition with_flash (v : F) (s : boot) : boot :=
  Boot v (engine s) (kernel_total_size s) (kernel_page s) (flash_buffer s) (boot_signature s) (kernel_hash s) (iface s) (boot_log s) (boot_con s).
Definition with_engine (v : E) (s : boot) : boot :=
  Boot (flash s) v (kernel_total_size s) (kernel_page s) (flash_buffer s) (boot_signature s) (kernel_hash s) (iface s) (boot_log s) (boot_con s).
Definition with_total (v : Z) (s : boot) : boot :=
  Boot (flash s) (engine s) v (kernel_page s) (flash_buffer s) (boot_signature s) (kernel_hash s) (iface s) (boot_log s) (boot_con s).
Definition with_page (v : Z) (s : boot) : boot :=
  Boot (flash s) (engine s) (kernel_total_size s) v (flash_buffer s) (boot_signature s) (kernel_hash s) (iface s) (boot_log s) (boot_con s).
Definition with_buffer (v : list Z) (s : boot) : boot :=
  Boot (flash s) (engine s) (kernel_total_size s) (kernel_page s) v (boot_signature s) (kernel_hash s) (iface s) (boot_log s) (boot_con s).
Definition with_signature (v : list Z) (s : boot) : boot :=
  Boot (flash s) (engine s) (kernel_total_size s) (kernel_page s) (flash_buffer s) v (kernel_hash s) (iface s) (boot_log s) (boot_con s).
Definition with_hash (v : hash) (s : boot) : boot :=
  Boot (flash s) (engine s) (kernel_total_size s) (kernel_page s) (flash_buffer s) (boot_signature s) v (iface s) (boot_log s) (boot_con s).
Definition with_iface (v : fstate) (s : boot) : boot :=
  Boot (flash s) (engine s) (kernel_total_size s) (kernel_page s) (flash_buffer s) (boot_signature s) (kernel_hash s) v (boot_log s) (boot_con s).
Definition with_log (v : list boot_event) (s : boot) : boot :=
  Boot (flash s) (engine s) (kernel_total_size s) (kernel_page s) (flash_buffer s) (boot_signature s) (kernel_hash s) (iface s) v (boot_con s).
Definition with_boot_con (v : console D) (s : boot) : boot :=
  Boot (flash s) (engine s) (kernel_total_size s) (kernel_page s) (flash_buffer s) (boot_signature s) (kernel_hash s) (iface s) (boot_log s) v.

Definition in_flash {A} (c : M F A) : M boot A := zoom flash with_flash c.
Definition in_iface {A} (c : M fstate A) : M boot A := zoom iface with_iface c.
Definition boot_on_con {A} (c : M (console D) A) : M boot A := zoom boot_con with_boot_con c.
Definition boot_on_hw {A} (c : M D A) : M boot A := boot_on_con (on_hw c).
Definition boot_on_iface {A} (c : M (BootIface.iface D) A) : M boot A :=
  zoom (λ s, Iface (boot_con s) (iface s)) (λ i s, with_boot_con (i_con i) (with_iface (i_vars i) s)) c.
Definition log_event (e : boot_event) : M boot unit := modify (λ s, with_log (boot_log s ++ [e]) s).
Definition flash_mem : M boot mem := gets (λ s, fl_mem (flash s)).

(** ** The boot signature *)

Definition clear_boot_signature : M boot unit := modify (with_signature (replicate 32 0)).

(** "StayInBootloader" *)
Definition boot_trigger : list Z := [83; 116; 97; 121; 73; 110; 66; 111; 111; 116; 108; 111; 97; 100; 101; 114].
Fixpoint signature_loop (src1 src2 : list Z) : Z :=
  match src2 with
  | [] => 1
  | b :: src2 => match src1 with
                 | a :: src1 => if negb (a =? b) then 0 else signature_loop src1 src2
                 | [] => 0
                 end
  end.
Definition check_boot_signature : M boot Z :=
  let* src := gets boot_signature in ret (signature_loop src boot_trigger).

Definition check_info_match : M boot Z :=
  let* m := flash_mem in
  let k := load_info m (kernel_info image_info) in
  ret (if (bootloader_start k =? bootloader_start image_info) && (bootloader_size k =? bootloader_size image_info) &&
          (bootloader_info k =? bootloader_info image_info) && (kernel_start k =? kernel_start image_info) &&
          (kernel_size k =? kernel_size image_info) && (kernel_info k =? kernel_info image_info)
       then 1 else 0).

(** ** The commands *)

(** A little-endian word at the start of the payload. *)
Definition payload_word (data : list Z) : option Z :=
  b0 ← data !! 0%nat; b1 ← data !! 1%nat; b2 ← data !! 2%nat; b3 ← data !! 3%nat;
  Some (u32 (Z.lor (Z.lor (Z.lor b0 (Z.shiftl b1 8)) (Z.shiftl b2 16)) (Z.shiftl b3 24))).

Definition erase_kernel_image (fuel : nat) (data : list Z) : M boot Z :=
  let* erase_size := of_option (payload_word data) in
  let* flash_status := in_flash (flash_erase_image fuel erase_size) in
  if negb (flash_status =? 0) then modify (with_total flash_status) ;; ret 1 else ret 0.

(** The flash buffer with the data, padded with 0xFF. *)
Definition pad_page (data : list Z) (size : Z) : option (list Z) :=
  mapM (λ i, if i <? size then data !! Z.to_nat i else Some 255) (seqZ 0 512).

Definition write_bootloader_page (fuel : nat) (data : list Z) (size page : Z) : M boot Z :=
  let* b := of_option (pad_page data size) in
  modify (with_buffer b) ;;
  let* flash_status := in_flash (flash_erase_write fuel page data) in
  if flash_status =? 0 then panic "Flash erase write error" else
  let* m := flash_mem in
  if negb (flash_same m (u32 (0x00400000 + page * 512)) 512 b) then panic "Flash verification failed" else
  ret 1.

Definition write_kernel_page (fuel : nat) (data : list Z) (size page : Z) : M boot Z :=
  let* b := of_option (pad_page data size) in
  modify (with_buffer b) ;;
  let* flash_status := in_flash (flash_write_image_page fuel page b) in
  if flash_status =? 0 then panic "Flash write failed" else
  let* m := flash_mem in
  if negb (flash_same m (u32 (0x00404000 + 512 * page)) 512 b) then panic "Flash verification error" else
  ret 1.

(** ** The hash *)

Definition icm (w : icm_write) : M boot unit := modify (λ s, with_engine (icm_set w (engine s)) s).

Fixpoint icm_wait (fuel : nat) : M boot Z :=
  match fuel with
  | O => hang
  | S f =>
      let* status := (λ s, let '(v, e) := icm_isr (engine s) in Ret (v, with_engine e s)) in
      if negb (Z.land status 1 =? 0) then ret status else icm_wait f
  end.

(** [hash256_generate] into the digest of [kernel_hash]. *)
Definition hash256_generate (fuel : nat) (data size : Z) : M boot unit :=
  icm (IcmCtrl (Z.lor (Z.lor 4 2) (Z.shiftl 7 9))) ;;
  icm (IcmCfg (Z.lor 4 (Z.shiftl 1 13))) ;;
  icm (IcmDscr (IcmDesc data (Z.lor (Z.shiftl 1 12) 4) (u32 (size / 32 - 1)) 0)) ;;
  icm IcmHash ;;
  modify (λ s, with_hash (Hash (replicate 32 0) (hash_size (kernel_hash s))) s) ;;
  icm (IcmCtrl 1) ;;
  let* status := icm_wait fuel in
  if negb (Z.land status (Z.lor (Z.shiftl 1 24) (Z.shiftl 15 8)) =? 0) then panic "Hash error" else
  modify (λ s, with_hash (Hash (icm_result (fl_mem (flash s)) (engine s)) (hash_size (kernel_hash s))) s) ;;
  icm (IcmCtrl 4).

Definition store_kernel_hash (fuel : nat) : M boot Z :=
  let* total := gets kernel_total_size in
  hash256_generate fuel 0x00404000 total ;;
  modify (λ s, with_hash (Hash (digest (kernel_hash s)) total) s) ;;
  let* h := gets kernel_hash in
  modify (with_buffer (take 512 (hash_bytes h ++ replicate (512 - sizeof_hash) 255))) ;;
  let* b := gets flash_buffer in
  let* ok := in_flash (flash_erase_write fuel 30 b) in
  if ok =? 0 then ret 0 else
  let* m := flash_mem in
  if negb (flash_same m (0x00400000 + 512 * 30) 512 b) then ret 0 else ret 1.

Definition verify_kernel_hash (fuel : nat) : M boot Z :=
  let a := 0x00400000 + 512 * 30 in
  let* m := flash_mem in
  let size := ld32 m (a + 32) in
  if (size =? 0) || (size =? 0xFFFFFFFF) then ret 0 else
  hash256_generate fuel 0x00404000 size ;;
  let* h := gets kernel_hash in
  let* m := flash_mem in
  ret (if flash_same m a 32 (digest h) then 1 else 0).

Definition set_flash_write_offset (data : list Z) : M boot unit :=
  let* v := of_option (payload_word data) in modify (with_page v).

(** [start_kernel]: the assembly reads the two words, sets the stack pointer, and
    jumps behind a barrier. *)
Definition start_kernel (fuel : nat) : M boot unit :=
  boot_on_con (BootDrivers.print_flush fuel) ;;
  boot_on_con BootDrivers.print_deinit ;;
  boot_on_hw (BootDrivers.clock_tree_reset fuel) ;;
  in_flash (flash_set_access_cycles 1) ;;
  boot_on_hw cpsid_i ;;
  boot_on_hw (BootDrivers.peripheral_clock_disable 10) ;;
  boot_on_hw (BootDrivers.peripheral_clock_disable 32) ;;
  boot_on_hw (wr32 VECTOR_TABLE_BASE 0x00404200) ;;
  boot_on_hw dmb ;;
  boot_on_hw dsb ;;
  boot_on_hw isb ;;
  let* m := flash_mem in
  boot_on_hw (modify (io_barrier ISB)) ;;
  log_event (EvJump (ld32 m 0x00404200) (Z.lor (ld32 m 0x00404204) 1)).

(** ** main *)

(** Up to the decision. *)
Definition boot_init (fuel : nat) : M boot unit :=
  boot_on_hw BootDrivers.watchdog_disable ;;
  in_flash (flash_set_access_cycles 7) ;;
  boot_on_hw (BootDrivers.clock_source_enable fuel CRYSTAL_OSCILLATOR 0xFF) ;;
  boot_on_hw (BootDrivers.main_clock_select fuel CRYSTAL_OSCILLATOR) ;;
  boot_on_hw (BootDrivers.plla_init fuel 1 25 63) ;;
  boot_on_hw (BootDrivers.master_clock_select fuel PLLA_CLOCK MASTER_PRESC_OFF MASTER_DIV_2) ;;
  boot_on_con BootDrivers.print_init ;;
  boot_on_hw (BootDrivers.gpio_set_function BootHardware.GPIOC 8 GPIO_FUNC_OFF) ;;
  boot_on_hw (BootDrivers.gpio_set_direction BootHardware.GPIOC 8 GPIO_OUTPUT) ;;
  boot_on_hw (BootDrivers.gpio_set BootHardware.GPIOC 8) ;;
  boot_on_hw (BootDrivers.peripheral_clock_enable 10) ;;
  boot_on_hw (BootDrivers.gpio_set_function BootHardware.GPIOA 11 GPIO_FUNC_OFF) ;;
  boot_on_hw (BootDrivers.gpio_set_direction BootHardware.GPIOA 11 GPIO_INPUT) ;;
  boot_on_hw (BootDrivers.gpio_set_pull BootHardware.GPIOA 11 GPIO_PULL_UP) ;;
  boot_on_hw (BootDrivers.peripheral_clock_enable 32).

(** The decision, and what follows it up to the command loop: [pin] is the level of
    the button.  It says whether the kernel was started; [start_kernel] does not
    return. *)
Definition boot_start (fuel : nat) (pin : Z) : M boot bool :=
  let* sig := check_boot_signature in
  (if sig =? 1 then clear_boot_signature else ret tt) ;;
  let* started :=
    (if negb (sig =? 1) && negb (pin =? 0) then
       let* info := check_info_match in
       let* ok := verify_kernel_hash fuel in
       if negb (info =? 0) && negb (ok =? 0) then start_kernel fuel ;; ret true else ret false
     else ret false) in
  if started : bool then ret true else
  boot_on_iface frame_init ;;
  boot_on_hw cpsie_f ;;
  in_iface (send_response RESP_OK) ;;
  ret false.

(** [main] up to the loop.  The signature, which the code looks at before the
    button, does not depend on the pins. *)
Definition boot_main (fuel : nat) : M boot bool :=
  boot_init fuel ;;
  let* pin := boot_on_hw (BootDrivers.gpio_get_pin_status BootHardware.GPIOA 11) in
  boot_start fuel pin.

(** One turn of the command loop; it says whether the chip was reset. *)
Definition serve (fuel : nat) : M boot bool :=
  let* new := in_iface check_new_frame in
  if new =? 0 then ret false else
  let* f := gets (λ s, fr (iface s)) in
  if cmd f =? CMD_ERASE_FLASH then
    let* status := erase_kernel_image fuel (payload f) in
    (if status =? 0 then in_iface (send_response (Z.lor RESP_ERROR RESP_FLASH_ERROR))
     else in_iface (send_response RESP_OK)) ;;
    ret false
  else if cmd f =? CMD_WRITE_PAGE then
    let* p := gets kernel_page in
    modify (with_page (u32 (p + 1))) ;;
    let* status := write_kernel_page fuel (payload f) (size f) p in
    (if status =? 0 then in_iface (send_response (Z.lor RESP_ERROR RESP_FLASH_ERROR))
     else in_iface (send_response RESP_OK)) ;;
    ret false
  else if cmd f =? CMD_WRITE_PAGE_LAST then
    let* p := gets kernel_page in
    let* status := write_kernel_page fuel (payload f) (size f) p in
    (if status =? 0 then in_iface (send_response (Z.lor RESP_ERROR RESP_FLASH_ERROR)) else ret tt) ;;
    in_iface (send_response RESP_OK) ;;
    let* ok := store_kernel_hash fuel in
    if ok =? 0 then panic "Cannot store the hash digest" else
    boot_on_con (BootDrivers.print_flush fuel) ;;
    boot_on_hw cpsid_i ;;
    boot_on_hw (wr32 BOOT_RESET_CR (Z.lor 0xA5000000 1)) ;;
    log_event EvReset ;; ret true
  else if cmd f =? CMD_SET_FLASH_OFFSET then
    set_flash_write_offset (payload f) ;; in_iface (send_response RESP_OK) ;; ret false
  else if cmd f =? CMD_CTRL_LED then
    let* b := of_option (payload f !! 0%nat) in
    boot_on_hw (if b =? 0 then BootDrivers.gpio_set BootHardware.GPIOC 8 else BootDrivers.gpio_clear BootHardware.GPIOC 8) ;;
    in_iface (send_response RESP_OK) ;; ret false
  else ret false.

(** The host sends a frame for a command, and the loop serves it. *)
Definition host_command (fuel : nat) (c : Z) (data : list Z) : M boot bool :=
  in_iface (receive_all false (encode c data (host_crc c data) END_BYTE)) ;; serve fuel.

(** A download: erase, the pages but the last, the last page. *)
Fixpoint send_pages (fuel : nat) (pages : list (list Z)) (last : list Z) : M boot bool :=
  match pages with
  | [] => host_command fuel CMD_WRITE_PAGE_LAST last
  | p :: pages => let* _ := host_command fuel CMD_WRITE_PAGE p in send_pages fuel pages last
  end.
Definition download (fuel : nat) (image_size : Z) (pages : list (list Z)) (last : list Z) : M boot bool :=
  let* _ := host_command fuel CMD_ERASE_FLASH (le_split 4 image_size) in send_pages fuel pages last.
End Bootloader.
