(* ===== verification/BootProof.v ===== *)
(** * The bootloader: assumptions on the hash engine and the steps of a download

    [HashLaws] is the documented behaviour of the hash engine.  The lemmas give
    what each command does to the flash, the frame interface and the hash. *)

From S2P Require Import Prelude Memory Hardware Console BootDrivers BootIface.
From S2P Require Import Crc Frame Flash Bootloader.

(** ** Pages *)

(** The contents of a page for a payload. *)
Definition padded (p : list Z) : list Z := p ++ replicate (512 - length p) 255.

Lemma length_padded p : (length p <= 512)%nat → length (padded p) = 512%nat.
Proof. intros Hp. unfold padded. rewrite length_app, length_replicate. lia. Qed.

Lemma padded_bytes p : Forall byte p → Forall byte (padded p).
Proof.
  intros Hp. apply Forall_app; split; [done|]. apply Forall_replicate. unfold byte. lia.
Qed.

Lemma pad_page_padded p rest :
  (length p <= 512)%nat → pad_page (p ++ rest) (Z.of_nat (length p)) = Some (padded p).
Proof.
  intros Hp. unfold pad_page. apply mapM_Some. apply Forall2_same_length_lookup. split.
  { rewrite length_seqZ, length_padded by done. done. }
  intros i x y Hx Hy. apply lookup_seqZ in Hx as [-> Hi]. rewrite Z.add_0_l, Nat2Z.id.
  unfold padded in Hy. destruct (decide (i < length p)%nat) as [Hlt|Hge].
  - rewrite (proj2 (Z.ltb_lt _ _)) by lia. rewrite lookup_app_l in Hy by done. by rewrite lookup_app_l.
  - rewrite (proj2 (Z.ltb_ge _ _)) by lia. rewrite lookup_app_r in Hy by lia.
    by apply lookup_replicate in Hy as [-> _].
Qed.

Lemma pad_page_length data size b : pad_page data size = Some b → length b = 512%nat.
Proof. intros Hb. apply mapM_Some, Forall2_length in Hb. by rewrite length_seqZ in Hb. Qed.

Lemma payload_word_split v rest :
  0 <= v < 2 ^ 32 → payload_word (le_split 4 v ++ rest) = Some v.
Proof.
  intros Hv. unfold payload_word. cbn [le_split app lookup list_lookup mbind option_bind]. f_equal.
  rewrite (lor_shiftl_add (v mod 256)) by lia.
  rewrite (lor_shiftl_add (v mod 256 + _)) by lia.
  rewrite (lor_shiftl_add (v mod 256 + _ + _)) by lia. rewrite u32_small; lia.
Qed.

(** ** The hash engine *)

Section Laws.
Context {E : Type} `{HashEngine E}.

Fixpoint icm_settles (n : nat) (e : E) (P : Z → E → Prop) : Prop :=
  match n with
  | O => False
  | S n => let '(status, e') := icm_isr e in
           (Z.land status 1 = 0 ∧ icm_settles n e' P) ∨ (Z.land status 1 = 1 ∧ P status e')
  end.

Definition icm_no_error (status : Z) : Prop := Z.land status (Z.lor (Z.shiftl 1 24) (Z.shiftl 15 8)) = 0.

(** The register writes that start a digest of the region of [d]. *)
Definition icm_go (d : icm_desc) (e : E) : E :=
  icm_set (IcmCtrl 1) (icm_set IcmHash (icm_set (IcmDscr d)
    (icm_set (IcmCfg (Z.lor 4 (Z.shiftl 1 13))) (icm_set (IcmCtrl (Z.lor (Z.lor 4 2) (Z.shiftl 7 9))) e)))).

(** After these writes the engine finishes within [icm_delay] reads of its status
    register, and unless it reports an error it has written the digest of
    [icm_size + 1] blocks of 64 bytes. *)
Class HashLaws := {
  sha256 : list Z → list Z;
  icm_delay : nat;
  sha256_length l : length (sha256 l) = 32%nat;
  sha256_bytes l : Forall byte (sha256 l);
  law_icm e d :
    icm_settles icm_delay (icm_go d e) (λ status e', icm_no_error status → ∀ m,
      icm_result m e' = sha256 (read_bytes m (icm_start d) (Z.to_nat (64 * (icm_size d + 1)))))
}.
Definition icm_healthy : Prop := ∀ e, icm_no_error (icm_isr e).1.
End Laws.

Section BootProof.
Context {F E D : Type} `{FlashCtrl F} `{HashEngine E} `{Mmio D} `{!FlashLaws} `{!HashLaws}.
Notation boot := (@boot F E D).

(** What is digested for a size: the engine's blocks are twice as large as the
    driver takes them to be. *)
Definition hashed (m : mem) (size : Z) : list Z :=
  sha256 (read_bytes m 0x00404000 (Z.to_nat (64 * (u32 (size / 32 - 1) + 1)))).

Lemma icm_wait_spec n fuel (s : boot) P :
  icm_settles n (engine s) P → (n <= fuel)%nat →
  ∃ st e', icm_wait fuel s = Ret (st, with_engine e' s) ∧ P st e' ∧ (icm_healthy → icm_no_error st).
Proof.
  revert fuel s; induction n as [|n IH]; intros fuel s Hs Hf; [done|]. destruct fuel as [|fuel]; [lia|].
  cbn [icm_settles icm_wait] in *. unfold bind. pose proof (λ h : icm_healthy, h (engine s)) as Hh.
  destruct (icm_isr (engine s)) as [st e']. destruct Hs as [[-> Hs]|[Ez Hs]].
  - cbn [Z.eqb negb]. destruct (IH fuel (with_engine e' s)) as (st' & e'' & E1 & HP & Hn); [done|lia|].
    exists st', e''. by rewrite E1.
  - rewrite Ez. cbn [Z.eqb negb]. by exists st, e'.
Qed.

Lemma hash256_generate_spec fuel size (s : boot) :
  (icm_delay <= fuel)%nat →
  hash256_generate fuel 0x00404000 size s = Panic "Hash error" ∧ ¬ icm_healthy ∨
  ∃ e', hash256_generate fuel 0x00404000 size s =
    Ret (tt, with_engine e' (with_hash (Hash (hashed (fl_mem (flash s)) size) (hash_size (kernel_hash s))) s)).
Proof.
  intros Hf. set (d := IcmDesc 0x00404000 (Z.lor (Z.shiftl 1 12) 4) (u32 (size / 32 - 1)) 0).
  set (s1 := with_engine (icm_go d (engine s)) (with_hash (Hash (replicate 32 0) (hash_size (kernel_hash s))) s)).
  destruct (icm_wait_spec _ fuel s1 _ (law_icm (engine s) d) Hf) as (st & e' & Ew & HP & Hh).
  assert (∀ (k : Z → M boot unit), (icm (IcmCtrl (Z.lor (Z.lor 4 2) (Z.shiftl 7 9))) ;; icm (IcmCfg (Z.lor 4 (Z.shiftl 1 13))) ;;
    icm (IcmDscr d) ;; icm IcmHash ;;
    modify (λ s, with_hash (Hash (replicate 32 0) (hash_size (kernel_hash s))) s) ;;
    icm (IcmCtrl 1) ;; let* status := icm_wait fuel in k status) s = k st (with_engine e' s1)) as Ego
    by (intros k; exact (bind_Ret _ k _ _ _ Ew)).
  unfold hash256_generate. rewrite Ego. unfold icm_no_error in *.
  destruct (Z.land st (Z.lor (Z.shiftl 1 24) (Z.shiftl 15 8)) =? 0) eqn:Ez; cbn [negb].
  - right. apply Z.eqb_eq in Ez. unfold icm, s1. cbn [bind modify flash engine with_engine with_hash].
    rewrite HP by done. eexists. reflexivity.
  - left. split; [done|]. intros h. apply Z.eqb_neq in Ez. by apply Ez, Hh.
Qed.

(** ** The hash sector *)

Definition hash_addr : Z := 0x00400000 + 512 * 30.

(** The hash sector holds a size and the digest of the image for that size. *)
Definition hash_valid (m : mem) : Prop :=
  let size := ld32 m (hash_addr + 32) in
  size ≠ 0 ∧ size ≠ 0xFFFFFFFF ∧ read_bytes m hash_addr 32 = hashed m size.
#[export] Instance hash_valid_dec m : Decision (hash_valid m).
Proof. unfold hash_valid. apply _. Defined.

(** Fields neither hashing nor verifying changes. *)
Definition same_boot (s s' : boot) : Prop :=
  flash s' = flash s ∧ iface s' = iface s ∧ boot_log s' = boot_log s ∧
  kernel_total_size s' = kernel_total_size s ∧ kernel_page s' = kernel_page s ∧ boot_signature s' = boot_signature s ∧
  boot_con s' = boot_con s.

Lemma length_hashed m size : length (hashed m size) = 32%nat.
Proof. apply sha256_length. Qed.

Lemma verify_kernel_hash_spec fuel (s : boot) :
  icm_healthy → (icm_delay <= fuel)%nat →
  ∃ s', verify_kernel_hash fuel s = Ret (if decide (hash_valid (fl_mem (flash s))) then 1 else 0, s') ∧ same_boot s s'.
Proof.
  intros Hh Hf. unfold verify_kernel_hash. cbn [flash_mem gets bind]. fold hash_addr.
  set (size := ld32 (fl_mem (flash s)) (hash_addr + 32)).
  destruct ((size =? 0) || (size =? 0xFFFFFFFF)) eqn:Es.
  { exists s. rewrite decide_False by (unfold hash_valid; fold size; lia). by split; [|split_and!]. }
  destruct (hash256_generate_spec fuel size s Hf) as [[_ Hn]|(e' & Eg)]; [done|]. mstep Eg.
  unfold flash_mem. cbn [gets bind].
  exists (with_engine e' (with_hash (Hash (hashed (fl_mem (flash s)) size) (hash_size (kernel_hash s))) s)).
  split; [|by split_and!]. unfold ret. do 2 f_equal.
  cbn [flash with_engine with_hash kernel_hash digest].
  rewrite flash_same_spec, take_ge by (by rewrite length_hashed).
  assert (hash_valid (fl_mem (flash s)) ↔ read_bytes (fl_mem (flash s)) hash_addr 32 = hashed (fl_mem (flash s)) size) as Hv.
  { unfold hash_valid. fold size. split; [by intros (_ & _ & ?)|]. intros Hr. split_and!; [lia|lia|done]. }
  case_bool_decide as Hb; [by rewrite decide_True by (by apply Hv)|by rewrite decide_False by (by rewrite Hv)].
Qed.

Definition hash_sector (d : list Z) (size : Z) : list Z := take 512 (hash_bytes (Hash d size) ++ replicate (512 - sizeof_hash) 255).

Lemma hash_sector_eq d size :
  length d = 32%nat → hash_sector d size = d ++ le_split 4 size ++ replicate 476 255.
Proof.
  intros Hd. unfold hash_sector, hash_bytes, sizeof_hash. cbn [digest hash_size].
  rewrite <- app_assoc. apply take_ge. rewrite !length_app, length_le_split, length_replicate. lia.
Qed.

(** A memory whose page 30 is such a sector. *)
Lemma hash_sector_valid m d size :
  read_bytes m hash_addr 512 = hash_sector d size → length d = 32%nat → 0 < size < 0xFFFFFFFF →
  hashed m size = d → hash_valid m ∧ ld32 m (hash_addr + 32) = size.
Proof.
  intros Hr Hd Hs Hh. rewrite hash_sector_eq in Hr by done.
  change 512%nat with (32 + (4 + 476))%nat in Hr. rewrite !read_bytes_add in Hr.
  apply app_inj_1 in Hr as [Hr1 Hr]; [|by rewrite length_read_bytes].
  apply app_inj_1 in Hr as [Hr2 _]; [|done].
  assert (ld32 m (hash_addr + 32) = size) as Es.
  { rewrite ld32_read. change 32 with (Z.of_nat 32). rewrite Hr2, le_join_split. apply Z.mod_small. lia. }
  split; [|done]. unfold hash_valid. rewrite Es, Hh. split_and!; [lia|lia|done].
Qed.

Lemma hashed_ext m m' size :
  same_outside (in_pages 30 1) m m' → hashed m' size = hashed m size.
Proof.
  intros Hs. unfold hashed. f_equal. apply read_bytes_ext. intros b Hb. apply Hs. unfold in_pages, page_addr. lia.
Qed.

Lemma store_kernel_hash_spec fuel (s : boot) :
  fl_healthy → icm_healthy → fl_ok (flash s) → (fl_delay <= fuel)%nat → (icm_delay <= fuel)%nat →
  0 < kernel_total_size s < 0xFFFFFFFF →
  ∃ s', store_kernel_hash fuel s = Ret (1, s') ∧ fl_ok (flash s') ∧
    same_outside (in_pages 30 1) (fl_mem (flash s)) (fl_mem (flash s')) ∧
    hash_valid (fl_mem (flash s')) ∧ ld32 (fl_mem (flash s')) (hash_addr + 32) = kernel_total_size s ∧
    iface s' = iface s ∧ boot_log s' = boot_log s ∧ boot_con s' = boot_con s.
Proof.
  intros Hfh Hih Hok Hf Hf' Ht. unfold store_kernel_hash. cbn [gets bind].
  destruct (hash256_generate_spec fuel (kernel_total_size s) s Hf') as [[_ Hn]|(e' & Eg)]; [done|]. mstep Eg.
  cbn [gets bind modify kernel_hash with_engine with_hash digest flash_buffer with_buffer].
  fold (hash_sector (hashed (fl_mem (flash s)) (kernel_total_size s)) (kernel_total_size s)).
  set (d := hashed (fl_mem (flash s)) (kernel_total_size s)). set (b := hash_sector d (kernel_total_size s)).
  assert (length d = 32%nat) as Hd by apply length_hashed.
  assert (length b = 512%nat) as Hb.
  { unfold b. rewrite hash_sector_eq by done. rewrite !length_app, length_le_split, length_replicate. lia. }
  assert (Forall byte b) as Hby.
  { unfold b. rewrite hash_sector_eq by done. repeat (apply Forall_app; split).
    - apply sha256_bytes.
    - apply le_split_bytes.
    - apply Forall_replicate. unfold byte. lia. }
  destruct (flash_erase_write_spec fuel 30 b (flash s)) as (r & f' & Ew & (Hok' & Hs & _ & Hr) & Hr1); try done.
  rewrite (Hr1 Hfh) in *. erewrite bind_Ret by (apply zoom_Ret; exact Ew).
  cbn [Z.eqb flash_mem gets bind flash with_flash].
  rewrite flash_same_spec, take_ge by lia. rewrite bool_decide_eq_true_2 by (by apply Hr). cbn [negb].
  eexists. split; [reflexivity|]. cbn [flash with_flash iface boot_log boot_con].
  destruct (hash_sector_valid (fl_mem f') d (kernel_total_size s)) as [Hv Hl]; try done.
  - by apply Hr.
  - by rewrite (hashed_ext _ _ _ Hs).
Qed.
End BootProof.
