(* ===== verification/BootSession.v ===== *)
(** * The bootloader: serving the commands of a download

    What one frame from the host does, and by induction what a download does. *)

From S2P Require Import Prelude Memory Hardware Console BootDrivers BootIface.
From S2P Require Import Crc Frame Flash Bootloader BootProof.

(** The interface after a good frame and after the answer. *)
Definition received (c : Z) (data : list Z) (s : fstate) : fstate :=
  FState STATE_IDLE
    (Frame c (Z.of_nat (length data)) (data ++ drop (length data) (payload (fr s))) (host_crc c data))
    (Z.of_nat (length data)) 1 false (events s).
Definition answered (r : Z) (s : fstate) : fstate :=
  FState (bus_state s) (fr s) (frame_index s) 0 (timer s) (events s ++ [EvResponse r]).

Lemma receive_good kernel s c data :
  ready s → byte c → 0 < Z.of_nat (length data) <= MAX_PAYLOAD_SIZE →
  receive_all kernel (encode c data (host_crc c data) END_BYTE) s = Ret (tt, received c data s).
Proof.
  intros Hr Hc Hn. rewrite receive_frame by done. unfold verdict. rewrite !Z.eqb_refl. done.
Qed.

Lemma received_ready c data s :
  ready s → Z.of_nat (length data) <= MAX_PAYLOAD_SIZE → ready (received c data s).
Proof. intros [_ Hl] Hn. split; [done|]. cbn. rewrite length_app, length_drop. lia. Qed.

Section Session.
Context {F E D : Type} `{FlashCtrl F} `{HashEngine E} `{Mmio D} `{!FlashLaws} `{!HashLaws}.
Notation boot := (@boot F E D).
Context (fuel : nat).
Hypothesis fuel_flash : (fl_delay <= fuel)%nat.
Hypothesis fuel_icm : (icm_delay <= fuel)%nat.
Hypothesis flash_works : fl_healthy.
Hypothesis icm_works : icm_healthy.

Lemma host_command_run c data (s : boot) :
  ready (iface s) → byte c → 0 < Z.of_nat (length data) <= MAX_PAYLOAD_SIZE →
  host_command fuel c data s = serve fuel (with_iface (received c data (iface s)) s).
Proof.
  intros Hr Hc Hn. unfold host_command. erewrite bind_Ret; [done|]. apply zoom_Ret. by apply receive_good.
Qed.

(** Runs the loop up to the command. *)
Ltac serve_step :=
  unfold serve, in_iface, check_new_frame, received, CMD_ERASE_FLASH, CMD_WRITE_PAGE, CMD_WRITE_PAGE_LAST;
  cbn [bind zoom gets ret iface with_iface frame_received fr cmd payload size Z.eqb Pos.eqb negb].

(** The erase command. *)
Lemma host_erase size (s : boot) :
  ready (iface s) → fl_ok (flash s) → 0 < size <= 4064 * 512 →
  let k := (size + 8191) / 8192 in
  ∃ f', host_command fuel CMD_ERASE_FLASH (le_split 4 size) s =
    Ret (false, with_iface (answered RESP_OK (received CMD_ERASE_FLASH (le_split 4 size) (iface s)))
                  (with_total (8192 * k) (with_flash f' s))) ∧
    fl_ok f' ∧ same_outside (in_pages 32 (16 * k)) (fl_mem (flash s)) (fl_mem f') ∧
    ∀ q, 32 <= q < 32 + 16 * k → flash_page f' q = erased_page.
Proof.
  intros Hr Hok Hsz k. rewrite host_command_run; [|done|unfold byte, CMD_ERASE_FLASH; lia|].
  2: { rewrite length_le_split. unfold MAX_PAYLOAD_SIZE. lia. }
  destruct (flash_erase_image_spec fuel size (flash s)) as (r & f' & E1 & Hok' & Hs & Hr' & Hh); [done..|].
  fold k in Hr', Hs. destruct Hr' as [->|[-> He]]; [by destruct (Hh flash_works)|].
  exists f'. split; [|done]. serve_step. unfold erase_kernel_image.
  rewrite payload_word_split by lia. unfold in_flash, zoom, bind, of_option, ret. cbn [flash with_iface].
  rewrite E1. rewrite eqb_false by (by apply Hh). done.
Qed.

(** The write commands. *)
Lemma write_kernel_page_ok p rest i (s : boot) :
  fl_ok (flash s) → (length p <= 512)%nat → Forall byte p → 0 <= i < 224 →
  flash_page (flash s) (i + 32) = erased_page →
  ∃ f', write_kernel_page fuel (p ++ rest) (Z.of_nat (length p)) i s = Ret (1, with_flash f' (with_buffer (padded p) s)) ∧
    fl_ok f' ∧ same_outside (in_pages (32 + i) 1) (fl_mem (flash s)) (fl_mem f') ∧
    flash_page f' (32 + i) = padded p.
Proof.
  intros Hok Hl Hp Hi He.
  destruct (flash_write_image_page_spec fuel i (padded p) (flash s)) as (r & f' & E1 & (Hok' & Hs & _ & Hr) & Hr1);
    [done|lia|by apply length_padded|by apply padded_bytes|done|].
  rewrite Hr1 in * by (done || lia). rewrite (Z.add_comm i 32), Z.mod_small in Hs by lia. specialize (Hr eq_refl).
  exists f'. rewrite (Z.add_comm 32 i). split_and!; [|done|by rewrite Z.add_comm|done].
  unfold write_kernel_page. rewrite pad_page_padded by done. cbn [of_option bind modify ret].
  erewrite bind_Ret by (apply zoom_Ret; exact E1). cbn [Z.eqb flash_mem gets bind flash with_flash].
  rewrite flash_same_spec, take_ge by (rewrite length_padded; done).
  rewrite bool_decide_eq_true_2; [done|]. rewrite <- Hr. unfold flash_page, page_addr. f_equal. rewrite u32_small; lia.
Qed.

(** A download in progress: the interface waits, [i] pages are written, the pages
    up to the erased size are erased. *)
Record progress (s : boot) (i k : Z) : Prop := {
  pr_ready : ready (iface s);
  pr_ok : fl_ok (flash s);
  pr_page : kernel_page s = i;
  pr_total : kernel_total_size s = 8192 * k;
  pr_size : 0 < k <= 254;
  pr_erased : ∀ q, 32 + i <= q < 32 + 16 * k → flash_page (flash s) q = erased_page
}.

Definition payload_ok (p : list Z) : Prop := (0 < length p <= 512)%nat ∧ Forall byte p.

Lemma host_write p (s : boot) i k :
  progress s i k → payload_ok p → 0 <= i < 223 → i < 16 * k →
  ∃ s', host_command fuel CMD_WRITE_PAGE p s = Ret (false, s') ∧ progress s' (i + 1) k ∧
    flash_page (flash s') (32 + i) = padded p ∧
    same_outside (in_pages (32 + i) 1) (fl_mem (flash s)) (fl_mem (flash s')) ∧
    events (iface s') = events (iface s) ++ [EvResponse RESP_OK] ∧ boot_log s' = boot_log s ∧
    boot_con s' = boot_con s.
Proof.
  intros [Hr Hok Hpg Ht Hk He] [Hl Hp] Hi Hik.
  rewrite host_command_run; [|done|unfold byte, CMD_WRITE_PAGE; lia|unfold MAX_PAYLOAD_SIZE; lia].
  set (s1 := with_page (i + 1) (with_iface (received CMD_WRITE_PAGE p (iface s)) s)).
  destruct (write_kernel_page_ok p (drop (length p) (payload (fr (iface s)))) i s1) as (f' & E1 & Hok' & Hs & Hpage);
    [done|lia|done|lia|apply He; lia|].
  exists (with_iface (answered RESP_OK (received CMD_WRITE_PAGE p (iface s)))
    (with_flash f' (with_buffer (padded p) s1))).
  split.
  - serve_step. cbn [kernel_page with_iface]. rewrite Hpg, u32_small by lia. cbn [modify].
    refine (eq_trans (bind_Ret _ _ _ _ _ E1) _). done.
  - split_and!; [|done..]. split; try done.
    + apply (received_ready CMD_WRITE_PAGE p (iface s) Hr). unfold MAX_PAYLOAD_SIZE. lia.
    + intros q Hq. cbn [flash with_iface with_flash]. rewrite (flash_page_ext (flash s) f' (32 + i) q 1 Hs) by lia. apply He. lia.
Qed.

(** The end of a download resets the chip. *)
Definition reset_con (c : console D) : console D :=
  Console (io_write BOOT_RESET_CR 0xA5000001 (io_barrier CPSID_I (c_hw c))) (c_mem c) (c_rb c).
Lemma reset_run (s : boot) c : BootDrivers.print_flush fuel (boot_con s) = Ret (tt, c) →
  (boot_on_con (BootDrivers.print_flush fuel) ;; boot_on_hw cpsid_i ;;
   boot_on_hw (wr32 BOOT_RESET_CR (Z.lor 0xA5000000 1)) ;; log_event EvReset ;; ret true) s =
  Ret (true, with_log (boot_log s ++ [EvReset]) (with_boot_con (reset_con c) s)).
Proof. intros Ec. unfold boot_on_con at 1. erewrite bind_Ret by (apply zoom_Ret; exact Ec). done. Qed.

Lemma host_write_last p (s : boot) i k c :
  BootDrivers.print_flush fuel (boot_con s) = Ret (tt, c) →
  progress s i k → payload_ok p → 0 <= i < 224 → i < 16 * k →
  ∃ s', host_command fuel CMD_WRITE_PAGE_LAST p s = Ret (true, s') ∧
    flash_page (flash s') (32 + i) = padded p ∧
    same_outside (λ a, in_pages (32 + i) 1 a ∨ in_pages 30 1 a) (fl_mem (flash s)) (fl_mem (flash s')) ∧
    hash_valid (fl_mem (flash s')) ∧ ld32 (fl_mem (flash s')) (hash_addr + 32) = 8192 * k ∧
    events (iface s') = events (iface s) ++ [EvResponse RESP_OK] ∧ boot_log s' = boot_log s ++ [EvReset] ∧
    boot_con s' = reset_con c.
Proof.
  intros Hc [Hr Hok Hpg Ht Hk He] [Hl Hp] Hi Hik.
  rewrite host_command_run; [|done|unfold byte, CMD_WRITE_PAGE_LAST; lia|unfold MAX_PAYLOAD_SIZE; lia].
  set (s1 := with_iface (received CMD_WRITE_PAGE_LAST p (iface s)) s).
  destruct (write_kernel_page_ok p (drop (length p) (payload (fr (iface s)))) i s1) as (f' & E1 & Hok' & Hs & Hpage);
    [done|lia|done|lia|apply He; lia|].
  set (s2 := with_iface (answered RESP_OK (received CMD_WRITE_PAGE_LAST p (iface s)))
    (with_flash f' (with_buffer (padded p) s1))).
  destruct (store_kernel_hash_spec fuel s2) as (s3 & E2 & Hok3 & Hs3 & Hv & Hz & Hi3 & Hl3 & Hc3); try done.
  { cbn. rewrite Ht. lia. }
  assert (BootDrivers.print_flush fuel (boot_con s3) = Ret (tt, c)) as Hc4 by (rewrite Hc3; exact Hc).
  exists (with_log (boot_log s3 ++ [EvReset]) (with_boot_con (reset_con c) s3)). split.
  - subst s1. serve_step. cbn [kernel_page with_iface]. rewrite Hpg. 
    refine (eq_trans (bind_Ret _ _ _ _ _ E1) _). refine (eq_trans (bind_Ret _ _ _ _ _ (eq_refl : ret tt _ = _)) _).
    refine (eq_trans (bind_Ret _ _ _ tt s2 _) _); [done|]. refine (eq_trans (bind_Ret _ _ _ _ _ E2) _). cbn [Z.eqb]. exact (reset_run s3 c Hc4).
  - cbn [flash iface boot_log with_log with_boot_con]. rewrite Hz, Hi3, Hl3. split_and!; try done.
    + rewrite (flash_page_ext f' (flash s3) 30 (32 + i) 1 Hs3) by lia. done.
    + eapply same_outside_trans; [eapply same_outside_mono; [|exact Hs]|eapply same_outside_mono; [|exact Hs3]]; tauto.
Qed.

(** The pages after the erase command. *)
Lemma send_pages_spec pages last (s : boot) i k c :
  BootDrivers.print_flush fuel (boot_con s) = Ret (tt, c) →
  progress s i k → Forall payload_ok pages → payload_ok last → 0 <= i →
  i + Z.of_nat (length pages) < 224 → i + Z.of_nat (length pages) < 16 * k →
  ∃ s', send_pages fuel pages last s = Ret (true, s') ∧
    (∀ j p, (pages ++ [last]) !! j = Some p → flash_page (flash s') (32 + i + Z.of_nat j) = padded p) ∧
    same_outside (λ a, in_pages (32 + i) (Z.of_nat (length pages) + 1) a ∨ in_pages 30 1 a)
      (fl_mem (flash s)) (fl_mem (flash s')) ∧
    hash_valid (fl_mem (flash s')) ∧ ld32 (fl_mem (flash s')) (hash_addr + 32) = 8192 * k ∧
    events (iface s') = events (iface s) ++ replicate (S (length pages)) (EvResponse RESP_OK) ∧
    boot_log s' = boot_log s ++ [EvReset] ∧ boot_con s' = reset_con c.
Proof.
  intros Hc Hpr Hps Hlast. revert s i Hc Hpr. induction Hps as [|p pages Hp _ IH]; intros s i Hc Hpr Hi Hn Hk; cbn [length] in *.
  - destruct (host_write_last last s i k c) as (s' & E1 & Hpage & Hs & Hv & Hz & He & Hlg & Hcn); [done..|lia|lia|].
    exists s'. split_and!; try done. intros j q Hj. destruct j; [|done]. injection Hj as <-. by rewrite Z.add_0_r.
  - cbn [send_pages].
    destruct (host_write p s i k) as (s1 & E1 & Hpr1 & Hpage & Hs1 & He1 & Hl1 & Hc1); [done..|lia|lia|].
    mstep E1. destruct (IH s1 (i + 1)) as (s' & E2 & Hpages & Hs & Hv & Hz & He & Hlg & Hcn); [by rewrite Hc1|done|lia..|].
    exists s'. split_and!; [done| | |done|done| |by rewrite Hlg, Hl1|done].
    + intros [|j] q Hj; [injection Hj as <-|].
      * rewrite Z.add_0_r, <- Hpage. apply read_bytes_ext. intros b Hb. apply Hs. unfold in_pages, page_addr in *. lia.
      * rewrite <- (Hpages j q Hj). f_equal. lia.
    + eapply same_outside_trans; (eapply same_outside_mono; [|eassumption]); unfold in_pages, page_addr; lia.
    + by rewrite He, He1, <- app_assoc.
Qed.
End Session.
