(* ===== verification/BootTheorems.v ===== *)
(** * The bootloader: theorems

    A download installs the image, the bootloader starts a kernel exactly when it
    is the one that was installed, the page writer checks what it wrote, and where
    its page arithmetic wraps.  The witnesses run on a memory that behaves like
    the flash and on an engine with a toy digest. *)

From S2P Require Import Prelude Memory Hardware Ringbuffer Console BootDrivers BootIface.
From S2P Require Import Crc Frame Flash Bootloader BootProof BootSession.

(** The fields of an information block the bootloader compares. *)
Definition info_match (m : mem) : bool :=
  let k := load_info m (kernel_info image_info) in
  bool_decide ((bootloader_start k, bootloader_size k, bootloader_info k, kernel_start k, kernel_size k, kernel_info k) =
    (bootloader_start image_info, bootloader_size image_info, bootloader_info image_info,
     kernel_start image_info, kernel_size image_info, kernel_info image_info)).

Lemma signature_loop_spec l t :
  (length t <= length l)%nat → signature_loop l t = if decide (take (length t) l = t) then 1 else 0.
Proof.
  revert l; induction t as [|b t IH]; intros l Hl; [by destruct l|]. destruct l as [|a l]; [cbn in Hl; lia|].
  cbn [signature_loop length take]. destruct (a =? b) eqn:E; cbn [negb].
  - apply Z.eqb_eq in E as ->. rewrite IH by (cbn in Hl; lia).
    destruct (decide (take (length t) l = t)) as [Ht|Ht], (decide (b :: take (length t) l = b :: t)); congruence.
  - apply Z.eqb_neq in E. destruct (decide (a :: take (length t) l = b :: t)); congruence.
Qed.

Section BootTheorems.
Context {F E D : Type} `{FlashCtrl F} `{HashEngine E} `{Mmio D}.
Notation boot := (@boot F E D).

Lemma check_info_match_spec (s : boot) :
  check_info_match s = Ret (if info_match (fl_mem (flash s)) then 1 else 0, s).
Proof.
  unfold check_info_match, flash_mem. cbn [bind gets]. unfold ret. do 2 f_equal. unfold info_match.
  set (k := load_info _ _). clearbody k. case_bool_decide as E1; [by injection E1 as -> -> -> -> -> ->|].
  destruct (_ && _) eqn:E2; [|done]. destruct E1. rewrite !andb_true_iff, !Z.eqb_eq in E2.
  destruct E2 as [[[[[-> ->] ->] ->] ->] ->]. done.
Qed.

(** C13. The page writer checks what it wrote: whatever the flash controller
    does, [write_kernel_page] never reports a failure by its result; it panics or
    hangs, or returns 1 and then the page reads back as the data, padded with
    0xFF, and only the flash and the flash buffer have changed. *)
Theorem write_kernel_page_checked fuel p rest page (s s' : boot) r :
  (length p <= 512)%nat → 0 <= page < 4064 →
  write_kernel_page fuel (p ++ rest) (Z.of_nat (length p)) page s = Ret (r, s') →
  r = 1 ∧ flash_page (flash s') (32 + page) = padded p ∧
  s' = with_flash (flash s') (with_buffer (padded p) s).
Proof.
  intros Hl Hp. unfold write_kernel_page. rewrite pad_page_padded by done. cbn [of_option bind modify ret].
  unfold in_flash, zoom, bind at 1. cbn [flash with_buffer]. destruct (flash_write_image_page fuel page (padded p) (flash s)) as [[st f']| | |]; try done.
  destruct (st =? 0); [done|]. cbn [flash_mem gets bind flash with_flash].
  rewrite flash_same_spec, take_ge by (rewrite length_padded; done).
  case_bool_decide as Eb; cbn [negb]; [|done]. intros [= <- <-]. split_and!; [done| |done].
  rewrite <- Eb. unfold flash_page, page_addr. cbn [flash with_flash]. f_equal. rewrite u32_small; lia.
Qed.

Context `{!FlashLaws} `{!HashLaws}.

(** The page number in the flash command has eight bits: a write to a page of
    the image from 224 on programs the page [(page + 32) mod 256] of the flash
    instead, for the pages 224 to 255 a page of the bootloader, and, unless the
    image already holds the data, panics. *)
Theorem write_page_wraps fuel p rest page (s : boot) :
  fl_ok (flash s) → (fl_delay <= fuel)%nat → payload_ok p → 224 <= page < 4064 →
  flash_page (flash s) (page + 32) ≠ padded p →
  write_kernel_page fuel (p ++ rest) (Z.of_nat (length p)) page s = Panic "Flash write failed" ∧
  (page < 256 → (page + 32) mod 256 < 32) ∧
  ∃ r f', flash_write_image_page fuel page (padded p) (flash s) = Ret (r, f') ∧
    same_outside (in_pages ((page + 32) mod 256) 1) (fl_mem (flash s)) (fl_mem f').
Proof.
  intros Hok Hf [Hl Hp] Hpg Hne.
  destruct (flash_write_image_page_spec fuel page (padded p) (flash s)) as (r & f' & E1 & (Hok' & Hs & Hr0 & Hr) & _);
    [done|lia|apply length_padded; lia|by apply padded_bytes|done|].
  split_and!; [|lia|by exists r, f'].
  unfold write_kernel_page. rewrite pad_page_padded by lia. cbn [of_option bind modify ret].
  erewrite bind_Ret by (apply zoom_Ret; exact E1).
  destruct Hr0 as [->| ->]; [done|]. destruct Hne. rewrite <- (Hr eq_refl).
  symmetry. apply (flash_page_ext _ _ _ _ _ Hs). lia.
Qed.

(** ** What the start leaves behind *)

Definition on_hardware (f : D → D) (c : console D) : console D := Console (f (c_hw c)) (c_mem c) (c_rb c).

(** What [start_kernel] does first, and what it then does to the registers and to
    the mode register of the flash. *)
Definition release (fuel : nat) : M (console D) unit :=
  BootDrivers.print_flush fuel ;; BootDrivers.print_deinit ;; on_hw (BootDrivers.clock_tree_reset fuel).
Definition handed (d : D) : D :=
  io_barrier ISB (io_barrier DSB (io_barrier DSB (io_barrier DSB
    (io_write VECTOR_TABLE_BASE 0x00404200 (io_write BootDrivers.PCDR1 1 (io_write BootDrivers.PCDR0 1024
      (io_barrier CPSID_I d))))))).
Definition one_cycle (f : F) : F := fl_set_fmr (u32 (Z.land (fl_fmr f) (Z.lnot (Z.shiftl 15 8)))) f.

Lemma one_cycle_run (s : boot) : in_flash (flash_set_access_cycles 1) s = Ret (tt, with_flash (one_cycle (flash s)) s).
Proof.
  unfold one_cycle. rewrite <- (Z.lor_0_r (Z.land _ _)). destruct s as [f e t p b sg h i l k]. reflexivity.
Qed.

(** The rest of [start_kernel], from the masking of the interrupts on. *)
Definition leave : M boot unit :=
  boot_on_hw cpsid_i ;;
  boot_on_hw (BootDrivers.peripheral_clock_disable 10) ;;
  boot_on_hw (BootDrivers.peripheral_clock_disable 32) ;;
  boot_on_hw (wr32 VECTOR_TABLE_BASE 0x00404200) ;;
  boot_on_hw dmb ;;
  boot_on_hw dsb ;;
  boot_on_hw isb ;;
  let* m := flash_mem in
  boot_on_hw (modify (io_barrier ISB)) ;;
  log_event (EvJump (ld32 m 0x00404200) (Z.lor (ld32 m 0x00404204) 1)).
Lemma leave_run (s : boot) : let m := fl_mem (flash s) in
  leave s = Ret (tt, with_log (boot_log s ++ [EvJump (ld32 m 0x00404200) (Z.lor (ld32 m 0x00404204) 1)])
    (with_boot_con (on_hardware handed (boot_con s)) s)).
Proof. destruct s as [f e t p b sg h i l [d cm rb]]. reflexivity. Qed.

Lemma start_kernel_run fuel (s : boot) c :
  release fuel (boot_con s) = Ret (tt, c) →
  let m := fl_mem (flash s) in
  start_kernel fuel s = Ret (tt, with_log (boot_log s ++ [EvJump (ld32 m 0x00404200) (Z.lor (ld32 m 0x00404204) 1)])
    (with_boot_con (on_hardware handed c) (with_flash (one_cycle (flash s)) s))).
Proof.
  intros Hc m. unfold release in Hc. apply bind_inv in Hc as ([] & c1 & E1 & Hc). apply bind_inv in Hc as ([] & c2 & E2 & E3).
  unfold start_kernel, boot_on_con at 1. erewrite bind_Ret by (apply zoom_Ret; exact E1).
  unfold boot_on_con at 1. erewrite bind_Ret by (apply zoom_Ret; exact E2).
  unfold boot_on_hw at 1, boot_on_con at 1. erewrite bind_Ret by (apply zoom_Ret; exact E3). fold leave.
  rewrite (bind_Ret _ _ _ _ _ (one_cycle_run _)). rewrite leave_run. destruct s as [f e t p b sg h i l k], c as [d cm rb].
  cbv zeta. cbn [flash with_flash with_boot_con boot_con boot_log] in *.
  assert (fl_mem (one_cycle f) = fl_mem f) as -> by apply law_fmr. reflexivity.
Qed.

(** Preparing the interface waits for nothing. *)
Definition returns {S A} (c : M S A) : Prop := ∀ s, ∃ a s', c s = Ret (a, s').
Lemma returns_bind {S A B} (c : M S A) (f : A → M S B) : returns c → (∀ a, returns (f a)) → returns (bind c f).
Proof. intros Hc Hf s. destruct (Hc s) as (a & s1 & E1). destruct (Hf a s1) as (b & s2 & E2). exists b, s2. by rewrite (bind_Ret _ _ _ _ _ E1). Qed.
Lemma returns_modify {S} (f : S → S) : returns (modify f).
Proof. intros s. by eexists _, _. Qed.
Lemma returns_rd32 a : returns (rd32 (D := D) a).
Proof. intros d. unfold rd32. destruct (io_read a d). by eexists _, _. Qed.
Lemma returns_zoom {S T A} (get : S → T) put (c : M T A) : returns c → returns (zoom get put c).
Proof. intros Hc s. destruct (Hc (get s)) as (a & t & E1). eexists _, _. by apply zoom_Ret. Qed.

Lemma con_step {A B} (c : M (console D) A) (f : A → M (BootIface.iface D) B) k v (P : _ → Prop) :
  returns c → (∀ a k', P (f a (Iface k' v))) → P (bind (BootIface.on_con c) f (Iface k v)).
Proof.
  intros Hc Hf. destruct (Hc k) as (a & k' & E1). unfold BootIface.on_con. erewrite bind_Ret; [|by apply zoom_Ret]. apply Hf.
Qed.

Ltac returning :=
  repeat first [apply returns_modify | apply returns_rd32 | apply returns_zoom | apply returns_bind; [|intros ?]
    | progress cbn [Z.ltb Z.compare Pos.compare Pos.compare_cont]].

Lemma serial_init_returns : returns (BootDrivers.serial_init (D := D)).
Proof.
  unfold BootDrivers.serial_init, on_hw, BootDrivers.gpio_set_function, BootDrivers.select_bit, BootDrivers.peripheral_clock_enable,
    BootDrivers.usart_init, BootDrivers.usart_interrupt_enable, BootDrivers.nvic_enable, set32, mask32, wr32.
  returning.
Qed.

Lemma frame_init_run k v : ∃ k', frame_init (D := D) (Iface k v) = Ret (tt, Iface k' (set_bus STATE_IDLE v)).
Proof.
  unfold frame_init, BootIface.on_dev.
  apply (con_step _ _ _ _ (λ o, ∃ k', o = _)); [apply serial_init_returns|intros _ k1].
  do 3 (apply (con_step _ _ _ _ (λ o, ∃ k', o = _));
    [unfold on_hw, BootDrivers.peripheral_clock_enable, BootDrivers.pck_init, BootDrivers.pck_enable, wr32; returning|intros _ ? ]).
  eexists. reflexivity.
Qed.

(** The two ways the start goes on once it is decided. *)
Definition wait_for_host : M boot bool :=
  boot_on_iface frame_init ;; boot_on_hw cpsie_f ;; in_iface (send_response RESP_OK) ;; ret false.
Definition waiting (c : console D) (s : boot) : boot :=
  with_iface (answered RESP_OK (set_bus STATE_IDLE (iface s))) (with_boot_con (on_hardware (io_barrier CPSIE_F) c) s).

Lemma wait_for_host_run (s : boot) :
  ∃ c, frame_init (Iface (boot_con s) (iface s)) = Ret (tt, Iface c (set_bus STATE_IDLE (iface s))) ∧
    wait_for_host s = Ret (false, waiting c s).
Proof.
  destruct (frame_init_run (boot_con s) (iface s)) as [c Ec]. exists c. split; [exact Ec|].
  unfold wait_for_host, boot_on_iface. erewrite bind_Ret by (apply zoom_Ret; exact Ec). reflexivity.
Qed.

Definition stays (s : boot) : bool := bool_decide (take 16 (boot_signature s) = boot_trigger).
Definition signature_after (s : boot) : list Z := if stays s then replicate 32 0 else boot_signature s.
Definition starts (pin : Z) (s : boot) : bool :=
  negb (stays s) && negb (pin =? 0) && info_match (fl_mem (flash s)) && bool_decide (hash_valid (fl_mem (flash s))).

Lemma stays_check (s : boot) : (16 <= length (boot_signature s))%nat →
  check_boot_signature s = Ret (if stays s then 1 else 0, s).
Proof.
  intros Hl. unfold check_boot_signature, stays. cbn [bind gets]. unfold ret. do 2 f_equal.
  rewrite signature_loop_spec by exact Hl. change (length boot_trigger) with 16%nat.
  case_bool_decide; [by rewrite decide_True|by rewrite decide_False].
Qed.

Lemma boot_decision fuel pin (s : boot) :
  icm_healthy → (icm_delay <= fuel)%nat → (16 <= length (boot_signature s))%nat →
  ∃ s1, same_boot (with_signature (signature_after s) s) s1 ∧
    boot_start fuel pin s = (if starts pin s then start_kernel fuel ;; ret true else wait_for_host) s1.
Proof.
  intros Hh Hf Hl. unfold boot_start. rewrite (bind_Ret _ _ _ _ _ (stays_check s Hl)).
  unfold starts, signature_after. destruct (stays s) eqn:Es; cbn [Z.eqb negb andb].
  { exists (with_signature (replicate 32 0) s). split; [by split_and!|]. reflexivity. }
  assert (same_boot (with_signature (boot_signature s) s) s) as H0' by by split_and!.
  destruct (pin =? 0); cbn [negb andb]; [by exists s|].
  erewrite bind_Ret by reflexivity.
  destruct (verify_kernel_hash_spec fuel s Hh Hf) as (s1 & E1 & HS).
  exists s1. split; [done|]. erewrite (bind_bind check_info_match).
  rewrite (bind_Ret _ _ _ _ _ (check_info_match_spec s)), bind_bind, (bind_Ret _ _ _ _ _ E1).
  destruct (info_match _); cbn [Z.eqb negb andb]; [|reflexivity].
  case_bool_decide as Ev; [rewrite decide_True by done|rewrite decide_False by done]; cbn [Z.eqb negb]; [|reflexivity].
  rewrite bind_bind. unfold bind. destruct (start_kernel fuel s1) as [[[] s2]| | |]; reflexivity.
Qed.

(** C10. The start of the bootloader, on a hash engine that reports no errors.  With
    the boot signature in memory the signature is cleared and the bootloader stays;
    it also stays while the button is pressed; otherwise it starts the kernel
    exactly when the kernel's information block matches and the hash sector holds
    the digest of the image.  Staying, it initialises the frame interface, enables
    the interrupts and answers the host that it is there; the flash and the log are
    unchanged.  Starting the kernel, once the debug port has drained and the clock
    tree is reset ([release] returns), it sets one wait state, masks the
    interrupts, disables the two peripheral clocks and moves the vector table to
    0x00404200, in this order with the barriers, and last of all jumps to the
    entry of the kernel's vector table with its stack pointer; the contents of the
    flash, the interface and the signature are unchanged. *)
Theorem boot_start_decides fuel pin (s : boot) :
  icm_healthy → (icm_delay <= fuel)%nat → (16 <= length (boot_signature s))%nat →
  let m := fl_mem (flash s) in
  let stay := bool_decide (take 16 (boot_signature s) = boot_trigger) in
  let go := negb stay && negb (pin =? 0) && info_match m && bool_decide (hash_valid m) in
  let signature := if stay then replicate 32 0 else boot_signature s in
  (go = false → ∃ s' c, boot_start fuel pin s = Ret (false, s') ∧
     frame_init (Iface (boot_con s) (iface s)) = Ret (tt, Iface c (set_bus STATE_IDLE (iface s))) ∧
     boot_con s' = on_hardware (io_barrier CPSIE_F) c ∧
     iface s' = answered RESP_OK (set_bus STATE_IDLE (iface s)) ∧
     flash s' = flash s ∧ boot_log s' = boot_log s ∧ boot_signature s' = signature) ∧
  (go = true → ∀ c, release fuel (boot_con s) = Ret (tt, c) → ∃ s', boot_start fuel pin s = Ret (true, s') ∧
     boot_con s' = on_hardware handed c ∧ flash s' = one_cycle (flash s) ∧ fl_mem (flash s') = m ∧
     iface s' = iface s ∧ boot_signature s' = signature ∧
     boot_log s' = boot_log s ++ [EvJump (ld32 m 0x00404200) (Z.lor (ld32 m 0x00404204) 1)]).
Proof.
  intros Hh Hf Hl m stay go signature.
  destruct (boot_decision fuel pin s Hh Hf Hl) as (s1 & (Ef & Ei & El & _ & _ & Eg & Ec) & E1).
  cbn [flash iface boot_log boot_signature boot_con with_signature] in *.
  rewrite E1. change (starts pin s) with go. change (signature_after s) with signature in Eg.
  split; intros ->; cbn [negb].
  - destruct (wait_for_host_run s1) as (c & E2 & E3). rewrite E3, Ec, Ei in *. exists (waiting c s1), c.
    unfold waiting. cbn [flash iface boot_log boot_signature boot_con with_iface with_boot_con]. rewrite Ei. by split_and!.
  - intros c Hc. rewrite <- Ec in Hc. rewrite (bind_Ret _ _ _ _ _ (start_kernel_run fuel s1 c Hc)), Ef, El. fold m.
    eexists. split; [reflexivity|]. cbn [flash iface boot_log boot_signature boot_con with_log with_boot_con with_flash].
    split_and!; try done. apply law_fmr.
Qed.

(** C12. A download installs the kernel: on a flash and a hash engine that report no
    errors, from a waiting interface, with a debug port that drains, the frames of
    an erase command for [size] bytes and of the pages of the image (each of 1 to
    512 bytes) are all answered with success and the chip is reset.  The pages are
    written from the page counter on, 0 after a reset, which the erase command does
    not change; no page may lie past the erased ones or past page 223.  Then every
    page holds its data; of the flash only the erased sectors and the hash sector
    have changed; the hash sector records the erased size; and whenever the
    bootloader starts with this flash and a released button, with anything but the
    boot signature in its place, it starts the kernel if the information block in
    the image matches, once the start's waits end ([release], see C10), and waits
    for the host if not. *)
Theorem download_installs fuel size pages last (s : boot) c :
  fl_healthy → icm_healthy → (fl_delay <= fuel)%nat → (icm_delay <= fuel)%nat →
  ready (iface s) → fl_ok (flash s) → BootDrivers.print_flush fuel (boot_con s) = Ret (tt, c) →
  let first := kernel_page s in
  let n := Z.of_nat (length pages) + 1 in
  let k := (size + 8191) / 8192 in
  Forall payload_ok pages → payload_ok last → 0 <= first → first + n <= 224 →
  0 < size <= 4064 * 512 → first + n <= 16 * k →
  ∃ s', download fuel size pages last s = Ret (true, s') ∧
    (∀ j p, (pages ++ [last]) !! j = Some p → flash_page (flash s') (32 + first + Z.of_nat j) = padded p) ∧
    same_outside (λ a, in_pages 32 (16 * k) a ∨ in_pages 30 1 a) (fl_mem (flash s)) (fl_mem (flash s')) ∧
    ld32 (fl_mem (flash s')) (hash_addr + 32) = 8192 * k ∧
    events (iface s') = events (iface s) ++ replicate (Z.to_nat (n + 1)) (EvResponse RESP_OK) ∧
    boot_log s' = boot_log s ++ [EvReset] ∧
    c_hw (boot_con s') = io_write BOOT_RESET_CR 0xA5000001 (io_barrier CPSID_I (c_hw c)) ∧
    ∀ s2 : boot, flash s2 = flash s' →
      (16 <= length (boot_signature s2))%nat → take 16 (boot_signature s2) ≠ boot_trigger →
      if info_match (fl_mem (flash s'))
      then ∀ c2, release fuel (boot_con s2) = Ret (tt, c2) → ∃ s3, boot_start fuel 1 s2 = Ret (true, s3)
      else ∃ s3, boot_start fuel 1 s2 = Ret (false, s3).
Proof.
  intros Hfh Hih Hf Hf' Hr Hok Hc first n k Hps Hlast H0f Hn Hsz Hnk. unfold download.
  destruct (host_erase fuel Hf Hf' Hfh size s) as (f1 & E1 & Hok1 & Hs1 & He1); [done..|]. fold k in E1, Hs1, He1.
  rewrite (bind_Ret _ _ _ _ _ E1). clear E1.
  match goal with |- context [send_pages _ _ _ ?st] => set (s1 := st) end.
  assert (progress s1 first k) as Hpr.
  { split; cbn; try done; [|lia|intros q Hq; apply He1; lia]. apply (received_ready CMD_ERASE_FLASH (le_split 4 size) (iface s) Hr).
    rewrite length_le_split. unfold MAX_PAYLOAD_SIZE. lia. }
  destruct (send_pages_spec fuel Hf Hf' Hfh Hih pages last s1 first k c) as (s' & E2 & Hpages & Hs2 & Hv & Hz & Hev & Hlg & Hcn);
    [done..|lia|lia|].
  exists s'. split_and!; [done|exact Hpages| |done| |done|by rewrite Hcn|].
  - eapply same_outside_trans; (eapply same_outside_mono; [|eassumption]); unfold in_pages, page_addr; lia.
  - rewrite Hev. cbn [events iface with_iface s1 answered received]. rewrite <- app_assoc. f_equal.
    replace (Z.to_nat (n + 1)) with (S (S (length pages))) by lia. done.
  - intros s2 Hfl Hl2 Hsg. destruct (boot_decision fuel 1 s2 Hih Hf' Hl2) as (s3 & (_ & _ & _ & _ & _ & _ & Ec) & E3).
    assert (starts 1 s2 = info_match (fl_mem (flash s'))) as Es.
    { unfold starts, stays. rewrite Hfl, bool_decide_eq_false_2, bool_decide_eq_true_2 by done. cbn. apply andb_true_r. }
    rewrite E3, Es. destruct (info_match _).
    + intros c2 Hc2. cbn [boot_con with_signature] in Ec. rewrite <- Ec in Hc2.
      rewrite (bind_Ret _ _ _ _ _ (start_kernel_run fuel s3 c2 Hc2)). by eexists.
    + destruct (wait_for_host_run s3) as (c3 & _ & ->). by eexists.
Qed.
End BootTheorems.

(** ** Devices for the witnesses *)

(** A memory that behaves like the flash: writing a page clears bits. *)
Record ram_flash := RamFlash { rf_mem : mem; rf_latch : mem; rf_mode : Z }.

Definition rf_program (erase : bool) (p : Z) (f : ram_flash) : ram_flash :=
  let old := if erase then erased_page else read_bytes (rf_mem f) (page_addr p) 512 in
  RamFlash (write_bytes (rf_mem f) (page_addr p) (zip_with Z.land old (read_bytes (rf_latch f) (page_addr p) 512)))
    (rf_latch f) (rf_mode f).
Definition rf_command (v : Z) (f : ram_flash) : ram_flash :=
  let arg := (v - 0x5A000000) / 256 in
  let cmd := (v - 0x5A000000) mod 256 in
  if cmd =? 3 then rf_program true arg f
  else if cmd =? 1 then rf_program false arg f
  else if cmd =? 7 then
    RamFlash (write_bytes (rf_mem f) (page_addr (arg / 16 * 16)) (replicate (16 * 512) 255)) (rf_latch f) (rf_mode f)
  else f.
#[export] Instance ram_flash_ctrl : FlashCtrl ram_flash := {|
  fl_mem := rf_mem;
  fl_latch a w f := RamFlash (rf_mem f) (write_bytes (rf_latch f) a (le_split 4 w)) (rf_mode f);
  fl_fsr f := (1, f);
  fl_fcr := rf_command;
  fl_fmr := rf_mode;
  fl_set_fmr v f := RamFlash (rf_mem f) (rf_latch f) v
|}.

Lemma rf_latch_words n a b f :
  Forall byte b → length b = (4 * n)%nat →
  latch_words n a b f = RamFlash (rf_mem f) (write_bytes (rf_latch f) a b) (rf_mode f).
Proof.
  revert a b f; induction n as [|n IH]; intros a b f Hb Hl.
  { destruct b; [by destruct f|done]. }
  cbn [latch_words fl_latch ram_flash_ctrl]. rewrite IH; [|by apply Forall_drop|rewrite length_drop; lia].
  cbn [rf_mem rf_latch rf_mode]. f_equal.
  assert (length (take 4 b) = 4%nat) as H4 by (rewrite length_take; lia).
  pose proof (le_split_join (take 4 b) ltac:(by apply Forall_take)) as Ej. rewrite H4 in Ej. rewrite Ej.
  rewrite <- (take_drop 4 b) at 3. by rewrite write_bytes_app, H4.
Qed.

Lemma zip_land_erased b : Forall byte b → zip_with Z.land (replicate (length b) 255) b = b.
Proof.
  induction 1 as [|x b Hx _ IH]; [done|]. cbn [length replicate zip_with]. rewrite IH. f_equal.
  rewrite Z.land_comm, (land_mask _ 8) by lia. by apply Z.mod_small.
Qed.

Lemma fcr_cmd cmd arg : 0 <= cmd < 256 → (fcr_value cmd arg - 0x5A000000) mod 256 = cmd.
Proof. unfold fcr_value. lia. Qed.
Lemma fcr_arg cmd arg : 0 <= cmd < 256 → (fcr_value cmd arg - 0x5A000000) / 256 = arg.
Proof. unfold fcr_value. lia. Qed.

(** Programming a page from the latch buffer. *)
Lemma rf_program_spec erase p q b f :
  length b = 512%nat → Forall byte b →
  let f' := rf_program erase p (latch_words 128 (page_addr q) b f) in
  same_outside (in_pages p 1) (rf_mem f) (rf_mem f') ∧
  (q = p → erase = true ∨ flash_page f p = erased_page → flash_page f' p = b).
Proof.
  intros Hl Hb f'. unfold f'. rewrite rf_latch_words by done. unfold rf_program. cbn [rf_mem rf_latch].
  set (old := if erase then _ else _). assert (length old = 512%nat) as Ho.
  { unfold old. destruct erase; [by unfold erased_page; rewrite length_replicate|by rewrite length_read_bytes]. }
  set (l := zip_with _ _ _). assert (length l = 512%nat) as Hll.
  { unfold l. rewrite length_zip_with, Ho, length_read_bytes. done. }
  split.
  - eapply same_outside_mono; [|apply same_outside_write]. rewrite Hll. unfold in_pages, page_addr. lia.
  - intros -> He. assert (old = replicate (length b) 255) as Eo.
    { rewrite Hl. unfold old. destruct erase; [done|]. destruct He as [|He]; [done|]. exact He. }
    assert (l = b) as El.
    { unfold l. rewrite Eo. rewrite <- Hl, read_write_bytes by done. by apply zip_land_erased. }
    unfold flash_page. cbn [fl_mem ram_flash_ctrl rf_mem]. rewrite El, <- Hl. by apply read_write_bytes.
Qed.

Lemma read_bytes_replicate m a k n r x :
  byte x → read_bytes (write_bytes m a (replicate (k + (n + r)) x)) (a + Z.of_nat k) n = replicate n x.
Proof.
  intros Hx. set (m' := write_bytes _ _ _).
  assert (read_bytes m' a (k + (n + r)) = replicate (k + (n + r)) x) as E.
  { unfold m'. pose proof (read_write_bytes m a (replicate (k + (n + r)) x)) as E. rewrite length_replicate in E.
    apply E. by apply Forall_replicate. }
  rewrite !read_bytes_add, !replicate_add in E.
  apply app_inj_1 in E as [_ E]; [|by rewrite length_read_bytes, length_replicate].
  by apply app_inj_1 in E as [E _]; [|by rewrite length_read_bytes, length_replicate].
Qed.

#[export] Instance ram_flash_laws : FlashLaws.
Proof.
  refine {| fl_delay := 1; fl_ok := λ _, True |}.
  - done.
  - intros f _. right. done.
  - intros f p b _ Hp Hl Hb. right. split; [done|].
    destruct (rf_program_spec true p p b f Hl Hb) as [Hs Hpg].
    cbn [fl_fcr ram_flash_ctrl]. unfold rf_command. rewrite fcr_cmd, fcr_arg by lia. cbn [Z.eqb Pos.eqb].
    split_and!; [done|done|intros _; by apply Hpg; [|left]].
  - intros f p _ Hp Hm. right. split; [done|].
    cbn [fl_fcr ram_flash_ctrl]. unfold rf_command. rewrite fcr_cmd, fcr_arg by lia. cbn [Z.eqb Pos.eqb].
    replace ((p + 2) / 16 * 16) with p by lia. split_and!; [done| |].
    + eapply same_outside_mono; [|apply same_outside_write]. rewrite length_replicate. unfold in_pages, page_addr. lia.
    + intros _ q Hq. unfold flash_page, erased_page. cbn [fl_mem ram_flash_ctrl rf_mem].
      replace (page_addr q) with (page_addr p + Z.of_nat (Z.to_nat (512 * (q - p)))) by (unfold page_addr; lia).
      replace (16 * 512)%nat with (Z.to_nat (512 * (q - p)) + (512 + (15 * 512 - Z.to_nat (512 * (q - p)))))%nat by lia.
      by apply read_bytes_replicate.
  - intros f q p b _ Hp Hq Hl Hb. right. split; [done|].
    destruct (rf_program_spec false p q b f Hl Hb) as [Hs Hpg].
    cbn [fl_fcr ram_flash_ctrl]. unfold rf_command. rewrite fcr_cmd, fcr_arg by lia. cbn [Z.eqb Pos.eqb].
    split_and!; [done|done|intros _ -> He; by apply Hpg; [|right]].
Defined.

(** An engine with a toy digest: 32 copies of the sum of the bytes. *)
Definition toy_digest (l : list Z) : list Z := replicate 32 (u8 (foldr Z.add 0 l)).
#[export] Instance toy_engine : HashEngine icm_desc := {|
  icm_set w e := match w with IcmDscr d => d | _ => e end;
  icm_isr e := (1, e);
  icm_result m e := toy_digest (read_bytes m (icm_start e) (Z.to_nat (64 * (icm_size e + 1))))
|}.
#[export] Instance toy_engine_laws : HashLaws.
Proof.
  refine {| sha256 := toy_digest; icm_delay := 1 |}.
  - intros l. apply length_replicate.
  - intros l. apply Forall_replicate, u8_range.
  - intros e d. right. split; [done|]. intros _ m. done.
Defined.

Lemma ram_healthy : fl_healthy.
Proof. intros f. done. Qed.
Lemma toy_healthy : icm_healthy.
Proof. intros e. done. Qed.

(** Registers whose status bits are all set. *)
Definition ex_console : console bank :=
  Console (Bank {[BootDrivers.CLOCK_SR := 0xFFFFFF; BootDrivers.US_CSR BootHardware.USART1 := 0x202]} []) ∅ (Ringbuffer 0 0 0 0).

(** The bootloader with an empty flash, waiting for the host. *)
Definition ex_boot : boot (F := ram_flash) (E := icm_desc) (D := bank) :=
  Boot (RamFlash ∅ ∅ 0) (IcmDesc 0 0 0 0) 0 0 (replicate 512 0) (replicate 32 0) (Hash (replicate 32 0) 0) frame_start []
    ex_console.

(** The bootloader with a kernel: its information block, its vector table and a
    hash sector. *)
Definition ex_kernel : mem :=
  write_bytes (write_bytes ∅ 0x00404000 ([2; 0; 0x00400000; 0x4000; 0x00403E00; 0x00404000; 0x1FC000; 0x00404000] ≫= le_split 4))
    0x00404200 (le_split 4 0x20450000 ++ le_split 4 0x00404320).
Definition ex_installed : boot (F := ram_flash) (E := icm_desc) (D := bank) :=
  with_flash (RamFlash (write_bytes ex_kernel hash_addr (hashed ex_kernel 64 ++ le_split 4 64)) ∅ 0) ex_boot.

Lemma payload_ok_one x : byte x → payload_ok [x].
Proof. intros Hx. split; [cbn; lia|by apply Forall_singleton]. Qed.

Lemma download_installs_witness :
  ∃ s', download 1 1024 [[7]] [9] ex_boot = Ret (true, s') ∧
    flash_page (flash s') 32 = padded [7] ∧ flash_page (flash s') 33 = padded [9].
Proof.
  destruct (download_installs 1 1024 [[7]] [9] ex_boot ex_console) as (s' & E & Hp & _); [apply ram_healthy|apply toy_healthy|..].
  - cbn. lia.
  - cbn. lia.
  - split; [done|vm_compute; done].
  - done.
  - vm_compute. reflexivity.
  - apply Forall_singleton, payload_ok_one. unfold byte. lia.
  - apply payload_ok_one. unfold byte. lia.
  - cbn. lia.
  - cbn. lia.
  - lia.
  - cbn. lia.
  - exists s'. split_and!; [done|by apply (Hp 0%nat)|by apply (Hp 1%nat)].
Defined.

Lemma ex_released : ∃ c, release 1 ex_console = Ret (tt, c).
Proof. eexists. vm_compute. reflexivity. Qed.

Lemma boot_start_decides_witness :
  (∃ s', boot_start 1 1 ex_boot = Ret (false, s') ∧ boot_log s' = []) ∧
  (∃ s', boot_start 1 1 ex_installed = Ret (true, s') ∧ boot_log s' = [EvJump 0x20450000 0x00404321]).
Proof.
  assert (icm_delay <= 1)%nat as Hd by (cbn; lia). split.
  - destruct (proj1 (boot_start_decides 1 1 ex_boot toy_healthy Hd ltac:(cbn; lia)))
      as (s' & c & E & _ & _ & _ & _ & El & _).
    { assert (info_match (fl_mem (flash ex_boot)) = false) as Ei by (vm_compute; reflexivity).
      rewrite Ei, andb_false_r. reflexivity. }
    exists s'. split; [exact E|exact El].
  - destruct ex_released as [c Hc].
    destruct (proj2 (boot_start_decides 1 1 ex_installed toy_healthy Hd ltac:(cbn; lia)) ltac:(vm_compute; reflexivity) c Hc)
      as (s' & E & _ & _ & _ & _ & _ & El). exists s'. split; [exact E|]. rewrite El. vm_compute. reflexivity.
Defined.

(** The whole of [main] up to the loop, on the same board. *)
Example boot_main_starts : match boot_main 1 (with_boot_con (Console (Bank (<[BootDrivers.PDSR BootHardware.GPIOA := 2 ^ 11]>
    (bank_regs (c_hw ex_console))) []) ∅ (Ringbuffer 0 0 0 0)) ex_installed) with Ret (true, _) => True | _ => False end.
Proof. vm_compute. exact I. Qed.

Lemma write_page_wraps_witness :
  write_kernel_page 1 [7] 1 224 ex_boot = Panic "Flash write failed".
Proof.
  refine (proj1 (write_page_wraps 1 [7] [] 224 ex_boot _ _ _ _ _)).
  - done.
  - cbn. lia.
  - apply payload_ok_one. unfold byte. lia.
  - lia.
  - intros E. apply (f_equal (λ l, l !! 0%nat)) in E. vm_compute in E. discriminate.
Defined.

(** A flash whose image is erased. *)
Definition ex_erased : boot (F := ram_flash) (E := icm_desc) :=
  with_flash (RamFlash (write_bytes ∅ (page_addr 32) erased_page) ∅ 0) ex_boot.

Lemma write_kernel_page_checked_witness :
  ∃ s', write_kernel_page 1 [7] 1 0 ex_erased = Ret (1, s') ∧ flash_page (flash s') 32 = padded [7].
Proof.
  assert (match write_kernel_page 1 [7] 1 0 ex_erased with Ret (r, _) => r =? 1 | _ => false end = true) as Hr
    by (vm_compute; reflexivity).
  destruct (write_kernel_page 1 [7] 1 0 ex_erased) as [[r s']| | |] eqn:E; try discriminate Hr.
  destruct (write_kernel_page_checked 1 [7] [] 0 ex_erased s' r ltac:(cbn; lia) ltac:(lia) E) as (-> & Hp & _).
  exists s'. split; [reflexivity|exact Hp].
Defined.

