(* ===== verification/KernelFlash.v ===== *)
(** * Flash and hash engine of the kernel (kernel/src/drivers/flash.c, hash.c)

    The kernel's own versions of the two drivers of the bootloader, over the same hardware
    (the classes [FlashCtrl] of Flash.v and [HashEngine] of Bootloader.v). *)

From S2P Require Import Prelude Memory Flash Bootloader.

Section KernelFlash.
Context {F : Type} `{FlashCtrl F}.

Definition k_flash_set_access_cycles (access_cycles : Z) : M F unit :=
  let* reg := gets fl_fmr in
  let reg := Z.land reg (Z.lnot (Z.shiftl 0xF 8)) in
  let reg := Z.lor reg (Z.shiftl (Z.land (access_cycles - 1) 0xF) 8) in
  modify (fl_set_fmr (u32 reg)).

Definition k_flash_erase_write (fuel : nat) (page : Z) (buffer : list Z) : M F Z :=
  if 32 <=? page then ret 0 else
  wait_ready fuel ;;
  latch_page (0x00400000 + 512 * page) buffer ;;
  modify (fl_fcr (Z.lor (Z.lor (Z.shiftl 0x5A 24) (Z.shiftl (Z.land page 0xFFFF) 8)) 0x3)) ;;
  let* status := wait_status fuel 15 in
  if negb (Z.land status 14 =? 0) then ret 0 else ret 1.

Fixpoint k_erase_loop (fuel : nat) (n : nat) (sect_8k_base : Z) : M F Z :=
  match n with
  | O => ret 1
  | S n =>
      wait_ready fuel ;;
      let arg := Z.lor (u16 (Z.land sect_8k_base (Z.lnot 15))) 2 in
      modify (fl_fcr (Z.lor (Z.lor 0x5A000000 (Z.shiftl arg 8)) 0x07)) ;;
      let* status := wait_status fuel 1 in
      if negb (Z.land status 14 =? 0) then ret 0 else k_erase_loop fuel n (u32 (sect_8k_base + 16))
  end.
Definition k_flash_erase_image (fuel : nat) (size : Z) : M F Z :=
  let pages := size / 512 in
  let pages := if negb (size mod 512 =? 0) then u32 (pages + 1) else pages in
  let sect_8k := pages / 16 in
  let sect_8k := if negb (pages mod 16 =? 0) then u32 (sect_8k + 1) else sect_8k in
  k_erase_loop fuel (Z.to_nat sect_8k) 32.

Definition k_flash_write_image_page (fuel : nat) (page : Z) (buffer : list Z) : M F Z :=
  wait_ready fuel ;;
  latch_page (u32 (0x00404000 + page * 512)) buffer ;;
  modify (fl_fcr (Z.lor (Z.lor 0x5A000000 (Z.shiftl (Z.land (page + 32) 0xFF) 8)) 0x01)) ;;
  let* status := wait_status fuel 1 in
  if negb (Z.land status 14 =? 0) then ret 0 else ret 1.

(** ** The two versions *)

(** Reading a page back. *)
Definition verified (addr : Z) (buffer : list Z) (ok : Z) : M F Z :=
  if ok =? 0 then ret 0 else
  let* m := gets fl_mem in ret (if flash_same m addr 512 buffer then 1 else 0).

Lemma erase_loops fuel n base (f : F) :
  k_erase_loop fuel n base f = (let* ok := erase_loop fuel n base in ret (if ok then 1 else 0)) f.
Proof.
  revert base f; induction n as [|n IH]; intros base f; [done|].
  change (erase_loop fuel (S n) base) with (wait_ready fuel ;;
      modify (fl_fcr (Z.lor (Z.lor 0x5A000000 (Z.shiftl (Z.lor (u16 (Z.land base (Z.lnot 15))) 2) 8)) 7)) ;;
      let* status := wait_status fuel 1 in
      if negb (Z.land status 14 =? 0) then ret false else erase_loop fuel n (u32 (base + 16))).
  cbn [k_erase_loop]. rewrite bind_bind. apply bind_ext. intros [] f1. rewrite bind_bind. apply bind_ext. intros [] f2.
  rewrite bind_bind. apply bind_ext. intros st f3. destruct (negb (Z.land st 14 =? 0)); [done|apply IH].
Qed.

(** The flash drivers of the two programs: on every controller, and whether it reports errors, hangs or is
    misused, programming a page with the bootloader's driver is what the kernel's driver does,
    followed by reading the page back and comparing it with the data when the controller reported
    no error; erasing the image differs only in the result: the number of bytes that were erased instead of 1.  The
    kernel's driver never looks at the page again. *)
Theorem flash_drivers_agree fuel page buffer size (f : F) :
  flash_erase_write fuel page buffer f =
    (let* ok := k_flash_erase_write fuel page buffer in verified (0x00400000 + 512 * page) buffer ok) f ∧
  flash_write_image_page fuel page buffer f =
    (let* ok := k_flash_write_image_page fuel page buffer in verified (u32 (0x00404000 + page * 512)) buffer ok) f ∧
  ∃ bytes, flash_erase_image fuel size f =
    (let* ok := k_flash_erase_image fuel size in ret (if ok =? 0 then 0 else bytes)) f ∧
    bytes mod 8192 = 0 ∧ (0 ≤ size ≤ 0x1FC000 → size ≤ bytes < size + 8192).
Proof.
  split_and!.
  - unfold flash_erase_write, k_flash_erase_write. destruct (32 <=? page); [done|].
    do 3 (rewrite bind_bind; apply bind_ext; intros ??). rewrite bind_bind. apply bind_ext. intros st f3.
    by destruct (negb (Z.land st 14 =? 0)).
  - unfold flash_write_image_page, k_flash_write_image_page.
    do 3 (rewrite bind_bind; apply bind_ext; intros ??). rewrite bind_bind. apply bind_ext. intros st f3.
    by destruct (negb (Z.land st 14 =? 0)).
  - unfold flash_erase_image, k_flash_erase_image. cbv zeta. eexists. split_and!.
    + unfold bind. rewrite erase_loops. unfold bind.
      destruct (erase_loop fuel _ 32 f) as [[[] f1]| | |]; reflexivity.
    + unfold u32. lia.
    + intros Hs. unfold u32. repeat case_match; lia.
Qed.
End KernelFlash.

(** ** The hash engine *)

Section KernelHash.
Context {E : Type} `{HashEngine E}.

(** The engine and the memory it reads and writes. *)
Definition k_icm (w : icm_write) : M (E * mem) unit := modify (λ s, (icm_set w s.1, s.2)).
Fixpoint k_icm_wait (fuel : nat) : M (E * mem) Z :=
  match fuel with
  | O => hang
  | S f => let* status := (λ s, let '(v, e) := icm_isr s.1 in Ret (v, (e, s.2))) in
           if negb (Z.land status 1 =? 0) then ret status else k_icm_wait f
  end.
Definition k_hash256_generate (fuel : nat) (data size hash : Z) : M (E * mem) unit :=
  k_icm (IcmCtrl (Z.shiftl 1 2)) ;;
  k_icm (IcmCfg (Z.lor (Z.shiftl 1 2) (Z.shiftl 1 13))) ;;
  k_icm (IcmDscr (IcmDesc data (Z.lor (Z.shiftl 1 12) (Z.shiftl 1 2)) (u32 (size / 32 - 1)) 0)) ;;
  k_icm IcmHash ;;
  k_icm (IcmCtrl 1) ;;
  let* status := k_icm_wait fuel in
  if negb (Z.land status (Z.lor (Z.shiftl 1 24) (Z.shiftl 0xF 8)) =? 0) then panic "Hash error" else
  modify (λ s, (s.1, write_bytes s.2 hash (icm_result s.2 s.1))) ;;
  k_icm (IcmCtrl (Z.lor (Z.shiftl 1 2) (Z.shiftl 1 1))).
End KernelHash.
