(* ===== verification/Fault.v ===== *)
(** * Faults and panic (kernel/fault.c, generic/panic.c)

    The handlers print to the console and end in [panic_handler], which leaves the signature
    for the bootloader in the memory and resets the chip.  The programs are run on the
    machine of the console; literals are in the memory at the addresses [lit] gives. *)

From Stdlib Require Ascii.
From S2P Require Import Prelude Memory Hardware Cache Nvic Usart Ringbuffer Sprint Console.
From S2P Require Import Flash Bootloader BootTheorems.

Definition SCB_HFSR : Z := SCB + offset_of scb_reg "HFSR".
Definition SCB_CFSR : Z := 0xE000ED28.
Definition SCB_BFAR : Z := SCB + offset_of scb_reg "BFAR".
Definition RESET_CR : Z := 0x400E1800.

Definition ANSI_RED : string := "\033[31m".
Definition ANSI_NORMAL : string := "\033[0m".
Definition BLUE : string := "\033[34m".

Section Fault.
Context {D : Type} `{Mmio D}.
#[local] Notation con := (console D).
Variable fuel : nat.
Variable debug_buffer boot_signature : Z.
Variable lit : string → Z.
(** The processor's registers at the moment they are read, and the address of the file name the
    compiler gives to [panic]. *)
Variable cpu_get : string → Z.
Variable file : Z.

(** ** Panic *)

(** [panic_handler] up to the write that resets the chip. *)
Definition panic_reset (file_name line_number reason : Z) : M con unit :=
  on_hw cpsid_f ;;
  on_hw dcache_disable ;;
  on_hw icache_disable ;;
  print fuel debug_buffer (lit "Panic! %s \n") [reason] ;;
  print fuel debug_buffer (lit "File: %s \n") [file_name] ;;
  print fuel debug_buffer (lit "Line: %d \n") [line_number] ;;
  print_flush fuel ;;
  on_mem (memory_copy (lit "StayInBootloader") boot_signature 16) ;;
  on_hw dmb ;;
  on_hw (wr32 RESET_CR (Z.lor 0xA5000000 1)).
(** It ends in [while (1);]. *)
Definition panic_handler (file_name line_number reason : Z) : M con unit :=
  panic_reset file_name line_number reason ;; hang.

(** ** Fault reports *)

(** [if (status & (1 << b)) printl(text);] *)
Definition line_if (status b : Z) (text : string) : M con unit :=
  if negb (Z.land status (Z.shiftl 1 b) =? 0) then printl fuel debug_buffer (lit text) [] else ret tt.
Definition header_if (status mask : Z) (text : string) : M con unit :=
  if negb (Z.land status mask =? 0) then printl fuel debug_buffer (lit text) [] else ret tt.

Definition exception_fault : M con unit :=
  panic_handler file 9 (lit "Exception not handled - default handler triggered").

Definition print_bus_fault : M con unit :=
  let* r := on_hw (rd32 SCB_CFSR) in
  let bus_status := Z.land (Z.shiftr r 8) 0xFF in
  header_if bus_status 0xFF "Bus fault has occured: " ;;
  (if negb (Z.land bus_status (Z.shiftl 1 7) =? 0)
   then let* bfar := on_hw (rd32 SCB_BFAR) in printl fuel debug_buffer (lit "Bus fault at address 0x%4h") [bfar]
   else ret tt) ;;
  line_if bus_status 5 "Bus fault during FPU lazy state preservation" ;;
  line_if bus_status 4 "Exception stacking caused a bus fault" ;;
  line_if bus_status 3 "Exception unstacking caused a bus fault" ;;
  line_if bus_status 2 "Imprecise bus fault" ;;
  line_if bus_status 1 "Precise error - PC contains the reason" ;;
  line_if bus_status 0 "Instruction bus error".

(** [(r >> 16) && 0xFFFF] is a truth value. *)
Definition print_usage_fault : M con unit :=
  let* r := on_hw (rd32 SCB_CFSR) in
  let usage_status := if negb (Z.shiftr r 16 =? 0) && negb (0xFFFF =? 0) then 1 else 0 in
  header_if usage_status 0xFFFF "Usage fault has occured: " ;;
  line_if usage_status 9 "Devision by zero" ;;
  line_if usage_status 8 "Unaligned memory access" ;;
  line_if usage_status 3 "Coprocessor error - instruction not supported" ;;
  line_if usage_status 2 "Illegal use of EXE_RETURN" ;;
  line_if usage_status 1 "Illegal use of ePSR" ;;
  line_if usage_status 0 "Undefined instruction".

Definition print_memory_fault : M con unit :=
  let* r := on_hw (rd32 SCB_CFSR) in
  let mem_status := Z.land r 0xFF in
  header_if mem_status 0xFF "Memory fault has occured:" ;;
  line_if mem_status 7 "MMAR hold the fault address" ;;
  line_if mem_status 5 "Memory error during FPU lazy state preservation" ;;
  line_if mem_status 4 "Exception stacking caused a memory fault" ;;
  line_if mem_status 3 "Exception unstacking caused a memory fault" ;;
  line_if mem_status 1 "Forbidden load or store address" ;;
  line_if mem_status 0 "Instruction fetch from forbidden address".

Definition print_hard_fault : M con unit :=
  let* hard_fault_status := on_hw (rd32 SCB_HFSR) in
  line_if hard_fault_status 30 "Forced hard fault escalated from a none servicable fault handler" ;;
  line_if hard_fault_status 1 "Bus fault during vector table read".

Definition mem_fault : M con unit :=
  on_hw cpsid_f ;; printl fuel debug_buffer (lit "Memory\n") [] ;; panic_handler file 114 (lit "Memory fault").
Definition bus_fault : M con unit :=
  on_hw cpsid_f ;; printl fuel debug_buffer (lit "Bus\n") [] ;; panic_handler file 120 (lit "Bus fault").
Definition usage_fault : M con unit :=
  on_hw cpsid_f ;; printl fuel debug_buffer (lit "Usage\n") [] ;; panic_handler file 126 (lit "Usage fault").

Definition hard_fault (stack_pointer : Z) : M con unit :=
  on_hw cpsid_f ;;
  print fuel debug_buffer (lit (ANSI_RED +:+ "Hard fault occured:\n")) [] ;;
  print_hard_fault ;;
  print fuel debug_buffer (lit ("\n" +:+ ANSI_NORMAL)) [] ;;
  print_bus_fault ;;
  print_memory_fault ;;
  print_usage_fault ;;
  printl fuel debug_buffer (lit "\nStack pointer: 0x%4h") [stack_pointer] ;;
  let* pc := on_mem (gets (λ m, ld32 m (stack_pointer + 24))) in
  printl fuel debug_buffer (lit "PC: 0x%4h\n") [pc] ;;
  printl fuel debug_buffer (lit (BLUE +:+ "R0:  0x%4h")) [cpu_get "r0"] ;;
  printl fuel debug_buffer (lit "R1:  0x%4h") [cpu_get "r1"] ;;
  printl fuel debug_buffer (lit "R2:  0x%4h") [cpu_get "r2"] ;;
  printl fuel debug_buffer (lit "R3:  0x%4h") [cpu_get "r3"] ;;
  printl fuel debug_buffer (lit "R4:  0x%4h") [cpu_get "r4"] ;;
  printl fuel debug_buffer (lit "R5:  0x%4h") [cpu_get "r5"] ;;
  printl fuel debug_buffer (lit "R6:  0x%4h") [cpu_get "r6"] ;;
  printl fuel debug_buffer (lit "R7:  0x%4h") [cpu_get "r7"] ;;
  printl fuel debug_buffer (lit "R8:  0x%4h") [cpu_get "r8"] ;;
  printl fuel debug_buffer (lit "R9:  0x%4h") [cpu_get "r9"] ;;
  printl fuel debug_buffer (lit "R10: 0x%4h") [cpu_get "r10"] ;;
  printl fuel debug_buffer (lit "R11: 0x%4h") [cpu_get "r11"] ;;
  printl fuel debug_buffer (lit "R12: 0x%4h") [cpu_get "r12"] ;;
  printl fuel debug_buffer (lit "R13: 0x%4h") [cpu_get "r13"] ;;
  printl fuel debug_buffer (lit "LR:  0x%4h") [cpu_get "lr"] ;;
  printl fuel debug_buffer (lit ("PC:  0x%4h\n" +:+ ANSI_NORMAL)) [cpu_get "pc"] ;;
  panic_handler file 168 (lit "Hard fault").
End Fault.

(** ** Literals *)

(** The bytes of a literal as the source spells it; [\n] and [\033] are the only escapes in it. *)
Fixpoint unescape (l : list Z) : list Z :=
  match l with
  | [] => []
  | c :: l1 =>
      if c =? 92 then
        match l1 with
        | [] => []
        | d :: l2 =>
            if d =? 110 then 10 :: unescape l2
            else match l2 with _ :: _ :: l3 => 27 :: unescape l3 | _ => [] end
        end
      else c :: unescape l1
  end.
Definition chars (s : string) : list Z := unescape ((λ c, Z.of_N (Ascii.N_of_ascii c)) <$> String.list_ascii_of_string s).

Example chars_escapes : chars "\nab\033[0m" = [10; 97; 98; 27; 91; 48; 109].
Proof. vm_compute. reflexivity. Qed.

(** The literals of the reports without directives. *)
Definition hard_lines : list (Z * string) :=
  [(30, "Forced hard fault escalated from a none servicable fault handler"); (1, "Bus fault during vector table read")].
Definition bus_lines : list (Z * string) :=
  [(5, "Bus fault during FPU lazy state preservation"); (4, "Exception stacking caused a bus fault");
   (3, "Exception unstacking caused a bus fault"); (2, "Imprecise bus fault");
   (1, "Precise error - PC contains the reason"); (0, "Instruction bus error")].
Definition memory_lines : list (Z * string) :=
  [(7, "MMAR hold the fault address"); (5, "Memory error during FPU lazy state preservation");
   (4, "Exception stacking caused a memory fault"); (3, "Exception unstacking caused a memory fault");
   (1, "Forbidden load or store address"); (0, "Instruction fetch from forbidden address")].
Definition usage_lines : list (Z * string) :=
  [(9, "Devision by zero"); (8, "Unaligned memory access"); (3, "Coprocessor error - instruction not supported");
   (2, "Illegal use of EXE_RETURN"); (1, "Illegal use of ePSR"); (0, "Undefined instruction")].
Definition headers : list string :=
  ["Bus fault has occured: "; "Memory fault has occured:"; "Usage fault has occured: "].
Definition plain_literals : list string :=
  headers ++ (hard_lines ++ bus_lines ++ memory_lines ++ usage_lines).*2.
Definition other_literals : list string :=
  ["Bus fault at address 0x%4h"; "Panic! %s \n"; "File: %s \n"; "Line: %d \n"; "StayInBootloader"].

Definition plain_check (l : list Z) : bool := forallb (λ c, (0 <? c) && (c <? 256) && negb (c =? 37)) l.
Lemma plain_check_ok l : plain_check l = true → plain l.
Proof.
  intros E. unfold plain_check in E. rewrite forallb_forall in E. apply Forall_forall. intros c Hc.
  apply list_elem_of_In in Hc. specialize (E c Hc). unfold byte. lia.
Qed.

Lemma plain_literals_ok : Forall (λ t, plain (chars t) ∧ (length (chars t) ≤ 64)%nat) plain_literals.
Proof.
  assert (forallb (λ t, plain_check (chars t) && (length (chars t) <=? 64)%nat) plain_literals = true) as E by (vm_compute; reflexivity).
  rewrite forallb_forall in E. apply Forall_forall. intros t Ht. apply list_elem_of_In in Ht.
  specialize (E t Ht). apply andb_true_iff in E as [E1 E2]. split; [by apply plain_check_ok|by apply Nat.leb_le].
Qed.

(** One line for every bit that is set, in the order of the table. *)
Definition bit_lines (status : Z) (table : list (Z * string)) : list Z :=
  table ≫= λ r, if Z.testbit status r.1 then chars r.2 ++ [10] else [].

(** ** A processor in a fault *)

(** [regs] are the values of the fault status registers.  The registers of the processor
    are separate from the serial port. *)
Definition core_reg (a : Z) : Prop := 0xE000E000 ≤ a < 0xE000F000.
Class FaultLaws (D : Type) `{UartLaws D USART1} (regs : Z → Z) := {
  fl_range a : 0 ≤ regs a < 2 ^ 32;
  fl_status a d : a ∈ [SCB_HFSR; SCB_CFSR; SCB_BFAR] → uart_ok d → (io_read a d).1 = regs a;
  fl_read a d : core_reg a → uart_ok d → uart_ok (io_read a d).2 ∧ uart_sent (io_read a d).2 = uart_sent d;
  fl_write a v d : core_reg a → uart_ok d → uart_ok (io_write a v d) ∧ uart_sent (io_write a v d) = uart_sent d;
  fl_instr i d : uart_ok d → uart_ok (io_barrier i d) ∧ uart_sent (io_barrier i d) = uart_sent d;
  fl_flush d : uart_ok d → polls uart_delay (US_CSR USART1) 512 (λ _, True) d (λ _ d', uart_ok d' ∧ uart_sent d' = uart_sent d)
}.

Section Reports.
Context {D : Type} `{HF : FaultLaws D regs}.
Variable fuel : nat.
Variable debug_buffer : Z.
Variable lit : string → Z.
Variable texts : list (Z * list Z).
Hypothesis Hfuel : (uart_delay ≤ fuel)%nat.
Hypothesis Hfuel' : (200 ≤ fuel)%nat.
Hypothesis Hlit : ∀ t, t ∈ plain_literals ++ other_literals → (lit t, chars t) ∈ texts.
#[local] Notation says := (says debug_buffer texts).

(** Operations of the processor leave the port alone. *)
Definition keeps {A} (c : M D A) : Prop :=
  ∀ d, uart_ok d → ∃ x d', c d = Ret (x, d') ∧ uart_ok d' ∧ uart_sent d' = uart_sent d.

Lemma keeps_ret {A} (x : A) : keeps (ret x).
Proof. intros d Hd. by exists x, d. Qed.
Lemma keeps_bind {A B} (c : M D A) (f : A → M D B) : keeps c → (∀ x, keeps (f x)) → keeps (bind c f).
Proof.
  intros Hc Hf d Hd. destruct (Hc d Hd) as (x & d1 & E1 & U1 & S1). destruct (Hf x d1 U1) as (y & d2 & E2 & U2 & S2).
  exists y, d2. rewrite (bind_Ret _ _ _ _ _ E1). split_and!; [done|done|congruence].
Qed.
Lemma keeps_rd a : core_reg a → keeps (rd32 a).
Proof. intros Ha d Hd. destruct (fl_read a d Ha Hd). exists (io_read a d).1, (io_read a d).2. unfold rd32. by destruct (io_read a d). Qed.
Lemma keeps_wr a v : core_reg a → keeps (wr32 a v).
Proof. intros Ha d Hd. exists tt, (io_write a (u32 v) d). split; [done|]. by apply fl_write. Qed.
Lemma keeps_instr i : keeps (modify (io_barrier i)).
Proof. intros d Hd. exists tt, (io_barrier i d). split; [done|]. by apply fl_instr. Qed.
Lemma keeps_mask a v : core_reg a → keeps (mask32 a v).
Proof. intros Ha. apply keeps_bind; [by apply keeps_rd|intros; by apply keeps_wr]. Qed.

Lemma keeps_ways op sets n : core_reg op → keeps (way_loop op sets n).
Proof.
  intros Ha. induction n as [|n IH]; cbn [way_loop]; (apply keeps_bind; [by apply keeps_wr|intros _]);
    (apply keeps_bind; [apply keeps_instr|intros _]); [apply keeps_ret|apply IH].
Qed.
Lemma keeps_sets op ways n : core_reg op → keeps (set_loop op ways n).
Proof.
  intros Ha. induction n as [|n IH]; cbn [set_loop]; (apply keeps_bind; [by apply keeps_ways|intros _]); [apply keeps_ret|apply IH].
Qed.
Ltac keeps_tac :=
  repeat first [apply keeps_bind; [|intros _]; try apply keeps_instr | apply keeps_wr; by compute | apply keeps_mask; by compute
    | apply keeps_instr | apply keeps_bind; [apply keeps_rd; by compute|intros ?]; try (apply keeps_sets; by compute)].
Lemma keeps_dcache_disable : keeps dcache_disable.
Proof. unfold dcache_disable, sets_ways. keeps_tac. apply keeps_sets. by compute. Qed.
Lemma keeps_icache_disable : keeps icache_disable.
Proof. unfold icache_disable. keeps_tac. Qed.

Lemma says_hw (c : M D unit) : keeps c → says (on_hw c) [].
Proof.
  intros Hc s Hs. destruct (Hc _ (co_uart _ _ _ Hs)) as ([] & d' & E & U & S). exists (Console d' (c_mem s) (c_rb s)).
  split_and!; [unfold on_hw, zoom; by rewrite E| |by rewrite app_nil_r|done|apply same_outside_refl].
  destruct Hs. by constructor.
Qed.

Lemma says_status a (k : Z → M (console D) unit) l :
  a ∈ [SCB_HFSR; SCB_CFSR; SCB_BFAR] → says (k (regs a)) l → says (let* r := on_hw (rd32 a) in k r) l.
Proof.
  intros Ha Hk s Hs. assert (core_reg a) as Hc by (repeat (apply elem_of_cons in Ha as [->|Ha]; [by compute|]); by apply elem_of_nil in Ha).
  pose proof (co_uart _ _ _ Hs) as Hu. destruct (fl_read a _ Hc Hu) as [U S]. pose proof (fl_status a _ Ha Hu) as V.
  destruct (Hk (Console (io_read a (c_hw s)).2 (c_mem s) (c_rb s))) as (s' & E & K & S' & R & O).
  { destruct Hs. by constructor. }
  exists s'. split_and!; [|done|by rewrite S'; cbn [c_hw]; rewrite S|done|done].
  erewrite bind_Ret; [exact E|]. unfold on_hw, zoom, rd32. rewrite <- V. by destruct (io_read a (c_hw s)).
Qed.

Lemma says_line t : t ∈ plain_literals → says (printl fuel debug_buffer (lit t) []) (chars t ++ [10]).
Proof using Hfuel Hfuel' Hlit.
  intros Ht. pose proof plain_literals_ok as Hp. rewrite Forall_forall in Hp. destruct (Hp t Ht).
  apply says_plain; try done. apply Hlit, elem_of_app. by left.
Qed.

Lemma says_line_if status b t rest l :
  0 ≤ b → t ∈ plain_literals → says rest l →
  says (line_if fuel debug_buffer lit status b t ;; rest) ((if Z.testbit status b then chars t ++ [10] else []) ++ l).
Proof using Hfuel Hfuel' Hlit.
  intros Hb Ht Hr. apply says_bind; [|done]. unfold line_if. rewrite land_bit by done. by apply says_if, says_line.
Qed.
Lemma says_last_if status b t :
  0 ≤ b → t ∈ plain_literals →
  says (line_if fuel debug_buffer lit status b t) ((if Z.testbit status b then chars t ++ [10] else []) ++ []).
Proof using Hfuel Hfuel' Hlit.
  intros Hb Ht. rewrite app_nil_r. unfold line_if. rewrite land_bit by done. by apply says_if, says_line.
Qed.
Lemma says_header_if status mask t rest l :
  t ∈ headers → says rest l →
  says (header_if fuel debug_buffer lit status mask t ;; rest) ((if negb (Z.land status mask =? 0) then chars t ++ [10] else []) ++ l).
Proof using Hfuel Hfuel' Hlit.
  intros Ht Hr. apply says_bind; [|done]. apply says_if, says_line. apply elem_of_app. by left.
Qed.

Ltac says_tac :=
  repeat first [apply says_line_if; [lia|by apply (bool_decide_unpack _); vm_compute| ]
    | apply says_last_if; [lia|by apply (bool_decide_unpack _); vm_compute]
    | apply says_header_if; [by apply (bool_decide_unpack _); vm_compute|]].

Lemma says_bus_address bfar : 0 ≤ bfar < 2 ^ 32 →
  says (printl fuel debug_buffer (lit "Bus fault at address 0x%4h") [bfar]) (chars "Bus fault at address 0x" ++ hex_chars 4 bfar ++ [10]).
Proof using Hfuel Hfuel' Hlit.
  intros Hb. destruct (says_one fuel Hfuel debug_buffer texts Hfuel' (chars "Bus fault at address 0x") (Hex 4 bfar) []
    (lit "Bus fault at address 0x%4h")) as [_ Hs]; try done.
  - assert (chars "Bus fault at address 0x" ++ item_chars (Hex 4 bfar) ++ [] = chars "Bus fault at address 0x%4h") as ->
      by (vm_compute; reflexivity). apply Hlit, elem_of_app. right. left.
  - by apply plain_check_ok.
  - constructor.
  - vm_compute. lia.
  - cbn [render hex_chars]. vm_compute. lia.
Qed.

(** C38. The reports of [hard_fault]: for every value of the fault status registers, the text
    each of the four functions sends.  The bus fault, the memory fault and the hard fault are reported
    with one line for every status bit that is set, in the order of the source, after a header when any bit is
    set; the bus fault address is printed when it is valid.  The report of a usage fault
    is always the line of bit 0, "Undefined instruction", whatever the bits say. *)
Theorem fault_report :
  let bus := Z.land (Z.shiftr (regs SCB_CFSR) 8) 0xFF in
  let memory := Z.land (regs SCB_CFSR) 0xFF in
  let usage := Z.shiftr (regs SCB_CFSR) 16 in
  says (print_hard_fault fuel debug_buffer lit) (bit_lines (regs SCB_HFSR) hard_lines) ∧
  says (print_bus_fault fuel debug_buffer lit)
    ((if bus =? 0 then [] else chars "Bus fault has occured: " ++ [10]) ++
     (if Z.testbit bus 7 then chars "Bus fault at address 0x" ++ hex_chars 4 (regs SCB_BFAR) ++ [10] else []) ++ bit_lines bus bus_lines) ∧
  says (print_memory_fault fuel debug_buffer lit)
    ((if memory =? 0 then [] else chars "Memory fault has occured:" ++ [10]) ++ bit_lines memory memory_lines) ∧
  says (print_usage_fault fuel debug_buffer lit)
    (if usage =? 0 then [] else chars "Usage fault has occured: " ++ [10] ++ chars "Undefined instruction" ++ [10]).
Proof using HF Hfuel Hfuel' Hlit.
  assert (∀ x, Z.land (Z.land x 0xFF) 0xFF = Z.land x 0xFF) as Hm by (intros x; by rewrite <- Z.land_assoc).
  assert (∀ (b : bool) (l : list Z), (if negb b then l else []) = if b then [] else l) as Hn by (by intros []).
  intros bus memory usage. split_and!.
  - apply says_status; [by left|]. unfold bit_lines, hard_lines. cbn [mbind list_bind fst snd]. says_tac.
  - apply says_status; [by right; left|]. fold bus. unfold bit_lines, bus_lines. cbn [mbind list_bind fst snd].
    rewrite <- Hn. replace (bus =? 0) with (Z.land bus 0xFF =? 0) by (unfold bus; by rewrite Hm). apply says_header_if; [by apply (bool_decide_unpack _); vm_compute|].
    apply says_bind; [|says_tac]. rewrite land_bit by lia. apply says_if, says_status; [by right; right; left|].
    apply says_bus_address, fl_range.
  - apply says_status; [by right; left|]. fold memory. unfold bit_lines, memory_lines. cbn [mbind list_bind fst snd].
    rewrite <- Hn. replace (memory =? 0) with (Z.land memory 0xFF =? 0) by (unfold memory; by rewrite Hm). says_tac.
  - apply says_status; [by right; left|]. fold usage.
    assert (∀ u, u = 0 ∨ u = 1 → says (header_if fuel debug_buffer lit u 0xFFFF "Usage fault has occured: " ;;
      line_if fuel debug_buffer lit u 9 "Devision by zero" ;; line_if fuel debug_buffer lit u 8 "Unaligned memory access" ;;
      line_if fuel debug_buffer lit u 3 "Coprocessor error - instruction not supported" ;;
      line_if fuel debug_buffer lit u 2 "Illegal use of EXE_RETURN" ;; line_if fuel debug_buffer lit u 1 "Illegal use of ePSR" ;;
      line_if fuel debug_buffer lit u 0 "Undefined instruction")
      (if u =? 0 then [] else chars "Usage fault has occured: " ++ [10] ++ chars "Undefined instruction" ++ [10])) as HU.
    { intros u Hu. assert ((if u =? 0 then [] else chars "Usage fault has occured: " ++ [10] ++ chars "Undefined instruction" ++ [10]) =
        (if negb (Z.land u 0xFFFF =? 0) then chars "Usage fault has occured: " ++ [10] else []) ++ bit_lines u usage_lines) as ->
        by (destruct Hu as [-> | ->]; vm_compute; reflexivity).
      unfold bit_lines, usage_lines. cbn [mbind list_bind fst snd]. says_tac. }
    destruct (usage =? 0); cbn [negb andb]; [apply (HU 0); by left|apply (HU 1); by right].
Qed.

(** ** Panic *)

(** The text of a panic. *)
Definition panic_text (r f : list Z) (line : Z) : list Z :=
  (chars "Panic! " ++ r ++ chars " \n") ++ (chars "File: " ++ f ++ chars " \n") ++
  (chars "Line: " ++ render true (Int 100 line) ++ chars " \n").

Lemma says_string t l a r :
  t ∈ other_literals → (a, r) ∈ texts → plain l → (length l ≤ 8)%nat → (length r ≤ 54)%nat →
  chars t = l ++ item_chars (Str 0 a r) ++ chars " \n" →
  says (print fuel debug_buffer (lit t) [a]) (l ++ r ++ chars " \n").
Proof using Hfuel Hfuel' Hlit.
  intros Ht Ha Hp Hl Hr Et. assert (length (chars " \n") = 2%nat) as E2 by (vm_compute; reflexivity).
  destruct (says_one fuel Hfuel debug_buffer texts Hfuel' l (Str 0 a r) (chars " \n") (lit t)) as [Hs _]; try done.
  - rewrite <- Et. apply Hlit, elem_of_app. by right.
  - by apply plain_check_ok.
  - cbn. split; [lia|]. split; [done|lia].
  - rewrite E2. lia.
  - cbn [render Z.eqb]. rewrite E2. lia.
Qed.

Lemma int_length v : (length (render true (Int 100 v)) ≤ 11)%nat.
Proof.
  cbn [render]. rewrite length_app. pose proof (decimal_digits_length 10 (Z.abs (signed v))). unfold decimal.
  destruct (signed v <? 0); cbn [length]; lia.
Qed.

Lemma says_flush : says (print_flush fuel) [].
Proof using HF Hfuel.
  apply says_hw. intros d Hd. destruct (wait_bits_spec _ fuel (US_CSR USART1) 512 _ d _ (fl_flush d Hd) Hfuel) as (v & d' & E & U & S).
  by exists tt, d'.
Qed.

(** Everything before the signature is written. *)
Lemma panic_prints {A} file line reason f r (rest : M (console D) A) (s : console D) :
  (reason, r) ∈ texts → (file, f) ∈ texts → (length r ≤ 54)%nat → (length f ≤ 54)%nat → 0 ≤ line < 2 ^ 31 →
  con_ok debug_buffer texts s →
  ∃ s', con_ok debug_buffer texts s' ∧ uart_sent (c_hw s') = uart_sent (c_hw s) ++ panic_text r f line ∧
    (on_hw cpsid_f ;; on_hw dcache_disable ;; on_hw icache_disable ;;
     print fuel debug_buffer (lit "Panic! %s \n") [reason] ;; print fuel debug_buffer (lit "File: %s \n") [file] ;;
     print fuel debug_buffer (lit "Line: %d \n") [line] ;; print_flush fuel ;; rest) s = rest s'.
Proof using HF Hfuel Hfuel' Hlit.
  intros Hr Hf Hlr Hlf Hline Hs.
  assert (says (print fuel debug_buffer (lit "Line: %d \n") [line]) (chars "Line: " ++ render true (Int 100 line) ++ chars " \n")) as HL.
  { apply (says_one fuel Hfuel debug_buffer texts Hfuel' (chars "Line: ") (Int 100 line) (chars " \n")).
    - assert (chars "Line: " ++ item_chars (Int 100 line) ++ chars " \n" = chars "Line: %d \n") as -> by (vm_compute; reflexivity).
      apply Hlit, elem_of_app. right. do 3 right. left.
    - by apply plain_check_ok.
    - by apply plain_check_ok.
    - cbn. lia.
    - vm_compute. lia.
    - pose proof (int_length line). assert (length (chars "Line: ") = 6%nat) as -> by (vm_compute; reflexivity).
      assert (length (chars " \n") = 2%nat) as -> by (vm_compute; reflexivity). lia. }
  assert (says (print fuel debug_buffer (lit "Panic! %s \n") [reason]) (chars "Panic! " ++ r ++ chars " \n")) as HP.
  { apply says_string; [right; left|done|by apply plain_check_ok|vm_compute; lia|done|vm_compute; reflexivity]. }
  assert (says (print fuel debug_buffer (lit "File: %s \n") [file]) (chars "File: " ++ f ++ chars " \n")) as HF'.
  { apply says_string; [right; right; left|done|by apply plain_check_ok|vm_compute; lia|done|vm_compute; reflexivity]. }
  destruct (says_hw _ (keeps_instr CPSID_F) s Hs) as (s1 & E1 & K1 & S1 & _ & _).
  destruct (says_hw _ keeps_dcache_disable s1 K1) as (s2 & E2 & K2 & S2 & _ & _).
  destruct (says_hw _ keeps_icache_disable s2 K2) as (s3 & E3 & K3 & S3 & _ & _).
  destruct (HP s3 K3) as (s4 & E4 & K4 & S4 & _ & _). destruct (HF' s4 K4) as (s5 & E5 & K5 & S5 & _ & _).
  destruct (HL s5 K5) as (s6 & E6 & K6 & S6 & _ & _). destruct (says_flush s6 K6) as (s7 & E7 & K7 & S7 & _ & _).
  exists s7. split; [done|]. split.
  - rewrite S7, S6, S5, S4, S3, S2, S1. unfold panic_text. by rewrite !app_nil_r, <- !app_assoc.
  - unfold cpsid_f. by rewrite (bind_Ret _ _ _ _ _ E1), (bind_Ret _ _ _ _ _ E2), (bind_Ret _ _ _ _ _ E3), (bind_Ret _ _ _ _ _ E4),
      (bind_Ret _ _ _ _ _ E5), (bind_Ret _ _ _ _ _ E6), (bind_Ret _ _ _ _ _ E7).
Qed.
End Reports.

(** ** From the panic to the bootloader *)

(** The first bytes of the RAM, which the linker scripts of both programs reserve. *)
Definition BOOT_SIGNATURE : Z := 0x20400000.

Section Stay.
Context {D : Type} `{HF : FaultLaws D regs}.
Context {F E B : Type} `{FlashCtrl F} `{HashEngine E} `{Mmio B}.

(** The bytes of the boot signature when the reset is written. *)
Lemma panic_signs a (s : console D) src :
  mem_bytes (c_mem s) → c_string (c_mem s) src boot_trigger → a + 16 ≤ src ∨ src + 16 ≤ a →
  ∃ m', on_mem (memory_copy src a 16) s = Ret (tt, Console (c_hw s) m' (c_rb s)) ∧ read_bytes m' a 16 = boot_trigger.
Proof.
  intros Hb (Hr & _ & _) Ha. change (length boot_trigger) with 16%nat in Hr.
  exists (copy_loop src a 16 (c_mem s)). split; [done|]. rewrite <- Hr. apply list_eq_same_length with 16%nat.
  - apply length_read_bytes.
  - apply length_read_bytes.
  - intros i x y Hi Hx Hy. rewrite lookup_read_bytes in Hx, Hy by done. rewrite copy_loop_in in Hx; [congruence|done|lia|done].
Qed.
(** A start with the signature in the memory. *)
Lemma boot_stays fuel pin (b : boot (F := F) (E := E) (D := B)) :
  take 16 (Bootloader.boot_signature b) = boot_trigger → (16 ≤ length (Bootloader.boot_signature b))%nat →
  ∃ c, boot_start fuel pin b = Ret (false, waiting c (with_signature (replicate 32 0) b)).
Proof.
  intros Hs Hl. destruct (wait_for_host_run (with_signature (replicate 32 0) b)) as (c & _ & Ew). exists c.
  rewrite <- Ew. unfold boot_start. rewrite (bind_Ret _ _ _ _ _ (stays_check b Hl)).
  unfold stays. rewrite bool_decide_eq_true_2 by exact Hs. reflexivity.
Qed.

(** C11. A panic of the kernel ends in the bootloader: whatever state the kernel is in, if its console
    works, [panic_handler] sends the reason, the file and the line, leaves the signature at the start of
    the RAM, resets the chip with its last register write, and never returns; and the bootloader, started with
    this RAM, whatever the flash holds and whether or not the button is pressed, stays and clears the
    signature, so that the next reset starts the kernel again. *)
Theorem panic_enters_bootloader fuel debug_buffer lit texts file line reason f r (s : console D) :
  (uart_delay ≤ fuel)%nat → (200 ≤ fuel)%nat →
  (∀ t, t ∈ plain_literals ++ other_literals → (lit t, chars t) ∈ texts) →
  (reason, r) ∈ texts → (file, f) ∈ texts → (length r ≤ 54)%nat → (length f ≤ 54)%nat → 0 ≤ line < 2 ^ 31 →
  BOOT_SIGNATURE + 16 ≤ lit "StayInBootloader" ∨ lit "StayInBootloader" + 16 ≤ BOOT_SIGNATURE →
  con_ok debug_buffer texts s →
  ∃ s' d, panic_reset fuel debug_buffer BOOT_SIGNATURE lit file line reason s = Ret (tt, s') ∧
    panic_handler fuel debug_buffer BOOT_SIGNATURE lit file line reason s = Hang ∧
    c_hw s' = io_write RESET_CR 0xA5000001 d ∧ uart_sent d = uart_sent (c_hw s) ++ panic_text r f line ∧
    ∀ n pin (b : boot (F := F) (E := E) (D := B)), Bootloader.boot_signature b = read_bytes (c_mem s') BOOT_SIGNATURE 32 →
      ∃ b', boot_start n pin b = Ret (false, b') ∧ Bootloader.boot_signature b' = replicate 32 0 ∧
        flash b' = flash b ∧ boot_log b' = boot_log b.
Proof using HF.
  intros Hd Hf Hlit Hr Hfi Hlr Hlf Hline Ha Hs.
  destruct (panic_prints fuel debug_buffer lit texts Hd Hf Hlit file line reason f r
    (on_mem (memory_copy (lit "StayInBootloader") BOOT_SIGNATURE 16) ;; on_hw dmb ;; on_hw (wr32 RESET_CR (Z.lor 0xA5000000 1)))
    s Hr Hfi Hlr Hlf Hline Hs) as (s1 & K1 & S1 & E1).
  destruct (panic_signs BOOT_SIGNATURE s1 (lit "StayInBootloader") (co_bytes _ _ _ K1)) as (m' & E2 & Rd); [|done|].
  { apply (co_texts _ _ _ K1 (lit "StayInBootloader") boot_trigger).
    change boot_trigger with (chars "StayInBootloader"). apply Hlit, elem_of_app. right. do 4 right. left. }
  set (d := io_barrier DSB (c_hw s1)).
  assert (panic_reset fuel debug_buffer BOOT_SIGNATURE lit file line reason s =
    Ret (tt, Console (io_write RESET_CR 0xA5000001 d) m' (c_rb s1))) as E3.
  { unfold panic_reset. rewrite E1. by rewrite (bind_Ret _ _ _ _ _ E2). }
  eexists _, d. split_and!; [exact E3| |reflexivity| |].
  - unfold panic_handler. by rewrite (bind_Ret _ _ _ _ _ E3).
  - unfold d. destruct (fl_instr DSB (c_hw s1) (co_uart _ _ _ K1)) as [_ ->]. exact S1.
  - intros n pin b Hb. cbn [c_mem] in Hb. destruct (boot_stays n pin b) as [c E4].
    + rewrite Hb, read_bytes_add with (n := 16%nat) (k := 16%nat), take_app_length'; [exact Rd|by rewrite length_read_bytes].
    + rewrite Hb, length_read_bytes. lia.
    + eexists. split_and!; [exact E4|done|done|done].
Qed.
End Stay.

(** ** A processor in a fault, with all literals in its memory *)

(** A division by zero and a precise bus fault with its address. *)
Definition ex_regs (a : Z) : Z :=
  if a =? SCB_CFSR then 0x02008200 else if a =? SCB_HFSR then 0x40000000 else if a =? SCB_BFAR then 0x20 else 0.
Record faulty := Faulty { f_sent : list Z; f_busy : nat }.
#[export] Instance faulty_mmio : Mmio faulty := {|
  io_read a d := if a =? US_CSR USART1
                 then match f_busy d with O => (514, d) | S n => (0, Faulty (f_sent d) n) end else (ex_regs a, d);
  io_write a v d := if a =? US_THR USART1 then Faulty (f_sent d ++ [v]) 1 else d;
  io_barrier _ d := d
|}.
Lemma faulty_polls mask d (P : Z → faulty → Prop) :
  Z.land 514 mask ≠ 0 → (f_busy d ≤ 1)%nat → P 514 (Faulty (f_sent d) 0) → polls 2 (US_CSR USART1) mask (λ _, True) d P.
Proof.
  intros Hm Hd HP. destruct d as [l [|[|n]]]; [| |cbn in Hd; lia].
  - split; [done|]. right. by split.
  - split; [done|]. left. split; [done|]. split; [done|]. right. by split.
Qed.
#[export] Program Instance faulty_uart : UartLaws faulty USART1 :=
  {| uart_ok d := (f_busy d ≤ 1)%nat; uart_ready d := f_busy d = 0%nat; uart_sent := f_sent; uart_delay := 2 |}.
Next Obligation. intros d Hd. apply faulty_polls; [done|done|]. split_and!; [cbn; lia|done|done]. Qed.
Next Obligation. intros d b Hd Hr Hb. cbn [io_write faulty_mmio]. rewrite Z.eqb_refl. cbn. split; [lia|done]. Qed.
Lemma core_not_port a : core_reg a → (a =? US_CSR USART1) = false ∧ (a =? US_THR USART1) = false.
Proof.
  intros Ha. unfold core_reg in Ha. change (US_CSR USART1) with 0x40028014. change (US_THR USART1) with 0x4002801C. lia.
Qed.
#[export] Program Instance faulty_laws : FaultLaws faulty ex_regs.
Next Obligation. intros a. unfold ex_regs. repeat (case_match; [lia|]). lia. Qed.
Next Obligation.
  intros a d Ha Hd. repeat (apply elem_of_cons in Ha as [->|Ha]; [reflexivity|]). by apply elem_of_nil in Ha.
Qed.
Next Obligation. intros a d Ha Hd. destruct (core_not_port a Ha) as [E _]. cbn [io_read faulty_mmio]. by rewrite E. Qed.
Next Obligation. intros a v d Ha Hd. destruct (core_not_port a Ha) as [_ E]. cbn [io_write faulty_mmio]. by rewrite E. Qed.
Next Obligation. done. Qed.
Next Obligation. intros d Hd. apply faulty_polls; [done|done|]. by split; [cbn; lia|]. Qed.

(** Every string has a place of 128 bytes. *)
Definition ex_strings : list string := plain_literals ++ other_literals ++ ["fault.c"; "Bus fault"].
Fixpoint place (t : string) (a : Z) (l : list string) : Z :=
  match l with [] => 0 | u :: l => if String.eqb t u then a else place t (a + 128) l end.
Definition ex_lit (t : string) : Z := place t 0x1000 ex_strings.
Definition ex_texts : list (Z * list Z) := (λ t, (ex_lit t, chars t)) <$> ex_strings.
Definition ex_mem : mem := foldr (λ r m, write_bytes m r.1 r.2) ∅ ex_texts.
Definition ex_faulty : console faulty := Console (Faulty [] 0) ex_mem (Ringbuffer 0 0 0 0).

Lemma ex_faulty_ok : con_ok 0x8000 ex_texts ex_faulty.
Proof.
  constructor.
  - cbn. lia.
  - cbn [c_mem ex_faulty]. unfold ex_mem. generalize ex_texts. intros l. induction l as [|r l IH]; [|by apply mem_bytes_write].
    intros a. unfold ld8. cbn [foldr]. rewrite lookup_empty. by compute.
  - intros a t Hin. cbn [c_mem ex_faulty].
    assert (Forall (λ r, bool_decide (read_bytes ex_mem r.1 (length r.2) = r.2) && forallb (λ c, negb (c =? 0)) r.2 &&
      (ld8 ex_mem (r.1 + Z.of_nat (length r.2)) =? 0) && (r.1 + Z.of_nat (length r.2) <? 0x8000) = true) ex_texts) as HF.
    { apply (bool_decide_unpack _). vm_compute. exact I. }
    rewrite Forall_forall in HF. specialize (HF _ Hin). cbn [fst snd] in HF.
    rewrite !andb_true_iff, bool_decide_eq_true, forallb_forall in HF. destruct HF as [[[H1 H2] H3] H4].
    split; [|left; lia]. split_and!; [done| |lia].
    apply Forall_forall. intros c Hc. apply list_elem_of_In in Hc. specialize (H2 c Hc). lia.
Qed.
Lemma ex_lit_ok t : t ∈ ex_strings → (ex_lit t, chars t) ∈ ex_texts.
Proof. intros Ht. unfold ex_texts. apply list_elem_of_fmap. by exists t. Qed.
Lemma ex_literals t : t ∈ plain_literals ++ other_literals → (ex_lit t, chars t) ∈ ex_texts.
Proof. intros Ht. apply ex_lit_ok. unfold ex_strings. rewrite app_assoc. apply elem_of_app. by left. Qed.

Lemma fault_report_witness :
  ∃ s', print_usage_fault 200 0x8000 ex_lit ex_faulty = Ret (tt, s') ∧
    f_sent (c_hw s') = chars "Usage fault has occured: \nUndefined instruction\n".
Proof.
  destruct (@fault_report faulty faulty_mmio faulty_uart ex_regs faulty_laws 200 0x8000 ex_lit ex_texts) as (_ & _ & _ & Hu).
  - cbn. lia.
  - lia.
  - exact ex_literals.
  - destruct (Hu ex_faulty ex_faulty_ok) as (s' & E & _ & S & _). exists s'. split; [exact E|].
    change (f_sent (c_hw s')) with (uart_sent (c_hw s')). rewrite S. vm_compute. reflexivity.
Defined.

Lemma panic_enters_bootloader_witness :
  ∃ s', panic_reset 200 0x8000 BOOT_SIGNATURE ex_lit (ex_lit "fault.c") 120 (ex_lit "Bus fault") ex_faulty = Ret (tt, s') ∧
    f_sent (c_hw s') = chars "Panic! Bus fault \nFile: fault.c \nLine: 120 \n" ∧
    ∃ b', boot_start 1 1 (with_signature (read_bytes (c_mem s') BOOT_SIGNATURE 32) ex_boot) = Ret (false, b').
Proof.
  destruct (@panic_enters_bootloader faulty faulty_mmio faulty_uart ex_regs faulty_laws ram_flash icm_desc bank _ _ _ 200 0x8000 ex_lit ex_texts (ex_lit "fault.c") 120 (ex_lit "Bus fault")
    (chars "fault.c") (chars "Bus fault") ex_faulty) as (s' & d & E & _ & Hd & S & Hb).
  - cbn. lia.
  - lia.
  - exact ex_literals.
  - apply ex_lit_ok. apply (bool_decide_unpack _). vm_compute. exact I.
  - apply ex_lit_ok. apply (bool_decide_unpack _). vm_compute. exact I.
  - vm_compute. lia.
  - vm_compute. lia.
  - lia.
  - right. vm_compute. discriminate.
  - exact ex_faulty_ok.
  - exists s'. split; [exact E|]. split.
    + rewrite Hd. change (f_sent (io_write RESET_CR 0xA5000001 d)) with (uart_sent d). rewrite S. vm_compute. reflexivity.
    + destruct (Hb 1%nat 1 (with_signature (read_bytes (c_mem s') BOOT_SIGNATURE 32) ex_boot) eq_refl) as (b' & Eb & _).
      exists b'. exact Eb.
Defined.
