(* ===== verification/FrameHw.v ===== *)
(** * The frame interface on the hardware (bootloader/src/frame.c, kernel/src/kernel/bootloader.c)

    Frame.v has the protocol: what the handlers do to the variables, with the timeout and the
    answers as a flag and a list of events.  Here are the handlers as they run: on the receive register of
    the serial port, the registers of the timer, the console and the memory.  [iface_runs] says that they
    implement the protocol. *)

From S2P Require Import Prelude BootHardware BootDrivers.
From S2P Require Import Memory Crc Frame Hardware Nvic Clock Usart Ringbuffer Sprint Console.
From S2P Require Import Bootloader BootTheorems Fault BootIface.

Section FrameHw.
Context {D : Type} `{Mmio D}.
#[local] Notation dev := (iface D).

(** [kernel] says which of the two programs; they have their own consoles. *)
Variable kernel : bool.
Variable fuel : nat.
Variable debug_buffer serial_buffer boot_signature : Z.
Variable lit : string → Z.

Definition serial_print (data : Z) (obj : list Z) : M (console D) unit :=
  if kernel then Console.serial_print fuel serial_buffer data obj else BootDrivers.serial_print fuel serial_buffer data obj.
Definition printl (data : Z) (obj : list Z) : M (console D) unit :=
  if kernel then Console.printl fuel debug_buffer data obj else BootDrivers.printl fuel debug_buffer data obj.
Definition serial_read : M (console D) Z := if kernel then Console.serial_read else BootDrivers.serial_read.

Definition send_response (error_code : Z) : M dev unit :=
  on_vars (modify (set_received 0)) ;;
  on_con (serial_print (lit "%c") [error_code]).
Definition check_new_frame : M dev Z := on_vars Frame.check_new_frame.

(** The switch of the handlers. *)
Definition frame_fsm (data : Z) : M dev unit :=
  let* st := on_vars (gets bus_state) in
  match st with
  | STATE_IDLE =>
      if data =? START_BYTE then on_vars (modify (set_bus STATE_CMD)) ;; timeout_reload else ret tt
  | STATE_CMD =>
      let* f := on_vars (gets fr) in
      on_vars (modify (set_frame (Frame data (size f) (payload f) (fcs f)))) ;;
      on_vars (modify (set_bus STATE_SIZE)) ;;
      on_vars (modify (set_index 0)) ;;
      let* f := on_vars (gets fr) in
      on_vars (modify (set_frame (Frame (cmd f) 0 (payload f) (fcs f))))
  | STATE_SIZE =>
      let* f := on_vars (gets fr) in
      let* i := on_vars (gets frame_index) in
      on_vars (modify (set_frame (Frame (cmd f) (u16 (Z.lor (size f) (Z.shiftl data (8 * i)))) (payload f) (fcs f)))) ;;
      on_vars (modify (set_index (u32 (i + 1)))) ;;
      let* i := on_vars (gets frame_index) in
      if 2 <=? i then on_vars (modify (set_bus STATE_PAYLOAD)) ;; on_vars (modify (set_index 0)) else ret tt
  | STATE_PAYLOAD =>
      let* i := on_vars (gets frame_index) in
      on_vars (store_payload i data) ;;
      on_vars (modify (set_index (u32 (i + 1)))) ;;
      let* f := on_vars (gets fr) in
      let* i := on_vars (gets frame_index) in
      if size f <=? i then on_vars (modify (set_bus STATE_FCS)) else ret tt
  | STATE_FCS =>
      let* f := on_vars (gets fr) in
      on_vars (modify (set_frame (Frame (cmd f) (size f) (payload f) data))) ;;
      on_vars (modify (set_bus STATE_END))
  | STATE_END =>
      (if data =? END_BYTE then
         let* f := on_vars (gets fr) in
         let* crc := of_option (frame_crc f) in
         if crc =? fcs f then on_vars (modify (set_received 1))
         else send_response (Z.lor RESP_ERROR RESP_FCS_ERROR)
       else
         on_con (printl (lit "Frame error") []) ;;
         send_response (Z.lor RESP_ERROR RESP_FRAME_ERROR)) ;;
      on_vars (modify (set_bus STATE_IDLE)) ;;
      timeout_stop
  end.

(** The handler of the bootloader, of the kernel, and of the timeout. *)
Definition usart0_handler : M dev unit :=
  let* data := on_con serial_read in
  let* st := on_vars (gets bus_state) in
  (if negb (is_idle st) then timeout_reload else ret tt) ;;
  let* st := on_vars (gets bus_state) in
  (if is_idle st
   then (if data =? 0 then send_response RESP_OK else ret tt) else ret tt) ;;
  frame_fsm data.

(** The soft reset takes effect after the handler. *)
Definition usart0_exception : M dev unit :=
  let* data := on_con serial_read in
  let* st := on_vars (gets bus_state) in
  (if negb (is_idle st) then timeout_reload else ret tt) ;;
  let* st := on_vars (gets bus_state) in
  (if (data =? 0) && is_idle st then
     on_con (print_flush fuel) ;;
     on_con (on_mem (memory_copy (lit "StayInBootloader") boot_signature 16)) ;;
     on_dev dmb ;;
     on_dev cpsid_i ;;
     on_dev (wr32 RESET_CR (Z.lor 0xA5000000 1))
   else ret tt) ;;
  frame_fsm data.

Definition timer0_ch0_handler : M dev unit :=
  on_dev (rd32 TC_SR) ;;
  on_con (printl (lit (if kernel then "Kernel timeout" else "Bootloader timeout")) []) ;;
  timeout_stop ;;
  on_vars (modify (set_bus STATE_IDLE)).

(** ** Start and end *)

(** The kernel's: [image_info] is the address of its information block, whose fifth word is
    the address of the bootloader's. *)
Definition bootloader_init (image_info : Z) : M dev unit :=
  on_con Console.serial_init ;;
  on_dev (Clock.peripheral_clock_enable 23) ;;
  on_dev (Clock.pck_init 6 SLOW_CLOCK 32) ;;
  on_dev (Clock.pck_enable 6) ;;
  timer_start ;;
  on_dev (Nvic.nvic_enable 23) ;;
  on_vars (modify (set_bus STATE_IDLE)) ;;
  let* info := on_con (on_mem (gets (λ m, ld32 m (image_info + 16)))) in
  let* major := on_con (on_mem (gets (λ m, ld32 m info))) in
  let* minor := on_con (on_mem (gets (λ m, ld32 m (info + 4)))) in
  on_con (printl (lit "\n\nUsing Vanilla bootloader v%d.%d") [major; minor]) ;;
  let* major := on_con (on_mem (gets (λ m, ld32 m image_info))) in
  let* minor := on_con (on_mem (gets (λ m, ld32 m (image_info + 4)))) in
  on_con (printl (lit "Using Vanilla kernel     v%d.%d\n") [major; minor]).
End FrameHw.

(** ** The hardware *)

(** What can be seen of it: the bytes on the two lines, whether the timer runs, and whether the chip was
    reset. *)
Record seen := Seen { s_host : list Z; s_log : list Z; s_timer : bool; s_reset : bool }.
Definition add_bytes (port : Z) (l : list Z) (s : seen) : seen :=
  if port =? Hardware.USART0 then Seen (s_host s ++ l) (s_log s) (s_timer s) (s_reset s)
  else Seen (s_host s) (s_log s ++ l) (s_timer s) (s_reset s).
Definition port_bytes (port : Z) (s : seen) : list Z := if port =? Hardware.USART0 then s_host s else s_log s.

(** [fl_arrive b d] is the device when the byte [b] has arrived on the line of the host. *)
Class FrameLaws (D : Type) `{Mmio D} := {
  fl_ok : D → Prop;
  fl_ready : Z → D → Prop;
  fl_seen : D → seen;
  fl_delay : nat;
  fl_arrive : Z → D → D;
  fl_poll port mask d : port ∈ [Hardware.USART0; Hardware.USART1] → mask ∈ [2; 512] → fl_ok d →
    polls fl_delay (US_CSR port) mask (λ _, True) d (λ _ d', fl_ok d' ∧ (mask = 2 → fl_ready port d') ∧ fl_seen d' = fl_seen d);
  fl_thr port b d : port ∈ [Hardware.USART0; Hardware.USART1] → fl_ok d → fl_ready port d → byte b →
    fl_ok (io_write (US_THR port) b d) ∧ fl_seen (io_write (US_THR port) b d) = add_bytes port [b] (fl_seen d);
  fl_ccr v d : v ∈ [2; 5] → fl_ok d →
    fl_ok (io_write TC_CCR v d) ∧
    fl_seen (io_write TC_CCR v d) = Seen (s_host (fl_seen d)) (s_log (fl_seen d)) (v =? 5) (s_reset (fl_seen d));
  fl_sr d : fl_ok d → fl_ok (io_read TC_SR d).2 ∧ fl_seen (io_read TC_SR d).2 = fl_seen d;
  fl_line b d : byte b → fl_ok d → fl_ok (fl_arrive b d) ∧ fl_seen (fl_arrive b d) = fl_seen d ∧
    u8 (io_read (US_RHR Hardware.USART0) (fl_arrive b d)).1 = b;
  fl_rhr d : fl_ok d → fl_ok (io_read (US_RHR Hardware.USART0) d).2 ∧ fl_seen (io_read (US_RHR Hardware.USART0) d).2 = fl_seen d;
  fl_barrier x d : fl_ok d → fl_ok (io_barrier x d) ∧ fl_seen (io_barrier x d) = fl_seen d;
  fl_reset d : fl_ok d → fl_ok (io_write RESET_CR 0xA5000001 d) ∧
    fl_seen (io_write RESET_CR 0xA5000001 d) = Seen (s_host (fl_seen d)) (s_log (fl_seen d)) (s_timer (fl_seen d)) true
}.

Lemma add_bytes_nil port s : add_bytes port [] s = s.
Proof. unfold add_bytes. rewrite !app_nil_r. destruct s. by case_match. Qed.
Lemma add_bytes_app port l1 l2 s : add_bytes port l2 (add_bytes port l1 s) = add_bytes port (l1 ++ l2) s.
Proof. unfold add_bytes. destruct (port =? _); cbn; by rewrite app_assoc. Qed.
Lemma port_add port l s : port_bytes port (add_bytes port l s) = port_bytes port s ++ l.
Proof. unfold port_bytes, add_bytes. by destruct (port =? _). Qed.

(** Membership in a list that is written out. *)
Ltac member := repeat first [apply list_elem_of_here | apply list_elem_of_further].

(** One of the two ports as a transmitter that leaves everything else alone; [c] is what is seen at first. *)
Program Definition port_laws {D} `{FrameLaws D} port (Hp : port ∈ [Hardware.USART0; Hardware.USART1]) (c : seen) : UartLaws D port :=
  {| uart_ok d := fl_ok d ∧ ∃ l, fl_seen d = add_bytes port l c; uart_ready := fl_ready port;
     uart_sent d := port_bytes port (fl_seen d); uart_delay := fl_delay |}.
Next Obligation.
  intros D M L port Hp c d [Hok [l Hl]]. eapply polls_mono; [apply (fl_poll port 2 d Hp); [by left|done]|].
  cbn. intros _ d' (H1 & H2 & H3). rewrite H3. split_and!; eauto.
Qed.
Next Obligation.
  intros D M L port Hp c d b [Hok [l Hl]] Hr Hb. destruct (fl_thr port b d Hp Hok Hr Hb) as [H1 H2].
  rewrite H2, port_add, Hl, add_bytes_app. split_and!; eauto.
Qed.

Section Implements.
Context {D : Type} `{FrameLaws D}.
Variable kernel : bool.
Variable fuel : nat.
Hypothesis Hfuel : (fl_delay ≤ fuel)%nat.
Hypothesis Hfuel' : (100 ≤ fuel)%nat.
Variable debug_buffer serial_buffer : Z.
Variable lit : string → Z.

(** The literals of the handlers. *)
Definition frame_texts : list string :=
  ["%c"; "Frame error"; "StayInBootloader"; "Kernel timeout"; "Bootloader timeout"].
(** The literals, the buffers and the signature do not overlap. *)
Hypothesis Htext : ∀ t, t ∈ frame_texts → ∀ a n, (a, n) ∈ [(debug_buffer, 64); (serial_buffer, 64); (BOOT_SIGNATURE, 16)] →
  lit t + Z.of_nat (length (chars t)) < a ∨ a + n ≤ lit t.
Hypothesis Hbuffers : ∀ b, b ∈ [debug_buffer; serial_buffer] → BOOT_SIGNATURE + 16 ≤ b ∨ b + 64 ≤ BOOT_SIGNATURE.

Definition mem_ok (m : mem) : Prop := mem_bytes m ∧ ∀ t, t ∈ frame_texts → c_string m (lit t) (chars t).
Definition scratch (a : Z) : Prop := debug_buffer ≤ a < debug_buffer + 64 ∨ serial_buffer ≤ a < serial_buffer + 64.

Lemma mem_ok_write m m' : mem_ok m → mem_bytes m' → same_outside (λ a, scratch a ∨ BOOT_SIGNATURE ≤ a < BOOT_SIGNATURE + 16) m m' → mem_ok m'.
Proof using All.
  intros [_ Ht] Hb Ho. split; [done|]. intros t Hin. eapply c_string_ext; [|by apply Ht]. intros b Hx. apply Ho. intros Hs.
  pose proof (Htext t Hin debug_buffer 64 ltac:(member)). pose proof (Htext t Hin serial_buffer 64 ltac:(member)).
  pose proof (Htext t Hin BOOT_SIGNATURE 16 ltac:(member)). unfold scratch in Hs. lia.
Qed.

(** Formatted text on a port. *)
Lemma port_print port buffer t xs (s : console D) :
  let l := xs ≫= render kernel in
  port ∈ [Hardware.USART0; Hardware.USART1] → buffer ∈ [debug_buffer; serial_buffer] → t ∈ frame_texts →
  xs ≫= item_chars = chars t → Forall (λ x, (∃ c, x = Lit c ∧ byte c ∧ c ≠ 0 ∧ c ≠ 37) ∨ ∃ v, x = Chr v) xs → (length xs ≤ 64)%nat →
  fl_ok (c_hw s) → mem_ok (c_mem s) →
  ∃ d' m', (let* size := on_mem (print_to_buffer_va kernel fuel buffer (lit t) (xs ≫= item_args)) in
      transmit fuel port (Z.to_nat size) buffer) s = Ret (tt, Console d' m' (c_rb s)) ∧
    fl_ok d' ∧ fl_seen d' = add_bytes port l (fl_seen (c_hw s)) ∧ mem_ok m' ∧ same_outside scratch (c_mem s) m'.
Proof using All.
  intros l Hp Hbuf Hin Ec Hx Hn Hok Hm. pose proof Hm as [Hb Ht].
  assert (Forall byte l ∧ (length l ≤ 64)%nat) as [Hl Hl'].
  { clear -Hx Hn Hfuel. unfold l. clear l. 
    assert (Forall byte (xs ≫= render kernel) ∧ length (xs ≫= render kernel) = length xs) as [H1 H2].
    { clear Hn. induction Hx as [|x xs Hx _ [IH1 IH2]]; [by split|]. cbn. rewrite length_app, IH2.
      destruct Hx as [(c & -> & Hc & _)|[v ->]]; cbn; (split; [|done]); constructor; try done. apply u8_range. }
    split; [done|lia]. }
  assert (buffer = debug_buffer ∨ buffer = serial_buffer) as Hbuf' by set_solver.
  destruct (print_to_buffer_run kernel fuel (c_mem s) buffer (lit t) xs) as (m' & E & Er & Ho).
  - done.
  - rewrite Ec. by apply Ht.
  - eapply Forall_impl; [exact Hx|]. by intros x [(c & -> & Hc)|[v ->]].
  - eapply Forall_impl; [exact Hx|]. by intros x [(c & -> & Hc)|[v ->]].
  - rewrite Ec. unfold away. fold l.
    pose proof (Htext t Hin debug_buffer 64 ltac:(member)). pose proof (Htext t Hin serial_buffer 64 ltac:(member)).
    destruct Hbuf' as [-> | ->]; lia.
  - lia.
  - fold l. lia.
  - fold l in E, Er, Ho. assert (same_outside scratch (c_mem s) m') as Ho'.
    { eapply same_outside_mono; [|exact Ho]. intros a Ha. cbn in Ha. unfold scratch. destruct Hbuf' as [-> | ->]; lia. }
    pose (c := fl_seen (c_hw s)).
    destruct (@transmit_sends D port _ (port_laws port Hp c) fuel (length l) buffer (Console (c_hw s) m' (c_rb s)) l Hfuel) as (d' & Et & [Hok' [l' El']] & Hs').
    + cbn. split; [done|]. exists []. by rewrite add_bytes_nil.
    + exact Er.
    + exact Hl.
    + exists d', m'. cbn in Hs', Et. rewrite El', port_add in Hs'. apply app_inv_head in Hs' as ->.
      rewrite (bind_Ret _ _ _ _ _ (on_mem_run _ s _ _ E)), Nat2Z.id. split_and!; try done.
      apply (mem_ok_write (c_mem s)); [done| |by eapply same_outside_mono; [|exact Ho']; tauto].
      by eapply mem_bytes_patch.
Qed.
(** ** The simulation *)

(** [out] was sent to the host before. *)
Variable out : list Z.
Definition codes (l : list frame_event) : list Z := l ≫= λ e, match e with EvResponse c => [c] | EvStayInBootloader => [] end.
Definition stays (l : list frame_event) : bool := existsb (λ e, match e with EvStayInBootloader => true | _ => false end) l.

Record con_sim (c : console D) (s : fstate) : Prop := {
  cs_ok : fl_ok (c_hw c);
  cs_host : s_host (fl_seen (c_hw c)) = out ++ codes (events s);
  cs_timer : s_timer (fl_seen (c_hw c)) = timer s;
  cs_reset : s_reset (fl_seen (c_hw c)) = stays (events s);
  cs_mem : mem_ok (c_mem c);
  cs_sig : stays (events s) = true → read_bytes (c_mem c) BOOT_SIGNATURE 16 = boot_trigger
}.
Definition with_env (t : bool) (e : list frame_event) (s : fstate) : fstate :=
  FState (bus_state s) (fr s) (frame_index s) (frame_received s) t e.
(** The variables are those of the protocol, and the hardware shows the timer and the events. *)
Definition sim (h : iface D) (s : fstate) : Prop :=
  (∃ t e, i_vars h = with_env t e s) ∧ con_sim (i_con h) s.

(** [c] does to the machine what [a] does in the protocol, which neither panics nor hangs. *)
Definition implements {A} (c : M (iface D) A) (a : M fstate A) : Prop := ∀ h s, sim h s →
  match a s with
  | Ret (x, s') => ∃ h', c h = Ret (x, h') ∧ sim h' s'
  | UB => c h = UB
  | _ => False
  end.

Lemma imp_ret {A} (x : A) : implements (ret x) (ret x).
Proof. intros h s Hs. by exists h. Qed.
Lemma imp_bind {A B} (c : M (iface D) A) (a : M fstate A) (k : A → M (iface D) B) (j : A → M fstate B) :
  implements c a → (∀ x, implements (k x) (j x)) → implements (bind c k) (bind a j).
Proof.
  intros H1 H2 h s Hs. specialize (H1 h s Hs). unfold bind at 1. destruct (a s) as [[x s']| | |] eqn:Ea; [|done| |done].
  - destruct H1 as (h' & E & Hs'). specialize (H2 x h' s' Hs'). rewrite (bind_Ret _ _ _ _ _ E). exact H2.
  - unfold bind. by rewrite H1.
Qed.
Lemma imp_if {A} (b : bool) (c c' : M (iface D) A) a a' :
  implements c a → implements c' a' → implements (if b then c else c') (if b then a else a').
Proof. by destruct b. Qed.
Lemma imp_option {A} (o : option A) : implements (of_option o) (of_option o).
Proof. intros h s Hs. destruct o; [by apply imp_ret|done]. Qed.

(** Reading and writing variables. *)
Lemma imp_gets {A} (f : fstate → A) : (∀ t e s, f (with_env t e s) = f s) → implements (on_vars (gets f)) (gets f).
Proof.
  intros Hf h s Hs. exists h. split; [|done]. destruct Hs as [(t & e & E) _]. unfold on_vars, zoom, gets. rewrite E, Hf, <- E.
  by destruct h.
Qed.
Lemma imp_modify f :
  (∀ t e s, f (with_env t e s) = with_env t e (f s)) → (∀ s, events (f s) = events s ∧ timer (f s) = timer s) →
  implements (on_vars (modify f)) (modify f).
Proof.
  intros Hf He h s [(t & e & E) [O1 O2 O3 O4 O5 O6]]. destruct (He s) as [He1 He2]. eexists. split; [reflexivity|]. split; cbn.
  - exists t, e. by rewrite E, Hf.
  - constructor; rewrite ?He1, ?He2; done.
Qed.
Lemma imp_store i v : implements (on_vars (store_payload i v)) (store_payload i v).
Proof.
  intros h s Hs. pose proof Hs as [(t & e & E) _]. unfold store_payload, on_vars, zoom, bind, gets. rewrite E. cbn [fr with_env].
  destruct (i <? _); [|done].
  destruct (imp_modify (set_frame (Frame (cmd (fr s)) (size (fr s)) (<[Z.to_nat i:=v]> (payload (fr s))) (fcs (fr s)))) ltac:(done) ltac:(done) h s Hs)
    as (h' & E' & Hs'). exists h'. split; [|done]. unfold on_vars, zoom, modify in E'. rewrite E in E'. exact E'.
Qed.

(** Programs on the console that change what the protocol sees as [a] does. *)
Lemma imp_con {A} (c : M (console D) A) (a : M fstate A) :
  (∀ k s, con_sim k s → match a s with
    | Ret (x, s') => (∃ k', c k = Ret (x, k') ∧ con_sim k' s') ∧ ∀ t e, with_env t e s' = with_env t e s
    | _ => False
    end) → implements (on_con c) a.
Proof.
  intros Hc h s [(t & e & E) Hk]. specialize (Hc _ _ Hk). destruct (a s) as [[x s']| | |]; try done.
  destruct Hc as [(k' & Ek & Hk') Hv]. exists (Iface k' (i_vars h)). split; [unfold on_con, zoom; by rewrite Ek|].
  split; [|done]. exists t, e. cbn. by rewrite E, Hv.
Qed.
(** Steps the protocol does not see. *)
Definition silent {A} (c : M (iface D) A) : Prop := ∀ h s, sim h s → ∃ x h', c h = Ret (x, h') ∧ sim h' s.
Lemma imp_silent {A B} (c : M (iface D) A) (k : A → M (iface D) B) a :
  silent c → (∀ x, implements (k x) a) → implements (bind c k) a.
Proof.
  intros H1 H2 h s Hs. destruct (H1 h s Hs) as (x & h' & E & Hs'). rewrite (bind_Ret _ _ _ _ _ E). exact (H2 x h' s Hs').
Qed.
Lemma silent_con {A} (c : M (console D) A) :
  (∀ k s, con_sim k s → ∃ x k', c k = Ret (x, k') ∧ con_sim k' s) → silent (on_con c).
Proof.
  intros Hc h s [He Hk]. destruct (Hc _ _ Hk) as (x & k' & E & Hk'). exists x, (Iface k' (i_vars h)).
  split; [unfold on_con, zoom; by rewrite E|done].
Qed.

Lemma sig_kept m m' : same_outside scratch m m' → read_bytes m' BOOT_SIGNATURE 16 = read_bytes m BOOT_SIGNATURE 16.
Proof using All.
  intros Ho. apply read_bytes_ext. intros a Ha. apply Ho. unfold scratch.
  pose proof (Hbuffers debug_buffer ltac:(member)). pose proof (Hbuffers serial_buffer ltac:(member)). lia.
Qed.

(** A machine that differs in the device, the buffers and what was sent to the host. *)
Lemma con_sim_sent k s d m l :
  con_sim k s → fl_ok d → fl_seen d = add_bytes Hardware.USART0 l (fl_seen (c_hw k)) → mem_ok m → same_outside scratch (c_mem k) m →
  con_sim (Console d m (c_rb k)) (FState (bus_state s) (fr s) (frame_index s) (frame_received s) (timer s) (events s ++ (EvResponse <$> l))).
Proof using All.
  intros [O1 O2 O3 O4 O5 O6] Hd Hs Hm Ho.
  assert (stays (events s ++ (EvResponse <$> l)) = stays (events s)) as Est.
  { unfold stays. rewrite existsb_app. assert (existsb (λ e, match e with EvStayInBootloader => true | _ => false end) (EvResponse <$> l) = false) as ->.
    { clear. induction l as [|x l IH]; [done|exact IH]. } by rewrite orb_false_r. }
  assert (codes (EvResponse <$> l) = l) as Ecl by (clear; induction l as [|x l IH]; [done|cbn; by f_equal]).
  constructor; cbn [c_hw c_mem events timer]; rewrite ?Hs, ?Est; [done| |done|done|done|].
  - change (s_host (add_bytes Hardware.USART0 l (fl_seen (c_hw k)))) with (s_host (fl_seen (c_hw k)) ++ l).
    rewrite O2. unfold codes at 2. rewrite bind_app. fold (codes (events s)). fold (codes (EvResponse <$> l)). by rewrite Ecl, app_assoc.
  - intros E. rewrite <- (O6 E). by apply sig_kept.
Qed.
Lemma con_sim_same k s d m :
  con_sim k s → fl_ok d → (∃ l, fl_seen d = add_bytes Hardware.USART1 l (fl_seen (c_hw k))) → mem_ok m → same_outside scratch (c_mem k) m →
  con_sim (Console d m (c_rb k)) s.
Proof using All.
  intros [O1 O2 O3 O4 O5 O6] Hd [l Hs] Hm Ho. constructor; cbn [c_hw c_mem]; rewrite ?Hs; try done.
  intros E. rewrite <- (O6 E). by apply sig_kept.
Qed.

Lemma imp_timeout v : v ∈ [2; 5] → implements (on_dev (wr32 TC_CCR v)) (modify (set_timer (v =? 5))).
Proof using All.
  intros Hv. apply imp_con. intros k s [O1 O2 O3 O4 O5 O6]. split; [|done]. eexists. split; [reflexivity|].
  assert (u32 v = v) as -> by (apply u32_small; apply elem_of_cons in Hv as [->|Hv]; [lia|]; apply elem_of_cons in Hv as [->|Hv]; [lia|by apply elem_of_nil in Hv]).
  destruct (fl_ccr v (c_hw k) Hv O1) as [H1 H2]. constructor; cbn [c_hw c_mem events set_timer]; rewrite ?H2; done.
Qed.

Lemma imp_send_response c : byte c → implements (send_response kernel fuel serial_buffer lit c) (Frame.send_response c).
Proof using All.
  intros Hc. unfold send_response, Frame.send_response. apply imp_bind; [by apply imp_modify|]. intros _. apply imp_con. intros k s Hk. split; [|done].
  destruct (port_print Hardware.USART0 serial_buffer "%c" [Chr c] k ltac:(member) ltac:(member) ltac:(member) eq_refl) as (d & m & E & H1 & H2 & H3 & H4).
  - constructor; [right; by exists c|constructor].
  - cbn. lia.
  - apply Hk.
  - apply Hk.
  - exists (Console d m (c_rb k)). split; [destruct kernel; exact E|]. cbn [mbind list_bind render app item_args] in *.
    apply (con_sim_sent k s d m [c]); try done. rewrite H2. unfold byte in Hc. cbn. by rewrite u8_small by lia.
Qed.
Lemma silent_printl t : t ∈ ["Frame error"; "Kernel timeout"; "Bootloader timeout"] →
  silent (on_con (printl kernel fuel debug_buffer (lit t) [])).
Proof using All.
  intros Hin. apply silent_con. intros k s Hk.
  assert (plain (chars t) ∧ (length (chars t) ≤ 64)%nat ∧ t ∈ frame_texts) as (Hp & Hl & Hin').
  { repeat (apply elem_of_cons in Hin as [->|Hin];
      [split; [apply plain_check_ok; vm_compute; reflexivity|split; [by apply Nat.leb_le; vm_compute|member]]|]). by apply elem_of_nil in Hin. }
  destruct (port_print Hardware.USART1 debug_buffer t (Lit <$> chars t) k ltac:(member) ltac:(member) Hin') as (d & m & E & H1 & H2 & H3 & H4).
  - by rewrite lit_items.
  - apply Forall_fmap. eapply Forall_impl; [exact Hp|]. intros c Hc. left. by exists c.
  - by rewrite length_fmap.
  - apply Hk.
  - apply Hk.
  - rewrite lit_no_args in E.
    destruct (@usart_write_sends D Hardware.USART1 _ (port_laws Hardware.USART1 ltac:(member) (fl_seen (c_hw k))) fuel 10 d) as (d2 & E2 & [Hok2 [l2 El2]] & _).
    + split; [exact H1|by eexists].
    + unfold byte. lia.
    + exact Hfuel.
    + exists tt, (Console d2 m (c_rb k)). split; [|by apply con_sim_same; eauto].
      assert ((let* size := on_mem (print_to_buffer_va kernel fuel debug_buffer (lit t) []) in
        transmit fuel Hardware.USART1 (Z.to_nat size) debug_buffer ;; on_hw (Usart.usart_write fuel Hardware.USART1 10)) k = Ret (tt, Console d2 m (c_rb k))) as Eg.
      { rewrite <- bind_bind, (bind_Ret _ _ _ _ _ E). unfold on_hw, zoom. cbn [c_hw]. by rewrite E2. }
      destruct kernel; exact Eg.
Qed.

(** The way into the bootloader. *)
Lemma stay_copy m : mem_ok m → let m' := copy_loop (lit "StayInBootloader") BOOT_SIGNATURE 16 m in
  mem_ok m' ∧ read_bytes m' BOOT_SIGNATURE 16 = boot_trigger.
Proof using All.
  intros Hm m'. pose proof Hm as [Hb Ht]. pose proof (Htext "StayInBootloader" ltac:(member) BOOT_SIGNATURE 16 ltac:(member)) as Hd.
  change (length (chars "StayInBootloader")) with 16%nat in Hd.
  destruct (Ht "StayInBootloader" ltac:(member)) as (Hr & _ & _). change (length (chars "StayInBootloader")) with 16%nat in Hr.
  change (chars "StayInBootloader") with boot_trigger in Hr.
  assert (∀ i, (i < 16)%nat → ld8 m' (BOOT_SIGNATURE + Z.of_nat i) = ld8 m (lit "StayInBootloader" + Z.of_nat i)) as Hin.
  { intros j Hj. unfold m'. apply copy_loop_in; [done|lia|done]. }
  assert (same_outside (λ a, BOOT_SIGNATURE ≤ a < BOOT_SIGNATURE + 16) m m') as Ho by (intros a Ha; apply copy_loop_out; lia).
  split.
  - apply (mem_ok_write m); [done| |by eapply same_outside_mono; [|exact Ho]; auto]. intros a.
    destruct (decide (BOOT_SIGNATURE ≤ a < BOOT_SIGNATURE + 16)) as [Ha|Ha]; [|rewrite Ho by done; apply Hb].
    replace a with (BOOT_SIGNATURE + Z.of_nat (Z.to_nat (a - BOOT_SIGNATURE))) by lia. rewrite Hin by lia. apply Hb.
  - rewrite <- Hr. apply list_eq_same_length with 16%nat; [apply length_read_bytes..|].
    intros i x y Hi Hx Hy. rewrite lookup_read_bytes in Hx, Hy by done. rewrite Hin in Hx by done. congruence.
Qed.

Lemma imp_stay :
  implements (on_con (print_flush fuel) ;; on_con (on_mem (memory_copy (lit "StayInBootloader") BOOT_SIGNATURE 16)) ;;
              on_dev dmb ;; on_dev cpsid_i ;; on_dev (wr32 RESET_CR (Z.lor 0xA5000000 1)))
             (modify (emit EvStayInBootloader)).
Proof using All.
  apply imp_silent; [|intros _].
  { apply silent_con. intros k s Hk. pose proof (cs_ok _ _ Hk) as Hok.
    destruct (wait_bits_spec _ fuel _ _ _ _ _ (fl_poll Hardware.USART1 512 (c_hw k) ltac:(member) ltac:(member) Hok) Hfuel) as (v & d & E & H1 & _ & H2).
    exists tt, (Console d (c_mem k) (c_rb k)). split; [unfold print_flush, usart_flush, on_hw, zoom; change (Z.shiftl 1 9) with 512; by rewrite E|].
    apply con_sim_same; [done|done|exists []; by rewrite add_bytes_nil|apply Hk|apply same_outside_refl]. }
  intros h s [(t & e & Ev) [O1 O2 O3 O4 O5 O6]]. destruct (stay_copy _ O5) as [Hm Hsig].
  destruct (fl_barrier DSB _ O1) as [A1 A2]. destruct (fl_barrier CPSID_I _ A1) as [B1 B2]. destruct (fl_reset _ B1) as [C1 C2].
  eexists. split; [reflexivity|]. split; [by exists t, e|].
  assert (codes (events s ++ [EvStayInBootloader]) = codes (events s)) as Ec by (unfold codes; rewrite bind_app; apply app_nil_r).
  assert (stays (events s ++ [EvStayInBootloader]) = true) as Es by (unfold stays; rewrite existsb_app; apply orb_true_r).
  constructor; cbn [i_con c_hw c_mem events emit timer];
    change (u32 (Z.lor 0xA5000000 1)) with 0xA5000001; rewrite ?C2, ?B2, ?A2, ?Ec, ?Es; done.
Qed.

(** ** The handlers *)

Ltac imp_step :=
  first [ apply imp_ret | by apply imp_gets | by apply imp_modify | apply imp_store | apply imp_option
    | exact (imp_timeout 5 ltac:(member)) | exact (imp_timeout 2 ltac:(member))
    | apply imp_send_response; unfold byte, RESP_OK; lia | apply imp_send_response; by compute | exact imp_stay
    | apply imp_silent; [apply silent_printl; member|intros _]
    | apply imp_if | apply imp_bind; [|intros ?]
    | match goal with |- implements (match ?x with _ => _ end) _ => destruct x end ].

Lemma imp_fsm data : implements (frame_fsm kernel fuel debug_buffer serial_buffer lit data) (Frame.frame_fsm data).
Proof using All. unfold frame_fsm, Frame.frame_fsm. repeat imp_step. Qed.

Lemma imp_timer : implements (timer0_ch0_handler kernel fuel debug_buffer lit) Frame.timer0_ch0_handler.
Proof using All.
  unfold timer0_ch0_handler, Frame.timer0_ch0_handler. apply imp_silent; [|intros _].
  - apply silent_con. intros k s Hk. pose proof (cs_ok _ _ Hk) as Hok. destruct (fl_sr (c_hw k) Hok) as [H1 H2].
    destruct (io_read TC_SR (c_hw k)) as [v d] eqn:E. exists v, (Console d (c_mem k) (c_rb k)).
    split; [unfold on_hw, zoom, rd32; by rewrite E|].
    apply con_sim_same; [done|done|exists []; by rewrite add_bytes_nil|apply Hk|apply same_outside_refl].
  - apply imp_silent; [apply silent_printl; destruct kernel; member|intros _]. repeat imp_step.
Qed.

(** A byte arrives, and the handler runs. *)
Definition arrive (b : Z) : M (iface D) unit := on_dev (modify (fl_arrive b)).
Definition handler : M (iface D) unit :=
  if kernel then usart0_exception kernel fuel debug_buffer serial_buffer BOOT_SIGNATURE lit
  else usart0_handler kernel fuel debug_buffer serial_buffer lit.
Definition serve (i : interrupt) : M (iface D) unit :=
  match i with
  | IrqByte b => arrive b ;; handler
  | IrqTimeout => timer0_ch0_handler kernel fuel debug_buffer lit
  end.
Fixpoint serve_all (l : list interrupt) : M (iface D) unit :=
  match l with
  | [] => ret tt
  | i :: l => serve i ;; serve_all l
  end.
Fixpoint handle_all (l : list interrupt) : M fstate unit :=
  match l with
  | [] => ret tt
  | i :: l => handle kernel i ;; handle_all l
  end.

(** The handlers after the byte is read. *)
Lemma boot_body b : implements
  (let* st := on_vars (gets bus_state) in (if negb (is_idle st) then timeout_reload else ret tt) ;;
   let* st := on_vars (gets bus_state) in
   (if is_idle st then (if b =? 0 then send_response kernel fuel serial_buffer lit RESP_OK else ret tt) else ret tt) ;;
   frame_fsm kernel fuel debug_buffer serial_buffer lit b) (Frame.usart0_handler b).
Proof using All. unfold Frame.usart0_handler. repeat first [apply imp_fsm | imp_step]. Qed.
Lemma kernel_body b : implements
  (let* st := on_vars (gets bus_state) in (if negb (is_idle st) then timeout_reload else ret tt) ;;
   let* st := on_vars (gets bus_state) in
   (if (b =? 0) && is_idle st then
      on_con (print_flush fuel) ;; on_con (on_mem (memory_copy (lit "StayInBootloader") BOOT_SIGNATURE 16)) ;;
      on_dev dmb ;; on_dev cpsid_i ;; on_dev (wr32 RESET_CR (Z.lor 0xA5000000 1)) else ret tt) ;;
   frame_fsm kernel fuel debug_buffer serial_buffer lit b) (Frame.usart0_exception b).
Proof using All. unfold Frame.usart0_exception. repeat first [apply imp_fsm | imp_step]. Qed.

Lemma imp_serve i : (∀ b, i = IrqByte b → byte b) → implements (serve i) (handle kernel i).
Proof using All.
  intros Hi. destruct i as [b|]; [|exact imp_timer]. specialize (Hi b eq_refl). intros h s Hs. cbn [serve handle].
  assert (∃ h1, (arrive b ;; on_con (serial_read kernel)) h = Ret (b, h1) ∧ sim h1 s) as (h1 & E1 & Hs1).
  { destruct Hs as [He Hk]. pose proof (cs_ok _ _ Hk) as Hok. destruct (fl_line b _ Hi Hok) as (A1 & A2 & A3).
    destruct (fl_rhr _ A1) as [B1 B2]. rewrite A2 in B2.
    exists (Iface (Console (io_read (US_RHR Hardware.USART0) (fl_arrive b (c_hw (i_con h)))).2 (c_mem (i_con h)) (c_rb (i_con h))) (i_vars h)).
    split; [|split; [done|]].
    - assert (serial_read kernel = on_hw (D := D) (Usart.usart_read Hardware.USART0)) as -> by (by destruct kernel).
      unfold arrive, on_dev, on_con, on_hw, usart_read, rd32, zoom, bind, modify, ret. cbn [i_con c_hw c_mem c_rb i_vars].
      destruct (io_read (US_RHR Hardware.USART0) (fl_arrive b (c_hw (i_con h)))) as [v d]. cbn in A3. by rewrite A3.
    - apply con_sim_same; [done|done|exists []; by rewrite add_bytes_nil|apply Hk|apply same_outside_refl]. }
  assert (∀ A (k : Z → M (iface D) A), (arrive b ;; (let* x := on_con (serial_read kernel) in k x)) h = k b h1) as Ek.
  { intros A k. rewrite <- bind_bind. by rewrite (bind_Ret _ _ _ _ _ E1). }
  assert (∀ k : bool, match receive k b s with
    | Ret (x, s') => ∃ h', (arrive b ;; if k then usart0_exception kernel fuel debug_buffer serial_buffer BOOT_SIGNATURE lit
        else usart0_handler kernel fuel debug_buffer serial_buffer lit) h = Ret (x, h') ∧ sim h' s'
    | UB => (arrive b ;; if k then usart0_exception kernel fuel debug_buffer serial_buffer BOOT_SIGNATURE lit
        else usart0_handler kernel fuel debug_buffer serial_buffer lit) h = UB
    | _ => False end) as Hg; [|exact (Hg kernel)].
  intros k. destruct k; cbn [receive]; unfold usart0_exception, usart0_handler; rewrite Ek.
  - apply kernel_body, Hs1.
  - apply boot_body, Hs1.
Qed.

Lemma imp_serve_all l : Forall (λ i, ∀ b, i = IrqByte b → byte b) l → implements (serve_all l) (handle_all l).
Proof using All. induction 1 as [|i l Hi Hl IH]; [apply imp_ret|]. cbn. apply imp_bind; [by apply imp_serve|]. by intros _. Qed.
End Implements.

(** C30. The interface on the hardware: in both programs, for every sequence of bytes of the host and timeouts, the
    handlers do to the registers, the memory and the variables what the protocol says: the
    responses are the bytes sent on the host's line, in order, the timer runs exactly when the timeout is
    armed, and the kernel resets the chip, with the signature of the bootloader in the memory, exactly when
    the protocol says so.  Every handler returns, unless the protocol is undefined for a frame that is too
    long; then the handler is undefined as well. *)
Theorem iface_runs {D} `{FrameLaws D} kernel fuel debug_buffer serial_buffer lit out l (h : iface D) s :
  (fl_delay ≤ fuel)%nat → (100 ≤ fuel)%nat →
  (∀ t, t ∈ frame_texts → ∀ a n, (a, n) ∈ [(debug_buffer, 64); (serial_buffer, 64); (BOOT_SIGNATURE, 16)] →
    lit t + Z.of_nat (length (chars t)) < a ∨ a + n ≤ lit t) →
  (∀ b, b ∈ [debug_buffer; serial_buffer] → BOOT_SIGNATURE + 16 ≤ b ∨ b + 64 ≤ BOOT_SIGNATURE) →
  Forall (λ i, ∀ b, i = IrqByte b → byte b) l →
  sim lit out h s →
  match handle_all kernel l s with
  | Ret (_, s') => ∃ h', serve_all kernel fuel debug_buffer serial_buffer lit l h = Ret (tt, h') ∧ sim lit out h' s'
  | UB => serve_all kernel fuel debug_buffer serial_buffer lit l h = UB
  | _ => False
  end.
Proof.
  intros Hf Hf' Ht Hb Hl Hs. pose proof (imp_serve_all kernel fuel Hf Hf' debug_buffer serial_buffer lit Ht Hb out l Hl h s Hs) as Hi.
  destruct (handle_all kernel l s) as [[[] s']| | |]; exact Hi.
Qed.

(** ** Two ports, a timer and the reset register *)

Record board := Board { b_seen : seen; b_busy : nat; b_rhr : Z }.
#[export] Instance board_mmio : Mmio board := {|
  io_read a d :=
    if (a =? US_CSR Hardware.USART0) || (a =? US_CSR Hardware.USART1)
    then match b_busy d with O => (514, d) | S n => (0, Board (b_seen d) n (b_rhr d)) end
    else (if a =? US_RHR Hardware.USART0 then b_rhr d else 0, d);
  io_write a v d :=
    let s := b_seen d in
    if a =? US_THR Hardware.USART0 then Board (add_bytes Hardware.USART0 [v] s) 1 (b_rhr d)
    else if a =? US_THR Hardware.USART1 then Board (add_bytes Hardware.USART1 [v] s) 1 (b_rhr d)
    else if a =? TC_CCR then Board (Seen (s_host s) (s_log s) (v =? 5) (s_reset s)) (b_busy d) (b_rhr d)
    else if a =? RESET_CR then Board (Seen (s_host s) (s_log s) (s_timer s) (v =? 0xA5000001)) (b_busy d) (b_rhr d)
    else d;
  io_barrier _ d := d
|}.
Lemma two_ports (P : Z → Prop) : P Hardware.USART0 → P Hardware.USART1 → ∀ port, port ∈ [Hardware.USART0; Hardware.USART1] → P port.
Proof. intros H0 H1 port Hp. apply elem_of_cons in Hp as [->|Hp]; [done|]. apply elem_of_cons in Hp as [->|Hp]; [done|by apply elem_of_nil in Hp]. Qed.
#[export] Program Instance board_laws : FrameLaws board :=
  {| fl_ok d := (b_busy d ≤ 1)%nat; fl_ready _ d := b_busy d = 0%nat; fl_seen := b_seen; fl_delay := 2;
     fl_arrive b d := Board (b_seen d) (b_busy d) b |}.
Next Obligation.
  intros port mask [s n r] Hp Hm Hd.
  assert (Z.land 514 mask ≠ 0) as Hz.
  { apply elem_of_cons in Hm as [->|Hm]; [done|]. apply elem_of_cons in Hm as [->|Hm]; [done|by apply elem_of_nil in Hm]. }
  assert ((US_CSR port =? US_CSR Hardware.USART0) || (US_CSR port =? US_CSR Hardware.USART1) = true) as E by (revert port Hp; by apply two_ports).
  assert (∀ d : board, io_read (US_CSR port) d = match b_busy d with O => (514, d) | S n => (0, Board (b_seen d) n (b_rhr d)) end) as R.
  { intros d. change (io_read (US_CSR port) d) with (if (US_CSR port =? US_CSR Hardware.USART0) || (US_CSR port =? US_CSR Hardware.USART1)
      then match b_busy d with O => (514, d) | S n => (0, Board (b_seen d) n (b_rhr d)) end
      else (if US_CSR port =? US_RHR Hardware.USART0 then b_rhr d else 0, d)). by rewrite E. }
  cbn [polls]. rewrite !R. cbn in Hd. destruct n as [|[|n]]; [| |lia]; cbn [b_busy fst snd b_seen b_rhr].
  - split; [done|]. right. split; [exact Hz|]. split_and!; cbn; [lia|done|done].
  - split; [done|]. left. split; [done|]. split; [done|]. right. split; [exact Hz|]. split_and!; cbn; [lia|done|done].
Qed.
Next Obligation. intros port b [s n r] Hp Hd Hr Hb. revert port Hp. apply two_ports; (split; [exact (le_n 1)|reflexivity]). Qed.
Next Obligation.
  intros v [s n r] Hv Hd. apply elem_of_cons in Hv as [->|Hv]; [done|]. apply elem_of_cons in Hv as [->|Hv]; [done|by apply elem_of_nil in Hv].
Qed.
Next Obligation. by intros [s n r] Hd. Qed.
Next Obligation. intros b [s n r] Hb Hd. unfold byte in Hb. cbn. split_and!; [done|done|by apply u8_small]. Qed.
Next Obligation. by intros [s n r] Hd. Qed.
Next Obligation. by intros x [s n r] Hd. Qed.
Next Obligation. by intros [s n r] Hd. Qed.

Definition ex_at : list (string * Z) :=
  [("%c", 0x1000); ("Frame error", 0x1010); ("StayInBootloader", 0x1030); ("Kernel timeout", 0x1050); ("Bootloader timeout", 0x1070)].
Definition ex_place (t : string) : Z := match list_find (λ r, r.1 = t) ex_at with Some (_, (_, a)) => a | None => 0 end.
Definition ex_iface : iface board :=
  Iface (Console (Board (Seen [] [] false false) 0 0) (foldr (λ r m, write_bytes m r.2 (chars r.1 ++ [0])) ∅ ex_at) (Ringbuffer 0 0 0 0)) frame_start.

(** The bootloader answers a zero byte; a frame of one byte with a wrong end is an error. *)
Lemma iface_runs_witness :
  ∃ h', serve_all false 200 0x2000 0x3000 ex_place (IrqByte <$> [0; 0xAA; 7; 1; 0; 5; 0; 0]) ex_iface = Ret (tt, h') ∧
    s_host (b_seen (c_hw (i_con h'))) = [0; 65].
Proof.
  assert (∀ t, t ∈ frame_texts → t ∈ ex_at.*1 ∧ c_string (c_mem (i_con ex_iface)) (ex_place t) (chars t) ∧
    (0x1000 <=? ex_place t) && (ex_place t + Z.of_nat (length (chars t)) <? 0x2000) = true) as Ht.
  { intros t Hin. unfold frame_texts in Hin.
    repeat (apply elem_of_cons in Hin as [->|Hin]; [split; [member|split; [|by vm_compute]];
      split_and!; [vm_compute; reflexivity|apply (bool_decide_unpack _); vm_compute; exact I|vm_compute; reflexivity]|]).
    by apply elem_of_nil in Hin. }
  pose proof (@iface_runs board board_mmio board_laws false 200 0x2000 0x3000 ex_place [] (IrqByte <$> [0; 0xAA; 7; 1; 0; 5; 0; 0]) ex_iface frame_start) as H.
  assert (∃ s', handle_all false (IrqByte <$> [0; 0xAA; 7; 1; 0; 5; 0; 0]) frame_start = Ret (tt, s') ∧ events s' = [EvResponse 0; EvResponse 65])
    as (s' & E & Ev) by (eexists; split; [vm_compute; reflexivity|reflexivity]).
  rewrite E in H. destruct H as (h' & R & [_ Hc]).
  - cbn. lia.
  - lia.
  - intros t Hin a n Ha. destruct (Ht t Hin) as (_ & _ & Hr). 
    assert (ex_place t + Z.of_nat (length (chars t)) < a ∨ a + n ≤ ex_place t); [|done].
    repeat (apply elem_of_cons in Ha as [[= -> ->]|Ha]; [unfold BOOT_SIGNATURE; lia|]). by apply elem_of_nil in Ha.
  - intros b Hb. repeat (apply elem_of_cons in Hb as [->|Hb]; [right; vm_compute; discriminate|]). by apply elem_of_nil in Hb.
  - repeat (constructor; [intros ? [= <-]; unfold byte; lia|]). constructor.
  - split; [by exists false, []|]. constructor; try done; [cbn; lia|]. split; [|intros t Hin; apply Ht, Hin].
    cbn [c_mem i_con ex_iface]. generalize ex_at. intros l. induction l as [|r l IH]; [|by apply mem_bytes_write].
    intros a. unfold ld8. change (foldr _ _ []) with (∅ : mem). rewrite lookup_empty. by compute.
  - exists h'. split; [exact R|]. change (b_seen (c_hw (i_con h'))) with (fl_seen (c_hw (i_con h'))). rewrite (cs_host _ _ _ _ Hc), Ev. reflexivity.
Defined.
