(* ===== verification/Fat32.v ===== *)
(** * The FAT32 file system (disk/fat32.c, fat32.h, disk_io.c)

    The data and the operations.  The SD card driver is reached through the
    interface [SdCard]; the volumes live at the addresses the memory core gives
    them, each with its sector buffer.  Printing is left out. *)

From S2P Require Import Prelude Memory Mm Palloc.

(** ** The storage device *)

(** What disk_io.c uses of the SD card: [sd_read sector count buffer] and
    [sd_write sector count buffer] give their status, and reading the new
    contents of the buffer.  [sd_sector] is the card's contents. *)
Class SdCard (D : Type) := {
  sd_is_connected : M D Z;
  sd_protocol_init : M D unit;
  sd_read : Z → Z → list Z → M D (Z * list Z);
  sd_write : Z → Z → list Z → M D Z;

  sd_sector : D → Z → list Z;
  sd_capacity : D → Z;
  sd_ok : D → Prop;
  sd_sector_len d lba : sd_ok d → 0 ≤ lba < sd_capacity d →
    length (sd_sector d lba) = 512%nat ∧ Forall byte (sd_sector d lba);
  sd_read_law d lba buf : sd_ok d → 0 ≤ lba < sd_capacity d → length buf = 512%nat →
    ∃ d', sd_read lba 1 buf d = Ret ((1, sd_sector d lba), d') ∧ sd_ok d' ∧
      sd_capacity d' = sd_capacity d ∧ ∀ l, sd_sector d' l = sd_sector d l;
  sd_write_law d lba buf : sd_ok d → 0 ≤ lba < sd_capacity d → length buf = 512%nat → Forall byte buf →
    (∃ m, sd_write lba 1 buf d = Panic m) ∨
    ∃ d', sd_write lba 1 buf d = Ret (1, d') ∧ sd_ok d' ∧ sd_capacity d' = sd_capacity d ∧
      sd_sector d' lba = buf ∧ ∀ l, l ≠ lba → sd_sector d' l = sd_sector d l
}.

Inductive disk := DISK_SD_CARD.

Definition disk_get_status {D} `{SdCard D} (d : disk) : M D Z :=
  match d with DISK_SD_CARD => sd_is_connected end.
Definition disk_initialize {D} `{SdCard D} (d : disk) : M D Z :=
  match d with DISK_SD_CARD => sd_protocol_init ;; ret 1 end.
Definition disk_read {D} `{SdCard D} (d : disk) (buffer : list Z) (lba count : Z) : M D (Z * list Z) :=
  match d with DISK_SD_CARD => sd_read lba count buffer end.
Definition disk_write {D} `{SdCard D} (d : disk) (buffer : list Z) (lba count : Z) : M D Z :=
  match d with DISK_SD_CARD => sd_write lba count buffer end.

(** ** Data *)

Inductive fstatus := FSTATUS_OK | FSTATUS_ERROR | FSTATUS_NO_VOLUME | FSTATUS_PATH_ERR | FSTATUS_EOF.

(** The number 1 that two of the functions return for success. *)
Definition fstatus_1 : fstatus := FSTATUS_ERROR.

Record volume := Volume {
  next : Z;
  label : list Z;
  letter : Z;
  sector_size : Z;
  cluster_size : Z;
  total_size : Z;
  fat_lba : Z;
  fsinfo_lba : Z;
  data_lba : Z;
  root_lba : Z;
  buffer : list Z;
  buffer_lba : Z;
  vdisk : disk;
  buffer_dirty : Z
}.

Definition sizeof_volume : Z := 828.

Definition set_next (x : Z) (v : volume) : volume :=
  Volume x (label v) (letter v) (sector_size v) (cluster_size v) (total_size v) (fat_lba v)
    (fsinfo_lba v) (data_lba v) (root_lba v) (buffer v) (buffer_lba v) (vdisk v) (buffer_dirty v).
Definition set_label (x : list Z) (v : volume) : volume :=
  Volume (next v) x (letter v) (sector_size v) (cluster_size v) (total_size v) (fat_lba v)
    (fsinfo_lba v) (data_lba v) (root_lba v) (buffer v) (buffer_lba v) (vdisk v) (buffer_dirty v).
Definition set_letter (x : Z) (v : volume) : volume :=
  Volume (next v) (label v) x (sector_size v) (cluster_size v) (total_size v) (fat_lba v)
    (fsinfo_lba v) (data_lba v) (root_lba v) (buffer v) (buffer_lba v) (vdisk v) (buffer_dirty v).
Definition set_buffer (b : list Z) (v : volume) : volume :=
  Volume (next v) (label v) (letter v) (sector_size v) (cluster_size v) (total_size v) (fat_lba v)
    (fsinfo_lba v) (data_lba v) (root_lba v) b (buffer_lba v) (vdisk v) (buffer_dirty v).
Definition set_buffer_lba (x : Z) (v : volume) : volume :=
  Volume (next v) (label v) (letter v) (sector_size v) (cluster_size v) (total_size v) (fat_lba v)
    (fsinfo_lba v) (data_lba v) (root_lba v) (buffer v) x (vdisk v) (buffer_dirty v).
Definition set_dirty (x : Z) (v : volume) : volume :=
  Volume (next v) (label v) (letter v) (sector_size v) (cluster_size v) (total_size v) (fat_lba v)
    (fsinfo_lba v) (data_lba v) (root_lba v) (buffer v) (buffer_lba v) (vdisk v) x.

Record dir := Dir {
  d_sector : Z;
  d_cluster : Z;
  d_rw_offset : Z;
  d_start_sect : Z;
  d_size : Z;
  d_vol : Z
}.

Record file := File {
  f_sector : Z;
  f_cluster : Z;
  f_rw_offset : Z;
  f_size : Z;
  f_start_sect : Z;
  f_glob_offset : Z;
  f_vol : Z
}.

Record info := Info {
  i_name : list Z;
  i_name_length : Z;
  i_attribute : Z;
  i_c_time_tenth : Z;
  i_c_time : Z;
  i_c_date : Z;
  i_a_date : Z;
  i_w_time : Z;
  i_w_date : Z;
  i_size : Z
}.

Record partition := Partition { p_lba : Z; p_size : Z; p_status : Z; p_type : Z }.

Definition MBR_PARTITION := 446.
Definition MBR_PARTITION_SIZE := 16.
Definition MBR_BOOT_SIG := 510.
Definition MBR_BOOT_SIG_VALUE := 0xAA55.
Definition PAR_STATUS := 0.
Definition PAR_TYPE := 4.
Definition PAR_LBA := 8.
Definition PAR_SIZE := 12.
Definition BPB_SECTOR_SIZE := 11.
Definition BPB_CLUSTER_SIZE := 13.
Definition BPB_RSVD_CNT := 14.
Definition BPB_NUM_FATS := 16.
Definition BPB_ROOT_ENT_CNT := 17.
Definition BPB_TOT_SECT_16 := 19.
Definition BPB_FAT_SIZE_16 := 22.
Definition BPB_TOT_SECT_32 := 32.
Definition BPB_16_FSTYPE := 54.
Definition BPB_32_FAT_SIZE := 36.
Definition BPB_32_ROOT_CLUST := 44.
Definition BPB_32_FSINFO := 48.
Definition BPB_32_FSTYPE := 82.
Definition SFN_ATTR := 11.
Definition SFN_CTIME_TH := 13.
Definition SFN_CTIME := 14.
Definition SFN_CDATE := 16.
Definition SFN_ADATE := 18.
Definition SFN_CLUSTH := 20.
Definition SFN_WTIME := 22.
Definition SFN_WDATE := 24.
Definition SFN_CLUSTL := 26.
Definition SFN_FILE_SIZE := 28.
Definition LFN_SEQ := 0.
Definition LFN_SEQ_MSK := 0x1F.
Definition LFN_CRC := 13.
Definition ATTR_VOL_LABEL := 0x08.
Definition ATTR_LFN := 0x0F.
Definition INFO_CLUST_CNT := 488.
Definition INFO_NEXT_FREE := 492.

Definition lfn_lut : list Z := [1; 3; 5; 7; 9; 14; 16; 18; 20; 22; 24; 28; 30].

(** ** Bytes *)

(** Reading outside an array is undefined. *)
Definition peek (b : list Z) (i : Z) : option Z := if i <? 0 then None else b !! Z.to_nat i.

Definition fat_load32 (src : list Z) (off : Z) : option Z :=
  b0 ← peek src off; b1 ← peek src (off + 1); b2 ← peek src (off + 2); b3 ← peek src (off + 3);
  Some (u32 (Z.lor (Z.lor (Z.lor b0 (Z.shiftl b1 8)) (Z.shiftl b2 16)) (Z.shiftl b3 24))).
Definition fat_load16 (src : list Z) (off : Z) : option Z :=
  b0 ← peek src off; b1 ← peek src (off + 1); Some (u16 (Z.lor b0 (Z.shiftl b1 8))).

Definition poke (b : list Z) (i v : Z) : option (list Z) :=
  if (0 <=? i) && (i <? Z.of_nat (length b)) then Some (<[Z.to_nat i := u8 v]> b) else None.
Definition fat_store32 (dest : list Z) (off value : Z) : option (list Z) :=
  d0 ← poke dest off value; d1 ← poke d0 (off + 1) (Z.shiftr value 8);
  d2 ← poke d1 (off + 2) (Z.shiftr value 16); poke d2 (off + 3) (Z.shiftr value 24).
Definition fat_store16 (dest : list Z) (off value : Z) : option (list Z) :=
  d0 ← poke dest off value; poke d0 (off + 1) (Z.shiftr value 8).

(** [fat_memcmp(b + off, str, n)]. *)
Fixpoint fat_memcmp (b : list Z) (off : Z) (str : list Z) : option bool :=
  match str with
  | [] => Some true
  | c :: str => x ← peek b off; if negb (x =? c) then Some false else fat_memcmp b (off + 1) str
  end.

Fixpoint sfn_crc_loop (n : nat) (sfn : list Z) (off crc : Z) : option Z :=
  match n with
  | O => Some crc
  | S n => x ← peek sfn off;
      sfn_crc_loop n sfn (off + 1) (u8 (Z.shiftl (Z.land crc 1) 7 + Z.shiftr crc 1 + x))
  end.
Definition fat_get_sfn_crc (sfn : list Z) (off : Z) : option Z := sfn_crc_loop 11 sfn off 0.

(** [fat_search]; the divisor is the sector size less one. *)
Definition fat_search (bpb : list Z) : option Z :=
  sig ← fat_load16 bpb 510;
  if negb (sig =? 0xAA55) then Some 0 else
  f32 ← fat_memcmp bpb BPB_32_FSTYPE [70; 65; 84];
  f16 ← fat_memcmp bpb BPB_16_FSTYPE [70; 65; 84];
  if negb f32 && negb f16 then Some 0 else
  root_ent ← fat_load16 bpb BPB_ROOT_ENT_CNT;
  sect ← fat_load16 bpb BPB_SECTOR_SIZE;
  if sect - 1 =? 0 then None else
  let root_sectors := u32 (Z.quot (root_ent * 32 + (sect - 1)) (sect - 1)) in
  fs16 ← fat_load16 bpb BPB_FAT_SIZE_16;
  fs32 ← fat_load32 bpb BPB_32_FAT_SIZE;
  let fat_size := if negb (fs16 =? 0) then fs16 else fs32 in
  ts16 ← fat_load16 bpb BPB_TOT_SECT_16;
  ts32 ← fat_load32 bpb BPB_TOT_SECT_32;
  let tot_sect := if negb (ts16 =? 0) then ts16 else ts32 in
  rsvd ← fat_load16 bpb BPB_RSVD_CNT;
  fats ← peek bpb BPB_NUM_FATS;
  let data_sectors := u32 (tot_sect - u32 (rsvd + u32 (fats * fat_size) + root_sectors)) in
  csize ← peek bpb BPB_CLUSTER_SIZE;
  if csize =? 0 then None else
  Some (if data_sectors / csize <? 65525 then 0 else 1).

(** [fat_dir_sfn_cmp]: [size] is a byte, and 0 counts as 256 turns. *)
Fixpoint sfn_cmp_loop (n : nat) (sfn : list Z) (s_off : Z) (name : list Z) (n_off : Z) : option Z :=
  match n with
  | O => Some 1
  | S n =>
      c ← peek name n_off;
      let c := if (97 <=? c) && (c <=? 122) then c - 32 else c in
      x ← peek sfn s_off;
      if negb (c =? x) then Some 0 else sfn_cmp_loop n sfn (s_off + 1) name (n_off + 1)
  end.
Definition fat_dir_sfn_cmp (sfn : list Z) (s_off : Z) (name : list Z) (n_off size : Z) : option Z :=
  let size := if 8 <? size then 8 else size in
  sfn_cmp_loop (if size =? 0 then 256%nat else Z.to_nat size) sfn s_off name n_off.

Fixpoint lfn_cmp_loop (lut : list Z) (i : Z) (lfn : list Z) (l_off : Z) (name : list Z)
    (n_off name_off size : Z) : option Z :=
  match lut with
  | [] => Some 1
  | o :: lut =>
      x ← peek lfn (l_off + o);
      if (x =? 0) || (x =? 255) then Some 1 else
      if size <=? name_off + i then Some 0 else
      c ← peek name (n_off + name_off + i);
      if negb (x =? c) then Some 0 else lfn_cmp_loop lut (i + 1) lfn l_off name n_off name_off size
  end.
Definition fat_dir_lfn_cmp (lfn : list Z) (l_off : Z) (name : list Z) (n_off size : Z) : option Z :=
  seq ← peek lfn (l_off + LFN_SEQ);
  let name_off := u8 (13 * (Z.land seq LFN_SEQ_MSK - 1)) in
  lfn_cmp_loop lfn_lut 0 lfn l_off name n_off name_off size.

(** ** The file system *)

Section Fat32.
Context {D : Type} `{SdCard D}.

Record fat := Fat {
  volumes : gmap Z volume;
  volume_base : Z;
  volume_bitmask : Z;
  mount_buffer : list Z;
  dev : D;
  heap : mm
}.

Definition with_volumes (x : gmap Z volume) (s : fat) : fat :=
  Fat x (volume_base s) (volume_bitmask s) (mount_buffer s) (dev s) (heap s).
Definition with_base (x : Z) (s : fat) : fat :=
  Fat (volumes s) x (volume_bitmask s) (mount_buffer s) (dev s) (heap s).
Definition with_bitmask (x : Z) (s : fat) : fat :=
  Fat (volumes s) (volume_base s) x (mount_buffer s) (dev s) (heap s).
Definition with_mount_buffer (x : list Z) (s : fat) : fat :=
  Fat (volumes s) (volume_base s) (volume_bitmask s) x (dev s) (heap s).
Definition with_dev (x : D) (s : fat) : fat :=
  Fat (volumes s) (volume_base s) (volume_bitmask s) (mount_buffer s) x (heap s).
Definition with_heap (x : mm) (s : fat) : fat :=
  Fat (volumes s) (volume_base s) (volume_bitmask s) (mount_buffer s) (dev s) x.

Definition in_dev {A} (c : M D A) : M fat A := zoom dev with_dev c.
Definition in_heap {A} (c : M mm A) : M fat A := zoom heap with_heap c.

Definition get_vol (vol : Z) : M fat volume :=
  λ s, match volumes s !! vol with Some v => Ret (v, s) | None => UB end.
Definition upd_vol (vol : Z) (f : volume → volume) : M fat unit :=
  let* v := get_vol vol in modify (λ s, with_volumes (<[vol := f v]> (volumes s)) s).

(** [fat_flush] and [fat_read]: the sector buffer of the volume. *)
Definition fat_flush (vol : Z) : M fat Z :=
  let* v := get_vol vol in
  if negb (buffer_dirty v =? 0) then
    let* ok := in_dev (disk_write (vdisk v) (buffer v) (buffer_lba v) 1) in
    if ok =? 0 then ret 0 else
    upd_vol vol (set_dirty 0) ;; ret 1
  else ret 1.

Definition fat_read (vol lba : Z) : M fat Z :=
  let* v := get_vol vol in
  if negb (buffer_lba v =? lba) then
    let* ok := fat_flush vol in
    if ok =? 0 then ret 0 else
    let* v := get_vol vol in
    let* r := in_dev (disk_read (vdisk v) (buffer v) lba 1) in
    upd_vol vol (set_buffer r.2) ;;
    if r.1 =? 0 then ret 0 else
    upd_vol vol (set_buffer_lba lba) ;; ret 1
  else ret 1.

(** The buffer as a byte array. *)
Definition vload32 (vol off : Z) : M fat Z :=
  let* v := get_vol vol in of_option (fat_load32 (buffer v) off).
Definition vload16 (vol off : Z) : M fat Z :=
  let* v := get_vol vol in of_option (fat_load16 (buffer v) off).
Definition vpeek (vol off : Z) : M fat Z :=
  let* v := get_vol vol in of_option (peek (buffer v) off).
Definition vstore32 (vol off value : Z) : M fat unit :=
  let* v := get_vol vol in
  let* b := of_option (fat_store32 (buffer v) off value) in
  upd_vol vol (set_buffer b).
Definition vpoke (vol off value : Z) : M fat unit :=
  let* v := get_vol vol in
  let* b := of_option (poke (buffer v) off value) in
  upd_vol vol (set_buffer b).

(** Addresses; dividing by a cluster size of 0 is undefined. *)
Definition fat_sect_to_clust (v : volume) (sect : Z) : option Z :=
  if cluster_size v =? 0 then None else Some (u32 (u32 (sect - data_lba v) / cluster_size v + 2)).
Definition fat_clust_to_sect (v : volume) (clust : Z) : Z :=
  u32 (u32 (u32 (clust - 2) * cluster_size v) + data_lba v).

(** [fat_table_get]: the status and the entry. *)
Definition fat_table_get (vol cluster : Z) : M fat (Z * Z) :=
  let* v := get_vol vol in
  let start_sect := u32 (fat_lba v + cluster / 128) in
  let start_off := cluster mod 128 in
  let* ok := fat_read vol start_sect in
  if ok =? 0 then ret (0, 0) else
  let* e := vload32 vol (start_off * 4) in
  ret (1, e).

Definition fat_table_set (vol cluster fat_entry : Z) : M fat Z :=
  let* v := get_vol vol in
  let start_sect := u32 (fat_lba v + cluster / 128) in
  let start_offset := cluster mod 128 in
  let* ok := fat_read vol start_sect in
  if ok =? 0 then ret 0 else
  vstore32 vol (4 * start_offset) fat_entry ;;
  upd_vol vol (set_dirty 1) ;;
  let* _ := fat_flush vol in
  ret 1.

(** The search loop of [fat_get_cluster]; it gives the status, the cluster
    found and where the search stopped. *)
Fixpoint get_cluster_loop (fuel : nat) (vol sector rw match_found cluster : Z) : M fat (Z * Z * Z * Z) :=
  match fuel with
  | O => hang
  | S f =>
      let* ok := fat_read vol sector in
      if ok =? 0 then ret (0, cluster, sector, rw) else
      let* entry := vload32 vol rw in
      let* v := get_vol vol in
      let next_entry (match_found cluster : Z) :=
        let rw := u32 (rw + 4) in
        if sector_size v <=? rw then get_cluster_loop f vol (u32 (sector + 1)) 0 match_found cluster
        else get_cluster_loop f vol sector rw match_found cluster in
      if Z.land entry 127 =? 0 then
        if negb (match_found =? 0) then ret (1, cluster, sector, rw)
        else
          let cluster := u32 (128 * (sector - fat_lba v) + rw / 4) in
          vstore32 vol rw 0xFFFFFFF ;;
          upd_vol vol (set_dirty 1) ;;
          next_entry 1 cluster
      else next_entry match_found cluster
  end.

(** [fat_get_cluster]: the status and the cluster. *)
Definition fat_get_cluster (fuel : nat) (vol : Z) : M fat (Z * Z) :=
  let* v := get_vol vol in
  let* ok := fat_read vol (fsinfo_lba v) in
  if ok =? 0 then ret (0, 0) else
  let* next_free := vload32 vol INFO_NEXT_FREE in
  let* tot_free := vload32 vol INFO_CLUST_CNT in
  let* r := get_cluster_loop fuel vol (u32 (fat_lba v + next_free / 128)) (next_free mod 128 * 4) 0 0 in
  let '(ok, cluster, sector, rw) := r in
  if ok =? 0 then ret (0, cluster) else
  let* ok := fat_read vol (fsinfo_lba v) in
  if ok =? 0 then ret (0, cluster) else
  vstore32 vol INFO_NEXT_FREE (u32 (128 * (sector - fat_lba v) + rw / 4)) ;;
  vstore32 vol INFO_CLUST_CNT (u32 (tot_free - 1)) ;;
  upd_vol vol (set_dirty 1) ;;
  let* _ := fat_flush vol in
  ret (1, cluster).

(** The end-of-chain marks. *)
Definition is_eoc (entry : Z) : bool :=
  let eoc_value := Z.land entry 0xFFFFFFF in (0xFFFFFF8 <=? eoc_value) && (eoc_value <=? 0xFFFFFFF).

(** [fat_dir_get_next] and [fat_file_addr_resolve] step over the end of a
    sector and of a cluster.  They give the status and the new position. *)
Definition fat_dir_get_next (d : dir) : M fat (Z * dir) :=
  let rw := u32 (d_rw_offset d + 32) in
  let* v := get_vol (d_vol d) in
  if sector_size v <=? rw then
    let rw := u32 (rw - sector_size v) in
    let sector := u32 (d_sector d + 1) in
    if u32 (fat_clust_to_sect v (d_cluster d) + cluster_size v) <=? sector then
      let d1 := Dir sector (d_cluster d) rw (d_start_sect d) (d_size d) (d_vol d) in
      let* r := fat_table_get (d_vol d) (d_cluster d) in
      if r.1 =? 0 then ret (0, d1) else
      if is_eoc r.2 then ret (0, d1) else
      let* v := get_vol (d_vol d) in
      ret (1, Dir (fat_clust_to_sect v r.2) r.2 rw (d_start_sect d) (d_size d) (d_vol d))
    else ret (1, Dir sector (d_cluster d) rw (d_start_sect d) (d_size d) (d_vol d))
  else ret (1, Dir (d_sector d) (d_cluster d) rw (d_start_sect d) (d_size d) (d_vol d)).

Definition fat_file_addr_resolve (fl : file) : M fat (Z * file) :=
  let* v := get_vol (f_vol fl) in
  if sector_size v <=? f_rw_offset fl then
    let rw := u32 (f_rw_offset fl - sector_size v) in
    let sector := u32 (f_sector fl + 1) in
    let f1 := File sector (f_cluster fl) rw (f_size fl) (f_start_sect fl) (f_glob_offset fl) (f_vol fl) in
    if u32 (fat_clust_to_sect v (f_cluster fl) + cluster_size v) <=? sector then
      let* r := fat_table_get (f_vol fl) (f_cluster fl) in
      if r.1 =? 0 then ret (0, f1) else
      if is_eoc r.2 then ret (0, f1) else
      let* v := get_vol (f_vol fl) in
      ret (1, File (fat_clust_to_sect v r.2) r.2 rw (f_size fl) (f_start_sect fl) (f_glob_offset fl) (f_vol fl))
    else ret (1, f1)
  else ret (1, fl).

(** ** Volumes *)

Fixpoint volume_in_list (fuel : nat) (tmp vol : Z) : M fat bool :=
  match fuel with
  | O => hang
  | S f =>
      if negb (tmp =? NULL) then
        if tmp =? vol then ret true else
        let* v := get_vol tmp in volume_in_list f (next v) vol
      else ret false
  end.
Fixpoint volume_last (fuel : nat) (vol_it : Z) : M fat Z :=
  match fuel with
  | O => hang
  | S f => let* v := get_vol vol_it in
      if negb (next v =? NULL) then volume_last f (next v) else ret vol_it
  end.
(** The first of the 32 letters that is free. *)
Fixpoint assign_letter (n : nat) (i vol : Z) : M fat unit :=
  match n with
  | O => ret tt
  | S n =>
      let* mask := gets volume_bitmask in
      if Z.land mask (Z.shiftl 1 i) =? 0 then
        modify (with_bitmask (u32 (Z.lor mask (Z.shiftl 1 i)))) ;;
        upd_vol vol (set_letter (u8 (67 + i)))
      else assign_letter n (i + 1) vol
  end.

Definition fat_volume_add (fuel : nat) (vol : Z) : M fat Z :=
  let* base := gets volume_base in
  let* present := volume_in_list fuel base vol in
  if present then ret 0 else
  (if base =? NULL then modify (with_base vol)
   else let* last := volume_last fuel base in upd_vol last (set_next vol)) ;;
  upd_vol vol (set_next NULL) ;;
  assign_letter 32 0 vol ;;
  ret 1.

(** The search of [fat_volume_remove]: the volume with the letter and its
    predecessor. *)
Fixpoint volume_find (fuel : nat) (prev curr letter_ : Z) : M fat (Z * Z) :=
  match fuel with
  | O => hang
  | S f =>
      if negb (curr =? NULL) then
        let* v := get_vol curr in
        if letter v =? letter_ then ret (prev, curr) else volume_find f curr (next v) letter_
      else ret (prev, curr)
  end.

(** Clears the letter's bit; a shift by more than 31 is undefined. *)
Definition release_letter (curr : Z) : M fat Z :=
  let* v := get_vol curr in
  let bit_pos := u8 (letter v - 67) in
  if 31 <? bit_pos then ub else
  modify (λ s, with_bitmask (Z.land (volume_bitmask s) (u32 (Z.lnot (Z.shiftl 1 bit_pos)))) s) ;;
  ret 1.

Definition fat_volume_remove (fuel : nat) (letter_ : Z) : M fat Z :=
  let* base := gets volume_base in
  if base =? NULL then ret 0 else
  let* v := get_vol base in
  if letter v =? letter_ then
    modify (with_base (next v)) ;; release_letter base
  else
    let* r := volume_find fuel base (next v) letter_ in
    let '(prev, curr) := r in
    if curr =? NULL then ret 0 else
    let* c := get_vol curr in
    upd_vol prev (set_next (next c)) ;; release_letter curr.

Definition volume_get_first : M fat Z := gets volume_base.

Fixpoint volume_get_loop (fuel : nat) (vol letter_ : Z) : M fat Z :=
  match fuel with
  | O => hang
  | S f =>
      if negb (vol =? NULL) then
        let* v := get_vol vol in
        if letter v =? letter_ then ret vol else volume_get_loop f (next v) letter_
      else ret NULL
  end.
Definition volume_get (fuel : nat) (letter_ : Z) : M fat Z :=
  let* base := gets volume_base in volume_get_loop fuel base letter_.

(** ** Directories *)

(** Rewinding of [fat_dir_search]. *)
Definition dir_rewind (d : dir) : M fat dir :=
  if negb (d_start_sect d =? d_sector d) then
    let* v := get_vol (d_vol d) in
    let* c := of_option (fat_sect_to_clust v (d_start_sect d)) in
    ret (Dir (d_start_sect d) c 0 (d_start_sect d) (d_size d) (d_vol d))
  else ret d.

(** The loop of [fat_dir_search]; the name starts at [n_off] in [path]. *)
Fixpoint dir_search_loop (fuel : nat) (d : dir) (path : list Z) (n_off size lfn_crc lfn_match : Z) : M fat (Z * dir) :=
  match fuel with
  | O => hang
  | S f =>
      let* ok := fat_read (d_vol d) (d_sector d) in
      if ok =? 0 then ret (0, d) else
      let* v := get_vol (d_vol d) in
      let b := buffer v in
      let rw := d_rw_offset d in
      let advance (lfn_crc lfn_match : Z) :=
        let* r := fat_dir_get_next d in
        if r.1 =? 0 then ret (0, r.2) else dir_search_loop f r.2 path n_off size lfn_crc lfn_match in
      let* sfn_tmp := of_option (peek b rw) in
      if sfn_tmp =? 0 then ret (0, d) else
      if negb ((sfn_tmp =? 0) || (sfn_tmp =? 5) || (sfn_tmp =? 0xE5)) then
        let* attr := of_option (peek b (rw + SFN_ATTR)) in
        if Z.land attr ATTR_LFN =? ATTR_LFN then
          let* same := of_option (fat_dir_lfn_cmp b rw path n_off size) in
          let* crc := of_option (peek b (rw + LFN_CRC)) in
          advance crc (if same =? 0 then 0 else lfn_match)
        else
          let* match_ :=
            (if negb (lfn_crc =? 0) && negb (lfn_match =? 0) then
               let* crc := of_option (fat_get_sfn_crc b rw) in
               ret (if lfn_crc =? crc then 1 else 0)
             else of_option (fat_dir_sfn_cmp b rw path n_off (u8 size))) in
          if negb (match_ =? 0) then
            let* hi := of_option (fat_load16 b (rw + SFN_CLUSTH)) in
            let* lo := of_option (fat_load16 b (rw + SFN_CLUSTL)) in
            let* sz := of_option (fat_load32 b (rw + SFN_FILE_SIZE)) in
            let cluster := u32 (Z.lor (Z.shiftl hi 16) lo) in
            let sector := fat_clust_to_sect v cluster in
            ret (1, Dir sector cluster 0 sector sz (d_vol d))
          else advance 0 1
      else advance lfn_crc lfn_match
  end.
Definition fat_dir_search (fuel : nat) (d : dir) (path : list Z) (n_off size : Z) : M fat (Z * dir) :=
  let* d := dir_rewind d in dir_search_loop fuel d path n_off size 0 1.

(** A path is the array of its characters with the terminator. *)
Definition slash : Z := 47.

(** [while ( *path && ( *path != '/')) path++] *)
Fixpoint skip_name (fuel : nat) (path : list Z) (i : Z) : M fat Z :=
  match fuel with
  | O => hang
  | S f => let* c := of_option (peek path i) in
      if negb (c =? 0) && negb (c =? slash) then skip_name f path (i + 1) else ret i
  end.
(** The length of the next name, or none for a name with a dot. *)
Fixpoint frag_length (fuel : nat) (path : list Z) (i frag_size : Z) : M fat (option Z) :=
  match fuel with
  | O => hang
  | S f => let* c := of_option (peek path i) in
      if negb (c =? 0) && negb (c =? slash) then
        if c =? 46 then ret None else frag_length f path (i + 1) (u8 (frag_size + 1))
      else ret (Some frag_size)
  end.
Fixpoint follow_loop (fuel : nat) (d : dir) (path : list Z) (i : Z) : M fat (fstatus * dir) :=
  match fuel with
  | O => hang
  | S f =>
      let* i := skip_name fuel path i in
      let* c := of_option (peek path i) in
      let i := i + 1 in
      if c =? 0 then ret (FSTATUS_OK, d) else
      let* c := of_option (peek path i) in
      if c =? 0 then ret (FSTATUS_OK, d) else
      let* n := frag_length fuel path i 0 in
      match n with
      | None => ret (FSTATUS_OK, d)
      | Some frag_size =>
          let* r := fat_dir_search fuel d path i frag_size in
          if r.1 =? 0 then ret (FSTATUS_OK, r.2) else follow_loop f r.2 path i
      end
  end.

(** [fat_follow_path]; [d] is the caller's directory object. *)
Definition fat_follow_path (fuel : nat) (d : dir) (path : list Z) : M fat (fstatus * dir) :=
  let* c := of_option (peek path 0) in
  let* vol := volume_get fuel c in
  if vol =? NULL then ret (FSTATUS_NO_VOLUME, d) else
  let* v := get_vol vol in
  let d := Dir (root_lba v) (fat_clust_to_sect v (root_lba v)) 0 (root_lba v) (d_size d) vol in
  let* c := of_option (peek path 1) in
  if negb (c =? 58) then ret (FSTATUS_PATH_ERR, d) else
  let* c := of_option (peek path 2) in
  if negb (c =? slash) then ret (FSTATUS_PATH_ERR, d) else
  follow_loop fuel d path 2.

(** The loop of [fat_get_vol_label]; it gives the characters it copies. *)
Fixpoint vol_label_loop (fuel : nat) (vol : Z) (d : dir) : M fat (fstatus * list Z) :=
  match fuel with
  | O => hang
  | S f =>
      let* ok := fat_read vol (d_sector d) in
      if ok =? 0 then ret (FSTATUS_ERROR, []) else
      let* attribute := vpeek vol (d_rw_offset d + SFN_ATTR) in
      let* v := get_vol vol in
      if negb (Z.land attribute ATTR_VOL_LABEL =? 0) && negb (Z.land attribute ATTR_LFN =? ATTR_LFN)
      then ret (fstatus_1, take 11 (drop (Z.to_nat (d_rw_offset d)) (buffer v)))
      else
        let* r := fat_dir_get_next d in
        if r.1 =? 0 then ret (FSTATUS_ERROR, []) else vol_label_loop f vol r.2
  end.
Definition root_dir (vol : Z) : M fat dir :=
  let* v := get_vol vol in
  let* c := of_option (fat_sect_to_clust v (root_lba v)) in
  ret (Dir (root_lba v) c 0 0 0 vol).
Definition fat_get_vol_label (fuel : nat) (vol : Z) : M fat (fstatus * list Z) :=
  let* d := root_dir vol in vol_label_loop fuel vol d.

(** The characters [volume_set_label] stores: the name padded with spaces. *)
Definition label_char (name : list Z) (length_ i : Z) : option Z :=
  if length_ <=? i then Some 32 else peek name i.
Fixpoint set_label_chars (n : nat) (vol off : Z) (name : list Z) (length_ i : Z) : M fat unit :=
  match n with
  | O => ret tt
  | S n =>
      let* c := of_option (label_char name length_ i) in
      vpoke vol (off + i) c ;;
      upd_vol vol (set_dirty 1) ;;
      set_label_chars n vol off name length_ (i + 1)
  end.
Fixpoint set_label_loop (fuel : nat) (vol : Z) (d : dir) (name : list Z) (length_ : Z) : M fat fstatus :=
  match fuel with
  | O => hang
  | S f =>
      let* ok := fat_read vol (d_sector d) in
      if ok =? 0 then ret FSTATUS_ERROR else
      let* attribute := vpeek vol (d_rw_offset d + SFN_ATTR) in
      if negb (Z.land attribute ATTR_VOL_LABEL =? 0) && negb (Z.land attribute ATTR_LFN =? ATTR_LFN)
      then
        set_label_chars 11 vol (d_rw_offset d) name length_ 0 ;;
        let* _ := fat_flush vol in
        ret fstatus_1
      else
        let* r := fat_dir_get_next d in
        if r.1 =? 0 then ret FSTATUS_OK else set_label_loop f vol r.2 name length_
  end.
Definition volume_set_label (fuel : nat) (vol : Z) (name : list Z) (length_ : Z) : M fat fstatus :=
  let* d := root_dir vol in set_label_loop fuel vol d name length_.
Definition volume_get_label (fuel : nat) (vol : Z) : M fat (fstatus * list Z) := fat_get_vol_label fuel vol.
Definition volume_format : M fat fstatus := ret FSTATUS_OK.

Definition fat_dir_open (fuel : nat) (d : dir) (path : list Z) : M fat (fstatus * dir) :=
  fat_follow_path fuel d path.
Definition fat_dir_close (d : dir) : M fat fstatus :=
  let* ok := fat_flush (d_vol d) in
  ret (if ok =? 0 then FSTATUS_ERROR else FSTATUS_OK).

(** The name characters of a long entry: 0x00 and 0xFF are left out, and a
    store outside the 256 characters of the name is undefined. *)
Fixpoint lfn_chars (lut : list Z) (i : Z) (b : list Z) (off : Z) (name : list Z) (name_offset name_length : Z)
    : option (list Z * Z) :=
  match lut with
  | [] => Some (name, name_length)
  | o :: lut =>
      c ← peek b (off + o);
      if (c =? 0) || (c =? 255) then lfn_chars lut (i + 1) b off name name_offset name_length
      else
        name' ← poke name (name_offset + i) c;
        lfn_chars lut (i + 1) b off name' name_offset (u8 (name_length + 1))
  end.
Fixpoint sfn_chars (n : nat) (i : Z) (b : list Z) (off : Z) (name : list Z) (name_length : Z)
    : option (list Z * Z) :=
  match n with
  | O => Some (name, name_length)
  | S n => c ← peek b (off + i); name' ← poke name i c; sfn_chars n (i + 1) b off name' (u8 (name_length + 1))
  end.

(** The fields of the short entry. *)
Definition entry_info (b : list Z) (off : Z) (name : list Z) (name_length : Z) : option info :=
  attr ← peek b (off + SFN_ATTR);
  tenth ← peek b (off + SFN_CTIME_TH);
  ct ← fat_load16 b (off + SFN_CTIME);
  cd ← fat_load16 b (off + SFN_CDATE);
  wt ← fat_load16 b (off + SFN_WTIME);
  wd ← fat_load16 b (off + SFN_WDATE);
  ad ← fat_load16 b (off + SFN_ADATE);
  sz ← fat_load32 b (off + SFN_FILE_SIZE);
  Some (Info name name_length attr tenth ct cd ad wt wd sz).

Definition with_name (n : list Z) (i : info) : info :=
  Info n (i_name_length i) (i_attribute i) (i_c_time_tenth i) (i_c_time i) (i_c_date i) (i_a_date i)
    (i_w_time i) (i_w_date i) (i_size i).

(** [fat_dir_read]; the result of [fat_dir_get_next] is not looked at. *)
Fixpoint dir_read_loop (fuel : nat) (d : dir) (inf : info) (lfn_crc name_length : Z) : M fat (fstatus * dir * info) :=
  match fuel with
  | O => hang
  | S f =>
      let* ok := fat_read (d_vol d) (d_sector d) in
      if ok =? 0 then ret (FSTATUS_ERROR, d, inf) else
      let* v := get_vol (d_vol d) in
      let b := buffer v in
      let off := d_rw_offset d in
      let* sfn_check := of_option (peek b off) in
      if sfn_check =? 0 then ret (FSTATUS_EOF, d, inf) else
      if negb (sfn_check =? 0xE5) && negb (sfn_check =? 5) then
        let* attr := of_option (peek b (off + SFN_ATTR)) in
        if Z.land attr ATTR_LFN =? ATTR_LFN then
          let name_offset := u8 (13 * (Z.land sfn_check LFN_SEQ_MSK - 1)) in
          let* r := of_option (lfn_chars lfn_lut 0 b off (i_name inf) name_offset name_length) in
          let* crc := of_option (peek b (off + LFN_CRC)) in
          let* n := fat_dir_get_next d in
          dir_read_loop f n.2 (with_name r.1 inf) crc r.2
        else
          let* crc := of_option (fat_get_sfn_crc b off) in
          if negb (lfn_crc =? 0) && negb (lfn_crc =? crc) then ret (FSTATUS_ERROR, d, inf) else
          let* r := of_option (if negb (lfn_crc =? 0) then Some (i_name inf, name_length)
                               else sfn_chars 11 0 b off (i_name inf) name_length) in
          let* i := of_option (entry_info b off r.1 r.2) in
          let* n := fat_dir_get_next d in
          ret (FSTATUS_OK, n.2, i)
      else
        let* n := fat_dir_get_next d in
        dir_read_loop f n.2 inf lfn_crc name_length
  end.
Definition fat_dir_read (fuel : nat) (d : dir) (inf : info) : M fat (fstatus * dir * info) :=
  dir_read_loop fuel d inf 0 0.

Definition fat_dir_make : M fat fstatus := ret FSTATUS_OK.

(** [fat_dir_rename] renames nothing: it compares entry counts and prints them. *)
Definition fat_dir_rename (d : dir) : M fat fstatus :=
  let* ok := fat_read (d_vol d) (d_sector d) in
  if ok =? 0 then ret FSTATUS_ERROR else
  let* _ := vpeek (d_vol d) (d_rw_offset d + SFN_ATTR) in
  ret FSTATUS_OK.

(** ** Files *)

(** The search back for the last name of the path, [char_ptr] at [i]. *)
Fixpoint last_name (fuel : nat) (path : list Z) (i frag_size : Z) : M fat (Z * Z) :=
  match fuel with
  | O => hang
  | S f => let* c := of_option (peek path i) in
      if negb (c =? slash) && negb (c =? 0) then last_name f path (i - 1) (u8 (frag_size + 1))
      else ret (i, frag_size)
  end.

(** [fat_file_open]; the file object is given only when it is set. *)
Definition fat_file_open (fuel : nat) (path : list Z) (length_ : Z) : M fat (fstatus * option file) :=
  let* r := fat_follow_path fuel (Dir 0 0 0 0 0 0) path in
  match r.1 with
  | FSTATUS_OK =>
      let* c := of_option (peek path (length_ - 1)) in
      if c =? 0 then ret (FSTATUS_PATH_ERR, None) else
      let i := if c =? slash then length_ - 2 else length_ - 1 in
      let* n := last_name fuel path i 0 in
      let* c := of_option (peek path n.1) in
      if c =? 0 then ret (FSTATUS_PATH_ERR, None) else
      let* s := fat_dir_search fuel r.2 path (n.1 + 1) n.2 in
      if s.1 =? 0 then ret (FSTATUS_PATH_ERR, None) else
      let d := s.2 in
      ret (FSTATUS_OK, Some (File (d_sector d) (d_cluster d) 0 (d_size d) (d_sector d) 0 (d_vol d)))
  | st => ret (st, None)
  end.

Definition fat_file_close (fl : file) : M fat fstatus :=
  let* ok := fat_flush (f_vol fl) in
  ret (if ok =? 0 then FSTATUS_ERROR else FSTATUS_OK).

(** [fat_file_read]: the status, the file, the bytes read and their count. *)
Fixpoint file_read_loop (count : nat) (fl : file) (sector_size_ file_size : Z) (acc : list Z)
    : M fat (fstatus * file * list Z) :=
  match count with
  | O => ret (FSTATUS_OK, fl, acc)
  | S count =>
      let* r :=
        (if sector_size_ <=? f_rw_offset fl then
           let* a := fat_file_addr_resolve fl in
           let* ok := fat_read (f_vol a.2) (f_sector a.2) in
           ret (ok, a.2)
         else ret (1, fl)) in
      if r.1 =? 0 then ret (FSTATUS_ERROR, r.2, acc) else
      let fl := r.2 in
      let* b := vpeek (f_vol fl) (f_rw_offset fl) in
      let fl := File (f_sector fl) (f_cluster fl) (u32 (f_rw_offset fl + 1)) (f_size fl) (f_start_sect fl)
                  (u32 (f_glob_offset fl + 1)) (f_vol fl) in
      if file_size <=? f_glob_offset fl then ret (FSTATUS_OK, fl, acc ++ [b])
      else file_read_loop count fl sector_size_ file_size (acc ++ [b])
  end.
Definition fat_file_read (fl : file) (count : nat) : M fat (fstatus * file * list Z) :=
  let* v := get_vol (f_vol fl) in
  let* ok := fat_read (f_vol fl) (f_sector fl) in
  if ok =? 0 then ret (FSTATUS_ERROR, fl, []) else
  file_read_loop count fl (sector_size v) (f_size fl) [].

Definition fat_file_write : M fat fstatus := ret FSTATUS_OK.

(** The cluster loop of [fat_file_jump]: nothing when it returns early, with
    the status, and the cluster reached. *)
Fixpoint jump_loop (cluster_offset : nat) (vol cluster : Z) : M fat (option fstatus * Z) :=
  match cluster_offset with
  | O => ret (None, cluster)
  | S n =>
      let* r := fat_table_get vol cluster in
      if r.1 =? 0 then ret (Some FSTATUS_ERROR, cluster) else
      if is_eoc r.2 then ret (Some FSTATUS_OK, cluster) else
      jump_loop n vol r.2
  end.
Definition fat_file_jump (fl : file) (offset : Z) : M fat (fstatus * file) :=
  let* v := get_vol (f_vol fl) in
  let* cluster := of_option (fat_sect_to_clust v (f_start_sect fl)) in
  if sector_size v =? 0 then ub else
  let sector_offset := offset / sector_size v in
  let cluster_offset := sector_offset / cluster_size v in
  let sector_offset := sector_offset mod cluster_size v in
  let* r := jump_loop (Z.to_nat cluster_offset) (f_vol fl) cluster in
  match r.1 with
  | Some st => ret (st, File (f_sector fl) r.2 (f_rw_offset fl) (f_size fl) (f_start_sect fl) (f_glob_offset fl) (f_vol fl))
  | None =>
      let* v := get_vol (f_vol fl) in
      ret (FSTATUS_OK, File (u32 (fat_clust_to_sect v r.2 + sector_offset)) r.2 (offset mod sector_size v)
             (f_size fl) (f_start_sect fl) offset (f_vol fl))
  end.

(** ** Mounting *)

(** The entry of the partition table at [offset]. *)
Definition load_partition (b : list Z) (offset : Z) : option partition :=
  lba ← fat_load32 b (offset + PAR_LBA);
  sz ← fat_load32 b (offset + PAR_SIZE);
  ty ← peek b (offset + PAR_TYPE);
  st ← peek b (offset + PAR_STATUS);
  Some (Partition lba sz st ty).

(** The volume at [p] in fresh memory, with the fields [disk_mount] sets. *)
Definition new_volume (m : mem) (p : Z) (dk : disk) (par : partition) (b : list Z) : option volume :=
  sect ← fat_load16 b BPB_SECTOR_SIZE;
  csize ← peek b BPB_CLUSTER_SIZE;
  total ← fat_load32 b BPB_TOT_SECT_32;
  fsinfo ← fat_load16 b BPB_32_FSINFO;
  rsvd ← fat_load16 b BPB_RSVD_CNT;
  fsize ← fat_load32 b BPB_32_FAT_SIZE;
  fats ← peek b BPB_NUM_FATS;
  root ← fat_load32 b BPB_32_ROOT_CLUST;
  let fat_lba_ := u32 (p_lba par + rsvd) in
  let v0 := Volume (ld32 m p) ((λ i, ld8 m (p + 4 + i)) <$> seqZ 0 13) (ld8 m (p + 17)) sect csize total
              fat_lba_ (u32 (p_lba par + fsinfo)) (u32 (fat_lba_ + u32 (fsize * fats))) 0
              ((λ i, ld8 m (p + 44 + i)) <$> seqZ 0 512) 0 dk 0 in
  Some (Volume (next v0) (label v0) (letter v0) (sector_size v0) (cluster_size v0) (total_size v0) (fat_lba v0)
          (fsinfo_lba v0) (data_lba v0) (fat_clust_to_sect v0 root) (buffer v0) 0 dk 0).

Definition mount_partition (fuel : nat) (dk : disk) (par : partition) : M fat unit :=
  if negb (p_lba par =? 0) then
    let* b := gets mount_buffer in
    let* r := in_dev (disk_read dk b (p_lba par) 1) in
    modify (with_mount_buffer r.2) ;;
    if r.1 =? 0 then panic "Disk error" else
    let* found := of_option (fat_search r.2) in
    if negb (found =? 0) then
      let* p := in_heap (mm_alloc mm_fuel sizeof_volume 0) in
      if p =? NULL then ub else
      let* h := gets heap in
      let* v := of_option (new_volume (mm_mem h) p dk par r.2) in
      modify (λ s, with_volumes (<[p := v]> (volumes s)) s) ;;
      let* l := fat_get_vol_label fuel p in
      upd_vol p (λ v, set_label (l.2 ++ drop (length l.2) (label v)) v) ;;
      let* _ := fat_volume_add fuel p in
      ret tt
    else ret tt
  else ret tt.

Fixpoint mount_partitions (fuel : nat) (dk : disk) (pars : list partition) : M fat unit :=
  match pars with
  | [] => ret tt
  | par :: pars => mount_partition fuel dk par ;; mount_partitions fuel dk pars
  end.

Definition disk_mount (fuel : nat) (dk : disk) : M fat Z :=
  let* st := in_dev (disk_get_status dk) in
  if st =? 0 then panic "SD card not connected" else
  let* ok := in_dev (disk_initialize dk) in
  if ok =? 0 then panic "SD protocol error" else
  let* b := gets mount_buffer in
  let* r := in_dev (disk_read dk b 0 1) in
  modify (with_mount_buffer r.2) ;;
  if r.1 =? 0 then panic "Read failed" else
  let* sig := of_option (fat_load16 r.2 MBR_BOOT_SIG) in
  if negb (sig =? MBR_BOOT_SIG_VALUE) then ret 0 else
  let* p0 := of_option (load_partition r.2 MBR_PARTITION) in
  let* p1 := of_option (load_partition r.2 (MBR_PARTITION + MBR_PARTITION_SIZE)) in
  let* p2 := of_option (load_partition r.2 (MBR_PARTITION + 2 * MBR_PARTITION_SIZE)) in
  let* p3 := of_option (load_partition r.2 (MBR_PARTITION + 3 * MBR_PARTITION_SIZE)) in
  mount_partitions fuel dk [p0; p1; p2; p3] ;;
  ret 1.

(** The loop of [disk_eject]: a volume that is freed can no longer be read. *)
Fixpoint eject_loop (fuel : nat) (dk : disk) (vol : Z) : M fat Z :=
  match fuel with
  | O => hang
  | S f =>
      if negb (vol =? NULL) then
        let* v := get_vol vol in
        (* every volume is on the only disk *)
        let* ok := match vdisk v, dk with
          | DISK_SD_CARD, DISK_SD_CARD =>
              let* ok := fat_volume_remove fuel (letter v) in
              if ok =? 0 then ret 0 else
              in_heap (mm_free mm_fuel vol) ;;
              modify (λ s, with_volumes (delete vol (volumes s)) s) ;;
              ret 1
          end in
        if ok =? 0 then ret 0 else
        let* v := get_vol vol in
        eject_loop f dk (next v)
      else ret 1
  end.
Definition disk_eject (fuel : nat) (dk : disk) : M fat Z :=
  let* vol := volume_get_first in eject_loop fuel dk vol.
End Fat32.
