(* ===== verification/Fat32Proof.v ===== *)
(** * The sector buffer, the FAT and files

    The contents of a volume seen through its sector buffer, and the
    specifications of the operations that read and write it. *)

From S2P Require Import Prelude Memory Mm Palloc SchedSpec Fat32.

(** ** Loads and stores *)

Lemma peek_Some b i : 0 <= i → peek b i = b !! Z.to_nat i.
Proof. intros Hi. unfold peek. by rewrite (proj2 (Z.ltb_ge _ _)). Qed.

Lemma poke_Some b i v :
  0 <= i < Z.of_nat (length b) → poke b i v = Some (<[Z.to_nat i := u8 v]> b).
Proof. intros Hi. unfold poke. rewrite (proj2 (Z.leb_le _ _)), (proj2 (Z.ltb_lt _ _)) by lia. done. Qed.

Definition word_at (b : list Z) (off : nat) : Z := le_join (take 4 (drop off b)).

Lemma take_4 {A} (l : list A) k :
  (k + 4 <= length l)%nat →
  ∃ a b c d, take 4 (drop k l) = [a; b; c; d] ∧ l !! k = Some a ∧ l !! (k + 1)%nat = Some b ∧
    l !! (k + 2)%nat = Some c ∧ l !! (k + 3)%nat = Some d.
Proof.
  intros Hl. assert (length (take 4 (drop k l)) = 4%nat) as H4 by (rewrite length_take, length_drop; lia).
  destruct (take 4 (drop k l)) as [|a [|b [|c [|d [|]]]]] eqn:E; try discriminate H4.
  assert (∀ i x, [a; b; c; d] !! i = Some x → l !! (k + i)%nat = Some x) as Hi.
  { intros i x Hx. rewrite <- E in Hx. pose proof (lookup_lt_Some _ _ _ Hx) as Hlt.
    rewrite length_take in Hlt. rewrite lookup_take_lt in Hx by lia. by rewrite lookup_drop in Hx. }
  exists a, b, c, d. split_and!; [done|..].
  - rewrite <- (Nat.add_0_r k). by apply Hi.
  - by apply Hi.
  - by apply Hi.
  - by apply Hi.
Qed.

Lemma fat_load32_word b off :
  Forall byte b → 0 <= off → off + 4 <= Z.of_nat (length b) → fat_load32 b off = Some (word_at b (Z.to_nat off)).
Proof.
  intros Hb Ho Hl. unfold fat_load32, word_at. rewrite !peek_Some by lia.
  destruct (take_4 b (Z.to_nat off)) as (x0 & x1 & x2 & x3 & -> & E0 & E1 & E2 & E3); [lia|].
  replace (Z.to_nat (off + 1)) with (Z.to_nat off + 1)%nat by lia.
  replace (Z.to_nat (off + 2)) with (Z.to_nat off + 2)%nat by lia.
  replace (Z.to_nat (off + 3)) with (Z.to_nat off + 3)%nat by lia.
  rewrite E0, E1, E2, E3. cbn [mbind option_bind le_join].
  rewrite Forall_lookup in Hb. apply Hb in E0, E1, E2, E3. unfold byte in *.
  rewrite (lor_shiftl_add x0 x1 8), (lor_shiftl_add _ x2 16), (lor_shiftl_add _ x3 24) by lia.
  f_equal. nowrap. lia.
Qed.

Lemma list_inserts_step {A} k (x : A) xs l : list_inserts k (x :: xs) l = list_inserts (S k) xs (<[k := x]> l).
Proof. cbn [list_inserts]. apply list_insert_inserts_lt. lia. Qed.

Lemma fat_store32_word b off v :
  0 <= off → off + 4 <= Z.of_nat (length b) → 0 <= v < 2 ^ 32 →
  fat_store32 b off v = Some (list_inserts (Z.to_nat off) (le_split 4 v) b).
Proof.
  intros Ho Hl Hv. unfold fat_store32.
  rewrite poke_Some by lia. cbn [mbind option_bind]. rewrite poke_Some by (rewrite length_insert; lia).
  cbn [mbind option_bind]. rewrite poke_Some by (rewrite !length_insert; lia). cbn [mbind option_bind].
  rewrite poke_Some by (rewrite !length_insert; lia). f_equal.
  rewrite !Z.shiftr_div_pow2 by lia. unfold u8. cbn [le_split].
  replace (Z.to_nat (off + 1)) with (S (Z.to_nat off)) by lia.
  replace (Z.to_nat (off + 2)) with (S (S (Z.to_nat off))) by lia.
  replace (Z.to_nat (off + 3)) with (S (S (S (Z.to_nat off)))) by lia.
  change (2 ^ 8) with 256. change (2 ^ 16) with (256 * 256). change (2 ^ 24) with (256 * 256 * 256).
  rewrite <- !Z.div_div by lia. rewrite !list_inserts_step. done.
Qed.

Lemma word_inserts_same b k v :
  (k + 4 <= length b)%nat → 0 <= v < 2 ^ 32 → word_at (list_inserts k (le_split 4 v) b) k = v.
Proof.
  intros Hk Hv. unfold word_at.
  assert (take 4 (drop k (list_inserts k (le_split 4 v) b)) = le_split 4 v) as ->.
  { apply list_eq. intros i. destruct (decide (i < 4)%nat) as [Hi|Hi].
    - rewrite lookup_take_lt, lookup_drop by done.
      rewrite list_lookup_inserts by (rewrite ?length_le_split; lia). f_equal. lia.
    - rewrite lookup_take_ge by lia. symmetry. apply lookup_ge_None. rewrite length_le_split. lia. }
  rewrite le_join_split. apply Z.mod_small. done.
Qed.

Lemma word_inserts_other b k k' v :
  (k' + 4 <= k ∨ k + 4 <= k')%nat → word_at (list_inserts k (le_split 4 v) b) k' = word_at b k'.
Proof.
  intros Hk. unfold word_at. f_equal. apply list_eq. intros i. destruct (decide (i < 4)%nat) as [Hi|Hi].
  - rewrite !lookup_take_lt, !lookup_drop by done. destruct Hk.
    + by rewrite list_lookup_inserts_lt by lia.
    + by rewrite list_lookup_inserts_ge by (rewrite length_le_split; lia).
  - by rewrite !lookup_take_ge by lia.
Qed.

Lemma Forall_inserts (P : Z → Prop) k l b : Forall P l → Forall P b → Forall P (list_inserts k l b).
Proof.
  intros Hl. revert k; induction Hl as [|x l Hx _ IH]; intros k Hb; [done|]. cbn [list_inserts].
  apply Forall_insert; [by apply IH|done].
Qed.

(** ** The sector buffer *)

Section Fat32Proof.
Context {D : Type} `{SdCard D}.

#[local] Notation fat := (@Fat32.fat D).

(** The contents of a sector as the file system sees them. *)
Definition view (d : D) (v : volume) (lba : Z) : list Z :=
  if decide (lba = buffer_lba v) then buffer v else sd_sector d lba.

Record vol_wf (d : D) (v : volume) : Prop := {
  vw_len : length (buffer v) = 512%nat;
  vw_bytes : Forall byte (buffer v);
  vw_dirty : buffer_dirty v ≠ 0 → 0 < buffer_lba v < sd_capacity d;
  vw_clean : buffer_dirty v = 0 → buffer_lba v ≠ 0 → buffer v = sd_sector d (buffer_lba v)
}.

(** The volume with another sector in its buffer. *)
Definition cached (b : list Z) (lba dirty : Z) (v : volume) : volume :=
  set_dirty dirty (set_buffer_lba lba (set_buffer b v)).

Definition put_vol (a : Z) (v : volume) (d : D) (s : fat) : fat :=
  with_dev d (with_volumes (<[a := v]> (volumes s)) s).

(** The device's contents and its limits are those of before. *)
Definition same_card (d d' : D) : Prop := sd_ok d' ∧ sd_capacity d' = sd_capacity d.

Lemma bind_get_vol {B} a (k : volume → M fat B) s v :
  volumes s !! a = Some v → bind (get_vol a) k s = k v s.
Proof. intros E. unfold bind, get_vol. by rewrite E. Qed.

Lemma upd_vol_run a f (s : fat) v :
  volumes s !! a = Some v → upd_vol a f s = Ret (tt, with_volumes (<[a := f v]> (volumes s)) s).
Proof. intros E. unfold upd_vol, bind, get_vol. by rewrite E. Qed.

Lemma bind_upd_vol {B} a f (k : unit → M fat B) s v :
  volumes s !! a = Some v → bind (upd_vol a f) k s = k tt (with_volumes (<[a := f v]> (volumes s)) s).
Proof. intros E. by rewrite (bind_Ret _ _ _ _ _ (upd_vol_run a f s v E)). Qed.

Lemma bind_in_dev {A B} (c : M D A) (k : A → M fat B) s a d' :
  c (dev s) = Ret (a, d') → bind (in_dev c) k s = k a (with_dev d' s).
Proof. intros E. unfold bind, in_dev, zoom. by rewrite E. Qed.

Lemma put_vol_same a v (s : fat) : volumes s !! a = Some v → put_vol a v (dev s) s = s.
Proof. intros E. unfold put_vol. rewrite insert_id by done. by destruct s. Qed.

Lemma put_vol_put a v v' d d' (s : fat) : put_vol a v' d' (put_vol a v d s) = put_vol a v' d' s.
Proof. unfold put_vol, with_dev, with_volumes. cbn. by rewrite insert_insert_eq. Qed.

Lemma set_dirty_same v : buffer_dirty v = 0 → set_dirty 0 v = v.
Proof. destruct v. cbn. by intros ->. Qed.

Lemma fat_flush_run a (s : fat) v :
  volumes s !! a = Some v → sd_ok (dev s) → vol_wf (dev s) v →
  (buffer_dirty v ≠ 0 ∧ ∃ m, fat_flush a s = Panic m) ∨
  ∃ d', fat_flush a s = Ret (1, put_vol a (set_dirty 0 v) d' s) ∧ same_card (dev s) d' ∧
    (buffer_dirty v = 0 → d' = dev s) ∧
    (buffer_dirty v ≠ 0 → sd_sector d' (buffer_lba v) = buffer v) ∧
    ∀ l, l ≠ buffer_lba v → sd_sector d' l = sd_sector (dev s) l.
Proof.
  intros Hv Hok [Hl Hb Hd Hc]. unfold fat_flush. rewrite (bind_get_vol _ _ _ _ Hv).
  destruct (decide (buffer_dirty v = 0)) as [E|E].
  - right. rewrite E. cbn [Z.eqb negb]. exists (dev s). rewrite set_dirty_same, put_vol_same by done. done.
  - rewrite eqb_false by done. cbn [negb]. specialize (Hd E).
    assert (disk_write (vdisk v) (buffer v) (buffer_lba v) 1 = sd_write (buffer_lba v) 1 (buffer v)) as ED
      by (by destruct (vdisk v)). rewrite ED.
    destruct (sd_write_law (dev s) (buffer_lba v) (buffer v) Hok ltac:(lia) Hl Hb)
      as [[m Em]|(d' & Ed & Hok' & Hcap & Hs & Hs')].
    + left. split; [done|]. exists m. unfold bind, in_dev, zoom. by rewrite Em.
    + right. exists d'. rewrite (bind_in_dev _ _ _ _ _ Ed). cbn [Z.eqb].
      rewrite (bind_upd_vol _ _ _ _ v) by done. done.
Qed.

Lemma fat_read_run a lba (s : fat) v :
  volumes s !! a = Some v → sd_ok (dev s) → vol_wf (dev s) v → 0 < lba < sd_capacity (dev s) →
  (buffer_dirty v ≠ 0 ∧ ∃ m, fat_read a lba s = Panic m) ∨
  ∃ dt d', let v' := cached (view (dev s) v lba) lba dt v in
    fat_read a lba s = Ret (1, put_vol a v' d' s) ∧ same_card (dev s) d' ∧ vol_wf d' v' ∧
    (∀ l, 0 < l → view d' v' l = view (dev s) v l) ∧ (buffer_dirty v = 0 → dt = 0).
Proof.
  intros Hv Hok Hwf Hlba. pose proof Hwf as [Hl Hb Hd Hc].
  unfold fat_read. rewrite (bind_get_vol _ _ _ _ Hv).
  destruct (decide (buffer_lba v = lba)) as [E|E].
  { right. exists (buffer_dirty v), (dev s). rewrite E, Z.eqb_refl. cbn [negb].
    assert (cached (view (dev s) v lba) lba (buffer_dirty v) v = v) as Ev
      by (unfold cached, view; rewrite decide_True by done; by destruct v; cbn in *; subst).
    rewrite Ev, put_vol_same by done. done. }
  rewrite eqb_false by done. cbn [negb].
  destruct (fat_flush_run a s v Hv Hok Hwf) as [[Hdt [m Em]]|(d1 & E1 & [Hok1 Hcap1] & Hd1 & Hs1 & Hs1')].
  { left. split; [done|]. exists m. by apply bind_Panic. }
  right. rewrite (bind_Ret _ _ _ _ _ E1). cbn [Z.eqb].
  assert (volumes (put_vol a (set_dirty 0 v) d1 s) !! a = Some (set_dirty 0 v)) as Hv1 by apply lookup_insert_eq.
  rewrite (bind_get_vol _ _ _ _ Hv1). cbn [vdisk buffer set_dirty].
  assert (∀ b, disk_read (vdisk v) b lba 1 = sd_read lba 1 b) as ED by (by destruct (vdisk v)). rewrite ED.
  destruct (sd_read_law d1 lba (buffer v) Hok1 ltac:(lia) Hl) as (d2 & E2 & Hok2 & Hcap2 & Hs2).
  erewrite bind_in_dev; [|exact E2]. cbn [fst snd].
  rewrite (bind_upd_vol _ _ _ _ (set_dirty 0 v)) by apply lookup_insert_eq. cbn [Z.eqb].
  erewrite bind_upd_vol; [|apply lookup_insert_eq]. exists 0, d2. cbv zeta.
  assert (view (dev s) v lba = sd_sector d1 lba) as Evw.
  { unfold view. rewrite decide_False by (intros ->; done). symmetry. apply Hs1'. by intros ->. }
  split_and!; [|split; [done|by rewrite Hcap2]| | |done].
  - unfold ret, put_vol, with_dev, with_volumes, cached. cbn. rewrite !insert_insert_eq.
    rewrite Evw. done.
  - destruct (sd_sector_len d1 lba) as [Hlen Hby]; [done|lia|]. unfold cached. rewrite Evw.
    constructor; cbn; [done|done|done|]. intros _ _. by rewrite Hs2.
  - intros l Hl0. unfold view at 1, cached. cbn. destruct (decide (l = lba)) as [->|Hne]; [done|].
    rewrite Hs2. unfold view. destruct (decide (l = buffer_lba v)) as [->|Hnb].
    + destruct (decide (buffer_dirty v = 0)) as [E0|E0]; [|by apply Hs1].
      rewrite Hd1 by done. symmetry. apply Hc; [done|lia].
    + by apply Hs1'.
Qed.

(** ** The allocation table *)

(** The entry of a cluster as the file system sees it. *)
Definition fat_entry (d : D) (v : volume) (cluster : Z) : Z :=
  word_at (view d v (fat_lba v + cluster / 128)) (Z.to_nat (4 * (cluster mod 128))).

(** The table's sector of the cluster is on the card. *)
Definition in_table (d : D) (v : volume) (cluster : Z) : Prop :=
  0 < fat_lba v ∧ 0 <= cluster ∧ fat_lba v + cluster / 128 < sd_capacity d ∧ sd_capacity d <= 2 ^ 32.

Lemma in_table_lba d v c :
  in_table d v c → u32 (fat_lba v + c / 128) = fat_lba v + c / 128 ∧ 0 < fat_lba v + c / 128 < sd_capacity d.
Proof. intros (? & ? & ? & ?). split; [apply u32_small; lia|lia]. Qed.

Lemma view_cached d v b lba dt : view d (cached b lba dt v) lba = b.
Proof. unfold view, cached. cbn. by rewrite decide_True. Qed.

(** The status and the state of an operation that may have to write back a
    dirty buffer first. *)
Definition returns {A} (v : volume) (c : M fat A) (s : fat) (P : A → fat → Prop) : Prop :=
  (buffer_dirty v ≠ 0 ∧ ∃ m, c s = Panic m) ∨ ∃ x s', c s = Ret (x, s') ∧ P x s'.

Lemma fat_table_get_run a c (s : fat) v :
  volumes s !! a = Some v → sd_ok (dev s) → vol_wf (dev s) v → in_table (dev s) v c →
  returns v (fat_table_get a c) s (λ r s', r = (1, fat_entry (dev s) v c) ∧
    ∃ dt d', let v' := cached (view (dev s) v (fat_lba v + c / 128)) (fat_lba v + c / 128) dt v in
      s' = put_vol a v' d' s ∧ same_card (dev s) d' ∧ vol_wf d' v' ∧
      (∀ l, 0 < l → view d' v' l = view (dev s) v l) ∧ (buffer_dirty v = 0 → dt = 0)).
Proof.
  intros Hv Hok Hwf Ht. destruct (in_table_lba _ _ _ Ht) as [Elba Hlba].
  unfold fat_table_get, returns. rewrite (bind_get_vol _ _ _ _ Hv), Elba.
  destruct (fat_read_run a _ s v Hv Hok Hwf Hlba) as [[Hdt [m Em]]|(dt & d' & E & Hsc & Hwf' & Hvw & Hdt)].
  - left. split; [done|]. exists m. by apply bind_Panic.
  - right. cbv zeta in *. set (v' := cached _ _ dt v) in *. rewrite (bind_Ret _ _ _ _ _ E). cbn [Z.eqb].
    assert (vload32 a (c mod 128 * 4) (put_vol a v' d' s) = Ret (fat_entry (dev s) v c, put_vol a v' d' s)) as El.
    { unfold vload32. rewrite (bind_get_vol _ _ _ v') by apply lookup_insert_eq.
      rewrite fat_load32_word; [|apply Hwf'|lia|rewrite (vw_len _ _ Hwf'); lia].
      unfold fat_entry. by rewrite Z.mul_comm. }
    rewrite (bind_Ret _ _ _ _ _ El). eexists _, _. split; [reflexivity|]. split; [done|].
    exists dt, d'. done.
Qed.

Lemma fat_table_set_run a c x (s : fat) v :
  volumes s !! a = Some v → sd_ok (dev s) → vol_wf (dev s) v → in_table (dev s) v c → 0 <= x < 2 ^ 32 →
  (∃ m, fat_table_set a c x s = Panic m) ∨
  ∃ d', let lba := fat_lba v + c / 128 in
    let b := list_inserts (Z.to_nat (4 * (c mod 128))) (le_split 4 x) (view (dev s) v lba) in
    let v' := cached b lba 0 v in
    fat_table_set a c x s = Ret (1, put_vol a v' d' s) ∧ same_card (dev s) d' ∧ vol_wf d' v' ∧
    length (view (dev s) v lba) = 512%nat ∧
    sd_sector d' lba = b ∧ ∀ l, 0 < l → l ≠ lba → view d' v' l = view (dev s) v l.
Proof.
  intros Hv Hok Hwf Ht Hx. destruct (in_table_lba _ _ _ Ht) as [Elba Hlba].
  unfold fat_table_set. rewrite (bind_get_vol _ _ _ _ Hv), Elba. set (lba := fat_lba v + c / 128) in *.
  destruct (fat_read_run a _ s v Hv Hok Hwf Hlba) as [[Hdt [m Em]]|(dt & d1 & E & [Hok1 Hcap1] & Hwf1 & Hvw & _)].
  { left. exists m. by apply bind_Panic. }
  cbv zeta in *. rewrite (bind_Ret _ _ _ _ _ E). cbn [Z.eqb].
  set (b0 := view (dev s) v lba) in *. set (v1 := cached b0 lba dt v) in *.
  set (b := list_inserts (Z.to_nat (4 * (c mod 128))) (le_split 4 x) b0).
  assert (length b0 = 512%nat) as Hb0 by (apply (vw_len _ _ Hwf1)).
  assert (vstore32 a (4 * (c mod 128)) x (put_vol a v1 d1 s) = Ret (tt, put_vol a (set_buffer b v1) d1 s)) as Es.
  { unfold vstore32. rewrite (bind_get_vol _ _ _ v1) by apply lookup_insert_eq.
    change (buffer v1) with b0. rewrite fat_store32_word by (rewrite ?Hb0; lia). unfold of_option. rewrite bind_ret.
    rewrite (upd_vol_run _ _ _ v1) by apply lookup_insert_eq. fold b.
    change (with_volumes (<[a := set_buffer b v1]> (volumes (put_vol a v1 d1 s))) (put_vol a v1 d1 s))
      with (put_vol a (set_buffer b v1) d1 (put_vol a v1 d1 s)). by rewrite put_vol_put. }
  rewrite (bind_Ret _ _ _ _ _ Es). rewrite (bind_upd_vol _ _ _ _ (set_buffer b v1)) by apply lookup_insert_eq.
  change (with_volumes (<[a := set_dirty 1 (set_buffer b v1)]> (volumes (put_vol a (set_buffer b v1) d1 s)))
    (put_vol a (set_buffer b v1) d1 s)) with (put_vol a (cached b lba 1 v) d1 (put_vol a (set_buffer b v1) d1 s)).
  rewrite put_vol_put.
  assert (Forall byte b) as Hbb by (apply Forall_inserts; [apply le_split_bytes|apply (vw_bytes _ _ Hwf1)]).
  assert (length b = 512%nat) as Hbl by (unfold b; by rewrite length_inserts).
  assert (vol_wf d1 (cached b lba 1 v)) as Hwf2 by (constructor; cbn; [done|done|intros; lia|done]).
  destruct (fat_flush_run a (put_vol a (cached b lba 1 v) d1 s) (cached b lba 1 v) (lookup_insert_eq _ _ _) Hok1 Hwf2)
    as [[_ [m Em]]|(d2 & E2 & [Hok2 Hcap2] & _ & Hs & Hs')].
  { left. exists m. by apply bind_Panic. }
  right. exists d2. rewrite (bind_Ret _ _ _ _ _ E2). unfold ret. rewrite put_vol_put.
  change (set_dirty 0 (cached b lba 1 v)) with (cached b lba 0 v). split_and!; try done.
  - split; [done|]. cbn in Hcap2. by rewrite Hcap2.
  - constructor; cbn; [done..|]. intros _ _. symmetry. by apply Hs.
  - by apply Hs.
  - intros l Hl Hne. rewrite <- Hvw by done. unfold view, cached, v1, cached. cbn.
    rewrite !decide_False by done. by apply Hs'.
Qed.

(** ** Reading a clean volume *)

(** [g] is the volume's geometry, [C] its contents, [cur] the sector in its
    buffer; nothing waits to be written back. *)
Record vstate (s : fat) (a : Z) (g : volume) (cap : Z) (C : Z → list Z) (cur : Z) : Prop := {
  vs_vol : ∃ b, volumes s !! a = Some (cached b cur 0 g) ∧ vol_wf (dev s) (cached b cur 0 g) ∧
    ∀ l, 0 < l → view (dev s) (cached b cur 0 g) l = C l;
  vs_ok : sd_ok (dev s);
  vs_cap : sd_capacity (dev s) = cap
}.

Lemma vread s a g cap C cur lba :
  vstate s a g cap C cur → 0 < lba < cap →
  ∃ s', fat_read a lba s = Ret (1, s') ∧ vstate s' a g cap C lba.
Proof.
  intros [(b & Hv & Hwf & Hvw) Hok Hcap] Hlba. subst cap.
  destruct (fat_read_run a lba s _ Hv Hok Hwf Hlba) as [[Hdt _]|(dt & d' & E & [Hok' Hcap'] & Hwf' & Hvw' & Hdt)]; [done|].
  rewrite (Hdt eq_refl) in *. cbv zeta in *. eexists. split; [exact E|].
  constructor; [|done|done]. exists (view (dev s) (cached b cur 0 g) lba). split; [apply lookup_insert_eq|].
  split; [exact Hwf'|]. intros l Hl. rewrite <- Hvw by done. by apply Hvw'.
Qed.

Lemma vstate_vol {B} s a g cap C cur (k : volume → M fat B) :
  vstate s a g cap C cur → 0 < cur →
  ∃ b, bind (get_vol a) k s = k (cached b cur 0 g) s ∧ b = C cur ∧ length (C cur) = 512%nat ∧ Forall byte (C cur).
Proof.
  intros [(b & Hv & Hwf & Hvw) _ _] Hcur. exists b. rewrite (bind_get_vol _ _ _ _ Hv). split; [done|].
  specialize (Hvw cur Hcur). rewrite view_cached in Hvw. subst b. split_and!; [done|apply Hwf|apply Hwf].
Qed.

Lemma vpeek_run s a g cap C cur off :
  vstate s a g cap C cur → 0 < cur → 0 <= off < 512 →
  ∃ x, vpeek a off s = Ret (x, s) ∧ C cur !! Z.to_nat off = Some x.
Proof.
  intros HV Hcur Hoff. unfold vpeek.
  destruct (vstate_vol s a g cap C cur (λ v, of_option (peek (buffer v) off)) HV Hcur) as (b & E & -> & Hl & _).
  rewrite E. change (buffer (cached (C cur) cur 0 g)) with (C cur). rewrite peek_Some by lia.
  destruct (C cur !! Z.to_nat off) as [x|] eqn:Ex; [by exists x|].
  apply lookup_ge_None in Ex. lia.
Qed.

(** Entries and addresses of the geometry. *)
Definition entry (C : Z → list Z) (g : volume) (c : Z) : Z :=
  word_at (C (fat_lba g + c / 128)) (Z.to_nat (4 * (c mod 128))).

Definition sect (g : volume) (c : Z) : Z := data_lba g + (c - 2) * cluster_size g.

(** A geometry that fits the card, and a data cluster of it. *)
Definition geo_ok (g : volume) (cap : Z) : Prop :=
  sector_size g = 512 ∧ 0 < cluster_size g < 256 ∧ 0 < fat_lba g ∧ 0 < data_lba g ∧ cap <= 2 ^ 32.
Definition clust_ok (g : volume) (cap c : Z) : Prop :=
  2 <= c < 2 ^ 32 ∧ fat_lba g + c / 128 < cap ∧ sect g c + cluster_size g < cap.

Lemma clust_to_sect g cap c b cur : geo_ok g cap → clust_ok g cap c → fat_clust_to_sect (cached b cur 0 g) c = sect g c.
Proof.
  intros (Hs & Hcz & Hf & Hd & Hcap) (Hc & Hc1 & Hc2). unfold fat_clust_to_sect, sect in *. cbn.
  rewrite (u32_small (c - 2)) by lia. rewrite (u32_small (_ * _)) by nia. rewrite u32_small by nia. lia.
Qed.

Lemma vtable_get s a g cap C cur c :
  vstate s a g cap C cur → geo_ok g cap → clust_ok g cap c →
  ∃ s', fat_table_get a c s = Ret ((1, entry C g c), s') ∧ vstate s' a g cap C (fat_lba g + c / 128).
Proof.
  intros [(b & Hv & Hwf & Hvw) Hok Hcap] (Hs & Hcz & Hf & Hd & Hmax) (Hc & Hc1 & Hc2).
  assert (in_table (dev s) (cached b cur 0 g) c) as Ht
    by (split_and!; cbn; rewrite ?Hcap; lia).
  destruct (fat_table_get_run a c s _ Hv Hok Hwf Ht)
    as [[Hdt _]|(r & s' & E & -> & dt & d' & -> & [Hok' Hcap'] & Hwf' & Hvw' & Hdt)]; [done|].
  rewrite (Hdt eq_refl) in *. set (s1 := put_vol _ _ _ _) in E. exists s1. split.
  - rewrite E. do 3 f_equal. unfold fat_entry, entry. cbn [fat_lba cached set_dirty set_buffer_lba set_buffer].
    by rewrite Hvw by lia.
  - constructor; [|done|by rewrite <- Hcap, <- Hcap'].
    exists (view (dev s) (cached b cur 0 g) (fat_lba g + c / 128)). split; [apply lookup_insert_eq|].
    split; [exact Hwf'|]. intros l Hl. rewrite <- Hvw by done. by apply Hvw'.
Qed.

(** A chain of data clusters linked in the table. *)
Definition chain_ok (C : Z → list Z) (g : volume) (cap : Z) (cs : list Z) : Prop :=
  ∀ k c, cs !! k = Some c → clust_ok g cap c ∧
    ∀ c', cs !! S k = Some c' → entry C g c = c' ∧ is_eoc c' = false.

(** The byte of a file at an offset. *)
Definition byte_at (C : Z → list Z) (g : volume) (cs : list Z) (p : Z) : option Z :=
  c ← cs !! Z.to_nat (p / (512 * cluster_size g));
  C (sect g c + p / 512 mod cluster_size g) !! Z.to_nat (p mod 512).

(** [fl] is open on the chain at offset [p]; a full sector is stepped over
    only when the next byte is read. *)
Definition fpos (g : volume) (cs : list Z) (fl : file) (p : Z) : Prop :=
  ∃ k c j r, cs !! k = Some c ∧ f_cluster fl = c ∧ f_sector fl = sect g c + j ∧ 0 <= j < cluster_size g ∧
    f_rw_offset fl = r ∧ 0 <= r <= 512 ∧ p = (Z.of_nat k * cluster_size g + j) * 512 + r.

Definition flen (g : volume) (cs : list Z) : Z := Z.of_nat (length cs) * cluster_size g * 512.

Lemma pos_split k z j r :
  0 < z → 0 <= j < z → 0 <= r < 512 →
  let p := (Z.of_nat k * z + j) * 512 + r in
  p / (512 * z) = Z.of_nat k ∧ p / 512 mod z = j ∧ p mod 512 = r.
Proof.
  intros Hz Hj Hr p. assert (p / 512 = Z.of_nat k * z + j) as E by (unfold p; lia).
  split_and!.
  - rewrite <- Z.div_div, E by lia. rewrite Z.div_add_l, Z.div_small by lia. lia.
  - rewrite E, Z.add_comm, Z.mod_add, Z.mod_small by lia. done.
  - unfold p. lia.
Qed.

Lemma byte_at_pos C g cap cs fl p x k c j r :
  geo_ok g cap → cs !! k = Some c → f_sector fl = sect g c + j → 0 <= j < cluster_size g → 0 <= r < 512 →
  p = (Z.of_nat k * cluster_size g + j) * 512 + r →
  C (f_sector fl) !! Z.to_nat r = Some x → byte_at C g cs p = Some x.
Proof.
  intros (_ & Hcz & _) Hk Hs Hj Hr -> Hx. unfold byte_at.
  destruct (pos_split k (cluster_size g) j r) as (-> & -> & ->); [lia..|].
  rewrite Nat2Z.id, Hk. cbn. by rewrite <- Hs.
Qed.

(** Stepping over the end of a sector, and of a cluster. *)
Lemma resolve_run s a g cap C cs fl p :
  vstate s a g cap C (f_sector fl) → geo_ok g cap → chain_ok C g cap cs → fpos g cs fl p → f_vol fl = a →
  f_rw_offset fl = 512 → p < flen g cs →
  ∃ s' cur sector cluster, let fl' := File sector cluster 0 (f_size fl) (f_start_sect fl) (f_glob_offset fl) a in
    fat_file_addr_resolve fl s = Ret ((1, fl'), s') ∧ vstate s' a g cap C cur ∧ fpos g cs fl' p ∧ 0 < cur.
Proof.
  intros HV Hg Hch (k & c & j & r & Hk & Hc & Hs & Hj & Hr & Hr0 & Hp) Ha Hrw Hlen.
  destruct (Hch k c Hk) as [Hcok Hnext]. pose proof Hg as (Hss & Hcz & Hf & Hd & Hmax).
  pose proof Hcok as (Hc0 & Hc1 & Hc2). subst a r. rewrite Hrw in *.
  assert (0 < sect g c) as Hsp by (unfold sect; nia).
  unfold fat_file_addr_resolve.
  match goal with |- context [bind (get_vol (f_vol fl)) ?kk s] =>
    destruct (vstate_vol s _ g cap C (f_sector fl) kk HV ltac:(lia)) as (b & E & _) end.
  rewrite E. clear E. cbn [sector_size cached set_dirty set_buffer_lba set_buffer]. rewrite Hss, Hrw.
  cbn [Z.leb Z.compare Pos.compare Pos.compare_cont].
  rewrite Hc, (clust_to_sect g cap) by done. cbn [cluster_size cached set_dirty set_buffer_lba set_buffer].
  rewrite (u32_small (sect g c + _)), (u32_small (f_sector fl + 1)), (u32_small (512 - 512)) by lia.
  destruct (Z.leb_spec (sect g c + cluster_size g) (f_sector fl + 1)) as [Hle|Hlt].
  - assert (j = cluster_size g - 1) as -> by lia.
    destruct (cs !! S k) as [c'|] eqn:Hk'.
    2: { exfalso. apply lookup_ge_None in Hk'. unfold flen in Hlen. apply lookup_lt_Some in Hk.
         assert (Z.of_nat (length cs) = Z.of_nat k + 1) by lia. nia. }
    destruct (Hnext c' eq_refl) as [He Heoc]. destruct (Hch _ _ Hk') as [Hcok' _].
    destruct (vtable_get s (f_vol fl) g cap C _ c HV Hg Hcok) as (s1 & E1 & HV1).
    rewrite (bind_Ret _ _ _ _ _ E1). cbn [fst snd Z.eqb]. rewrite He, Heoc.
    match goal with |- context [bind (get_vol (f_vol fl)) ?kk s1] =>
      destruct (vstate_vol s1 _ g cap C _ kk HV1 ltac:(lia)) as (b1 & E & _) end.
    rewrite E. rewrite (clust_to_sect g cap) by done.
    exists s1, (fat_lba g + c / 128), (sect g c'), c'. split_and!; [done|done| |lia].
    exists (S k), c', 0, 0. cbn. split_and!; try done; lia.
  - exists s, (f_sector fl), (f_sector fl + 1), c. split_and!; [done|done| |lia].
    exists k, c, (j + 1), 0. cbn. split_and!; try done; lia.
Qed.

(** The state of an open file between two operations. *)
Record fopen (s : fat) (a : Z) (g : volume) (cap : Z) (C : Z → list Z) (cs : list Z) (fl : file) (p : Z) : Prop := {
  fo_state : vstate s a g cap C (f_sector fl);
  fo_pos : fpos g cs fl p;
  fo_vol : f_vol fl = a;
  fo_off : f_glob_offset fl = p
}.

Lemma fpos_sector g cap cs C fl p :
  geo_ok g cap → chain_ok C g cap cs → fpos g cs fl p → 0 < f_sector fl < cap ∧ 0 <= p.
Proof.
  intros (Hss & Hcz & Hf & Hd & Hmax) Hch (k & c & j & r & Hk & _ & Hs & Hj & _ & Hr & Hp).
  destruct (Hch k c Hk) as [(Hc0 & Hc1 & Hc2) _]. unfold sect in *. split; nia.
Qed.

(** The first half of a turn of the read loop: the position is in the sector. *)
Lemma settle_run s a g cap C cs fl p :
  fopen s a g cap C cs fl p → geo_ok g cap → chain_ok C g cap cs → p < flen g cs →
  ∃ s' fl', (if sector_size g <=? f_rw_offset fl then
           let* x := fat_file_addr_resolve fl in
           let* ok := fat_read (f_vol x.2) (f_sector x.2) in ret (ok, x.2)
         else ret (1, fl)) s = Ret ((1, fl'), s') ∧
    fopen s' a g cap C cs fl' p ∧ f_rw_offset fl' < 512 ∧ f_size fl' = f_size fl ∧ f_start_sect fl' = f_start_sect fl.
Proof.
  intros HO Hg Hch Hlen. pose proof HO as [HV Hpos Ha Hoff]. pose proof Hg as (Hss & _).
  destruct Hpos as (k & c & j & r & Hk & Hc & Hs & Hj & Hr & Hr0 & Hp) eqn:Epos. clear Epos. rewrite Hss, Hr.
  destruct (Z.leb_spec 512 r) as [Hge|Hlt].
  - assert (r = 512) as -> by lia.
    destruct (resolve_run s a g cap C cs fl p HV Hg Hch (fo_pos _ _ _ _ _ _ _ _ HO) Ha Hr Hlen)
      as (s1 & cur & sector & cluster & E & HV1 & Hpos1 & Hcur).
    rewrite (bind_Ret _ _ _ _ _ E). cbn [fst snd f_vol f_sector].
    destruct (fpos_sector g cap cs C _ p Hg Hch Hpos1) as [Hsec _]. cbn [f_sector] in Hsec.
    destruct (vread s1 a g cap C cur sector HV1 Hsec) as (s2 & E2 & HV2).
    rewrite (bind_Ret _ _ _ _ _ E2). eexists _, _. split; [reflexivity|]. split; [|done].
    by constructor.
  - exists s, fl. rewrite Hr. split_and!; try done.
Qed.

Lemma read_loop n : ∀ s a g cap C cs fl p fsize acc,
  fopen s a g cap C cs fl p → geo_ok g cap → chain_ok C g cap cs →
  (n = O ∨ p < flen g cs) → fsize <= flen g cs → flen g cs < 2 ^ 32 →
  ∃ s' fl' out, file_read_loop n fl (sector_size g) fsize acc s = Ret ((FSTATUS_OK, fl', acc ++ out), s') ∧
    fopen s' a g cap C cs fl' (p + Z.of_nat (length out)) ∧
    Z.of_nat (length out) = Z.min (Z.of_nat n) (Z.max 1 (fsize - p)) ∧
    (∀ i x, out !! i = Some x → byte_at C g cs (p + Z.of_nat i) = Some x) ∧ f_size fl' = f_size fl.
Proof.
  induction n as [|n IH]; intros s a g cap C cs fl p fsize acc HO Hg Hch Hn Hfs Hmax.
  { exists s, fl, []. cbn [file_read_loop length]. rewrite app_nil_r, Z.add_0_r. split_and!; try done. lia. }
  destruct Hn as [Hn|Hlen]; [done|]. cbn [file_read_loop].
  destruct (settle_run s a g cap C cs fl p HO Hg Hch Hlen) as (s1 & fl1 & E & HO1 & Hrw & Esz & _).
  rewrite (bind_Ret _ _ _ _ _ E). cbn [fst snd Z.eqb]. clear E.
  destruct HO1 as [HV (k & c & j & r & Hk & Hc & Hs & Hj & Hr & Hr0 & Hp) Ha Hoff].
  destruct (fpos_sector g cap cs C fl1 p Hg Hch) as [Hsec Hp0]; [by exists k, c, j, r|].
  destruct (vpeek_run s1 a g cap C _ r HV ltac:(lia) ltac:(lia)) as (x & E & Hx).
  rewrite Ha, Hr, (bind_Ret _ _ _ _ _ E). cbn [f_glob_offset f_rw_offset f_vol]. rewrite Hoff.
  rewrite (u32_small (r + 1)), (u32_small (p + 1)) by lia.
  assert (byte_at C g cs p = Some x) as Hb by (eapply (byte_at_pos C g cap cs fl1 p x k c j r); done || lia).
  set (fl2 := File (f_sector fl1) (f_cluster fl1) (r + 1) (f_size fl1) (f_start_sect fl1) (p + 1) a).
  assert (fopen s1 a g cap C cs fl2 (p + 1)) as HO2.
  { constructor; [done| |done|done]. exists k, c, j, (r + 1). cbn. split_and!; try done; lia. }
  destruct (Z.leb_spec fsize (p + 1)) as [Hend|Hmore].
  - exists s1, fl2, [x]. split_and!; [done|done|cbn [length]; lia| |done].
    intros [|i] y Hy; [|done]. injection Hy as <-. by rewrite Z.add_0_r.
  - destruct (IH s1 a g cap C cs fl2 (p + 1) fsize (acc ++ [x]) HO2 Hg Hch) as (s' & fl' & out & E' & HO' & Hl & Hout & Hsz').
    { right. lia. }
    { done. }
    { done. }
    exists s', fl', (x :: out). rewrite E', <- app_assoc. cbn [length]. split_and!; [done| |lia| |by rewrite Hsz'].
    + by replace (p + Z.of_nat (S (length out))) with (p + 1 + Z.of_nat (length out)) by lia.
    + intros [|i] y Hy; cbn in Hy.
      * injection Hy as <-. by rewrite Z.add_0_r.
      * specialize (Hout i y Hy). by replace (p + Z.of_nat (S i)) with (p + 1 + Z.of_nat i) by lia.
Qed.

(** Behind a chain that ends with an end mark: the sector after its last cluster. *)
Lemma resolve_past s a g cap C cs fl c :
  vstate s a g cap C (f_sector fl) → geo_ok g cap → chain_ok C g cap cs → fpos g cs fl (flen g cs) → f_vol fl = a →
  last cs = Some c → is_eoc (entry C g c) = true →
  ∃ s' cur, fat_file_addr_resolve fl s =
      Ret ((0, File (sect g c + cluster_size g) c 0 (f_size fl) (f_start_sect fl) (f_glob_offset fl) a), s') ∧
    vstate s' a g cap C cur ∧ f_rw_offset fl = 512 ∧ 0 < sect g c + cluster_size g < cap.
Proof.
  intros HV Hg Hch (k & c' & j & r & Hk & Hc & Hs & Hj & Hr & Hr0 & Hp) Ha Hlast Heoc.
  pose proof (lookup_lt_Some _ _ _ Hk) as Hlt. unfold flen in Hp. pose proof Hg as (Hss & Hcz & Hf & Hd & Hmax).
  assert (Z.of_nat (length cs) = Z.of_nat k + 1 ∧ j = cluster_size g - 1 ∧ r = 512) as (Hlen & -> & ->) by nia.
  assert (c' = c) as ->.
  { rewrite last_lookup in Hlast. replace (pred (length cs)) with k in Hlast by lia. congruence. }
  destruct (Hch k c Hk) as [Hcok _]. pose proof Hcok as (Hc0 & Hc1 & Hc2). subst a.
  assert (0 < sect g c) as Hsp by (unfold sect; nia).
  unfold fat_file_addr_resolve.
  match goal with |- context [bind (get_vol (f_vol fl)) ?kk s] =>
    destruct (vstate_vol s _ g cap C (f_sector fl) kk HV ltac:(lia)) as (b & E & _) end.
  rewrite E. clear E. cbn [sector_size cached set_dirty set_buffer_lba set_buffer]. rewrite Hss, Hr.
  cbn [Z.leb Z.compare Pos.compare Pos.compare_cont].
  rewrite Hc, (clust_to_sect g cap) by done. cbn [cluster_size cached set_dirty set_buffer_lba set_buffer].
  rewrite (u32_small (sect g c + _)), (u32_small (f_sector fl + 1)), (u32_small (512 - 512)) by lia.
  rewrite (proj2 (Z.leb_le _ _)) by lia.
  destruct (vtable_get s (f_vol fl) g cap C _ c HV Hg Hcok) as (s1 & E1 & HV1).
  rewrite (bind_Ret _ _ _ _ _ E1). cbn [fst snd Z.eqb]. rewrite Heoc.
  exists s1, (fat_lba g + c / 128). replace (f_sector fl + 1) with (sect g c + cluster_size g) by lia. split_and!; done || lia.
Qed.

(** The chain walk of [fat_file_jump]. *)
Lemma jump_run n : ∀ s a g cap C cur cs k c c',
  vstate s a g cap C cur → geo_ok g cap → chain_ok C g cap cs →
  cs !! k = Some c → cs !! (k + n)%nat = Some c' →
  ∃ s' cur', jump_loop n a c s = Ret ((None, c'), s') ∧ vstate s' a g cap C cur' ∧ (cur' = cur ∨ 0 < cur').
Proof.
  induction n as [|n IH]; intros s a g cap C cur cs k c c' HV Hg Hch Hk Hk'.
  { exists s, cur. rewrite Nat.add_0_r, Hk in Hk'. injection Hk' as ->. split_and!; [done|done|by left]. }
  cbn [jump_loop]. destruct (Hch k c Hk) as [Hcok Hnext].
  destruct (vtable_get s a g cap C cur c HV Hg Hcok) as (s1 & E & HV1).
  rewrite (bind_Ret _ _ _ _ _ E). cbn [fst snd Z.eqb].
  assert (is_Some (cs !! S k)) as [d Hd].
  { apply lookup_lt_is_Some. apply lookup_lt_Some in Hk'. lia. }
  destruct (Hnext d Hd) as [He Heoc]. rewrite He, Heoc.
  destruct (IH s1 a g cap C _ cs (S k) d c' HV1 Hg Hch Hd) as (s' & cur' & E' & HV' & Hc').
  { by replace (S k + n)%nat with (k + S n)%nat by lia. }
  exists s', cur'. split_and!; [done|done|]. destruct Hg as (_ & _ & Hf & _). destruct Hcok as (Hc0 & _).
  destruct Hc' as [->|]; right; lia.
Qed.

(** A walk past the end of the chain stops at its last cluster. *)
Lemma jump_past n : ∀ s a g cap C cur cs k c,
  vstate s a g cap C cur → geo_ok g cap → chain_ok C g cap cs → cs !! k = Some c →
  (length cs <= k + n)%nat → is_eoc (entry C g (List.last cs c)) = true →
  ∃ s', jump_loop n a c s = Ret ((Some FSTATUS_OK, List.last cs c), s').
Proof.
  induction n as [|n IH]; intros s a g cap C cur cs k c HV Hg Hch Hk Hl Heoc.
  { apply lookup_lt_Some in Hk. lia. }
  cbn [jump_loop]. destruct (Hch k c Hk) as [Hcok Hnext].
  destruct (vtable_get s a g cap C cur c HV Hg Hcok) as (s1 & E & HV1).
  rewrite (bind_Ret _ _ _ _ _ E). cbn [fst snd Z.eqb].
  destruct (cs !! S k) as [d|] eqn:Hd.
  - destruct (Hnext d eq_refl) as [He Hne]. rewrite He, Hne.
    assert (List.last cs c = List.last cs d) as El.
    { apply lookup_lt_Some in Hd. destruct cs as [|y cs _] using rev_ind; [cbn in Hd; lia|]. by rewrite !List.last_last. }
    rewrite El in *. eapply (IH s1 a g cap C _ cs (S k)); done || lia.
  - assert (List.last cs c = c) as El.
    { apply lookup_ge_None in Hd. pose proof (lookup_lt_Some _ _ _ Hk) as Hlt.
      destruct cs as [|y cs _] using rev_ind; [done|]. rewrite List.last_last. rewrite length_app in *. cbn in *.
      rewrite lookup_app_r in Hk by lia. replace (k - length cs)%nat with 0%nat in Hk by lia. by injection Hk. }
    rewrite El in *. rewrite Heoc. by exists s1.
Qed.
End Fat32Proof.
