(* ===== verification/Fat32Theorems.v ===== *)
(** * The file system's theorems

    The sector buffer, the allocation table, reading and seeking in a file, and
    ejecting a disk. *)

From S2P Require Import Prelude Memory Mm MmTheorems Palloc SchedSpec Fat32 Fat32Proof.

Section Fat32Theorems.
Context {D : Type} `{SdCard D}.

#[local] Notation fat := (@Fat32.fat D).

(** C31. The sector buffer is coherent: [fat_read] leaves in the buffer the
    sector asked for as the file system sees it (the newest contents, also when
    they were only in a dirty buffer), [fat_flush] brings a dirty buffer to the
    card, and neither changes what the file system sees of any sector other
    than 0.  The only other outcome is a panic of the card's driver while a
    dirty buffer is written back. *)
Theorem fat_cache_coherent a lba (s : fat) v :
  volumes s !! a = Some v → sd_ok (dev s) → vol_wf (dev s) v → 0 < lba < sd_capacity (dev s) →
  returns v (fat_read a lba) s (λ ok s', ok = 1 ∧ sd_ok (dev s') ∧ ∃ v', volumes s' !! a = Some v' ∧
    vol_wf (dev s') v' ∧ buffer_lba v' = lba ∧ buffer v' = view (dev s) v lba ∧
    ∀ l, 0 < l → view (dev s') v' l = view (dev s) v l) ∧
  returns v (fat_flush a) s (λ ok s', ok = 1 ∧ sd_ok (dev s') ∧ ∃ v', volumes s' !! a = Some v' ∧
    vol_wf (dev s') v' ∧ buffer_dirty v' = 0 ∧
    (buffer_dirty v ≠ 0 → sd_sector (dev s') (buffer_lba v) = buffer v) ∧
    ∀ l, 0 < l → view (dev s') v' l = view (dev s) v l).
Proof.
  intros Hv Hok Hwf Hlba. unfold returns. split.
  - destruct (fat_read_run a lba s v Hv Hok Hwf Hlba) as [Hp|(dt & d' & E & [Hok' _] & Hwf' & Hvw & _)]; [by left|].
    right. eexists _, _. split; [exact E|]. split_and!; [done|done|]. eexists. split; [apply lookup_insert_eq|]. done.
  - destruct (fat_flush_run a s v Hv Hok Hwf) as [Hp|(d' & E & [Hok' Hcap'] & Hd0 & Hs & Hs')]; [by left|].
    right. eexists _, _. split; [exact E|]. split_and!; [done|done|]. exists (set_dirty 0 v).
    destruct Hwf as [Hl Hb Hd Hc]. cbn [dev put_vol with_dev volumes with_volumes].
    split_and!; [apply lookup_insert_eq| |done|done|].
    + constructor; cbn; [done..|]. intros _ Hne. destruct (decide (buffer_dirty v = 0)) as [E0|E0].
      * rewrite Hd0 by done. by apply Hc.
      * symmetry. by apply Hs.
    + intros l Hl0. unfold view. cbn. case_decide as Hlb; [done|]. by apply Hs'.
Qed.

(** C32. The allocation table: [fat_table_get] gives the entry of a cluster and
    changes nothing the file system sees; after [fat_table_set] the entry has
    the value that was set, every other entry is as before, no sector outside
    the table's sector changes, and the new sector is on the card.  The only
    other outcome is a panic of the card's driver in a write. *)
Theorem fat_table_roundtrip a c x (s : fat) v :
  volumes s !! a = Some v → sd_ok (dev s) → vol_wf (dev s) v → in_table (dev s) v c → 0 <= x < 2 ^ 32 →
  returns v (fat_table_get a c) s (λ r s', r = (1, fat_entry (dev s) v c) ∧
    ∃ v', volumes s' !! a = Some v' ∧ ∀ l, 0 < l → view (dev s') v' l = view (dev s) v l) ∧
  ((∃ m, fat_table_set a c x s = Panic m) ∨
   ∃ s' v', fat_table_set a c x s = Ret (1, s') ∧ volumes s' !! a = Some v' ∧ vol_wf (dev s') v' ∧
     fat_entry (dev s') v' c = x ∧
     (∀ c', in_table (dev s) v c' → c' ≠ c → fat_entry (dev s') v' c' = fat_entry (dev s) v c') ∧
     (∀ l, 0 < l → l ≠ fat_lba v + c / 128 → view (dev s') v' l = view (dev s) v l) ∧
     sd_sector (dev s') (fat_lba v + c / 128) = view (dev s') v' (fat_lba v + c / 128)).
Proof.
  intros Hv Hok Hwf Ht Hx. split.
  - destruct (fat_table_get_run a c s v Hv Hok Hwf Ht) as [Hp|(r & s' & E & -> & dt & d' & -> & _ & _ & Hvw & _)];
      [by left|].
    right. eexists _, _. split; [exact E|]. split; [done|]. eexists. split; [apply lookup_insert_eq|exact Hvw].
  - destruct (fat_table_set_run a c x s v Hv Hok Hwf Ht Hx) as [Hp|(d' & E & _ & Hwf' & Hlen & Hs & Hvw)]; [by left|].
    right. eexists _, _. split; [exact E|]. split; [apply lookup_insert_eq|]. cbn [dev put_vol with_dev].
    set (lba := fat_lba v + c / 128) in *. set (v' := cached _ lba 0 v) in *.
    assert (fat_lba v' = fat_lba v) as Ef by done. destruct Ht as (Hf0 & Hc0 & _ & _).
    split_and!; [done| | |done|].
    + unfold fat_entry. rewrite Ef. fold lba. unfold v' at 1. rewrite view_cached. apply word_inserts_same; lia.
    + intros c' (_ & Hc0' & _ & _) Hne. unfold fat_entry. rewrite Ef.
      destruct (decide (fat_lba v + c' / 128 = lba)) as [El|El].
      * rewrite El. unfold v' at 1. rewrite view_cached. apply word_inserts_other. unfold lba in El. lia.
      * rewrite Hvw by lia. done.
    + rewrite Hs. unfold v'. by rewrite view_cached.
Qed.

(** An open file at an offset, whatever sector is in the buffer. *)
Definition fready (s : fat) (g : volume) (cap : Z) (C : Z → list Z) (cs : list Z) (fl : file) (p : Z) : Prop :=
  (∃ cur, vstate s (f_vol fl) g cap C cur) ∧ fpos g cs fl p ∧ f_glob_offset fl = p.

Lemma vstate_geo {B} (s : fat) a g cap C cur (k : volume → M fat B) :
  vstate s a g cap C cur → ∃ b, bind (get_vol a) k s = k (cached b cur 0 g) s.
Proof. intros [(b & Hv & _) _ _]. exists b. by rewrite (bind_get_vol _ _ _ _ Hv). Qed.

(** At the end of the last cluster. *)
Lemma read_behind (s : fat) g cap C cs fl n c cur :
  vstate s (f_vol fl) g cap C cur → fpos g cs fl (flen g cs) → f_glob_offset fl = flen g cs →
  geo_ok g cap → chain_ok C g cap cs → f_size fl <= flen g cs → flen g cs < 2 ^ 32 → n ≠ O →
  last cs = Some c → is_eoc (entry C g c) = true →
  ∃ s' fl' x, fat_file_read fl n s = Ret ((FSTATUS_OK, fl', [x]), s') ∧
    C (sect g c + cluster_size g) !! 0%nat = Some x ∧ f_sector fl' = sect g c + cluster_size g ∧
    f_glob_offset fl' = flen g cs + 1.
Proof.
  intros HV Hpos Hoff Hg Hch Hsz Hmax Hn Hlast Heoc. destruct n as [|n]; [done|].
  destruct (fpos_sector g cap cs C fl _ Hg Hch Hpos) as [Hsec Hp0]. pose proof Hg as (Hss & _).
  unfold fat_file_read.
  match goal with |- context [bind (get_vol (f_vol fl)) ?k s] =>
    destruct (vstate_geo s _ g cap C cur k HV) as (b & E) end.
  rewrite E. clear E. destruct (vread s _ g cap C cur _ HV Hsec) as (s1 & E1 & HV1).
  rewrite (bind_Ret _ _ _ _ _ E1). cbn [Z.eqb sector_size cached set_dirty set_buffer_lba set_buffer file_read_loop].
  destruct (resolve_past s1 _ g cap C cs fl c HV1 Hg Hch Hpos eq_refl Hlast Heoc) as (s2 & cur2 & E2 & HV2 & Hrw & Hs2).
  rewrite Hss, Hrw. cbn [Z.leb Z.compare Pos.compare Pos.compare_cont].
  rewrite bind_bind, (bind_Ret _ _ _ _ _ E2). cbn [fst snd f_vol f_sector].
  destruct (vread s2 _ g cap C cur2 _ HV2 Hs2) as (s3 & E3 & HV3).
  rewrite bind_bind, (bind_Ret _ _ _ _ _ E3), bind_ret. cbn [fst snd Z.eqb f_vol f_rw_offset].
  destruct (vpeek_run s3 _ g cap C _ 0 HV3 ltac:(lia) ltac:(lia)) as (x & E4 & Hx).
  rewrite (bind_Ret _ _ _ _ _ E4). cbn [f_glob_offset f_sector f_cluster]. rewrite Hoff, (u32_small (_ + 1)).
  2: { unfold flen in *. lia. }
  rewrite (proj2 (Z.leb_le _ _)) by lia. cbn [app]. eexists _, _, x. split_and!; [reflexivity|exact Hx|done|done].
Qed.

(** C33. Reading a file: from an open file at offset [p] of a volume with nothing to
    write back, whose clusters are linked in the allocation table and hold the
    size of the file, less than [2^32] bytes.  With [p] inside the clusters,
    [fat_file_read] succeeds and gives the next bytes of the file's clusters in
    order, across sectors and clusters, up to the requested count or the end of
    the file, and leaves the file open right after them; at the end of the file it
    still gives one byte, because the end is tested after a byte is taken.  With
    [p] at the end of the last cluster, which the table marks as the last, that one
    byte is not the file's: it is the first byte of the sector that follows the
    cluster on the card, because the result of [fat_file_addr_resolve] is not
    looked at. *)
Theorem fat_file_read_correct (s : fat) g cap C cs fl p n :
  fready s g cap C cs fl p → geo_ok g cap → chain_ok C g cap cs →
  f_size fl <= flen g cs → flen g cs < 2 ^ 32 →
  p <= flen g cs ∧
  (n = O ∨ p < flen g cs →
   ∃ s' fl' out, fat_file_read fl n s = Ret ((FSTATUS_OK, fl', out), s') ∧
    fready s' g cap C cs fl' (p + Z.of_nat (length out)) ∧
    Z.of_nat (length out) = Z.min (Z.of_nat n) (Z.max 1 (f_size fl - p)) ∧
    (∀ i x, out !! i = Some x → byte_at C g cs (p + Z.of_nat i) = Some x)) ∧
  (∀ c, n ≠ O → p = flen g cs → last cs = Some c → is_eoc (entry C g c) = true →
   ∃ s' fl' x, fat_file_read fl n s = Ret ((FSTATUS_OK, fl', [x]), s') ∧
    C (sect g c + cluster_size g) !! 0%nat = Some x ∧ f_sector fl' = sect g c + cluster_size g ∧
    f_glob_offset fl' = p + 1).
Proof.
  intros ((cur & HV) & Hpos & Hoff) Hg Hch Hsz Hmax. split_and!.
  { destruct Hpos as (k & c & j & r & Hk & _ & _ & Hj & _ & Hr & ->). apply lookup_lt_Some in Hk. unfold flen. nia. }
  2: { intros c Hn0 -> Hlast Heoc. by eapply read_behind. }
  intros Hn.
  destruct (fpos_sector g cap cs C fl p Hg Hch Hpos) as [Hsec _].
  unfold fat_file_read.
  match goal with |- context [bind (get_vol (f_vol fl)) ?k s] =>
    destruct (vstate_geo s _ g cap C cur k HV) as (b & E) end.
  rewrite E. clear E. destruct (vread s _ g cap C cur _ HV Hsec) as (s1 & E1 & HV1).
  rewrite (bind_Ret _ _ _ _ _ E1). cbn [Z.eqb sector_size cached set_dirty set_buffer_lba set_buffer].
  assert (fopen s1 (f_vol fl) g cap C cs fl p) as HO by (by constructor).
  destruct (read_loop n s1 _ g cap C cs fl p (f_size fl) [] HO Hg Hch Hn Hsz Hmax)
    as (s' & fl' & out & E & [HV' Hpos' Ha' Hoff'] & Hl & Hout & _).
  exists s', fl', out. split_and!; [exact E| |done|done].
  split_and!; [eexists; rewrite Ha'; exact HV'|done|done].
Qed.

(** C34. Seeking: on a file whose first sector is that of its chain,
    [fat_file_jump] to an offset inside the chain succeeds and leaves the file
    open at that offset, so that reading goes on from there; an offset past a
    chain that ends with an end mark also gives success, but the file's sector
    and offsets stay where they were. *)
Theorem fat_file_jump_correct (s : fat) g cap C cs fl c0 offset cur :
  vstate s (f_vol fl) g cap C cur → geo_ok g cap → chain_ok C g cap cs →
  cs !! 0%nat = Some c0 → f_start_sect fl = sect g c0 → 0 <= offset →
  (offset < flen g cs →
     ∃ s' fl', fat_file_jump fl offset s = Ret ((FSTATUS_OK, fl'), s') ∧ fready s' g cap C cs fl' offset ∧
       f_size fl' = f_size fl ∧ f_start_sect fl' = f_start_sect fl) ∧
  (flen g cs <= offset → (∀ c, List.last cs c0 = c → is_eoc (entry C g c) = true) →
     ∃ s' fl', fat_file_jump fl offset s = Ret ((FSTATUS_OK, fl'), s') ∧
       f_sector fl' = f_sector fl ∧ f_rw_offset fl' = f_rw_offset fl ∧ f_glob_offset fl' = f_glob_offset fl).
Proof.
  intros HV Hg Hch H0 Hst Hoff. pose proof Hg as (Hss & Hcz & Hf & Hd & Hmax).
  destruct (Hch 0%nat c0 H0) as [(Hc0 & Hc1 & Hc2) _].
  assert (∀ b, fat_sect_to_clust (cached b cur 0 g) (f_start_sect fl) = Some c0) as Ec.
  { intros b. unfold fat_sect_to_clust. cbn. rewrite eqb_false by lia. rewrite Hst. unfold sect in *.
    rewrite (u32_small (_ - _)) by nia. f_equal.
    replace (data_lba g + (c0 - 2) * cluster_size g - data_lba g) with ((c0 - 2) * cluster_size g) by lia.
    rewrite Z.div_mul by lia. rewrite u32_small by lia. lia. }
  unfold fat_file_jump.
  match goal with |- context [bind (get_vol (f_vol fl)) ?k s] =>
    destruct (vstate_geo s _ g cap C cur k HV) as (b & E) end.
  rewrite E. clear E. rewrite Ec. unfold of_option. rewrite bind_ret.
  cbn [sector_size cluster_size cached set_dirty set_buffer_lba set_buffer]. rewrite Hss. cbn [Z.eqb].
  set (k := Z.to_nat (offset / 512 / cluster_size g)).
  split.
  - intros Hlt. unfold flen in Hlt.
    assert (k < length cs)%nat as Hk.
    { unfold k. assert (offset / 512 / cluster_size g < Z.of_nat (length cs)); [|lia].
      apply Z.div_lt_upper_bound; [lia|]. apply Z.div_lt_upper_bound; [lia|]. lia. }
    apply lookup_lt_is_Some in Hk as [c Hc].
    destruct (jump_run k s _ g cap C cur cs 0 c0 c HV Hg Hch H0 Hc) as (s1 & cur1 & E1 & HV1 & _).
    rewrite (bind_Ret _ _ _ _ _ E1). cbn [fst snd].
    match goal with |- context [bind (get_vol (f_vol fl)) ?k s1] =>
      destruct (vstate_geo s1 _ g cap C cur1 k HV1) as (b1 & E) end.
    rewrite E. clear E. destruct (Hch k c Hc) as [Hcok _]. rewrite (clust_to_sect g cap) by done.
    cbn [sector_size cached set_dirty set_buffer_lba set_buffer]. rewrite Hss.
    destruct Hcok as (Hb0 & Hb1 & Hb2).
    assert (0 <= offset / 512 mod cluster_size g < cluster_size g) as Hj by (apply Z.mod_pos_bound; lia).
    assert (0 < sect g c) by (unfold sect; nia).
    rewrite u32_small by lia. eexists _, _. split; [reflexivity|]. split; [|done]. split_and!.
    + by exists cur1.
    + exists k, c, (offset / 512 mod cluster_size g), (offset mod 512). cbn. split_and!; try done; try lia.
      assert (Z.of_nat k = offset / 512 / cluster_size g) as ->.
      { unfold k. rewrite Z2Nat.id; [done|]. apply Z.div_pos; [|lia]. apply Z.div_pos; lia. }
      pose proof (Z.div_mod (offset / 512) (cluster_size g) ltac:(lia)) as E1'.
      pose proof (Z.div_mod offset 512 ltac:(lia)) as E2'. nia.
    + done.
  - intros Hge Heoc. unfold flen in Hge.
    assert (length cs <= k)%nat as Hk.
    { unfold k. assert (Z.of_nat (length cs) <= offset / 512 / cluster_size g); [|lia].
      apply Z.div_le_lower_bound; [lia|]. apply Z.div_le_lower_bound; [lia|]. lia. }
    destruct (jump_past k s _ g cap C cur cs 0 c0 HV Hg Hch H0 ltac:(lia) (Heoc _ eq_refl)) as (s1 & E1).
    rewrite (bind_Ret _ _ _ _ _ E1). cbn [fst snd]. eexists _, _. split; [reflexivity|]. done.
Qed.

(** Ejecting a disk with a mounted volume frees the volume and then reads
    its successor from the freed memory: [disk_eject] has no defined result
    when the memory core frees the first volume of the list. *)
Theorem disk_eject_use_after_free fuel dk (s : fat) v h' :
  (2 <= fuel)%nat → volume_base s ≠ NULL → volumes s !! volume_base s = Some v → 67 <= letter v < 99 →
  mm_free mm_fuel (volume_base s) (heap s) = Ret (tt, h') →
  disk_eject fuel dk s = UB.
Proof.
  intros Hf Hb Hv Hlt Hfree. destruct fuel as [|[|fuel]]; [lia..|].
  unfold disk_eject, volume_get_first. rewrite bind_gets. remember (S fuel) as f1 eqn:Ef1. cbn [eject_loop].
  rewrite eqb_false by done. cbn [negb]. rewrite (bind_get_vol _ _ _ _ Hv).
  destruct (vdisk v), dk. unfold fat_volume_remove. rewrite !bind_bind, bind_gets, eqb_false by done.
  rewrite !bind_bind, (bind_get_vol _ _ _ _ Hv), Z.eqb_refl, bind_bind, bind_modify.
  unfold release_letter. rewrite !bind_bind. rewrite (bind_get_vol _ _ _ v) by done.
  rewrite (u8_small (letter v - 67)) by lia. rewrite (proj2 (Z.ltb_ge 31 _)) by lia.
  rewrite bind_bind, bind_modify, bind_ret. cbn [Z.eqb].
  unfold bind at 1 2, in_heap, zoom.
  cbn [heap with_bitmask with_base volumes]. rewrite Hfree.
  unfold modify, ret, bind, get_vol. cbn. by rewrite lookup_delete_eq.
Qed.
End Fat32Theorems.

(** ** A card in memory and a file of two clusters *)

Definition zero_sector : list Z := replicate 512 0.
Lemma zero_sector_ok : length zero_sector = 512%nat ∧ Forall byte zero_sector.
Proof. split; [reflexivity|]. apply Forall_replicate. unfold byte. lia. Qed.
Definition ram_sector (d : gmap Z (list Z)) (lba : Z) : list Z := default zero_sector (d !! lba).

#[export, program] Instance ram_card : SdCard (gmap Z (list Z)) := {
  sd_is_connected := ret 1;
  sd_protocol_init := ret tt;
  sd_read lba count buf := λ d, Ret ((1, ram_sector d lba), d);
  sd_write lba count buf := λ d, Ret (1, <[lba := buf]> d);
  sd_sector := ram_sector;
  sd_capacity _ := 4096;
  sd_ok d := map_Forall (λ _ b, length b = 512%nat ∧ Forall byte b) d
}.
Next Obligation.
  cbn. intros d lba Hok _. unfold ram_sector. destruct (d !! lba) as [b|] eqn:E; [by apply (Hok lba)|].
  exact zero_sector_ok.
Qed.
Next Obligation. cbn. intros d lba buf Hok Hl Hb. by exists d. Qed.
Next Obligation.
  cbn. intros d lba buf Hok Hl Hb Hbb. right. eexists. split; [reflexivity|]. split_and!; [|done| |].
  - by apply map_Forall_insert_2.
  - unfold ram_sector. by rewrite lookup_insert_eq.
  - intros l Hne. unfold ram_sector. by rewrite lookup_insert_ne.
Qed.

Definition ex_fat_sector : list Z :=
  list_inserts 12 (le_split 4 5) (list_inserts 20 (le_split 4 0x0FFFFFFF) zero_sector).
Definition ex_card : gmap Z (list Z) :=
  <[32 := ex_fat_sector]> (<[41 := replicate 512 1]> (<[43 := replicate 512 2]> ∅)).
Definition ex_geo : volume := Volume 0 [] 67 512 1 2000 32 33 40 40 zero_sector 0 DISK_SD_CARD 0.
Definition ex_vol : Z := 256.
Definition ex_fs : @fat (gmap Z (list Z)) := Fat {[ex_vol := cached zero_sector 0 0 ex_geo]} ex_vol 1 zero_sector ex_card small_mm.
Definition ex_file : file := File 41 3 0 600 41 0 ex_vol.

Lemma ex_card_ok : sd_ok ex_card.
Proof.
  cbn. repeat apply map_Forall_insert_2; try apply map_Forall_empty; (split; [reflexivity|]);
    apply (bool_decide_unpack _); vm_compute; exact I.
Qed.

Lemma ex_vol_wf : vol_wf ex_card (cached zero_sector 0 0 ex_geo).
Proof. constructor; [apply zero_sector_ok|apply zero_sector_ok|done|done]. Qed.

Lemma ex_vstate : vstate ex_fs ex_vol ex_geo 4096 (ram_sector ex_card) 0.
Proof.
  constructor; [|apply ex_card_ok|done]. exists zero_sector. split_and!; [done|apply ex_vol_wf|].
  intros l Hl. unfold view. cbn. by rewrite decide_False by lia.
Qed.

Lemma ex_geo_ok : geo_ok ex_geo 4096.
Proof. split_and!; cbn; done || lia. Qed.

Lemma ex_chain_ok : chain_ok (ram_sector ex_card) ex_geo 4096 [3; 5].
Proof.
  intros [|[|k]] c Hk; cbn in Hk; simplify_eq; (split; [split_and!; unfold sect; cbn; lia|]); intros c' Hc'; cbn in Hc'; simplify_eq.
  split; vm_compute; reflexivity.
Qed.

Lemma fat_cache_coherent_witness :
  ∃ s', fat_read ex_vol 41 ex_fs = Ret (1, s') ∧ sd_ok (dev s').
Proof.
  destruct (proj1 (fat_cache_coherent ex_vol 41 ex_fs _ eq_refl ex_card_ok ex_vol_wf ltac:(cbn; lia)))
    as [[Hd _]|(ok & s' & E & -> & Hok & _)]; [by destruct Hd|].
  exists s'. split; [exact E|exact Hok].
Defined.

Lemma fat_table_roundtrip_witness :
  ∃ s' v', fat_table_set ex_vol 7 9 ex_fs = Ret (1, s') ∧ fat_entry (dev s') v' 7 = 9.
Proof.
  destruct (proj2 (fat_table_roundtrip ex_vol 7 9 ex_fs _ eq_refl ex_card_ok ex_vol_wf
    ltac:(split_and!; cbn; lia) ltac:(lia))) as [[m E]|(s' & v' & E & _ & _ & He & _)].
  - exfalso. assert (match fat_table_set ex_vol 7 9 ex_fs with Ret _ => true | _ => false end = true) as E'
      by (vm_compute; reflexivity). by rewrite E in E'.
  - exists s', v'. split; [exact E|exact He].
Defined.

Lemma fat_file_read_correct_witness :
  ∃ s' fl' out, fat_file_read ex_file 513 ex_fs = Ret ((FSTATUS_OK, fl', out), s') ∧ length out = 513%nat.
Proof.
  assert (fready ex_fs ex_geo 4096 (ram_sector ex_card) [3; 5] ex_file 0) as Hr.
  { split_and!; [exists 0; apply ex_vstate|exists 0%nat, 3, 0, 0; split_and!; cbn; done || lia|done]. }
  destruct (proj1 (proj2 (fat_file_read_correct ex_fs ex_geo 4096 (ram_sector ex_card) [3; 5] ex_file 0 513 Hr ex_geo_ok ex_chain_ok
    ltac:(unfold flen; cbn; lia) ltac:(unfold flen; cbn; lia))) ltac:(right; unfold flen; cbn; lia)) as (s' & fl' & out & E & _ & Hl & _).
  exists s', fl', out. split; [exact E|]. cbn [f_size ex_file] in Hl. lia.
Defined.

Lemma fat_file_jump_correct_witness :
  ∃ s' fl', fat_file_jump ex_file 515 ex_fs = Ret ((FSTATUS_OK, fl'), s') ∧ f_start_sect fl' = 41.
Proof.
  destruct (proj1 (fat_file_jump_correct ex_fs ex_geo 4096 (ram_sector ex_card) [3; 5] ex_file 3 515 0 ex_vstate ex_geo_ok
    ex_chain_ok eq_refl eq_refl ltac:(lia)) ltac:(unfold flen; cbn; lia)) as (s' & fl' & E & _ & _ & Hst).
  exists s', fl'. split; [exact E|exact Hst].
Defined.

Lemma disk_eject_use_after_free_witness :
  ∃ h p, disk_eject 2 DISK_SD_CARD (Fat {[p := ex_geo]} p 1 zero_sector ex_card h) = UB.
Proof.
  destruct small_pmalloc as (h & _ & HL).
  destruct (pfree_law 2 h _ 0x2008 512 HL (lookup_insert_eq _ _ _)) as (h' & E & _).
  exists h, 0x2008.
  apply (disk_eject_use_after_free 2 DISK_SD_CARD (Fat {[0x2008 := ex_geo]} 0x2008 1 zero_sector ex_card h) ex_geo h').
  - lia.
  - done.
  - apply lookup_insert_eq.
  - cbn. lia.
  - exact E.
Defined.
