(* ===== verification/SdDriver.v ===== *)
(** * The SD card driver on a card

    [CardLaws] is the documented behaviour of the controller with a selected card
    behind it, in terms of register accesses.  On such a device [sd_read] gives the
    card's blocks, and the driver is an instance of the class [SdCard] the file
    system is written against. *)

From S2P Require Import Prelude Memory Mm Palloc Fat32 Hardware Gpio Clock Mmc MmcTheorems SdProtocol SdTheorems.

(** ** The card behind the controller *)

(** The words of a block, as they are transferred. *)
Fixpoint block_words (n : nat) (bs : list Z) : list Z :=
  match n with O => [] | S n => le_join (take 4 bs) :: block_words n (drop 4 bs) end.

(** A status without the flags of a failed data transfer. *)
Definition adtc_ok (v : Z) : Prop := Z.land v 0x21FB0000 = 0 ∧ Z.land v (Z.shiftl 1 18) = 0.

(** The commands the driver uses on a selected card: CMD13 and CMD17. *)
Definition CMD13 : Z := Z.lor SD_RESP_1 13.
Definition CMD17 : Z := Z.lor (Z.lor (Z.lor (Z.lor MMC_CMD_SINGLE MMC_CMD_START_DATA) MMC_CMD_READ) SD_RESP_1) 17.

Class CardLaws (D : Type) `{Mmio D} := {
  (** The longest wait, in reads of the status or polls of the card. *)
  card_delay : nat;
  (** A card in transfer state, no transfer in progress. *)
  card_ok : D → Prop;
  card_block : D → Z → list Z;
  card_blocks : D → Z;
  card_rca : D → Z;
  card_sdhc : D → bool;
  (** How many polls with CMD13 until the card is ready for data. *)
  card_busy : D → nat;
  (** [card_data d ws d']: [d'] is [d] in the middle of a block, [ws] still to come. *)
  card_data : D → list Z → D → Prop;

  law_block d l : card_ok d → 0 ≤ l < card_blocks d → length (card_block d l) = 512%nat ∧ Forall byte (card_block d l);
  law_busy d : card_ok d → (card_busy d < card_delay)%nat;

  (** Reading and writing the mode and block registers does not disturb the card. *)
  law_mode d : card_ok d →
    (∀ v, let d' := io_write MMC_MR v d in card_ok d' ∧ card_busy d' = card_busy d ∧ card_rca d' = card_rca d ∧
       card_sdhc d' = card_sdhc d ∧ card_blocks d' = card_blocks d ∧ card_block d' = card_block d) ∧
    (let d' := (io_read MMC_MR d).2 in card_ok d' ∧ card_busy d' = card_busy d ∧ card_rca d' = card_rca d ∧
       card_sdhc d' = card_sdhc d ∧ card_blocks d' = card_blocks d ∧ card_block d' = card_block d);

  (** CMD13 gets the status of the addressed card: bit 8 when it is ready. *)
  law_cmd13 d : card_ok d →
    polls card_delay MMC_SR 1 cmd_ok (io_write MMC_CMD CMD13 (io_write MMC_ARG (u32 (Z.shiftl (card_rca d) 16)) d))
      (λ _ d', let '(r, d'') := io_read (MMC_RESP 0) d' in
         card_ok d'' ∧ card_rca d'' = card_rca d ∧ card_sdhc d'' = card_sdhc d ∧
         card_blocks d'' = card_blocks d ∧ card_block d'' = card_block d ∧
         card_busy d'' = pred (card_busy d) ∧ (Z.land r (Z.shiftl 1 8) = 0 ↔ card_busy d ≠ O));

  (** CMD17 starts the transfer of a block of a card that is ready: addressed by
      number on a card of high capacity, by byte otherwise. *)
  law_cmd17 d l : card_ok d → card_busy d = O → 0 ≤ l < card_blocks d →
    polls card_delay MMC_SR 1 (λ _, True)
      (io_write MMC_CMD CMD17 (io_write MMC_ARG (if card_sdhc d then u32 l else u32 (l * 512))
         (io_write MMC_BLKR 0x02000001 d)))
      (λ v d', adtc_ok v ∧ card_data d (block_words 128 (card_block d l)) d');
  law_data d w ws d' : card_data d (w :: ws) d' →
    polls card_delay MMC_SR 2 (λ _, True) d' (λ _ d1, let '(v, d2) := io_read MMC_RDR d1 in v = w ∧ card_data d ws d2);
  law_done d d' : card_data d [] d' →
    let '(r, d'') := io_read (MMC_RESP 0) d' in
    Z.land r 0xFFF80000 = 0 ∧ card_ok d'' ∧ card_rca d'' = card_rca d ∧ card_sdhc d'' = card_sdhc d ∧
    card_blocks d'' = card_blocks d ∧ card_block d'' = card_block d
}.

(** ** Words and bytes *)

Definition words_bytes (ws : list Z) : list Z := mjoin (le_split 4 <$> ws).

Lemma words_bytes_block n bs : length bs = (4 * n)%nat → Forall byte bs → words_bytes (block_words n bs) = bs.
Proof.
  revert bs; induction n as [|n IH]; intros bs Hl Hb; [by destruct bs|].
  assert (length (take 4 bs) = 4%nat) as H4 by (rewrite length_take; lia).
  assert (le_split 4 (le_join (take 4 bs)) = take 4 bs) as E
    by (rewrite <- H4 at 1; apply le_split_join; by apply Forall_take).
  change (le_split 4 (le_join (take 4 bs)) ++ words_bytes (block_words n (drop 4 bs)) = bs). rewrite E, IH; [apply take_drop| |by apply Forall_drop].
  rewrite length_drop. lia.
Qed.

Lemma length_block_words n bs : length (block_words n bs) = n.
Proof. revert bs; induction n as [|n IH]; intros bs; [done|]. cbn. by rewrite IH. Qed.

Lemma inserts_all (l b : list Z) : length l = length b → list_inserts 0 l b = l.
Proof. intros Hl. pose proof (list_inserts_0_l l [] b Hl) as E. by rewrite app_nil_r in E. Qed.

(** ** The driver's steps *)

Section Driver.
Context {D : Type} `{HL : CardLaws D}.
Variable fuel : nat.
Context (Hfuel : (card_delay ≤ fuel)%nat) (Hdelay : Z.of_nat card_delay < 200000).


(** The driver's view of the card is the card: address, addressing mode, and a size
    that is not too large. *)
Definition sd_view (c : sd_card) (d : D) : Prop :=
  rca c = card_rca d ∧ high_capacity c = (if card_sdhc d then 1 else 0) ∧
  0 ≤ kib_size c ∧ 2 * kib_size c ≤ card_blocks d ∧ 2 * kib_size c < 2 ^ 32.
Definition sd_wf (s : sd D) : Prop := card_ok (sd_dev s) ∧ sd_view (slot_1 s) (sd_dev s).

(** Two devices with the same card behind them. *)
Definition same_card (d d' : D) : Prop :=
  card_rca d' = card_rca d ∧ card_sdhc d' = card_sdhc d ∧ card_blocks d' = card_blocks d ∧ card_block d' = card_block d.

Lemma same_card_trans d1 d2 d3 : same_card d1 d2 → same_card d2 d3 → same_card d1 d3.
Proof. unfold same_card. intuition congruence. Qed.
Lemma sd_view_same c d d' : same_card d d' → sd_view c d → sd_view c d'.
Proof. intros (E1 & E2 & E3 & _). unfold sd_view. by rewrite E1, E2, E3. Qed.

Lemma dev_Ret {A} (c : M D A) (s : sd D) a d : c (sd_dev s) = Ret (a, d) → dev c s = Ret (a, Sd d (slot_1 s)).
Proof. intros E. unfold dev. by rewrite (zoom_Ret _ _ _ _ _ _ E). Qed.

(** CMD13: one poll. *)
Lemma cmd13_run (d : D) :
  card_ok d →
  ∃ d', mmc_send_cmd fuel CMD13 (u32 (Z.shiftl (card_rca d) 16)) 1 d = Ret (1, d') ∧
    let '(r, d'') := io_read (MMC_RESP 0) d' in
    card_ok d'' ∧ same_card d d'' ∧ card_busy d'' = pred (card_busy d) ∧
    (Z.land r (Z.shiftl 1 8) = 0 ↔ card_busy d ≠ O).
Proof.
  intros Hok. destruct (cmd_wait_run _ fuel 1 _ _ (law_cmd13 d Hok) Hfuel) as (v & d' & E & HP).
  exists d'. split; [|destruct (io_read (MMC_RESP 0) d') as [r d'']; unfold same_card; tauto].
  unfold mmc_send_cmd, bind at 1, wr32, modify. unfold bind at 1. rewrite u32_idemp.
  change (u32 CMD13) with CMD13. by rewrite (bind_Ret _ _ _ _ _ E).
Qed.

Lemma cmd_13_loop_run k timeout (s : sd D) :
  sd_wf s → (card_busy (sd_dev s) < k)%nat → Z.of_nat (card_busy (sd_dev s)) + 1 < timeout →
  ∃ d', cmd_13_loop fuel k timeout s = Ret (1, Sd d' (slot_1 s)) ∧
    card_ok d' ∧ card_busy d' = O ∧ same_card (sd_dev s) d'.
Proof.
  remember (card_busy (sd_dev s)) as m eqn:Em. revert k timeout s Em.
  induction m as [|m IH]; intros k timeout [d c] Em [Hok Hv] Hk Ht; cbn [sd_dev slot_1] in *;
    (destruct k as [|k]; [lia|]); cbn [cmd_13_loop];
    destruct (cmd13_run d Hok) as (d1 & E1 & Hr); unfold bind at 1, slot, gets; cbn [slot_1];
    rewrite (proj1 Hv); fold CMD13; rewrite (bind_Ret _ _ _ _ _ (dev_Ret _ (Sd d c) _ _ E1)); cbn [Z.eqb sd_dev slot_1];
    rewrite (proj2 (Z.leb_gt timeout 1)) by lia; unfold bind, dev, zoom, mmc_read_resp48, rd32; cbn [sd_dev with_dev slot_1];
    destruct (io_read (MMC_RESP 0) d1) as [r d2]; destruct Hr as (Hok2 & Hs2 & Hb2 & Hr).
  - rewrite (eqb_false (Z.land r _)) by (rewrite Hr, <- Em; lia). exists d2. rewrite <- Em in Hb2. done.
  - rewrite (eqb_true (Z.land r _)) by (rewrite Hr, <- Em; lia).
    destruct (IH k (timeout - 1) (Sd d2 c)) as (d' & E & Hok' & Hb' & Hs'); cbn [sd_dev slot_1] in *.
    + rewrite Hb2, <- Em. done.
    + split; [done|]. by eapply sd_view_same.
    + lia.
    + lia.
    + exists d'. split; [done|]. split_and!; [done|done|]. by eapply same_card_trans.
Qed.

(** The mode register's read-modify-write. *)
Lemma set_mode_run f (d : D) : card_ok d →
  ∃ d', (let* r := rd32 MMC_MR in wr32 MMC_MR (f r)) d = Ret (tt, d') ∧
    card_ok d' ∧ card_busy d' = card_busy d ∧ same_card d d'.
Proof.
  intros Hok. destruct (law_mode d Hok) as [_ Hrd]. cbv zeta in Hrd. unfold bind, rd32.
  destruct (io_read MMC_MR d) as [r d1]. cbn [snd] in Hrd. destruct Hrd as (Hok1 & Hb1 & R1 & R2 & R3 & R4).
  destruct (law_mode d1 Hok1) as [Hwr _]. specialize (Hwr (u32 (f r))). cbv zeta in Hwr.
  eexists. split; [reflexivity|]. unfold same_card. intuition congruence.
Qed.

(** CMD17: the transfer of a block begins. *)
Lemma cmd17_run l (d : D) :
  card_ok d → card_busy d = O → 0 ≤ l < card_blocks d →
  ∃ d0 d', mmc_send_adtc fuel CMD17 (if card_sdhc d then u32 l else u32 (l * 512)) 512 1 1 d = Ret (1, d') ∧
    same_card d d0 ∧ card_data d0 (block_words 128 (card_block d l)) d'.
Proof.
  intros Hok Hb Hl. unfold mmc_send_adtc.
  destruct (set_mode_run (λ r, Z.lor r (Z.lor (Z.shiftl 1 11) (Z.shiftl 1 12))) d Hok) as (d1 & E1 & Hok1 & Hb1 & S1).
  rewrite (bind_Ret _ _ _ _ _ E1). change (Z.land 512 3 =? 0) with true. cbn [negb].
  destruct (set_mode_run (λ r, Z.land r (Z.lnot (Z.shiftl 1 13))) d1 Hok1) as (d2 & E2 & Hok2 & Hb2 & S2).
  rewrite (bind_Ret _ _ _ _ _ E2). pose proof (same_card_trans _ _ _ S1 S2) as (R1 & R2 & R3 & R4).
  pose proof (law_cmd17 d2 l Hok2 ltac:(congruence) ltac:(by rewrite R3)) as Hp. rewrite R2, R4 in Hp.
  change (Z.land (Z.shiftr CMD17 19) 7 =? 4) with false. cbn [negb].
  change (Z.lor (Z.shiftl 512 16) (Z.land 1 0xFFFF)) with 0x02000001.
  unfold bind at 1, wr32, modify. unfold bind at 1. unfold bind at 1. change (u32 0x02000001) with 0x02000001.
  change (u32 CMD17) with CMD17. rewrite (u32_small (if card_sdhc d then _ else _)) by
    (destruct (card_sdhc d); apply u32_range).
  destruct (ready_status_run _ fuel _ _ Hp Hfuel) as (v & d' & E & [H1 H2] & Hd).
  rewrite (bind_Ret _ _ _ _ _ E), H1, H2. cbn [Z.eqb negb andb].
  change (Z.land (Z.shiftr CMD17 6) 3) with 1. unfold wait_r1b. change (Z.land (Z.shiftr CMD17 6) 3 =? 3) with false.
  exists d2, d'. split_and!; done.
Qed.

(** The words of the transfer, one by one into the buffer. *)
Lemma read_words_run ws k buffer (d0 : D) (s : sd D) :
  card_data d0 ws (sd_dev s) → (4 * (k + length ws) ≤ length buffer)%nat →
  ∃ d', read_words fuel (length ws) k buffer s = Ret (list_inserts (4 * k) (words_bytes ws) buffer, Sd d' (slot_1 s)) ∧
    card_data d0 [] d'.
Proof.
  revert k buffer s; induction ws as [|w ws IH]; intros k buffer [d c] Hd Hl; cbn [sd_dev slot_1] in *.
  { exists d. split; [done|done]. }
  cbn [length read_words] in *.
  destruct (wait_bits_spec _ fuel _ _ _ _ _ (law_data _ _ _ _ Hd) Hfuel) as (v & d1 & E & HP).
  assert (∃ d2, mmc_read_data fuel d = Ret (w, d2) ∧ card_data d0 ws d2) as (d2 & E2 & Hd2).
  { unfold mmc_read_data. change (Z.shiftl 1 1) with 2. rewrite (bind_Ret _ _ _ _ _ E). unfold rd32.
    destruct (io_read MMC_RDR d1) as [x d2]. destruct HP as [-> HP]. by exists d2. }
  rewrite (bind_Ret _ _ _ _ _ (dev_Ret _ (Sd d c) _ _ E2)). unfold put_word at 1.
  rewrite (proj2 (Nat.leb_le _ _)) by lia. rewrite bind_ret. cbn [slot_1].
  destruct (IH (S k) (list_inserts (4 * k) (le_split 4 w) buffer) (Sd d2 c) Hd2) as (d' & E' & Hd').
  { rewrite length_inserts. lia. }
  exists d'. rewrite E'. split; [|done]. do 2 f_equal. change (words_bytes (w :: ws)) with (le_split 4 w ++ words_bytes ws).
  rewrite list_inserts_app_l, length_le_split. f_equal. f_equal. lia.
Qed.

(** The blocks [sector + i .. sector + i + c) of a card. *)
Definition blocks (d : D) (sector : Z) (c : nat) : list Z := mjoin (card_block d <$> seqZ sector (Z.of_nat c)).

Lemma sd_read_loop_run c i sector buffer (s : sd D) :
  sd_wf s → 0 ≤ i → 0 ≤ sector → sector + i + Z.of_nat c ≤ 2 * kib_size (slot_1 s) →
  512 * (i + Z.of_nat c) ≤ Z.of_nat (length buffer) →
  ∃ d', sd_read_loop fuel c i sector buffer s =
      Ret ((1, list_inserts (Z.to_nat (512 * i)) (blocks (sd_dev s) (sector + i) c) buffer), Sd d' (slot_1 s)) ∧
    sd_wf (Sd d' (slot_1 s)) ∧ same_card (sd_dev s) d'.
Proof.
  revert i buffer s; induction c as [|c IH]; intros i buffer [d sl] Hwf Hi Hs Hlast Hl; cbn [slot_1 sd_dev] in *.
  { exists d. split; [done|]. split; [done|]. by repeat split. }
  cbn [sd_read_loop]. destruct Hwf as [Hok Hv]. cbn [sd_dev slot_1] in *. pose proof Hv as (_ & Hhc & Hk0 & Hk & Hk32).
  pose proof (law_busy d Hok) as Hb.
  destruct (cmd_13_loop_run fuel 200000 (Sd d sl)) as (d1 & E1 & Hok1 & Hb1 & S1); [done|cbn; lia|cbn; lia|].  cbn [sd_dev slot_1] in *.
  unfold sd_exec_cmd_13. rewrite (bind_Ret _ _ _ _ _ E1). cbn [Z.eqb slot_1]. unfold bind at 1, slot, gets. cbn [slot_1].
  pose proof S1 as (R1 & R2 & R3 & R4). cbn [sd_dev] in *.
  destruct (cmd17_run (sector + i) d1 Hok1 Hb1 ltac:(lia)) as (d2 & d3 & E3 & S3 & Hd3).
  assert ((if negb (high_capacity sl =? 0) then u32 (sector + i) else u32 (u32 (sector + i) * 512)) =
          (if card_sdhc d1 then u32 (sector + i) else u32 ((sector + i) * 512))) as ->.
  { rewrite Hhc, R2. destruct (card_sdhc d); cbn [Z.eqb negb]; [done|]. by rewrite (u32_small (sector + i)) by lia. }
  fold CMD17. cbv zeta. rewrite (bind_Ret _ _ _ _ _ (dev_Ret _ (Sd d1 sl) _ _ E3)). cbn [slot_1].
  set (ws := block_words 128 (card_block d1 (sector + i))) in *.
  assert (length ws = 128%nat) as Hws by apply length_block_words.
  destruct (read_words_run ws (128 * Z.to_nat i) buffer d2 (Sd d3 sl) Hd3 ltac:(lia)) as (d4 & E4 & Hd4).
  rewrite Hws in E4. rewrite (bind_Ret _ _ _ _ _ E4). cbn [slot_1].
  pose proof (law_done _ _ Hd4) as Hdone. unfold bind at 1, dev, zoom, mmc_read_resp48, rd32. cbn [sd_dev with_dev slot_1].
  destruct (io_read (MMC_RESP 0) d4) as [r d5]. destruct Hdone as (Hr & Hok5 & Q1 & Q2 & Q3 & Q4).
  rewrite Hr. cbn [Z.eqb negb].
  assert (same_card d d5) as S5.
  { eapply same_card_trans; [exact S1|]. eapply same_card_trans; [exact S3|]. by repeat split. }
  destruct (law_block d1 (sector + i) Hok1 ltac:(lia)) as [Hlen Hbytes].
  assert (words_bytes ws = card_block d (sector + i)) as Ew.
  { unfold ws. rewrite words_bytes_block by done. by rewrite R4. }
  destruct (IH (i + 1) (list_inserts (4 * (128 * Z.to_nat i)) (words_bytes ws) buffer) (Sd d5 sl)) as (d' & E' & Hwf' & S');
    [split; [done|by eapply sd_view_same]|lia|lia|cbn; lia|rewrite length_inserts; lia|].
  unfold with_dev. cbn [sd_dev slot_1] in *. exists d'. rewrite E'. split; [|split; [done|by eapply same_card_trans]].
  rewrite Ew. do 3 f_equal. unfold blocks at 2. rewrite Nat2Z.inj_succ, seqZ_cons by lia. cbn [fmap list_fmap mjoin list_join].
  rewrite list_inserts_app_l, <- R4, Hlen, R4. unfold blocks.
  replace (card_block d5) with (card_block d) by (symmetry; apply S5).
  replace (Z.succ (sector + i)) with (sector + (i + 1)) by lia. replace (Z.pred (Z.succ (Z.of_nat c))) with (Z.of_nat c) by lia.
  replace (Z.to_nat (512 * (i + 1))) with (512 + Z.to_nat (512 * i))%nat by lia.
  replace (4 * (128 * Z.to_nat i))%nat with (Z.to_nat (512 * i)) by lia. done.
Qed.

Lemma length_blocks (d : D) sector c :
  card_ok d → 0 ≤ sector → sector + Z.of_nat c ≤ card_blocks d → length (blocks d sector c) = (512 * c)%nat.
Proof.
  intros Hok. revert sector. induction c as [|c IH]; intros sector Hs Hl; [done|].
  unfold blocks. rewrite Nat2Z.inj_succ, seqZ_cons by lia. cbn [fmap list_fmap mjoin list_join].
  rewrite length_app. destruct (law_block d sector Hok ltac:(lia)) as [-> _].
  rewrite Z.pred_succ. fold (blocks d (Z.succ sector) c). unfold blocks in IH. cbn [fmap] in IH. rewrite IH by lia. lia.
Qed.

Lemma sd_read_run sector count buffer (s : sd D) :
  sd_wf s → 0 ≤ sector → 0 ≤ count → sector + count ≤ 2 * kib_size (slot_1 s) →
  512 * count ≤ Z.of_nat (length buffer) →
  ∃ d', sd_read fuel sector count buffer s =
      Ret ((1, list_inserts 0 (blocks (sd_dev s) sector (Z.to_nat count)) buffer), Sd d' (slot_1 s)) ∧
    sd_wf (Sd d' (slot_1 s)) ∧ same_card (sd_dev s) d'.
Proof.
  intros Hwf Hs Hc Hlast Hl. pose proof Hwf as (_ & _ & _ & Hk0 & _ & Hk32).
  destruct (sd_read_loop_run (Z.to_nat count) 0 sector buffer s) as (d' & E & Hr);
    [done|lia|lia|lia|lia|]. exists d'. split; [|done].
  unfold sd_read, slot, gets, bind at 1. rewrite !u32_small by lia.
  rewrite (proj2 (Z.ltb_ge _ _)) by lia. by rewrite E, Z.add_0_r.
Qed.

(** C9. Reading blocks: on a controller with a card as [CardLaws] describes it,
    whose size the driver does not overestimate and which makes the driver wait
    for fewer than 200000 polls, the driver's limit, [sd_read] of any number of
    blocks that ends within that size succeeds and gives exactly the bytes of those
    blocks, in order, and leaves the card as it was and ready for the next call.  A
    request whose end, computed in 32 bits, is past the size panics before the card
    is accessed; one whose end wraps around to within the size is not recognised
    and its commands go to the card.  [sd_write] never reaches the card: it
    panics unconditionally. *)
Theorem sd_read_blocks sector count buffer (s : sd D) :
  sd_wf s → 0 ≤ sector → 0 ≤ count → Z.of_nat (length buffer) = 512 * count →
  (sector + count ≤ 2 * kib_size (slot_1 s) →
   ∃ d', sd_read fuel sector count buffer s = Ret ((1, blocks (sd_dev s) sector (Z.to_nat count)), Sd d' (slot_1 s)) ∧
     length (blocks (sd_dev s) sector (Z.to_nat count)) = length buffer ∧
     sd_wf (Sd d' (slot_1 s)) ∧ same_card (sd_dev s) d') ∧
  (2 * kib_size (slot_1 s) < u32 (sector + count) → sd_read fuel sector count buffer s = Panic "Block size wrong") ∧
  (2 ^ 32 ≤ sector + count → u32 (sector + count) ≤ 2 * kib_size (slot_1 s) →
   sd_read fuel sector count buffer s = sd_read_loop fuel (Z.to_nat count) 0 sector buffer s) ∧
  sd_write fuel sector count buffer s = Panic "Watch it".
Proof using Hfuel Hdelay.
  intros Hwf Hs Hc Hl. pose proof Hwf as (_ & _ & _ & Hk0 & _ & Hk32).
  assert (u32 (kib_size (slot_1 s) * 2) = 2 * kib_size (slot_1 s)) as Ek by (rewrite u32_small; lia).
  assert (sd_read fuel sector count buffer s =
    if 2 * kib_size (slot_1 s) <? u32 (sector + count) then Panic "Block size wrong"
    else sd_read_loop fuel (Z.to_nat count) 0 sector buffer s) as Er.
  { unfold sd_read, slot, gets, bind at 1. rewrite Ek. by destruct (2 * _ <? _). }
  split_and!; [|intros Hk; by rewrite Er, (proj2 (Z.ltb_lt _ _))|intros _ Hk; by rewrite Er, (proj2 (Z.ltb_ge _ _))|done].
  - intros Hk. destruct (sd_read_run sector count buffer s Hwf Hs Hc Hk ltac:(lia)) as (d' & E & Hr).
    assert (length (blocks (sd_dev s) sector (Z.to_nat count)) = length buffer) as Hlen.
    { pose proof Hwf as (Hok & _ & _ & _ & Hkb & _). rewrite length_blocks by (done || lia). lia. }
    exists d'. split; [|done]. rewrite E. do 3 f_equal.
    by apply inserts_all.
Qed.

(** ** The interface of the file system *)

#[local] Lemma driver_sector_len (s : sd D) lba :
  sd_wf s → 0 ≤ lba < 2 * kib_size (slot_1 s) →
  length (card_block (sd_dev s) lba) = 512%nat ∧ Forall byte (card_block (sd_dev s) lba).
Proof. intros (Hok & _ & _ & _ & Hk & _) Hl. apply law_block; [done|lia]. Qed.

(** Reading one block. *)
Lemma sd_read_one (s : sd D) lba buf :
  sd_wf s → 0 ≤ lba < 2 * kib_size (slot_1 s) → length buf = 512%nat →
  ∃ d', sd_read fuel lba 1 buf s = Ret ((1, card_block (sd_dev s) lba), Sd d' (slot_1 s)) ∧
    sd_wf (Sd d' (slot_1 s)) ∧ same_card (sd_dev s) d'.
Proof using Hfuel Hdelay.
  intros Hwf Hlba Hl. destruct (sd_read_run lba 1 buf s) as (d' & E & Hwf' & S); [done|lia..|].
  exists d'. split; [|done]. destruct (driver_sector_len s lba Hwf Hlba) as [Hb _].
  rewrite E. do 3 f_equal. change (Z.to_nat 1) with 1%nat. unfold blocks. change (Z.of_nat 1) with (Z.succ 0).
  rewrite seqZ_cons by lia. cbn [Z.pred]. change (seqZ (Z.succ lba) _) with (@nil Z).
  cbn [fmap list_fmap mjoin list_join]. rewrite app_nil_r. apply inserts_all. by rewrite Hb.
Qed.

#[local] Lemma driver_read_law (s : sd D) lba buf :
  sd_wf s → 0 ≤ lba < 2 * kib_size (slot_1 s) → length buf = 512%nat →
  ∃ s', sd_read fuel lba 1 buf s = Ret ((1, card_block (sd_dev s) lba), s') ∧ sd_wf s' ∧
    2 * kib_size (slot_1 s') = 2 * kib_size (slot_1 s) ∧ ∀ l, card_block (sd_dev s') l = card_block (sd_dev s) l.
Proof using Hfuel Hdelay.
  intros Hwf Hlba Hl. destruct (sd_read_one s lba buf Hwf Hlba Hl) as (d' & E & Hwf' & S).
  exists (Sd d' (slot_1 s)). split_and!; [done..|]. intros l. cbn [sd_dev]. by rewrite (proj2 (proj2 (proj2 S))).
Qed.

(** The driver is a storage device for the file system: the number of sectors is
    the one the driver believes. *)
#[refine] Definition sd_driver : SdCard (sd D) := {|
  Fat32.sd_is_connected := sd_is_connected;
  Fat32.sd_protocol_init := sd_protocol_init fuel;
  Fat32.sd_read := sd_read fuel;
  Fat32.sd_write := sd_write fuel;
  sd_sector s := card_block (sd_dev s);
  sd_capacity s := 2 * kib_size (slot_1 s);
  sd_ok := sd_wf
|}.
Proof.
  - exact driver_sector_len.
  - exact driver_read_law.
  - intros s lba buf _ _ _ _. left. by exists "Watch it"%string.
Defined.
End Driver.
