(* ===== verification/SdWitness.v ===== *)
(** * A card for the driver

    A controller with a small card behind it, as an executable device, that has the
    properties the theorems ask for; and those theorems at work on it. *)

From S2P Require Import Prelude Memory Mm Palloc Fat32 Hardware Gpio Clock Mmc MmcTheorems SdProtocol SdTheorems SdDriver.

(** The argument register, the response register, the words still to come, and the
    polls until the card is ready again. *)
Record toy := Toy { t_arg : Z; t_resp : Z; t_words : list Z; t_busy : nat }.

Definition toy_block (l : Z) : list Z := replicate 512 (u8 l).

Definition toy_command (v : Z) (t : toy) : toy :=
  if v =? CMD13 then Toy (t_arg t) (match t_busy t with O => 0x900 | S _ => 0x800 end) (t_words t) (pred (t_busy t))
  else if v =? CMD17 then Toy (t_arg t) 0x900 (block_words 128 (toy_block (t_arg t))) 1
  else t.

#[export] Instance toy_mmio : Mmio toy := {|
  io_read a t :=
    if a =? MMC_SR then (0x37, t)
    else if a =? MMC_RESP 0 then (t_resp t, t)
    else if a =? MMC_RDR then
      match t_words t with
      | w :: ws => (w, Toy (t_arg t) (t_resp t) ws (t_busy t))
      | [] => (0, t)
      end
    else (0, t);
  io_write a v t :=
    if a =? MMC_ARG then Toy v (t_resp t) (t_words t) (t_busy t)
    else if a =? MMC_CMD then toy_command v t
    else t;
  io_barrier _ t := t
|}.

Lemma toy_status (t : toy) mask P (Q : Z → Prop) k :
  Z.land 0x37 mask ≠ 0 → Q 0x37 → P 0x37 t → polls (S k) MMC_SR mask Q t P.
Proof. intros Hm HQ HP. split; [exact HQ|right; split; [exact Hm|exact HP]]. Qed.

Lemma toy_responsive : responsive (D:=toy) 1.
Proof.
  intros mask t Hm. apply toy_status; [|done|done].
  apply list_elem_of_In in Hm. cbn in Hm. destruct Hm as [<-|[<-|[<-|[]]]]; vm_compute; discriminate.
Qed.

#[export] #[refine] Instance toy_card : CardLaws toy := {|
  card_delay := 2;
  card_ok t := t_words t = [] ∧ (t_busy t ≤ 1)%nat;
  card_block _ := toy_block;
  card_blocks _ := 200;
  card_rca _ := 0;
  card_sdhc _ := true;
  card_busy := t_busy;
  card_data _ ws t := t_words t = ws ∧ t_resp t = 0x900 ∧ (t_busy t ≤ 1)%nat
|}.
Proof.
  - intros t l _ _. split; [done|]. apply Forall_replicate. unfold byte, toy_block. apply u8_range.
  - intros t [_ Hb]. lia.
  - intros t [Hw Hb]. split; [intros v|]; cbn; done.
  - intros t [Hw Hb]. apply toy_status; [vm_compute; discriminate|split; reflexivity|].
    cbn. split_and!; try done.
    + unfold toy_command. rewrite Z.eqb_refl. cbn [t_busy]. lia.
    + unfold toy_command. rewrite Z.eqb_refl. cbn [t_resp t_busy]. destruct (t_busy t) as [|k].
      * split; [intros E; vm_compute in E; discriminate E|done].
      * split; [done|reflexivity].
  - intros t l _ _ Hl. apply toy_status; [vm_compute; discriminate|done|].
    split; [split; reflexivity|]. cbn [io_write toy_mmio t_words t_resp t_busy]. split; [|done].
    change (block_words 128 (toy_block (u32 l)) = block_words 128 (toy_block l)). by rewrite u32_small by lia.
  - intros t w ws t' (Hw & Hr & Hb). apply toy_status; [vm_compute; discriminate|done|].
    cbn. rewrite Hw. done.
  - intros t t' (Hw & Hr & Hb). cbn. rewrite Hr. split_and!; done.
Defined.

(** The driver's slot for this card, and some fuel. *)
Definition toy_slot : sd_card := set_kib_size 100 (set_high_capacity 1 slot_1_init).
Definition toy_sd : sd toy := Sd (Toy 0 0 [] 0) toy_slot.
Definition much_fuel : nat := Z.to_nat 200000.

Lemma toy_wf : sd_wf toy_sd.
Proof. split; [split; [done|cbn; lia]|]. split_and!; cbn; try done; lia. Qed.

Lemma sd_driver_terminates_witness :
  let buffer := replicate 1024 0 in
  (responsive (D:=toy) 1 ∧ (1 ≤ much_fuel)%nat ∧ 200000 ≤ Z.of_nat much_fuel ∧ 0 ≤ 2 ∧ 512 * 2 ≤ Z.of_nat (length buffer)) ∧
  match sd_protocol_init much_fuel toy_sd with Ret _ | Panic _ => True | UB | Hang => False end.
Proof.
  intros buffer. assert (1 ≤ much_fuel)%nat as H1 by (unfold much_fuel; lia).
  assert (200000 ≤ Z.of_nat much_fuel) as H2 by (unfold much_fuel; lia).
  assert (512 * 2 ≤ Z.of_nat (length buffer)) as H3 by (unfold buffer; rewrite length_replicate; lia).
  assert (0 ≤ 2) as H4 by lia.
  split; [exact (conj toy_responsive (conj H1 (conj H2 (conj H4 H3))))|].
  pose proof (sd_driver_terminates 1 much_fuel toy_responsive H1 0 2 buffer toy_sd H2 H4 H3) as Ht.
  destruct Ht as [Ht _]. exact Ht.
Defined.

(** Reading blocks 3 and 4. *)
Lemma sd_read_blocks_witness :
  let buffer := replicate 1024 0 in
  ((card_delay (D:=toy) ≤ 10)%nat ∧ Z.of_nat (card_delay (D:=toy)) < 200000 ∧ sd_wf toy_sd ∧
   Z.of_nat (length buffer) = 512 * 2 ∧ 3 + 2 ≤ 2 * kib_size (slot_1 toy_sd)) ∧
  ∃ d', sd_read 10 3 2 buffer toy_sd = Ret ((1, replicate 512 3 ++ replicate 512 4), Sd d' toy_slot).
Proof.
  intros buffer. assert (Z.of_nat (length buffer) = 512 * 2) as Hl by (unfold buffer; rewrite length_replicate; lia).
  assert (card_delay (D:=toy) ≤ 10)%nat as H1 by (cbn; lia). assert (Z.of_nat (card_delay (D:=toy)) < 200000) as H2 by done.
  assert (3 + 2 ≤ 2 * kib_size (slot_1 toy_sd)) as H3 by done.
  split; [exact (conj H1 (conj H2 (conj toy_wf (conj Hl H3))))|].
  pose proof (sd_read_blocks 10 H1 H2 3 2 buffer toy_sd toy_wf ltac:(done) ltac:(done) Hl) as (Ht & _).
  destruct (Ht H3) as (d' & E & _). exists d'. exact E.
Defined.
