(* ===== verification/SdFat.v ===== *)
(** * The file system on the SD card driver

    The theorems on the file system hold for every device of the class [SdCard];
    here it runs on the driver of SdDriver.v. *)

From S2P Require Import Prelude Memory Mm Palloc Hardware Mmc SdProtocol SdDriver Fat32 Fat32Proof SdWitness.

Section SdFat.
Context {D : Type} `{HL : CardLaws D}.
Variable fuel : nat.
Context (Hfuel : (card_delay ≤ fuel)%nat) (Hdelay : Z.of_nat card_delay < 200000).

#[local] Instance the_driver : SdCard (sd D) := sd_driver fuel Hfuel Hdelay.
#[local] Notation fat := (@Fat32.fat (sd D)).

(** A dirty buffer never reaches the card. *)
Lemma flush_dirty a (s : fat) v :
  volumes s !! a = Some v → buffer_dirty v ≠ 0 → fat_flush a s = Panic "Watch it".
Proof.
  intros Hv Hd. unfold fat_flush. rewrite (bind_get_vol _ _ _ _ Hv), (eqb_false _ _ Hd). cbn [negb].
  apply bind_Panic. unfold in_dev, zoom, disk_write. by destruct (vdisk v).
Qed.

Lemma table_set_no_ret a c x (s s' : fat) r : fat_table_set a c x s = Ret (r, s') → r = 0.
Proof.
  unfold fat_table_set. intros E. apply bind_inv in E as (v & s1 & _ & E). cbv zeta in E.
  apply bind_inv in E as (ok & s2 & _ & E). destruct (ok =? 0).
  { unfold ret in E. by simplify_eq. }
  apply bind_inv in E as ([] & s3 & _ & E). apply bind_inv in E as ([] & s4 & E4 & E).
  unfold upd_vol, bind, get_vol in E4. destruct (volumes s3 !! a) as [v3|] eqn:E3; [|done].
  unfold modify in E4. injection E4 as <-.
  apply bind_inv in E as (? & ? & E5 & _).
  rewrite (flush_dirty a _ (set_dirty 1 v3)) in E5; [done| |done]. cbn. apply lookup_insert_eq.
Qed.

(** Reading with nothing to write back. *)
Lemma clean_read a lba (s : fat) v :
  volumes s !! a = Some v → sd_wf (dev s) → vol_wf (dev s) v → 0 < lba < 2 * kib_size (slot_1 (dev s)) →
  buffer_dirty v = 0 →
  ∃ d', fat_read a lba s =
      Ret (1, put_vol a (cached (card_block (sd_dev (dev s)) lba) lba 0 v) (Sd d' (slot_1 (dev s))) s) ∧
    SdDriver.same_card (sd_dev (dev s)) d' ∧ sd_wf (Sd d' (slot_1 (dev s))).
Proof using Hfuel Hdelay.
  intros Hv Hwf [Hlen _ _ Hcl] Hl Hd. unfold fat_read. rewrite (bind_get_vol _ _ _ _ Hv).
  destruct (Z.eqb_spec (buffer_lba v) lba) as [<-|Hne]; cbn [negb].
  - exists (sd_dev (dev s)). destruct (dev s) as [d c] eqn:Ed. cbn [slot_1 sd_dev] in *. split_and!; try done.
    assert (cached (card_block d (buffer_lba v)) (buffer_lba v) 0 v = v) as ->.
    { specialize (Hcl Hd ltac:(lia)). cbn in Hcl. rewrite <- Hcl, <- Hd. unfold cached. by destruct v. }
    by rewrite <- Ed, put_vol_same.
  - destruct (sd_read_one fuel Hfuel Hdelay (dev s) lba (buffer v) Hwf ltac:(lia) Hlen) as (d' & E & Hwf' & HS).
    exists d'. split; [|done]. assert (fat_flush a s = Ret (1, s)) as Ef.
    { unfold fat_flush. by rewrite (bind_get_vol _ _ _ _ Hv), Hd. }
    rewrite (bind_Ret _ _ _ _ _ Ef). cbn [Z.eqb]. rewrite (bind_get_vol _ _ _ _ Hv).
    assert (disk_read (vdisk v) (buffer v) lba 1 (dev s) = Ret ((1, card_block (sd_dev (dev s)) lba), Sd d' (slot_1 (dev s)))) as E1
      by (unfold disk_read; destruct (vdisk v); exact E).
    erewrite bind_in_dev; [|exact E1]. cbn [fst snd].
    rewrite (bind_upd_vol _ _ _ _ v) by exact Hv. cbn [Z.eqb].
    erewrite bind_upd_vol; [|apply lookup_insert_eq].
    unfold ret, put_vol, with_dev, with_volumes. cbn. rewrite insert_insert_eq. do 3 f_equal.
    unfold cached. destruct v; cbn in *. by subst.
Qed.

(** C8. The file system on the driver reads but cannot write.  With a card as in
    C9, waits below the driver's limit, a buffer that holds what its sector number
    says and a sector within the size of the card, [fat_read] of a volume with
    nothing to write back brings the block of the card that was asked for into the
    volume's buffer and changes nothing else: the contents, address and size of the
    card, the card's slot, the other volumes and the rest of the volume are as they
    were, and the driver is ready for the next call; as soon as a buffer is dirty, [fat_flush] and every [fat_read] of another sector
    panic, and changing an entry of the allocation table of a mounted volume
    always panics. *)
Theorem fat_over_driver a lba (s : fat) v :
  volumes s !! a = Some v → sd_wf (dev s) → vol_wf (dev s) v → 0 < lba < 2 * kib_size (slot_1 (dev s)) →
  (buffer_dirty v = 0 →
   ∃ d', let v' := cached (card_block (sd_dev (dev s)) lba) lba 0 v in
     fat_read a lba s = Ret (1, put_vol a v' (Sd d' (slot_1 (dev s))) s) ∧
     SdDriver.same_card (sd_dev (dev s)) d' ∧ sd_wf (Sd d' (slot_1 (dev s)))) ∧
  (buffer_dirty v ≠ 0 → fat_flush a s = Panic "Watch it" ∧
     (lba ≠ buffer_lba v → fat_read a lba s = Panic "Watch it")) ∧
  (∀ c x, in_table (dev s) v c → 0 ≤ x < 2 ^ 32 → ∃ m, fat_table_set a c x s = Panic m).
Proof using Hfuel Hdelay.
  intros Hv Hwf Hvw Hlba. assert (sd_ok (dev s)) as Hok by exact Hwf.
  assert (0 < lba < sd_capacity (dev s)) as Hl by exact Hlba. split_and!.
  - intros Hd. by apply clean_read.
  - intros Hd. split; [by eapply flush_dirty|]. intros Hne. unfold fat_read.
    rewrite (bind_get_vol _ _ _ _ Hv), eqb_false by done. cbn [negb]. apply bind_Panic. by eapply flush_dirty.
  - intros c x Hc Hx. destruct (fat_table_set_run a c x s v Hv Hok Hvw Hc Hx) as [Hp|(d' & E & _)]; [done|].
    apply table_set_no_ret in E. done.
Qed.
End SdFat.

Definition toy_volume : volume :=
  Volume 0 [] 68 512 1 1000 32 1 40 40 (replicate 512 0) 0 DISK_SD_CARD 0.
Definition toy_fs : @Fat32.fat (sd toy) := Fat {[0x1000 := toy_volume]} 0x1000 1 (replicate 512 0) toy_sd small_mm.

Lemma toy_delay : (card_delay (D:=toy) ≤ 10)%nat.
Proof. cbn. lia. Qed.
Lemma toy_delay_small : Z.of_nat (card_delay (D:=toy)) < 200000.
Proof. done. Qed.

Lemma toy_volume_wf : vol_wf (H:=sd_driver 10 toy_delay toy_delay_small) toy_sd toy_volume.
Proof. constructor; [done|by apply Forall_replicate|done|done]. Qed.

(** Block 40 of the card through the file system and the driver. *)
Lemma fat_over_driver_witness :
  (sd_wf (dev toy_fs) ∧ 0 < 40 < 2 * kib_size (slot_1 (dev toy_fs))) ∧
  ∃ s' v', fat_read (H:=sd_driver 10 toy_delay toy_delay_small) 0x1000 40 toy_fs = Ret (1, s') ∧
    volumes s' = <[0x1000 := v']> (volumes toy_fs) ∧ buffer v' = replicate 512 40.
Proof.
  assert (0 < 40 < 2 * kib_size (slot_1 (dev toy_fs))) as Hl by (cbn; lia).
  split; [exact (conj toy_wf Hl)|].
  pose proof (fat_over_driver 10 toy_delay toy_delay_small 0x1000 40 toy_fs toy_volume eq_refl toy_wf toy_volume_wf Hl)
    as (Ht & _). destruct (Ht eq_refl) as (d' & E & _). eexists _, _.
  split; [exact E|]. split; [reflexivity|]. vm_compute. reflexivity.
Defined.
