(* ===== verification/Linker.v ===== *)
(** * Launching applications (kernel/dynamic_linker.c, kernel/run.c, misc/fpi.c)

    An application is a position-independent image that starts with [struct app_info].
    The dynamic linker adds the address of the image to every word of its two tables of
    addresses and makes a thread that starts at its entry.  Images come from a file of
    the card ([run_binary]) or from the host, frame by frame ([fpi]).  The effect of
    linking and the thread that results are in LinkerTheorems.v. *)

From S2P Require Import Prelude Memory Dlist Mm Palloc Fat32 Frame Sched.

(** [struct app_info], at the start of the image. *)
Record app_info := AppInfo {
  ai_end : Z;
  ai_entry : Z;
  ai_stack : Z;
  ai_got_start : Z;
  ai_got_end : Z;
  ai_plt_start : Z;
  ai_plt_end : Z;
  ai_name : list Z;
  ai_scheduler : Z
}.

(** The fields at their offsets; the enumeration takes one byte. *)
Definition load_app_info (m : mem) (binary : Z) : app_info :=
  AppInfo (ld32 m binary) (ld32 m (binary + 4)) (ld32 m (binary + 8))
    (ld32 m (binary + 12)) (ld32 m (binary + 16)) (ld32 m (binary + 20)) (ld32 m (binary + 24))
    (read_bytes m (binary + 28) 32) (ld8 m (binary + 60)).

(** The class a value of [enum sched_class] selects; for another one [new_thread]
    leaves the pointer to the class unset. *)
Definition class_of_enum (v : Z) : option sched_class :=
  match v with
  | 0 => Some REAL_TIME
  | 1 => Some APPLICATION
  | 2 => Some BACKGROUND
  | 3 => Some IDLE
  | _ => None
  end.

(** [while (start != end) { *start += (u32)binary; start++; }] *)
Fixpoint link_loop (fuel : nat) (binary start end_ : Z) : M mem unit :=
  match fuel with
  | O => hang
  | S fuel =>
      if start =? end_ then ret tt else
      modify (λ m, st32 m start (u32 (ld32 m start + binary))) ;;
      link_loop fuel binary (u32 (start + 4)) end_
  end.

Definition dynamic_linker (fuel : nat) (binary : Z) : M mem unit :=
  let* info := gets (λ m, load_app_info m binary) in
  link_loop fuel binary (u32 (binary + ai_got_start info)) (u32 (binary + ai_got_end info)) ;;
  let* info := gets (λ m, load_app_info m binary) in
  link_loop fuel binary (u32 (binary + ai_plt_start info)) (u32 (binary + ai_plt_end info)).

Section Run.
Context {H : Type} `{PageAlloc H}.
Variable cpu_rq : Z.
Variable thread_exit_addr : Z.

#[local] Notation sched := (@Sched.sched H).

(** The thread the header of an image describes; bit 0 of the entry is set for the
    processor. *)
Definition app_thread (info : app_info) (cls : sched_class) (binary : Z) : thread_info :=
  ThreadInfo (ai_name info) (ai_stack info) (Z.lor (u32 (ai_entry info + binary)) 1) null cls binary.

Definition dynamic_linker_run (fuel : nat) (binary : Z) : M sched Z :=
  let* info := in_heap (pa_in_mem (gets (λ m, load_app_info m binary))) in
  in_heap (pa_in_mem (dynamic_linker fuel binary)) ;;
  let* cls := of_option (class_of_enum (ai_scheduler info)) in
  new_thread cpu_rq thread_exit_addr (app_thread info cls binary).

(** ** From the card *)

Context {D : Type} `{SdCard D}.

(** The kernel state [run_binary] touches: the file system and the scheduler with its
    allocator. *)
Record machine := Machine {
  m_fat : fat (D := D);
  m_sched : sched
}.
Definition in_fat {A} (c : M fat A) : M machine A := zoom m_fat (λ f s, Machine f (m_sched s)) c.
Definition in_sched {A} (c : M sched A) : M machine A := zoom m_sched (λ x s, Machine (m_fat s) x) c.
Definition put_bytes (a : Z) (l : list Z) : M machine unit :=
  in_sched (in_heap (pa_in_mem (modify (λ m, write_bytes m a l)))).

(** The pages allocated for an image of [binary_size] bytes: the test is
    [binary_size & 512]. *)
Definition image_pages (binary_size : Z) : Z :=
  let page_count := binary_size / 512 in
  if negb (Z.land binary_size 512 =? 0) then page_count + 1 else page_count.

(** [do { fat_file_read(&binary_file, binary_ptr, 512, &read_status) ... }
    while (read_status == 512);] *)
Fixpoint load_image (fuel : nat) (fl : file) (binary_ptr : Z) : M machine unit :=
  match fuel with
  | O => hang
  | S fuel =>
      let* r := in_fat (fat_file_read fl 512) in
      let '(st, fl, bytes) := r in
      put_bytes binary_ptr bytes ;;
      match st with
      | FSTATUS_OK =>
          if Z.of_nat (length bytes) =? 512 then load_image fuel fl (u32 (binary_ptr + 512)) else ret tt
      | _ => panic "Cant read from file"
      end
  end.

(** The path is a C string, with its terminating zero. *)
Definition run_binary (fuel : nat) (path : list Z) : M machine Z :=
  let* length_ := of_option (name_length path) in
  let* r := in_fat (fat_file_open fuel path length_) in
  match r with
  | (FSTATUS_OK, Some binary_file) =>
      let* r := in_fat (fat_file_read binary_file 4) in
      let '(st, binary_file, bytes) := r in
      match st with
      | FSTATUS_OK =>
          if negb (Z.of_nat (length bytes) =? 4) then panic "Cant read binary size" else
          let binary_size := le_join bytes in
          let* binary := in_sched (in_heap (pa_malloc (image_pages binary_size) 1)) in
          let* j := in_fat (fat_file_jump binary_file 0) in
          load_image fuel j.2 binary ;;
          let* _ := in_sched (dynamic_linker_run fuel binary) in
          ret 1
      | _ => panic "Cant read"
      end
  | _ => panic "Cant open file"
  end.

End Run.

(** ** From the host

    One turn of the polling loop of [fpi], on the memory core itself ([mm_alloc] is
    called directly). *)
Section Fpi.
Context `{PageAlloc mm}.
Variable cpu_rq : Z.
Variable thread_exit_addr : Z.

Record fpi_state := Fpi {
  fp_iface : fstate;
  fp_sched : Sched.sched (H := mm);
  binary_buffer : Z;
  buffer_ptr : Z;
  curr_tid : Z
}.
Definition fp_with_iface (v : fstate) (s : fpi_state) : fpi_state := Fpi v (fp_sched s) (binary_buffer s) (buffer_ptr s) (curr_tid s).
Definition fp_with_sched (v : Sched.sched) (s : fpi_state) : fpi_state := Fpi (fp_iface s) v (binary_buffer s) (buffer_ptr s) (curr_tid s).
Definition fp_with_buffer (b p : Z) (s : fpi_state) : fpi_state := Fpi (fp_iface s) (fp_sched s) b p (curr_tid s).
Definition fp_with_tid (v : Z) (s : fpi_state) : fpi_state := Fpi (fp_iface s) (fp_sched s) (binary_buffer s) (buffer_ptr s) v.
Definition fp_in_iface {A} (c : M fstate A) : M fpi_state A := zoom fp_iface fp_with_iface c.
Definition fp_in_sched {A} (c : M Sched.sched A) : M fpi_state A := zoom fp_sched fp_with_sched c.

(** [*buffer_ptr++ = frame.payload[i]] for the bytes of the frame. *)
Definition store_payload (data : list Z) : M fpi_state unit :=
  let* p := gets buffer_ptr in
  fp_in_sched (in_heap (in_mem (modify (λ m, write_bytes m p data)))) ;;
  let* b := gets binary_buffer in
  modify (fp_with_buffer b (u32 (p + Z.of_nat (length data)))).

Definition fpi (fuel : nat) : M fpi_state unit :=
  let* new := fp_in_iface check_new_frame in
  if new =? 0 then ret tt else
  let* f := gets (λ s, fr (fp_iface s)) in
  (if cmd f =? 1 then
     let* b := fp_in_sched (in_heap (mm_alloc fuel (le_join (take 4 (payload f))) 0)) in
     modify (fp_with_buffer b b)
   else if (cmd f =? 2) || (cmd f =? 3) then
     (if size f <=? Z.of_nat (length (payload f)) then ret tt else ub) ;;
     store_payload (take (Z.to_nat (size f)) (payload f)) ;;
     if cmd f =? 3 then
       let* old := gets curr_tid in
       (if negb (old =? 0) then fp_in_sched (kill_thread cpu_rq fuel old) else ret tt) ;;
       let* b := gets binary_buffer in
       let* t := fp_in_sched (dynamic_linker_run cpu_rq thread_exit_addr fuel b) in
       modify (fp_with_tid t)
     else ret tt
   else ret tt) ;;
  fp_in_iface (send_response RESP_OK).
End Fpi.
