(* ===== verification/LinkerTheorems.v ===== *)
(** * Linking an application and starting its thread *)

From stdpp Require Import functions sorting.
From S2P Require Import Prelude Memory Dlist Mm Palloc Sched SchedSpec SchedProof SchedThread SchedNew Linker.

(** ** The tables *)

(** The [n] words from [start] have grown by [binary]. *)
Definition relocated (binary start : Z) (n : nat) (m m' : mem) : Prop :=
  ∀ i, (i < n)%nat → ld32 m' (start + 4 * Z.of_nat i) = u32 (ld32 m (start + 4 * Z.of_nat i) + binary).

Definition table (start : Z) (n : nat) (a : Z) : Prop := start ≤ a < start + 4 * Z.of_nat n.

Lemma link_loop_spec n fuel binary start m :
  (n < fuel)%nat → 0 ≤ start → start + 4 * Z.of_nat n < 2 ^ 32 → mem_bytes m →
  ∃ m', link_loop fuel binary start (start + 4 * Z.of_nat n) m = Ret (tt, m') ∧
    relocated binary start n m m' ∧ same_outside (table start n) m m' ∧ mem_bytes m'.
Proof.
  revert fuel start m; induction n as [|n IH]; intros [|fuel] start m Hf Hs He Hm; try lia; cbn [link_loop].
  - rewrite Z.mul_0_r, Z.add_0_r, Z.eqb_refl. exists m. split_and!; [done| |done|done]. intros i Hi; lia.
  - rewrite eqb_false by lia. unfold modify, bind. rewrite (u32_small (start + 4)) by lia.
    set (m1 := st32 m start (u32 (ld32 m start + binary))).
    replace (start + 4 * Z.of_nat (S n)) with (start + 4 + 4 * Z.of_nat n) by lia.
    destruct (IH fuel (start + 4) m1) as (m' & E & Hr & Hso & Hm'); [lia..| |].
    { by apply mem_bytes_st32. }
    exists m'. split_and!; [exact E| | |done].
    + intros [|i] Hi.
      * rewrite Z.mul_0_r, Z.add_0_r.
        rewrite (same_outside_ld32 (table (start + 4) n) m1 m' start Hso) by (unfold table; intros; lia).
        unfold m1. rewrite ld32_st32_eq. apply u32_idemp.
      * replace (start + 4 * Z.of_nat (S i)) with (start + 4 + 4 * Z.of_nat i) by lia.
        rewrite Hr by lia. unfold m1. by rewrite ld32_st32_ne by lia.
    + apply (same_outside_trans _ _ m1).
      * apply same_outside_st32. intros b Hb. unfold table. lia.
      * eapply same_outside_mono; [|exact Hso]. unfold table. intros; lia.
Qed.

(** An image at [binary] of [len] bytes: the header fits, and the tables, of [ng] and
    [np] words, lie behind the header, inside the image, without overlap. *)
Record image_ok (m : mem) (binary len : Z) (ng np : nat) : Prop := {
  im_range : 0 ≤ binary ∧ binary + len < 2 ^ 32;
  im_got : ai_got_end (load_app_info m binary) = ai_got_start (load_app_info m binary) + 4 * Z.of_nat ng;
  im_plt : ai_plt_end (load_app_info m binary) = ai_plt_start (load_app_info m binary) + 4 * Z.of_nat np;
  im_got_in : 61 ≤ ai_got_start (load_app_info m binary) ∧ ai_got_end (load_app_info m binary) ≤ len;
  im_plt_in : 61 ≤ ai_plt_start (load_app_info m binary) ∧ ai_plt_end (load_app_info m binary) ≤ len;
  im_apart : ai_got_end (load_app_info m binary) ≤ ai_plt_start (load_app_info m binary) ∨
             ai_plt_end (load_app_info m binary) ≤ ai_got_start (load_app_info m binary)
}.

Definition got (m : mem) (binary : Z) : Z := binary + ai_got_start (load_app_info m binary).
Definition plt (m : mem) (binary : Z) : Z := binary + ai_plt_start (load_app_info m binary).

Lemma load_info_ext m m' binary :
  (∀ a, binary ≤ a < binary + 61 → ld8 m' a = ld8 m a) → load_app_info m' binary = load_app_info m binary.
Proof.
  intros E. unfold load_app_info.
  rewrite !(ld32_ext m m') by (intros; apply E; lia). rewrite E by lia. f_equal.
  apply read_bytes_ext. intros b Hb. apply E. lia.
Qed.

(** Linking an image adds its address to every word of its two tables, once, and
    changes no other byte. *)
Lemma dynamic_linker_spec fuel binary len ng np m :
  image_ok m binary len ng np → mem_bytes m → (ng < fuel)%nat → (np < fuel)%nat →
  ∃ m', dynamic_linker fuel binary m = Ret (tt, m') ∧
    relocated binary (got m binary) ng m m' ∧ relocated binary (plt m binary) np m m' ∧
    same_outside (λ a, table (got m binary) ng a ∨ table (plt m binary) np a) m m' ∧ mem_bytes m'.
Proof.
  intros [Hr Hg Hp Hgi Hpi Hap] Hm Hf1 Hf2. unfold dynamic_linker, bind, gets.
  unfold got, plt in *. set (i := load_app_info m binary) in *.
  rewrite Hg, (u32_small (binary + ai_got_start i)), (u32_small (binary + (_ + _))) by lia.
  rewrite Z.add_assoc.
  destruct (link_loop_spec ng fuel binary (binary + ai_got_start i) m Hf1 ltac:(lia) ltac:(lia) Hm)
    as (m1 & E1 & Hr1 & Hs1 & Hm1). rewrite E1.
  assert (load_app_info m1 binary = i) as Ei.
  { apply load_info_ext. intros a Ha. apply Hs1. unfold table. lia. }
  rewrite Ei, Hp, (u32_small (binary + ai_plt_start i)), (u32_small (binary + (_ + _))) by lia.
  rewrite Z.add_assoc.
  destruct (link_loop_spec np fuel binary (binary + ai_plt_start i) m1 Hf2 ltac:(lia) ltac:(lia) Hm1)
    as (m2 & E2 & Hr2 & Hs2 & Hm2).
  exists m2. split_and!; [exact E2| | | |done].
  - intros k Hk. rewrite (same_outside_ld32 _ _ _ _ Hs2); [by apply Hr1|]. unfold table. intros; lia.
  - intros k Hk. rewrite Hr2 by done. do 2 f_equal.
    apply (same_outside_ld32 _ _ _ _ Hs1). unfold table. intros; lia.
  - eapply same_outside_trans.
    + eapply same_outside_mono; [|exact Hs1]. tauto.
    + eapply same_outside_mono; [|exact Hs2]. tauto.
Qed.

(** ** The launch *)

Lemma lor_1 x : Z.lor x 1 = x + 1 - x mod 2.
Proof. pose proof (Z.add_lor_land x 1) as E. change (Z.land x 1) with (Z.land x (2 ^ 1 - 1)) in E. rewrite land_mask in E by lia. lia. Qed.

Section Launch.
Context {H : Type} `{PageAlloc H}.
Context (cpu_rq thread_exit_addr : Z).

#[local] Notation sched := (@Sched.sched H).
#[local] Notation sched_inv := (@SchedProof.sched_inv H cpu_rq).

(** The image at [binary] describes a thread that can be made, of class [cls]. *)
Record app_ok (info : app_info) (cls : sched_class) (len : Z) : Prop := {
  ao_class : class_of_enum (ai_scheduler info) = Some cls ∧ cls ≠ IDLE;
  ao_stack : 17 ≤ ai_stack info < 2 ^ 29;
  ao_name : name_length (ai_name info) = Some len;
  ao_exit : 0 ≤ thread_exit_addr < 2 ^ 32
}.

(** The application in memory after linking. *)
Definition linked (binary n : Z) (ng np : nat) (m m' : mem) : Prop :=
  relocated binary (got m binary) ng m m' ∧ relocated binary (plt m binary) np m m' ∧
  ∀ a, binary ≤ a < binary + n → ¬ table (got m binary) ng a → ¬ table (plt m binary) np a → ld8 m' a = ld8 m a.

Lemma linked_ext binary n ng np m m1 m2 :
  image_ok m binary n ng np → linked binary n ng np m m1 →
  (∀ a, binary ≤ a < binary + n → ld8 m2 a = ld8 m1 a) → linked binary n ng np m m2.
Proof.
  intros [Hr Hg Hp Hgi Hpi _] (H1 & H2 & H3) E. unfold linked, relocated, got, plt, table in *. split_and!.
  - intros i Hi. rewrite (ld32_ext m1 m2 (_ + ai_got_start _ + _)) by (intros b Hb; apply E; lia). by apply H1.
  - intros i Hi. rewrite (ld32_ext m1 m2 (_ + ai_plt_start _ + _)) by (intros b Hb; apply E; lia). by apply H2.
  - intros a Ha Ht1 Ht2. rewrite E by done. by apply H3.
Qed.

(** C16. Launching an application: from a consistent scheduler and a well-formed image
    in an allocated block, [dynamic_linker_run] adds the address of the image to every
    word of the two tables, once, and leaves the rest of the image as it was; then it
    panics if memory is out, or makes a thread with the next number, with the name, the
    stack and the class of the header, which starts at the entry of the image in Thumb
    state with a NULL argument, queued behind the other threads of its class; the
    scheduler is consistent and every other allocated byte is untouched. *)
Theorem dynamic_linker_run_launches fuel (s : sched) Q T c P binary n ng np cls len :
  sched_inv s Q T c → pa_live (heap s) P → (∀ t, t ∈ T → is_Some (P !! t)) → pa_bank 3 →
  Z.of_nat (length T) < 4294967289 →
  P !! binary = Some n → image_ok (pa_mem (heap s)) binary n ng np → (ng < fuel)%nat → (np < fuel)%nat →
  let info := load_app_info (pa_mem (heap s)) binary in
  let entry := u32 (ai_entry info + binary) in
  app_ok info cls len →
  dynamic_linker_run cpu_rq thread_exit_addr fuel binary s = Panic "palloc failed" ∨
  ∃ t s', dynamic_linker_run cpu_rq thread_exit_addr fuel binary s = Ret (next_tid s, s') ∧
    linked binary n ng np (pa_mem (heap s)) (pa_mem (heap s')) ∧
    sched_inv s' (enqueue_q cls t Q) (t :: T) c ∧
    P !! t = None ∧ (∃ k, pa_live (heap s') (<[t := k]> P)) ∧
    (∃ x, tcbs s' !! t = Some x ∧ class x = cls ∧ tid x = next_tid s ∧ name x = ai_name info ∧ code_addr x = binary ∧
       f_pc (pop_frame (pa_mem (heap s')) (stack_pointer x)) = entry + 1 - entry mod 2 ∧
       f_r0 (pop_frame (pa_mem (heap s')) (stack_pointer x)) = 0) ∧
    (∀ t', t' ≠ t → tcbs s' !! t' = tcbs s !! t') ∧
    (∀ q k a, P !! q = Some k → q ≠ binary → q ≤ a < q + k → ld8 (pa_mem (heap s')) a = ld8 (pa_mem (heap s)) a).
Proof.
  intros HI HP HTP Hb Hlen Hbin Him Hf1 Hf2 info entry [[Hcls Hidle] Hst Hname Hex].
  destruct (dynamic_linker_spec fuel binary n ng np (pa_mem (heap s)) Him) as (m1 & El & Hg & Hp & Hso & Hm1);
    [by eapply pa_bytes|done..|].
  set (s1 := with_heap (pa_put m1 (heap s)) s).
  assert (same_outside (λ x, binary ≤ x < binary + n) (pa_mem (heap s)) m1) as Hin.
  { eapply same_outside_mono; [|exact Hso]. destruct Him as [Hr Eg Ep Hgi Hpi _]. unfold table, got, plt. intros a [Ha|Ha]; lia. }
  assert (pa_live (heap s1) P) as HP1 by (by eapply pa_write).
  assert (sched_inv s1 Q T c) as HI1.
  { eapply inv_same; [|exact HI]. constructor; try done. intros u. cbn. by destruct (tcbs s !! u); constructor. }
  assert (dynamic_linker_run cpu_rq thread_exit_addr fuel binary s =
    new_thread cpu_rq thread_exit_addr (app_thread info cls binary) s1) as Erun.
  { unfold dynamic_linker_run. rewrite (bind_in_heap _ _ s info (heap s)).
    2: { unfold pa_in_mem, zoom, gets. by rewrite pa_put_mem. }
    replace (with_heap (heap s) s) with s by (by destruct s).
    rewrite (bind_in_heap _ _ s tt (pa_put m1 (heap s))); [by rewrite Hcls|].
    unfold pa_in_mem, zoom. by rewrite El. }
  assert (thread_info_ok thread_exit_addr (app_thread info cls binary) len) as Hok.
  { constructor; cbn [app_thread ti_class ti_stack_size ti_name ti_thread ti_arg]; try done.
    rewrite lor_1. fold entry. pose proof (u32_range (ai_entry info + binary)) as Hu. fold entry in Hu. lia. }
  assert (pa_mem (heap s1) = m1) as Em1 by (unfold s1; cbn; apply pa_mem_put).
  rewrite Erun.
  destruct (new_thread_joins cpu_rq thread_exit_addr s1 Q T c P _ len HI1 HP1 HTP Hb Hlen Hok Hidle)
    as [E|(t & s' & E & [Tf Tl Tfit Tt Tfr Ts Tk Tst Tid Tcu Tidl] & HI')]; [by left|right].
  exists t, s'. rewrite Em1 in Tk. split_and!; try done.
  - apply (linked_ext binary n ng np _ m1); try done.
    + split_and!; [done|done|]. intros a Ha H1 H2. apply Hso. tauto.
    + intros a Ha. by eapply Tk.
  - by eexists.
  - exists (run_link cpu_rq (new_tcb (app_thread info cls binary) t (next_tid s1) len)).
    split; [by rewrite Tt, lookup_insert_eq|].
    assert (∀ x, stack_pointer (run_link cpu_rq x) = stack_pointer x ∧ tid (run_link cpu_rq x) = tid x ∧
      name (run_link cpu_rq x) = name x ∧ code_addr (run_link cpu_rq x) = code_addr x) as Hrl
      by (clear Tidl; intros x; unfold run_link; by case_decide).
    destruct (Hrl (new_tcb (app_thread info cls binary) t (next_tid s1) len)) as (-> & -> & -> & ->).
    rewrite run_link_class, Tfr. cbn [f_pc f_r0 new_tcb app_thread class tid code_addr name ti_name ti_thread ti_arg ti_code_addr ti_class].
    split_and!; try done. by rewrite lor_1.
  - intros t' Ht'. rewrite Tt. by rewrite lookup_insert_ne.
  - intros q k a Hq Hqb Ha. rewrite (Tk q k a Hq Ha). apply Hin.
    pose proof (pa_disjoint (heap s) P q k binary n HP Hq Hbin Hqb). lia.
Qed.
End Launch.
