(* ===== verification/LinkerWitness.v ===== *)
(** * Launching a concrete application

    The scheduler of SchedWitness.v with a page allocator that hands out memory in
    ascending order, and an image of one page with three addresses in its tables. *)

From stdpp Require Import functions sorting.
From S2P Require Import Prelude Memory Dlist Mm Palloc Sched SchedSpec SchedProof SchedNew SchedWitness Linker LinkerTheorems.

(** The first address that was not handed out is in the first entry of the table of memories. *)
Definition frontier (s : mm) : Z := match physical_memories s with pm :: _ => allocated pm | [] => 0 end.
Definition up_to (f : Z) (m : mem) : mm := Mm m [Physmem 0 0 0 f 16 "" 0 0 0].

Record bump_live (s : mm) (P : gmap Z Z) : Prop := {
  bl_bytes : mem_bytes (mm_mem s);
  bl_front : frontier s mod 8 = 0 ∧ 0 < frontier s < 2 ^ 31;
  bl_range p n : P !! p = Some n → 0 < p ∧ p mod 8 = 0 ∧ p + n ≤ frontier s;
  bl_apart p n q k : P !! p = Some n → P !! q = Some k → p ≠ q → p + n ≤ q ∨ q + k ≤ p;
  bl_size p n : P !! p = Some n → 0 < n
}.

#[export] Program Instance bump : PageAlloc mm := {|
  pa_mem := mm_mem;
  pa_put m s := Mm m (physical_memories s);
  pa_malloc count bank s :=
    let t := frontier s in
    if decide (0 < count ∧ t + count * 512 < 2 ^ 31) then Ret (t, up_to (t + count * 512) (mm_mem s)) else Panic "palloc failed";
  pa_free p := ret tt;
  pa_bank _ := True;
  pa_live := bump_live
|}.
Next Obligation. done. Qed.
Next Obligation. by intros []. Qed.
Next Obligation. done. Qed.
Next Obligation. by intros s P []. Qed.
Next Obligation. intros s P p n [_ Hf Hr _ Hs] Hp. specialize (Hr p n Hp). lia. Qed.
Next Obligation. intros s P p n q k [_ _ _ Ha _]. apply Ha. Qed.
Next Obligation. intros s P p n m [Hb Hf Hr Ha Hs] Hp Hm _. by constructor. Qed.
Next Obligation.
  intros s P count bank [Hb Hf Hr Ha Hs] _ Hc. cbn. case_decide as Hd; [right|by left].
  exists (frontier s), (up_to (frontier s + count * 512) (mm_mem s)). split_and!; [done| | |done].
  - destruct (P !! frontier s) as [n|] eqn:E; [|done]. exfalso. pose proof (Hr _ _ E). pose proof (Hs _ _ E).
    lia.
  - constructor; unfold frontier, up_to; cbn [physical_memories allocated mm_mem]; fold (frontier s); [done|lia|..].
    + intros p n [[<- <-]|[_ Hp]]%lookup_insert_Some; [lia|]. specialize (Hr p n Hp). lia.
    + intros p n q k [[<- <-]|[Hne Hp]]%lookup_insert_Some [[<- <-]|[Hne' Hq]]%lookup_insert_Some Hpq; [done|..].
      * specialize (Hr q k Hq). specialize (Hs q k Hq). lia.
      * specialize (Hr p n Hp). specialize (Hs p n Hp). lia.
      * by eapply Ha.
    + intros p n [[<- <-]|[_ Hp]]%lookup_insert_Some; [lia|]. by eapply Hs.
Qed.
Next Obligation.
  intros s P p n [Hb Hf Hr Ha Hs] Hp. exists s. split_and!; [done| |done]. constructor; [done|done|..].
  - intros q k [_ Hq]%lookup_delete_Some. by apply Hr.
  - intros q k r l [_ Hq]%lookup_delete_Some [_ Hr']%lookup_delete_Some. by apply Ha.
  - intros q k [_ Hq]%lookup_delete_Some. by eapply Hs.
Qed.

(** ** The image *)

Definition app_at : Z := 0x800.
Definition words (l : list (Z * Z)) (m : mem) : mem := fold_left (λ m p, st32 m (app_at + p.1) p.2) l m.

(** A stack of 20 words, entry 0x100, tables at 64 and 72, name "app", class APPLICATION. *)
Definition app_mem : mem :=
  words [(0, 512); (4, 0x100); (8, 20); (12, 64); (16, 72); (20, 72); (24, 76); (28, 0x707061); (60, 1);
         (64, 0x10); (68, 0x14); (72, 0x20)] ∅.

Definition app_heap : mm := up_to 0x1000 app_mem.
Definition app_blocks : gmap Z Z :=
  <[app_at := 512]> (list_to_map (map (λ t, (t, 128)) ex_threads)).

Lemma app_mem_bytes : mem_bytes app_mem.
Proof. unfold app_mem, words. cbn [fold_left]. repeat apply mem_bytes_st32. intros a. unfold ld8. rewrite lookup_empty. by compute. Qed.

Lemma app_block_cases p n : app_blocks !! p = Some n →
  (p = app_at ∧ n = 512) ∨ n = 128 ∧ (p = ex_idle ∨ p = ex_app ∨ p = ex_rt ∨ p = ex_bg).
Proof.
  unfold app_blocks, ex_threads. cbn [map list_to_map foldr fst snd uncurry].
  intros [[<- <-]|[_ H]]%lookup_insert_Some; [by left|right].
  repeat (apply lookup_insert_Some in H as [[<- <-]|[_ H]]; [auto|]). by apply lookup_empty_Some in H.
Qed.

Lemma app_live : bump_live app_heap app_blocks.
Proof.
  constructor.
  - apply app_mem_bytes.
  - by compute.
  - intros p n [[-> ->]|[-> [->|[->|[->| ->]]]]]%app_block_cases; by vm_compute.
  - intros p n q k [[-> ->]|[-> [->|[->|[->| ->]]]]]%app_block_cases [[-> ->]|[-> [->|[->|[->| ->]]]]]%app_block_cases Hne;
      try done; unfold app_at, ex_idle, ex_app, ex_rt, ex_bg; lia.
  - intros p n [[-> ->]|[-> _]]%app_block_cases; lia.
Qed.

Lemma app_image : image_ok app_mem app_at 512 2 1.
Proof. constructor; vm_compute; intuition discriminate. Qed.

Lemma app_header : app_ok 0x405001 (load_app_info app_mem app_at) APPLICATION 3.
Proof. constructor; by vm_compute. Qed.

Definition app_state (d : dstore) : @sched mm := with_heap app_heap (ex_state 1000 d).

Lemma app_inv : ∃ d, sched_inv ex_rq (app_state d) ex_Q ex_threads ex_app.
Proof.
  destruct (ex_inv 1000) as [d HI]. exists d. eapply inv_same; [|exact HI].
  constructor; try done. intros t. change (tcbs (app_state d)) with (tcbs (ex_state 1000 d)).
  destruct (tcbs (ex_state 1000 d) !! t); by constructor.
Qed.

Lemma dynamic_linker_run_launches_witness :
  ∃ d, dynamic_linker_run (H0 := bump) ex_rq 0x405001 10 app_at (app_state d) = Panic "palloc failed" ∨
    ∃ s', dynamic_linker_run (H0 := bump) ex_rq 0x405001 10 app_at (app_state d) = Ret (4, s') ∧
      ld32 (mm_mem (heap s')) 0x848 = 0x820.
Proof.
  destruct app_inv as [d HI]. exists d.
  destruct (dynamic_linker_run_launches (H0 := bump) ex_rq 0x405001 10 (app_state d) ex_Q ex_threads ex_app app_blocks app_at 512 2 1
    APPLICATION 3 HI app_live) as [E|(t & s' & E & Hl & _)].
  - intros t Ht. apply ex_in_threads in Ht. destruct (ex_case t Ht) as [->|[->|[->| ->]]]; by eexists.
  - exact I.
  - by vm_compute.
  - reflexivity.
  - exact app_image.
  - lia.
  - lia.
  - exact app_header.
  - left. exact E.
  - right. exists s'. split; [exact E|]. destruct Hl as (_ & Hp & _). specialize (Hp 0%nat ltac:(lia)).
    vm_compute in Hp. exact Hp.
Defined.
