(* ===== verification/UsbHw.v ===== *)
(** * The USB host controller's registers (drivers/usbhw.h)

    One operation per inline function of the header: the bits of the control and
    status registers, and the registers of the ten pipes, which every function but the
    ones for the error register checks the pipe number for. *)

From S2P Require Import Prelude Hardware.

(** ** Bits *)

Definition USBHW_RXIN : Z := Z.shiftl 1 0.
Definition USBHW_TXOUT : Z := Z.shiftl 1 1.
Definition USBHW_TXSETUP : Z := Z.shiftl 1 2.
Definition USBHW_PERROR : Z := Z.shiftl 1 3.
Definition USBHW_NAKED : Z := Z.shiftl 1 4.
Definition USBHW_OVERFLOW : Z := Z.shiftl 1 5.
Definition USBHW_STALL : Z := Z.shiftl 1 6.
Definition USBHW_SHORTPKT : Z := Z.shiftl 1 7.

Definition USBHW_CONN : Z := Z.shiftl 1 0.
Definition USBHW_DCONN : Z := Z.shiftl 1 1.
Definition USBHW_RST : Z := Z.shiftl 1 2.
Definition USBHW_SOF : Z := Z.shiftl 1 5.
Definition USBHW_WAKEUP : Z := Z.shiftl 1 6.

Definition USBHW_FIFO_CTRL : Z := Z.shiftl 1 14.
Definition USBHW_PFREEZE : Z := Z.shiftl 1 17.

Definition USBHW_PIPE_OFFSET : Z := 8.

(** ** Enumerations *)

Inductive usb_mode := USB_HOST | USB_DEVICE.
Inductive usb_device_speed := USB_DEVICE_FS | USB_DEVICE_HS | USB_DEVICE_LS | USB_DEVICE_RESERVED.
Inductive usb_host_speed := USB_HOST_SPEED_NORMAL | USB_HOST_SPEED_LS | USB_HOST_SPEED_HS | USB_HOST_SPEED_FS.
Definition host_speed_val (s : usb_host_speed) : Z :=
  match s with USB_HOST_SPEED_NORMAL => 0 | USB_HOST_SPEED_LS => 1 | USB_HOST_SPEED_HS => 2 | USB_HOST_SPEED_FS => 3 end.
Inductive pipe_token := PIPE_TOKEN_SETUP | PIPE_TOKEN_IN | PIPE_TOKEN_OUT.
Definition token_val (t : pipe_token) : Z :=
  match t with PIPE_TOKEN_SETUP => 0 | PIPE_TOKEN_IN => 1 | PIPE_TOKEN_OUT => 2 end.
Inductive pipe_type := PIPE_TYPE_CTRL | PIPE_TYPE_ISO | PIPE_TYPE_BLK | PIPE_TYPE_INT.
Definition type_val (t : pipe_type) : Z :=
  match t with PIPE_TYPE_CTRL => 0 | PIPE_TYPE_ISO => 1 | PIPE_TYPE_BLK => 2 | PIPE_TYPE_INT => 3 end.

(** ** Registers *)

Definition USB_CTRL : Z := Eval vm_compute in USBHC + offset_of usb_reg "CTRL".
Definition USB_SR : Z := Eval vm_compute in USBHC + offset_of usb_reg "SR".
Definition USB_SCR : Z := Eval vm_compute in USBHC + offset_of usb_reg "SCR".
Definition USB_SFR : Z := Eval vm_compute in USBHC + offset_of usb_reg "SFR".
Definition HSTCTRL : Z := Eval vm_compute in USBHC + offset_of usb_reg "HSTCTRL".
Definition HSTISR : Z := Eval vm_compute in USBHC + offset_of usb_reg "HSTISR".
Definition HSTICR : Z := Eval vm_compute in USBHC + offset_of usb_reg "HSTICR".
Definition HSTIFR : Z := Eval vm_compute in USBHC + offset_of usb_reg "HSTIFR".
Definition HSTIMR : Z := Eval vm_compute in USBHC + offset_of usb_reg "HSTIMR".
Definition HSTIDR : Z := Eval vm_compute in USBHC + offset_of usb_reg "HSTIDR".
Definition HSTIER : Z := Eval vm_compute in USBHC + offset_of usb_reg "HSTIER".
Definition HSTPIP : Z := Eval vm_compute in USBHC + offset_of usb_reg "HSTPIP".
Definition HSTFNUM : Z := Eval vm_compute in USBHC + offset_of usb_reg "HSTFNUM".
Definition HSTADDR1 : Z := Eval vm_compute in USBHC + offset_of usb_reg "HSTADDR1".
Definition HSTPIPCFG_0 : Z := Eval vm_compute in USBHC + offset_of usb_reg "HSTPIPCFG".
Definition HSTPIPCFG (pipe : Z) : Z := HSTPIPCFG_0 + 4 * pipe.
Definition HSTPIPISR_0 : Z := Eval vm_compute in USBHC + offset_of usb_reg "HSTPIPISR".
Definition HSTPIPISR (pipe : Z) : Z := HSTPIPISR_0 + 4 * pipe.
Definition HSTPIPICR_0 : Z := Eval vm_compute in USBHC + offset_of usb_reg "HSTPIPICR".
Definition HSTPIPICR (pipe : Z) : Z := HSTPIPICR_0 + 4 * pipe.
Definition HSTPIPIFR_0 : Z := Eval vm_compute in USBHC + offset_of usb_reg "HSTPIPIFR".
Definition HSTPIPIFR (pipe : Z) : Z := HSTPIPIFR_0 + 4 * pipe.
Definition HSTPIPIMR_0 : Z := Eval vm_compute in USBHC + offset_of usb_reg "HSTPIPIMR".
Definition HSTPIPIMR (pipe : Z) : Z := HSTPIPIMR_0 + 4 * pipe.
Definition HSTPIPIER_0 : Z := Eval vm_compute in USBHC + offset_of usb_reg "HSTPIPIER".
Definition HSTPIPIER (pipe : Z) : Z := HSTPIPIER_0 + 4 * pipe.
Definition HSTPIPIDR_0 : Z := Eval vm_compute in USBHC + offset_of usb_reg "HSTPIPIDR".
Definition HSTPIPIDR (pipe : Z) : Z := HSTPIPIDR_0 + 4 * pipe.
Definition HSTPIPINRQ_0 : Z := Eval vm_compute in USBHC + offset_of usb_reg "HSTPIPINRQ".
Definition HSTPIPINRQ (pipe : Z) : Z := HSTPIPINRQ_0 + 4 * pipe.
Definition HSTPIPERR_0 : Z := Eval vm_compute in USBHC + offset_of usb_reg "HSTPIPERR".
Definition HSTPIPERR (pipe : Z) : Z := HSTPIPERR_0 + 4 * pipe.

Section UsbHw.
Context {D : Type} `{Mmio D}.

(** ** The interface *)

(** Every write of the control register clears UID and sets VBUSHWC; then the bits of
    [clr] are cleared and the bits of [set] are set. *)
Definition ctrl_update (clr set : Z) : M D unit :=
  let* reg := rd32 USB_CTRL in
  let reg := Z.land reg (Z.lnot (Z.shiftl 1 24)) in
  let reg := Z.lor reg (Z.shiftl 1 8) in
  wr32 USB_CTRL (Z.lor (Z.land reg (Z.lnot clr)) set).

Definition usbhw_connection_error_enable : M D unit := ctrl_update 0 (Z.shiftl 1 4).
Definition usbhw_connection_error_disable : M D unit := ctrl_update (Z.shiftl 1 4) 0.
Definition usbhw_connection_error_check : M D Z :=
  let* r := rd32 USB_SR in ret (if negb (Z.land r (Z.shiftl 1 4) =? 0) then 1 else 0).
Definition usbhw_get_device_speed : M D usb_device_speed :=
  let* r := rd32 USB_SR in
  ret (match Z.land (Z.shiftr r 12) 3 with 0 => USB_DEVICE_FS | 1 => USB_DEVICE_HS | 2 => USB_DEVICE_LS | _ => USB_DEVICE_RESERVED end).
Definition usbhw_connection_error_clear : M D unit := wr32 USB_SCR (Z.shiftl 1 4).
Definition usbhw_connection_error_force : M D unit := wr32 USB_SFR (Z.shiftl 1 4).
Definition usbhw_vbus_request_enable : M D unit := wr32 USB_SFR (Z.shiftl 1 9).
Definition usbhw_freeze_clock : M D unit := ctrl_update 0 (Z.shiftl 1 14).
Definition usbhw_unfreeze_clock : M D unit := ctrl_update (Z.shiftl 1 14) 0.
Definition usbhw_enable : M D unit := ctrl_update 0 (Z.shiftl 1 15).
Definition usbhw_disable : M D unit := ctrl_update (Z.shiftl 1 15) 0.
Definition usbhw_set_mode (mode : usb_mode) : M D unit :=
  match mode with
  | USB_HOST => ctrl_update (Z.shiftl 1 25) 0
  | USB_DEVICE => ctrl_update 0 (Z.shiftl 1 25)
  end.
Definition usbhw_clock_usable : M D Z :=
  let* r := rd32 USB_SR in ret (if negb (Z.land r (Z.shiftl 1 14) =? 0) then 1 else 0).

(** ** The bus *)

Definition usbhw_send_resume : M D unit :=
  let* r := rd32 HSTCTRL in
  if Z.land r (Z.shiftl 1 8) =? 0 then panic "Attempted resume without SOF enabled" else
  set32 HSTCTRL (Z.shiftl 1 10).
Definition usbhw_send_reset : M D unit := set32 HSTCTRL (Z.shiftl 1 9).
Definition usbhw_clear_reset : M D unit := mask32 HSTCTRL (Z.lnot (Z.shiftl 1 9)).
Definition usbhw_sof_enable : M D unit := set32 HSTCTRL (Z.shiftl 1 8).
Definition usbhw_sof_disable : M D unit := mask32 HSTCTRL (Z.lnot (Z.shiftl 1 8)).
Definition usbhw_set_host_speed (speed : usb_host_speed) : M D unit :=
  let* reg := rd32 HSTCTRL in
  wr32 HSTCTRL (Z.lor (Z.land reg (Z.lnot (Z.shiftl 3 12))) (Z.shiftl (host_speed_val speed) 12)).

(** ** Global interrupts *)

Definition usbhw_global_get_status : M D Z := rd32 HSTISR.
Definition usbhw_global_clear_status (mask : Z) : M D unit := wr32 HSTICR mask.
Definition usbhw_global_force_status (mask : Z) : M D unit := wr32 HSTIFR mask.
Definition usbhw_global_get_interrupt_mask : M D Z := rd32 HSTIMR.
Definition usbhw_global_disable_interrupt (mask : Z) : M D unit := wr32 HSTIDR mask.
Definition usbhw_global_enable_interrupt (mask : Z) : M D unit := wr32 HSTIER mask.

Definition usbhw_get_frame_number : M D Z := let* r := rd32 HSTFNUM in ret (Z.land (Z.shiftr r 3) 0x7FF).
Definition usbhw_get_microframe_number : M D Z := let* r := rd32 HSTFNUM in ret (Z.land r 7).
Definition usbhw_clear_frame_number : M D unit := mask32 HSTFNUM (Z.lnot (Z.shiftl 0x7FF 3)).

(** ** Pipes *)

(** Four addresses of seven bits per register. *)
Definition usbhw_pipe_set_addr (pipe addr : Z) : M D unit :=
  let reg_ptr := HSTADDR1 + 4 * Z.shiftr pipe 2 in
  let offset := Z.shiftl (Z.land pipe 3) 3 in
  let* reg := rd32 reg_ptr in
  wr32 reg_ptr (Z.lor (Z.land reg (Z.lnot (Z.shiftl 0x7F offset))) (Z.shiftl (Z.land addr 0x7F) offset)).

Definition check_pipe {A} (pipe : Z) (k : M D A) : M D A :=
  if 10 <=? pipe then panic "Pipe out of bound" else k.

Definition usbhw_pipe_reset_assert (pipe : Z) : M D unit := check_pipe pipe (set32 HSTPIP (Z.shiftl 1 (pipe + 16))).
Definition usbhw_pipe_reset_deassert (pipe : Z) : M D unit := check_pipe pipe (mask32 HSTPIP (Z.lnot (Z.shiftl 1 (pipe + 16)))).
Definition usbhw_pipe_enable (pipe : Z) : M D unit := check_pipe pipe (set32 HSTPIP (Z.shiftl 1 pipe)).
Definition usbhw_pipe_disable (pipe : Z) : M D unit := check_pipe pipe (mask32 HSTPIP (Z.lnot (Z.shiftl 1 pipe))).
Definition usbhw_pipe_get_status (pipe : Z) : M D Z := check_pipe pipe (rd32 (HSTPIPISR pipe)).
Definition usbhw_pipe_clear_status (pipe mask : Z) : M D unit := check_pipe pipe (wr32 (HSTPIPICR pipe) mask).
Definition usbhw_pipe_force_status (pipe mask : Z) : M D unit := check_pipe pipe (wr32 (HSTPIPIFR pipe) mask).
Definition usbhw_pipe_get_interrupt_mask (pipe : Z) : M D Z := check_pipe pipe (rd32 (HSTPIPIMR pipe)).
Definition usbhw_pipe_enable_interrupt (pipe mask : Z) : M D unit := check_pipe pipe (wr32 (HSTPIPIER pipe) mask).
Definition usbhw_pipe_disable_interrupt (pipe mask : Z) : M D unit := check_pipe pipe (wr32 (HSTPIPIDR pipe) mask).
Definition usbhw_pipe_in_request_defined (pipe count : Z) : M D unit :=
  check_pipe pipe (if count =? 0 then panic "Cannot perform zero INs" else wr32 (HSTPIPINRQ pipe) (count - 1)).
Definition usbhw_pipe_in_request_continous (pipe : Z) : M D unit := check_pipe pipe (wr32 (HSTPIPINRQ pipe) (Z.shiftl 1 8)).
Definition usbhw_pipe_set_configuration (pipe cfg : Z) : M D unit := check_pipe pipe (wr32 (HSTPIPCFG pipe) cfg).
Definition usbhw_pipe_allocate_set (pipe : Z) : M D unit := check_pipe pipe (set32 (HSTPIPCFG pipe) (Z.shiftl 1 1)).
Definition usbhw_pipe_allocate_clear (pipe : Z) : M D unit := check_pipe pipe (mask32 (HSTPIPCFG pipe) (Z.lnot (Z.shiftl 1 1))).
Definition usbhw_pipe_get_configuration (pipe : Z) : M D Z := check_pipe pipe (rd32 (HSTPIPCFG pipe)).
Definition usbhw_pipe_check_configuration (pipe : Z) : M D Z :=
  check_pipe pipe (let* r := rd32 (HSTPIPISR pipe) in ret (if negb (Z.land r (Z.shiftl 1 18) =? 0) then 1 else 0)).
Definition usbhw_pipe_set_token (pipe : Z) (token : pipe_token) : M D unit :=
  check_pipe pipe (let* reg := rd32 (HSTPIPCFG pipe) in
    wr32 (HSTPIPCFG pipe) (Z.lor (Z.land reg (Z.lnot (Z.shiftl 3 8))) (Z.shiftl (token_val token) 8))).
Definition usbhw_pipe_set_freq (pipe irq_freq : Z) : M D unit :=
  check_pipe pipe (let* reg := rd32 (HSTPIPCFG pipe) in
    wr32 (HSTPIPCFG pipe) (Z.lor (Z.land reg (Z.lnot (Z.shiftl 0xFF 24))) (Z.shiftl irq_freq 24))).
Definition usbhw_pipe_get_byte_count (pipe : Z) : M D Z :=
  check_pipe pipe (let* r := rd32 (HSTPIPISR pipe) in ret (Z.land (Z.shiftr r 20) 0x7FF)).
Definition usbhw_pipe_get_error_reg (pipe : Z) : M D Z := rd32 (HSTPIPERR pipe).
Definition usbhw_pipe_set_error_reg (pipe reg : Z) : M D unit := wr32 (HSTPIPERR pipe) reg.
End UsbHw.
