(* ===== verification/UsbHc.v ===== *)
(** * The USB host controller driver (drivers/usbhc.c, usbhc.h)

    Pipes, their queues of request blocks (URBs) and the interrupt handler.  The state
    has the controller's registers, the pipes as an array, the request blocks by address
    (allocated by the bitmap allocator of Umalloc.v), the circular lists of CList.v and
    the memory the transfer buffers are in.  Callbacks are function pointers: what calling
    one does is a parameter, and [upper] is the state of the layers above, which only the
    callbacks touch.  Printed text is left out. *)

From S2P Require Import Prelude Memory Palloc Umalloc CList Hardware UsbHw.

Definition MAX_PIPES : Z := 10.
Definition USBHC_DPRAM_ADDR : Z := 0xA0100000.
Definition USBHC_DPRAM_EP_SIZE : Z := 0x8000.
Definition usbhc_get_fifo_ptr (pipe : Z) : Z := u32 (USBHC_DPRAM_ADDR + USBHC_DPRAM_EP_SIZE * pipe).

Definition USB_HOST_TO_DEVICE : Z := 0x00.
Definition USB_DEVICE_TO_HOST : Z := 0x80.
Definition URB_MAX_COUNT : Z := 256.
Definition URB_ALLOCATOR_BANK : Z := 2.

(** ** Data *)

Inductive root_hub_event := RH_EVENT_CONNECTION | RH_EVENT_DISCONNECTION | RH_EVENT_RESET_SENT.

Inductive pipe_state :=
  | PIPE_STATE_FREE | PIPE_STATE_CLAIMED | PIPE_STATE_IDLE | PIPE_STATE_CTRL_OUT | PIPE_STATE_ZLP_IN
  | PIPE_STATE_ZLP_OUT | PIPE_STATE_IN | PIPE_STATE_OUT | PIPE_STATE_STATUS | PIPE_STATE_ERROR.
#[export] Instance pipe_state_eq_dec : EqDecision pipe_state.
Proof. solve_decision. Defined.

Inductive urb_status := URB_STATUS_OK | URB_STATUS_ERROR | URB_STATUS_STALL | URB_STATUS_NAK | URB_STATUS_ABORT.
#[export] Instance urb_status_eq_dec : EqDecision urb_status.
Proof. solve_decision. Defined.

Record pipe_config := PipeConfig {
  cfg_dev_addr : Z;
  cfg_ep_addr : Z;
  cfg_size : Z;
  cfg_frequency : Z;
  cfg_banks : Z;
  cfg_bank_switch : Z;
  cfg_type : pipe_type
}.

Definition URB_FLAGS_SETUP : Z := Z.shiftl 1 0.
Definition URB_FLAGS_INTERRUPT_IN : Z := Z.shiftl 1 3.

(** [struct urb]; its node, the first member, is in the list store at its address. *)
Record urb := Urb {
  urb_flags : Z;
  setup_buffer : Z;
  transfer_buffer : Z;
  transfer_length : Z;
  acctual_length : Z;
  status : urb_status;
  callback : Z;
  context : Z
}.
Definition set_actual (v : Z) (u : urb) : urb :=
  Urb (urb_flags u) (setup_buffer u) (transfer_buffer u) (transfer_length u) v (status u) (callback u) (context u).
Definition set_status (v : urb_status) (u : urb) : urb :=
  Urb (urb_flags u) (setup_buffer u) (transfer_buffer u) (transfer_length u) (acctual_length u) v (callback u) (context u).
Definition set_context (v : Z) (u : urb) : urb :=
  Urb (urb_flags u) (setup_buffer u) (transfer_buffer u) (transfer_length u) (acctual_length u) (status u) (callback u) v.

(** [struct usb_pipe], without the lock; [type] is never assigned. *)
Record usb_pipe := UsbPipe {
  num : Z;
  fifo : Z;
  state : pipe_state;
  type : pipe_type;
  ep_size : Z;
  config : pipe_config
}.
Definition set_num (n f : Z) (p : usb_pipe) : usb_pipe := UsbPipe n f (state p) (type p) (ep_size p) (config p).
Definition set_state (v : pipe_state) (p : usb_pipe) : usb_pipe := UsbPipe (num p) (fifo p) v (type p) (ep_size p) (config p).
Definition set_ep_size (v : Z) (p : usb_pipe) : usb_pipe := UsbPipe (num p) (fifo p) (state p) (type p) v (config p).
Definition set_config (v : pipe_config) (p : usb_pipe) : usb_pipe := UsbPipe (num p) (fifo p) (state p) (type p) (ep_size p) v.

(** The queue of pipe [i] is the member of the pipe at offset 8. *)
Definition sizeof_usb_pipe : Z := 40.
Definition sizeof_urb : Z := 40.

Section UsbHc.
Context {D S U : Type} `{Mmio D} `{PageAlloc S}.

Record hc := Hc {
  hw : D;
  lists : lstore;
  urbs : gmap Z urb;
  pool : umalloc_desc * S;
  pipes_at : Z;
  pipes : list usb_pipe;
  root_hub_callback : Z;
  sof_callback : Z;
  pipe_start : Z;
  upper : U
}.

Definition with_hw (v : D) (s : hc) : hc :=
  Hc v (lists s) (urbs s) (pool s) (pipes_at s) (pipes s) (root_hub_callback s) (sof_callback s) (pipe_start s) (upper s).
Definition with_lists (v : lstore) (s : hc) : hc :=
  Hc (hw s) v (urbs s) (pool s) (pipes_at s) (pipes s) (root_hub_callback s) (sof_callback s) (pipe_start s) (upper s).
Definition with_urbs (v : gmap Z urb) (s : hc) : hc :=
  Hc (hw s) (lists s) v (pool s) (pipes_at s) (pipes s) (root_hub_callback s) (sof_callback s) (pipe_start s) (upper s).
Definition with_pool (v : umalloc_desc * S) (s : hc) : hc :=
  Hc (hw s) (lists s) (urbs s) v (pipes_at s) (pipes s) (root_hub_callback s) (sof_callback s) (pipe_start s) (upper s).
Definition with_pipes (a : Z) (v : list usb_pipe) (s : hc) : hc :=
  Hc (hw s) (lists s) (urbs s) (pool s) a v (root_hub_callback s) (sof_callback s) (pipe_start s) (upper s).
Definition with_callbacks (rh sof : Z) (s : hc) : hc :=
  Hc (hw s) (lists s) (urbs s) (pool s) (pipes_at s) (pipes s) rh sof (pipe_start s) (upper s).
Definition with_start (v : Z) (s : hc) : hc :=
  Hc (hw s) (lists s) (urbs s) (pool s) (pipes_at s) (pipes s) (root_hub_callback s) (sof_callback s) v (upper s).
Definition with_upper (v : U) (s : hc) : hc :=
  Hc (hw s) (lists s) (urbs s) (pool s) (pipes_at s) (pipes s) (root_hub_callback s) (sof_callback s) (pipe_start s) v.

Definition in_hw {A} (c : M D A) : M hc A := zoom hw with_hw c.
Definition in_lists {A} (c : M lstore A) : M hc A := zoom lists with_lists c.
Definition in_pool {A} (c : M (umalloc_desc * S) A) : M hc A := zoom pool with_pool c.
Definition in_bytes {A} (c : M mem A) : M hc A := in_pool (in_arena c).

(** Pipes by index, request blocks by address. *)
Definition get_pipe (i : Z) : M hc usb_pipe := λ s,
  match pipes s !! Z.to_nat i with Some p => Ret (p, s) | None => UB end.
Definition upd_pipe (i : Z) (f : usb_pipe → usb_pipe) : M hc unit := λ s,
  match pipes s !! Z.to_nat i with
  | Some p => Ret (tt, with_pipes (pipes_at s) (<[Z.to_nat i := f p]> (pipes s)) s)
  | None => UB
  end.
Definition get_urb (a : Z) : M hc urb := λ s, match urbs s !! a with Some u => Ret (u, s) | None => UB end.
Definition upd_urb (a : Z) (f : urb → urb) : M hc unit := λ s,
  match urbs s !! a with Some u => Ret (tt, with_urbs (<[a := f u]> (urbs s)) s) | None => UB end.

Definition urb_list (i : Z) (s : hc) : Z := pipes_at s + sizeof_usb_pipe * i + 8.
(** The register number of a pipe is the [u8] of its field. *)
Definition pipe_num (i : Z) : M hc Z := let* p := get_pipe i in ret (u8 (num p)).
(** The request block at the head of the queue. *)
Definition first_urb (i : Z) : M hc Z := let* l := gets (urb_list i) in in_lists (list_get_first l).

(** What calling a function pointer does, and the default callbacks. *)
Variable call_urb : Z → Z → M hc unit.
Variable call_root_hub : Z → root_hub_event → M hc unit.
Variable call_sof : Z → M hc unit.
Variable default_root_hub_callback : Z.

(** ** Initialisation *)

Definition usbhc_pipe_init (i : Z) : M hc unit :=
  let* l := gets (urb_list i) in
  in_lists (list_init l) ;;
  let* n := pipe_num i in
  in_hw (usbhw_pipe_set_configuration n 0) ;;
  in_hw (usbhw_pipe_reset_assert n) ;;
  in_hw (usbhw_pipe_reset_deassert n) ;;
  in_hw (usbhw_pipe_disable n) ;;
  upd_pipe i (set_state PIPE_STATE_FREE).

(** The lock is never contended: only the driver itself takes it. *)
Definition usbhc_pipe_soft_reset (i : Z) : M hc unit := upd_pipe i (set_state PIPE_STATE_FREE).

Definition usbhc_early_init : M hc unit :=
  in_hw usbhw_unfreeze_clock ;; in_hw (usbhw_set_mode USB_HOST) ;; in_hw usbhw_enable.

Fixpoint init_pipes (n : nat) (i : Z) : M hc unit :=
  match n with
  | O => ret tt
  | Datatypes.S n =>
      upd_pipe i (set_num i (usbhc_get_fifo_ptr i)) ;;
      usbhc_pipe_init i ;;
      init_pipes n (i + 1)
  end.

(** [ps] are the pipes of the caller at address [pipe]. *)
Definition usbhc_init (pipe : Z) (ps : list usb_pipe) : M hc unit :=
  in_hw usbhw_unfreeze_clock ;;
  in_hw (usbhw_set_mode USB_HOST) ;;
  in_hw usbhw_enable ;;
  in_hw (usbhw_global_disable_interrupt 0xFFFFFFFF) ;;
  in_hw (usbhw_global_clear_status 0xFFFFFFFF) ;;
  in_hw usbhw_vbus_request_enable ;;
  in_pool (umalloc_new sizeof_urb URB_MAX_COUNT URB_ALLOCATOR_BANK) ;;
  modify (with_pipes pipe ps) ;;
  modify (λ s, with_callbacks default_root_hub_callback (sof_callback s) s) ;;
  init_pipes (length ps) 0 ;;
  in_hw (usbhw_global_clear_status (Z.lor USBHW_CONN USBHW_WAKEUP)) ;;
  in_hw (usbhw_global_enable_interrupt (Z.lor USBHW_CONN USBHW_WAKEUP)).

Definition usbhc_clock_usable : M hc Z := in_hw usbhw_clock_usable.

Definition usbhc_send_reset : M hc unit :=
  in_hw (usbhw_set_host_speed USB_HOST_SPEED_NORMAL) ;; in_hw usbhw_send_reset.

(** ** Transfers *)

(** A byte of the FIFO. *)
Definition fifo_read (a : Z) : M hc Z := in_hw (let* v := rd32 a in ret (u8 v)).

(** The loop of [usbhc_in]; it gives the bytes left in the FIFO. *)
Fixpoint in_loop (fifo_count : nat) (urb_ dest src : Z) : M hc Z :=
  match fifo_count with
  | O => ret 0
  | Datatypes.S n =>
      let* b := fifo_read src in
      in_bytes (modify (λ m, st8 m dest b)) ;;
      upd_urb urb_ (λ u, set_actual (u32 (acctual_length u + 1)) u) ;;
      let* u := get_urb urb_ in
      if acctual_length u =? transfer_length u then ret (Z.of_nat n)
      else in_loop n urb_ (u32 (dest + 1)) (u32 (src + 1))
  end.

(** [usbhc_in]: reading a packet; 1 when it was short. *)
Definition usbhc_in (i urb_ : Z) : M hc Z :=
  let* n := pipe_num i in
  let* fifo_count := in_hw (usbhw_pipe_get_byte_count n) in
  let* u := get_urb urb_ in
  let* p := get_pipe i in
  let short_pkt := if negb (fifo_count =? ep_size p) then 1 else 0 in
  in_loop (Z.to_nat fifo_count) urb_ (u32 (transfer_buffer u + acctual_length u)) (usbhc_get_fifo_ptr (num p)) ;;
  in_hw (usbhw_pipe_disable_interrupt n USBHW_FIFO_CTRL) ;;
  ret short_pkt.

Definition usbhc_out (i urb_ : Z) : M hc unit := ret tt.

(** The eight bytes of a setup packet, written to the FIFO. *)
Fixpoint setup_loop (n : nat) (setup fifo_ptr : Z) : M hc unit :=
  match n with
  | O => ret tt
  | Datatypes.S n =>
      let* b := in_bytes (gets (λ m, ld8 m setup)) in
      in_hw (wr32 fifo_ptr b) ;;
      setup_loop n (u32 (setup + 1)) (u32 (fifo_ptr + 1))
  end.

Definition usbhc_setup_out (i setup : Z) : M hc Z :=
  let* p := get_pipe i in
  let* n := pipe_num i in
  let* c := in_hw (usbhw_pipe_get_byte_count n) in
  if negb (c =? 0) then ret 0 else
  in_hw (usbhw_pipe_clear_status n USBHW_TXSETUP) ;;
  in_hw (usbhw_pipe_set_token n PIPE_TOKEN_SETUP) ;;
  setup_loop 8 setup (usbhc_get_fifo_ptr (num p)) ;;
  in_hw (usbhw_pipe_enable_interrupt n USBHW_TXSETUP) ;;
  in_hw (usbhw_pipe_disable_interrupt n (Z.lor USBHW_PFREEZE USBHW_FIFO_CTRL)) ;;
  ret 1.

Definition usbhc_control_status_out (i : Z) : M hc unit :=
  let* n := pipe_num i in
  let* fifo_count := in_hw (usbhw_pipe_get_byte_count n) in
  if negb (fifo_count =? 0) then panic "FIFO not zero" else
  in_hw (usbhw_pipe_clear_status n USBHW_TXOUT) ;;
  in_hw (usbhw_pipe_set_token n PIPE_TOKEN_OUT) ;;
  in_hw (usbhw_pipe_enable_interrupt n USBHW_TXOUT) ;;
  in_hw (usbhw_pipe_disable_interrupt n (Z.lor USBHW_FIFO_CTRL USBHW_PFREEZE)).

Definition usbhc_send_in (i : Z) : M hc unit :=
  let* n := pipe_num i in
  in_hw (usbhw_pipe_clear_status n (Z.lor USBHW_RXIN USBHW_SHORTPKT)) ;;
  in_hw (usbhw_pipe_in_request_defined n 1) ;;
  in_hw (usbhw_pipe_set_token n PIPE_TOKEN_IN) ;;
  in_hw (usbhw_pipe_enable_interrupt n USBHW_RXIN) ;;
  in_hw (usbhw_pipe_disable_interrupt n (Z.lor USBHW_FIFO_CTRL USBHW_PFREEZE)).

Definition usbhc_start_urb (urb_ i : Z) : M hc unit :=
  upd_urb urb_ (set_actual 0) ;;
  let* u := get_urb urb_ in
  if negb (Z.land (urb_flags u) URB_FLAGS_SETUP =? 0) then
    upd_pipe i (set_state PIPE_STATE_CTRL_OUT) ;;
    let* _ := usbhc_setup_out i (setup_buffer u) in ret tt
  else if negb (Z.land (urb_flags u) URB_FLAGS_INTERRUPT_IN =? 0) then
    let* n := pipe_num i in
    in_hw (usbhw_pipe_reset_assert n) ;;
    in_hw (usbhw_pipe_reset_deassert n) ;;
    upd_pipe i (set_state PIPE_STATE_IN) ;;
    in_hw (usbhw_pipe_in_request_continous n) ;;
    in_hw (usbhw_pipe_disable_interrupt n USBHW_PFREEZE) ;;
    in_hw (usbhw_pipe_enable_interrupt n 0xFF)
  else ret tt.

Definition usbhc_end_urb (urb_ i : Z) (st : urb_status) : M hc unit :=
  let* u := get_urb urb_ in
  if negb (Z.land (urb_flags u) URB_FLAGS_INTERRUPT_IN =? 0) then
    upd_urb urb_ (set_status st) ;;
    call_urb (callback u) urb_
  else
    upd_pipe i (set_state PIPE_STATE_IDLE) ;;
    in_lists (list_delete_node urb_) ;;
    upd_urb urb_ (set_status st) ;;
    let* u := get_urb urb_ in
    call_urb (callback u) urb_ ;;
    let* l := gets (urb_list i) in
    let* empty := in_lists (list_is_empty l) in
    let* p := get_pipe i in
    if (empty =? 0) && bool_decide (state p = PIPE_STATE_IDLE) then
      let* next := first_urb i in usbhc_start_urb next i
    else ret tt.

Definition usbhc_abort_transfer (i : Z) : M hc unit :=
  let* n := pipe_num i in
  in_hw (usbhw_pipe_reset_assert n) ;; in_hw (usbhw_pipe_reset_deassert n).

(** ** Interrupts *)

(** The search of [usbhc_pick_interrupted_pipe]. *)
Fixpoint pick_loop (n : nat) (pipe_mask pipe_number : Z) : Z :=
  match n with
  | O => pipe_number
  | Datatypes.S n =>
      if negb (Z.land pipe_mask (Z.shiftl 1 pipe_number) =? 0) then pipe_number else
      let pipe_number := pipe_number + 1 in
      pick_loop n pipe_mask (if MAX_PIPES <=? pipe_number then 0 else pipe_number)
  end.

Definition usbhc_pick_interrupted_pipe (pipe_mask : Z) : M hc Z :=
  let* start := gets pipe_start in
  let pipe_number := pick_loop (Z.to_nat MAX_PIPES) pipe_mask start in
  let start := start + 1 in
  modify (with_start (if MAX_PIPES <=? start then 0 else start)) ;;
  ret pipe_number.

Definition usbhc_naked (i : Z) : M hc unit :=
  let* n := pipe_num i in in_hw (usbhw_pipe_clear_status n USBHW_NAKED).

Definition usbhc_pipe_setup_sent (i : Z) : M hc unit :=
  let* p := get_pipe i in
  if negb (bool_decide (state p = PIPE_STATE_CTRL_OUT)) then panic "State error" else
  let* n := pipe_num i in
  in_hw (usbhw_pipe_clear_status n USBHW_TXSETUP) ;;
  let* urb_ := first_urb i in
  let* u := get_urb urb_ in
  let* req_type := in_bytes (gets (λ m, ld8 m (setup_buffer u))) in
  if negb (transfer_length u =? 0) then
    if Z.land req_type USB_DEVICE_TO_HOST =? USB_DEVICE_TO_HOST then
      upd_pipe i (set_state PIPE_STATE_IN) ;; usbhc_send_in i
    else
      upd_pipe i (set_state PIPE_STATE_OUT) ;; usbhc_out i urb_
  else if Z.land req_type USB_HOST_TO_DEVICE =? USB_HOST_TO_DEVICE then
    upd_pipe i (set_state PIPE_STATE_ZLP_IN) ;; usbhc_send_in i
  else panic "".

Definition usbhc_pipe_receive_in (i isr : Z) : M hc unit :=
  let* n := pipe_num i in
  in_hw (usbhw_pipe_clear_status n (Z.lor USBHW_RXIN USBHW_SHORTPKT)) ;;
  let* urb_ := first_urb i in
  let* p := get_pipe i in
  if bool_decide (state p = PIPE_STATE_ZLP_IN) then usbhc_end_urb urb_ i URB_STATUS_OK else
  let* short_pkt := usbhc_in i urb_ in
  if negb (short_pkt =? 0) then
    in_hw (usbhw_pipe_disable_interrupt n USBHW_RXIN) ;;
    match type p with
    | PIPE_TYPE_CTRL => upd_pipe i (set_state PIPE_STATE_ZLP_OUT) ;; usbhc_control_status_out i
    | _ => usbhc_end_urb urb_ i URB_STATUS_OK
    end
  else
    let* u := get_urb urb_ in
    if transfer_length u <=? acctual_length u then usbhc_end_urb urb_ i URB_STATUS_OK
    else usbhc_send_in i.

Definition usbhc_transmit_out (i : Z) : M hc unit :=
  let* n := pipe_num i in
  in_hw (usbhw_pipe_clear_status n USBHW_TXOUT) ;;
  let* p := get_pipe i in
  if bool_decide (state p = PIPE_STATE_ZLP_OUT) then
    let* urb_ := first_urb i in
    let* _ := in_hw (usbhw_pipe_get_status n) in
    in_hw (usbhw_pipe_enable_interrupt n (Z.lor USBHW_PFREEZE USBHW_FIFO_CTRL)) ;;
    in_hw (usbhw_pipe_in_request_defined n 1) ;;
    usbhc_end_urb urb_ i URB_STATUS_OK
  else ret tt.

Definition root_hub (event : root_hub_event) : M hc unit :=
  let* f := gets root_hub_callback in call_root_hub f event.

Definition usbhc_root_hub_connect : M hc unit :=
  in_hw (usbhw_global_clear_status USBHW_CONN) ;;
  in_hw (usbhw_global_disable_interrupt USBHW_CONN) ;;
  in_hw (usbhw_global_clear_status (Z.lor (Z.lor USBHW_RST USBHW_DCONN) USBHW_SOF)) ;;
  in_hw (usbhw_global_enable_interrupt (Z.lor (Z.lor USBHW_RST USBHW_DCONN) USBHW_SOF)) ;;
  root_hub RH_EVENT_CONNECTION.

Definition usbhc_root_hub_disconnect : M hc unit := in_hw (usbhw_global_disable_interrupt USBHW_DCONN).

(** The speed is only printed, from a table of three strings; the fourth value reads
    past it. *)
Definition usbhc_root_hub_reset : M hc unit :=
  in_hw (usbhw_global_clear_status USBHW_RST) ;;
  in_hw (usbhw_global_disable_interrupt USBHW_RST) ;;
  let* speed := in_hw usbhw_get_device_speed in
  match speed with
  | USB_DEVICE_RESERVED => ub
  | _ => root_hub RH_EVENT_RESET_SENT
  end.

(** The wake-up interrupt stops the system in [while (1);]. *)
Definition usbhc_root_hub_exception (isr : Z) : M hc unit :=
  (if negb (Z.land isr USBHW_CONN =? 0) then usbhc_root_hub_connect else ret tt) ;;
  (if negb (Z.land isr USBHW_DCONN =? 0) then usbhc_root_hub_disconnect else ret tt) ;;
  (if negb (Z.land isr USBHW_WAKEUP =? 0) then hang else ret tt) ;;
  (if negb (Z.land isr USBHW_RST =? 0) then usbhc_root_hub_reset else ret tt).

Definition usbhc_pipe_exception (isr : Z) : M hc unit :=
  let pipe_mask := Z.land 0x3FF (Z.shiftr isr USBHW_PIPE_OFFSET) in
  let* i := usbhc_pick_interrupted_pipe pipe_mask in
  in_hw (usbhw_global_clear_status (Z.shiftl 1 (i + USBHW_PIPE_OFFSET))) ;;
  let* pipe_isr := in_hw (usbhw_pipe_get_status i) in
  let* pipe_imr := in_hw (usbhw_pipe_get_interrupt_mask i) in
  (if negb (Z.land pipe_isr USBHW_PERROR =? 0) then
     let* _ := in_hw (usbhw_pipe_get_error_reg i) in panic ""
   else ret tt) ;;
  (if negb (Z.land pipe_isr USBHW_NAKED =? 0) then usbhc_naked i else ret tt) ;;
  (if negb (Z.land pipe_isr USBHW_TXSETUP =? 0) then usbhc_pipe_setup_sent i else ret tt) ;;
  (if negb (Z.land (Z.land pipe_isr pipe_imr) USBHW_RXIN =? 0) then usbhc_pipe_receive_in i pipe_isr else ret tt) ;;
  (if negb (Z.land (Z.land pipe_isr pipe_imr) USBHW_TXOUT =? 0) then usbhc_transmit_out i else ret tt).

Definition usbhc_sof_exception : M hc unit :=
  in_hw (usbhw_global_clear_status USBHW_SOF) ;;
  let* f := gets sof_callback in call_sof f.

Definition usb_exception : M hc unit :=
  let* isr := in_hw usbhw_global_get_status in
  (if negb (Z.land isr 0x20 =? 0) then usbhc_sof_exception else ret tt) ;;
  (if negb (Z.land isr 0x3FF00 =? 0) then usbhc_pipe_exception isr else ret tt) ;;
  (if negb (Z.land isr 0x5F =? 0) then usbhc_root_hub_exception isr else ret tt) ;;
  in_hw (usbhw_global_clear_status 0xFFFFFFFF).

(** ** Pipes *)

(** Writing a configuration with and then without the allocation bit; 1 when the
    controller accepts it. *)
Definition reconfigure (n cfg : Z) : M hc Z :=
  let cfg := Z.land cfg (Z.lnot (Z.shiftl 1 1)) in
  in_hw (usbhw_pipe_set_configuration n cfg) ;;
  let cfg := Z.lor cfg (Z.shiftl 1 1) in
  in_hw (usbhw_pipe_set_configuration n cfg) ;;
  let* st := in_hw (usbhw_pipe_get_status n) in
  ret (if negb (Z.land st (Z.shiftl 1 18) =? 0) then 1 else 0).

Definition usbhc_alloc_pipe (i cfg : Z) : M hc Z :=
  let* n := pipe_num i in
  in_hw (usbhw_pipe_enable n) ;;
  in_hw (usbhw_pipe_reset_assert n) ;;
  in_hw (usbhw_pipe_reset_deassert n) ;;
  let* ok := reconfigure n cfg in
  if ok =? 0 then ret 0 else
  in_hw (usbhw_pipe_clear_status n 0xFF) ;;
  in_hw (usbhw_pipe_enable_interrupt n (Z.lor (Z.lor (Z.lor USBHW_PERROR USBHW_OVERFLOW) USBHW_STALL) USBHW_NAKED)) ;;
  let* p := get_pipe i in
  in_hw (usbhw_global_enable_interrupt (Z.shiftl 1 (num p + USBHW_PIPE_OFFSET))) ;;
  in_hw (usbhw_pipe_enable_interrupt n USBHW_PFREEZE) ;;
  let* _ := in_hw (usbhw_pipe_get_status n) in
  upd_pipe i (set_state PIPE_STATE_IDLE) ;;
  ret 1.

(** The first free pipe, by index, or NULL. *)
Fixpoint request_loop (n : nat) (i : Z) : M hc (option Z) :=
  match n with
  | O => ret None
  | Datatypes.S n =>
      let* p := get_pipe i in
      if bool_decide (state p = PIPE_STATE_FREE)
      then upd_pipe i (set_state PIPE_STATE_CLAIMED) ;; ret (Some i)
      else request_loop n (i + 1)
  end.
Definition usbhc_request_pipe : M hc (option Z) :=
  let* ps := gets pipes in request_loop (length ps) 0.

(** The highest bit of the size, from [i - 1] downwards. *)
Fixpoint top_bit (i : nat) (size : Z) : option Z :=
  match i with
  | O => None
  | Datatypes.S i => if negb (Z.land size (Z.shiftl 1 (Z.of_nat i)) =? 0) then Some (Z.of_nat i) else top_bit i size
  end.

(** [usbhc_size_to_pipe_size]: the encoding of the size, if there is one; for size 0 the
    shift by 2^32 - 1 is undefined. *)
Definition usbhc_size_to_pipe_size (size : Z) : M hc (option Z) :=
  match top_bit 32 size with
  | None => ub
  | Some i =>
      let num := Z.shiftl 1 i in
      let i := if negb (Z.land size (num - 1) =? 0) then i + 1 else i in
      ret (if (3 <=? i) && (i <=? 10) then Some (i - 3) else None)
  end.

Definition pipe_inactive (st : pipe_state) : bool :=
  match st with PIPE_STATE_FREE | PIPE_STATE_CLAIMED => true | _ => false end.

Definition usbhc_pipe_reallocate (i : Z) : M hc Z :=
  let* p := get_pipe i in
  if pipe_inactive (state p) then ret 1 else
  usbhc_abort_transfer i ;;
  let* n := pipe_num i in
  let* cfg := in_hw (usbhw_pipe_get_configuration n) in
  let* ok := reconfigure n cfg in
  if ok =? 0 then ret 0 else
  let* urb_ := first_urb i in
  usbhc_end_urb urb_ i URB_STATUS_ABORT ;;
  ret 1.

Fixpoint conflicts_loop (n : nat) (i : Z) : M hc Z :=
  match n with
  | O => ret 1
  | Datatypes.S n =>
      let* ok := usbhc_pipe_reallocate i in
      if ok =? 0 then ret 0 else conflicts_loop n (i + 1)
  end.
Definition usbhc_solve_pipe_conflicts (i : Z) : M hc Z :=
  let* p := get_pipe i in
  let* ps := gets pipes in
  conflicts_loop (length ps - Z.to_nat (num p + 1)) (num p + 1).

Definition usbhc_set_address (i addr : Z) : M hc unit :=
  let* n := pipe_num i in in_hw (usbhw_pipe_set_addr n addr).
Definition usbhc_set_ep_size (i size : Z) : M hc unit := upd_pipe i (set_ep_size size).

(** The configuration register of a pipe. *)
Definition config_word (cfg : pipe_config) (size : Z) : Z :=
  let cfg_reg := 0 in
  let cfg_reg := Z.lor cfg_reg (Z.shiftl (cfg_frequency cfg) 24) in
  let cfg_reg := Z.lor cfg_reg (Z.shiftl (cfg_ep_addr cfg) 16) in
  let cfg_reg := Z.lor cfg_reg (Z.shiftl (type_val (cfg_type cfg)) 12) in
  let cfg_reg := Z.lor cfg_reg (Z.shiftl (cfg_bank_switch cfg) 10) in
  let cfg_reg := Z.lor cfg_reg (Z.shiftl size 4) in
  Z.lor cfg_reg (Z.shiftl (cfg_banks cfg - 1) 2).

Definition usbhc_pipe_configure (i : Z) (cfg : pipe_config) : M hc Z :=
  let* p := get_pipe i in
  if negb (num p =? 0) && (64 <? cfg_size cfg) then ret 0 else
  if negb (bool_decide (state p = PIPE_STATE_CLAIMED)) then ret 0 else
  let* size := usbhc_size_to_pipe_size (cfg_size cfg) in
  match size with
  | None => ret 0
  | Some size =>
      if cfg_banks cfg <? 1 then ret 0 else
      let* ok := usbhc_alloc_pipe i (config_word cfg size) in
      if ok =? 0 then ret 0 else
      usbhc_set_address i (cfg_dev_addr cfg) ;;
      upd_pipe i (set_ep_size (cfg_size cfg)) ;;
      upd_pipe i (set_config cfg) ;;
      upd_pipe i (set_state PIPE_STATE_IDLE) ;;
      let* _ := usbhc_solve_pipe_conflicts i in
      ret 1
  end.

(** ** Request blocks *)

(** A new block; its other fields are set before they are read. *)
Definition usbhc_alloc_urb : M hc Z :=
  let* a := in_pool umalloc in
  if a =? 0 then panic "URB alloc failed" else
  modify (λ s, with_urbs (<[a := Urb 0 0 0 0 0 URB_STATUS_OK 0 0]> (urbs s)) s) ;;
  in_lists (modify (λ l, <[a := LNode 0 0]> l)) ;;
  in_lists (list_node_init a) ;;
  ret a.

Definition usbhc_submit_urb (urb_ i : Z) : M hc unit :=
  let* n := pipe_num i in
  let* _ := in_hw (usbhw_pipe_get_status n) in
  let* l := gets (urb_list i) in
  let* empty := in_lists (list_is_empty l) in
  in_lists (list_add_last urb_ l) ;;
  if negb (empty =? 0) then usbhc_start_urb urb_ i else ret tt.

Definition usbhc_set_urb_context (urb_ ctx : Z) : M hc unit := upd_urb urb_ (set_context ctx).

Definition usbhc_cancel_urb (urb_ i : Z) : M hc Z := in_lists (list_delete_node urb_) ;; ret 1.

(** The length is the last field of the setup packet. *)
Definition usbhc_fill_control_urb (urb_ setup buffer_ callback_ : Z) : M hc unit :=
  let* len := in_bytes (gets (λ m, le_join [ld8 m (setup + 6); ld8 m (setup + 7)])) in
  upd_urb urb_ (λ u, Urb URB_FLAGS_SETUP setup buffer_ len (acctual_length u) (status u) callback_ (context u)).

Definition usbhc_add_root_hub_callback (f : Z) : M hc unit := modify (λ s, with_callbacks f (sof_callback s) s).
Definition usbhc_add_sof_callback (f : Z) : M hc unit := modify (λ s, with_callbacks (root_hub_callback s) f s).
End UsbHc.
