(* ===== verification/Usb.v ===== *)
(** * The USB core (usb/usb.c, usb.h, usb_protocol.h, drivers/usb_hid.c)

    Enumeration of a device over the control pipe, the tree of its descriptors, and the
    matching of interfaces with drivers, on top of the host controller's driver.  The
    core's structures are records at the addresses the allocator says; their list nodes
    are in the list store at the offsets the structs give them.  Printed text is left out. *)

From S2P Require Import Prelude Memory Palloc Umalloc CList Hardware UsbHw UsbHc.

Definition USB_ENUM_BUFFER_SIZE : Z := 1024.
Definition USB_DEV_NAME_MAX_SIZE : Z := 64.
Definition USB_REQ_GET_DESCRIPTOR : Z := 0x06.
Definition USB_REQ_SET_ADDRESS : Z := 0x05.
Definition USB_DESC_DEVICE : Z := 0x01.
Definition USB_DESC_CONFIG : Z := 0x02.
Definition USB_DESC_STRING : Z := 0x03.
Definition USB_DESC_IFACE : Z := 0x04.
Definition USB_DESC_EP : Z := 0x05.
Definition USB_STRING_OFFSET : Z := 2.
Definition USB_CLASS_HID : Z := 0x03.

(** ** Data *)

Inductive usb_enum_state :=
  | USB_ENUM_IDLE | USB_ENUM_GET_EP0_SIZE | USB_ENUM_GET_DEV_DESC | USB_ENUM_SET_ADDRESS | USB_ENUM_GET_DESC_LENGTH
  | USB_ENUM_GET_DESCRIPTORS | USB_ENUM_GET_PRODUCT_NAME | USB_ENUM_GET_MANUFACTURER_NAME.

(** Descriptors are their bytes. *)
Definition le16 (l : list Z) (i : nat) : Z := nth i l 0 + 256 * nth (i + 1) l 0.
Definition bDeviceClass (d : list Z) : Z := nth 4 d 0.
Definition bDeviceSubClass (d : list Z) : Z := nth 5 d 0.
Definition bDeviceProtocol (d : list Z) : Z := nth 6 d 0.
Definition idVendor (d : list Z) : Z := le16 d 8.
Definition idProduct (d : list Z) : Z := le16 d 10.
Definition iManufacturer (d : list Z) : Z := nth 14 d 0.
Definition iProduct (d : list Z) : Z := nth 15 d 0.
Definition bInterfaceClass (d : list Z) : Z := nth 5 d 0.
Definition bInterfaceSubClass (d : list Z) : Z := nth 6 d 0.
Definition bInterfaceProtocol (d : list Z) : Z := nth 7 d 0.
Definition sizeof_config_desc : Z := 9.
Definition sizeof_iface_desc : Z := 9.
Definition sizeof_ep_desc : Z := 7.

(** [struct usb_ep], [usb_iface] and [usb_config], with their sizes and the offset of
    the interface's node. *)
Record usb_ep := UsbEp { ep_desc : list Z; ep_pipe : Z }.
Record usb_iface := UsbIface {
  if_desc : list Z;
  if_eps : Z;
  num_eps : Z;
  if_driver : Z;
  parent_dev : Z;
  assigned : Z
}.
Record usb_config := UsbConfig {
  cf_desc : list Z;
  cf_ifaces : Z;
  num_ifaces : Z;
  curr_iface : Z
}.
Definition sizeof_usb_ep : Z := 12.
Definition sizeof_usb_iface : Z := 40.
Definition sizeof_usb_config : Z := 24.
Definition iface_node (a : Z) : Z := a + 32.

Definition set_cf_num (n : Z) (c : usb_config) : usb_config := UsbConfig (cf_desc c) (cf_ifaces c) n (curr_iface c).
Definition set_cf_ifaces (a : Z) (c : usb_config) : usb_config := UsbConfig (cf_desc c) a (num_ifaces c) (curr_iface c).
Definition set_if_num (n : Z) (i : usb_iface) : usb_iface := UsbIface (if_desc i) (if_eps i) n (if_driver i) (parent_dev i) (assigned i).
Definition set_if_eps (a : Z) (i : usb_iface) : usb_iface := UsbIface (if_desc i) a (num_eps i) (if_driver i) (parent_dev i) (assigned i).
Definition set_if_driver (a : Z) (i : usb_iface) : usb_iface := UsbIface (if_desc i) (if_eps i) (num_eps i) a (parent_dev i) (assigned i).

(** [struct usb_dev]: what is used of it; its nodes are at offsets 80 and 88. *)
Record usb_dev := UsbDev {
  d_desc : list Z;
  desc_total_size : Z;
  configs : Z;
  num_configs : Z;
  d_pipes : list Z;
  pipe_bm : Z;
  address : Z;
  ep0_size : Z;
  product : list Z;
  manufacturer : list Z
}.
Definition sizeof_usb_dev : Z := 228.
Definition dev_node (a : Z) : Z := a + 80.
Definition iface_list (a : Z) : Z := a + 88.
Definition set_d_desc (v : list Z) (d : usb_dev) : usb_dev :=
  UsbDev v (desc_total_size d) (configs d) (num_configs d) (d_pipes d) (pipe_bm d) (address d) (ep0_size d) (product d) (manufacturer d).
Definition set_total (v : Z) (d : usb_dev) : usb_dev :=
  UsbDev (d_desc d) v (configs d) (num_configs d) (d_pipes d) (pipe_bm d) (address d) (ep0_size d) (product d) (manufacturer d).
Definition set_configs (a n : Z) (d : usb_dev) : usb_dev :=
  UsbDev (d_desc d) (desc_total_size d) a n (d_pipes d) (pipe_bm d) (address d) (ep0_size d) (product d) (manufacturer d).
Definition set_address (v : Z) (d : usb_dev) : usb_dev :=
  UsbDev (d_desc d) (desc_total_size d) (configs d) (num_configs d) (d_pipes d) (pipe_bm d) v (ep0_size d) (product d) (manufacturer d).
Definition set_ep0 (v : Z) (d : usb_dev) : usb_dev :=
  UsbDev (d_desc d) (desc_total_size d) (configs d) (num_configs d) (d_pipes d) (pipe_bm d) (address d) v (product d) (manufacturer d).
Definition set_product (v : list Z) (d : usb_dev) : usb_dev :=
  UsbDev (d_desc d) (desc_total_size d) (configs d) (num_configs d) (d_pipes d) (pipe_bm d) (address d) (ep0_size d) v (manufacturer d).
Definition set_manufacturer (v : list Z) (d : usb_dev) : usb_dev :=
  UsbDev (d_desc d) (desc_total_size d) (configs d) (num_configs d) (d_pipes d) (pipe_bm d) (address d) (ep0_size d) (product d) v.

(** [struct usb_dev_id], and the flags that say which fields count. *)
Record usb_dev_id := DevId {
  id_flags : Z;
  vendor_id : Z;
  product_id : Z;
  dev_class : Z;
  dev_sub_class : Z;
  dev_protocol : Z;
  iface_class : Z;
  iface_sub_class : Z;
  iface_protocol : Z
}.
Definition USB_DEV_ID_VENDOR_MASK : Z := Z.shiftl 1 0.
Definition USB_DEV_ID_PRODUCT_MASK : Z := Z.shiftl 1 1.
Definition USB_DEV_ID_DEV_CLASS_MASK : Z := Z.shiftl 1 2.
Definition USB_DEV_ID_DEV_SUBCLASS_MASK : Z := Z.shiftl 1 3.
Definition USB_DEV_ID_DEV_PROTOCOL_MASK : Z := Z.shiftl 1 4.
Definition USB_DEV_ID_IFACE_CLASS_MASK : Z := Z.shiftl 1 5.
Definition USB_DEV_ID_IFACE_SUBCLASS_MASK : Z := Z.shiftl 1 6.
Definition USB_DEV_ID_IFACE_PROTOCOL_MASK : Z := Z.shiftl 1 7.

(** [struct usb_driver]; its node is at offset 20. *)
Record usb_driver := UsbDriver { connect : Z; dev_ids : list usb_dev_id }.
Definition driver_node (a : Z) : Z := a + 20.

(** [struct usb_core] at [usbc_private], and the structures of the core. *)
Record usb := Usb {
  enum_state : usb_enum_state;
  enum_dev : Z;
  dev_addr_bm : Z;
  devs : gmap Z usb_dev;
  cfgs : gmap Z usb_config;
  ifaces : gmap Z usb_iface;
  eps : gmap Z usb_ep;
  drivers : gmap Z usb_driver
}.
Definition u_state (v : usb_enum_state) (u : usb) : usb := Usb v (enum_dev u) (dev_addr_bm u) (devs u) (cfgs u) (ifaces u) (eps u) (drivers u).
Definition u_enum_dev (v : Z) (u : usb) : usb := Usb (enum_state u) v (dev_addr_bm u) (devs u) (cfgs u) (ifaces u) (eps u) (drivers u).
Definition u_addr_bm (v : Z) (u : usb) : usb := Usb (enum_state u) (enum_dev u) v (devs u) (cfgs u) (ifaces u) (eps u) (drivers u).
Definition u_devs (v : gmap Z usb_dev) (u : usb) : usb := Usb (enum_state u) (enum_dev u) (dev_addr_bm u) v (cfgs u) (ifaces u) (eps u) (drivers u).
Definition u_cfgs (v : gmap Z usb_config) (u : usb) : usb := Usb (enum_state u) (enum_dev u) (dev_addr_bm u) (devs u) v (ifaces u) (eps u) (drivers u).
Definition u_ifaces (v : gmap Z usb_iface) (u : usb) : usb := Usb (enum_state u) (enum_dev u) (dev_addr_bm u) (devs u) (cfgs u) v (eps u) (drivers u).
Definition u_eps (v : gmap Z usb_ep) (u : usb) : usb := Usb (enum_state u) (enum_dev u) (dev_addr_bm u) (devs u) (cfgs u) (ifaces u) v (drivers u).

(** ** Strings *)

(** The loop of [usbc_uni_to_string]; [read] gives the character at a position. *)
Fixpoint uni_loop (n : nat) (read : Z → Z) (uni_pos uni_size : Z) (acc : list Z) : list Z :=
  match n with
  | O => acc
  | Datatypes.S n => if uni_pos <? uni_size then uni_loop n read (u32 (uni_pos + 2)) uni_size (acc ++ [read uni_pos]) else acc
  end.
(** [usbc_uni_to_string] into the array [string]. *)
Definition usbc_uni_to_string (read : Z → Z) (uni_size : Z) (string : list Z) (string_size : Z) : list Z :=
  if 0 <? string_size then
    let chars := uni_loop (Z.to_nat (string_size - 1)) read 0 uni_size [] ++ [0] in
    chars ++ drop (length chars) string
  else string.

(** ** Matching *)

Definition flag (id : usb_dev_id) (mask : Z) : bool := negb (Z.land (id_flags id) mask =? 0).

Definition usbc_check_dev_match (id : usb_dev_id) (d : usb_dev) : Z :=
  if flag id USB_DEV_ID_VENDOR_MASK && negb (vendor_id id =? idVendor (d_desc d)) then 0 else
  if flag id USB_DEV_ID_PRODUCT_MASK && negb (product_id id =? idProduct (d_desc d)) then 0 else
  if flag id USB_DEV_ID_DEV_CLASS_MASK && negb (dev_class id =? bDeviceClass (d_desc d)) then 0 else
  if flag id USB_DEV_ID_DEV_SUBCLASS_MASK && negb (dev_sub_class id =? bDeviceSubClass (d_desc d)) then 0 else
  if flag id USB_DEV_ID_DEV_PROTOCOL_MASK && negb (dev_protocol id =? bDeviceProtocol (d_desc d)) then 0 else
  1.

Definition usbc_check_iface_match (id : usb_dev_id) (i : usb_iface) : Z :=
  if flag id USB_DEV_ID_IFACE_CLASS_MASK && negb (iface_class id =? bInterfaceClass (if_desc i)) then 0 else
  if flag id USB_DEV_ID_IFACE_SUBCLASS_MASK && negb (iface_sub_class id =? bInterfaceSubClass (if_desc i)) then 0 else
  if flag id USB_DEV_ID_IFACE_PROTOCOL_MASK && negb (iface_protocol id =? bInterfaceProtocol (if_desc i)) then 0 else
  1.

Fixpoint match_loop (ids : list usb_dev_id) (d : usb_dev) (i : usb_iface) : Z :=
  match ids with
  | [] => 0
  | id :: ids =>
      if negb (usbc_check_dev_match id d =? 0) then
        if negb (usbc_check_iface_match id i =? 0) then 1 else match_loop ids d i
      else match_loop ids d i
  end.
Definition usbc_check_driver_match (driver : usb_driver) (d : usb_dev) (i : usb_iface) : Z :=
  match_loop (dev_ids driver) d i.

(** ** Verifying descriptors *)

(** The loop of [usbc_verify_descriptors]: the position reached, and the counts; [None] when it
    returns 0 early.  [read] gives a byte of the data. *)
Fixpoint verify_loop (fuel : nat) (read : Z → Z) (size pos nc ni ne : Z) : M unit (option (Z * Z * Z * Z)) :=
  match fuel with
  | O => hang
  | Datatypes.S fuel =>
      if pos <? size then
        let type := read (u32 (pos + 1)) in
        let dsize := read pos in
        if type =? USB_DESC_CONFIG then
          if negb (dsize =? sizeof_config_desc) then ret None
          else verify_loop fuel read size (u32 (pos + dsize)) (u32 (nc + 1)) ni ne
        else if type =? USB_DESC_IFACE then
          if negb (dsize =? sizeof_iface_desc) then ret None
          else verify_loop fuel read size (u32 (pos + dsize)) nc (u32 (ni + 1)) ne
        else if type =? USB_DESC_EP then
          if negb (dsize =? sizeof_ep_desc) then ret None
          else verify_loop fuel read size (u32 (pos + dsize)) nc ni (u32 (ne + 1))
        else verify_loop fuel read size (u32 (pos + dsize)) nc ni ne
      else ret (Some (pos, nc, ni, ne))
  end.
Definition usbc_verify_descriptors (fuel : nat) (read : Z → Z) (size : Z) : M unit (option (Z * Z * Z)) :=
  let* r := verify_loop fuel read size 0 0 0 0 in
  match r with
  | Some (pos, nc, ni, ne) => ret (if pos =? size then Some (nc, ni, ne) else None)
  | None => ret None
  end.

Definition usbc_get_desc_offset (nc ni type index : Z) : Z :=
  if type =? USB_DESC_CONFIG then u32 (index * sizeof_usb_config)
  else if type =? USB_DESC_IFACE then u32 (nc * sizeof_usb_config + index * sizeof_usb_iface)
  else if type =? USB_DESC_EP then u32 (nc * sizeof_usb_config + ni * sizeof_usb_iface + index * sizeof_usb_ep)
  else 0.

Section Usb.
Context {D S : Type} `{Mmio D} `{ByteAlloc S}.

#[local] Notation st := (@hc D S usb).

(** The address of [struct usb_core], of the static setup packet and buffer, and of the
    handlers and the HID driver; what a driver's [connect] does. *)
Variable usbc setup_at enum_buffer : Z.
Variable usbc_enumerate_handler_at root_hub_event_at sof_event_at hid_driver usb_hid_connect_at : Z.

Definition dev_list : Z := usbc + 16.
Definition driver_list : Z := usbc + 28.

Definition in_core (f : usb → usb) : M st unit := modify (λ s, with_upper (f (upper s)) s).
Definition core {A} (f : usb → A) : M st A := gets (λ s, f (upper s)).
Definition get_at {A} (f : usb → gmap Z A) (a : Z) : M st A := let* m := core f in of_option (m !! a).
Definition get_dev := get_at devs.
Definition get_config := get_at cfgs.
Definition get_iface := get_at ifaces.
Definition upd_dev (a : Z) (f : usb_dev → usb_dev) : M st unit :=
  let* d := get_dev a in in_core (λ u, u_devs (<[a := f d]> (devs u)) u).
Definition upd_config (a : Z) (f : usb_config → usb_config) : M st unit :=
  let* c := get_config a in in_core (λ u, u_cfgs (<[a := f c]> (cfgs u)) u).
Definition upd_iface (a : Z) (f : usb_iface → usb_iface) : M st unit :=
  let* i := get_iface a in in_core (λ u, u_ifaces (<[a := f i]> (ifaces u)) u).
Definition load (f : mem → Z) : M st Z := in_bytes (gets f).
Definition load16 (a : Z) : M st Z := load (λ m, ld8 m a + 256 * ld8 m (a + 1)).
Definition read_at (a n : Z) : M st (list Z) := in_bytes (gets (λ m, read_bytes m a (Z.to_nat n))).
(** A node of a structure in fresh memory. *)
Definition new_node (a : Z) : M st unit := in_lists (modify (λ l, <[a := LNode 0 0]> l)).

(** ** Requests *)

(** The setup packet: request type, request, the two bytes of the value, index, length. *)
Definition put_setup (type req v0 v1 index len : Z) : M st unit :=
  in_bytes (modify (λ m, write_bytes m setup_at
    [u8 type; u8 req; u8 v0; u8 v1; u8 index; u8 (index / 256); u8 len; u8 (len / 256)])).
Definition submit (urb_ : Z) : M st unit :=
  usbhc_fill_control_urb urb_ setup_at enum_buffer usbc_enumerate_handler_at ;;
  usbhc_submit_urb urb_ 0.

Definition usbc_get_dev_desc (urb_ full : Z) : M st unit :=
  put_setup USB_DEVICE_TO_HOST USB_REQ_GET_DESCRIPTOR 0 USB_DESC_DEVICE 0 (if negb (full =? 0) then 18 else 8) ;;
  submit urb_.
Definition usb_get_string_desc (urb_ desc_index lang_id : Z) : M st unit :=
  put_setup USB_DEVICE_TO_HOST USB_REQ_GET_DESCRIPTOR desc_index USB_DESC_STRING lang_id USB_ENUM_BUFFER_SIZE ;;
  submit urb_.

(** The first free address from 1 on, or 0. *)
Fixpoint address_loop (n : nat) (bitmask i : Z) : Z :=
  match n with
  | O => 0
  | Datatypes.S n => if Z.land bitmask (Z.shiftl 1 i) =? 0 then i else address_loop n bitmask (i + 1)
  end.
Definition usbc_new_address : M st Z :=
  let* bitmask := core dev_addr_bm in
  let i := address_loop (Z.to_nat (MAX_PIPES - 1)) bitmask 1 in
  (if negb (i =? 0) then in_core (λ u, u_addr_bm (u16 (Z.lor (dev_addr_bm u) (Z.shiftl 1 i))) u) else ret tt) ;;
  ret i.
Definition usbc_delete_address (addr : Z) : M st unit :=
  in_core (λ u, u_addr_bm (u16 (Z.land (dev_addr_bm u) (Z.lnot (Z.shiftl 1 addr)))) u).

Definition usbc_set_dev_addr (urb_ : Z) : M st unit :=
  let* a := usbc_new_address in
  put_setup USB_HOST_TO_DEVICE USB_REQ_SET_ADDRESS a 0 0 0 ;;
  submit urb_.
Definition usbc_get_cfg_desc (urb_ : Z) : M st unit :=
  put_setup USB_DEVICE_TO_HOST USB_REQ_GET_DESCRIPTOR 0 USB_DESC_CONFIG 0 9 ;;
  submit urb_.
Definition usbc_get_all_desc (urb_ : Z) : M st unit :=
  let* a := core enum_dev in
  let* d := get_dev a in
  put_setup USB_DEVICE_TO_HOST USB_REQ_GET_DESCRIPTOR 0 USB_DESC_CONFIG 0 (u16 (desc_total_size d)) ;;
  submit urb_.

(** ** Answers *)

Definition usbc_ep0_size_done (urb_ dev_ : Z) : M st unit :=
  let* u := get_urb urb_ in
  let* packet_size := load (λ m, ld8 m (transfer_buffer u + 7)) in
  if (packet_size <? 8) || (1024 <? packet_size) then panic "Abort enumeration" else
  upd_dev dev_ (set_ep0 packet_size).

(** [memory_copy] of [wLength] bytes into the descriptor, which has 18. *)
Definition usbc_device_desc_done (urb_ dev_ : Z) : M st unit :=
  let* u := get_urb urb_ in
  let* size := load16 (setup_buffer u + 6) in
  if 18 <? size then ub else
  let* b := read_at (transfer_buffer u) size in
  upd_dev dev_ (λ d, set_d_desc (b ++ drop (Z.to_nat size) (d_desc d)) d).

Definition usbc_address_done (urb_ dev_ : Z) : M st unit :=
  let* u := get_urb urb_ in
  let* v := load16 (setup_buffer u + 2) in
  upd_dev dev_ (set_address (u8 v)) ;;
  usbhc_set_address 0 (u8 v).

Definition usbc_desc_length_done (urb_ dev_ : Z) : M st unit :=
  let* u := get_urb urb_ in
  if negb (acctual_length u =? 9) then panic "Error" else
  let* len := load16 (transfer_buffer u + 2) in
  upd_dev dev_ (set_total len).

Definition usbc_get_product_name_done (urb_ dev_ : Z) : M st unit :=
  let* u := get_urb urb_ in
  let* index := load (λ m, ld8 m (setup_buffer u + 2)) in
  if index =? 0 then ret tt else
  let* m := in_bytes (gets id) in
  upd_dev dev_ (λ d, set_product (usbc_uni_to_string (λ i, ld8 m (u32 (transfer_buffer u + USB_STRING_OFFSET + i)))
    (u32 (acctual_length u - 2)) (product d) USB_DEV_NAME_MAX_SIZE) d).
Definition usbc_get_manufacturer_name_done (urb_ dev_ : Z) : M st unit :=
  let* u := get_urb urb_ in
  let* index := load (λ m, ld8 m (setup_buffer u + 2)) in
  if index =? 0 then ret tt else
  let* m := in_bytes (gets id) in
  upd_dev dev_ (λ d, set_manufacturer (usbc_uni_to_string (λ i, ld8 m (u32 (transfer_buffer u + USB_STRING_OFFSET + i)))
    (u32 (acctual_length u - 2)) (manufacturer d) USB_DEV_NAME_MAX_SIZE) d).

(** ** The descriptor tree *)

Definition usbc_alloc_descriptors (dev_ nc ni ne : Z) : M st Z :=
  let desc_mem_size := u32 (nc * sizeof_usb_config + ni * sizeof_usb_iface + ne * sizeof_usb_ep) in
  let* a := in_pool (in_heap (ba_malloc desc_mem_size 0)) in
  upd_dev dev_ (λ d, set_total desc_mem_size (set_configs a (num_configs d) d)) ;;
  ret (if a =? 0 then 0 else 1).

Definition usbc_delete_descriptors (dev_ : Z) : M st unit :=
  let* d := get_dev dev_ in
  in_pool (in_heap (ba_free (configs d))) ;;
  upd_dev dev_ (λ d, set_total 0 (set_configs 0 0 d)).

(** The three loops of [usbc_init_descriptors]; the fields they do not set are set by the parser
    before they are read. *)
Fixpoint init_configs (n : nat) (ptr : Z) : M st Z :=
  match n with
  | O => ret ptr
  | Datatypes.S n =>
      in_core (λ u, u_cfgs (<[ptr := UsbConfig [] 0 0 0]> (cfgs u)) u) ;;
      init_configs n (ptr + sizeof_usb_config)
  end.
Fixpoint init_ifaces (n : nat) (dev_ ptr : Z) : M st Z :=
  match n with
  | O => ret ptr
  | Datatypes.S n =>
      in_core (λ u, u_ifaces (<[ptr := UsbIface [] 0 0 0 dev_ 0]> (ifaces u)) u) ;;
      new_node (iface_node ptr) ;;
      in_lists (list_add_first (iface_node ptr) (iface_list dev_)) ;;
      init_ifaces n dev_ (ptr + sizeof_usb_iface)
  end.
Fixpoint init_eps (n : nat) (ptr : Z) : M st Z :=
  match n with
  | O => ret ptr
  | Datatypes.S n =>
      in_core (λ u, u_eps (<[ptr := UsbEp [] 0]> (eps u)) u) ;;
      init_eps n (ptr + sizeof_usb_ep)
  end.
Definition usbc_init_descriptors (dev_ nc ni ne : Z) : M st unit :=
  let* d := get_dev dev_ in
  let* ptr := init_configs (Z.to_nat nc) (configs d) in
  let* ptr := init_ifaces (Z.to_nat ni) dev_ ptr in
  let* _ := init_eps (Z.to_nat ne) ptr in
  ret tt.

(** The parser's loop.  An endpoint is copied with the size of [struct usb_ep], so the word
    behind the padding of its descriptor ends up in the pointer to its pipe. *)
Fixpoint parse_loop (fuel : nat) (dev_ data size ptr nc ni pos ci ii ei last_cfg last_iface : Z) : M st Z :=
  match fuel with
  | O => hang
  | Datatypes.S fuel =>
      if pos <? size then
        let* type := load (λ m, ld8 m (u32 (data + pos + 1))) in
        let* dsize := load (λ m, ld8 m (u32 (data + pos))) in
        let next := u32 (pos + dsize) in
        if type =? USB_DESC_CONFIG then
          let cfg := u32 (ptr + usbc_get_desc_offset nc ni USB_DESC_CONFIG ci) in
          let* b := read_at (u32 (data + pos)) sizeof_config_desc in
          upd_config cfg (λ c, UsbConfig b (cf_ifaces c) 0 (curr_iface c)) ;;
          upd_dev dev_ (λ d, set_configs (configs d) (u32 (num_configs d + 1)) d) ;;
          parse_loop fuel dev_ data size ptr nc ni next (u32 (ci + 1)) ii ei cfg last_iface
        else if type =? USB_DESC_IFACE then
          let iface := u32 (ptr + usbc_get_desc_offset nc ni USB_DESC_IFACE ii) in
          let* b := read_at (u32 (data + pos)) sizeof_iface_desc in
          upd_iface iface (λ i, UsbIface b (if_eps i) 0 (if_driver i) (parent_dev i) (assigned i)) ;;
          if last_cfg =? 0 then ret 0 else
          let* c := get_config last_cfg in
          (if num_ifaces c =? 0 then upd_config last_cfg (set_cf_ifaces iface) else ret tt) ;;
          upd_config last_cfg (λ c, set_cf_num (u32 (num_ifaces c + 1)) c) ;;
          parse_loop fuel dev_ data size ptr nc ni next ci (u32 (ii + 1)) ei last_cfg iface
        else if type =? USB_DESC_EP then
          let ep := u32 (ptr + usbc_get_desc_offset nc ni USB_DESC_EP ei) in
          let* b := read_at (u32 (data + pos)) sizeof_usb_ep in
          let* _ := get_at eps ep in
          in_core (λ u, u_eps (<[ep := UsbEp (take 7 b) (le_join (drop 8 b))]> (eps u)) u) ;;
          if last_iface =? 0 then ret 0 else
          let* i := get_iface last_iface in
          (if num_eps i =? 0 then upd_iface last_iface (set_if_eps ep) else ret tt) ;;
          upd_iface last_iface (λ i, set_if_num (u32 (num_eps i + 1)) i) ;;
          parse_loop fuel dev_ data size ptr nc ni next ci ii (u32 (ei + 1)) last_cfg last_iface
        else parse_loop fuel dev_ data size ptr nc ni next ci ii ei last_cfg last_iface
      else ret 1
  end.

Definition usbc_parse_descriptors (fuel : nat) (dev_ data size : Z) : M st Z :=
  let* m := in_bytes (gets id) in
  let* r := (λ s, match usbc_verify_descriptors fuel (λ i, ld8 m (u32 (data + i))) size tt with
                  | Ret (r, _) => Ret (r, s) | Panic e => Panic e | UB => UB | Hang => Hang end) in
  match r with
  | None => ret 0
  | Some (nc, ni, ne) =>
      let* ok := usbc_alloc_descriptors dev_ nc ni ne in
      if ok =? 0 then ret 0 else
      usbc_init_descriptors dev_ nc ni ne ;;
      let* d := get_dev dev_ in
      parse_loop fuel dev_ data size (configs d) nc ni 0 0 0 0 0 0
  end.

Definition usbc_get_all_desc_done (fuel : nat) (urb_ dev_ : Z) : M st unit :=
  let* u := get_urb urb_ in
  let* ok := usbc_parse_descriptors fuel dev_ (transfer_buffer u) (acctual_length u) in
  if ok =? 0 then panic "Cannot parse descriptors" else ret tt.

(** ** Drivers *)

(** [usb_hid_connect]; the only driver. *)
Definition usb_hid_connect (iface : Z) : M st Z :=
  upd_iface iface (set_if_driver hid_driver) ;; ret 1.
Definition call_connect (f iface : Z) : M st Z :=
  if f =? usb_hid_connect_at then usb_hid_connect iface else ub.

Fixpoint find_driver_loop (fuel : nat) (node iface : Z) : M st Z :=
  match fuel with
  | O => hang
  | Datatypes.S fuel =>
      if node =? driver_list then ret 0 else
      let driver := node - 20 in
      let* dr := get_at drivers driver in
      let* i := get_iface iface in
      let* d := get_dev (parent_dev i) in
      if negb (usbc_check_driver_match dr d i =? 0) then
        let* ok := call_connect (connect dr) iface in
        ret (if ok =? 0 then 0 else driver)
      else
        let* n := in_lists (lget node) in find_driver_loop fuel (l_next n) iface
  end.
(** The driver's address, or NULL. *)
Definition usbc_find_driver (fuel : nat) (iface : Z) : M st Z :=
  let* i := get_iface iface in
  if assigned i =? 1 then ret 0 else
  let* n := in_lists (list_get_first driver_list) in
  find_driver_loop fuel n iface.

(** The function has no return statement; its value is not used. *)
Fixpoint assign_loop (fuel0 fuel : nat) (node list : Z) : M st unit :=
  match fuel with
  | O => hang
  | Datatypes.S fuel =>
      if node =? list then ret tt else
      let* _ := usbc_find_driver fuel0 (node - 32) in
      let* n := in_lists (lget node) in assign_loop fuel0 fuel (l_next n) list
  end.
Definition usbc_assign_driver (fuel : nat) (dev_ : Z) : M st unit :=
  let* n := in_lists (list_get_first (iface_list dev_)) in
  assign_loop fuel fuel n (iface_list dev_).

Definition usbc_add_driver (driver : Z) : M st unit :=
  in_lists (list_add_first (driver_node driver) driver_list).

(** ** Enumeration *)

(** A device in fresh memory: the fields that are not set here have whatever is there. *)
Definition load_usb_dev (m : mem) (a : Z) : usb_dev :=
  UsbDev (read_bytes m a 18) (ld32 m (a + 20)) (ld32 m (a + 24)) (ld32 m (a + 28)) (replicate 10 0) 0
    (ld8 m (a + 96)) (ld8 m (a + 98) + 256 * ld8 m (a + 99)) (read_bytes m (a + 100) 64) (read_bytes m (a + 164) 64).
Definition none_string (l : list Z) : list Z := [78; 111; 110; 101; 0] ++ drop 5 l.

Definition usbc_add_device : M st Z :=
  let* a := in_pool (in_heap (ba_malloc sizeof_usb_dev 0)) in
  let* m := in_bytes (gets id) in
  new_node (dev_node a) ;;
  in_lists (list_add_first (dev_node a) dev_list) ;;
  in_core (u_enum_dev a) ;;
  new_node (iface_list a) ;;
  in_lists (list_init (iface_list a)) ;;
  let d := load_usb_dev m a in
  in_core (λ u, u_devs (<[a := set_product (none_string (product d)) (set_manufacturer (none_string (manufacturer d)) d)]> (devs u)) u) ;;
  ret a.

(** The callback of every request block of the enumeration. *)
Definition usbc_enumerate_handler (fuel : nat) (urb_ : Z) : M st unit :=
  let* u := get_urb urb_ in
  if negb (bool_decide (status u = URB_STATUS_OK)) then panic "Enumeration URB failed" else
  let* dev_ := core enum_dev in
  let* es := core enum_state in
  match es with
  | USB_ENUM_IDLE => ret tt
  | USB_ENUM_GET_EP0_SIZE =>
      usbc_ep0_size_done urb_ dev_ ;;
      let* d := get_dev dev_ in
      usbhc_set_ep_size 0 (ep0_size d) ;;
      in_core (u_state USB_ENUM_GET_DEV_DESC) ;;
      usbc_get_dev_desc urb_ 1
  | USB_ENUM_GET_DEV_DESC =>
      usbc_device_desc_done urb_ dev_ ;;
      in_core (u_state USB_ENUM_SET_ADDRESS) ;;
      usbc_set_dev_addr urb_
  | USB_ENUM_SET_ADDRESS =>
      usbc_address_done urb_ dev_ ;;
      in_core (u_state USB_ENUM_GET_DESC_LENGTH) ;;
      usbc_get_cfg_desc urb_
  | USB_ENUM_GET_DESC_LENGTH =>
      usbc_desc_length_done urb_ dev_ ;;
      in_core (u_state USB_ENUM_GET_DESCRIPTORS) ;;
      usbc_get_all_desc urb_
  | USB_ENUM_GET_DESCRIPTORS =>
      usbc_get_all_desc_done fuel urb_ dev_ ;;
      in_core (u_state USB_ENUM_GET_PRODUCT_NAME) ;;
      let* d := get_dev dev_ in
      usb_get_string_desc urb_ (iProduct (d_desc d)) 0
  | USB_ENUM_GET_PRODUCT_NAME =>
      usbc_get_product_name_done urb_ dev_ ;;
      in_core (u_state USB_ENUM_GET_MANUFACTURER_NAME) ;;
      let* d := get_dev dev_ in
      usb_get_string_desc urb_ (iManufacturer (d_desc d)) 0
  | USB_ENUM_GET_MANUFACTURER_NAME =>
      usbc_get_manufacturer_name_done urb_ dev_ ;;
      let* n := pipe_num 0 in
      in_hw (usbhw_pipe_disable n) ;;
      usbc_assign_driver fuel dev_
  end.

(** The callbacks by their addresses. *)
Definition call_urb (fuel : nat) (f urb_ : Z) : M st unit :=
  if f =? usbc_enumerate_handler_at then usbc_enumerate_handler fuel urb_ else ub.

Definition enum_config : pipe_config := PipeConfig 0 0 64 0 1 0 PIPE_TYPE_CTRL.
Definition usbc_start_enum (fuel : nat) : M st unit :=
  upd_pipe 0 (set_state PIPE_STATE_CLAIMED) ;;
  let* _ := usbhc_pipe_configure (call_urb fuel) 0 enum_config in
  let* _ := usbc_add_device in
  let* urb_ := usbhc_alloc_urb in
  usbhc_set_urb_context urb_ usbc ;;
  in_core (u_state USB_ENUM_GET_EP0_SIZE) ;;
  usbc_get_dev_desc urb_ 0.

Definition root_hub_event (fuel : nat) (event : UsbHc.root_hub_event) : M st unit :=
  match event with
  | RH_EVENT_CONNECTION => usbhc_send_reset
  | RH_EVENT_DISCONNECTION => ret tt
  | RH_EVENT_RESET_SENT => usbc_start_enum fuel
  end.
Definition call_root_hub (fuel : nat) (f : Z) (event : UsbHc.root_hub_event) : M st unit :=
  if f =? root_hub_event_at then root_hub_event fuel event else ret tt.
Definition sof_event : M st unit := ret tt.
Definition call_sof (f : Z) : M st unit := if f =? sof_event_at then sof_event else ub.

Definition usbc_init : M st unit :=
  in_core (u_state USB_ENUM_IDLE) ;;
  in_lists (list_init dev_list) ;;
  in_core (u_addr_bm 1) ;;
  in_lists (list_init driver_list) ;;
  usbhc_add_root_hub_callback root_hub_event_at ;;
  usbhc_add_sof_callback sof_event_at.

Definition usb_hid_init : M st unit := usbc_add_driver hid_driver.

(** The interrupt handler with the callbacks of the core. *)
Definition usb_interrupt (fuel : nat) : M st unit := usb_exception (call_urb fuel) (call_root_hub fuel) call_sof.
End Usb.

(** The device the HID driver supports: any interface of its class. *)
Definition hid_dev_id : usb_dev_id := DevId USB_DEV_ID_IFACE_CLASS_MASK 0 0 0 0 0 USB_CLASS_HID 0 0.
