(* ===== verification/UsbTheorems.v ===== *)
(** * Properties of the USB host stack *)

From S2P Require Import Prelude Memory Mm Palloc Umalloc CList Hardware UsbHw UsbHc Usb.

(** ** Which pipe an interrupt serves *)

Lemma pick_start n mask p : 0 ≤ p → Z.testbit mask p = true → pick_loop (S n) mask p = p.
Proof. intros Hp Hb. cbn [pick_loop]. by rewrite land_bit, Hb. Qed.

(** Looking [n] pipes ahead from [start] finds the first pending one. *)
Lemma pick_first n mask start k :
  0 ≤ start < MAX_PIPES → (k < n)%nat →
  (∀ j, (j < k)%nat → Z.testbit mask ((start + Z.of_nat j) mod MAX_PIPES) = false) →
  Z.testbit mask ((start + Z.of_nat k) mod MAX_PIPES) = true →
  pick_loop n mask start = (start + Z.of_nat k) mod MAX_PIPES.
Proof.
  unfold MAX_PIPES in *. revert start k; induction n as [|n IH]; intros start k Hs Hk Hno Hb; [lia|].
  destruct k as [|k].
  - rewrite Z.add_0_r, Z.mod_small in Hb |- * by lia. apply pick_start; [lia|done].
  - pose proof (Hno 0%nat ltac:(lia)) as H0. rewrite Z.add_0_r, Z.mod_small in H0 by lia.
    cbn [pick_loop]. rewrite land_bit, H0 by lia. unfold MAX_PIPES.
    assert (∀ j, ((if 10 <=? start + 1 then 0 else start + 1) + Z.of_nat j) mod 10 = (start + Z.of_nat (S j)) mod 10) as E.
    { intros j. destruct (Z.leb_spec 10 (start + 1)); lia. }
    rewrite <- E. apply IH; [destruct (Z.leb_spec 10 (start + 1)); lia|lia| |by rewrite E].
    intros j Hj. rewrite E. apply Hno. lia.
Qed.

Section Pick.
Context {D S U : Type} `{Mmio D} `{PageAlloc S}.
#[local] Notation hc := (@hc D S U).

Lemma pick_run mask (s : hc) :
  usbhc_pick_interrupted_pipe mask s =
    Ret (pick_loop 10 mask (pipe_start s), with_start (if MAX_PIPES <=? pipe_start s + 1 then 0 else pipe_start s + 1) s).
Proof. done. Qed.

(** The pipes picked by successive interrupts with the given masks. *)
Fixpoint picks (masks : list Z) : M hc (list Z) :=
  match masks with
  | [] => ret []
  | m :: ms => let* p := usbhc_pick_interrupted_pipe m in let* ps := picks ms in ret (p :: ps)
  end.

Lemma picks_run masks (s : hc) :
  0 ≤ pipe_start s < MAX_PIPES →
  ∃ ps s', picks masks s = Ret (ps, s') ∧ length ps = length masks ∧
    ∀ k m, masks !! k = Some m → ps !! k = Some (pick_loop 10 m ((pipe_start s + Z.of_nat k) mod MAX_PIPES)).
Proof.
  revert s; induction masks as [|m ms IH]; intros s Hs.
  - exists [], s. split_and!; [done|done|]. intros k m Hk. by rewrite lookup_nil in Hk.
  - cbn [picks]. unfold bind at 1. rewrite pick_run.
    set (s1 := with_start _ s).
    assert (pipe_start s1 = (pipe_start s + 1) mod MAX_PIPES) as E1.
    { unfold s1, MAX_PIPES in *. cbn. destruct (Z.leb_spec 10 (pipe_start s + 1)); lia. }
    destruct (IH s1) as (ps & s' & E & Hl & Hk); [rewrite E1; unfold MAX_PIPES in *; lia|].
    exists (pick_loop 10 m (pipe_start s) :: ps), s'. split_and!; [by rewrite (bind_Ret _ _ _ _ _ E)|cbn; lia|].
    intros [|k] m' Hm'.
    + injection Hm' as <-. cbn [lookup list_lookup]. by rewrite Z.add_0_r, Z.mod_small by done.
    + etrans; [exact (Hk k m' Hm')|]. rewrite E1. do 2 f_equal. unfold MAX_PIPES in *. lia.
Qed.

(** Which pipe an interrupt serves: from any starting point the first pending pipe in
    cyclic order is picked, and the starting point moves on by one with every interrupt,
    so a pipe that stays pending is served by one of the next ten interrupts, whatever the
    other pipes do. *)
Theorem pick_interrupted_pipe_fair (s : hc) :
  0 ≤ pipe_start s < MAX_PIPES →
  (∀ mask k, (k < 10)%nat → Z.testbit mask ((pipe_start s + Z.of_nat k) mod MAX_PIPES) = true →
     (∀ j, (j < k)%nat → Z.testbit mask ((pipe_start s + Z.of_nat j) mod MAX_PIPES) = false) →
     ∃ s', usbhc_pick_interrupted_pipe mask s = Ret ((pipe_start s + Z.of_nat k) mod MAX_PIPES, s') ∧
       pipe_start s' = (pipe_start s + 1) mod MAX_PIPES) ∧
  (∀ masks p, length masks = 10%nat → 0 ≤ p < MAX_PIPES → Forall (λ m, Z.testbit m p = true) masks →
     ∃ ps s', picks masks s = Ret (ps, s') ∧ p ∈ ps).
Proof.
  intros Hs. split.
  - intros mask k Hk Hb Hno. rewrite pick_run, (pick_first 10 mask (pipe_start s) k) by done.
    eexists. split; [reflexivity|]. unfold MAX_PIPES in *. cbn. destruct (Z.leb_spec 10 (pipe_start s + 1)); lia.
  - intros masks p Hl Hp Hm. destruct (picks_run masks s Hs) as (ps & s' & E & _ & Hk).
    exists ps, s'. split; [done|]. set (k := Z.to_nat ((p - pipe_start s) mod MAX_PIPES)).
    unfold MAX_PIPES in *. destruct (lookup_lt_is_Some_2 masks k ltac:(lia)) as [m Em].
    pose proof (Hk k m Em) as Hpk. replace ((pipe_start s + Z.of_nat k) mod 10) with p in Hpk by lia.
    rewrite pick_start in Hpk; [by eapply list_elem_of_lookup_2|lia|].
    by eapply (Forall_lookup_1 _ _ _ _ Hm).
Qed.
End Pick.

(** ** Pipe sizes *)

Lemma top_bit_spec n size :
  0 < size < 2 ^ Z.of_nat n → ∃ i, top_bit n size = Some i ∧ 0 ≤ i < Z.of_nat n ∧ 2 ^ i ≤ size < 2 ^ (i + 1).
Proof.
  induction n as [|n IH]; intros Hs; [cbn in Hs; lia|]. cbn [top_bit].
  rewrite land_bit by lia. replace (2 ^ Z.of_nat (S n)) with (2 * 2 ^ Z.of_nat n) in Hs
    by (rewrite Nat2Z.inj_succ, Z.pow_succ_r; lia).
  destruct (Z.ltb_spec size (2 ^ Z.of_nat n)) as [Hlt|Hge].
  - rewrite Z.bits_above_log2; [|lia|by apply Z.log2_lt_pow2; lia].
    destruct (IH ltac:(lia)) as (i & E & Hi & Hr). exists i. split_and!; [done|lia|lia|lia|lia].
  - rewrite Z.testbit_odd, Z.shiftr_div_pow2 by lia. replace (size / 2 ^ Z.of_nat n) with 1 by nia. cbn.
    exists (Z.of_nat n). rewrite Z.pow_add_r by lia. split_and!; [done|lia..].
Qed.

(** The size of a pipe: a request for 5 to 1024 bytes gets the smallest of the eight sizes of
    the controller that is large enough; larger requests are refused, and so are requests
    for 1 to 4 bytes, which the comment of the function says are rounded up. *)
Theorem size_to_pipe_size_fits {D S U : Type} `{Mmio D} `{PageAlloc S} size (s : @hc D S U) :
  0 < size < 2 ^ 32 →
  (5 ≤ size ≤ 1024 → ∃ k, usbhc_size_to_pipe_size size s = Ret (Some k, s) ∧ 0 ≤ k ≤ 7 ∧
     size ≤ 2 ^ (k + 3) ∧ (k = 0 ∨ 2 ^ (k + 2) < size)) ∧
  (size ≤ 4 ∨ 1024 < size → usbhc_size_to_pipe_size size s = Ret (None, s)).
Proof.
  intros Hs. unfold usbhc_size_to_pipe_size.
  destruct (top_bit_spec 32 size Hs) as (i & -> & Hi & Hr).
  rewrite Z.shiftl_1_l, land_mask by lia.
  assert (size mod 2 ^ i = size - 2 ^ i) as Em.
  { rewrite Z.pow_add_r in Hr by lia. symmetry. apply Z.mod_unique_pos with 1; lia. }
  rewrite Em. set (e := if negb (size - 2 ^ i =? 0) then i + 1 else i).
  assert (2 ^ (e - 1) < size ≤ 2 ^ e ∧ 0 ≤ e ∧ (e = 0 → size = 1)) as (Hlo & He0 & He1).
  { unfold e. destruct (Z.eqb_spec (size - 2 ^ i) 0) as [E|E]; cbn [negb].
    - split; [|split; [lia|intros ->; lia]]. split; [|lia]. replace size with (2 ^ i) by lia.
      destruct (decide (i = 0)) as [->|]; [done|]. apply Z.pow_lt_mono_r; lia.
    - replace (i + 1 - 1) with i by lia. split; [lia|]. split; [lia|]. lia. }
  split.
  - intros Hsz. exists (e - 3).
    assert (3 ≤ e) as H3. { destruct (decide (3 ≤ e)); [done|]. assert (2 ^ e ≤ 2 ^ 2) by (apply Z.pow_le_mono_r; lia). lia. }
    assert (e ≤ 10) as H10. { destruct (decide (e ≤ 10)); [done|]. assert (2 ^ 10 ≤ 2 ^ (e - 1)) by (apply Z.pow_le_mono_r; lia). lia. }
    rewrite (proj2 (Z.leb_le 3 e)), (proj2 (Z.leb_le e 10)) by lia. cbn [andb].
    replace (e - 3 + 3) with e by lia. replace (e - 3 + 2) with (e - 1) by lia. split_and!; [done|lia..|right; lia].
  - intros Hsz. assert (e < 3 ∨ 10 < e) as He.
    { destruct Hsz as [Hsz|Hsz]; [left|right].
      - destruct (decide (e < 3)); [done|]. assert (2 ^ 2 ≤ 2 ^ (e - 1)) by (apply Z.pow_le_mono_r; lia). lia.
      - destruct (decide (10 < e)); [done|]. assert (2 ^ e ≤ 2 ^ 10) by (apply Z.pow_le_mono_r; lia). lia. }
    destruct (Z.leb_spec 3 e); [|done]. by rewrite (proj2 (Z.leb_gt e 10)) by lia.
Qed.

(** ** Witnesses: a controller made of plain registers, with no memory in use *)

Definition ex_hc : @hc bank mm unit :=
  Hc (Bank ∅ []) ∅ ∅ (Desc 0 0 0 0 0, Mm ∅ []) 0 [] 0 0 7 tt.

(** Pipe 2 is pending, alone, with the search at pipe 7; pipe 2 stays pending while the others
    always are. *)
Lemma pick_interrupted_pipe_fair_witness :
  (∃ s', usbhc_pick_interrupted_pipe 4 ex_hc = Ret (2, s') ∧ pipe_start s' = 8) ∧
  (∃ ps s', picks (replicate 10 0x3FF) ex_hc = Ret (ps, s') ∧ 2 ∈ ps).
Proof.
  split.
  - apply (proj1 (pick_interrupted_pipe_fair ex_hc ltac:(by vm_compute)) 4 5%nat); [lia|by vm_compute|].
    intros [|[|[|[|[|j]]]]] Hj; try (by vm_compute); lia.
  - apply (proj2 (pick_interrupted_pipe_fair ex_hc ltac:(by vm_compute))); [done|by vm_compute|].
    by repeat constructor.
Defined.

Lemma size_to_pipe_size_fits_witness :
  (∃ k, usbhc_size_to_pipe_size 65 ex_hc = Ret (Some k, ex_hc) ∧ 0 ≤ k ≤ 7 ∧ 65 ≤ 2 ^ (k + 3) ∧ (k = 0 ∨ 2 ^ (k + 2) < 65)) ∧
  usbhc_size_to_pipe_size 4 ex_hc = Ret (None, ex_hc).
Proof.
  split.
  - apply (proj1 (size_to_pipe_size_fits (H0 := mm_pages 2) 65 ex_hc ltac:(lia))). lia.
  - apply (proj2 (size_to_pipe_size_fits (H0 := mm_pages 2) 4 ex_hc ltac:(lia))). lia.
Defined.
