(* ===== verification/UsbDescriptors.v ===== *)
(** * Descriptors of USB devices: what the checks accept and what the parser builds

    The answer of a device to a request for its configurations is a sequence of
    descriptors.  [usbc_verify_descriptors] is described on such sequences; a well-formed
    answer is the flattening of a tree of configurations, interfaces and endpoints, and
    the parser's structures read back as that tree. *)

From S2P Require Import Prelude Memory Palloc Umalloc CList Hardware UsbHw UsbHc Usb.

(** ** Sequences of descriptors *)

Definition desc_len (d : list Z) : Z := nth 0 d 0.
Definition desc_type (d : list Z) : Z := nth 1 d 0.

(** The size of the descriptors the parser knows. *)
Definition known_size (type : Z) : option Z :=
  if type =? USB_DESC_CONFIG then Some sizeof_config_desc
  else if type =? USB_DESC_IFACE then Some sizeof_iface_desc
  else if type =? USB_DESC_EP then Some sizeof_ep_desc
  else None.

(** A descriptor begins with its length and its type. *)
Definition framed (d : list Z) : Prop := (2 ≤ length d)%nat ∧ desc_len d = Z.of_nat (length d).
Definition good (d : list Z) : Prop :=
  framed d ∧ match known_size (desc_type d) with Some n => desc_len d = n | None => True end.

Definition count (type : Z) (ds : list (list Z)) : Z :=
  Z.of_nat (length (filter (λ d, desc_type d = type) ds)).
Lemma count_cons type d ds : count type (d :: ds) = (if decide (desc_type d = type) then 1 else 0) + count type ds.
Proof. unfold count. rewrite filter_cons. case_decide; cbn; lia. Qed.
Lemma count_app type ds1 ds2 : count type (ds1 ++ ds2) = count type ds1 + count type ds2.
Proof. unfold count. rewrite filter_app, length_app. lia. Qed.
Lemma count_nonneg type ds : 0 ≤ count type ds.
Proof. unfold count. lia. Qed.

Definition total_size (ds : list (list Z)) : Z := Z.of_nat (length (concat ds)).
Lemma desc_total_cons d ds : total_size (d :: ds) = Z.of_nat (length d) + total_size ds.
Proof. unfold total_size. cbn. rewrite length_app. lia. Qed.
Lemma desc_total_app ds1 ds2 : total_size (ds1 ++ ds2) = total_size ds1 + total_size ds2.
Proof. unfold total_size. rewrite concat_app, length_app. lia. Qed.
Lemma desc_total_nonneg ds : 0 ≤ total_size ds.
Proof. unfold total_size. lia. Qed.
Lemma count_total type ds : Forall framed ds → 2 * count type ds ≤ total_size ds.
Proof.
  induction 1 as [|d ds [Hd _] _ IH]; [done|]. rewrite count_cons, desc_total_cons. case_decide; lia.
Qed.

(** The bytes [l] are what [read] gives from [pos] on. *)
Definition reads (read : Z → Z) (pos : Z) (l : list Z) : Prop :=
  ∀ k b, l !! k = Some b → read (pos + Z.of_nat k) = b.
Lemma reads_app read pos l1 l2 :
  reads read pos (l1 ++ l2) ↔ reads read pos l1 ∧ reads read (pos + Z.of_nat (length l1)) l2.
Proof.
  unfold reads. split.
  - intros H. split; intros k b Hk; [by apply H, lookup_app_l_Some|].
    rewrite <- Z.add_assoc, <- Nat2Z.inj_add. apply H. rewrite lookup_app_r by lia. by replace (_ + k - _)%nat with k by lia.
  - intros [H1 H2] k b [Hk|[Hl Hk]]%lookup_app_Some; [by apply H1|].
    apply H2 in Hk. replace (pos + Z.of_nat (length l1) + Z.of_nat (k - length l1)) with (pos + Z.of_nat k) in Hk by lia. done.
Qed.

(** The first two bytes of a descriptor of at least two. *)
Lemma reads_head read pos d :
  (2 ≤ length d)%nat → reads read pos d → read pos = desc_len d ∧ read (pos + 1) = desc_type d.
Proof.
  intros Hl H. destruct d as [|x [|y d]]; cbn in Hl; try lia.
  split; [rewrite <- (Z.add_0_r pos); exact (H 0%nat x eq_refl)|exact (H 1%nat y eq_refl)].
Qed.

(** One round of the loop on a descriptor at [pos]. *)
Lemma verify_good fuel read size pos nc ni ne d :
  good d → reads read pos d → 0 ≤ pos → pos + Z.of_nat (length d) ≤ size < 2 ^ 32 →
  0 ≤ nc < 2 ^ 31 → 0 ≤ ni < 2 ^ 31 → 0 ≤ ne < 2 ^ 31 →
  verify_loop (Datatypes.S fuel) read size pos nc ni ne tt =
  verify_loop fuel read size (pos + Z.of_nat (length d))
    (nc + count USB_DESC_CONFIG [d]) (ni + count USB_DESC_IFACE [d]) (ne + count USB_DESC_EP [d]) tt.
Proof.
  intros [[Hl Hf] Hk] Hr H0 Hs Hnc Hni Hne. destruct (reads_head _ _ _ Hl Hr) as [E0 E1].
  cbn [verify_loop]. rewrite (proj2 (Z.ltb_lt pos size)) by lia. rewrite (u32_small (pos + 1)) by lia.
  cbv zeta. rewrite E0, E1, !count_cons. unfold known_size in Hk. change (count _ []) with 0.
  rewrite Hf in *. clear E0 E1. revert Hk.
  unfold USB_DESC_CONFIG, USB_DESC_IFACE, USB_DESC_EP in *.
  destruct (Z.eqb_spec (desc_type d) 2) as [->|N2]; [|destruct (Z.eqb_spec (desc_type d) 4) as [->|N4];
    [|destruct (Z.eqb_spec (desc_type d) 5) as [->|N5]]];
    intros Hk; cbv iota beta in Hk |- *; try rewrite <- Hk, Z.eqb_refl; cbn [negb]; nowrap;
    f_equal; repeat case_decide; lia.
Qed.

Lemma verify_prefix ds fuel read size pos nc ni ne :
  Forall good ds → reads read pos (concat ds) → 0 ≤ pos → pos + total_size ds ≤ size < 2 ^ 32 →
  0 ≤ nc → 0 ≤ ni → 0 ≤ ne → nc ≤ pos / 2 → ni ≤ pos / 2 → ne ≤ pos / 2 →
  verify_loop (length ds + fuel) read size pos nc ni ne tt =
  verify_loop fuel read size (pos + total_size ds)
    (nc + count USB_DESC_CONFIG ds) (ni + count USB_DESC_IFACE ds) (ne + count USB_DESC_EP ds) tt.
Proof.
  revert pos nc ni ne; induction ds as [|d ds IH]; intros pos nc ni ne Hg Hr H0 Hs Hnc Hni Hne Bc Bi Be.
  - cbn [length Nat.add]. unfold total_size, count. cbn. by rewrite !Z.add_0_r.
  - apply Forall_cons in Hg as [Hd Hg]. cbn [concat] in Hr. apply reads_app in Hr as [Hrd Hr].
    pose proof (desc_total_nonneg ds). rewrite desc_total_cons in *. cbn [length Nat.add].
    rewrite (verify_good _ _ _ _ _ _ _ d) by (done || lia).
    pose proof (proj1 (proj1 Hd)).
    assert (∀ ty, 0 ≤ count ty [d] ≤ 1) as Hc by (intros ty; rewrite count_cons; change (count ty []) with 0; case_decide; lia).
    pose proof (Hc USB_DESC_CONFIG). pose proof (Hc USB_DESC_IFACE). pose proof (Hc USB_DESC_EP).
    rewrite IH by (done || lia). change (d :: ds) with ([d] ++ ds). rewrite !count_app. f_equal; lia.
Qed.

(** If the check does not return from the end of a prefix, it does not from its start. *)
Lemma verify_hang ds fuel read size pos nc ni ne :
  Forall good ds → reads read pos (concat ds) → 0 ≤ pos → pos + total_size ds ≤ size < 2 ^ 32 →
  0 ≤ nc ≤ pos / 2 → 0 ≤ ni ≤ pos / 2 → 0 ≤ ne ≤ pos / 2 →
  (∀ f a b c, verify_loop f read size (pos + total_size ds) a b c tt = Hang) →
  verify_loop fuel read size pos nc ni ne tt = Hang.
Proof.
  intros Hg Hr H0 Hs Hnc Hni Hne HH. destruct (decide (length ds ≤ fuel)%nat) as [Hf|Hf].
  - replace fuel with (length ds + (fuel - length ds))%nat by lia. rewrite verify_prefix by (done || lia). apply HH.
  - revert fuel pos nc ni ne Hf Hr H0 Hs Hnc Hni Hne HH.
    induction ds as [|d ds IH]; intros [|fuel] pos nc ni ne Hf Hr H0 Hs Hnc Hni Hne HH; try done; [cbn in Hf; lia|].
    apply Forall_cons in Hg as [Hd Hg]. cbn [concat] in Hr. apply reads_app in Hr as [Hrd Hr].
    pose proof (desc_total_nonneg ds). rewrite desc_total_cons in *. pose proof (proj1 (proj1 Hd)).
    rewrite (verify_good _ _ _ _ _ _ _ d) by (done || lia).
    assert (∀ ty, 0 ≤ count ty [d] ≤ 1) as Hc by (intros ty; rewrite count_cons; change (count ty []) with 0; case_decide; lia).
    pose proof (Hc USB_DESC_CONFIG). pose proof (Hc USB_DESC_IFACE). pose proof (Hc USB_DESC_EP).
    apply IH; try (done || lia); [cbn in Hf; lia|].
    intros f a b c. rewrite <- (HH f a b c). f_equal. lia.
Qed.

(** One round on a descriptor whose type has another size, or that reaches past the end, or
    that is empty. *)
Lemma verify_bad fuel read size pos nc ni ne len n :
  0 ≤ pos < size → size < 2 ^ 32 → read pos = len → known_size (read (pos + 1)) = Some n → len ≠ n →
  verify_loop (Datatypes.S fuel) read size pos nc ni ne tt = Ret (None, tt).
Proof.
  intros Hp Hs E0 Hk Hn. cbn [verify_loop].
  rewrite (proj2 (Z.ltb_lt pos size)), (u32_small (pos + 1)), E0 by lia. cbv zeta. revert Hk. unfold known_size.
  destruct (_ =? USB_DESC_CONFIG); [|destruct (_ =? USB_DESC_IFACE); [|destruct (_ =? USB_DESC_EP); [|done]]];
    intros [= <-]; by rewrite (eqb_false len) by done.
Qed.
Lemma verify_next fuel read size pos nc ni ne len :
  0 ≤ pos < size → size < 2 ^ 32 → read pos = len →
  match known_size (read (pos + 1)) with Some n => len = n | None => True end →
  0 ≤ pos + len < 2 ^ 32 →
  ∃ a b c, (known_size (read (pos + 1)) = None → a = nc ∧ b = ni ∧ c = ne) ∧
    verify_loop (Datatypes.S fuel) read size pos nc ni ne tt = verify_loop fuel read size (pos + len) a b c tt.
Proof.
  intros Hp Hs E0 Hk Hn. cbn [verify_loop].
  rewrite (proj2 (Z.ltb_lt pos size)), (u32_small (pos + 1)), E0 by lia. cbv zeta.
  rewrite (u32_small (pos + len)) by lia. revert Hk. unfold known_size.
  destruct (_ =? USB_DESC_CONFIG); [|destruct (_ =? USB_DESC_IFACE); [|destruct (_ =? USB_DESC_EP)]]; intros Hk;
    try rewrite Hk, Z.eqb_refl; cbn [negb]; do 3 eexists; (split; [|reflexivity]); done.
Qed.
Lemma verify_zero fuel read size pos nc ni ne :
  0 ≤ pos < size → size < 2 ^ 32 → read pos = 0 → known_size (read (pos + 1)) = None →
  verify_loop fuel read size pos nc ni ne tt = Hang.
Proof.
  intros Hp Hs E0 Hk. revert nc ni ne; induction fuel as [|fuel IH]; intros nc ni ne; [done|].
  destruct (verify_next fuel read size pos nc ni ne 0) as (a & b & c & _ & ->); try done; try lia; [by rewrite Hk|].
  rewrite Z.add_0_r. apply IH.
Qed.

Lemma verify_all read ds fuel :
  Forall good ds → reads read 0 (concat ds) → total_size ds < 2 ^ 32 → (length ds < fuel)%nat →
  usbc_verify_descriptors fuel read (total_size ds) tt =
    Ret (Some (count USB_DESC_CONFIG ds, count USB_DESC_IFACE ds, count USB_DESC_EP ds), tt).
Proof.
  intros Hg Hr Hs Hf. pose proof (desc_total_nonneg ds). unfold usbc_verify_descriptors. unfold bind at 1.
  replace fuel with (length ds + (fuel - length ds))%nat by lia. rewrite verify_prefix by (done || lia).
  destruct (fuel - length ds)%nat as [|f'] eqn:Ef; [lia|]. cbn [verify_loop]. rewrite Z.ltb_irrefl.
  cbn. by rewrite Z.eqb_refl.
Qed.

(** C18. The check of the descriptors of a device.  On a sequence of well-formed descriptors it
    gives the numbers of configurations, interfaces and endpoints; if after such a sequence comes a
    descriptor of one of these types with another size than its type has, or one that
    reaches past the end, it refuses; and if there comes a descriptor of another type with length
    zero, it never returns. *)
Theorem verify_descriptors_decides read ds size fuel :
  Forall good ds → reads read 0 (concat ds) → total_size ds ≤ size < 2 ^ 32 → (length ds + 1 < fuel)%nat →
  (size = total_size ds →
     usbc_verify_descriptors fuel read size tt =
       Ret (Some (count USB_DESC_CONFIG ds, count USB_DESC_IFACE ds, count USB_DESC_EP ds), tt)) ∧
  (∀ len type, total_size ds < size → read (total_size ds) = len → read (total_size ds + 1) = type →
     ((∃ n, known_size type = Some n ∧ len ≠ n) ∨ size < total_size ds + len < 2 ^ 32 →
        usbc_verify_descriptors fuel read size tt = Ret (None, tt)) ∧
     (len = 0 → known_size type = None → ∀ fuel', usbc_verify_descriptors fuel' read size tt = Hang)).
Proof.
  intros Hg Hr Hs Hf. pose proof (desc_total_nonneg ds) as H0.
  assert (∀ f, (length ds ≤ f)%nat → verify_loop f read size 0 0 0 0 tt =
    verify_loop (f - length ds) read size (total_size ds) (count USB_DESC_CONFIG ds) (count USB_DESC_IFACE ds)
      (count USB_DESC_EP ds) tt) as Hp.
  { intros f Hlf. replace f with (length ds + (f - length ds))%nat at 1 by lia. by rewrite verify_prefix by (done || lia). }
  split.
  - intros ->. apply verify_all; done || lia.
  - intros len type Hlt E0 E1. split.
    + intros Hc. unfold usbc_verify_descriptors. unfold bind at 1. rewrite Hp by lia.
      destruct (fuel - length ds)%nat as [|[|f']] eqn:Ef; [lia..|].
      assert ((∃ n, known_size type = Some n ∧ len ≠ n) ∨ match known_size type with Some n => len = n | None => True end)
        as [(n & Hk & Hn)|Hok].
      { destruct (known_size type) as [n|]; [destruct (decide (len = n)); eauto|by right]. }
      { by rewrite (verify_bad _ _ _ _ _ _ _ len n) by (rewrite ?E1; done || lia). }
      destruct Hc as [(n & Hk & Hn)|Hb]; [by rewrite Hk in Hok|].
      destruct (verify_next (Datatypes.S f') read size (total_size ds) (count USB_DESC_CONFIG ds)
        (count USB_DESC_IFACE ds) (count USB_DESC_EP ds) len) as (a & b & c & _ & ->); try done; try lia.
      { by rewrite E1. }
      cbn [verify_loop]. rewrite (proj2 (Z.ltb_ge _ _)) by lia. cbn. by rewrite eqb_false by lia.
    + intros -> Hn fuel'. unfold usbc_verify_descriptors. unfold bind at 1.
      rewrite (verify_hang ds); try (done || lia). intros f a b c. rewrite Z.add_0_l.
      apply verify_zero; [lia|lia|done|by rewrite E1].
Qed.

(** The answer of a mouse: a configuration, an interface of class 3, a descriptor of the class and an
    endpoint. *)
Definition ex_descs : list (list Z) :=
  [[9; 2; 34; 0; 1; 1; 0; 160; 50]; [9; 4; 0; 0; 1; 3; 1; 2; 0]; [9; 33; 17; 1; 0; 1; 34; 46; 0]; [7; 5; 129; 3; 8; 0; 10]].
Definition ex_read (l : list Z) (i : Z) : Z := nth (Z.to_nat i) l 0.

Lemma ex_good : Forall good ex_descs.
Proof. repeat constructor; cbn; lia. Qed.

Lemma ex_reads l : reads (ex_read l) 0 l.
Proof. intros k b Hk. unfold ex_read. rewrite Z.add_0_l, Nat2Z.id. by apply nth_lookup_Some. Qed.

Lemma verify_descriptors_decides_witness :
  usbc_verify_descriptors 6 (ex_read (concat ex_descs)) 34 tt = Ret (Some (1, 1, 1), tt) ∧
  ∀ fuel, usbc_verify_descriptors fuel (ex_read (concat ex_descs ++ [0; 6])) 36 tt = Hang.
Proof.
  split.
  - exact (proj1 (verify_descriptors_decides _ ex_descs 34 6 ex_good (ex_reads _) ltac:(by vm_compute) ltac:(cbn; lia)) eq_refl).
  - assert (reads (ex_read (concat ex_descs ++ [0; 6])) 0 (concat ex_descs)) as Hr.
    { pose proof (ex_reads (concat ex_descs ++ [0; 6])) as H. apply reads_app in H. apply H. }
    apply (proj2 (proj2 (verify_descriptors_decides _ ex_descs 36 6 ex_good Hr ltac:(by vm_compute) ltac:(cbn; lia))
      0 6 ltac:(by vm_compute) ltac:(by vm_compute) ltac:(by vm_compute))); done.
Defined.
