(* ===== verification/UsbTree.v ===== *)
(** * The tree of descriptors the parser builds

    A well-formed answer is the flattening of a tree; descriptors of other types may
    follow every descriptor of the tree.  [parse_configs] and the lemmas before it follow
    the parser's loop; the tree is read back through the pointers of the structures. *)

From S2P Require Import Prelude Memory Palloc Umalloc CList Hardware UsbHw UsbHc Usb UsbDescriptors.

(** ** Trees *)

Record ep_tree := EpTree { et_desc : list Z; et_more : list (list Z) }.
Record iface_tree := IfaceTree { it_desc : list Z; it_more : list (list Z); it_eps : list ep_tree }.
Record cfg_tree := CfgTree { ct_desc : list Z; ct_more : list (list Z); ct_ifaces : list iface_tree }.

Definition flat_ep (e : ep_tree) : list (list Z) := et_desc e :: et_more e.
Definition flat_eps (es : list ep_tree) : list (list Z) := concat (map flat_ep es).
Definition flat_iface (i : iface_tree) : list (list Z) := it_desc i :: it_more i ++ flat_eps (it_eps i).
Definition flat_ifaces (fs : list iface_tree) : list (list Z) := concat (map flat_iface fs).
Definition flat_cfg (c : cfg_tree) : list (list Z) := ct_desc c :: ct_more c ++ flat_ifaces (ct_ifaces c).
Definition flat_cfgs (cs : list cfg_tree) : list (list Z) := concat (map flat_cfg cs).

Definition other (d : list Z) : Prop := framed d ∧ known_size (desc_type d) = None.
Definition is_desc (type size : Z) (d : list Z) : Prop := framed d ∧ desc_type d = type ∧ desc_len d = size.
Definition ep_ok (e : ep_tree) : Prop := is_desc USB_DESC_EP sizeof_ep_desc (et_desc e) ∧ Forall other (et_more e).
Definition iface_ok (i : iface_tree) : Prop :=
  is_desc USB_DESC_IFACE sizeof_iface_desc (it_desc i) ∧ Forall other (it_more i) ∧ Forall ep_ok (it_eps i).
Definition cfg_ok (c : cfg_tree) : Prop :=
  is_desc USB_DESC_CONFIG sizeof_config_desc (ct_desc c) ∧ Forall other (ct_more c) ∧ Forall iface_ok (ct_ifaces c).

Definition all_ifaces (cs : list cfg_tree) : list iface_tree := concat (map ct_ifaces cs).
Definition all_eps (fs : list iface_tree) : list ep_tree := concat (map it_eps fs).

Definition zlen {A} (l : list A) : Z := Z.of_nat (length l).
Lemma zlen_cons {A} (x : A) l : zlen (x :: l) = zlen l + 1.
Proof. unfold zlen. cbn. lia. Qed.
Lemma zlen_app {A} (l k : list A) : zlen (l ++ k) = zlen l + zlen k.
Proof. unfold zlen. rewrite length_app. lia. Qed.
Lemma zlen_nonneg {A} (l : list A) : 0 ≤ zlen l.
Proof. unfold zlen. lia. Qed.

(** ** Reading a tree back *)

(** What [n] endpoints from address [p] on hold, in the order of the array. *)
Fixpoint read_eps (u : usb) (n : nat) (p : Z) : option (list (list Z)) :=
  match n with
  | O => Some []
  | Datatypes.S n => e ← eps u !! p; es ← read_eps u n (p + sizeof_usb_ep); Some (ep_desc e :: es)
  end.
Fixpoint read_ifaces (u : usb) (n : nat) (p : Z) : option (list (list Z * list (list Z))) :=
  match n with
  | O => Some []
  | Datatypes.S n =>
      i ← ifaces u !! p;
      es ← read_eps u (Z.to_nat (num_eps i)) (if_eps i);
      fs ← read_ifaces u n (p + sizeof_usb_iface); Some ((if_desc i, es) :: fs)
  end.
Fixpoint read_cfgs (u : usb) (n : nat) (p : Z) : option (list (list Z * list (list Z * list (list Z)))) :=
  match n with
  | O => Some []
  | Datatypes.S n =>
      c ← cfgs u !! p;
      fs ← read_ifaces u (Z.to_nat (num_ifaces c)) (cf_ifaces c);
      cs ← read_cfgs u n (p + sizeof_usb_config); Some ((cf_desc c, fs) :: cs)
  end.

(** The tree without the descriptors of other types. *)
Definition bare_iface (i : iface_tree) : list Z * list (list Z) := (it_desc i, map et_desc (it_eps i)).
Definition bare_cfg (c : cfg_tree) : list Z * list (list Z * list (list Z)) := (ct_desc c, map bare_iface (ct_ifaces c)).

(** The structures hold the tree: endpoints from [r] on, interfaces from [q] on,
    configurations from [p] on; the pointers of a structure without members mean nothing. *)
Fixpoint eps_at (u : usb) (r : Z) (es : list ep_tree) : Prop :=
  match es with
  | [] => True
  | e :: es => (∃ x, eps u !! r = Some x ∧ ep_desc x = et_desc e) ∧ eps_at u (r + sizeof_usb_ep) es
  end.
Definition iface_at (u : usb) (q r : Z) (t : iface_tree) : Prop :=
  ∃ i, ifaces u !! q = Some i ∧ if_desc i = it_desc t ∧ num_eps i = zlen (it_eps t) ∧
    (it_eps t ≠ [] → if_eps i = r) ∧ eps_at u r (it_eps t).
Fixpoint ifaces_at (u : usb) (q r : Z) (fs : list iface_tree) : Prop :=
  match fs with
  | [] => True
  | f :: fs => iface_at u q r f ∧ ifaces_at u (q + sizeof_usb_iface) (r + sizeof_usb_ep * zlen (it_eps f)) fs
  end.
Definition cfg_at (u : usb) (p q r : Z) (t : cfg_tree) : Prop :=
  ∃ c, cfgs u !! p = Some c ∧ cf_desc c = ct_desc t ∧ num_ifaces c = zlen (ct_ifaces t) ∧
    (ct_ifaces t ≠ [] → cf_ifaces c = q) ∧ ifaces_at u q r (ct_ifaces t).
Fixpoint cfgs_at (u : usb) (p q r : Z) (cs : list cfg_tree) : Prop :=
  match cs with
  | [] => True
  | c :: cs => cfg_at u p q r c ∧ cfgs_at u (p + sizeof_usb_config) (q + sizeof_usb_iface * zlen (ct_ifaces c))
                 (r + sizeof_usb_ep * zlen (all_eps (ct_ifaces c))) cs
  end.

(** Reading back. *)
Lemma eps_at_read u r es : eps_at u r es → read_eps u (length es) r = Some (map et_desc es).
Proof.
  revert r; induction es as [|e es IH]; intros r; [done|]. intros [(x & Ex & Ed) H].
  cbn [read_eps length]. rewrite Ex. cbn. rewrite (IH _ H). cbn. by rewrite Ed.
Qed.
Lemma ifaces_at_read u q r fs : ifaces_at u q r fs → read_ifaces u (length fs) q = Some (map bare_iface fs).
Proof.
  revert q r; induction fs as [|f fs IH]; intros q r; [done|]. intros [(i & Ei & Ed & En & Ep & He) H].
  cbn [read_ifaces length]. rewrite Ei. cbn. rewrite En. unfold zlen. rewrite Nat2Z.id.
  assert (read_eps u (length (it_eps f)) (if_eps i) = Some (map et_desc (it_eps f))) as ->.
  { destruct (decide (it_eps f = [])) as [E|E]; [by rewrite E|]. rewrite (Ep E). by apply eps_at_read. }
  cbn. rewrite (IH _ _ H). cbn. unfold bare_iface at 2. by rewrite Ed.
Qed.
Lemma cfgs_at_read u p q r cs : cfgs_at u p q r cs → read_cfgs u (length cs) p = Some (map bare_cfg cs).
Proof.
  revert p q r; induction cs as [|c cs IH]; intros p q r; [done|]. intros [(i & Ei & Ed & En & Ep & He) H].
  cbn [read_cfgs length]. rewrite Ei. cbn. rewrite En. unfold zlen. rewrite Nat2Z.id.
  assert (read_ifaces u (length (ct_ifaces c)) (cf_ifaces i) = Some (map bare_iface (ct_ifaces c))) as ->.
  { destruct (decide (ct_ifaces c = [])) as [E|E]; [by rewrite E|]. rewrite (Ep E). by eapply ifaces_at_read. }
  cbn. rewrite (IH _ _ _ H). cbn. unfold bare_cfg at 2. by rewrite Ed.
Qed.

(** What is held stays held when the arrays do not change. *)
Lemma eps_at_ext u u' r es :
  (∀ x, r ≤ x < r + sizeof_usb_ep * zlen es → eps u' !! x = eps u !! x) → eps_at u r es → eps_at u' r es.
Proof.
  revert r; induction es as [|e es IH]; intros r E; [done|]. rewrite zlen_cons in E. pose proof (zlen_nonneg es).
  cbn [eps_at]. unfold sizeof_usb_ep in *. intros [(x & Ex & Ed) H1]. split.
  - exists x. split; [rewrite E by lia|]; done.
  - apply IH; [|done]. intros y Hy. apply E. lia.
Qed.
Lemma all_eps_cons f fs : zlen (all_eps (f :: fs)) = zlen (it_eps f) + zlen (all_eps fs).
Proof. unfold all_eps. cbn. apply zlen_app. Qed.
Lemma all_ifaces_cons c cs : zlen (all_ifaces (c :: cs)) = zlen (ct_ifaces c) + zlen (all_ifaces cs).
Proof. unfold all_ifaces. cbn. apply zlen_app. Qed.
Lemma all_eps_app fs gs : zlen (all_eps (fs ++ gs)) = zlen (all_eps fs) + zlen (all_eps gs).
Proof. unfold all_eps. by rewrite map_app, concat_app, zlen_app. Qed.

Lemma iface_at_ext u u' q r f :
  ifaces u' !! q = ifaces u !! q →
  (∀ x, r ≤ x < r + sizeof_usb_ep * zlen (it_eps f) → eps u' !! x = eps u !! x) → iface_at u q r f → iface_at u' q r f.
Proof. intros Ei Ee (i & Hi & Hd & Hn & Hp & He). exists i. split_and!; try done; [by rewrite Ei|by eapply eps_at_ext]. Qed.

Lemma ifaces_at_ext u u' q r fs :
  (∀ x, q ≤ x < q + sizeof_usb_iface * zlen fs → ifaces u' !! x = ifaces u !! x) →
  (∀ x, r ≤ x < r + sizeof_usb_ep * zlen (all_eps fs) → eps u' !! x = eps u !! x) →
  ifaces_at u q r fs → ifaces_at u' q r fs.
Proof.
  revert q r; induction fs as [|f fs IH]; intros q r Ei Ee; [done|]. rewrite zlen_cons in Ei. rewrite all_eps_cons in Ee.
  pose proof (zlen_nonneg fs). pose proof (zlen_nonneg (it_eps f)). pose proof (zlen_nonneg (all_eps fs)).
  cbn [ifaces_at]. unfold sizeof_usb_ep, sizeof_usb_iface in *. intros [Hf Hr]. split.
  - eapply iface_at_ext; [apply Ei; lia| |exact Hf]. unfold sizeof_usb_ep. intros x Hx. apply Ee. lia.
  - unfold sizeof_usb_ep, sizeof_usb_iface in *. eapply IH; [| |exact Hr]; intros x Hx; [apply Ei|apply Ee]; lia.
Qed.

(** ** The parser's loop *)

Lemma reads_read_bytes m p d : reads (ld8 m) p d → read_bytes m p (length d) = d.
Proof.
  intros Hr. apply list_eq. intros k. destruct (decide (k < length d)%nat) as [Hk|Hk].
  - rewrite lookup_read_bytes by done. destruct (lookup_lt_is_Some_2 d k Hk) as [b Eb]. by rewrite Eb, (Hr k b Eb).
  - rewrite !lookup_ge_None_2; [done|lia|rewrite length_read_bytes; lia].
Qed.

Section Parse.
Context {D S : Type} `{Mmio D} `{ByteAlloc S}.
#[local] Notation st := (@hc D S usb).
#[local] Notation "u ↑ s" := (with_upper u s) (at level 20).

Definition mem_of (s : st) : mem := pa_mem (snd (pool s)).

Lemma load_run f s : load f s = Ret (f (mem_of s), s).
Proof.
  unfold load, in_bytes, in_pool, zoom, in_arena, Umalloc.in_heap, zoom, pa_in_mem, zoom, gets.
  fold (mem_of s). unfold mem_of at 2. rewrite pa_put_mem. by destruct s as [? ? ? []].
Qed.
Lemma bind_load {B} f (k : Z → M st B) s : bind (load f) k s = k (f (mem_of s)) s.
Proof. by rewrite (bind_Ret _ _ _ _ _ (load_run f s)). Qed.
Lemma bind_read_at {B} p n (k : list Z → M st B) s :
  bind (read_at p n) k s = k (read_bytes (mem_of s) p (Z.to_nat n)) s.
Proof.
  apply bind_Ret. unfold read_at, in_bytes, in_pool, zoom, in_arena, Umalloc.in_heap, zoom, pa_in_mem, zoom, gets.
  fold (mem_of s). unfold mem_of at 2. rewrite pa_put_mem. by destruct s as [? ? ? []].
Qed.
Lemma bind_get {A B} (f : usb → gmap Z A) p (k : A → M st B) u (s : st) x :
  f u !! p = Some x → bind (get_at f p) k (u ↑ s) = k x (u ↑ s).
Proof. intros E. unfold get_at, core, gets, bind. cbn. by rewrite E. Qed.
Lemma bind_upd_config {B} p f (k : unit → M st B) u (s : st) c :
  cfgs u !! p = Some c → bind (upd_config p f) k (u ↑ s) = k tt (u_cfgs (<[p := f c]> (cfgs u)) u ↑ s).
Proof. intros E. unfold upd_config, get_config. rewrite bind_bind. by rewrite (bind_get _ _ _ _ _ c). Qed.
Lemma bind_upd_iface {B} p f (k : unit → M st B) u (s : st) i :
  ifaces u !! p = Some i → bind (upd_iface p f) k (u ↑ s) = k tt (u_ifaces (<[p := f i]> (ifaces u)) u ↑ s).
Proof. intros E. unfold upd_iface, get_iface. rewrite bind_bind. by rewrite (bind_get _ _ _ _ _ i). Qed.
Lemma bind_upd_dev {B} p f (k : unit → M st B) u (s : st) d :
  devs u !! p = Some d → bind (upd_dev p f) k (u ↑ s) = k tt (u_devs (<[p := f d]> (devs u)) u ↑ s).
Proof. intros E. unfold upd_dev, get_dev. rewrite bind_bind. by rewrite (bind_get _ _ _ _ _ d). Qed.

(** The arrays at [a], for [nc] configurations, [ni] interfaces and [ne] endpoints. *)
Variable dev_ data size a nc ni ne : Z.
Hypothesis Ha : 0 < a.
Hypothesis Hn : 0 ≤ nc ∧ 0 ≤ ni ∧ 0 ≤ ne.
Hypothesis Hend : a + nc * sizeof_usb_config + ni * sizeof_usb_iface + ne * sizeof_usb_ep < 2 ^ 32.
Hypothesis Hdata : 0 ≤ data ∧ data + size < 2 ^ 32.

Definition cfg_addr (k : Z) : Z := a + sizeof_usb_config * k.
Definition iface_addr (k : Z) : Z := cfg_addr nc + sizeof_usb_iface * k.
Definition ep_addr (k : Z) : Z := iface_addr ni + sizeof_usb_ep * k.

Lemma offset_cfg k : 0 ≤ k < nc → u32 (a + usbc_get_desc_offset nc ni USB_DESC_CONFIG k) = cfg_addr k.
Proof using Hend Hn Ha. intros Hk. unfold usbc_get_desc_offset, cfg_addr, sizeof_usb_config, sizeof_usb_iface, sizeof_usb_ep in *. cbn. nowrap. lia. Qed.
Lemma offset_iface k : 0 ≤ k < ni → u32 (a + usbc_get_desc_offset nc ni USB_DESC_IFACE k) = iface_addr k.
Proof using Hend Hn Ha. intros Hk. unfold usbc_get_desc_offset, iface_addr, cfg_addr, sizeof_usb_config, sizeof_usb_iface, sizeof_usb_ep in *. cbn. nowrap. lia. Qed.
Lemma offset_ep k : 0 ≤ k < ne → u32 (a + usbc_get_desc_offset nc ni USB_DESC_EP k) = ep_addr k.
Proof using Hend Hn Ha. intros Hk. unfold usbc_get_desc_offset, ep_addr, iface_addr, cfg_addr, sizeof_usb_config, sizeof_usb_iface, sizeof_usb_ep in *. cbn. nowrap. lia. Qed.

#[local] Notation loop := (λ fuel pos ci ii ei lc lf, parse_loop fuel dev_ data size a nc ni pos ci ii ei lc lf).
#[local] Notation held s pos ds := (reads (ld8 (mem_of s)) (data + pos) (concat ds)).

(** The head of a round on a descriptor at [pos]. *)
Lemma round_head (s : st) pos d :
  framed d → reads (ld8 (mem_of s)) (data + pos) d → 0 ≤ pos → pos + Z.of_nat (length d) ≤ size →
  (pos <? size) = true ∧ ld8 (mem_of s) (u32 (data + pos + 1)) = desc_type d ∧
  u32 (pos + ld8 (mem_of s) (u32 (data + pos))) = pos + Z.of_nat (length d) ∧ u32 (data + pos) = data + pos.
Proof using Hdata.
  intros [Hl Hf] Hr H0' Hs. destruct (reads_head _ _ _ Hl Hr) as [E0 E1].
  rewrite (u32_small (data + pos + 1)), (u32_small (data + pos)), E0, E1, Hf by lia. split_and!; [apply Z.ltb_lt; lia|done| |done].
  rewrite u32_small; lia.
Qed.

Lemma round_other fuel d pos ci ii ei lc lf u (s : st) :
  other d → reads (ld8 (mem_of s)) (data + pos) d → 0 ≤ pos → pos + Z.of_nat (length d) ≤ size →
  loop (Datatypes.S fuel) pos ci ii ei lc lf (u ↑ s) = loop fuel (pos + Z.of_nat (length d)) ci ii ei lc lf (u ↑ s).
Proof using Hdata.
  intros [Hf Hk] Hr H0' Hs. destruct (round_head s pos d Hf Hr H0' Hs) as (E & Et & En & _).
  cbn [parse_loop]. rewrite E, !bind_load. change (mem_of (u ↑ s)) with (mem_of s). rewrite Et, En.
  revert Hk. unfold known_size. do 3 (destruct (_ =? _); [done|]). done.
Qed.

Lemma parse_others ds fuel pos ci ii ei lc lf u (s : st) :
  Forall other ds → held s pos ds → 0 ≤ pos → pos + total_size ds ≤ size →
  loop (length ds + fuel)%nat pos ci ii ei lc lf (u ↑ s) = loop fuel (pos + total_size ds) ci ii ei lc lf (u ↑ s).
Proof using Hdata.
  revert pos; induction ds as [|d ds IH]; intros pos Ho Hr H0' Hs.
  - cbn. unfold total_size. cbn. by rewrite Z.add_0_r.
  - apply Forall_cons in Ho as [Hd Ho]. cbn [concat] in Hr. apply reads_app in Hr as [Hrd Hr].
    pose proof (desc_total_nonneg ds). rewrite desc_total_cons in *. cbn [length Nat.add].
    rewrite (round_other _ d) by (done || lia). rewrite IH by (rewrite ?Z.add_assoc; done || lia).
    by rewrite Z.add_assoc.
Qed.

(** An endpoint: it is copied, counted, and remembered as the first one. *)
Definition count_ep (p : Z) (i : usb_iface) : usb_iface :=
  UsbIface (if_desc i) (if num_eps i =? 0 then p else if_eps i) (u32 (num_eps i + 1)) (if_driver i) (parent_dev i) (assigned i).

Lemma take_ep m p d : length d = 7%nat → reads (ld8 m) p d → take 7 (read_bytes m p (Z.to_nat sizeof_usb_ep)) = d.
Proof.
  intros Hl Hr. change (Z.to_nat sizeof_usb_ep) with (7 + 5)%nat. rewrite read_bytes_add, <- Hl, (reads_read_bytes _ _ _ Hr).
  apply take_app_length.
Qed.

Lemma round_ep fuel d pos ci ii ei lc lf u (s : st) i o :
  is_desc USB_DESC_EP sizeof_ep_desc d → reads (ld8 (mem_of s)) (data + pos) d → 0 ≤ pos → pos + Z.of_nat (length d) ≤ size →
  0 ≤ ei < ne → lf ≠ 0 → ifaces u !! lf = Some i → eps u !! ep_addr ei = Some o →
  ∃ e, ep_desc e = d ∧
  loop (Datatypes.S fuel) pos ci ii ei lc lf (u ↑ s) =
  loop fuel (pos + Z.of_nat (length d)) ci ii (u32 (ei + 1)) lc lf
    (u_ifaces (<[lf := count_ep (ep_addr ei) i]> (ifaces u)) (u_eps (<[ep_addr ei := e]> (eps u)) u) ↑ s).
Proof using Hdata Hend Hn Ha.
  intros (Hf & Et & El) Hr H0' Hs He Hlf Hi Ho. destruct (round_head s pos d Hf Hr H0' Hs) as (E & Et' & En & Ep).
  destruct Hf as [Hl Hf]. assert (length d = 7%nat) as L by (unfold sizeof_ep_desc in *; lia).
  eexists (UsbEp d _). split; [done|].
  cbn [parse_loop]. rewrite E, !bind_load. change (mem_of (u ↑ s)) with (mem_of s). rewrite Et', En, Et, Ep.
  change (USB_DESC_EP =? USB_DESC_CONFIG) with false. change (USB_DESC_EP =? USB_DESC_IFACE) with false.
  rewrite Z.eqb_refl, offset_ep by done. rewrite bind_read_at. change (mem_of (u ↑ s)) with (mem_of s).
  rewrite (bind_get eps _ _ _ _ o) by done. rewrite (take_ep _ _ _ L Hr).
  unfold in_core. unfold bind at 1. cbn [modify]. rewrite (eqb_false lf 0) by done.
  set (e := UsbEp d _). set (u1 := u_eps _ _).
  change (with_upper _ (u ↑ s)) with (u1 ↑ s).
  unfold get_iface. rewrite (bind_get ifaces lf _ u1 s i) by done.
  unfold count_ep. destruct (Z.eqb_spec (num_eps i) 0) as [En0|En0].
  - rewrite (bind_upd_iface lf _ _ u1 s i) by done.
    rewrite (bind_upd_iface lf _ _ _ s (set_if_eps (ep_addr ei) i)) by (cbn; by rewrite lookup_insert_eq).
    cbn. rewrite insert_insert_eq. reflexivity.
  - rewrite (bind_Ret _ _ _ tt (u1 ↑ s)) by done. rewrite (bind_upd_iface lf _ _ u1 s i) by done. reflexivity.
Qed.

Lemma ne_small : ne < 2 ^ 32.
Proof using Hend Hn Ha. unfold sizeof_usb_ep, sizeof_usb_iface, sizeof_usb_config in *. lia. Qed.
Lemma ni_small : ni < 2 ^ 32.
Proof using Hend Hn Ha. unfold sizeof_usb_ep, sizeof_usb_iface, sizeof_usb_config in *. lia. Qed.

(** The endpoints of one interface. *)
Lemma parse_eps es fuel pos ci ii ei lc lf u (s : st) i :
  Forall ep_ok es → held s pos (flat_eps es) → 0 ≤ pos → pos + total_size (flat_eps es) ≤ size →
  0 ≤ ei → ei + zlen es ≤ ne → lf ≠ 0 → ifaces u !! lf = Some i → 0 ≤ num_eps i ≤ ei →
  (∀ k, ei ≤ k < ne → is_Some (eps u !! ep_addr k)) →
  ∃ E i', loop (length (flat_eps es) + fuel)%nat pos ci ii ei lc lf (u ↑ s) =
      loop fuel (pos + total_size (flat_eps es)) ci ii (ei + zlen es) lc lf
        (u_ifaces (<[lf := i']> (ifaces u)) (u_eps E u) ↑ s) ∧
    if_desc i' = if_desc i ∧ num_eps i' = num_eps i + zlen es ∧
    (num_eps i ≠ 0 → if_eps i' = if_eps i) ∧ (num_eps i = 0 → es ≠ [] → if_eps i' = ep_addr ei) ∧
    eps_at (u_eps E u) (ep_addr ei) es ∧
    (∀ x, ¬ ep_addr ei ≤ x < ep_addr (ei + zlen es) → E !! x = eps u !! x).
Proof using Hdata Hend Hn Ha.
  revert pos ei u i; induction es as [|e es IH]; intros pos ei u i Ho Hr H0' Hs He Hen Hlf Hi Hc Hx.
  - exists (eps u), i. cbn. unfold total_size, zlen. cbn. rewrite !Z.add_0_r, insert_id by done. by destruct u.
  - apply Forall_cons in Ho as [[Hd Hm] Ho]. unfold flat_eps in Hr, Hs |- *. cbn [map concat] in Hr, Hs |- *.
    fold (flat_eps es) in *. unfold flat_ep in *. cbn [app concat] in Hr. rewrite concat_app in Hr.
    apply reads_app in Hr as [Hrd [Hrm Hr]%reads_app]. fold (total_size (et_more e)) in Hr.
    rewrite zlen_cons in *. cbn [app length] in Hs |- *. rewrite desc_total_cons, desc_total_app in *.
    pose proof (desc_total_nonneg (flat_eps es)). pose proof (desc_total_nonneg (et_more e)). pose proof (zlen_nonneg es).
    pose proof ne_small. destruct (Hx ei ltac:(lia)) as [o Eo].
    cbn [Nat.add].
    destruct (round_ep (length (et_more e ++ flat_eps es) + fuel) (et_desc e) pos ci ii ei lc lf u s i o)
      as (x & Ex & ->); try done; try lia.
    set (u1 := u_ifaces _ _).
    rewrite length_app, <- Nat.add_assoc, parse_others by (rewrite ?Z.add_assoc; done || lia).
    rewrite (u32_small (ei + 1)) by lia.
    destruct (IH (pos + Z.of_nat (length (et_desc e)) + total_size (et_more e)) (ei + 1) u1 (count_ep (ep_addr ei) i))
      as (E & i' & Er & Hd' & Hnum & Hp & Hf & Hat & Hfr); clear IH; try done; try lia.
    { by rewrite !Z.add_assoc in *. }
    { unfold u1. cbn. by rewrite lookup_insert_eq. }
    { cbn. rewrite u32_small; lia. }
    { intros k Hk. cbn. rewrite lookup_insert_is_Some. destruct (Hx k ltac:(lia)) as [o' Eo'].
      destruct (decide (ep_addr ei = ep_addr k)); [by left|right; split; [done|eauto]]. }
    cbn [count_ep num_eps if_desc if_eps] in Hd', Hnum, Hp, Hf. rewrite (u32_small (num_eps i + 1)) in * by lia.
    exists E, i'. split_and!; try lia.
    + rewrite Er. unfold u1. cbn. rewrite insert_insert_eq. f_equal; lia.
    + done.
    + intros Hne. rewrite Hp by lia. by rewrite (proj2 (Z.eqb_neq _ _)).
    + intros Hz _. rewrite Hp by lia. by rewrite Hz.
    + split.
      * exists x. split; [|done]. cbn. rewrite Hfr by (unfold ep_addr, sizeof_usb_ep; lia). cbn. by rewrite lookup_insert_eq.
      * replace (ep_addr ei + sizeof_usb_ep) with (ep_addr (ei + 1)) by (unfold ep_addr, sizeof_usb_ep; lia).
        eapply eps_at_ext; [|exact Hat]. done.
    + intros y Hy. rewrite Hfr by (unfold ep_addr, sizeof_usb_ep in *; lia). cbn.
      rewrite lookup_insert_ne; [done|]. intros <-. apply Hy. unfold ep_addr, sizeof_usb_ep. lia.
Qed.

(** An interface: it is copied, counted, and remembered as the first one. *)
Definition count_iface (p : Z) (c : usb_config) : usb_config :=
  UsbConfig (cf_desc c) (if num_ifaces c =? 0 then p else cf_ifaces c) (u32 (num_ifaces c + 1)) (curr_iface c).
Definition new_iface (d : list Z) (o : usb_iface) : usb_iface :=
  UsbIface d (if_eps o) 0 (if_driver o) (parent_dev o) (assigned o).

Lemma round_iface fuel d pos ci ii ei lc lf u (s : st) c o :
  is_desc USB_DESC_IFACE sizeof_iface_desc d → reads (ld8 (mem_of s)) (data + pos) d →
  0 ≤ pos → pos + Z.of_nat (length d) ≤ size →
  0 ≤ ii < ni → lc ≠ 0 → cfgs u !! lc = Some c → ifaces u !! iface_addr ii = Some o →
  loop (Datatypes.S fuel) pos ci ii ei lc lf (u ↑ s) =
  loop fuel (pos + Z.of_nat (length d)) ci (u32 (ii + 1)) ei lc (iface_addr ii)
    (u_cfgs (<[lc := count_iface (iface_addr ii) c]> (cfgs u)) (u_ifaces (<[iface_addr ii := new_iface d o]> (ifaces u)) u) ↑ s).
Proof using Hdata Hend Hn Ha.
  intros (Hf & Et & El) Hr H0' Hs Hi Hlc Hc Ho. destruct (round_head s pos d Hf Hr H0' Hs) as (E & Et' & En & Ep).
  destruct Hf as [Hl Hf]. assert (length d = 9%nat) as L by (unfold sizeof_iface_desc in *; lia).
  cbn [parse_loop]. rewrite E, !bind_load. change (mem_of (u ↑ s)) with (mem_of s). rewrite Et', En, Et, Ep.
  change (USB_DESC_IFACE =? USB_DESC_CONFIG) with false.
  rewrite Z.eqb_refl, offset_iface by done. rewrite bind_read_at. change (mem_of (u ↑ s)) with (mem_of s).
  change (Z.to_nat sizeof_iface_desc) with 9%nat. rewrite <- L, (reads_read_bytes _ _ _ Hr).
  rewrite (bind_upd_iface _ _ _ u s o) by done. rewrite (eqb_false lc 0) by done. set (u1 := u_ifaces _ _).
  unfold get_config. rewrite (bind_get cfgs lc _ u1 s c) by done.
  unfold count_iface. destruct (Z.eqb_spec (num_ifaces c) 0) as [En0|En0].
  - rewrite (bind_upd_config lc _ _ u1 s c) by done.
    rewrite (bind_upd_config lc _ _ _ s (set_cf_ifaces (iface_addr ii) c)) by (cbn; by rewrite lookup_insert_eq).
    cbn. rewrite insert_insert_eq. reflexivity.
  - rewrite (bind_Ret _ _ _ tt (u1 ↑ s)) by done. rewrite (bind_upd_config lc _ _ u1 s c) by done. reflexivity.
Qed.

(** The fields of the core that the parser does not touch. *)
Definition same_core (u u' : usb) : Prop :=
  enum_state u' = enum_state u ∧ enum_dev u' = enum_dev u ∧ dev_addr_bm u' = dev_addr_bm u ∧ drivers u' = drivers u.
#[local] Instance same_core_refl : Reflexive same_core.
Proof. by intros u. Qed.
#[local] Instance same_core_trans : Transitive same_core.
Proof. intros u1 u2 u3 (?&?&?&?) (?&?&?&?). repeat split; congruence. Qed.

(** The interfaces of one configuration. *)
Lemma parse_ifaces fs fuel pos ci ii ei lc lf u (s : st) c :
  Forall iface_ok fs → held s pos (flat_ifaces fs) → 0 ≤ pos → pos + total_size (flat_ifaces fs) ≤ size →
  0 ≤ ii → ii + zlen fs ≤ ni → 0 ≤ ei → ei + zlen (all_eps fs) ≤ ne →
  lc ≠ 0 → cfgs u !! lc = Some c → 0 ≤ num_ifaces c ≤ ii →
  (∀ k, ii ≤ k < ni → is_Some (ifaces u !! iface_addr k)) → (∀ k, ei ≤ k < ne → is_Some (eps u !! ep_addr k)) →
  ∃ u' lf' c', loop (length (flat_ifaces fs) + fuel)%nat pos ci ii ei lc lf (u ↑ s) =
      loop fuel (pos + total_size (flat_ifaces fs)) ci (ii + zlen fs) (ei + zlen (all_eps fs)) lc lf' (u' ↑ s) ∧
    same_core u u' ∧ devs u' = devs u ∧ cfgs u' = <[lc := c']> (cfgs u) ∧
    cf_desc c' = cf_desc c ∧ num_ifaces c' = num_ifaces c + zlen fs ∧
    (num_ifaces c ≠ 0 → cf_ifaces c' = cf_ifaces c) ∧ (num_ifaces c = 0 → fs ≠ [] → cf_ifaces c' = iface_addr ii) ∧
    ifaces_at u' (iface_addr ii) (ep_addr ei) fs ∧
    (∀ x, ¬ iface_addr ii ≤ x < iface_addr (ii + zlen fs) → ifaces u' !! x = ifaces u !! x) ∧
    (∀ x, ¬ ep_addr ei ≤ x < ep_addr (ei + zlen (all_eps fs)) → eps u' !! x = eps u !! x).
Proof using Hdata Hend Hn Ha.
  revert pos ii ei lf u c; induction fs as [|f fs IH]; intros pos ii ei lf u c Ho Hr H0' Hs Hii Hin Hei Hen Hlc Hc Hnc Hpi Hpe.
  - exists u, lf, c. cbn. unfold total_size, zlen. cbn. rewrite !Z.add_0_r, insert_id by done. done.
  - apply Forall_cons in Ho as [(Hd & Hm & He) Ho]. unfold flat_ifaces in Hr, Hs |- *. cbn [map concat] in Hr, Hs |- *.
    fold (flat_ifaces fs) in *. unfold flat_iface in *. cbn [app concat] in Hr. rewrite !concat_app in Hr.
    rewrite <- app_assoc in Hr. apply reads_app in Hr as [Hrd [Hrm [Hre Hr]%reads_app]%reads_app].
    fold (total_size (it_more f)) in Hre, Hr. fold (total_size (flat_eps (it_eps f))) in Hr.
    rewrite zlen_cons, all_eps_cons in *. cbn [app length] in Hs |- *. rewrite desc_total_cons, !desc_total_app in *.
    pose proof (desc_total_nonneg (flat_ifaces fs)). pose proof (desc_total_nonneg (it_more f)).
    pose proof (desc_total_nonneg (flat_eps (it_eps f))). pose proof (zlen_nonneg fs). pose proof (zlen_nonneg (it_eps f)).
    pose proof (zlen_nonneg (all_eps fs)). pose proof ni_small. destruct (Hpi ii ltac:(lia)) as [o Eo].
    cbn [Nat.add].
    rewrite (round_iface _ (it_desc f) pos ci ii ei lc lf u s c o) by (done || lia).
    set (u1 := u_cfgs _ _). rewrite (u32_small (ii + 1)) by lia.
    rewrite !length_app, <- !Nat.add_assoc, parse_others by (rewrite ?Z.add_assoc; done || lia).
    assert (iface_addr ii ≠ 0) as Hz by (unfold iface_addr, cfg_addr, sizeof_usb_iface, sizeof_usb_config; lia).
    destruct (parse_eps (it_eps f) (length (flat_ifaces fs) + fuel) (pos + Z.of_nat (length (it_desc f)) + total_size (it_more f))
      ci (ii + 1) ei lc (iface_addr ii) u1 s (new_iface (it_desc f) o))
      as (E & i' & Er & Hid & Hin' & _ & Hif & Hat & Hfr); try done; try lia.
    { by rewrite !Z.add_assoc in *. }
    { unfold u1. cbn. by rewrite lookup_insert_eq. }
    set (u2 := u_ifaces _ _) in Er.
    destruct (IH (pos + Z.of_nat (length (it_desc f)) + total_size (it_more f) + total_size (flat_eps (it_eps f)))
      (ii + 1) (ei + zlen (it_eps f)) (iface_addr ii) u2 (count_iface (iface_addr ii) c))
      as (u' & lf' & c' & Er' & Hsc & Hdv & Hcf & Hcd & Hcn & Hcp & Hci & Hfat & Hffr & Hefr); clear IH; try done; try lia.
    { by rewrite !Z.add_assoc in *. }
    { unfold u2, u1. cbn. by rewrite lookup_insert_eq. }
    { cbn. rewrite u32_small; lia. }
    { intros k Hk. unfold u2, u1. cbn. rewrite insert_insert_eq, lookup_insert_is_Some.
      destruct (decide (iface_addr ii = iface_addr k)); [by left|right; split; [done|apply Hpi; lia]]. }
    { intros k Hk. unfold u2. cbn. rewrite Hfr by (unfold ep_addr, sizeof_usb_ep; lia). apply Hpe. lia. }
    cbn [count_iface num_ifaces cf_desc cf_ifaces] in Hcd, Hcn, Hcp, Hci. rewrite (u32_small (num_ifaces c + 1)) in * by lia.
    exists u', lf', c'. split_and!; try lia.
    + rewrite Er, Er'. f_equal; lia.
    + done.
    + done.
    + rewrite Hcf. unfold u2, u1. cbn. by rewrite insert_insert_eq.
    + done.
    + intros Hne. rewrite Hcp by lia. by rewrite (proj2 (Z.eqb_neq _ _)).
    + intros Hzn _. rewrite Hcp by lia. by rewrite Hzn.
    + split.
      * exists i'. split_and!; try done.
        -- rewrite Hffr by (unfold iface_addr, sizeof_usb_iface; lia). unfold u2. cbn. by rewrite lookup_insert_eq.
        -- intros Hne. by apply Hif.
        -- eapply eps_at_ext; [|exact Hat]. intros x Hx. rewrite Hefr by (unfold ep_addr, sizeof_usb_ep in *; lia). done.
      * replace (iface_addr ii + sizeof_usb_iface) with (iface_addr (ii + 1)) by (unfold iface_addr, sizeof_usb_iface; lia).
        replace (ep_addr ei + sizeof_usb_ep * zlen (it_eps f)) with (ep_addr (ei + zlen (it_eps f))) by (unfold ep_addr, sizeof_usb_ep; lia).
        done.
    + intros x Hx. rewrite Hffr by (unfold iface_addr, sizeof_usb_iface in *; lia). unfold u2, u1. cbn.
      rewrite insert_insert_eq, lookup_insert_ne; [done|]. intros <-. apply Hx. unfold iface_addr, sizeof_usb_iface. lia.
    + intros x Hx. rewrite Hefr by (unfold ep_addr, sizeof_usb_ep in *; lia). unfold u2. cbn.
      rewrite Hfr by (unfold ep_addr, sizeof_usb_ep in *; lia). done.
Qed.
(** A configuration. *)
Definition new_config (d : list Z) (c : usb_config) : usb_config := UsbConfig d (cf_ifaces c) 0 (curr_iface c).
Definition add_configs (n : Z) (d : usb_dev) : usb_dev := set_configs (configs d) (u32 (num_configs d + n)) d.

Lemma round_cfg fuel d pos ci ii ei lc lf u (s : st) c dv :
  is_desc USB_DESC_CONFIG sizeof_config_desc d → reads (ld8 (mem_of s)) (data + pos) d →
  0 ≤ pos → pos + Z.of_nat (length d) ≤ size →
  0 ≤ ci < nc → cfgs u !! cfg_addr ci = Some c → devs u !! dev_ = Some dv →
  loop (Datatypes.S fuel) pos ci ii ei lc lf (u ↑ s) =
  loop fuel (pos + Z.of_nat (length d)) (u32 (ci + 1)) ii ei (cfg_addr ci) lf
    (u_devs (<[dev_ := add_configs 1 dv]> (devs u)) (u_cfgs (<[cfg_addr ci := new_config d c]> (cfgs u)) u) ↑ s).
Proof using Hdata Hend Hn Ha.
  intros (Hf & Et & El) Hr H0' Hs Hi Hc Hd. destruct (round_head s pos d Hf Hr H0' Hs) as (E & Et' & En & Ep).
  destruct Hf as [Hl Hf]. assert (length d = 9%nat) as L by (unfold sizeof_config_desc in *; lia).
  cbn [parse_loop]. rewrite E, !bind_load. change (mem_of (u ↑ s)) with (mem_of s). rewrite Et', En, Et, Ep.
  rewrite Z.eqb_refl, offset_cfg by done. rewrite bind_read_at. change (mem_of (u ↑ s)) with (mem_of s).
  change (Z.to_nat sizeof_config_desc) with 9%nat. rewrite <- L, (reads_read_bytes _ _ _ Hr).
  rewrite (bind_upd_config _ _ _ u s c) by done. by rewrite (bind_upd_dev _ _ _ _ s dv).
Qed.

(** All configurations. *)
Lemma parse_cfgs cs fuel pos ci ii ei lc lf u (s : st) dv :
  Forall cfg_ok cs → held s pos (flat_cfgs cs) → 0 ≤ pos → pos + total_size (flat_cfgs cs) ≤ size →
  0 ≤ ci → ci + zlen cs ≤ nc → 0 ≤ ii → ii + zlen (all_ifaces cs) ≤ ni →
  0 ≤ ei → ei + zlen (all_eps (all_ifaces cs)) ≤ ne → devs u !! dev_ = Some dv → 0 ≤ num_configs dv < 2 ^ 32 →
  (∀ k, ci ≤ k < nc → is_Some (cfgs u !! cfg_addr k)) →
  (∀ k, ii ≤ k < ni → is_Some (ifaces u !! iface_addr k)) → (∀ k, ei ≤ k < ne → is_Some (eps u !! ep_addr k)) →
  ∃ u' lc' lf', loop (length (flat_cfgs cs) + fuel)%nat pos ci ii ei lc lf (u ↑ s) =
      loop fuel (pos + total_size (flat_cfgs cs)) (ci + zlen cs) (ii + zlen (all_ifaces cs))
        (ei + zlen (all_eps (all_ifaces cs))) lc' lf' (u' ↑ s) ∧
    same_core u u' ∧ devs u' = <[dev_ := add_configs (zlen cs) dv]> (devs u) ∧
    cfgs_at u' (cfg_addr ci) (iface_addr ii) (ep_addr ei) cs ∧
    (∀ x, ¬ cfg_addr ci ≤ x < cfg_addr (ci + zlen cs) → cfgs u' !! x = cfgs u !! x) ∧
    (∀ x, ¬ iface_addr ii ≤ x < iface_addr (ii + zlen (all_ifaces cs)) → ifaces u' !! x = ifaces u !! x) ∧
    (∀ x, ¬ ep_addr ei ≤ x < ep_addr (ei + zlen (all_eps (all_ifaces cs))) → eps u' !! x = eps u !! x).
Proof using Hdata Hend Hn Ha.
  revert pos ci ii ei lc lf u dv; induction cs as [|c cs IH];
    intros pos ci ii ei lc lf u dv Ho Hr H0' Hs Hci Hcn Hii Hin Hei Hen Hdv Hnum Hpc Hpi Hpe.
  - exists u, lc, lf. cbn. unfold total_size, zlen. cbn. rewrite !Z.add_0_r. split_and!; try done.
    rewrite insert_id; [done|]. rewrite Hdv. f_equal. destruct dv. unfold add_configs, set_configs. cbn in *. by nowrap; rewrite Z.add_0_r.
  - apply Forall_cons in Ho as [(Hd & Hm & Hi) Ho]. unfold flat_cfgs in Hr, Hs |- *. cbn [map concat] in Hr, Hs |- *.
    fold (flat_cfgs cs) in *. unfold flat_cfg in *. cbn [app concat] in Hr. rewrite !concat_app in Hr.
    rewrite <- app_assoc in Hr. apply reads_app in Hr as [Hrd [Hrm [Hre Hr]%reads_app]%reads_app].
    fold (total_size (ct_more c)) in Hre, Hr. fold (total_size (flat_ifaces (ct_ifaces c))) in Hr.
    unfold all_ifaces in Hin, Hen |- *. cbn [map concat] in Hin, Hen |- *. fold (all_ifaces cs) in *.
    rewrite zlen_cons, zlen_app, all_eps_app in *. cbn [app length] in Hs |- *. rewrite desc_total_cons, !desc_total_app in *.
    pose proof (desc_total_nonneg (flat_cfgs cs)). pose proof (desc_total_nonneg (ct_more c)).
    pose proof (desc_total_nonneg (flat_ifaces (ct_ifaces c))). pose proof (zlen_nonneg cs).
    pose proof (zlen_nonneg (ct_ifaces c)). pose proof (zlen_nonneg (all_ifaces cs)).
    pose proof (zlen_nonneg (all_eps (ct_ifaces c))). pose proof (zlen_nonneg (all_eps (all_ifaces cs))).
    assert (nc < 2 ^ 32) as Hncs by (unfold sizeof_usb_ep, sizeof_usb_iface, sizeof_usb_config in *; lia).
    destruct (Hpc ci ltac:(lia)) as [o Eo]. cbn [Nat.add].
    rewrite (round_cfg _ (ct_desc c) pos ci ii ei lc lf u s o dv) by (done || lia).
    set (u1 := u_devs _ _). rewrite (u32_small (ci + 1)) by lia.
    rewrite !length_app, <- !Nat.add_assoc, parse_others by (rewrite ?Z.add_assoc; done || lia).
    assert (cfg_addr ci ≠ 0) as Hz by (unfold cfg_addr, sizeof_usb_config; lia).
    destruct (parse_ifaces (ct_ifaces c) (length (flat_cfgs cs) + fuel) (pos + Z.of_nat (length (ct_desc c)) + total_size (ct_more c))
      (ci + 1) ii ei (cfg_addr ci) lf u1 s (new_config (ct_desc c) o))
      as (u2 & lf2 & c2 & Er & Hsc & Hdv2 & Hcf & Hcd & Hcn2 & _ & Hcif & Hat & Hffr & Hefr); try done; try lia.
    { by rewrite !Z.add_assoc in *. }
    { unfold u1. cbn. by rewrite lookup_insert_eq. }
    destruct (IH (pos + Z.of_nat (length (ct_desc c)) + total_size (ct_more c) + total_size (flat_ifaces (ct_ifaces c)))
      (ci + 1) (ii + zlen (ct_ifaces c)) (ei + zlen (all_eps (ct_ifaces c))) (cfg_addr ci) lf2 u2 (add_configs 1 dv))
      as (u' & lc' & lf' & Er' & Hsc' & Hdv' & Hcat & Hcfr & Hifr & Hpfr); clear IH; try done; try lia.
    { by rewrite !Z.add_assoc in *. }
    { rewrite Hdv2. unfold u1. cbn. by rewrite lookup_insert_eq. }
    { apply u32_range. }
    { intros k Hk. rewrite Hcf. unfold u1. cbn. rewrite insert_insert_eq, lookup_insert_is_Some.
      destruct (decide (cfg_addr ci = cfg_addr k)); [by left|right; split; [done|apply Hpc; lia]]. }
    { intros k Hk. rewrite Hffr by (unfold iface_addr, sizeof_usb_iface; lia). apply Hpi. lia. }
    { intros k Hk. rewrite Hefr by (unfold ep_addr, sizeof_usb_ep; lia). apply Hpe. lia. }
    exists u', lc', lf'. split_and!.
    + rewrite Er, Er'. f_equal; lia.
    + by etrans; [exact Hsc|].
    + rewrite Hdv', Hdv2. unfold u1. cbn. rewrite insert_insert_eq. f_equal.
      unfold add_configs, set_configs. cbn. f_equal. rewrite u32_add_l. f_equal. lia.
    + split.
      * exists c2. split_and!; try done.
        -- rewrite Hcfr by (unfold cfg_addr, sizeof_usb_config; lia). rewrite Hcf. by rewrite lookup_insert_eq.
        -- intros Hne. by apply Hcif.
        -- eapply ifaces_at_ext; [| |exact Hat]; intros x Hx.
           ++ apply Hifr. unfold iface_addr, sizeof_usb_iface in *. lia.
           ++ apply Hpfr. unfold ep_addr, sizeof_usb_ep in *. lia.
      * replace (cfg_addr ci + sizeof_usb_config) with (cfg_addr (ci + 1)) by (unfold cfg_addr, sizeof_usb_config; lia).
        replace (iface_addr ii + sizeof_usb_iface * zlen (ct_ifaces c)) with (iface_addr (ii + zlen (ct_ifaces c))) by (unfold iface_addr, sizeof_usb_iface; lia).
        replace (ep_addr ei + sizeof_usb_ep * zlen (all_eps (ct_ifaces c))) with (ep_addr (ei + zlen (all_eps (ct_ifaces c)))) by (unfold ep_addr, sizeof_usb_ep; lia).
        done.
    + intros x Hx. rewrite Hcfr by (unfold cfg_addr, sizeof_usb_config in *; lia). rewrite Hcf. unfold u1. cbn.
      rewrite insert_insert_eq, lookup_insert_ne; [done|]. intros <-. apply Hx. unfold cfg_addr, sizeof_usb_config. lia.
    + intros x Hx. rewrite Hifr by (unfold iface_addr, sizeof_usb_iface in *; lia).
      rewrite Hffr by (unfold iface_addr, sizeof_usb_iface in *; lia). done.
    + intros x Hx. rewrite Hpfr by (unfold ep_addr, sizeof_usb_ep in *; lia).
      rewrite Hefr by (unfold ep_addr, sizeof_usb_ep in *; lia). done.
Qed.
End Parse.

(** ** Counting and framing a flattened tree *)

Lemma is_desc_good type size d : is_desc type size d → known_size type = Some size → good d.
Proof. intros (Hf & Et & El) Hk. split; [done|]. by rewrite Et, Hk. Qed.
Lemma others_good ds : Forall other ds → Forall good ds.
Proof. intros Ho. apply (Forall_impl _ _ _ Ho). intros d [Hf Hk]. split; [done|]. by rewrite Hk. Qed.
Lemma count_others type ds : Forall other ds → known_size type ≠ None → count type ds = 0.
Proof.
  intros Ho Hk. induction Ho as [|d ds [_ Hd] _ IH]; [done|]. rewrite count_cons, IH.
  rewrite decide_False; [done|]. intros E. by rewrite E in Hd.
Qed.

(** The numbers of configurations, interfaces and endpoints in a sequence. *)
Definition counts (ds : list (list Z)) : Z * Z * Z := (count USB_DESC_CONFIG ds, count USB_DESC_IFACE ds, count USB_DESC_EP ds).
Definition add3 (x y : Z * Z * Z) : Z * Z * Z := (x.1.1 + y.1.1, x.1.2 + y.1.2, x.2 + y.2).
Lemma counts_app ds1 ds2 : counts (ds1 ++ ds2) = add3 (counts ds1) (counts ds2).
Proof. unfold counts, add3. cbn. by rewrite !count_app. Qed.
Lemma counts_desc type size d ds :
  is_desc type size d →
  counts (d :: ds) = add3 (if type =? USB_DESC_CONFIG then 1 else 0, if type =? USB_DESC_IFACE then 1 else 0, if type =? USB_DESC_EP then 1 else 0) (counts ds).
Proof.
  intros (_ & Et & _). unfold counts, add3. cbn [fst snd]. rewrite !count_cons, Et.
  assert (∀ x, (if decide (type = x) then 1 else 0) = if type =? x then 1 else 0) as E.
  { intros x. case_decide; [by rewrite eqb_true|by rewrite eqb_false]. }
  by rewrite !E.
Qed.
Lemma counts_others ds : Forall other ds → counts ds = (0, 0, 0).
Proof. intros Ho. unfold counts. by rewrite !count_others. Qed.

Lemma flat_eps_ok es : Forall ep_ok es → Forall good (flat_eps es) ∧ counts (flat_eps es) = (0, 0, zlen es).
Proof.
  induction 1 as [|e es [Hd Hm] _ [IHg IHc]]; [done|]. unfold flat_eps. cbn [map concat]. fold (flat_eps es). unfold flat_ep. split.
  - constructor; [by eapply is_desc_good|]. apply Forall_app. split; [by apply others_good|done].
  - cbn [app]. rewrite (counts_desc _ _ _ _ Hd), counts_app, counts_others, IHc, zlen_cons by done.
    unfold add3. cbn. f_equal. lia.
Qed.
Lemma flat_ifaces_ok fs :
  Forall iface_ok fs → Forall good (flat_ifaces fs) ∧ counts (flat_ifaces fs) = (0, zlen fs, zlen (all_eps fs)).
Proof.
  induction 1 as [|f fs (Hd & Hm & He) _ [IHg IHc]]; [done|]. unfold flat_ifaces. cbn [map concat]. fold (flat_ifaces fs).
  unfold flat_iface. destruct (flat_eps_ok _ He) as [Hg Hc]. split.
  - constructor; [by eapply is_desc_good|]. repeat (apply Forall_app; split); [by apply others_good|done|done].
  - cbn [app]. rewrite (counts_desc _ _ _ _ Hd), !counts_app, counts_others, IHc, Hc, zlen_cons, all_eps_cons by done.
    unfold add3. cbn. f_equal; try f_equal; lia.
Qed.
Lemma flat_cfgs_ok cs :
  Forall cfg_ok cs →
  Forall good (flat_cfgs cs) ∧ counts (flat_cfgs cs) = (zlen cs, zlen (all_ifaces cs), zlen (all_eps (all_ifaces cs))).
Proof.
  induction 1 as [|c cs (Hd & Hm & Hi) _ [IHg IHc]]; [done|]. unfold flat_cfgs. cbn [map concat]. fold (flat_cfgs cs).
  unfold flat_cfg. destruct (flat_ifaces_ok _ Hi) as [Hg Hc]. split.
  - constructor; [by eapply is_desc_good|]. repeat (apply Forall_app; split); [by apply others_good|done|done].
  - cbn [app]. rewrite (counts_desc _ _ _ _ Hd), !counts_app, counts_others, IHc, Hc, zlen_cons by done.
    unfold all_ifaces at 3 4. cbn [map concat]. fold (all_ifaces cs). rewrite zlen_app, all_eps_app. unfold add3. cbn. f_equal; try f_equal; lia.
Qed.
