(* ===== verification/UsbParse.v ===== *)
(** * Parsing the descriptors of a device

    Fresh structures, the block they are in, and the theorem that parsing undoes flattening,
    with an example: the descriptors of a mouse. *)

From S2P Require Import Prelude Memory Mm Palloc Umalloc CList Hardware UsbHw UsbHc Usb UsbDescriptors UsbTree.

(** The nodes of [n] interfaces from address [p] on. *)
Fixpoint new_nodes (n : nat) (p : Z) : list Z :=
  match n with O => [] | Datatypes.S n => iface_node p :: new_nodes n (p + sizeof_usb_iface) end.

Lemma in_new_nodes n p x : x ∈ new_nodes n p ↔ ∃ k, (k < n)%nat ∧ x = p + sizeof_usb_iface * Z.of_nat k + 32.
Proof.
  revert p; induction n as [|n IH]; intros p; cbn [new_nodes].
  - split; [by intros ?%elem_of_nil|]. intros (k & ? & _). lia.
  - rewrite elem_of_cons, IH. unfold iface_node, sizeof_usb_iface. split.
    + intros [->|(k & Hk & ->)]; [exists 0%nat; lia|exists (Datatypes.S k); lia].
    + intros ([|k] & Hk & ->); [left; lia|right; exists k; lia].
Qed.

Section Init.
Context {D S : Type} `{Mmio D} `{ByteAlloc S}.
#[local] Notation st := (@hc D S usb).
#[local] Notation "u ↑ s" := (with_upper u s) (at level 20).

Lemma init_configs_run n p u (s : st) :
  ∃ C, init_configs n p (u ↑ s) = Ret (p + sizeof_usb_config * Z.of_nat n, u_cfgs C u ↑ s) ∧
    (∀ k, 0 ≤ k < Z.of_nat n → is_Some (C !! (p + sizeof_usb_config * k))) ∧
    (∀ x, is_Some (cfgs u !! x) → is_Some (C !! x)).
Proof.
  revert p u; induction n as [|n IH]; intros p u.
  - exists (cfgs u). cbn [init_configs]. split_and!; [|lia|done]. unfold ret. rewrite Z.mul_0_r, Z.add_0_r. by destruct u.
  - cbn [init_configs]. unfold in_core. unfold bind at 1. cbn [modify].
    set (u1 := u_cfgs (<[p := UsbConfig [] 0 0 0]> (cfgs u)) u).
    destruct (IH (p + sizeof_usb_config) u1) as (C & E & HC & HF). exists C. split_and!.
    + etrans; [exact E|]. do 2 f_equal. unfold sizeof_usb_config. lia.
    + intros k Hk. destruct (decide (k = 0)) as [->|].
      * rewrite Z.mul_0_r, Z.add_0_r. apply HF. unfold u1. cbn. by rewrite lookup_insert_eq.
      * replace (p + sizeof_usb_config * k) with (p + sizeof_usb_config + sizeof_usb_config * (k - 1)) by (unfold sizeof_usb_config; lia).
        apply HC. lia.
    + intros x Hx. apply HF. unfold u1. cbn. rewrite lookup_insert_is_Some. destruct (decide (p = x)); [by left|by right].
Qed.

Lemma init_eps_run n p u (s : st) :
  ∃ E, init_eps n p (u ↑ s) = Ret (p + sizeof_usb_ep * Z.of_nat n, u_eps E u ↑ s) ∧
    (∀ k, 0 ≤ k < Z.of_nat n → is_Some (E !! (p + sizeof_usb_ep * k))) ∧
    (∀ x, is_Some (eps u !! x) → is_Some (E !! x)).
Proof.
  revert p u; induction n as [|n IH]; intros p u.
  - exists (eps u). cbn [init_eps]. split_and!; [|lia|done]. unfold ret. rewrite Z.mul_0_r, Z.add_0_r. by destruct u.
  - cbn [init_eps]. unfold in_core. unfold bind at 1. cbn [modify].
    set (u1 := u_eps (<[p := UsbEp [] 0]> (eps u)) u).
    destruct (IH (p + sizeof_usb_ep) u1) as (C & E & HC & HF). exists C. split_and!.
    + etrans; [exact E|]. do 2 f_equal. unfold sizeof_usb_ep. lia.
    + intros k Hk. destruct (decide (k = 0)) as [->|].
      * rewrite Z.mul_0_r, Z.add_0_r. apply HF. unfold u1. cbn. by rewrite lookup_insert_eq.
      * replace (p + sizeof_usb_ep * k) with (p + sizeof_usb_ep + sizeof_usb_ep * (k - 1)) by (unfold sizeof_usb_ep; lia).
        apply HC. lia.
    + intros x Hx. apply HF. unfold u1. cbn. rewrite lookup_insert_is_Some. destruct (decide (p = x)); [by left|by right].
Qed.

(** The interfaces are put on the device's list, the last one first. *)
Lemma init_ifaces_run n dev_ p xs u (s : st) :
  ring (lists s) (iface_list dev_) xs → (∀ x, x ∈ new_nodes n p → x ∉ iface_list dev_ :: xs) →
  ∃ I L, init_ifaces n dev_ p (u ↑ s) = Ret (p + sizeof_usb_iface * Z.of_nat n, u_ifaces I u ↑ with_lists L s) ∧
    ring L (iface_list dev_) (rev (new_nodes n p) ++ xs) ∧
    (∀ k, 0 ≤ k < Z.of_nat n → is_Some (I !! (p + sizeof_usb_iface * k))) ∧
    (∀ x, is_Some (ifaces u !! x) → is_Some (I !! x)).
Proof.
  revert p xs u s; induction n as [|n IH]; intros p xs u s HR Hnew.
  - exists (ifaces u), (lists s). cbn [init_ifaces]. split_and!; [|done|lia|done].
    unfold ret. rewrite Z.mul_0_r, Z.add_0_r. by destruct u, s.
  - cbn [init_ifaces new_nodes]. unfold in_core. unfold bind at 1. cbn [modify].
    set (u1 := u_ifaces (<[p := UsbIface [] 0 0 0 dev_ 0]> (ifaces u)) u).
    assert (iface_node p ∉ iface_list dev_ :: xs) as Hp by (apply Hnew; cbn; apply elem_of_cons; by left).
    destruct (add_first_spec (<[iface_node p := LNode 0 0]> (lists s)) (iface_list dev_) xs (iface_node p) (LNode 0 0))
      as (L1 & E1 & HR1 & _); [|by rewrite lookup_insert_eq|done|].
    { destruct HR as [Hc Hnd]. split; [|done]. by apply cseg_out. }
    destruct (IH (p + sizeof_usb_iface) (iface_node p :: xs) u1 (with_lists L1 s)) as (I & L & E & HRL & HI & HF); [done| |].
    { intros x Hx. rewrite !not_elem_of_cons. pose proof Hx as Hx'. apply in_new_nodes in Hx' as (k & Hk & Ex).
      assert (x ∉ iface_list dev_ :: xs) as [? ?]%not_elem_of_cons by (apply Hnew; cbn; apply elem_of_cons; by right).
      split_and!; try done. unfold iface_node, sizeof_usb_iface in *. lia. }
    exists I, L. split_and!.
    + rewrite (bind_Ret (new_node (iface_node p)) _ _ tt (u1 ↑ with_lists (<[iface_node p := LNode 0 0]> (lists s)) s)) by done.
      rewrite (bind_Ret (in_lists _) _ _ tt (u1 ↑ with_lists L1 s)) by (unfold in_lists, zoom; cbn; by rewrite E1).
      etrans; [exact E|]. do 2 f_equal. unfold sizeof_usb_iface. lia.
    + cbn. by rewrite <- app_assoc.
    + intros k Hk. destruct (decide (k = 0)) as [->|].
      * rewrite Z.mul_0_r, Z.add_0_r. apply HF. unfold u1. cbn. by rewrite lookup_insert_eq.
      * replace (p + sizeof_usb_iface * k) with (p + sizeof_usb_iface + sizeof_usb_iface * (k - 1)) by (unfold sizeof_usb_iface; lia).
        apply HI. lia.
    + intros x Hx. apply HF. unfold u1. cbn. rewrite lookup_insert_is_Some. destruct (decide (p = x)); [by left|by right].
Qed.

(** The three arrays. *)
Lemma init_descriptors_run dev_ nc ni ne xs u (s : st) dv :
  0 ≤ nc → 0 ≤ ni → 0 ≤ ne → devs u !! dev_ = Some dv →
  ring (lists s) (iface_list dev_) xs →
  (∀ x, x ∈ new_nodes (Z.to_nat ni) (cfg_addr (configs dv) nc) → x ∉ iface_list dev_ :: xs) →
  ∃ u' L, usbc_init_descriptors dev_ nc ni ne (u ↑ s) = Ret (tt, u' ↑ with_lists L s) ∧
    ring L (iface_list dev_) (rev (new_nodes (Z.to_nat ni) (cfg_addr (configs dv) nc)) ++ xs) ∧
    same_core u u' ∧ devs u' = devs u ∧
    (∀ k, 0 ≤ k < nc → is_Some (cfgs u' !! cfg_addr (configs dv) k)) ∧
    (∀ k, 0 ≤ k < ni → is_Some (ifaces u' !! iface_addr (configs dv) nc k)) ∧
    (∀ k, 0 ≤ k < ne → is_Some (eps u' !! ep_addr (configs dv) nc ni k)).
Proof.
  intros Hc Hi He Hd HR Hnew.
  destruct (init_configs_run (Z.to_nat nc) (configs dv) u s) as (C & EC & HC & _).
  rewrite Z2Nat.id in EC by done. change (configs dv + _) with (cfg_addr (configs dv) nc) in EC.
  destruct (init_ifaces_run (Z.to_nat ni) dev_ (cfg_addr (configs dv) nc) xs (u_cfgs C u) s) as (I & L & EI & HRL & HI & _); [done..|].
  rewrite Z2Nat.id in EI by done. change (cfg_addr (configs dv) nc + _) with (iface_addr (configs dv) nc ni) in EI.
  destruct (init_eps_run (Z.to_nat ne) (iface_addr (configs dv) nc ni) (u_ifaces I (u_cfgs C u)) (with_lists L s)) as (E & EE & HE & _).
  eexists (u_eps E (u_ifaces I (u_cfgs C u))), L. split_and!; try done.
  - unfold usbc_init_descriptors, get_dev. rewrite (bind_get devs dev_ _ u s dv Hd).
    rewrite (bind_Ret _ _ _ _ _ EC), (bind_Ret _ _ _ _ _ EI), (bind_Ret _ _ _ _ _ EE). done.
  - intros k Hk. apply HC. lia.
  - intros k Hk. apply HI. lia.
  - intros k Hk. apply HE. lia.
Qed.
End Init.

(** The size of the block for a tree. *)
Definition tree_size (cs : list cfg_tree) : Z :=
  zlen cs * sizeof_usb_config + zlen (all_ifaces cs) * sizeof_usb_iface + zlen (all_eps (all_ifaces cs)) * sizeof_usb_ep.

Section Roundtrip.
Context {D S : Type} `{Mmio D} `{ByteAlloc S}.
#[local] Notation st := (@hc D S usb).
#[local] Notation "u ↑ s" := (with_upper u s) (at level 20).

Lemma bind_get_mem {B} (k : mem → M st B) (s : st) : bind (in_bytes (gets id)) k s = k (mem_of s) s.
Proof.
  apply bind_Ret. unfold in_bytes, in_pool, zoom, in_arena, Umalloc.in_heap, zoom, pa_in_mem, zoom, gets.
  fold (mem_of s). unfold mem_of at 2. rewrite pa_put_mem. by destruct s as [? ? ? []].
Qed.
Lemma upper_id (s : st) : upper s ↑ s = s.
Proof. by destruct s. Qed.

Lemma alloc_descriptors_run dev_ nc ni ne (s : st) dv a h' n :
  n = nc * sizeof_usb_config + ni * sizeof_usb_iface + ne * sizeof_usb_ep → 0 ≤ n < 2 ^ 32 →
  devs (upper s) !! dev_ = Some dv → ba_malloc n 0 (snd (pool s)) = Ret (a, h') → a ≠ 0 →
  usbc_alloc_descriptors dev_ nc ni ne s =
    Ret (1, u_devs (<[dev_ := set_total n (set_configs a (num_configs dv) dv)]> (devs (upper s))) (upper s)
              ↑ with_pool (fst (pool s), h') s).
Proof.
  intros -> Hn Hd Ha Ha0. unfold usbc_alloc_descriptors. rewrite u32_small by lia.
  rewrite (bind_Ret _ _ s a (upper s ↑ with_pool (fst (pool s), h') s)).
  - rewrite (bind_upd_dev dev_ _ _ (upper s) _ dv) by done. by rewrite (eqb_false a 0).
  - unfold in_pool, zoom, Umalloc.in_heap, zoom. rewrite Ha. by destruct s.
Qed.

(** C17. Parsing undoes flattening: when the answer of a device is the flattening of a tree of
    configurations, interfaces and endpoints, each descriptor of it followed by any
    descriptors of other types, [usbc_parse_descriptors] gives 1, with a block of the size of the tree
    as the device's configurations; following the pointers and counts of the structures
    in the block gives the tree back, and all its interfaces are on the device's list. *)
Theorem usb_descriptors_roundtrip fuel dev_ data size (s : st) dv cs a h' xs :
  Forall cfg_ok cs → total_size (flat_cfgs cs) = size → 0 ≤ data → data + size < 2 ^ 32 →
  reads (ld8 (mem_of s)) data (concat (flat_cfgs cs)) →
  devs (upper s) !! dev_ = Some dv → 0 ≤ num_configs dv < 2 ^ 32 → ring (lists s) (iface_list dev_) xs →
  ba_malloc (tree_size cs) 0 (snd (pool s)) = Ret (a, h') → 0 < a → a + tree_size cs < 2 ^ 32 →
  (∀ x, data ≤ x < data + size → ld8 (pa_mem h') x = ld8 (mem_of s) x) →
  (∀ x, x ∈ iface_list dev_ :: xs → ¬ a ≤ x < a + tree_size cs) →
  (length (flat_cfgs cs) < fuel)%nat →
  ∃ s', usbc_parse_descriptors fuel dev_ data size s = Ret (1, s') ∧
    devs (upper s') !! dev_ =
      Some (set_total (tree_size cs) (set_configs a (u32 (num_configs dv + zlen cs)) dv)) ∧
    read_cfgs (upper s') (length cs) a = Some (map bare_cfg cs) ∧
    ring (lists s') (iface_list dev_)
      (rev (new_nodes (length (all_ifaces cs)) (a + sizeof_usb_config * zlen cs)) ++ xs).
Proof.
  intros Hok Hsz Hd0 Hd1 Hr Hdv Hnum HR Hal Ha0 Ha1 Hmem Hfree Hf.
  destruct (flat_cfgs_ok cs Hok) as [Hg Hcnt]. unfold counts in Hcnt. simplify_eq Hcnt. intros Ee Ei Ec.
  pose proof (desc_total_nonneg (flat_cfgs cs)).
  pose proof (zlen_nonneg cs). pose proof (zlen_nonneg (all_ifaces cs)). pose proof (zlen_nonneg (all_eps (all_ifaces cs))).
  assert (reads (λ i, ld8 (mem_of s) (u32 (data + i))) 0 (concat (flat_cfgs cs))) as Hrv.
  { intros k b Hk. rewrite Z.add_0_l, u32_small; [by apply Hr|].
    apply lookup_lt_Some in Hk. unfold total_size in Hsz. lia. }
  assert (usbc_verify_descriptors fuel (λ i, ld8 (mem_of s) (u32 (data + i))) size tt =
    Ret (Some (zlen cs, zlen (all_ifaces cs), zlen (all_eps (all_ifaces cs))), tt)) as Ev.
  { rewrite <- Hsz, verify_all by (done || lia). by rewrite Ee, Ei, Ec. }
  unfold usbc_parse_descriptors. rewrite bind_get_mem.
  rewrite (bind_Ret _ _ s (Some (zlen cs, zlen (all_ifaces cs), zlen (all_eps (all_ifaces cs)))) s) by (by rewrite Ev).
  cbv beta iota.
  assert (0 ≤ tree_size cs) by (unfold tree_size, sizeof_usb_config, sizeof_usb_iface, sizeof_usb_ep; lia).
  rewrite (bind_Ret _ _ _ _ _ (alloc_descriptors_run dev_ _ _ _ s dv a h' (tree_size cs) eq_refl ltac:(lia) Hdv Hal ltac:(lia))).
  change (1 =? 0) with false. cbv iota.
  set (dv1 := set_total _ _). set (u1 := u_devs _ _). set (s1 := with_pool _ s).
  destruct (init_descriptors_run dev_ (zlen cs) (zlen (all_ifaces cs)) (zlen (all_eps (all_ifaces cs))) xs u1 s1 dv1)
    as (u2 & L & E2 & HRL & Hsc & Hdv2 & Hpc & Hpi & Hpe); try done.
  { unfold u1. cbn. by rewrite lookup_insert_eq. }
  { intros x Hx Hin. apply in_new_nodes in Hx as (k & Hk & ->). apply (Hfree _ Hin). unfold cfg_addr, tree_size in *.
    cbn [dv1 configs set_total set_configs]. unfold zlen, sizeof_usb_config, sizeof_usb_iface, sizeof_usb_ep in *. lia. }
  rewrite (bind_Ret _ _ _ _ _ E2). change (configs dv1) with a in *.
  assert (devs u2 !! dev_ = Some dv1) as Hd2 by (rewrite Hdv2; unfold u1; cbn; by rewrite lookup_insert_eq).
  unfold get_dev. rewrite (bind_get devs dev_ _ u2 _ dv1) by done. change (configs dv1) with a.
  destruct (parse_cfgs dev_ data size a (zlen cs) (zlen (all_ifaces cs)) (zlen (all_eps (all_ifaces cs)))
    ltac:(done) ltac:(done) ltac:(unfold tree_size in *; lia) ltac:(done) cs (fuel - length (flat_cfgs cs)) 0 0 0 0 0 0
    u2 (with_lists L s1) dv1) as (u3 & lc & lf & E3 & _ & Hd3 & Hat & _); try done; try lia.
  { rewrite Z.add_0_r. intros k b Hk. change (mem_of (with_lists L s1)) with (pa_mem h').
    pose proof (lookup_lt_Some _ _ _ Hk) as Hlk. rewrite Hmem; [by apply Hr|]. unfold total_size in Hsz. lia. }
  replace (length (flat_cfgs cs) + (fuel - length (flat_cfgs cs)))%nat with fuel in E3 by lia.
  rewrite E3, Z.add_0_l, Hsz. destruct (fuel - length (flat_cfgs cs))%nat eqn:Ef; [lia|].
  cbn [parse_loop]. rewrite Z.ltb_irrefl. eexists. split; [reflexivity|]. split_and!.
  - cbn. rewrite Hd3, lookup_insert_eq. by destruct dv.
  - eapply cfgs_at_read. cbn. unfold cfg_addr in Hat at 1. rewrite Z.mul_0_r, Z.add_0_r in Hat. exact Hat.
  - cbn. unfold zlen at 1 in HRL. rewrite Nat2Z.id in HRL. exact HRL.
Qed.
End Roundtrip.

(** ** The descriptors of a mouse *)

Definition mouse : list cfg_tree :=
  [CfgTree [9; 2; 34; 0; 1; 1; 0; 160; 50] []
    [IfaceTree [9; 4; 0; 0; 1; 3; 1; 2; 0] [[9; 33; 17; 1; 0; 1; 34; 46; 0]] [EpTree [7; 5; 129; 3; 8; 0; 10] []]]].

(** An allocator that has one block to give. *)
Definition one_block : ByteAlloc mm (H := mm_pages 2) :=
  {| ba_malloc _ _ := ret 0x2000; ba_free _ := ret tt |}.
Definition mouse_dev : usb_dev := UsbDev [] 0 0 0 [] 0 0 8 [] [].
Definition mouse_state : @hc bank mm usb :=
  Hc (Bank ∅ []) (<[0x1058 := LNode 0x1058 0x1058]> ∅) ∅
    (Desc 0 0 0 0 0, Mm (write_bytes ∅ 0x100 (concat (flat_cfgs mouse))) []) 0 [] 0 0 0
    (Usb USB_ENUM_GET_DESCRIPTORS 0x1000 1 {[0x1000 := mouse_dev]} ∅ ∅ ∅ ∅).

Lemma mouse_ok : Forall cfg_ok mouse.
Proof. repeat constructor; cbn; lia. Qed.

Lemma usb_descriptors_roundtrip_witness :
  ∃ s', usbc_parse_descriptors (H1 := one_block) 5 0x1000 0x100 34 mouse_state = Ret (1, s') ∧
    read_cfgs (upper s') 1 0x2000 = Some (map bare_cfg mouse) ∧ ring (lists s') 0x1058 [0x2038].
Proof.
  destruct (usb_descriptors_roundtrip (H1 := one_block) 5 0x1000 0x100 34 mouse_state mouse_dev mouse 0x2000
    (Mm (write_bytes ∅ 0x100 (concat (flat_cfgs mouse))) []) [] mouse_ok) as (s' & E & _ & Hr & HR).
  - by vm_compute.
  - lia.
  - lia.
  - intros k b Hk. pose proof (lookup_lt_Some _ _ _ Hk) as Hl.
    change (concat (flat_cfgs mouse)) with (concat ex_descs) in *.
    assert (read_bytes (mem_of (H0 := mm_pages 2) mouse_state) 0x100 34 = concat ex_descs) as Eb by (by vm_compute).
    change (k < 34)%nat in Hl. rewrite <- Eb, lookup_read_bytes in Hk by exact Hl. apply (inj Some) in Hk. exact Hk.
  - done.
  - by cbn.
  - split; [by cbn|apply NoDup_singleton].
  - done.
  - lia.
  - by vm_compute.
  - done.
  - intros x ->%list_elem_of_singleton. change (tree_size mouse) with 76. unfold iface_list. lia.
  - cbn. lia.
  - exists s'. split_and!; [exact E|exact Hr|exact HR].
Defined.
