(* ===== verification/Game.v ===== *)
(** * Tic-tac-toe (apps/tictactoe/src/game.c)

    The application that is loaded and run by the kernel.  Its system calls are those of Syscall.v as a
    thread sees them: [input k] are the characters the k-th [syscall_read_print] takes out of the
    receive queue, and the calls that print and sleep are recorded in order. *)

From S2P Require Import Prelude.

Definition SIZE : Z := 3.

Inductive event : Type :=
  | Print (data : string) (obj : list Z)
  | Sleep (ms : Z).

Record game : Type := Game {
  rec_buffer : list Z;
  board : list Z;
  turn : Z;
  waiting_move : Z;
  events : list event;
  reads : nat
}.

Definition emit (l : list event) (s : game) : game :=
  Game (rec_buffer s) (board s) (turn s) (waiting_move s) (events s ++ l) (reads s).
Definition set_board (b : list Z) (s : game) : game :=
  Game (rec_buffer s) b (turn s) (waiting_move s) (events s) (reads s).
Definition set_turn (t : Z) (s : game) : game :=
  Game (rec_buffer s) (board s) t (waiting_move s) (events s) (reads s).
Definition set_waiting (w : Z) (s : game) : game :=
  Game (rec_buffer s) (board s) (turn s) w (events s) (reads s).

Definition print (data : string) (obj : list Z) : M game unit := modify (emit [Print data obj]).
Definition syscall_thread_sleep (ms : Z) : M game unit := modify (emit [Sleep ms]).
(** A square of the board; the pointers of the program point into it. *)
Definition square (i : Z) : M game Z := let* b := gets board in of_option (b !! Z.to_nat i).

Section Game.
Variable input : nat → list Z.

(** Up to [size] characters are put in front of what the buffer holds; gives their number. *)
Definition syscall_read_print (size : Z) : M game Z := λ s,
  let data := take (Z.to_nat size) (input (reads s)) in
  Ret (Z.of_nat (length data),
       Game (data ++ drop (length data) (rec_buffer s)) (board s) (turn s) (waiting_move s) (events s) (S (reads s))).

(** ** The winner *)

(** [for (j = 0; j < SIZE; j++) { if ( *ptr != winner) { winner = 0; break; } ptr += step; }] *)
Fixpoint line_loop (n : nat) (ptr step winner : Z) : M game Z :=
  match n with
  | O => ret winner
  | S n =>
      let* v := square ptr in
      if negb (v =? winner) then ret 0 else line_loop n (ptr + step) step winner
  end.
Definition line_piece (ptr step : Z) : M game Z :=
  let* winner := square ptr in line_loop (Z.to_nat SIZE) ptr step winner.

Fixpoint rows_loop (n : nat) (i : Z) : M game Z :=
  match n with
  | O => ret 0
  | S n =>
      let* winner := line_piece (i * SIZE) 1 in
      if negb (winner =? 0) then ret winner else rows_loop n (i + 1)
  end.
Fixpoint columns_loop (n : nat) (i : Z) : M game Z :=
  match n with
  | O => ret 0
  | S n =>
      let* winner := line_piece i SIZE in
      if negb (winner =? 0) then ret winner else columns_loop n (i + 1)
  end.

Definition check_winner (size : Z) : M game Z :=
  let* winner := rows_loop (Z.to_nat size) 0 in
  if negb (winner =? 0) then ret winner else
  let* winner := columns_loop (Z.to_nat size) 0 in
  if negb (winner =? 0) then ret winner else
  let* winner := line_piece 0 (SIZE + 1) in
  if negb (winner =? 0) then ret winner else
  let* winner := line_piece (SIZE - 1) (SIZE - 1) in
  if negb (winner =? 0) then ret winner else ret 0.

(** ** The board on the screen *)

(** [while (size--)], for a size of eight bits. *)
Fixpoint draw_spacing_loop (size : nat) : M game unit :=
  match size with
  | O => ret tt
  | S size => print "|-----" [] ;; draw_spacing_loop size
  end.
Definition draw_spacing (size : Z) : M game unit :=
  draw_spacing_loop (Z.to_nat size) ;; print "|\n" [].

Fixpoint draw_row_loop (data : Z) (size : nat) : M game unit :=
  match size with
  | O => ret tt
  | S size =>
      let* v := square data in
      let piece := if v =? 1 then 88 else if v =? 2 then 79 else 32 in
      print "|  %c  " [piece] ;;
      draw_row_loop (data + 1) size
  end.
Definition draw_row (data size : Z) : M game unit :=
  draw_row_loop data (Z.to_nat size) ;; print "|\n" [].

Fixpoint draw_loop (n : nat) (i : Z) : M game unit :=
  match n with
  | O => ret tt
  | S n => draw_spacing SIZE ;; draw_row (i * SIZE) SIZE ;; draw_loop n (i + 1)
  end.
Definition draw_board : M game unit :=
  print "\n\n" [] ;; draw_loop (Z.to_nat SIZE) 0 ;; draw_spacing SIZE.

(** ** Moves *)

(** The column and the row of a move are digits; [u8] wraps, so that a character below '1' is out
    of range. *)
Definition add_piece (piece : Z) : M game Z :=
  let* data := gets rec_buffer in
  let* d0 := of_option (data !! 0%nat) in
  let* d1 := of_option (data !! 1%nat) in
  let x_pos := u8 (d0 - 48) in
  let y_pos := u8 (d1 - 48) in
  let x_pos := u8 (x_pos - 1) in
  let y_pos := u8 (y_pos - 1) in
  if (SIZE <=? x_pos) || (SIZE <=? y_pos) then ret 0 else
  let* v := square (SIZE * y_pos + x_pos) in
  if v =? 0 then
    modify (λ s, set_board (<[Z.to_nat (SIZE * y_pos + x_pos) := piece]> (board s)) s) ;;
    ret 1
  else ret 0.

Definition game_init : M game unit :=
  modify (set_board (replicate (Z.to_nat (SIZE * SIZE)) 0)) ;;
  modify (set_turn 1) ;;
  modify (set_waiting 0).

(** The body of the loop; gives the winner. *)
Definition game_round (winner : Z) : M game Z :=
  let* waiting := gets waiting_move in
  (if waiting =? 0 then
     let* t := gets turn in
     (if t =? 1 then modify (set_turn 2) else modify (set_turn 1)) ;;
     let* t := gets turn in
     (if t =? 1 then print "X" [] else if t =? 2 then print "O" [] else ret tt) ;;
     print "'s turn: " [] ;;
     modify (set_waiting 1)
   else ret tt) ;;
  let* status := syscall_read_print 16 in
  let* winner :=
    (if status =? 2 then
       let* t := gets turn in
       let* ok := add_piece t in
       if negb (ok =? 0) then
         let* winner := check_winner SIZE in
         modify (set_waiting 0) ;;
         print "\n" [] ;;
         draw_board ;;
         ret winner
       else
         print "\nTry again\n" [] ;;
         ret winner
     else ret winner) in
  syscall_thread_sleep 10 ;;
  ret winner.

(** [do ... while (winner == 0);], at most [n] times. *)
Fixpoint game_rounds (n : nat) (winner : Z) : M game Z :=
  match n with
  | O => hang
  | S n =>
      let* winner := game_round winner in
      if winner =? 0 then game_rounds n winner else ret winner
  end.
Definition game_loop (n : nat) : M game unit :=
  let* winner := game_rounds n 0 in
  print "Winner is %d\n" [winner].

Definition main (n : nat) : M game Z :=
  game_init ;; draw_board ;; game_loop n ;; ret 1.
End Game.

(** ** The rules *)

Definition X : Z := 1.
Definition O_ : Z := 2.
Definition other (p : Z) : Z := if p =? X then O_ else X.

(** The eight lines, as squares numbered row by row. *)
Definition lines : list (list nat) :=
  [[0; 1; 2]; [3; 4; 5]; [6; 7; 8]; [0; 3; 6]; [1; 4; 7]; [2; 5; 8]; [0; 4; 8]; [2; 4; 6]]%nat.
(** Player [p] holds a whole line. *)
Definition holds_line (b : list Z) (p : Z) : Prop := ∃ l, l ∈ lines ∧ ∀ i, i ∈ l → b !! i = Some p.

Record position : Type := Position { squares : list Z; to_move : Z }.
Definition start : position := Position (replicate 9 0) O_.

(** The square a text names: two digits from 1 to 3, column and row. *)
Definition named (text : list Z) : option nat :=
  match text with
  | [c; r] => if (49 <=? c) && (c <=? 51) && (49 <=? r) && (r <=? 51) then Some (Z.to_nat (3 * (r - 49) + (c - 49))) else None
  | _ => None
  end.
(** The position after the move: the named square must be empty. *)
Definition move (p : position) (text : list Z) : option position :=
  i ← named text; v ← squares p !! i;
  if v =? 0 then Some (Position (<[i := to_move p]> (squares p)) (other (to_move p))) else None.

(** The player who holds a line, 0 if there is none. *)
Definition line_owner (b : list Z) (l : list nat) : Z :=
  match l with
  | [i; j; k] => if (b !!! j =? b !!! i) && (b !!! k =? b !!! i) then b !!! i else 0
  | _ => 0
  end.
Definition first_nonzero (a b : Z) : Z := if a =? 0 then b else a.
Definition owner (b : list Z) : Z := foldr first_nonzero 0 (map (line_owner b) lines).

(** A game against the texts that arrive from the [k]-th poll on: the winner and the final position, if
    the game ends within [n] polls. *)
Fixpoint play (input : nat → list Z) (n k : nat) (p : position) : option (Z * position) :=
  match n with
  | O => None
  | S n =>
      match move p (input k) with
      | Some p' => if owner (squares p') =? 0 then play input n (S k) p' else Some (owner (squares p'), p')
      | None => play input n (S k) p
      end
  end.

(** What the screen shows. *)
Definition mark (v : Z) : Z := if v =? X then 88 else if v =? O_ then 79 else 32.
Definition spacing : list event := [Print "|-----" []; Print "|-----" []; Print "|-----" []; Print "|\n" []].
Definition row_picture (b : list Z) (i : nat) : list event :=
  map (λ j, Print "|  %c  " [mark (b !!! (3 * i + j)%nat)]) [0; 1; 2]%nat ++ [Print "|\n" []].
Definition picture (b : list Z) : list event :=
  Print "\n\n" [] :: concat (map (λ i, spacing ++ row_picture b i) [0; 1; 2]%nat) ++ spacing.

(** ** The board and the winner *)

(** A board with pieces of the two players, and the state of the program between two polls. *)
Definition board_ok (b : list Z) : Prop := length b = 9%nat ∧ Forall (λ v, v = 0 ∨ v = X ∨ v = O_) b.
Definition game_ok (s : game) : Prop :=
  board_ok (board s) ∧ (turn s = X ∨ turn s = O_) ∧ (waiting_move s = 0 ∨ waiting_move s = 1).
Definition position_of (s : game) : position :=
  Position (board s) (if waiting_move s =? 0 then other (turn s) else turn s).

Lemma square_run i s : 0 ≤ i < 9 → length (board s) = 9%nat → square i s = Ret (board s !!! Z.to_nat i, s).
Proof.
  intros Hi Hl. unfold square, bind, gets. destruct (lookup_lt_is_Some_2 (board s) (Z.to_nat i)) as [v E]; [lia|].
  by rewrite E, (list_lookup_total_correct _ _ _ E).
Qed.

(** The squares of a line by number. *)
Lemma line_piece_run i step s x y z :
  length (board s) = 9%nat → Z.of_nat x = i → Z.of_nat y = i + step → Z.of_nat z = i + step + step →
  (x < 9 → y < 9 → z < 9 → line_piece i step s = Ret (line_owner (board s) [x; y; z], s))%nat.
Proof.
  intros Hl <- Ey Ez Hx Hy Hz. unfold line_piece. change (Z.to_nat SIZE) with 3%nat. cbn [line_loop line_owner].
  assert (∀ k : nat, (k < 9)%nat → square (Z.of_nat k) s = Ret (board s !!! k, s)) as R.
  { intros k Hk. rewrite square_run by lia. by rewrite Nat2Z.id. }
  rewrite (bind_Ret _ _ _ _ _ (R x Hx)), (bind_Ret _ _ _ _ _ (R x Hx)), Z.eqb_refl. cbn [negb].
  rewrite <- Ez, <- Ey, (bind_Ret _ _ _ _ _ (R y Hy)).
  destruct (_ =? _); cbn [negb andb]; [|done].
  rewrite (bind_Ret _ _ _ _ _ (R z Hz)). by destruct (_ =? _).
Qed.

(** One line in the order of the program. *)
Ltac line x y z Hl :=
  rewrite ?bind_bind; erewrite bind_Ret by (apply (line_piece_run _ _ _ x y z Hl); try reflexivity; lia);
  let E := fresh "E" in
  destruct (line_owner _ [x; y; z] =? 0) eqn:E; cbn [negb]; rewrite ?bind_ret, ?E; cbn [negb Z.eqb];
  [|unfold first_nonzero; repeat match goal with H : _ = _ |- _ => rewrite H end; reflexivity].

Lemma check_winner_run s : length (board s) = 9%nat → check_winner SIZE s = Ret (owner (board s), s).
Proof.
  intros Hl. unfold check_winner, owner. change (Z.to_nat SIZE) with 3%nat. cbn [rows_loop columns_loop lines map foldr].
  line 0%nat 1%nat 2%nat Hl. line 3%nat 4%nat 5%nat Hl. line 6%nat 7%nat 8%nat Hl. line 0%nat 3%nat 6%nat Hl.
  line 1%nat 4%nat 7%nat Hl. line 2%nat 5%nat 8%nat Hl. line 0%nat 4%nat 8%nat Hl. line 2%nat 4%nat 6%nat Hl.
  unfold first_nonzero. repeat match goal with H : (_ =? _) = _ |- _ => rewrite H; clear H end. reflexivity.
Qed.

(** ** The screen *)

Lemma emit_emit l1 l2 s : emit l2 (emit l1 s) = emit (l1 ++ l2) s.
Proof. unfold emit. cbn. by rewrite app_assoc. Qed.
(** [shows c l] says that the program only prints [l]. *)
Definition shows (c : M game unit) (l : list Z → list event) : Prop :=
  ∀ s, length (board s) = 9%nat → c s = Ret (tt, emit (l (board s)) s).

Lemma shows_print d o : shows (print d o) (λ _, [Print d o]).
Proof. by intros s _. Qed.
Lemma shows_nil : shows (ret tt) (λ _, []).
Proof. intros s _. unfold emit, ret. rewrite app_nil_r. by destruct s. Qed.
Lemma shows_bind c1 c2 l1 l2 : shows c1 l1 → shows c2 l2 → shows (c1 ;; c2) (λ b, l1 b ++ l2 b).
Proof. intros H1 H2 s Hl. by rewrite (bind_Ret _ _ _ _ _ (H1 s Hl)), H2, emit_emit. Qed.
Lemma shows_ext c l l' : (∀ b, l b = l' b) → shows c l → shows c l'.
Proof. intros E H s Hl. by rewrite H, E. Qed.

Lemma shows_spacing : shows (draw_spacing SIZE) (λ _, spacing).
Proof.
  unfold draw_spacing. change (Z.to_nat SIZE) with 3%nat. cbn [draw_spacing_loop].
  eapply shows_ext; [|repeat first [apply shows_print | apply shows_nil | apply shows_bind]]. done.
Qed.

Lemma shows_row (i : nat) : (i < 3)%nat → shows (draw_row (Z.of_nat i * SIZE) SIZE) (λ b, row_picture b i).
Proof.
  intros Hi. unfold draw_row. change (Z.to_nat SIZE) with 3%nat. unfold row_picture. apply shows_bind; [|apply shows_print].
  assert (∀ c k (j : nat) l, Z.of_nat j = c → (j < 9)%nat → shows k l →
    shows (let* v := square c in print "|  %c  " [if v =? 1 then 88 else if v =? 2 then 79 else 32] ;; k)
          (λ b, Print "|  %c  " [mark (b !!! j)] :: l b)) as Hs.
  { intros c k j l <- Hj Hk s Hl. rewrite (bind_Ret _ _ _ _ _ (square_run (Z.of_nat j) s ltac:(lia) Hl)), Nat2Z.id.
    by apply (shows_bind _ _ _ _ (shows_print _ _) Hk). }
  cbn [draw_row_loop map]. apply (Hs _ _ (3 * i + 0)%nat); [unfold SIZE; lia|lia|].
  apply (Hs _ _ (3 * i + 1)%nat); [unfold SIZE; lia|lia|]. apply (Hs _ _ (3 * i + 2)%nat); [unfold SIZE; lia|lia|].
  apply shows_nil.
Qed.

Lemma shows_board : shows draw_board picture.
Proof.
  unfold draw_board. change (Z.to_nat SIZE) with 3%nat. cbn [draw_loop].
  eapply shows_ext; [|repeat first [apply shows_print | apply shows_spacing | apply (shows_row 0); lia | apply (shows_row 1); lia
    | apply (shows_row 2); lia | apply shows_nil | apply shows_bind]].
  intros b. unfold picture. cbn [map concat]. by rewrite <- !app_assoc.
Qed.

(** ** Lines *)

Lemma line_owner_holds b i j k p : length b = 9%nat → (i < 9 → j < 9 → k < 9 →
  p ≠ 0%Z → line_owner b [i; j; k] = p ↔ b !! i = Some p ∧ b !! j = Some p ∧ b !! k = Some p)%nat.
Proof.
  intros Hl Hi Hj Hk Hp. cbn [line_owner].
  rewrite !list_lookup_alt. rewrite Hl.
  destruct (Z.eqb_spec (b !!! j) (b !!! i)); [destruct (Z.eqb_spec (b !!! k) (b !!! i))|]; cbn [andb]; intuition congruence.
Qed.

Lemma owner_first b : owner b = 0 ∧ Forall (λ l, line_owner b l = 0) lines ∨
  owner b ≠ 0 ∧ ∃ l, l ∈ lines ∧ line_owner b l = owner b.
Proof.
  unfold owner. generalize lines. induction l as [|l ls IH]; [left; split; [done|constructor]|].
  cbn [map foldr]. unfold first_nonzero at 1 3 5. destruct (Z.eqb_spec (line_owner b l) 0) as [E|E].
  - destruct IH as [[IH1 IH2]|[IH1 (l' & H1 & H2)]]; [left; auto|right]. split; [done|]. exists l'. split; [by right|done].
  - right. split; [done|]. exists l. split; [by left|done].
Qed.

Lemma lines_three l : l ∈ lines → ∃ i j k, l = [i; j; k] ∧ (i < 9 ∧ j < 9 ∧ k < 9)%nat.
Proof.
  intros H. unfold lines in H. repeat (apply elem_of_cons in H as [->|H]; [eexists _, _, _; split; [reflexivity|lia]|]).
  by apply elem_of_nil in H.
Qed.
Lemma holds_line_iff b p : length b = 9%nat → p ≠ 0 → holds_line b p ↔ ∃ l, l ∈ lines ∧ line_owner b l = p.
Proof.
  intros Hl Hp. split; intros (l & Hin & H); exists l; (split; [done|]); destruct (lines_three l Hin) as (i & j & k & -> & Hi & Hj & Hk).
  - apply line_owner_holds; auto. split_and!; apply H; set_solver.
  - apply line_owner_holds in H as (H1 & H2 & H3); auto. intros x Hx.
    repeat (apply elem_of_cons in Hx as [->|Hx]; [done|]). by apply elem_of_nil in Hx.
Qed.

Lemma owner_zero b : length b = 9%nat → owner b = 0 ↔ ∀ p, p ≠ 0 → ¬ holds_line b p.
Proof.
  intros Hl. split.
  - intros E p Hp H. apply holds_line_iff in H as (l & Hin & H); [|done..].
    destruct (owner_first b) as [[_ F]|[F _]]; [|done]. rewrite Forall_forall in F. specialize (F l Hin). congruence.
  - intros H. destruct (owner_first b) as [[F _]|[F (l & Hin & E)]]; [done|]. destruct (H (owner b) F).
    apply holds_line_iff; [done..|]. eauto.
Qed.
Lemma owner_holds b : length b = 9%nat → owner b ≠ 0 → holds_line b (owner b).
Proof.
  intros Hl Ho. destruct (owner_first b) as [[F _]|[F (l & Hin & E)]]; [done|]. apply holds_line_iff; eauto.
Qed.

(** A move on a board without a line makes lines of the mover only. *)
Lemma new_line b i p q : holds_line (<[i := p]> b) q → ¬ holds_line b q → q = p.
Proof.
  intros (l & Hin & H) Hn. destruct (decide (i ∈ l)) as [Hi|Hi].
  - specialize (H i Hi). rewrite list_lookup_insert in H. destruct (decide _) as [D|D]; [congruence|]. apply lookup_lt_Some in H. lia.
  - destruct Hn. exists l. split; [done|]. intros x Hx. rewrite <- (H x Hx). rewrite list_lookup_insert_ne; [done|set_solver].
Qed.

(** ** A round *)

Definition byte_text (l : list Z) : Prop := Forall (λ c, 0 ≤ c < 256) l.
Definition position_ok (p : position) : Prop := board_ok (squares p) ∧ (to_move p = X ∨ to_move p = O_).

Lemma named_u8 c r : 0 ≤ c < 256 → 0 ≤ r < 256 →
  named [c; r] =
    let x := u8 (u8 (c - 48) - 1) in let y := u8 (u8 (r - 48) - 1) in
    if (SIZE <=? x) || (SIZE <=? y) then None else Some (Z.to_nat (SIZE * y + x)).
Proof.
  intros Hc Hr. cbn [named]. unfold SIZE.
  assert (∀ d, 0 ≤ d < 256 → u8 (u8 (d - 48) - 1) = if d <? 49 then d + 207 else d - 49) as E.
  { intros d Hd. unfold u8. rewrite Zminus_mod_idemp_l. replace (d - 48 - 1) with (d - 49) by lia. destruct (Z.ltb_spec d 49).
    - symmetry. apply Z.mod_unique with (-1); lia.
    - apply Z.mod_small. lia. }
  cbn zeta. rewrite !E by done.
  destruct (Z.ltb_spec c 49), (Z.ltb_spec r 49);
    repeat match goal with |- context [?a <=? ?b] => destruct (Z.leb_spec a b) end; cbn [andb orb]; try lia; try done.
Qed.

Lemma add_piece_run p s c r rest :
  0 ≤ c < 256 → 0 ≤ r < 256 → board_ok (board s) → rec_buffer s = c :: r :: rest →
  add_piece p s = match move (Position (board s) p) [c; r] with
                  | Some q => Ret (1, set_board (squares q) s)
                  | None => Ret (0, s)
                  end.
Proof.
  intros Hc Hr [Hl _] Eb. unfold add_piece, move. cbn [squares to_move].
  rewrite (bind_Ret _ _ _ (rec_buffer s) s eq_refl), Eb. cbn [lookup list_lookup]. cbn [of_option]. rewrite !bind_ret, named_u8 by done. cbn zeta.
  set (x := u8 (u8 (c - 48) - 1)). set (y := u8 (u8 (r - 48) - 1)).
  pose proof (u8_range (u8 (c - 48) - 1) : 0 ≤ x < 256). pose proof (u8_range (u8 (r - 48) - 1) : 0 ≤ y < 256).
  unfold SIZE in *. destruct (Z.leb_spec 3 x), (Z.leb_spec 3 y); cbn [orb]; try done.
  destruct (lookup_lt_is_Some_2 (board s) (Z.to_nat (3 * y + x))) as [v E]; [lia|].
  rewrite (bind_Ret _ _ _ _ _ (square_run (3 * y + x) s ltac:(lia) Hl)), (list_lookup_total_correct _ _ _ E).
  cbn. rewrite E. cbn. by destruct (v =? 0).
Qed.

Lemma move_inv p t q : move p t = Some q →
  ∃ i, squares p !! i = Some 0 ∧ q = Position (<[i := to_move p]> (squares p)) (other (to_move p)).
Proof.
  unfold move. intros E. destruct (named t) as [i|]; [|done]. cbn in E. destruct (squares p !! i) as [v|] eqn:Ev; [|done].
  cbn in E. destruct (Z.eqb_spec v 0) as [->|]; [|done]. exists i. split; [done|congruence].
Qed.
Lemma other_ok p : p = X ∨ p = O_ → other p = X ∨ other p = O_.
Proof. intros [-> | ->]; auto. Qed.
Lemma other_other p : p = X ∨ p = O_ → other (other p) = p.
Proof. by intros [-> | ->]. Qed.
Lemma move_ok p t q : move p t = Some q → position_ok p → position_ok q.
Proof.
  intros (i & _ & ->)%move_inv [[Hl Hf] Ht]. split; [|by apply other_ok]. split; cbn; [by rewrite length_insert|].
  apply Forall_insert; tauto.
Qed.

(** What a round prints: the prompt after an accepted move (and at the beginning), the answer, the pause. *)
Definition prompt (p : Z) : list event := [Print (if p =? X then "X" else "O") []; Print "'s turn: " []].
Definition round_events (fresh : bool) (p : position) (text : list Z) : list event :=
  (if fresh then prompt (to_move p) else []) ++
  match move p text with
  | Some q => Print "\n" [] :: picture (squares q)
  | None => if (length text =? 2)%nat then [Print "\nTry again\n" []] else []
  end ++ [Sleep 10].

Definition after_round (p : position) (text : list Z) : Z * position :=
  match move p text with
  | Some q => (owner (squares q), q)
  | None => (0, p)
  end.

Section Rounds.
Variable input : nat → list Z.
Hypothesis bytes : ∀ k, byte_text (input k).

(** The part before the poll. *)
Definition announced (s : game) : game :=
  if waiting_move s =? 0 then
    Game (rec_buffer s) (board s) (other (turn s)) 1 (events s ++ prompt (other (turn s))) (reads s)
  else s.
Lemma announce_run {A} s (k : M game A) : turn s = X ∨ turn s = O_ →
  (let* waiting := gets waiting_move in
   (if waiting =? 0 then
      let* t := gets turn in
      (if t =? 1 then modify (set_turn 2) else modify (set_turn 1)) ;;
      let* t := gets turn in
      (if t =? 1 then print "X" [] else if t =? 2 then print "O" [] else ret tt) ;;
      print "'s turn: " [] ;;
      modify (set_waiting 1)
    else ret tt) ;; k) s = k (announced s).
Proof.
  intros Ht. destruct s as [rb b t w ev r]. cbn in Ht. unfold announced. cbn [waiting_move].
  cbn. destruct (w =? 0); [|done].
  assert (∀ l a c, (l ++ [a]) ++ [c] = l ++ [a; c] :> list event) as R by (intros; by rewrite <- app_assoc).
  destruct Ht as [-> | ->]; cbn; unfold set_waiting, emit, set_turn; cbn; by rewrite R.
Qed.

(** The part after a poll that gave two characters. *)
Definition answered (a : game) (q : option position) : game :=
  match q with
  | Some q => emit (Print "\n" [] :: picture (squares q)) (set_waiting 0 (set_board (squares q) a))
  | None => emit [Print "\nTry again\n" []] a
  end.
Lemma answer_run a c r rest :
  byte_text [c; r] → board_ok (board a) → (turn a = X ∨ turn a = O_) → rec_buffer a = c :: r :: rest →
  (let* t := gets turn in
   let* ok := add_piece t in
   if negb (ok =? 0) then
     let* winner := check_winner SIZE in
     modify (set_waiting 0) ;; print "\n" [] ;; draw_board ;; ret winner
   else print "\nTry again\n" [] ;; ret 0) a =
  let p := Position (board a) (turn a) in Ret ((after_round p [c; r]).1, answered a (move p [c; r])).
Proof.
  intros [Hc [Hr _]%Forall_cons]%Forall_cons Hb Ht Eb. cbn zeta.
  rewrite (bind_Ret (gets turn) _ a (turn a) a eq_refl). unfold bind at 1. rewrite (add_piece_run _ _ c r rest Hc Hr Hb Eb).
  unfold after_round. destruct (move _ _) as [q|] eqn:Em; [|done]. cbn [Z.eqb negb fst].
  assert (length (squares q) = 9%nat) as Hq by apply (move_ok _ _ _ Em (conj Hb Ht)).
  rewrite (bind_Ret _ _ _ _ _ (check_winner_run (set_board (squares q) a) Hq)).
  rewrite (bind_Ret (modify (set_waiting 0)) _ _ tt (set_waiting 0 (set_board (squares q) a)) eq_refl).
  rewrite <- (bind_bind (print "\n" []) (λ _, draw_board) (λ _, ret _)).
  by rewrite (bind_Ret _ _ _ _ _ (shows_bind _ _ _ _ (shows_print "\n" []) shows_board (set_waiting 0 (set_board (squares q) a)) Hq)).
Qed.

Lemma not_two p text : length text ≠ 2%nat → move p text = None.
Proof. destruct text as [|c [|r [|x text]]]; try done. Qed.

(** The states between polls: waiting for the move of [p], and after the move that led to [p]. *)
Lemma waiting_state s p : position_ok p → board s = squares p → turn s = to_move p → waiting_move s = 1 →
  game_ok s ∧ position_of s = p.
Proof.
  intros [Hb Ht] E1 E2 E3. unfold game_ok, position_of. rewrite E1, E2, E3. destruct p. repeat split; auto; apply Hb.
Qed.
Lemma moved_state s p t q : position_ok p → move p t = Some q → board s = squares q → turn s = to_move p → waiting_move s = 0 →
  game_ok s ∧ position_of s = q.
Proof.
  intros Hp Em E1 E2 E3. destruct (move_inv _ _ _ Em) as (i & _ & Eq). destruct (move_ok _ _ _ Em Hp) as [Hb _].
  unfold game_ok, position_of. rewrite E1, E2, E3. split; [|by rewrite Eq]. repeat split; auto; try apply Hb. apply Hp.
Qed.

Lemma round_run s : game_ok s →
  ∃ s', game_round input 0 s = Ret ((after_round (position_of s) (input (reads s))).1, s') ∧ game_ok s' ∧
    position_of s' = (after_round (position_of s) (input (reads s))).2 ∧ reads s' = S (reads s) ∧
    (waiting_move s' =? 0) = bool_decide (is_Some (move (position_of s) (input (reads s)))) ∧
    events s' = events s ++ round_events (waiting_move s =? 0) (position_of s) (input (reads s)).
Proof using bytes.
  intros (Hb & Ht & Hw). unfold game_round. rewrite announce_run by done.
  set (a := announced s).
  assert (board a = board s ∧ reads a = reads s ∧ turn a = to_move (position_of s) ∧ waiting_move a = 1 ∧
    events a = events s ++ (if waiting_move s =? 0 then prompt (to_move (position_of s)) else [])) as (A1 & A2 & A3 & A4 & A5).
  { unfold a, announced, position_of. cbn [to_move]. destruct (Z.eqb_spec (waiting_move s) 0); [done|]. rewrite app_nil_r. split_and!; auto; lia. }
  clearbody a. set (p := position_of s) in *. set (text := input (reads s)).
  set (a1 := Game (take 16 text ++ drop (length (take 16 text)) (rec_buffer a)) (board a) (turn a) (waiting_move a) (events a) (S (reads a))).
  assert (syscall_read_print input 16 a = Ret (Z.of_nat (length (take 16 text)), a1)) as R.
  { unfold syscall_read_print, a1, text. by rewrite <- A2. }
  rewrite (bind_Ret _ _ _ _ _ R). clear R.
  assert (Position (board a1) (turn a1) = p) as Ep by (cbn; rewrite A1, A3; done).
  assert (position_ok p) as Hp.
  { split; [exact Hb|]. unfold p, position_of. cbn [to_move]. case_match; [by apply other_ok|done]. }
  destruct (decide (length text = 2%nat)) as [L2|L2].
  - destruct text as [|c [|r [|]]] eqn:Et; try done.
    assert (byte_text [c; r]) as Hbt by (rewrite <- Et; apply bytes).
    cbn [take length Z.of_nat Pos.of_succ_nat Pos.succ Z.eqb Pos.eqb].
    rewrite (bind_Ret _ _ _ _ _ (answer_run a1 c r (drop 2 (rec_buffer a)) Hbt ltac:(cbn; congruence) ltac:(cbn; rewrite A3; apply Hp) eq_refl)).
    cbn zeta. rewrite Ep. eexists. split; [reflexivity|].
    assert (turn a1 = to_move p ∧ waiting_move a1 = 1 ∧ reads a1 = S (reads s) ∧ events a1 = events a) as (B1 & B2 & B3 & B4)
      by (cbn; auto).
    assert (board a1 = squares p) as B0 by apply (f_equal squares Ep).
    clearbody a1. unfold after_round, round_events. destruct (move p [c; r]) as [q|] eqn:Em; cbn [answered].
    + destruct (moved_state (emit [Sleep 10] (answered a1 (Some q))) p [c; r] q Hp Em eq_refl B1 eq_refl) as [O1 O2].
      split_and!; [exact O1|exact O2|exact B3|done|]. cbn. by rewrite B4, A5, <- !app_assoc.
    + destruct (waiting_state (emit [Sleep 10] (answered a1 None)) p Hp B0 B1 B2) as [O1 O2].
      split_and!; [exact O1|exact O2|exact B3|cbn; by rewrite B2|]. cbn. by rewrite B4, A5, <- !app_assoc.
  - assert ((Z.of_nat (length (take 16 text)) =? 2) = false) as -> by (apply Z.eqb_neq; rewrite length_take; lia).
    rewrite bind_ret. eexists. split; [unfold after_round; rewrite not_two by done; reflexivity|].
    assert (turn a1 = to_move p ∧ waiting_move a1 = 1 ∧ reads a1 = S (reads s) ∧ events a1 = events a) as (B1 & B2 & B3 & B4)
      by (cbn; auto).
    assert (board a1 = squares p) as B0 by apply (f_equal squares Ep).
    clearbody a1. unfold after_round, round_events. rewrite not_two by done.
    destruct (waiting_state (emit [Sleep 10] a1) p Hp B0 B1 B2) as [O1 O2].
    split_and!; [exact O1|exact O2|exact B3|cbn; by rewrite B2|]. cbn. rewrite B4, A5, <- !app_assoc.
    by destruct (Nat.eqb_spec (length text) 2).
Qed.
(** Everything a game prints, from the [k]-th poll on. *)
Fixpoint play_events (n k : nat) (fresh : bool) (p : position) : list event :=
  match n with
  | O => []
  | S n =>
      round_events fresh p (input k) ++
      match move p (input k) with
      | Some q => if owner (squares q) =? 0 then play_events n (S k) true q else [Print "Winner is %d\n" [owner (squares q)]]
      | None => play_events n (S k) false p
      end
  end.

Lemma loop_plays n s : game_ok s →
  match play input n (reads s) (position_of s) with
  | Some (w, p) => ∃ s', game_loop input n s = Ret (tt, s') ∧ board s' = squares p ∧
      events s' = events s ++ play_events n (reads s) (waiting_move s =? 0) (position_of s)
  | None => game_loop input n s = Hang
  end.
Proof using bytes.
  unfold game_loop. revert s; induction n as [|n IH]; intros s Hs; [done|].
  destruct (round_run s Hs) as (s1 & R & O1 & P1 & K1 & W1 & E1). cbn [game_rounds play play_events].
  rewrite bind_bind, (bind_Ret _ _ _ _ _ R). specialize (IH s1 O1). rewrite P1, K1, W1 in IH.
  unfold after_round in *. destruct (move (position_of s) (input (reads s))) as [q|] eqn:Em; cbn [fst snd] in *.
  - destruct (Z.eqb_spec (owner (squares q)) 0) as [Eo|Eo].
    + rewrite Eo. rewrite bool_decide_true in IH by eauto. destruct (play _ _ _ _) as [[w p']|]; [|exact IH].
      destruct IH as (s' & R' & B' & E'). exists s'. split_and!; [exact R'|done|]. by rewrite E', E1, <- app_assoc.
    + rewrite bind_ret. eexists. split; [reflexivity|]. split; [by rewrite <- P1|]. cbn. by rewrite E1, <- app_assoc.
  - rewrite bool_decide_false in IH by (by intros [? ?]). destruct (play _ _ _ _) as [[w p']|]; [|exact IH].
    destruct IH as (s' & R' & B' & E'). exists s'. split_and!; [exact R'|done|]. by rewrite E', E1, <- app_assoc.
Qed.

(** The winner of a game that starts without a line is the player who made the last move, and holds a line, which the
    other does not. *)
Lemma play_winner n k p w q : position_ok p → owner (squares p) = 0 → play input n k p = Some (w, q) →
  w = other (to_move q) ∧ holds_line (squares q) w ∧ ¬ holds_line (squares q) (to_move q).
Proof.
  revert k p; induction n as [|n IH]; intros k p Hp Ho E; [done|]. cbn [play] in E.
  destruct (move p (input k)) as [p'|] eqn:Em; [|by apply (IH (S k) p)].
  pose proof (move_ok _ _ _ Em Hp) as Hp'. destruct (Z.eqb_spec (owner (squares p')) 0) as [Eo|Eo]; [by apply (IH (S k) p')|].
  injection E as <- <-. destruct (move_inv _ _ _ Em) as (i & _ & Eq).
  destruct Hp as [[Hl _] Ht]. assert (length (squares p') = 9%nat) as Hl' by apply Hp'.
  assert (∀ v, v ≠ 0 → holds_line (squares p') v → v = to_move p) as Hnew.
  { intros v Hv Hh. rewrite Eq in Hh. apply new_line in Hh; [done|]. apply owner_zero; done. }
  pose proof (owner_holds _ Hl' Eo) as Hh. pose proof (Hnew _ Eo Hh) as Ew.
  assert (to_move p' = other (to_move p)) as Et by (by rewrite Eq). rewrite Et, other_other, Ew by done.
  split; [done|]. split; [by rewrite <- Ew|]. intros Hx.
  apply Hnew in Hx; [|by destruct Ht as [-> | ->]]. by destruct Ht as [Ht | Ht]; rewrite Ht in Hx.
Qed.

(** On a full board nothing is accepted any more. *)
Lemma full_never_ends n k p : (∀ i, squares p !! i ≠ Some 0) → play input n k p = None.
Proof.
  intros Hf. revert k; induction n as [|n IH]; intros k; [done|]. cbn [play].
  destruct (move p (input k)) as [q|] eqn:Em; [|apply IH]. destruct (move_inv _ _ _ Em) as (i & E & _). by destruct (Hf i).
Qed.
End Rounds.

(** C26. Tic-tac-toe: whatever arrives at the receive queue, the program plays by the rules.  It accepts exactly the
    moves of two digits to an empty square, the players take turns (the noughts begin), and it
    prints the board after each; it returns exactly when a player completes a line, with that player, who
    made the last move, as the winner, and the other holds no line.  A game that reaches a full
    board without a line never ends. *)
Theorem tictactoe_plays input n s :
  (∀ k, byte_text (input k)) →
  match play input n (reads s) start with
  | Some (w, p) =>
      (∃ s', main input n s = Ret (1, s') ∧ board s' = squares p ∧
        events s' = events s ++ picture (squares start) ++ play_events input n (reads s) true start) ∧
      w = other (to_move p) ∧ holds_line (squares p) w ∧ ¬ holds_line (squares p) (to_move p)
  | None => main input n s = Hang
  end ∧
  (∀ s', game_ok s' → (∀ i, board s' !! i ≠ Some 0) → game_loop input n s' = Hang).
Proof.
  intros Hb. split.
  - set (s0 := set_waiting 0 (set_turn 1 (set_board (replicate 9 0) s))).
    assert (game_ok s0) as H0 by (repeat split; cbn; auto; repeat constructor; auto).
    assert (game_init s = Ret (tt, s0)) as Ei by reflexivity.
    unfold main. rewrite (bind_Ret _ _ _ _ _ Ei), (bind_Ret _ _ _ _ _ (shows_board s0 eq_refl)).
    pose proof (loop_plays input Hb n (emit (picture (board s0)) s0) H0) as L. change (reads (emit _ s0)) with (reads s) in L.
    change (position_of (emit _ s0)) with start in L. destruct (play input n (reads s) start) as [[w p]|] eqn:Ep.
    + split; [|apply (play_winner input n (reads s) start); [split; [apply H0|by right]|done|done]].
      destruct L as (s' & R & B & E). exists s'. rewrite (bind_Ret _ _ _ _ _ R). split_and!; [done|done|].
      rewrite E. cbn. by rewrite <- app_assoc.
    + unfold bind. by rewrite L.
  - intros s' Hs Hf. pose proof (loop_plays input Hb n s' Hs) as L. by rewrite full_never_ends in L.
Qed.

(** The noughts win with the middle column; a move to a square that is taken and a single character are refused. *)
Definition ex_input (k : nat) : list Z :=
  nth k [[50; 50]; [50; 50]; [49; 49]; [50]; [50; 49]; [51; 49]; [50; 51]] [].
Definition ex_game : game := Game (replicate 16 0) (replicate 9 7) 1 0 [] 0.
Lemma tictactoe_plays_witness :
  ∃ s', main ex_input 7 ex_game = Ret (1, s') ∧ board s' = [1; 2; 1; 0; 2; 0; 0; 2; 0] ∧ last (events s') = Some (Print "Winner is %d\n" [2]).
Proof.
  destruct (tictactoe_plays ex_input 7 ex_game) as [H _].
  - intros k. do 8 (destruct k as [|k]; [repeat constructor; lia|]). destruct k; constructor.
  - destruct H as [(s' & R & B & E) _]. exists s'. rewrite R, B, E. split_and!; reflexivity.
Defined.
