(* ===== verification/Startup.v ===== *)
(** * The start of the kernel (kernel/kernel_entry.c, board/usb_host.c)

    [kernel_entry] calls the initialisation functions of the components one after the other; here they
    run on one machine.  [kernel_setup_ready] is about the part that runs with interrupts masked. *)

From S2P Require Import Prelude Memory Crc Frame.
From S2P Require Import Flash Bootloader BootTheorems.
From S2P Require Import Mm MmSpec MmProof MmRefine MmTheorems Palloc Umalloc CList.
From S2P Require Import UsbHw UsbHc Usb.
From S2P Require Import Hardware Nvic Gpio Clock ClockTheorems Drivers Button Usart Ringbuffer Sprint Console.
From S2P Require Import KernelFlash Fault BootIface FrameHw.

(** ** The machine

    The device, the flash controller, the memory with its regions, and the variables of the components;
    [k_usb] has the rest of the state of the USB core and its driver. *)
Record machine (D F U R : Type) := Machine {
  k_hw : D;
  k_flash : F;
  k_heap : mm;
  k_rb : ringbuffer;
  k_frame : fstate;
  k_nodes : lstore;
  k_cbs : gmap Z button_callback;
  k_user : U;
  k_rand : R;
  k_usb : @hc D mm usb
}.
Arguments Machine {D F U R}.
Arguments k_hw {D F U R}.
Arguments k_flash {D F U R}.
Arguments k_heap {D F U R}.
Arguments k_rb {D F U R}.
Arguments k_frame {D F U R}.
Arguments k_nodes {D F U R}.
Arguments k_cbs {D F U R}.
Arguments k_user {D F U R}.
Arguments k_rand {D F U R}.
Arguments k_usb {D F U R}.

Section Startup.
Context {D F U R : Type} `{Mmio D} `{FlashCtrl F}.
#[local] Notation dev := (machine D F U R).

Definition on_hw {A} (c : M D A) : M dev A :=
  zoom k_hw (λ d s, Machine d (k_flash s) (k_heap s) (k_rb s) (k_frame s) (k_nodes s) (k_cbs s) (k_user s) (k_rand s) (k_usb s)) c.
Definition on_flash {A} (c : M F A) : M dev A :=
  zoom k_flash (λ f s, Machine (k_hw s) f (k_heap s) (k_rb s) (k_frame s) (k_nodes s) (k_cbs s) (k_user s) (k_rand s) (k_usb s)) c.
Definition on_heap {A} (c : M mm A) : M dev A :=
  zoom k_heap (λ h s, Machine (k_hw s) (k_flash s) h (k_rb s) (k_frame s) (k_nodes s) (k_cbs s) (k_user s) (k_rand s) (k_usb s)) c.
Definition console_of (s : dev) : console D := Console (k_hw s) (mm_mem (k_heap s)) (k_rb s).
Definition with_console (c : console D) (s : dev) : dev :=
  Machine (c_hw c) (k_flash s) (Mm (c_mem c) (physical_memories (k_heap s))) (c_rb c) (k_frame s) (k_nodes s) (k_cbs s) (k_user s) (k_rand s) (k_usb s).
Definition on_con {A} (c : M (console D) A) : M dev A := zoom console_of with_console c.
Definition on_iface {A} (c : M (iface D) A) : M dev A :=
  zoom (λ s, Iface (console_of s) (k_frame s))
    (λ i s, let s := with_console (i_con i) s in
      Machine (k_hw s) (k_flash s) (k_heap s) (k_rb s) (i_vars i) (k_nodes s) (k_cbs s) (k_user s) (k_rand s) (k_usb s)) c.
Definition on_button {A} (c : M (@button D U) A) : M dev A :=
  zoom (λ s, Button.Button (k_hw s) (k_nodes s) (k_cbs s) (k_user s))
    (λ b s, Machine (b_hw b) (k_flash s) (k_heap s) (k_rb s) (k_frame s) (b_nodes b) (b_cbs b) (b_user b) (k_rand s) (k_usb s)) c.
Definition on_rand {A} (c : M (D * R) A) : M dev A :=
  zoom (λ s, (k_hw s, k_rand s))
    (λ r s, Machine r.1 (k_flash s) (k_heap s) (k_rb s) (k_frame s) (k_nodes s) (k_cbs s) (k_user s) r.2 (k_usb s)) c.
(** The USB driver works on the same registers and the same heap. *)
Definition on_usb {A} (c : M (@hc D mm usb) A) : M dev A :=
  zoom (λ s, with_pool ((pool (k_usb s)).1, k_heap s) (with_hw (k_hw s) (k_usb s)))
    (λ u s, Machine (hw u) (k_flash s) (pool u).2 (k_rb s) (k_frame s) (k_nodes s) (k_cbs s) (k_user s) (k_rand s) u) c.

(** The addresses the linker and the compiler choose, and the generator of the C library. *)
Variable fuel : nat.
Variable debug_buffer receive_buffer image_info button_list heap_s heap_e : Z.
Variable lit : string → Z.
Variable srand : Z → R → R.

(** The set-up of the clocks is [clock_start] of ClockTheorems.v. *)
Definition kernel_setup : M dev unit :=
  on_hw watchdog_disable ;;
  on_hw systick_disable ;;
  on_hw systick_clear_pending ;;
  on_hw cpsie_f ;;
  on_hw cpsid_i ;;
  on_flash (k_flash_set_access_cycles 7) ;;
  on_hw (clock_start fuel) ;;
  on_con (print_init receive_buffer) ;;
  on_hw dram_init ;;
  on_iface (bootloader_init true fuel debug_buffer lit image_info) ;;
  on_hw led_init ;;
  on_button (button_init button_list) ;;
  on_heap (mm_init fuel heap_s heap_e) ;;
  on_hw trand_init ;;
  on_rand (prand_init srand fuel).

Variable nb : nat.
Variable usb_pipes usbc root_hub_event_at sof_event_at hid_driver default_root_hub_callback : Z.
Variable pipes : list usb_pipe.

Definition usb_host_init : M dev unit :=
  on_hw (peripheral_clock_enable 34) ;;
  on_usb usbhc_early_init ;;
  on_hw (upll_init fuel UPLL_x40) ;;
  let* usable := on_usb usbhc_clock_usable in
  (if usable =? 0 then panic "USB clock not usable" else ret tt) ;;
  on_usb (usbhc_init (H0 := mm_pages nb) default_root_hub_callback usb_pipes pipes) ;;
  on_usb (usbc_init usbc root_hub_event_at sof_event_at) ;;
  on_usb (usb_hid_init usbc hid_driver) ;;
  on_hw (nvic_enable 34) ;;
  on_hw (nvic_set_prioriy 34 NVIC_PRI_3).

Definition kernel_entry : M dev unit :=
  kernel_setup ;;
  on_hw cpsie_i ;;
  usb_host_init.
End Startup.

(** ** Quiet programs

    On plain registers: programs that return, do not turn interrupts on, and leave the clocks and the status
    registers alone; [w] is what they send on the console. *)

Definition kept : list Z := [MOR; PLLA; MCKR; CLOCK_SR; US_CSR USART1; TRAND_ISR].
Definition quiet_event (e : io_event) : Prop :=
  match e with IoWrite a _ => a ∉ kept | IoBarrier x => x ≠ CPSIE_I ∧ x ≠ CPSIE_F end.
Definition console_bytes (l : list io_event) : list Z :=
  omap (λ e, match e with IoWrite a v => if a =? US_THR USART1 then Some v else None | IoBarrier _ => None end) l.

Record follows (b0 : bank) (w : list Z) (b : bank) : Prop := {
  fo_trace : ∃ l, bank_trace b = bank_trace b0 ++ l ∧ Forall quiet_event l ∧ console_bytes l = w;
  fo_kept a : a ∈ kept → bank_get a b = bank_get a b0
}.
(** The status bits the start waits for. *)
Definition up (b : bank) : Prop :=
  ready b ∧ Z.testbit (bank_get (US_CSR USART1) b) 1 = true ∧ Z.testbit (bank_get TRAND_ISR b) 0 = true.

Lemma follows_refl b : follows b [] b.
Proof. split; [|done]. exists []. by rewrite app_nil_r. Qed.
Lemma follows_event b0 w b e w' :
  quiet_event e → console_bytes [e] = w' → follows b0 w b →
  follows b0 (w ++ w') (match e with IoWrite a v => io_write a v b | IoBarrier x => io_barrier x b end).
Proof.
  intros He Hw [(l & Hl & Hq & Hc) Hk]. split.
  - exists (l ++ [e]). split; [destruct e; cbn; by rewrite Hl, <- app_assoc|]. split; [by apply Forall_app; split; [|constructor]|].
    unfold console_bytes in *. by rewrite omap_app, Hc, Hw.
  - intros a Ha. rewrite <- Hk by done. destruct e as [a' v|x]; [|done]. unfold bank_get. cbn. rewrite lookup_insert_ne; [done|].
    intros ->. by apply He.
Qed.
Lemma follows_up b0 w b : up b0 → follows b0 w b → up b.
Proof.
  intros (H1 & H2 & H3) [_ Hk].
  assert (bank_get CLOCK_SR b = bank_get CLOCK_SR b0 ∧ bank_get (US_CSR USART1) b = bank_get (US_CSR USART1) b0 ∧
    bank_get TRAND_ISR b = bank_get TRAND_ISR b0) as (E1 & E2 & E3).
  { split_and!; apply Hk; member. }
  unfold up. rewrite E2, E3. split_and!; try done. intros bit Hbit. rewrite E1. by apply H1.
Qed.

(** States with the registers among other things. *)
Class HasHw (S : Type) := {
  hw_of : S → bank;
  hw_put : bank → S → S;
  hw_of_put b s : hw_of (hw_put b s) = b;
  hw_put_of s : hw_put (hw_of s) s = s;
  hw_put_put b b' s : hw_put b (hw_put b' s) = hw_put b s
}.
#[export] Instance bank_hw : HasHw bank := {| hw_of b := b; hw_put b _ := b; hw_of_put _ _ := eq_refl; hw_put_of _ := eq_refl; hw_put_put _ _ _ := eq_refl |}.
#[export] Program Instance console_hw : HasHw (console bank) := {| hw_of := c_hw; hw_put b s := Console b (c_mem s) (c_rb s) |}.
Solve All Obligations with by intros; try destruct s.
#[export] Program Instance iface_hw : HasHw (iface bank) := {| hw_of s := c_hw (i_con s); hw_put b s := Iface (hw_put b (i_con s)) (i_vars s) |}.
Solve All Obligations with by intros; try destruct s as [[] ?].
#[export] Program Instance button_hw {U} : HasHw (@button bank U) :=
  {| hw_of := b_hw; hw_put b s := Button.Button b (b_nodes s) (b_cbs s) (b_user s) |}.
Solve All Obligations with by intros; try destruct s.
#[export] Program Instance pair_hw {R} : HasHw (bank * R) := {| hw_of := fst; hw_put b s := (b, s.2) |}.
Solve All Obligations with by intros; try destruct s.
#[export] Program Instance machine_hw {F U R} : HasHw (machine bank F U R) := {| hw_of := k_hw;
  hw_put b s := Machine b (k_flash s) (k_heap s) (k_rb s) (k_frame s) (k_nodes s) (k_cbs s) (k_user s) (k_rand s) (k_usb s) |}.
Solve All Obligations with by intros; try destruct s.

Section Quiet.
Variable b0 : bank.
Hypothesis Hup : up b0.

(** The program returns and changes nothing but the registers. *)
Definition quiet {S A} `{HasHw S} (c : M S A) (w : list Z) : Prop := ∀ w0 s, follows b0 w0 (hw_of s) →
  ∃ x b', c s = Ret (x, hw_put b' s) ∧ follows b0 (w0 ++ w) b'.

Section Steps.
Context {S : Type} `{HasHw S}.
Lemma quiet_ret {A} (x : A) : quiet (S := S) (ret x) [].
Proof. intros w0 s Hb. exists x, (hw_of s). by rewrite app_nil_r, hw_put_of. Qed.
Lemma quiet_gets {A} (f : S → A) : quiet (gets f) [].
Proof. intros w0 s Hb. exists (f s), (hw_of s). by rewrite app_nil_r, hw_put_of. Qed.
Lemma quiet_bind {A B} (c : M S A) (f : A → M S B) w1 w2 :
  quiet c w1 → (∀ x, quiet (f x) w2) → quiet (bind c f) (w1 ++ w2).
Proof.
  intros H1 H2 w0 s Hb. destruct (H1 w0 s Hb) as (x & b1 & E1 & Hb1).
  destruct (H2 x _ (hw_put b1 s) ltac:(by rewrite hw_of_put)) as (y & b2 & E2 & Hb2).
  exists y, b2. rewrite (bind_Ret _ _ _ _ _ E1), app_assoc, E2, hw_put_put. done.
Qed.
(** Without output. *)
Lemma quiet_seq {A B} (c : M S A) (f : A → M S B) : quiet c [] → (∀ x, quiet (f x) []) → quiet (bind c f) [].
Proof. intros H1 H2. apply (quiet_bind c f [] [] H1 H2). Qed.
Lemma quiet_if {A} (t : bool) (c c' : M S A) w : quiet c w → quiet c' w → quiet (if t then c else c') w.
Proof. by destruct t. Qed.
(** A program on a part that has the registers. *)
Lemma quiet_zoom {T A} `{HasHw T} (get : S → T) (put : T → S → S) (c : M T A) w :
  (∀ s, hw_of (get s) = hw_of s) → (∀ b s, put (hw_put b (get s)) s = hw_put b s) → quiet c w → quiet (zoom get put c) w.
Proof.
  intros Hg Hp Hc w0 s Hb. destruct (Hc w0 (get s) ltac:(by rewrite Hg)) as (x & b' & E & Hb').
  exists x, b'. split; [|done]. rewrite (zoom_Ret _ _ _ _ _ _ E). by rewrite Hp.
Qed.
End Steps.

Lemma quiet_rd a : quiet (rd32 a) [].
Proof. intros w0 b Hb. exists (bank_get a b), b. by rewrite app_nil_r. Qed.
Lemma quiet_write a v : a ∉ US_THR USART1 :: kept → quiet (modify (io_write a v)) [].
Proof.
  intros Ha w0 b Hb. exists tt, (io_write a v b). split; [done|]. apply (follows_event b0 w0 b (IoWrite a v)); [|..|done].
  - intros Hk. apply Ha. by right.
  - cbn. destruct (Z.eqb_spec a (US_THR USART1)) as [->|]; [|done]. destruct Ha. by left.
Qed.
Lemma quiet_wr a v : a ∉ US_THR USART1 :: kept → quiet (wr32 a v) [].
Proof. apply quiet_write. Qed.
Lemma quiet_barrier x : x ≠ CPSIE_I → x ≠ CPSIE_F → quiet (modify (io_barrier x)) [].
Proof.
  intros H1 H2 w0 b Hb. exists tt, (io_barrier x b). split; [done|]. by apply (follows_event b0 w0 b (IoBarrier x)).
Qed.
Lemma quiet_wait fuel a bit : (1 ≤ fuel)%nat → a ∈ kept → Z.testbit (bank_get a b0) bit = true → 0 ≤ bit →
  quiet (wait_bits fuel a (Z.shiftl 1 bit)) [].
Proof.
  intros Hf Ha Hbit H0 w0 b Hb. exists tt, b. rewrite app_nil_r. split; [|done]. destruct fuel as [|n]; [lia|]. cbn [wait_bits].
  rewrite (bind_Ret _ _ _ _ _ (rd32_bank _ _)), land_bit by done.
  pose proof (fo_kept _ _ _ Hb a Ha : bank_get a b = _) as Ek. by rewrite Ek, Hbit.
Qed.
End Quiet.

(** Programs that are made of accesses to registers, by cases. *)
Ltac outside := apply (bool_decide_unpack _); vm_compute; exact I.
Ltac quiet_step :=
  lazymatch goal with
  | |- quiet _ (ret _) _ => apply quiet_ret
  | |- quiet _ (gets _) _ => apply quiet_gets
  | |- quiet _ (rd32 _) _ => apply quiet_rd
  | |- quiet _ (wr32 _ _) _ => apply quiet_wr; outside
  | |- quiet _ (wr8 _ _) _ => apply quiet_write; outside
  | |- quiet _ (modify (io_write _ _)) _ => apply quiet_write; outside
  | |- quiet _ (modify (io_barrier _)) _ => apply quiet_barrier; discriminate
  | |- quiet _ (zoom _ _ _) _ => eapply quiet_zoom; [reflexivity|reflexivity|]
  | |- quiet _ (bind _ _) _ => apply quiet_seq; [|intros ?]
  | |- quiet _ (if _ then _ else _) _ => apply quiet_if
  | |- quiet _ (match ?x with _ => _ end) _ => destruct x
  end.

Section Devices.
Variable b0 : bank.

Definition ports : list Z := [GPIOA; GPIOB; GPIOC; GPIOD; GPIOE].
Lemma quiet_function port pin f : port ∈ ports → quiet b0 (gpio_set_function port pin f) [].
Proof.
  intros Hp. unfold gpio_set_function, select_bit, set32, mask32.
  repeat (apply elem_of_cons in Hp as [->|Hp]; [repeat quiet_step|]). by apply elem_of_nil in Hp.
Qed.
Lemma quiet_dram : quiet b0 dram_init [].
Proof.
  unfold dram_init, peripheral_clock_enable, matrix_cs_init, dram_refresh, dram_set_mode, dram_write. cbn [Z.ltb Z.compare Pos.compare Pos.compare_cont].
  apply quiet_seq; [repeat quiet_step|intros _]. apply quiet_seq; [|intros _; repeat quiet_step].
  assert (Forall (λ r, r.1.1 ∈ ports) dram_pins) as Hp by (apply (bool_decide_unpack _); vm_compute; exact I).
  induction Hp as [|[[port pin] f] l Hr _ IH]; cbn [set_functions]; [apply quiet_ret|].
  apply quiet_seq; [by apply quiet_function|by intros _].
Qed.

(** The serial ports and the pins. *)
Lemma quiet_usart_init reg desc : reg ∈ [USART0; USART1] → buad_rate desc ∈ [115200; 230400] → quiet b0 (usart_init reg desc) [].
Proof.
  intros Hr Hb. unfold usart_init. destruct (u32 (16 * buad_rate desc) =? 0) eqn:E.
  { exfalso. repeat (apply elem_of_cons in Hb as [Hb|Hb]; [rewrite Hb in E; by vm_compute in E|]). by apply elem_of_nil in Hb. }
  repeat (apply elem_of_cons in Hr as [->|Hr]; [repeat quiet_step|]). by apply elem_of_nil in Hr.
Qed.
Lemma quiet_led : quiet b0 led_init [].
Proof. unfold led_init, gpio_set_direction. repeat first [apply quiet_function; member | quiet_step]. Qed.
Lemma quiet_serial_init : quiet b0 (Console.serial_init (D := bank)) [].
Proof.
  unfold Console.serial_init, Console.on_hw, usart_interrupt_enable, nvic_enable, nvic_set_prioriy, peripheral_clock_enable.
  repeat first [apply quiet_function; member | apply quiet_usart_init; [member|cbn; member] | quiet_step].
Qed.

(** Running a quiet program that begins another one. *)
Lemma quiet_run {S A} `{HasHw S} (c : M S A) w s : quiet b0 c [] → follows b0 w (hw_of s) →
  ∃ x b', follows b0 w (hw_of (hw_put b' s)) ∧ c s = Ret (x, hw_put b' s).
Proof.
  intros Hc Hb. destruct (Hc w s Hb) as (x & b' & E & Hb'). rewrite app_nil_r in Hb'. exists x, b'. by rewrite hw_of_put.
Qed.
End Devices.

(** Programs made of these. *)
Ltac quiet_tac :=
  repeat first [apply quiet_function; member | apply quiet_usart_init; [member|cbn; member] | apply quiet_dram | apply quiet_led | quiet_step].

(** Running one that begins another program, with [Hb] that the state follows. *)
Ltac quiet_head c s w Hb :=
  lazymatch type of Hb with follows ?b0 _ _ =>
    let Hq := fresh "Hq" in let x := fresh "x" in let b := fresh "b" in let E := fresh "E" in let Hn := fresh "Hn" in
    assert (quiet b0 c []) as Hq by quiet_tac;
    destruct (quiet_run b0 c w s Hq Hb) as (x & b & Hn & E); rewrite (bind_Ret _ _ _ _ _ E); clear E Hq Hb; rename Hn into Hb
  end.

Section Runs.
Variable b0 : bank.

(** [print_init]: the console with an empty receive buffer. *)
Lemma print_init_run rbuf w s : follows b0 w (c_hw s) →
  ∃ b', print_init rbuf s = Ret (tt, Console b' (c_mem s) (Ringbuffer rbuf (rbuf + 256) rbuf rbuf)) ∧ follows b0 w b'.
Proof.
  intros Hb. unfold print_init.
  unfold Console.on_hw, usart_interrupt_enable, peripheral_clock_enable, nvic_enable, nvic_set_prioriy.
  do 5 (match goal with |- ∃ b', bind ?c _ ?s = _ ∧ _ => quiet_head c s w Hb end).
  erewrite bind_Ret by reflexivity.
  match goal with |- ∃ b', ?c ?s = _ ∧ _ => 
    assert (quiet b0 c []) as Hq by quiet_tac; destruct (Hq w s Hb) as ([] & b' & E & Hb'); rewrite E end.
  rewrite app_nil_r in Hb'. by exists b'.
Qed.

(** ** The version text *)

Hypothesis Hup : up b0.

(** The console port, on plain registers that follow [b0]. *)
Program Definition port : UartLaws bank USART1 :=
  {| uart_ok b := ∃ w, follows b0 w b; uart_ready _ := True; uart_sent b := console_bytes (bank_trace b); uart_delay := 1 |}.
Next Obligation.
  intros b [w Hb]. destruct (follows_up _ _ _ Hup Hb) as (_ & Hr & _). cbn [polls io_read bank_mmio fst snd]. split; [done|]. right.
  split; [|split_and!; [by exists w|done|done]]. intros E.
  pose proof (land_bit (bank_get (US_CSR USART1) b) 1 ltac:(done)) as Hl. rewrite Hr in Hl. change (Z.shiftl 1 1) with 2 in Hl. by rewrite E in Hl.
Qed.
Next Obligation.
  intros b c [w Hb] _ Hc. assert (console_bytes [IoWrite (US_THR USART1) c] = [c]) as Ec by (cbn; by rewrite Z.eqb_refl). split.
  - exists (w ++ [c]). apply (follows_event b0 w b (IoWrite (US_THR USART1) c)); [outside|done|done].
  - cbn [bank_trace io_write bank_mmio]. unfold console_bytes in *. by rewrite omap_app, Ec.
Qed.
Lemma follows_sent w b : follows b0 w b → console_bytes (bank_trace b) = console_bytes (bank_trace b0) ++ w.
Proof. intros [(l & El & _ & Hw) _]. rewrite El. unfold console_bytes in *. by rewrite omap_app, Hw. Qed.

Definition version_text (what : string) (major minor : Z) : list Z :=
  chars what ++ decimal major ++ [46] ++ decimal minor.
Definition versions (boot_major boot_minor major minor : Z) : list Z :=
  version_text "\n\nUsing Vanilla bootloader v" boot_major boot_minor ++ [10] ++
  version_text "Using Vanilla kernel     v" major minor ++ [10; 10].

Variable fuel : nat.
Hypothesis Hfuel : (200 ≤ fuel)%nat.
Variable debug_buffer : Z.
Variable lit : string → Z.

(** The two literals of the text, away from the buffer. *)
Definition start_texts : list (Z * list Z) :=
  (λ t, (lit t, chars t)) <$> ["\n\nUsing Vanilla bootloader v%d.%d"; "Using Vanilla kernel     v%d.%d\n"].
Definition start_mem (m : mem) : Prop := mem_bytes m ∧ ∀ a t, (a, t) ∈ start_texts → c_string m a t ∧ away debug_buffer 64 a (a + Z.of_nat (length t)).

Lemma printl_version pre post t major minor w s :
  (t, pre, post) ∈ [("\n\nUsing Vanilla bootloader v%d.%d", "\n\nUsing Vanilla bootloader v", ""); ("Using Vanilla kernel     v%d.%d\n", "Using Vanilla kernel     v", "\n")] →
  0 ≤ major < 2 ^ 31 → 0 ≤ minor < 2 ^ 31 → follows b0 w (c_hw s) → start_mem (c_mem s) →
  ∃ b' m', Console.printl fuel debug_buffer (lit t) [major; minor] s = Ret (tt, Console b' m' (c_rb s)) ∧
    follows b0 (w ++ version_text pre major minor ++ chars post ++ [10]) b' ∧ start_mem m' ∧
    same_outside (λ a, debug_buffer ≤ a < debug_buffer + 64) (c_mem s) m'.
Proof using All.
  intros Ht Hma Hmi Hb [Hm Hs]. 
  set (xs := (Lit <$> chars pre) ++ Int 100 major :: Lit 46 :: Int 100 minor :: (Lit <$> chars post)).
  assert (∀ v, 0 ≤ v < 2 ^ 31 → render true (Int 100 v) = decimal v) as Rv.
  { intros v Hv. cbn [render]. unfold signed. rewrite (proj2 (Z.ltb_lt v 2147483648)) by lia.
    rewrite (proj2 (Z.ltb_ge v 0)) by lia. cbn [app]. by rewrite Z.abs_eq by lia. }
  assert (xs ≫= render true = version_text pre major minor ++ chars post) as Er.
  { unfold xs, version_text. rewrite bind_app, !bind_cons, !lit_items, !Rv, <- !app_assoc by done. done. }
  assert (xs ≫= item_args = [major; minor]) as Ea.
  { unfold xs. rewrite bind_app, !bind_cons, !lit_no_args. done. }
  assert (xs ≫= item_chars = chars t ∧ plain (chars pre) ∧ plain (chars post) ∧ (length (chars pre) + length (chars post) ≤ 40)%nat ∧
    t ∈ ["\n\nUsing Vanilla bootloader v%d.%d"; "Using Vanilla kernel     v%d.%d\n"]) as (Ec & P1 & P2 & P3 & P4).
  { unfold xs. rewrite bind_app, !bind_cons, !lit_items by done.
    repeat (apply elem_of_cons in Ht as [[= -> -> ->]|Ht];
      [split_and!; [vm_compute; reflexivity|apply plain_check_ok; vm_compute; reflexivity|apply plain_check_ok; vm_compute; reflexivity|apply Nat.leb_le; vm_compute; reflexivity|member]|]).
    by apply elem_of_nil in Ht. }
  pose proof (decimal_digits_length 10 major) as D1. pose proof (decimal_digits_length 10 minor) as D2. fold (decimal major) in D1. fold (decimal minor) in D2.
  destruct (says_print (H0 := port) fuel ltac:(cbn; lia) debug_buffer start_texts Hfuel xs (lit t)) as [_ H2].
  - rewrite Ec. unfold start_texts. apply (list_elem_of_fmap_2 (λ t, (lit t, chars t)) _ t P4).
  - unfold xs. apply Forall_app; split; [by apply Forall_fmap|].
    constructor; [cbn; lia|]. constructor; [unfold text_ok, item_ok, byte; lia|]. constructor; [cbn; lia|]. by apply Forall_fmap.
  - unfold xs. rewrite length_app. cbn [length]. rewrite !length_fmap. lia.
  - rewrite Er. unfold version_text. rewrite !length_app. cbn [length]. lia.
  - rewrite Ea, Er, <- app_assoc in H2. destruct (H2 s) as (s' & E & K & S & R & O).
    + constructor; [by exists w|done|exact Hs].
    + destruct K as [[w' Hb'] Kb Kt]. exists (c_hw s'), (c_mem s'). rewrite <- R. split; [destruct s'; exact E|]. split; [|split; [by split|done]].
      pose proof (follows_sent _ _ Hb') as S'. cbn in S. rewrite (follows_sent _ _ Hb), S', <- !app_assoc in S.
      apply app_inv_head in S. by rewrite <- S.
Qed.

(** ** The components one after the other *)

(** The words of the information blocks the kernel prints. *)
Record info_ok (m : mem) (image bm bn km kn : Z) : Prop := {
  io_boot : ld32 m (ld32 m (image + 16)) = bm ∧ ld32 m (ld32 m (image + 16) + 4) = bn;
  io_kernel : ld32 m image = km ∧ ld32 m (image + 4) = kn;
  io_bounds v : v ∈ [bm; bn; km; kn] → 0 ≤ v < 2 ^ 31;
  io_away : image + 8 ≤ debug_buffer ∨ debug_buffer + 64 ≤ image
}.

Lemma bootloader_init_run image bm bn km kn w c v :
  follows b0 w (c_hw c) → start_mem (c_mem c) → info_ok (c_mem c) image bm bn km kn →
  ∃ b' m', bootloader_init true fuel debug_buffer lit image (Iface c v) = Ret (tt, Iface (Console b' m' (c_rb c)) (set_bus STATE_IDLE v)) ∧
    follows b0 (w ++ versions bm bn km kn) b' ∧ start_mem m' ∧ same_outside (λ a, debug_buffer ≤ a < debug_buffer + 64) (c_mem c) m'.
Proof using All.
  intros Hb Hm [[I1 I2] [I3 I4] I5 I6]. unfold bootloader_init, timer_start, BootIface.on_dev, BootIface.on_con, Console.on_hw.
  unfold Clock.peripheral_clock_enable, Clock.pck_init, Clock.pck_enable, Nvic.nvic_enable.
  match goal with |- ∃ _ _, bind ?c _ ?s = _ ∧ _ => 
    assert (quiet b0 c []) as Hq by (eapply quiet_zoom; [reflexivity|reflexivity|apply quiet_serial_init]);
    destruct (quiet_run b0 c w s Hq Hb) as ([] & b1 & Hn & E); rewrite (bind_Ret _ _ _ _ _ E); clear E Hq Hb; rename Hn into Hb end.
  do 7 (rewrite ?bind_bind; match goal with |- ∃ _ _, bind ?c _ ?s = _ ∧ _ => quiet_head c s w Hb end).
  erewrite bind_Ret by reflexivity. cbn [hw_put iface_hw console_hw i_con i_vars c_mem c_rb].
  do 3 (erewrite bind_Ret by reflexivity). cbn [hw_put iface_hw console_hw i_con i_vars c_mem c_rb].
  cbn [c_hw]. change (follows b0 w b7) in Hb. rewrite I1, I2.
  destruct (printl_version "\n\nUsing Vanilla bootloader v" "" "\n\nUsing Vanilla bootloader v%d.%d" bm bn w (Console b7 (c_mem c) (c_rb c)))
    as (b8 & m8 & E8 & Hb8 & Hm8 & Ho8); [member|apply I5; member|apply I5; member|done|done|].
  rewrite (bind_Ret _ _ _ _ _ (zoom_Ret i_con (λ c s, Iface c (i_vars s)) _ (Iface (Console b7 (c_mem c) (c_rb c)) (set_bus STATE_IDLE v)) _ _ E8)).
  assert (∀ k, 0 ≤ k < 5 → ld32 m8 (image + k) = ld32 (c_mem c) (image + k)) as Hk.
  { intros k Hk. eapply same_outside_ld32; [exact Ho8|]. cbn [c_mem]. lia. }
  do 2 (erewrite bind_Ret by reflexivity). cbn [i_con i_vars c_mem c_rb].
  pose proof (Hk 0 ltac:(lia)) as H0. rewrite Z.add_0_r in H0. rewrite H0, (Hk 4), I3, I4 by lia.
  destruct (printl_version "Using Vanilla kernel     v" "\n" "Using Vanilla kernel     v%d.%d\n" km kn _ (Console b8 m8 (c_rb c)) ltac:(member)
    ltac:(apply I5; member) ltac:(apply I5; member) Hb8 Hm8) as (b9 & m9 & E9 & Hb9 & Hm9 & Ho9).
  exists b9, m9. split; [by apply (zoom_Ret i_con (λ c s, Iface c (i_vars s)) _ (Iface (Console b8 m8 (c_rb c)) (set_bus STATE_IDLE v)))|].
  split; [|split; [done|by eapply same_outside_trans]]. unfold versions.
  assert (chars "" = [] ∧ chars "\n" = [10]) as [C0 C1] by (split; vm_compute; reflexivity).
  rewrite C0, C1, app_nil_l in Hb9. rewrite <- !app_assoc in Hb9. exact Hb9.
Qed.

End Runs.

Lemma follows_freq b0 w b : follows b0 w b → cpu_freq (view b) = cpu_freq (view b0) ∧ bus_freq (view b) = bus_freq (view b0).
Proof.
  intros [_ Hk]. assert (view b MOR = view b0 MOR ∧ view b PLLA = view b0 PLLA ∧ view b MCKR = view b0 MCKR) as (E1 & E2 & E3).
  { split_and!; apply Hk; member. }
  unfold bus_freq, cpu_freq. by rewrite E1, E2, E3.
Qed.

Lemma list_init_run l n (s : lstore) : s !! l = Some n → list_init l s = Ret (tt, <[l := LNode l l]> s).
Proof.
  intros E. unfold list_init. erewrite bind_lset_prev by exact E. unfold lset_next, bind, lget. rewrite lookup_insert_eq. cbn. unfold modify.
  by rewrite insert_insert_eq.
Qed.

(** The first part: up to the clocks. *)
Lemma clock_trace l b : bank_trace (replay l b) = bank_trace b ++ l.
Proof.
  revert b; induction l as [|[a v|x] l IH]; intros b; cbn [replay]; [by rewrite app_nil_r|..]; rewrite IH; cbn; by rewrite <- app_assoc.
Qed.
Lemma clock_keeps l b a : Forall clock_write l → a ∉ [MOR; PLLA; MCKR] → bank_get a (replay l b) = bank_get a b.
Proof.
  intros Hl Ha. revert b; induction Hl as [|[a' v|x] l He _ IH]; intros b; [done| |done]. cbn [replay]. rewrite IH.
  unfold bank_get. cbn. rewrite lookup_insert_ne; [done|]. intros ->. by apply Ha.
Qed.
Lemma clock_quiet l : Forall clock_write l → Forall (λ e, e ≠ IoBarrier CPSIE_I ∧ e ≠ IoBarrier CPSIE_F) l ∧ console_bytes l = [].
Proof.
  intros Hl. split; [eapply Forall_impl; [exact Hl|]; by intros [|]|]. induction Hl as [|[a v|x] l He _ IH]; [done| |done].
  unfold console_bytes in *. cbn. cbn in He. assert (a ≠ US_THR USART1) as Ha.
  { repeat (apply elem_of_cons in He as [->|He]; [by apply (bool_decide_unpack _); vm_compute|]). by apply elem_of_nil in He. }
  by rewrite (proj2 (Z.eqb_neq _ _) Ha).
Qed.

Definition masked_event (e : io_event) : Prop := e ≠ IoBarrier CPSIE_I ∧ e ≠ IoBarrier CPSIE_F.
Lemma quiet_masked l : Forall quiet_event l → Forall masked_event l.
Proof. intros Hl. eapply Forall_impl; [exact Hl|]. intros [a v|x] He; split; congruence || naive_solver. Qed.

Section Setup.
Context {F U R : Type} `{FlashCtrl F}.
Variable fuel : nat.
Hypothesis Hfuel : (200 ≤ fuel)%nat.

Lemma setup_clocks (b : bank) : up b → fld (view b MCKR) 0 2 ≤ 1 →
  ∃ l1 l2, let b1 := io_barrier CPSID_I (io_barrier CPSIE_F (io_write SCB_ICSR (u32 (Z.shiftl 1 25)) (io_write SYST_CSR (u32 0) (io_write WATCHDOG_MR (u32 (Z.shiftl 1 15)) b)))) in
    let b0 := replay l2 b1 in
    clock_start fuel b1 = Ret (tt, b0) ∧ up b0 ∧ cpu_freq (view b0) = 300000000 ∧ bus_freq (view b0) = 150000000 ∧
    bank_trace b0 = bank_trace b ++ l1 ++ [IoBarrier CPSIE_F; IoBarrier CPSID_I] ++ l2 ∧
    Forall masked_event (l1 ++ l2) ∧ console_bytes (l1 ++ l2) = [].
Proof using Hfuel.
  intros (U1 & U2 & U3) Hm. set (b1 := io_barrier CPSID_I _). 
  assert (∀ a, a ∉ [SCB_ICSR; SYST_CSR; WATCHDOG_MR] → bank_get a b1 = bank_get a b) as K1.
  { intros a Ha. unfold b1, bank_get. cbn. rewrite !lookup_insert_ne by (intros Ea; apply Ha; rewrite <- Ea; member). done. }
  assert (∀ bit, bit ∈ [0; 1; 3; 16] → Z.testbit (bank_get CLOCK_SR b1) bit = true) as R1.
  { intros bit Hb. rewrite K1 by outside. by apply U1. }
  assert (view b1 MCKR = view b MCKR) as E1 by (unfold view; apply K1; outside).
  destruct (clock_start_run fuel b1 ltac:(lia) R1 ltac:(by rewrite E1)) as (l2 & [[] Er] & _ & Hl2 & Hf1 & Hf2).
  destruct (clock_quiet l2 Hl2) as [Q1 Q2].
  exists [IoWrite WATCHDOG_MR (u32 (Z.shiftl 1 15)); IoWrite SYST_CSR (u32 0); IoWrite SCB_ICSR (u32 (Z.shiftl 1 25))], l2. cbn zeta. fold b1.
  split; [exact Er|]. split.
  { split; [|split].
    - intros bit Hb. rewrite clock_keeps by (done || outside). by apply R1.
    - rewrite clock_keeps, K1 by (done || outside). done.
    - rewrite clock_keeps, K1 by (done || outside). done. }
  split; [done|]. split; [done|]. split; [|split].
  - rewrite clock_trace. unfold b1. cbn. by rewrite <- !app_assoc.
  - apply Forall_app; split; [repeat constructor; discriminate|exact Q1].
  - unfold console_bytes in *. rewrite omap_app, Q2. by vm_compute.
Qed.

(** The button and its list of callbacks. *)
Lemma button_init_run {V} b0 w l n (s : @button bank V) : follows b0 w (b_hw s) → b_nodes s !! l = Some n →
  ∃ b', button_init l s = Ret (tt, Button.Button b' (<[l := LNode l l]> (b_nodes s)) (b_cbs s) (b_user s)) ∧ follows b0 w b'.
Proof.
  intros Hb Hn. unfold button_init, Button.in_hw. rewrite <- !bind_bind.
  match goal with |- ∃ _, bind ?c _ s = _ ∧ _ => assert (quiet b0 c []) as Hq end.
  { unfold peripheral_clock_enable, gpio_set_direction, gpio_set_pull, gpio_interrupt_enable, gpio_set_filter, nvic_enable.
    change (10000 / 125 =? 0) with false. cbn [Z.ltb Z.compare Pos.compare Pos.compare_cont].
    repeat first [apply quiet_function; member | quiet_step]. }
  destruct (quiet_run b0 _ w s Hq Hb) as ([] & b' & Hb' & E). rewrite (bind_Ret _ _ _ _ _ E). exists b'. split; [|exact Hb'].
  unfold in_nodes, zoom. cbn [hw_put button_hw b_nodes b_cbs b_user b_hw]. by rewrite (list_init_run _ _ _ Hn).
Qed.

(** The random numbers. *)
Lemma prand_init_run b0 w (srand : Z → R → R) (s : bank * R) : up b0 → follows b0 w s.1 →
  ∃ b' seed, prand_init srand fuel s = Ret (tt, (b', srand seed s.2)) ∧ follows b0 w b'.
Proof using Hfuel.
  intros Hu Hb. unfold prand_init, trand_init, Clock.peripheral_clock_enable, trand.
  match goal with |- ∃ _ _, bind ?c _ ?s = _ ∧ _ =>
    assert (quiet b0 c []) as Hq by (repeat quiet_step); destruct (quiet_run b0 c w s Hq Hb) as (x & b & Hb1 & E1); rewrite (bind_Ret _ _ _ _ _ E1);
    clear Hq Hb E1; rename Hb1 into Hb end.
  match goal with |- ∃ _ _, bind ?c _ ?s = _ ∧ _ => 
    assert (quiet b0 c []) as Hq; [|destruct (quiet_run b0 c w s Hq Hb) as (y & b2 & Hn & E2); rewrite (bind_Ret _ _ _ _ _ E2)] end.
  { eapply quiet_zoom; [reflexivity|reflexivity|]. apply quiet_seq; [|intros _; apply quiet_rd].
    apply (quiet_wait b0 fuel TRAND_ISR 0); [lia|member|apply Hu|done]. }
  exists b2, y. split; [done|exact Hn].
Qed.

(** The next program of the sequence, by the part of the machine it works on. *)
Section Heads.
Context {A B : Type}.
Variables (d : bank) (f : F) (m : mem) (pms : list physmem) (rb : ringbuffer) (v : fstate) (nodes : lstore) (cbs : gmap Z button_callback)
  (user : U) (rnd : R) (us : @hc bank mm usb) (g : A → M (machine bank F U R) B) (x : A).
#[local] Notation state := (Machine d f (Mm m pms) rb v nodes cbs user rnd us).
Lemma head_hw c d' : c d = Ret (x, d') → bind (on_hw c) g state = g x (Machine d' f (Mm m pms) rb v nodes cbs user rnd us).
Proof. intros E. unfold bind, on_hw, zoom. cbn [k_hw]. by rewrite E. Qed.
Lemma head_flash c f' : c f = Ret (x, f') → bind (on_flash c) g state = g x (Machine d f' (Mm m pms) rb v nodes cbs user rnd us).
Proof. intros E. unfold bind, on_flash, zoom. cbn [k_flash]. by rewrite E. Qed.
Lemma head_heap c h' : c (Mm m pms) = Ret (x, h') → bind (on_heap c) g state = g x (Machine d f h' rb v nodes cbs user rnd us).
Proof. intros E. unfold bind, on_heap, zoom. cbn [k_heap]. by rewrite E. Qed.
Lemma head_con c d' m' rb' : c (Console d m rb) = Ret (x, Console d' m' rb') →
  bind (on_con c) g state = g x (Machine d' f (Mm m' pms) rb' v nodes cbs user rnd us).
Proof. intros E. unfold bind, on_con, zoom, console_of. cbn [k_hw k_heap k_rb mm_mem]. by rewrite E. Qed.
Lemma head_iface c d' m' rb' v' : c (Iface (Console d m rb) v) = Ret (x, Iface (Console d' m' rb') v') →
  bind (on_iface c) g state = g x (Machine d' f (Mm m' pms) rb' v' nodes cbs user rnd us).
Proof. intros E. unfold bind, on_iface, zoom, console_of. cbn [k_hw k_heap k_rb mm_mem k_frame]. by rewrite E. Qed.
Lemma head_button c d' nodes' cbs' user' : c (Button.Button d nodes cbs user) = Ret (x, Button.Button d' nodes' cbs' user') →
  bind (on_button c) g state = g x (Machine d' f (Mm m pms) rb v nodes' cbs' user' rnd us).
Proof. intros E. unfold bind, on_button, zoom. cbn [k_hw k_nodes k_cbs k_user]. by rewrite E. Qed.
End Heads.

(** C14. The start of the kernel up to [cpsie_i]: on plain registers whose status bits are set, with the slow
    or the main clock selected, [kernel_entry] reaches the point where it turns interrupts on; before it, it
    turns on the fault exceptions and masks the interrupts, and turns nothing else on.  The only characters
    sent are the two version lines with the numbers of the information blocks.  Then the
    processor runs at 300 MHz and the bus at 150 MHz; every physical memory satisfies the allocator's
    invariant with one free block; the receive buffer of the console is empty, the bootloader interface
    waits for a command and the list of the button's callbacks is empty. *)
Theorem kernel_setup_ready (debug_buffer receive_buffer image_info button_list heap_s heap_e : Z) (lit : string → Z) (srand : Z → R → R)
    (s : machine bank F U R) n bm bn km kn :
  up (k_hw s) → fld (view (k_hw s) MCKR) 0 2 ≤ 1 →
  start_mem debug_buffer lit (mm_mem (k_heap s)) → info_ok debug_buffer (mm_mem (k_heap s)) image_info bm bn km kn →
  k_nodes s !! button_list = Some n →
  Forall (init_ok fuel heap_s heap_e) (physical_memories (k_heap s)) → apart heap_s heap_e (physical_memories (k_heap s)) →
  (length (physical_memories (k_heap s)) ≤ 16)%nat →
  ∃ s' l1 l2, kernel_setup fuel debug_buffer receive_buffer image_info button_list heap_s heap_e lit srand s = Ret (tt, s') ∧
    bank_trace (k_hw s') = bank_trace (k_hw s) ++ l1 ++ [IoBarrier CPSIE_F; IoBarrier CPSID_I] ++ l2 ∧
    Forall masked_event (l1 ++ l2) ∧ console_bytes (l1 ++ l2) = versions bm bn km kn ∧
    cpu_freq (view (k_hw s')) = 300000000 ∧ bus_freq (view (k_hw s')) = 150000000 ∧
    mm_inv (k_heap s') (map (λ pm, whole (inited heap_s heap_e pm)) (physical_memories (k_heap s))) ∧
    k_rb s' = Ringbuffer receive_buffer (receive_buffer + 256) receive_buffer receive_buffer ∧
    bus_state (k_frame s') = STATE_IDLE ∧ k_nodes s' !! button_list = Some (LNode button_list button_list).
Proof using Hfuel.
  intros Hu Hm Hs Hi Hn Hok Hap Hl. unfold kernel_setup. destruct s as [d f [m pms] rb v nodes cbs user rnd us].
  cbn [k_hw k_heap k_nodes mm_mem physical_memories] in *.
  destruct (setup_clocks d Hu Hm) as (l1 & l2 & Ec & Hu0 & F1 & F2 & T & Hq & Ho). cbn zeta in *. set (b0 := replay l2 _) in *.
  do 5 (erewrite head_hw by reflexivity). erewrite head_flash by (unfold k_flash_set_access_cycles, bind, gets, modify; reflexivity). erewrite head_hw by exact Ec.
  destruct (print_init_run b0 receive_buffer [] (Console b0 m rb) (follows_refl b0)) as (d1 & E1 & P1). erewrite head_con by exact E1.
  destruct (quiet_run b0 _ [] d1 (quiet_dram b0) P1) as (x2 & d2 & P2 & E2). erewrite head_hw by exact E2.
  destruct (bootloader_init_run b0 Hu0 fuel Hfuel debug_buffer lit image_info bm bn km kn [] (Console d2 m (Ringbuffer receive_buffer (receive_buffer + 256) receive_buffer receive_buffer)) v P2 Hs Hi)
    as (d3 & m3 & E3 & P3 & [Hm3 _] & _). erewrite head_iface by exact E3. rewrite app_nil_l in P3.
  destruct (quiet_run b0 _ _ d3 (quiet_led b0) P3) as (x4 & d4 & P4 & E4). erewrite head_hw by exact E4.
  destruct (button_init_run b0 _ button_list n (Button.Button d4 nodes cbs user) P4 Hn) as (d5 & E5 & P5). erewrite head_button by exact E5.
  destruct (mm_init_run fuel heap_s heap_e m3 pms Hok Hap Hm3 Hl) as (h6 & E6 & _ & I6 & _). erewrite head_heap by exact E6.
  destruct h6 as [m6 pms6].
  assert (quiet b0 (trand_init (D := bank)) []) as Q7 by (unfold trand_init, peripheral_clock_enable; repeat quiet_step).
  destruct (quiet_run b0 _ _ d5 Q7 P5) as (x7 & d7 & P7 & E7). erewrite head_hw by exact E7.
  destruct (prand_init_run b0 _ srand (d7, rnd) Hu0 P7) as (d8 & seed & E8 & P8).
  destruct (fo_trace _ _ _ P8) as (l3 & T3 & Q3 & O3).
  eexists _, l1, (l2 ++ l3). split; [apply (zoom_Ret (λ s, (k_hw s, k_rand s))); exact E8|]. cbn [k_hw k_heap k_rb k_frame k_nodes fst snd].
  rewrite T3, T, <- !app_assoc. destruct (follows_freq _ _ _ P8) as [-> ->]. 
  split; [reflexivity|]. split; [|split; [|split; [exact F1|split; [exact F2|split; [exact I6|split; [reflexivity|split; [reflexivity|]]]]]]].
  - rewrite app_assoc. apply Forall_app; split; [exact Hq|by apply quiet_masked].
  - rewrite app_assoc. unfold console_bytes in *. by rewrite omap_app, Ho, O3.
  - apply lookup_insert_eq.
Qed.
End Setup.

(** ** A board that starts: plain registers whose status bits are set, bootloader 1.2, kernel 3.14 *)

Definition ex_bank : bank := Bank {[CLOCK_SR := 0xFFFFFFFF; US_CSR USART1 := 2; TRAND_ISR := 1; MCKR := 1]} [].
Definition ex_place (t : string) : Z := if String.eqb t "\n\nUsing Vanilla bootloader v%d.%d" then 0x5000 else 0x5080.
Definition ex_words : list (Z * list Z) :=
  start_texts ex_place ++ [(0x6000, [3; 0; 0; 0; 14; 0; 0; 0]); (0x6010, [0; 0x61; 0; 0]); (0x6100, [1; 0; 0; 0; 2; 0; 0; 0])].
Definition ex_ram : mem := foldr (λ r m, write_bytes m r.1 r.2) ∅ ex_words.
Definition ex_board : machine bank ram_flash unit Z :=
  Machine ex_bank (RamFlash ∅ ∅ 0) (Mm ex_ram (physical_memories small_mm)) (Ringbuffer 0 0 0 0)
    (FState STATE_PAYLOAD (Frame 0 0 [] 0) 0 0 false []) {[0x7000 := LNode 0 0]} ∅ tt 0
    (Hc ex_bank ∅ ∅ (Desc 0 0 0 0 0, small_mm) 0 [] 0 0 0 (Usb USB_ENUM_GET_DESCRIPTORS 0 1 ∅ ∅ ∅ ∅ ∅)).

Lemma ex_up : up ex_bank.
Proof.
  split; [|by split; vm_compute]. intros bit Hb. repeat (apply elem_of_cons in Hb as [->|Hb]; [reflexivity|]). by apply elem_of_nil in Hb.
Qed.
Lemma ex_start : start_mem 0x8000 ex_place ex_ram.
Proof.
  split.
  - unfold ex_ram. generalize ex_words. intros l. induction l as [|r l IH]; [|by apply mem_bytes_write].
    intros a. unfold ld8. cbn [foldr]. rewrite lookup_empty. by compute.
  - intros a t Hin.
    assert (Forall (λ r, bool_decide (read_bytes ex_ram r.1 (length r.2) = r.2) && forallb (λ c, negb (c =? 0)) r.2 &&
      (ld8 ex_ram (r.1 + Z.of_nat (length r.2)) =? 0) && (r.1 + Z.of_nat (length r.2) <? 0x8000) = true) (start_texts ex_place)) as HF.
    { apply (bool_decide_unpack _). vm_compute. exact I. }
    rewrite Forall_forall in HF. specialize (HF _ Hin). cbn [fst snd] in HF.
    rewrite !andb_true_iff, bool_decide_eq_true, forallb_forall in HF. destruct HF as [[[H1 H2] H3] H4].
    split; [|left; lia]. split_and!; [done| |lia].
    apply Forall_forall. intros c Hc. apply list_elem_of_In in Hc. specialize (H2 c Hc). lia.
Qed.

Lemma kernel_setup_ready_witness :
  ∃ s', kernel_setup 4000 0x8000 0x9000 0x6000 0x7000 0x1003 0x1104 ex_place (λ seed _, seed) ex_board = Ret (tt, s') ∧
    console_bytes (bank_trace (k_hw s')) = chars "\n\nUsing Vanilla bootloader v1.2\nUsing Vanilla kernel     v3.14\n\n" ∧
    mm_inv (k_heap s') small_blocks.
Proof.
  destruct (kernel_setup_ready 4000 ltac:(lia) 0x8000 0x9000 0x6000 0x7000 0x1003 0x1104 ex_place (λ seed _, seed) ex_board (LNode 0 0) 1 2 3 14)
    as (s' & l1 & l2 & E & T & Hq & Hc & _ & _ & HI & _).
  - exact ex_up.
  - vm_compute. discriminate.
  - exact ex_start.
  - split; [by split; vm_compute..|intros v Hv; repeat (apply elem_of_cons in Hv as [->|Hv]; [lia|]); by apply elem_of_nil in Hv|left; lia].
  - reflexivity.
  - exact small_init_ok.
  - exact small_apart.
  - cbn. lia.
  - exists s'. split; [exact E|]. split; [|exact HI].
    transitivity (console_bytes (l1 ++ l2)).
    + rewrite T. unfold console_bytes. rewrite !omap_app. reflexivity.
    + rewrite Hc. vm_compute. reflexivity.
Defined.
