(* ===== verification/KernelMain.v ===== *)
(** * The main function of the kernel (kernel/main.c)

    [main] starts the kernel, registers a callback for the button, creates the thread of the
    programming interface and a thread that prints, and starts the scheduler.  The callback blocks the
    printing thread and, the next time, unblocks it; [button_toggles] is about the interrupt of
    the button on the lists of the scheduler.  The printed text is left out. *)

From stdpp Require Import functions.
From S2P Require Import Prelude Memory Frame.
From S2P Require Import Hardware Gpio Flash KernelFlash.
From S2P Require Import Mm Palloc CList UsbHw UsbHc Usb.
From S2P Require Import Button Ringbuffer Console FrameHw Startup.
From S2P Require Import Dlist Sched SchedSpec SchedProof SchedBlock SchedThread SchedNew SchedStart Context SchedWitness LinkerWitness.

(** What the callback works on: the scheduler and the static variables of main.c. *)
Record main_vars (H : Type) := MainVars { v_sched : @sched H; block : Z; tid : Z }.
Arguments MainVars {H}.
Arguments v_sched {H}.
Arguments block {H}.
Arguments tid {H}.
Definition set_block {H} (b : Z) (v : main_vars H) : main_vars H := MainVars (v_sched v) b (tid v).
Definition set_tid {H} (i : Z) (v : main_vars H) : main_vars H := MainVars (v_sched v) (block v) i.

Section Callback.
Context {H : Type} `{PageAlloc H}.
Variable fuel : nat.
Variable cpu_rq : Z.

Definition in_sched {A} (c : M (@sched H) A) : M (main_vars H) A := zoom v_sched (λ s v, MainVars s (block v) (tid v)) c.

Definition thread_block_test : M (main_vars H) unit :=
  let* b := gets block in
  if b =? 0 then
    modify (set_block 1) ;;
    let* i := gets tid in
    in_sched (thread_block cpu_rq fuel i)
  else
    (let* i := gets tid in in_sched (thread_unblock cpu_rq fuel i)) ;;
    modify (set_block 0).

(** Calling a function by its address. *)
Definition callbacks (address cb : Z) : M (main_vars H) unit := if cb =? address then thread_block_test else ub.
End Callback.

(** [thread_block_cb] for the function at [address]. *)
Definition thread_block_cb (address : Z) : button_callback := ButtonCallback BUTTON_PRESSED address.

(** The two threads, by the addresses of their functions. *)
Definition fpi_info (fpi : Z) : thread_info := ThreadInfo [70; 80; 73; 0] 256 fpi null REAL_TIME 0.
Definition print_info (print_thread : Z) : thread_info := ThreadInfo [73; 110; 102; 111; 0] 256 print_thread null REAL_TIME 0.

(** The end of [main]: the threads are made and the scheduler is started. *)
Definition start_threads {H} `{PageAlloc H} (fuel : nat) (cpu_rq thread_exit_addr fpi print_thread idle_thread : Z) : M (main_vars H) unit :=
  let* _ := in_sched (new_thread cpu_rq thread_exit_addr (fpi_info fpi)) in
  let* i := in_sched (new_thread cpu_rq thread_exit_addr (print_info print_thread)) in
  modify (set_tid i) ;;
  in_sched (scheduler_start cpu_rq thread_exit_addr fuel idle_thread).

Section Main.
Context {D F R : Type} `{Mmio D} `{FlashCtrl F}.
Variable fuel nb : nat.
Variable debug_buffer receive_buffer image_info button_list heap_s heap_e cpu_rq thread_exit_addr : Z.
Variable lit : string → Z.
Variable srand : Z → R → R.
Variable usb_pipes usbc root_hub_event_at sof_event_at hid_driver default_root_hub_callback : Z.
Variable pipes : list usb_pipe.
Variable thread_block_cb_at fpi print_thread idle_thread : Z.
#[local] Notation dev := (machine D F (main_vars mm) R).

(** The scheduler works on the heap of the machine. *)
Definition with_heap (h : mm) (v : main_vars mm) : main_vars mm := MainVars (Sched.with_heap h (v_sched v)) (block v) (tid v).
Definition on_main {A} (c : M (main_vars mm) A) : M dev A :=
  zoom (λ s, with_heap (k_heap s) (k_user s))
    (λ v s, Machine (k_hw s) (k_flash s) (Sched.heap (v_sched v)) (k_rb s) (k_frame s) (k_nodes s) (k_cbs s) v (k_rand s) (k_usb s)) c.

Definition main : M dev unit :=
  kernel_entry fuel debug_buffer receive_buffer image_info button_list heap_s heap_e lit srand nb
    usb_pipes usbc root_hub_event_at sof_event_at hid_driver default_root_hub_callback pipes ;;
  on_button (button_add_callback button_list thread_block_cb_at) ;;
  on_main (start_threads (H0 := mm_pages nb) fuel cpu_rq thread_exit_addr fpi print_thread idle_thread).
End Main.

(** ** The threads *)

Section Threads.
Context {H : Type} `{PageAlloc H}.
Variable fuel : nat.
Variable cpu_rq thread_exit_addr fpi print_thread idle_thread : Z.
Hypothesis Hfuel : (4 ≤ fuel)%nat.
Hypothesis Haddr : Forall (λ a, 0 ≤ a < 2 ^ 32) [thread_exit_addr; fpi; print_thread; idle_thread].

Lemma in_sched_head {A B} (c : M (@sched H) A) (g : A → M (main_vars H) B) v x s :
  c (v_sched v) = Ret (x, s) → bind (in_sched c) g v = g x (MainVars s (block v) (tid v)).
Proof. intros E. apply bind_Ret. unfold in_sched, zoom. by rewrite E. Qed.
Lemma in_sched_panic {A B} (c : M (@sched H) A) (g : A → M (main_vars H) B) v m :
  c (v_sched v) = Panic m → bind (in_sched c) g v = Panic m.
Proof. intros E. apply bind_Panic. unfold in_sched, zoom. by rewrite E. Qed.

(** C15. The scheduler starts: when the lists of the run queue are empty, no thread exists, the numbers
    begin with 1 and no memory is in use, the end of [main] either panics because memory is out, or makes
    the thread of the programming interface, the printing thread and the idle thread, in memory that was free, and
    leaves a consistent scheduler: the thread of the programming interface runs, the printing thread
    is alone in the real-time queue, and every other queue is empty.  [scheduler_run] enters the function of the
    first thread, with a NULL argument, but with that function as its return address instead of [thread_exit]; the
    registers with which the other two are first switched to are saved on their stacks, with [thread_exit] as
    return address.  [tid], which the button's callback uses, is the number of the printing thread; the timer is programmed and
    started once, with interrupts off. *)
Theorem main_starts (v : main_vars H) :
  let s := v_sched v in
  dl s = no_lists cpu_rq → tcbs s = ∅ → idle s = null → next_tid s = 1 → pa_live (heap s) ∅ → pa_bank 3 →
  start_threads fuel cpu_rq thread_exit_addr fpi print_thread idle_thread v = Panic "palloc failed" ∨
  ∃ f p i v' Q P, start_threads fuel cpu_rq thread_exit_addr fpi print_thread idle_thread v = Ret (tt, v') ∧
    let s' := v_sched v' in
    curr_thread s' = f ∧ idle s' = i ∧ Q QRt = [p] ∧ (∀ q, q ≠ QRt → Q q = []) ∧
    sched_inv cpu_rq s' Q [i; p; f] f ∧
    (∀ xpsr, ∃ sp, scheduler_run xpsr s' =
       Ret (Context (SchedThread.Frame (replicate 8 0xCAFECAFE) 0 (replicate 4 0xCAFECAFE) fpi (Z.land fpi (Z.lnot 1)) xpsr) sp, s')) ∧
    Forall (λ '(t, function), ∃ n sp, P !! t = Some n ∧ saved (t, t + n) s' t (Context (fresh_regs thread_exit_addr function 0) sp))
      [(p, print_thread); (i, idle_thread)] ∧
    pa_live (heap s') P ∧ tid v' = 2 ∧ find_tid s' [i; p; f] (tid v') = p ∧ block v' = block v ∧
    log s' = log s ++ [EvPriorities; EvIrqOff; EvSetRvr SYSTICK_RVR; EvSystickEnable; EvRun].
Proof using All.
  intros s Hd Ht Hi Hn HP Hb. rewrite !Forall_cons in Haddr. destruct Haddr as (A1 & A2 & A3 & A4 & _). unfold start_threads.
  assert (∀ a name len, 0 ≤ a < 2 ^ 32 → name_length name = Some len → thread_info_ok thread_exit_addr (ThreadInfo name 256 a null REAL_TIME 0) len) as Hok.
  { intros a nm len Ha Hnm. constructor; cbn; unfold null; try lia. done. }
  pose proof (waiting_nil cpu_rq s Hd Ht Hi) as W0.
  destruct (new_thread_waits cpu_rq thread_exit_addr s _ [] ∅ (fpi_info fpi) 3 W0 HP) as [E|(f & s1 & E1 & M1 & W1)];
    [intros t Hin; by apply elem_of_nil in Hin|done|cbn; lia|by apply Hok|done|left; by apply in_sched_panic|].
  rewrite (in_sched_head _ _ _ _ _ E1). pose proof (tm_live _ _ _ _ _ _ _ _ M1) as P1.
  pose proof (made_enters _ _ (fpi_info fpi) 3 f s s1 ∅ ltac:(cbn; lia) M1) as En1. set (Pa := <[f := _]> ∅) in *.
  destruct (new_thread_waits cpu_rq thread_exit_addr s1 _ [f] Pa (print_info print_thread) 4 W1 P1) as [E|(p & s2 & E2 & M2 & W2)];
    [intros t ->%list_elem_of_singleton; unfold Pa; rewrite lookup_insert_eq; by eexists|done|cbn; lia|by apply Hok|done|left; by apply in_sched_panic|].
  rewrite (in_sched_head _ _ (MainVars s1 _ _) _ _ E2), bind_modify. cbn [set_tid v_sched block tid].
  pose proof (tm_live _ _ _ _ _ _ _ _ M2) as P2.
  pose proof (made_enters _ _ (print_info print_thread) 4 p s1 s2 Pa ltac:(cbn; lia) M2) as En2. set (Pb := <[p := _]> Pa) in *.
  assert (p ≠ f) as Npf.
  { intros ->. pose proof (tm_fresh _ _ _ _ _ _ _ _ M2) as Hfr. unfold Pa in Hfr. by rewrite lookup_insert_eq in Hfr. }
  destruct (scheduler_starts cpu_rq thread_exit_addr fuel idle_thread s2 _ [p; f] Pb W2 P2)
    as [E|(i & s3 & E3 & Hfr & P3 & Hk & Hc & Hnx & Hi3 & _ & HI & Hfa & En3 & Hid & Hlog)];
    [|done|cbn; lia|done|done|cbn; lia|left|].
  { intros t Hin. unfold Pb, Pa. rewrite !lookup_insert_is_Some'. repeat (apply elem_of_cons in Hin as [->|Hin]; [tauto|]). by apply elem_of_nil in Hin. }
  { unfold in_sched, zoom. cbn [v_sched set_tid]. by rewrite E. }
  right. set (Pc := <[i := _]> Pb) in *. set (Q2 := enqueue_q _ p _) in *.
  assert (Q2 QRt = [f; p]) as EQ.
  { unfold Q2, enqueue_q. cbn [class_queue ti_class fpi_info print_info]. by rewrite !fn_lookup_insert. }
  assert (∀ q, q ≠ QRt → Q2 q = []) as EQ'.
  { intros q Hq. unfold Q2, enqueue_q. cbn [class_queue ti_class fpi_info print_info]. by rewrite !fn_lookup_insert_ne by congruence. }
  assert (i ≠ p ∧ i ≠ f) as [Nip Nif].
  { unfold Pb, Pa in Hfr. apply lookup_insert_None in Hfr as [Hfr ?]. apply lookup_insert_None in Hfr as [_ ?]. done. }
  rewrite EQ in *. cbn [hd app] in *.
  exists f, p, i, (MainVars s3 (block v) (next_tid s1)), (pick_q Q2), Pc.
  split; [unfold in_sched, zoom; cbn [v_sched set_tid]; by rewrite E3|]. cbn [v_sched tid block].
  pose proof (tm_tid _ _ _ _ _ _ _ _ M1) as T1. rewrite Hn in T1. change (u32 (1 + 1)) with 2 in T1.
  pose proof (tm_tid _ _ _ _ _ _ _ _ M2) as T2. rewrite T1 in T2. change (u32 (2 + 1)) with 3 in T2.
  assert (pick_q Q2 = <[QRt := [p]]> Q2) as Eq by (unfold pick_q, next_class_of; by rewrite EQ; cbn [class_queue]; rewrite EQ).
  split_and!; [done|done| | |done| | |done|done| |done|].
  - rewrite Eq. apply fn_lookup_insert.
  - intros q Hq. rewrite Eq, fn_lookup_insert_ne by congruence. by apply EQ'.
  - intros xpsr. assert (enters thread_exit_addr s3 Pc f fpi 0) as En.
    { apply (enters_kept _ s2 s3 Pb Pc f fpi 0); [by eapply made_keeps|by apply Hfa|by apply lookup_insert_ne|exact Hk]. }
    destruct (scheduler_run_enters _ _ _ _ _ _ xpsr En Hnx) as [sp E]. by exists (sp + 64).
  - assert (enters thread_exit_addr s3 Pc p print_thread 0) as En.
    { apply (enters_kept _ s2 s3 Pb Pc p print_thread 0); [exact En2|by apply Hfa|by apply lookup_insert_ne|exact Hk]. }
    repeat constructor; [destruct (enters_saved _ _ _ _ _ _ En) as (n & sp & ? & ?)|destruct (enters_saved _ _ _ _ _ _ En3) as (n & sp & ? & ?)];
      by exists n, (sp + 64).
  - cbn [find_tid]. rewrite Hid, T1, T2, decide_False by done. rewrite decide_True; [done|].
    pose proof (Hfa p ltac:(congruence)) as Hp. rewrite (tm_tcbs _ _ _ _ _ _ _ _ M2), lookup_insert_eq in Hp.
    unfold tid_of. destruct (tcbs s3 !! p) as [y|]; [|done]. cbn in Hp. injection Hp as _ _ Ey _ _ _. cbn. by rewrite Ey, T1.
  - destruct (tm_rest _ _ _ _ _ _ _ _ M1) as (_ & _ & _ & L1). destruct (tm_rest _ _ _ _ _ _ _ _ M2) as (_ & _ & _ & L2).
    by rewrite Hlog, L2, L1.
Qed.
End Threads.

(** ** The button *)

Section Toggle.
Context {D H : Type} `{Mmio D} `{PageAlloc H}.
Variable fuel : nat.
Variable cpu_rq button_list address : Z.
#[local] Notation state := (button (D := D) (U := main_vars H)).

(** What the callback does to the queues, by its flag: [t] is in queue [q] between [a] and [b]. *)
Definition toggled (flag : Z) (Q : queues) (t : Z) (q : qid) (a b : list Z) : queues :=
  if flag =? 0
  then if decide (q = QBlocked) then Q else <[QBlocked := Q QBlocked ++ [t]]> (<[q := a ++ b]> Q)
  else if decide (q = QBlocked) then <[QRt := Q QRt ++ [t]]> (<[QBlocked := a ++ b]> Q) else Q.

Lemma thread_block_test_run (v : main_vars H) Q T c t x :
  sched_inv cpu_rq (v_sched v) Q T c → curr_thread (v_sched v) = c → (length T < fuel)%nat →
  find_tid (v_sched v) T (tid v) = t → tcbs (v_sched v) !! t = Some x → class x = REAL_TIME →
  (t = c → ∃ m, thread_block_test fuel cpu_rq v = Panic m) ∧
  (t ≠ c → ∀ q a b, Q q = a ++ t :: b → ∃ v', thread_block_test fuel cpu_rq v = Ret (tt, v') ∧
     tid v' = tid v ∧ block v' = (if block v =? 0 then 1 else 0) ∧
     sched_inv cpu_rq (v_sched v') (toggled (block v) Q t q a b) T c ∧
     (block v ≠ 0 → q = QBlocked → wake_of (v_sched v') t = 0)).
Proof.
  intros HI Hc Hf Hfind Hx Hcl. destruct v as [s b0 i]. cbn [v_sched tid block] in *.
  pose proof (get_thread_run cpu_rq fuel s Q T i (si_rep _ _ _ _ (si_core _ _ _ _ _ HI)) Hf) as Eg. rewrite Hfind in Eg.
  destruct (block_unblock_refines cpu_rq s Q T c t x HI Hc Hx Hcl) as [Hr Hq].
  assert (∀ o, scheduler_block_thread cpu_rq t s = o → thread_block cpu_rq fuel i s = o) as Eb.
  { intros o <-. unfold thread_block. by rewrite (bind_Ret _ _ _ _ _ Eg). }
  assert (∀ o, scheduler_unblock_thread cpu_rq t s = o → thread_unblock cpu_rq fuel i s = o) as Eu.
  { intros o <-. unfold thread_unblock. by rewrite (bind_Ret _ _ _ _ _ Eg). }
  unfold thread_block_test, in_sched, zoom, toggled. split.
  - intros Ht. destruct (Hr Ht) as (m & E1 & E2). exists m. unfold bind, gets, modify. cbn [block tid].
    destruct (b0 =? 0); cbn [v_sched set_block block tid]; [by rewrite (Eb _ E1)|by rewrite (Eu _ E2)].
  - intros Ht q a b EQ. destruct (Hq Ht q a b EQ) as (s1 & s2 & E1 & E2 & Hs). unfold bind, gets, modify. cbn [block tid].
    destruct (Z.eqb_spec b0 0) as [->|Hb]; cbn [v_sched set_block block tid].
    + rewrite (Eb _ E1). eexists. split; [done|]. cbn. split_and!; [done..| |done]. case_decide; destruct_and?; by subst.
    + rewrite (Eu _ E2). eexists. split; [done|]. cbn. split_and!; [done..| |]; case_decide; destruct_and?; by subst.
Qed.

(** C25. The button blocks and unblocks the printing thread: the interrupt of the pin does nothing to the scheduler when
    the button is up.  When it is down and another thread runs, every first press moves the thread from its
    queue, ready or sleeping, to the end of the blocked queue, every second one moves it from there to
    the end of the real-time queue with no time to wake (a thread that was asleep does not
    finish its sleep), and in both cases the scheduler stays consistent, with the same thread
    running.  When the printing thread itself runs, the press panics. *)
Theorem button_toggles (s : state) p Q T c t x :
  registered button_list s [(p, thread_block_cb address)] → (1 < fuel)%nat → (length T < fuel)%nat →
  sched_inv cpu_rq (v_sched (b_user s)) Q T c → curr_thread (v_sched (b_user s)) = c →
  find_tid (v_sched (b_user s)) T (tid (b_user s)) = t → tcbs (v_sched (b_user s)) !! t = Some x → class x = REAL_TIME →
  let d1 := (io_read (GPIOA + offset_of gpio_reg "ISR") (b_hw s)).2 in
  let up := Z.testbit (io_read (PDSR GPIOA) d1).1 11 in
  let interrupt := gpioa_exception (callbacks fuel cpu_rq address) button_list fuel in
  (up = true → ∃ s', interrupt s = Ret (tt, s') ∧ b_user s' = b_user s) ∧
  (up = false → t = c → ∃ m, interrupt s = Panic m) ∧
  (up = false → t ≠ c → ∀ q a b, Q q = a ++ t :: b → ∃ s', interrupt s = Ret (tt, s') ∧
     registered button_list s' [(p, thread_block_cb address)] ∧
     tid (b_user s') = tid (b_user s) ∧ block (b_user s') = (if block (b_user s) =? 0 then 1 else 0) ∧
     sched_inv cpu_rq (v_sched (b_user s')) (toggled (block (b_user s)) Q t q a b) T c ∧
     (block (b_user s) ≠ 0 → q = QBlocked → wake_of (v_sched (b_user s')) t = 0)).
Proof.
  intros HR Hf1 Hf HI Hc Hfind Hx Hcl d1 up interrupt.
  destruct (thread_block_test_run (b_user s) Q T c t x HI Hc Hf Hfind Hx Hcl) as [Hr Hq].
  destruct (button_calls (callbacks fuel cpu_rq address) button_list fuel s _ HR) as [E _].
  specialize (E ltac:(cbn; lia)). cbv zeta in E. fold d1 up in E. unfold interrupt. rewrite E.
  assert (run_all (callbacks fuel cpu_rq address) (fitting (if up then 1 else 0) [(p, thread_block_cb address)]) (b_user s) =
    if up then Ret (tt, b_user s) else thread_block_test fuel cpu_rq (b_user s)) as ->.
  { destruct up; [done|]. 
    transitivity (bind (callbacks fuel cpu_rq address address) (λ _, ret tt) (b_user s)); [reflexivity|].
    unfold callbacks. rewrite Z.eqb_refl. unfold bind, ret. by destruct (thread_block_test fuel cpu_rq (b_user s)) as [[[] ?]| | |]. }
  split_and!.
  - intros ->. by eexists.
  - intros -> Ht. destruct (Hr Ht) as [m ->]. by exists m.
  - intros -> Ht q a b EQ. destruct (Hq Ht q a b EQ) as (v' & -> & Hv). eexists. split; [done|]. split; [|exact Hv].
    destruct HR as [R1 R2]. by split.
Qed.
End Toggle.

(** The application runs and the printing thread, number 2, is ready; then the button is pressed. *)
Definition ex_pressed (d : dstore) : button (D := bank) (U := main_vars mm) :=
  Button (Bank ∅ []) (<[0x80 := LNode 0x108 0x108]> {[0x108 := LNode 0x80 0x80]}) {[0x100 := thread_block_cb 0x500]}
    (MainVars (ex_state 1000 d) 0 2).
Lemma button_toggles_witness :
  ∃ d s', gpioa_exception (callbacks 10 ex_rq 0x500) 0x80 10 (ex_pressed d) = Ret (tt, s') ∧ block (b_user s') = 1 ∧
    sched_inv ex_rq (v_sched (b_user s')) (<[QBlocked := [ex_rt]]> (<[QRt := []]> ex_Q)) ex_threads ex_app.
Proof.
  destruct (ex_inv 1000) as [d HI]. exists d.
  destruct (button_toggles 10 ex_rq 0x80 0x500 (ex_pressed d) 0x100 ex_Q ex_threads ex_app ex_rt (ex_thread REAL_TIME (rt_rq ex_rq) 0 2))
    as (_ & _ & Hp).
  - split.
    + split; [cbn; by split_and!|]. apply (bool_decide_unpack _). vm_compute. exact I.
    + intros q c Hin. apply elem_of_cons in Hin as [[= -> ->]|Hin]; [reflexivity|]. by apply elem_of_nil in Hin.
  - lia.
  - cbn. lia.
  - exact HI.
  - reflexivity.
  - reflexivity.
  - reflexivity.
  - reflexivity.
  - destruct (Hp eq_refl ltac:(done) QRt [] [] eq_refl) as (s' & E & _ & _ & Hb & HI' & _). exists s'. by split_and!.
Defined.

(** A kernel before its first thread, with memory from 0x1000 on. *)
Definition ex_vars : main_vars mm := MainVars (Sched_ (no_lists ex_rq) ∅ 0 0 0 0 0 0 0 0 1 (up_to 0x1000 ∅) []) 0 0.
Lemma main_starts_witness :
  ∃ f p i v' Q, start_threads (H0 := bump) 4 ex_rq 0x400 0x500 0x600 0x700 ex_vars = Ret (tt, v') ∧
    Q QRt = [p] ∧ sched_inv ex_rq (v_sched v') Q [i; p; f] f ∧ tid v' = 2.
Proof.
  destruct (main_starts (H0 := bump) 4 ex_rq 0x400 0x500 0x600 0x700 ltac:(lia) ltac:(by repeat constructor) ex_vars)
    as [E|(f & p & i & v' & Q & P & E & _ & _ & HQ & _ & HI & _ & _ & _ & Hid & _)].
  - reflexivity.
  - reflexivity.
  - reflexivity.
  - reflexivity.
  - constructor; [|cbn; lia|intros; by simplify_map_eq..].
    intros a. unfold ld8. cbn. rewrite lookup_empty. cbn. unfold byte. lia.
  - exact I.
  - exfalso. vm_compute in E. discriminate E.
  - exists f, p, i, v', Q. by split_and!.
Defined.
