(* ===== verification/BootGeneric.v ===== *)
(** * The bootloader's formatted output and the comparing hash (bootloader generic/sprint.c, drivers/hash.c)

    The bootloader's copy of sprint.c, written from its source on the parts the two copies have
    word for word in common (Sprint.v): [boot_sprint_agrees] shows that it is what the formatting of
    Sprint.v does for the bootloader, so that the theorems on formatting hold of it.  [hash256_verify]
    has no caller. *)

From S2P Require Import Prelude Memory Crc Frame Flash Bootloader Sprint.

(** [%b]: without the spaces between the bytes. *)
Fixpoint boot_put_bin (i : nat) (fmt_bin : Z) (d : cursor) : M mem cursor :=
  match i with
  | O => ret d
  | S i =>
      if (32 <=? i)%nat then ub else
      let* d := put (if negb (Z.land fmt_bin (Z.shiftl 1 (Z.of_nat i)) =? 0) then 49 else 48) d in
      boot_put_bin i fmt_bin d
  end.

(** The switch over the formatting character: s, c, u and d, b, h; anything else prints nothing. *)
Definition boot_directive (fuel : nat) (c opt_fmt : Z) (obj : list Z) (d : cursor) : M mem (cursor * list Z) :=
  let n := Z.to_nat opt_fmt in
  let with_arg (f : Z → M mem cursor) :=
    let* (v, obj) := va_arg obj in let* d := f v in ret (d, obj) in
  match c with
  | 115 => with_arg (λ fmt_string_ptr,
      if negb (opt_fmt =? 0) then put_chars n fmt_string_ptr d else put_string fuel fmt_string_ptr d)
  | 99 => with_arg (λ fmt_char, put fmt_char d)
  | 117 | 100 => with_arg (λ fmt_int, put_int fuel fmt_int d)
  | 98 => with_arg (λ fmt_bin, boot_put_bin n fmt_bin d)
  | 104 => with_arg (λ fmt_hex, put_hex n fmt_hex d)
  | _ => ret (d, obj)
  end.

Fixpoint boot_format_loop (fuel : nat) (src_ptr : Z) (obj : list Z) (d : cursor) : M mem Z :=
  match fuel with
  | O => hang
  | S f =>
      let* c := gets (λ m, ld8 m src_ptr) in
      if c =? 0 then ret d.2 else
      if c =? 37 then
        let src_ptr := src_ptr + 1 in
        let* n := count_digits fuel src_ptr 0 in
        let* (opt_fmt, src_ptr) := read_digits (Z.to_nat n) src_ptr 0 in
        let* c := gets (λ m, ld8 m src_ptr) in
        let* (d, obj) := boot_directive fuel c opt_fmt obj d in
        boot_format_loop f (src_ptr + 1) obj d
      else
        let* d := put c d in boot_format_loop f (src_ptr + 1) obj d
  end.
Definition boot_print_to_buffer_va (fuel : nat) (buffer data : Z) (obj : list Z) : M mem Z :=
  boot_format_loop fuel data obj (buffer, 0).

Lemma boot_put_bin_agrees i v d m : boot_put_bin i v d m = put_bin false i v d m.
Proof.
  revert d m; induction i as [|i IH]; intros d m; [done|]. cbn [boot_put_bin put_bin andb]. destruct (32 <=? i)%nat; [done|].
  apply bind_ext. intros d' m'. by rewrite bind_ret.
Qed.
Lemma boot_directive_agrees fuel c opt obj d m : boot_directive fuel c opt obj d m = directive false fuel c opt obj d m.
Proof.
  unfold directive. cbn [andb].
  destruct (Z.eqb_spec c 115) as [->|N1]; [done|]. destruct (Z.eqb_spec c 99) as [->|N2]; [done|].
  destruct (Z.eqb_spec c 117) as [->|N3]; [done|]. destruct (Z.eqb_spec c 100) as [->|N4]; [done|].
  destruct (Z.eqb_spec c 98) as [->|N5].
  { cbn [orb]. unfold boot_directive. apply bind_ext. intros [v o] m'. unfold bind. by rewrite boot_put_bin_agrees. }
  destruct (Z.eqb_spec c 104) as [->|N6]; [done|]. cbn [orb]. unfold boot_directive.
  repeat (case_match; try done).
Qed.

(** The bootloader's formatting is the one of Sprint.v for the bootloader, for every format string and every memory. *)
Theorem boot_sprint_agrees fuel buffer data obj m :
  boot_print_to_buffer_va fuel buffer data obj m = print_to_buffer_va false fuel buffer data obj m.
Proof.
  unfold boot_print_to_buffer_va, print_to_buffer_va. generalize (buffer, 0). revert data obj m.
  induction fuel as [|fuel IH]; intros src obj m d; [done|]. cbn [boot_format_loop format_loop].
  apply bind_ext. intros c m1. destruct (c =? 0); [done|]. destruct (c =? 37).
  - apply bind_ext. intros n m2. apply bind_ext. intros [o p] m3. apply bind_ext. intros c' m4.
    transitivity (bind (directive false (S fuel) c' o obj d) (λ '(d, obj), boot_format_loop fuel (p + 1) obj d) m4).
    + unfold bind. by rewrite boot_directive_agrees.
    + apply bind_ext. intros [d' obj'] m5. apply IH.
  - apply bind_ext. intros d' m2. apply IH.
Qed.

(** ** The comparing hash *)

Section Verify.
Context {F E D : Type} `{FlashCtrl F} `{HashEngine E}.

(** The engine is told to compare with the digest at its hash address; what it finds is not looked at. *)
Definition hash256_verify (fuel : nat) (data size : Z) : M (@boot F E D) Z :=
  icm (IcmCtrl (Z.lor (Z.lor 4 2) (Z.shiftl 7 9))) ;;
  icm (IcmCfg (Z.lor 4 (Z.shiftl 1 13))) ;;
  icm (IcmDscr (IcmDesc data (Z.lor (Z.lor (Z.shiftl 1 12) 4) 1) (u32 (size / 32 - 1)) 0)) ;;
  icm IcmHash ;;
  icm (IcmCtrl 1) ;;
  let* status := icm_wait fuel in
  if negb (Z.land status (Z.lor (Z.shiftl 1 24) (Z.shiftl 15 8)) =? 0) then panic "Hash error" else
  icm (IcmCtrl 4) ;;
  ret 0.

(** [hash256_verify] never says that the digests match: whatever the engine does, it returns 0 or panics. *)
Theorem hash256_verify_never_matches fuel data size s r s' : hash256_verify fuel data size s = Ret (r, s') → r = 0.
Proof.
  unfold hash256_verify. intros E1. do 5 (apply bind_inv in E1 as ([] & ? & _ & E1)).
  apply bind_inv in E1 as (v & s1 & _ & E1). destruct (negb _); [done|]. apply bind_inv in E1 as ([] & s2 & _ & E1). by injection E1.
Qed.
End Verify.
